(* ===== verification/_CoqProject ===== *)
-Q . S2P
Prelude.v
VarInt.v
PPCEmitter.v
PPCInsns.v
PPCBits.v
PPCTable.v
PPCInsnProps.v
PowerISA.v
PPCLoadImm.v
PPCLabels.v
IntervalList.v
BPF.v
Seccomp.v
SeccompCache.v
SeccompState.v
SeccompProps.v
SeccompSerial.v
VMA.v
VMALists.v
VMASpec.v
VMAProps.v
VMAProtect.v
VMAShm.v
VMATrack.v
VMATheorems.v
VMAMemo.v
VMATrackProps.v
Granule.v
GranuleProps.v
HostRanges.v
HostRangesProps.v
SMCTrack.v
GranuleMem.v
SMCTrackProps.v
SMCMark.v
SMCTheorems.v
CodeGranules.v
SemanticPatch.v
SemanticPatchProps.v
LookupCache.v
ThreadCache.v
LookupLinks.v
LookupMapProps.v
ThreadCacheProps.v
CodeContext.v
SemanticPlan.v
CodeContextProps.v
SemanticPlanProps.v
CodeContextSteps.v
CodeContextTheorems.v
WriteMutex.v
WriteMutexProps.v
WriteMutexTheorems.v
Alloc32.v
Alloc32Props.v
Alloc32Calls.v
Alloc32Safe.v
Alloc32Demo.v
Alloc32Theorems.v
Alloc64.v
Alloc64Props.v
Alloc64Theorems.v
RegAlloc.v
RegAllocSem.v
RegAllocProps.v
RegAllocSpill.v
RegAllocAssign.v
RegAllocBack.v
RegAllocSources.v
RegAllocStep.v
RegAllocForward.v
RegAllocTheorems.v
RegAllocExamples.v
