(* ===== verification/Prelude.v ===== *)
(** * FastPPCx86: a verification library for the x86-on-POWER emulator

    FastPPCx86 is a fork of the FEX emulator that runs x86 and x86-64 Linux programs on
    ppc64le.  This library models parts of it as Rocq definitions, translated function by
    function from the sources under src/, and proves what they promise to each other.

    ** The program and the modelled parts

    A guest program is decoded, translated to an intermediate representation, and compiled by
    a JIT that writes POWER instructions through a code emitter (CodeEmitter/PPC64LE).  Guest
    system calls are emulated by the LinuxEmulation tool: its VMA tracking mirrors the guest's
    address space, the seccomp emulator runs guest seccomp filters, and on hosts with 64K
    pages a granule table stands between 4K guest protections and the kernel.  Compiled code is
    found through lookup caches and thrown away when the guest writes to its source.  Small
    containers and encodings (interval lists, variable-length integers) serve all of these.

    The components, in the order of the files:
    - Prelude: fixed-width integers ([uwrap], [swrap] and the abbreviations [u64], [s32], ...),
      bit operations, bytes, and the lemmas and tactics on them that all files share;
    - VarInt: FEXCore/Utils/variable_length_integer.h, the encodings of signed integers and
      pairs, and their round trips;
    - PPCEmitter, PPCInsns: CodeEmitter/PPC64LE/Emitter.h.  [PPCEmitter.Emitter] is the emitter
      object: code buffer, cursor, r0 tracking, labels with their pending fixups; an operation
      returns the next state, a trap, or a fault (access outside the buffer or a dead label).
      [PPCInsns] has one definition per instruction.  PPCBits and PPCTable hold a symbolic
      table of the emitted words, PPCInsnProps what every instruction does, PowerISA a
      reference semantics of fixed-point instructions, PPCLoadImm the immediate loaders and
      PPCLabels the resolution of branches;
    - IntervalList: FEXCore/Utils/IntervalList.h;
    - BPF: the classic-BPF validator and interpreter (Seccomp/BPFInterpreter.cpp) with a
      reference semantics of filters;
    - Seccomp, SeccompCache, SeccompState, SeccompProps, SeccompSerial: the seccomp emulator
      (Seccomp/SeccompEmulator.cpp and the seccomp members of the thread state): installation,
      TSYNC, strict mode, reference counts, the verdict cache, execve hand-over;
    - VMA, VMALists, VMASpec, VMAProps, VMAProtect, VMAShm, VMATheorems, VMAMemo: VMA tracking
      (SyscallsVMATracking.h and .cpp).  [VMA] is the model; [VMALists] represents the
      intrusive lists of a resource's entries ([rep]) and proves the four list operations;
      [VMASpec] gives the abstract address space ([maps]: what is mapped at an address) and
      the effect of replacing an entry by pieces; the other files prove the operations against
      it, and the memo of pages that need no marking;
    - VMATrack, VMATrackProps: the Track* functions of SyscallsSMCTracking.cpp, which mirror a
      successful memory system call into VMA tracking, and FileMappingBaseAddress.h.
    - Granule, GranuleProps: host pages larger than the guest's.  [HostPage] is the arithmetic of
      TypeDefines.h, [GT] the table of intended and materialised protections (GranuleTable.h,
      .cpp), [SMC] the table of write-protected code pages and the rearm queue
      (SMCHostGranule.h).  [GT] sees [SMC] through the class [SMCView];
    - HostRanges, HostRangesProps: HostOwnedRanges.{h,cpp}, the table of the emulator's own
      mappings and the parser of /proc/self/maps that fills it;
    - SMCTrack, GranuleMem: the system as a whole ([Sys]: VMA map, both granule tables, rearm
      queue, the kernel's protections, compiled code) with the operations on it:
      MarkGuestExecutableRange, UnprotectGuestRangeForHostWrite, NoteGranuleRangeGone and the
      immutability records of SyscallsSMCTracking.cpp and Syscalls.h, and Munmap and Mprotect
      of GranuleMemory.cpp.  Compiled code is behind the class [CodeMap].  SMCTrackProps,
      SMCMark and SMCTheorems prove them.
    - CodeGranules: SMCCodeGranules.h, the bitmap that tells the store fast paths where no code
      can be; SemanticPatch, SemanticPatchProps: SMCSemanticPatch.h, recognisers of patchable
      instructions and the fixed window of host code;
    - LookupCache, LookupLinks, LookupMapProps: [GuestToHostMap] of LookupCache.h and .cpp, the map
      shared by the threads of a code buffer ([Map], with [links_ok] for the pooled chains of
      direct branches and [map_wf] for the rest); ThreadCache, ThreadCacheProps: [LookupCache],
      the L1 and L2 tables of a thread with every access checked against its region;
    - CodeContext: the compiled code of a process ([Context]: live buffers, weak pointers,
      threads) with the ends of CompileBlock and TryRelinkSoftInvalidatedBlock and the
      invalidations of Core.cpp and ThreadManager.h; CodeContextProps has the invariant,
      CodeContextSteps the state machine of all operations ([Op], [apply], [reach]) with the
      histories of published, retained and watched code, CodeContextTheorems what it shows;
    - SemanticPlan, SemanticPlanProps: PlanSemanticPatch of LookupCache.h and
      TrySemanticPatchCodeRange of Context.cpp;
    - WriteMutex, WriteMutexProps, WriteMutexTheorems: WritePriorityMutex.h, the reader-writer lock
      on one futex word.  [step] is one atomic access or futex call of a thread, [run1] a step of
      any of the threads; the abstract lock ([lock_step]) is on the roles of the
      threads: outside, waiting to write, writing, reading;
    - Alloc32, Alloc32Props, Alloc32Calls, Alloc32Safe, Alloc32Demo, Alloc32Theorems: the allocator
      of 32-bit guests (LinuxAllocator.cpp): its page bitset, granules shared by several guest
      pages, host reservations and the calls Mmap, Munmap, Mremap, Shmat and Shmdt.  The kernel
      is the record [Kernel] of its calls, with [kernel_ok] and [page_frame] as what is assumed;
    - Alloc64, Alloc64Props, Alloc64Theorems: the 64-bit host allocator (64BitAllocator.cpp) with
      its bitset (FlexBitSet.h);
    - RegAlloc: ConstrainedRAPass of RegisterAllocationPass.cpp, the register allocator of the IR.
      RegAllocSem has a reference semantics of a block before and after allocation, for any
      meaning of the operations, and the conditions on well-formed code; RegAllocProps the
      register file, RegAllocSpill next uses, slots and spilling, RegAllocAssign the choice of
      registers and the simulation relation [sim], RegAllocBack the backward pass,
      RegAllocSources eviction, filling and rewriting of arguments, RegAllocStep and
      RegAllocForward one instruction and the forward pass, RegAllocTheorems the blocks and
      RegAllocExamples a decision procedure for well-formedness, the witnesses and blocks that
      the pass gets wrong.

    ** What the theorems show

    - Code emission: branches in emitted code decode to the offset their label is bound at,
      with any interleaving of forward and backward references, when every label is in reach
      ([labels_resolved]); the
      immediate loaders load exactly their immediate ([LoadImm64_correct] and its fixed-length
      variant) by the reference semantics; instruction words identify instruction and
      operands.
    - Seccomp: validation accepts exactly the programs the interpreter decodes with operands in
      range, among them all that the kernel's list of encodings admits ([ValidateProgram_exact]);
      execution of a validated program terminates within its length and agrees with the reference;
      the cached execution refines the uncached chain of filters in every reachable state, but for a
      probe that hits an empty entry ([ExecuteFilter_refines]); no call of the emulator touches a freed
      filter or a null pointer, but for one with a null argument ([seccomp_calls_safe]); the
      execve hand-over is a round trip.
    - VMA tracking: each operation runs without a failed assertion, keeps the entries disjoint
      and the lists well formed, and acts on the abstract address space as the system call it
      mirrors; sequences of system calls keep the invariant ([tracked_call_safe]); a memo hit
      is never older than the last mutation.
    - Host pages: the packed nibbles of a granule refine a map from guest pages to protections,
      clearing reports exactly the emptied granules, the materialised protection is the join of
      the live pages'; the overlap query answers for exactly the recorded ranges whatever order
      the sort gives to equal bases, and every mapping that /proc/self/maps names is refused.
    - Self-modifying code: with detection on, nothing demoted or exempt and the kernel accepting
      the protection, marking a range leaves every writable alias of it read-only and armed
      ([Mark_protects_aliases], which rests on the list invariant of VMA tracking), and no
      interleaving of marking, lifting, retiring and sub-granule calls gives write permission
      to an armed granule ([armed_never_writable]).
    - Compiled code: in every reachable state each operation returns and a lookup at a
      nonzero address finds only code published in the thread's own buffer and not invalidated since ([no_stale_translation]),
      on pages that were reported as executable since ([found_code_is_watched]); what a soft
      invalidation takes away a relink with unchanged bytes brings back
      ([soft_relink_roundtrip]); invalidation removes exactly what it must, the pooled links
      refine a finite map, the granule bitmap a set.  A semantic patch that reports success has,
      in every block of the page that translated the written bytes, brought the one window of the one
      field that takes up the change to the new bytes and left the others, and one that refuses
      changed nothing ([semantic_patch_sound]); only a field that overlaps the claimed one
      can stay behind ([overlapping_fields_stale]).  Lemmas record where the code departs
      from its comments: a failed allocation of a granule node, overlapping branch fields, and
      lookups at address zero.
    - Locking: every interleaving of the mutex's methods by up to 16383 threads refines a lock that
      prefers writers ([mutex_refines_lock]), with that many no wake-up is lost, so every schedule ends with all
      calls returned ([mutex_progress]), and no field of the word overflows ([futex_counts]); one
      writer more deadlocks ([writer_overflow_deadlock]).
    - Allocators: the scans for free ranges return what a search of all positions returns
      ([TopDown_exact], and [scans_exact] for a minimum of at least 1); placements end and hand out
      pages that were free and are used afterwards ([Mmap_places], and [Mmap64_fresh] where the
      kernel accepts fixed mappings and protections); no call of a 32-bit guest changes the contents of a
      page the host reserved, nor its protection when its host granule is reserved whole
      ([reserved_pages_safe]).  Theorems and lemmas at the end of the files exhibit where the code
      fails: a search that never ends, blocks that leave their region in every region of a
      certain shape ([block_past_region]), refused mappings returned as addresses, host code in
      a shared granule that loses its execute permission ([shared_granule_loses_exec]), a backward
      scan that wraps ([backward_scan_wraps]).
    - Register allocation: whatever the operations compute, an allocated block leaves the guest's
      registers and the world as the block did before ([Run_preserves_meaning]); no assertion
      fails when instructions have fewer arguments than there are registers ([Run_returns]), and
      every slot is within the published stack area ([Run_slots_in_bounds]).  The first theorem
      excludes blocks in which a node that an instruction overwrites was spilled:
      [overwritten_value_lost] shows that there the code is wrong; [stale_register_stuck] shows
      what happens with as many arguments as registers.
    - Containers and encodings: interval lists stay sorted and disjoint and answer queries as
      the set they stand for; decoding inverts encoding.

    ** Modelling conventions

    A C++ integer is a [Z] kept at its width by [uwrap] or [swrap] wherever it can wrap.  A
    failing function returns [option], or an outcome type where assertion, trap and undefined
    behaviour differ.  Pointers into stable containers are the keys of the nodes.  Where a
    build can enable assertions the model has a flag and theorems hold for both values.  Values
    from the kernel, the allocator or the clock are arguments.  Calls made under a mutex are
    atomic steps; where the code is lock-free (the memo, the r0 and label state belongs to one
    thread) the steps are single accesses.

    Recursion that is not structural takes fuel, and the theorems show the fuel the models use
    is enough: the pending list of a label has at most as many elements as the fixup vector,
    a validated BPF program only jumps forward so its length suffices, deserialisation consumes
    bytes, the loops over VMA entries use the number of entries, each step leaving fewer
    entries on the side they walk to, a walk over a chain of block links takes the size of the
    pool, the retry of [CacheBlockMapping] after the pool of L2 pages ran out happens once, and
    a counted loop ([for_range]) takes the number of its turns.  A search for free pages passes a
    mapped page each round, the placement of the 32-bit allocator marks a page on each collision,
    that of the 64-bit allocator makes a reserved region active.

    ** Not modelled

    The decoder, the IR passes but register allocation, the JIT back ends and the dispatcher are large tables
    of straight-line translations whose correctness needs semantics of x86 and of the IR that
    the repository does not state; they are listed in the manifest with the other parts left
    out: signal delivery and guest signal frames, thread management beyond seccomp, the
    pass-through system calls, thunks, CPUID tables, configuration and logging, file-system
    overlays, the hooks of the host's allocation functions, the compilation driver and the on-disk code cache, the SMC fault
    handler with its lazy and deferred invalidations, and the mmap, mremap, madvise and reporting paths of
    GranuleMemory.cpp.  Concurrency is modelled only where stated. *)

From stdpp Require Export base tactics numbers list option.
From stdpp Require Export gmap.
From Stdlib Require Export ZArith Lia Btauto.

#[global] Open Scope Z_scope.

(** ** Fixed-width integers

    A C++ integer is a [Z]; [uwrap w] and [swrap w] are the conversions to the
    unsigned and the two's-complement signed type of [w] bits. *)

Definition uwrap (w x : Z) : Z := x mod 2 ^ w.
Definition swrap (w x : Z) : Z := (x + 2 ^ (w - 1)) mod 2 ^ w - 2 ^ (w - 1).

Declare Scope cpp_scope.
Delimit Scope cpp_scope with cpp.
Notation "x &&& y" := (Z.land x y) (at level 40, left associativity) : cpp_scope.
Notation "x ||| y" := (Z.lor x y) (at level 50, left associativity) : cpp_scope.
Notation "x ^^^ y" := (Z.lxor x y) (at level 45, left associativity) : cpp_scope.
Notation "x <<< n" := (Z.shiftl x n) (at level 38, left associativity) : cpp_scope.
Notation "x >>> n" := (Z.shiftr x n) (at level 38, left associativity) : cpp_scope.
#[global] Open Scope cpp_scope.

Abbreviation u8 := (uwrap 8).
Abbreviation u16 := (uwrap 16).
Abbreviation u32 := (uwrap 32).
Abbreviation u64 := (uwrap 64).
Abbreviation s8 := (swrap 8).
Abbreviation s16 := (swrap 16).
Abbreviation s32 := (swrap 32).
Abbreviation s64 := (swrap 64).

(** [is_u w x]: [x] is a value of the unsigned type of [w] bits. *)
Definition is_u (w x : Z) : Prop := 0 <= x < 2 ^ w.
Definition is_s (w x : Z) : Prop := - 2 ^ (w - 1) <= x < 2 ^ (w - 1).

#[global] Instance is_u_dec w x : Decision (is_u w x).
Proof. unfold is_u; apply _. Defined.
#[global] Instance is_s_dec w x : Decision (is_s w x).
Proof. unfold is_s; apply _. Defined.

Create HintDb cpp.
Create Rewrite HintDb zbits.

Lemma pow2_pos w : 0 <= w -> 0 < 2 ^ w.
Proof. intros; apply Z.pow_pos_nonneg; lia. Qed.
#[export] Hint Resolve pow2_pos : cpp.

Lemma u_range w x : 0 <= w -> is_u w (uwrap w x).
Proof. intros; apply Z.mod_pos_bound; auto with cpp. Qed.

Lemma u_small w x : is_u w x -> uwrap w x = x.
Proof. apply Z.mod_small. Qed.

Lemma u_idem w x : 0 <= w -> uwrap w (uwrap w x) = uwrap w x.
Proof. intros; apply u_small, u_range; done. Qed.

Lemma s_small w x : is_s w x -> 0 < w -> swrap w x = x.
Proof.
  unfold swrap, is_s; intros.
  assert (2 ^ w = 2 * 2 ^ (w - 1)).
  { replace w with (Z.succ (w - 1)) at 1 by lia. rewrite Z.pow_succ_r; lia. }
  rewrite Z.mod_small; lia.
Qed.

Lemma s_range w x : 0 < w -> is_s w (swrap w x).
Proof.
  unfold swrap, is_s; intros.
  assert (2 ^ w = 2 * 2 ^ (w - 1)).
  { replace w with (Z.succ (w - 1)) at 1 by lia. rewrite Z.pow_succ_r; lia. }
  pose proof (Z.mod_pos_bound (x + 2 ^ (w - 1)) (2 ^ w) ltac:(auto with cpp lia)); lia.
Qed.

Lemma s_u w x : 0 <= w -> swrap w (uwrap w x) = swrap w x.
Proof.
  intros. unfold swrap, uwrap. rewrite Zplus_mod_idemp_l. done.
Qed.

Lemma u_s w x : 0 <= w -> uwrap w (swrap w x) = uwrap w x.
Proof.
  intros. unfold swrap, uwrap. rewrite Zminus_mod_idemp_l. f_equal; lia.
Qed.

Lemma u_add_l w x y : uwrap w (uwrap w x + y) = uwrap w (x + y).
Proof. unfold uwrap; apply Zplus_mod_idemp_l. Qed.

Lemma u_add_r w x y : uwrap w (x + uwrap w y) = uwrap w (x + y).
Proof. unfold uwrap; apply Zplus_mod_idemp_r. Qed.

#[export] Hint Resolve u_range s_range : cpp.

(** ** Bits *)

Lemma testbit_high w x i : is_u w x -> 0 <= w <= i -> Z.testbit x i = false.
Proof.
  intros [H1 H2] Hi. rewrite <- (Z.mod_small x (2 ^ w)) by lia.
  apply Z.mod_pow2_bits_high; lia.
Qed.

Lemma u_testbit w x i :
  0 <= w -> 0 <= i -> Z.testbit (uwrap w x) i = (i <? w) && Z.testbit x i.
Proof.
  intros. unfold uwrap. destruct (Z.ltb_spec i w).
  - rewrite Z.mod_pow2_bits_low by lia. done.
  - rewrite Z.mod_pow2_bits_high by lia. done.
Qed.

Lemma ones_testbit w i : 0 <= w -> 0 <= i -> Z.testbit (Z.ones w) i = (i <? w).
Proof.
  intros. destruct (Z.ltb_spec i w).
  - apply Z.ones_spec_low; lia.
  - apply Z.ones_spec_high; lia.
Qed.

Lemma u_land_ones w x : 0 <= w -> x &&& Z.ones w = uwrap w x.
Proof. intros; unfold uwrap; apply Z.land_ones; lia. Qed.

Lemma lor_u w x y : is_u w x -> is_u w y -> 0 <= w -> is_u w (x ||| y).
Proof.
  intros Hx Hy Hw. rewrite <- (u_small w x), <- (u_small w y) by done.
  replace (uwrap w x ||| uwrap w y) with (uwrap w (x ||| y)); [auto with cpp|].
  apply Z.bits_inj'; intros i Hi.
  rewrite Z.lor_spec, !u_testbit, Z.lor_spec by lia.
  destruct (i <? w); done.
Qed.

Lemma u_lor w x y : 0 <= w -> uwrap w (x ||| y) = uwrap w x ||| uwrap w y.
Proof.
  intros Hw. apply Z.bits_inj'; intros i Hi.
  rewrite Z.lor_spec, !u_testbit, Z.lor_spec by lia.
  destruct (i <? w); done.
Qed.

Lemma u_land w x y : 0 <= w -> uwrap w (x &&& y) = uwrap w x &&& uwrap w y.
Proof.
  intros Hw. apply Z.bits_inj'; intros i Hi.
  rewrite Z.land_spec, !u_testbit, Z.land_spec by lia.
  destruct (i <? w); done.
Qed.

Lemma lor_disjoint x y n :
  0 <= n -> is_u n x -> (x ||| (y <<< n)) = x + y * 2 ^ n.
Proof.
  intros Hn Hx. rewrite <- Z.shiftl_mul_pow2 by done.
  assert (Z.land x (Z.shiftl y n) = 0) as Hd.
  { apply Z.bits_inj'; intros i Hi.
    rewrite Z.land_spec, Z.shiftl_spec, Z.bits_0 by lia.
    destruct (Z.ltb_spec i n).
    - rewrite (Z.testbit_neg_r y) by lia. apply andb_false_r.
    - rewrite (testbit_high n) by (done || lia). done. }
  pose proof (Z.add_lor_land x (Z.shiftl y n)). lia.
Qed.

#[export] Hint Rewrite Z.lor_spec Z.land_spec Z.lxor_spec Z.ldiff_spec
  Z.shiftl_spec Z.shiftr_spec Z.lnot_spec u_testbit ones_testbit Z.bits_0
  using lia : zbits.

(** Decide the comparisons that guard the bits of a goal, one by one. *)
Ltac zbits_cases :=
  repeat match goal with
  | |- context [?a <? ?b] => destruct (Z.ltb_spec a b)
  end.

(** Rewrite the bits that lie outside the range of their word. *)
Ltac zbits_outside :=
  repeat match goal with
  | |- context [Z.testbit ?x ?i] =>
      first [ rewrite (Z.testbit_neg_r x i) by lia
            | match goal with
              | H : is_u ?w x |- _ => rewrite (testbit_high w x i H) by lia
              end ]
  end.

(** Bitwise equality of two integers. *)
Ltac zbits :=
  apply Z.bits_inj'; intros ?i ?Hi; autorewrite with zbits;
  zbits_cases; zbits_outside; cbn [andb orb xorb negb];
  rewrite ?andb_false_r, ?andb_true_r, ?orb_false_r; try btauto; try done.

Lemma land_u_r w x m : 0 <= w -> is_u w m -> is_u w (x &&& m).
Proof.
  intros Hw Hm. replace (x &&& m) with (uwrap w (x &&& m)) by zbits. by apply u_range.
Qed.

(** Simplify a boolean comparison with the arithmetic facts at hand. *)
Ltac bool_lia :=
  repeat match goal with
  | |- context [?a <? ?b] => first
      [ rewrite (proj2 (Z.ltb_lt a b)) by lia
      | rewrite (proj2 (Z.ltb_ge a b)) by lia ]
  | |- context [?a <=? ?b] => first
      [ rewrite (proj2 (Z.leb_le a b)) by lia
      | rewrite (proj2 (Z.leb_gt a b)) by lia ]
  | |- context [?a =? ?b] => first
      [ rewrite (proj2 (Z.eqb_eq a b)) by lia
      | rewrite (proj2 (Z.eqb_neq a b)) by lia ]
  end;
  cbn [andb orb negb].

(** Turn the boolean tests of the code into propositions. *)
Ltac to_prop :=
  repeat match goal with
  | H : _ && _ = true |- _ => apply andb_true_iff in H as [? ?]
  | H : _ && _ = false |- _ => apply andb_false_iff in H
  | H : _ || _ = true |- _ => apply orb_true_iff in H
  | H : _ || _ = false |- _ => apply orb_false_iff in H as [? ?]
  | H : negb _ = true |- _ => apply negb_true_iff in H
  | H : negb _ = false |- _ => apply negb_false_iff in H
  | H : (_ <? _) = true |- _ => apply Z.ltb_lt in H
  | H : (_ <? _) = false |- _ => apply Z.ltb_ge in H
  | H : (_ <=? _) = true |- _ => apply Z.leb_le in H
  | H : (_ <=? _) = false |- _ => apply Z.leb_gt in H
  | H : (_ =? _) = true |- _ => apply Z.eqb_eq in H
  | H : (_ =? _) = false |- _ => apply Z.eqb_neq in H
  end.

(** ** Bit fields

    A value built as [lo ||| (hi <<< n)] with [lo] of [n] bits keeps both of
    its parts. *)

Lemma field_low n x y : 0 <= n -> is_u n x -> uwrap n (x ||| (y <<< n)) = x.
Proof.
  intros. rewrite lor_disjoint by done. unfold uwrap.
  rewrite Z.mod_add by (pose proof (pow2_pos n); lia). by apply Z.mod_small.
Qed.

Lemma field_high n x y : 0 <= n -> is_u n x -> (x ||| (y <<< n)) >>> n = y.
Proof.
  intros. rewrite lor_disjoint, Z.shiftr_div_pow2 by done.
  rewrite Z.div_add by (pose proof (pow2_pos n); lia).
  rewrite Z.div_small by done. lia.
Qed.

Lemma field_is_u n m x y :
  0 <= n -> 0 <= m -> is_u n x -> is_u m y -> is_u (n + m) (x ||| (y <<< n)).
Proof.
  intros Hn Hm Hx Hy. rewrite lor_disjoint by done. unfold is_u in *.
  rewrite Z.pow_add_r by lia. nia.
Qed.

Lemma swrap_uwrap_le w v x : 0 <= v <= w -> uwrap v (swrap w x) = uwrap v x.
Proof.
  intros. unfold uwrap, swrap.
  assert (2 ^ w = 2 ^ v * 2 ^ (w - v)) as E
    by (rewrite <- Z.pow_add_r by lia; f_equal; lia).
  pose proof (pow2_pos v ltac:(lia)). pose proof (pow2_pos (w - v) ltac:(lia)).
  rewrite (Z.mod_eq (x + _)) by lia. rewrite E.
  replace (x + 2 ^ (w - 1) -
    2 ^ v * 2 ^ (w - v) * ((x + 2 ^ (w - 1)) / (2 ^ v * 2 ^ (w - v))) - 2 ^ (w - 1))
    with (x + (- (2 ^ (w - v) * ((x + 2 ^ (w - 1)) / (2 ^ v * 2 ^ (w - v))))) * 2 ^ v)
    by ring.
  apply Z_mod_plus_full.
Qed.

Lemma uwrap_uwrap_le w v x : 0 <= v <= w -> uwrap v (uwrap w x) = uwrap v x.
Proof.
  intros. rewrite <- (swrap_uwrap_le w v (uwrap w x)) by lia.
  rewrite s_u by lia. apply swrap_uwrap_le; lia.
Qed.

(** ** Bytes and little-endian words *)

Fixpoint le_bytes (n : nat) (x : Z) : list Z :=
  match n with
  | O => []
  | S n => u8 x :: le_bytes n (x >>> 8)
  end.

Fixpoint le_val (bs : list Z) : Z :=
  match bs with
  | [] => 0
  | b :: bs => b ||| (le_val bs <<< 8)
  end.

Lemma length_le_bytes n x : length (le_bytes n x) = n.
Proof. revert x; induction n; simpl; auto. Qed.

Lemma le_bytes_is_u n x : Forall (is_u 8) (le_bytes n x).
Proof.
  revert x; induction n; simpl; constructor; auto. by apply u_range.
Qed.

Lemma le_val_le_bytes n x : le_val (le_bytes n x) = uwrap (8 * Z.of_nat n) x.
Proof.
  revert x; induction n as [|n IH]; intros x.
  { simpl. unfold uwrap. by rewrite Z.mod_1_r. }
  cbn [le_bytes le_val]. rewrite IH.
  apply Z.bits_inj'; intros i Hi.
  rewrite Z.lor_spec, Z.shiftl_spec, (u_testbit 8), (u_testbit (8 * _) x) by lia.
  destruct (Z.ltb_spec i 8).
  - rewrite (Z.testbit_neg_r _ (i - 8)) by lia. bool_lia.
    by rewrite orb_false_r.
  - rewrite u_testbit, Z.shiftr_spec by lia.
    replace (i - 8 + 8) with i by lia.
    destruct (Z.ltb_spec (i - 8) (8 * Z.of_nat n)); bool_lia; done.
Qed.

Lemma take_le_bytes n x rest : take n (le_bytes n x ++ rest) = le_bytes n x.
Proof.
  rewrite take_app_le by (rewrite length_le_bytes; lia).
  apply take_ge. rewrite length_le_bytes; lia.
Qed.

Lemma le_val_take n x rest :
  le_val (take n (le_bytes n x ++ rest)) = uwrap (8 * Z.of_nat n) x.
Proof. rewrite take_le_bytes. apply le_val_le_bytes. Qed.
