(* ===== verification/VarInt.v ===== *)
(** * Variable-length integers (FEXCore/Source/Utils/variable_length_integer.h)

    [vl64] stores one signed 64-bit integer in 1, 2, 5 or 9 bytes; [vl64pair]
    stores the pair (host PC delta, guest RIP delta) of the JIT's RIP
    reconstruction table in 1, 2, 9 or 17 bytes.  A byte pointer is the list of
    bytes at its target; an encoder returns the updated bytes and the size, a
    decoder reads them.  Bit fields are laid out from the least significant bit
    up, as the little-endian ABI does. *)

From S2P Require Import Prelude.

(** Overwrite the bytes at the head of [dst]. *)
Definition memwrite (dst bs : list Z) : list Z := bs ++ drop (length bs) dst.

(** The byte at [data[i]] (0 past the end of the list). *)
Definition byte_at (data : list Z) (i : nat) : Z := default 0 (data !! i).

(** An unsigned bit field of [n] bits at bit [lo]. *)
Definition bitfield (x lo n : Z) : Z := (x >>> lo) &&& Z.ones n.

(** A little-endian word of [n] bytes at [data + off]. *)
Definition word_at (data : list Z) (off n : nat) : Z := le_val (take n (drop off data)).

Module vl64.

Definition vl8_encoded_bits : Z := 7.
Definition vl16_encoded_bits : Z := 14.
Definition int64_min : Z := - 2 ^ 63.
Definition int64_max : Z := 2 ^ 63 - 1.

Definition vl8_type_header : Z := 0.
Definition vl8_min : Z := int64_min >>> (64 - vl8_encoded_bits).
Definition vl8_max : Z := int64_max >>> (64 - vl8_encoded_bits).
Definition vl16_type_header : Z := 2.
Definition vl16_min : Z := int64_min >>> (64 - vl16_encoded_bits).
Definition vl16_max : Z := int64_max >>> (64 - vl16_encoded_bits).
Definition vl32_type_header : Z := 192.
Definition vl32_min : Z := - 2 ^ 31.
Definition vl32_max : Z := 2 ^ 31 - 1.
Definition vl64_type_header : Z := 224.

(** [struct vl8_enc { int8_t Integer : 7; uint8_t Type : 1; }] *)
Definition vl8_enc (Integer Type_ : Z) : list Z :=
  [uwrap 7 Integer ||| (uwrap 1 Type_ <<< 7)].

(** [struct vl16_enc { struct { int8_t Top : 6; uint8_t Type : 2; } HighBits; uint8_t LowBits; }] *)
Definition vl16_enc (Top Type_ LowBits : Z) : list Z :=
  [uwrap 6 Top ||| (uwrap 2 Type_ <<< 6); u8 LowBits].

(** The packed [vl32_enc] and [vl64_enc]: a type byte and a signed word. *)
Definition vl32_enc (Type_ Integer : Z) : list Z := u8 Type_ :: le_bytes 4 Integer.
Definition vl64_enc (Type_ Integer : Z) : list Z := u8 Type_ :: le_bytes 8 Integer.

(** [vl16_enc::Integer()]; the shifts are [int] arithmetic on an [int16_t]. *)
Definition vl16_Integer (Top LowBits : Z) : Z :=
  let Value := s16 (0 ||| (Top <<< 8)) in
  let Value := s16 (Value ||| LowBits) in
  s32 (Value <<< 2) >>> 2.

Definition vl64_EncodedSize (Data : Z) : Z :=
  if (vl8_min <=? Data) && (Data <=? vl8_max) then 1
  else if (vl16_min <=? Data) && (Data <=? vl16_max) then 2
  else if (vl32_min <=? Data) && (Data <=? vl32_max) then 5
  else 9.

(** [Decode]: the integer and the number of bytes it occupied. *)
Definition vl64_Decode (data : list Z) : Z * Z :=
  if bitfield (byte_at data 0) 7 1 =? vl8_type_header then
    (swrap 7 (bitfield (byte_at data 0) 0 7), 1)
  else if bitfield (byte_at data 0) 6 2 =? vl16_type_header then
    (vl16_Integer (swrap 6 (bitfield (byte_at data 0) 0 6)) (byte_at data 1), 2)
  else if byte_at data 0 =? vl32_type_header then
    (s32 (word_at data 1 4), 5)
  else (s64 (word_at data 1 8), 9).

(** [Encode]: the bytes at [dst] afterwards and the number of bytes written. *)
Definition vl64_Encode (dst : list Z) (Data : Z) : list Z * Z :=
  if (vl8_min <=? Data) && (Data <=? vl8_max) then
    (memwrite dst (vl8_enc (s8 Data) vl8_type_header), 1)
  else if (vl16_min <=? Data) && (Data <=? vl16_max) then
    (memwrite dst (vl16_enc (s8 ((Data >>> 8) &&& 255)) vl16_type_header (u8 (Data &&& 255))), 2)
  else if (vl32_min <=? Data) && (Data <=? vl32_max) then
    (memwrite dst (vl32_enc vl32_type_header (s32 Data)), 5)
  else (memwrite dst (vl64_enc vl64_type_header Data), 9).

End vl64.

Module vl64pair.

Definition pair_vl8_type_header : Z := 0.
Definition vl8_arm_min : Z := 1.
Definition vl8_arm_max : Z := 16.
Definition vl8_arm_align_bits : Z := 2.
Definition vl8_arm_shift_mask : Z := (1 <<< vl8_arm_align_bits) - 1.
Definition vl8_pc_min : Z := 1.
Definition vl8_pc_max : Z := 8.

(** [can_encode_vl8(uint64_t, uint64_t)] *)
Definition can_encode_vl8 (data_arm data_rip : Z) : bool :=
  if (data_rip <? vl8_pc_min) || (vl8_pc_max <? data_rip) then false
  else if negb (data_arm &&& vl8_arm_shift_mask =? 0) then false
  else
    let ShiftedHostPC := s64 (data_arm >>> vl8_arm_align_bits) in
    if (ShiftedHostPC <? vl8_arm_min) || (vl8_arm_max <? ShiftedHostPC) then false
    else true.

Definition pair_vl16_type_header : Z := 2.
Definition vl16_arm_min : Z := -128.
Definition vl16_arm_max : Z := 127.
Definition vl16_arm_align_bits : Z := 2.
Definition vl16_arm_shift_mask : Z := (1 <<< vl16_arm_align_bits) - 1.
Definition vl16_pc_min : Z := -32.
Definition vl16_pc_max : Z := 31.

(** [can_encode_vl16(int64_t, int64_t)]: the callers pass [uint64_t]s, which
    convert to [int64_t]. *)
Definition can_encode_vl16 (arm rip : Z) : bool :=
  let data_arm := s64 arm in
  let data_rip := s64 rip in
  if (data_rip <? vl16_pc_min) || (vl16_pc_max <? data_rip) then false
  else if negb (data_arm &&& vl16_arm_shift_mask =? 0) then false
  else
    let ShiftedHostPC := data_arm >>> vl16_arm_align_bits in
    if (ShiftedHostPC <? vl16_arm_min) || (vl16_arm_max <? ShiftedHostPC) then false
    else true.

Definition pair_vl32_type_header : Z := 192.
Definition pair_vl32_min : Z := - 2 ^ 31.
Definition pair_vl32_max : Z := 2 ^ 31 - 1.

(** [can_encode_vl32(int64_t, int64_t)] *)
Definition can_encode_vl32 (arm rip : Z) : bool :=
  let data_arm := s64 arm in
  let data_rip := s64 rip in
  if (data_rip <? pair_vl32_min) || (pair_vl32_max <? data_rip) then false
  else if (data_arm <? pair_vl32_min) || (pair_vl32_max <? data_arm) then false
  else true.

Definition pair_vl64_type_header : Z := 224.

(** [struct vl8_enc { uint8_t IntegerARMPC : 4; IntegerX86RIP : 3; Type : 1; }] *)
Definition pair_vl8_enc (IntegerARMPC IntegerX86RIP Type_ : Z) : list Z :=
  [uwrap 4 IntegerARMPC ||| ((uwrap 3 IntegerX86RIP ||| (uwrap 1 Type_ <<< 3)) <<< 4)].

(** [struct vl16_enc { struct { int8_t IntegerX86RIP : 6; uint8_t Type : 2; } HighBits; int8_t IntegerARMPC; }] *)
Definition pair_vl16_enc (IntegerX86RIP Type_ IntegerARMPC : Z) : list Z :=
  [uwrap 6 IntegerX86RIP ||| (uwrap 2 Type_ <<< 6); u8 IntegerARMPC].

Definition pair_vl32_enc (Type_ IntegerARMPC IntegerX86RIP : Z) : list Z :=
  u8 Type_ :: le_bytes 4 IntegerARMPC ++ le_bytes 4 IntegerX86RIP.
Definition pair_vl64_enc (Type_ IntegerARMPC IntegerX86RIP : Z) : list Z :=
  u8 Type_ :: le_bytes 8 IntegerARMPC ++ le_bytes 8 IntegerX86RIP.

Definition pair_EncodedSize (data_arm data_rip : Z) : Z :=
  if can_encode_vl8 data_arm data_rip then 1
  else if can_encode_vl16 data_arm data_rip then 2
  else if can_encode_vl32 data_arm data_rip then 9
  else 17.

Definition Decode_vl8 (data : list Z) : Z * Z * Z :=
  let data_arm := bitfield (byte_at data 0) 0 4 in
  let data_rip := bitfield (byte_at data 0) 4 3 in
  (u64 ((data_arm + 1) <<< vl8_arm_align_bits), u64 (data_rip + 1), 1).

Definition Decode_vl16 (data : list Z) : Z * Z * Z :=
  let arm_pc := s32 (s8 (byte_at data 1) <<< vl8_arm_align_bits) in
  let x86_rip := swrap 6 (bitfield (byte_at data 0) 0 6) in
  (u64 arm_pc, u64 x86_rip, 2).

Definition Decode_vl32 (data : list Z) : Z * Z * Z :=
  let arm_pc := s32 (word_at data 1 4) in
  let x86_rip := s32 (word_at data 5 4) in
  (u64 arm_pc, u64 x86_rip, 9).

(** [Decode]: host PC delta, guest RIP delta, number of bytes read. *)
Definition pair_Decode (data : list Z) : Z * Z * Z :=
  if bitfield (byte_at data 0) 7 1 =? pair_vl8_type_header then Decode_vl8 data
  else if bitfield (byte_at data 0) 6 2 =? pair_vl16_type_header then Decode_vl16 data
  else if byte_at data 0 =? pair_vl32_type_header then Decode_vl32 data
  else (word_at data 1 8, word_at data 9 8, 17).

Definition pair_Encode (dst : list Z) (data_arm data_rip : Z) : list Z * Z :=
  if can_encode_vl8 data_arm data_rip then
    (memwrite dst (pair_vl8_enc (u8 (u64 (data_arm - 1) >>> vl8_arm_align_bits))
                                (u8 (u64 (data_rip - 1))) pair_vl8_type_header), 1)
  else if can_encode_vl16 data_arm data_rip then
    (memwrite dst (pair_vl16_enc (s8 (s64 data_rip)) pair_vl16_type_header
                                 (s8 (s64 data_arm >>> vl8_arm_align_bits))), 2)
  else if can_encode_vl32 data_arm data_rip then
    (memwrite dst (pair_vl32_enc pair_vl32_type_header (s32 data_arm) (s32 data_rip)), 9)
  else (memwrite dst (pair_vl64_enc pair_vl64_type_header data_arm data_rip), 17).

End vl64pair.

(** ** Reading back what was written *)

Lemma memwrite_cons dst b bs : exists rest, memwrite dst (b :: bs) = b :: bs ++ rest.
Proof. unfold memwrite. eexists. reflexivity. Qed.

Lemma memwrite_frame dst bs n : n = length bs -> drop n (memwrite dst bs) = drop n dst.
Proof. intros ->. unfold memwrite. by rewrite drop_app_length. Qed.

Lemma bitfield_low n x y : 0 <= n -> is_u n x -> bitfield (x ||| (y <<< n)) 0 n = x.
Proof.
  intros. unfold bitfield. rewrite Z.shiftr_0_r, u_land_ones by done.
  by apply field_low.
Qed.

Lemma bitfield_high n m x y :
  0 <= n -> 0 <= m -> is_u n x -> is_u m y -> bitfield (x ||| (y <<< n)) n m = y.
Proof.
  intros. unfold bitfield. rewrite field_high, u_land_ones by done.
  by apply u_small.
Qed.

Lemma bitfield_divmod x lo n :
  0 <= lo -> 0 <= n -> bitfield x lo n = (x / 2 ^ lo) mod 2 ^ n.
Proof.
  intros. unfold bitfield. rewrite u_land_ones, Z.shiftr_div_pow2 by done. done.
Qed.

Lemma byte_at_0 b l : byte_at (b :: l) 0 = b.
Proof. done. Qed.

Lemma byte_at_1 b c l : byte_at (b :: c :: l) 1 = c.
Proof. done. Qed.

Lemma word_at_1 b n x rest :
  word_at (b :: le_bytes n x ++ rest) 1 n = uwrap (8 * Z.of_nat n) x.
Proof. unfold word_at. simpl. apply le_val_take. Qed.

Lemma word_at_2 b n x y rest :
  word_at (b :: (le_bytes n x ++ le_bytes n y) ++ rest) (S n) n = uwrap (8 * Z.of_nat n) y.
Proof.
  unfold word_at. cbn [drop]. rewrite <- app_assoc.
  rewrite drop_app_length'; [apply le_val_take | by rewrite length_le_bytes].
Qed.

(** The type field of a two-part byte, and its low part. *)
Lemma two_part_byte x t :
  is_u 2 t ->
  uwrap 6 x ||| (uwrap 2 t <<< 6) = uwrap 6 x + 64 * t.
Proof.
  intros. rewrite lor_disjoint, (u_small 2) by (done || apply u_range; lia). lia.
Qed.

Lemma swrap_uwrap_small w x : 0 < w -> is_s w x -> swrap w (uwrap w x) = x.
Proof. intros. rewrite s_u by lia. by apply s_small. Qed.

(** Discharge a [swrap]/[uwrap] goal on concrete widths. *)
Ltac wrap_lia :=
  unfold is_u, is_s, uwrap, swrap in *;
  rewrite ?Z.shiftr_div_pow2, ?Z.shiftl_mul_pow2 by lia;
  repeat match goal with
  | |- context [2 ^ ?n] => let v := eval vm_compute in (2 ^ n) in change (2 ^ n) with v
  | H : context [2 ^ ?n] |- _ =>
      let v := eval vm_compute in (2 ^ n) in change (2 ^ n) with v in H
  end;
  Z.to_euclidean_division_equations; lia.

Module vl64_proofs.
Import vl64.

Lemma decode_vl8 v rest :
  is_s 7 v -> vl64_Decode (vl8_enc (s8 v) vl8_type_header ++ rest) = (v, 1).
Proof.
  intros Hv. unfold vl64_Decode, vl8_enc. cbn [app]. rewrite byte_at_0.
  change (uwrap 1 vl8_type_header) with 0.
  rewrite bitfield_high, bitfield_low by (done || apply u_range; lia).
  cbn [Z.eqb]. rewrite swrap_uwrap_le, swrap_uwrap_small by (done || lia). done.
Qed.

Lemma decode_vl16_value v :
  is_s 14 v -> vl16_Integer (swrap 6 (uwrap 6 (v >>> 8))) (uwrap 8 v) = v.
Proof.
  intros Hv. unfold vl16_Integer.
  rewrite swrap_uwrap_small by (lia || wrap_lia).
  rewrite Z.lor_0_l. rewrite (s_small 16 (_ <<< _)) by (lia || wrap_lia).
  rewrite Z.lor_comm, lor_disjoint by (lia || apply u_range; lia).
  replace (uwrap 8 v + (v >>> 8) * 2 ^ 8) with v by wrap_lia.
  rewrite (s_small 16), (s_small 32) by (lia || wrap_lia).
  rewrite Z.shiftr_shiftl_l by lia. apply Z.shiftl_0_r.
Qed.

Lemma decode_vl16 v rest :
  is_s 14 v ->
  vl64_Decode (vl16_enc (s8 ((v >>> 8) &&& 255)) vl16_type_header (u8 (v &&& 255)) ++ rest)
  = (v, 2).
Proof.
  intros Hv. unfold vl64_Decode, vl16_enc. cbn [app]. rewrite byte_at_0, byte_at_1.
  change 255 with (Z.ones 8). rewrite !u_land_ones by lia.
  rewrite s_u, swrap_uwrap_le by lia.
  rewrite bitfield_low, (bitfield_high 6 2) by (lia || apply u_range; lia).
  rewrite two_part_byte by done. rewrite !bitfield_divmod by lia.
  pose proof (u_range 6 (v >>> 8) ltac:(lia)) as [? ?].
  replace (((uwrap 6 (v >>> 8) + 64 * vl16_type_header) / 2 ^ 7) mod 2 ^ 1) with 1
    by (unfold vl16_type_header; wrap_lia).
  change (uwrap 2 vl16_type_header =? vl16_type_header) with true.
  cbn [Z.eqb]. rewrite !u_idem by lia. rewrite decode_vl16_value by done. done.
Qed.

Lemma decode_vl32 v rest :
  is_s 32 v -> vl64_Decode (vl32_enc vl32_type_header (s32 v) ++ rest) = (v, 5).
Proof.
  intros Hv. unfold vl64_Decode, vl32_enc. rewrite <- app_comm_cons, byte_at_0, word_at_1.
  cbn -[swrap uwrap]. rewrite (s_small 32), swrap_uwrap_small by (done || lia). done.
Qed.

Lemma decode_vl64 v rest :
  is_s 64 v -> vl64_Decode (vl64_enc vl64_type_header v ++ rest) = (v, 9).
Proof.
  intros Hv. unfold vl64_Decode, vl64_enc. rewrite <- app_comm_cons, byte_at_0, word_at_1.
  cbn -[swrap uwrap]. rewrite swrap_uwrap_small by (done || lia). done.
Qed.

Lemma encode_form dst d :
  is_s 64 d ->
  exists bs, vl64_Encode dst d = (memwrite dst bs, Z.of_nat (length bs)) /\
    (forall rest, vl64_Decode (bs ++ rest) = (d, Z.of_nat (length bs))) /\
    Z.of_nat (length bs) = vl64_EncodedSize d.
Proof.
  intros Hd. unfold vl64_Encode, vl64_EncodedSize.
  repeat case_match; to_prop; eexists; (split; [apply f_equal2; [reflexivity|]; reflexivity|]);
    (split; [|reflexivity]).
  - intros; apply decode_vl8. change vl8_min with (-64) in *. change vl8_max with 63 in *.
    unfold is_s; lia.
  - intros; apply decode_vl16. change vl16_min with (-8192) in *.
    change vl16_max with 8191 in *. unfold is_s; lia.
  - intros; apply decode_vl32. unfold vl32_min, vl32_max, is_s in *; lia.
  - intros; by apply decode_vl64.
Qed.

End vl64_proofs.

Module vl64pair_proofs.
Import vl64pair.

Lemma can_encode_vl8_spec a r :
  is_u 64 a -> can_encode_vl8 a r = true ->
  exists k, a = 4 * k /\ 1 <= k <= 16 /\ 1 <= r <= 8.
Proof.
  unfold can_encode_vl8, vl8_arm_shift_mask, vl8_arm_align_bits. intros Ha H.
  change ((1 <<< 2) - 1) with (Z.ones 2) in H. rewrite u_land_ones in H by lia.
  repeat case_match; to_prop; try done.
  rewrite Z.shiftr_div_pow2, s_small in * by (lia || unfold is_s, is_u in *; change (2 ^ 2) with 4;
    Z.to_euclidean_division_equations; lia).
  unfold vl8_arm_min, vl8_arm_max, vl8_pc_min, vl8_pc_max in *.
  exists (a / 4). unfold uwrap, is_u in *. change (2 ^ 2) with 4 in *.
  Z.to_euclidean_division_equations; lia.
Qed.

Lemma can_encode_vl16_spec a r :
  can_encode_vl16 a r = true ->
  exists k, s64 a = 4 * k /\ -128 <= k <= 127 /\ -32 <= s64 r <= 31.
Proof.
  unfold can_encode_vl16, vl16_arm_shift_mask, vl16_arm_align_bits. intros H.
  change ((1 <<< 2) - 1) with (Z.ones 2) in H. rewrite u_land_ones in H by lia.
  repeat case_match; to_prop; try done.
  rewrite Z.shiftr_div_pow2 in * by lia.
  unfold vl16_arm_min, vl16_arm_max, vl16_pc_min, vl16_pc_max in *.
  exists (s64 a / 4). unfold uwrap in *. change (2 ^ 2) with 4 in *.
  Z.to_euclidean_division_equations; lia.
Qed.

Lemma can_encode_vl32_spec a r :
  can_encode_vl32 a r = true -> is_s 32 (s64 a) /\ is_s 32 (s64 r).
Proof.
  unfold can_encode_vl32, pair_vl32_min, pair_vl32_max, is_s. intros H.
  repeat case_match; to_prop; try done. lia.
Qed.

Lemma decode_pair_vl8 k r rest :
  1 <= k <= 16 -> 1 <= r <= 8 ->
  pair_Decode (pair_vl8_enc (u8 (u64 (4 * k - 1) >>> 2)) (u8 (u64 (r - 1)))
                 pair_vl8_type_header ++ rest) = (4 * k, r, 1).
Proof.
  intros Hk Hr. unfold pair_Decode, Decode_vl8, pair_vl8_enc. cbn [app].
  rewrite !byte_at_0. change (uwrap 1 pair_vl8_type_header) with 0.
  rewrite Z.shiftl_0_l, Z.lor_0_r, lor_disjoint by (lia || apply u_range; lia).
  replace (uwrap 4 (u8 (u64 (4 * k - 1) >>> 2))) with (k - 1) by wrap_lia.
  replace (uwrap 3 (u8 (u64 (r - 1)))) with (r - 1) by wrap_lia.
  rewrite !bitfield_divmod by lia. unfold vl8_arm_align_bits.
  replace (((k - 1 + (r - 1) * 2 ^ 4) / 2 ^ 7) mod 2 ^ 1) with 0 by wrap_lia.
  replace (((k - 1 + (r - 1) * 2 ^ 4) / 2 ^ 4) mod 2 ^ 3) with (r - 1) by wrap_lia.
  replace (((k - 1 + (r - 1) * 2 ^ 4) / 2 ^ 0) mod 2 ^ 4) with (k - 1) by wrap_lia.
  cbn [Z.eqb pair_vl8_type_header].
  apply f_equal2; [apply f_equal2; wrap_lia|done].
Qed.

Lemma decode_pair_vl16 a r k rest :
  is_u 64 a -> is_u 64 r ->
  s64 a = 4 * k -> -128 <= k <= 127 -> -32 <= s64 r <= 31 ->
  pair_Decode (pair_vl16_enc (s8 (s64 r)) pair_vl16_type_header (s8 (s64 a >>> 2)) ++ rest)
  = (a, r, 2).
Proof.
  intros Ha Hr Ek Hk Hs.
  assert (u64 (s64 a) = a) as Ea by (rewrite u_s by lia; by apply u_small).
  assert (u64 (s64 r) = r) as Er by (rewrite u_s by lia; by apply u_small).
  rewrite <- Ea, <- Er at 2. rewrite Ek in *.
  generalize dependent (s64 r). intros sr Hs Er. clear Er Ea Ek Ha Hr.
  unfold pair_Decode, Decode_vl16, pair_vl16_enc. cbn [app].
  rewrite !byte_at_0, byte_at_1. unfold vl8_arm_align_bits.
  rewrite bitfield_low, (bitfield_high 6 2) by (lia || apply u_range; lia).
  rewrite two_part_byte by done. rewrite bitfield_divmod by lia.
  replace (((uwrap 6 (s8 sr) + 64 * pair_vl16_type_header) / 2 ^ 7) mod 2 ^ 1) with 1
    by (pose proof (u_range 6 (s8 sr) ltac:(lia)) as [? ?];
        unfold pair_vl16_type_header; wrap_lia).
  change (uwrap 2 pair_vl16_type_header =? pair_vl16_type_header) with true. cbn [Z.eqb].
  replace ((4 * k) >>> 2) with k by wrap_lia.
  rewrite (s_u 8), (s_small 8 (s8 k)), (s_small 8 k) by (lia || wrap_lia || auto with cpp lia).
  rewrite (swrap_uwrap_le 8 6 sr), (swrap_uwrap_small 6 sr) by (lia || wrap_lia).
  replace (k <<< 2) with (4 * k) by wrap_lia.
  rewrite (s_small 32) by (lia || wrap_lia). done.
Qed.

Lemma decode_pair_vl32 a r rest :
  is_u 64 a -> is_u 64 r -> is_s 32 (s64 a) -> is_s 32 (s64 r) ->
  pair_Decode (pair_vl32_enc pair_vl32_type_header (s32 a) (s32 r) ++ rest) = (a, r, 9).
Proof.
  intros Ha Hr Sa Sr. unfold pair_Decode, Decode_vl32, pair_vl32_enc.
  rewrite <- app_comm_cons, !byte_at_0.
  change (u8 pair_vl32_type_header) with 192. cbn [Z.eqb].
  rewrite (word_at_2 192 4). rewrite <- app_assoc, word_at_1. cbn -[swrap uwrap].
  assert (forall x, is_u 64 x -> is_s 32 (s64 x) -> u64 (s32 (u32 (s32 x))) = x) as E.
  { intros x Hx Sx. rewrite (s_u 32), (s_small 32 (s32 x)) by (apply s_range || lia; lia).
    rewrite <- (s_u 32), <- (swrap_uwrap_le 64 32), s_u by lia.
    rewrite (s_small 32 (s64 x)), u_s by (done || lia). by apply u_small. }
  by rewrite !E.
Qed.

Lemma decode_pair_vl64 a r rest :
  is_u 64 a -> is_u 64 r ->
  pair_Decode (pair_vl64_enc pair_vl64_type_header a r ++ rest) = (a, r, 17).
Proof.
  intros Ha Hr. unfold pair_Decode, pair_vl64_enc.
  rewrite <- app_comm_cons, !byte_at_0.
  change (u8 pair_vl64_type_header) with 224. cbn [Z.eqb].
  rewrite (word_at_2 224 8). rewrite <- app_assoc, word_at_1.
  change (8 * Z.of_nat 8) with 64. by rewrite !u_small by done.
Qed.

Lemma pair_encode_form dst a r :
  is_u 64 a -> is_u 64 r ->
  exists bs, pair_Encode dst a r = (memwrite dst bs, Z.of_nat (length bs)) /\
    (forall rest, pair_Decode (bs ++ rest) = (a, r, Z.of_nat (length bs))) /\
    Z.of_nat (length bs) = pair_EncodedSize a r.
Proof.
  intros Ha Hr. unfold pair_Encode, pair_EncodedSize.
  repeat case_match; eexists; (split; [apply f_equal2; [reflexivity|]; reflexivity|]);
    (split; [|reflexivity]); intros rest.
  - apply can_encode_vl8_spec in H as (k & -> & ? & ?); [|done]. by apply decode_pair_vl8.
  - apply can_encode_vl16_spec in H0 as (k & ? & ? & ?). by apply decode_pair_vl16 with k.
  - apply can_encode_vl32_spec in H1 as [? ?]. by apply decode_pair_vl32.
  - by apply decode_pair_vl64.
Qed.

End vl64pair_proofs.

Import vl64 vl64pair vl64_proofs vl64pair_proofs.

(** C40: [vl64::Decode] reads back what [vl64::Encode] wrote, for every 64-bit
    signed integer, whatever bytes follow; both report the size [EncodedSize]
    computes, and [Encode] leaves the bytes past that size unchanged. *)
Theorem vl64_roundtrip dst d :
  is_s 64 d ->
  let '(buf, n) := vl64_Encode dst d in
  vl64_Decode buf = (d, n) /\ n = vl64_EncodedSize d /\
  drop (Z.to_nat n) buf = drop (Z.to_nat n) dst.
Proof.
  intros Hd. destruct (encode_form dst d Hd) as (bs & -> & Hdec & Hn).
  split; [apply Hdec|]. split; [done|].
  apply memwrite_frame. by rewrite Nat2Z.id.
Qed.

Lemma vl64_roundtrip_witness :
  is_s 64 (-8192) /\
  vl64_Encode [1; 2; 3] (-8192) = ([160; 0; 3], 2) /\
  vl64_Decode [160; 0; 3] = (-8192, 2).
Proof.
  split; [by vm_compute|]. split; [reflexivity|].
  pose proof (vl64_roundtrip [1; 2; 3] (-8192) ltac:(by vm_compute)) as [H _]. exact H.
Defined.

(** [vl64pair::Decode] reads back the pair of 64-bit values
    [vl64pair::Encode] wrote, in every one of the four encodings, with the size
    [EncodedSize] computes and without touching the bytes past it. *)
Theorem vl64pair_roundtrip dst a r :
  is_u 64 a -> is_u 64 r ->
  let '(buf, n) := pair_Encode dst a r in
  pair_Decode buf = (a, r, n) /\ n = pair_EncodedSize a r /\
  drop (Z.to_nat n) buf = drop (Z.to_nat n) dst.
Proof.
  intros Ha Hr. destruct (pair_encode_form dst a r Ha Hr) as (bs & -> & Hdec & Hn).
  split; [apply Hdec|]. split; [done|].
  apply memwrite_frame. by rewrite Nat2Z.id.
Qed.

Lemma vl64pair_roundtrip_witness :
  (is_u 64 64 /\ is_u 64 (2 ^ 64 - 5)) /\
  pair_Decode (fst (pair_Encode [] 64 (2 ^ 64 - 5))) = (64, 2 ^ 64 - 5, 2).
Proof.
  split; [split; by vm_compute|].
  pose proof (vl64pair_roundtrip [] 64 (2 ^ 64 - 5) ltac:(by vm_compute) ltac:(by vm_compute))
    as [H _]. exact H.
Defined.
