(* ===== verification/PPCEmitter.v ===== *)
(** * The PPC64LE code emitter: state, words and labels (CodeEmitter/PPC64LE/Emitter.h)

    [Emitter] is the emitter object together with the [Label] objects its
    callers own, by address.  An operation is a function of the build
    configuration and the state; it returns the next state, a failed guard
    ([Trap]), or an access outside the code buffer, the fixup vector or the live
    labels ([OutOfBounds]).  [assert] is live unless [NDEBUG] is set and
    [LOGMAN_THROW_A_FMT] only when [ASSERTIONS_ENABLED] is set.

    This file holds registers, conditions, the raw emission of words, the forward
    label fixups and the instruction-format helpers.  The instructions themselves
    are in [PPCInsns], the immediate loaders in [PPCLoadImm]. *)

From S2P Require Import Prelude.

(** ** Registers (CodeEmitter/PPC64LE/Registers.h) *)

Record GPR := mkGPR { gpr_idx : Z }.
Record FPR := mkFPR { fpr_idx : Z }.
Record VR := mkVR { vr_idx : Z }.
Record VSXR := mkVSXR { vsx_idx : Z }.
Record CRField := mkCR { cr_idx : Z }.

Definition cr (n : Z) : CRField := mkCR n.
Definition vsx (n : Z) : VSXR := mkVSXR n.
Definition toVSX (r : VR) : VSXR := mkVSXR (u32 (32 + vr_idx r)).
Definition GPRegs_r0 : GPR := mkGPR 0.

(** ** Conditions *)

Record Cond := mkCond { BO : Z; BI : Z }.

Definition CC_EQ := mkCond 12 2.
Definition CC_NE := mkCond 4 2.
Definition CC_LT := mkCond 12 0.
Definition CC_GE := mkCond 4 0.
Definition CC_GT := mkCond 12 1.
Definition CC_LE := mkCond 4 1.
Definition CC_ULT := mkCond 12 0.
Definition CC_UGE := mkCond 4 0.
Definition CC_UGT := mkCond 12 1.
Definition CC_ULE := mkCond 4 1.

Definition InvertCond (c : Cond) : Cond := mkCond (BO c ^^^ 8) (BI c).

(** ** State *)

Record Label := mkLabel { lbl_offset : Z; bound : bool; pending_head : Z }.

(** A default-constructed label. *)
Definition fresh_label : Label := mkLabel (-1) false (-1).

Record PendingBranchEntry := mkPending { patch_offset : Z; next : Z }.

Record Emitter := mkEmitter {
  Buffer : list Z;
  BufferSize : Z;
  Offset : Z;
  R0MaybeDirty : bool;
  PendingBranches : list PendingBranchEntry;
  Labels : gmap N Label
}.

(** The build and environment switches the emitter depends on. *)
Record Config := mkConfig {
  NDEBUG : bool;
  ASSERTIONS_ENABLED : bool;
  FEX_NOSHIFTIMM32 : bool
}.

Inductive Result :=
| Ok (s : Emitter)
| Trap
| OutOfBounds
| OutOfFuel.

#[global] Instance Ok_inj : Inj eq eq Ok.
Proof. intros ?? [=]; done. Qed.

Definition M := Config -> Emitter -> Result.

Definition ret : M := fun _ s => Ok s.
Definition andthen (m n : M) : M := fun c s =>
  match m c s with
  | Ok s' => n c s'
  | e => e
  end.

Declare Scope emit_scope.
Delimit Scope emit_scope with emit.
Notation "m ;; n" := (andthen m n) (at level 100, right associativity) : emit_scope.
Notation "x <<u n" := (u32 (Z.shiftl x n)) (at level 38, left associativity) : emit_scope.
#[global] Open Scope emit_scope.

(** [assert(p)] and [LOGMAN_THROW_A_FMT(p, ...)]. *)
Definition assert (p : bool) : M := fun c s =>
  if NDEBUG c || p then Ok s else Trap.
Definition LOGMAN_THROW_A (p : bool) : M := fun c s =>
  if negb (ASSERTIONS_ENABLED c) || p then Ok s else Trap.

(** [memcpy] into and out of the code buffer. *)
Definition buf_write (buf : list Z) (off : Z) (bs : list Z) : option (list Z) :=
  if (0 <=? off) && (off + Z.of_nat (length bs) <=? Z.of_nat (length buf)) then
    Some (take (Z.to_nat off) buf ++ bs ++ drop (Z.to_nat off + length bs) buf)
  else None.

Definition buf_read (buf : list Z) (off : Z) (n : nat) : option Z :=
  if (0 <=? off) && (off + Z.of_nat n <=? Z.of_nat (length buf)) then
    Some (le_val (take n (drop (Z.to_nat off) buf)))
  else None.

Definition set_buffer (b : list Z) (s : Emitter) : Emitter :=
  mkEmitter b (BufferSize s) (Offset s) (R0MaybeDirty s) (PendingBranches s) (Labels s).
Definition set_label (l : N) (L : Label) (s : Emitter) : Emitter :=
  mkEmitter (Buffer s) (BufferSize s) (Offset s) (R0MaybeDirty s) (PendingBranches s)
    (<[l := L]> (Labels s)).
Definition set_dirty (d : bool) (s : Emitter) : Emitter :=
  mkEmitter (Buffer s) (BufferSize s) (Offset s) d (PendingBranches s) (Labels s).

(** ** Raw emission *)

Definition SetBuffer (buf : list Z) (size : Z) : M := fun _ s =>
  Ok (mkEmitter buf size 0 (R0MaybeDirty s) (PendingBranches s) (Labels s)).

Definition ClearPendingBranches : M := fun _ s =>
  Ok (mkEmitter (Buffer s) (BufferSize s) (Offset s) (R0MaybeDirty s) [] (Labels s)).

Definition kInsnLiR0Zero : Z := 0x38000000.
Definition kInsnBctrl : Z := 0x4E800421.
Definition kInsnBlrl : Z := 0x4E800021.

Definition ResetR0Dirty : M := fun _ s => Ok (set_dirty false s).
Definition MarkR0Dirty : M := fun _ s => Ok (set_dirty true s).
Definition R0Dirty (s : Emitter) : bool := R0MaybeDirty s.

(** The words that imply [r0] was clobbered. *)
Definition dirties_r0 (insn : Z) : bool :=
  (insn =? kInsnLiR0Zero) || (insn =? kInsnBctrl) || (insn =? kInsnBlrl) ||
  ((insn >>> 26 =? 18) && negb (insn &&& 1 =? 0)).

(** Copy [bs] to the cursor and advance it. *)
Definition put_bytes (bs : list Z) : M := fun _ s =>
  match buf_write (Buffer s) (Offset s) bs with
  | Some b => Ok (mkEmitter b (BufferSize s) (u64 (Offset s + Z.of_nat (length bs)))
                    (R0MaybeDirty s) (PendingBranches s) (Labels s))
  | None => OutOfBounds
  end.

Definition Emit32 (insn : Z) : M :=
  (fun c s => assert (u64 (Offset s + 4) <=? BufferSize s) c s) ;;
  (fun c s => if dirties_r0 insn then MarkR0Dirty c s else ret c s) ;;
  put_bytes (le_bytes 4 insn).

Definition dc64 (v : Z) : M :=
  (fun c s => assert (u64 (Offset s + 8) <=? BufferSize s) c s) ;;
  put_bytes (le_bytes 8 v).

(** ** Forward labels *)

(** [AddPendingBranch]: record a fixup at the cursor, at the head of the label's chain. *)
Definition AddPendingBranch (lbl : N) : M := fun _ s =>
  match Labels s !! lbl with
  | None => OutOfBounds
  | Some L =>
      let pbs := PendingBranches s ++ [mkPending (s64 (Offset s)) (pending_head L)] in
      Ok (mkEmitter (Buffer s) (BufferSize s) (Offset s) (R0MaybeDirty s) pbs
            (<[lbl := mkLabel (lbl_offset L) (bound L)
                        (s32 (Z.of_nat (length pbs) - 1))]> (Labels s)))
  end.

(** [PatchBranchAt]: rewrite the branch at [patch_off] to jump to [target]. *)
Definition PatchBranchAt (patch_off target : Z) : M := fun c s =>
  match buf_read (Buffer s) patch_off 4 with
  | None => OutOfBounds
  | Some insn =>
      let opcode := insn >>> 26 in
      let offset := s32 (s32 target - s32 patch_off) in
      let store insn' : M := fun _ s =>
        match buf_write (Buffer s) patch_off (le_bytes 4 insn') with
        | Some b => Ok (set_buffer b s)
        | None => OutOfBounds
        end in
      (LOGMAN_THROW_A (offset &&& 3 =? 0) ;;
       if opcode =? 18 then
         LOGMAN_THROW_A ((- 2 ^ 25 <=? offset) && (offset <? 2 ^ 25)) ;;
         let li := u32 (offset >>> 2) &&& 0x00FFFFFF in
         store ((insn &&& 0xFC000003) ||| (li <<u 2))
       else if opcode =? 16 then
         LOGMAN_THROW_A ((-32768 <=? offset) && (offset <=? 32764)) ;;
         let bd := u32 (offset >>> 2) &&& 0x3FFF in
         store ((insn &&& 0xFFFF0003) ||| (bd <<u 2))
       else store insn) c s
  end.

(** The loop of [PatchPending], from the fixup [idx]; [fuel] bounds the chain. *)
Fixpoint PatchPending_loop (fuel : nat) (idx target : Z) : M := fun c s =>
  if idx <? 0 then Ok s
  else match fuel with
  | O => OutOfFuel
  | S fuel =>
      (LOGMAN_THROW_A (u64 idx <? Z.of_nat (length (PendingBranches s))) ;;
       fun c s =>
         match PendingBranches s !! Z.to_nat idx with
         | None => OutOfBounds
         | Some e =>
             (PatchBranchAt (u64 (patch_offset e)) (u64 target) ;;
              PatchPending_loop fuel (next e) target) c s
         end) c s
  end.

Definition PatchPending (lbl : N) : M := fun c s =>
  match Labels s !! lbl with
  | None => OutOfBounds
  | Some L =>
      (PatchPending_loop (S (length (PendingBranches s))) (pending_head L) (lbl_offset L) ;;
       fun _ s => Ok (set_label lbl (mkLabel (lbl_offset L) (bound L) (-1)) s)) c s
  end.

Definition Bind (lbl : N) : M := fun c s =>
  match Labels s !! lbl with
  | None => OutOfBounds
  | Some L =>
      PatchPending lbl c (set_label lbl (mkLabel (s64 (Offset s)) true (pending_head L)) s)
  end.

(** ** Branches *)

Definition b (offset : Z) : M :=
  LOGMAN_THROW_A (offset &&& 3 =? 0) ;;
  LOGMAN_THROW_A ((- 2 ^ 25 <=? offset) && (offset <? 2 ^ 25)) ;;
  let li := u32 (offset >>> 2) &&& 0x00FFFFFF in
  Emit32 ((18 <<u 26) ||| (li <<u 2) ||| 0).

Definition bl (offset : Z) : M :=
  LOGMAN_THROW_A (offset &&& 3 =? 0) ;;
  LOGMAN_THROW_A ((- 2 ^ 25 <=? offset) && (offset <? 2 ^ 25)) ;;
  let li := u32 (offset >>> 2) &&& 0x00FFFFFF in
  Emit32 ((18 <<u 26) ||| (li <<u 2) ||| 1).

Definition bc (bo bi offset : Z) : M :=
  LOGMAN_THROW_A (offset &&& 3 =? 0) ;;
  LOGMAN_THROW_A ((-32768 <=? offset) && (offset <=? 32764)) ;;
  let bd := u32 (offset >>> 2) &&& 0x3FFF in
  Emit32 ((16 <<u 26) ||| (bo <<u 21) ||| (bi <<u 16) ||| (bd <<u 2) ||| 0).

Definition bcl (bo bi offset : Z) : M :=
  LOGMAN_THROW_A (offset &&& 3 =? 0) ;;
  LOGMAN_THROW_A ((-32768 <=? offset) && (offset <=? 32764)) ;;
  let bd := u32 (offset >>> 2) &&& 0x3FFF in
  Emit32 ((16 <<u 26) ||| (bo <<u 21) ||| (bi <<u 16) ||| (bd <<u 2) ||| 1).

(** A branch to a label: relative when it is bound, a placeholder word and a
    fixup when it is not. *)
Definition with_label (lbl : N) (f : Label -> M) : M := fun c s =>
  match Labels s !! lbl with
  | None => OutOfBounds
  | Some L => f L c s
  end.

(** [static_cast<int32_t>(lbl->offset) - static_cast<int32_t>(Offset)] *)
Definition label_distance (L : Label) (k : Z -> M) : M := fun c s =>
  k (s32 (s32 (lbl_offset L) - s32 (Offset s))) c s.

Definition b_label (lbl : N) : M := with_label lbl (fun L =>
  if bound L then label_distance L b
  else AddPendingBranch lbl ;; Emit32 ((18 <<u 26) ||| 0)).

Definition bl_label (lbl : N) : M := with_label lbl (fun L =>
  if bound L then label_distance L bl
  else AddPendingBranch lbl ;; Emit32 ((18 <<u 26) ||| 1)).

Definition bc_label (cond : Cond) (lbl : N) : M := with_label lbl (fun L =>
  if bound L then label_distance L (bc (BO cond) (BI cond))
  else AddPendingBranch lbl ;;
       Emit32 ((16 <<u 26) ||| (BO cond <<u 21) ||| (BI cond <<u 16) ||| 0)).

Definition bdnz (lbl : N) : M := with_label lbl (fun L =>
  assert (bound L) ;; label_distance L (bc 16 0)).

(** ** Instruction formats *)

Definition EmitXO (op rt ra rb oe xo rc : Z) : M :=
  Emit32 ((op <<u 26) ||| (rt <<u 21) ||| (ra <<u 16) ||| (rb <<u 11) ||| (oe <<u 10)
          ||| (xo <<u 1) ||| rc).

Definition EmitX (op rs ra rb xo rc : Z) : M :=
  Emit32 ((op <<u 26) ||| (rs <<u 21) ||| (ra <<u 16) ||| (rb <<u 11) ||| (xo <<u 1) ||| rc).

Definition EmitD (op rt ra d : Z) : M :=
  Emit32 ((op <<u 26) ||| (rt <<u 21) ||| (ra <<u 16) ||| d).

Definition EmitM (op rs ra sh mb me rc : Z) : M :=
  LOGMAN_THROW_A (sh <? 32) ;;
  LOGMAN_THROW_A (mb <? 32) ;;
  LOGMAN_THROW_A (me <? 32) ;;
  Emit32 ((op <<u 26) ||| (rs <<u 21) ||| (ra <<u 16) ||| (sh <<u 11) ||| (mb <<u 6)
          ||| (me <<u 1) ||| rc).

Definition EmitMD (rs ra sh mb_or_me xo rc : Z) : M :=
  let sh_low := sh &&& 0x1F in
  let sh_high := (sh >>> 5) &&& 1 in
  let mb_low := mb_or_me &&& 0x1F in
  let mb_high := (mb_or_me >>> 5) &&& 1 in
  Emit32 ((30 <<u 26) ||| (rs <<u 21) ||| (ra <<u 16) ||| (sh_low <<u 11) ||| (mb_low <<u 6)
          ||| (mb_high <<u 5) ||| (xo <<u 2) ||| (sh_high <<u 1) ||| rc).

Definition EmitA63 (frt fra frb frc xo rc : Z) : M :=
  Emit32 ((63 <<u 26) ||| (frt <<u 21) ||| (fra <<u 16) ||| (frb <<u 11) ||| (frc <<u 6)
          ||| (xo <<u 1) ||| rc).

Definition EmitA59 (frt fra frb frc xo rc : Z) : M :=
  Emit32 ((59 <<u 26) ||| (frt <<u 21) ||| (fra <<u 16) ||| (frb <<u 11) ||| (frc <<u 6)
          ||| (xo <<u 1) ||| rc).

Definition EmitFX63 (frt fra frb xo rc : Z) : M :=
  Emit32 ((63 <<u 26) ||| (frt <<u 21) ||| (fra <<u 16) ||| (frb <<u 11) ||| (xo <<u 1) ||| rc).

Definition EmitFX59 (frt fra frb xo rc : Z) : M :=
  Emit32 ((59 <<u 26) ||| (frt <<u 21) ||| (fra <<u 16) ||| (frb <<u 11) ||| (xo <<u 1) ||| rc).

Definition EmitVX (vrt vra vrb xo : Z) : M :=
  Emit32 ((4 <<u 26) ||| (vrt <<u 21) ||| (vra <<u 16) ||| (vrb <<u 11) ||| xo).

Definition EmitVA (vrt vra vrb vrc xo : Z) : M :=
  Emit32 ((4 <<u 26) ||| (vrt <<u 21) ||| (vra <<u 16) ||| (vrb <<u 11) ||| (vrc <<u 6) ||| xo).

Definition EmitAtom (rt ra rb xo eh : Z) : M :=
  Emit32 ((31 <<u 26) ||| (rt <<u 21) ||| (ra <<u 16) ||| (rb <<u 11) ||| (xo <<u 1) ||| eh).

Definition EmitSPR (rs_rt spr xo : Z) : M :=
  let spr_lo := spr &&& 0x1F in
  let spr_hi := (spr >>> 5) &&& 0x1F in
  Emit32 ((31 <<u 26) ||| (rs_rt <<u 21) ||| (spr_lo <<u 16) ||| (spr_hi <<u 11) ||| (xo <<u 1)).

Definition EmitXX3VSX (t a b xo : Z) : M :=
  Emit32 ((60 <<u 26) ||| ((t &&& 31) <<u 21) ||| ((a &&& 31) <<u 16) ||| ((b &&& 31) <<u 11)
          ||| ((xo &&& 0xFF) <<u 3) ||| (((a >>> 5) &&& 1) <<u 2) ||| (((b >>> 5) &&& 1) <<u 1)
          ||| ((t >>> 5) &&& 1)).

Definition EmitXX3BF (bf a b xo : Z) : M :=
  Emit32 ((60 <<u 26) ||| ((bf &&& 7) <<u 23) ||| ((a &&& 31) <<u 16) ||| ((b &&& 31) <<u 11)
          ||| ((xo &&& 0xFF) <<u 3) ||| (((a >>> 5) &&& 1) <<u 2) ||| (((b >>> 5) &&& 1) <<u 1)).

Definition EmitXX3 (vrt vra vrb xo : Z) : M :=
  EmitXX3VSX (u32 (32 + vrt)) (u32 (32 + vra)) (u32 (32 + vrb)) xo.

Definition EmitXX2 (vrt vrb xo : Z) : M :=
  Emit32 ((60 <<u 26) ||| (vrt <<u 21) ||| (vrb <<u 11) ||| ((xo &&& 0x1FF) <<u 2)
          ||| (1 <<u 1) ||| 1).

(** A guard that holds is a no-op; a failing [LOGMAN_THROW_A_FMT] traps where it is live. *)
Lemma assert_true p m c s : p = true -> (assert p ;; m) c s = m c s.
Proof. intros ->. unfold andthen, assert. by rewrite orb_true_r. Qed.

Lemma logman_true p m c s : p = true -> (LOGMAN_THROW_A p ;; m) c s = m c s.
Proof. intros ->. unfold andthen, LOGMAN_THROW_A. by rewrite orb_true_r. Qed.

Lemma logman_fails p m c s :
  p = false -> (LOGMAN_THROW_A p ;; m) c s = if ASSERTIONS_ENABLED c then Trap else m c s.
Proof. intros ->. unfold andthen, LOGMAN_THROW_A. by destruct (ASSERTIONS_ENABLED c). Qed.

(** ** The code buffer *)

(** A live emitter: the cursor is inside the buffer, whose size fits the 32-bit
    offset arithmetic of the branches. *)
Record wf (s : Emitter) : Prop := {
  wf_size : BufferSize s = Z.of_nat (length (Buffer s));
  wf_off : 0 <= Offset s <= BufferSize s;
  wf_max : BufferSize s < 2 ^ 31
}.

(** The state after [bs] was emitted at the cursor. *)
Definition emitted (bs : list Z) (dirty : bool) (s : Emitter) : Emitter :=
  mkEmitter
    (take (Z.to_nat (Offset s)) (Buffer s) ++ bs
       ++ drop (Z.to_nat (Offset s) + length bs) (Buffer s))
    (BufferSize s) (Offset s + Z.of_nat (length bs)) (R0MaybeDirty s || dirty)
    (PendingBranches s) (Labels s).

Lemma buf_write_length buf off bs buf' :
  buf_write buf off bs = Some buf' -> length buf' = length buf.
Proof.
  unfold buf_write. case_match; intros; simplify_eq. to_prop.
  rewrite !length_app, length_take, length_drop. lia.
Qed.

Lemma buf_write_some buf off bs :
  0 <= off -> off + Z.of_nat (length bs) <= Z.of_nat (length buf) ->
  buf_write buf off bs =
    Some (take (Z.to_nat off) buf ++ bs ++ drop (Z.to_nat off + length bs) buf).
Proof. intros. unfold buf_write. bool_lia. done. Qed.

(** Reading back a word that was written, and a word elsewhere. *)
Lemma buf_read_write_same buf off w buf' :
  buf_write buf off (le_bytes 4 w) = Some buf' -> buf_read buf' off 4 = Some (u32 w).
Proof.
  intros H. pose proof (buf_write_length _ _ _ _ H) as L.
  unfold buf_write in H. case_match eqn:E; simplify_eq. to_prop.
  rewrite length_le_bytes in *. unfold buf_read. rewrite L. bool_lia.
  rewrite drop_app_length' by (rewrite length_take; lia).
  rewrite le_val_take. done.
Qed.

Lemma buf_read_write_other buf off bs buf' off' n :
  buf_write buf off bs = Some buf' ->
  off' + Z.of_nat n <= off \/ off + Z.of_nat (length bs) <= off' ->
  buf_read buf' off' n = buf_read buf off' n.
Proof.
  intros H Hd. pose proof (buf_write_length _ _ _ _ H) as L.
  unfold buf_write in H. case_match eqn:E; simplify_eq. to_prop.
  unfold buf_read. rewrite L. case_match eqn:E2; [|done]. to_prop. f_equal. f_equal.
  apply list_eq; intros i. destruct (decide (i < n)%nat) as [Hi|]; cycle 1.
  { rewrite !lookup_take_ge by lia. done. }
  rewrite !lookup_take_lt, !lookup_drop by lia.
  destruct Hd.
  - rewrite lookup_app_l, lookup_take_lt by (rewrite ?length_take; lia). done.
  - rewrite lookup_app_r, lookup_app_r, lookup_drop, length_take by (rewrite ?length_take; lia).
    f_equal. lia.
Qed.

Lemma put_bytes_ok bs c s :
  wf s -> Offset s + Z.of_nat (length bs) <= BufferSize s ->
  put_bytes bs c s = Ok (emitted bs false s).
Proof.
  intros [Hs Ho Hm] Hr. unfold put_bytes, emitted. rewrite buf_write_some by lia.
  rewrite u_small, orb_false_r by (unfold is_u; lia). done.
Qed.

Lemma Emit32_ok w c s :
  wf s -> Offset s + 4 <= BufferSize s ->
  Emit32 w c s = Ok (emitted (le_bytes 4 w) (dirties_r0 w) s).
Proof.
  intros H Hr. pose proof H as [Hs Ho Hm]. unfold Emit32, andthen, assert.
  rewrite u_small by (unfold is_u; lia). bool_lia. rewrite orb_true_r.
  destruct (dirties_r0 w); cbn [MarkR0Dirty ret].
  - rewrite put_bytes_ok by (rewrite ?length_le_bytes; simpl; (split; done) || lia).
    unfold emitted. simpl. by rewrite orb_true_r.
  - rewrite put_bytes_ok by (rewrite ?length_le_bytes; done || lia). done.
Qed.

Lemma put_bytes_full bs c s :
  BufferSize s = Z.of_nat (length (Buffer s)) -> BufferSize s < Offset s + Z.of_nat (length bs) ->
  put_bytes bs c s = OutOfBounds.
Proof.
  intros Hs Hr. unfold put_bytes, buf_write.
  rewrite (proj2 (Z.leb_gt _ _) (eq_ind _ (fun n => n < _) Hr _ Hs)), andb_false_r. done.
Qed.

Lemma Emit32_full w c s :
  wf s -> BufferSize s < Offset s + 4 ->
  Emit32 w c s = if NDEBUG c then OutOfBounds else Trap.
Proof.
  intros [Hs Ho Hm] Hr. unfold Emit32, andthen, assert.
  rewrite u_small by (unfold is_u; lia). bool_lia. destruct (NDEBUG c); cbn [orb]; [|done].
  destruct (dirties_r0 w); cbn [MarkR0Dirty ret]; by apply put_bytes_full.
Qed.

Lemma emitted_length bs d s :
  wf s -> Offset s + Z.of_nat (length bs) <= BufferSize s ->
  length (Buffer (emitted bs d s)) = length (Buffer s).
Proof.
  intros [Hs Ho Hm] Hr. unfold emitted; simpl.
  rewrite !length_app, length_take, length_drop. lia.
Qed.

Lemma emitted_wf bs d s :
  wf s -> Offset s + Z.of_nat (length bs) <= BufferSize s -> wf (emitted bs d s).
Proof.
  intros H Hr. pose proof (emitted_length bs d s H Hr) as L. destruct H as [Hs Ho Hm].
  split; cbn [emitted BufferSize Offset]; rewrite ?L; lia.
Qed.

Lemma emitted_buf_write bs d s :
  wf s -> Offset s + Z.of_nat (length bs) <= BufferSize s ->
  buf_write (Buffer s) (Offset s) bs = Some (Buffer (emitted bs d s)).
Proof. intros [Hs Ho Hm] Hr. by rewrite buf_write_some by lia. Qed.

(** The word at the old cursor is the one emitted; words elsewhere are unchanged. *)
Lemma emitted_read_word w d s :
  wf s -> Offset s + 4 <= BufferSize s ->
  buf_read (Buffer (emitted (le_bytes 4 w) d s)) (Offset s) 4 = Some (u32 w).
Proof.
  intros H Hr. eapply buf_read_write_same, emitted_buf_write; [done|].
  by rewrite length_le_bytes.
Qed.

Lemma emitted_read_other bs d s off n :
  wf s -> Offset s + Z.of_nat (length bs) <= BufferSize s -> off + Z.of_nat n <= Offset s ->
  buf_read (Buffer (emitted bs d s)) off n = buf_read (Buffer s) off n.
Proof.
  intros H Hr Ho. eapply buf_read_write_other; [by apply emitted_buf_write|]. by left.
Qed.

#[export] Hint Resolve emitted_wf : cpp.
