(* ===== verification/PPCInsns.v ===== *)
(** * The PPC64LE instructions (CodeEmitter/PPC64LE/Emitter.h)

    One definition per instruction member of [Emitter], in the order of the header,
    named as in the source.  Where the source overloads a name, the variant on the full
    VSX register file has the suffix [_vsx], the one on CR field 0 the suffix [_cr0].
    A [uint32_t] operand is a [Z]; a shift that can lose bits is written [<<u]. *)

From S2P Require Import Prelude PPCEmitter.

Definition nop : M := Emit32 0x60000000.
Definition smt_very_low_priority : M := Emit32 0x7FFFFB78.
Definition smt_low_priority : M := Emit32 0x7C210B78.
Definition smt_medium_priority : M := Emit32 0x7C421378.

(** ** Integer ALU *)

Definition add (rt ra rb : GPR) : M := EmitXO 31 (gpr_idx rt) (gpr_idx ra) (gpr_idx rb) 0 266 0.
Definition add_ (rt ra rb : GPR) : M :=
  EmitXO 31 (gpr_idx rt) (gpr_idx ra) (gpr_idx rb) 0 266 1.
Definition addo (rt ra rb : GPR) : M :=
  EmitXO 31 (gpr_idx rt) (gpr_idx ra) (gpr_idx rb) 1 266 0.
Definition addo_ (rt ra rb : GPR) : M :=
  EmitXO 31 (gpr_idx rt) (gpr_idx ra) (gpr_idx rb) 1 266 1.
Definition addi (rt ra : GPR) (si : Z) : M := EmitD 14 (gpr_idx rt) (gpr_idx ra) (u16 si).
Definition li (rt : GPR) (si : Z) : M := addi rt GPRegs_r0 si.
Definition addis (rt ra : GPR) (si : Z) : M := EmitD 15 (gpr_idx rt) (gpr_idx ra) (u16 si).
Definition lis (rt : GPR) (si : Z) : M := addis rt GPRegs_r0 si.
Definition addic (rt ra : GPR) (si : Z) : M := EmitD 12 (gpr_idx rt) (gpr_idx ra) (u16 si).
Definition addic_ (rt ra : GPR) (si : Z) : M := EmitD 13 (gpr_idx rt) (gpr_idx ra) (u16 si).
Definition addc (rt ra rb : GPR) : M := EmitXO 31 (gpr_idx rt) (gpr_idx ra) (gpr_idx rb) 0 10 0.
Definition addc_ (rt ra rb : GPR) : M :=
  EmitXO 31 (gpr_idx rt) (gpr_idx ra) (gpr_idx rb) 0 10 1.
Definition addco (rt ra rb : GPR) : M :=
  EmitXO 31 (gpr_idx rt) (gpr_idx ra) (gpr_idx rb) 1 10 0.
Definition addco_ (rt ra rb : GPR) : M :=
  EmitXO 31 (gpr_idx rt) (gpr_idx ra) (gpr_idx rb) 1 10 1.
Definition adde (rt ra rb : GPR) : M :=
  EmitXO 31 (gpr_idx rt) (gpr_idx ra) (gpr_idx rb) 0 138 0.
Definition adde_ (rt ra rb : GPR) : M :=
  EmitXO 31 (gpr_idx rt) (gpr_idx ra) (gpr_idx rb) 0 138 1.
Definition addeo_ (rt ra rb : GPR) : M :=
  EmitXO 31 (gpr_idx rt) (gpr_idx ra) (gpr_idx rb) 1 138 1.
Definition addme (rt ra : GPR) : M := EmitXO 31 (gpr_idx rt) (gpr_idx ra) 0 0 234 0.
Definition addze (rt ra : GPR) : M := EmitXO 31 (gpr_idx rt) (gpr_idx ra) 0 0 202 0.
Definition subf (rt ra rb : GPR) : M := EmitXO 31 (gpr_idx rt) (gpr_idx ra) (gpr_idx rb) 0 40 0.
Definition subf_ (rt ra rb : GPR) : M :=
  EmitXO 31 (gpr_idx rt) (gpr_idx ra) (gpr_idx rb) 0 40 1.
Definition subfo_ (rt ra rb : GPR) : M :=
  EmitXO 31 (gpr_idx rt) (gpr_idx ra) (gpr_idx rb) 1 40 1.
Definition subfic (rt ra : GPR) (si : Z) : M := EmitD 8 (gpr_idx rt) (gpr_idx ra) (u16 si).
Definition subfc (rt ra rb : GPR) : M := EmitXO 31 (gpr_idx rt) (gpr_idx ra) (gpr_idx rb) 0 8 0.
Definition subfc_ (rt ra rb : GPR) : M :=
  EmitXO 31 (gpr_idx rt) (gpr_idx ra) (gpr_idx rb) 0 8 1.
Definition subfco (rt ra rb : GPR) : M :=
  EmitXO 31 (gpr_idx rt) (gpr_idx ra) (gpr_idx rb) 1 8 0.
Definition subfco_ (rt ra rb : GPR) : M :=
  EmitXO 31 (gpr_idx rt) (gpr_idx ra) (gpr_idx rb) 1 8 1.
Definition subfe (rt ra rb : GPR) : M :=
  EmitXO 31 (gpr_idx rt) (gpr_idx ra) (gpr_idx rb) 0 136 0.
Definition subfe_ (rt ra rb : GPR) : M :=
  EmitXO 31 (gpr_idx rt) (gpr_idx ra) (gpr_idx rb) 0 136 1.
Definition subfeo_ (rt ra rb : GPR) : M :=
  EmitXO 31 (gpr_idx rt) (gpr_idx ra) (gpr_idx rb) 1 136 1.
Definition subfze (rt ra : GPR) : M := EmitXO 31 (gpr_idx rt) (gpr_idx ra) 0 0 200 0.
Definition neg (rt ra : GPR) : M := EmitXO 31 (gpr_idx rt) (gpr_idx ra) 0 0 104 0.
Definition neg_ (rt ra : GPR) : M := EmitXO 31 (gpr_idx rt) (gpr_idx ra) 0 0 104 1.
Definition nego_ (rt ra : GPR) : M := EmitXO 31 (gpr_idx rt) (gpr_idx ra) 0 1 104 1.
Definition mulli (rt ra : GPR) (si : Z) : M := EmitD 7 (gpr_idx rt) (gpr_idx ra) (u16 si).
Definition mullw (rt ra rb : GPR) : M :=
  EmitXO 31 (gpr_idx rt) (gpr_idx ra) (gpr_idx rb) 0 235 0.
Definition mullw_ (rt ra rb : GPR) : M :=
  EmitXO 31 (gpr_idx rt) (gpr_idx ra) (gpr_idx rb) 0 235 1.
Definition mulld (rt ra rb : GPR) : M :=
  EmitXO 31 (gpr_idx rt) (gpr_idx ra) (gpr_idx rb) 0 233 0.
Definition mulld_ (rt ra rb : GPR) : M :=
  EmitXO 31 (gpr_idx rt) (gpr_idx ra) (gpr_idx rb) 0 233 1.
Definition mulhd (rt ra rb : GPR) : M :=
  EmitXO 31 (gpr_idx rt) (gpr_idx ra) (gpr_idx rb) 0 73 0.
Definition mulhdu (rt ra rb : GPR) : M :=
  EmitXO 31 (gpr_idx rt) (gpr_idx ra) (gpr_idx rb) 0 9 0.
Definition mulhw (rt ra rb : GPR) : M :=
  EmitXO 31 (gpr_idx rt) (gpr_idx ra) (gpr_idx rb) 0 75 0.
Definition mulhwu (rt ra rb : GPR) : M :=
  EmitXO 31 (gpr_idx rt) (gpr_idx ra) (gpr_idx rb) 0 11 0.
Definition divd (rt ra rb : GPR) : M :=
  EmitXO 31 (gpr_idx rt) (gpr_idx ra) (gpr_idx rb) 0 489 0.
Definition divd_ (rt ra rb : GPR) : M :=
  EmitXO 31 (gpr_idx rt) (gpr_idx ra) (gpr_idx rb) 0 489 1.
Definition divdu (rt ra rb : GPR) : M :=
  EmitXO 31 (gpr_idx rt) (gpr_idx ra) (gpr_idx rb) 0 457 0.
Definition divdu_ (rt ra rb : GPR) : M :=
  EmitXO 31 (gpr_idx rt) (gpr_idx ra) (gpr_idx rb) 0 457 1.
Definition divdeu (rt ra rb : GPR) : M :=
  EmitXO 31 (gpr_idx rt) (gpr_idx ra) (gpr_idx rb) 0 393 0.
Definition divdeu_ (rt ra rb : GPR) : M :=
  EmitXO 31 (gpr_idx rt) (gpr_idx ra) (gpr_idx rb) 0 393 1.
Definition divde (rt ra rb : GPR) : M :=
  EmitXO 31 (gpr_idx rt) (gpr_idx ra) (gpr_idx rb) 0 425 0.
Definition divde_ (rt ra rb : GPR) : M :=
  EmitXO 31 (gpr_idx rt) (gpr_idx ra) (gpr_idx rb) 0 425 1.
Definition divw (rt ra rb : GPR) : M :=
  EmitXO 31 (gpr_idx rt) (gpr_idx ra) (gpr_idx rb) 0 491 0.
Definition divwu (rt ra rb : GPR) : M :=
  EmitXO 31 (gpr_idx rt) (gpr_idx ra) (gpr_idx rb) 0 459 0.

(** ** Logical instructions (X-form: note RA=dest, RS=src1) *)

Definition and_ (ra rs rb : GPR) : M := EmitX 31 (gpr_idx rs) (gpr_idx ra) (gpr_idx rb) 28 0.
Definition and__ (ra rs rb : GPR) : M := EmitX 31 (gpr_idx rs) (gpr_idx ra) (gpr_idx rb) 28 1.
Definition andc (ra rs rb : GPR) : M := EmitX 31 (gpr_idx rs) (gpr_idx ra) (gpr_idx rb) 60 0.
Definition or_ (ra rs rb : GPR) : M := EmitX 31 (gpr_idx rs) (gpr_idx ra) (gpr_idx rb) 444 0.
Definition or__ (ra rs rb : GPR) : M := EmitX 31 (gpr_idx rs) (gpr_idx ra) (gpr_idx rb) 444 1.
Definition orc (ra rs rb : GPR) : M := EmitX 31 (gpr_idx rs) (gpr_idx ra) (gpr_idx rb) 412 0.
Definition mr (ra rs : GPR) : M := or_ ra rs rs.
Definition xor_ (ra rs rb : GPR) : M := EmitX 31 (gpr_idx rs) (gpr_idx ra) (gpr_idx rb) 316 0.
Definition xor__ (ra rs rb : GPR) : M := EmitX 31 (gpr_idx rs) (gpr_idx ra) (gpr_idx rb) 316 1.
Definition nor (ra rs rb : GPR) : M := EmitX 31 (gpr_idx rs) (gpr_idx ra) (gpr_idx rb) 124 0.
Definition nand_ (ra rs rb : GPR) : M := EmitX 31 (gpr_idx rs) (gpr_idx ra) (gpr_idx rb) 476 0.
Definition eqv (ra rs rb : GPR) : M := EmitX 31 (gpr_idx rs) (gpr_idx ra) (gpr_idx rb) 284 0.
Definition not_ (ra rs : GPR) : M := nor ra rs rs.
Definition ori (ra rs : GPR) (ui : Z) : M := EmitD 24 (gpr_idx rs) (gpr_idx ra) ui.
Definition oris (ra rs : GPR) (ui : Z) : M := EmitD 25 (gpr_idx rs) (gpr_idx ra) ui.
Definition xori (ra rs : GPR) (ui : Z) : M := EmitD 26 (gpr_idx rs) (gpr_idx ra) ui.
Definition xoris (ra rs : GPR) (ui : Z) : M := EmitD 27 (gpr_idx rs) (gpr_idx ra) ui.
Definition andi_ (ra rs : GPR) (ui : Z) : M := EmitD 28 (gpr_idx rs) (gpr_idx ra) ui.
Definition andis_ (ra rs : GPR) (ui : Z) : M := EmitD 29 (gpr_idx rs) (gpr_idx ra) ui.

(** ** Shifts and rotate *)

Definition slw (ra rs rb : GPR) : M := EmitX 31 (gpr_idx rs) (gpr_idx ra) (gpr_idx rb) 24 0.
Definition srw (ra rs rb : GPR) : M := EmitX 31 (gpr_idx rs) (gpr_idx ra) (gpr_idx rb) 536 0.
Definition sraw (ra rs rb : GPR) : M := EmitX 31 (gpr_idx rs) (gpr_idx ra) (gpr_idx rb) 792 0.
Definition sld (ra rs rb : GPR) : M := EmitX 31 (gpr_idx rs) (gpr_idx ra) (gpr_idx rb) 27 0.
Definition srd (ra rs rb : GPR) : M := EmitX 31 (gpr_idx rs) (gpr_idx ra) (gpr_idx rb) 539 0.
Definition srad (ra rs rb : GPR) : M := EmitX 31 (gpr_idx rs) (gpr_idx ra) (gpr_idx rb) 794 0.
Definition srawi (ra rs : GPR) (sh : Z) : M :=
  assert (sh <? 32) ;;
  EmitX 31 (gpr_idx rs) (gpr_idx ra) sh 824 0.
Definition srawi_ (ra rs : GPR) (sh : Z) : M :=
  assert (sh <? 32) ;;
  EmitX 31 (gpr_idx rs) (gpr_idx ra) sh 824 1.
Definition sradi (ra rs : GPR) (sh : Z) : M :=
  assert (sh <? 64) ;;
  let sh_low := sh &&& 0x1F in
  let sh_high := (sh >>> 5) &&& 1 in
  Emit32 ((31 <<u 26) ||| (gpr_idx rs <<u 21) ||| (gpr_idx ra <<u 16) ||| (sh_low <<u 11)
          ||| (413 <<u 2) ||| (sh_high <<u 1) ||| 0).
Definition sradi_ (ra rs : GPR) (sh : Z) : M :=
  assert (sh <? 64) ;;
  let sh_low := sh &&& 0x1F in
  let sh_high := (sh >>> 5) &&& 1 in
  Emit32 ((31 <<u 26) ||| (gpr_idx rs <<u 21) ||| (gpr_idx ra <<u 16) ||| (sh_low <<u 11)
          ||| (413 <<u 2) ||| (sh_high <<u 1) ||| 1).
Definition rlwinm (ra rs : GPR) (sh mb me : Z) : M :=
  assert (((sh <? 32) && (mb <? 32)) && (me <? 32)) ;;
  EmitM 21 (gpr_idx rs) (gpr_idx ra) sh mb me 0.
Definition rlwinm_ (ra rs : GPR) (sh mb me : Z) : M :=
  EmitM 21 (gpr_idx rs) (gpr_idx ra) sh mb me 1.
Definition rlwimi (ra rs : GPR) (sh mb me : Z) : M :=
  EmitM 20 (gpr_idx rs) (gpr_idx ra) sh mb me 0.
Definition rlwnm (ra rs rb : GPR) (mb me : Z) : M :=
  LOGMAN_THROW_A (mb <? 32) ;;
  LOGMAN_THROW_A (me <? 32) ;;
  Emit32 ((23 <<u 26) ||| (gpr_idx rs <<u 21) ||| (gpr_idx ra <<u 16) ||| (gpr_idx rb <<u 11)
          ||| ((mb &&& 0x1F) <<u 6) ||| ((me &&& 0x1F) <<u 1) ||| 0).
Definition rldicl (ra rs : GPR) (sh mb : Z) : M :=
  assert ((sh <? 64) && (mb <? 64)) ;;
  EmitMD (gpr_idx rs) (gpr_idx ra) sh mb 0 0.
Definition rldicl_ (ra rs : GPR) (sh mb : Z) : M :=
  assert ((sh <? 64) && (mb <? 64)) ;;
  EmitMD (gpr_idx rs) (gpr_idx ra) sh mb 0 1.
Definition rldicr (ra rs : GPR) (sh me : Z) : M :=
  assert ((sh <? 64) && (me <? 64)) ;;
  EmitMD (gpr_idx rs) (gpr_idx ra) sh me 1 0.
Definition rldic (ra rs : GPR) (sh mb : Z) : M := EmitMD (gpr_idx rs) (gpr_idx ra) sh mb 2 0.
Definition rldimi (ra rs : GPR) (sh mb : Z) : M := EmitMD (gpr_idx rs) (gpr_idx ra) sh mb 3 0.
Definition rldcl (ra rs rb : GPR) (mb : Z) : M :=
  assert (mb <? 64) ;;
  let mb_high := (mb >>> 5) &&& 1 in
  let mb_low := mb &&& 0x1F in
  Emit32 ((30 <<u 26) ||| (gpr_idx rs <<u 21) ||| (gpr_idx ra <<u 16) ||| (gpr_idx rb <<u 11)
          ||| (mb_low <<u 6) ||| (mb_high <<u 5) ||| (8 <<u 1) ||| 0).
Definition rldcr (ra rs rb : GPR) (me : Z) : M :=
  assert (me <? 64) ;;
  let me_high := (me >>> 5) &&& 1 in
  let me_low := me &&& 0x1F in
  Emit32 ((30 <<u 26) ||| (gpr_idx rs <<u 21) ||| (gpr_idx ra <<u 16) ||| (gpr_idx rb <<u 11)
          ||| (me_low <<u 6) ||| (me_high <<u 5) ||| (9 <<u 1) ||| 0).
Definition sldi (ra rs : GPR) (n : Z) : M :=
  assert (n <? 64) ;;
  rldicr ra rs n (u32 (63 - n)).
Definition srdi (ra rs : GPR) (n : Z) : M :=
  assert ((0 <? n) && (n <? 64)) ;;
  rldicl ra rs (u32 (64 - n)) n.
Definition clrldi (ra rs : GPR) (n : Z) : M :=
  assert (n <? 64) ;;
  rldicl ra rs 0 n.
Definition clrrdi (ra rs : GPR) (n : Z) : M :=
  assert (n <? 64) ;;
  rldicr ra rs 0 (u32 (63 - n)).
Definition extsb (ra rs : GPR) : M := EmitX 31 (gpr_idx rs) (gpr_idx ra) 0 954 0.
Definition extsh (ra rs : GPR) : M := EmitX 31 (gpr_idx rs) (gpr_idx ra) 0 922 0.
Definition extsw (ra rs : GPR) : M := EmitX 31 (gpr_idx rs) (gpr_idx ra) 0 986 0.
Definition extsb_ (ra rs : GPR) : M := EmitX 31 (gpr_idx rs) (gpr_idx ra) 0 954 1.
Definition extsh_ (ra rs : GPR) : M := EmitX 31 (gpr_idx rs) (gpr_idx ra) 0 922 1.
Definition extsw_ (ra rs : GPR) : M := EmitX 31 (gpr_idx rs) (gpr_idx ra) 0 986 1.
Definition cntlzw (ra rs : GPR) : M := EmitX 31 (gpr_idx rs) (gpr_idx ra) 0 26 0.
Definition cntlzd (ra rs : GPR) : M := EmitX 31 (gpr_idx rs) (gpr_idx ra) 0 58 0.
Definition popcntw (ra rs : GPR) : M := EmitX 31 (gpr_idx rs) (gpr_idx ra) 0 378 0.
Definition popcntd (ra rs : GPR) : M := EmitX 31 (gpr_idx rs) (gpr_idx ra) 0 506 0.
Definition prtyd (ra rs : GPR) : M := EmitX 31 (gpr_idx rs) (gpr_idx ra) 0 186 0.
Definition bpermd (ra rs rb : GPR) : M := EmitX 31 (gpr_idx rs) (gpr_idx ra) (gpr_idx rb) 252 0.

(** ** Compare *)

Definition cmpdi (bf : CRField) (ra : GPR) (si : Z) : M :=
  Emit32 ((11 <<u 26) ||| (cr_idx bf <<u 23) ||| (1 <<u 21) ||| (gpr_idx ra <<u 16)
          ||| u16 si).
Definition cmpwi (bf : CRField) (ra : GPR) (si : Z) : M :=
  Emit32 ((11 <<u 26) ||| (cr_idx bf <<u 23) ||| (0 <<u 21) ||| (gpr_idx ra <<u 16)
          ||| u16 si).
Definition cmpldi (bf : CRField) (ra : GPR) (ui : Z) : M :=
  Emit32 ((10 <<u 26) ||| (cr_idx bf <<u 23) ||| (1 <<u 21) ||| (gpr_idx ra <<u 16) ||| ui).
Definition cmplwi (bf : CRField) (ra : GPR) (ui : Z) : M :=
  Emit32 ((10 <<u 26) ||| (cr_idx bf <<u 23) ||| (0 <<u 21) ||| (gpr_idx ra <<u 16) ||| ui).
Definition cmpd (bf : CRField) (ra rb : GPR) : M :=
  Emit32 ((31 <<u 26) ||| (cr_idx bf <<u 23) ||| (1 <<u 21) ||| (gpr_idx ra <<u 16)
          ||| (gpr_idx rb <<u 11) ||| (0 <<u 1)).
Definition cmpw (bf : CRField) (ra rb : GPR) : M :=
  Emit32 ((31 <<u 26) ||| (cr_idx bf <<u 23) ||| (0 <<u 21) ||| (gpr_idx ra <<u 16)
          ||| (gpr_idx rb <<u 11) ||| (0 <<u 1)).
Definition cmpld (bf : CRField) (ra rb : GPR) : M :=
  Emit32 ((31 <<u 26) ||| (cr_idx bf <<u 23) ||| (1 <<u 21) ||| (gpr_idx ra <<u 16)
          ||| (gpr_idx rb <<u 11) ||| (32 <<u 1)).
Definition cmplw (bf : CRField) (ra rb : GPR) : M :=
  Emit32 ((31 <<u 26) ||| (cr_idx bf <<u 23) ||| (0 <<u 21) ||| (gpr_idx ra <<u 16)
          ||| (gpr_idx rb <<u 11) ||| (32 <<u 1)).
Definition cmpdi_cr0 (ra : GPR) (si : Z) : M := cmpdi (cr 0) ra si.
Definition cmpwi_cr0 (ra : GPR) (si : Z) : M := cmpwi (cr 0) ra si.
Definition cmpldi_cr0 (ra : GPR) (ui : Z) : M := cmpldi (cr 0) ra ui.
Definition cmpd_cr0 (ra rb : GPR) : M := cmpd (cr 0) ra rb.
Definition cmpw_cr0 (ra rb : GPR) : M := cmpw (cr 0) ra rb.
Definition cmpld_cr0 (ra rb : GPR) : M := cmpld (cr 0) ra rb.
Definition cmplw_cr0 (ra rb : GPR) : M := cmplw (cr 0) ra rb.

(** ** Condition register operations *)

Definition crand (bt ba bb : Z) : M :=
  Emit32 ((19 <<u 26) ||| (bt <<u 21) ||| (ba <<u 16) ||| (bb <<u 11) ||| (257 <<u 1)).
Definition cror (bt ba bb : Z) : M :=
  Emit32 ((19 <<u 26) ||| (bt <<u 21) ||| (ba <<u 16) ||| (bb <<u 11) ||| (449 <<u 1)).
Definition crxor (bt ba bb : Z) : M :=
  Emit32 ((19 <<u 26) ||| (bt <<u 21) ||| (ba <<u 16) ||| (bb <<u 11) ||| (193 <<u 1)).
Definition creqv (bt ba bb : Z) : M :=
  Emit32 ((19 <<u 26) ||| (bt <<u 21) ||| (ba <<u 16) ||| (bb <<u 11) ||| (289 <<u 1)).
Definition crnor (bt ba bb : Z) : M :=
  Emit32 ((19 <<u 26) ||| (bt <<u 21) ||| (ba <<u 16) ||| (bb <<u 11) ||| (33 <<u 1)).
Definition crnot (bt ba : Z) : M := crnor bt ba ba.
Definition crmove (bt ba : Z) : M := cror bt ba ba.
Definition crset (bt : Z) : M := creqv bt bt bt.
Definition crclr (bt : Z) : M := crxor bt bt bt.
Definition crnand (bt ba bb : Z) : M :=
  Emit32 ((19 <<u 26) ||| (bt <<u 21) ||| (ba <<u 16) ||| (bb <<u 11) ||| (225 <<u 1)).
Definition crandc (bt ba bb : Z) : M :=
  Emit32 ((19 <<u 26) ||| (bt <<u 21) ||| (ba <<u 16) ||| (bb <<u 11) ||| (129 <<u 1)).
Definition mfcr (rt : GPR) : M := Emit32 ((31 <<u 26) ||| (gpr_idx rt <<u 21) ||| (19 <<u 1)).
Definition mfocrf (rt : GPR) (fxm : Z) : M :=
  assert (negb (fxm =? 0) && ((fxm &&& u32 (fxm - 1)) =? 0)) ;;
  Emit32 ((31 <<u 26) ||| (gpr_idx rt <<u 21) ||| (1 <<u 20) ||| (fxm <<u 12) ||| (19 <<u 1)).
Definition mtcrf (fxm : Z) (rs : GPR) : M :=
  Emit32 ((31 <<u 26) ||| (gpr_idx rs <<u 21) ||| (fxm <<u 12) ||| (144 <<u 1)).
Definition mtocrf (fxm : Z) (rs : GPR) : M :=
  assert (negb (fxm =? 0) && ((fxm &&& u32 (fxm - 1)) =? 0)) ;;
  Emit32 ((31 <<u 26) ||| (gpr_idx rs <<u 21) ||| (1 <<u 20) ||| (fxm <<u 12)
          ||| (144 <<u 1)).
Definition mcrxrx (bf : Z) : M :=
  assert (bf <? 8) ;;
  Emit32 ((31 <<u 26) ||| (bf <<u 23) ||| (576 <<u 1)).
Definition mtcr (rs : GPR) : M := mtcrf 0xFF rs.
Definition isel (rt ra rb : GPR) (bc : Z) : M :=
  assert (bc <? 32) ;;
  Emit32 ((31 <<u 26) ||| (gpr_idx rt <<u 21) ||| (gpr_idx ra <<u 16) ||| (gpr_idx rb <<u 11)
          ||| (bc <<u 6) ||| (15 <<u 1)).
Definition iselcc (rt : GPR) (cond : Cond) (vtrue vfalse : GPR) : M :=
  assert ((BO cond =? 12) || (BO cond =? 4)) ;;
  if negb (BO cond &&& 8 =? 0) then isel rt vtrue vfalse (BI cond)
  else isel rt vfalse vtrue (BI cond).

(** ** Load/Store (D-form and DS-form) *)

Definition lbz (rt : GPR) (d : Z) (ra : GPR) : M := EmitD 34 (gpr_idx rt) (gpr_idx ra) (u16 d).
Definition lhz (rt : GPR) (d : Z) (ra : GPR) : M := EmitD 40 (gpr_idx rt) (gpr_idx ra) (u16 d).
Definition lha (rt : GPR) (d : Z) (ra : GPR) : M := EmitD 42 (gpr_idx rt) (gpr_idx ra) (u16 d).
Definition lwz (rt : GPR) (d : Z) (ra : GPR) : M := EmitD 32 (gpr_idx rt) (gpr_idx ra) (u16 d).
Definition lwa (rt : GPR) (ds : Z) (ra : GPR) : M :=
  assert ((ds &&& 3) =? 0) ;;
  Emit32 ((58 <<u 26) ||| (gpr_idx rt <<u 21) ||| (gpr_idx ra <<u 16) ||| (u16 ds &&& 0xFFFC)
          ||| 2).
Definition ld (rt : GPR) (ds : Z) (ra : GPR) : M :=
  assert ((ds &&& 3) =? 0) ;;
  Emit32 ((58 <<u 26) ||| (gpr_idx rt <<u 21) ||| (gpr_idx ra <<u 16) ||| (u16 ds &&& 0xFFFC)
          ||| 0).
Definition ldu (rt : GPR) (ds : Z) (ra : GPR) : M :=
  assert ((ds &&& 3) =? 0) ;;
  Emit32 ((58 <<u 26) ||| (gpr_idx rt <<u 21) ||| (gpr_idx ra <<u 16) ||| (u16 ds &&& 0xFFFC)
          ||| 1).
Definition stb (rs : GPR) (d : Z) (ra : GPR) : M := EmitD 38 (gpr_idx rs) (gpr_idx ra) (u16 d).
Definition sth (rs : GPR) (d : Z) (ra : GPR) : M := EmitD 44 (gpr_idx rs) (gpr_idx ra) (u16 d).
Definition stw (rs : GPR) (d : Z) (ra : GPR) : M := EmitD 36 (gpr_idx rs) (gpr_idx ra) (u16 d).
Definition std (rs : GPR) (ds : Z) (ra : GPR) : M :=
  assert ((ds &&& 3) =? 0) ;;
  Emit32 ((62 <<u 26) ||| (gpr_idx rs <<u 21) ||| (gpr_idx ra <<u 16) ||| (u16 ds &&& 0xFFFC)
          ||| 0).
Definition stdu (rs : GPR) (ds : Z) (ra : GPR) : M :=
  assert ((ds &&& 3) =? 0) ;;
  Emit32 ((62 <<u 26) ||| (gpr_idx rs <<u 21) ||| (gpr_idx ra <<u 16) ||| (u16 ds &&& 0xFFFC)
          ||| 1).

(** ** Indexed Load/Store (X-form) *)

Definition lbzx (rt ra rb : GPR) : M := EmitX 31 (gpr_idx rt) (gpr_idx ra) (gpr_idx rb) 87 0.
Definition lhzx (rt ra rb : GPR) : M := EmitX 31 (gpr_idx rt) (gpr_idx ra) (gpr_idx rb) 279 0.
Definition lhax (rt ra rb : GPR) : M := EmitX 31 (gpr_idx rt) (gpr_idx ra) (gpr_idx rb) 343 0.
Definition lwzx (rt ra rb : GPR) : M := EmitX 31 (gpr_idx rt) (gpr_idx ra) (gpr_idx rb) 23 0.
Definition lwax (rt ra rb : GPR) : M := EmitX 31 (gpr_idx rt) (gpr_idx ra) (gpr_idx rb) 341 0.
Definition ldx (rt ra rb : GPR) : M := EmitX 31 (gpr_idx rt) (gpr_idx ra) (gpr_idx rb) 21 0.
Definition stbx (rs ra rb : GPR) : M := EmitX 31 (gpr_idx rs) (gpr_idx ra) (gpr_idx rb) 215 0.
Definition sthx (rs ra rb : GPR) : M := EmitX 31 (gpr_idx rs) (gpr_idx ra) (gpr_idx rb) 407 0.
Definition stwx (rs ra rb : GPR) : M := EmitX 31 (gpr_idx rs) (gpr_idx ra) (gpr_idx rb) 151 0.
Definition stdx (rs ra rb : GPR) : M := EmitX 31 (gpr_idx rs) (gpr_idx ra) (gpr_idx rb) 149 0.
Definition lhbrx (rt ra rb : GPR) : M := EmitX 31 (gpr_idx rt) (gpr_idx ra) (gpr_idx rb) 790 0.
Definition lwbrx (rt ra rb : GPR) : M := EmitX 31 (gpr_idx rt) (gpr_idx ra) (gpr_idx rb) 534 0.
Definition ldbrx (rt ra rb : GPR) : M := EmitX 31 (gpr_idx rt) (gpr_idx ra) (gpr_idx rb) 532 0.
Definition sthbrx (rs ra rb : GPR) : M := EmitX 31 (gpr_idx rs) (gpr_idx ra) (gpr_idx rb) 918 0.
Definition stwbrx (rs ra rb : GPR) : M := EmitX 31 (gpr_idx rs) (gpr_idx ra) (gpr_idx rb) 662 0.
Definition stdbrx (rs ra rb : GPR) : M := EmitX 31 (gpr_idx rs) (gpr_idx ra) (gpr_idx rb) 660 0.

(** ** Floating-point load/store (D-form and X-form) *)

Definition lfs (frt : FPR) (d : Z) (ra : GPR) : M :=
  EmitD 48 (fpr_idx frt) (gpr_idx ra) (u16 d).
Definition lfd (frt : FPR) (d : Z) (ra : GPR) : M :=
  EmitD 50 (fpr_idx frt) (gpr_idx ra) (u16 d).
Definition stfs (frs : FPR) (d : Z) (ra : GPR) : M :=
  EmitD 52 (fpr_idx frs) (gpr_idx ra) (u16 d).
Definition stfd (frs : FPR) (d : Z) (ra : GPR) : M :=
  EmitD 54 (fpr_idx frs) (gpr_idx ra) (u16 d).
Definition lfsx (frt : FPR) (ra rb : GPR) : M :=
  EmitX 31 (fpr_idx frt) (gpr_idx ra) (gpr_idx rb) 535 0.
Definition lfdx (frt : FPR) (ra rb : GPR) : M :=
  EmitX 31 (fpr_idx frt) (gpr_idx ra) (gpr_idx rb) 599 0.
Definition stfsx (frs : FPR) (ra rb : GPR) : M :=
  EmitX 31 (fpr_idx frs) (gpr_idx ra) (gpr_idx rb) 663 0.
Definition stfdx (frs : FPR) (ra rb : GPR) : M :=
  EmitX 31 (fpr_idx frs) (gpr_idx ra) (gpr_idx rb) 727 0.
Definition mffprd (rt : GPR) (frs : FPR) : M :=
  Emit32 ((31 <<u 26) ||| (fpr_idx frs <<u 21) ||| (gpr_idx rt <<u 16) ||| (51 <<u 1)).
Definition mtfprd (frt : FPR) (rs : GPR) : M :=
  Emit32 ((31 <<u 26) ||| (fpr_idx frt <<u 21) ||| (gpr_idx rs <<u 16) ||| (179 <<u 1)).
Definition mtvsrd (vrt : VR) (rs : GPR) : M :=
  Emit32 ((31 <<u 26) ||| (vr_idx vrt <<u 21) ||| (gpr_idx rs <<u 16) ||| (179 <<u 1) ||| 1).
Definition mfvsrd (rt : GPR) (vrs : VR) : M :=
  Emit32 ((31 <<u 26) ||| (vr_idx vrs <<u 21) ||| (gpr_idx rt <<u 16) ||| (51 <<u 1) ||| 1).
Definition xxpermdi (vrt vra vrb : VR) (dm : Z) : M :=
  assert (dm <? 4) ;;
  EmitXX3 (vr_idx vrt) (vr_idx vra) (vr_idx vrb) (10 ||| ((dm &&& 3) <<u 5)).
Definition xxsldwi (vrt vra vrb : VR) (shw : Z) : M :=
  assert (shw <? 4) ;;
  EmitXX3 (vr_idx vrt) (vr_idx vra) (vr_idx vrb) (2 ||| ((shw &&& 3) <<u 5)).
Definition xxsel (vrt vra vrb vrc : VR) : M :=
  Emit32 ((60 <<u 26) ||| (vr_idx vrt <<u 21) ||| (vr_idx vra <<u 16) ||| (vr_idx vrb <<u 11)
          ||| (vr_idx vrc <<u 6) ||| (3 <<u 4) ||| (1 <<u 3) ||| 0x7).
Definition xsaddsp (t a b : VR) : M := EmitXX3 (vr_idx t) (vr_idx a) (vr_idx b) 0.
Definition xssubsp (t a b : VR) : M := EmitXX3 (vr_idx t) (vr_idx a) (vr_idx b) 8.
Definition xsmulsp (t a b : VR) : M := EmitXX3 (vr_idx t) (vr_idx a) (vr_idx b) 16.
Definition xsdivsp (t a b : VR) : M := EmitXX3 (vr_idx t) (vr_idx a) (vr_idx b) 24.
Definition xsadddp (t a b : VR) : M := EmitXX3 (vr_idx t) (vr_idx a) (vr_idx b) 32.
Definition xssubdp (t a b : VR) : M := EmitXX3 (vr_idx t) (vr_idx a) (vr_idx b) 40.
Definition xsmuldp (t a b : VR) : M := EmitXX3 (vr_idx t) (vr_idx a) (vr_idx b) 48.
Definition xsdivdp (t a b : VR) : M := EmitXX3 (vr_idx t) (vr_idx a) (vr_idx b) 56.
Definition xsmaxdp (t a b : VR) : M := EmitXX3 (vr_idx t) (vr_idx a) (vr_idx b) 160.
Definition xsmindp (t a b : VR) : M := EmitXX3 (vr_idx t) (vr_idx a) (vr_idx b) 168.
Definition xvaddsp (t a b : VR) : M := EmitXX3 (vr_idx t) (vr_idx a) (vr_idx b) 64.
Definition xvsubsp (t a b : VR) : M := EmitXX3 (vr_idx t) (vr_idx a) (vr_idx b) 72.
Definition xvmulsp (t a b : VR) : M := EmitXX3 (vr_idx t) (vr_idx a) (vr_idx b) 80.
Definition xvdivsp (t a b : VR) : M := EmitXX3 (vr_idx t) (vr_idx a) (vr_idx b) 88.
Definition xvadddp (t a b : VR) : M := EmitXX3 (vr_idx t) (vr_idx a) (vr_idx b) 96.
Definition xvsubdp (t a b : VR) : M := EmitXX3 (vr_idx t) (vr_idx a) (vr_idx b) 104.
Definition xvmuldp (t a b : VR) : M := EmitXX3 (vr_idx t) (vr_idx a) (vr_idx b) 112.
Definition xvdivdp (t a b : VR) : M := EmitXX3 (vr_idx t) (vr_idx a) (vr_idx b) 120.
Definition xvmaddasp (t a b : VR) : M := EmitXX3 (vr_idx t) (vr_idx a) (vr_idx b) 65.
Definition xvmsubasp (t a b : VR) : M := EmitXX3 (vr_idx t) (vr_idx a) (vr_idx b) 81.
Definition xvnmaddasp (t a b : VR) : M := EmitXX3 (vr_idx t) (vr_idx a) (vr_idx b) 193.
Definition xvnmsubasp (t a b : VR) : M := EmitXX3 (vr_idx t) (vr_idx a) (vr_idx b) 209.
Definition xvmaddadp (t a b : VR) : M := EmitXX3 (vr_idx t) (vr_idx a) (vr_idx b) 97.
Definition xvmsubadp (t a b : VR) : M := EmitXX3 (vr_idx t) (vr_idx a) (vr_idx b) 113.
Definition xvnmaddadp (t a b : VR) : M := EmitXX3 (vr_idx t) (vr_idx a) (vr_idx b) 225.
Definition xvnmsubadp (t a b : VR) : M := EmitXX3 (vr_idx t) (vr_idx a) (vr_idx b) 241.
Definition xvmaddasp_vsx (t a b : VSXR) : M :=
  EmitXX3VSX (vsx_idx t) (vsx_idx a) (vsx_idx b) 65.
Definition xvmsubasp_vsx (t a b : VSXR) : M :=
  EmitXX3VSX (vsx_idx t) (vsx_idx a) (vsx_idx b) 81.
Definition xvnmaddasp_vsx (t a b : VSXR) : M :=
  EmitXX3VSX (vsx_idx t) (vsx_idx a) (vsx_idx b) 193.
Definition xvnmsubasp_vsx (t a b : VSXR) : M :=
  EmitXX3VSX (vsx_idx t) (vsx_idx a) (vsx_idx b) 209.
Definition xvmaddadp_vsx (t a b : VSXR) : M :=
  EmitXX3VSX (vsx_idx t) (vsx_idx a) (vsx_idx b) 97.
Definition xvmsubadp_vsx (t a b : VSXR) : M :=
  EmitXX3VSX (vsx_idx t) (vsx_idx a) (vsx_idx b) 113.
Definition xvnmaddadp_vsx (t a b : VSXR) : M :=
  EmitXX3VSX (vsx_idx t) (vsx_idx a) (vsx_idx b) 225.
Definition xvnmsubadp_vsx (t a b : VSXR) : M :=
  EmitXX3VSX (vsx_idx t) (vsx_idx a) (vsx_idx b) 241.
Definition xxpermdi_vsx (t a b : VSXR) (dm : Z) : M :=
  assert (dm <? 4) ;;
  EmitXX3VSX (vsx_idx t) (vsx_idx a) (vsx_idx b) (10 ||| ((dm &&& 3) <<u 5)).
Definition xxlxor_vsx (t a b : VSXR) : M := EmitXX3VSX (vsx_idx t) (vsx_idx a) (vsx_idx b) 154.
Definition xxspltw_vsx (t b : VSXR) (uim : Z) : M :=
  assert (uim <? 4) ;;
  Emit32 ((60 <<u 26) ||| ((vsx_idx t &&& 31) <<u 21) ||| ((uim &&& 3) <<u 16)
          ||| ((vsx_idx b &&& 31) <<u 11) ||| ((164 &&& 0x1FF) <<u 2)
          ||| (((vsx_idx b >>> 5) &&& 1) <<u 1) ||| ((vsx_idx t >>> 5) &&& 1)).
Definition xxsel_vsx (t a b c : VSXR) : M :=
  Emit32 ((60 <<u 26) ||| ((vsx_idx t &&& 31) <<u 21) ||| ((vsx_idx a &&& 31) <<u 16)
          ||| ((vsx_idx b &&& 31) <<u 11) ||| ((vsx_idx c &&& 31) <<u 6) ||| (3 <<u 4)
          ||| (((vsx_idx c >>> 5) &&& 1) <<u 3) ||| (((vsx_idx a >>> 5) &&& 1) <<u 2)
          ||| (((vsx_idx b >>> 5) &&& 1) <<u 1) ||| ((vsx_idx t >>> 5) &&& 1)).
Definition xvmaddmsp (t a b : VR) : M := EmitXX3 (vr_idx t) (vr_idx a) (vr_idx b) 73.
Definition xvmsubmsp (t a b : VR) : M := EmitXX3 (vr_idx t) (vr_idx a) (vr_idx b) 89.
Definition xvnmaddmsp (t a b : VR) : M := EmitXX3 (vr_idx t) (vr_idx a) (vr_idx b) 201.
Definition xvnmsubmsp (t a b : VR) : M := EmitXX3 (vr_idx t) (vr_idx a) (vr_idx b) 217.
Definition xvmaddmdp (t a b : VR) : M := EmitXX3 (vr_idx t) (vr_idx a) (vr_idx b) 105.
Definition xvmsubmdp (t a b : VR) : M := EmitXX3 (vr_idx t) (vr_idx a) (vr_idx b) 121.
Definition xvnmaddmdp (t a b : VR) : M := EmitXX3 (vr_idx t) (vr_idx a) (vr_idx b) 233.
Definition xvnmsubmdp (t a b : VR) : M := EmitXX3 (vr_idx t) (vr_idx a) (vr_idx b) 249.
Definition xxlor (t a b : VR) : M := EmitXX3 (vr_idx t) (vr_idx a) (vr_idx b) 146.
Definition xxlor_vsx (t a b : VSXR) : M := EmitXX3VSX (vsx_idx t) (vsx_idx a) (vsx_idx b) 146.
Definition xxlxor (t a b : VR) : M := EmitXX3 (vr_idx t) (vr_idx a) (vr_idx b) 154.
Definition xxland (t a b : VR) : M := EmitXX3 (vr_idx t) (vr_idx a) (vr_idx b) 130.
Definition xxlandc (t a b : VR) : M := EmitXX3 (vr_idx t) (vr_idx a) (vr_idx b) 138.
Definition xxlnor (t a b : VR) : M := EmitXX3 (vr_idx t) (vr_idx a) (vr_idx b) 162.
Definition xxlorc (t a b : VR) : M := EmitXX3 (vr_idx t) (vr_idx a) (vr_idx b) 170.
Definition xxlnand (t a b : VR) : M := EmitXX3 (vr_idx t) (vr_idx a) (vr_idx b) 178.
Definition xxleqv (t a b : VR) : M := EmitXX3 (vr_idx t) (vr_idx a) (vr_idx b) 186.
Definition xxspltw (t b : VR) (uim : Z) : M :=
  assert (uim <? 4) ;;
  Emit32 ((60 <<u 26) ||| (vr_idx t <<u 21) ||| ((uim &&& 3) <<u 16) ||| (vr_idx b <<u 11)
          ||| ((164 &&& 0x1FF) <<u 2) ||| (1 <<u 1) ||| 1).
Definition xxbrq (t b : VR) : M :=
  Emit32 ((60 <<u 26) ||| (vr_idx t <<u 21) ||| (31 <<u 16) ||| (vr_idx b <<u 11)
          ||| ((475 &&& 0x1FF) <<u 2) ||| (1 <<u 1) ||| 1).
Definition xvcvspsxws (t b : VR) : M := EmitXX2 (vr_idx t) (vr_idx b) 152.
Definition xvcvspuxws (t b : VR) : M := EmitXX2 (vr_idx t) (vr_idx b) 136.
Definition xvcvsxwsp (t b : VR) : M := EmitXX2 (vr_idx t) (vr_idx b) 184.
Definition xvcvuxwsp (t b : VR) : M := EmitXX2 (vr_idx t) (vr_idx b) 168.
Definition xscvdpsxws (t b : VR) : M := EmitXX2 (vr_idx t) (vr_idx b) 88.
Definition xscvdpsxds (t b : VR) : M := EmitXX2 (vr_idx t) (vr_idx b) 344.
Definition xscvsxdsp (t b : VR) : M := EmitXX2 (vr_idx t) (vr_idx b) 312.
Definition xscvuxdsp (t b : VR) : M := EmitXX2 (vr_idx t) (vr_idx b) 296.
Definition xscvsxddp (t b : VR) : M := EmitXX2 (vr_idx t) (vr_idx b) 376.
Definition xscvuxddp (t b : VR) : M := EmitXX2 (vr_idx t) (vr_idx b) 360.
Definition xscvspdp (t b : VR) : M := EmitXX2 (vr_idx t) (vr_idx b) 329.
Definition xscmpudp (bf : Z) (a b : VR) : M :=
  EmitXX3BF bf (u32 (vr_idx a + 32)) (u32 (vr_idx b + 32)) 35.
Definition xscmpodp (bf : Z) (a b : VR) : M :=
  EmitXX3BF bf (u32 (vr_idx a + 32)) (u32 (vr_idx b + 32)) 43.
Definition xscvdpsp (t b : VR) : M := EmitXX2 (vr_idx t) (vr_idx b) 265.
Definition xssqrtsp (t b : VR) : M := EmitXX2 (vr_idx t) (vr_idx b) 11.
Definition xssqrtdp (t b : VR) : M := EmitXX2 (vr_idx t) (vr_idx b) 75.
Definition xsabsdp (t b : VR) : M := EmitXX2 (vr_idx t) (vr_idx b) 345.
Definition xsnegdp (t b : VR) : M := EmitXX2 (vr_idx t) (vr_idx b) 377.
Definition xvabssp (t b : VR) : M := EmitXX2 (vr_idx t) (vr_idx b) 409.
Definition xvabsdp (t b : VR) : M := EmitXX2 (vr_idx t) (vr_idx b) 473.
Definition xvnegsp (t b : VR) : M := EmitXX2 (vr_idx t) (vr_idx b) 441.
Definition xvnegdp (t b : VR) : M := EmitXX2 (vr_idx t) (vr_idx b) 505.
Definition xvsqrtsp (t b : VR) : M := EmitXX2 (vr_idx t) (vr_idx b) 139.
Definition xvsqrtdp (t b : VR) : M := EmitXX2 (vr_idx t) (vr_idx b) 203.
Definition xvrspi (t b : VR) : M := EmitXX2 (vr_idx t) (vr_idx b) 137.
Definition xvrspip (t b : VR) : M := EmitXX2 (vr_idx t) (vr_idx b) 169.
Definition xvrspim (t b : VR) : M := EmitXX2 (vr_idx t) (vr_idx b) 185.
Definition xvrspiz (t b : VR) : M := EmitXX2 (vr_idx t) (vr_idx b) 153.
Definition xvrspic (t b : VR) : M := EmitXX2 (vr_idx t) (vr_idx b) 171.
Definition xsrdpic (t b : VR) : M := EmitXX2 (vr_idx t) (vr_idx b) 107.
Definition xsrdpim (t b : VR) : M := EmitXX2 (vr_idx t) (vr_idx b) 121.
Definition xsrdpip (t b : VR) : M := EmitXX2 (vr_idx t) (vr_idx b) 105.
Definition xsrdpiz (t b : VR) : M := EmitXX2 (vr_idx t) (vr_idx b) 89.
Definition xscvspdpn (t b : VR) : M := EmitXX2 (vr_idx t) (vr_idx b) 331.
Definition xscvdpspn (t b : VR) : M := EmitXX2 (vr_idx t) (vr_idx b) 267.
Definition xvrdpi (t b : VR) : M := EmitXX2 (vr_idx t) (vr_idx b) 201.
Definition xvrdpip (t b : VR) : M := EmitXX2 (vr_idx t) (vr_idx b) 233.
Definition xvrdpim (t b : VR) : M := EmitXX2 (vr_idx t) (vr_idx b) 249.
Definition xvrdpiz (t b : VR) : M := EmitXX2 (vr_idx t) (vr_idx b) 217.
Definition xvrdpic (t b : VR) : M := EmitXX2 (vr_idx t) (vr_idx b) 235.
Definition xvcvdpsxws (t b : VR) : M := EmitXX2 (vr_idx t) (vr_idx b) 216.
Definition xvcvdpuxws (t b : VR) : M := EmitXX2 (vr_idx t) (vr_idx b) 200.
Definition xvcvdpsxds (t b : VR) : M := EmitXX2 (vr_idx t) (vr_idx b) 472.
Definition xvcvspdp (t b : VR) : M := EmitXX2 (vr_idx t) (vr_idx b) 457.
Definition xvcvdpsp (t b : VR) : M := EmitXX2 (vr_idx t) (vr_idx b) 393.
Definition xvcvsxddp (t b : VR) : M := EmitXX2 (vr_idx t) (vr_idx b) 504.
Definition xvcvsxdsp (t b : VR) : M := EmitXX2 (vr_idx t) (vr_idx b) 440.
Definition xvcvsxwdp (t b : VR) : M := EmitXX2 (vr_idx t) (vr_idx b) 248.
Definition xvcpsgnsp (t a b : VR) : M := EmitXX3 (vr_idx t) (vr_idx a) (vr_idx b) 208.
Definition xvcpsgndp (t a b : VR) : M := EmitXX3 (vr_idx t) (vr_idx a) (vr_idx b) 240.
Definition xvmaxsp (t a b : VR) : M := EmitXX3 (vr_idx t) (vr_idx a) (vr_idx b) 192.
Definition xvminsp (t a b : VR) : M := EmitXX3 (vr_idx t) (vr_idx a) (vr_idx b) 200.
Definition xvmaxdp (t a b : VR) : M := EmitXX3 (vr_idx t) (vr_idx a) (vr_idx b) 224.
Definition xvmindp (t a b : VR) : M := EmitXX3 (vr_idx t) (vr_idx a) (vr_idx b) 232.
Definition xvcmpeqsp (t a b : VR) : M := EmitXX3 (vr_idx t) (vr_idx a) (vr_idx b) 67.
Definition xvcmpeqdp (t a b : VR) : M := EmitXX3 (vr_idx t) (vr_idx a) (vr_idx b) 99.
Definition xvcmpgtsp (t a b : VR) : M := EmitXX3 (vr_idx t) (vr_idx a) (vr_idx b) 75.
Definition xvcmpgtdp (t a b : VR) : M := EmitXX3 (vr_idx t) (vr_idx a) (vr_idx b) 107.
Definition xvcmpgesp (t a b : VR) : M := EmitXX3 (vr_idx t) (vr_idx a) (vr_idx b) 83.
Definition xvcmpgedp (t a b : VR) : M := EmitXX3 (vr_idx t) (vr_idx a) (vr_idx b) 115.

(** ** Floating-point arithmetic (opcode 63 = double; opcode 59 = single) *)

Definition fadd (frt fra frb : FPR) : M :=
  EmitA63 (fpr_idx frt) (fpr_idx fra) (fpr_idx frb) 0 21 0.
Definition fadds (frt fra frb : FPR) : M :=
  EmitA59 (fpr_idx frt) (fpr_idx fra) (fpr_idx frb) 0 21 0.
Definition fsub (frt fra frb : FPR) : M :=
  EmitA63 (fpr_idx frt) (fpr_idx fra) (fpr_idx frb) 0 20 0.
Definition fsubs (frt fra frb : FPR) : M :=
  EmitA59 (fpr_idx frt) (fpr_idx fra) (fpr_idx frb) 0 20 0.
Definition fmul (frt fra frc : FPR) : M :=
  EmitA63 (fpr_idx frt) (fpr_idx fra) 0 (fpr_idx frc) 25 0.
Definition fmuls (frt fra frc : FPR) : M :=
  EmitA59 (fpr_idx frt) (fpr_idx fra) 0 (fpr_idx frc) 25 0.
Definition fdiv (frt fra frb : FPR) : M :=
  EmitA63 (fpr_idx frt) (fpr_idx fra) (fpr_idx frb) 0 18 0.
Definition fdivs (frt fra frb : FPR) : M :=
  EmitA59 (fpr_idx frt) (fpr_idx fra) (fpr_idx frb) 0 18 0.
Definition fsqrt (frt frb : FPR) : M := EmitA63 (fpr_idx frt) 0 (fpr_idx frb) 0 22 0.
Definition fsqrts (frt frb : FPR) : M := EmitA59 (fpr_idx frt) 0 (fpr_idx frb) 0 22 0.
Definition fabs (frt frb : FPR) : M := EmitFX63 (fpr_idx frt) 0 (fpr_idx frb) 264 0.
Definition fnabs (frt frb : FPR) : M := EmitFX63 (fpr_idx frt) 0 (fpr_idx frb) 136 0.
Definition fneg (frt frb : FPR) : M := EmitFX63 (fpr_idx frt) 0 (fpr_idx frb) 40 0.
Definition fmr (frt frb : FPR) : M := EmitFX63 (fpr_idx frt) 0 (fpr_idx frb) 72 0.
Definition frsp (frt frb : FPR) : M := EmitFX63 (fpr_idx frt) 0 (fpr_idx frb) 12 0.
Definition frin (frt frb : FPR) : M := EmitFX63 (fpr_idx frt) 0 (fpr_idx frb) 392 0.
Definition friz (frt frb : FPR) : M := EmitFX63 (fpr_idx frt) 0 (fpr_idx frb) 424 0.
Definition frip (frt frb : FPR) : M := EmitFX63 (fpr_idx frt) 0 (fpr_idx frb) 456 0.
Definition frim (frt frb : FPR) : M := EmitFX63 (fpr_idx frt) 0 (fpr_idx frb) 488 0.
Definition fcmpu (bf : CRField) (fra frb : FPR) : M :=
  Emit32 ((63 <<u 26) ||| (cr_idx bf <<u 23) ||| (fpr_idx fra <<u 16) ||| (fpr_idx frb <<u 11)
          ||| (0 <<u 1)).
Definition fcmpu_cr0 (fra frb : FPR) : M := fcmpu (cr 0) fra frb.
Definition fcmpo (bf : CRField) (fra frb : FPR) : M :=
  Emit32 ((63 <<u 26) ||| (cr_idx bf <<u 23) ||| (fpr_idx fra <<u 16) ||| (fpr_idx frb <<u 11)
          ||| (32 <<u 1)).
Definition fmadd (frt fra frc frb : FPR) : M :=
  EmitA63 (fpr_idx frt) (fpr_idx fra) (fpr_idx frb) (fpr_idx frc) 29 0.
Definition fmadds (frt fra frc frb : FPR) : M :=
  EmitA59 (fpr_idx frt) (fpr_idx fra) (fpr_idx frb) (fpr_idx frc) 29 0.
Definition fmsub (frt fra frc frb : FPR) : M :=
  EmitA63 (fpr_idx frt) (fpr_idx fra) (fpr_idx frb) (fpr_idx frc) 28 0.
Definition fmsubs (frt fra frc frb : FPR) : M :=
  EmitA59 (fpr_idx frt) (fpr_idx fra) (fpr_idx frb) (fpr_idx frc) 28 0.
Definition fnmadd (frt fra frc frb : FPR) : M :=
  EmitA63 (fpr_idx frt) (fpr_idx fra) (fpr_idx frb) (fpr_idx frc) 31 0.
Definition fnmsub (frt fra frc frb : FPR) : M :=
  EmitA63 (fpr_idx frt) (fpr_idx fra) (fpr_idx frb) (fpr_idx frc) 30 0.
Definition fnmadds (frt fra frc frb : FPR) : M :=
  EmitA59 (fpr_idx frt) (fpr_idx fra) (fpr_idx frb) (fpr_idx frc) 31 0.
Definition fnmsubs (frt fra frc frb : FPR) : M :=
  EmitA59 (fpr_idx frt) (fpr_idx fra) (fpr_idx frb) (fpr_idx frc) 30 0.
Definition fsel (frt fra frc frb : FPR) : M :=
  EmitA63 (fpr_idx frt) (fpr_idx fra) (fpr_idx frb) (fpr_idx frc) 23 0.
Definition fres (frt frb : FPR) : M := EmitA59 (fpr_idx frt) 0 (fpr_idx frb) 0 24 0.
Definition frsqrte (frt frb : FPR) : M := EmitA63 (fpr_idx frt) 0 (fpr_idx frb) 0 26 0.
Definition frsqrtes (frt frb : FPR) : M := EmitA59 (fpr_idx frt) 0 (fpr_idx frb) 0 26 0.
Definition fctidu (frt frb : FPR) : M := EmitFX63 (fpr_idx frt) 0 (fpr_idx frb) 942 0.
Definition fctiduz (frt frb : FPR) : M := EmitFX63 (fpr_idx frt) 0 (fpr_idx frb) 943 0.
Definition fctiw (frt frb : FPR) : M := EmitFX63 (fpr_idx frt) 0 (fpr_idx frb) 14 0.
Definition fctiwz (frt frb : FPR) : M := EmitFX63 (fpr_idx frt) 0 (fpr_idx frb) 15 0.
Definition fctid (frt frb : FPR) : M := EmitFX63 (fpr_idx frt) 0 (fpr_idx frb) 814 0.
Definition fctidz (frt frb : FPR) : M := EmitFX63 (fpr_idx frt) 0 (fpr_idx frb) 815 0.
Definition fcfid (frt frb : FPR) : M := EmitFX63 (fpr_idx frt) 0 (fpr_idx frb) 846 0.
Definition fcfidu (frt frb : FPR) : M := EmitFX63 (fpr_idx frt) 0 (fpr_idx frb) 974 0.
Definition fctiwu (frt frb : FPR) : M := EmitFX63 (fpr_idx frt) 0 (fpr_idx frb) 142 0.
Definition fctiwuz (frt frb : FPR) : M := EmitFX63 (fpr_idx frt) 0 (fpr_idx frb) 143 0.
Definition fcfids (frt frb : FPR) : M := EmitFX59 (fpr_idx frt) 0 (fpr_idx frb) 846 0.
Definition fcfidus (frt frb : FPR) : M := EmitFX59 (fpr_idx frt) 0 (fpr_idx frb) 974 0.

(** ** AltiVec/VMX (opcode 4) *)

Definition lvx (vrt : VR) (ra rb : GPR) : M :=
  EmitX 31 (vr_idx vrt) (gpr_idx ra) (gpr_idx rb) 103 0.
Definition lvxl (vrt : VR) (ra rb : GPR) : M :=
  EmitX 31 (vr_idx vrt) (gpr_idx ra) (gpr_idx rb) 359 0.
Definition stvx (vrs : VR) (ra rb : GPR) : M :=
  EmitX 31 (vr_idx vrs) (gpr_idx ra) (gpr_idx rb) 231 0.
Definition stvxl (vrs : VR) (ra rb : GPR) : M :=
  EmitX 31 (vr_idx vrs) (gpr_idx ra) (gpr_idx rb) 487 0.
Definition lvsl (vrt : VR) (ra rb : GPR) : M :=
  EmitX 31 (vr_idx vrt) (gpr_idx ra) (gpr_idx rb) 6 0.
Definition lvsr (vrt : VR) (ra rb : GPR) : M :=
  EmitX 31 (vr_idx vrt) (gpr_idx ra) (gpr_idx rb) 38 0.
Definition lvewx (vrt : VR) (ra rb : GPR) : M :=
  EmitX 31 (vr_idx vrt) (gpr_idx ra) (gpr_idx rb) 71 0.
Definition lvehx (vrt : VR) (ra rb : GPR) : M :=
  EmitX 31 (vr_idx vrt) (gpr_idx ra) (gpr_idx rb) 39 0.
Definition lvebx (vrt : VR) (ra rb : GPR) : M :=
  EmitX 31 (vr_idx vrt) (gpr_idx ra) (gpr_idx rb) 7 0.
Definition stvewx (vrs : VR) (ra rb : GPR) : M :=
  EmitX 31 (vr_idx vrs) (gpr_idx ra) (gpr_idx rb) 199 0.
Definition stvehx (vrs : VR) (ra rb : GPR) : M :=
  EmitX 31 (vr_idx vrs) (gpr_idx ra) (gpr_idx rb) 167 0.
Definition stvebx (vrs : VR) (ra rb : GPR) : M :=
  EmitX 31 (vr_idx vrs) (gpr_idx ra) (gpr_idx rb) 135 0.

(** ** VSX vector/scalar loads and stores (X-form, primary opcode 31). *)

Definition lxvx (vrt : VR) (ra rb : GPR) : M :=
  EmitX 31 (vr_idx vrt) (gpr_idx ra) (gpr_idx rb) 268 1.
Definition stxvx (vrs : VR) (ra rb : GPR) : M :=
  EmitX 31 (vr_idx vrs) (gpr_idx ra) (gpr_idx rb) 396 1.
Definition lxvd2x (vrt : VR) (ra rb : GPR) : M :=
  EmitX 31 (vr_idx vrt) (gpr_idx ra) (gpr_idx rb) 844 1.
Definition lxvdsx (vrt : VR) (ra rb : GPR) : M :=
  EmitX 31 (vr_idx vrt) (gpr_idx ra) (gpr_idx rb) 332 1.
Definition stxvd2x (vrs : VR) (ra rb : GPR) : M :=
  EmitX 31 (vr_idx vrs) (gpr_idx ra) (gpr_idx rb) 972 1.
Definition stxvd2x_vsx (vss : VSXR) (ra rb : GPR) : M :=
  EmitX 31 (vsx_idx vss &&& 31) (gpr_idx ra) (gpr_idx rb) 972 ((vsx_idx vss >>> 5) &&& 1).
Definition lxvd2x_vsx (vst : VSXR) (ra rb : GPR) : M :=
  EmitX 31 (vsx_idx vst &&& 31) (gpr_idx ra) (gpr_idx rb) 844 ((vsx_idx vst >>> 5) &&& 1).
Definition lxvx_vsx (vst : VSXR) (ra rb : GPR) : M :=
  EmitX 31 (vsx_idx vst &&& 31) (gpr_idx ra) (gpr_idx rb) 268 ((vsx_idx vst >>> 5) &&& 1).
Definition stxvx_vsx (vss : VSXR) (ra rb : GPR) : M :=
  EmitX 31 (vsx_idx vss &&& 31) (gpr_idx ra) (gpr_idx rb) 396 ((vsx_idx vss >>> 5) &&& 1).
Definition lxsdx (vrt : VR) (ra rb : GPR) : M :=
  EmitX 31 (vr_idx vrt) (gpr_idx ra) (gpr_idx rb) 588 1.
Definition lxsiwzx (vrt : VR) (ra rb : GPR) : M :=
  EmitX 31 (vr_idx vrt) (gpr_idx ra) (gpr_idx rb) 12 1.
Definition stxsdx (vrs : VR) (ra rb : GPR) : M :=
  EmitX 31 (vr_idx vrs) (gpr_idx ra) (gpr_idx rb) 716 1.
Definition stxsdx_vsx (vss : VSXR) (ra rb : GPR) : M :=
  EmitX 31 (vsx_idx vss &&& 31) (gpr_idx ra) (gpr_idx rb) 716 ((vsx_idx vss >>> 5) &&& 1).
Definition stxsiwx (vrs : VR) (ra rb : GPR) : M :=
  EmitX 31 (vr_idx vrs) (gpr_idx ra) (gpr_idx rb) 140 1.
Definition stxsiwx_vsx (vss : VSXR) (ra rb : GPR) : M :=
  EmitX 31 (vsx_idx vss &&& 31) (gpr_idx ra) (gpr_idx rb) 140 ((vsx_idx vss >>> 5) &&& 1).
Definition lxsibzx (vrt : VR) (ra rb : GPR) : M :=
  EmitX 31 (vr_idx vrt) (gpr_idx ra) (gpr_idx rb) 781 1.
Definition lxsihzx (vrt : VR) (ra rb : GPR) : M :=
  EmitX 31 (vr_idx vrt) (gpr_idx ra) (gpr_idx rb) 813 1.
Definition vaddubm (vrt vra vrb : VR) : M := EmitVX (vr_idx vrt) (vr_idx vra) (vr_idx vrb) 0.
Definition vadduhm (vrt vra vrb : VR) : M := EmitVX (vr_idx vrt) (vr_idx vra) (vr_idx vrb) 64.
Definition vadduwm (vrt vra vrb : VR) : M := EmitVX (vr_idx vrt) (vr_idx vra) (vr_idx vrb) 128.
Definition vaddudm (vrt vra vrb : VR) : M := EmitVX (vr_idx vrt) (vr_idx vra) (vr_idx vrb) 192.
Definition vsububm (vrt vra vrb : VR) : M := EmitVX (vr_idx vrt) (vr_idx vra) (vr_idx vrb) 1024.
Definition vsubuhm (vrt vra vrb : VR) : M := EmitVX (vr_idx vrt) (vr_idx vra) (vr_idx vrb) 1088.
Definition vsubuwm (vrt vra vrb : VR) : M := EmitVX (vr_idx vrt) (vr_idx vra) (vr_idx vrb) 1152.
Definition vsubudm (vrt vra vrb : VR) : M := EmitVX (vr_idx vrt) (vr_idx vra) (vr_idx vrb) 1216.
Definition vmuloub (vrt vra vrb : VR) : M := EmitVX (vr_idx vrt) (vr_idx vra) (vr_idx vrb) 8.
Definition vmulouh (vrt vra vrb : VR) : M := EmitVX (vr_idx vrt) (vr_idx vra) (vr_idx vrb) 72.
Definition vmulouw (vrt vra vrb : VR) : M := EmitVX (vr_idx vrt) (vr_idx vra) (vr_idx vrb) 136.
Definition vmuluwm (vrt vra vrb : VR) : M := EmitVX (vr_idx vrt) (vr_idx vra) (vr_idx vrb) 137.
Definition vmulesb (vrt vra vrb : VR) : M := EmitVX (vr_idx vrt) (vr_idx vra) (vr_idx vrb) 776.
Definition vmulesh (vrt vra vrb : VR) : M := EmitVX (vr_idx vrt) (vr_idx vra) (vr_idx vrb) 840.
Definition vmulesw (vrt vra vrb : VR) : M := EmitVX (vr_idx vrt) (vr_idx vra) (vr_idx vrb) 904.
Definition vmulosb (vrt vra vrb : VR) : M := EmitVX (vr_idx vrt) (vr_idx vra) (vr_idx vrb) 264.
Definition vmulosh (vrt vra vrb : VR) : M := EmitVX (vr_idx vrt) (vr_idx vra) (vr_idx vrb) 328.
Definition vmulosw (vrt vra vrb : VR) : M := EmitVX (vr_idx vrt) (vr_idx vra) (vr_idx vrb) 392.
Definition vmuleub (vrt vra vrb : VR) : M := EmitVX (vr_idx vrt) (vr_idx vra) (vr_idx vrb) 520.
Definition vmuleuh (vrt vra vrb : VR) : M := EmitVX (vr_idx vrt) (vr_idx vra) (vr_idx vrb) 584.
Definition vmuleuw (vrt vra vrb : VR) : M := EmitVX (vr_idx vrt) (vr_idx vra) (vr_idx vrb) 648.
Definition vand (vrt vra vrb : VR) : M := EmitVX (vr_idx vrt) (vr_idx vra) (vr_idx vrb) 1028.
Definition vandc (vrt vra vrb : VR) : M := EmitVX (vr_idx vrt) (vr_idx vra) (vr_idx vrb) 1092.
Definition vor (vrt vra vrb : VR) : M := EmitVX (vr_idx vrt) (vr_idx vra) (vr_idx vrb) 1156.
Definition vnor (vrt vra vrb : VR) : M := EmitVX (vr_idx vrt) (vr_idx vra) (vr_idx vrb) 1284.
Definition vxor (vrt vra vrb : VR) : M := EmitVX (vr_idx vrt) (vr_idx vra) (vr_idx vrb) 1220.
Definition vorc (vrt vra vrb : VR) : M := EmitVX (vr_idx vrt) (vr_idx vra) (vr_idx vrb) 1348.
Definition vnand (vrt vra vrb : VR) : M := EmitVX (vr_idx vrt) (vr_idx vra) (vr_idx vrb) 1412.
Definition veqv (vrt vra vrb : VR) : M := EmitVX (vr_idx vrt) (vr_idx vra) (vr_idx vrb) 1668.
Definition vmr (vrt vra : VR) : M := vor vrt vra vra.
Definition vnot (vrt vra : VR) : M := vnor vrt vra vra.
Definition vrlb (vrt vra vrb : VR) : M := EmitVX (vr_idx vrt) (vr_idx vra) (vr_idx vrb) 4.
Definition vrlh (vrt vra vrb : VR) : M := EmitVX (vr_idx vrt) (vr_idx vra) (vr_idx vrb) 68.
Definition vrlw (vrt vra vrb : VR) : M := EmitVX (vr_idx vrt) (vr_idx vra) (vr_idx vrb) 132.
Definition vrld (vrt vra vrb : VR) : M := EmitVX (vr_idx vrt) (vr_idx vra) (vr_idx vrb) 196.
Definition vslb (vrt vra vrb : VR) : M := EmitVX (vr_idx vrt) (vr_idx vra) (vr_idx vrb) 260.
Definition vslh (vrt vra vrb : VR) : M := EmitVX (vr_idx vrt) (vr_idx vra) (vr_idx vrb) 324.
Definition vslw (vrt vra vrb : VR) : M := EmitVX (vr_idx vrt) (vr_idx vra) (vr_idx vrb) 388.
Definition vsld (vrt vra vrb : VR) : M := EmitVX (vr_idx vrt) (vr_idx vra) (vr_idx vrb) 1476.
Definition vsrb (vrt vra vrb : VR) : M := EmitVX (vr_idx vrt) (vr_idx vra) (vr_idx vrb) 516.
Definition vsrh (vrt vra vrb : VR) : M := EmitVX (vr_idx vrt) (vr_idx vra) (vr_idx vrb) 580.
Definition vsrw (vrt vra vrb : VR) : M := EmitVX (vr_idx vrt) (vr_idx vra) (vr_idx vrb) 644.
Definition vsrd (vrt vra vrb : VR) : M := EmitVX (vr_idx vrt) (vr_idx vra) (vr_idx vrb) 1732.
Definition vsrab (vrt vra vrb : VR) : M := EmitVX (vr_idx vrt) (vr_idx vra) (vr_idx vrb) 772.
Definition vsrah (vrt vra vrb : VR) : M := EmitVX (vr_idx vrt) (vr_idx vra) (vr_idx vrb) 836.
Definition vsraw (vrt vra vrb : VR) : M := EmitVX (vr_idx vrt) (vr_idx vra) (vr_idx vrb) 900.
Definition vsrad (vrt vra vrb : VR) : M := EmitVX (vr_idx vrt) (vr_idx vra) (vr_idx vrb) 964.
Definition vsldoi (vrt vra vrb : VR) (shb : Z) : M :=
  assert (shb <? 16) ;;
  EmitVA (vr_idx vrt) (vr_idx vra) (vr_idx vrb) shb 44.
Definition vaddubs (vrt vra vrb : VR) : M := EmitVX (vr_idx vrt) (vr_idx vra) (vr_idx vrb) 512.
Definition vadduhs (vrt vra vrb : VR) : M := EmitVX (vr_idx vrt) (vr_idx vra) (vr_idx vrb) 576.
Definition vadduws (vrt vra vrb : VR) : M := EmitVX (vr_idx vrt) (vr_idx vra) (vr_idx vrb) 640.
Definition vaddsbs (vrt vra vrb : VR) : M := EmitVX (vr_idx vrt) (vr_idx vra) (vr_idx vrb) 768.
Definition vaddshs (vrt vra vrb : VR) : M := EmitVX (vr_idx vrt) (vr_idx vra) (vr_idx vrb) 832.
Definition vaddsws (vrt vra vrb : VR) : M := EmitVX (vr_idx vrt) (vr_idx vra) (vr_idx vrb) 896.
Definition vsububs (vrt vra vrb : VR) : M := EmitVX (vr_idx vrt) (vr_idx vra) (vr_idx vrb) 1536.
Definition vsubsbs (vrt vra vrb : VR) : M := EmitVX (vr_idx vrt) (vr_idx vra) (vr_idx vrb) 1792.
Definition vsubshs (vrt vra vrb : VR) : M := EmitVX (vr_idx vrt) (vr_idx vra) (vr_idx vrb) 1856.
Definition vsubsws (vrt vra vrb : VR) : M := EmitVX (vr_idx vrt) (vr_idx vra) (vr_idx vrb) 1920.
Definition vsubuhs (vrt vra vrb : VR) : M := EmitVX (vr_idx vrt) (vr_idx vra) (vr_idx vrb) 1600.
Definition vsubuws (vrt vra vrb : VR) : M := EmitVX (vr_idx vrt) (vr_idx vra) (vr_idx vrb) 1664.
Definition vavgub (vrt vra vrb : VR) : M := EmitVX (vr_idx vrt) (vr_idx vra) (vr_idx vrb) 1026.
Definition vavguh (vrt vra vrb : VR) : M := EmitVX (vr_idx vrt) (vr_idx vra) (vr_idx vrb) 1090.
Definition vavguw (vrt vra vrb : VR) : M := EmitVX (vr_idx vrt) (vr_idx vra) (vr_idx vrb) 1154.
Definition vsumsws (vrt vra vrb : VR) : M := EmitVX (vr_idx vrt) (vr_idx vra) (vr_idx vrb) 1928.
Definition vsum2sws (vrt vra vrb : VR) : M :=
  EmitVX (vr_idx vrt) (vr_idx vra) (vr_idx vrb) 1672.
Definition vsum4sbs (vrt vra vrb : VR) : M :=
  EmitVX (vr_idx vrt) (vr_idx vra) (vr_idx vrb) 1800.
Definition vsum4shs (vrt vra vrb : VR) : M :=
  EmitVX (vr_idx vrt) (vr_idx vra) (vr_idx vrb) 1608.
Definition vsum4ubs (vrt vra vrb : VR) : M :=
  EmitVX (vr_idx vrt) (vr_idx vra) (vr_idx vrb) 1544.
Definition vmrghb (vrt vra vrb : VR) : M := EmitVX (vr_idx vrt) (vr_idx vra) (vr_idx vrb) 12.
Definition vmrghh (vrt vra vrb : VR) : M := EmitVX (vr_idx vrt) (vr_idx vra) (vr_idx vrb) 76.
Definition vmrghw (vrt vra vrb : VR) : M := EmitVX (vr_idx vrt) (vr_idx vra) (vr_idx vrb) 140.
Definition vmrglb (vrt vra vrb : VR) : M := EmitVX (vr_idx vrt) (vr_idx vra) (vr_idx vrb) 268.
Definition vmrglh (vrt vra vrb : VR) : M := EmitVX (vr_idx vrt) (vr_idx vra) (vr_idx vrb) 332.
Definition vmrglw (vrt vra vrb : VR) : M := EmitVX (vr_idx vrt) (vr_idx vra) (vr_idx vrb) 396.
Definition vmrgew (vrt vra vrb : VR) : M := EmitVX (vr_idx vrt) (vr_idx vra) (vr_idx vrb) 1932.
Definition vmrgow (vrt vra vrb : VR) : M := EmitVX (vr_idx vrt) (vr_idx vra) (vr_idx vrb) 1676.
Definition vspltb (vrt vrb : VR) (uimm : Z) : M :=
  EmitVX (vr_idx vrt) (uimm &&& 0xF) (vr_idx vrb) 524.
Definition vsplth (vrt vrb : VR) (uimm : Z) : M :=
  EmitVX (vr_idx vrt) (uimm &&& 0x7) (vr_idx vrb) 588.
Definition vspltw (vrt vrb : VR) (uimm : Z) : M :=
  EmitVX (vr_idx vrt) (uimm &&& 0x3) (vr_idx vrb) 652.
Definition vspltisb (vrt : VR) (simm : Z) : M := EmitVX (vr_idx vrt) (simm &&& 0x1F) 0 780.
Definition vspltish (vrt : VR) (simm : Z) : M := EmitVX (vr_idx vrt) (simm &&& 0x1F) 0 844.
Definition vspltisw (vrt : VR) (simm : Z) : M := EmitVX (vr_idx vrt) (simm &&& 0x1F) 0 908.
Definition vperm (vrt vra vrb vrc : VR) : M :=
  EmitVA (vr_idx vrt) (vr_idx vra) (vr_idx vrb) (vr_idx vrc) 43.
Definition vsel (vrt vra vrb vrc : VR) : M :=
  EmitVA (vr_idx vrt) (vr_idx vra) (vr_idx vrb) (vr_idx vrc) 42.
Definition vcmpequb (vrt vra vrb : VR) : M := EmitVX (vr_idx vrt) (vr_idx vra) (vr_idx vrb) 6.
Definition vcmpequh (vrt vra vrb : VR) : M := EmitVX (vr_idx vrt) (vr_idx vra) (vr_idx vrb) 70.
Definition vcmpequw (vrt vra vrb : VR) : M := EmitVX (vr_idx vrt) (vr_idx vra) (vr_idx vrb) 134.
Definition vcmpequd (vrt vra vrb : VR) : M := EmitVX (vr_idx vrt) (vr_idx vra) (vr_idx vrb) 199.
Definition vcmpgtsb (vrt vra vrb : VR) : M := EmitVX (vr_idx vrt) (vr_idx vra) (vr_idx vrb) 774.
Definition vcmpgtsh (vrt vra vrb : VR) : M := EmitVX (vr_idx vrt) (vr_idx vra) (vr_idx vrb) 838.
Definition vcmpgtsw (vrt vra vrb : VR) : M := EmitVX (vr_idx vrt) (vr_idx vra) (vr_idx vrb) 902.
Definition vcmpgtsd (vrt vra vrb : VR) : M := EmitVX (vr_idx vrt) (vr_idx vra) (vr_idx vrb) 967.
Definition vcmpgtub (vrt vra vrb : VR) : M := EmitVX (vr_idx vrt) (vr_idx vra) (vr_idx vrb) 518.
Definition vcmpgtuh (vrt vra vrb : VR) : M := EmitVX (vr_idx vrt) (vr_idx vra) (vr_idx vrb) 582.
Definition vcmpgtuw (vrt vra vrb : VR) : M := EmitVX (vr_idx vrt) (vr_idx vra) (vr_idx vrb) 646.
Definition vcmpgtud (vrt vra vrb : VR) : M := EmitVX (vr_idx vrt) (vr_idx vra) (vr_idx vrb) 711.
Definition vcmpequb_ (vrt vra vrb : VR) : M :=
  EmitVX (vr_idx vrt) (vr_idx vra) (vr_idx vrb) (6 ||| 0x400).
Definition vcmpequh_ (vrt vra vrb : VR) : M :=
  EmitVX (vr_idx vrt) (vr_idx vra) (vr_idx vrb) (70 ||| 0x400).
Definition vcmpequw_ (vrt vra vrb : VR) : M :=
  EmitVX (vr_idx vrt) (vr_idx vra) (vr_idx vrb) (134 ||| 0x400).
Definition vcmpequd_ (vrt vra vrb : VR) : M :=
  EmitVX (vr_idx vrt) (vr_idx vra) (vr_idx vrb) (199 ||| 0x400).
Definition vcmpeqfp (vrt vra vrb : VR) : M := EmitVX (vr_idx vrt) (vr_idx vra) (vr_idx vrb) 198.
Definition vcmpgefp (vrt vra vrb : VR) : M := EmitVX (vr_idx vrt) (vr_idx vra) (vr_idx vrb) 454.
Definition vcmpgtfp (vrt vra vrb : VR) : M := EmitVX (vr_idx vrt) (vr_idx vra) (vr_idx vrb) 710.
Definition vcmpbfp (vrt vra vrb : VR) : M := EmitVX (vr_idx vrt) (vr_idx vra) (vr_idx vrb) 966.
Definition vaddfp (vrt vra vrb : VR) : M := EmitVX (vr_idx vrt) (vr_idx vra) (vr_idx vrb) 10.
Definition vsubfp (vrt vra vrb : VR) : M := EmitVX (vr_idx vrt) (vr_idx vra) (vr_idx vrb) 74.
Definition vmaddfp (vrt vra vrb vrc : VR) : M :=
  EmitVA (vr_idx vrt) (vr_idx vra) (vr_idx vrb) (vr_idx vrc) 46.
Definition vnmsubfp (vrt vra vrb vrc : VR) : M :=
  EmitVA (vr_idx vrt) (vr_idx vra) (vr_idx vrb) (vr_idx vrc) 47.
Definition vmaxfp (vrt vra vrb : VR) : M := EmitVX (vr_idx vrt) (vr_idx vra) (vr_idx vrb) 1034.
Definition vminfp (vrt vra vrb : VR) : M := EmitVX (vr_idx vrt) (vr_idx vra) (vr_idx vrb) 1098.
Definition vrfin (vrt vrb : VR) : M := EmitVX (vr_idx vrt) 0 (vr_idx vrb) 522.
Definition vrfip (vrt vrb : VR) : M := EmitVX (vr_idx vrt) 0 (vr_idx vrb) 650.
Definition vrfim (vrt vrb : VR) : M := EmitVX (vr_idx vrt) 0 (vr_idx vrb) 714.
Definition vrfiz (vrt vrb : VR) : M := EmitVX (vr_idx vrt) 0 (vr_idx vrb) 586.
Definition vrefp (vrt vrb : VR) : M := EmitVX (vr_idx vrt) 0 (vr_idx vrb) 266.
Definition vrsqrtefp (vrt vrb : VR) : M := EmitVX (vr_idx vrt) 0 (vr_idx vrb) 330.
Definition vlogefp (vrt vrb : VR) : M := EmitVX (vr_idx vrt) 0 (vr_idx vrb) 458.
Definition vexptefp (vrt vrb : VR) : M := EmitVX (vr_idx vrt) 0 (vr_idx vrb) 394.
Definition vctsxs (vrt vrb : VR) (uimm : Z) : M :=
  EmitVX (vr_idx vrt) (uimm &&& 0x1F) (vr_idx vrb) 970.
Definition vctuxs (vrt vrb : VR) (uimm : Z) : M :=
  EmitVX (vr_idx vrt) (uimm &&& 0x1F) (vr_idx vrb) 906.
Definition vcfsx (vrt vrb : VR) (uimm : Z) : M :=
  EmitVX (vr_idx vrt) (uimm &&& 0x1F) (vr_idx vrb) 842.
Definition vcfux (vrt vrb : VR) (uimm : Z) : M :=
  EmitVX (vr_idx vrt) (uimm &&& 0x1F) (vr_idx vrb) 778.
Definition vmaxub (vrt vra vrb : VR) : M := EmitVX (vr_idx vrt) (vr_idx vra) (vr_idx vrb) 2.
Definition vmaxuh (vrt vra vrb : VR) : M := EmitVX (vr_idx vrt) (vr_idx vra) (vr_idx vrb) 66.
Definition vmaxuw (vrt vra vrb : VR) : M := EmitVX (vr_idx vrt) (vr_idx vra) (vr_idx vrb) 130.
Definition vmaxud (vrt vra vrb : VR) : M := EmitVX (vr_idx vrt) (vr_idx vra) (vr_idx vrb) 194.
Definition vmaxsb (vrt vra vrb : VR) : M := EmitVX (vr_idx vrt) (vr_idx vra) (vr_idx vrb) 258.
Definition vmaxsh (vrt vra vrb : VR) : M := EmitVX (vr_idx vrt) (vr_idx vra) (vr_idx vrb) 322.
Definition vmaxsw (vrt vra vrb : VR) : M := EmitVX (vr_idx vrt) (vr_idx vra) (vr_idx vrb) 386.
Definition vmaxsd (vrt vra vrb : VR) : M := EmitVX (vr_idx vrt) (vr_idx vra) (vr_idx vrb) 450.
Definition vminub (vrt vra vrb : VR) : M := EmitVX (vr_idx vrt) (vr_idx vra) (vr_idx vrb) 514.
Definition vminuh (vrt vra vrb : VR) : M := EmitVX (vr_idx vrt) (vr_idx vra) (vr_idx vrb) 578.
Definition vminuw (vrt vra vrb : VR) : M := EmitVX (vr_idx vrt) (vr_idx vra) (vr_idx vrb) 642.
Definition vminud (vrt vra vrb : VR) : M := EmitVX (vr_idx vrt) (vr_idx vra) (vr_idx vrb) 706.
Definition vminsb (vrt vra vrb : VR) : M := EmitVX (vr_idx vrt) (vr_idx vra) (vr_idx vrb) 770.
Definition vminsh (vrt vra vrb : VR) : M := EmitVX (vr_idx vrt) (vr_idx vra) (vr_idx vrb) 834.
Definition vminsw (vrt vra vrb : VR) : M := EmitVX (vr_idx vrt) (vr_idx vra) (vr_idx vrb) 898.
Definition vminsd (vrt vra vrb : VR) : M := EmitVX (vr_idx vrt) (vr_idx vra) (vr_idx vrb) 962.
Definition vabsdub (vrt vra vrb : VR) : M := EmitVX (vr_idx vrt) (vr_idx vra) (vr_idx vrb) 1027.
Definition vabsduh (vrt vra vrb : VR) : M := EmitVX (vr_idx vrt) (vr_idx vra) (vr_idx vrb) 1091.
Definition vabsduw (vrt vra vrb : VR) : M := EmitVX (vr_idx vrt) (vr_idx vra) (vr_idx vrb) 1155.
Definition vpkuhum (vrt vra vrb : VR) : M := EmitVX (vr_idx vrt) (vr_idx vra) (vr_idx vrb) 14.
Definition vpkuwum (vrt vra vrb : VR) : M := EmitVX (vr_idx vrt) (vr_idx vra) (vr_idx vrb) 78.
Definition vpkudum (vrt vra vrb : VR) : M := EmitVX (vr_idx vrt) (vr_idx vra) (vr_idx vrb) 1102.
Definition vpkuhus (vrt vra vrb : VR) : M := EmitVX (vr_idx vrt) (vr_idx vra) (vr_idx vrb) 142.
Definition vpkuwus (vrt vra vrb : VR) : M := EmitVX (vr_idx vrt) (vr_idx vra) (vr_idx vrb) 206.
Definition vpkudus (vrt vra vrb : VR) : M := EmitVX (vr_idx vrt) (vr_idx vra) (vr_idx vrb) 1230.
Definition vpkshus (vrt vra vrb : VR) : M := EmitVX (vr_idx vrt) (vr_idx vra) (vr_idx vrb) 270.
Definition vpkswus (vrt vra vrb : VR) : M := EmitVX (vr_idx vrt) (vr_idx vra) (vr_idx vrb) 334.
Definition vpksdus (vrt vra vrb : VR) : M := EmitVX (vr_idx vrt) (vr_idx vra) (vr_idx vrb) 1358.
Definition vpkshss (vrt vra vrb : VR) : M := EmitVX (vr_idx vrt) (vr_idx vra) (vr_idx vrb) 398.
Definition vpkswss (vrt vra vrb : VR) : M := EmitVX (vr_idx vrt) (vr_idx vra) (vr_idx vrb) 462.
Definition vpksdss (vrt vra vrb : VR) : M := EmitVX (vr_idx vrt) (vr_idx vra) (vr_idx vrb) 1486.
Definition vpkpx (vrt vra vrb : VR) : M := EmitVX (vr_idx vrt) (vr_idx vra) (vr_idx vrb) 782.
Definition vupkhsb (vrt vrb : VR) : M := EmitVX (vr_idx vrt) 0 (vr_idx vrb) 526.
Definition vupkhsh (vrt vrb : VR) : M := EmitVX (vr_idx vrt) 0 (vr_idx vrb) 590.
Definition vupkhsw (vrt vrb : VR) : M := EmitVX (vr_idx vrt) 0 (vr_idx vrb) 1614.
Definition vupklsb (vrt vrb : VR) : M := EmitVX (vr_idx vrt) 0 (vr_idx vrb) 654.
Definition vupklsh (vrt vrb : VR) : M := EmitVX (vr_idx vrt) 0 (vr_idx vrb) 718.
Definition vupklsw (vrt vrb : VR) : M := EmitVX (vr_idx vrt) 0 (vr_idx vrb) 1742.
Definition vpopcntb (vrt vrb : VR) : M :=
  Emit32 ((4 <<u 26) ||| (vr_idx vrt <<u 21) ||| (0 <<u 16) ||| (vr_idx vrb <<u 11) ||| 1795).
Definition vpopcnth (vrt vrb : VR) : M :=
  Emit32 ((4 <<u 26) ||| (vr_idx vrt <<u 21) ||| (0 <<u 16) ||| (vr_idx vrb <<u 11) ||| 1859).
Definition vpopcntw (vrt vrb : VR) : M :=
  Emit32 ((4 <<u 26) ||| (vr_idx vrt <<u 21) ||| (0 <<u 16) ||| (vr_idx vrb <<u 11) ||| 1923).
Definition vpopcntd (vrt vrb : VR) : M :=
  Emit32 ((4 <<u 26) ||| (vr_idx vrt <<u 21) ||| (0 <<u 16) ||| (vr_idx vrb <<u 11) ||| 1987).
Definition vbpermq (vrt vra vrb : VR) : M := EmitVX (vr_idx vrt) (vr_idx vra) (vr_idx vrb) 1356.
Definition vcipher (vrt vra vrb : VR) : M := EmitVX (vr_idx vrt) (vr_idx vra) (vr_idx vrb) 1288.
Definition vcipherlast (vrt vra vrb : VR) : M :=
  EmitVX (vr_idx vrt) (vr_idx vra) (vr_idx vrb) 1289.
Definition vncipher (vrt vra vrb : VR) : M :=
  EmitVX (vr_idx vrt) (vr_idx vra) (vr_idx vrb) 1352.
Definition vncipherlast (vrt vra vrb : VR) : M :=
  EmitVX (vr_idx vrt) (vr_idx vra) (vr_idx vrb) 1353.
Definition vsbox (vrt vra : VR) : M := EmitVX (vr_idx vrt) (vr_idx vra) 0 1480.
Definition vpmsumb (vrt vra vrb : VR) : M := EmitVX (vr_idx vrt) (vr_idx vra) (vr_idx vrb) 1032.
Definition vpmsumh (vrt vra vrb : VR) : M := EmitVX (vr_idx vrt) (vr_idx vra) (vr_idx vrb) 1096.
Definition vpmsumw (vrt vra vrb : VR) : M := EmitVX (vr_idx vrt) (vr_idx vra) (vr_idx vrb) 1160.
Definition vpmsumd (vrt vra vrb : VR) : M := EmitVX (vr_idx vrt) (vr_idx vra) (vr_idx vrb) 1224.
Definition vpermxor (vrt vra vrb vrc : VR) : M :=
  EmitVA (vr_idx vrt) (vr_idx vra) (vr_idx vrb) (vr_idx vrc) 45.
Definition vshasigmaw (vrt vra : VR) (st six : Z) : M :=
  EmitVX (vr_idx vrt) (vr_idx vra) (((st &&& 1) <<u 4) ||| (six &&& 0xF)) 1666.
Definition vshasigmad (vrt vra : VR) (st six : Z) : M :=
  EmitVX (vr_idx vrt) (vr_idx vra) (((st &&& 1) <<u 4) ||| (six &&& 0xF)) 1730.
Definition mfvscr (vrt : VR) : M :=
  Emit32 ((4 <<u 26) ||| (vr_idx vrt <<u 21) ||| (0 <<u 16) ||| (0 <<u 11) ||| 1540).
Definition mtvscr (vrb : VR) : M :=
  Emit32 ((4 <<u 26) ||| (0 <<u 21) ||| (0 <<u 16) ||| (vr_idx vrb <<u 11) ||| 1604).
Definition vmladduhm (vrt vra vrb vrc : VR) : M :=
  EmitVA (vr_idx vrt) (vr_idx vra) (vr_idx vrb) (vr_idx vrc) 34.
Definition vmsumubm (vrt vra vrb vrc : VR) : M :=
  EmitVA (vr_idx vrt) (vr_idx vra) (vr_idx vrb) (vr_idx vrc) 36.
Definition vmsummbm (vrt vra vrb vrc : VR) : M :=
  EmitVA (vr_idx vrt) (vr_idx vra) (vr_idx vrb) (vr_idx vrc) 37.
Definition vmsumuhm (vrt vra vrb vrc : VR) : M :=
  EmitVA (vr_idx vrt) (vr_idx vra) (vr_idx vrb) (vr_idx vrc) 38.
Definition vmsumuhs (vrt vra vrb vrc : VR) : M :=
  EmitVA (vr_idx vrt) (vr_idx vra) (vr_idx vrb) (vr_idx vrc) 39.
Definition vmsumshm (vrt vra vrb vrc : VR) : M :=
  EmitVA (vr_idx vrt) (vr_idx vra) (vr_idx vrb) (vr_idx vrc) 40.
Definition vmsumshs (vrt vra vrb vrc : VR) : M :=
  EmitVA (vr_idx vrt) (vr_idx vra) (vr_idx vrb) (vr_idx vrc) 41.

(** ** Branches (B-form and I-form and XL-form) *)

Definition blr : M := Emit32 ((19 <<u 26) ||| (20 <<u 21) ||| (0 <<u 16) ||| (16 <<u 1) ||| 0).
Definition bctrl : M :=
  Emit32 ((19 <<u 26) ||| (20 <<u 21) ||| (0 <<u 16) ||| (528 <<u 1) ||| 1).
Definition bctr : M :=
  Emit32 ((19 <<u 26) ||| (20 <<u 21) ||| (0 <<u 16) ||| (528 <<u 1) ||| 0).
Definition blrl : M := Emit32 ((19 <<u 26) ||| (20 <<u 21) ||| (0 <<u 16) ||| (16 <<u 1) ||| 1).
Definition bclr (bo bi : Z) : M :=
  Emit32 ((19 <<u 26) ||| (bo <<u 21) ||| (bi <<u 16) ||| (16 <<u 1) ||| 0).
Definition mtctr (rs : GPR) : M := EmitSPR (gpr_idx rs) 9 467.
Definition mfctr (rt : GPR) : M := EmitSPR (gpr_idx rt) 9 339.
Definition mtlr (rs : GPR) : M := EmitSPR (gpr_idx rs) 8 467.
Definition mflr (rt : GPR) : M := EmitSPR (gpr_idx rt) 8 339.

(** ** Special purpose registers *)

Definition mfspr (rt : GPR) (spr : Z) : M :=
  let spr_lo := spr &&& 0x1F in
  let spr_hi := (spr >>> 5) &&& 0x1F in
  Emit32 ((31 <<u 26) ||| (gpr_idx rt <<u 21) ||| (spr_lo <<u 16) ||| (spr_hi <<u 11)
          ||| (339 <<u 1)).
Definition mtspr (spr : Z) (rs : GPR) : M :=
  let spr_lo := spr &&& 0x1F in
  let spr_hi := (spr >>> 5) &&& 0x1F in
  Emit32 ((31 <<u 26) ||| (gpr_idx rs <<u 21) ||| (spr_lo <<u 16) ||| (spr_hi <<u 11)
          ||| (467 <<u 1)).
Definition mftb (rt : GPR) : M := mfspr rt 268.
Definition darn (rt : GPR) (l : Z) : M :=
  Emit32 ((31 <<u 26) ||| (gpr_idx rt <<u 21) ||| ((u32 l &&& 0x3) <<u 16) ||| (755 <<u 1)).

(** ** Memory barriers *)

Definition sync (l : Z) : M := Emit32 ((31 <<u 26) ||| (l <<u 21) ||| (598 <<u 1)).
Definition hwsync : M := sync 0.
Definition lwsync : M := sync 1.
Definition isync : M := Emit32 ((19 <<u 26) ||| (150 <<u 1)).
Definition eieio : M := Emit32 ((31 <<u 26) ||| (854 <<u 1)).
Definition dcbst (ra rb : GPR) : M := EmitX 31 0 (gpr_idx ra) (gpr_idx rb) 54 0.
Definition dcbt (ra rb : GPR) (th : Z) : M :=
  Emit32 ((31 <<u 26) ||| (th <<u 21) ||| (gpr_idx ra <<u 16) ||| (gpr_idx rb <<u 11)
          ||| (278 <<u 1)).
Definition dcbtst (ra rb : GPR) (th : Z) : M :=
  Emit32 ((31 <<u 26) ||| (th <<u 21) ||| (gpr_idx ra <<u 16) ||| (gpr_idx rb <<u 11)
          ||| (246 <<u 1)).
Definition dcbz (ra rb : GPR) : M := EmitX 31 0 (gpr_idx ra) (gpr_idx rb) 1014 0.
Definition icbi (ra rb : GPR) : M := EmitX 31 0 (gpr_idx ra) (gpr_idx rb) 982 0.

(** ** Atomic (reservation) load/store *)

Definition lbarx (rt ra rb : GPR) (eh : Z) : M :=
  EmitAtom (gpr_idx rt) (gpr_idx ra) (gpr_idx rb) 52 eh.
Definition lharx (rt ra rb : GPR) (eh : Z) : M :=
  EmitAtom (gpr_idx rt) (gpr_idx ra) (gpr_idx rb) 116 eh.
Definition lwarx (rt ra rb : GPR) (eh : Z) : M :=
  EmitAtom (gpr_idx rt) (gpr_idx ra) (gpr_idx rb) 20 eh.
Definition ldarx (rt ra rb : GPR) (eh : Z) : M :=
  EmitAtom (gpr_idx rt) (gpr_idx ra) (gpr_idx rb) 84 eh.
Definition stbcx_ (rs ra rb : GPR) : M := EmitX 31 (gpr_idx rs) (gpr_idx ra) (gpr_idx rb) 694 1.
Definition sthcx_ (rs ra rb : GPR) : M := EmitX 31 (gpr_idx rs) (gpr_idx ra) (gpr_idx rb) 726 1.
Definition stwcx_ (rs ra rb : GPR) : M := EmitX 31 (gpr_idx rs) (gpr_idx ra) (gpr_idx rb) 150 1.
Definition stdcx_ (rs ra rb : GPR) : M := EmitX 31 (gpr_idx rs) (gpr_idx ra) (gpr_idx rb) 214 1.
Definition lqarx (rtp ra rb : GPR) (eh : Z) : M :=
  EmitAtom (gpr_idx rtp) (gpr_idx ra) (gpr_idx rb) 276 eh.
Definition stqcx_ (rsp ra rb : GPR) : M :=
  EmitX 31 (gpr_idx rsp) (gpr_idx ra) (gpr_idx rb) 182 1.

(** ** Trap / interrupt *)

Definition tw (to : Z) (ra rb : GPR) : M :=
  Emit32 ((31 <<u 26) ||| (to <<u 21) ||| (gpr_idx ra <<u 16) ||| (gpr_idx rb <<u 11)
          ||| (4 <<u 1)).
Definition twi (to : Z) (ra : GPR) (si : Z) : M :=
  Emit32 ((3 <<u 26) ||| (to <<u 21) ||| (gpr_idx ra <<u 16) ||| u16 si).
Definition td (to : Z) (ra rb : GPR) : M :=
  Emit32 ((31 <<u 26) ||| (to <<u 21) ||| (gpr_idx ra <<u 16) ||| (gpr_idx rb <<u 11)
          ||| (68 <<u 1)).
Definition tdi (to : Z) (ra : GPR) (si : Z) : M :=
  Emit32 ((2 <<u 26) ||| (to <<u 21) ||| (gpr_idx ra <<u 16) ||| u16 si).

(** ** System call *)

Definition sc (lev : Z) : M := Emit32 ((17 <<u 26) ||| (lev <<u 5) ||| 2).

(** ** Round/float convert *)

Definition mffs (frt : FPR) : M := EmitFX63 (fpr_idx frt) 0 0 583 0.
Definition mtfsf (fm : Z) (frb : FPR) : M :=
  Emit32 ((63 <<u 26) ||| (0 <<u 25) ||| (fm <<u 17) ||| (0 <<u 16) ||| (fpr_idx frb <<u 11)
          ||| (711 <<u 1)).
Definition mtfsfi (bf u : Z) : M :=
  Emit32 ((63 <<u 26) ||| (bf <<u 23) ||| (0 <<u 22) ||| (u <<u 12) ||| (134 <<u 1)).

(** ** Miscellaneous *)

Definition mfmsr (rt : GPR) : M := Emit32 ((31 <<u 26) ||| (gpr_idx rt <<u 21) ||| (83 <<u 1)).
Definition rfid : M := Emit32 ((19 <<u 26) ||| (18 <<u 1)).
