(* ===== verification/PPCBits.v ===== *)
(** * Instruction words as bit patterns

    A reference model of the emitter's instruction words.  [wexp] is the syntax of
    the word an instruction emits, as a function of its operands; [pattern] computes,
    for each of its 32 bits, whether the bit is fixed or which bit of which operand it
    carries.  Patterns decide questions about all operands of an instruction at once:
    whether two instructions can produce the same word and whether the operands can be
    read back from it. *)

From S2P Require Import Prelude PPCEmitter.

Inductive wexp :=
| Lit (z : Z)
| Op (i : nat) (w : Z)        (* an operand of [w] bits *)
| SOp (i : nat)               (* a signed operand *)
| SShr (i : nat) (n : Z)       (* a signed operand shifted right *)
| Shl (e : wexp) (n : Z)      (* [uint32_t] shift *)
| Shr (e : wexp) (n : Z)
| Or (a b : wexp)
| And (a : wexp) (m : Z)
| Low16 (e : wexp)            (* [static_cast<uint16_t>] *)
| Low32 (e : wexp)
| Add32 (k : Z) (e : wexp).   (* [uint32_t] addition of a constant *)

Fixpoint den (o : nat -> Z) (e : wexp) : Z :=
  match e with
  | Lit z => z
  | Op i _ | SOp i => o i
  | SShr i n => o i >>> n
  | Shl e n => u32 (den o e <<< n)
  | Shr e n => den o e >>> n
  | Or a b => den o a ||| den o b
  | And a m => den o a &&& m
  | Low16 e => u16 (den o e)
  | Low32 e => u32 (den o e)
  | Add32 k e => u32 (k + den o e)
  end.

(** One bit of a word: fixed, or bit [k] of operand [i]. *)
Inductive bit := F (v : bool) | V (i : nat) (k : Z).

#[global] Instance bit_eq_dec : EqDecision bit.
Proof. solve_decision. Defined.

Definition bval (o : nat -> Z) (x : bit) : bool :=
  match x with
  | F v => v
  | V i k => Z.testbit (o i) k
  end.

(** A pattern gives bit [j] for [0 <= j < 32], least significant first. *)
Abbreviation pattern := (list bit).

Definition pbit (p : pattern) (j : Z) : bit := default (F false) (p !! Z.to_nat j).

Definition index32 : list Z := Z.of_nat <$> seq 0 32.
Definition tabulate32 (f : Z -> bit) : pattern := f <$> index32.

(** The union of two bits, where one of them is a known zero. *)
Definition por1 (x y : bit) : option bit :=
  match x, y with
  | F false, z | z, F false => Some z
  | _, _ => None
  end.

Fixpoint por (p q : pattern) : option pattern :=
  match p, q with
  | [], [] => Some []
  | x :: p, y :: q => z ← por1 x y; r ← por p q; Some (z :: r)
  | _, _ => None
  end.

Definition pshl (p : pattern) (n : Z) : pattern :=
  tabulate32 (fun j => if j <? n then F false else pbit p (j - n)).
Definition pshr (p : pattern) (n : Z) : pattern :=
  tabulate32 (fun j => if j + n <? 32 then pbit p (j + n) else F false).
Definition pmask (p : pattern) (m : Z) : pattern :=
  tabulate32 (fun j => if Z.testbit m j then pbit p j else F false).

(** Whether the value of an expression is known to be a 32-bit unsigned integer. *)
Fixpoint bounded (e : wexp) : bool :=
  match e with
  | Lit z => bool_decide (is_u 32 z)
  | Op _ w => bool_decide (0 <= w <= 32)
  | SOp _ | SShr _ _ => false
  | Shl _ _ | Low16 _ | Low32 _ | Add32 _ _ => true
  | Shr e n => bounded e && (0 <=? n)
  | Or a b => bounded a && bounded b
  | And _ m => bool_decide (is_u 32 m)
  end.

Fixpoint sym (e : wexp) : option pattern :=
  match e with
  | Lit z => Some (tabulate32 (fun j => F (Z.testbit z j)))
  | Op i w => Some (tabulate32 (fun j => if j <? w then V i j else F false))
  | SOp i => Some (tabulate32 (fun j => V i j))
  | SShr i n => if 0 <=? n then Some (tabulate32 (fun j => V i (j + n))) else None
  | Shl e n => p ← sym e; if 0 <=? n then Some (pshl p n) else None
  | Shr e n => p ← sym e; if bounded e && (0 <=? n) then Some (pshr p n) else None
  | Or a b => p ← sym a; q ← sym b; por p q
  | And a m => p ← sym a; Some (pmask p m)
  | Low16 e => p ← sym e; Some (pmask p (Z.ones 16))
  | Low32 e => sym e
  | Add32 k e =>
      p ← sym e;
      if bool_decide (is_u 32 k) && bounded e
      then por (tabulate32 (fun j => F (Z.testbit k j))) p else None
  end.

(** ** Soundness of the patterns *)

Fixpoint ops_ok (o : nat -> Z) (e : wexp) : Prop :=
  match e with
  | Op i w => is_u w (o i)
  | Lit _ | SOp _ | SShr _ _ => True
  | Shl e _ | Shr e _ | And e _ | Low16 e | Low32 e | Add32 _ e => ops_ok o e
  | Or a b => ops_ok o a /\ ops_ok o b
  end.

(** [p] describes the low 32 bits of [x]. *)
Definition describes (o : nat -> Z) (p : pattern) (x : Z) : Prop :=
  length p = 32%nat /\ forall j, 0 <= j < 32 -> Z.testbit x j = bval o (pbit p j).

Lemma tabulate32_length f : length (tabulate32 f) = 32%nat.
Proof. done. Qed.

Lemma index32_lookup (n : nat) : (n < 32)%nat -> index32 !! n = Some (Z.of_nat n).
Proof.
  intros. unfold index32. rewrite list_lookup_fmap, lookup_seq_lt by lia. done.
Qed.

Lemma tabulate32_pbit f j : 0 <= j < 32 -> pbit (tabulate32 f) j = f j.
Proof.
  intros Hj. unfold pbit, tabulate32.
  rewrite list_lookup_fmap, index32_lookup by lia. simpl. by rewrite Z2Nat.id by lia.
Qed.

Lemma describes_tabulate o f x :
  (forall j, 0 <= j < 32 -> Z.testbit x j = bval o (f j)) ->
  describes o (tabulate32 f) x.
Proof.
  intros H. split; [done|]. intros j Hj. rewrite tabulate32_pbit by done. auto.
Qed.

Lemma por1_spec o x y z :
  por1 x y = Some z ->
  bval o z = bval o x || bval o y /\ bval o x && bval o y = false.
Proof.
  unfold por1. destruct x as [[]|], y as [[]|]; intros; simplify_eq/=; try done;
    rewrite ?orb_false_r, ?andb_false_r; done.
Qed.

Lemma por_spec o p q r :
  por p q = Some r ->
  length r = length p /\ length q = length p /\
  forall j, bval o (pbit r j) = bval o (pbit p j) || bval o (pbit q j) /\
            bval o (pbit p j) && bval o (pbit q j) = false.
Proof.
  revert q r; induction p as [|x p IH]; intros [|y q] r H; simplify_eq/=.
  { split_and!; done. }
  destruct (por1 x y) as [z|] eqn:Hz; [|done]. destruct (por p q) as [r'|] eqn:Hr; [|done].
  simplify_eq/=. destruct (IH _ _ Hr) as (L1 & L2 & IHj). split_and!; [lia|lia|].
  intros j. unfold pbit. destruct (Z.to_nat j) as [|n] eqn:E; simpl.
  - by apply por1_spec.
  - specialize (IHj (Z.of_nat n)). unfold pbit in IHj. by rewrite Nat2Z.id in IHj.
Qed.

Lemma describes_or o p q r x y :
  describes o p x -> describes o q y -> por p q = Some r -> describes o r (x ||| y).
Proof.
  intros [Lp Hp] [Lq Hq] H. destruct (por_spec o _ _ _ H) as (L1 & L2 & Hj).
  split; [lia|]. intros j ?. rewrite Z.lor_spec, Hp, Hq by done. by destruct (Hj j).
Qed.

Lemma bits_disjoint_add x y :
  is_u 32 x -> is_u 32 y ->
  (forall j, 0 <= j < 32 -> Z.testbit x j && Z.testbit y j = false) -> x + y = x ||| y.
Proof.
  intros Hx Hy H. pose proof (Z.add_lor_land x y).
  assert (x &&& y = 0); [|lia].
  apply Z.bits_inj'; intros j Hj. rewrite Z.land_spec, Z.bits_0.
  destruct (decide (j < 32)); [by apply H|].
  rewrite (testbit_high 32 x) by (done || lia). done.
Qed.

Lemma describes_mask o p x m : describes o p x -> describes o (pmask p m) (x &&& m).
Proof.
  intros [_ H]. apply describes_tabulate; intros j Hj. rewrite Z.land_spec.
  destruct (Z.testbit m j); simpl; [rewrite andb_true_r; auto|apply andb_false_r].
Qed.

Lemma bounded_spec o e : ops_ok o e -> bounded e = true -> is_u 32 (den o e).
Proof.
  induction e as [z|i w|i|i n|e IH n|e IH n|a IHa b IHb|e IH m|e IH|e IH|k e IH];
    simpl; intros Hok Hb; to_prop; try case_bool_decide; try done;
    try (apply u_range; lia).
  - unfold is_u in *. pose proof (Z.pow_le_mono_r 2 w 32). lia.
  - specialize (IH Hok H) as [? ?]. unfold is_u. rewrite Z.shiftr_div_pow2 by lia.
    pose proof (pow2_pos n ltac:(lia)). split; [apply Z.div_pos; lia|].
    apply Z.le_lt_trans with (den o e); [|lia]. apply Z.div_le_upper_bound; nia.
  - destruct Hok. apply lor_u; auto; lia.
  - by apply land_u_r.
  - pose proof (u_range 16 (den o e) ltac:(lia)). unfold is_u in *. lia.
Qed.

Lemma sym_spec o e p :
  ops_ok o e -> sym e = Some p -> describes o p (den o e).
Proof.
  revert p. induction e as [z|i w|i|i n|e IH n|e IH n|a IHa b IHb|e IH m|e IH|e IH|k e IH];
    cbn [sym den ops_ok]; intros p Hok Hs.
  - simplify_eq. by apply describes_tabulate.
  - simplify_eq. apply describes_tabulate; intros j Hj.
    destruct (Z.ltb_spec j w); simpl; [done|]. apply (testbit_high w); [done|].
    destruct Hok. destruct (decide (w < 0)); [rewrite Z.pow_neg_r in *; lia|lia].
  - simplify_eq. by apply describes_tabulate.
  - case_match; simplify_eq; to_prop. apply describes_tabulate; intros j Hj.
    apply Z.shiftr_spec; lia.
  - apply bind_Some in Hs as (q & Hq & Hs). case_match; simplify_eq; to_prop.
    destruct (IH _ Hok Hq) as [_ Hb].
    apply describes_tabulate; intros j Hj. rewrite u_testbit, Z.shiftl_spec by lia. bool_lia.
    destruct (Z.ltb_spec j n); simpl; [apply Z.testbit_neg_r; lia|apply Hb; lia].
  - apply bind_Some in Hs as (q & Hq & Hs). case_match; simplify_eq; to_prop.
    destruct (IH _ Hok Hq) as [_ Hb].
    apply describes_tabulate; intros j Hj. rewrite Z.shiftr_spec by lia.
    destruct (Z.ltb_spec (j + n) 32); simpl; [apply Hb; lia|].
    apply (testbit_high 32); [by apply bounded_spec|lia].
  - apply bind_Some in Hs as (q & Hq & Hs). apply bind_Some in Hs as (q' & Hq' & Hs).
    destruct Hok. eapply describes_or; eauto.
  - apply bind_Some in Hs as (q & Hq & Hs). simplify_eq. apply describes_mask; auto.
  - apply bind_Some in Hs as (q & Hq & Hs). simplify_eq. rewrite <- u_land_ones by lia. apply describes_mask; auto.
  - destruct (IH _ Hok Hs) as [L Hb]. split; [done|]. intros j Hj.
    rewrite u_testbit by lia. bool_lia. auto.
  - apply bind_Some in Hs as (q & Hq & Hs). case_match; simplify_eq; to_prop.
    case_bool_decide; [|done].
    destruct (por_spec o _ _ _ Hs) as (_ & _ & Hj). destruct (IH _ Hok Hq) as [Lq Hb].
    rewrite (bits_disjoint_add k (den o e)).
    + rewrite u_small by (apply lor_u; [done|by apply bounded_spec|lia]).
      eapply describes_or; [|by split|exact Hs]. by apply describes_tabulate.
    + done.
    + by apply bounded_spec.
    + intros j ?. rewrite Hb by done. destruct (Hj j) as [_ <-].
      by rewrite tabulate32_pbit by done.
Qed.

(** ** Operands *)

(** An operand of [width] bits, signed or not, whose low [align] bits are zero. *)
Record okind := mkKind { signed : bool; align : Z; width : Z }.

Definition U (w : Z) : okind := mkKind false 0 w.
Definition S16 : okind := mkKind true 0 16.
Definition DS : okind := mkKind true 2 16.

Definition in_kind (k : okind) (x : Z) : Prop :=
  (if signed k then is_s (width k) x else is_u (width k) x) /\ uwrap (align k) x = 0.

Definition kind_wf (k : okind) : bool := (0 <=? align k) && (0 <? width k).

(** The bits from [align] to [width] determine an operand. *)
Lemma in_kind_bits k x y :
  kind_wf k = true -> in_kind k x -> in_kind k y ->
  (forall j, align k <= j < width k -> Z.testbit x j = Z.testbit y j) -> x = y.
Proof.
  unfold kind_wf. intros Hw [Hx Ax] [Hy Ay] H. to_prop.
  assert (uwrap (width k) x = uwrap (width k) y) as E.
  { apply Z.bits_inj'; intros j Hj. rewrite !u_testbit by lia.
    destruct (Z.ltb_spec j (width k)); [simpl|done].
    destruct (decide (align k <= j)); [by apply H|].
    assert (Z.testbit (uwrap (align k) x) j = Z.testbit (uwrap (align k) y) j) as B by congruence.
    rewrite !u_testbit, (proj2 (Z.ltb_lt j (align k))) in B by lia. done. }
  destruct (signed k).
  - rewrite <- (s_small (width k) x), <- (s_small (width k) y) by (done || lia).
    rewrite <- (s_u _ x), <- (s_u _ y), E by lia. done.
  - by rewrite <- (u_small (width k) x), <- (u_small (width k) y).
Qed.

(** ** Instruction descriptions *)

Record Enc := mkEnc {
  enc_ops : list okind;
  enc_pre : (nat -> Z) -> bool;
  enc_run : (nat -> Z) -> M;
  enc_word : wexp
}.

(** Operands an instruction accepts. *)
Definition valid (e : Enc) (o : nat -> Z) : Prop :=
  (forall i k, enc_ops e !! i = Some k -> in_kind k (o i)) /\ enc_pre e o = true.

(** The operands of the word are those declared, with their widths. *)
Fixpoint wexp_ops_wf (ks : list okind) (e : wexp) : bool :=
  match e with
  | Op i w =>
      match ks !! i with
      | Some k => negb (signed k) && (width k =? w)
      | None => false
      end
  | Lit _ | SOp _ | SShr _ _ => true
  | Shl e _ | Shr e _ | And e _ | Low16 e | Low32 e | Add32 _ e => wexp_ops_wf ks e
  | Or a b => wexp_ops_wf ks a && wexp_ops_wf ks b
  end.

Lemma wexp_ops_ok e o w : valid e o -> wexp_ops_wf (enc_ops e) w = true -> ops_ok o w.
Proof.
  intros [Hv _]. induction w; simpl; intros H; to_prop; auto.
  case_match eqn:E; [|done]. to_prop. destruct (Hv _ _ E) as [Hk _].
  rewrite H in Hk. by subst w.
Qed.

Definition zrange (lo hi : Z) : list Z := (fun n => lo + Z.of_nat n) <$> seq 0 (Z.to_nat (hi - lo)).

Lemma elem_of_zrange lo hi x : x ∈ zrange lo hi <-> lo <= x < hi.
Proof.
  unfold zrange. rewrite list_elem_of_fmap. setoid_rewrite elem_of_seq. split.
  - intros (n & -> & ?). lia.
  - intros. exists (Z.to_nat (x - lo)). lia.
Qed.

(** Every bit of every operand occurs in the pattern. *)
Definition covers (ks : list okind) (p : pattern) : bool :=
  forallb (fun i =>
    match ks !! i with
    | Some k => kind_wf k &&
        forallb (fun b => existsb (fun x => bool_decide (x = V i b)) p) (zrange (align k) (width k))
    | None => true
    end) (seq 0 (length ks)).

Definition enc_wf (e : Enc) : bool :=
  match sym (enc_word e) with
  | Some p => bounded (enc_word e) && wexp_ops_wf (enc_ops e) (enc_word e) && covers (enc_ops e) p
  | None => false
  end.

(** The fixed bits of a pattern and their values. *)
Definition weigh (f : bit -> bool) (p : pattern) : Z :=
  foldr (fun x acc => 2 * acc + Z.b2z (f x)) 0 p.
Definition fixed_mask (p : pattern) : Z := weigh (fun x => match x with F _ => true | _ => false end) p.
Definition fixed_value (p : pattern) : Z := weigh (fun x => match x with F v => v | _ => false end) p.

Definition conflict (a b : Z * Z) : bool :=
  negb ((fst a &&& fst b) &&& (snd a ^^^ snd b) =? 0).

Lemma weigh_testbit f p j :
  0 <= j -> Z.testbit (weigh f p) j =
    match p !! Z.to_nat j with Some x => f x | None => false end.
Proof.
  revert j; induction p as [|x p IH]; intros j Hj; [apply Z.bits_0|].
  cbn [weigh foldr]. fold (weigh f p). destruct (decide (j = 0)) as [->|].
  - rewrite Z.testbit_0_r. done.
  - replace j with (Z.succ (Z.pred j)) at 1 by lia.
    rewrite Z.testbit_succ_r, IH by lia.
    replace (Z.to_nat j) with (S (Z.to_nat (Z.pred j))) by lia. done.
Qed.

(** A pattern whose fixed bits are those of [w] at its fixed positions. *)
Lemma describes_fixed o p w : describes o p w -> w &&& fixed_mask p = fixed_value p.
Proof.
  intros [L H]. apply Z.bits_inj'; intros j Hj.
  unfold fixed_mask, fixed_value. rewrite Z.land_spec, !weigh_testbit by done.
  destruct (p !! Z.to_nat j) as [x|] eqn:E; [|apply andb_false_r].
  rewrite (H j) by (apply lookup_lt_Some in E; lia). unfold pbit. rewrite E. simpl.
  destruct x; simpl; rewrite ?andb_true_r, ?andb_false_r; done.
Qed.

Lemma conflict_spec m1 v1 m2 v2 w :
  conflict (m1, v1) (m2, v2) = true -> w &&& m1 = v1 -> w &&& m2 = v2 -> False.
Proof.
  unfold conflict; simpl. intros H <- <-. to_prop. apply H.
  apply Z.bits_inj'; intros j Hj. autorewrite with zbits.
  destruct (Z.testbit w j), (Z.testbit m1 j), (Z.testbit m2 j); done.
Qed.

Lemma enc_wf_describes e o :
  enc_wf e = true -> valid e o ->
  exists p, sym (enc_word e) = Some p /\ describes o p (den o (enc_word e)) /\
    is_u 32 (den o (enc_word e)) /\ covers (enc_ops e) p = true.
Proof.
  unfold enc_wf. intros H Hv. destruct (sym (enc_word e)) as [p|] eqn:E; [|done]. to_prop.
  pose proof (wexp_ops_ok _ _ _ Hv H1). exists p. split_and!; [done| |by apply bounded_spec|done].
  by apply sym_spec.
Qed.

(** The operands can be read back from the word. *)
Lemma enc_word_operands e o o' i :
  enc_wf e = true -> valid e o -> valid e o' ->
  den o (enc_word e) = den o' (enc_word e) -> (i < length (enc_ops e))%nat -> o i = o' i.
Proof.
  intros Hwf Hv Hv' E Hi.
  destruct (enc_wf_describes _ _ Hwf Hv) as (p & Hp & [L D] & _ & C).
  destruct (enc_wf_describes _ _ Hwf Hv') as (p' & Hp' & [_ D'] & _). simplify_eq.
  destruct (lookup_lt_is_Some_2 _ _ Hi) as [k Hk].
  unfold covers in C. rewrite forallb_forall in C.
  specialize (C i ltac:(apply in_seq; lia)). rewrite Hk in C. to_prop.
  apply (in_kind_bits k); [done|by apply Hv|by apply Hv'|]. intros b Hb.
  rewrite forallb_forall in H0. specialize (H0 b ltac:(by apply list_elem_of_In, elem_of_zrange)).
  apply existsb_exists in H0 as (x & Hx & Hxb). case_bool_decide; [subst x|done].
  apply list_elem_of_In, list_elem_of_lookup in Hx as [j Hj].
  pose proof (lookup_lt_Some _ _ _ Hj).
  assert (pbit p (Z.of_nat j) = V i b) as Pj by (unfold pbit; rewrite Nat2Z.id, Hj; done).
  specialize (D (Z.of_nat j) ltac:(lia)). specialize (D' (Z.of_nat j) ltac:(lia)).
  rewrite Pj in D, D'. simpl in D, D'. congruence.
Qed.
