(* ===== verification/PPCTable.v ===== *)
(** * The instruction table

    Every instruction of [PPCInsns] that is not an alias of another one, with the
    operands it takes and the word it emits as a [wexp].  Left out are the extended
    mnemonics ([li], [mr], [sldi], [mtctr], ...) and the VMX-register variants of
    instructions that also exist on the full VSX file.  The table is checked against
    the definitions of [PPCInsns] by [plain_exact] and [guarded_exact]. *)

From S2P Require Import Prelude PPCEmitter PPCInsns PPCBits.

Definition gp (o : nat -> Z) (i : nat) : GPR := mkGPR (o i).
Definition fp (o : nat -> Z) (i : nat) : FPR := mkFPR (o i).
Definition vp (o : nat -> Z) (i : nat) : VR := mkVR (o i).
Definition xp (o : nat -> Z) (i : nat) : VSXR := mkVSXR (o i).
Definition cp (o : nat -> Z) (i : nat) : CRField := mkCR (o i).
Definition im (o : nat -> Z) (i : nat) : Z := o i.

Definition pre0 (_ : nat -> Z) : bool := true.

(** The guard of [mfocrf] and [mtocrf] on their field mask. *)
Definition one_bit (fxm : Z) : bool := negb (fxm =? 0) && ((fxm &&& u32 (fxm - 1)) =? 0).

(** The instruction formats, on [wexp]. *)
Definition fld (w : wexp) (e : wexp) (n : Z) : wexp := Or w (Shl e n).
Definition xXO (op rt ra rb oe xo rc : wexp) : wexp :=
  Or (fld (fld (fld (fld (fld (Shl op 26) rt 21) ra 16) rb 11) oe 10) xo 1) rc.
Definition xX (op rs ra rb xo rc : wexp) : wexp :=
  Or (fld (fld (fld (fld (Shl op 26) rs 21) ra 16) rb 11) xo 1) rc.
Definition xD (op rt ra d : wexp) : wexp := Or (fld (fld (Shl op 26) rt 21) ra 16) d.
Definition xM (op rs ra sh mb me rc : wexp) : wexp :=
  Or (fld (fld (fld (fld (fld (Shl op 26) rs 21) ra 16) sh 11) mb 6) me 1) rc.
Definition xMD (rs ra sh m xo rc : wexp) : wexp :=
  Or (fld (fld (fld (fld (fld (fld (fld (Shl (Lit 30) 26) rs 21) ra 16) (And sh 0x1F) 11)
    (And m 0x1F) 6) (And (Shr m 5) 1) 5) xo 2) (And (Shr sh 5) 1) 1) rc.
Definition xA (op : Z) (frt fra frb frc xo rc : wexp) : wexp :=
  Or (fld (fld (fld (fld (fld (Shl (Lit op) 26) frt 21) fra 16) frb 11) frc 6) xo 1) rc.
Definition xVX (vrt vra vrb xo : wexp) : wexp :=
  Or (fld (fld (fld (Shl (Lit 4) 26) vrt 21) vra 16) vrb 11) xo.
Definition xVA (vrt vra vrb vrc xo : wexp) : wexp :=
  Or (fld (fld (fld (fld (Shl (Lit 4) 26) vrt 21) vra 16) vrb 11) vrc 6) xo.
Definition xXX3VSX (t a b xo : wexp) : wexp :=
  Or (fld (fld (fld (fld (fld (fld (Shl (Lit 60) 26) (And t 31) 21) (And a 31) 16) (And b 31) 11)
    (And xo 0xFF) 3) (And (Shr a 5) 1) 2) (And (Shr b 5) 1) 1) (And (Shr t 5) 1).
Definition xXX3BF (bf a b xo : wexp) : wexp :=
  fld (fld (fld (fld (fld (fld (Shl (Lit 60) 26) (And bf 7) 23) (And a 31) 16) (And b 31) 11)
    (And xo 0xFF) 3) (And (Shr a 5) 1) 2) (And (Shr b 5) 1) 1.
Definition xXX3 (t a b xo : wexp) : wexp := xXX3VSX (Add32 32 t) (Add32 32 a) (Add32 32 b) xo.
Definition xXX2 (t b xo : wexp) : wexp :=
  Or (fld (fld (fld (fld (Shl (Lit 60) 26) t 21) b 11) (And xo 0x1FF) 2) (Lit 1) 1) (Lit 1).

(** Integer ALU, logical, shifts and rotates, compares. *)
Definition insns_alu : list Enc := [
  mkEnc [U 5; U 5; U 5] pre0 (fun o => add (gp o 0) (gp o 1) (gp o 2))
    (xXO (Lit 31) (Op 0 5) (Op 1 5) (Op 2 5) (Lit 0) (Lit 266) (Lit 0));
  mkEnc [U 5; U 5; U 5] pre0 (fun o => add_ (gp o 0) (gp o 1) (gp o 2))
    (xXO (Lit 31) (Op 0 5) (Op 1 5) (Op 2 5) (Lit 0) (Lit 266) (Lit 1));
  mkEnc [U 5; U 5; U 5] pre0 (fun o => addo (gp o 0) (gp o 1) (gp o 2))
    (xXO (Lit 31) (Op 0 5) (Op 1 5) (Op 2 5) (Lit 1) (Lit 266) (Lit 0));
  mkEnc [U 5; U 5; U 5] pre0 (fun o => addo_ (gp o 0) (gp o 1) (gp o 2))
    (xXO (Lit 31) (Op 0 5) (Op 1 5) (Op 2 5) (Lit 1) (Lit 266) (Lit 1));
  mkEnc [U 5; U 5; S16] pre0 (fun o => addi (gp o 0) (gp o 1) (im o 2))
    (xD (Lit 14) (Op 0 5) (Op 1 5) (Low16 (SOp 2)));
  mkEnc [U 5; U 5; S16] pre0 (fun o => addis (gp o 0) (gp o 1) (im o 2))
    (xD (Lit 15) (Op 0 5) (Op 1 5) (Low16 (SOp 2)));
  mkEnc [U 5; U 5; S16] pre0 (fun o => addic (gp o 0) (gp o 1) (im o 2))
    (xD (Lit 12) (Op 0 5) (Op 1 5) (Low16 (SOp 2)));
  mkEnc [U 5; U 5; S16] pre0 (fun o => addic_ (gp o 0) (gp o 1) (im o 2))
    (xD (Lit 13) (Op 0 5) (Op 1 5) (Low16 (SOp 2)));
  mkEnc [U 5; U 5; U 5] pre0 (fun o => addc (gp o 0) (gp o 1) (gp o 2))
    (xXO (Lit 31) (Op 0 5) (Op 1 5) (Op 2 5) (Lit 0) (Lit 10) (Lit 0));
  mkEnc [U 5; U 5; U 5] pre0 (fun o => addc_ (gp o 0) (gp o 1) (gp o 2))
    (xXO (Lit 31) (Op 0 5) (Op 1 5) (Op 2 5) (Lit 0) (Lit 10) (Lit 1));
  mkEnc [U 5; U 5; U 5] pre0 (fun o => addco (gp o 0) (gp o 1) (gp o 2))
    (xXO (Lit 31) (Op 0 5) (Op 1 5) (Op 2 5) (Lit 1) (Lit 10) (Lit 0));
  mkEnc [U 5; U 5; U 5] pre0 (fun o => addco_ (gp o 0) (gp o 1) (gp o 2))
    (xXO (Lit 31) (Op 0 5) (Op 1 5) (Op 2 5) (Lit 1) (Lit 10) (Lit 1));
  mkEnc [U 5; U 5; U 5] pre0 (fun o => adde (gp o 0) (gp o 1) (gp o 2))
    (xXO (Lit 31) (Op 0 5) (Op 1 5) (Op 2 5) (Lit 0) (Lit 138) (Lit 0));
  mkEnc [U 5; U 5; U 5] pre0 (fun o => adde_ (gp o 0) (gp o 1) (gp o 2))
    (xXO (Lit 31) (Op 0 5) (Op 1 5) (Op 2 5) (Lit 0) (Lit 138) (Lit 1));
  mkEnc [U 5; U 5; U 5] pre0 (fun o => addeo_ (gp o 0) (gp o 1) (gp o 2))
    (xXO (Lit 31) (Op 0 5) (Op 1 5) (Op 2 5) (Lit 1) (Lit 138) (Lit 1));
  mkEnc [U 5; U 5] pre0 (fun o => addme (gp o 0) (gp o 1))
    (xXO (Lit 31) (Op 0 5) (Op 1 5) (Lit 0) (Lit 0) (Lit 234) (Lit 0));
  mkEnc [U 5; U 5] pre0 (fun o => addze (gp o 0) (gp o 1))
    (xXO (Lit 31) (Op 0 5) (Op 1 5) (Lit 0) (Lit 0) (Lit 202) (Lit 0));
  mkEnc [U 5; U 5; U 5] pre0 (fun o => subf (gp o 0) (gp o 1) (gp o 2))
    (xXO (Lit 31) (Op 0 5) (Op 1 5) (Op 2 5) (Lit 0) (Lit 40) (Lit 0));
  mkEnc [U 5; U 5; U 5] pre0 (fun o => subf_ (gp o 0) (gp o 1) (gp o 2))
    (xXO (Lit 31) (Op 0 5) (Op 1 5) (Op 2 5) (Lit 0) (Lit 40) (Lit 1));
  mkEnc [U 5; U 5; U 5] pre0 (fun o => subfo_ (gp o 0) (gp o 1) (gp o 2))
    (xXO (Lit 31) (Op 0 5) (Op 1 5) (Op 2 5) (Lit 1) (Lit 40) (Lit 1));
  mkEnc [U 5; U 5; S16] pre0 (fun o => subfic (gp o 0) (gp o 1) (im o 2))
    (xD (Lit 8) (Op 0 5) (Op 1 5) (Low16 (SOp 2)));
  mkEnc [U 5; U 5; U 5] pre0 (fun o => subfc (gp o 0) (gp o 1) (gp o 2))
    (xXO (Lit 31) (Op 0 5) (Op 1 5) (Op 2 5) (Lit 0) (Lit 8) (Lit 0));
  mkEnc [U 5; U 5; U 5] pre0 (fun o => subfc_ (gp o 0) (gp o 1) (gp o 2))
    (xXO (Lit 31) (Op 0 5) (Op 1 5) (Op 2 5) (Lit 0) (Lit 8) (Lit 1));
  mkEnc [U 5; U 5; U 5] pre0 (fun o => subfco (gp o 0) (gp o 1) (gp o 2))
    (xXO (Lit 31) (Op 0 5) (Op 1 5) (Op 2 5) (Lit 1) (Lit 8) (Lit 0));
  mkEnc [U 5; U 5; U 5] pre0 (fun o => subfco_ (gp o 0) (gp o 1) (gp o 2))
    (xXO (Lit 31) (Op 0 5) (Op 1 5) (Op 2 5) (Lit 1) (Lit 8) (Lit 1));
  mkEnc [U 5; U 5; U 5] pre0 (fun o => subfe (gp o 0) (gp o 1) (gp o 2))
    (xXO (Lit 31) (Op 0 5) (Op 1 5) (Op 2 5) (Lit 0) (Lit 136) (Lit 0));
  mkEnc [U 5; U 5; U 5] pre0 (fun o => subfe_ (gp o 0) (gp o 1) (gp o 2))
    (xXO (Lit 31) (Op 0 5) (Op 1 5) (Op 2 5) (Lit 0) (Lit 136) (Lit 1));
  mkEnc [U 5; U 5; U 5] pre0 (fun o => subfeo_ (gp o 0) (gp o 1) (gp o 2))
    (xXO (Lit 31) (Op 0 5) (Op 1 5) (Op 2 5) (Lit 1) (Lit 136) (Lit 1));
  mkEnc [U 5; U 5] pre0 (fun o => subfze (gp o 0) (gp o 1))
    (xXO (Lit 31) (Op 0 5) (Op 1 5) (Lit 0) (Lit 0) (Lit 200) (Lit 0));
  mkEnc [U 5; U 5] pre0 (fun o => neg (gp o 0) (gp o 1))
    (xXO (Lit 31) (Op 0 5) (Op 1 5) (Lit 0) (Lit 0) (Lit 104) (Lit 0));
  mkEnc [U 5; U 5] pre0 (fun o => neg_ (gp o 0) (gp o 1))
    (xXO (Lit 31) (Op 0 5) (Op 1 5) (Lit 0) (Lit 0) (Lit 104) (Lit 1));
  mkEnc [U 5; U 5] pre0 (fun o => nego_ (gp o 0) (gp o 1))
    (xXO (Lit 31) (Op 0 5) (Op 1 5) (Lit 0) (Lit 1) (Lit 104) (Lit 1));
  mkEnc [U 5; U 5; S16] pre0 (fun o => mulli (gp o 0) (gp o 1) (im o 2))
    (xD (Lit 7) (Op 0 5) (Op 1 5) (Low16 (SOp 2)));
  mkEnc [U 5; U 5; U 5] pre0 (fun o => mullw (gp o 0) (gp o 1) (gp o 2))
    (xXO (Lit 31) (Op 0 5) (Op 1 5) (Op 2 5) (Lit 0) (Lit 235) (Lit 0));
  mkEnc [U 5; U 5; U 5] pre0 (fun o => mullw_ (gp o 0) (gp o 1) (gp o 2))
    (xXO (Lit 31) (Op 0 5) (Op 1 5) (Op 2 5) (Lit 0) (Lit 235) (Lit 1));
  mkEnc [U 5; U 5; U 5] pre0 (fun o => mulld (gp o 0) (gp o 1) (gp o 2))
    (xXO (Lit 31) (Op 0 5) (Op 1 5) (Op 2 5) (Lit 0) (Lit 233) (Lit 0));
  mkEnc [U 5; U 5; U 5] pre0 (fun o => mulld_ (gp o 0) (gp o 1) (gp o 2))
    (xXO (Lit 31) (Op 0 5) (Op 1 5) (Op 2 5) (Lit 0) (Lit 233) (Lit 1));
  mkEnc [U 5; U 5; U 5] pre0 (fun o => mulhd (gp o 0) (gp o 1) (gp o 2))
    (xXO (Lit 31) (Op 0 5) (Op 1 5) (Op 2 5) (Lit 0) (Lit 73) (Lit 0));
  mkEnc [U 5; U 5; U 5] pre0 (fun o => mulhdu (gp o 0) (gp o 1) (gp o 2))
    (xXO (Lit 31) (Op 0 5) (Op 1 5) (Op 2 5) (Lit 0) (Lit 9) (Lit 0));
  mkEnc [U 5; U 5; U 5] pre0 (fun o => mulhw (gp o 0) (gp o 1) (gp o 2))
    (xXO (Lit 31) (Op 0 5) (Op 1 5) (Op 2 5) (Lit 0) (Lit 75) (Lit 0));
  mkEnc [U 5; U 5; U 5] pre0 (fun o => mulhwu (gp o 0) (gp o 1) (gp o 2))
    (xXO (Lit 31) (Op 0 5) (Op 1 5) (Op 2 5) (Lit 0) (Lit 11) (Lit 0));
  mkEnc [U 5; U 5; U 5] pre0 (fun o => divd (gp o 0) (gp o 1) (gp o 2))
    (xXO (Lit 31) (Op 0 5) (Op 1 5) (Op 2 5) (Lit 0) (Lit 489) (Lit 0));
  mkEnc [U 5; U 5; U 5] pre0 (fun o => divd_ (gp o 0) (gp o 1) (gp o 2))
    (xXO (Lit 31) (Op 0 5) (Op 1 5) (Op 2 5) (Lit 0) (Lit 489) (Lit 1));
  mkEnc [U 5; U 5; U 5] pre0 (fun o => divdu (gp o 0) (gp o 1) (gp o 2))
    (xXO (Lit 31) (Op 0 5) (Op 1 5) (Op 2 5) (Lit 0) (Lit 457) (Lit 0));
  mkEnc [U 5; U 5; U 5] pre0 (fun o => divdu_ (gp o 0) (gp o 1) (gp o 2))
    (xXO (Lit 31) (Op 0 5) (Op 1 5) (Op 2 5) (Lit 0) (Lit 457) (Lit 1));
  mkEnc [U 5; U 5; U 5] pre0 (fun o => divdeu (gp o 0) (gp o 1) (gp o 2))
    (xXO (Lit 31) (Op 0 5) (Op 1 5) (Op 2 5) (Lit 0) (Lit 393) (Lit 0));
  mkEnc [U 5; U 5; U 5] pre0 (fun o => divdeu_ (gp o 0) (gp o 1) (gp o 2))
    (xXO (Lit 31) (Op 0 5) (Op 1 5) (Op 2 5) (Lit 0) (Lit 393) (Lit 1));
  mkEnc [U 5; U 5; U 5] pre0 (fun o => divde (gp o 0) (gp o 1) (gp o 2))
    (xXO (Lit 31) (Op 0 5) (Op 1 5) (Op 2 5) (Lit 0) (Lit 425) (Lit 0));
  mkEnc [U 5; U 5; U 5] pre0 (fun o => divde_ (gp o 0) (gp o 1) (gp o 2))
    (xXO (Lit 31) (Op 0 5) (Op 1 5) (Op 2 5) (Lit 0) (Lit 425) (Lit 1));
  mkEnc [U 5; U 5; U 5] pre0 (fun o => divw (gp o 0) (gp o 1) (gp o 2))
    (xXO (Lit 31) (Op 0 5) (Op 1 5) (Op 2 5) (Lit 0) (Lit 491) (Lit 0));
  mkEnc [U 5; U 5; U 5] pre0 (fun o => divwu (gp o 0) (gp o 1) (gp o 2))
    (xXO (Lit 31) (Op 0 5) (Op 1 5) (Op 2 5) (Lit 0) (Lit 459) (Lit 0));
  mkEnc [U 5; U 5; U 5] pre0 (fun o => and_ (gp o 0) (gp o 1) (gp o 2))
    (xX (Lit 31) (Op 1 5) (Op 0 5) (Op 2 5) (Lit 28) (Lit 0));
  mkEnc [U 5; U 5; U 5] pre0 (fun o => and__ (gp o 0) (gp o 1) (gp o 2))
    (xX (Lit 31) (Op 1 5) (Op 0 5) (Op 2 5) (Lit 28) (Lit 1));
  mkEnc [U 5; U 5; U 5] pre0 (fun o => andc (gp o 0) (gp o 1) (gp o 2))
    (xX (Lit 31) (Op 1 5) (Op 0 5) (Op 2 5) (Lit 60) (Lit 0));
  mkEnc [U 5; U 5; U 5] pre0 (fun o => or_ (gp o 0) (gp o 1) (gp o 2))
    (xX (Lit 31) (Op 1 5) (Op 0 5) (Op 2 5) (Lit 444) (Lit 0));
  mkEnc [U 5; U 5; U 5] pre0 (fun o => or__ (gp o 0) (gp o 1) (gp o 2))
    (xX (Lit 31) (Op 1 5) (Op 0 5) (Op 2 5) (Lit 444) (Lit 1));
  mkEnc [U 5; U 5; U 5] pre0 (fun o => orc (gp o 0) (gp o 1) (gp o 2))
    (xX (Lit 31) (Op 1 5) (Op 0 5) (Op 2 5) (Lit 412) (Lit 0));
  mkEnc [U 5; U 5; U 5] pre0 (fun o => xor_ (gp o 0) (gp o 1) (gp o 2))
    (xX (Lit 31) (Op 1 5) (Op 0 5) (Op 2 5) (Lit 316) (Lit 0));
  mkEnc [U 5; U 5; U 5] pre0 (fun o => xor__ (gp o 0) (gp o 1) (gp o 2))
    (xX (Lit 31) (Op 1 5) (Op 0 5) (Op 2 5) (Lit 316) (Lit 1));
  mkEnc [U 5; U 5; U 5] pre0 (fun o => nor (gp o 0) (gp o 1) (gp o 2))
    (xX (Lit 31) (Op 1 5) (Op 0 5) (Op 2 5) (Lit 124) (Lit 0));
  mkEnc [U 5; U 5; U 5] pre0 (fun o => nand_ (gp o 0) (gp o 1) (gp o 2))
    (xX (Lit 31) (Op 1 5) (Op 0 5) (Op 2 5) (Lit 476) (Lit 0));
  mkEnc [U 5; U 5; U 5] pre0 (fun o => eqv (gp o 0) (gp o 1) (gp o 2))
    (xX (Lit 31) (Op 1 5) (Op 0 5) (Op 2 5) (Lit 284) (Lit 0));
  mkEnc [U 5; U 5; U 16] pre0 (fun o => ori (gp o 0) (gp o 1) (im o 2))
    (xD (Lit 24) (Op 1 5) (Op 0 5) (Op 2 16));
  mkEnc [U 5; U 5; U 16] pre0 (fun o => oris (gp o 0) (gp o 1) (im o 2))
    (xD (Lit 25) (Op 1 5) (Op 0 5) (Op 2 16));
  mkEnc [U 5; U 5; U 16] pre0 (fun o => xori (gp o 0) (gp o 1) (im o 2))
    (xD (Lit 26) (Op 1 5) (Op 0 5) (Op 2 16));
  mkEnc [U 5; U 5; U 16] pre0 (fun o => xoris (gp o 0) (gp o 1) (im o 2))
    (xD (Lit 27) (Op 1 5) (Op 0 5) (Op 2 16));
  mkEnc [U 5; U 5; U 16] pre0 (fun o => andi_ (gp o 0) (gp o 1) (im o 2))
    (xD (Lit 28) (Op 1 5) (Op 0 5) (Op 2 16));
  mkEnc [U 5; U 5; U 16] pre0 (fun o => andis_ (gp o 0) (gp o 1) (im o 2))
    (xD (Lit 29) (Op 1 5) (Op 0 5) (Op 2 16));
  mkEnc [U 5; U 5; U 5] pre0 (fun o => slw (gp o 0) (gp o 1) (gp o 2))
    (xX (Lit 31) (Op 1 5) (Op 0 5) (Op 2 5) (Lit 24) (Lit 0));
  mkEnc [U 5; U 5; U 5] pre0 (fun o => srw (gp o 0) (gp o 1) (gp o 2))
    (xX (Lit 31) (Op 1 5) (Op 0 5) (Op 2 5) (Lit 536) (Lit 0));
  mkEnc [U 5; U 5; U 5] pre0 (fun o => sraw (gp o 0) (gp o 1) (gp o 2))
    (xX (Lit 31) (Op 1 5) (Op 0 5) (Op 2 5) (Lit 792) (Lit 0));
  mkEnc [U 5; U 5; U 5] pre0 (fun o => sld (gp o 0) (gp o 1) (gp o 2))
    (xX (Lit 31) (Op 1 5) (Op 0 5) (Op 2 5) (Lit 27) (Lit 0));
  mkEnc [U 5; U 5; U 5] pre0 (fun o => srd (gp o 0) (gp o 1) (gp o 2))
    (xX (Lit 31) (Op 1 5) (Op 0 5) (Op 2 5) (Lit 539) (Lit 0));
  mkEnc [U 5; U 5; U 5] pre0 (fun o => srad (gp o 0) (gp o 1) (gp o 2))
    (xX (Lit 31) (Op 1 5) (Op 0 5) (Op 2 5) (Lit 794) (Lit 0));
  mkEnc [U 5; U 5; U 6; U 6] pre0 (fun o => rldic (gp o 0) (gp o 1) (im o 2) (im o 3))
    (xMD (Op 1 5) (Op 0 5) (Op 2 6) (Op 3 6) (Lit 2) (Lit 0));
  mkEnc [U 5; U 5; U 6; U 6] pre0 (fun o => rldimi (gp o 0) (gp o 1) (im o 2) (im o 3))
    (xMD (Op 1 5) (Op 0 5) (Op 2 6) (Op 3 6) (Lit 3) (Lit 0));
  mkEnc [U 5; U 5] pre0 (fun o => extsb (gp o 0) (gp o 1))
    (xX (Lit 31) (Op 1 5) (Op 0 5) (Lit 0) (Lit 954) (Lit 0));
  mkEnc [U 5; U 5] pre0 (fun o => extsh (gp o 0) (gp o 1))
    (xX (Lit 31) (Op 1 5) (Op 0 5) (Lit 0) (Lit 922) (Lit 0));
  mkEnc [U 5; U 5] pre0 (fun o => extsw (gp o 0) (gp o 1))
    (xX (Lit 31) (Op 1 5) (Op 0 5) (Lit 0) (Lit 986) (Lit 0));
  mkEnc [U 5; U 5] pre0 (fun o => extsb_ (gp o 0) (gp o 1))
    (xX (Lit 31) (Op 1 5) (Op 0 5) (Lit 0) (Lit 954) (Lit 1));
  mkEnc [U 5; U 5] pre0 (fun o => extsh_ (gp o 0) (gp o 1))
    (xX (Lit 31) (Op 1 5) (Op 0 5) (Lit 0) (Lit 922) (Lit 1));
  mkEnc [U 5; U 5] pre0 (fun o => extsw_ (gp o 0) (gp o 1))
    (xX (Lit 31) (Op 1 5) (Op 0 5) (Lit 0) (Lit 986) (Lit 1));
  mkEnc [U 5; U 5] pre0 (fun o => cntlzw (gp o 0) (gp o 1))
    (xX (Lit 31) (Op 1 5) (Op 0 5) (Lit 0) (Lit 26) (Lit 0));
  mkEnc [U 5; U 5] pre0 (fun o => cntlzd (gp o 0) (gp o 1))
    (xX (Lit 31) (Op 1 5) (Op 0 5) (Lit 0) (Lit 58) (Lit 0));
  mkEnc [U 5; U 5] pre0 (fun o => popcntw (gp o 0) (gp o 1))
    (xX (Lit 31) (Op 1 5) (Op 0 5) (Lit 0) (Lit 378) (Lit 0));
  mkEnc [U 5; U 5] pre0 (fun o => popcntd (gp o 0) (gp o 1))
    (xX (Lit 31) (Op 1 5) (Op 0 5) (Lit 0) (Lit 506) (Lit 0));
  mkEnc [U 5; U 5] pre0 (fun o => prtyd (gp o 0) (gp o 1))
    (xX (Lit 31) (Op 1 5) (Op 0 5) (Lit 0) (Lit 186) (Lit 0));
  mkEnc [U 5; U 5; U 5] pre0 (fun o => bpermd (gp o 0) (gp o 1) (gp o 2))
    (xX (Lit 31) (Op 1 5) (Op 0 5) (Op 2 5) (Lit 252) (Lit 0));
  mkEnc [U 3; U 5; S16] pre0 (fun o => cmpdi (cp o 0) (gp o 1) (im o 2))
    ((Or (Or (Or (Or (Shl (Lit 11) 26) (Shl (Op 0 3) 23)) (Shl (Lit 1) 21)) (Shl
      (Op 1 5) 16)) (Low16 (SOp 2))));
  mkEnc [U 3; U 5; S16] pre0 (fun o => cmpwi (cp o 0) (gp o 1) (im o 2))
    ((Or (Or (Or (Or (Shl (Lit 11) 26) (Shl (Op 0 3) 23)) (Shl (Lit 0) 21)) (Shl
      (Op 1 5) 16)) (Low16 (SOp 2))));
  mkEnc [U 3; U 5; U 16] pre0 (fun o => cmpldi (cp o 0) (gp o 1) (im o 2))
    ((Or (Or (Or (Or (Shl (Lit 10) 26) (Shl (Op 0 3) 23)) (Shl (Lit 1) 21)) (Shl
      (Op 1 5) 16)) (Op 2 16)));
  mkEnc [U 3; U 5; U 16] pre0 (fun o => cmplwi (cp o 0) (gp o 1) (im o 2))
    ((Or (Or (Or (Or (Shl (Lit 10) 26) (Shl (Op 0 3) 23)) (Shl (Lit 0) 21)) (Shl
      (Op 1 5) 16)) (Op 2 16)));
  mkEnc [U 3; U 5; U 5] pre0 (fun o => cmpd (cp o 0) (gp o 1) (gp o 2))
    ((Or (Or (Or (Or (Or (Shl (Lit 31) 26) (Shl (Op 0 3) 23)) (Shl (Lit 1) 21)) (Shl
      (Op 1 5) 16)) (Shl (Op 2 5) 11)) (Shl (Lit 0) 1)));
  mkEnc [U 3; U 5; U 5] pre0 (fun o => cmpw (cp o 0) (gp o 1) (gp o 2))
    ((Or (Or (Or (Or (Or (Shl (Lit 31) 26) (Shl (Op 0 3) 23)) (Shl (Lit 0) 21)) (Shl
      (Op 1 5) 16)) (Shl (Op 2 5) 11)) (Shl (Lit 0) 1)));
  mkEnc [U 3; U 5; U 5] pre0 (fun o => cmpld (cp o 0) (gp o 1) (gp o 2))
    ((Or (Or (Or (Or (Or (Shl (Lit 31) 26) (Shl (Op 0 3) 23)) (Shl (Lit 1) 21)) (Shl
      (Op 1 5) 16)) (Shl (Op 2 5) 11)) (Shl (Lit 32) 1)));
  mkEnc [U 3; U 5; U 5] pre0 (fun o => cmplw (cp o 0) (gp o 1) (gp o 2))
    ((Or (Or (Or (Or (Or (Shl (Lit 31) 26) (Shl (Op 0 3) 23)) (Shl (Lit 0) 21)) (Shl
      (Op 1 5) 16)) (Shl (Op 2 5) 11)) (Shl (Lit 32) 1)))
].

(** Condition register. *)
Definition insns_cr : list Enc := [
  mkEnc [U 5; U 5; U 5] pre0 (fun o => crand (im o 0) (im o 1) (im o 2))
    ((Or (Or (Or (Or (Shl (Lit 19) 26) (Shl (Op 0 5) 21)) (Shl (Op 1 5) 16)) (Shl
      (Op 2 5) 11)) (Shl (Lit 257) 1)));
  mkEnc [U 5; U 5; U 5] pre0 (fun o => cror (im o 0) (im o 1) (im o 2))
    ((Or (Or (Or (Or (Shl (Lit 19) 26) (Shl (Op 0 5) 21)) (Shl (Op 1 5) 16)) (Shl
      (Op 2 5) 11)) (Shl (Lit 449) 1)));
  mkEnc [U 5; U 5; U 5] pre0 (fun o => crxor (im o 0) (im o 1) (im o 2))
    ((Or (Or (Or (Or (Shl (Lit 19) 26) (Shl (Op 0 5) 21)) (Shl (Op 1 5) 16)) (Shl
      (Op 2 5) 11)) (Shl (Lit 193) 1)));
  mkEnc [U 5; U 5; U 5] pre0 (fun o => creqv (im o 0) (im o 1) (im o 2))
    ((Or (Or (Or (Or (Shl (Lit 19) 26) (Shl (Op 0 5) 21)) (Shl (Op 1 5) 16)) (Shl
      (Op 2 5) 11)) (Shl (Lit 289) 1)));
  mkEnc [U 5; U 5; U 5] pre0 (fun o => crnand (im o 0) (im o 1) (im o 2))
    ((Or (Or (Or (Or (Shl (Lit 19) 26) (Shl (Op 0 5) 21)) (Shl (Op 1 5) 16)) (Shl
      (Op 2 5) 11)) (Shl (Lit 225) 1)));
  mkEnc [U 5; U 5; U 5] pre0 (fun o => crandc (im o 0) (im o 1) (im o 2))
    ((Or (Or (Or (Or (Shl (Lit 19) 26) (Shl (Op 0 5) 21)) (Shl (Op 1 5) 16)) (Shl
      (Op 2 5) 11)) (Shl (Lit 129) 1)));
  mkEnc [U 5] pre0 (fun o => mfcr (gp o 0))
    ((Or (Or (Shl (Lit 31) 26) (Shl (Op 0 5) 21)) (Shl (Lit 19) 1)));
  mkEnc [U 8; U 5] pre0 (fun o => mtcrf (im o 0) (gp o 1))
    ((Or (Or (Or (Shl (Lit 31) 26) (Shl (Op 1 5) 21)) (Shl (Op 0 8) 12)) (Shl (Lit 144) 1)))
].

(** Loads and stores. *)
Definition insns_mem : list Enc := [
  mkEnc [U 5; S16; U 5] pre0 (fun o => lbz (gp o 0) (im o 1) (gp o 2))
    (xD (Lit 34) (Op 0 5) (Op 2 5) (Low16 (SOp 1)));
  mkEnc [U 5; S16; U 5] pre0 (fun o => lhz (gp o 0) (im o 1) (gp o 2))
    (xD (Lit 40) (Op 0 5) (Op 2 5) (Low16 (SOp 1)));
  mkEnc [U 5; S16; U 5] pre0 (fun o => lha (gp o 0) (im o 1) (gp o 2))
    (xD (Lit 42) (Op 0 5) (Op 2 5) (Low16 (SOp 1)));
  mkEnc [U 5; S16; U 5] pre0 (fun o => lwz (gp o 0) (im o 1) (gp o 2))
    (xD (Lit 32) (Op 0 5) (Op 2 5) (Low16 (SOp 1)));
  mkEnc [U 5; S16; U 5] pre0 (fun o => stb (gp o 0) (im o 1) (gp o 2))
    (xD (Lit 38) (Op 0 5) (Op 2 5) (Low16 (SOp 1)));
  mkEnc [U 5; S16; U 5] pre0 (fun o => sth (gp o 0) (im o 1) (gp o 2))
    (xD (Lit 44) (Op 0 5) (Op 2 5) (Low16 (SOp 1)));
  mkEnc [U 5; S16; U 5] pre0 (fun o => stw (gp o 0) (im o 1) (gp o 2))
    (xD (Lit 36) (Op 0 5) (Op 2 5) (Low16 (SOp 1)));
  mkEnc [U 5; U 5; U 5] pre0 (fun o => lbzx (gp o 0) (gp o 1) (gp o 2))
    (xX (Lit 31) (Op 0 5) (Op 1 5) (Op 2 5) (Lit 87) (Lit 0));
  mkEnc [U 5; U 5; U 5] pre0 (fun o => lhzx (gp o 0) (gp o 1) (gp o 2))
    (xX (Lit 31) (Op 0 5) (Op 1 5) (Op 2 5) (Lit 279) (Lit 0));
  mkEnc [U 5; U 5; U 5] pre0 (fun o => lhax (gp o 0) (gp o 1) (gp o 2))
    (xX (Lit 31) (Op 0 5) (Op 1 5) (Op 2 5) (Lit 343) (Lit 0));
  mkEnc [U 5; U 5; U 5] pre0 (fun o => lwzx (gp o 0) (gp o 1) (gp o 2))
    (xX (Lit 31) (Op 0 5) (Op 1 5) (Op 2 5) (Lit 23) (Lit 0));
  mkEnc [U 5; U 5; U 5] pre0 (fun o => lwax (gp o 0) (gp o 1) (gp o 2))
    (xX (Lit 31) (Op 0 5) (Op 1 5) (Op 2 5) (Lit 341) (Lit 0));
  mkEnc [U 5; U 5; U 5] pre0 (fun o => ldx (gp o 0) (gp o 1) (gp o 2))
    (xX (Lit 31) (Op 0 5) (Op 1 5) (Op 2 5) (Lit 21) (Lit 0));
  mkEnc [U 5; U 5; U 5] pre0 (fun o => stbx (gp o 0) (gp o 1) (gp o 2))
    (xX (Lit 31) (Op 0 5) (Op 1 5) (Op 2 5) (Lit 215) (Lit 0));
  mkEnc [U 5; U 5; U 5] pre0 (fun o => sthx (gp o 0) (gp o 1) (gp o 2))
    (xX (Lit 31) (Op 0 5) (Op 1 5) (Op 2 5) (Lit 407) (Lit 0));
  mkEnc [U 5; U 5; U 5] pre0 (fun o => stwx (gp o 0) (gp o 1) (gp o 2))
    (xX (Lit 31) (Op 0 5) (Op 1 5) (Op 2 5) (Lit 151) (Lit 0));
  mkEnc [U 5; U 5; U 5] pre0 (fun o => stdx (gp o 0) (gp o 1) (gp o 2))
    (xX (Lit 31) (Op 0 5) (Op 1 5) (Op 2 5) (Lit 149) (Lit 0));
  mkEnc [U 5; U 5; U 5] pre0 (fun o => lhbrx (gp o 0) (gp o 1) (gp o 2))
    (xX (Lit 31) (Op 0 5) (Op 1 5) (Op 2 5) (Lit 790) (Lit 0));
  mkEnc [U 5; U 5; U 5] pre0 (fun o => lwbrx (gp o 0) (gp o 1) (gp o 2))
    (xX (Lit 31) (Op 0 5) (Op 1 5) (Op 2 5) (Lit 534) (Lit 0));
  mkEnc [U 5; U 5; U 5] pre0 (fun o => ldbrx (gp o 0) (gp o 1) (gp o 2))
    (xX (Lit 31) (Op 0 5) (Op 1 5) (Op 2 5) (Lit 532) (Lit 0));
  mkEnc [U 5; U 5; U 5] pre0 (fun o => sthbrx (gp o 0) (gp o 1) (gp o 2))
    (xX (Lit 31) (Op 0 5) (Op 1 5) (Op 2 5) (Lit 918) (Lit 0));
  mkEnc [U 5; U 5; U 5] pre0 (fun o => stwbrx (gp o 0) (gp o 1) (gp o 2))
    (xX (Lit 31) (Op 0 5) (Op 1 5) (Op 2 5) (Lit 662) (Lit 0));
  mkEnc [U 5; U 5; U 5] pre0 (fun o => stdbrx (gp o 0) (gp o 1) (gp o 2))
    (xX (Lit 31) (Op 0 5) (Op 1 5) (Op 2 5) (Lit 660) (Lit 0));
  mkEnc [U 5; S16; U 5] pre0 (fun o => lfs (fp o 0) (im o 1) (gp o 2))
    (xD (Lit 48) (Op 0 5) (Op 2 5) (Low16 (SOp 1)));
  mkEnc [U 5; S16; U 5] pre0 (fun o => lfd (fp o 0) (im o 1) (gp o 2))
    (xD (Lit 50) (Op 0 5) (Op 2 5) (Low16 (SOp 1)));
  mkEnc [U 5; S16; U 5] pre0 (fun o => stfs (fp o 0) (im o 1) (gp o 2))
    (xD (Lit 52) (Op 0 5) (Op 2 5) (Low16 (SOp 1)));
  mkEnc [U 5; S16; U 5] pre0 (fun o => stfd (fp o 0) (im o 1) (gp o 2))
    (xD (Lit 54) (Op 0 5) (Op 2 5) (Low16 (SOp 1)));
  mkEnc [U 5; U 5; U 5] pre0 (fun o => lfsx (fp o 0) (gp o 1) (gp o 2))
    (xX (Lit 31) (Op 0 5) (Op 1 5) (Op 2 5) (Lit 535) (Lit 0));
  mkEnc [U 5; U 5; U 5] pre0 (fun o => lfdx (fp o 0) (gp o 1) (gp o 2))
    (xX (Lit 31) (Op 0 5) (Op 1 5) (Op 2 5) (Lit 599) (Lit 0));
  mkEnc [U 5; U 5; U 5] pre0 (fun o => stfsx (fp o 0) (gp o 1) (gp o 2))
    (xX (Lit 31) (Op 0 5) (Op 1 5) (Op 2 5) (Lit 663) (Lit 0));
  mkEnc [U 5; U 5; U 5] pre0 (fun o => stfdx (fp o 0) (gp o 1) (gp o 2))
    (xX (Lit 31) (Op 0 5) (Op 1 5) (Op 2 5) (Lit 727) (Lit 0))
].

(** Floating-point moves and VSX. *)
Definition insns_vsx : list Enc := [
  mkEnc [U 5; U 5] pre0 (fun o => mffprd (gp o 0) (fp o 1))
    ((Or (Or (Or (Shl (Lit 31) 26) (Shl (Op 1 5) 21)) (Shl (Op 0 5) 16)) (Shl (Lit 51) 1)));
  mkEnc [U 5; U 5] pre0 (fun o => mtfprd (fp o 0) (gp o 1))
    ((Or (Or (Or (Shl (Lit 31) 26) (Shl (Op 0 5) 21)) (Shl (Op 1 5) 16)) (Shl (Lit 179) 1)));
  mkEnc [U 5; U 5] pre0 (fun o => mtvsrd (vp o 0) (gp o 1))
    ((Or (Or (Or (Or (Shl (Lit 31) 26) (Shl (Op 0 5) 21)) (Shl (Op 1 5) 16)) (Shl
      (Lit 179) 1)) (Lit 1)));
  mkEnc [U 5; U 5] pre0 (fun o => mfvsrd (gp o 0) (vp o 1))
    ((Or (Or (Or (Or (Shl (Lit 31) 26) (Shl (Op 1 5) 21)) (Shl (Op 0 5) 16)) (Shl
      (Lit 51) 1)) (Lit 1)));
  mkEnc [U 5; U 5; U 5] pre0 (fun o => xsaddsp (vp o 0) (vp o 1) (vp o 2))
    (xXX3 (Op 0 5) (Op 1 5) (Op 2 5) (Lit 0));
  mkEnc [U 5; U 5; U 5] pre0 (fun o => xssubsp (vp o 0) (vp o 1) (vp o 2))
    (xXX3 (Op 0 5) (Op 1 5) (Op 2 5) (Lit 8));
  mkEnc [U 5; U 5; U 5] pre0 (fun o => xsmulsp (vp o 0) (vp o 1) (vp o 2))
    (xXX3 (Op 0 5) (Op 1 5) (Op 2 5) (Lit 16));
  mkEnc [U 5; U 5; U 5] pre0 (fun o => xsdivsp (vp o 0) (vp o 1) (vp o 2))
    (xXX3 (Op 0 5) (Op 1 5) (Op 2 5) (Lit 24));
  mkEnc [U 5; U 5; U 5] pre0 (fun o => xsadddp (vp o 0) (vp o 1) (vp o 2))
    (xXX3 (Op 0 5) (Op 1 5) (Op 2 5) (Lit 32));
  mkEnc [U 5; U 5; U 5] pre0 (fun o => xssubdp (vp o 0) (vp o 1) (vp o 2))
    (xXX3 (Op 0 5) (Op 1 5) (Op 2 5) (Lit 40));
  mkEnc [U 5; U 5; U 5] pre0 (fun o => xsmuldp (vp o 0) (vp o 1) (vp o 2))
    (xXX3 (Op 0 5) (Op 1 5) (Op 2 5) (Lit 48));
  mkEnc [U 5; U 5; U 5] pre0 (fun o => xsdivdp (vp o 0) (vp o 1) (vp o 2))
    (xXX3 (Op 0 5) (Op 1 5) (Op 2 5) (Lit 56));
  mkEnc [U 5; U 5; U 5] pre0 (fun o => xsmaxdp (vp o 0) (vp o 1) (vp o 2))
    (xXX3 (Op 0 5) (Op 1 5) (Op 2 5) (Lit 160));
  mkEnc [U 5; U 5; U 5] pre0 (fun o => xsmindp (vp o 0) (vp o 1) (vp o 2))
    (xXX3 (Op 0 5) (Op 1 5) (Op 2 5) (Lit 168));
  mkEnc [U 5; U 5; U 5] pre0 (fun o => xvaddsp (vp o 0) (vp o 1) (vp o 2))
    (xXX3 (Op 0 5) (Op 1 5) (Op 2 5) (Lit 64));
  mkEnc [U 5; U 5; U 5] pre0 (fun o => xvsubsp (vp o 0) (vp o 1) (vp o 2))
    (xXX3 (Op 0 5) (Op 1 5) (Op 2 5) (Lit 72));
  mkEnc [U 5; U 5; U 5] pre0 (fun o => xvmulsp (vp o 0) (vp o 1) (vp o 2))
    (xXX3 (Op 0 5) (Op 1 5) (Op 2 5) (Lit 80));
  mkEnc [U 5; U 5; U 5] pre0 (fun o => xvdivsp (vp o 0) (vp o 1) (vp o 2))
    (xXX3 (Op 0 5) (Op 1 5) (Op 2 5) (Lit 88));
  mkEnc [U 5; U 5; U 5] pre0 (fun o => xvadddp (vp o 0) (vp o 1) (vp o 2))
    (xXX3 (Op 0 5) (Op 1 5) (Op 2 5) (Lit 96));
  mkEnc [U 5; U 5; U 5] pre0 (fun o => xvsubdp (vp o 0) (vp o 1) (vp o 2))
    (xXX3 (Op 0 5) (Op 1 5) (Op 2 5) (Lit 104));
  mkEnc [U 5; U 5; U 5] pre0 (fun o => xvmuldp (vp o 0) (vp o 1) (vp o 2))
    (xXX3 (Op 0 5) (Op 1 5) (Op 2 5) (Lit 112));
  mkEnc [U 5; U 5; U 5] pre0 (fun o => xvdivdp (vp o 0) (vp o 1) (vp o 2))
    (xXX3 (Op 0 5) (Op 1 5) (Op 2 5) (Lit 120));
  mkEnc [U 6; U 6; U 6] pre0 (fun o => xvmaddasp_vsx (xp o 0) (xp o 1) (xp o 2))
    (xXX3VSX (Op 0 6) (Op 1 6) (Op 2 6) (Lit 65));
  mkEnc [U 6; U 6; U 6] pre0 (fun o => xvmsubasp_vsx (xp o 0) (xp o 1) (xp o 2))
    (xXX3VSX (Op 0 6) (Op 1 6) (Op 2 6) (Lit 81));
  mkEnc [U 6; U 6; U 6] pre0 (fun o => xvnmaddasp_vsx (xp o 0) (xp o 1) (xp o 2))
    (xXX3VSX (Op 0 6) (Op 1 6) (Op 2 6) (Lit 193));
  mkEnc [U 6; U 6; U 6] pre0 (fun o => xvnmsubasp_vsx (xp o 0) (xp o 1) (xp o 2))
    (xXX3VSX (Op 0 6) (Op 1 6) (Op 2 6) (Lit 209));
  mkEnc [U 6; U 6; U 6] pre0 (fun o => xvmaddadp_vsx (xp o 0) (xp o 1) (xp o 2))
    (xXX3VSX (Op 0 6) (Op 1 6) (Op 2 6) (Lit 97));
  mkEnc [U 6; U 6; U 6] pre0 (fun o => xvmsubadp_vsx (xp o 0) (xp o 1) (xp o 2))
    (xXX3VSX (Op 0 6) (Op 1 6) (Op 2 6) (Lit 113));
  mkEnc [U 6; U 6; U 6] pre0 (fun o => xvnmaddadp_vsx (xp o 0) (xp o 1) (xp o 2))
    (xXX3VSX (Op 0 6) (Op 1 6) (Op 2 6) (Lit 225));
  mkEnc [U 6; U 6; U 6] pre0 (fun o => xvnmsubadp_vsx (xp o 0) (xp o 1) (xp o 2))
    (xXX3VSX (Op 0 6) (Op 1 6) (Op 2 6) (Lit 241));
  mkEnc [U 6; U 6; U 6] pre0 (fun o => xxlxor_vsx (xp o 0) (xp o 1) (xp o 2))
    (xXX3VSX (Op 0 6) (Op 1 6) (Op 2 6) (Lit 154));
  mkEnc [U 6; U 6; U 6; U 6] pre0 (fun o => xxsel_vsx (xp o 0) (xp o 1) (xp o 2) (xp o 3))
    ((Or (Or (Or (Or (Or (Or (Or (Or (Or (Shl (Lit 60) 26) (Shl (And (Op 0 6) 31) 21)) (Shl
      (And (Op 1 6) 31) 16)) (Shl (And (Op 2 6) 31) 11)) (Shl (And (Op 3 6) 31) 6)) (Shl
      (Lit 3) 4)) (Shl (And (Shr (Op 3 6) 5) 1) 3)) (Shl (And (Shr (Op 1 6) 5) 1) 2)) (Shl
      (And (Shr (Op 2 6) 5) 1) 1)) (And (Shr (Op 0 6) 5) 1)));
  mkEnc [U 5; U 5; U 5] pre0 (fun o => xvmaddmsp (vp o 0) (vp o 1) (vp o 2))
    (xXX3 (Op 0 5) (Op 1 5) (Op 2 5) (Lit 73));
  mkEnc [U 5; U 5; U 5] pre0 (fun o => xvmsubmsp (vp o 0) (vp o 1) (vp o 2))
    (xXX3 (Op 0 5) (Op 1 5) (Op 2 5) (Lit 89));
  mkEnc [U 5; U 5; U 5] pre0 (fun o => xvnmaddmsp (vp o 0) (vp o 1) (vp o 2))
    (xXX3 (Op 0 5) (Op 1 5) (Op 2 5) (Lit 201));
  mkEnc [U 5; U 5; U 5] pre0 (fun o => xvnmsubmsp (vp o 0) (vp o 1) (vp o 2))
    (xXX3 (Op 0 5) (Op 1 5) (Op 2 5) (Lit 217));
  mkEnc [U 5; U 5; U 5] pre0 (fun o => xvmaddmdp (vp o 0) (vp o 1) (vp o 2))
    (xXX3 (Op 0 5) (Op 1 5) (Op 2 5) (Lit 105));
  mkEnc [U 5; U 5; U 5] pre0 (fun o => xvmsubmdp (vp o 0) (vp o 1) (vp o 2))
    (xXX3 (Op 0 5) (Op 1 5) (Op 2 5) (Lit 121));
  mkEnc [U 5; U 5; U 5] pre0 (fun o => xvnmaddmdp (vp o 0) (vp o 1) (vp o 2))
    (xXX3 (Op 0 5) (Op 1 5) (Op 2 5) (Lit 233));
  mkEnc [U 5; U 5; U 5] pre0 (fun o => xvnmsubmdp (vp o 0) (vp o 1) (vp o 2))
    (xXX3 (Op 0 5) (Op 1 5) (Op 2 5) (Lit 249));
  mkEnc [U 6; U 6; U 6] pre0 (fun o => xxlor_vsx (xp o 0) (xp o 1) (xp o 2))
    (xXX3VSX (Op 0 6) (Op 1 6) (Op 2 6) (Lit 146));
  mkEnc [U 5; U 5; U 5] pre0 (fun o => xxland (vp o 0) (vp o 1) (vp o 2))
    (xXX3 (Op 0 5) (Op 1 5) (Op 2 5) (Lit 130));
  mkEnc [U 5; U 5; U 5] pre0 (fun o => xxlandc (vp o 0) (vp o 1) (vp o 2))
    (xXX3 (Op 0 5) (Op 1 5) (Op 2 5) (Lit 138));
  mkEnc [U 5; U 5; U 5] pre0 (fun o => xxlnor (vp o 0) (vp o 1) (vp o 2))
    (xXX3 (Op 0 5) (Op 1 5) (Op 2 5) (Lit 162));
  mkEnc [U 5; U 5; U 5] pre0 (fun o => xxlorc (vp o 0) (vp o 1) (vp o 2))
    (xXX3 (Op 0 5) (Op 1 5) (Op 2 5) (Lit 170));
  mkEnc [U 5; U 5; U 5] pre0 (fun o => xxlnand (vp o 0) (vp o 1) (vp o 2))
    (xXX3 (Op 0 5) (Op 1 5) (Op 2 5) (Lit 178));
  mkEnc [U 5; U 5; U 5] pre0 (fun o => xxleqv (vp o 0) (vp o 1) (vp o 2))
    (xXX3 (Op 0 5) (Op 1 5) (Op 2 5) (Lit 186));
  mkEnc [U 5; U 5] pre0 (fun o => xxbrq (vp o 0) (vp o 1))
    ((Or (Or (Or (Or (Or (Or (Shl (Lit 60) 26) (Shl (Op 0 5) 21)) (Shl (Lit 31) 16)) (Shl
      (Op 1 5) 11)) (Shl (And (Lit 475) 0x1FF) 2)) (Shl (Lit 1) 1)) (Lit 1)));
  mkEnc [U 5; U 5] pre0 (fun o => xvcvspsxws (vp o 0) (vp o 1))
    (xXX2 (Op 0 5) (Op 1 5) (Lit 152));
  mkEnc [U 5; U 5] pre0 (fun o => xvcvspuxws (vp o 0) (vp o 1))
    (xXX2 (Op 0 5) (Op 1 5) (Lit 136));
  mkEnc [U 5; U 5] pre0 (fun o => xvcvsxwsp (vp o 0) (vp o 1))
    (xXX2 (Op 0 5) (Op 1 5) (Lit 184));
  mkEnc [U 5; U 5] pre0 (fun o => xvcvuxwsp (vp o 0) (vp o 1))
    (xXX2 (Op 0 5) (Op 1 5) (Lit 168));
  mkEnc [U 5; U 5] pre0 (fun o => xscvdpsxws (vp o 0) (vp o 1))
    (xXX2 (Op 0 5) (Op 1 5) (Lit 88));
  mkEnc [U 5; U 5] pre0 (fun o => xscvdpsxds (vp o 0) (vp o 1))
    (xXX2 (Op 0 5) (Op 1 5) (Lit 344));
  mkEnc [U 5; U 5] pre0 (fun o => xscvsxdsp (vp o 0) (vp o 1))
    (xXX2 (Op 0 5) (Op 1 5) (Lit 312));
  mkEnc [U 5; U 5] pre0 (fun o => xscvuxdsp (vp o 0) (vp o 1))
    (xXX2 (Op 0 5) (Op 1 5) (Lit 296));
  mkEnc [U 5; U 5] pre0 (fun o => xscvsxddp (vp o 0) (vp o 1))
    (xXX2 (Op 0 5) (Op 1 5) (Lit 376));
  mkEnc [U 5; U 5] pre0 (fun o => xscvuxddp (vp o 0) (vp o 1))
    (xXX2 (Op 0 5) (Op 1 5) (Lit 360));
  mkEnc [U 5; U 5] pre0 (fun o => xscvspdp (vp o 0) (vp o 1))
    (xXX2 (Op 0 5) (Op 1 5) (Lit 329));
  mkEnc [U 5; U 5] pre0 (fun o => xscvdpsp (vp o 0) (vp o 1))
    (xXX2 (Op 0 5) (Op 1 5) (Lit 265));
  mkEnc [U 5; U 5] pre0 (fun o => xssqrtsp (vp o 0) (vp o 1))
    (xXX2 (Op 0 5) (Op 1 5) (Lit 11));
  mkEnc [U 5; U 5] pre0 (fun o => xssqrtdp (vp o 0) (vp o 1))
    (xXX2 (Op 0 5) (Op 1 5) (Lit 75));
  mkEnc [U 5; U 5] pre0 (fun o => xsabsdp (vp o 0) (vp o 1))
    (xXX2 (Op 0 5) (Op 1 5) (Lit 345));
  mkEnc [U 5; U 5] pre0 (fun o => xsnegdp (vp o 0) (vp o 1))
    (xXX2 (Op 0 5) (Op 1 5) (Lit 377));
  mkEnc [U 5; U 5] pre0 (fun o => xvabssp (vp o 0) (vp o 1))
    (xXX2 (Op 0 5) (Op 1 5) (Lit 409));
  mkEnc [U 5; U 5] pre0 (fun o => xvabsdp (vp o 0) (vp o 1))
    (xXX2 (Op 0 5) (Op 1 5) (Lit 473));
  mkEnc [U 5; U 5] pre0 (fun o => xvnegsp (vp o 0) (vp o 1))
    (xXX2 (Op 0 5) (Op 1 5) (Lit 441));
  mkEnc [U 5; U 5] pre0 (fun o => xvnegdp (vp o 0) (vp o 1))
    (xXX2 (Op 0 5) (Op 1 5) (Lit 505));
  mkEnc [U 5; U 5] pre0 (fun o => xvsqrtsp (vp o 0) (vp o 1))
    (xXX2 (Op 0 5) (Op 1 5) (Lit 139));
  mkEnc [U 5; U 5] pre0 (fun o => xvsqrtdp (vp o 0) (vp o 1))
    (xXX2 (Op 0 5) (Op 1 5) (Lit 203));
  mkEnc [U 5; U 5] pre0 (fun o => xvrspi (vp o 0) (vp o 1))
    (xXX2 (Op 0 5) (Op 1 5) (Lit 137));
  mkEnc [U 5; U 5] pre0 (fun o => xvrspip (vp o 0) (vp o 1))
    (xXX2 (Op 0 5) (Op 1 5) (Lit 169));
  mkEnc [U 5; U 5] pre0 (fun o => xvrspim (vp o 0) (vp o 1))
    (xXX2 (Op 0 5) (Op 1 5) (Lit 185));
  mkEnc [U 5; U 5] pre0 (fun o => xvrspiz (vp o 0) (vp o 1))
    (xXX2 (Op 0 5) (Op 1 5) (Lit 153));
  mkEnc [U 5; U 5] pre0 (fun o => xvrspic (vp o 0) (vp o 1))
    (xXX2 (Op 0 5) (Op 1 5) (Lit 171));
  mkEnc [U 5; U 5] pre0 (fun o => xsrdpic (vp o 0) (vp o 1))
    (xXX2 (Op 0 5) (Op 1 5) (Lit 107));
  mkEnc [U 5; U 5] pre0 (fun o => xsrdpim (vp o 0) (vp o 1))
    (xXX2 (Op 0 5) (Op 1 5) (Lit 121));
  mkEnc [U 5; U 5] pre0 (fun o => xsrdpip (vp o 0) (vp o 1))
    (xXX2 (Op 0 5) (Op 1 5) (Lit 105));
  mkEnc [U 5; U 5] pre0 (fun o => xsrdpiz (vp o 0) (vp o 1))
    (xXX2 (Op 0 5) (Op 1 5) (Lit 89));
  mkEnc [U 5; U 5] pre0 (fun o => xscvspdpn (vp o 0) (vp o 1))
    (xXX2 (Op 0 5) (Op 1 5) (Lit 331));
  mkEnc [U 5; U 5] pre0 (fun o => xscvdpspn (vp o 0) (vp o 1))
    (xXX2 (Op 0 5) (Op 1 5) (Lit 267));
  mkEnc [U 5; U 5] pre0 (fun o => xvrdpi (vp o 0) (vp o 1))
    (xXX2 (Op 0 5) (Op 1 5) (Lit 201));
  mkEnc [U 5; U 5] pre0 (fun o => xvrdpip (vp o 0) (vp o 1))
    (xXX2 (Op 0 5) (Op 1 5) (Lit 233));
  mkEnc [U 5; U 5] pre0 (fun o => xvrdpim (vp o 0) (vp o 1))
    (xXX2 (Op 0 5) (Op 1 5) (Lit 249));
  mkEnc [U 5; U 5] pre0 (fun o => xvrdpiz (vp o 0) (vp o 1))
    (xXX2 (Op 0 5) (Op 1 5) (Lit 217));
  mkEnc [U 5; U 5] pre0 (fun o => xvrdpic (vp o 0) (vp o 1))
    (xXX2 (Op 0 5) (Op 1 5) (Lit 235));
  mkEnc [U 5; U 5] pre0 (fun o => xvcvdpsxws (vp o 0) (vp o 1))
    (xXX2 (Op 0 5) (Op 1 5) (Lit 216));
  mkEnc [U 5; U 5] pre0 (fun o => xvcvdpuxws (vp o 0) (vp o 1))
    (xXX2 (Op 0 5) (Op 1 5) (Lit 200));
  mkEnc [U 5; U 5] pre0 (fun o => xvcvdpsxds (vp o 0) (vp o 1))
    (xXX2 (Op 0 5) (Op 1 5) (Lit 472));
  mkEnc [U 5; U 5] pre0 (fun o => xvcvspdp (vp o 0) (vp o 1))
    (xXX2 (Op 0 5) (Op 1 5) (Lit 457));
  mkEnc [U 5; U 5] pre0 (fun o => xvcvdpsp (vp o 0) (vp o 1))
    (xXX2 (Op 0 5) (Op 1 5) (Lit 393));
  mkEnc [U 5; U 5] pre0 (fun o => xvcvsxddp (vp o 0) (vp o 1))
    (xXX2 (Op 0 5) (Op 1 5) (Lit 504));
  mkEnc [U 5; U 5] pre0 (fun o => xvcvsxdsp (vp o 0) (vp o 1))
    (xXX2 (Op 0 5) (Op 1 5) (Lit 440));
  mkEnc [U 5; U 5] pre0 (fun o => xvcvsxwdp (vp o 0) (vp o 1))
    (xXX2 (Op 0 5) (Op 1 5) (Lit 248));
  mkEnc [U 5; U 5; U 5] pre0 (fun o => xvcpsgnsp (vp o 0) (vp o 1) (vp o 2))
    (xXX3 (Op 0 5) (Op 1 5) (Op 2 5) (Lit 208));
  mkEnc [U 5; U 5; U 5] pre0 (fun o => xvcpsgndp (vp o 0) (vp o 1) (vp o 2))
    (xXX3 (Op 0 5) (Op 1 5) (Op 2 5) (Lit 240));
  mkEnc [U 5; U 5; U 5] pre0 (fun o => xvmaxsp (vp o 0) (vp o 1) (vp o 2))
    (xXX3 (Op 0 5) (Op 1 5) (Op 2 5) (Lit 192));
  mkEnc [U 5; U 5; U 5] pre0 (fun o => xvminsp (vp o 0) (vp o 1) (vp o 2))
    (xXX3 (Op 0 5) (Op 1 5) (Op 2 5) (Lit 200));
  mkEnc [U 5; U 5; U 5] pre0 (fun o => xvmaxdp (vp o 0) (vp o 1) (vp o 2))
    (xXX3 (Op 0 5) (Op 1 5) (Op 2 5) (Lit 224));
  mkEnc [U 5; U 5; U 5] pre0 (fun o => xvmindp (vp o 0) (vp o 1) (vp o 2))
    (xXX3 (Op 0 5) (Op 1 5) (Op 2 5) (Lit 232));
  mkEnc [U 5; U 5; U 5] pre0 (fun o => xvcmpeqsp (vp o 0) (vp o 1) (vp o 2))
    (xXX3 (Op 0 5) (Op 1 5) (Op 2 5) (Lit 67));
  mkEnc [U 5; U 5; U 5] pre0 (fun o => xvcmpeqdp (vp o 0) (vp o 1) (vp o 2))
    (xXX3 (Op 0 5) (Op 1 5) (Op 2 5) (Lit 99));
  mkEnc [U 5; U 5; U 5] pre0 (fun o => xvcmpgtsp (vp o 0) (vp o 1) (vp o 2))
    (xXX3 (Op 0 5) (Op 1 5) (Op 2 5) (Lit 75));
  mkEnc [U 5; U 5; U 5] pre0 (fun o => xvcmpgtdp (vp o 0) (vp o 1) (vp o 2))
    (xXX3 (Op 0 5) (Op 1 5) (Op 2 5) (Lit 107));
  mkEnc [U 5; U 5; U 5] pre0 (fun o => xvcmpgesp (vp o 0) (vp o 1) (vp o 2))
    (xXX3 (Op 0 5) (Op 1 5) (Op 2 5) (Lit 83));
  mkEnc [U 5; U 5; U 5] pre0 (fun o => xvcmpgedp (vp o 0) (vp o 1) (vp o 2))
    (xXX3 (Op 0 5) (Op 1 5) (Op 2 5) (Lit 115))
].

(** Scalar floating point. *)
Definition insns_fp : list Enc := [
  mkEnc [U 5; U 5; U 5] pre0 (fun o => fadd (fp o 0) (fp o 1) (fp o 2))
    (xA 63 (Op 0 5) (Op 1 5) (Op 2 5) (Lit 0) (Lit 21) (Lit 0));
  mkEnc [U 5; U 5; U 5] pre0 (fun o => fadds (fp o 0) (fp o 1) (fp o 2))
    (xA 59 (Op 0 5) (Op 1 5) (Op 2 5) (Lit 0) (Lit 21) (Lit 0));
  mkEnc [U 5; U 5; U 5] pre0 (fun o => fsub (fp o 0) (fp o 1) (fp o 2))
    (xA 63 (Op 0 5) (Op 1 5) (Op 2 5) (Lit 0) (Lit 20) (Lit 0));
  mkEnc [U 5; U 5; U 5] pre0 (fun o => fsubs (fp o 0) (fp o 1) (fp o 2))
    (xA 59 (Op 0 5) (Op 1 5) (Op 2 5) (Lit 0) (Lit 20) (Lit 0));
  mkEnc [U 5; U 5; U 5] pre0 (fun o => fmul (fp o 0) (fp o 1) (fp o 2))
    (xA 63 (Op 0 5) (Op 1 5) (Lit 0) (Op 2 5) (Lit 25) (Lit 0));
  mkEnc [U 5; U 5; U 5] pre0 (fun o => fmuls (fp o 0) (fp o 1) (fp o 2))
    (xA 59 (Op 0 5) (Op 1 5) (Lit 0) (Op 2 5) (Lit 25) (Lit 0));
  mkEnc [U 5; U 5; U 5] pre0 (fun o => fdiv (fp o 0) (fp o 1) (fp o 2))
    (xA 63 (Op 0 5) (Op 1 5) (Op 2 5) (Lit 0) (Lit 18) (Lit 0));
  mkEnc [U 5; U 5; U 5] pre0 (fun o => fdivs (fp o 0) (fp o 1) (fp o 2))
    (xA 59 (Op 0 5) (Op 1 5) (Op 2 5) (Lit 0) (Lit 18) (Lit 0));
  mkEnc [U 5; U 5] pre0 (fun o => fsqrt (fp o 0) (fp o 1))
    (xA 63 (Op 0 5) (Lit 0) (Op 1 5) (Lit 0) (Lit 22) (Lit 0));
  mkEnc [U 5; U 5] pre0 (fun o => fsqrts (fp o 0) (fp o 1))
    (xA 59 (Op 0 5) (Lit 0) (Op 1 5) (Lit 0) (Lit 22) (Lit 0));
  mkEnc [U 5; U 5] pre0 (fun o => fabs (fp o 0) (fp o 1))
    (xX (Lit 63) (Op 0 5) (Lit 0) (Op 1 5) (Lit 264) (Lit 0));
  mkEnc [U 5; U 5] pre0 (fun o => fnabs (fp o 0) (fp o 1))
    (xX (Lit 63) (Op 0 5) (Lit 0) (Op 1 5) (Lit 136) (Lit 0));
  mkEnc [U 5; U 5] pre0 (fun o => fneg (fp o 0) (fp o 1))
    (xX (Lit 63) (Op 0 5) (Lit 0) (Op 1 5) (Lit 40) (Lit 0));
  mkEnc [U 5; U 5] pre0 (fun o => fmr (fp o 0) (fp o 1))
    (xX (Lit 63) (Op 0 5) (Lit 0) (Op 1 5) (Lit 72) (Lit 0));
  mkEnc [U 5; U 5] pre0 (fun o => frsp (fp o 0) (fp o 1))
    (xX (Lit 63) (Op 0 5) (Lit 0) (Op 1 5) (Lit 12) (Lit 0));
  mkEnc [U 5; U 5] pre0 (fun o => frin (fp o 0) (fp o 1))
    (xX (Lit 63) (Op 0 5) (Lit 0) (Op 1 5) (Lit 392) (Lit 0));
  mkEnc [U 5; U 5] pre0 (fun o => friz (fp o 0) (fp o 1))
    (xX (Lit 63) (Op 0 5) (Lit 0) (Op 1 5) (Lit 424) (Lit 0));
  mkEnc [U 5; U 5] pre0 (fun o => frip (fp o 0) (fp o 1))
    (xX (Lit 63) (Op 0 5) (Lit 0) (Op 1 5) (Lit 456) (Lit 0));
  mkEnc [U 5; U 5] pre0 (fun o => frim (fp o 0) (fp o 1))
    (xX (Lit 63) (Op 0 5) (Lit 0) (Op 1 5) (Lit 488) (Lit 0));
  mkEnc [U 3; U 5; U 5] pre0 (fun o => fcmpu (cp o 0) (fp o 1) (fp o 2))
    ((Or (Or (Or (Or (Shl (Lit 63) 26) (Shl (Op 0 3) 23)) (Shl (Op 1 5) 16)) (Shl
      (Op 2 5) 11)) (Shl (Lit 0) 1)));
  mkEnc [U 3; U 5; U 5] pre0 (fun o => fcmpo (cp o 0) (fp o 1) (fp o 2))
    ((Or (Or (Or (Or (Shl (Lit 63) 26) (Shl (Op 0 3) 23)) (Shl (Op 1 5) 16)) (Shl
      (Op 2 5) 11)) (Shl (Lit 32) 1)));
  mkEnc [U 5; U 5; U 5; U 5] pre0 (fun o => fmadd (fp o 0) (fp o 1) (fp o 2) (fp o 3))
    (xA 63 (Op 0 5) (Op 1 5) (Op 3 5) (Op 2 5) (Lit 29) (Lit 0));
  mkEnc [U 5; U 5; U 5; U 5] pre0 (fun o => fmadds (fp o 0) (fp o 1) (fp o 2) (fp o 3))
    (xA 59 (Op 0 5) (Op 1 5) (Op 3 5) (Op 2 5) (Lit 29) (Lit 0));
  mkEnc [U 5; U 5; U 5; U 5] pre0 (fun o => fmsub (fp o 0) (fp o 1) (fp o 2) (fp o 3))
    (xA 63 (Op 0 5) (Op 1 5) (Op 3 5) (Op 2 5) (Lit 28) (Lit 0));
  mkEnc [U 5; U 5; U 5; U 5] pre0 (fun o => fmsubs (fp o 0) (fp o 1) (fp o 2) (fp o 3))
    (xA 59 (Op 0 5) (Op 1 5) (Op 3 5) (Op 2 5) (Lit 28) (Lit 0));
  mkEnc [U 5; U 5; U 5; U 5] pre0 (fun o => fnmadd (fp o 0) (fp o 1) (fp o 2) (fp o 3))
    (xA 63 (Op 0 5) (Op 1 5) (Op 3 5) (Op 2 5) (Lit 31) (Lit 0));
  mkEnc [U 5; U 5; U 5; U 5] pre0 (fun o => fnmsub (fp o 0) (fp o 1) (fp o 2) (fp o 3))
    (xA 63 (Op 0 5) (Op 1 5) (Op 3 5) (Op 2 5) (Lit 30) (Lit 0));
  mkEnc [U 5; U 5; U 5; U 5] pre0 (fun o => fnmadds (fp o 0) (fp o 1) (fp o 2) (fp o 3))
    (xA 59 (Op 0 5) (Op 1 5) (Op 3 5) (Op 2 5) (Lit 31) (Lit 0));
  mkEnc [U 5; U 5; U 5; U 5] pre0 (fun o => fnmsubs (fp o 0) (fp o 1) (fp o 2) (fp o 3))
    (xA 59 (Op 0 5) (Op 1 5) (Op 3 5) (Op 2 5) (Lit 30) (Lit 0));
  mkEnc [U 5; U 5; U 5; U 5] pre0 (fun o => fsel (fp o 0) (fp o 1) (fp o 2) (fp o 3))
    (xA 63 (Op 0 5) (Op 1 5) (Op 3 5) (Op 2 5) (Lit 23) (Lit 0));
  mkEnc [U 5; U 5] pre0 (fun o => fres (fp o 0) (fp o 1))
    (xA 59 (Op 0 5) (Lit 0) (Op 1 5) (Lit 0) (Lit 24) (Lit 0));
  mkEnc [U 5; U 5] pre0 (fun o => frsqrte (fp o 0) (fp o 1))
    (xA 63 (Op 0 5) (Lit 0) (Op 1 5) (Lit 0) (Lit 26) (Lit 0));
  mkEnc [U 5; U 5] pre0 (fun o => frsqrtes (fp o 0) (fp o 1))
    (xA 59 (Op 0 5) (Lit 0) (Op 1 5) (Lit 0) (Lit 26) (Lit 0));
  mkEnc [U 5; U 5] pre0 (fun o => fctidu (fp o 0) (fp o 1))
    (xX (Lit 63) (Op 0 5) (Lit 0) (Op 1 5) (Lit 942) (Lit 0));
  mkEnc [U 5; U 5] pre0 (fun o => fctiduz (fp o 0) (fp o 1))
    (xX (Lit 63) (Op 0 5) (Lit 0) (Op 1 5) (Lit 943) (Lit 0));
  mkEnc [U 5; U 5; U 5] pre0 (fun o => crnor (im o 0) (im o 1) (im o 2))
    ((Or (Or (Or (Or (Shl (Lit 19) 26) (Shl (Op 0 5) 21)) (Shl (Op 1 5) 16)) (Shl
      (Op 2 5) 11)) (Shl (Lit 33) 1)));
  mkEnc [U 5; U 5] pre0 (fun o => fctiw (fp o 0) (fp o 1))
    (xX (Lit 63) (Op 0 5) (Lit 0) (Op 1 5) (Lit 14) (Lit 0));
  mkEnc [U 5; U 5] pre0 (fun o => fctiwz (fp o 0) (fp o 1))
    (xX (Lit 63) (Op 0 5) (Lit 0) (Op 1 5) (Lit 15) (Lit 0));
  mkEnc [U 5; U 5] pre0 (fun o => fctid (fp o 0) (fp o 1))
    (xX (Lit 63) (Op 0 5) (Lit 0) (Op 1 5) (Lit 814) (Lit 0));
  mkEnc [U 5; U 5] pre0 (fun o => fctidz (fp o 0) (fp o 1))
    (xX (Lit 63) (Op 0 5) (Lit 0) (Op 1 5) (Lit 815) (Lit 0));
  mkEnc [U 5; U 5] pre0 (fun o => fcfid (fp o 0) (fp o 1))
    (xX (Lit 63) (Op 0 5) (Lit 0) (Op 1 5) (Lit 846) (Lit 0));
  mkEnc [U 5; U 5] pre0 (fun o => fcfidu (fp o 0) (fp o 1))
    (xX (Lit 63) (Op 0 5) (Lit 0) (Op 1 5) (Lit 974) (Lit 0));
  mkEnc [U 5; U 5] pre0 (fun o => fctiwu (fp o 0) (fp o 1))
    (xX (Lit 63) (Op 0 5) (Lit 0) (Op 1 5) (Lit 142) (Lit 0));
  mkEnc [U 5; U 5] pre0 (fun o => fctiwuz (fp o 0) (fp o 1))
    (xX (Lit 63) (Op 0 5) (Lit 0) (Op 1 5) (Lit 143) (Lit 0));
  mkEnc [U 5; U 5] pre0 (fun o => fcfids (fp o 0) (fp o 1))
    (xX (Lit 59) (Op 0 5) (Lit 0) (Op 1 5) (Lit 846) (Lit 0));
  mkEnc [U 5; U 5] pre0 (fun o => fcfidus (fp o 0) (fp o 1))
    (xX (Lit 59) (Op 0 5) (Lit 0) (Op 1 5) (Lit 974) (Lit 0))
].

(** Vector loads and stores. *)
Definition insns_vmem : list Enc := [
  mkEnc [U 5; U 5; U 5] pre0 (fun o => lvx (vp o 0) (gp o 1) (gp o 2))
    (xX (Lit 31) (Op 0 5) (Op 1 5) (Op 2 5) (Lit 103) (Lit 0));
  mkEnc [U 5; U 5; U 5] pre0 (fun o => lvxl (vp o 0) (gp o 1) (gp o 2))
    (xX (Lit 31) (Op 0 5) (Op 1 5) (Op 2 5) (Lit 359) (Lit 0));
  mkEnc [U 5; U 5; U 5] pre0 (fun o => stvx (vp o 0) (gp o 1) (gp o 2))
    (xX (Lit 31) (Op 0 5) (Op 1 5) (Op 2 5) (Lit 231) (Lit 0));
  mkEnc [U 5; U 5; U 5] pre0 (fun o => stvxl (vp o 0) (gp o 1) (gp o 2))
    (xX (Lit 31) (Op 0 5) (Op 1 5) (Op 2 5) (Lit 487) (Lit 0));
  mkEnc [U 5; U 5; U 5] pre0 (fun o => lvsl (vp o 0) (gp o 1) (gp o 2))
    (xX (Lit 31) (Op 0 5) (Op 1 5) (Op 2 5) (Lit 6) (Lit 0));
  mkEnc [U 5; U 5; U 5] pre0 (fun o => lvsr (vp o 0) (gp o 1) (gp o 2))
    (xX (Lit 31) (Op 0 5) (Op 1 5) (Op 2 5) (Lit 38) (Lit 0));
  mkEnc [U 5; U 5; U 5] pre0 (fun o => lvewx (vp o 0) (gp o 1) (gp o 2))
    (xX (Lit 31) (Op 0 5) (Op 1 5) (Op 2 5) (Lit 71) (Lit 0));
  mkEnc [U 5; U 5; U 5] pre0 (fun o => lvehx (vp o 0) (gp o 1) (gp o 2))
    (xX (Lit 31) (Op 0 5) (Op 1 5) (Op 2 5) (Lit 39) (Lit 0));
  mkEnc [U 5; U 5; U 5] pre0 (fun o => lvebx (vp o 0) (gp o 1) (gp o 2))
    (xX (Lit 31) (Op 0 5) (Op 1 5) (Op 2 5) (Lit 7) (Lit 0));
  mkEnc [U 5; U 5; U 5] pre0 (fun o => stvewx (vp o 0) (gp o 1) (gp o 2))
    (xX (Lit 31) (Op 0 5) (Op 1 5) (Op 2 5) (Lit 199) (Lit 0));
  mkEnc [U 5; U 5; U 5] pre0 (fun o => stvehx (vp o 0) (gp o 1) (gp o 2))
    (xX (Lit 31) (Op 0 5) (Op 1 5) (Op 2 5) (Lit 167) (Lit 0));
  mkEnc [U 5; U 5; U 5] pre0 (fun o => stvebx (vp o 0) (gp o 1) (gp o 2))
    (xX (Lit 31) (Op 0 5) (Op 1 5) (Op 2 5) (Lit 135) (Lit 0));
  mkEnc [U 5; U 5; U 5] pre0 (fun o => lxvdsx (vp o 0) (gp o 1) (gp o 2))
    (xX (Lit 31) (Op 0 5) (Op 1 5) (Op 2 5) (Lit 332) (Lit 1));
  mkEnc [U 6; U 5; U 5] pre0 (fun o => stxvd2x_vsx (xp o 0) (gp o 1) (gp o 2))
    (xX (Lit 31) (And (Op 0 6) 31) (Op 1 5) (Op 2 5) (Lit 972) (And (Shr (Op 0 6) 5) 1));
  mkEnc [U 6; U 5; U 5] pre0 (fun o => lxvd2x_vsx (xp o 0) (gp o 1) (gp o 2))
    (xX (Lit 31) (And (Op 0 6) 31) (Op 1 5) (Op 2 5) (Lit 844) (And (Shr (Op 0 6) 5) 1));
  mkEnc [U 6; U 5; U 5] pre0 (fun o => lxvx_vsx (xp o 0) (gp o 1) (gp o 2))
    (xX (Lit 31) (And (Op 0 6) 31) (Op 1 5) (Op 2 5) (Lit 268) (And (Shr (Op 0 6) 5) 1));
  mkEnc [U 6; U 5; U 5] pre0 (fun o => stxvx_vsx (xp o 0) (gp o 1) (gp o 2))
    (xX (Lit 31) (And (Op 0 6) 31) (Op 1 5) (Op 2 5) (Lit 396) (And (Shr (Op 0 6) 5) 1));
  mkEnc [U 5; U 5; U 5] pre0 (fun o => lxsdx (vp o 0) (gp o 1) (gp o 2))
    (xX (Lit 31) (Op 0 5) (Op 1 5) (Op 2 5) (Lit 588) (Lit 1));
  mkEnc [U 5; U 5; U 5] pre0 (fun o => lxsiwzx (vp o 0) (gp o 1) (gp o 2))
    (xX (Lit 31) (Op 0 5) (Op 1 5) (Op 2 5) (Lit 12) (Lit 1));
  mkEnc [U 6; U 5; U 5] pre0 (fun o => stxsdx_vsx (xp o 0) (gp o 1) (gp o 2))
    (xX (Lit 31) (And (Op 0 6) 31) (Op 1 5) (Op 2 5) (Lit 716) (And (Shr (Op 0 6) 5) 1));
  mkEnc [U 6; U 5; U 5] pre0 (fun o => stxsiwx_vsx (xp o 0) (gp o 1) (gp o 2))
    (xX (Lit 31) (And (Op 0 6) 31) (Op 1 5) (Op 2 5) (Lit 140) (And (Shr (Op 0 6) 5) 1));
  mkEnc [U 5; U 5; U 5] pre0 (fun o => lxsibzx (vp o 0) (gp o 1) (gp o 2))
    (xX (Lit 31) (Op 0 5) (Op 1 5) (Op 2 5) (Lit 781) (Lit 1));
  mkEnc [U 5; U 5; U 5] pre0 (fun o => lxsihzx (vp o 0) (gp o 1) (gp o 2))
    (xX (Lit 31) (Op 0 5) (Op 1 5) (Op 2 5) (Lit 813) (Lit 1))
].

(** AltiVec. *)
Definition insns_vmx : list Enc := [
  mkEnc [U 5; U 5; U 5] pre0 (fun o => vaddubm (vp o 0) (vp o 1) (vp o 2))
    (xVX (Op 0 5) (Op 1 5) (Op 2 5) (Lit 0));
  mkEnc [U 5; U 5; U 5] pre0 (fun o => vadduhm (vp o 0) (vp o 1) (vp o 2))
    (xVX (Op 0 5) (Op 1 5) (Op 2 5) (Lit 64));
  mkEnc [U 5; U 5; U 5] pre0 (fun o => vadduwm (vp o 0) (vp o 1) (vp o 2))
    (xVX (Op 0 5) (Op 1 5) (Op 2 5) (Lit 128));
  mkEnc [U 5; U 5; U 5] pre0 (fun o => vaddudm (vp o 0) (vp o 1) (vp o 2))
    (xVX (Op 0 5) (Op 1 5) (Op 2 5) (Lit 192));
  mkEnc [U 5; U 5; U 5] pre0 (fun o => vsububm (vp o 0) (vp o 1) (vp o 2))
    (xVX (Op 0 5) (Op 1 5) (Op 2 5) (Lit 1024));
  mkEnc [U 5; U 5; U 5] pre0 (fun o => vsubuhm (vp o 0) (vp o 1) (vp o 2))
    (xVX (Op 0 5) (Op 1 5) (Op 2 5) (Lit 1088));
  mkEnc [U 5; U 5; U 5] pre0 (fun o => vsubuwm (vp o 0) (vp o 1) (vp o 2))
    (xVX (Op 0 5) (Op 1 5) (Op 2 5) (Lit 1152));
  mkEnc [U 5; U 5; U 5] pre0 (fun o => vsubudm (vp o 0) (vp o 1) (vp o 2))
    (xVX (Op 0 5) (Op 1 5) (Op 2 5) (Lit 1216));
  mkEnc [U 5; U 5; U 5] pre0 (fun o => vmuloub (vp o 0) (vp o 1) (vp o 2))
    (xVX (Op 0 5) (Op 1 5) (Op 2 5) (Lit 8));
  mkEnc [U 5; U 5; U 5] pre0 (fun o => vmulouh (vp o 0) (vp o 1) (vp o 2))
    (xVX (Op 0 5) (Op 1 5) (Op 2 5) (Lit 72));
  mkEnc [U 5; U 5; U 5] pre0 (fun o => vmulouw (vp o 0) (vp o 1) (vp o 2))
    (xVX (Op 0 5) (Op 1 5) (Op 2 5) (Lit 136));
  mkEnc [U 5; U 5; U 5] pre0 (fun o => vmuluwm (vp o 0) (vp o 1) (vp o 2))
    (xVX (Op 0 5) (Op 1 5) (Op 2 5) (Lit 137));
  mkEnc [U 5; U 5; U 5] pre0 (fun o => vmulesb (vp o 0) (vp o 1) (vp o 2))
    (xVX (Op 0 5) (Op 1 5) (Op 2 5) (Lit 776));
  mkEnc [U 5; U 5; U 5] pre0 (fun o => vmulesh (vp o 0) (vp o 1) (vp o 2))
    (xVX (Op 0 5) (Op 1 5) (Op 2 5) (Lit 840));
  mkEnc [U 5; U 5; U 5] pre0 (fun o => vmulesw (vp o 0) (vp o 1) (vp o 2))
    (xVX (Op 0 5) (Op 1 5) (Op 2 5) (Lit 904));
  mkEnc [U 5; U 5; U 5] pre0 (fun o => vmulosb (vp o 0) (vp o 1) (vp o 2))
    (xVX (Op 0 5) (Op 1 5) (Op 2 5) (Lit 264));
  mkEnc [U 5; U 5; U 5] pre0 (fun o => vmulosh (vp o 0) (vp o 1) (vp o 2))
    (xVX (Op 0 5) (Op 1 5) (Op 2 5) (Lit 328));
  mkEnc [U 5; U 5; U 5] pre0 (fun o => vmulosw (vp o 0) (vp o 1) (vp o 2))
    (xVX (Op 0 5) (Op 1 5) (Op 2 5) (Lit 392));
  mkEnc [U 5; U 5; U 5] pre0 (fun o => vmuleub (vp o 0) (vp o 1) (vp o 2))
    (xVX (Op 0 5) (Op 1 5) (Op 2 5) (Lit 520));
  mkEnc [U 5; U 5; U 5] pre0 (fun o => vmuleuh (vp o 0) (vp o 1) (vp o 2))
    (xVX (Op 0 5) (Op 1 5) (Op 2 5) (Lit 584));
  mkEnc [U 5; U 5; U 5] pre0 (fun o => vmuleuw (vp o 0) (vp o 1) (vp o 2))
    (xVX (Op 0 5) (Op 1 5) (Op 2 5) (Lit 648));
  mkEnc [U 5; U 5; U 5] pre0 (fun o => vand (vp o 0) (vp o 1) (vp o 2))
    (xVX (Op 0 5) (Op 1 5) (Op 2 5) (Lit 1028));
  mkEnc [U 5; U 5; U 5] pre0 (fun o => vandc (vp o 0) (vp o 1) (vp o 2))
    (xVX (Op 0 5) (Op 1 5) (Op 2 5) (Lit 1092));
  mkEnc [U 5; U 5; U 5] pre0 (fun o => vor (vp o 0) (vp o 1) (vp o 2))
    (xVX (Op 0 5) (Op 1 5) (Op 2 5) (Lit 1156));
  mkEnc [U 5; U 5; U 5] pre0 (fun o => vnor (vp o 0) (vp o 1) (vp o 2))
    (xVX (Op 0 5) (Op 1 5) (Op 2 5) (Lit 1284));
  mkEnc [U 5; U 5; U 5] pre0 (fun o => vxor (vp o 0) (vp o 1) (vp o 2))
    (xVX (Op 0 5) (Op 1 5) (Op 2 5) (Lit 1220));
  mkEnc [U 5; U 5; U 5] pre0 (fun o => vorc (vp o 0) (vp o 1) (vp o 2))
    (xVX (Op 0 5) (Op 1 5) (Op 2 5) (Lit 1348));
  mkEnc [U 5; U 5; U 5] pre0 (fun o => vnand (vp o 0) (vp o 1) (vp o 2))
    (xVX (Op 0 5) (Op 1 5) (Op 2 5) (Lit 1412));
  mkEnc [U 5; U 5; U 5] pre0 (fun o => veqv (vp o 0) (vp o 1) (vp o 2))
    (xVX (Op 0 5) (Op 1 5) (Op 2 5) (Lit 1668));
  mkEnc [U 5; U 5; U 5] pre0 (fun o => vrlb (vp o 0) (vp o 1) (vp o 2))
    (xVX (Op 0 5) (Op 1 5) (Op 2 5) (Lit 4));
  mkEnc [U 5; U 5; U 5] pre0 (fun o => vrlh (vp o 0) (vp o 1) (vp o 2))
    (xVX (Op 0 5) (Op 1 5) (Op 2 5) (Lit 68));
  mkEnc [U 5; U 5; U 5] pre0 (fun o => vrlw (vp o 0) (vp o 1) (vp o 2))
    (xVX (Op 0 5) (Op 1 5) (Op 2 5) (Lit 132));
  mkEnc [U 5; U 5; U 5] pre0 (fun o => vrld (vp o 0) (vp o 1) (vp o 2))
    (xVX (Op 0 5) (Op 1 5) (Op 2 5) (Lit 196));
  mkEnc [U 5; U 5; U 5] pre0 (fun o => vslb (vp o 0) (vp o 1) (vp o 2))
    (xVX (Op 0 5) (Op 1 5) (Op 2 5) (Lit 260));
  mkEnc [U 5; U 5; U 5] pre0 (fun o => vslh (vp o 0) (vp o 1) (vp o 2))
    (xVX (Op 0 5) (Op 1 5) (Op 2 5) (Lit 324));
  mkEnc [U 5; U 5; U 5] pre0 (fun o => vslw (vp o 0) (vp o 1) (vp o 2))
    (xVX (Op 0 5) (Op 1 5) (Op 2 5) (Lit 388));
  mkEnc [U 5; U 5; U 5] pre0 (fun o => vsld (vp o 0) (vp o 1) (vp o 2))
    (xVX (Op 0 5) (Op 1 5) (Op 2 5) (Lit 1476));
  mkEnc [U 5; U 5; U 5] pre0 (fun o => vsrb (vp o 0) (vp o 1) (vp o 2))
    (xVX (Op 0 5) (Op 1 5) (Op 2 5) (Lit 516));
  mkEnc [U 5; U 5; U 5] pre0 (fun o => vsrh (vp o 0) (vp o 1) (vp o 2))
    (xVX (Op 0 5) (Op 1 5) (Op 2 5) (Lit 580));
  mkEnc [U 5; U 5; U 5] pre0 (fun o => vsrw (vp o 0) (vp o 1) (vp o 2))
    (xVX (Op 0 5) (Op 1 5) (Op 2 5) (Lit 644));
  mkEnc [U 5; U 5; U 5] pre0 (fun o => vsrd (vp o 0) (vp o 1) (vp o 2))
    (xVX (Op 0 5) (Op 1 5) (Op 2 5) (Lit 1732));
  mkEnc [U 5; U 5; U 5] pre0 (fun o => vsrab (vp o 0) (vp o 1) (vp o 2))
    (xVX (Op 0 5) (Op 1 5) (Op 2 5) (Lit 772));
  mkEnc [U 5; U 5; U 5] pre0 (fun o => vsrah (vp o 0) (vp o 1) (vp o 2))
    (xVX (Op 0 5) (Op 1 5) (Op 2 5) (Lit 836));
  mkEnc [U 5; U 5; U 5] pre0 (fun o => vsraw (vp o 0) (vp o 1) (vp o 2))
    (xVX (Op 0 5) (Op 1 5) (Op 2 5) (Lit 900));
  mkEnc [U 5; U 5; U 5] pre0 (fun o => vsrad (vp o 0) (vp o 1) (vp o 2))
    (xVX (Op 0 5) (Op 1 5) (Op 2 5) (Lit 964));
  mkEnc [U 5; U 5; U 5] pre0 (fun o => vaddubs (vp o 0) (vp o 1) (vp o 2))
    (xVX (Op 0 5) (Op 1 5) (Op 2 5) (Lit 512));
  mkEnc [U 5; U 5; U 5] pre0 (fun o => vadduhs (vp o 0) (vp o 1) (vp o 2))
    (xVX (Op 0 5) (Op 1 5) (Op 2 5) (Lit 576));
  mkEnc [U 5; U 5; U 5] pre0 (fun o => vadduws (vp o 0) (vp o 1) (vp o 2))
    (xVX (Op 0 5) (Op 1 5) (Op 2 5) (Lit 640));
  mkEnc [U 5; U 5; U 5] pre0 (fun o => vaddsbs (vp o 0) (vp o 1) (vp o 2))
    (xVX (Op 0 5) (Op 1 5) (Op 2 5) (Lit 768));
  mkEnc [U 5; U 5; U 5] pre0 (fun o => vaddshs (vp o 0) (vp o 1) (vp o 2))
    (xVX (Op 0 5) (Op 1 5) (Op 2 5) (Lit 832));
  mkEnc [U 5; U 5; U 5] pre0 (fun o => vaddsws (vp o 0) (vp o 1) (vp o 2))
    (xVX (Op 0 5) (Op 1 5) (Op 2 5) (Lit 896));
  mkEnc [U 5; U 5; U 5] pre0 (fun o => vsububs (vp o 0) (vp o 1) (vp o 2))
    (xVX (Op 0 5) (Op 1 5) (Op 2 5) (Lit 1536));
  mkEnc [U 5; U 5; U 5] pre0 (fun o => vsubsbs (vp o 0) (vp o 1) (vp o 2))
    (xVX (Op 0 5) (Op 1 5) (Op 2 5) (Lit 1792));
  mkEnc [U 5; U 5; U 5] pre0 (fun o => vsubshs (vp o 0) (vp o 1) (vp o 2))
    (xVX (Op 0 5) (Op 1 5) (Op 2 5) (Lit 1856));
  mkEnc [U 5; U 5; U 5] pre0 (fun o => vsubsws (vp o 0) (vp o 1) (vp o 2))
    (xVX (Op 0 5) (Op 1 5) (Op 2 5) (Lit 1920));
  mkEnc [U 5; U 5; U 5] pre0 (fun o => vsubuhs (vp o 0) (vp o 1) (vp o 2))
    (xVX (Op 0 5) (Op 1 5) (Op 2 5) (Lit 1600));
  mkEnc [U 5; U 5; U 5] pre0 (fun o => vsubuws (vp o 0) (vp o 1) (vp o 2))
    (xVX (Op 0 5) (Op 1 5) (Op 2 5) (Lit 1664));
  mkEnc [U 5; U 5; U 5] pre0 (fun o => vavgub (vp o 0) (vp o 1) (vp o 2))
    (xVX (Op 0 5) (Op 1 5) (Op 2 5) (Lit 1026));
  mkEnc [U 5; U 5; U 5] pre0 (fun o => vavguh (vp o 0) (vp o 1) (vp o 2))
    (xVX (Op 0 5) (Op 1 5) (Op 2 5) (Lit 1090));
  mkEnc [U 5; U 5; U 5] pre0 (fun o => vavguw (vp o 0) (vp o 1) (vp o 2))
    (xVX (Op 0 5) (Op 1 5) (Op 2 5) (Lit 1154));
  mkEnc [U 5; U 5; U 5] pre0 (fun o => vsumsws (vp o 0) (vp o 1) (vp o 2))
    (xVX (Op 0 5) (Op 1 5) (Op 2 5) (Lit 1928));
  mkEnc [U 5; U 5; U 5] pre0 (fun o => vsum2sws (vp o 0) (vp o 1) (vp o 2))
    (xVX (Op 0 5) (Op 1 5) (Op 2 5) (Lit 1672));
  mkEnc [U 5; U 5; U 5] pre0 (fun o => vsum4sbs (vp o 0) (vp o 1) (vp o 2))
    (xVX (Op 0 5) (Op 1 5) (Op 2 5) (Lit 1800));
  mkEnc [U 5; U 5; U 5] pre0 (fun o => vsum4shs (vp o 0) (vp o 1) (vp o 2))
    (xVX (Op 0 5) (Op 1 5) (Op 2 5) (Lit 1608));
  mkEnc [U 5; U 5; U 5] pre0 (fun o => vsum4ubs (vp o 0) (vp o 1) (vp o 2))
    (xVX (Op 0 5) (Op 1 5) (Op 2 5) (Lit 1544));
  mkEnc [U 5; U 5; U 5] pre0 (fun o => vmrghb (vp o 0) (vp o 1) (vp o 2))
    (xVX (Op 0 5) (Op 1 5) (Op 2 5) (Lit 12));
  mkEnc [U 5; U 5; U 5] pre0 (fun o => vmrghh (vp o 0) (vp o 1) (vp o 2))
    (xVX (Op 0 5) (Op 1 5) (Op 2 5) (Lit 76));
  mkEnc [U 5; U 5; U 5] pre0 (fun o => vmrghw (vp o 0) (vp o 1) (vp o 2))
    (xVX (Op 0 5) (Op 1 5) (Op 2 5) (Lit 140));
  mkEnc [U 5; U 5; U 5] pre0 (fun o => vmrglb (vp o 0) (vp o 1) (vp o 2))
    (xVX (Op 0 5) (Op 1 5) (Op 2 5) (Lit 268));
  mkEnc [U 5; U 5; U 5] pre0 (fun o => vmrglh (vp o 0) (vp o 1) (vp o 2))
    (xVX (Op 0 5) (Op 1 5) (Op 2 5) (Lit 332));
  mkEnc [U 5; U 5; U 5] pre0 (fun o => vmrglw (vp o 0) (vp o 1) (vp o 2))
    (xVX (Op 0 5) (Op 1 5) (Op 2 5) (Lit 396));
  mkEnc [U 5; U 5; U 5] pre0 (fun o => vmrgew (vp o 0) (vp o 1) (vp o 2))
    (xVX (Op 0 5) (Op 1 5) (Op 2 5) (Lit 1932));
  mkEnc [U 5; U 5; U 5] pre0 (fun o => vmrgow (vp o 0) (vp o 1) (vp o 2))
    (xVX (Op 0 5) (Op 1 5) (Op 2 5) (Lit 1676));
  mkEnc [U 5; U 5; U 4] pre0 (fun o => vspltb (vp o 0) (vp o 1) (im o 2))
    (xVX (Op 0 5) (And (Op 2 4) 0xF) (Op 1 5) (Lit 524));
  mkEnc [U 5; U 5; U 3] pre0 (fun o => vsplth (vp o 0) (vp o 1) (im o 2))
    (xVX (Op 0 5) (And (Op 2 3) 0x7) (Op 1 5) (Lit 588));
  mkEnc [U 5; U 5; U 2] pre0 (fun o => vspltw (vp o 0) (vp o 1) (im o 2))
    (xVX (Op 0 5) (And (Op 2 2) 0x3) (Op 1 5) (Lit 652));
  mkEnc [U 5; mkKind true 0 5] pre0 (fun o => vspltisb (vp o 0) (im o 1))
    (xVX (Op 0 5) (And (SOp 1) 0x1F) (Lit 0) (Lit 780));
  mkEnc [U 5; mkKind true 0 5] pre0 (fun o => vspltish (vp o 0) (im o 1))
    (xVX (Op 0 5) (And (SOp 1) 0x1F) (Lit 0) (Lit 844));
  mkEnc [U 5; mkKind true 0 5] pre0 (fun o => vspltisw (vp o 0) (im o 1))
    (xVX (Op 0 5) (And (SOp 1) 0x1F) (Lit 0) (Lit 908));
  mkEnc [U 5; U 5; U 5; U 5] pre0 (fun o => vperm (vp o 0) (vp o 1) (vp o 2) (vp o 3))
    (xVA (Op 0 5) (Op 1 5) (Op 2 5) (Op 3 5) (Lit 43));
  mkEnc [U 5; U 5; U 5; U 5] pre0 (fun o => vsel (vp o 0) (vp o 1) (vp o 2) (vp o 3))
    (xVA (Op 0 5) (Op 1 5) (Op 2 5) (Op 3 5) (Lit 42));
  mkEnc [U 5; U 5; U 5] pre0 (fun o => vcmpequb (vp o 0) (vp o 1) (vp o 2))
    (xVX (Op 0 5) (Op 1 5) (Op 2 5) (Lit 6));
  mkEnc [U 5; U 5; U 5] pre0 (fun o => vcmpequh (vp o 0) (vp o 1) (vp o 2))
    (xVX (Op 0 5) (Op 1 5) (Op 2 5) (Lit 70));
  mkEnc [U 5; U 5; U 5] pre0 (fun o => vcmpequw (vp o 0) (vp o 1) (vp o 2))
    (xVX (Op 0 5) (Op 1 5) (Op 2 5) (Lit 134));
  mkEnc [U 5; U 5; U 5] pre0 (fun o => vcmpequd (vp o 0) (vp o 1) (vp o 2))
    (xVX (Op 0 5) (Op 1 5) (Op 2 5) (Lit 199));
  mkEnc [U 5; U 5; U 5] pre0 (fun o => vcmpgtsb (vp o 0) (vp o 1) (vp o 2))
    (xVX (Op 0 5) (Op 1 5) (Op 2 5) (Lit 774));
  mkEnc [U 5; U 5; U 5] pre0 (fun o => vcmpgtsh (vp o 0) (vp o 1) (vp o 2))
    (xVX (Op 0 5) (Op 1 5) (Op 2 5) (Lit 838));
  mkEnc [U 5; U 5; U 5] pre0 (fun o => vcmpgtsw (vp o 0) (vp o 1) (vp o 2))
    (xVX (Op 0 5) (Op 1 5) (Op 2 5) (Lit 902));
  mkEnc [U 5; U 5; U 5] pre0 (fun o => vcmpgtsd (vp o 0) (vp o 1) (vp o 2))
    (xVX (Op 0 5) (Op 1 5) (Op 2 5) (Lit 967));
  mkEnc [U 5; U 5; U 5] pre0 (fun o => vcmpgtub (vp o 0) (vp o 1) (vp o 2))
    (xVX (Op 0 5) (Op 1 5) (Op 2 5) (Lit 518));
  mkEnc [U 5; U 5; U 5] pre0 (fun o => vcmpgtuh (vp o 0) (vp o 1) (vp o 2))
    (xVX (Op 0 5) (Op 1 5) (Op 2 5) (Lit 582));
  mkEnc [U 5; U 5; U 5] pre0 (fun o => vcmpgtuw (vp o 0) (vp o 1) (vp o 2))
    (xVX (Op 0 5) (Op 1 5) (Op 2 5) (Lit 646));
  mkEnc [U 5; U 5; U 5] pre0 (fun o => vcmpgtud (vp o 0) (vp o 1) (vp o 2))
    (xVX (Op 0 5) (Op 1 5) (Op 2 5) (Lit 711));
  mkEnc [U 5; U 5; U 5] pre0 (fun o => vcmpequb_ (vp o 0) (vp o 1) (vp o 2))
    (xVX (Op 0 5) (Op 1 5) (Op 2 5) (Or (Lit 6) (Lit 0x400)));
  mkEnc [U 5; U 5; U 5] pre0 (fun o => vcmpequh_ (vp o 0) (vp o 1) (vp o 2))
    (xVX (Op 0 5) (Op 1 5) (Op 2 5) (Or (Lit 70) (Lit 0x400)));
  mkEnc [U 5; U 5; U 5] pre0 (fun o => vcmpequw_ (vp o 0) (vp o 1) (vp o 2))
    (xVX (Op 0 5) (Op 1 5) (Op 2 5) (Or (Lit 134) (Lit 0x400)));
  mkEnc [U 5; U 5; U 5] pre0 (fun o => vcmpequd_ (vp o 0) (vp o 1) (vp o 2))
    (xVX (Op 0 5) (Op 1 5) (Op 2 5) (Or (Lit 199) (Lit 0x400)));
  mkEnc [U 5; U 5; U 5] pre0 (fun o => vcmpeqfp (vp o 0) (vp o 1) (vp o 2))
    (xVX (Op 0 5) (Op 1 5) (Op 2 5) (Lit 198));
  mkEnc [U 5; U 5; U 5] pre0 (fun o => vcmpgefp (vp o 0) (vp o 1) (vp o 2))
    (xVX (Op 0 5) (Op 1 5) (Op 2 5) (Lit 454));
  mkEnc [U 5; U 5; U 5] pre0 (fun o => vcmpgtfp (vp o 0) (vp o 1) (vp o 2))
    (xVX (Op 0 5) (Op 1 5) (Op 2 5) (Lit 710));
  mkEnc [U 5; U 5; U 5] pre0 (fun o => vcmpbfp (vp o 0) (vp o 1) (vp o 2))
    (xVX (Op 0 5) (Op 1 5) (Op 2 5) (Lit 966));
  mkEnc [U 5; U 5; U 5] pre0 (fun o => vaddfp (vp o 0) (vp o 1) (vp o 2))
    (xVX (Op 0 5) (Op 1 5) (Op 2 5) (Lit 10));
  mkEnc [U 5; U 5; U 5] pre0 (fun o => vsubfp (vp o 0) (vp o 1) (vp o 2))
    (xVX (Op 0 5) (Op 1 5) (Op 2 5) (Lit 74));
  mkEnc [U 5; U 5; U 5; U 5] pre0 (fun o => vmaddfp (vp o 0) (vp o 1) (vp o 2) (vp o 3))
    (xVA (Op 0 5) (Op 1 5) (Op 2 5) (Op 3 5) (Lit 46));
  mkEnc [U 5; U 5; U 5; U 5] pre0 (fun o => vnmsubfp (vp o 0) (vp o 1) (vp o 2) (vp o 3))
    (xVA (Op 0 5) (Op 1 5) (Op 2 5) (Op 3 5) (Lit 47));
  mkEnc [U 5; U 5; U 5] pre0 (fun o => vmaxfp (vp o 0) (vp o 1) (vp o 2))
    (xVX (Op 0 5) (Op 1 5) (Op 2 5) (Lit 1034));
  mkEnc [U 5; U 5; U 5] pre0 (fun o => vminfp (vp o 0) (vp o 1) (vp o 2))
    (xVX (Op 0 5) (Op 1 5) (Op 2 5) (Lit 1098));
  mkEnc [U 5; U 5] pre0 (fun o => vrfin (vp o 0) (vp o 1))
    (xVX (Op 0 5) (Lit 0) (Op 1 5) (Lit 522));
  mkEnc [U 5; U 5] pre0 (fun o => vrfip (vp o 0) (vp o 1))
    (xVX (Op 0 5) (Lit 0) (Op 1 5) (Lit 650));
  mkEnc [U 5; U 5] pre0 (fun o => vrfim (vp o 0) (vp o 1))
    (xVX (Op 0 5) (Lit 0) (Op 1 5) (Lit 714));
  mkEnc [U 5; U 5] pre0 (fun o => vrfiz (vp o 0) (vp o 1))
    (xVX (Op 0 5) (Lit 0) (Op 1 5) (Lit 586));
  mkEnc [U 5; U 5] pre0 (fun o => vrefp (vp o 0) (vp o 1))
    (xVX (Op 0 5) (Lit 0) (Op 1 5) (Lit 266));
  mkEnc [U 5; U 5] pre0 (fun o => vrsqrtefp (vp o 0) (vp o 1))
    (xVX (Op 0 5) (Lit 0) (Op 1 5) (Lit 330));
  mkEnc [U 5; U 5] pre0 (fun o => vlogefp (vp o 0) (vp o 1))
    (xVX (Op 0 5) (Lit 0) (Op 1 5) (Lit 458));
  mkEnc [U 5; U 5] pre0 (fun o => vexptefp (vp o 0) (vp o 1))
    (xVX (Op 0 5) (Lit 0) (Op 1 5) (Lit 394));
  mkEnc [U 5; U 5; U 5] pre0 (fun o => vctsxs (vp o 0) (vp o 1) (im o 2))
    (xVX (Op 0 5) (And (Op 2 5) 0x1F) (Op 1 5) (Lit 970));
  mkEnc [U 5; U 5; U 5] pre0 (fun o => vctuxs (vp o 0) (vp o 1) (im o 2))
    (xVX (Op 0 5) (And (Op 2 5) 0x1F) (Op 1 5) (Lit 906));
  mkEnc [U 5; U 5; U 5] pre0 (fun o => vcfsx (vp o 0) (vp o 1) (im o 2))
    (xVX (Op 0 5) (And (Op 2 5) 0x1F) (Op 1 5) (Lit 842));
  mkEnc [U 5; U 5; U 5] pre0 (fun o => vcfux (vp o 0) (vp o 1) (im o 2))
    (xVX (Op 0 5) (And (Op 2 5) 0x1F) (Op 1 5) (Lit 778));
  mkEnc [U 5; U 5; U 5] pre0 (fun o => vmaxub (vp o 0) (vp o 1) (vp o 2))
    (xVX (Op 0 5) (Op 1 5) (Op 2 5) (Lit 2));
  mkEnc [U 5; U 5; U 5] pre0 (fun o => vmaxuh (vp o 0) (vp o 1) (vp o 2))
    (xVX (Op 0 5) (Op 1 5) (Op 2 5) (Lit 66));
  mkEnc [U 5; U 5; U 5] pre0 (fun o => vmaxuw (vp o 0) (vp o 1) (vp o 2))
    (xVX (Op 0 5) (Op 1 5) (Op 2 5) (Lit 130));
  mkEnc [U 5; U 5; U 5] pre0 (fun o => vmaxud (vp o 0) (vp o 1) (vp o 2))
    (xVX (Op 0 5) (Op 1 5) (Op 2 5) (Lit 194));
  mkEnc [U 5; U 5; U 5] pre0 (fun o => vmaxsb (vp o 0) (vp o 1) (vp o 2))
    (xVX (Op 0 5) (Op 1 5) (Op 2 5) (Lit 258));
  mkEnc [U 5; U 5; U 5] pre0 (fun o => vmaxsh (vp o 0) (vp o 1) (vp o 2))
    (xVX (Op 0 5) (Op 1 5) (Op 2 5) (Lit 322));
  mkEnc [U 5; U 5; U 5] pre0 (fun o => vmaxsw (vp o 0) (vp o 1) (vp o 2))
    (xVX (Op 0 5) (Op 1 5) (Op 2 5) (Lit 386));
  mkEnc [U 5; U 5; U 5] pre0 (fun o => vmaxsd (vp o 0) (vp o 1) (vp o 2))
    (xVX (Op 0 5) (Op 1 5) (Op 2 5) (Lit 450));
  mkEnc [U 5; U 5; U 5] pre0 (fun o => vminub (vp o 0) (vp o 1) (vp o 2))
    (xVX (Op 0 5) (Op 1 5) (Op 2 5) (Lit 514));
  mkEnc [U 5; U 5; U 5] pre0 (fun o => vminuh (vp o 0) (vp o 1) (vp o 2))
    (xVX (Op 0 5) (Op 1 5) (Op 2 5) (Lit 578));
  mkEnc [U 5; U 5; U 5] pre0 (fun o => vminuw (vp o 0) (vp o 1) (vp o 2))
    (xVX (Op 0 5) (Op 1 5) (Op 2 5) (Lit 642));
  mkEnc [U 5; U 5; U 5] pre0 (fun o => vminud (vp o 0) (vp o 1) (vp o 2))
    (xVX (Op 0 5) (Op 1 5) (Op 2 5) (Lit 706));
  mkEnc [U 5; U 5; U 5] pre0 (fun o => vminsb (vp o 0) (vp o 1) (vp o 2))
    (xVX (Op 0 5) (Op 1 5) (Op 2 5) (Lit 770));
  mkEnc [U 5; U 5; U 5] pre0 (fun o => vminsh (vp o 0) (vp o 1) (vp o 2))
    (xVX (Op 0 5) (Op 1 5) (Op 2 5) (Lit 834));
  mkEnc [U 5; U 5; U 5] pre0 (fun o => vminsw (vp o 0) (vp o 1) (vp o 2))
    (xVX (Op 0 5) (Op 1 5) (Op 2 5) (Lit 898));
  mkEnc [U 5; U 5; U 5] pre0 (fun o => vminsd (vp o 0) (vp o 1) (vp o 2))
    (xVX (Op 0 5) (Op 1 5) (Op 2 5) (Lit 962));
  mkEnc [U 5; U 5; U 5] pre0 (fun o => vabsdub (vp o 0) (vp o 1) (vp o 2))
    (xVX (Op 0 5) (Op 1 5) (Op 2 5) (Lit 1027));
  mkEnc [U 5; U 5; U 5] pre0 (fun o => vabsduh (vp o 0) (vp o 1) (vp o 2))
    (xVX (Op 0 5) (Op 1 5) (Op 2 5) (Lit 1091));
  mkEnc [U 5; U 5; U 5] pre0 (fun o => vabsduw (vp o 0) (vp o 1) (vp o 2))
    (xVX (Op 0 5) (Op 1 5) (Op 2 5) (Lit 1155));
  mkEnc [U 5; U 5; U 5] pre0 (fun o => vpkuhum (vp o 0) (vp o 1) (vp o 2))
    (xVX (Op 0 5) (Op 1 5) (Op 2 5) (Lit 14));
  mkEnc [U 5; U 5; U 5] pre0 (fun o => vpkuwum (vp o 0) (vp o 1) (vp o 2))
    (xVX (Op 0 5) (Op 1 5) (Op 2 5) (Lit 78));
  mkEnc [U 5; U 5; U 5] pre0 (fun o => vpkudum (vp o 0) (vp o 1) (vp o 2))
    (xVX (Op 0 5) (Op 1 5) (Op 2 5) (Lit 1102));
  mkEnc [U 5; U 5; U 5] pre0 (fun o => vpkuhus (vp o 0) (vp o 1) (vp o 2))
    (xVX (Op 0 5) (Op 1 5) (Op 2 5) (Lit 142));
  mkEnc [U 5; U 5; U 5] pre0 (fun o => vpkuwus (vp o 0) (vp o 1) (vp o 2))
    (xVX (Op 0 5) (Op 1 5) (Op 2 5) (Lit 206));
  mkEnc [U 5; U 5; U 5] pre0 (fun o => vpkudus (vp o 0) (vp o 1) (vp o 2))
    (xVX (Op 0 5) (Op 1 5) (Op 2 5) (Lit 1230));
  mkEnc [U 5; U 5; U 5] pre0 (fun o => vpkshus (vp o 0) (vp o 1) (vp o 2))
    (xVX (Op 0 5) (Op 1 5) (Op 2 5) (Lit 270));
  mkEnc [U 5; U 5; U 5] pre0 (fun o => vpkswus (vp o 0) (vp o 1) (vp o 2))
    (xVX (Op 0 5) (Op 1 5) (Op 2 5) (Lit 334));
  mkEnc [U 5; U 5; U 5] pre0 (fun o => vpksdus (vp o 0) (vp o 1) (vp o 2))
    (xVX (Op 0 5) (Op 1 5) (Op 2 5) (Lit 1358));
  mkEnc [U 5; U 5; U 5] pre0 (fun o => vpkshss (vp o 0) (vp o 1) (vp o 2))
    (xVX (Op 0 5) (Op 1 5) (Op 2 5) (Lit 398));
  mkEnc [U 5; U 5; U 5] pre0 (fun o => vpkswss (vp o 0) (vp o 1) (vp o 2))
    (xVX (Op 0 5) (Op 1 5) (Op 2 5) (Lit 462));
  mkEnc [U 5; U 5; U 5] pre0 (fun o => vpksdss (vp o 0) (vp o 1) (vp o 2))
    (xVX (Op 0 5) (Op 1 5) (Op 2 5) (Lit 1486));
  mkEnc [U 5; U 5; U 5] pre0 (fun o => vpkpx (vp o 0) (vp o 1) (vp o 2))
    (xVX (Op 0 5) (Op 1 5) (Op 2 5) (Lit 782));
  mkEnc [U 5; U 5] pre0 (fun o => vupkhsb (vp o 0) (vp o 1))
    (xVX (Op 0 5) (Lit 0) (Op 1 5) (Lit 526));
  mkEnc [U 5; U 5] pre0 (fun o => vupkhsh (vp o 0) (vp o 1))
    (xVX (Op 0 5) (Lit 0) (Op 1 5) (Lit 590));
  mkEnc [U 5; U 5] pre0 (fun o => vupkhsw (vp o 0) (vp o 1))
    (xVX (Op 0 5) (Lit 0) (Op 1 5) (Lit 1614));
  mkEnc [U 5; U 5] pre0 (fun o => vupklsb (vp o 0) (vp o 1))
    (xVX (Op 0 5) (Lit 0) (Op 1 5) (Lit 654));
  mkEnc [U 5; U 5] pre0 (fun o => vupklsh (vp o 0) (vp o 1))
    (xVX (Op 0 5) (Lit 0) (Op 1 5) (Lit 718));
  mkEnc [U 5; U 5] pre0 (fun o => vupklsw (vp o 0) (vp o 1))
    (xVX (Op 0 5) (Lit 0) (Op 1 5) (Lit 1742));
  mkEnc [U 5; U 5] pre0 (fun o => vpopcntb (vp o 0) (vp o 1))
    ((Or (Or (Or (Or (Shl (Lit 4) 26) (Shl (Op 0 5) 21)) (Shl (Lit 0) 16)) (Shl (Op 1 5) 11))
      (Lit 1795)));
  mkEnc [U 5; U 5] pre0 (fun o => vpopcnth (vp o 0) (vp o 1))
    ((Or (Or (Or (Or (Shl (Lit 4) 26) (Shl (Op 0 5) 21)) (Shl (Lit 0) 16)) (Shl (Op 1 5) 11))
      (Lit 1859)));
  mkEnc [U 5; U 5] pre0 (fun o => vpopcntw (vp o 0) (vp o 1))
    ((Or (Or (Or (Or (Shl (Lit 4) 26) (Shl (Op 0 5) 21)) (Shl (Lit 0) 16)) (Shl (Op 1 5) 11))
      (Lit 1923)));
  mkEnc [U 5; U 5] pre0 (fun o => vpopcntd (vp o 0) (vp o 1))
    ((Or (Or (Or (Or (Shl (Lit 4) 26) (Shl (Op 0 5) 21)) (Shl (Lit 0) 16)) (Shl (Op 1 5) 11))
      (Lit 1987)));
  mkEnc [U 5; U 5; U 5] pre0 (fun o => vbpermq (vp o 0) (vp o 1) (vp o 2))
    (xVX (Op 0 5) (Op 1 5) (Op 2 5) (Lit 1356));
  mkEnc [U 5; U 5; U 5] pre0 (fun o => vcipher (vp o 0) (vp o 1) (vp o 2))
    (xVX (Op 0 5) (Op 1 5) (Op 2 5) (Lit 1288));
  mkEnc [U 5; U 5; U 5] pre0 (fun o => vcipherlast (vp o 0) (vp o 1) (vp o 2))
    (xVX (Op 0 5) (Op 1 5) (Op 2 5) (Lit 1289));
  mkEnc [U 5; U 5; U 5] pre0 (fun o => vncipher (vp o 0) (vp o 1) (vp o 2))
    (xVX (Op 0 5) (Op 1 5) (Op 2 5) (Lit 1352));
  mkEnc [U 5; U 5; U 5] pre0 (fun o => vncipherlast (vp o 0) (vp o 1) (vp o 2))
    (xVX (Op 0 5) (Op 1 5) (Op 2 5) (Lit 1353));
  mkEnc [U 5; U 5] pre0 (fun o => vsbox (vp o 0) (vp o 1))
    (xVX (Op 0 5) (Op 1 5) (Lit 0) (Lit 1480));
  mkEnc [U 5; U 5; U 5] pre0 (fun o => vpmsumb (vp o 0) (vp o 1) (vp o 2))
    (xVX (Op 0 5) (Op 1 5) (Op 2 5) (Lit 1032));
  mkEnc [U 5; U 5; U 5] pre0 (fun o => vpmsumh (vp o 0) (vp o 1) (vp o 2))
    (xVX (Op 0 5) (Op 1 5) (Op 2 5) (Lit 1096));
  mkEnc [U 5; U 5; U 5] pre0 (fun o => vpmsumw (vp o 0) (vp o 1) (vp o 2))
    (xVX (Op 0 5) (Op 1 5) (Op 2 5) (Lit 1160));
  mkEnc [U 5; U 5; U 5] pre0 (fun o => vpmsumd (vp o 0) (vp o 1) (vp o 2))
    (xVX (Op 0 5) (Op 1 5) (Op 2 5) (Lit 1224));
  mkEnc [U 5; U 5; U 5; U 5] pre0 (fun o => vpermxor (vp o 0) (vp o 1) (vp o 2) (vp o 3))
    (xVA (Op 0 5) (Op 1 5) (Op 2 5) (Op 3 5) (Lit 45));
  mkEnc [U 5; U 5; U 1; U 4] pre0 (fun o => vshasigmaw (vp o 0) (vp o 1) (im o 2) (im o 3))
    (xVX (Op 0 5) (Op 1 5) (Or (Shl (And (Op 2 1) 1) 4) (And (Op 3 4) 0xF)) (Lit 1666));
  mkEnc [U 5; U 5; U 1; U 4] pre0 (fun o => vshasigmad (vp o 0) (vp o 1) (im o 2) (im o 3))
    (xVX (Op 0 5) (Op 1 5) (Or (Shl (And (Op 2 1) 1) 4) (And (Op 3 4) 0xF)) (Lit 1730));
  mkEnc [U 5] pre0 (fun o => mfvscr (vp o 0))
    ((Or (Or (Or (Or (Shl (Lit 4) 26) (Shl (Op 0 5) 21)) (Shl (Lit 0) 16)) (Shl (Lit 0) 11))
      (Lit 1540)));
  mkEnc [U 5] pre0 (fun o => mtvscr (vp o 0))
    ((Or (Or (Or (Or (Shl (Lit 4) 26) (Shl (Lit 0) 21)) (Shl (Lit 0) 16)) (Shl (Op 0 5) 11))
      (Lit 1604)));
  mkEnc [U 5; U 5; U 5; U 5] pre0 (fun o => vmladduhm (vp o 0) (vp o 1) (vp o 2) (vp o 3))
    (xVA (Op 0 5) (Op 1 5) (Op 2 5) (Op 3 5) (Lit 34));
  mkEnc [U 5; U 5; U 5; U 5] pre0 (fun o => vmsumubm (vp o 0) (vp o 1) (vp o 2) (vp o 3))
    (xVA (Op 0 5) (Op 1 5) (Op 2 5) (Op 3 5) (Lit 36));
  mkEnc [U 5; U 5; U 5; U 5] pre0 (fun o => vmsummbm (vp o 0) (vp o 1) (vp o 2) (vp o 3))
    (xVA (Op 0 5) (Op 1 5) (Op 2 5) (Op 3 5) (Lit 37));
  mkEnc [U 5; U 5; U 5; U 5] pre0 (fun o => vmsumuhm (vp o 0) (vp o 1) (vp o 2) (vp o 3))
    (xVA (Op 0 5) (Op 1 5) (Op 2 5) (Op 3 5) (Lit 38));
  mkEnc [U 5; U 5; U 5; U 5] pre0 (fun o => vmsumuhs (vp o 0) (vp o 1) (vp o 2) (vp o 3))
    (xVA (Op 0 5) (Op 1 5) (Op 2 5) (Op 3 5) (Lit 39));
  mkEnc [U 5; U 5; U 5; U 5] pre0 (fun o => vmsumshm (vp o 0) (vp o 1) (vp o 2) (vp o 3))
    (xVA (Op 0 5) (Op 1 5) (Op 2 5) (Op 3 5) (Lit 40));
  mkEnc [U 5; U 5; U 5; U 5] pre0 (fun o => vmsumshs (vp o 0) (vp o 1) (vp o 2) (vp o 3))
    (xVA (Op 0 5) (Op 1 5) (Op 2 5) (Op 3 5) (Lit 41))
].

(** Branches, special registers, barriers, atomics, traps. *)
Definition insns_misc : list Enc := [
  mkEnc [] pre0 (fun _ => bctrl)
    ((Or (Or (Or (Or (Shl (Lit 19) 26) (Shl (Lit 20) 21)) (Shl (Lit 0) 16)) (Shl
      (Lit 528) 1)) (Lit 1)));
  mkEnc [] pre0 (fun _ => bctr)
    ((Or (Or (Or (Or (Shl (Lit 19) 26) (Shl (Lit 20) 21)) (Shl (Lit 0) 16)) (Shl
      (Lit 528) 1)) (Lit 0)));
  mkEnc [] pre0 (fun _ => blrl)
    ((Or (Or (Or (Or (Shl (Lit 19) 26) (Shl (Lit 20) 21)) (Shl (Lit 0) 16)) (Shl (Lit 16) 1))
      (Lit 1)));
  mkEnc [U 5; U 5] pre0 (fun o => bclr (im o 0) (im o 1))
    ((Or (Or (Or (Or (Shl (Lit 19) 26) (Shl (Op 0 5) 21)) (Shl (Op 1 5) 16)) (Shl
      (Lit 16) 1)) (Lit 0)));
  mkEnc [U 5; U 10] pre0 (fun o => mfspr (gp o 0) (im o 1))
    ((Or (Or (Or (Or (Shl (Lit 31) 26) (Shl (Op 0 5) 21)) (Shl (And (Op 1 10) 0x1F) 16)) (Shl
      (And (Shr (Op 1 10) 5) 0x1F) 11)) (Shl (Lit 339) 1)));
  mkEnc [U 10; U 5] pre0 (fun o => mtspr (im o 0) (gp o 1))
    ((Or (Or (Or (Or (Shl (Lit 31) 26) (Shl (Op 1 5) 21)) (Shl (And (Op 0 10) 0x1F) 16)) (Shl
      (And (Shr (Op 0 10) 5) 0x1F) 11)) (Shl (Lit 467) 1)));
  mkEnc [U 5; U 2] pre0 (fun o => darn (gp o 0) (im o 1))
    ((Or (Or (Or (Shl (Lit 31) 26) (Shl (Op 0 5) 21)) (Shl (And (Low32 (Op 1 2)) 0x3) 16))
      (Shl (Lit 755) 1)));
  mkEnc [U 2] pre0 (fun o => sync (im o 0))
    ((Or (Or (Shl (Lit 31) 26) (Shl (Op 0 2) 21)) (Shl (Lit 598) 1)));
  mkEnc [] pre0 (fun _ => isync)
    ((Or (Shl (Lit 19) 26) (Shl (Lit 150) 1)));
  mkEnc [] pre0 (fun _ => eieio)
    ((Or (Shl (Lit 31) 26) (Shl (Lit 854) 1)));
  mkEnc [U 5; U 5] pre0 (fun o => dcbst (gp o 0) (gp o 1))
    (xX (Lit 31) (Lit 0) (Op 0 5) (Op 1 5) (Lit 54) (Lit 0));
  mkEnc [U 5; U 5; U 5] pre0 (fun o => dcbt (gp o 0) (gp o 1) (im o 2))
    ((Or (Or (Or (Or (Shl (Lit 31) 26) (Shl (Op 2 5) 21)) (Shl (Op 0 5) 16)) (Shl
      (Op 1 5) 11)) (Shl (Lit 278) 1)));
  mkEnc [U 5; U 5; U 5] pre0 (fun o => dcbtst (gp o 0) (gp o 1) (im o 2))
    ((Or (Or (Or (Or (Shl (Lit 31) 26) (Shl (Op 2 5) 21)) (Shl (Op 0 5) 16)) (Shl
      (Op 1 5) 11)) (Shl (Lit 246) 1)));
  mkEnc [U 5; U 5] pre0 (fun o => dcbz (gp o 0) (gp o 1))
    (xX (Lit 31) (Lit 0) (Op 0 5) (Op 1 5) (Lit 1014) (Lit 0));
  mkEnc [U 5; U 5] pre0 (fun o => icbi (gp o 0) (gp o 1))
    (xX (Lit 31) (Lit 0) (Op 0 5) (Op 1 5) (Lit 982) (Lit 0));
  mkEnc [U 5; U 5; U 5; U 1] pre0 (fun o => lbarx (gp o 0) (gp o 1) (gp o 2) (im o 3))
    (xX (Lit 31) (Op 0 5) (Op 1 5) (Op 2 5) (Lit 52) (Op 3 1));
  mkEnc [U 5; U 5; U 5; U 1] pre0 (fun o => lharx (gp o 0) (gp o 1) (gp o 2) (im o 3))
    (xX (Lit 31) (Op 0 5) (Op 1 5) (Op 2 5) (Lit 116) (Op 3 1));
  mkEnc [U 5; U 5; U 5; U 1] pre0 (fun o => lwarx (gp o 0) (gp o 1) (gp o 2) (im o 3))
    (xX (Lit 31) (Op 0 5) (Op 1 5) (Op 2 5) (Lit 20) (Op 3 1));
  mkEnc [U 5; U 5; U 5; U 1] pre0 (fun o => ldarx (gp o 0) (gp o 1) (gp o 2) (im o 3))
    (xX (Lit 31) (Op 0 5) (Op 1 5) (Op 2 5) (Lit 84) (Op 3 1));
  mkEnc [U 5; U 5; U 5] pre0 (fun o => stbcx_ (gp o 0) (gp o 1) (gp o 2))
    (xX (Lit 31) (Op 0 5) (Op 1 5) (Op 2 5) (Lit 694) (Lit 1));
  mkEnc [U 5; U 5; U 5] pre0 (fun o => sthcx_ (gp o 0) (gp o 1) (gp o 2))
    (xX (Lit 31) (Op 0 5) (Op 1 5) (Op 2 5) (Lit 726) (Lit 1));
  mkEnc [U 5; U 5; U 5] pre0 (fun o => stwcx_ (gp o 0) (gp o 1) (gp o 2))
    (xX (Lit 31) (Op 0 5) (Op 1 5) (Op 2 5) (Lit 150) (Lit 1));
  mkEnc [U 5; U 5; U 5] pre0 (fun o => stdcx_ (gp o 0) (gp o 1) (gp o 2))
    (xX (Lit 31) (Op 0 5) (Op 1 5) (Op 2 5) (Lit 214) (Lit 1));
  mkEnc [U 5; U 5; U 5; U 1] pre0 (fun o => lqarx (gp o 0) (gp o 1) (gp o 2) (im o 3))
    (xX (Lit 31) (Op 0 5) (Op 1 5) (Op 2 5) (Lit 276) (Op 3 1));
  mkEnc [U 5; U 5; U 5] pre0 (fun o => stqcx_ (gp o 0) (gp o 1) (gp o 2))
    (xX (Lit 31) (Op 0 5) (Op 1 5) (Op 2 5) (Lit 182) (Lit 1));
  mkEnc [U 5; U 5; U 5] pre0 (fun o => tw (im o 0) (gp o 1) (gp o 2))
    ((Or (Or (Or (Or (Shl (Lit 31) 26) (Shl (Op 0 5) 21)) (Shl (Op 1 5) 16)) (Shl
      (Op 2 5) 11)) (Shl (Lit 4) 1)));
  mkEnc [U 5; U 5; S16] pre0 (fun o => twi (im o 0) (gp o 1) (im o 2))
    ((Or (Or (Or (Shl (Lit 3) 26) (Shl (Op 0 5) 21)) (Shl (Op 1 5) 16)) (Low16 (SOp 2))));
  mkEnc [U 5; U 5; U 5] pre0 (fun o => td (im o 0) (gp o 1) (gp o 2))
    ((Or (Or (Or (Or (Shl (Lit 31) 26) (Shl (Op 0 5) 21)) (Shl (Op 1 5) 16)) (Shl
      (Op 2 5) 11)) (Shl (Lit 68) 1)));
  mkEnc [U 5; U 5; S16] pre0 (fun o => tdi (im o 0) (gp o 1) (im o 2))
    ((Or (Or (Or (Shl (Lit 2) 26) (Shl (Op 0 5) 21)) (Shl (Op 1 5) 16)) (Low16 (SOp 2))));
  mkEnc [U 7] pre0 (fun o => sc (im o 0))
    ((Or (Or (Shl (Lit 17) 26) (Shl (Op 0 7) 5)) (Lit 2)));
  mkEnc [U 5] pre0 (fun o => mffs (fp o 0))
    (xX (Lit 63) (Op 0 5) (Lit 0) (Lit 0) (Lit 583) (Lit 0));
  mkEnc [U 8; U 5] pre0 (fun o => mtfsf (im o 0) (fp o 1))
    ((Or (Or (Or (Or (Or (Shl (Lit 63) 26) (Shl (Lit 0) 25)) (Shl (Op 0 8) 17)) (Shl
      (Lit 0) 16)) (Shl (Op 1 5) 11)) (Shl (Lit 711) 1)));
  mkEnc [U 3; U 4] pre0 (fun o => mtfsfi (im o 0) (im o 1))
    ((Or (Or (Or (Or (Shl (Lit 63) 26) (Shl (Op 0 3) 23)) (Shl (Lit 0) 22)) (Shl
      (Op 1 4) 12)) (Shl (Lit 134) 1)));
  mkEnc [U 5] pre0 (fun o => mfmsr (gp o 0))
    ((Or (Or (Shl (Lit 31) 26) (Shl (Op 0 5) 21)) (Shl (Lit 83) 1)));
  mkEnc [] pre0 (fun _ => rfid)
    ((Or (Shl (Lit 19) 26) (Shl (Lit 18) 1)))
].

(** The instructions that guard their operands. *)
Definition insns_guarded : list Enc := [
  mkEnc [U 5; U 5; U 5] pre0 (fun o => srawi (gp o 0) (gp o 1) (im o 2))
    (xX (Lit 31) (Op 1 5) (Op 0 5) (Op 2 5) (Lit 824) (Lit 0));
  mkEnc [U 5; U 5; U 5] pre0 (fun o => srawi_ (gp o 0) (gp o 1) (im o 2))
    (xX (Lit 31) (Op 1 5) (Op 0 5) (Op 2 5) (Lit 824) (Lit 1));
  mkEnc [U 5; U 5; U 6] pre0 (fun o => sradi (gp o 0) (gp o 1) (im o 2))
    ((Or (Or (Or (Or (Or (Or (Shl (Lit 31) 26) (Shl (Op 1 5) 21)) (Shl (Op 0 5) 16)) (Shl
      (And (Op 2 6) 0x1F) 11)) (Shl (Lit 413) 2)) (Shl (And (Shr (Op 2 6) 5) 1) 1)) (Lit 0)));
  mkEnc [U 5; U 5; U 6] pre0 (fun o => sradi_ (gp o 0) (gp o 1) (im o 2))
    ((Or (Or (Or (Or (Or (Or (Shl (Lit 31) 26) (Shl (Op 1 5) 21)) (Shl (Op 0 5) 16)) (Shl
      (And (Op 2 6) 0x1F) 11)) (Shl (Lit 413) 2)) (Shl (And (Shr (Op 2 6) 5) 1) 1)) (Lit 1)));
  mkEnc [U 5; U 5; U 5; U 5; U 5] pre0 (fun o => rlwinm (gp o 0) (gp o 1) (im o 2) (im o 3)
      (im o 4))
    (xM (Lit 21) (Op 1 5) (Op 0 5) (Op 2 5) (Op 3 5) (Op 4 5) (Lit 0));
  mkEnc [U 5; U 5; U 5; U 5; U 5] pre0 (fun o => rlwinm_ (gp o 0) (gp o 1) (im o 2) (im o 3)
      (im o 4))
    (xM (Lit 21) (Op 1 5) (Op 0 5) (Op 2 5) (Op 3 5) (Op 4 5) (Lit 1));
  mkEnc [U 5; U 5; U 5; U 5; U 5] pre0 (fun o => rlwimi (gp o 0) (gp o 1) (im o 2) (im o 3)
      (im o 4))
    (xM (Lit 20) (Op 1 5) (Op 0 5) (Op 2 5) (Op 3 5) (Op 4 5) (Lit 0));
  mkEnc [U 5; U 5; U 5; U 5; U 5] pre0 (fun o => rlwnm (gp o 0) (gp o 1) (gp o 2) (im o 3)
      (im o 4))
    ((Or (Or (Or (Or (Or (Or (Shl (Lit 23) 26) (Shl (Op 1 5) 21)) (Shl (Op 0 5) 16)) (Shl
      (Op 2 5) 11)) (Shl (And (Op 3 5) 0x1F) 6)) (Shl (And (Op 4 5) 0x1F) 1)) (Lit 0)));
  mkEnc [U 5; U 5; U 6; U 6] pre0 (fun o => rldicl (gp o 0) (gp o 1) (im o 2) (im o 3))
    (xMD (Op 1 5) (Op 0 5) (Op 2 6) (Op 3 6) (Lit 0) (Lit 0));
  mkEnc [U 5; U 5; U 6; U 6] pre0 (fun o => rldicl_ (gp o 0) (gp o 1) (im o 2) (im o 3))
    (xMD (Op 1 5) (Op 0 5) (Op 2 6) (Op 3 6) (Lit 0) (Lit 1));
  mkEnc [U 5; U 5; U 6; U 6] pre0 (fun o => rldicr (gp o 0) (gp o 1) (im o 2) (im o 3))
    (xMD (Op 1 5) (Op 0 5) (Op 2 6) (Op 3 6) (Lit 1) (Lit 0));
  mkEnc [U 5; U 5; U 5; U 6] pre0 (fun o => rldcl (gp o 0) (gp o 1) (gp o 2) (im o 3))
    ((Or (Or (Or (Or (Or (Or (Or (Shl (Lit 30) 26) (Shl (Op 1 5) 21)) (Shl (Op 0 5) 16)) (Shl
      (Op 2 5) 11)) (Shl (And (Op 3 6) 0x1F) 6)) (Shl (And (Shr (Op 3 6) 5) 1) 5)) (Shl
      (Lit 8) 1)) (Lit 0)));
  mkEnc [U 5; U 5; U 5; U 6] pre0 (fun o => rldcr (gp o 0) (gp o 1) (gp o 2) (im o 3))
    ((Or (Or (Or (Or (Or (Or (Or (Shl (Lit 30) 26) (Shl (Op 1 5) 21)) (Shl (Op 0 5) 16)) (Shl
      (Op 2 5) 11)) (Shl (And (Op 3 6) 0x1F) 6)) (Shl (And (Shr (Op 3 6) 5) 1) 5)) (Shl
      (Lit 9) 1)) (Lit 0)));
  mkEnc [U 5; U 8] (fun o => one_bit (im o 1)) (fun o => mfocrf (gp o 0) (im o 1))
    ((Or (Or (Or (Or (Shl (Lit 31) 26) (Shl (Op 0 5) 21)) (Shl (Lit 1) 20)) (Shl
      (Op 1 8) 12)) (Shl (Lit 19) 1)));
  mkEnc [U 8; U 5] (fun o => one_bit (im o 0)) (fun o => mtocrf (im o 0) (gp o 1))
    ((Or (Or (Or (Or (Shl (Lit 31) 26) (Shl (Op 1 5) 21)) (Shl (Lit 1) 20)) (Shl
      (Op 0 8) 12)) (Shl (Lit 144) 1)));
  mkEnc [U 3] pre0 (fun o => mcrxrx (im o 0))
    ((Or (Or (Shl (Lit 31) 26) (Shl (Op 0 3) 23)) (Shl (Lit 576) 1)));
  mkEnc [U 5; U 5; U 5; U 5] pre0 (fun o => isel (gp o 0) (gp o 1) (gp o 2) (im o 3))
    ((Or (Or (Or (Or (Or (Shl (Lit 31) 26) (Shl (Op 0 5) 21)) (Shl (Op 1 5) 16)) (Shl
      (Op 2 5) 11)) (Shl (Op 3 5) 6)) (Shl (Lit 15) 1)));
  mkEnc [U 5; DS; U 5] pre0 (fun o => lwa (gp o 0) (im o 1) (gp o 2))
    ((Or (Or (Or (Or (Shl (Lit 58) 26) (Shl (Op 0 5) 21)) (Shl (Op 2 5) 16)) (And (Low16
      (SOp 1)) 0xFFFC)) (Lit 2)));
  mkEnc [U 5; DS; U 5] pre0 (fun o => ld (gp o 0) (im o 1) (gp o 2))
    ((Or (Or (Or (Or (Shl (Lit 58) 26) (Shl (Op 0 5) 21)) (Shl (Op 2 5) 16)) (And (Low16
      (SOp 1)) 0xFFFC)) (Lit 0)));
  mkEnc [U 5; DS; U 5] pre0 (fun o => ldu (gp o 0) (im o 1) (gp o 2))
    ((Or (Or (Or (Or (Shl (Lit 58) 26) (Shl (Op 0 5) 21)) (Shl (Op 2 5) 16)) (And (Low16
      (SOp 1)) 0xFFFC)) (Lit 1)));
  mkEnc [U 5; DS; U 5] pre0 (fun o => std (gp o 0) (im o 1) (gp o 2))
    ((Or (Or (Or (Or (Shl (Lit 62) 26) (Shl (Op 0 5) 21)) (Shl (Op 2 5) 16)) (And (Low16
      (SOp 1)) 0xFFFC)) (Lit 0)));
  mkEnc [U 5; DS; U 5] pre0 (fun o => stdu (gp o 0) (im o 1) (gp o 2))
    ((Or (Or (Or (Or (Shl (Lit 62) 26) (Shl (Op 0 5) 21)) (Shl (Op 2 5) 16)) (And (Low16
      (SOp 1)) 0xFFFC)) (Lit 1)));
  mkEnc [U 5; U 5; U 5; U 2] pre0 (fun o => xxsldwi (vp o 0) (vp o 1) (vp o 2) (im o 3))
    (xXX3 (Op 0 5) (Op 1 5) (Op 2 5) (Or (Lit 2) (Shl (And (Op 3 2) 3) 5)));
  mkEnc [U 6; U 6; U 6; U 2] pre0 (fun o => xxpermdi_vsx (xp o 0) (xp o 1) (xp o 2) (im o 3))
    (xXX3VSX (Op 0 6) (Op 1 6) (Op 2 6) (Or (Lit 10) (Shl (And (Op 3 2) 3) 5)));
  mkEnc [U 6; U 6; U 2] pre0 (fun o => xxspltw_vsx (xp o 0) (xp o 1) (im o 2))
    ((Or (Or (Or (Or (Or (Or (Shl (Lit 60) 26) (Shl (And (Op 0 6) 31) 21)) (Shl (And
      (Op 2 2) 3) 16)) (Shl (And (Op 1 6) 31) 11)) (Shl (And (Lit 164) 0x1FF) 2)) (Shl (And
      (Shr (Op 1 6) 5) 1) 1)) (And (Shr (Op 0 6) 5) 1)));
  mkEnc [U 3; U 5; U 5] pre0 (fun o => xscmpudp (im o 0) (vp o 1) (vp o 2))
    (xXX3BF (Op 0 3) (Add32 32 (Op 1 5)) (Add32 32 (Op 2 5)) (Lit 35));
  mkEnc [U 3; U 5; U 5] pre0 (fun o => xscmpodp (im o 0) (vp o 1) (vp o 2))
    (xXX3BF (Op 0 3) (Add32 32 (Op 1 5)) (Add32 32 (Op 2 5)) (Lit 43));
  mkEnc [U 5; U 5; U 5; U 4] pre0 (fun o => vsldoi (vp o 0) (vp o 1) (vp o 2) (im o 3))
    (xVA (Op 0 5) (Op 1 5) (Op 2 5) (Op 3 4) (Lit 44));
  mkEnc [mkKind true 2 26] pre0 (fun o => b (im o 0))
    (Or (Or (Shl (Lit 18) 26) (Shl (And (Low32 (SShr 0 2)) 0x00FFFFFF) 2)) (Lit 0));
  mkEnc [mkKind true 2 26] pre0 (fun o => bl (im o 0))
    (Or (Or (Shl (Lit 18) 26) (Shl (And (Low32 (SShr 0 2)) 0x00FFFFFF) 2)) (Lit 1));
  mkEnc [U 5; U 5; mkKind true 2 16] pre0 (fun o => bc (im o 0) (im o 1) (im o 2))
    (Or (Or (Or (Or (Shl (Lit 16) 26) (Shl (Op 0 5) 21)) (Shl (Op 1 5) 16)) (Shl (And (Low32
      (SShr 2 2)) 0x3FFF) 2)) (Lit 0));
  mkEnc [U 5; U 5; mkKind true 2 16] pre0 (fun o => bcl (im o 0) (im o 1) (im o 2))
    (Or (Or (Or (Or (Shl (Lit 16) 26) (Shl (Op 0 5) 21)) (Shl (Op 1 5) 16)) (Shl (And (Low32
      (SShr 2 2)) 0x3FFF) 2)) (Lit 1))
].

Definition insns_plain : list Enc :=
  insns_alu ++ insns_cr ++ insns_mem ++ insns_vsx ++ insns_fp ++ insns_vmem ++ insns_vmx ++
  insns_misc.

Definition insns : list Enc := insns_plain ++ insns_guarded.

#[local] Opaque Emit32 uwrap Z.shiftl Z.shiftr Z.lor Z.land.

(** An unguarded instruction emits the word the table gives for it. *)
Lemma plain_exact :
  enc_run <$> insns_plain = (fun e o => Emit32 (den o (enc_word e))) <$> insns_plain.
Proof. reflexivity. Qed.

#[local] Transparent Emit32 uwrap Z.shiftl Z.shiftr Z.lor Z.land.

Lemma insns_wf : forallb enc_wf insns = true.
Proof. vm_compute. reflexivity. Qed.

(** The fixed bits of the instructions, and their values. *)
Definition fixed_of (e : Enc) : Z * Z :=
  match sym (enc_word e) with
  | Some p => (fixed_mask p, fixed_value p)
  | None => (0, 0)
  end.

Fixpoint pairwise (l : list (Z * Z)) : bool :=
  match l with
  | [] => true
  | x :: l => forallb (conflict x) l && pairwise l
  end.

Lemma insns_pairwise : pairwise (fixed_of <$> insns) = true.
Proof. vm_compute. reflexivity. Qed.

(** ** The guarded instructions *)

Definition exact (e : Enc) : Prop := forall o c s,
  valid e o -> enc_run e o c s = Emit32 (den o (enc_word e)) c s.

Lemma valid_op e o i k : valid e o -> enc_ops e !! i = Some k -> in_kind k (o i).
Proof. intros [H _]. auto. Qed.

(** The facts a valid operand list gives, one per operand. *)
Ltac operand_facts H :=
  let rec go i :=
    match type of H with
    | valid ?e ?o =>
        let k := eval cbn in (enc_ops e !! i) in
        match k with
        | Some ?k =>
            let F := fresh "Hop" in
            assert (in_kind k (o i)) as F by (apply (valid_op _ _ _ _ H); reflexivity);
            go (S i)
        | None => idtac
        end
    end in
  go 0%nat.

Lemma aligned4_max x : is_s 16 x -> uwrap 2 x = 0 -> x <= 32764.
Proof. unfold is_s, uwrap. intros. Z.to_euclidean_division_equations. lia. Qed.

(** A guard on operands in range holds. *)
Ltac guard_solve :=
  try match goal with
  | H : in_kind (mkKind true 2 16) ?x |- _ => pose proof (aligned4_max x (proj1 H) (proj2 H))
  end;
  unfold in_kind, U, DS, is_u, is_s, im in *; cbn [signed align width] in *;
  first [ lia | done | change 3 with (Z.ones 2); rewrite u_land_ones by lia; lia ].

Ltac guarded :=
  let H := fresh in
  intros o c s H; operand_facts H; destruct H as [_ Hpre]; cbn [enc_run enc_word enc_pre] in *;
  cbv beta delta [srawi srawi_ sradi sradi_ rlwinm rlwinm_ rlwimi rlwnm rldicl rldicl_ rldicr
    rldcl rldcr mfocrf mtocrf mcrxrx isel lwa ld ldu std stdu xxsldwi xxpermdi_vsx xxspltw_vsx
    xscmpudp xscmpodp vsldoi b bl bc bcl EmitM];
  rewrite ?assert_true, ?logman_true by guard_solve;
  rewrite ?(Z.add_comm _ 32); reflexivity.

#[local] Opaque Emit32 uwrap Z.shiftl Z.shiftr Z.lor Z.land.

Lemma guarded_exact : Forall exact insns_guarded.
Proof. repeat (apply Forall_cons; split; [guarded|]). apply Forall_nil. done. Qed.

#[local] Transparent Emit32 uwrap Z.shiftl Z.shiftr Z.lor Z.land.

(** ** Consequences for the whole table *)

Lemma insns_exact e : e ∈ insns -> exact e.
Proof.
  intros [He|He]%elem_of_app.
  - intros o c s _. apply list_elem_of_lookup in He as [i Hi].
    pose proof (f_equal (fun l => l !! i) plain_exact) as E. cbv beta in E.
    rewrite !list_lookup_fmap, Hi in E. apply (inj Some) in E. by rewrite E.
  - by apply (proj1 (Forall_forall _ _) guarded_exact).
Qed.

Lemma insn_wf e : e ∈ insns -> enc_wf e = true.
Proof. intros. by apply (proj1 (forallb_forall _ _) insns_wf), list_elem_of_In. Qed.

Lemma pairwise_lookup l i j x y :
  pairwise l = true -> l !! i = Some x -> l !! j = Some y -> (i < j)%nat -> conflict x y = true.
Proof.
  revert i j; induction l as [|z l IH]; intros i j H Hi Hj Hij; [done|].
  simpl in H. to_prop. destruct j as [|j]; [lia|]. destruct i as [|i]; simplify_eq/=.
  - apply (proj1 (forallb_forall _ _) H), list_elem_of_In. by eapply list_elem_of_lookup_2.
  - apply (IH i j); auto; lia.
Qed.

(** The fixed bits of a word an instruction emits. *)
Lemma word_fixed e o :
  e ∈ insns -> valid e o -> den o (enc_word e) &&& fst (fixed_of e) = snd (fixed_of e).
Proof.
  intros He Hv. destruct (enc_wf_describes e o (insn_wf _ He) Hv) as (p & Hp & Hd & _).
  unfold fixed_of. rewrite Hp. by eapply describes_fixed.
Qed.

Lemma words_distinct i j e e' o o' :
  insns !! i = Some e -> insns !! j = Some e' -> (i < j)%nat -> valid e o -> valid e' o' ->
  den o (enc_word e) <> den o' (enc_word e').
Proof.
  intros Hi Hj Hij Hv Hv' E.
  assert (conflict (fixed_of e) (fixed_of e') = true) as C.
  { eapply pairwise_lookup; [exact insns_pairwise| | |exact Hij];
      by rewrite list_lookup_fmap, ?Hi, ?Hj. }
  apply list_elem_of_lookup_2 in Hi, Hj.
  destruct (fixed_of e) as [m v] eqn:Ee, (fixed_of e') as [m' v'] eqn:Ee'.
  apply (conflict_spec _ _ _ _ (den o (enc_word e)) C).
  - pose proof (word_fixed e o Hi Hv) as W. by rewrite Ee in W.
  - pose proof (word_fixed e' o' Hj Hv') as W. rewrite Ee' in W. by rewrite E.
Qed.

Lemma words_injective i j e e' o o' :
  insns !! i = Some e -> insns !! j = Some e' -> valid e o -> valid e' o' ->
  den o (enc_word e) = den o' (enc_word e') ->
  i = j /\ forall n, (n < length (enc_ops e))%nat -> o n = o' n.
Proof.
  intros Hi Hj Hv Hv' E. destruct (lt_eq_lt_dec i j) as [[L| ->]|L].
  - by destruct (words_distinct i j e e' o o').
  - simplify_eq. split; [done|]. intros n Hn. apply list_elem_of_lookup_2 in Hi.
    apply (enc_word_operands e); auto using insn_wf.
  - by destruct (words_distinct j i e' e o' o).
Qed.

#[global] Opaque insns insns_plain insns_guarded.
