(* ===== verification/PPCInsnProps.v ===== *)
(** * Properties of the emitted instructions

    What every instruction of the table does to the emitter: it appends one word, the
    word identifies the instruction and its operands, and the [r0] tracking of [Emit32]
    flags exactly the instructions it means to. *)

From S2P Require Import Prelude PPCEmitter PPCInsns PPCBits PPCTable.

Definition room (s : Emitter) : Prop := wf s /\ Offset s + 4 <= BufferSize s.

Lemma insn_run e o c s :
  e ∈ insns -> valid e o -> room s ->
  enc_run e o c s =
    Ok (emitted (le_bytes 4 (den o (enc_word e))) (dirties_r0 (den o (enc_word e))) s).
Proof. intros He Hv [Hw Hr]. rewrite (insns_exact e He) by done. by apply Emit32_ok. Qed.

Lemma word_is_u32 e o : e ∈ insns -> valid e o -> is_u 32 (den o (enc_word e)).
Proof.
  intros He Hv. by destruct (enc_wf_describes e o (insn_wf e He) Hv) as (p & _ & _ & ? & _).
Qed.

(** ** The [r0] tracking *)

(** The instruction members whose word [Emit32] takes for an [r0] clobber. *)
Definition clobbers_r0 (m : M) : Prop :=
  m = li (mkGPR 0) 0 \/ m = bctrl \/ m = blrl \/ exists offset, m = bl offset.

(** The table entries a word with the given fixed bits can come from. *)
Definition candidates (mv : Z * Z) : list nat :=
  fst <$> filter (fun ie => conflict (fixed_of (snd ie)) mv = false) (imap pair insns).

Lemma candidates_spec mv i e o :
  insns !! i = Some e -> valid e o -> den o (enc_word e) &&& fst mv = snd mv ->
  i ∈ candidates mv.
Proof.
  intros Hi Hv Hw. unfold candidates. rewrite list_elem_of_fmap. exists (i, e). split; [done|].
  rewrite list_elem_of_filter. split.
  - destruct (conflict _ mv) eqn:C; [exfalso|done]. simpl in C.
    pose proof (word_fixed e o (list_elem_of_lookup_2 _ _ _ Hi) Hv).
    destruct (fixed_of e) as [m v], mv as [m' v']. by eapply conflict_spec.
  - apply list_elem_of_lookup. exists i. by rewrite list_lookup_imap, Hi.
Qed.

Lemma candidates_li : candidates (0xFFFFFFFF, kInsnLiR0Zero) = [4%nat].
Proof. vm_compute. reflexivity. Qed.
Lemma candidates_bctrl : candidates (0xFFFFFFFF, kInsnBctrl) = [493%nat].
Proof. vm_compute. reflexivity. Qed.
Lemma candidates_blrl : candidates (0xFFFFFFFF, kInsnBlrl) = [495%nat].
Proof. vm_compute. reflexivity. Qed.
Lemma candidates_bl : candidates (0xFC000001, 0x48000001) = [557%nat].
Proof. vm_compute. reflexivity. Qed.

Lemma insn_4 e : insns !! 4%nat = Some e ->
  enc_run e = (fun o => addi (gp o 0) (gp o 1) (im o 2)) /\ enc_ops e = [U 5; U 5; S16] /\
  enc_pre e = pre0.
Proof. intros [= <-]. done. Qed.
Lemma insn_493 e : insns !! 493%nat = Some e -> enc_run e = (fun _ => bctrl).
Proof. intros [= <-]. done. Qed.
Lemma insn_495 e : insns !! 495%nat = Some e -> enc_run e = (fun _ => blrl).
Proof. intros [= <-]. done. Qed.
Lemma insn_557 e : insns !! 557%nat = Some e -> enc_run e = (fun o => bl (im o 0)).
Proof. intros [= <-]. done. Qed.

(** A word equal to a constant has all of its bits fixed. *)
Lemma full_mask w k : is_u 32 w -> w = k -> w &&& 0xFFFFFFFF = k.
Proof.
  intros H <-. change 0xFFFFFFFF with (Z.ones 32). rewrite u_land_ones by lia. by apply u_small.
Qed.

Lemma opcode18_lk w : is_u 32 w -> w >>> 26 = 18 -> w &&& 1 <> 0 -> w &&& 0xFC000001 = 0x48000001.
Proof.
  intros Hw Ho Hl. change 1 with (Z.ones 1) in Hl. rewrite u_land_ones in Hl by lia.
  change 0xFC000001 with ((Z.ones 6 <<< 26) ||| Z.ones 1).
  rewrite Z.land_lor_distr_r, u_land_ones by lia.
  replace (uwrap 1 w) with 1 by (unfold uwrap in *; pose proof (Z.mod_pos_bound w (2 ^ 1)); lia).
  replace (w &&& (Z.ones 6 <<< 26)) with ((w >>> 26) <<< 26); [by rewrite Ho|].
  apply Z.bits_inj'; intros i Hi. rewrite Z.land_spec, !Z.shiftl_spec by lia.
  destruct (decide (i < 26)).
  { rewrite !(Z.testbit_neg_r _ (i - 26)) by lia. by rewrite andb_false_r. }
  rewrite Z.shiftr_spec, ones_testbit by lia. replace (i - 26 + 26) with i by lia.
  destruct (Z.ltb_spec (i - 26) 6); [by rewrite andb_true_r|].
  by rewrite (testbit_high 32 w i Hw) by lia.
Qed.

Lemma dirty_candidates e i o :
  insns !! i = Some e -> valid e o -> dirties_r0 (den o (enc_word e)) = true ->
  i = 4%nat /\ den o (enc_word e) = kInsnLiR0Zero \/ i = 493%nat \/ i = 495%nat \/ i = 557%nat.
Proof.
  intros Hi Hv Hd. pose proof (word_is_u32 e o (list_elem_of_lookup_2 _ _ _ Hi) Hv) as Hu.
  unfold dirties_r0 in Hd. apply orb_true_iff in Hd as [Hd|Hd].
  - apply orb_true_iff in Hd as [Hd|Hd]; [apply orb_true_iff in Hd as [Hd|Hd]|]; to_prop.
    + left. split; [|done]. apply list_elem_of_singleton. rewrite <- candidates_li.
      eapply candidates_spec; [done..|]. by apply full_mask.
    + right; left. apply list_elem_of_singleton. rewrite <- candidates_bctrl.
      eapply candidates_spec; [done..|]. by apply full_mask.
    + do 2 right; left. apply list_elem_of_singleton. rewrite <- candidates_blrl.
      eapply candidates_spec; [done..|]. by apply full_mask.
  - to_prop. do 3 right. apply list_elem_of_singleton. rewrite <- candidates_bl.
    eapply candidates_spec; [done..|]. by apply opcode18_lk.
Qed.

Lemma word_li_r0 e o :
  insns !! 4%nat = Some e -> valid e o -> den o (enc_word e) = kInsnLiR0Zero ->
  enc_run e o = li (mkGPR 0) 0.
Proof.
  intros He Hv Hd. destruct (insn_4 e He) as (Hr & Ho & Hp).
  destruct (words_injective 4 4 e e o (fun _ => 0) He He Hv) as [_ H].
  - split; [|by rewrite Hp]. intros i k Hk. rewrite Ho in Hk.
    do 3 (destruct i as [|i]; [simplify_eq/=; by vm_compute|]). done.
  - rewrite Hd. revert He. by intros [= <-].
  - rewrite Hr, Ho in *. unfold li, GPRegs_r0, gp, im.
    by rewrite (H 0%nat), (H 1%nat), (H 2%nat) by (simpl; lia).
Qed.

(** An instruction that emits a clobbering word leaves the flag set. *)
Lemma Emit32_dirty w c s s' :
  dirties_r0 w = true -> Emit32 w c s = Ok s' -> R0MaybeDirty s' = true.
Proof.
  intros Hw. unfold Emit32, andthen. case_match; try done. rewrite Hw. cbn [MarkR0Dirty].
  unfold put_bytes. case_match; intros; by simplify_eq/=.
Qed.

Lemma bl_word_dirty x : is_u 24 x -> dirties_r0 ((18 <<u 26) ||| (x <<u 2) ||| 1) = true.
Proof.
  intros [? ?]. unfold dirties_r0. apply orb_true_iff; right.
  rewrite (u_small 32 (x <<< 2)) by (unfold is_u; rewrite Z.shiftl_mul_pow2; lia).
  assert ((18 <<u 26) ||| (x <<< 2) ||| 1 = 1 + (x + 18 * 2 ^ 24) * 2 ^ 2) as ->.
  { rewrite (Z.lor_comm _ 1), (Z.lor_comm (u32 _)).
    change (18 <<u 26) with ((18 <<< 24) <<< 2). rewrite <- Z.shiftl_lor.
    rewrite !lor_disjoint by (done || lia). lia. }
  rewrite Z.shiftr_div_pow2, (Z.land_ones _ 1) by lia. apply andb_true_iff; split.
  - apply Z.eqb_eq. Z.to_euclidean_division_equations; lia.
  - apply negb_true_iff, Z.eqb_neq. Z.to_euclidean_division_equations; lia.
Qed.

Lemma clobbers_dirty m c s s' : clobbers_r0 m -> m c s = Ok s' -> R0MaybeDirty s' = true.
Proof.
  intros [-> |[-> |[-> |[offset ->]]]].
  1-3: by apply Emit32_dirty.
  unfold bl, andthen at 1. case_match eqn:E1; try done.
  unfold andthen. case_match eqn:E2; try done. apply Emit32_dirty, bl_word_dirty, land_u_r; done.
Qed.

(** C17: two instructions of the table that leave the same bytes in the code buffer are the
    same instruction with the same operands: no two instruction members of the emitter ever
    produce the same word, and every operand can be read back from it. *)
Theorem insn_words_unambiguous i j e e' o o' c s s1 s2 :
  insns !! i = Some e -> insns !! j = Some e' -> valid e o -> valid e' o' -> room s ->
  enc_run e o c s = Ok s1 -> enc_run e' o' c s = Ok s2 -> Buffer s1 = Buffer s2 ->
  i = j /\ forall n, (n < length (enc_ops e))%nat -> o n = o' n.
Proof.
  intros Hi Hj Hv Hv' Hroom H1 H2 E.
  pose proof (list_elem_of_lookup_2 _ _ _ Hi) as Hi'.
  pose proof (list_elem_of_lookup_2 _ _ _ Hj) as Hj'.
  rewrite insn_run in H1, H2 by done. apply (inj Ok) in H1 as <-, H2 as <-. destruct Hroom as [Hw Hr].
  pose proof (emitted_read_word (den o (enc_word e)) (dirties_r0 (den o (enc_word e))) s Hw Hr) as R1.
  pose proof (emitted_read_word (den o' (enc_word e')) (dirties_r0 (den o' (enc_word e'))) s Hw Hr) as R2.
  rewrite E, R2, !u_small in R1 by (by apply word_is_u32). apply (inj Some) in R1.
  by apply (words_injective i j e e').
Qed.

(** Concrete states and operands for the instances below. *)
Definition buf8 : Emitter := mkEmitter (replicate 8 0) 8 0 false [] ∅.
Definition release : Config := mkConfig true false false.
Definition ops_of (l : list Z) (i : nat) : Z := default 0 (l !! i).

Lemma buf8_room : room buf8.
Proof. by repeat split; vm_compute. Qed.

Definition add_entry : Enc :=
  mkEnc [U 5; U 5; U 5] pre0 (fun o => add (gp o 0) (gp o 1) (gp o 2))
    (xXO (Lit 31) (Op 0 5) (Op 1 5) (Op 2 5) (Lit 0) (Lit 266) (Lit 0)).

Lemma add_entry_valid o :
  is_u 5 (o 0%nat) -> is_u 5 (o 1%nat) -> is_u 5 (o 2%nat) -> valid add_entry o.
Proof.
  intros H0 H1 H2. split; [|done]. intros i k Hk.
  do 3 (destruct i as [|i]; [simplify_eq/=; split; [done|]; unfold uwrap; apply Z.mod_1_r|]). done.
Qed.

Lemma add_345_valid : valid add_entry (ops_of [3; 4; 5]).
Proof. by apply add_entry_valid; vm_compute. Qed.

#[local] Transparent insns insns_plain insns_guarded.
Lemma add_entry_insn : insns !! 0%nat = Some add_entry.
Proof. reflexivity. Qed.
#[local] Opaque insns insns_plain insns_guarded.

Lemma insn_words_unambiguous_witness :
  insns !! 0%nat = Some add_entry /\ room buf8 /\ ops_of [3; 4; 5] 2 = ops_of [3; 4; 5; 6] 2.
Proof.
  split; [exact add_entry_insn|]. split; [exact buf8_room|].
  eapply (insn_words_unambiguous 0 0 add_entry add_entry (ops_of [3; 4; 5]) (ops_of [3; 4; 5; 6])
    release buf8 _ _ add_entry_insn add_entry_insn).
  1-2: by apply add_entry_valid; vm_compute.
  - exact buf8_room.
  - vm_compute; reflexivity.
  - vm_compute; reflexivity.
  - reflexivity.
  - simpl; lia.
Defined.

(** running an instruction of the table sets [R0MaybeDirty] exactly when the
    instruction is [li r0, 0], [bctrl], [blrl] or a [bl]; no other instruction member, with
    any operands, is taken for an [r0] clobber, and none of these is missed. *)
Theorem r0_tracking_exact e o c s s' :
  e ∈ insns -> valid e o -> room s -> enc_run e o c s = Ok s' ->
  R0MaybeDirty s' = true <-> R0MaybeDirty s = true \/ clobbers_r0 (enc_run e o).
Proof.
  intros He Hv Hroom Hs. split.
  - rewrite insn_run in Hs by done. apply (inj Ok) in Hs as <-. cbn [emitted R0MaybeDirty].
    intros [?|Hd]%orb_true_iff; [by left|right]. apply list_elem_of_lookup in He as [i Hi].
    destruct (dirty_candidates e i o Hi Hv Hd) as [[-> Hw]|[-> |[-> | ->]]].
    + left. by apply word_li_r0.
    + right; left. by rewrite (insn_493 e Hi).
    + do 2 right; left. by rewrite (insn_495 e Hi).
    + do 3 right. exists (im o 0). by rewrite (insn_557 e Hi).
  - intros [Hd|Hc]; [|by eapply clobbers_dirty].
    rewrite insn_run in Hs by done. apply (inj Ok) in Hs as <-. cbn [emitted R0MaybeDirty]. by rewrite Hd.
Qed.

Lemma r0_tracking_exact_witness :
  add_entry ∈ insns /\ room buf8 /\ ~ clobbers_r0 (enc_run add_entry (ops_of [3; 4; 5])).
Proof.
  pose proof (list_elem_of_lookup_2 _ _ _ add_entry_insn) as He.
  split; [exact He|]. split; [exact buf8_room|]. intros Hc.
  assert (enc_run add_entry (ops_of [3; 4; 5]) release buf8 =
          Ok (emitted (le_bytes 4 0x7C642A14) false buf8)) as Hr by (vm_compute; reflexivity).
  by pose proof (proj2 (r0_tracking_exact add_entry (ops_of [3; 4; 5]) release buf8 _ He
    add_345_valid buf8_room Hr) (or_intror Hc)).
Defined.
