(* ===== verification/PowerISA.v ===== *)
(** * Reference semantics of the fixed-point instructions

    The Power ISA meaning, on the general-purpose registers, of the instructions the
    immediate loaders and the mask lowering use.  A word is decoded from its primary
    opcode and fields; bit numbers in masks are big-endian, as the ISA writes them. *)

From S2P Require Import Prelude.

Definition regs := Z -> Z.
Definition upd (g : regs) (r v : Z) : regs := fun x => if x =? r then v else g x.

(** Field of [n] bits at little-endian bit [lo]. *)
Definition field (w lo n : Z) : Z := (w >>> lo) mod 2 ^ n.

Definition rotl64 (x n : Z) : Z := u64 (x <<< n) ||| (x >>> (64 - n)).

(** MASK(mb, me): ones from big-endian bit [mb] to [me], wrapping when [mb > me]. *)
Definition in_mask (mb me k : Z) : bool :=
  if mb <=? me then (mb <=? 63 - k) && (63 - k <=? me)
  else (mb <=? 63 - k) || (63 - k <=? me).
Definition MASK (mb me : Z) : Z :=
  foldr (fun k acc => if in_mask mb me (Z.of_nat k) then Z.setbit acc (Z.of_nat k) else acc) 0
    (seq 0 64).

(** The 32-bit rotate: [rs]'s low word in both halves, rotated. *)
Definition rotl32 (x n : Z) : Z := rotl64 (u32 x ||| (u32 x <<< 32)) n.

(** The register or, in the RA slot, literal zero for r0. *)
Definition ra_or_zero (g : regs) (ra : Z) : Z := if ra =? 0 then 0 else g ra.

Definition exec_word (w : Z) (g : regs) : option regs :=
  let op := field w 26 6 in
  let rt := field w 21 5 in
  let ra := field w 16 5 in
  let d := field w 0 16 in
  if op =? 14 then Some (upd g rt (u64 (ra_or_zero g ra + s16 d)))           (* addi *)
  else if op =? 15 then Some (upd g rt (u64 (ra_or_zero g ra + (s16 d <<< 16)))) (* addis *)
  else if op =? 24 then Some (upd g ra (g rt ||| d))                         (* ori *)
  else if op =? 25 then Some (upd g ra (g rt ||| (d <<< 16)))                (* oris *)
  else if op =? 28 then Some (upd g ra (g rt &&& d))                         (* andi. *)
  else if op =? 29 then Some (upd g ra (g rt &&& (d <<< 16)))                (* andis. *)
  else if op =? 21 then                                                      (* rlwinm *)
    let sh := field w 11 5 in
    let mb := field w 6 5 in
    let me := field w 1 5 in
    Some (upd g ra (rotl32 (g rt) sh &&& MASK (mb + 32) (me + 32)))
  else if op =? 30 then
    let sh := field w 11 5 + 32 * field w 1 1 in
    let m := field w 6 5 + 32 * field w 5 1 in
    let xo := field w 2 3 in
    if xo =? 0 then Some (upd g ra (rotl64 (g rt) sh &&& MASK m 63))         (* rldicl *)
    else if xo =? 1 then Some (upd g ra (rotl64 (g rt) sh &&& MASK 0 m))     (* rldicr *)
    else if xo =? 2 then Some (upd g ra (rotl64 (g rt) sh &&& MASK m (63 - sh))) (* rldic *)
    else None
  else None.

Fixpoint exec_words (ws : list Z) (g : regs) : option regs :=
  match ws with
  | [] => Some g
  | w :: ws => g' ← exec_word w g; exec_words ws g'
  end.

Lemma exec_words_app ws ws' g :
  exec_words (ws ++ ws') g = exec_words ws g ≫= exec_words ws'.
Proof.
  revert g; induction ws as [|w ws IH]; intros g; [done|].
  cbn [exec_words app]. destruct (exec_word w g); [apply IH|done].
Qed.

#[global] Arguments exec_word : simpl never.

(** ** Masks and rotates, bit by bit *)

Lemma MASK_spec_aux l mb me acc j :
  0 <= j ->
  Z.testbit (foldr (fun k acc => if in_mask mb me (Z.of_nat k) then Z.setbit acc (Z.of_nat k)
                                 else acc) acc l) j =
  Z.testbit acc j || (bool_decide (Z.to_nat j ∈ l) && in_mask mb me j).
Proof.
  intros Hj. induction l as [|k l IH]; simpl.
  { by rewrite orb_false_r. }
  assert (bool_decide (Z.to_nat j ∈ k :: l) =
    (Z.of_nat k =? j) || bool_decide (Z.to_nat j ∈ l)) as ->.
  { destruct (Z.eqb_spec (Z.of_nat k) j) as [<-|Hn]; simpl.
    - rewrite Nat2Z.id. apply bool_decide_eq_true. set_solver.
    - apply bool_decide_ext. rewrite elem_of_cons. split; [|by right].
      intros [E|?]; [|done]. exfalso; apply Hn. rewrite <- E. lia. }
  destruct (in_mask mb me (Z.of_nat k)) eqn:E.
  - rewrite Z.setbit_eqb, IH by lia. destruct (Z.eqb_spec (Z.of_nat k) j) as [<-|]; simpl.
    + rewrite E. by destruct (Z.testbit acc _).
    + done.
  - rewrite IH. destruct (Z.eqb_spec (Z.of_nat k) j) as [<-|]; simpl; [|done].
    by rewrite E, !andb_false_r.
Qed.

Lemma MASK_testbit mb me j :
  0 <= j -> Z.testbit (MASK mb me) j = (j <? 64) && in_mask mb me j.
Proof.
  intros Hj. unfold MASK. rewrite MASK_spec_aux, Z.bits_0 by done. rewrite orb_false_l. f_equal.
  destruct (Z.ltb_spec j 64).
  - apply bool_decide_eq_true, elem_of_seq. lia.
  - apply bool_decide_eq_false. rewrite elem_of_seq. lia.
Qed.

Lemma MASK_is_u mb me : is_u 64 (MASK mb me).
Proof.
  replace (MASK mb me) with (u64 (MASK mb me)); [by apply u_range|].
  apply Z.bits_inj'; intros j Hj. rewrite u_testbit, !MASK_testbit by lia.
  by destruct (j <? 64).
Qed.

Lemma rotl64_testbit x n j :
  is_u 64 x -> 0 <= n < 64 -> 0 <= j < 64 ->
  Z.testbit (rotl64 x n) j = Z.testbit x (if n <=? j then j - n else j + 64 - n).
Proof.
  intros Hx Hn Hj. unfold rotl64. rewrite Z.lor_spec, u_testbit, Z.shiftl_spec, Z.shiftr_spec by lia.
  bool_lia. destruct (Z.leb_spec n j).
  - rewrite (testbit_high 64 x (j + (64 - n))) by (done || lia). apply orb_false_r.
  - rewrite (Z.testbit_neg_r x (j - n)) by lia. simpl. f_equal; lia.
Qed.

Lemma rotl64_high x n j : is_u 64 x -> 0 <= n < 64 -> 64 <= j -> Z.testbit (rotl64 x n) j = false.
Proof.
  intros Hx Hn Hj. unfold rotl64. rewrite Z.lor_spec, u_testbit, Z.shiftr_spec by lia. bool_lia.
  apply (testbit_high 64); [done|lia].
Qed.

(** ** What the loaders use *)

(** [rldicr x, n, 63 - n] is a left shift. *)
Lemma rldicr_shift x n :
  is_u 64 x -> 0 <= n < 64 -> rotl64 x n &&& MASK 0 (63 - n) = u64 (x <<< n).
Proof.
  intros Hx Hn. apply Z.bits_inj'; intros j Hj.
  rewrite Z.land_spec, MASK_testbit, u_testbit, Z.shiftl_spec by lia.
  destruct (Z.ltb_spec j 64); [|by rewrite rotl64_high by (done || lia)].
  rewrite rotl64_testbit by (done || lia). unfold in_mask. bool_lia.
  destruct (Z.leb_spec n j); bool_lia.
  - apply andb_true_r.
  - rewrite (Z.testbit_neg_r x (j - n)) by lia. apply andb_false_r.
Qed.

(** [rldicl x, 0, n] clears the high [n] bits. *)
Lemma rldicl_clear x n :
  is_u 64 x -> 0 <= n < 64 -> rotl64 x 0 &&& MASK n 63 = uwrap (64 - n) x.
Proof.
  intros Hx Hn. apply Z.bits_inj'; intros j Hj.
  rewrite Z.land_spec, MASK_testbit, u_testbit by lia.
  destruct (Z.ltb_spec j 64).
  - rewrite rotl64_testbit by (done || lia). unfold in_mask. bool_lia.
    replace (j - 0) with j by lia. destruct (Z.ltb_spec j (64 - n)); bool_lia.
    + apply andb_true_r.
    + apply andb_false_r.
  - rewrite rotl64_high by (done || lia). bool_lia. done.
Qed.

(** [rldic -1, sh, mb] is the run of ones from bit [sh] to bit [63 - mb]. *)
Lemma rldic_ones sh mb j :
  0 <= sh -> 0 <= mb -> sh <= 63 - mb -> 0 <= j ->
  Z.testbit (rotl64 (2 ^ 64 - 1) sh &&& MASK mb (63 - sh)) j = (sh <=? j) && (j <=? 63 - mb).
Proof.
  intros. assert (is_u 64 (2 ^ 64 - 1)) by done.
  rewrite Z.land_spec, MASK_testbit by lia.
  destruct (Z.ltb_spec j 64).
  - rewrite rotl64_testbit by (done || lia). change (2 ^ 64 - 1) with (Z.ones 64).
    rewrite ones_testbit by (try case_match; to_prop; lia).
    replace ((if sh <=? j then j - sh else j + 64 - sh) <? 64) with true
      by (case_match; to_prop; symmetry; apply Z.ltb_lt; lia).
    unfold in_mask. bool_lia.
    destruct (Z.leb_spec sh j), (Z.leb_spec j (63 - mb)); bool_lia; done || lia.
  - rewrite rotl64_high by (done || lia). by bool_lia.
Qed.
