(* ===== verification/PPCLoadImm.v ===== *)
(** * Immediate loaders (CodeEmitter/PPC64LE/Emitter.h)

    [LoadImm32], [LoadImm64] and [LoadImm64Fixed], and the proof that executing the words
    they emit loads the immediate and changes no other register. *)

From S2P Require Import Prelude PPCEmitter PPCInsns PowerISA.

(** ** [std::countr_zero], [std::countl_zero], [std::popcount] on [uint64_t] *)

Fixpoint count_from (fuel : nat) (f : Z -> bool) (i : Z) : Z :=
  match fuel with
  | O => 0
  | S n => if f i then 0 else 1 + count_from n f (i + 1)
  end.

Definition countr_zero (x : Z) : Z := count_from 64 (Z.testbit x) 0.
Definition countl_zero (x : Z) : Z := count_from 64 (fun i => Z.testbit x (63 - i)) 0.
Definition popcount (x : Z) : Z :=
  foldr (fun k acc => Z.b2z (Z.testbit x (Z.of_nat k)) + acc) 0 (seq 0 64).

(** ** The loaders *)

Definition LoadImm32 (rt : GPR) (imm : Z) : M :=
  let simm := s32 imm in
  if (-32768 <=? simm) && (simm <? 32768) then li rt (s16 simm)
  else
    lis rt (s16 (imm >>> 16)) ;;
    if negb (imm &&& 0xFFFF =? 0) then ori rt rt (u16 (imm &&& 0xFFFF)) else ret.

(** [DisableShiftedImm32]: the kill switch read from the environment. *)
Definition DisableShiftedImm32 (c : Config) : bool := FEX_NOSHIFTIMM32 c.

(** The tail of [LoadImm64]: the general sequence of up to five instructions. *)
Definition LoadImm64_full (rt : GPR) (imm : Z) : M :=
  let hi := u32 (imm >>> 32) in
  let lo := u32 imm in
  (if negb (hi =? 0) then
     if hi <=? 0x7FFF then li rt (s16 hi)
     else
       lis rt (s16 (hi >>> 16)) ;;
       if negb (hi &&& 0xFFFF =? 0) then ori rt rt (u16 (hi &&& 0xFFFF)) else ret
   else li rt 0) ;;
  sldi rt rt 32 ;;
  (if negb (lo >>> 16 =? 0) then oris rt rt (u16 (lo >>> 16)) else ret) ;;
  if negb (lo &&& 0xFFFF =? 0) then ori rt rt (u16 (lo &&& 0xFFFF)) else ret.

Definition LoadImm64 (rt : GPR) (imm : Z) : M := fun c s =>
  (if imm =? 0 then li rt 0
   else if (imm <=? 0x7FFFFFFF) || (0xFFFFFFFF80000000 <=? imm) then
     LoadImm32 rt (u32 (s32 imm))
   else if imm <=? 0xFFFFFFFF then
     LoadImm32 rt (u32 imm) ;; clrldi rt rt 32
   else
     let tz := countr_zero imm in
     let v := s64 imm >>> tz in
     if (-32768 <=? v) && (v <=? 32767) && (u64 (u64 v <<< tz) =? imm) then
       li rt (s16 v) ;; sldi rt rt tz
     else if popcount imm + countl_zero imm + countr_zero imm =? 64 then
       let lo := countr_zero imm in
       let hi := 63 - countl_zero imm in
       li rt (-1) ;; rldic rt rt lo (63 - hi)
     else if negb (DisableShiftedImm32 c) &&
             ((0 <? countr_zero imm) && (imm >>> countr_zero imm <=? 0x7FFFFFFF)) then
       LoadImm32 rt (u32 (imm >>> countr_zero imm)) ;; sldi rt rt (countr_zero imm)
     else LoadImm64_full rt imm) c s.

Definition LoadConstantFixedBytes : Z := 5 * 4.

Definition LoadImm64Fixed (rt : GPR) (imm : Z) : M := fun c s =>
  let Start := Offset s in
  let hi := u32 (imm >>> 32) in
  let lo := u32 imm in
  (lis rt (s16 (hi >>> 16)) ;;
   ori rt rt (u16 (hi &&& 0xFFFF)) ;;
   sldi rt rt 32 ;;
   oris rt rt (u16 (lo >>> 16)) ;;
   ori rt rt (u16 (lo &&& 0xFFFF)) ;;
   fun c s => LOGMAN_THROW_A (u64 (Offset s - Start) =? LoadConstantFixedBytes) c s) c s.

(** ** Emitting a sequence of words *)

Definition emit_words (ws : list Z) (s : Emitter) : Emitter :=
  foldl (fun s w => emitted (le_bytes 4 w) (dirties_r0 w) s) s ws.

(** [m] emits the words [ws] wherever there is room for them. *)
Definition Emits (c : Config) (m : M) (ws : list Z) : Prop := forall s,
  wf s -> Offset s + 4 * Z.of_nat (length ws) <= BufferSize s -> m c s = Ok (emit_words ws s).

Lemma emit_words_app ws ws' s : emit_words (ws ++ ws') s = emit_words ws' (emit_words ws s).
Proof. apply foldl_app. Qed.

Lemma emit_words_facts ws s :
  wf s -> Offset s + 4 * Z.of_nat (length ws) <= BufferSize s ->
  wf (emit_words ws s) /\ BufferSize (emit_words ws s) = BufferSize s /\
  Offset (emit_words ws s) = Offset s + 4 * Z.of_nat (length ws).
Proof.
  revert s; induction ws as [|w ws IH]; intros s H Hr; [simpl; split_and!; done || lia|].
  cbn [length] in Hr.
  destruct (IH (emitted (le_bytes 4 w) (dirties_r0 w) s)) as (? & HB & HO).
  - apply emitted_wf; [done|]. rewrite length_le_bytes. lia.
  - cbn [emitted Offset BufferSize]. rewrite length_le_bytes. lia.
  - change (emit_words (w :: ws) s)
      with (emit_words ws (emitted (le_bytes 4 w) (dirties_r0 w) s)).
    cbn [length]. split_and!; [done|by rewrite HB|].
    rewrite HO. cbn [emitted Offset]. rewrite length_le_bytes. lia.
Qed.

Lemma Emits_Emit32 c w : Emits c (Emit32 w) [w].
Proof. intros s H Hr. cbn [length] in Hr. by apply Emit32_ok. Qed.

Lemma Emits_ret c : Emits c ret [].
Proof. done. Qed.

Lemma Emits_seq c m n ws ws' : Emits c m ws -> Emits c n ws' -> Emits c (m ;; n) (ws ++ ws').
Proof.
  intros Hm Hn s H Hr. rewrite length_app in Hr. unfold andthen. rewrite Hm by (done || lia).
  destruct (emit_words_facts ws s) as (? & ? & ?); [done|lia|].
  rewrite Hn by (done || lia). by rewrite emit_words_app.
Qed.

Lemma Emits_assert c p m ws : p = true -> Emits c m ws -> Emits c (assert p ;; m) ws.
Proof. intros Hp H s Hw Hr. rewrite assert_true by done. by apply H. Qed.

(** ** Decoding the words *)

Lemma lor_high_low k x y : 0 <= k -> is_u k y -> (x <<< k) ||| y = x * 2 ^ k + y.
Proof. intros. rewrite Z.lor_comm, lor_disjoint by done. lia. Qed.

Lemma shl_u32 x k n : 0 <= k -> 0 <= n -> k + n <= 32 -> is_u k x -> x <<u n = x <<< n.
Proof.
  intros. apply u_small. unfold is_u in *. rewrite Z.shiftl_mul_pow2 by lia.
  pose proof (Z.pow_le_mono_r 2 (k + n) 32 ltac:(lia) ltac:(lia)).
  rewrite Z.pow_add_r in * by lia. pose proof (pow2_pos n). nia.
Qed.

Definition d_word (op rt ra d : Z) : Z :=
  (op <<u 26) ||| (rt <<u 21) ||| (ra <<u 16) ||| d.

Definition md_word (rs ra sh m xo rc : Z) : Z :=
  (30 <<u 26) ||| (rs <<u 21) ||| (ra <<u 16) ||| ((sh &&& 0x1F) <<u 11) ||| ((m &&& 0x1F) <<u 6)
  ||| (((m >>> 5) &&& 1) <<u 5) ||| (xo <<u 2) ||| (((sh >>> 5) &&& 1) <<u 1) ||| rc.

Lemma d_word_sum op rt ra d :
  is_u 6 op -> is_u 5 rt -> is_u 5 ra -> is_u 16 d ->
  d_word op rt ra d = op * 2 ^ 26 + rt * 2 ^ 21 + ra * 2 ^ 16 + d.
Proof.
  intros. unfold d_word. rewrite (shl_u32 op 6), (shl_u32 rt 5), (shl_u32 ra 5) by (done || lia).
  replace ((op <<< 26) ||| (rt <<< 21) ||| (ra <<< 16))
    with ((((op <<< 5) ||| rt) <<< 5 ||| ra) <<< 16)
    by (rewrite !Z.shiftl_lor, !Z.shiftl_shiftl by lia; done).
  rewrite !lor_high_low by (done || lia). lia.
Qed.

Lemma md_word_sum rs ra sh m xo rc :
  is_u 5 rs -> is_u 5 ra -> is_u 6 sh -> is_u 6 m -> is_u 3 xo -> is_u 1 rc ->
  md_word rs ra sh m xo rc =
    30 * 2 ^ 26 + rs * 2 ^ 21 + ra * 2 ^ 16 + (sh mod 32) * 2 ^ 11 + (m mod 32) * 2 ^ 6 +
    (m / 32) * 2 ^ 5 + xo * 2 ^ 2 + (sh / 32) * 2 + rc.
Proof.
  intros Hs Ha [? ?] [? ?] Hx Hc. unfold md_word. change 0x1F with (Z.ones 5).
  change ((m >>> 5) &&& 1) with ((m >>> 5) &&& Z.ones 1).
  change ((sh >>> 5) &&& 1) with ((sh >>> 5) &&& Z.ones 1).
  rewrite !u_land_ones, !Z.shiftr_div_pow2 by lia.
  rewrite (u_small 1 (m / _)), (u_small 1 (sh / _))
    by (unfold is_u; Z.to_euclidean_division_equations; lia).
  change (2 ^ 5) with 32. unfold uwrap at 5 7. change (2 ^ 5) with 32.
  assert (is_u 5 (sh mod 32) /\ is_u 5 (m mod 32) /\ is_u 1 (m / 32) /\ is_u 1 (sh / 32))
    as (? & ? & ? & ?) by (unfold is_u; split_and!; Z.to_euclidean_division_equations; lia).
  rewrite (shl_u32 rs 5), (shl_u32 ra 5), (shl_u32 (sh mod 32) 5), (shl_u32 (m mod 32) 5),
    (shl_u32 (m / 32) 1), (shl_u32 xo 3), (shl_u32 (sh / 32) 1) by (done || lia).
  change (30 <<u 26) with (30 <<< 26).
  generalize dependent (sh mod 32). generalize dependent (sh / 32).
  generalize dependent (m mod 32). generalize dependent (m / 32). intros mh ? ml ? sh_h ? sl ?.
  replace ((30 <<< 26) ||| (rs <<< 21) ||| (ra <<< 16) ||| (sl <<< 11) ||| (ml <<< 6)
    ||| (mh <<< 5) ||| (xo <<< 2) ||| (sh_h <<< 1))
    with (((((((((30 <<< 5) ||| rs) <<< 5 ||| ra) <<< 5 ||| sl) <<< 5 ||| ml) <<< 1 ||| mh)
      <<< 3 ||| xo) <<< 1 ||| sh_h) <<< 1)
    by (rewrite !Z.shiftl_lor, !Z.shiftl_shiftl by lia; done).
  rewrite !lor_high_low by (done || lia). lia.
Qed.

Lemma field_divmod w lo n : 0 <= lo -> field w lo n = (w / 2 ^ lo) mod 2 ^ n.
Proof. intros. unfold field. by rewrite Z.shiftr_div_pow2. Qed.

(** Split a sum of disjoint fields. *)
Ltac field_lia :=
  rewrite field_divmod by lia; unfold is_u in *; Z.to_euclidean_division_equations; lia.

Lemma d_fields op rt ra d :
  is_u 6 op -> is_u 5 rt -> is_u 5 ra -> is_u 16 d ->
  let w := d_word op rt ra d in
  field w 26 6 = op /\ field w 21 5 = rt /\ field w 16 5 = ra /\ field w 0 16 = d.
Proof. intros. subst w. rewrite d_word_sum by done. split_and!; field_lia. Qed.

Lemma md_fields rs ra sh m xo rc :
  is_u 5 rs -> is_u 5 ra -> is_u 6 sh -> is_u 6 m -> is_u 3 xo -> is_u 1 rc ->
  let w := md_word rs ra sh m xo rc in
  field w 26 6 = 30 /\ field w 21 5 = rs /\ field w 16 5 = ra /\ field w 2 3 = xo /\
  field w 11 5 + 32 * field w 1 1 = sh /\ field w 6 5 + 32 * field w 5 1 = m.
Proof. intros. subst w. rewrite md_word_sum by done. split_and!; rewrite ?field_divmod by lia;
  unfold is_u in *; Z.to_euclidean_division_equations; lia. Qed.

(** ** What a sequence computes

    [Computes c m rt v k n]: [m] emits between [k] and [n] words, and executing them leaves [v x] in
    [rt], [x] being its old value, and every other register unchanged. *)

Definition regs_ok (g : regs) : Prop := forall r, is_u 64 (g r).

Definition Computes (c : Config) (m : M) (rt : Z) (v : Z -> Z) (k n : Z) : Prop :=
  exists ws, Emits c m ws /\ k <= Z.of_nat (length ws) <= n /\
    forall g, regs_ok g -> exists g', exec_words ws g = Some g' /\ regs_ok g' /\
      g' rt = v (g rt) /\ forall r, r <> rt -> g' r = g r.

Lemma Computes_ext c m rt v v' k n k' n' :
  Computes c m rt v k n -> (forall x, is_u 64 x -> v x = v' x) -> k' <= k /\ n <= n' ->
  Computes c m rt v' k' n'.
Proof.
  intros (ws & He & Hl & H) Hv Hn. exists ws. split; [done|]. split; [lia|].
  intros g Hg. destruct (H g Hg) as (g' & ? & ? & Hr & ?). exists g'.
  split_and!; try done. rewrite Hr. auto.
Qed.

Lemma Computes_at c m m' rt v k n :
  (forall s, m c s = m' c s) -> Computes c m' rt v k n -> Computes c m rt v k n.
Proof.
  intros E (ws & He & H). exists ws. split; [|done]. intros s. rewrite E. apply He.
Qed.

Lemma Computes_one c w rt v :
  (forall g, regs_ok g -> exec_word w g = Some (upd g rt (v (g rt)))) ->
  (forall x, is_u 64 x -> is_u 64 (v x)) -> Computes c (Emit32 w) rt v 1 1.
Proof.
  intros H Hv. exists [w]. split; [apply Emits_Emit32|]. split; [done|].
  intros g Hg. exists (upd g rt (v (g rt))). cbn [exec_words]. rewrite H by done.
  unfold upd. split_and!; [done| | |].
  - intros r. case_match; auto.
  - by rewrite Z.eqb_refl.
  - intros r Hr. by rewrite (proj2 (Z.eqb_neq r rt) Hr).
Qed.

Lemma Computes_ret c rt : Computes c ret rt (fun x => x) 0 0.
Proof. exists []. split; [apply Emits_ret|]. split; [done|]. intros g Hg. by exists g. Qed.

Lemma Computes_seq c m n rt v v' a b a' b' :
  Computes c m rt v a b -> Computes c n rt v' a' b' ->
  Computes c (m ;; n) rt (fun x => v' (v x)) (a + a') (b + b').
Proof.
  intros (ws & He & Hl & H) (ws' & He' & Hl' & H'). exists (ws ++ ws').
  split; [by apply Emits_seq|]. split; [rewrite length_app; lia|].
  intros g Hg. destruct (H g Hg) as (g1 & E1 & O1 & R1 & F1).
  destruct (H' g1 O1) as (g2 & E2 & O2 & R2 & F2). exists g2.
  rewrite exec_words_app, E1. split_and!; [done..| |].
  - by rewrite R2, R1.
  - intros r Hr. by rewrite F2, F1.
Qed.

Lemma Computes_assert c p m rt v k n :
  p = true -> Computes c m rt v k n -> Computes c (assert p ;; m) rt v k n.
Proof. intros Hp (ws & He & H). exists ws. split; [by apply Emits_assert|done]. Qed.

Section insns.
Context (c : Config) (rt : GPR) (Hrt : is_u 5 (gpr_idx rt)).
Local Abbreviation R := (gpr_idx rt).

(** Read the fields of a D-form word. *)
Ltac d_exec :=
  match goal with
  | |- exec_word (d_word ?op ?rt ?ra ?d) _ = _ =>
      let H := fresh in
      assert (is_u 16 d) as H by (done || (apply u_range; lia));
      destruct (d_fields op rt ra d) as (Eo & Et & Ea & Ed); [done..|];
      unfold exec_word; rewrite Eo, Et, Ea, Ed; cbn [Z.eqb Pos.eqb]
  end.

Lemma c_li si : is_s 16 si -> Computes c (li rt si) R (fun _ => u64 si) 1 1.
Proof.
  intros Hs. apply Computes_one; [|auto with cpp lia]. intros g Hg.
  change (exec_word (d_word 14 R 0 (u16 si)) g = Some (upd g R (u64 si))). d_exec.
  unfold ra_or_zero. cbn [Z.eqb]. rewrite s_u, s_small by (done || lia). done.
Qed.

Lemma c_lis si : is_s 16 si -> Computes c (lis rt si) R (fun _ => u64 (si <<< 16)) 1 1.
Proof.
  intros Hs. apply Computes_one; [|auto with cpp lia]. intros g Hg.
  change (exec_word (d_word 15 R 0 (u16 si)) g = Some (upd g R (u64 (si <<< 16)))). d_exec.
  unfold ra_or_zero. cbn [Z.eqb]. rewrite s_u, s_small by (done || lia). done.
Qed.

Lemma c_ori ui : is_u 16 ui -> Computes c (ori rt rt ui) R (fun x => x ||| ui) 1 1.
Proof.
  intros Hu. apply Computes_one.
  - intros g Hg. change (exec_word (d_word 24 R R ui) g = Some (upd g R (g R ||| ui))).
    d_exec. done.
  - intros x Hx. apply lor_u; [done| |lia]. unfold is_u in *; lia.
Qed.

Lemma c_oris ui : is_u 16 ui -> Computes c (oris rt rt ui) R (fun x => x ||| (ui <<< 16)) 1 1.
Proof.
  intros Hu. apply Computes_one.
  - intros g Hg. change (exec_word (d_word 25 R R ui) g = Some (upd g R (g R ||| (ui <<< 16)))).
    d_exec. done.
  - intros x Hx. apply lor_u; [done| |lia]. unfold is_u in *.
    rewrite Z.shiftl_mul_pow2 by lia. lia.
Qed.

(** The word of a rotate on [rt] in place. *)
Ltac md_exec sh m xo :=
  destruct (md_fields R R sh m xo 0) as (Eo & Et & Ea & Ex & Es & Em); [done..|];
  unfold exec_word; rewrite Eo, Et, Ea, Ex, Es, Em; cbn [Z.eqb Pos.eqb].

Lemma c_sldi n : 0 <= n < 64 -> Computes c (sldi rt rt n) R (fun x => u64 (x <<< n)) 1 1.
Proof.
  intros Hn. unfold sldi, rldicr. rewrite u_small by (unfold is_u; lia).
  do 2 (apply Computes_assert; [lia|]). apply Computes_one; [|auto with cpp lia].
  intros g Hg. assert (is_u 6 n /\ is_u 6 (63 - n)) as [? ?] by (unfold is_u; lia).
  change (exec_word (md_word R R n (63 - n) 1 0) g = Some (upd g R (u64 (g R <<< n)))).
  md_exec n (63 - n) 1. by rewrite rldicr_shift by (apply Hg || lia).
Qed.

Lemma c_clrldi n : 0 <= n < 64 -> Computes c (clrldi rt rt n) R (uwrap (64 - n)) 1 1.
Proof.
  intros Hn. unfold clrldi, rldicl.
  do 2 (apply Computes_assert; [lia|]). apply Computes_one.
  - intros g Hg. assert (is_u 6 n) as ? by (unfold is_u; lia).
    change (exec_word (md_word R R 0 n 0 0) g = Some (upd g R (uwrap (64 - n) (g R)))).
    md_exec 0 n 0. by rewrite rldicl_clear by (apply Hg || lia).
  - intros x Hx. pose proof (u_range (64 - n) x ltac:(lia)). unfold is_u in *.
    pose proof (Z.pow_le_mono_r 2 (64 - n) 64). lia.
Qed.

Lemma c_rldic sh mb :
  is_u 6 sh -> is_u 6 mb ->
  Computes c (rldic rt rt sh mb) R (fun x => rotl64 x sh &&& MASK mb (63 - sh)) 1 1.
Proof.
  intros Hs Hm. apply Computes_one.
  - intros g Hg.
    change (exec_word (md_word R R sh mb 2 0) g =
            Some (upd g R (rotl64 (g R) sh &&& MASK mb (63 - sh)))).
    md_exec sh mb 2. done.
  - intros x Hx. apply land_u_r; [lia|apply MASK_is_u].
Qed.

(** [if (d) ori(rt, rt, d);] *)
Lemma c_ori_opt d :
  is_u 16 d -> Computes c (if negb (d =? 0) then ori rt rt (u16 d) else ret) R (fun x => x ||| d) 0 1.
Proof.
  intros Hd. rewrite u_small by done. destruct (Z.eqb_spec d 0) as [->|]; cbn [negb].
  - eapply Computes_ext; [apply Computes_ret| |lia]. intros. by rewrite Z.lor_0_r.
  - eapply Computes_ext; [by apply c_ori|done|lia].
Qed.

Lemma c_oris_opt d :
  is_u 16 d ->
  Computes c (if negb (d =? 0) then oris rt rt (u16 d) else ret) R (fun x => x ||| (d <<< 16)) 0 1.
Proof.
  intros Hd. rewrite u_small by done. destruct (Z.eqb_spec d 0) as [->|]; cbn [negb].
  - eapply Computes_ext; [apply Computes_ret| |lia]. intros. by rewrite Z.shiftl_0_l, Z.lor_0_r.
  - eapply Computes_ext; [by apply c_oris|done|lia].
Qed.

Lemma low16_u x : is_u 16 (x &&& 0xFFFF).
Proof. by apply land_u_r. Qed.

(** Joining the halves of a word: [h] above the low 16 bits of [x]. *)
Lemma join16 h x :
  u64 (h <<< 16) ||| (x &&& 0xFFFF) = u64 (h * 65536 + x mod 65536).
Proof.
  change 0xFFFF with (Z.ones 16). rewrite u_land_ones by lia.
  replace (u64 (h <<< 16)) with (uwrap 48 h <<< 16)
    by (unfold uwrap; rewrite !Z.shiftl_mul_pow2 by lia; Z.to_euclidean_division_equations; lia).
  rewrite lor_high_low by (lia || apply u_range; lia). unfold uwrap.
  Z.to_euclidean_division_equations; lia.
Qed.

(** [lis rt, hi16; ori rt, rt, lo16] on a 32-bit value sign-extends it. *)
Lemma c_lis_ori imm :
  is_u 32 imm ->
  Computes c (lis rt (s16 (imm >>> 16)) ;;
              if negb (imm &&& 0xFFFF =? 0) then ori rt rt (u16 (imm &&& 0xFFFF)) else ret)
    R (fun _ => u64 (s32 imm)) 1 2.
Proof.
  intros Hi. eapply Computes_ext; [eapply Computes_seq| |].
  - apply c_lis, s_range; lia.
  - apply c_ori_opt, low16_u.
  - intros x _. cbv beta. rewrite join16. f_equal. rewrite Z.shiftr_div_pow2 by lia.
    unfold swrap, is_u in *. Z.to_euclidean_division_equations; lia.
  - lia.
Qed.

Lemma c_LoadImm32 imm :
  is_u 32 imm -> Computes c (LoadImm32 rt imm) R (fun _ => u64 (s32 imm)) 1 2.
Proof.
  intros Hi. unfold LoadImm32. case_match; to_prop; [|by apply c_lis_ori].
  assert (is_s 16 (s32 imm)) by (unfold is_s; lia).
  rewrite (s_small 16) by (done || lia). eapply Computes_ext; [by apply c_li|done|lia].
Qed.


(** ** Bit counts *)

Lemma count_from_spec fuel f i :
  let n := count_from fuel f i in
  0 <= n <= Z.of_nat fuel /\ (forall j, 0 <= j < n -> f (i + j) = false) /\
  (n < Z.of_nat fuel -> f (i + n) = true).
Proof.
  revert i; induction fuel as [|fuel IH]; intros i; cbn [count_from].
  { split_and!; lia. }
  destruct (f i) eqn:E.
  { split; [lia|]. split; [lia|]. intros _. by rewrite Z.add_0_r. }
  destruct (IH (i + 1)) as (H1 & H2 & H3). split; [lia|]. split.
  - intros j Hj. destruct (decide (j = 0)) as [->|]; [by rewrite Z.add_0_r|].
    replace (i + j) with (i + 1 + (j - 1)) by lia. apply H2. lia.
  - intros Hn. replace (i + (1 + count_from fuel f (i + 1))) with (i + 1 + count_from fuel f (i + 1)) by lia.
    apply H3. lia.
Qed.

Lemma countr_zero_spec x :
  is_u 64 x -> x <> 0 ->
  let n := countr_zero x in
  0 <= n < 64 /\ (forall j, 0 <= j < n -> Z.testbit x j = false) /\ Z.testbit x n = true.
Proof.
  intros Hx Hn n. destruct (count_from_spec 64 (Z.testbit x) 0) as (H1 & H2 & H3).
  fold (countr_zero x) in H1, H2, H3. fold n in H1, H2, H3.
  destruct (decide (n < 64)); [split_and!; auto; lia|].
  exfalso. apply Hn, Z.bits_inj'. intros j Hj. rewrite Z.bits_0.
  destruct (decide (j < 64)); [apply (H2 j); lia|by apply (testbit_high 64); [|lia]].
Qed.

Lemma countl_zero_spec x :
  is_u 64 x -> x <> 0 ->
  let n := countl_zero x in
  0 <= n < 64 /\ (forall j, 63 - n < j <= 63 -> Z.testbit x j = false) /\
  Z.testbit x (63 - n) = true.
Proof.
  intros Hx Hn n.
  destruct (count_from_spec 64 (fun i => Z.testbit x (63 - i)) 0) as (H1 & H2 & H3).
  fold (countl_zero x) in H1, H2, H3. fold n in H1, H2, H3.
  assert (forall j, 63 - n < j <= 63 -> Z.testbit x j = false) as Hz.
  { intros j Hj. replace j with (63 - (0 + (63 - j))) by lia. apply H2. lia. }
  destruct (decide (n < 64)); [split_and!; auto; lia|].
  exfalso. apply Hn, Z.bits_inj'. intros j Hj. rewrite Z.bits_0.
  destruct (decide (j < 64)); [apply Hz; lia|by apply (testbit_high 64); [|lia]].
Qed.

(** The number of [k] of [l] with [f k]. *)
Definition tally (f : Z -> bool) (l : list nat) : Z :=
  foldr (fun k acc => Z.b2z (f (Z.of_nat k)) + acc) 0 l.

Lemma tally_le f g l :
  (forall k, k ∈ l -> f (Z.of_nat k) = true -> g (Z.of_nat k) = true) -> tally f l <= tally g l.
Proof.
  induction l as [|k l IH]; intros H; simpl; [lia|].
  assert (Z.b2z (f (Z.of_nat k)) <= Z.b2z (g (Z.of_nat k))).
  { destruct (f _) eqn:E; [by rewrite (H k) by (set_solver || done)|destruct (g _); simpl; lia]. }
  specialize (IH ltac:(set_solver)). lia.
Qed.

Lemma tally_eq f g l :
  (forall k, k ∈ l -> f (Z.of_nat k) = true -> g (Z.of_nat k) = true) -> tally f l = tally g l ->
  forall k, k ∈ l -> f (Z.of_nat k) = g (Z.of_nat k).
Proof.
  induction l as [|x l IH]; intros H E k Hk; [by apply not_elem_of_nil in Hk|].
  simpl in E. pose proof (H x ltac:(by left)) as Hx.
  assert (forall k, k ∈ l -> f (Z.of_nat k) = true -> g (Z.of_nat k) = true) as H'
    by (intros ? ?; apply H; by right).
  pose proof (tally_le f g l H') as L.
  assert (f (Z.of_nat x) = g (Z.of_nat x) /\ tally f l = tally g l) as [E1 E2].
  { destruct (f (Z.of_nat x)), (g (Z.of_nat x)); simpl in E; (split; [done || lia|lia]) || naive_solver. }
  apply elem_of_cons in Hk as [-> |Hk]; [done|]. by apply IH.
Qed.

Lemma tally_interval lo hi n :
  0 <= lo <= hi -> hi <= Z.of_nat n ->
  tally (fun k => (lo <=? k) && (k <? hi)) (seq 0 n) = hi - lo.
Proof.
  intros Hlo Hhi.
  enough (forall n, tally (fun k => (lo <=? k) && (k <? hi)) (seq 0 n) =
    Z.max 0 (Z.min (Z.of_nat n) hi - lo)) as E by (rewrite E; lia).
  clear n Hhi; intros n. induction n as [|n IH]; [simpl; lia|].
  assert (forall f l k, tally f (l ++ [k]) = tally f l + Z.b2z (f (Z.of_nat k))) as A.
  { intros f l k. induction l; simpl; lia. }
  rewrite seq_S, A, IH. simpl.
  destruct (Z.leb_spec lo (Z.of_nat n)), (Z.ltb_spec (Z.of_nat n) hi); simpl; lia.
Qed.

(** The contiguous-ones test of [LoadImm64]. *)
Lemma contiguous_ones x :
  is_u 64 x -> x <> 0 -> popcount x + countl_zero x + countr_zero x = 64 ->
  forall j, 0 <= j -> Z.testbit x j = (countr_zero x <=? j) && (j <=? 63 - countl_zero x).
Proof.
  intros Hx Hn Hp j Hj.
  destruct (countr_zero_spec x Hx Hn) as (R1 & R2 & R3).
  destruct (countl_zero_spec x Hx Hn) as (L1 & L2 & L3).
  set (lo := countr_zero x) in *. set (hi := 64 - countl_zero x).
  assert (lo <= hi) by (destruct (decide (lo <= hi)); [done|]; rewrite R2 in L3; [done|lia]).
  destruct (decide (j < 64)); cycle 1.
  { rewrite (testbit_high 64) by (done || lia). bool_lia. done. }
  replace (j <=? 63 - countl_zero x) with (j <? hi) by (subst hi; lia).
  replace j with (Z.of_nat (Z.to_nat j)) by lia.
  apply (tally_eq (Z.testbit x) (fun k => (lo <=? k) && (k <? hi)) (seq 0 64)).
  - intros k Hk Ht. apply elem_of_seq in Hk. apply andb_true_iff; split.
    + apply Z.leb_le. destruct (decide (lo <= Z.of_nat k)); [done|]. by rewrite R2 in Ht by lia.
    + apply Z.ltb_lt. destruct (decide (Z.of_nat k < hi)); [done|]. by rewrite L2 in Ht by lia.
  - rewrite tally_interval by lia. change (tally (Z.testbit x) (seq 0 64)) with (popcount x). lia.
  - apply elem_of_seq. lia.
Qed.

(** ** The 64-bit loaders *)

(** [x] with [n] low zero bits is its own right shift, shifted back. *)
Lemma shift_back x n :
  0 <= n -> (forall j, 0 <= j < n -> Z.testbit x j = false) -> (x >>> n) <<< n = x.
Proof.
  intros Hn H. apply Z.bits_inj'; intros j Hj. rewrite Z.shiftl_spec by lia.
  destruct (decide (j < n)).
  - rewrite Z.testbit_neg_r, H by lia. done.
  - rewrite Z.shiftr_spec by lia. f_equal; lia.
Qed.

(** The halves of a doubleword. *)
Lemma join_halves imm :
  is_u 64 imm ->
  u64 (u32 (imm >>> 32) <<< 32) ||| ((u32 imm >>> 16) <<< 16) ||| (u32 imm &&& 0xFFFF) = imm.
Proof.
  intros [? ?]. change 0xFFFF with (Z.ones 16). rewrite u_land_ones by lia.
  rewrite (u_small 32 (imm >>> 32))
    by (unfold is_u; rewrite Z.shiftr_div_pow2 by lia; Z.to_euclidean_division_equations; lia).
  rewrite u_small by (unfold is_u; rewrite Z.shiftl_mul_pow2, Z.shiftr_div_pow2 by lia;
    Z.to_euclidean_division_equations; lia).
  rewrite lor_high_low; [|lia|].
  2: { unfold is_u. rewrite Z.shiftl_mul_pow2, Z.shiftr_div_pow2 by lia. unfold uwrap.
       Z.to_euclidean_division_equations; lia. }
  replace ((imm >>> 32) * 2 ^ 32 + ((u32 imm >>> 16) <<< 16)) with ((imm >>> 16) <<< 16)
    by (rewrite !Z.shiftl_mul_pow2, !Z.shiftr_div_pow2 by lia; unfold uwrap;
        Z.to_euclidean_division_equations; lia).
  rewrite lor_high_low by (lia || apply u_range; lia). rewrite Z.shiftr_div_pow2 by lia.
  unfold uwrap. Z.to_euclidean_division_equations; lia.
Qed.

(** After the high half is in the low word of [rt]: shift it up and add the low half. *)
Lemma c_low_half m imm v k n :
  is_u 64 imm -> (forall x, is_u 64 x -> uwrap 32 (v x) = u32 (imm >>> 32)) -> Computes c m R v k n ->
  Computes c (m ;; sldi rt rt 32 ;;
    (if negb (u32 imm >>> 16 =? 0) then oris rt rt (u16 (u32 imm >>> 16)) else ret) ;;
    if negb (u32 imm &&& 0xFFFF =? 0) then ori rt rt (u16 (u32 imm &&& 0xFFFF)) else ret)
    R (fun _ => imm) (k + 1) (n + 3).
Proof.
  intros Hi Hv Hm. eapply Computes_ext.
  - eapply Computes_seq; [exact Hm|]. eapply Computes_seq; [by apply c_sldi|].
    eapply Computes_seq; [apply c_oris_opt|apply c_ori_opt, low16_u].
    pose proof (u_range 32 imm ltac:(lia)) as [? ?]. unfold is_u.
    rewrite Z.shiftr_div_pow2 by lia. Z.to_euclidean_division_equations; lia.
  - intros x Hx. cbv beta. replace (u64 (v x <<< 32)) with (u64 (u32 (imm >>> 32) <<< 32)).
    + by apply join_halves.
    + rewrite <- (Hv x Hx), !Z.shiftl_mul_pow2 by lia. unfold uwrap.
      Z.to_euclidean_division_equations; lia.
  - lia.
Qed.

Lemma hi_u32 imm : is_u 64 imm -> u32 (imm >>> 32) = imm >>> 32 /\ is_u 32 (imm >>> 32).
Proof.
  intros [? ?]. assert (is_u 32 (imm >>> 32)); [|by rewrite u_small].
  unfold is_u. rewrite Z.shiftr_div_pow2 by lia. Z.to_euclidean_division_equations; lia.
Qed.

Lemma c_high_half imm :
  is_u 64 imm ->
  exists v, (forall x, is_u 64 x -> u32 (v x) = u32 (imm >>> 32)) /\
    Computes c
      (if negb (u32 (imm >>> 32) =? 0) then
         if u32 (imm >>> 32) <=? 0x7FFF then li rt (s16 (u32 (imm >>> 32)))
         else
           lis rt (s16 (u32 (imm >>> 32) >>> 16)) ;;
           if negb (u32 (imm >>> 32) &&& 0xFFFF =? 0)
           then ori rt rt (u16 (u32 (imm >>> 32) &&& 0xFFFF)) else ret
       else li rt 0) R v 1 2.
Proof.
  intros Hi. destruct (hi_u32 imm Hi) as [E Hh]. rewrite E.
  destruct (negb (imm >>> 32 =? 0)) eqn:Hz; [destruct (imm >>> 32 <=? 0x7FFF) eqn:Hs|]; to_prop.
  - eexists; split; [|eapply Computes_ext; [apply c_li, s_range; lia|intros; reflexivity|lia]].
    intros x _. rewrite (s_small 16) by (unfold is_s, is_u in *; lia).
    rewrite (u_small 64) by (unfold is_u in *; lia). done.
  - eexists; split; [|by apply c_lis_ori].
    intros x _. cbv beta. by rewrite uwrap_uwrap_le, swrap_uwrap_le by lia.
  - eexists; split; [|eapply Computes_ext; [by apply c_li|intros; reflexivity|lia]].
    intros x _. by rewrite Hz.
Qed.

Lemma c_LoadImm64_full imm :
  is_u 64 imm -> Computes c (LoadImm64_full rt imm) R (fun _ => imm) 1 5.
Proof.
  intros Hi. destruct (c_high_half imm Hi) as (v & Hv & Hc). unfold LoadImm64_full.
  eapply Computes_ext; [by eapply (c_low_half _ _ _ 1 2)|done|lia].
Qed.

(** [li rt, v; sldi rt, rt, tz] *)
Lemma c_shifted16 imm v tz :
  0 <= tz < 64 -> -32768 <= v <= 32767 -> u64 (u64 v <<< tz) = imm ->
  Computes c (li rt (s16 v) ;; sldi rt rt tz) R (fun _ => imm) 1 5.
Proof.
  intros Ht Hv E. eapply Computes_ext.
  - eapply Computes_seq; [apply c_li, s_range; lia|by apply c_sldi].
  - intros x _. cbv beta. by rewrite (s_small 16) by (unfold is_s; lia).
  - lia.
Qed.

(** [li rt, -1; rldic rt, rt, lo, mb] *)
Lemma c_ones imm :
  is_u 64 imm -> imm <> 0 -> popcount imm + countl_zero imm + countr_zero imm = 64 ->
  Computes c (li rt (-1) ;; rldic rt rt (countr_zero imm) (63 - (63 - countl_zero imm)))
    R (fun _ => imm) 1 5.
Proof.
  intros Hi Hn Hp.
  destruct (countr_zero_spec imm Hi Hn) as (R1 & R2 & R3).
  destruct (countl_zero_spec imm Hi Hn) as (L1 & L2 & L3).
  replace (63 - (63 - countl_zero imm)) with (countl_zero imm) by lia.
  eapply Computes_ext.
  - eapply Computes_seq; [by apply c_li|apply c_rldic; unfold is_u; lia].
  - intros x _. cbv beta. change (u64 (-1)) with (2 ^ 64 - 1).
    apply Z.bits_inj'; intros j Hj. rewrite (contiguous_ones imm Hi Hn Hp j Hj).
    apply rldic_ones; [lia..| |done].
    destruct (decide (countr_zero imm <= 63 - countl_zero imm)); [done|].
    by rewrite R2 in L3 by lia.
  - lia.
Qed.

(** [LoadImm32 v; sldi rt, rt, tz] *)
Lemma c_shifted32 imm :
  is_u 64 imm -> imm <> 0 -> imm >>> countr_zero imm <= 0x7FFFFFFF ->
  Computes c (LoadImm32 rt (u32 (imm >>> countr_zero imm)) ;; sldi rt rt (countr_zero imm))
    R (fun _ => imm) 1 5.
Proof.
  intros Hi Hn Hv. destruct (countr_zero_spec imm Hi Hn) as (R1 & R2 & _).
  assert (0 <= imm >>> countr_zero imm) by (apply Z.shiftr_nonneg; apply Hi).
  rewrite u_small by (unfold is_u; lia). eapply Computes_ext.
  - eapply Computes_seq; [apply c_LoadImm32; unfold is_u; lia|by apply c_sldi].
  - intros x _. cbv beta. rewrite (s_small 32), (u_small 64 (imm >>> _)) by (unfold is_s, is_u; lia).
    rewrite shift_back by (done || lia). by apply u_small.
  - lia.
Qed.

Lemma c_LoadImm64 imm :
  is_u 64 imm -> Computes c (LoadImm64 rt imm) R (fun _ => imm) 1 5.
Proof.
  intros Hi. eapply Computes_at; [intros s; unfold LoadImm64; reflexivity|].
  destruct (Z.eqb_spec imm 0) as [-> |Hn].
  { eapply Computes_ext; [by apply c_li|done|lia]. }
  destruct ((imm <=? 0x7FFFFFFF) || (0xFFFFFFFF80000000 <=? imm)) eqn:H1.
  { to_prop. eapply Computes_ext; [apply c_LoadImm32, u_range; lia| |lia].
    intros x _. unfold is_u, uwrap, swrap in *. Z.to_euclidean_division_equations; lia. }
  to_prop. destruct (Z.leb_spec imm 0xFFFFFFFF).
  { eapply Computes_ext.
    - eapply Computes_seq; [apply c_LoadImm32, u_range; lia|by apply (c_clrldi 32)].
    - intros x _. cbv beta. rewrite s_u, uwrap_uwrap_le, swrap_uwrap_le by lia.
      apply u_small. unfold is_u in *; lia.
    - lia. }
  destruct (countr_zero_spec imm Hi Hn) as (R1 & _).
  repeat case_match; to_prop; cbv zeta.
  - by apply c_shifted16.
  - by apply c_ones.
  - by apply c_shifted32.
  - by apply c_LoadImm64_full.
Qed.

(** The body of [LoadImm64Fixed]. *)
Lemma c_LoadImm64Fixed imm :
  is_u 64 imm ->
  Computes c
    (lis rt (s16 (u32 (imm >>> 32) >>> 16)) ;;
     ori rt rt (u16 (u32 (imm >>> 32) &&& 0xFFFF)) ;;
     sldi rt rt 32 ;;
     oris rt rt (u16 (u32 imm >>> 16)) ;;
     ori rt rt (u16 (u32 imm &&& 0xFFFF))) R (fun _ => imm) 5 5.
Proof.
  intros Hi. destruct (hi_u32 imm Hi) as [E Hh]. rewrite E.
  pose proof (low16_u (imm >>> 32)). pose proof (low16_u (u32 imm)).
  assert (is_u 16 (u32 imm >>> 16)).
  { pose proof (u_range 32 imm ltac:(lia)) as [? ?]. unfold is_u.
    rewrite Z.shiftr_div_pow2 by lia. Z.to_euclidean_division_equations; lia. }
  rewrite !(u_small 16) by done. eapply Computes_ext.
  - eapply Computes_seq; [apply c_lis, s_range; lia|].
    eapply Computes_seq; [by apply c_ori|]. eapply Computes_seq; [by apply c_sldi|].
    eapply Computes_seq; [by apply c_oris|by apply c_ori].
  - intros x _. cbv beta. rewrite join16.
    replace (u64 (u64 (s16 ((imm >>> 32) >>> 16) * 65536 + (imm >>> 32) mod 65536) <<< 32))
      with (u64 (u32 (imm >>> 32) <<< 32)); [by apply join_halves|].
    rewrite E. generalize dependent (imm >>> 32). intros h _ [? ?] _.
    rewrite !Z.shiftl_mul_pow2, Z.shiftr_div_pow2 by lia. unfold uwrap, swrap.
    Z.to_euclidean_division_equations; lia.
  - lia.
Qed.

End insns.

(** ** The code in the buffer *)

Fixpoint read_words (buf : list Z) (off : Z) (n : nat) : option (list Z) :=
  match n with
  | O => Some []
  | S n => w ← buf_read buf off 4; ws ← read_words buf (off + 4) n; Some (w :: ws)
  end.

(** Executing the words at [off] of the code buffer loads [v] into [rt] and leaves the other
    registers unchanged. *)
Definition loads (buf : list Z) (off : Z) (n : nat) (rt v : Z) : Prop :=
  exists ws, read_words buf off n = Some ws /\
    forall g, regs_ok g -> exists g', exec_words ws g = Some g' /\ g' rt = v /\
      forall r, r <> rt -> g' r = g r.

Lemma emit_words_other ws s off n :
  wf s -> Offset s + 4 * Z.of_nat (length ws) <= BufferSize s -> off + Z.of_nat n <= Offset s ->
  buf_read (Buffer (emit_words ws s)) off n = buf_read (Buffer s) off n.
Proof.
  revert s; induction ws as [|w ws IH]; intros s H Hr Ho; [done|]. cbn [length] in Hr.
  assert (Offset s + Z.of_nat (length (le_bytes 4 w)) <= BufferSize s)
    by (rewrite length_le_bytes; lia).
  change (emit_words (w :: ws) s) with (emit_words ws (emitted (le_bytes 4 w) (dirties_r0 w) s)).
  rewrite IH; [by apply emitted_read_other|by apply emitted_wf| |];
    cbn [emitted Offset BufferSize]; rewrite length_le_bytes; lia.
Qed.

Lemma emit_words_read ws s :
  wf s -> Offset s + 4 * Z.of_nat (length ws) <= BufferSize s ->
  read_words (Buffer (emit_words ws s)) (Offset s) (length ws) = Some (uwrap 32 <$> ws).
Proof.
  revert s; induction ws as [|w ws IH]; intros s H Hr; [done|]. cbn [length] in Hr.
  change (emit_words (w :: ws) s) with (emit_words ws (emitted (le_bytes 4 w) (dirties_r0 w) s)).
  cbn [length read_words].
  assert (wf (emitted (le_bytes 4 w) (dirties_r0 w) s)) as H'
    by (apply emitted_wf; [done|rewrite length_le_bytes; lia]).
  assert (Offset (emitted (le_bytes 4 w) (dirties_r0 w) s) = Offset s + 4) as HO
    by (cbn [emitted Offset]; by rewrite length_le_bytes).
  rewrite emit_words_other by (done || rewrite ?HO; cbn [emitted BufferSize]; lia).
  rewrite emitted_read_word by (done || lia). cbn [mbind option_bind].
  rewrite <- HO, IH by (done || rewrite ?HO; cbn [emitted BufferSize]; lia). done.
Qed.

Lemma field_u32 w lo n : 0 <= lo -> 0 <= n -> lo + n <= 32 -> field (u32 w) lo n = field w lo n.
Proof.
  intros. unfold field. fold (uwrap n (u32 w >>> lo)) (uwrap n (w >>> lo)).
  apply Z.bits_inj'; intros j Hj. rewrite !u_testbit, !Z.shiftr_spec, u_testbit by lia.
  destruct (Z.ltb_spec j n); [|done]. bool_lia. done.
Qed.

Lemma exec_words_u32 ws g : exec_words (uwrap 32 <$> ws) g = exec_words ws g.
Proof.
  revert g; induction ws as [|w ws IH]; intros g; [done|].
  rewrite fmap_cons. cbn [exec_words].
  assert (exec_word (u32 w) g = exec_word w g) as -> by (unfold exec_word; by rewrite !field_u32 by lia).
  destruct (exec_word w g); [apply IH|done].
Qed.

Lemma Computes_loads c m rt v k n s :
  Computes c m rt (fun _ => v) k n -> wf s -> Offset s + 4 * n <= BufferSize s ->
  exists s' len, m c s = Ok s' /\ wf s' /\ k <= Z.of_nat len <= n /\
    Offset s' = Offset s + 4 * Z.of_nat len /\
    loads (Buffer s') (Offset s) len rt v /\
    forall off i, off + Z.of_nat i <= Offset s -> buf_read (Buffer s') off i = buf_read (Buffer s) off i.
Proof.
  intros (ws & He & Hl & H) Hw Hr. exists (emit_words ws s), (length ws).
  destruct (emit_words_facts ws s Hw) as (? & ? & ?); [lia|].
  split; [apply He; done || lia|]. split_and!; try done; try lia.
  - exists (uwrap 32 <$> ws). split; [apply emit_words_read; done || lia|].
    intros g Hg. rewrite exec_words_u32. destruct (H g Hg) as (g' & ? & _ & ? & ?). by exists g'.
  - intros. apply emit_words_other; done || lia.
Qed.

Lemma andthen_ok m n c s s' : m c s = Ok s' -> (m ;; n) c s = n c s'.
Proof. unfold andthen. by intros ->. Qed.

Lemma andthen_assoc5 m1 m2 m3 m4 m5 m6 c s :
  (m1 ;; m2 ;; m3 ;; m4 ;; m5 ;; m6) c s = ((m1 ;; m2 ;; m3 ;; m4 ;; m5) ;; m6) c s.
Proof.
  unfold andthen. by repeat (case_match; try done).
Qed.

(** C13: for every register and every 64-bit immediate, with room for five words,
    [LoadImm64] succeeds in every build, emits one to five words, and executing the words it
    left in the code buffer loads exactly [imm] into [rt] and changes no other register. *)
Theorem LoadImm64_correct c s rt imm :
  is_u 5 (gpr_idx rt) -> is_u 64 imm -> wf s -> Offset s + 20 <= BufferSize s ->
  exists s' len, LoadImm64 rt imm c s = Ok s' /\ wf s' /\ 1 <= Z.of_nat len <= 5 /\
    Offset s' = Offset s + 4 * Z.of_nat len /\
    loads (Buffer s') (Offset s) len (gpr_idx rt) imm /\
    forall off i, off + Z.of_nat i <= Offset s -> buf_read (Buffer s') off i = buf_read (Buffer s) off i.
Proof.
  intros Hrt Hi Hw Hr. apply Computes_loads; [by apply c_LoadImm64|done|lia].
Qed.

Lemma LoadImm64_correct_witness :
  let s := mkEmitter (replicate 24 0) 24 4 false [] ∅ in
  (is_u 5 3 /\ is_u 64 0x00007fff12345678 /\ wf s) /\
  exists s' len, LoadImm64 (mkGPR 3) 0x00007fff12345678 (mkConfig true false false) s = Ok s' /\
    loads (Buffer s') 4 len 3 0x00007fff12345678.
Proof.
  intros s. assert (wf s) as Hw by (by split; vm_compute).
  split; [split_and!; done|].
  destruct (LoadImm64_correct (mkConfig true false false) s (mkGPR 3) 0x00007fff12345678
    ltac:(done) ltac:(done) Hw ltac:(by vm_compute)) as (s' & len & E & _ & _ & _ & L & _).
  exists s', len. split; [exact E|exact L].
Defined.

(** [LoadImm64Fixed] emits exactly five words for every immediate, so a relocation can
    rewrite it in place, and executing them loads exactly [imm]; its width check passes in
    builds that have it. *)
Theorem LoadImm64Fixed_correct c s rt imm :
  is_u 5 (gpr_idx rt) -> is_u 64 imm -> wf s ->
  Offset s + LoadConstantFixedBytes <= BufferSize s ->
  exists s', LoadImm64Fixed rt imm c s = Ok s' /\ wf s' /\
    Offset s' = Offset s + LoadConstantFixedBytes /\
    loads (Buffer s') (Offset s) 5 (gpr_idx rt) imm /\
    forall off i, off + Z.of_nat i <= Offset s -> buf_read (Buffer s') off i = buf_read (Buffer s) off i.
Proof.
  unfold LoadConstantFixedBytes. intros Hrt Hi Hw Hr.
  destruct (Computes_loads c _ (gpr_idx rt) imm 5 5 s (c_LoadImm64Fixed c rt Hrt imm Hi) Hw)
    as (s' & len & E & Hw' & Hl & HO & L & F); [lia|].
  assert (len = 5%nat) as -> by lia. exists s'. split_and!; try done; try lia.
  unfold LoadImm64Fixed. rewrite andthen_assoc5, (andthen_ok _ _ _ _ _ E).
  unfold LOGMAN_THROW_A, LoadConstantFixedBytes. rewrite HO, u_small by (unfold is_u; lia).
  replace (Offset s + 4 * Z.of_nat 5 - Offset s =? 5 * 4) with true by (symmetry; apply Z.eqb_eq; lia).
  by rewrite orb_true_r.
Qed.

Lemma LoadImm64Fixed_correct_witness :
  let s := mkEmitter (replicate 24 0) 24 4 false [] ∅ in
  wf s /\
  exists s', LoadImm64Fixed (mkGPR 3) 0x8000800080008000 (mkConfig false true false) s = Ok s' /\
    loads (Buffer s') 4 5 3 0x8000800080008000.
Proof.
  intros s. assert (wf s) as Hw by (by split; vm_compute). split; [exact Hw|].
  destruct (LoadImm64Fixed_correct (mkConfig false true false) s (mkGPR 3) 0x8000800080008000
    ltac:(done) ltac:(done) Hw ltac:(by vm_compute)) as (s' & E & _ & _ & L & _).
  exists s'. split; [exact E|exact L].
Defined.
