(* ===== verification/PPCLabels.v ===== *)
(** * Forward labels are resolved (CodeEmitter/PPC64LE/Emitter.h)

    A compile unit is a sequence of emitted words, branches to labels and label bindings.
    This file gives the abstract meaning of such a sequence, where each label is the offset
    it is bound at, and shows that the emitter, with its placeholder words and its chains of
    pending fixups, produces code in which every branch decodes to the offset of its label. *)

From S2P Require Import Prelude PPCEmitter.

(** ** Sequences of emitter calls *)

Inductive kind := KB | KBL | KBC (cond : Cond).

Inductive op :=
| OWord (w : Z)              (* any instruction *)
| OBranch (k : kind) (l : N) (* [b], [bl] or [bc] to a label *)
| OBind (l : N).

Definition run_op (x : op) : M :=
  match x with
  | OWord w => Emit32 w
  | OBranch KB l => b_label l
  | OBranch KBL l => bl_label l
  | OBranch (KBC cond) l => bc_label cond l
  | OBind l => Bind l
  end.

Fixpoint run (ops : list op) : M :=
  match ops with
  | [] => ret
  | x :: ops => run_op x ;; run ops
  end.

(** ** Abstract meaning: where the branches and the labels are *)

Definition op_size (x : op) : Z := match x with OBind _ => 0 | _ => 4 end.
Definition ops_size (ops : list op) : Z := foldr (fun x n => op_size x + n) 0 ops.

Definition op_branches (off : Z) (x : op) : list (Z * kind * N) :=
  match x with OBranch k l => [(off, k, l)] | _ => [] end.
Fixpoint branches (off : Z) (ops : list op) : list (Z * kind * N) :=
  match ops with
  | [] => []
  | x :: ops => op_branches off x ++ branches (off + op_size x) ops
  end.

Fixpoint bound_labels (ops : list op) : list N :=
  match ops with
  | [] => []
  | OBind l :: ops => l :: bound_labels ops
  | _ :: ops => bound_labels ops
  end.

Fixpoint binds (off : Z) (ops : list op) : gmap N Z :=
  match ops with
  | [] => ∅
  | x :: ops =>
      match x with OBind l => <[l := off]> | _ => id end (binds (off + op_size x) ops)
  end.

(** ** Branch words *)

Definition base_word (k : kind) : Z :=
  match k with
  | KB => (18 <<u 26) ||| 0
  | KBL => (18 <<u 26) ||| 1
  | KBC cond => (16 <<u 26) ||| (BO cond <<u 21) ||| (BI cond <<u 16) ||| 0
  end.

(** The word of a branch by [d] bytes. *)
Definition branch_word (k : kind) (d : Z) : Z :=
  match k with
  | KB => (18 <<u 26) ||| ((u32 (d >>> 2) &&& 0x00FFFFFF) <<u 2) ||| 0
  | KBL => (18 <<u 26) ||| ((u32 (d >>> 2) &&& 0x00FFFFFF) <<u 2) ||| 1
  | KBC cond => (16 <<u 26) ||| (BO cond <<u 21) ||| (BI cond <<u 16)
                ||| ((u32 (d >>> 2) &&& 0x3FFF) <<u 2) ||| 0
  end.

(** The reach of a branch. *)
Definition reaches (k : kind) (d : Z) : Prop :=
  match k with
  | KB | KBL => - 2 ^ 25 <= d < 2 ^ 25
  | KBC _ => -32768 <= d <= 32764
  end.

Definition kind_ok (k : kind) : Prop :=
  match k with
  | KB | KBL => True
  | KBC cond => is_u 5 (BO cond) /\ is_u 5 (BI cond)
  end.

(** The Power ISA target of a relative branch at [pc], and the rest of the word: its
    opcode, condition and link bit. *)
Definition branch_target (w pc : Z) : option Z :=
  if w >>> 26 =? 18 then Some (pc + swrap 26 (w &&& 0x03FFFFFC))
  else if w >>> 26 =? 16 then Some (pc + swrap 16 (w &&& 0xFFFC))
  else None.
Definition branch_rest (w : Z) : Z :=
  if w >>> 26 =? 18 then w &&& 0xFC000003 else w &&& 0xFFFF0003.

(** ** Words of branches *)

Lemma reaches_s32 k d : reaches k d -> is_s 32 d.
Proof. destruct k; unfold reaches, is_s; lia. Qed.

Lemma i_form x lk :
  is_u 24 x -> is_u 1 lk -> (18 <<u 26) ||| (x <<u 2) ||| lk = 18 * 2 ^ 26 + x * 4 + lk.
Proof.
  intros [? ?] [? ?]. rewrite (u_small 32 (x <<< 2)) by (unfold is_u; rewrite Z.shiftl_mul_pow2; lia).
  change (18 <<u 26) with ((18 <<< 24) <<< 2). rewrite <- Z.shiftl_lor.
  rewrite (Z.lor_comm _ lk), lor_disjoint by (unfold is_u; lia).
  rewrite (Z.lor_comm _ x), lor_disjoint by (done || lia). lia.
Qed.

Lemma b_form bo bi x :
  is_u 5 bo -> is_u 5 bi -> is_u 14 x ->
  (16 <<u 26) ||| (bo <<u 21) ||| (bi <<u 16) ||| (x <<u 2) ||| 0
  = 16 * 2 ^ 26 + bo * 2 ^ 21 + bi * 2 ^ 16 + x * 4.
Proof.
  intros [? ?] [? ?] [? ?]. rewrite Z.lor_0_r.
  rewrite !(u_small 32 (_ <<< _)) by (unfold is_u; rewrite Z.shiftl_mul_pow2; lia).
  replace ((16 <<< 26) ||| (bo <<< 21) ||| (bi <<< 16) ||| (x <<< 2))
    with ((x ||| ((bi ||| ((bo ||| (16 <<< 5)) <<< 5)) <<< 14)) <<< 2).
  - rewrite !lor_disjoint, Z.shiftl_mul_pow2 by (unfold is_u; lia). lia.
  - rewrite !Z.shiftl_lor, !Z.shiftl_shiftl by lia. simpl (_ + _).
    rewrite (Z.lor_comm (x <<< 2)). f_equal. rewrite (Z.lor_comm (bi <<< 16)). f_equal.
    apply Z.lor_comm.
Qed.

Lemma land_field w n m :
  0 <= n -> 0 <= m -> w &&& (Z.ones n <<< m) = uwrap n (w >>> m) <<< m.
Proof.
  intros. apply Z.bits_inj'; intros i Hi. rewrite Z.land_spec, !Z.shiftl_spec by lia.
  destruct (decide (i < m)).
  - rewrite !(Z.testbit_neg_r _ (i - m)) by lia. apply andb_false_r.
  - rewrite u_testbit, ones_testbit, Z.shiftr_spec by lia.
    replace (i - m + m) with i by lia. apply andb_comm.
Qed.

Lemma disp24 d : is_u 24 (u32 (d >>> 2) &&& 0x00FFFFFF).
Proof. by apply land_u_r. Qed.
Lemma disp14 d : is_u 14 (u32 (d >>> 2) &&& 0x3FFF).
Proof. by apply land_u_r. Qed.

(** The field of an aligned displacement keeps its low bits. *)
Lemma disp_wrap n d :
  0 < n <= 30 -> d mod 4 = 0 ->
  swrap (n + 2) ((u32 (d >>> 2) &&& Z.ones n) * 4) = swrap (n + 2) d.
Proof.
  intros Hn Ha. rewrite u_land_ones by lia. rewrite uwrap_uwrap_le, Z.shiftr_div_pow2 by lia.
  assert (d = 4 * (d / 4)) as E by (Z.to_euclidean_division_equations; lia).
  change (2 ^ 2) with 4. rewrite <- (s_u (n + 2)), <- (s_u (n + 2) d) by lia. f_equal.
  unfold uwrap. rewrite Z.pow_add_r by lia. change (2 ^ 2) with 4.
  rewrite Zmult_mod_distr_r. rewrite E at 2. rewrite (Z.mul_comm 4), Zmult_mod_distr_r.
  by rewrite Zmod_mod.
Qed.

Lemma disp_ext n d :
  0 < n <= 30 -> d mod 4 = 0 -> - 2 ^ (n + 1) <= d < 2 ^ (n + 1) ->
  swrap (n + 2) ((u32 (d >>> 2) &&& Z.ones n) * 4) = d.
Proof.
  intros Hn Ha Hd. rewrite disp_wrap by done. apply s_small; [|lia]. unfold is_s.
  by replace (n + 2 - 1) with (n + 1) by lia.
Qed.

(** The fields of an I-form and of a B-form word. *)
Lemma i_form_fields x lk :
  is_u 24 x -> is_u 1 lk ->
  let w := 18 * 2 ^ 26 + x * 4 + lk in
  w >>> 26 = 18 /\ w &&& 0x03FFFFFC = x * 4 /\ w &&& 0xFC000003 = 18 * 2 ^ 26 + lk.
Proof.
  intros [? ?] [? ?] w. change 0x03FFFFFC with (Z.ones 24 <<< 2).
  change 0xFC000003 with ((Z.ones 6 <<< 26) ||| Z.ones 2).
  rewrite Z.land_lor_distr_r, !land_field, (u_land_ones 2), !Z.shiftr_div_pow2 by lia.
  assert (w / 2 ^ 26 = 18) as -> by (subst w; Z.to_euclidean_division_equations; lia).
  assert (uwrap 24 (w / 2 ^ 2) = x) as ->
    by (subst w; unfold uwrap; Z.to_euclidean_division_equations; lia).
  assert (uwrap 2 w = lk) as -> by (subst w; unfold uwrap; Z.to_euclidean_division_equations; lia).
  split; [done|]. split; [rewrite Z.shiftl_mul_pow2; lia|].
  rewrite Z.lor_comm, lor_disjoint by (unfold is_u; lia). change (uwrap 6 18) with 18. lia.
Qed.

Lemma b_form_fields bo bi x :
  is_u 5 bo -> is_u 5 bi -> is_u 14 x ->
  let w := 16 * 2 ^ 26 + bo * 2 ^ 21 + bi * 2 ^ 16 + x * 4 in
  w >>> 26 = 16 /\ w &&& 0xFFFC = x * 4 /\
  w &&& 0xFFFF0003 = 16 * 2 ^ 26 + bo * 2 ^ 21 + bi * 2 ^ 16.
Proof.
  intros [? ?] [? ?] [? ?] w. change 0xFFFC with (Z.ones 14 <<< 2).
  change 0xFFFF0003 with ((Z.ones 16 <<< 16) ||| Z.ones 2).
  rewrite Z.land_lor_distr_r, !land_field, (u_land_ones 2), !Z.shiftr_div_pow2 by lia.
  assert (w / 2 ^ 26 = 16) as -> by (subst w; Z.to_euclidean_division_equations; lia).
  assert (uwrap 14 (w / 2 ^ 2) = x) as ->
    by (subst w; unfold uwrap; Z.to_euclidean_division_equations; lia).
  assert (uwrap 2 w = 0) as -> by (subst w; unfold uwrap; Z.to_euclidean_division_equations; lia).
  assert (uwrap 16 (w / 2 ^ 16) = 16 * 2 ^ 10 + bo * 2 ^ 5 + bi) as ->
    by (subst w; unfold uwrap; Z.to_euclidean_division_equations; lia).
  rewrite Z.lor_0_r, !Z.shiftl_mul_pow2 by lia. split; [done|]. split; lia.
Qed.

Lemma base_word_cond cond :
  kind_ok (KBC cond) ->
  base_word (KBC cond) = 16 * 2 ^ 26 + BO cond * 2 ^ 21 + BI cond * 2 ^ 16.
Proof.
  intros [Ho Hi]. pose proof (b_form (BO cond) (BI cond) 0 Ho Hi ltac:(done)) as E.
  change (0 <<u 2) with 0 in E. rewrite (Z.lor_0_r (_ ||| _ ||| _)) in E.
  unfold base_word. rewrite E. lia.
Qed.

Lemma base_word_u k : kind_ok k -> is_u 32 (base_word k).
Proof.
  destruct k as [| |cond]; [done..|]. intros Hk. rewrite base_word_cond by done.
  destruct Hk. unfold is_u in *; lia.
Qed.

Lemma branch_word_decodes k d pc :
  kind_ok k -> d mod 4 = 0 -> reaches k d ->
  is_u 32 (branch_word k d) /\ branch_target (branch_word k d) pc = Some (pc + d) /\
  branch_rest (branch_word k d) = base_word k.
Proof.
  intros Hk Ha Hr. unfold branch_target, branch_rest. destruct k as [| |cond].
  3: { rewrite base_word_cond by done. destruct Hk as [Ho Hi]. pose proof (disp14 d) as Hx.
    pose proof (disp_ext 14 d ltac:(lia) Ha ltac:(unfold reaches in Hr; lia)) as Hd.
    change (Z.ones 14) with 0x3FFF in Hd. change (14 + 2) with 16 in Hd.
    unfold branch_word. rewrite b_form by done.
    destruct (b_form_fields _ _ _ Ho Hi Hx) as (E1 & E2 & E3). rewrite E1, E2, E3, Hd.
    unfold is_u in *; split; [lia|done]. }
  all: pose proof (disp24 d) as Hx; unfold branch_word;
    pose proof (disp_ext 24 d ltac:(lia) Ha ltac:(unfold reaches in Hr; lia)) as Hd;
    change (Z.ones 24) with 0x00FFFFFF in Hd; change (24 + 2) with 26 in Hd;
    rewrite i_form by done;
    match goal with |- context [_ + _ * 4 + ?lk] =>
      destruct (i_form_fields _ lk Hx ltac:(done)) as (E1 & E2 & E3) end;
    rewrite E1, E2, E3, Hd; (split; [unfold is_u in *; lia|done]).
Qed.

(** Patching a placeholder gives the branch. *)
Lemma patch_placeholder k d :
  kind_ok k ->
  match k with
  | KB | KBL => (base_word k &&& 0xFC000003) ||| ((u32 (d >>> 2) &&& 0x00FFFFFF) <<u 2)
  | KBC _ => (base_word k &&& 0xFFFF0003) ||| ((u32 (d >>> 2) &&& 0x3FFF) <<u 2)
  end = branch_word k d.
Proof.
  destruct k as [| |cond]; intros Hk.
  - unfold branch_word. by rewrite Z.lor_0_r.
  - unfold branch_word. change (base_word KBL &&& 0xFC000003) with ((18 <<u 26) ||| 1).
    rewrite <- !Z.lor_assoc. f_equal. apply Z.lor_comm.
  - destruct Hk as [Ho Hi].
    destruct (b_form_fields _ _ 0 Ho Hi ltac:(done)) as (_ & _ & E).
    rewrite Z.mul_0_l, Z.add_0_r in E. rewrite base_word_cond, E by done.
    rewrite <- base_word_cond by done. unfold branch_word, base_word. by rewrite !Z.lor_0_r.
Qed.

Lemma base_word_opcode k :
  kind_ok k -> base_word k >>> 26 = match k with KBC _ => 16 | _ => 18 end.
Proof.
  destruct k as [| |cond]; intros Hk; [done..|]. rewrite base_word_cond by done.
  destruct Hk as [Ho Hi]. destruct (b_form_fields _ _ 0 Ho Hi ltac:(done)) as (E & _).
  by rewrite Z.mul_0_l, Z.add_0_r in E.
Qed.

(** ** Fixup chains *)

(** The patch offsets on the chain that starts at index [idx]; links go to older entries. *)
Inductive chain (pbs : list PendingBranchEntry) : Z -> list Z -> Prop :=
| chain_nil idx : idx < 0 -> chain pbs idx []
| chain_cons idx e os :
    0 <= idx -> pbs !! Z.to_nat idx = Some e -> next e < idx ->
    chain pbs (next e) os -> chain pbs idx (patch_offset e :: os).

Lemma chain_app pbs pbs' idx os : chain pbs idx os -> chain (pbs ++ pbs') idx os.
Proof.
  induction 1; [by constructor|]. econstructor; try done. by apply lookup_app_l_Some.
Qed.

Lemma chain_length pbs idx os : chain pbs idx os -> Z.of_nat (length os) <= Z.max 0 (idx + 1).
Proof. induction 1; cbn [length]; lia. Qed.

Lemma chain_push pbs head os off :
  chain pbs head os -> head < Z.of_nat (length pbs) ->
  chain (pbs ++ [mkPending off head]) (Z.of_nat (length pbs)) (off :: os).
Proof.
  intros Hc Hh. apply (chain_cons _ _ (mkPending off head)); [lia| |done|by apply chain_app].
  rewrite Nat2Z.id. by apply list_lookup_middle.
Qed.

(** Two words that do not overlap. *)
Definition apart (a b : Z) : Prop := a + 4 <= b \/ b + 4 <= a.

Definition small (x : Z) : Prop := 0 <= x < 2 ^ 31.

Lemma small_s32 x : small x -> s32 x = x.
Proof. intros [? ?]. apply s_small; [unfold is_s|]; lia. Qed.
Lemma small_s64 x : small x -> s64 x = x.
Proof. intros [? ?]. apply s_small; [unfold is_s|]; lia. Qed.
Lemma small_u64 x : small x -> u64 x = x.
Proof. intros [? ?]. apply u_small; unfold is_u; lia. Qed.

Lemma buf_read_bounds buf o n w :
  buf_read buf o n = Some w -> 0 <= o /\ o + Z.of_nat n <= Z.of_nat (length buf).
Proof. unfold buf_read. case_match; [|done]. to_prop. lia. Qed.

(** The guard of a branch in range. *)
Lemma reaches_guard k d :
  reaches k d -> match k with
  | KBC _ => (-32768 <=? d) && (d <=? 32764)
  | _ => (- 2 ^ 25 <=? d) && (d <? 2 ^ 25) end = true.
Proof. destruct k; unfold reaches; lia. Qed.

Lemma aligned_guard d : d mod 4 = 0 -> (d &&& 3 =? 0) = true.
Proof. intros H. change 3 with (Z.ones 2). rewrite u_land_ones by lia. by apply Z.eqb_eq. Qed.

Lemma PatchBranchAt_ok c s k o t :
  kind_ok k -> small o -> small t -> (t - o) mod 4 = 0 -> reaches k (t - o) ->
  buf_read (Buffer s) o 4 = Some (base_word k) ->
  exists b', buf_write (Buffer s) o (le_bytes 4 (branch_word k (t - o))) = Some b' /\
    PatchBranchAt o t c s = Ok (set_buffer b' s).
Proof.
  intros Hk Ho Ht Ha Hr Hb. pose proof (buf_read_bounds _ _ _ _ Hb).
  eexists. split; [apply buf_write_some; rewrite ?length_le_bytes; lia|].
  unfold PatchBranchAt. rewrite Hb, (small_s32 t), (small_s32 o) by done.
  rewrite s_small by (lia || by eapply reaches_s32).
  rewrite logman_true by (by apply aligned_guard). rewrite base_word_opcode by done.
  pose proof (reaches_guard _ _ Hr) as G. pose proof (patch_placeholder k (t - o) Hk) as P.
  destruct k; cbn [Z.eqb Pos.eqb]; rewrite logman_true by exact G; cbv zeta; rewrite P;
    rewrite buf_write_some by (rewrite ?length_le_bytes; lia); done.
Qed.

(** Only the code buffer changed, and not its size. *)
Definition same_but_buffer (s s' : Emitter) : Prop :=
  s' = set_buffer (Buffer s') s /\ length (Buffer s') = length (Buffer s).

Lemma PatchPending_loop_ok c t ps fuel idx s :
  chain (PendingBranches s) idx (ps.*1) -> (length ps < fuel)%nat -> small t ->
  (forall o k, (o, k) ∈ ps -> kind_ok k /\ small o /\ (t - o) mod 4 = 0 /\ reaches k (t - o) /\
     buf_read (Buffer s) o 4 = Some (base_word k)) ->
  (forall i j o o', ps.*1 !! i = Some o -> ps.*1 !! j = Some o' -> i <> j -> apart o o') ->
  idx < Z.of_nat (length (PendingBranches s)) < 2 ^ 31 ->
  exists s', PatchPending_loop fuel idx t c s = Ok s' /\ same_but_buffer s s' /\
    (forall o k, (o, k) ∈ ps -> buf_read (Buffer s') o 4 = Some (u32 (branch_word k (t - o)))) /\
    (forall o', (forall o, o ∈ ps.*1 -> apart o o') ->
       buf_read (Buffer s') o' 4 = buf_read (Buffer s) o' 4).
Proof.
  revert fuel idx s. induction ps as [|[o k] ps IH]; intros fuel idx s Hc Hf Ht Hp Hd Hi;
    inversion Hc as [? Hneg|? e os Hpos Hlk Hlt Hc']; subst.
  - exists s. split; [destruct fuel; simpl; by bool_lia|].
    split; [split; [by destruct s|done]|]. split; [|done]. by intros ?? ?%elem_of_nil.
  - destruct fuel as [|fuel]; [cbn [length] in Hf; lia|].
    destruct (Hp (patch_offset e) k) as (Hk & So & Ha & Hr & Hb); [left|].
    destruct (PatchBranchAt_ok c s k _ t Hk So Ht Ha Hr Hb) as (b' & Hw & Hpatch).
    assert (forall o', apart (patch_offset e) o' -> buf_read b' o' 4 = buf_read (Buffer s) o' 4) as Hoth.
    { intros o' Hap. eapply buf_read_write_other; [done|].
      rewrite length_le_bytes. destruct Hap; [right|left]; lia. }
    assert (forall o', o' ∈ ps.*1 -> apart (patch_offset e) o') as Hap.
    { intros o' [j Hj]%list_elem_of_lookup. apply (Hd 0%nat (S j)); done. }
    destruct (IH fuel (next e) (set_buffer b' s)) as (s' & Hrun & [Hs Hl] & Hres & Hother).
    + done.
    + cbn [length] in Hf; lia.
    + done.
    + intros o' k' Hin. destruct (Hp o' k') as (?&?&?&?&?); [by right|]. split_and!; try done.
      simpl. rewrite Hoth; [done|]. apply Hap, list_elem_of_fmap. by exists (o', k').
    + intros i j o' o'' Hi' Hj' Hij. apply (Hd (S i) (S j)); done || lia.
    + simpl. lia.
    + exists s'. cbn [PatchPending_loop]. bool_lia.
      rewrite logman_true by (rewrite u_small by (unfold is_u; lia); apply Z.ltb_lt; lia).
      rewrite Hlk. unfold andthen. rewrite !small_u64, Hpatch, Hrun by done. split; [done|].
      split; [split; [by rewrite Hs at 1; destruct s|
        rewrite Hl; simpl; by eapply buf_write_length]|].
      split.
      * intros o' k' [Heq|Hin]%elem_of_cons; [|by apply Hres]. simplify_eq.
        rewrite Hother; [by eapply buf_read_write_same|].
        intros o' Ho'. destruct (Hap o' Ho'); [right|left]; lia.
      * intros o' Ho'. rewrite Hother by (intros; apply Ho'; by right). apply Hoth, Ho'. left.
Qed.

(** ** The invariant of a compile unit *)

(** The branches to [l], most recent first, as the fixup chain lists them. *)
Definition refs (l : N) (brs : list (Z * kind * N)) : list (Z * kind) :=
  reverse (omap (fun '(o, k, l') => if decide (l' = l) then Some (o, k) else None) brs).

Lemma refs_snoc l o k l' brs :
  refs l (brs ++ [(o, k, l')]) = if decide (l' = l) then (o, k) :: refs l brs else refs l brs.
Proof.
  unfold refs. rewrite omap_app. simpl. case_decide; simpl.
  - by rewrite reverse_app.
  - by rewrite app_nil_r.
Qed.

Lemma elem_of_refs l o k brs : (o, k) ∈ refs l brs <-> (o, k, l) ∈ brs.
Proof.
  unfold refs. rewrite elem_of_reverse, list_elem_of_omap. split.
  - intros ([[o' k'] l'] & Hin & H). case_decide; naive_solver.
  - intros H. exists (o, k, l). split; [done|]. by rewrite decide_True.
Qed.

Lemma refs_nodup l brs : NoDup (brs.*1.*1) -> NoDup ((refs l brs).*1).
Proof.
  unfold refs. rewrite fmap_reverse, reverse_Permutation.
  induction brs as [|[[o k] l'] brs IH]; [done|]. rewrite !fmap_cons. cbn [fst].
  intros [Ho Hn]%NoDup_cons. specialize (IH Hn). simpl. case_decide; [|done].
  rewrite fmap_cons. apply NoDup_cons. split; [|done]. cbn [fst]. contradict Ho.
  apply list_elem_of_fmap in Ho as ([o' k'] & -> & Hin). apply list_elem_of_omap in Hin
    as ([[o'' k''] l''] & Hin & Hd). case_decide; simplify_eq.
  apply list_elem_of_fmap. exists (o', k'). split; [done|]. apply list_elem_of_fmap. by eexists (o', k', _).
Qed.

Lemma branch_unique (brs : list (Z * kind * N)) o k l k' l' :
  NoDup (brs.*1.*1) -> (o, k, l) ∈ brs -> (o, k', l') ∈ brs -> l = l'.
Proof.
  intros N [i Hi]%list_elem_of_lookup [j Hj]%list_elem_of_lookup.
  assert (i = j) as ->; [|congruence].
  eapply (NoDup_lookup (brs.*1.*1)); [done|..]; rewrite !list_lookup_fmap, ?Hi, ?Hj; done.
Qed.

Section unit.
Context (c : Config) (off0 : Z) (D : N -> Prop).

Record Inv (brs : list (Z * kind * N)) (bds : gmap N Z) (s : Emitter) : Prop := {
  i_wf : wf s;
  i_off : 0 <= off0 <= Offset s /\ (Offset s - off0) mod 4 = 0;
  i_pbs : 4 * Z.of_nat (length (PendingBranches s)) <= Offset s - off0;
  i_labels : forall l, D l -> exists L, Labels s !! l = Some L /\
    match bds !! l with
    | Some t => bound L = true /\ lbl_offset L = t /\ off0 <= t <= Offset s /\ (t - off0) mod 4 = 0
    | None => bound L = false /\ pending_head L < Z.of_nat (length (PendingBranches s)) /\
              chain (PendingBranches s) (pending_head L) ((refs l brs).*1)
    end;
  i_branches : forall o k l, (o, k, l) ∈ brs ->
    (kind_ok k /\ off0 <= o /\ o + 4 <= Offset s /\ (o - off0) mod 4 = 0) /\
    buf_read (Buffer s) o 4 =
      Some (u32 (match bds !! l with Some t => branch_word k (t - o) | None => base_word k end));
  i_nodup : NoDup (brs.*1.*1)
}.

Lemma wf_small s x : wf s -> 0 <= x <= Offset s -> small x.
Proof. intros [? ? ?] ?. unfold small. lia. Qed.

Lemma aligned_diff a b : (a - off0) mod 4 = 0 -> (b - off0) mod 4 = 0 -> (a - b) mod 4 = 0.
Proof. intros. Z.to_euclidean_division_equations; lia. Qed.

Lemma aligned_apart a b : (a - off0) mod 4 = 0 -> (b - off0) mod 4 = 0 -> a <> b -> apart a b.
Proof. intros. unfold apart. Z.to_euclidean_division_equations; lia. Qed.

(** Emitting a word that is no tracked branch. *)
Lemma inv_emitted brs bds s w d :
  Inv brs bds s -> Offset s + 4 <= BufferSize s -> Inv brs bds (emitted (le_bytes 4 w) d s).
Proof.
  intros [W O P L B N] Hr.
  assert (Offset (emitted (le_bytes 4 w) d s) = Offset s + 4) as HO
    by (cbn [emitted Offset]; by rewrite length_le_bytes).
  split; [apply emitted_wf; [done|by rewrite length_le_bytes]| | | | |done].
  - rewrite HO. split; [lia|]. destruct O. Z.to_euclidean_division_equations; lia.
  - rewrite HO. simpl. lia.
  - intros l Hl. destruct (L l Hl) as (lab & HL & H). exists lab. split; [done|].
    rewrite HO. case_match; destruct_and!; split_and!; done || lia.
  - intros o k l Hin. destruct (B o k l Hin) as [? HB]. rewrite HO. split; [destruct_and!; split_and!; done || lia|].
    rewrite emitted_read_other; [done|done|by rewrite length_le_bytes|lia].
Qed.

(** What the invariant says of the labels. *)
Definition label_ok (brs : list (Z * kind * N)) (bds : gmap N Z) (s : Emitter) (l : N) : Prop :=
  exists L, Labels s !! l = Some L /\
    match bds !! l with
    | Some t => bound L = true /\ lbl_offset L = t /\ off0 <= t <= Offset s /\ (t - off0) mod 4 = 0
    | None => bound L = false /\ pending_head L < Z.of_nat (length (PendingBranches s)) /\
              chain (PendingBranches s) (pending_head L) ((refs l brs).*1)
    end.

(** Emitting a branch to [l] from [s1], which is [s] up to the fixup chains. *)
Lemma inv_branch brs bds s s1 k l d :
  Inv brs bds s -> Offset s + 4 <= BufferSize s -> kind_ok k ->
  Buffer s1 = Buffer s -> BufferSize s1 = BufferSize s -> Offset s1 = Offset s ->
  4 * Z.of_nat (length (PendingBranches s1)) <= Offset s - off0 + 4 ->
  (forall l', D l' -> label_ok (brs ++ [(Offset s, k, l)]) bds s1 l') ->
  Inv (brs ++ [(Offset s, k, l)]) bds
    (emitted (le_bytes 4 (match bds !! l with Some t => branch_word k (t - Offset s)
                          | None => base_word k end)) d s1).
Proof.
  intros [W O P L B N] Hr Hk E1 E2 E3 HP HL.
  assert (wf s1) as W1 by (destruct W; split; rewrite ?E1, ?E2, ?E3; done).
  set (w := match bds !! l with Some t => _ | None => _ end).
  assert (Offset (emitted (le_bytes 4 w) d s1) = Offset s + 4) as HO
    by (cbn [emitted Offset]; by rewrite length_le_bytes, E3).
  split.
  - apply emitted_wf; [done|rewrite length_le_bytes; lia].
  - rewrite HO. split; [lia|]. destruct O. Z.to_euclidean_division_equations; lia.
  - rewrite HO. simpl. lia.
  - intros l' Hl. destruct (HL l' Hl) as (lab & HL' & H). exists lab. split; [done|].
    rewrite HO. case_match; destruct_and!; split_and!; done || lia.
  - intros o k' l' [Hin|Hin]%elem_of_app; rewrite HO.
    + destruct (B o k' l' Hin) as [? HB]. split; [destruct_and!; split_and!; done || lia|].
      rewrite emitted_read_other, E1; [done|done|rewrite length_le_bytes; lia|lia].
    + apply list_elem_of_singleton in Hin. simplify_eq. split; [split_and!; done || lia|].
      rewrite <- E3 at 1. rewrite emitted_read_word by (done || lia). done.
  - rewrite !fmap_app. apply NoDup_app. split_and!; [done| |apply NoDup_singleton].
    intros o Ho. simpl. rewrite list_elem_of_singleton. intros ->.
    apply list_elem_of_fmap in Ho as ([o k'] & ? & ([[? ?] l'] & ? & Hin)%list_elem_of_fmap).
    simplify_eq/=. destruct (B _ _ _ Hin). lia.
Qed.

(** [AddPendingBranch] pushes the cursor on the chain of [l]. *)
Lemma AddPendingBranch_ok brs bds s k l :
  Inv brs bds s -> D l -> bds !! l = None -> Offset s + 4 <= BufferSize s ->
  exists s1, AddPendingBranch l c s = Ok s1 /\
    Buffer s1 = Buffer s /\ BufferSize s1 = BufferSize s /\ Offset s1 = Offset s /\
    4 * Z.of_nat (length (PendingBranches s1)) <= Offset s - off0 + 4 /\
    (forall l', D l' -> label_ok (brs ++ [(Offset s, k, l)]) bds s1 l').
Proof.
  intros [W O P L B N] Hl Hb Hr. destruct (L l Hl) as (lab & HL & H). rewrite Hb in H.
  destruct H as (Hbd & Hh & Hc). unfold AddPendingBranch. rewrite HL. eexists.
  split; [reflexivity|]. pose proof W as [? ? ?].
  split_and!; try done; cbn [PendingBranches Labels]; rewrite ?length_app; cbn [length]; [lia|].
  intros l' Hl'. unfold label_ok. cbn [Labels PendingBranches Offset]. rewrite length_app. cbn [length].
  assert (s32 (Z.of_nat (length (PendingBranches s) + 1) - 1) =
    Z.of_nat (length (PendingBranches s))) as ->
    by (rewrite s_small by (unfold is_s; lia); lia).
  rewrite small_s64 by (apply (wf_small s); [done|lia]). rewrite refs_snoc.
  destruct (decide (l = l')) as [<-|Hne].
  - rewrite lookup_insert_eq, Hb. eexists. split; [done|]. cbn [bound pending_head].
    split_and!; [done|lia|]. by apply chain_push.
  - rewrite lookup_insert_ne by done. destruct (L l' Hl') as (lab' & HL' & H').
    exists lab'. split; [done|]. case_match; [done|].
    destruct H' as (? & ? & ?). split_and!; [done|lia|by apply chain_app].
Qed.

(** A branch by an aligned displacement in range emits its word. *)
Lemma branch_by_ok k d s :
  d mod 4 = 0 -> reaches k d ->
  match k with KB => b d | KBL => bl d | KBC cond => bc (BO cond) (BI cond) d end c s =
  Emit32 (branch_word k d) c s.
Proof.
  intros Ha Hr. pose proof (aligned_guard _ Ha). pose proof (reaches_guard _ _ Hr) as G.
  destruct k; unfold b, bl, bc; rewrite !logman_true by done || exact G; done.
Qed.

Lemma run_branch_ok brs bds s k l :
  Inv brs bds s -> D l -> kind_ok k -> Offset s + 4 <= BufferSize s ->
  (forall t, bds !! l = Some t -> reaches k (t - Offset s)) ->
  exists s', run_op (OBranch k l) c s = Ok s' /\ Inv (brs ++ [(Offset s, k, l)]) bds s' /\
    Offset s' = Offset s + 4 /\ BufferSize s' = BufferSize s.
Proof.
  intros HI Hl Hk Hr Hreach. pose proof HI as [W O P L B N].
  destruct (L l Hl) as (lab & HL & H). destruct (bds !! l) as [t|] eqn:Hb.
  - destruct H as (Hbd & <- & Ht & Ha).
    assert (run_op (OBranch k l) c s = Emit32 (branch_word k (lbl_offset lab - Offset s)) c s) as ->.
    { assert (s32 (s32 (lbl_offset lab) - s32 (Offset s)) = lbl_offset lab - Offset s) as E.
      { rewrite (small_s32 (lbl_offset lab)), (small_s32 (Offset s))
          by (apply (wf_small s); [done|lia]).
        apply s_small; [|lia]. by eapply reaches_s32, Hreach. }
      rewrite <- branch_by_ok by (auto || apply aligned_diff; tauto).
      destruct k; cbn [run_op]; unfold b_label, bl_label, bc_label, with_label, label_distance;
        rewrite HL, Hbd; cbv beta; by rewrite E. }
    rewrite Emit32_ok by done. eexists. split; [done|].
    split; [|cbn [emitted Offset BufferSize]; by rewrite length_le_bytes].
    pose proof (inv_branch brs bds s s k l (dirties_r0 (branch_word k (lbl_offset lab - Offset s)))
      HI Hr Hk eq_refl eq_refl eq_refl ltac:(lia)) as HB.
    rewrite Hb in HB. apply HB. intros l' Hl'. destruct (L l' Hl') as (lab' & ? & H').
    exists lab'. split; [done|]. case_match eqn:Hb'; [done|].
    rewrite refs_snoc, decide_False by congruence. done.
  - destruct (AddPendingBranch_ok brs bds s k l HI Hl Hb Hr) as (s1 & HA & E1 & E2 & E3 & HP & HL1).
    assert (run_op (OBranch k l) c s = Emit32 (base_word k) c s1) as ->.
    { destruct H as [Hbd _]. destruct k; cbn [run_op];
        unfold b_label, bl_label, bc_label, with_label; rewrite HL, Hbd;
        unfold andthen; rewrite HA; done. }
    assert (wf s1) by (destruct W; split; rewrite ?E1, ?E2, ?E3; done).
    rewrite Emit32_ok by (done || lia). eexists. split; [done|].
    split; [|cbn [emitted Offset BufferSize]; by rewrite length_le_bytes, E2, E3].
    pose proof (inv_branch brs bds s s1 k l (dirties_r0 (base_word k)) HI Hr Hk E1 E2 E3 HP HL1) as HB.
    by rewrite Hb in HB.
Qed.

Lemma refs_aligned brs bds s l o : Inv brs bds s -> o ∈ (refs l brs).*1 -> (o - off0) mod 4 = 0.
Proof.
  intros HI ([o' k] & -> & Hin)%list_elem_of_fmap. apply elem_of_refs in Hin.
  by destruct (i_branches _ _ _ HI _ _ _ Hin) as [(? & ? & ? & ?) _].
Qed.

(** The state after the fixups of [l] were patched to the cursor. *)
Lemma inv_bound brs bds s s2 l :
  Inv brs bds s -> D l -> bds !! l = None -> length (Buffer s2) = length (Buffer s) ->
  (forall o k, (o, k) ∈ refs l brs ->
     buf_read (Buffer s2) o 4 = Some (u32 (branch_word k (Offset s - o)))) ->
  (forall o', (forall o, o ∈ (refs l brs).*1 -> apart o o') ->
     buf_read (Buffer s2) o' 4 = buf_read (Buffer s) o' 4) ->
  forall h, Inv brs (<[l := Offset s]> bds)
    (set_label l (mkLabel (Offset s) true (-1))
       (set_buffer (Buffer s2) (set_label l (mkLabel (Offset s) true h) s))).
Proof.
  intros HI Hl Hb Hlen Hres Hoth h. pose proof HI as [W O P L B N].
  split; try done.
  - destruct W. split; cbn; rewrite ?Hlen; done.
  - intros l' Hl'. cbn [Labels set_label set_buffer].
    destruct (decide (l = l')) as [<-|Hne].
    + rewrite !lookup_insert_eq. eexists. split; [done|]. cbn. destruct O. split_and!; done || lia.
    + rewrite !lookup_insert_ne by done. by apply L.
  - intros o k l' Hin. destruct (B o k l' Hin) as [HB HR]. split; [done|].
    cbn [Buffer set_label set_buffer]. destruct (decide (l = l')) as [<-|Hne].
    + rewrite lookup_insert_eq. by apply Hres, elem_of_refs.
    + rewrite lookup_insert_ne by done. rewrite Hoth; [done|]. intros o' Ho'.
      apply aligned_apart; [by eapply refs_aligned|by destruct_and!|]. intros ->.
      apply Hne. apply list_elem_of_fmap in Ho' as ([o' k'] & -> & Hin'). apply elem_of_refs in Hin'.
      cbn [fst] in *. by eapply (branch_unique brs).
Qed.

(** Binding a label patches the branches to it and no other word. *)
Lemma run_bind_ok brs bds s l :
  Inv brs bds s -> D l -> bds !! l = None ->
  (forall o k, (o, k, l) ∈ brs -> reaches k (Offset s - o)) ->
  exists s', run_op (OBind l) c s = Ok s' /\ Inv brs (<[l := Offset s]> bds) s' /\
    Offset s' = Offset s /\ BufferSize s' = BufferSize s.
Proof.
  intros HI Hl Hb Hreach. pose proof HI as [W O P L B N].
  destruct (L l Hl) as (lab & HL & H). rewrite Hb in H. destruct H as (Hbd & Hh & Hc).
  assert (small (Offset s)) as Ho by (apply (wf_small s); [done|lia]). pose proof W as [? ? ?].
  cbn [run_op]. unfold Bind. rewrite HL, small_s64 by done.
  set (s1 := set_label l _ s). unfold PatchPending.
  replace (Labels s1 !! l) with (Some (mkLabel (Offset s) true (pending_head lab)))
    by (subst s1; simpl; by rewrite lookup_insert_eq). cbn [pending_head lbl_offset bound].
  destruct (PatchPending_loop_ok c (Offset s) (refs l brs) (S (length (PendingBranches s1)))
    (pending_head lab) s1) as (s2 & Hrun & [Hs2 Hlen] & Hres & Hoth).
  - done.
  - pose proof (chain_length _ _ _ Hc) as Hlen. rewrite length_fmap in Hlen. cbn. lia.
  - done.
  - intros o k Hin. apply elem_of_refs in Hin as Hin'. destruct (B o k l Hin') as [HB HR].
    rewrite Hb in HR. destruct_and!. split_and!; try done.
    + apply (wf_small s); [done|lia].
    + by apply aligned_diff.
    + by apply Hreach.
    + cbn. rewrite HR, u_small; [done|]. by apply base_word_u.
  - intros i j o o' Hi Hj Hij. apply aligned_apart.
    1-2: apply (refs_aligned brs bds s l); [done|by eapply list_elem_of_lookup_2].
    intros ->. by destruct (NoDup_lookup _ _ _ _ (refs_nodup l brs N) Hi Hj).
  - cbn. lia.
  - unfold andthen. rewrite Hrun. eexists. split; [done|]. rewrite Hs2.
    split; [|done]. by apply (inv_bound brs bds s s2 l).
Qed.

(** What a compile unit must satisfy: its labels are in scope, its conditions are real
    and no label is bound twice. *)
Definition op_ok (x : op) : Prop :=
  match x with
  | OWord _ => True
  | OBranch k l => D l /\ kind_ok k
  | OBind l => D l
  end.

Lemma binds_None off ops l : l ∉ bound_labels ops -> binds off ops !! l = None.
Proof.
  revert off; induction ops as [|x ops IH]; intros off Hl; [done|]. destruct x; simpl in *.
  1-2: by apply IH.
  apply not_elem_of_cons in Hl as [? ?]. rewrite lookup_insert_ne by done. by apply IH.
Qed.

Lemma run_op_ok brs bds s x :
  Inv brs bds s -> op_ok x -> Offset s + op_size x <= BufferSize s ->
  match x with
  | OWord _ => True
  | OBranch k l => forall t, bds !! l = Some t -> reaches k (t - Offset s)
  | OBind l => bds !! l = None /\ forall o k, (o, k, l) ∈ brs -> reaches k (Offset s - o)
  end ->
  exists s', run_op x c s = Ok s' /\
    Inv (brs ++ op_branches (Offset s) x)
      (match x with OBind l => <[l := Offset s]> | _ => id end bds) s' /\
    Offset s' = Offset s + op_size x /\ BufferSize s' = BufferSize s.
Proof.
  intros HI Hok Hr Hx. destruct x as [w|k l|l]; cbn [op_branches op_size id] in *.
  - eexists. split; [apply Emit32_ok; [by destruct HI|done]|]. rewrite app_nil_r.
    split; [by apply inv_emitted|]. cbn [emitted Offset BufferSize]. by rewrite length_le_bytes.
  - destruct Hok. by apply run_branch_ok.
  - destruct Hx. destruct (run_bind_ok brs bds s l) as (s' & ? & ? & ? & ?); try done.
    exists s'. rewrite app_nil_r. split_and!; done || lia.
Qed.

Lemma run_ok ops brs bds s :
  Inv brs bds s -> Forall op_ok ops -> Offset s + ops_size ops <= BufferSize s ->
  NoDup (bound_labels ops) -> (forall l, l ∈ bound_labels ops -> bds !! l = None) ->
  (forall o k l t, (o, k, l) ∈ brs ++ branches (Offset s) ops ->
     (binds (Offset s) ops ∪ bds) !! l = Some t -> reaches k (t - o)) ->
  exists s', run ops c s = Ok s' /\
    Inv (brs ++ branches (Offset s) ops) (binds (Offset s) ops ∪ bds) s' /\
    Offset s' = Offset s + ops_size ops.
Proof.
  revert brs bds s; induction ops as [|x ops IH]; intros brs bds s HI Hok Hr Hnd Hfresh Hreach.
  { exists s. cbn. rewrite app_nil_r, map_empty_union. split_and!; done || lia. }
  apply Forall_cons in Hok as [Hx Hok]. cbn [ops_size foldr] in Hr.
  fold (ops_size ops) in Hr. cbn [branches binds] in Hreach |- *.
  assert (0 <= ops_size ops) by (clear; induction ops as [|y ops IH]; [done|]; cbn; fold (ops_size ops);
    destruct y; cbn; lia).
  set (bds1 := match x with OBind l => <[l := Offset s]> | _ => id end bds).
  assert (match x with OBind l => <[l := Offset s]> | _ => id end (binds (Offset s + op_size x) ops) ∪ bds
    = binds (Offset s + op_size x) ops ∪ bds1) as EU.
  { subst bds1. destruct x as [w|k l|l]; [done..|]. cbn [bound_labels] in Hnd.
    apply NoDup_cons in Hnd as [Hn _]. rewrite <- insert_union_l, insert_union_r; [done|].
    by apply binds_None. }
  rewrite EU in *. rewrite app_assoc in Hreach |- *.
  destruct (run_op_ok brs bds s x HI Hx) as (s1 & Hrun & HI1 & HO & HB); [lia| |].
  { destruct x as [w|k l|l]; [done| |].
    - intros t Ht. apply (Hreach (Offset s) k l t); [apply elem_of_app; left; apply elem_of_app; right; left|].
      rewrite lookup_union_r; [done|]. apply binds_None. intros Hin.
      rewrite Hfresh in Ht by exact Hin. done.
    - split; [apply Hfresh; left|]. intros o k Hin. apply (Hreach o k l (Offset s)); [set_solver|].
      cbn [bound_labels] in Hnd. apply NoDup_cons in Hnd as [Hn _].
      rewrite lookup_union_r by (by apply binds_None). subst bds1. apply lookup_insert_eq. }
  destruct (IH _ _ _ HI1 Hok) as (s' & Hrun' & HI' & HO'); rewrite ?HO, ?HB.
  - lia.
  - destruct x; cbn [bound_labels] in Hnd; [done..|]. by apply NoDup_cons in Hnd as [_ ?].
  - intros l Hl. destruct x as [w|k l'|l']; subst bds1; cbn [bound_labels id] in *; [by apply Hfresh..|].
    apply NoDup_cons in Hnd as [Hn _]. rewrite lookup_insert_ne by congruence. apply Hfresh. by right.
  - done.
  - exists s'. cbn [run]. unfold andthen. rewrite Hrun, <- HO. split_and!; [done..|].
    rewrite HO', HO. cbn [ops_size foldr]. fold (ops_size ops). lia.
Qed.

End unit.

(** The state a compile unit starts from: a live buffer, no fixups and fresh labels. *)
Definition unit_start (D : N -> Prop) (s : Emitter) : Prop :=
  wf s /\ PendingBranches s = [] /\ forall l, D l -> Labels s !! l = Some fresh_label.

Lemma inv_start D s : unit_start D s -> Inv (Offset s) D [] ∅ s.
Proof.
  intros (W & HP & HL). split; [done|..]; rewrite ?HP; cbn.
  - destruct W. rewrite Z.sub_diag. done || (split; [lia|done]).
  - lia.
  - intros l Hl. exists fresh_label. rewrite lookup_empty. split_and!; [auto|done|cbn; lia|].
    by constructor.
  - by intros o k l ?%elem_of_nil.
  - constructor.
Qed.

Lemma branches_scoped D off ops o k l :
  Forall (op_ok D) ops -> (o, k, l) ∈ branches off ops -> D l.
Proof.
  revert off; induction ops as [|x ops IH]; intros off Hok Hin; [by apply elem_of_nil in Hin|].
  apply Forall_cons in Hok as [Hx Hok]. cbn [branches] in Hin.
  apply elem_of_app in Hin as [Hin|Hin]; [|by eapply IH].
  destruct x as [w|k' l'|l']; cbn [op_branches] in Hin; [by apply elem_of_nil in Hin| |by apply elem_of_nil in Hin].
  apply list_elem_of_singleton in Hin. simplify_eq. by destruct Hx.
Qed.

Lemma base_word_rest k : kind_ok k -> branch_rest (base_word k) = base_word k.
Proof.
  intros Hk. unfold branch_rest. rewrite base_word_opcode by done.
  destruct k as [| |cond]; [done..|]. cbn [Z.eqb Pos.eqb]. rewrite base_word_cond by done.
  destruct Hk as [Ho Hi]. destruct (b_form_fields _ _ 0 Ho Hi ltac:(done)) as (_ & _ & E).
  by rewrite Z.mul_0_l, Z.add_0_r in E.
Qed.

(** C11: the emitter resolves every label.  For any compile unit of words, branches and
    label bindings whose labels are in scope, bound at most once and within the reach of
    their branches, and for which the buffer has room, emission succeeds in every build and
    each branch to a bound label decodes, in the final code, to a branch to the offset the
    label was bound at, with its opcode, condition and link bit intact; every branch to a
    label that was never bound is still its placeholder. *)
Theorem labels_resolved c D ops s :
  unit_start D s -> Forall (op_ok D) ops -> NoDup (bound_labels ops) ->
  Offset s + ops_size ops <= BufferSize s ->
  (forall o k l t, (o, k, l) ∈ branches (Offset s) ops ->
     binds (Offset s) ops !! l = Some t -> reaches k (t - o)) ->
  exists s', run ops c s = Ok s' /\ Offset s' = Offset s + ops_size ops /\
    forall o k l, (o, k, l) ∈ branches (Offset s) ops ->
      exists w, buf_read (Buffer s') o 4 = Some w /\ branch_rest w = base_word k /\
        match binds (Offset s) ops !! l with
        | Some t => branch_target w o = Some t
        | None => w = base_word k
        end.
Proof.
  intros Hs Hok Hnd Hr Hreach.
  destruct (run_ok c (Offset s) D ops [] ∅ s (inv_start D s Hs)) as (s' & Hrun & HI & HO);
    try done; rewrite ?map_union_empty; [done|].
  rewrite map_union_empty in HI. exists s'. split_and!; [done..|]. intros o k l Hin.
  destruct (i_branches _ _ _ _ _ HI o k l Hin) as [(Hk & ? & ? & Ha) HB].
  eexists. split; [exact HB|]. destruct (binds (Offset s) ops !! l) as [t|] eqn:Ht.
  - assert (D l) as Hl by (by eapply branches_scoped).
    destruct (i_labels _ _ _ _ _ HI l Hl) as (lab & _ & HL). rewrite Ht in HL.
    destruct HL as (_ & _ & _ & Hat).
    destruct (branch_word_decodes k (t - o) o Hk) as (Hu & Htg & Hrest).
    + by eapply aligned_diff.
    + by eapply Hreach.
    + rewrite u_small by done. split; [done|]. rewrite Htg. f_equal. lia.
  - rewrite u_small by (by apply base_word_u). split; [|done]. by apply base_word_rest.
Qed.

(** A forward conditional branch, a word, the label and a branch back to it. *)
Definition unit_example : list op :=
  [OBranch (KBC CC_EQ) 1; OWord 0x60000000; OBind 1; OBranch KB 1].
Definition unit_example_start : Emitter :=
  mkEmitter (replicate 16 0) 16 0 false [] {[ 1%N := fresh_label ]}.

Lemma labels_resolved_witness :
  unit_start (eq 1%N) unit_example_start /\
  exists s', run unit_example (mkConfig true false false) unit_example_start = Ok s' /\
    exists w, buf_read (Buffer s') 0 4 = Some w /\ branch_target w 0 = Some 8.
Proof.
  assert (unit_start (eq 1%N) unit_example_start) as Hs.
  { split; [by split; vm_compute|]. split; [done|]. by intros l <-. }
  split; [exact Hs|].
  destruct (labels_resolved (mkConfig true false false) (eq 1%N) unit_example unit_example_start Hs)
    as (s' & Hrun & _ & H).
  - repeat (apply Forall_cons; split; [by vm_compute|]). by apply Forall_nil.
  - apply NoDup_singleton.
  - by vm_compute.
  - intros o k l t Hin Ht. cbn in Hin.
    apply elem_of_cons in Hin as [Hin|Hin]; [|apply list_elem_of_singleton in Hin];
      simplify_eq; vm_compute in Ht; simplify_eq; by vm_compute.
  - exists s'. split; [exact Hrun|].
    destruct (H 0 (KBC CC_EQ) 1%N ltac:(cbn; left)) as (w & Hw & _ & Ht). by exists w.
Defined.

Lemma branch_word_wraps d pc :
  d mod 4 = 0 -> branch_target (branch_word KB d) pc = Some (pc + swrap 26 d).
Proof.
  intros Ha. pose proof (disp_wrap 24 d ltac:(lia) Ha) as Hd. unfold branch_target, branch_word.
  change (Z.ones 24) with 0x00FFFFFF in Hd. change (24 + 2) with 26 in Hd.
  rewrite i_form by (done || apply disp24).
  destruct (i_form_fields _ 0 (disp24 d) ltac:(done)) as (E1 & E2 & _). by rewrite E1, E2, Hd.
Qed.

(** the range guard of [b] holds only where it is compiled in.  For an aligned offset
    out of range, a build with assertions traps; any other build emits a branch that goes
    somewhere else than the offset asked for. *)
Theorem b_out_of_range c s offset :
  wf s -> Offset s + 4 <= BufferSize s -> is_s 32 offset -> offset mod 4 = 0 ->
  ~ reaches KB offset ->
  if ASSERTIONS_ENABLED c then b offset c s = Trap
  else exists s' w t, b offset c s = Ok s' /\ buf_read (Buffer s') (Offset s) 4 = Some w /\
         branch_target w (Offset s) = Some t /\ t <> Offset s + offset.
Proof.
  intros W Hr Hs Ha Hn. unfold b. rewrite logman_true by (by apply aligned_guard).
  assert (((- 2 ^ 25 <=? offset) && (offset <? 2 ^ 25)) = false) as G.
  { apply andb_false_iff. destruct (Z.leb_spec (- 2 ^ 25) offset); [right|by left].
    apply Z.ltb_ge. destruct (decide (offset < 2 ^ 25)); [|lia]. exfalso. apply Hn.
    unfold reaches. lia. }
  rewrite logman_fails by done. destruct (ASSERTIONS_ENABLED c); [done|]. cbv zeta. fold (branch_word KB offset).
  assert (is_u 32 (branch_word KB offset)) as Hu.
  { unfold branch_word. rewrite i_form by (done || apply disp24).
    destruct (disp24 offset). unfold is_u. lia. }
  rewrite Emit32_ok by done. do 3 eexists. split; [done|].
  split; [by rewrite emitted_read_word, u_small|]. split; [by apply branch_word_wraps|].
  pose proof (s_range 26 offset ltac:(lia)) as [? ?]. unfold reaches in Hn.
  change (26 - 1) with 25 in *. lia.
Qed.

Lemma b_out_of_range_witness :
  wf unit_example_start /\
  exists s' w t, b (2 ^ 25) (mkConfig true false false) unit_example_start = Ok s' /\
    buf_read (Buffer s') 0 4 = Some w /\ branch_target w 0 = Some t /\ t <> 0 + 2 ^ 25.
Proof.
  assert (wf unit_example_start) as W by (by split; vm_compute). split; [exact W|].
  exact (b_out_of_range (mkConfig true false false) unit_example_start (2 ^ 25) W
    ltac:(by vm_compute) ltac:(by vm_compute) ltac:(by vm_compute) ltac:(unfold reaches; lia)).
Defined.
