(* ===== verification/IntervalList.v ===== *)
(** * Interval lists (FEXCore/include/FEXCore/Utils/IntervalList.h)

    A vector of half-open intervals sorted by offset, kept pairwise disjoint.  An iterator
    is an index; dereferencing one outside the vector has no defined result and makes the
    operation [None].  [std::equal_range], [std::upper_bound] on a range partitioned by
    their predicate return the partition point, the length of the prefix that satisfies it. *)

From Stdlib Require Import Sorted.
From S2P Require Import Prelude.

Record Interval := mkInterval { iv_Offset : Z; iv_End : Z }.

#[global] Instance Interval_eq_dec : EqDecision Interval.
Proof. solve_decision. Defined.

Module IntervalList.

Record QueryResult := mkQuery { Enclosed : bool; Size : Z; QInterval : Interval }.

(** The partition point of a vector: the first element where [p] fails. *)
Fixpoint partition_point (p : Interval -> bool) (l : list Interval) : nat :=
  match l with
  | [] => 0
  | x :: l => if p x then S (partition_point p l) else 0
  end.

(** [std::equal_range] with [LHS.End <= RHS.Offset]. *)
Definition equal_range (l : list Interval) (Entry : Interval) : nat * nat :=
  (partition_point (fun x => iv_End x <=? iv_Offset Entry) l,
   partition_point (fun x => negb (iv_End Entry <=? iv_Offset x)) l).

(** [std::upper_bound] with [value < RHS.End]. *)
Definition upper_bound (l : list Interval) (v : Z) : nat :=
  partition_point (fun x => negb (v <? iv_End x)) l.

Definition Clear (_ : list Interval) : list Interval := [].
Definition Empty (l : list Interval) : bool := bool_decide (l = []).

(** [vector::insert] before an index and [vector::erase] of a range. *)
Definition vec_insert (l : list Interval) (i : nat) (x : Interval) : list Interval :=
  take i l ++ x :: drop i l.
Definition vec_erase (l : list Interval) (i j : nat) : list Interval := take i l ++ drop j l.

Definition Insert (l : list Interval) (Entry : Interval) : option (list Interval) :=
  if iv_Offset Entry =? iv_End Entry then Some l
  else
    let '(FirstIt, EndIt) := equal_range l Entry in
    if (FirstIt =? EndIt)%nat then Some (vec_insert l FirstIt Entry)
    else
      let LastIt := (EndIt - 1)%nat in
      first ← l !! FirstIt;
      last ← l !! LastIt;
      let Offset := Z.min (iv_Offset Entry) (iv_Offset first) in
      let End := Z.max (iv_End last) (iv_End Entry) in
      let l := vec_erase l (S FirstIt) (S LastIt) in
      Some (<[FirstIt := mkInterval Offset End]> l).

(** [Insert(const IntervalList&)] *)
Fixpoint InsertList (l Other : list Interval) : option (list Interval) :=
  match Other with
  | [] => Some l
  | x :: Other => l ← Insert l x; InsertList l Other
  end.

Definition Remove (l : list Interval) (Entry : Interval) : option (list Interval) :=
  if iv_Offset Entry =? iv_End Entry then Some l
  else
    let '(FirstIt, EndIt) := equal_range l Entry in
    if (FirstIt =? EndIt)%nat then Some l
    else
      first ← l !! FirstIt;
      if (iv_Offset first <? iv_Offset Entry) && (iv_End Entry <? iv_End first) then
        let l := vec_insert l FirstIt first in
        let l := <[FirstIt := mkInterval (iv_Offset first) (iv_Offset Entry)]> l in
        Some (<[S FirstIt := mkInterval (iv_End Entry) (iv_End first)]> l)
      else
        let LastIt := (EndIt - 1)%nat in
        let straddles_start := iv_Offset first <? iv_Offset Entry in
        let l := if straddles_start
                 then <[FirstIt := mkInterval (iv_Offset first) (iv_Offset Entry)]> l else l in
        if straddles_start && (FirstIt =? LastIt)%nat then Some l
        else
          let FirstIt := if straddles_start then S FirstIt else FirstIt in
          last ← l !! LastIt;
          let straddles_end := iv_End Entry <? iv_End last in
          let l := if straddles_end
                   then <[LastIt := mkInterval (iv_End Entry) (iv_End last)]> l else l in
          if straddles_end && (LastIt =? FirstIt)%nat then Some l
          else
            let LastIt := if straddles_end then (LastIt - 1)%nat else LastIt in
            Some (vec_erase l FirstIt (S LastIt)).

Definition Query (l : list Interval) (Offset : Z) : QueryResult :=
  match l !! upper_bound l Offset with
  | None => mkQuery false 0 (mkInterval 0 0)
  | Some it =>
      if Offset <? iv_Offset it then mkQuery false (iv_Offset it - Offset) it
      else mkQuery true (iv_End it - Offset) it
  end.

Definition Intersect (l : list Interval) (Entry : Interval) : bool :=
  match l !! upper_bound l (iv_Offset Entry) with
  | None => false
  | Some it => iv_Offset it <? iv_End Entry
  end.

Definition Contains (l : list Interval) (Entry : Interval) : bool :=
  match l !! upper_bound l (iv_Offset Entry) with
  | None => false
  | Some it => (iv_Offset it <=? iv_Offset Entry) && (iv_End Entry <=? iv_End it)
  end.

(** ** Meaning and invariant *)

Definition in_interval (x : Z) (i : Interval) : Prop := iv_Offset i <= x < iv_End i.
Definition covers (l : list Interval) (x : Z) : Prop := exists i, i ∈ l /\ in_interval x i.

Definition before (a b : Interval) : Prop := iv_End a <= iv_Offset b.
Definition proper (i : Interval) : Prop := iv_Offset i < iv_End i.

(** Non-empty intervals, sorted and disjoint; neighbours may touch. *)
Definition ivs_ok (l : list Interval) : Prop := Forall proper l /\ StronglySorted before l.

Lemma ivs_ok_cons x l : ivs_ok (x :: l) <-> proper x /\ Forall (before x) l /\ ivs_ok l.
Proof.
  unfold ivs_ok. rewrite Forall_cons. split.
  - intros [[? ?] Hs]. apply StronglySorted_inv in Hs as [? ?]. done.
  - intros (? & ? & ? & ?). split; [done|]. by constructor.
Qed.

Lemma ivs_ok_app l1 l2 :
  ivs_ok (l1 ++ l2) <->
  ivs_ok l1 /\ ivs_ok l2 /\ forall a b, a ∈ l1 -> b ∈ l2 -> before a b.
Proof.
  induction l1 as [|x l1 IH]; simpl.
  { split; [|tauto]. intros. split; [by repeat constructor|]. split; [done|].
    by intros ?? ?%elem_of_nil. }
  rewrite !ivs_ok_cons, IH, Forall_app, !Forall_forall. setoid_rewrite elem_of_cons.
  naive_solver.
Qed.

Lemma covers_app l1 l2 x : covers (l1 ++ l2) x <-> covers l1 x \/ covers l2 x.
Proof. unfold covers. setoid_rewrite elem_of_app. naive_solver. Qed.

Lemma covers_cons i l x : covers (i :: l) x <-> in_interval x i \/ covers l x.
Proof. unfold covers. setoid_rewrite elem_of_cons. naive_solver. Qed.

Lemma covers_nil x : ~ covers [] x.
Proof. intros (i & Hi & _). by apply elem_of_nil in Hi. Qed.

Lemma partition_point_app p l1 l2 :
  Forall (fun x => p x = true) l1 -> (forall x l, l2 = x :: l -> p x = false) ->
  partition_point p (l1 ++ l2) = length l1.
Proof.
  induction 1 as [|x l1 Hx Hl IH]; intros H2; simpl.
  - destruct l2 as [|y l2]; [done|]. simpl. by rewrite (H2 y l2 eq_refl).
  - rewrite Hx. by rewrite IH.
Qed.

(** The elements before, overlapping and after an entry. *)
Definition split_at (e : Interval) (l1 l2 l3 : list Interval) : Prop :=
  Forall (fun x => before x e) l1 /\
  Forall (fun x => iv_Offset e < iv_End x /\ iv_Offset x < iv_End e) l2 /\
  Forall (fun x => before e x) l3.

Lemma ivs_split l e :
  ivs_ok l -> proper e -> exists l1 l2 l3, l = l1 ++ l2 ++ l3 /\ split_at e l1 l2 l3.
Proof.
  unfold split_at, before, proper. intros Hok He.
  induction l as [|x l IH]; [by exists [], [], []|].
  apply ivs_ok_cons in Hok as (Hx & Hb & Hok). unfold before, proper in *.
  destruct (IH Hok) as (l1 & l2 & l3 & -> & H1 & H2 & H3). rewrite Forall_forall in Hb.
  destruct (decide (iv_End x <= iv_Offset e)).
  { exists (x :: l1), l2, l3. split; [done|]. rewrite Forall_cons. done. }
  assert (l1 = []) as ->.
  { destruct l1 as [|y l1]; [done|]. apply Forall_cons in H1 as [H1 _].
    specialize (Hb y ltac:(by left)). apply ivs_ok_cons in Hok as [Hy _]. unfold proper in Hy. lia. }
  destruct (decide (iv_Offset x < iv_End e)).
  { exists [], (x :: l2), l3. split; [done|]. rewrite Forall_cons. split_and!; done || lia. }
  assert (l2 = []) as ->.
  { destruct l2 as [|y l2]; [done|]. apply Forall_cons in H2 as [H2 _].
    specialize (Hb y ltac:(by left)). lia. }
  exists [], [], (x :: l3). split; [done|]. rewrite Forall_cons. split_and!; done || lia.
Qed.

Lemma equal_range_split l1 l2 l3 e :
  split_at e l1 l2 l3 -> proper e -> ivs_ok (l1 ++ l2 ++ l3) ->
  equal_range (l1 ++ l2 ++ l3) e = (length l1, length l1 + length l2)%nat.
Proof.
  unfold split_at, before, proper. intros (H1 & H2 & H3) He Hok. unfold equal_range. f_equal.
  - apply partition_point_app.
    + eapply Forall_impl; [exact H1|]. intros x Hx. by apply Z.leb_le.
    + intros x l E. apply Z.leb_gt. destruct l2 as [|y l2]; simplify_eq/=.
      * apply Forall_cons in H3 as [? _].
        apply ivs_ok_app in Hok as (_ & [[? _]%Forall_cons _] & _). unfold proper in *. lia.
      * apply Forall_cons in H2 as [? _]. lia.
  - rewrite app_assoc, <- length_app. apply partition_point_app.
    + apply ivs_ok_app in Hok as ([Hp _] & _ & _). rewrite Forall_app, !Forall_forall in *.
      split; intros x Hx; apply negb_true_iff, Z.leb_gt.
      * specialize (H1 x Hx). specialize (Hp x Hx). unfold proper in Hp. lia.
      * apply H2 in Hx. lia.
    + intros x l ->. apply Forall_cons in H3 as [? _]. apply negb_false_iff. by apply Z.leb_le.
Qed.

(** ** Insertion *)

(** What [Insert] returns, by the overlapping elements. *)
Lemma Insert_split l1 l2 l3 e :
  split_at e l1 l2 l3 -> proper e -> ivs_ok (l1 ++ l2 ++ l3) ->
  Insert (l1 ++ l2 ++ l3) e =
    Some (l1 ++ match l2 with
                | [] => e
                | a :: _ => mkInterval (Z.min (iv_Offset e) (iv_Offset a))
                              (Z.max (iv_End (List.last l2 a)) (iv_End e))
                end :: l3).
Proof.
  intros Hs He Hok. unfold Insert. rewrite (proj2 (Z.eqb_neq _ _)) by (unfold proper in He; lia).
  rewrite equal_range_split by done. destruct l2 as [|a l2].
  { simpl. rewrite Nat.add_0_r, Nat.eqb_refl. unfold vec_insert.
    by rewrite take_app_length, drop_app_length. }
  rewrite (proj2 (Nat.eqb_neq _ _)) by (simpl; lia).
  assert ((l1 ++ (a :: l2) ++ l3) !! length l1 = Some a) as -> by (by apply list_lookup_middle).
  cbn [mbind option_bind].
  destruct (exists_last (l := a :: l2)) as (m & z & E); [done|].
  rewrite E. rewrite List.last_last. rewrite length_app. cbn [length].
  replace (length l1 + (length m + 1) - 1)%nat with (length l1 + length m)%nat by lia.
  assert ((l1 ++ (m ++ [z]) ++ l3) !! (length l1 + length m)%nat = Some z) as ->.
  { rewrite <- app_assoc, app_assoc, <- length_app. by apply list_lookup_middle. }
  cbn [mbind option_bind]. f_equal. unfold vec_erase.
  replace (drop (S (length l1 + length m)) (l1 ++ (m ++ [z]) ++ l3)) with l3.
  2: { rewrite app_assoc. rewrite drop_app_length'; [done|]. rewrite !length_app. simpl. lia. }
  assert (take (S (length l1)) (l1 ++ (m ++ [z]) ++ l3) = l1 ++ [a]) as ->.
  { rewrite <- E. simpl. rewrite (cons_middle a), app_assoc, take_app_length'; [done|].
    rewrite length_app. simpl. lia. }
  rewrite <- app_assoc. rewrite insert_app_r_alt by lia. rewrite Nat.sub_diag. done.
Qed.

Lemma last_indep b (l : list Interval) d : List.last (b :: l) d = List.last (b :: l) b.
Proof.
  revert b d; induction l as [|c l IH]; intros b d; [done|].
  change (List.last (c :: l) d = List.last (c :: l) b). by rewrite (IH c d), (IH c b).
Qed.

(** The first element starts and the last one ends a sorted list. *)
Lemma ivs_hull a l i :
  ivs_ok (a :: l) -> i ∈ a :: l ->
  iv_Offset a <= iv_Offset i /\ iv_End i <= iv_End (List.last (a :: l) a) /\
  List.last (a :: l) a ∈ a :: l.
Proof.
  revert a i; induction l as [|b l IH]; intros a i Hok Hi.
  { apply list_elem_of_singleton in Hi as ->. simpl. split_and!; [lia|lia|left]. }
  change (List.last (a :: b :: l) a) with (List.last (b :: l) a).
  rewrite (last_indep b l a).
  apply ivs_ok_cons in Hok as (Ha & Hb & Hok). pose proof (IH b b Hok ltac:(left)) as (_ & Hbe & Hin).
  assert (iv_Offset a <= iv_Offset b) as Hab
    by (apply Forall_cons in Hb as [Hb _]; unfold before, proper in *; lia).
  apply elem_of_cons in Hi as [-> |Hi].
  - apply ivs_ok_cons in Hok as [Hp _]. apply Forall_cons in Hb as [Hb _].
    unfold before, proper in *. split_and!; [lia|lia|by right].
  - destruct (IH b i Hok Hi) as (? & ? & ?). split_and!; [lia|lia|by right].
Qed.

Lemma Insert_ok l1 l2 l3 e n :
  split_at e l1 l2 l3 -> proper e -> ivs_ok (l1 ++ l2 ++ l3) ->
  n = match l2 with
      | [] => e
      | a :: _ => mkInterval (Z.min (iv_Offset e) (iv_Offset a))
                    (Z.max (iv_End (List.last l2 a)) (iv_End e))
      end ->
  ivs_ok (l1 ++ n :: l3).
Proof.
  intros (H1 & H2 & H3) He Hok ->. rewrite !Forall_forall in *. unfold before in H1, H3.
  apply ivs_ok_app in Hok as (Hok1 & Hok23 & H123). apply ivs_ok_app in Hok23 as (Hok2 & Hok3 & H23).
  apply ivs_ok_app. rewrite ivs_ok_cons, Forall_forall.
  destruct l2 as [|a l2].
  { split_and!; try done. intros x y Hx [-> |Hy]%elem_of_cons; [by apply H1|].
    by apply H123. }
  destruct (ivs_hull a l2 a Hok2 ltac:(left)) as (_ & Hz & Hzin). set (z := List.last _ _) in *.
  unfold before, proper in *. cbn [iv_Offset iv_End] in *. split_and!; try done.
  - apply ivs_ok_cons in Hok2 as [? _]. unfold proper in *. lia.
  - intros y Hy. specialize (H3 y Hy). specialize (H23 z y Hzin Hy). lia.
  - intros x y Hx [-> |Hy]%elem_of_cons.
    + simpl. specialize (H1 x Hx). specialize (H123 x a Hx ltac:(left)). lia.
    + apply H123; [done|]. apply elem_of_app. by right.
Qed.

Lemma Insert_covers l2 e x :
  Forall (fun x => iv_Offset e < iv_End x /\ iv_Offset x < iv_End e) l2 -> proper e -> ivs_ok l2 ->
  in_interval x (match l2 with
    | [] => e
    | a :: _ => mkInterval (Z.min (iv_Offset e) (iv_Offset a))
                  (Z.max (iv_End (List.last l2 a)) (iv_End e))
    end) <-> covers l2 x \/ in_interval x e.
Proof.
  intros H2 He Hok. destruct l2 as [|a l2].
  { split; [by right|]. intros [H|?]; [by apply covers_nil in H|done]. }
  destruct (ivs_hull a l2 a Hok ltac:(left)) as (_ & Hz & Hzin). set (z := List.last _ _) in *.
  pose proof (proj1 (Forall_forall _ _) H2 a ltac:(left)) as Ha.
  pose proof (proj1 (Forall_forall _ _) H2 z Hzin) as Hze.
  unfold in_interval, proper in *; cbn [iv_Offset iv_End]. split.
  - intros Hx. destruct (decide (iv_Offset e <= x < iv_End e)); [by right|left].
    destruct (decide (x < iv_Offset e)).
    + exists a. split; [left|]. unfold in_interval. lia.
    + exists z. split; [done|]. unfold in_interval. lia.
  - intros [(i & Hi & Hx)|Hx]; [|lia]. destruct (ivs_hull a l2 i Hok Hi) as (? & ? & _).
    unfold in_interval in Hx. fold z in H0. lia.
Qed.

(** [Insert] keeps the list sorted and disjoint and adds exactly the points of the
    entry; it never dereferences an iterator past the end. *)
Theorem Insert_correct l e :
  ivs_ok l -> iv_Offset e <= iv_End e ->
  exists l', Insert l e = Some l' /\ ivs_ok l' /\
    forall x, covers l' x <-> covers l x \/ in_interval x e.
Proof.
  intros Hok He. destruct (decide (iv_Offset e = iv_End e)) as [E|].
  { exists l. unfold Insert. rewrite (proj2 (Z.eqb_eq _ _) E). split_and!; [done..|].
    intros x. split; [by left|]. intros [?|[? ?]]; [done|lia]. }
  assert (proper e) as Hp by (unfold proper; lia).
  destruct (ivs_split l e Hok Hp) as (l1 & l2 & l3 & -> & Hs).
  eexists. split; [by apply Insert_split|]. split; [by eapply Insert_ok|].
  pose proof Hs as (_ & H2 & _). apply ivs_ok_app in Hok as (_ & Hok & _).
  apply ivs_ok_app in Hok as (Hok & _). intros x.
  rewrite !covers_app, covers_cons, Insert_covers by done. tauto.
Qed.

Lemma Insert_correct_witness :
  let l := [mkInterval 0 4; mkInterval 6 8; mkInterval 10 12] in
  ivs_ok l /\ Insert l (mkInterval 3 7) = Some [mkInterval 0 8; mkInterval 10 12] /\
  forall x, covers [mkInterval 0 8; mkInterval 10 12] x <->
            covers l x \/ in_interval x (mkInterval 3 7).
Proof.
  intros l. assert (ivs_ok l) as Hok by (split; repeat constructor; by vm_compute).
  split; [exact Hok|]. split; [reflexivity|].
  destruct (Insert_correct l (mkInterval 3 7) Hok ltac:(by vm_compute)) as (l' & E & _ & H).
  vm_compute in E. injection E as <-. exact H.
Defined.

(** ** Removal *)

Lemma insert_mid (l1 r : list Interval) (a x : Interval) n : n = length l1 -> <[n := x]> (l1 ++ a :: r) = l1 ++ x :: r.
Proof. intros ->. by rewrite <- (Nat.add_0_r (length l1)), insert_app_r. Qed.

Lemma erase_mid l1 m r i j :
  i = length l1 -> j = (length l1 + length m)%nat -> vec_erase (l1 ++ m ++ r) i j = l1 ++ r.
Proof.
  intros -> ->. unfold vec_erase. rewrite take_app_length, app_assoc, <- length_app.
  by rewrite drop_app_length.
Qed.

(** The pieces of the overlapping elements left of and right of the entry. *)
Definition left_piece (e a : Interval) : list Interval :=
  if iv_Offset a <? iv_Offset e then [mkInterval (iv_Offset a) (iv_Offset e)] else [].
Definition right_piece (e z : Interval) : list Interval :=
  if iv_End e <? iv_End z then [mkInterval (iv_End e) (iv_End z)] else [].

Lemma Remove_one l1 a l3 e :
  split_at e l1 [a] l3 -> proper e -> ivs_ok (l1 ++ [a] ++ l3) ->
  Remove (l1 ++ [a] ++ l3) e = Some (l1 ++ left_piece e a ++ right_piece e a ++ l3).
Proof.
  intros Hs He Hok. unfold Remove. rewrite (proj2 (Z.eqb_neq _ _)) by (unfold proper in He; lia).
  rewrite equal_range_split by done. cbn [length app].
  rewrite (proj2 (Nat.eqb_neq _ _)) by lia.
  rewrite list_lookup_middle by done. cbn [mbind option_bind]. unfold left_piece, right_piece.
  cbv zeta. replace (length l1 + 1 - 1)%nat with (length l1) by lia. rewrite !Nat.eqb_refl.
  destruct (iv_Offset a <? iv_Offset e), (iv_End e <? iv_End a) eqn:Ee; cbn [andb app].
  - unfold vec_insert. rewrite take_app_length, drop_app_length, insert_mid by done.
    f_equal. rewrite (cons_middle (mkInterval _ _) l1), app_assoc.
    rewrite insert_mid by (rewrite length_app; simpl; lia). by rewrite <- app_assoc.
  - f_equal. by apply insert_mid.
  - rewrite list_lookup_middle by done. cbn [mbind option_bind]. rewrite Ee, ?Nat.eqb_refl. cbn [andb].
    f_equal. by apply insert_mid.
  - rewrite list_lookup_middle by done. cbn [mbind option_bind]. rewrite Ee, ?Nat.eqb_refl. cbn [andb].
    f_equal. apply (erase_mid l1 [a] l3); simpl; lia.
Qed.

Lemma Remove_many l1 a m z l3 e :
  split_at e l1 (a :: m ++ [z]) l3 -> proper e -> ivs_ok (l1 ++ (a :: m ++ [z]) ++ l3) ->
  Remove (l1 ++ (a :: m ++ [z]) ++ l3) e = Some (l1 ++ left_piece e a ++ right_piece e z ++ l3).
Proof.
  intros Hs He Hok. unfold Remove. rewrite (proj2 (Z.eqb_neq _ _)) by (unfold proper in He; lia).
  rewrite equal_range_split by done. rewrite (proj2 (Nat.eqb_neq _ _)) by (simpl; lia).
  cbn [app]. rewrite list_lookup_middle by done. cbn [mbind option_bind]. cbv zeta.
  assert ((iv_End e <? iv_End a) = false) as ->.
  { apply Z.ltb_ge. apply ivs_ok_app in Hok as (_ & Hok & _). apply ivs_ok_app in Hok as (Hok & _).
    apply ivs_ok_cons in Hok as (_ & Hb & _). apply Forall_app in Hb as [_ [Hb _]%Forall_cons].
    destruct Hs as (_ & H2 & _). apply Forall_cons in H2 as [_ H2].
    apply Forall_app in H2 as [_ [Hz _]%Forall_cons]. unfold before in Hb. lia. }
  rewrite andb_false_r. cbn [length]. rewrite length_app. cbn [length].
  replace (length l1 + S (length m + 1) - 1)%nat with (length l1 + S (length m))%nat by lia.
  rewrite (proj2 (Nat.eqb_neq (length l1) _)), andb_false_r by lia. unfold left_piece, right_piece.
  rewrite <- app_assoc. cbn [app]. set (a' := mkInterval (iv_Offset a) (iv_Offset e)).
  set (z' := mkInterval (iv_End e) (iv_End z)).
  assert (forall b, (l1 ++ b :: m ++ z :: l3) !! (length l1 + S (length m))%nat = Some z) as Hz.
  { intros b. rewrite (cons_middle b l1), (app_assoc l1), app_assoc. apply list_lookup_middle.
    rewrite !length_app. simpl. lia. }
  assert (forall b, <[(length l1 + S (length m))%nat := z']> (l1 ++ b :: m ++ z :: l3)
    = l1 ++ b :: m ++ z' :: l3) as Hz'.
  { intros b. rewrite (cons_middle b l1), (app_assoc l1), (app_assoc (l1 ++ [b])).
    rewrite insert_mid by (rewrite !length_app; simpl; lia). by rewrite <- !app_assoc. }
  assert (forall b w, l1 ++ b :: m ++ w :: l3 = (l1 ++ [b]) ++ m ++ w :: l3) as Hsplit
    by (intros; by rewrite <- app_assoc).
  assert (forall b, l1 ++ b :: m ++ z :: l3 = (l1 ++ [b]) ++ (m ++ [z]) ++ l3) as Hsplit2
    by (intros; by rewrite <- !app_assoc).
  destruct (iv_Offset a <? iv_Offset e).
  - rewrite insert_mid, Hz by done. cbn [mbind option_bind].
    destruct (iv_End e <? iv_End z); cbn [andb].
    + rewrite Hz'. case_match; to_prop; f_equal.
      * apply Nat.eqb_eq in H. assert (m = []) as -> by (apply nil_length_inv; lia). done.
      * rewrite Hsplit, (erase_mid (l1 ++ [a']) m) by (rewrite ?length_app; simpl; lia).
        by rewrite <- app_assoc.
    + f_equal. rewrite Hsplit2, (erase_mid (l1 ++ [a']) (m ++ [z]))
        by (rewrite ?length_app; simpl; rewrite ?length_app; simpl; lia).
      by rewrite <- app_assoc.
  - rewrite Hz. cbn [mbind option_bind]. destruct (iv_End e <? iv_End z); cbn [andb].
    + rewrite Hz'. rewrite (proj2 (Nat.eqb_neq _ _)) by lia. f_equal.
      apply (erase_mid l1 (a :: m)); simpl; lia.
    + f_equal. replace (l1 ++ a :: m ++ z :: l3) with (l1 ++ (a :: m ++ [z]) ++ l3)
        by (simpl; by rewrite <- app_assoc).
      apply erase_mid; simpl; rewrite ?length_app; simpl; lia.
Qed.

Lemma Remove_split l1 a l l3 e :
  split_at e l1 (a :: l) l3 -> proper e -> ivs_ok (l1 ++ (a :: l) ++ l3) ->
  Remove (l1 ++ (a :: l) ++ l3) e =
    Some (l1 ++ left_piece e a ++ right_piece e (List.last (a :: l) a) ++ l3).
Proof.
  destruct (decide (l = [])) as [->|Hne]; [apply Remove_one|].
  destruct (exists_last Hne) as (m & z & ->). intros.
  replace (List.last (a :: m ++ [z]) a) with z; [by apply Remove_many|].
  symmetry. apply (List.last_last (a :: m)).
Qed.

Lemma pieces_covers a l e x :
  ivs_ok (a :: l) -> proper e ->
  Forall (fun x => iv_Offset e < iv_End x /\ iv_Offset x < iv_End e) (a :: l) ->
  covers (left_piece e a ++ right_piece e (List.last (a :: l) a)) x <->
  covers (a :: l) x /\ ~ in_interval x e.
Proof.
  intros Hok He H2. destruct (ivs_hull a l a Hok ltac:(left)) as (_ & _ & Hzin).
  assert (forall i, i ∈ a :: l -> iv_Offset a <= iv_Offset i /\ iv_End i <= iv_End (List.last (a :: l) a))
    as Hh by (intros i Hi; destruct (ivs_hull a l i Hok Hi) as (? & ? & _); done).
  set (z := List.last _ _) in *. rewrite Forall_forall in H2.
  pose proof (H2 a ltac:(left)) as Ha. pose proof (H2 z Hzin) as Hz.
  rewrite covers_app. unfold left_piece, right_piece, proper in *. split.
  - intros [(i & Hi & Hx)|(i & Hi & Hx)]; case_match; to_prop;
      try (by apply elem_of_nil in Hi); apply list_elem_of_singleton in Hi as ->;
      unfold in_interval in *; simpl in Hx; (split; [|lia]).
    + exists a. split; [left|]. unfold in_interval; lia.
    + exists z. split; [done|]. unfold in_interval; lia.
  - intros [(i & Hi & Hx) Hn]. destruct (Hh i Hi). unfold in_interval in *.
    destruct (decide (x < iv_Offset e)).
    + left. rewrite (proj2 (Z.ltb_lt _ _)) by lia. eexists. split; [left|]. unfold in_interval; simpl; lia.
    + right. rewrite (proj2 (Z.ltb_lt _ _)) by lia. eexists. split; [left|]. unfold in_interval; simpl; lia.
Qed.

Lemma Remove_ok l1 a l l3 e :
  split_at e l1 (a :: l) l3 -> proper e -> ivs_ok (l1 ++ (a :: l) ++ l3) ->
  ivs_ok (l1 ++ left_piece e a ++ right_piece e (List.last (a :: l) a) ++ l3).
Proof.
  intros (H1 & H2 & H3) He Hok. rewrite !Forall_forall in *.
  apply ivs_ok_app in Hok as (Hok1 & Hok23 & H123). apply ivs_ok_app in Hok23 as (Hok2 & Hok3 & H23).
  destruct (ivs_hull a l a Hok2 ltac:(left)) as (_ & Hae & Hzin). set (z := List.last _ _) in *.
  pose proof (H2 a ltac:(left)). pose proof (H2 z Hzin). unfold proper, before in *.
  assert (forall i, i ∈ left_piece e a -> iv_Offset i = iv_Offset a /\ iv_End i = iv_Offset e /\
    iv_Offset a < iv_Offset e) as HL.
  { unfold left_piece. intros i Hi. case_match; to_prop; [|by apply elem_of_nil in Hi].
    by apply list_elem_of_singleton in Hi as ->. }
  assert (forall i, i ∈ right_piece e z -> iv_Offset i = iv_End e /\ iv_End i = iv_End z /\
    iv_End e < iv_End z) as HR.
  { unfold right_piece. intros i Hi. case_match; to_prop; [|by apply elem_of_nil in Hi].
    by apply list_elem_of_singleton in Hi as ->. }
  assert (ivs_ok (left_piece e a)) by (unfold left_piece; case_match; to_prop;
    split; repeat constructor; done).
  assert (ivs_ok (right_piece e z)) by (unfold right_piece; case_match; to_prop;
    split; repeat constructor; done).
  rewrite !ivs_ok_app. unfold before. split; [done|]. split; [split; [done|split; [split; [done|
    split; [done|]]|]]|].
  - intros i j Hi Hj. apply HR in Hi. specialize (H23 z j Hzin Hj). lia.
  - intros i j Hi [Hj|Hj]%elem_of_app; apply HL in Hi; [apply HR in Hj; lia|]. specialize (H3 j Hj). lia.
  - intros i j Hi [Hj|[Hj|Hj]%elem_of_app]%elem_of_app.
    + apply HL in Hj. specialize (H123 i a Hi ltac:(apply elem_of_app; left; left)). lia.
    + apply HR in Hj. specialize (H1 i Hi). lia.
    + apply H123; [done|]. apply elem_of_app. by right.
Qed.

(** C34: [Remove] keeps the list sorted and disjoint and takes away exactly the points of
    the entry, splitting intervals where it has to. *)
Theorem Remove_correct l e :
  ivs_ok l -> iv_Offset e <= iv_End e ->
  exists l', Remove l e = Some l' /\ ivs_ok l' /\
    forall x, covers l' x <-> covers l x /\ ~ in_interval x e.
Proof.
  intros Hok He. destruct (decide (iv_Offset e = iv_End e)) as [E|].
  { exists l. unfold Remove. rewrite (proj2 (Z.eqb_eq _ _) E). split_and!; [done..|].
    intros x. unfold in_interval. split; [|tauto]. split; [done|lia]. }
  assert (proper e) as Hp by (unfold proper; lia).
  destruct (ivs_split l e Hok Hp) as (l1 & l2 & l3 & -> & Hs). pose proof Hs as (H1 & H2 & H3).
  assert (forall x, covers l1 x \/ covers l3 x -> ~ in_interval x e) as Hout.
  { rewrite Forall_forall in H1, H3. unfold before in *.
    intros x [(i & Hi & Hx)|(i & Hi & Hx)]; [apply H1 in Hi|apply H3 in Hi];
      unfold in_interval in *; lia. }
  destruct l2 as [|a l2].
  - exists (l1 ++ l3). split; [|split; [done|]].
    + unfold Remove. rewrite (proj2 (Z.eqb_neq _ _)) by done. rewrite equal_range_split by done.
      by rewrite Nat.add_0_r, Nat.eqb_refl.
    + intros x. simpl. rewrite covers_app. naive_solver.
  - eexists. split; [by apply Remove_split|]. split; [by apply Remove_ok|]. intros x.
    apply ivs_ok_app in Hok as (_ & Hok & _). apply ivs_ok_app in Hok as (Hok & _).
    rewrite (app_assoc (left_piece _ _)), !(covers_app l1), !(covers_app _ l3).
    rewrite pieces_covers by done. specialize (Hout x). tauto.
Qed.

Lemma Remove_correct_witness :
  let l := [mkInterval 0 4; mkInterval 6 8; mkInterval 8 12] in
  ivs_ok l /\ Remove l (mkInterval 2 10) = Some [mkInterval 0 2; mkInterval 10 12] /\
  forall x, covers [mkInterval 0 2; mkInterval 10 12] x <->
            covers l x /\ ~ in_interval x (mkInterval 2 10).
Proof.
  intros l. assert (ivs_ok l) as Hok by (split; repeat constructor; by vm_compute).
  split; [exact Hok|]. split; [reflexivity|].
  destruct (Remove_correct l (mkInterval 2 10) Hok ltac:(by vm_compute)) as (l' & E & _ & H).
  vm_compute in E. injection E as <-. exact H.
Defined.

(** ** Queries *)

(** The list around a point: what ends at or before it, and the rest. *)
Lemma upper_bound_split l v :
  ivs_ok l -> exists l1 l2, l = l1 ++ l2 /\ Forall (fun i => iv_End i <= v) l1 /\
    Forall (fun i => v < iv_End i) l2 /\ l !! upper_bound l v = head l2 /\ ivs_ok l2.
Proof.
  induction l as [|x l IH]; intros Hok; [by exists [], []|].
  pose proof Hok as (Hx & Hb & Hok')%ivs_ok_cons.
  destruct (IH Hok') as (l1 & l2 & -> & H1 & H2 & E & Hok2). unfold upper_bound in *. simpl.
  destruct (Z.ltb_spec v (iv_End x)) as [Hv|Hv]; cbn [negb].
  - exists [], (x :: l1 ++ l2). split_and!; try done. apply Forall_cons. split; [done|].
    rewrite Forall_forall in *. intros i Hi. specialize (Hb i Hi).
    destruct Hok' as [Hp _]. rewrite Forall_forall in Hp. specialize (Hp i Hi).
    unfold before, proper in *. lia.
  - exists (x :: l1), l2. split_and!; try done. by apply Forall_cons.
Qed.

Lemma head_bounds a l i : ivs_ok (a :: l) -> i ∈ a :: l -> iv_Offset a <= iv_Offset i.
Proof. intros Hok Hi. by destruct (ivs_hull a l i Hok Hi). Qed.

Lemma not_covers_ended l v x : Forall (fun i => iv_End i <= v) l -> v <= x -> ~ covers l x.
Proof. rewrite Forall_forall. intros H Hx (i & Hi & ?). apply H in Hi. unfold in_interval in *. lia. Qed.

(** [Query] is enclosed exactly at the covered offsets; then the reported size stays
    inside one interval, else it is the distance to the next covered offset, or 0 when there
    is none. *)
Theorem Query_correct l off :
  ivs_ok l ->
  let q := Query l off in
  (Enclosed q = true <-> covers l off) /\
  (Enclosed q = true -> QInterval q ∈ l /\ 0 < Size q /\ off + Size q = iv_End (QInterval q) /\
     forall x, off <= x < off + Size q -> covers l x) /\
  (Enclosed q = false ->
     Size q = 0 /\ (forall x, off <= x -> ~ covers l x) \/
     0 < Size q /\ covers l (off + Size q) /\ forall x, off <= x < off + Size q -> ~ covers l x).
Proof.
  intros Hok q. destruct (upper_bound_split l off Hok) as (l1 & l2 & -> & H1 & H2 & E & Hok2).
  subst q. unfold Query. rewrite E. destruct l2 as [|a l2]; cbn [head]; cbv iota beta zeta.
  { simpl. split_and!; [split; [done|]|done|].
    - rewrite app_nil_r. intros H. by apply (not_covers_ended l1 off off) in H; [|done|lia].
    - intros _. left. split; [done|]. intros x Hx. rewrite app_nil_r.
      by apply (not_covers_ended l1 off). }
  apply Forall_cons in H2 as [Ha _]. pose proof Hok2 as (Hp & _ & _)%ivs_ok_cons. unfold proper in Hp.
  assert (a ∈ l1 ++ a :: l2) as Hin by (apply elem_of_app; right; left).
  destruct (Z.ltb_spec off (iv_Offset a)); simpl.
  - assert (forall x, off <= x < iv_Offset a -> ~ covers (l1 ++ a :: l2) x) as Hn.
    { intros x Hx [Hc|(i & Hi & Hc)]%covers_app; [by eapply (not_covers_ended l1 off) in Hc; [|done|lia]|].
      pose proof (head_bounds a l2 i Hok2 Hi). unfold in_interval in Hc. lia. }
    split_and!; [split; [done|]|done|].
    + intros Hc. by apply Hn in Hc; [|lia].
    + intros _. right. split_and!; [lia| |intros; apply Hn; lia].
      exists a. split; [done|]. unfold in_interval. lia.
  - split_and!; [split; [|done]|intros _|done].
    + intros _. exists a. split; [done|]. unfold in_interval. lia.
    + split_and!; [done|lia|lia|]. intros x Hx. exists a. split; [done|]. unfold in_interval. lia.
Qed.

Lemma Query_correct_witness :
  let l := [mkInterval 0 4; mkInterval 6 8] in
  ivs_ok l /\ Query l 4 = mkQuery false 2 (mkInterval 6 8) /\ ~ covers l 5.
Proof.
  intros l. assert (ivs_ok l) as Hok by (split; repeat constructor; by vm_compute).
  split; [exact Hok|]. split; [reflexivity|].
  destruct (Query_correct l 4 Hok) as (_ & _ & H).
  destruct (H eq_refl) as [[E _]|(_ & _ & Hn)]; [discriminate E|]. apply Hn. vm_compute. done.
Defined.

(** [Intersect] holds exactly when the entry shares a point with the list, and
    [Contains] exactly when one interval of the list encloses the entry; an entry covered by
    two touching intervals together is not contained. *)
Theorem Intersect_Contains_correct l e :
  ivs_ok l -> proper e ->
  (Intersect l e = true <-> exists x, in_interval x e /\ covers l x) /\
  (Contains l e = true <->
     exists i, i ∈ l /\ iv_Offset i <= iv_Offset e /\ iv_End e <= iv_End i).
Proof.
  intros Hok He. unfold Intersect, Contains.
  destruct (upper_bound_split l (iv_Offset e) Hok) as (l1 & l2 & -> & H1 & H2 & E & Hok2).
  rewrite E. rewrite !Forall_forall in *. unfold proper in He. destruct l2 as [|a l2]; cbn [head]; cbv iota beta zeta.
  { rewrite app_nil_r. split; (split; [done|]).
    - intros (x & Hx & i & Hi & Hxi). apply H1 in Hi. unfold in_interval in *. lia.
    - intros (i & Hi & ?). apply H1 in Hi. lia. }
  pose proof (H2 a ltac:(left)) as Ha. pose proof Hok2 as (Hp & Hb & _)%ivs_ok_cons.
  unfold proper in Hp. rewrite Z.ltb_lt, andb_true_iff, !Z.leb_le. split; split.
  - intros Hae. exists (Z.max (iv_Offset e) (iv_Offset a)). split; [unfold in_interval; lia|].
    exists a. split; [apply elem_of_app; right; left|unfold in_interval; lia].
  - intros (x & Hx & i & [Hi|Hi]%elem_of_app & Hxi); unfold in_interval in *.
    + apply H1 in Hi. lia.
    + pose proof (head_bounds a l2 i Hok2 Hi). lia.
  - intros ?. exists a. split; [apply elem_of_app; right; left|done].
  - intros (i & [Hi|[-> |Hi]%elem_of_cons]%elem_of_app & Hie); [apply H1 in Hi; lia|done|].
    rewrite Forall_forall in Hb. specialize (Hb i Hi). unfold before in Hb. lia.
Qed.

Lemma Intersect_Contains_correct_witness :
  let l := [mkInterval 0 4; mkInterval 4 8] in
  let e := mkInterval 2 6 in
  (ivs_ok l /\ proper e) /\ (exists x, in_interval x e /\ covers l x) /\
  ~ exists i, i ∈ l /\ iv_Offset i <= iv_Offset e /\ iv_End e <= iv_End i.
Proof.
  intros l e. assert (ivs_ok l) as Hok by (split; repeat constructor; by vm_compute).
  assert (proper e) as He by (by vm_compute). split; [split; [exact Hok|exact He]|].
  destruct (Intersect_Contains_correct l e Hok He) as [H1 H2]. split.
  - apply H1. reflexivity.
  - intros H. apply H2 in H. discriminate H.
Defined.

End IntervalList.
