(* ===== verification/BPF.v ===== *)
(** * The classic-BPF interpreter for guest seccomp filters

    [ValidateProgram] and [Execute] of
    Source/Tools/LinuxEmulation/LinuxSyscalls/Seccomp/BPFInterpreter.cpp.  Every C++ integer
    is kept at its width; a read or write outside of the program, of [seccomp_data] or of the
    scratch words is [Fault], and the interpreter loop, which only validation makes finite,
    runs on fuel.  Programs are read through decoded instructions ([insn], [decode]) with a
    big-step semantics ([eval]); what the kernel would accept is [kernel_accepts]. *)

From S2P Require Import Prelude.

Module BPF.

(** ** Data *)

(** The UAPI's [sock_filter], [sock_fprog] and [seccomp_data]. *)
Record sock_filter := { code : Z; jt : Z; jf : Z; k : Z }.
Record sock_fprog := { len : Z; filter : list sock_filter }.
Record seccomp_data := { nr : Z; arch : Z; instruction_pointer : Z; args : list Z }.

Record WorkingBuffer := { Data : seccomp_data; ScratchMemory : list Z }.

Record State := { A : Z; X : Z }.

Definition BPF_CLASS (c : Z) : Z := c &&& 0x07.
Definition BPF_SIZE (c : Z) : Z := c &&& 0x18.
Definition BPF_MODE (c : Z) : Z := c &&& 0xe0.
Definition BPF_OP (c : Z) : Z := c &&& 0xf0.
Definition BPF_SRC (c : Z) : Z := c &&& 0x08.
Definition BPF_RVAL (c : Z) : Z := c &&& 0x18.
Definition BPF_MISCOP (c : Z) : Z := c &&& 0xf8.

Abbreviation BPF_LD := 0x00.
Abbreviation BPF_LDX := 0x01.
Abbreviation BPF_ST := 0x02.
Abbreviation BPF_STX := 0x03.
Abbreviation BPF_ALU := 0x04.
Abbreviation BPF_JMP := 0x05.
Abbreviation BPF_RET := 0x06.
Abbreviation BPF_MISC := 0x07.
Abbreviation BPF_W := 0x00.
Abbreviation BPF_IMM := 0x00.
Abbreviation BPF_ABS := 0x20.
Abbreviation BPF_MEM := 0x60.
Abbreviation BPF_LEN := 0x80.
Abbreviation BPF_ADD := 0x00.
Abbreviation BPF_SUB := 0x10.
Abbreviation BPF_MUL := 0x20.
Abbreviation BPF_DIV := 0x30.
Abbreviation BPF_OR := 0x40.
Abbreviation BPF_AND := 0x50.
Abbreviation BPF_LSH := 0x60.
Abbreviation BPF_RSH := 0x70.
Abbreviation BPF_NEG := 0x80.
Abbreviation BPF_MOD := 0x90.
Abbreviation BPF_XOR := 0xa0.
Abbreviation BPF_JA := 0x00.
Abbreviation BPF_JEQ := 0x10.
Abbreviation BPF_JGT := 0x20.
Abbreviation BPF_JGE := 0x30.
Abbreviation BPF_JSET := 0x40.
Abbreviation BPF_K := 0x00.
Abbreviation BPF_X := 0x08.
Abbreviation BPF_A := 0x10.
Abbreviation BPF_TAX := 0x00.
Abbreviation BPF_TXA := 0x80.
Abbreviation BPF_MEMWORDS := 16.
Abbreviation EINVAL := 22.

(** The bytes of a [seccomp_data] on a little-endian host. *)
Definition data_bytes (d : seccomp_data) : list Z :=
  le_bytes 4 (nr d) ++ le_bytes 4 (arch d) ++ le_bytes 8 (instruction_pointer d) ++
  concat (map (le_bytes 8) (args d)).

Definition SECCOMP_DATA_SIZE : Z := 64.

(** ** Validation *)

(** One iteration of the loop of [ValidateProgram]; [true] when it does not return. *)
Definition ValidateInst (NumInsts i : Z) (Inst : sock_filter) : bool :=
  let Code := code Inst in
  let cls := BPF_CLASS Code in
  if (cls =? BPF_LD) || (cls =? BPF_LDX) then
    if negb (BPF_SIZE Code =? BPF_W) then false else
    let mode := BPF_MODE Code in
    if mode =? BPF_IMM then true
    else if mode =? BPF_ABS then
      if negb ((k Inst &&& 3) =? 0) || (SECCOMP_DATA_SIZE <=? k Inst) then false else true
    else if mode =? BPF_MEM then if BPF_MEMWORDS <=? k Inst then false else true
    else if mode =? BPF_LEN then true
    else false
  else if (cls =? BPF_ST) || (cls =? BPF_STX) then
    if negb (BPF_SIZE Code =? BPF_W) then false
    else if BPF_MEMWORDS <=? k Inst then false else true
  else if cls =? BPF_ALU then
    let op := BPF_OP Code in
    if (op =? BPF_ADD) || (op =? BPF_SUB) || (op =? BPF_MUL) || (op =? BPF_DIV) ||
       (op =? BPF_OR) || (op =? BPF_AND) || (op =? BPF_LSH) || (op =? BPF_RSH) ||
       (op =? BPF_MOD) || (op =? BPF_XOR) then true
    else if op =? BPF_NEG then if negb (BPF_SRC Code =? BPF_K) then false else true
    else false
  else if cls =? BPF_JMP then
    let op := BPF_OP Code in
    if op =? BPF_JA then
      if negb (BPF_SRC Code =? BPF_K) then false else
      let Target := u64 (i + k Inst + 1) in
      if NumInsts <=? Target then false else true
    else if (op =? BPF_JEQ) || (op =? BPF_JGT) || (op =? BPF_JGE) || (op =? BPF_JSET) then
      let TargetTrue := u64 (i + jt Inst + 1) in
      let TargetFalse := u64 (i + jf Inst + 1) in
      if (NumInsts <=? TargetTrue) || (NumInsts <=? TargetFalse) then false else true
    else false
  else if cls =? BPF_RET then
    let rv := BPF_RVAL Code in
    (rv =? BPF_K) || (rv =? BPF_X) || (rv =? BPF_A)
  else if cls =? BPF_MISC then
    let op := BPF_MISCOP Code in (op =? BPF_TAX) || (op =? BPF_TXA)
  else false.

(** [prog->filter[i]]: [None] outside of the guest's array. *)
Definition filter_at (f : list sock_filter) (i : Z) : option sock_filter :=
  if i <? 0 then None else f !! Z.to_nat i.

(** The loop of [ValidateProgram] from index [i] on, over [n] more instructions; [None] is a
    read outside of the guest's array. *)
Fixpoint ValidateLoop (prog : sock_fprog) (n : nat) (i : Z) : option bool :=
  match n with
  | O => Some true
  | S n =>
      match filter_at (filter prog) i with
      | None => None
      | Some Inst =>
          if ValidateInst (len prog) i Inst then ValidateLoop prog n (u32 (i + 1))
          else Some false
      end
  end.

Definition ValidateProgram (prog : sock_fprog) : option Z :=
  let NumInsts := len prog in
  match ValidateLoop prog (Z.to_nat NumInsts) 0 with
  | None => None
  | Some false => Some (u64 (- EINVAL))
  | Some true =>
      match filter_at (filter prog) (u32 (NumInsts - 1)) with
      | None => None
      | Some Inst =>
          if negb (BPF_CLASS (code Inst) =? BPF_RET) then Some (u64 (- EINVAL)) else Some 0
      end
  end.

(** ** Execution *)

Inductive StepResult :=
| Next (IP : Z) (St : State) (Buffer : WorkingBuffer)
| Return (v : Z) (Buffer : WorkingBuffer)
| StepFault.

Inductive Outcome :=
| Returned (v : Z) (Buffer : WorkingBuffer)
| Fault
| OutOfFuel.

(** [memcpy(&Value, DataBytes + k, 4)]. *)
Definition read_data (d : seccomp_data) (off : Z) : option Z :=
  if (0 <=? off) && (off + 4 <=? Z.of_nat (length (data_bytes d)))
  then Some (le_val (take 4 (drop (Z.to_nat off) (data_bytes d)))) else None.

Definition read_scratch (b : WorkingBuffer) (i : Z) : option Z :=
  if i <? 0 then None else ScratchMemory b !! Z.to_nat i.

Definition write_scratch (b : WorkingBuffer) (i v : Z) : option WorkingBuffer :=
  if (0 <=? i) && (i <? Z.of_nat (length (ScratchMemory b)))
  then Some {| Data := Data b; ScratchMemory := <[Z.to_nat i := v]> (ScratchMemory b) |}
  else None.

(** The value of a [BPF_LD]/[BPF_LDX]; the outer [None] is a fault, the inner one the
    [return 0] of an unknown mode. *)
Definition load_value (Code kk : Z) (b : WorkingBuffer) : option (option Z) :=
  let mode := BPF_MODE Code in
  if mode =? BPF_IMM then Some (Some kk)
  else if mode =? BPF_ABS then option_map Some (read_data (Data b) kk)
  else if mode =? BPF_MEM then option_map Some (read_scratch b kk)
  else if mode =? BPF_LEN then Some (Some SECCOMP_DATA_SIZE)
  else Some None.

(** The [BPF_ALU] switch: [None] is [return 0]. *)
Definition alu_value (Code a Src : Z) : option Z :=
  let op := BPF_OP Code in
  if op =? BPF_ADD then Some (u32 (a + Src))
  else if op =? BPF_SUB then Some (u32 (a - Src))
  else if op =? BPF_MUL then Some (u32 (a * Src))
  else if op =? BPF_DIV then if Src =? 0 then None else Some (a / Src)
  else if op =? BPF_MOD then if Src =? 0 then None else Some (a mod Src)
  else if op =? BPF_OR then Some (a ||| Src)
  else if op =? BPF_AND then Some (a &&& Src)
  else if op =? BPF_XOR then Some (a ^^^ Src)
  else if op =? BPF_LSH then Some (u32 (a <<< (Src &&& 31)))
  else if op =? BPF_RSH then Some (a >>> (Src &&& 31))
  else if op =? BPF_NEG then Some (u32 (- a))
  else None.

(** The [BPF_JMP] switch: the distance added to [IP], or [None] for [return 0]. *)
Definition jump_distance (Inst : sock_filter) (a Src : Z) : option Z :=
  let op := BPF_OP (code Inst) in
  if op =? BPF_JA then Some (k Inst)
  else if op =? BPF_JEQ then Some (if a =? Src then jt Inst else jf Inst)
  else if op =? BPF_JGT then Some (if Src <? a then jt Inst else jf Inst)
  else if op =? BPF_JGE then Some (if Src <=? a then jt Inst else jf Inst)
  else if op =? BPF_JSET then Some (if negb ((a &&& Src) =? 0) then jt Inst else jf Inst)
  else None.

(** One iteration of the loop of [Execute], its [++IP] included. *)
Definition ExecuteInst (Inst : sock_filter) (IP : Z) (St : State) (b : WorkingBuffer) : StepResult :=
  let Code := code Inst in
  let kk := k Inst in
  let cls := BPF_CLASS Code in
  let next St b := Next (u32 (IP + 1)) St b in
  if (cls =? BPF_LD) || (cls =? BPF_LDX) then
    match load_value Code kk b with
    | None => StepFault
    | Some None => Return 0 b
    | Some (Some Value) =>
        if cls =? BPF_LD then next {| A := Value; X := X St |} b
        else next {| A := A St; X := Value |} b
    end
  else if cls =? BPF_ST then
    match write_scratch b kk (A St) with None => StepFault | Some b => next St b end
  else if cls =? BPF_STX then
    match write_scratch b kk (X St) with None => StepFault | Some b => next St b end
  else if cls =? BPF_ALU then
    let Src := if BPF_SRC Code =? BPF_X then X St else kk in
    match alu_value Code (A St) Src with
    | None => Return 0 b
    | Some a => next {| A := a; X := X St |} b
    end
  else if cls =? BPF_JMP then
    let Src := if BPF_SRC Code =? BPF_X then X St else kk in
    match jump_distance Inst (A St) Src with
    | None => Return 0 b
    | Some d => Next (u32 (u32 (IP + d) + 1)) St b
    end
  else if cls =? BPF_RET then
    let rv := BPF_RVAL Code in
    if rv =? BPF_K then Return kk b
    else if rv =? BPF_X then Return (X St) b
    else if rv =? BPF_A then Return (A St) b
    else Return 0 b
  else if cls =? BPF_MISC then
    let op := BPF_MISCOP Code in
    if op =? BPF_TAX then next {| A := A St; X := A St |} b
    else if op =? BPF_TXA then next {| A := X St; X := X St |} b
    else Return 0 b
  else Return 0 b.

Fixpoint ExecuteLoop (fuel : nat) (Program : list sock_filter) (NumInsts IP : Z)
    (St : State) (b : WorkingBuffer) : Outcome :=
  if IP <? NumInsts then
    match fuel with
    | O => OutOfFuel
    | S fuel =>
        match filter_at Program IP with
        | None => Fault
        | Some Inst =>
            match ExecuteInst Inst IP St b with
            | Next IP St b => ExecuteLoop fuel Program NumInsts IP St b
            | Return v b => Returned v b
            | StepFault => Fault
            end
        end
    end
  else Returned 0 b.

(** One unit of fuel per instruction of the program. *)
Definition Execute (Program : list sock_filter) (NumInsts : Z) (b : WorkingBuffer) : Outcome :=
  ExecuteLoop (Z.to_nat NumInsts) Program NumInsts 0 {| A := 0; X := 0 |} b.

(** ** The reference: decoded instructions and their semantics *)

Inductive reg := RA | RX.
Inductive operand := OpK | OpX.
Inductive load_src := FromImm | FromData | FromScratch | FromLen.
Inductive alu := Add | Sub | Mul | Div | Mod | Or | And | Xor | Lsh | Rsh.
Inductive test := Eq | Gt | Ge | Set_.
Inductive ret_src := RetK | RetX | RetA.

Inductive insn :=
| ILoad (r : reg) (s : load_src)
| IStore (r : reg)
| IAlu (op : alu) (s : operand)
| INeg
| IJump
| IBranch (t : test) (s : operand)
| IRet (s : ret_src)
| ITax
| ITxa.

(** What the interpreter makes of the low byte of an opcode, the only part of it that it looks at; a byte it
    rejects or returns 0 for is no instruction.  (The kernel's own list of encodings is [kernel_codes].) *)
Definition decode (c : Z) : option insn :=
  match u8 c with
  | 0x00 => Some (ILoad RA FromImm) | 0x20 => Some (ILoad RA FromData)
  | 0x60 => Some (ILoad RA FromScratch) | 0x80 => Some (ILoad RA FromLen)
  | 0x01 => Some (ILoad RX FromImm) | 0x21 => Some (ILoad RX FromData)
  | 0x61 => Some (ILoad RX FromScratch) | 0x81 => Some (ILoad RX FromLen)
  | 0x02 | 0x22 | 0x42 | 0x62 | 0x82 | 0xa2 | 0xc2 | 0xe2 => Some (IStore RA)
  | 0x03 | 0x23 | 0x43 | 0x63 | 0x83 | 0xa3 | 0xc3 | 0xe3 => Some (IStore RX)
  | 0x04 => Some (IAlu Add OpK) | 0x0c => Some (IAlu Add OpX)
  | 0x14 => Some (IAlu Sub OpK) | 0x1c => Some (IAlu Sub OpX)
  | 0x24 => Some (IAlu Mul OpK) | 0x2c => Some (IAlu Mul OpX)
  | 0x34 => Some (IAlu Div OpK) | 0x3c => Some (IAlu Div OpX)
  | 0x44 => Some (IAlu Or OpK) | 0x4c => Some (IAlu Or OpX)
  | 0x54 => Some (IAlu And OpK) | 0x5c => Some (IAlu And OpX)
  | 0x64 => Some (IAlu Lsh OpK) | 0x6c => Some (IAlu Lsh OpX)
  | 0x74 => Some (IAlu Rsh OpK) | 0x7c => Some (IAlu Rsh OpX)
  | 0x84 => Some INeg
  | 0x94 => Some (IAlu Mod OpK) | 0x9c => Some (IAlu Mod OpX)
  | 0xa4 => Some (IAlu Xor OpK) | 0xac => Some (IAlu Xor OpX)
  | 0x05 => Some IJump
  | 0x15 => Some (IBranch Eq OpK) | 0x1d => Some (IBranch Eq OpX)
  | 0x25 => Some (IBranch Gt OpK) | 0x2d => Some (IBranch Gt OpX)
  | 0x35 => Some (IBranch Ge OpK) | 0x3d => Some (IBranch Ge OpX)
  | 0x45 => Some (IBranch Set_ OpK) | 0x4d => Some (IBranch Set_ OpX)
  | 0x06 | 0x26 | 0x46 | 0x66 | 0x86 | 0xa6 | 0xc6 | 0xe6 => Some (IRet RetK)
  | 0x0e | 0x2e | 0x4e | 0x6e | 0x8e | 0xae | 0xce | 0xee => Some (IRet RetX)
  | 0x16 | 0x36 | 0x56 | 0x76 | 0x96 | 0xb6 | 0xd6 | 0xf6 => Some (IRet RetA)
  | 0x07 => Some ITax | 0x87 => Some ITxa
  | _ => None
  end.

(** The operands an instruction of an [n]-instruction program may have at index [i]. *)
Definition operands_ok (n i : Z) (f : sock_filter) (x : insn) : Prop :=
  match x with
  | ILoad _ FromData => (4 | k f) /\ k f + 4 <= 64
  | ILoad _ FromScratch | IStore _ => k f < 16
  | IJump => i + 1 + k f < n
  | IBranch _ _ => i + 1 + jt f < n /\ i + 1 + jf f < n
  | _ => True
  end.

(** The 32-bit word of the data at byte offset [off]. *)
Definition word_at (d : seccomp_data) (off : Z) : Z :=
  le_val (take 4 (drop (Z.to_nat off) (data_bytes d))).

Definition load_sem (s : load_src) (kk : Z) (d : seccomp_data) (m : list Z) : Z :=
  match s with
  | FromImm => kk
  | FromData => word_at d kk
  | FromScratch => default 0 (m !! Z.to_nat kk)
  | FromLen => 64
  end.

(** 32-bit arithmetic; division and remainder by zero have no value. *)
Definition alu_sem (op : alu) (a s : Z) : option Z :=
  match op with
  | Add => Some ((a + s) mod 2 ^ 32)
  | Sub => Some ((a - s) mod 2 ^ 32)
  | Mul => Some ((a * s) mod 2 ^ 32)
  | Div => if decide (s = 0) then None else Some (a / s)
  | Mod => if decide (s = 0) then None else Some (a mod s)
  | Or => Some (Z.lor a s)
  | And => Some (Z.land a s)
  | Xor => Some (Z.lxor a s)
  | Lsh => Some ((a * 2 ^ (s mod 32)) mod 2 ^ 32)
  | Rsh => Some (a / 2 ^ (s mod 32))
  end.

Definition test_sem (t : test) (a s : Z) : bool :=
  match t with
  | Eq => bool_decide (a = s)
  | Gt => bool_decide (s < a)
  | Ge => bool_decide (s <= a)
  | Set_ => bool_decide (Z.land a s <> 0)
  end.

Definition set_reg (r : reg) (v a x : Z) : Z * Z :=
  match r with RA => (v, x) | RX => (a, v) end.

(** [eval P d i a x m v m']: from instruction [i] with registers [a] and [x] and scratch
    words [m] the filter [P] returns [v] for the data [d] and leaves [m']. *)
Inductive eval (P : list sock_filter) (d : seccomp_data) :
  Z -> Z -> Z -> list Z -> Z -> list Z -> Prop :=
| eval_load i f r s a x m v m' a' x' :
    filter_at P i = Some f -> decode (code f) = Some (ILoad r s) ->
    set_reg r (load_sem s (k f) d m) a x = (a', x') ->
    eval P d (i + 1) a' x' m v m' -> eval P d i a x m v m'
| eval_store i f r a x m v m' :
    filter_at P i = Some f -> decode (code f) = Some (IStore r) ->
    eval P d (i + 1) a x (<[Z.to_nat (k f) := match r with RA => a | RX => x end]> m) v m' ->
    eval P d i a x m v m'
| eval_alu i f op s a x m v m' a' :
    filter_at P i = Some f -> decode (code f) = Some (IAlu op s) ->
    alu_sem op a (match s with OpX => x | OpK => k f end) = Some a' ->
    eval P d (i + 1) a' x m v m' -> eval P d i a x m v m'
| eval_div0 i f op s a x m :
    filter_at P i = Some f -> decode (code f) = Some (IAlu op s) ->
    alu_sem op a (match s with OpX => x | OpK => k f end) = None ->
    eval P d i a x m 0 m
| eval_neg i f a x m v m' :
    filter_at P i = Some f -> decode (code f) = Some INeg ->
    eval P d (i + 1) ((- a) mod 2 ^ 32) x m v m' -> eval P d i a x m v m'
| eval_jump i f a x m v m' :
    filter_at P i = Some f -> decode (code f) = Some IJump ->
    eval P d (i + 1 + k f) a x m v m' -> eval P d i a x m v m'
| eval_branch i f t s a x m v m' :
    filter_at P i = Some f -> decode (code f) = Some (IBranch t s) ->
    eval P d (i + 1 + (if test_sem t a (match s with OpX => x | OpK => k f end)
                       then jt f else jf f)) a x m v m' ->
    eval P d i a x m v m'
| eval_ret i f s a x m :
    filter_at P i = Some f -> decode (code f) = Some (IRet s) ->
    eval P d i a x m (match s with RetK => k f | RetX => x | RetA => a end) m
| eval_tax i f a x m v m' :
    filter_at P i = Some f -> decode (code f) = Some ITax ->
    eval P d (i + 1) a a m v m' -> eval P d i a x m v m'
| eval_txa i f a x m v m' :
    filter_at P i = Some f -> decode (code f) = Some ITxa ->
    eval P d (i + 1) x x m v m' -> eval P d i a x m v m'.

(** Fields at their widths. *)
Definition filter_wf (f : sock_filter) : Prop :=
  is_u 16 (code f) /\ is_u 8 (jt f) /\ is_u 8 (jf f) /\ is_u 32 (k f).

Definition prog_wf (p : sock_fprog) : Prop :=
  is_u 16 (len p) /\ len p <= Z.of_nat (length (filter p)) /\ Forall filter_wf (filter p).

Definition data_wf (d : seccomp_data) : Prop := length (args d) = 6%nat.

Definition buffer_wf (b : WorkingBuffer) : Prop :=
  data_wf (Data b) /\ length (ScratchMemory b) = 16%nat /\ Forall (is_u 32) (ScratchMemory b).

(** ** Opcode bytes *)

Lemma byte_cases (P : Z -> Prop) :
  Forall P (seqZ 0 256) -> forall c, P (u8 c).
Proof.
  rewrite Forall_forall. intros H c. apply H, elem_of_seqZ.
  pose proof (u_range 8 c ltac:(lia)) as R. unfold is_u in R. lia.
Qed.

(** The fields of an opcode only look at its low byte. *)
Lemma land_u8 c m : is_u 8 m -> c &&& m = u8 c &&& m.
Proof. intros H. zbits. Qed.

Lemma fields_u8 c :
  BPF_CLASS c = BPF_CLASS (u8 c) /\ BPF_SIZE c = BPF_SIZE (u8 c) /\
  BPF_MODE c = BPF_MODE (u8 c) /\ BPF_OP c = BPF_OP (u8 c) /\ BPF_SRC c = BPF_SRC (u8 c) /\
  BPF_RVAL c = BPF_RVAL (u8 c) /\ BPF_MISCOP c = BPF_MISCOP (u8 c).
Proof. split_and!; apply land_u8; unfold is_u; lia. Qed.

(** [operands_ok] as the code tests it. *)
Definition operands_test (n i : Z) (f : sock_filter) (x : insn) : bool :=
  match x with
  | ILoad _ FromData => negb (negb ((k f &&& 3) =? 0) || (SECCOMP_DATA_SIZE <=? k f))
  | ILoad _ FromScratch | IStore _ => negb (BPF_MEMWORDS <=? k f)
  | IJump => negb (n <=? u64 (i + k f + 1))
  | IBranch _ _ => negb ((n <=? u64 (i + jt f + 1)) || (n <=? u64 (i + jf f + 1)))
  | _ => true
  end.

Lemma negb_if (b : bool) : (if b then false else true) = negb b.
Proof. by destruct b. Qed.

(** Run a statement about the low byte of an opcode through its 256 values. *)
Ltac each_byte c :=
  pattern (u8 c); apply byte_cases;
  let l := eval vm_compute in (seqZ 0 256) in change (seqZ 0 256) with l;
  repeat (apply Forall_cons; split); [..|by apply Forall_nil].

Lemma ValidateInst_decode n i f :
  ValidateInst n i f =
  match decode (code f) with None => false | Some x => operands_test n i f x end.
Proof.
  destruct f as [c t e kk]. unfold ValidateInst, decode. cbn [code jt jf k].
  rewrite !negb_if.
  destruct (fields_u8 c) as (-> & -> & -> & -> & -> & -> & ->).
  each_byte c; reflexivity.
Qed.

Lemma class_ret c x :
  decode c = Some x -> (BPF_CLASS c =? BPF_RET) = match x with IRet _ => true | _ => false end.
Proof.
  unfold decode. destruct (fields_u8 c) as (-> & _).
  each_byte c; intros E; first [discriminate E | injection E as <-; reflexivity].
Qed.

(** ** What validation accepts *)

(** A program of [n] instructions the interpreter may run: every instruction is of the
    instruction set with operands in range, and the last one is a [RET]. *)
Definition accepted (P : list sock_filter) (n : Z) : Prop :=
  (forall i, 0 <= i < n -> exists f x,
     filter_at P i = Some f /\ decode (code f) = Some x /\ operands_ok n i f x) /\
  (exists f s, filter_at P (n - 1) = Some f /\ decode (code f) = Some (IRet s)).

Lemma aligned_in_data kk :
  is_u 32 kk ->
  negb (negb ((kk &&& 3) =? 0) || (SECCOMP_DATA_SIZE <=? kk)) = true <-> (4 | kk) /\ kk + 4 <= 64.
Proof.
  intros [H _]. rewrite negb_orb, negb_involutive, andb_true_iff, Z.eqb_eq, negb_true_iff, Z.leb_gt.
  change 3 with (Z.ones 2). rewrite Z.land_ones by lia. change (2 ^ 2) with 4.
  rewrite Z.mod_divide by lia. unfold SECCOMP_DATA_SIZE.
  split; (intros [D ?]; split; [done|]); destruct D; lia.
Qed.

Lemma operands_test_ok n i f x :
  is_u 16 n -> 0 <= i < n -> filter_wf f ->
  operands_test n i f x = true <-> operands_ok n i f x.
Proof.
  unfold filter_wf. intros Hn Hi (_ & Ht & He & Hk).
  assert (forall y, is_u 32 y -> u64 (i + y + 1) = i + 1 + y) as E.
  { intros y Hy. unfold is_u in *. rewrite u_small by (unfold is_u; lia). lia. }
  assert (is_u 32 (jt f) /\ is_u 32 (jf f)) as [? ?] by (unfold is_u in *; lia).
  destruct x as [r []| | | | | | | |]; cbn [operands_test operands_ok]; try tauto;
    rewrite ?aligned_in_data by done; rewrite ?E by done; try tauto;
    rewrite ?negb_orb, ?andb_true_iff, ?negb_true_iff, ?Z.leb_gt; tauto.
Qed.

Lemma filter_at_lt P i :
  0 <= i < Z.of_nat (length P) -> exists f, filter_at P i = Some f /\ f ∈ P.
Proof.
  intros Hi. unfold filter_at. bool_lia.
  destruct (lookup_lt_is_Some_2 P (Z.to_nat i)) as [f Hf]; [lia|].
  exists f. split; [done|]. by eapply list_elem_of_lookup_2.
Qed.

Lemma ValidateLoop_spec p n i :
  prog_wf p -> 0 <= i -> i + Z.of_nat n = len p ->
  exists b, ValidateLoop p n i = Some b /\
    (b = true <-> forall j, i <= j < len p -> exists f x,
       filter_at (filter p) j = Some f /\ decode (code f) = Some x /\ operands_ok (len p) j f x).
Proof.
  intros (Hl & Hle & Hwf). revert i. induction n as [|n IH]; intros i Hi Hn; cbn [ValidateLoop].
  { exists true. split; [done|]. split; [|done]. intros _ j Hj. lia. }
  destruct (filter_at_lt (filter p) i) as (f & Hf & Hin); [lia|]. rewrite Hf.
  rewrite Forall_forall in Hwf. pose proof (Hwf _ Hin) as Hfw.
  rewrite ValidateInst_decode. rewrite (u_small 32 (i + 1)) by (unfold is_u in *; lia).
  destruct (IH (i + 1)) as (b & -> & Hb); [lia..|].
  assert ((match decode (code f) with None => false | Some x => operands_test (len p) i f x end)
          = true <-> exists x, decode (code f) = Some x /\ operands_ok (len p) i f x) as Hhd.
  { destruct (decode (code f)) as [x|].
    - rewrite operands_test_ok by (done || lia). split; [by exists x|]. by intros (? & [= <-] & ?).
    - split; [done|]. by intros (? & ? & _). }
  destruct (match decode (code f) with None => false | Some x => operands_test (len p) i f x end).
  - exists b. split; [done|]. rewrite Hb. split.
    + intros H j Hj. destruct (decide (j = i)) as [->|]; [|apply H; lia].
      destruct (proj1 Hhd eq_refl) as (x & ? & ?). by exists f, x.
    + intros H j Hj. apply H. lia.
  - exists false. split; [done|]. split; [done|]. intros H.
    destruct (H i) as (g & x & Hg & ? & ?); [lia|]. rewrite Hf in Hg. injection Hg as ->.
    apply Hhd. by exists x.
Qed.

Lemma ValidateProgram_spec p :
  prog_wf p -> 0 < len p ->
  (ValidateProgram p = Some 0 <-> accepted (filter p) (len p)) /\
  (ValidateProgram p = Some 0 \/ ValidateProgram p = Some (u64 (-22))).
Proof.
  intros Hp Hpos. unfold ValidateProgram, accepted.
  destruct (ValidateLoop_spec p (Z.to_nat (len p)) 0 Hp) as (b & -> & Hb); [lia..|].
  pose proof Hp as (Hl & Hle & _). rewrite u_small by (unfold is_u in *; lia).
  destruct (filter_at_lt (filter p) (len p - 1)) as (f & Hf & _); [lia|]. rewrite Hf.
  destruct b; [|split; [|by right]; split; [done|]; intros [H _]; discriminate (proj2 Hb H)].
  pose proof (proj1 Hb eq_refl) as H.
  destruct (H (len p - 1)) as (g & x & Hg & Hd & _); [lia|].
  rewrite Hf in Hg; injection Hg as <-. rewrite (class_ret _ _ Hd).
  split; [|destruct x; auto]. split.
  - intros E. split; [done|]. exists f. destruct x; try done. eauto.
  - intros [_ (g & s & [= <-] & Hs)]. rewrite Hd in Hs. injection Hs as ->. done.
Qed.

(** ** What the kernel accepts

    The encodings that [seccomp_check_filter] (kernel/seccomp.c) lists, and the operand checks it and
    [bpf_check_classic] (net/core/filter.c) make of them, which the header of the interpreter refers to: 16-bit codes,
    not bytes, without remainders and RET X, with constant divisors and shift distances in range. *)
Definition kernel_branches : list Z := [0x15; 0x1d; 0x25; 0x2d; 0x35; 0x3d; 0x45; 0x4d].
Definition kernel_codes : list Z :=
  [0x20; 0x80; 0x81; 0x00; 0x01; 0x60; 0x61; 0x02; 0x03; 0x05; 0x06; 0x16; 0x07; 0x87;
   0x04; 0x0c; 0x14; 0x1c; 0x24; 0x2c; 0x34; 0x3c; 0x44; 0x4c; 0x54; 0x5c; 0x64; 0x6c; 0x74; 0x7c; 0x84; 0xa4; 0xac] ++
  kernel_branches.

(** The encoding, with its constant operand. *)
Definition kernel_code (f : sock_filter) : Prop :=
  code f ∈ kernel_codes /\ (code f = 0x34 -> k f <> 0) /\ (code f = 0x64 \/ code f = 0x74 -> k f < 32).

Definition kernel_insn (n i : Z) (f : sock_filter) : Prop :=
  kernel_code f /\
  (code f = 0x20 -> k f mod 4 = 0 /\ k f < 64) /\
  (code f ∈ [0x60; 0x61; 0x02; 0x03] -> k f < 16) /\
  (code f = 0x05 -> k f < n - i - 1) /\
  (code f ∈ kernel_branches -> i + jt f + 1 < n /\ i + jf f + 1 < n).

Definition kernel_accepts (P : list sock_filter) (n : Z) : Prop :=
  (forall i, 0 <= i < n -> exists f, filter_at P i = Some f /\ kernel_insn n i f) /\
  exists f, filter_at P (n - 1) = Some f /\ (code f = 0x06 \/ code f = 0x16).

#[local] Ltac each_code H :=
  unfold kernel_codes, kernel_branches in H; cbn [app] in H;
  repeat (apply elem_of_cons in H as [H|H]); [..|by apply elem_of_nil in H].

Lemma aligned_word kk : 0 <= kk -> (kk mod 4 = 0 /\ kk < 64 <-> (4 | kk) /\ kk + 4 <= 64).
Proof. intros H. rewrite Z.mod_divide by lia. split; (intros [D ?]; split; [done|]); destruct D; lia. Qed.

(** Of a listed encoding the kernel and the interpreter check the same operands. *)
Lemma kernel_insn_decode n i f : filter_wf f ->
  kernel_insn n i f <-> kernel_code f /\ exists x, decode (code f) = Some x /\ operands_ok n i f x.
Proof.
  intros (_ & _ & _ & Hk & _). pose proof (aligned_word (k f) Hk) as Hal. unfold kernel_insn. split.
  - intros ((Hc & H0) & H1 & H2 & H3 & H4). split; [by split|]. unfold kernel_branches in H4. pose proof Hc as Hin.
    each_code Hin; rewrite Hin in *; eexists; (split; [reflexivity|]); cbn [operands_ok];
      try exact I; try (apply Hal, H1; reflexivity); try (apply H2; set_solver); try (specialize (H3 eq_refl); lia);
      (destruct H4; [set_solver|lia]).
  - intros ((Hc & H0) & x & Hd & Hop). split; [by split|]. unfold kernel_branches. pose proof Hc as Hin.
    each_code Hin; rewrite Hin in *; vm_compute in Hd; injection Hd as <-; cbn [operands_ok] in Hop;
      (split_and!; [intros E|intros E|intros E|intros E]); first [discriminate E | lia | by apply Hal |
        (exfalso; repeat (apply elem_of_cons in E as [E|E]; [discriminate E|]); by apply elem_of_nil in E) | idtac]; lia.
Qed.

(** The kernel accepts what the interpreter accepts, less the encodings it does not list. *)
Lemma kernel_accepts_iff P n : Forall filter_wf P -> 0 < n ->
  kernel_accepts P n <-> accepted P n /\ forall i f, 0 <= i < n -> filter_at P i = Some f -> kernel_code f.
Proof.
  intros HP Hn. rewrite Forall_forall in HP.
  assert (Hwf : forall i f, filter_at P i = Some f -> filter_wf f).
  { intros i f. unfold filter_at. destruct (i <? 0); [done|]. intros Hf. apply HP. by eapply list_elem_of_lookup_2. }
  assert (Hlast : forall f x, kernel_code f -> decode (code f) = Some x ->
    (code f = 0x06 \/ code f = 0x16 <-> exists s, x = IRet s)).
  { intros f x (Hin & _) Hd. each_code Hin; rewrite Hin in *; vm_compute in Hd; injection Hd as <-;
      (split; [intros [E|E]; first [discriminate E|by eexists]|intros [s E]; first [discriminate E|by left|by right]]). }
  unfold kernel_accepts, accepted. split.
  - intros (Hall & f & Hf & Hret). split; [split|].
    + intros i Hi. destruct (Hall i Hi) as (g & Hg & Hk). apply kernel_insn_decode in Hk as (_ & x & Hd & Hop); [|by eapply Hwf]. by exists g, x.
    + destruct (Hall (n - 1)) as (g & Hg & Hk); [lia|]. rewrite Hf in Hg. injection Hg as <-.
      apply kernel_insn_decode in Hk as (Hc & x & Hd & _); [|by eapply Hwf]. destruct (proj1 (Hlast f x Hc Hd) Hret) as [s ->]. by exists f, s.
    + intros i g Hi Hg. destruct (Hall i Hi) as (g' & Hg' & Hk). rewrite Hg in Hg'. injection Hg' as <-. apply Hk.
  - intros ((Hall & f & s & Hf & Hd) & Hc). split.
    + intros i Hi. destruct (Hall i Hi) as (g & x & Hg & Hdg & Hop). exists g. split; [done|]. apply kernel_insn_decode; [by eapply Hwf|].
      split; [by eapply Hc|by exists x].
    + exists f. split; [done|]. apply (Hlast f (IRet s)); [apply (Hc (n - 1)); [lia|done]|done|by exists s].
Qed.


(** Accepted, and not on the kernel's list: RET X, a remainder, a code with bits above the low byte, a load of the data
    into X, a division by the constant 0. *)
Lemma accepts_unlisted :
  Forall (fun f => ValidateProgram {| len := 2; filter := [f; {| code := 0x06; jt := 0; jf := 0; k := 0 |}] |} = Some 0 /\
                   ~ kernel_accepts [f; {| code := 0x06; jt := 0; jf := 0; k := 0 |}] 2)
    [{| code := 0x0e; jt := 0; jf := 0; k := 0 |}; {| code := 0x94; jt := 0; jf := 0; k := 1 |};
     {| code := 0x100; jt := 0; jf := 0; k := 0 |}; {| code := 0x21; jt := 0; jf := 0; k := 0 |};
     {| code := 0x34; jt := 0; jf := 0; k := 0 |}].
Proof.
  assert (Hno : forall f g, ~ kernel_code f -> ~ kernel_accepts [f; g] 2).
  { intros f g Hf [H _]. destruct (H 0 ltac:(lia)) as (f' & [= <-] & [Hk _]). done. }
  repeat (apply Forall_cons; split); try (by apply Forall_nil);
    (split; [vm_compute; reflexivity|]; apply Hno; intros (Hin & H34 & _); cbn [code k] in *; first [by apply H34|each_code Hin; discriminate Hin]).
Qed.

(** ** Execution of one instruction *)

(** The iteration of [Execute] on a decoded instruction. *)
Definition load_code (s : load_src) (kk : Z) (b : WorkingBuffer) : option Z :=
  match s with
  | FromImm => Some kk
  | FromData => read_data (Data b) kk
  | FromScratch => read_scratch b kk
  | FromLen => Some SECCOMP_DATA_SIZE
  end.

Definition alu_code (op : alu) (a Src : Z) : option Z :=
  match op with
  | Add => Some (u32 (a + Src))
  | Sub => Some (u32 (a - Src))
  | Mul => Some (u32 (a * Src))
  | Div => if Src =? 0 then None else Some (a / Src)
  | Mod => if Src =? 0 then None else Some (a mod Src)
  | Or => Some (a ||| Src)
  | And => Some (a &&& Src)
  | Xor => Some (a ^^^ Src)
  | Lsh => Some (u32 (a <<< (Src &&& 31)))
  | Rsh => Some (a >>> (Src &&& 31))
  end.

Definition test_code (t : test) (a Src : Z) : bool :=
  match t with
  | Eq => a =? Src
  | Gt => Src <? a
  | Ge => Src <=? a
  | Set_ => negb ((a &&& Src) =? 0)
  end.

Definition src_of (s : operand) (f : sock_filter) (x : Z) : Z :=
  match s with OpX => x | OpK => k f end.

Definition step_insn (i : insn) (f : sock_filter) (IP : Z) (St : State) (b : WorkingBuffer) :
    StepResult :=
  let next St b := Next (u32 (IP + 1)) St b in
  match i with
  | ILoad r s =>
      match load_code s (k f) b with
      | None => StepFault
      | Some v => next (match r with
                        | RA => {| A := v; X := X St |}
                        | RX => {| A := A St; X := v |}
                        end) b
      end
  | IStore r =>
      match write_scratch b (k f) (match r with RA => A St | RX => X St end) with
      | None => StepFault
      | Some b => next St b
      end
  | IAlu op s =>
      match alu_code op (A St) (src_of s f (X St)) with
      | None => Return 0 b
      | Some a => next {| A := a; X := X St |} b
      end
  | INeg => next {| A := u32 (- A St); X := X St |} b
  | IJump => Next (u32 (u32 (IP + k f) + 1)) St b
  | IBranch t s =>
      Next (u32 (u32 (IP + (if test_code t (A St) (src_of s f (X St)) then jt f else jf f)) + 1)) St b
  | IRet s => Return (match s with RetK => k f | RetX => X St | RetA => A St end) b
  | ITax => next {| A := A St; X := A St |} b
  | ITxa => next {| A := X St; X := X St |} b
  end.

Lemma ExecuteInst_decode f i IP St b :
  decode (code f) = Some i -> ExecuteInst f IP St b = step_insn i f IP St b.
Proof.
  destruct f as [c t e kk].
  unfold ExecuteInst, decode, load_value, alu_value, jump_distance. cbn [code jt jf k].
  destruct (fields_u8 c) as (-> & _ & -> & -> & -> & -> & ->).
  each_byte c; intros E; first [discriminate E | injection E as <-; try reflexivity].
  all: cbv [step_insn load_code k]; destruct (read_data _ _), (read_scratch _ _); reflexivity.
Qed.

Lemma alu_code_sem op a s : alu_code op a s = alu_sem op a s.
Proof.
  destruct op; cbn [alu_code alu_sem]; try done;
    try (case_decide; [subst; done|]; bool_lia; done);
    change 31 with (Z.ones 5); rewrite Z.land_ones by lia; change (2 ^ 5) with 32;
    pose proof (Z.mod_pos_bound s 32).
  - by rewrite Z.shiftl_mul_pow2 by lia.
  - by rewrite Z.shiftr_div_pow2 by lia.
Qed.

Lemma test_code_sem t a s : test_code t a s = test_sem t a s.
Proof.
  destruct t; cbn [test_code test_sem]; case_bool_decide; bool_lia; done.

Qed.

(** ** Safety of one step *)

Definition state_wf (St : State) : Prop := is_u 32 (A St) /\ is_u 32 (X St).

Lemma alu_sem_is_u op a s v : is_u 32 a -> is_u 32 s -> alu_sem op a s = Some v -> is_u 32 v.
Proof.
  intros Ha Hs E. pose proof (fun y => u_range 32 y ltac:(lia)) as R. unfold uwrap in R.
  destruct op; cbn [alu_sem] in E; repeat case_decide; simplify_eq; try apply R.
  - unfold is_u in *. split; [apply Z.div_pos; lia|]. apply Z.div_lt_upper_bound; nia.
  - unfold is_u in *. pose proof (Z.mod_pos_bound a s). lia.
  - by apply lor_u.
  - by apply land_u_r.
  - replace (Z.lxor a s) with (u32 (Z.lxor a s)) by zbits. by apply u_range.
  - unfold is_u in *. pose proof (Z.mod_pos_bound s 32).
    pose proof (pow2_pos (s mod 32) ltac:(lia)).
    split; [apply Z.div_pos; lia|]. apply Z.div_lt_upper_bound; nia.
Qed.

Lemma length_data_bytes d : data_wf d -> length (data_bytes d) = 64%nat.
Proof.
  unfold data_wf, data_bytes. intros H.
  by destruct (args d) as [|? [|? [|? [|? [|? [|? []]]]]]].
Qed.

Lemma data_bytes_is_u d : Forall (is_u 8) (data_bytes d).
Proof.
  unfold data_bytes. rewrite !Forall_app, Forall_concat, Forall_map.
  split_and!; try apply le_bytes_is_u. apply Forall_true. intros ?. apply le_bytes_is_u.
Qed.

Lemma le_val_is_u bs : Forall (is_u 8) bs -> is_u (8 * Z.of_nat (length bs)) (le_val bs).
Proof.
  induction 1 as [|b bs Hb _ IH]; [by unfold is_u|]. cbn [le_val length].
  replace (8 * Z.of_nat (S (length bs))) with (8 + 8 * Z.of_nat (length bs)) by lia.
  apply field_is_u; done || lia.
Qed.

Lemma word_at_is_u d off : is_u 32 (word_at d off).
Proof.
  unfold word_at. set (bs := take 4 _).
  assert (Forall (is_u 8) bs) as H by (apply Forall_take, Forall_drop, data_bytes_is_u).
  apply le_val_is_u in H. assert (length bs <= 4)%nat by (subst bs; rewrite length_take; lia).
  unfold is_u in *. pose proof (Z.pow_le_mono_r 2 (8 * Z.of_nat (length bs)) 32). lia.
Qed.

Lemma load_code_ok r s n i f b :
  buffer_wf b -> is_u 32 (k f) -> operands_ok n i f (ILoad r s) ->
  load_code s (k f) b = Some (load_sem s (k f) (Data b) (ScratchMemory b)) /\
  is_u 32 (load_sem s (k f) (Data b) (ScratchMemory b)).
Proof.
  intros (Hd & Hm & Hw) Hk Hop. destruct s; cbn [load_code load_sem operands_ok] in *.
  - done.
  - unfold read_data. rewrite length_data_bytes by done. unfold is_u in *. bool_lia.
    split; [done|apply word_at_is_u].
  - unfold read_scratch. unfold is_u in *. bool_lia.
    destruct (lookup_lt_is_Some_2 (ScratchMemory b) (Z.to_nat (k f))) as [v Hv]; [lia|].
    rewrite Hv. split; [done|]. by eapply Forall_lookup_1 in Hw.
  - by unfold SECCOMP_DATA_SIZE, is_u.
Qed.

Lemma write_scratch_ok b kk v :
  buffer_wf b -> 0 <= kk < 16 -> is_u 32 v ->
  write_scratch b kk v =
    Some {| Data := Data b; ScratchMemory := <[Z.to_nat kk := v]> (ScratchMemory b) |} /\
  buffer_wf {| Data := Data b; ScratchMemory := <[Z.to_nat kk := v]> (ScratchMemory b) |}.
Proof.
  intros (Hd & Hm & Hw) Hk Hv. unfold write_scratch. rewrite Hm. bool_lia.
  split; [done|]. unfold buffer_wf. cbn [Data ScratchMemory]. rewrite length_insert.
  split_and!; [done..|]. by apply Forall_insert.
Qed.

(** The two ways an iteration on an accepted instruction can end. *)
Definition step_spec (P : list sock_filter) (n i : Z) (St : State) (b : WorkingBuffer)
    (r : StepResult) : Prop :=
  match r with
  | Return v b' => b' = b /\ is_u 32 v /\
      eval P (Data b) i (A St) (X St) (ScratchMemory b) v (ScratchMemory b)
  | Next i' St' b' => i < i' < n /\ state_wf St' /\ buffer_wf b' /\ Data b' = Data b /\
      forall v m, eval P (Data b) i' (A St') (X St') (ScratchMemory b') v m ->
                  eval P (Data b) i (A St) (X St) (ScratchMemory b) v m
  | StepFault => False
  end.

Lemma step_ok P n i f x St b :
  is_u 16 n -> 0 <= i < n -> filter_at P i = Some f -> decode (code f) = Some x ->
  operands_ok n i f x -> filter_wf f -> (i = n - 1 -> exists s, x = IRet s) ->
  state_wf St -> buffer_wf b -> step_spec P n i St b (step_insn x f i St b).
Proof.
  intros Hn Hi Hf Hd Hop (_ & Ht & He & Hk) Hlast HSt Hb. pose proof HSt as [HA HX].
  assert (u32 (i + 1) = i + 1) as E1 by (apply u_small; unfold is_u in *; lia).
  assert (forall y, is_u 32 y -> i + 1 + y < n -> u32 (u32 (i + y) + 1) = i + 1 + y) as E2.
  { intros y ? ?. rewrite u_add_l, u_small by (unfold is_u in *; lia). lia. }
  assert ((exists s, x = IRet s) \/ i + 1 < n) as Hfall.
  { destruct (decide (i = n - 1)); [auto|right; lia]. }
  assert (forall s, is_u 32 (src_of s f (X St))) as Hsrc by (intros []; done).
  destruct x; cbn [step_insn]; try (destruct Hfall as [[? ?]|Hfall]; [discriminate|]).
  - destruct (load_code_ok r s n i f b Hb Hk Hop) as [-> Hv]. cbn [step_spec]. rewrite E1.
    split_and!; [lia|lia|destruct r; done|done|done|].
    intros v m H. eapply eval_load; [done..| |exact H]. by destruct r.
  - cbn [operands_ok] in Hop.
    destruct (write_scratch_ok b (k f) (match r with RA => A St | RX => X St end) Hb) as [-> Hb'];
      [unfold is_u in *; lia|by destruct r|]. cbn [step_spec]. rewrite E1.
    split_and!; [lia|lia|done|done|done|]. intros v m H. by eapply eval_store.
  - rewrite alu_code_sem. destruct (alu_sem op _ _) as [a|] eqn:Ea; cbn [step_spec]; rewrite ?E1.
    + split_and!; [lia|lia| |done|done|].
      * split; [exact (alu_sem_is_u _ _ _ _ HA (Hsrc s) Ea)|done].
      * intros v m H. by eapply eval_alu.
    + split_and!; [done|done|]. by eapply eval_div0.
  - cbn [step_spec]. rewrite E1. split_and!; [lia|lia| |done|done|].
    + split; [by apply u_range|done].
    + intros v m H. by eapply eval_neg.
  - cbn [step_spec operands_ok] in *. rewrite E2 by done.
    split_and!; [unfold is_u in *; lia|lia|done|done|done|]. intros v m H. by eapply eval_jump.
  - cbn [step_spec operands_ok] in *. rewrite test_code_sem, E2
      by (destruct (test_sem _ _ _); unfold is_u in *; lia).
    split_and!; [destruct (test_sem _ _ _); unfold is_u in *; lia|
                 destruct (test_sem _ _ _); unfold is_u in *; lia|done|done|done|].
    intros v m H. by eapply eval_branch.
  - cbn [step_spec]. split_and!; [done|by destruct s|]. by eapply eval_ret.
  - cbn [step_spec]. rewrite E1. split_and!; [lia|lia|done|done|done|].
    intros v m H. by eapply eval_tax.
  - cbn [step_spec]. rewrite E1. split_and!; [lia|lia|done|done|done|].
    intros v m H. by eapply eval_txa.
Qed.

Lemma ExecuteLoop_ok P n fuel i St b :
  is_u 16 n -> accepted P n -> Forall filter_wf P -> 0 <= i < n ->
  n - i <= Z.of_nat fuel -> state_wf St -> buffer_wf b ->
  exists v b', ExecuteLoop fuel P n i St b = Returned v b' /\ is_u 32 v /\ buffer_wf b' /\
    Data b' = Data b /\ eval P (Data b) i (A St) (X St) (ScratchMemory b) v (ScratchMemory b').
Proof.
  intros Hn [Hall (g & s & Hg & Hs)] Hwf. revert i St b.
  induction fuel as [|fuel IH]; intros i St b Hi Hfuel HSt Hb; [lia|].
  cbn [ExecuteLoop]. bool_lia. destruct (Hall i Hi) as (f & x & Hf & Hd & Hop). rewrite Hf.
  rewrite (ExecuteInst_decode f x) by done.
  assert (filter_wf f) as Hfw.
  { unfold filter_at in Hf. case_match; [done|]. by eapply Forall_lookup_1 in Hwf. }
  assert (i = n - 1 -> exists s, x = IRet s) as Hlast.
  { intros ->. rewrite Hg in Hf. injection Hf as ->. exists s. congruence. }
  pose proof (step_ok P n i f x St b Hn Hi Hf Hd Hop Hfw Hlast HSt Hb) as Hstep.
  destruct (step_insn x f i St b) as [i' St' b'|v b'|]; cbn [step_spec] in Hstep; [| |done].
  - destruct Hstep as (Hi' & HSt' & Hb' & Ed & Hev).
    destruct (IH i' St' b') as (v & b'' & -> & Hv & Hb'' & Ed' & Heval); [lia..|done|done|].
    exists v, b''. split_and!; [done..|congruence|]. apply Hev. by rewrite <- Ed.
  - destruct Hstep as (-> & Hv & Hev). by exists v, b.
Qed.

(** ** Whole programs *)

Lemma accepted_pos P n : accepted P n -> 0 < n.
Proof.
  intros [_ (f & s & Hf & _)]. unfold filter_at in Hf. case_match eqn:E; [done|].
  apply Z.ltb_ge in E. lia.
Qed.

Lemma Execute_accepted P n b :
  is_u 16 n -> accepted P n -> Forall filter_wf P -> buffer_wf b ->
  exists v b', Execute P n b = Returned v b' /\ is_u 32 v /\ buffer_wf b' /\ Data b' = Data b /\
    eval P (Data b) 0 0 0 (ScratchMemory b) v (ScratchMemory b').
Proof.
  intros Hn Hacc Hwf Hb. pose proof (accepted_pos _ _ Hacc).
  apply (ExecuteLoop_ok P n (Z.to_nat n) 0 {| A := 0; X := 0 |} b); try done; lia.
Qed.

(** The result of a filter is unique. *)
Lemma eval_det P d i a x m v1 m1 v2 m2 :
  eval P d i a x m v1 m1 -> eval P d i a x m v2 m2 -> v1 = v2 /\ m1 = m2.
Proof.
  intros H. revert v2 m2. induction H; intros w2 n2 Hother; inversion Hother; subst; simplify_eq; auto;
    match goal with
    | H : set_reg _ _ _ _ = (_, _), H' : set_reg _ _ _ _ = (_, _) |- _ =>
        rewrite H in H'; simplify_eq; auto
    | _ => idtac
    end.
Qed.

(** A filter's result depends on the data only through the words its data loads name. *)
Lemma eval_data_ext P d d' i a x m v m' :
  (forall f r, f ∈ P -> decode (code f) = Some (ILoad r FromData) ->
     word_at d (k f) = word_at d' (k f)) ->
  eval P d i a x m v m' -> eval P d' i a x m v m'.
Proof.
  intros Hw H. induction H.
  1: { eapply eval_load; [done..| |done].
       destruct s; try done. cbn [load_sem] in *.
       rewrite <- (Hw f r); [done| |done].
       unfold filter_at in *. case_match; [done|]. by eapply list_elem_of_lookup_2. }
  - by eapply eval_store.
  - by eapply eval_alu.
  - by eapply eval_div0.
  - by eapply eval_neg.
  - by eapply eval_jump.
  - by eapply eval_branch.
  - by eapply eval_ret.
  - by eapply eval_tax.
  - by eapply eval_txa.
Qed.

(** C23: A validated program always returns: [Execute] needs at most one step per instruction,
    never reads or writes outside of the program, of [seccomp_data] or of the scratch words,
    leaves the data alone and the scratch words 32-bit, and its 32-bit result is the one the
    instruction set's semantics gives. *)
Theorem Execute_correct p b :
  prog_wf p -> 0 < len p -> ValidateProgram p = Some 0 -> buffer_wf b ->
  exists v b', Execute (filter p) (len p) b = Returned v b' /\ is_u 32 v /\ buffer_wf b' /\
    Data b' = Data b /\
    forall w m, eval (filter p) (Data b) 0 0 0 (ScratchMemory b) w m <->
                w = v /\ m = ScratchMemory b'.
Proof.
  intros Hp Hpos Hv Hb. pose proof (ValidateProgram_spec p Hp Hpos) as [Hacc _].
  apply Hacc in Hv. pose proof Hp as (Hl & _ & Hwf).
  destruct (Execute_accepted (filter p) (len p) b Hl Hv Hwf Hb) as (v & b' & -> & Hv' & Hb' & Ed & He).
  exists v, b'. split_and!; [done..|]. intros w m. split.
  - intros Hw. by destruct (eval_det _ _ _ _ _ _ _ _ _ _ He Hw).
  - by intros [-> ->].
Qed.

(** A filter that allows system call 39 on x86-64 when its first argument is below a limit,
    through the scratch words and a jump. *)
Definition sample_filter : list sock_filter :=
  [ {| code := 0x20; jt := 0; jf := 0; k := 4 |};
    {| code := 0x15; jt := 0; jf := 6; k := 0xC000003E |};
    {| code := 0x20; jt := 0; jf := 0; k := 0 |};
    {| code := 0x02; jt := 0; jf := 0; k := 3 |};
    {| code := 0x61; jt := 0; jf := 0; k := 3 |};
    {| code := 0x20; jt := 0; jf := 0; k := 16 |};
    {| code := 0x35; jt := 1; jf := 0; k := 100 |};
    {| code := 0x06; jt := 0; jf := 0; k := 0x7fff0000 |};
    {| code := 0x06; jt := 0; jf := 0; k := 0x00050001 |} ].

Definition sample_prog : sock_fprog := {| len := 9; filter := sample_filter |}.

Definition sample_buffer : WorkingBuffer :=
  {| Data := {| nr := 39; arch := 0xC000003E; instruction_pointer := 0x401000;
                args := [7; 0; 0; 0; 0; 0] |};
     ScratchMemory := repeat 0 16 |}.

Lemma sample_prog_wf : prog_wf sample_prog.
Proof. unfold prog_wf, filter_wf, is_u. split_and!; try done. repeat constructor; done. Qed.

Lemma sample_buffer_wf : buffer_wf sample_buffer.
Proof. split_and!; [done..|]. repeat constructor; done. Qed.


Lemma Execute_correct_witness :
  Execute sample_filter 9 sample_buffer =
    Returned 0x7fff0000 {| Data := Data sample_buffer;
                           ScratchMemory := <[3%nat := 39]> (repeat 0 16) |} /\
  eval sample_filter (Data sample_buffer) 0 0 0 (repeat 0 16) 0x7fff0000 (<[3%nat := 39]> (repeat 0 16)).
Proof.
  split; [vm_compute; reflexivity|].
  destruct (Execute_correct sample_prog sample_buffer sample_prog_wf eq_refl
              ltac:(vm_compute; reflexivity) sample_buffer_wf) as (v & b' & E & _ & _ & _ & H).
  vm_compute in E. injection E as <- <-. apply H. split; reflexivity.
Defined.

End BPF.
