(* ===== verification/Seccomp.v ===== *)
(** * The seccomp emulator

    Source/Tools/LinuxEmulation/LinuxSyscalls/Seccomp/SeccompEmulator.cpp and the seccomp
    members of [ThreadStateObject] (ThreadManager.h).  The installed filters live in a map from
    addresses to [SeccompFilterInfo] (the stable list nodes), threads refer to them by
    address; [None] is an access through a null or dangling pointer or outside of an array.
    The kernel's answers ([prctl(PR_GET_NO_NEW_PRIVS)], the address a new list node gets, the
    guest RIP that [RestoreRIPFromHostPC] reconstructs) are arguments of the operations; the
    signals and audit lines an action sends are the [Event]s it returns. *)

From S2P Require Import Prelude BPF.
Import BPF.

Module Seccomp.

(** ** Constants of the kernel interface *)

Abbreviation SECCOMP_RET_ACTION_FULL := 0xffff0000.
Abbreviation SECCOMP_RET_DATA := 0x0000ffff.
Abbreviation SECCOMP_RET_KILL_PROCESS := 0x80000000.
Abbreviation SECCOMP_RET_KILL_THREAD := 0x00000000.
Abbreviation SECCOMP_RET_TRAP := 0x00030000.
Abbreviation SECCOMP_RET_ERRNO := 0x00050000.
Abbreviation SECCOMP_RET_USER_NOTIF := 0x7fc00000.
Abbreviation SECCOMP_RET_TRACE := 0x7ff00000.
Abbreviation SECCOMP_RET_LOG := 0x7ffc0000.
Abbreviation SECCOMP_RET_ALLOW := 0x7fff0000.
Abbreviation SECCOMP_MODE_DISABLED := 0.
Abbreviation SECCOMP_MODE_STRICT := 1.
Abbreviation SECCOMP_MODE_FILTER := 2.
Abbreviation SECCOMP_SET_MODE_STRICT := 0.
Abbreviation SECCOMP_SET_MODE_FILTER := 1.
Abbreviation SECCOMP_GET_ACTION_AVAIL := 2.
Abbreviation SECCOMP_GET_NOTIF_SIZES := 3.
Abbreviation SECCOMP_FILTER_FLAG_TSYNC := 1.
Abbreviation SECCOMP_FILTER_FLAG_LOG := 2.
Abbreviation SECCOMP_FILTER_FLAG_SPEC_ALLOW := 4.
Abbreviation SECCOMP_FILTER_FLAG_NEW_LISTENER := 8.
Abbreviation SECCOMP_FILTER_FLAG_TSYNC_ESRCH := 16.
Abbreviation AUDIT_ARCH_X86_64 := 0xC000003E.
Abbreviation AUDIT_ARCH_I386 := 0x40000003.
Abbreviation BPF_MAXINSNS := 4096.
Abbreviation SIGKILL := 9.
Abbreviation SIGSYS := 31.
Abbreviation ESRCH := 3.
Abbreviation ENOMEM := 12.
Abbreviation EACCES := 13.
Abbreviation EFAULT := 14.
Abbreviation ENOSYS := 38.
Abbreviation EOPNOTSUPP := 95.

Definition BPF_MULTIFILTERPENALTY : Z := 4.
Definition BPF_MAX_INSNS_PER_PATH : Z := 32768.
Definition MAX_CACHED_NR : Z := 512.
Definition RIP_WAYS : Z := 64.

(** ** State *)

Record SeccompFilterInfo := mkFilter {
  Program : list sock_filter;
  RefCount : Z;
  FilterInstructions : Z;
  ShouldLog : bool;
  ReadsIP : bool;
  ReadsArgs : bool;
}.

Inductive CacheMode := CacheNone | NrOnly | NrRIP.

Record RIPEntry := { RIP : Z; NrPlusOne : Z }.

Record SeccompVerdictCache := mkCache {
  Generation : Z;
  Mode : CacheMode;
  NeedsRIP : bool;
  AllowedNrs : list Z;
  RIPAllowed : list RIPEntry;
}.

Record ThreadStateObject := mkThread {
  TID : Z;
  SeccompMode : Z;
  T_Filters : list Z;
  SeccompCache : SeccompVerdictCache;
}.

Record SeccompEmulator := mkEmulator {
  NeedsSeccomp : bool;
  Is64BitMode : bool;
  CurrentKillSignal : Z;
  TotalFilterInstructions : Z;
  Filters : gmap Z SeccompFilterInfo;
  FilterGeneration : Z;
  AuditSerial : Z;
  Threads : list ThreadStateObject;
}.

Definition empty_cache : SeccompVerdictCache :=
  mkCache 0 CacheNone false (repeat 0 (Z.to_nat (MAX_CACHED_NR / 64)))
    (repeat {| RIP := 0; NrPlusOne := 0 |} (Z.to_nat RIP_WAYS)).

Definition new_thread (tid : Z) : ThreadStateObject :=
  mkThread tid SECCOMP_MODE_DISABLED [] empty_cache.

(** Assignments to a member. *)
Definition set_RefCount (f : SeccompFilterInfo) (n : Z) : SeccompFilterInfo :=
  mkFilter (Program f) n (FilterInstructions f) (ShouldLog f) (ReadsIP f) (ReadsArgs f).
Definition set_T_Filters (t : ThreadStateObject) (fs : list Z) : ThreadStateObject :=
  mkThread (TID t) (SeccompMode t) fs (SeccompCache t).
Definition set_SeccompMode (t : ThreadStateObject) (m : Z) : ThreadStateObject :=
  mkThread (TID t) m (T_Filters t) (SeccompCache t).
Definition set_SeccompCache (t : ThreadStateObject) (c : SeccompVerdictCache) : ThreadStateObject :=
  mkThread (TID t) (SeccompMode t) (T_Filters t) c.
Definition set_Filters (em : SeccompEmulator) (fs : gmap Z SeccompFilterInfo) : SeccompEmulator :=
  mkEmulator (NeedsSeccomp em) (Is64BitMode em) (CurrentKillSignal em)
    (TotalFilterInstructions em) fs (FilterGeneration em) (AuditSerial em) (Threads em).
Definition set_Threads (em : SeccompEmulator) (ts : list ThreadStateObject) : SeccompEmulator :=
  mkEmulator (NeedsSeccomp em) (Is64BitMode em) (CurrentKillSignal em)
    (TotalFilterInstructions em) (Filters em) (FilterGeneration em) (AuditSerial em) ts.
Definition set_AuditSerial (em : SeccompEmulator) (n : Z) : SeccompEmulator :=
  mkEmulator (NeedsSeccomp em) (Is64BitMode em) (CurrentKillSignal em)
    (TotalFilterInstructions em) (Filters em) (FilterGeneration em) n (Threads em).
Definition set_KillSignal (em : SeccompEmulator) (s : Z) : SeccompEmulator :=
  mkEmulator (NeedsSeccomp em) (Is64BitMode em) s
    (TotalFilterInstructions em) (Filters em) (FilterGeneration em) (AuditSerial em) (Threads em).

(** [em] with thread [i] replaced. *)
Definition set_Thread (em : SeccompEmulator) (i : nat) (t : ThreadStateObject) : SeccompEmulator :=
  set_Threads em (<[i := t]> (Threads em)).

(** The filter behind a pointer. *)
Definition deref (fs : gmap Z SeccompFilterInfo) (p : Z) : option SeccompFilterInfo :=
  if p =? 0 then None else fs !! p.

(** The [RefCount] of the filters [ps], one after the other, moved by [d] (1 or -1). *)
Fixpoint add_refs (d : Z) (ps : list Z) (fs : gmap Z SeccompFilterInfo) :
    option (gmap Z SeccompFilterInfo) :=
  match ps with
  | [] => Some fs
  | p :: ps =>
      match deref fs p with
      | None => None
      | Some f => add_refs d ps (<[p := set_RefCount f (u64 (RefCount f + d))]> fs)
      end
  end.

(** ** Thread life cycle *)

Definition GetSeccomp (em : SeccompEmulator) (i : nat) : option Z :=
  if negb (NeedsSeccomp em) then Some (u64 (- EINVAL))
  else t ← Threads em !! i; Some (SeccompMode t).

Definition InheritSeccompFilters (em : SeccompEmulator) (Parent Child : nat) :
    option SeccompEmulator :=
  parent ← Threads em !! Parent;
  child ← Threads em !! Child;
  fs ← add_refs 1 (T_Filters parent) (Filters em);
  Some (set_Thread (set_Filters em fs) Child
          (set_SeccompMode (set_T_Filters child (T_Filters parent)) (SeccompMode parent))).

(** The loop over the thread's filters: null entries are skipped, and the flag records that
    a count dropped from 1. *)
Fixpoint ReleaseLoop (ps : list Z) (fs : gmap Z SeccompFilterInfo) (HasFiltersToDelete : bool) :
    option (gmap Z SeccompFilterInfo * bool) :=
  match ps with
  | [] => Some (fs, HasFiltersToDelete)
  | p :: ps =>
      if p =? 0 then ReleaseLoop ps fs HasFiltersToDelete else
      f ← deref fs p;
      ReleaseLoop ps (<[p := set_RefCount f (u64 (RefCount f - 1))]> fs)
        (HasFiltersToDelete || (RefCount f =? 1))
  end.

Definition FreeSeccompFilters (em : SeccompEmulator) (i : nat) : option SeccompEmulator :=
  t ← Threads em !! i;
  r ← ReleaseLoop (T_Filters t) (Filters em) false;
  let fs := if snd r : bool
            then base.filter (fun x : Z * SeccompFilterInfo => RefCount (snd x) <> 0) (fst r)
            else fst r in
  Some (set_Thread (set_Filters em fs) i (set_T_Filters t [])).

(** ** Filter analysis *)

Fixpoint AnalyzeLoop (prog : list sock_filter) (ReadsIP ReadsArgs : bool) : bool * bool :=
  match prog with
  | [] => (ReadsIP, ReadsArgs)
  | Inst :: prog =>
      let Class := BPF_CLASS (code Inst) in
      if negb (Class =? BPF_LD) && negb (Class =? BPF_LDX) then AnalyzeLoop prog ReadsIP ReadsArgs
      else
        let Mode := BPF_MODE (code Inst) in
        if (Mode =? BPF_IMM) || (Mode =? BPF_MEM) || (Mode =? BPF_LEN)
        then AnalyzeLoop prog ReadsIP ReadsArgs
        else if negb (Mode =? BPF_ABS) then (true, true)
        else if 16 <=? k Inst then AnalyzeLoop prog ReadsIP true
        else if 8 <=? k Inst then AnalyzeLoop prog true ReadsArgs
        else AnalyzeLoop prog ReadsIP ReadsArgs
  end.

(** [offsetof(seccomp_data, instruction_pointer)] is 8 and [offsetof(seccomp_data, args)] 16. *)
Definition AnalyzeFilterLoads (f : SeccompFilterInfo) : SeccompFilterInfo :=
  let r := AnalyzeLoop (Program f) false false in
  mkFilter (Program f) (RefCount f) (FilterInstructions f) (ShouldLog f) (fst r) (snd r).

(** ** Execution of the filters of a thread *)

Record ExecuteFilterResult := { EarlyReturn : bool; Result : Z }.

Inductive Event :=
| EvAudit (Serial Signal Arch Nr RIP Code : Z)
| EvUnblock (Mask : Z)
| EvUninstallHostHandler (Signal : Z)
| EvKill (Signal : Z)
| EvTgkill (Signal : Z)
| EvQueueSignal (si_signo si_errno si_code si_call_addr si_syscall si_arch : Z).

(** The signed 16-bit action that orders results. *)
Definition action_of (r : Z) : Z := s16 ((r &&& SECCOMP_RET_ACTION_FULL) >>> 16).

(** The loop over the filters, newest first; the accumulator is [SeccompResult] with
    [ShouldLog] once there is a result. *)
Fixpoint RunFilters (fs : gmap Z SeccompFilterInfo) (ps : list Z) (Buf : WorkingBuffer)
    (acc : option (Z * bool)) : option (option (Z * bool)) :=
  match ps with
  | [] => Some acc
  | p :: ps =>
      f ← deref fs p;
      let Buf := {| Data := Data Buf; ScratchMemory := repeat 0 16 |} in
      match Execute (Program f) (u32 (Z.of_nat (length (Program f)))) Buf with
      | Returned CurrentResult Buf =>
          RunFilters fs ps Buf
            (match acc with
             | None => Some (CurrentResult, ShouldLog f)
             | Some (SeccompResult, _) =>
                 if action_of CurrentResult <? action_of SeccompResult
                 then Some (CurrentResult, ShouldLog f) else acc
             end)
      | _ => None
      end
  end.

Definition AuditArch (em : SeccompEmulator) : Z :=
  if Is64BitMode em then AUDIT_ARCH_X86_64 else AUDIT_ARCH_I386.

Definition syscall_data (Arch rip : Z) (Args : list Z) : seccomp_data :=
  {| nr := s32 (nth 0 Args 0); arch := Arch; instruction_pointer := rip;
     args := [nth 1 Args 0; nth 2 Args 0; nth 3 Args 0; nth 4 Args 0; nth 5 Args 0; nth 6 Args 0] |}.

(** The logging and the action switch at the end of [ExecuteFilterSlow]; [rip] is what
    [GetRIP] returns. *)
Definition TakeAction (em : SeccompEmulator) (rip : Z) (Args : list Z) (SeccompResult : Z)
    (ShouldLog : bool) : SeccompEmulator * ExecuteFilterResult * list Event :=
  let Nr := nth 0 Args 0 in
  let Arch := AuditArch em in
  let ActionMasked := SeccompResult &&& SECCOMP_RET_ACTION_FULL in
  let DataMasked := SeccompResult &&& SECCOMP_RET_DATA in
  let '(em, log) :=
    if (ShouldLog && negb (ActionMasked =? SECCOMP_RET_ALLOW)) || (ActionMasked =? SECCOMP_RET_LOG)
    then
      let Signal :=
        if (ActionMasked =? SECCOMP_RET_KILL_PROCESS) || (ActionMasked =? SECCOMP_RET_KILL_THREAD)
        then CurrentKillSignal em
        else if ActionMasked =? SECCOMP_RET_TRAP then SIGSYS else 0 in
      (set_AuditSerial em (u64 (AuditSerial em + 1)),
       [EvAudit (AuditSerial em) Signal Arch Nr rip SeccompResult])
    else (em, []) in
  let proceed evs := (em, {| EarlyReturn := false; Result := 0 |}, log ++ evs) in
  if ActionMasked =? SECCOMP_RET_KILL_THREAD then
    proceed [EvUnblock (u64 (s32 (1 <<< (SIGSYS - 1)))); EvUninstallHostHandler SIGSYS;
             EvTgkill SIGSYS]
  else if ActionMasked =? SECCOMP_RET_TRAP then
    proceed [EvQueueSignal SIGSYS (s32 DataMasked) 1 rip (s32 Nr) Arch]
  else if ActionMasked =? SECCOMP_RET_ERRNO then
    (em, {| EarlyReturn := true; Result := u64 (- (Z.min DataMasked 4095)) |}, log)
  else if ActionMasked =? SECCOMP_RET_TRACE then
    (em, {| EarlyReturn := true; Result := u64 (- ENOSYS) |}, log)
  else if (ActionMasked =? SECCOMP_RET_USER_NOTIF) || (ActionMasked =? SECCOMP_RET_LOG) ||
          (ActionMasked =? SECCOMP_RET_ALLOW) then proceed []
  else
    let KillSignal := CurrentKillSignal em in
    proceed [EvUnblock (u64 (1 <<< (KillSignal - 1))); EvUninstallHostHandler KillSignal;
             EvKill KillSignal].

(** The slot of the direct-mapped table. *)
Definition rip_slot (rip Nr : Z) : nat :=
  Z.to_nat (((rip ^^^ (rip >>> 7)) ^^^ Nr) &&& (RIP_WAYS - 1)).

(** Recording an ALLOW verdict. *)
Definition cache_allow (Cache : SeccompVerdictCache) (rip Nr : Z) : option SeccompVerdictCache :=
  match Mode Cache with
  | NrOnly =>
      if Nr <? MAX_CACHED_NR then
        w ← AllowedNrs Cache !! Z.to_nat (Nr / 64);
        Some (mkCache (Generation Cache) (Mode Cache) (NeedsRIP Cache)
                (<[Z.to_nat (Nr / 64) := w ||| (1 <<< (Nr mod 64))]> (AllowedNrs Cache))
                (RIPAllowed Cache))
      else Some Cache
  | NrRIP =>
      _ ← RIPAllowed Cache !! rip_slot rip Nr;
      Some (mkCache (Generation Cache) (Mode Cache) (NeedsRIP Cache) (AllowedNrs Cache)
              (<[rip_slot rip Nr := {| RIP := rip; NrPlusOne := u64 (Nr + 1) |}]>
                 (RIPAllowed Cache)))
  | CacheNone => Some Cache
  end.

(** [HostRIP] is the guest RIP that [RestoreRIPFromHostPC] gives for the call. *)
Definition ExecuteFilterSlow (em : SeccompEmulator) (i : nat) (HostRIP : Z) (Args : list Z)
    (PrecomputedRIP : Z) (HaveRIP : bool) :
    option (SeccompEmulator * ExecuteFilterResult * list Event) :=
  t ← Threads em !! i;
  let Cache := SeccompCache t in
  let Nr := nth 0 Args 0 in
  let '(rip, RIPValid) :=
    if negb HaveRIP && NeedsRIP Cache then (HostRIP, true) else (PrecomputedRIP, HaveRIP) in
  r ← RunFilters (Filters em) (reverse (T_Filters t))
        {| Data := syscall_data (AuditArch em) rip Args; ScratchMemory := repeat 0 16 |} None;
  let '(SeccompResult, ShouldLog) := default (0, false) r in
  Cache ← (if (SeccompResult &&& SECCOMP_RET_ACTION_FULL) =? SECCOMP_RET_ALLOW
           then cache_allow Cache rip Nr else Some Cache);
  Some (TakeAction (set_Thread em i (set_SeccompCache t Cache))
          (if RIPValid then rip else HostRIP) Args SeccompResult ShouldLog).

(** [Cache.Mode] and [Cache.NeedsRIP] for a set of filters. *)
Definition mode_for (AnyArgs AnyIP : bool) : CacheMode :=
  if AnyArgs then CacheNone else if AnyIP then NrRIP else NrOnly.

Fixpoint any_reads (fs : gmap Z SeccompFilterInfo) (ps : list Z) (AnyArgs AnyIP : bool) :
    option (bool * bool) :=
  match ps with
  | [] => Some (AnyArgs, AnyIP)
  | p :: ps => f ← deref fs p; any_reads fs ps (AnyArgs || ReadsArgs f) (AnyIP || ReadsIP f)
  end.

(** The cache revalidated against the current generation. *)
Definition RevalidateCache (em : SeccompEmulator) (t : ThreadStateObject) :
    option SeccompVerdictCache :=
  if negb (Generation (SeccompCache t) =? FilterGeneration em) then
    r ← any_reads (Filters em) (T_Filters t) false false;
    let '(AnyArgs, AnyIP) := r in
    Some (mkCache (FilterGeneration em) (mode_for AnyArgs AnyIP) AnyIP
            (AllowedNrs empty_cache) (RIPAllowed empty_cache))
  else Some (SeccompCache t).

Definition ExecuteFilter (em : SeccompEmulator) (i : nat) (HostRIP : Z) (Args : list Z) :
    option (SeccompEmulator * ExecuteFilterResult * list Event) :=
  t ← Threads em !! i;
  let allow em := Some (em, {| EarlyReturn := false; Result := 0 |}, []) in
  if bool_decide (T_Filters t = []) then allow em else
  Cache ← RevalidateCache em t;
  let em := set_Thread em i (set_SeccompCache t Cache) in
  let Nr := nth 0 Args 0 in
  match Mode Cache with
  | NrOnly =>
      if Nr <? MAX_CACHED_NR then
        w ← AllowedNrs Cache !! Z.to_nat (Nr / 64);
        if negb ((w &&& (1 <<< (Nr mod 64))) =? 0) then allow em
        else ExecuteFilterSlow em i HostRIP Args 0 false
      else ExecuteFilterSlow em i HostRIP Args 0 false
  | NrRIP =>
      Entry ← RIPAllowed Cache !! rip_slot HostRIP Nr;
      if (RIP Entry =? HostRIP) && (NrPlusOne Entry =? u64 (Nr + 1)) then allow em
      else ExecuteFilterSlow em i HostRIP Args HostRIP true
  | CacheNone => ExecuteFilterSlow em i HostRIP Args 0 false
  end.

(** ** Installation *)

(** The loop of [CanDoTSync] over the threads from index [j] on: the TID of the first thread
    that breaks the synchronisation, 0 when there is none. *)
Fixpoint CanDoTSync_loop (ts : list ThreadStateObject) (j self : nat) (ParentThread : ThreadStateObject) : Z :=
  match ts with
  | [] => 0
  | Thread :: ts =>
      if bool_decide (j = self) then CanDoTSync_loop ts (S j) self ParentThread
      else if SeccompMode Thread =? SECCOMP_MODE_DISABLED then CanDoTSync_loop ts (S j) self ParentThread
      else if negb (SeccompMode Thread =? SeccompMode ParentThread) then TID Thread
      else if negb (length (T_Filters Thread) =? length (T_Filters ParentThread))%nat then TID Thread
      else if existsb (fun p => negb (fst p =? snd p))
                (zip (T_Filters Thread) (T_Filters ParentThread)) then TID Thread
      else CanDoTSync_loop ts (S j) self ParentThread
  end.

Definition CanDoTSync (em : SeccompEmulator) (self : nat) : option Z :=
  ParentThread ← Threads em !! self;
  Some (CanDoTSync_loop (Threads em) 0 self ParentThread).

(** [TSyncFilters]: the old lists of the other threads are dropped without touching the
    counts, the parent's filters are counted once per thread. *)
Fixpoint TSyncFilters_loop (ts : list ThreadStateObject) (j self : nat)
    (ParentThread : ThreadStateObject) (fs : gmap Z SeccompFilterInfo) :
    option (list ThreadStateObject * gmap Z SeccompFilterInfo) :=
  match ts with
  | [] => Some ([], fs)
  | Thread :: ts =>
      if bool_decide (j = self) then
        r ← TSyncFilters_loop ts (S j) self ParentThread fs; Some (Thread :: fst r, snd r)
      else
        fs ← add_refs 1 (T_Filters ParentThread) fs;
        r ← TSyncFilters_loop ts (S j) self ParentThread fs;
        Some (set_SeccompMode (set_T_Filters Thread (T_Filters ParentThread))
                (SeccompMode ParentThread) :: fst r, snd r)
  end.

Definition TSyncFilters (em : SeccompEmulator) (self : nat) : option SeccompEmulator :=
  ParentThread ← Threads em !! self;
  r ← TSyncFilters_loop (Threads em) 0 self ParentThread (Filters em);
  Some (set_Threads (set_Filters em (snd r)) (fst r)).

(** The installation of a validated program: [addr] is the address of the new list node. *)
Definition InstallFilter (em : SeccompEmulator) (i : nat) (flags : Z) (prog : sock_fprog) (addr : Z) :
    option SeccompEmulator :=
  t ← Threads em !! i;
  let LoggingEnabled := negb ((flags &&& SECCOMP_FILTER_FLAG_LOG) =? 0) in
  let it := AnalyzeFilterLoads
    (mkFilter (take (Z.to_nat (len prog)) (filter prog)) 1 (len prog) LoggingEnabled false false) in
  let em := mkEmulator (NeedsSeccomp em) (Is64BitMode em) (CurrentKillSignal em)
    (u64 (TotalFilterInstructions em + len prog)) (<[addr := it]> (Filters em))
    (FilterGeneration em) (AuditSerial em)
    (<[i := set_SeccompMode (set_T_Filters t (T_Filters t ++ [addr])) SECCOMP_MODE_FILTER]>
       (Threads em)) in
  em ← (if negb ((flags &&& SECCOMP_FILTER_FLAG_TSYNC) =? 0) then TSyncFilters em i else Some em);
  Some (mkEmulator (NeedsSeccomp em) (Is64BitMode em) (CurrentKillSignal em)
          (TotalFilterInstructions em) (Filters em) (u64 (FilterGeneration em + 1))
          (AuditSerial em) (Threads em)).

Definition SUPPORTED_FLAGS : Z :=
  SECCOMP_FILTER_FLAG_TSYNC ||| SECCOMP_FILTER_FLAG_LOG ||| SECCOMP_FILTER_FLAG_SPEC_ALLOW |||
  SECCOMP_FILTER_FLAG_TSYNC_ESRCH.

(** [no_new_privs] is [prctl(PR_GET_NO_NEW_PRIVS)]; [prog = None] is a null pointer. *)
Definition SetModeFilter (em : SeccompEmulator) (i : nat) (flags : Z) (prog : option sock_fprog)
    (no_new_privs : Z) (addr : Z) : option (SeccompEmulator * Z) :=
  t ← Threads em !! i;
  let DoingTsync := negb ((flags &&& SECCOMP_FILTER_FLAG_TSYNC) =? 0) in
  if negb ((flags &&& u32 (Z.lnot SUPPORTED_FLAGS)) =? 0) then Some (em, u64 (- EINVAL)) else
  if negb ((flags &&& SECCOMP_FILTER_FLAG_TSYNC) =? 0) &&
     negb ((flags &&& SECCOMP_FILTER_FLAG_NEW_LISTENER) =? 0) &&
     ((flags &&& SECCOMP_FILTER_FLAG_TSYNC_ESRCH) =? 0) then Some (em, u64 (- EINVAL)) else
  match prog with
  | None => Some (em, u64 (- EFAULT))
  | Some prog =>
      if no_new_privs =? 0 then Some (em, u64 (- EACCES)) else
      if (BPF_MAXINSNS <? len prog) || (len prog =? 0) then Some (em, u64 (- EINVAL)) else
      let TotalFinalInstructions :=
        u64 (TotalFilterInstructions em + len prog +
             Z.of_nat (length (T_Filters t)) * BPF_MULTIFILTERPENALTY) in
      if BPF_MAX_INSNS_PER_PATH <? TotalFinalInstructions then Some (em, u64 (- ENOMEM)) else
      TSyncThread ← (if DoingTsync then CanDoTSync em i else Some 0);
      if DoingTsync && negb (TSyncThread =? 0) then
        if negb ((flags &&& SECCOMP_FILTER_FLAG_TSYNC_ESRCH) =? 0)
        then Some (em, u64 (- ESRCH)) else Some (em, TSyncThread)
      else
        Result ← ValidateProgram prog;
        if Result =? 0 then
          em ← InstallFilter em i flags prog addr; Some (em, Result)
        else Some (em, Result)
  end.

Definition BPF_STMT (c kk : Z) : sock_filter := {| code := c; jt := 0; jf := 0; k := kk |}.
Definition BPF_JUMP (c kk t f : Z) : sock_filter := {| code := c; jt := t; jf := f; k := kk |}.

Definition ALLOW_SYSCALL (n : Z) : list sock_filter :=
  [ BPF_JUMP (BPF_JMP + BPF_JEQ + BPF_K) n 0 1; BPF_STMT (BPF_RET + BPF_K) SECCOMP_RET_ALLOW ].

(** read, write, exit, exit_group, rt_sigreturn (and sigreturn) of the two guest ABIs. *)
Definition strict_syscalls (x64 : bool) : list Z :=
  if x64 then [0; 1; 60; 231; 15] else [3; 4; 1; 252; 173; 119].

Definition strict_filter (x64 : bool) : list sock_filter :=
  [ BPF_STMT (BPF_LD + BPF_W + BPF_ABS) 0 ] ++
  concat (map ALLOW_SYSCALL (strict_syscalls x64)) ++
  [ BPF_STMT (BPF_RET + BPF_K) SECCOMP_RET_KILL_PROCESS ].

Definition SetModeStrict (em : SeccompEmulator) (i : nat) (flags : Z) (arg_null : bool)
    (no_new_privs : Z) (addr : Z) : option (SeccompEmulator * Z) :=
  t ← Threads em !! i;
  if no_new_privs =? 0 then Some (em, u64 (- EACCES)) else
  if negb (flags =? 0) then Some (em, u64 (- EINVAL)) else
  if negb arg_null then Some (em, u64 (- EINVAL)) else
  if SeccompMode t =? SECCOMP_MODE_FILTER then Some (em, u64 (- EINVAL)) else
  let em := set_KillSignal em SIGKILL in
  let prog := {| len := Z.of_nat (length (strict_filter (Is64BitMode em)));
                 filter := strict_filter (Is64BitMode em) |} in
  r ← SetModeFilter em i 0 (Some prog) no_new_privs addr;
  t ← Threads (fst r) !! i;
  Some (set_Thread (fst r) i (set_SeccompMode t SECCOMP_MODE_STRICT), 0).

Definition GetActionAvail (flags : Z) (action : option Z) : Z :=
  if negb (flags =? 0) then u64 (- EINVAL) else
  match action with
  | None => u64 (- EFAULT)
  | Some a =>
      if (a =? SECCOMP_RET_KILL_PROCESS) || (a =? SECCOMP_RET_KILL_THREAD) ||
         (a =? SECCOMP_RET_TRAP) || (a =? SECCOMP_RET_ERRNO) || (a =? SECCOMP_RET_LOG) ||
         (a =? SECCOMP_RET_ALLOW) then 0 else u64 (- EOPNOTSUPP)
  end.

(** The sizes stored through the pointer, which a null pointer faults on. *)
Definition GetNotifSizes (flags : Z) (sizes_null : bool) : option (Z * option (Z * Z * Z)) :=
  if negb (flags =? 0) then Some (u64 (- EINVAL), None) else
  if sizes_null then None else Some (0, Some (80, 24, 64)).

(** The guest's argument pointer: whether it is null, and what the memory behind it holds as a
    program and as an action. *)
Record GuestArg := { arg_null : bool; as_prog : sock_fprog; as_action : Z }.

Definition Handle (em : SeccompEmulator) (i : nat) (Op flags : Z) (arg : GuestArg)
    (no_new_privs addr : Z) : option (SeccompEmulator * Z) :=
  let ptr {T} (x : T) := if arg_null arg then None else Some x in
  if negb (NeedsSeccomp em) then Some (em, u64 (- EINVAL))
  else if Op =? SECCOMP_SET_MODE_STRICT then
    SetModeStrict em i flags (arg_null arg) no_new_privs addr
  else if Op =? SECCOMP_SET_MODE_FILTER then
    SetModeFilter em i flags (ptr (as_prog arg)) no_new_privs addr
  else if Op =? SECCOMP_GET_ACTION_AVAIL then
    Some (em, GetActionAvail flags (ptr (as_action arg)))
  else if Op =? SECCOMP_GET_NOTIF_SIZES then
    r ← GetNotifSizes flags (arg_null arg); Some (em, fst r)
  else Some (em, u64 (- EINVAL)).

End Seccomp.
