(* ===== verification/SeccompCache.v ===== *)
(** * Seccomp verdicts and the verdict cache

    What a filter and a chain of filters decide by the semantics of their instructions, what
    the entries of a thread's verdict cache promise, and that the cached [ExecuteFilter]
    has the outcome of the uncached one. *)

From S2P Require Import Prelude BPF Seccomp.
Import BPF Seccomp.

(** ** What a filter computes *)

(** The parts of a filter that never change after its installation. *)
Record Body := {
  b_prog : list sock_filter;
  b_insns : Z;
  b_log : bool;
  b_ip : bool;
  b_args : bool;
}.

Definition body (f : SeccompFilterInfo) : Body :=
  {| b_prog := Program f; b_insns := FilterInstructions f; b_log := ShouldLog f;
     b_ip := ReadsIP f; b_args := ReadsArgs f |}.

Definition body_at (fs : gmap Z SeccompFilterInfo) (p : Z) : option Body := body <$> deref fs p.

Definition body_ok (b : Body) : Prop :=
  Z.of_nat (length (b_prog b)) <= 4096 /\
  accepted (b_prog b) (Z.of_nat (length (b_prog b))) /\ Forall filter_wf (b_prog b) /\
  AnalyzeLoop (b_prog b) false false = (b_ip b, b_args b) /\
  b_insns b = Z.of_nat (length (b_prog b)).

(** The result of a filter by the semantics of its instructions, from zeroed scratch words. *)
Definition value (b : Body) (d : seccomp_data) (v : Z) : Prop :=
  exists m, eval (b_prog b) d 0 0 0 (repeat 0 16) v m.

(** Two system calls that agree on the fields a filter reads. *)
Definition agree (ip as_ : bool) (d d' : seccomp_data) : Prop :=
  nr d = nr d' /\ arch d = arch d' /\
  (ip = true -> instruction_pointer d = instruction_pointer d') /\ (as_ = true -> args d = args d').

Lemma decode_data_load c r :
  decode c = Some (ILoad r FromData) ->
  (BPF_CLASS c = BPF_LD \/ BPF_CLASS c = BPF_LDX) /\ BPF_MODE c = BPF_ABS.
Proof.
  unfold decode. destruct (fields_u8 c) as (-> & _ & -> & _).
  each_byte c; intros E; try discriminate E; split; auto.
Qed.

(** The scan of a program notices every load of the instruction pointer and of the
    arguments. *)
Lemma AnalyzeLoop_sound prog ip as_ ip' as_' :
  AnalyzeLoop prog ip as_ = (ip', as_') ->
  (ip = true -> ip' = true) /\ (as_ = true -> as_' = true) /\
  forall f r, f ∈ prog -> decode (code f) = Some (ILoad r FromData) ->
    (16 <= k f -> as_' = true) /\ (8 <= k f < 16 -> ip' = true).
Proof.
  revert ip as_. induction prog as [|g prog IH]; intros ip as_ E; cbn [AnalyzeLoop] in E.
  { simplify_eq. split_and!; [done..|]. intros f r Hf. by apply elem_of_nil in Hf. }
  repeat case_match; to_prop; simplify_eq;
    try (split_and!; [done..|]; done);
    destruct (IH _ _ E) as (Hi & Ha & Hl); (split_and!; [tauto..|]);
    intros f r Hf Hd; apply elem_of_cons in Hf as [->|Hf]; try (by eapply Hl);
    pose proof (decode_data_load _ _ Hd) as [Hc Hm]; try lia; (split; intros; try tauto; try lia).
Qed.

(** A data load at offset [off] of a call only sees the fields at that offset. *)
Lemma word_at_agree d d' ip as_ off :
  agree ip as_ d d' -> (4 | off) -> 0 <= off < 64 -> data_wf d -> data_wf d' ->
  (16 <= off -> as_ = true) -> (8 <= off < 16 -> ip = true) ->
  word_at d off = word_at d' off.
Proof.
  intros (Hn & Ha & Hip & Has) Hal Hoff Hd Hd' H16 H8. unfold word_at, data_bytes.
  rewrite Hn, Ha. destruct (decide (16 <= off)).
  { rewrite Has by tauto. rewrite !drop_app_ge by (rewrite !length_le_bytes; lia).
    by rewrite !length_le_bytes. }
  destruct (decide (8 <= off)); [by rewrite Hip by (apply H8; lia);
    destruct Hal as [q Hq]; assert (off = 8 \/ off = 12) as [-> | ->] by lia|].
  destruct Hal as [q Hq]; by assert (off = 0 \/ off = 4) as [-> | ->] by lia.
Qed.

Lemma value_agree b d d' v :
  body_ok b -> agree (b_ip b) (b_args b) d d' -> data_wf d -> data_wf d' ->
  value b d v -> value b d' v.
Proof.
  intros (_ & [Hall _] & Hwf & Han & _) Hag Hd Hd' [m He]. exists m. revert He. apply eval_data_ext.
  intros f r Hf Hdec. destruct (AnalyzeLoop_sound _ _ _ _ _ Han) as (_ & _ & H).
  destruct (H f r Hf Hdec) as [H16 H8]. rewrite Forall_forall in Hwf.
  pose proof (Hwf f Hf) as (_ & _ & _ & Hk). apply list_elem_of_lookup in Hf as [j Hj].
  pose proof (lookup_lt_Some _ _ _ Hj) as Hlt.
  destruct (Hall (Z.of_nat j)) as (g & x & Hg & Hx & Hop); [lia|].
  unfold filter_at in Hg. rewrite (proj2 (Z.ltb_ge _ _)), Nat2Z.id, Hj in Hg by lia.
  injection Hg as <-. rewrite Hdec in Hx. injection Hx as <-. cbn [operands_ok] in Hop.
  unfold is_u in Hk. eapply word_at_agree; try done; tauto || lia.
Qed.

Lemma value_det b d v w : value b d v -> value b d w -> v = w.
Proof. intros [m H] [m' H']. by destruct (eval_det _ _ _ _ _ _ _ _ _ _ H H'). Qed.

Lemma zero_buffer_wf d : data_wf d -> buffer_wf {| Data := d; ScratchMemory := repeat 0 16 |}.
Proof. intros. split_and!; [done..|]. repeat constructor; done. Qed.

(** The interpreter computes it. *)
Lemma Execute_value b d :
  body_ok b -> data_wf d ->
  exists v b', Execute (b_prog b) (u32 (Z.of_nat (length (b_prog b))))
                 {| Data := d; ScratchMemory := repeat 0 16 |} = Returned v b' /\
    Data b' = d /\ is_u 32 v /\ value b d v.
Proof.
  intros (Hlen & Hacc & Hwf & _) Hd. rewrite u_small by (unfold is_u; lia).
  destruct (Execute_accepted (b_prog b) (Z.of_nat (length (b_prog b)))
              {| Data := d; ScratchMemory := repeat 0 16 |})
    as (v & b' & E & Hv & _ & Ed & He); [unfold is_u; lia|done|done|by apply zero_buffer_wf|].
  exists v, b'. split_and!; try done. eexists. exact He.
Qed.

(** ** What a chain of filters decides

    [chain_spec bs d r log]: of the filters [bs], newest first, [r] is the result of the
    first one whose action has the highest precedence, and [log] that filter's flag. *)
Definition chain_spec (bs : list Body) (d : seccomp_data) (r : Z) (log : bool) : Prop :=
  exists i b, bs !! i = Some b /\ value b d r /\ log = b_log b /\
    forall j c w, bs !! j = Some c -> value c d w ->
      action_of r <= action_of w /\ ((j < i)%nat -> action_of r < action_of w).

Lemma chain_spec_det bs d r log r' log' :
  chain_spec bs d r log -> chain_spec bs d r' log' -> r = r' /\ log = log'.
Proof.
  intros (i & b & Hb & Hv & -> & H) (i' & b' & Hb' & Hv' & -> & H').
  pose proof (H _ _ _ Hb' Hv') as [? ?]. pose proof (H' _ _ _ Hb Hv) as [? ?].
  assert (i = i') as <- by (destruct (Nat.lt_total i i') as [?|[?|?]]; [lia|done|lia]).
  rewrite Hb in Hb'. injection Hb' as <-. split; [by eapply value_det|done].
Qed.

Lemma chain_spec_agree bs d d' r log :
  Forall body_ok bs -> (forall b, b ∈ bs -> agree (b_ip b) (b_args b) d d') ->
  data_wf d -> data_wf d' -> chain_spec bs d r log -> chain_spec bs d' r log.
Proof.
  intros Hok Hag Hd Hd' (i & b & Hb & Hv & -> & H). rewrite Forall_forall in Hok.
  assert (forall j c, bs !! j = Some c -> c ∈ bs) as Hin
    by (intros; by eapply list_elem_of_lookup_2).
  exists i, b. split_and!; [done| |done|].
  - eapply value_agree; [..|exact Hv]; eauto.
  - intros j c w Hc Hw. apply (H j c w Hc).
    destruct (Hag c (Hin _ _ Hc)) as (? & ? & Hip & Has).
    eapply value_agree; [by eauto| |exact Hd'|exact Hd|exact Hw].
    split_and!; [done..| |]; intros E; symmetry; auto.
Qed.

Lemma chain_spec_one b d r : value b d r -> chain_spec [b] d r (b_log b).
Proof.
  intros Hv. exists 0%nat, b. split_and!; [done..|]. intros [|j] c w Hc Hw; [|done].
  injection Hc as <-. rewrite (value_det _ _ _ _ Hw Hv). lia.
Qed.

Lemma chain_spec_snoc bs d r log b v :
  chain_spec bs d r log -> value b d v ->
  if action_of v <? action_of r then chain_spec (bs ++ [b]) d v (b_log b)
  else chain_spec (bs ++ [b]) d r log.
Proof.
  intros (i & c & Hc & Hv & -> & H) Hb. pose proof (lookup_lt_Some _ _ _ Hc) as Hi.
  assert (forall j c' w, (bs ++ [b]) !! j = Some c' -> value c' d w ->
            bs !! j = Some c' /\ (j < length bs)%nat \/ j = length bs /\ c' = b /\ w = v) as Hcase.
  { intros j c' w Hj Hw. apply lookup_snoc_Some in Hj as [[? ?]|[-> <-]]; [by left|right].
    split_and!; [done..|]. by eapply value_det. }
  destruct (Z.ltb_spec (action_of v) (action_of r)).
  - exists (length bs), b. rewrite lookup_app_r, Nat.sub_diag by lia. split_and!; [done..|].
    intros j c' w Hj Hw. destruct (Hcase j c' w Hj Hw) as [[Hj' ?]|(-> & -> & ->)]; [|lia].
    pose proof (H _ _ _ Hj' Hw). lia.
  - exists i, c. rewrite lookup_app_l by lia. split_and!; [done..|].
    intros j c' w Hj Hw. destruct (Hcase j c' w Hj Hw) as [[Hj' ?]|(-> & -> & ->)]; [|lia].
    by eapply H.
Qed.

(** The live filters behind a list of pointers. *)
Abbreviation bodies fs ps := (mapM (body_at fs) ps).

Lemma body_at_Some fs p b :
  body_at fs p = Some b -> exists f, deref fs p = Some f /\ b = body f.
Proof. unfold body_at. intros (f & -> & ?)%fmap_Some. eauto. Qed.

Lemma RunFilters_acc fs ps bs0 bs d m r log :
  bodies fs ps = Some bs -> Forall body_ok bs -> data_wf d -> chain_spec bs0 d r log ->
  exists r' log', RunFilters fs ps {| Data := d; ScratchMemory := m |} (Some (r, log)) =
                    Some (Some (r', log')) /\
    chain_spec (bs0 ++ bs) d r' log'.
Proof.
  intros Hbs Hok Hd. revert bs0 bs m r log Hbs Hok.
  induction ps as [|p ps IH]; intros bs0 bs m r log Hbs Hok Hc.
  { injection Hbs as <-. rewrite app_nil_r. by exists r, log. }
  cbn [mapM] in Hbs. apply bind_Some in Hbs as (b & Hb & Hbs).
  apply bind_Some in Hbs as (bs' & Hbs' & [= <-]). apply Forall_cons in Hok as [Hb_ok Hok].
  destruct (body_at_Some _ _ _ Hb) as (f & Hf & ->). cbn [RunFilters Data]. rewrite Hf. cbn [mbind option_bind].
  destruct (Execute_value (body f) d Hb_ok Hd) as (v & b' & E & Ed & _ & Hv).
  cbn [body b_prog] in E. rewrite E. destruct b' as [d' m']. cbn [Data] in Ed. subst d'.
  pose proof (chain_spec_snoc bs0 d r log (body f) v Hc Hv) as Hc'.
  replace (bs0 ++ body f :: bs') with ((bs0 ++ [body f]) ++ bs') by (by rewrite <- app_assoc).
  destruct (action_of v <? action_of r); by apply IH.
Qed.

Lemma RunFilters_spec fs ps bs d m :
  bodies fs ps = Some bs -> Forall body_ok bs -> data_wf d -> ps <> [] ->
  exists r log, RunFilters fs ps {| Data := d; ScratchMemory := m |} None = Some (Some (r, log)) /\
    chain_spec bs d r log.
Proof.
  destruct ps as [|p ps]; [done|]. intros Hbs Hok Hd _.
  cbn [mapM] in Hbs. apply bind_Some in Hbs as (b & Hb & Hbs).
  apply bind_Some in Hbs as (bs' & Hbs' & [= <-]). apply Forall_cons in Hok as [Hb_ok Hok].
  destruct (body_at_Some _ _ _ Hb) as (f & Hf & ->). cbn [RunFilters Data]. rewrite Hf. cbn [mbind option_bind].
  destruct (Execute_value (body f) d Hb_ok Hd) as (v & b' & E & Ed & _ & Hv).
  cbn [body b_prog] in E. rewrite E. destruct b' as [d' m']. cbn [Data] in Ed. subst d'.
  destruct (RunFilters_acc fs ps [body f] bs' d m' v (ShouldLog f) Hbs' Hok Hd)
    as (r & log & -> & Hc); [by apply chain_spec_one|]. by exists r, log.
Qed.

(** ** The verdict cache *)

(** The filters [bs] (oldest first) allow the call. *)
Definition allowed (Arch : Z) (bs : list Body) (rip : Z) (Args : list Z) : Prop :=
  exists r log, chain_spec (reverse bs) (syscall_data Arch rip Args) r log /\
    r &&& SECCOMP_RET_ACTION_FULL = SECCOMP_RET_ALLOW.

(** What the entries of a cache built for [bs] promise. *)
Definition cache_valid (Arch : Z) (bs : list Body) (c : SeccompVerdictCache) : Prop :=
  Mode c = mode_for (existsb b_args bs) (existsb b_ip bs) /\ NeedsRIP c = existsb b_ip bs /\
  (Mode c = NrOnly -> forall rip Args w, 0 <= nth 0 Args 0 < MAX_CACHED_NR ->
     AllowedNrs c !! Z.to_nat (nth 0 Args 0 / 64) = Some w ->
     Z.testbit w (nth 0 Args 0 mod 64) = true -> allowed Arch bs rip Args) /\
  (Mode c = NrRIP -> forall e Args, e ∈ RIPAllowed c -> is_u 64 (nth 0 Args 0) ->
     NrPlusOne e = u64 (nth 0 Args 0 + 1) -> RIP e <> 0 \/ NrPlusOne e <> 0 ->
     allowed Arch bs (RIP e) Args).

Definition cache_shape (c : SeccompVerdictCache) : Prop :=
  length (AllowedNrs c) = 8%nat /\ length (RIPAllowed c) = 64%nat.

Lemma data_wf_syscall Arch rip Args : data_wf (syscall_data Arch rip Args).
Proof. done. Qed.

Lemma existsb_false {T} (f : T -> bool) l x : existsb f l = false -> x ∈ l -> f x = false.
Proof.
  intros H Hx. destruct (f x) eqn:E; [|done].
  rewrite <- H. symmetry. apply existsb_exists. exists x. by rewrite <- list_elem_of_In.
Qed.

(** A verdict carries over to the calls the cache cannot tell apart. *)
Lemma allowed_agree Arch bs rip Args rip' Args' :
  Forall body_ok bs -> nth 0 Args 0 = nth 0 Args' 0 ->
  (existsb b_ip bs = true -> rip = rip') ->
  (existsb b_args bs = true -> Args = Args') ->
  allowed Arch bs rip Args -> allowed Arch bs rip' Args'.
Proof.
  intros Hok Hnr Hip Has (r & log & Hc & Hr). exists r, log. split; [|done].
  apply (chain_spec_agree _ (syscall_data Arch rip Args)); [by apply Forall_reverse| |done..].
  intros b Hb. rewrite elem_of_reverse in Hb. unfold agree, syscall_data; cbn [nr arch instruction_pointer args].
  rewrite Hnr. split_and!; [done..| |].
  - intros E. apply Hip. apply existsb_exists. exists b. by rewrite <- list_elem_of_In.
  - intros E. rewrite Has; [done|]. apply existsb_exists. exists b. by rewrite <- list_elem_of_In.
Qed.

Lemma mode_NrOnly a i : mode_for a i = NrOnly -> a = false /\ i = false.
Proof. by destruct a, i. Qed.
Lemma mode_NrRIP a i : mode_for a i = NrRIP -> a = false /\ i = true.
Proof. by destruct a, i. Qed.

Lemma empty_cache_valid Arch bs g :
  cache_valid Arch bs (mkCache g (mode_for (existsb b_args bs) (existsb b_ip bs)) (existsb b_ip bs)
                        (AllowedNrs empty_cache) (RIPAllowed empty_cache)).
Proof.
  unfold cache_valid; cbn [Mode NeedsRIP AllowedNrs RIPAllowed]. split_and!; [done..| |].
  - intros _ rip Args w Hn Hw Hb. cbn [empty_cache AllowedNrs] in Hw.
    apply list_elem_of_lookup_2, list_elem_of_In, repeat_spec in Hw. subst w.
    by rewrite Z.bits_0 in Hb.
  - intros _ e Args He Hn Hp Hz. cbn [empty_cache RIPAllowed] in He.
    apply list_elem_of_In, repeat_spec in He. subst e. cbn [RIP NrPlusOne] in *. lia.
Qed.

Lemma any_reads_spec fs ps bs a i :
  bodies fs ps = Some bs ->
  any_reads fs ps a i = Some (a || existsb b_args bs, i || existsb b_ip bs).
Proof.
  revert bs a i. induction ps as [|p ps IH]; intros bs a i Hbs.
  { injection Hbs as <-. cbn [any_reads existsb]. by rewrite !orb_false_r. }
  cbn [mapM] in Hbs. apply bind_Some in Hbs as (b & Hb & Hbs).
  apply bind_Some in Hbs as (bs' & Hbs' & [= <-]).
  destruct (body_at_Some _ _ _ Hb) as (f & Hf & ->). cbn [any_reads existsb]. rewrite Hf.
  cbn [mbind option_bind]. rewrite (IH bs') by done. cbn [body b_args b_ip].
  by rewrite <- !orb_assoc.
Qed.

Lemma rip_slot_lt rip Nr : (rip_slot rip Nr < 64)%nat.
Proof.
  unfold rip_slot, RIP_WAYS. change (64 - 1) with (Z.ones 6). rewrite Z.land_ones by lia.
  pose proof (Z.mod_pos_bound (rip ^^^ (rip >>> 7) ^^^ Nr) (2 ^ 6)). lia.
Qed.

(** Recording an ALLOW verdict keeps a valid cache valid. *)
Lemma cache_allow_valid Arch bs c rip Args :
  Forall body_ok bs -> cache_valid Arch bs c -> cache_shape c -> is_u 64 (nth 0 Args 0) ->
  allowed Arch bs rip Args ->
  exists c', cache_allow c rip (nth 0 Args 0) = Some c' /\ cache_valid Arch bs c' /\
    cache_shape c' /\ Generation c' = Generation c.
Proof.
  intros Hok Hv [Hl1 Hl2] HN Hall. pose proof Hv as (Hm & Hr & Honly & Hrip).
  unfold cache_allow. destruct (Mode c) eqn:Em.
  - exists c. by rewrite <- Em in *.
  - destruct (Z.ltb_spec (nth 0 Args 0) MAX_CACHED_NR) as [Hlt|]; [|by exists c].
    unfold MAX_CACHED_NR, is_u in *.
    destruct (lookup_lt_is_Some_2 (AllowedNrs c) (Z.to_nat (nth 0 Args 0 / 64))) as [w Hw].
    { rewrite Hl1. pose proof (Z.div_lt_upper_bound (nth 0 Args 0) 64 8). lia. }
    rewrite Hw. cbn [mbind option_bind]. eexists. split; [done|].
    unfold cache_valid, cache_shape; cbn [Mode NeedsRIP AllowedNrs RIPAllowed Generation].
    rewrite length_insert. split_and!; try done.
    intros _ rip' Args' w' HN' Hw' Hb'. unfold MAX_CACHED_NR in *.
    destruct (mode_NrOnly _ _ (eq_sym Hm)) as [Ea Ei].
    assert (nth 0 Args 0 = nth 0 Args' 0 -> allowed Arch bs rip' Args') as Hsame.
    { intros En. eapply allowed_agree; [done|exact En|rewrite Ei|rewrite Ea|exact Hall]; done. }
    destruct (decide (nth 0 Args' 0 / 64 = nth 0 Args 0 / 64)) as [Eq|Ne].
    + rewrite Eq, list_lookup_insert_eq in Hw' by (by eapply lookup_lt_Some).
      injection Hw' as <-. rewrite Z.lor_spec in Hb'. apply orb_true_iff in Hb' as [Hb'|Hb'].
      { by apply (Honly eq_refl rip' Args' w); rewrite ?Eq. }
      rewrite Z.shiftl_spec in Hb' by (apply Z.mod_pos_bound; lia).
      apply Hsame. destruct (decide (nth 0 Args' 0 mod 64 = nth 0 Args 0 mod 64)) as [Eq'|Ne'].
      { rewrite (Z.div_mod (nth 0 Args 0) 64), (Z.div_mod (nth 0 Args' 0) 64) by lia. lia. }
      exfalso. destruct (Z.ltb_spec (nth 0 Args' 0 mod 64 - nth 0 Args 0 mod 64) 0).
      * by rewrite Z.testbit_neg_r in Hb' by lia.
      * rewrite (testbit_high 1 1) in Hb' by (unfold is_u; lia). done.
    + rewrite list_lookup_insert_ne in Hw'; [by eapply Honly|].
      intros E. apply Ne. apply Z2Nat.inj in E; [lia|apply Z.div_pos; lia..].
  - pose proof (rip_slot_lt rip (nth 0 Args 0)) as Hs.
    destruct (lookup_lt_is_Some_2 (RIPAllowed c) (rip_slot rip (nth 0 Args 0))) as [e0 He0]; [lia|].
    rewrite He0. cbn [mbind option_bind]. eexists. split; [done|].
    unfold cache_valid, cache_shape; cbn [Mode NeedsRIP AllowedNrs RIPAllowed Generation].
    rewrite length_insert. split_and!; try done.
    intros _ e Args' He HN' Hp Hz. destruct (mode_NrRIP _ _ (eq_sym Hm)) as [Ea Ei].
    apply list_elem_of_lookup in He as [j Hj].
    destruct (decide (j = rip_slot rip (nth 0 Args 0))) as [->|Hne].
    + rewrite list_lookup_insert_eq in Hj by lia. injection Hj as <-. cbn [RIP NrPlusOne] in *.
      eapply allowed_agree; [done| |done| |exact Hall].
      * unfold is_u, uwrap in *. destruct (decide (nth 0 Args 0 + 1 = 2 ^ 64)) as [E1|],
          (decide (nth 0 Args' 0 + 1 = 2 ^ 64)) as [E2|]; try lia.
        -- rewrite E1, Z.mod_same, (Z.mod_small (nth 0 Args' 0 + 1)) in Hp by lia. lia.
        -- rewrite E2, Z.mod_same, (Z.mod_small (nth 0 Args 0 + 1)) in Hp by lia. lia.
        -- rewrite !Z.mod_small in Hp by lia. lia.
      * by rewrite Ea.
    + rewrite list_lookup_insert_ne in Hj by done.
      apply (Hrip eq_refl); [by eapply list_elem_of_lookup_2|done..].
Qed.

(** ** The cached execution implements the uncached one *)

Lemma TakeAction_thread em i t rip Args r log :
  TakeAction (set_Thread em i t) rip Args r log =
  let '(em1, res, evs) := TakeAction em rip Args r log in (set_Thread em1 i t, res, evs).
Proof. unfold TakeAction. destruct em. by repeat case_match; simplify_eq. Qed.

(** An action changes nothing but the audit serial. *)
Lemma TakeAction_state em rip Args r log :
  exists n, fst (fst (TakeAction em rip Args r log)) = set_AuditSerial em n.
Proof.
  unfold TakeAction. destruct em.
  repeat case_match; simplify_eq; cbn [fst]; by eexists.
Qed.

Lemma TakeAction_allow em rip Args r log :
  r &&& SECCOMP_RET_ACTION_FULL = SECCOMP_RET_ALLOW ->
  TakeAction em rip Args r log = (em, {| EarlyReturn := false; Result := 0 |}, []).
Proof. intros E. unfold TakeAction. rewrite E. by destruct log. Qed.

Lemma bodies_reverse fs ps bs :
  bodies fs ps = Some bs -> bodies fs (reverse ps) = Some (reverse bs).
Proof. rewrite !mapM_Some. apply Forall2_reverse. Qed.

Lemma set_Thread_twice em i t t' : set_Thread (set_Thread em i t) i t' = set_Thread em i t'.
Proof. unfold set_Thread, set_Threads. cbn. by rewrite list_insert_insert_eq. Qed.

Lemma set_Thread_lookup em i t t' :
  Threads em !! i = Some t -> Threads (set_Thread em i t') !! i = Some t'.
Proof. intros H. apply list_lookup_insert_eq. by eapply lookup_lt_Some. Qed.

(** The outcome the filters [bs] of a thread prescribe for a call, with the cache left in a
    valid state. *)
Definition executes (em : SeccompEmulator) (i : nat) (t : ThreadStateObject) (bs : list Body)
    (HostRIP : Z) (Args : list Z)
    (out : option (SeccompEmulator * ExecuteFilterResult * list Event)) : Prop :=
  exists r log c, chain_spec (reverse bs) (syscall_data (AuditArch em) HostRIP Args) r log /\
    cache_valid (AuditArch em) bs c /\ cache_shape c /\ Generation c = FilterGeneration em /\
    out = let '(em1, res, evs) := TakeAction em HostRIP Args r log in
          Some (set_Thread em1 i (set_SeccompCache t c), res, evs).

Lemma ExecuteFilterSlow_ok em i t bs c HostRIP Args Pre Have :
  Threads em !! i = Some t -> T_Filters t <> [] ->
  bodies (Filters em) (T_Filters t) = Some bs -> Forall body_ok bs ->
  cache_valid (AuditArch em) bs c -> cache_shape c -> Generation c = FilterGeneration em ->
  is_u 64 (nth 0 Args 0) -> (Have = true -> Pre = HostRIP) ->
  executes em i t bs HostRIP Args
    (ExecuteFilterSlow (set_Thread em i (set_SeccompCache t c)) i HostRIP Args Pre Have).
Proof.
  intros Ht Hne Hbs Hok Hv Hs Hg HN Hpre. unfold ExecuteFilterSlow.
  rewrite (set_Thread_lookup em i t) by done. cbn [mbind option_bind SeccompCache set_SeccompCache T_Filters].
  set (sel := if negb Have && NeedsRIP c then (HostRIP, true) else (Pre, Have)).
  assert ((existsb b_ip bs = true -> fst sel = HostRIP) /\
          (if snd sel then fst sel else HostRIP) = HostRIP) as [Hsel Hget].
  { destruct Hv as (_ & Hr & _). subst sel. rewrite Hr. destruct Have, (existsb b_ip bs); auto. }
  destruct sel as [rip RIPValid]. cbn [fst snd] in Hsel, Hget. rewrite Hget.
  destruct (RunFilters_spec (Filters em) (reverse (T_Filters t)) (reverse bs)
              (syscall_data (AuditArch em) rip Args) (repeat 0 16))
    as (r & log & Er & Hc).
  { by apply bodies_reverse. }
  { by apply Forall_reverse. }
  { done. }
  { intros E. apply Hne. by apply (f_equal reverse) in E; rewrite reverse_involutive in E. }
  change (Filters (set_Thread em i _)) with (Filters em).
  change (AuditArch (set_Thread em i _)) with (AuditArch em). rewrite Er.
  cbn [default from_option id mbind option_bind].
  assert (chain_spec (reverse bs) (syscall_data (AuditArch em) HostRIP Args) r log) as Hc'.
  { revert Hc. apply chain_spec_agree; [by apply Forall_reverse| |done..].
    intros b Hb. rewrite elem_of_reverse in Hb. split_and!; [done..| |done].
    intros E. cbn [instruction_pointer syscall_data]. apply Hsel. apply existsb_exists.
    exists b. by rewrite <- list_elem_of_In. }
  destruct (Z.eqb_spec (r &&& SECCOMP_RET_ACTION_FULL) SECCOMP_RET_ALLOW) as [Ea|Ea].
  - destruct (cache_allow_valid (AuditArch em) bs c rip Args) as (c' & -> & Hv' & Hs' & Hg');
      [done..|by exists r, log|].
    exists r, log, c'. split_and!; [done..|congruence|].
    cbn [mbind option_bind]. rewrite set_Thread_twice, TakeAction_thread. by repeat case_match.
  - exists r, log, c. split_and!; [done..|].
    cbn [mbind option_bind]. rewrite set_Thread_twice, TakeAction_thread. by repeat case_match.
Qed.

Definition cache_ok (em : SeccompEmulator) (t : ThreadStateObject) : Prop :=
  cache_shape (SeccompCache t) /\ 0 <= Generation (SeccompCache t) <= FilterGeneration em /\
  (T_Filters t <> [] -> Generation (SeccompCache t) = FilterGeneration em ->
     forall bs, bodies (Filters em) (T_Filters t) = Some bs ->
       cache_valid (AuditArch em) bs (SeccompCache t)).

Lemma RevalidateCache_ok em t bs :
  T_Filters t <> [] -> bodies (Filters em) (T_Filters t) = Some bs -> cache_ok em t ->
  exists c, RevalidateCache em t = Some c /\ cache_valid (AuditArch em) bs c /\ cache_shape c /\
    Generation c = FilterGeneration em.
Proof.
  intros Hne Hbs (Hs & _ & Hv). unfold RevalidateCache.
  destruct (Z.eqb_spec (Generation (SeccompCache t)) (FilterGeneration em)) as [E|E]; cbn [negb].
  - exists (SeccompCache t). split_and!; [done| |done|done]. by apply Hv.
  - rewrite (any_reads_spec _ _ bs) by done. cbn [mbind option_bind orb]. eexists.
    split; [done|]. split_and!; [apply empty_cache_valid|done|done].
Qed.

Lemma land_bit w n : 0 <= n -> (w &&& (1 <<< n) =? 0) = negb (Z.testbit w n).
Proof.
  intros Hn. destruct (Z.testbit w n) eqn:E; cbn [negb].
  - apply Z.eqb_neq. intros H. apply (f_equal (fun x => Z.testbit x n)) in H.
    rewrite Z.land_spec, Z.shiftl_spec, Z.sub_diag, E, Z.bits_0 in H by done. done.
  - apply Z.eqb_eq. apply Z.bits_inj'. intros i Hi. rewrite Z.land_spec, Z.shiftl_spec, Z.bits_0 by done.
    destruct (decide (i = n)) as [->|]; [by rewrite E|].
    destruct (Z.ltb_spec (i - n) 0); [rewrite (Z.testbit_neg_r 1) by lia; apply andb_false_r|].
    rewrite (testbit_high 1 1) by (unfold is_u; lia). apply andb_false_r.
Qed.

(** The probe of the verdict cache hits an entry that was never written: an empty entry is [{0, 0}], and
    so is the key of system call 2^64 - 1 at RIP 0, whose [NrPlusOne] wraps to 0. *)
Definition empty_hit (em : SeccompEmulator) (t : ThreadStateObject) (HostRIP : Z) (Args : list Z) : bool :=
  (HostRIP =? 0) && (nth 0 Args 0 =? 2 ^ 64 - 1) &&
  match RevalidateCache em t with
  | Some c =>
      match Mode c, RIPAllowed c !! rip_slot HostRIP (nth 0 Args 0) with
      | NrRIP, Some e => (RIP e =? 0) && (NrPlusOne e =? 0)
      | _, _ => false
      end
  | None => false
  end.

Lemma empty_hit_edge em t HostRIP Args : HostRIP <> 0 \/ nth 0 Args 0 <> 2 ^ 64 - 1 -> empty_hit em t HostRIP Args = false.
Proof. intros [?|?]; unfold empty_hit; [rewrite (proj2 (Z.eqb_neq _ _)) by done|rewrite (proj2 (Z.eqb_neq (nth 0 Args 0) _)), andb_false_r by done]; done. Qed.

(** The call is let through, whatever the filters say. *)
Definition let_through (em : SeccompEmulator) (i : nat) (t : ThreadStateObject) (bs : list Body)
    (out : option (SeccompEmulator * ExecuteFilterResult * list Event)) : Prop :=
  exists c, cache_valid (AuditArch em) bs c /\ cache_shape c /\ Generation c = FilterGeneration em /\
    out = Some (set_Thread em i (set_SeccompCache t c), {| EarlyReturn := false; Result := 0 |}, []).

Lemma ExecuteFilter_ok em i t bs HostRIP Args :
  Threads em !! i = Some t -> T_Filters t <> [] ->
  bodies (Filters em) (T_Filters t) = Some bs -> Forall body_ok bs -> cache_ok em t ->
  is_u 64 (nth 0 Args 0) ->
  if empty_hit em t HostRIP Args then let_through em i t bs (ExecuteFilter em i HostRIP Args)
  else executes em i t bs HostRIP Args (ExecuteFilter em i HostRIP Args).
Proof.
  intros Ht Hne Hbs Hok Hco HN. unfold ExecuteFilter, empty_hit. rewrite Ht. cbn [mbind option_bind].
  rewrite bool_decide_false by done.
  destruct (RevalidateCache_ok em t bs Hne Hbs Hco) as (c & -> & Hv & Hs & Hg).
  cbn [mbind option_bind].
  assert (forall Pre Have, (Have = true -> Pre = HostRIP) -> executes em i t bs HostRIP Args
    (ExecuteFilterSlow (set_Thread em i (set_SeccompCache t c)) i HostRIP Args Pre Have)) as Hslow
    by (intros; by apply ExecuteFilterSlow_ok).
  assert (allowed (AuditArch em) bs HostRIP Args -> executes em i t bs HostRIP Args
    (Some (set_Thread em i (set_SeccompCache t c), {| EarlyReturn := false; Result := 0 |}, []))) as Hfast.
  { intros (r & log & Hc & Hr). exists r, log, c. split_and!; [done..|].
    by rewrite TakeAction_allow. }
  pose proof Hv as (_ & _ & Honly & Hrip). destruct (Mode c) eqn:Em; [rewrite andb_false_r..|].
  - by apply Hslow.
  - destruct (Z.ltb_spec (nth 0 Args 0) MAX_CACHED_NR) as [Hlt|]; [|by apply Hslow].
    unfold is_u, MAX_CACHED_NR in *.
    destruct (lookup_lt_is_Some_2 (AllowedNrs c) (Z.to_nat (nth 0 Args 0 / 64))) as [w Hw].
    { destruct Hs as [-> _]. pose proof (Z.div_lt_upper_bound (nth 0 Args 0) 64 8). lia. }
    rewrite Hw. cbn [mbind option_bind].
    rewrite land_bit, negb_involutive by (apply Z.mod_pos_bound; lia).
    destruct (Z.testbit w (nth 0 Args 0 mod 64)) eqn:Eb; [|by apply Hslow].
    apply Hfast. apply (Honly eq_refl HostRIP Args w); [unfold MAX_CACHED_NR; lia|done..].
  - pose proof (rip_slot_lt HostRIP (nth 0 Args 0)).
    destruct (lookup_lt_is_Some_2 (RIPAllowed c) (rip_slot HostRIP (nth 0 Args 0))) as [e He];
      [by destruct Hs as [_ ->]|].
    rewrite He. cbn [mbind option_bind]. unfold is_u in HN.
    destruct ((RIP e =? HostRIP) && (NrPlusOne e =? u64 (nth 0 Args 0 + 1))) eqn:Eb; to_prop.
    + destruct (decide (RIP e = 0 /\ NrPlusOne e = 0)) as [[E0 E1]|Hne0].
      * assert (nth 0 Args 0 = 2 ^ 64 - 1) as EN.
        { destruct (decide (nth 0 Args 0 = 2 ^ 64 - 1)); [done|]. rewrite u_small in * by (unfold is_u; lia). lia. }
        rewrite (proj2 (Z.eqb_eq HostRIP 0)), (proj2 (Z.eqb_eq (nth 0 Args 0) _)), E0, E1 by congruence. cbn. by exists c.
      * assert (RIP e <> 0 \/ NrPlusOne e <> 0) as Hno by lia.
        replace ((RIP e =? 0) && (NrPlusOne e =? 0)) with false by (symmetry; apply andb_false_iff; rewrite !Z.eqb_neq; tauto).
        rewrite andb_false_r. apply Hfast. replace HostRIP with (RIP e) by done.
        apply (Hrip eq_refl); [by eapply list_elem_of_lookup_2|done..].
    + destruct ((HostRIP =? 0) && (nth 0 Args 0 =? 2 ^ 64 - 1) && ((RIP e =? 0) && (NrPlusOne e =? 0))) eqn:Eh; [|by apply Hslow].
      to_prop. exfalso. destruct Eb as [Eb|Eb]; apply Z.eqb_neq in Eb; apply Eb; [congruence|].
      replace (nth 0 Args 0) with (2 ^ 64 - 1) by done. replace (NrPlusOne e) with 0 by done. done.
Qed.
