(* ===== verification/SeccompState.v ===== *)
(** * The invariant of the seccomp emulator

    Reference counts, the invariant that ties filters, threads and caches together, and that
    thread creation and teardown, the seccomp system call and filter execution keep it. *)

From S2P Require Import Prelude BPF Seccomp SeccompCache.
Import BPF Seccomp.

(** ** Reference counts *)

Fixpoint occ (p : Z) (ps : list Z) : Z :=
  match ps with [] => 0 | q :: ps => (if q =? p then 1 else 0) + occ p ps end.

(** The number of times the threads refer to [p]. *)
Fixpoint refs (ts : list ThreadStateObject) (p : Z) : Z :=
  match ts with [] => 0 | t :: ts => occ p (T_Filters t) + refs ts p end.

Lemma occ_nonneg p ps : 0 <= occ p ps.
Proof. induction ps; cbn [occ]; [lia|]. case_match; lia. Qed.

Lemma occ_app p ps qs : occ p (ps ++ qs) = occ p ps + occ p qs.
Proof. induction ps; cbn [occ app]; lia. Qed.

Lemma occ_pos p ps : p ∈ ps -> 0 < occ p ps.
Proof.
  induction 1 as [p ps|p q ps Hp IH]; cbn [occ].
  - rewrite Z.eqb_refl. pose proof (occ_nonneg p ps). lia.
  - case_match; lia.
Qed.

Lemma refs_nonneg ts p : 0 <= refs ts p.
Proof. induction ts as [|t ts]; cbn [refs]; [lia|]. pose proof (occ_nonneg p (T_Filters t)). lia. Qed.

Lemma refs_app ts us p : refs (ts ++ us) p = refs ts p + refs us p.
Proof. induction ts; cbn [refs app]; lia. Qed.

Lemma refs_insert ts i t t' p :
  ts !! i = Some t ->
  refs (<[i := t']> ts) p = refs ts p - occ p (T_Filters t) + occ p (T_Filters t').
Proof.
  revert i. induction ts as [|u ts IH]; intros [|i] H; simplify_eq/=; [lia|]. rewrite (IH i) by done. lia.
Qed.

Lemma refs_ge ts i t p : ts !! i = Some t -> occ p (T_Filters t) <= refs ts p.
Proof.
  revert i. induction ts as [|u ts IH]; intros [|i] H; simplify_eq/=.
  - pose proof (refs_nonneg ts p). lia.
  - pose proof (occ_nonneg p (T_Filters u)). pose proof (IH i H). lia.
Qed.

(** Every filter count moved by [n p], with its wrap-around. *)
Definition counted (n : Z -> Z) (fs fs' : gmap Z SeccompFilterInfo) : Prop :=
  forall p, fs' !! p = (fun f => set_RefCount f (u64 (RefCount f + n p))) <$> fs !! p.

Definition counts_ok (fs : gmap Z SeccompFilterInfo) : Prop :=
  forall p f, fs !! p = Some f -> is_u 64 (RefCount f) /\ p <> 0.

Lemma counted_0 fs : counts_ok fs -> counted (fun _ => 0) fs fs.
Proof.
  intros H p. destruct (fs !! p) as [f|] eqn:E; [|done]. destruct (H p f E) as [Hf _].
  cbn. rewrite Z.add_0_r, u_small by done. by destruct f.
Qed.

Lemma counts_ok_counted n fs fs' : counts_ok fs -> counted n fs fs' -> counts_ok fs'.
Proof.
  intros H Hc p f. rewrite Hc. intros (g & Hg & ->)%fmap_Some. split; [by apply u_range|].
  by destruct (H p g Hg).
Qed.

Lemma counted_trans n m fs fs' fs'' :
  counted n fs fs' -> counted m fs' fs'' -> counted (fun p => n p + m p) fs fs''.
Proof.
  intros H H' p. rewrite H', H. destruct (fs !! p) as [f|]; [|done]. cbn.
  unfold set_RefCount; cbn. by rewrite u_add_l, Z.add_assoc.
Qed.

Lemma counted_ext n m fs fs' : (forall p, n p = m p) -> counted n fs fs' -> counted m fs fs'.
Proof. intros E H p. by rewrite H, E. Qed.

Lemma counted_one fs p f d :
  counts_ok fs -> fs !! p = Some f ->
  counted (fun q => if p =? q then d else 0) fs (<[p := set_RefCount f (u64 (RefCount f + d))]> fs).
Proof.
  intros Hok Hf q. destruct (Z.eqb_spec p q) as [<-|Hne].
  - by rewrite lookup_insert_eq, Hf.
  - rewrite lookup_insert_ne by done. apply (counted_0 fs Hok q).
Qed.

Lemma deref_Some fs p f : counts_ok fs -> fs !! p = Some f -> deref fs p = Some f.
Proof. intros H Hf. destruct (H p f Hf) as [_ Hp]. unfold deref. by bool_lia. Qed.

Lemma add_refs_spec d ps fs :
  counts_ok fs -> (forall p, p ∈ ps -> is_Some (fs !! p)) ->
  exists fs', add_refs d ps fs = Some fs' /\ counted (fun p => d * occ p ps) fs fs'.
Proof.
  revert fs. induction ps as [|p ps IH]; intros fs Hok Hin; cbn [add_refs].
  { exists fs. split; [done|]. eapply counted_ext; [|by apply counted_0]. cbn. lia. }
  destruct (Hin p) as [f Hf]; [by left|]. rewrite (deref_Some _ _ f) by done.
  pose proof (counted_one fs p f d Hok Hf) as H1.
  destruct (IH (<[p := set_RefCount f (u64 (RefCount f + d))]> fs)) as (fs' & -> & H2).
  { by eapply counts_ok_counted. }
  { intros q Hq. apply lookup_insert_is_Some'. right. apply Hin. by right. }
  exists fs'. split; [done|]. eapply counted_ext; [|by eapply counted_trans].
  intros q. cbn [occ]. case_match; lia.
Qed.

Lemma ReleaseLoop_spec ps fs h :
  counts_ok fs -> (forall p, p ∈ ps -> is_Some (fs !! p)) ->
  exists fs' h', ReleaseLoop ps fs h = Some (fs', h') /\ counted (fun p => - occ p ps) fs fs'.
Proof.
  revert fs h. induction ps as [|p ps IH]; intros fs h Hok Hin; cbn [ReleaseLoop].
  { exists fs, h. split; [done|]. by apply counted_0. }
  destruct (Hin p) as [f Hf]; [by left|]. pose proof (Hok p f Hf) as [_ Hp]. bool_lia.
  rewrite (deref_Some _ _ f) by done. cbn [mbind option_bind].
  pose proof (counted_one fs p f (-1) Hok Hf) as H1.
  destruct (IH (<[p := set_RefCount f (u64 (RefCount f - 1))]> fs) (h || (RefCount f =? 1)))
    as (fs' & h' & -> & H2).
  { by eapply counts_ok_counted. }
  { intros q Hq. apply lookup_insert_is_Some'. right. apply Hin. by right. }
  exists fs', h'. split; [done|]. eapply counted_ext; [|by eapply counted_trans].
  intros q. cbn [occ]. case_match; lia.
Qed.

(** ** The invariant *)

Definition inv (em : SeccompEmulator) : Prop :=
  (forall p f, Filters em !! p = Some f -> body_ok (body f) /\ is_u 64 (RefCount f) /\ p <> 0) /\
  (forall p, 0 < refs (Threads em) p ->
     exists f, Filters em !! p = Some f /\ refs (Threads em) p <= RefCount f) /\
  Forall (cache_ok em) (Threads em) /\
  1 <= FilterGeneration em < 2 ^ 64.

Lemma inv_counts_ok em : inv em -> counts_ok (Filters em).
Proof. intros (H & _) p f Hf. destruct (H p f Hf) as (_ & ? & ?). done. Qed.

Lemma inv_live em i t p :
  inv em -> Threads em !! i = Some t -> p ∈ T_Filters t -> is_Some (Filters em !! p).
Proof.
  intros (_ & H & _) Ht Hp. destruct (H p) as (f & Hf & _); [|by exists f].
  pose proof (refs_ge _ _ _ p Ht). pose proof (occ_pos _ _ Hp). lia.
Qed.

Lemma inv_bodies em i t :
  inv em -> Threads em !! i = Some t ->
  exists bs, bodies (Filters em) (T_Filters t) = Some bs /\ Forall body_ok bs.
Proof.
  intros Hinv Ht.
  assert (forall p, p ∈ T_Filters t -> exists b, body_at (Filters em) p = Some b /\ body_ok b) as H.
  { intros p Hp. destruct (inv_live em i t p Hinv Ht Hp) as [f Hf]. exists (body f).
    unfold body_at. rewrite (deref_Some _ _ f (inv_counts_ok em Hinv) Hf).
    split; [done|]. destruct Hinv as (H & _). by apply (H p f Hf). }
  induction (T_Filters t) as [|p ps IH].
  { by exists []. }
  destruct (H p) as (b & Hb & Hok); [by left|].
  destruct IH as (bs & Hbs & Hoks); [intros q Hq; apply H; by right|].
  exists (b :: bs). cbn [mapM]. rewrite Hb. cbn. rewrite Hbs. split; [done|by constructor].
Qed.

Lemma mapM_ext_in {T U} (f g : T -> option U) l :
  (forall x, x ∈ l -> f x = g x) -> mapM f l = mapM g l.
Proof.
  induction l as [|x l IH]; intros H; [done|]. cbn [mapM]. rewrite H by (by left).
  by rewrite IH by (intros; apply H; by right).
Qed.

Lemma counted_body n fs fs' p : counted n fs fs' -> body_at fs' p = body_at fs p.
Proof.
  intros H. unfold body_at, deref. case_match; [done|]. rewrite H. by destruct (fs !! p).
Qed.

Lemma cache_ok_same em em' t :
  FilterGeneration em' = FilterGeneration em -> AuditArch em' = AuditArch em ->
  (forall p, p ∈ T_Filters t -> body_at (Filters em') p = body_at (Filters em) p) ->
  cache_ok em t -> cache_ok em' t.
Proof.
  intros Eg Ea Eb (Hs & Hg & Hv). split; [done|]. split; [by rewrite Eg|].
  intros Hne HG bs. rewrite (mapM_ext_in _ (body_at (Filters em))) by done. rewrite Ea.
  apply Hv; [done|congruence].
Qed.

(** A cache of an older generation promises nothing. *)
Definition cache_old (g : Z) (t : ThreadStateObject) : Prop :=
  cache_shape (SeccompCache t) /\ 0 <= Generation (SeccompCache t) <= g.

Lemma cache_old_ok g em t : cache_old g t -> g < FilterGeneration em -> cache_ok em t.
Proof. intros [Hs Hg] Hlt. split_and!; [done|lia..|]. intros _ E. lia. Qed.

Lemma cache_ok_old em t : cache_ok em t -> cache_old (FilterGeneration em) t.
Proof. by intros (? & ? & _). Qed.

Lemma cache_ok_empty em t :
  cache_old (FilterGeneration em) t -> T_Filters t = [] -> cache_ok em t.
Proof. intros [? ?] E. split; [done|]. split; [done|]. by rewrite E. Qed.

(** No 64-bit counter is about to wrap around. *)
Definition in_range (em : SeccompEmulator) : Prop :=
  FilterGeneration em + 1 < 2 ^ 64 /\ Z.of_nat (length (Threads em)) < 2 ^ 31 /\
  forall p f, Filters em !! p = Some f -> RefCount f < 2 ^ 31.

(** The creation of a thread: [ThreadManager::CreateThread] with a thread to inherit from. *)
Definition CreateThread (em : SeccompEmulator) (Parent : nat) (tid : Z) : option SeccompEmulator :=
  InheritSeccompFilters (set_Threads em (Threads em ++ [new_thread tid])) Parent (length (Threads em)).

Lemma new_thread_old g tid : 1 <= g -> cache_old g (new_thread tid).
Proof. intros. split; [done|]. cbn. lia. Qed.

Lemma CreateThread_inv em i t tid :
  inv em -> in_range em -> Threads em !! i = Some t ->
  exists em', CreateThread em i tid = Some em' /\ inv em'.
Proof.
  intros Hinv (_ & _ & Hr) Ht. pose proof Hinv as (H1 & H2 & H3 & H4).
  unfold CreateThread, InheritSeccompFilters. cbn [Threads set_Threads].
  rewrite (lookup_app_l_Some _ _ _ _ Ht). cbn [mbind option_bind].
  rewrite lookup_app_r, Nat.sub_diag by done. cbn [lookup list_lookup mbind option_bind].
  destruct (add_refs_spec 1 (T_Filters t) (Filters em)) as (fs & E & Hc).
  { by apply inv_counts_ok. }
  { intros p Hp. by eapply inv_live. }
  change (Filters (set_Threads em _)) with (Filters em). rewrite E. cbn [mbind option_bind].
  eexists. split; [done|].
  unfold set_Thread, set_Threads, set_Filters; cbn [Threads Filters FilterGeneration].
  rewrite insert_app_r_alt, Nat.sub_diag by done. cbn [insert list_insert].
  assert (forall p, refs (Threads em) p + occ p (T_Filters t) < 2 ^ 64) as Hno.
  { intros p. pose proof (refs_ge _ _ _ p Ht). destruct (decide (0 < refs (Threads em) p)) as [Hp|]; [|lia].
    destruct (H2 p Hp) as (f & Hf & ?). pose proof (Hr p f Hf). lia. }
  unfold inv; cbn [Threads Filters FilterGeneration]. split_and!; try (destruct H4; lia).
  - intros p f. rewrite Hc. intros (g & Hg & ->)%fmap_Some. destruct (H1 p g Hg) as (Hb & _ & Hp).
    split_and!; [exact Hb|by apply u_range..|exact Hp].
  - intros p. rewrite refs_app. cbn [refs T_Filters set_SeccompMode set_T_Filters]. intros Hp.
    pose proof (refs_ge _ _ _ p Ht). pose proof (occ_nonneg p (T_Filters t)).
    destruct (H2 p) as (f & Hf & Hle); [lia|].
    exists (set_RefCount f (u64 (RefCount f + 1 * occ p (T_Filters t)))).
    rewrite Hc, Hf. split; [done|]. cbn. destruct (H1 p f Hf) as (_ & ? & _). pose proof (Hr p f Hf).
    rewrite u_small by (unfold is_u in *; lia). lia.
  - apply Forall_app. split.
    + eapply Forall_impl; [exact H3|]. intros u. apply cache_ok_same; try done.
      intros p _. by eapply counted_body.
    + constructor; [|done]. apply cache_ok_same with (em := em); try done.
      { intros p _. by eapply counted_body. }
      split_and!; [done|cbn; lia..|]. intros _ Hg. cbn in Hg. lia.
Qed.

Lemma FreeSeccompFilters_inv em i t :
  inv em -> Threads em !! i = Some t ->
  exists em', FreeSeccompFilters em i = Some em' /\ inv em'.
Proof.
  intros Hinv Ht. pose proof Hinv as (H1 & H2 & H3 & H4).
  unfold FreeSeccompFilters. rewrite Ht. cbn [mbind option_bind].
  destruct (ReleaseLoop_spec (T_Filters t) (Filters em) false) as (fs & h & E & Hc).
  { by apply inv_counts_ok. }
  { intros p Hp. by eapply inv_live. }
  rewrite E. cbn [mbind option_bind fst snd]. eexists. split; [done|].
  set (fs' := if h then _ else fs).
  assert (forall p f, fs' !! p = Some f -> fs !! p = Some f) as Hsub.
  { intros p f. subst fs'. destruct h; [|done]. by intros [? _]%map_lookup_filter_Some. }
  assert (forall p f, fs !! p = Some f -> RefCount f <> 0 -> fs' !! p = Some f) as Hkeep.
  { intros p f Hf Hz. subst fs'. destruct h; [|done]. by apply map_lookup_filter_Some. }
  clearbody fs'.
  assert (forall p f, Filters em !! p = Some f -> 0 < refs (Threads em) p - occ p (T_Filters t) ->
    exists f', fs' !! p = Some f' /\ body f' = body f /\
      refs (Threads em) p - occ p (T_Filters t) <= RefCount f') as Hlive.
  { intros p f Hf Hp. pose proof (occ_nonneg p (T_Filters t)).
    destruct (H2 p) as (g & Hg & Hle); [lia|]. rewrite Hf in Hg. injection Hg as <-.
    destruct (H1 p f Hf) as (_ & Hu & _).
    exists (set_RefCount f (u64 (RefCount f + - occ p (T_Filters t)))).
    rewrite u_small by (unfold is_u in *; lia).
    split_and!; [|done|cbn; lia]. apply Hkeep; [|cbn; lia].
    rewrite Hc, Hf. cbn. by rewrite u_small by (unfold is_u in *; lia). }
  unfold inv, set_Thread, set_Threads, set_Filters; cbn [Threads Filters FilterGeneration].
  split_and!; try (destruct H4; lia).
  - intros p f Hf%Hsub. revert Hf. rewrite Hc. intros (g & Hg & ->)%fmap_Some.
    destruct (H1 p g Hg) as (Hb & _ & Hp). split_and!; [exact Hb|by apply u_range..|exact Hp].
  - intros p. rewrite (refs_insert _ _ t) by done. cbn [T_Filters set_T_Filters occ]. intros Hp.
    pose proof (occ_nonneg p (T_Filters t)).
    destruct (H2 p) as (f & Hf & _); [lia|]. destruct (Hlive p f Hf) as (f' & ? & _ & ?); [lia|].
    exists f'. split; [done|lia].
  - apply Forall_lookup. intros j u Hu. rewrite Forall_lookup in H3.
    destruct (decide (i = j)) as [<-|Hij].
    + rewrite list_lookup_insert_eq in Hu by (by eapply lookup_lt_Some). injection Hu as <-.
      apply cache_ok_empty; [|done]. exact (cache_ok_old _ _ (H3 i t Ht)).
    + rewrite list_lookup_insert_ne in Hu by done. apply (cache_ok_same em); try done; [|by eapply H3].
      intros p Hp. destruct (inv_live em j u p Hinv Hu Hp) as [f Hf]. cbn [Filters].
      assert (0 < refs (Threads em) p - occ p (T_Filters t)) as Hpos.
      { pose proof (refs_ge (<[i := set_T_Filters t []]> (Threads em)) j u p) as Hge.
        rewrite list_lookup_insert_ne in Hge by done. specialize (Hge Hu).
        rewrite (refs_insert _ _ t) in Hge by done. cbn [T_Filters set_T_Filters occ] in Hge.
        pose proof (occ_pos _ _ Hp). lia. }
      destruct (Hlive p f Hf Hpos) as (f' & Hf' & Hb & _). unfold body_at, deref.
      case_match; [done|]. rewrite Hf, Hf'. cbn. by rewrite Hb.
Qed.

(** ** Installation keeps the invariant *)

(** The number of threads other than [self] from index [j] on. *)
Fixpoint others (ts : list ThreadStateObject) (j self : nat) : Z :=
  match ts with
  | [] => 0
  | _ :: ts => (if bool_decide (j = self) then 0 else 1) + others ts (S j) self
  end.

Lemma others_range ts j self : 0 <= others ts j self <= Z.of_nat (length ts).
Proof.
  revert j. induction ts as [|t ts IH]; intros j; cbn [others length]; [lia|].
  pose proof (IH (S j)). case_bool_decide; lia.
Qed.

Lemma others_self ts j self :
  (j <= self < j + length ts)%nat -> others ts j self = Z.of_nat (length ts) - 1.
Proof.
  revert j. induction ts as [|t ts IH]; intros j Hj; cbn [others length] in *; [lia|].
  case_bool_decide as E; [|rewrite IH by lia; lia]. subst.
  enough (forall k, (self < k)%nat -> others ts k self = Z.of_nat (length ts)) as ->; [lia|lia|].
  clear. induction ts as [|t ts IH]; intros k Hk; cbn [others length]; [done|].
  rewrite IH, bool_decide_false by lia. lia.
Qed.

Lemma TSyncFilters_loop_spec ts j self P fs g :
  counts_ok fs -> (forall p, p ∈ T_Filters P -> is_Some (fs !! p)) ->
  (forall n t, ts !! n = Some t -> (j + n)%nat = self -> t = P) -> Forall (cache_old g) ts ->
  exists ts' fs', TSyncFilters_loop ts j self P fs = Some (ts', fs') /\
    counted (fun p => others ts j self * occ p (T_Filters P)) fs fs' /\
    (forall p, refs ts' p = Z.of_nat (length ts) * occ p (T_Filters P)) /\
    Forall (cache_old g) ts' /\ map TID ts' = map TID ts /\
    Forall (fun t => T_Filters t = T_Filters P /\ SeccompMode t = SeccompMode P) ts'.
Proof.
  revert j fs. induction ts as [|t ts IH]; intros j fs Hok Hin Hself Hold; cbn [TSyncFilters_loop].
  { exists [], fs. split_and!; try done. eapply counted_ext; [|by apply counted_0]. done. }
  apply Forall_cons in Hold as [Ht Hold].
  assert (forall n u, ts !! n = Some u -> (S j + n)%nat = self -> u = P) as Hself'.
  { intros n u Hu E. apply (Hself (S n) u); [done|lia]. }
  cbn [others]. case_bool_decide as E.
  - destruct (IH (S j) fs Hok Hin Hself' Hold) as (ts' & fs' & -> & Hc & Hr & Ho & Hid & Hall).
    assert (t = P) as -> by (apply (Hself 0%nat); [done|lia]).
    exists (P :: ts'), fs'. cbn [mbind option_bind fst snd refs length map].
    split_and!; [done|by eapply counted_ext; [|exact Hc]|intros p; rewrite Hr; lia|
                 by constructor|by rewrite Hid|by constructor].
  - destruct (add_refs_spec 1 (T_Filters P) fs Hok Hin) as (fs1 & -> & Hc1). cbn [mbind option_bind].
    destruct (IH (S j) fs1) as (ts' & fs' & -> & Hc & Hr & Ho & Hid & Hall); try done.
    { by eapply counts_ok_counted. }
    { intros p Hp. rewrite Hc1. destruct (Hin p Hp) as [f ->]. by eexists. }
    eexists (_ :: ts'), fs'. cbn [mbind option_bind fst snd refs length map]. split; [done|].
    split_and!; [|intros p; rewrite Hr; cbn; lia|by constructor|by rewrite Hid|by constructor].
    eapply counted_ext; [|by eapply counted_trans]. intros p. cbn. lia.
Qed.

(** What an installation needs of the state it starts from, with the caches of generation at
    most [g]. *)
Definition inv_install (g : Z) (em : SeccompEmulator) : Prop :=
  (forall p f, Filters em !! p = Some f -> body_ok (body f) /\ is_u 64 (RefCount f) /\ p <> 0) /\
  (forall p, 0 < refs (Threads em) p ->
     exists f, Filters em !! p = Some f /\ refs (Threads em) p <= RefCount f) /\
  Forall (cache_old g) (Threads em).

Lemma TSyncFilters_inv g em i t :
  inv_install g em -> Threads em !! i = Some t -> Z.of_nat (length (Threads em)) < 2 ^ 31 + 1 ->
  (forall p f, Filters em !! p = Some f -> RefCount f < 2 ^ 31) ->
  exists em', TSyncFilters em i = Some em' /\ inv_install g em' /\
    FilterGeneration em' = FilterGeneration em /\ CurrentKillSignal em' = CurrentKillSignal em /\
    map TID (Threads em') = map TID (Threads em) /\
    (forall p, body_at (Filters em') p = body_at (Filters em) p) /\
    Forall (fun u => T_Filters u = T_Filters t /\ SeccompMode u = SeccompMode t) (Threads em').
Proof.
  intros (H1 & H2 & H3) Ht Hn Hr. unfold TSyncFilters. rewrite Ht. cbn [mbind option_bind].
  assert (counts_ok (Filters em)) as Hok.
  { intros p f Hf. by destruct (H1 p f Hf) as (_ & ? & ?). }
  assert (forall p, occ p (T_Filters t) <= refs (Threads em) p) as Hge by (intros; by eapply refs_ge).
  destruct (TSyncFilters_loop_spec (Threads em) 0 i t (Filters em) g)
    as (ts' & fs' & -> & Hc & Hrefs & Hold & Hid & Hall); try done.
  { intros p Hp%occ_pos. destruct (H2 p) as (f & Hf & _); [pose proof (Hge p); lia|by exists f]. }
  { intros n u Hu <-. rewrite Nat.add_0_l in Ht. congruence. }
  pose proof (lookup_lt_Some _ _ _ Ht). rewrite others_self in Hc by lia.
  eexists. split; [done|].
  split; [|split_and!; try done; intros p; by eapply counted_body].
  split_and!; cbn [Filters Threads set_Threads set_Filters fst snd].
  - intros p f. rewrite Hc. intros (h & Hh & ->)%fmap_Some. destruct (H1 p h Hh) as (Hb & _ & Hp).
    split_and!; [exact Hb|by apply u_range..|exact Hp].
  - intros p Hp. rewrite Hrefs in *. pose proof (occ_nonneg p (T_Filters t)).
    assert (0 < occ p (T_Filters t)) as Hpos by nia.
    destruct (H2 p) as (f & Hf & Hle); [pose proof (Hge p); lia|].
    eexists. rewrite Hc, Hf. split; [done|]. cbn. pose proof (Hge p). pose proof (Hr p f Hf).
    destruct (H1 p f Hf) as (_ & Hu & _). unfold is_u in *.
    rewrite u_small by (unfold is_u; nia). nia.
  - done.
Qed.

Lemma filter_at_take P n i :
  i < Z.of_nat n -> filter_at (take n P) i = filter_at P i.
Proof.
  intros Hi. unfold filter_at. destruct (Z.ltb_spec i 0); [done|]. apply lookup_take_lt. lia.
Qed.

Lemma accepted_take P n :
  0 <= n <= Z.of_nat (length P) -> accepted P n -> accepted (take (Z.to_nat n) P) n.
Proof.
  intros Hn [Hall Hlast]. split.
  - intros i Hi. rewrite filter_at_take by lia. by apply Hall.
  - rewrite filter_at_take by lia. done.
Qed.

(** The body of a new filter. *)
Definition new_body (flags : Z) (prog : sock_fprog) : Body :=
  let P := take (Z.to_nat (len prog)) (filter prog) in
  {| b_prog := P; b_insns := len prog; b_log := negb ((flags &&& SECCOMP_FILTER_FLAG_LOG) =? 0);
     b_ip := fst (AnalyzeLoop P false false); b_args := snd (AnalyzeLoop P false false) |}.

Lemma new_body_ok flags prog :
  prog_wf prog -> 0 < len prog <= 4096 -> ValidateProgram prog = Some 0 ->
  body_ok (new_body flags prog).
Proof.
  intros Hp Hl Hv. pose proof (ValidateProgram_spec prog Hp ltac:(lia)) as [Hacc _].
  apply Hacc in Hv. destruct Hp as (_ & Hle & Hwf). unfold body_ok, new_body; cbn [b_prog b_insns b_ip b_args].
  rewrite length_take_le by lia. rewrite Z2Nat.id by lia. split_and!.
  - lia.
  - apply accepted_take; [lia|done].
  - by apply Forall_take.
  - apply surjective_pairing.
  - done.
Qed.

Lemma refs_fresh em addr : inv em -> Filters em !! addr = None -> refs (Threads em) addr = 0.
Proof.
  intros (_ & H2 & _) Hf. pose proof (refs_nonneg (Threads em) addr).
  destruct (decide (0 < refs (Threads em) addr)) as [Hp|]; [|lia].
  destruct (H2 _ Hp) as (f & Hf' & _). congruence.
Qed.

(** The state after an installation on thread [i], whose filters were [ps]. *)
Definition installed (em em' : SeccompEmulator) (i : nat) (ps : list Z) (flags : Z)
    (prog : sock_fprog) (addr : Z) : Prop :=
  inv em' /\ CurrentKillSignal em' = CurrentKillSignal em /\
  map TID (Threads em') = map TID (Threads em) /\
  body_at (Filters em') addr = Some (new_body flags prog) /\
  (forall p, p <> addr -> body_at (Filters em') p = body_at (Filters em) p) /\
  (forall j u, Threads em' !! j = Some u -> j = i \/ Z.testbit flags 0 = true ->
     T_Filters u = ps ++ [addr] /\ SeccompMode u = SECCOMP_MODE_FILTER) /\
  (Z.testbit flags 0 = false -> forall j, j <> i -> Threads em' !! j = Threads em !! j).

Lemma tsync_bit flags : negb ((flags &&& SECCOMP_FILTER_FLAG_TSYNC) =? 0) = Z.testbit flags 0.
Proof. change 1 with (1 <<< 0). by rewrite land_bit, negb_involutive. Qed.

Lemma tsync_if_asked g em i t (b : bool) :
  inv_install g em -> Threads em !! i = Some t -> Z.of_nat (length (Threads em)) < 2 ^ 31 + 1 ->
  (forall p f, Filters em !! p = Some f -> RefCount f < 2 ^ 31) ->
  exists em', (if b then TSyncFilters em i else Some em) = Some em' /\ inv_install g em' /\
    FilterGeneration em' = FilterGeneration em /\ CurrentKillSignal em' = CurrentKillSignal em /\
    map TID (Threads em') = map TID (Threads em) /\
    (forall p, body_at (Filters em') p = body_at (Filters em) p) /\
    (forall j u, Threads em' !! j = Some u -> j = i \/ b = true ->
       T_Filters u = T_Filters t /\ SeccompMode u = SeccompMode t) /\
    (b = false -> em' = em).
Proof.
  intros Hi Ht Hn Hr. destruct b.
  - destruct (TSyncFilters_inv g em i t Hi Ht Hn Hr) as (em' & -> & ? & ? & ? & ? & ? & Hall).
    exists em'. split_and!; try done. intros j u Hu _. rewrite Forall_lookup in Hall. by eapply Hall.
  - exists em. split_and!; try done. intros j u Hu [->|?]; [|done]. rewrite Ht in Hu. by injection Hu as <-.
Qed.

Lemma InstallFilter_inv em i t flags prog addr :
  inv em -> in_range em -> Threads em !! i = Some t -> prog_wf prog -> 0 < len prog <= 4096 ->
  ValidateProgram prog = Some 0 -> addr <> 0 -> Filters em !! addr = None ->
  exists em', InstallFilter em i flags prog addr = Some em' /\
    installed em em' i (T_Filters t) flags prog addr.
Proof.
  intros Hinv (Hgen & Hthr & Hr) Ht Hp Hl Hv Ha0 Haf. pose proof Hinv as (H1 & H2 & H3 & H4).
  unfold InstallFilter. rewrite Ht. cbn [mbind option_bind]. rewrite tsync_bit.
  set (it := AnalyzeFilterLoads _). set (t' := set_SeccompMode _ _).
  set (em1 := mkEmulator _ _ _ _ _ _ _ _).
  assert (body it = new_body flags prog) as Eit by done.
  assert (RefCount it = 1) as Ect by done.
  pose proof (new_body_ok flags prog Hp Hl Hv) as Hnb. rewrite <- Eit in Hnb. clearbody it.
  pose proof (refs_fresh em addr Hinv Haf) as Hz.
  assert (inv_install (FilterGeneration em) em1) as Hpre.
  { split_and!; cbn [Filters Threads em1].
    - intros p f [[<- <-]|[_ Hf]]%lookup_insert_Some; [|by apply H1].
      split_and!; [done|rewrite Ect; by unfold is_u..|done].
    - intros p. rewrite (refs_insert _ _ t) by done. cbn [T_Filters set_SeccompMode set_T_Filters t'].
      rewrite occ_app. cbn [occ]. intros Hpos. destruct (Z.eqb_spec addr p) as [E|Hne].
      + exists it. rewrite <- E in *. rewrite lookup_insert_eq, Ect. split; [done|].
        pose proof (refs_ge _ _ _ addr Ht). pose proof (occ_nonneg addr (T_Filters t)). lia.
      + destruct (H2 p) as (f & Hf & ?); [lia|]. exists f. rewrite lookup_insert_ne by done.
        split; [done|lia].
    - apply Forall_insert; [|exact (cache_ok_old _ _ (proj1 (Forall_lookup _ _) H3 i t Ht))].
      eapply Forall_impl; [exact H3|]. intros u. apply cache_ok_old. }
  assert (Threads em1 !! i = Some t') as Ht' by (apply list_lookup_insert_eq; by eapply lookup_lt_Some).
  assert (map TID (Threads em1) = map TID (Threads em)) as Hid.
  { cbn [Threads em1]. apply list_eq. intros j. rewrite !list_lookup_fmap.
    destruct (decide (i = j)) as [<-|]; [|by rewrite list_lookup_insert_ne].
    rewrite list_lookup_insert_eq, Ht by (by eapply lookup_lt_Some). done. }
  assert (forall p, body_at (Filters em1) p = if decide (p = addr) then Some (new_body flags prog)
                    else body_at (Filters em) p) as Hbodies.
  { intros p. unfold body_at, deref. cbn [Filters em1]. case_decide as Ep.
    - subst. bool_lia. rewrite lookup_insert_eq. cbn. by rewrite Eit.
    - by rewrite lookup_insert_ne by done. }
  destruct (tsync_if_asked (FilterGeneration em) em1 i t' (Z.testbit flags 0))
    as (em2 & -> & Hi2 & Hg2 & Hk2 & Hid2 & Hb2 & Hs2 & Ho2);
    [done|done|cbn [Threads em1]; rewrite length_insert; lia| |].
  { cbn [Filters em1]. intros p f [[_ <-]|[_ Hf]]%lookup_insert_Some; [lia|by eapply Hr]. }
  change (FilterGeneration em1) with (FilterGeneration em) in Hg2.
  cbn [mbind option_bind]. eexists. split; [done|].
  unfold installed; cbn [Threads Filters FilterGeneration]. split_and!; try done.
  - destruct Hi2 as (I1 & I2 & I3). rewrite Hg2, u_small by (unfold is_u; lia).
    unfold inv; cbn [Threads Filters FilterGeneration]. split_and!; try done; [|lia..].
    eapply Forall_impl; [exact I3|]. intros u Hu. eapply cache_old_ok; [exact Hu|cbn; lia].
  - congruence.
  - rewrite Hb2, Hbodies. by rewrite decide_True.
  - intros p Hp'. rewrite Hb2, Hbodies. by rewrite decide_False.
  - intros Hf j Hj. rewrite (Ho2 Hf). cbn [Threads em1]. by rewrite list_lookup_insert_ne.
Qed.

(** ** Outcomes of the seccomp system call *)

(** The two outcomes of an installation request: an error that changes nothing, or 0 with the
    filter installed. *)
Definition filter_outcome (em : SeccompEmulator) (i : nat) (t : ThreadStateObject) (flags : Z)
    (prog : option sock_fprog) (nnp addr : Z) (em' : SeccompEmulator) (r : Z) : Prop :=
  r <> 0 /\ em' = em \/
  r = 0 /\ exists p, prog = Some p /\ 0 < len p <= 4096 /\ accepted (filter p) (len p) /\
    installed em em' i (T_Filters t) flags p addr /\ nnp <> 0 /\
    (Z.testbit flags 0 = true -> CanDoTSync em i = Some 0).

(** Pass the checks that return an error. *)
Ltac refuse H :=
  repeat match goal with
  | |- context [if ?b then Some (_, u64 _) else _] => destruct b eqn:?; [by apply H|]
  end.

Lemma SetModeFilter_outcome em i t flags prog nnp addr :
  inv em -> in_range em -> Threads em !! i = Some t ->
  (forall p, prog = Some p -> prog_wf p) -> addr <> 0 -> Filters em !! addr = None ->
  exists em' r, SetModeFilter em i flags prog nnp addr = Some (em', r) /\
    filter_outcome em i t flags prog nnp addr em' r.
Proof.
  intros Hinv Hrange Ht Hprog Ha Hfresh. unfold SetModeFilter. rewrite Ht. cbn [mbind option_bind].
  assert (forall r, r <> 0 -> exists em' r', Some (em, r) = Some (em', r') /\
            filter_outcome em i t flags prog nnp addr em' r') as Herr.
  { intros r Hr. exists em, r. split; [done|]. by left. }
  destruct prog as [p|]; refuse Herr; [|by apply Herr]. refuse Herr.
  to_prop. specialize (Hprog p eq_refl).
  pose proof Hprog as (Hlen & _). unfold is_u in Hlen.
  pose proof (ValidateProgram_spec p Hprog ltac:(lia)) as [Hacc Hv].
  assert (exists ts, (if Z.testbit flags 0 then CanDoTSync em i else Some 0) = Some ts) as [ts Ets].
  { unfold CanDoTSync. rewrite Ht. destruct (Z.testbit flags 0); by eexists. }
  rewrite tsync_bit, Ets. cbn [mbind option_bind].
  match goal with |- context [if ?b then _ else mbind _ _] => destruct b eqn:Ed end;
    to_prop; [by refuse Herr; apply Herr|].
  destruct Hv as [Hv|Hv]; rewrite Hv; cbn [mbind option_bind].
  - change (0 =? 0) with true. cbv iota.
    destruct (InstallFilter_inv em i t flags p addr) as (em' & -> & Hi); try done; [lia|].
    exists em', 0. split; [done|]. right. split; [done|]. exists p. split_and!; try done; try lia.
    + by apply Hacc.
    + intros Hb. rewrite Hb in *. destruct Ed as [?|Ed]; [done|]. to_prop. congruence.
  - by apply Herr.
Qed.

Lemma inv_set_Thread em i t t' :
  inv em -> Threads em !! i = Some t -> T_Filters t' = T_Filters t ->
  cache_ok em t' -> inv (set_Thread em i t').
Proof.
  intros (H1 & H2 & H3 & H4) Ht Ef Hc. unfold inv, set_Thread, set_Threads;
    cbn [Threads Filters FilterGeneration]. split_and!; try done; try lia.
  - intros p. rewrite (refs_insert _ _ t) by done. rewrite Ef. intros Hp.
    destruct (H2 p) as (f & ? & ?); [lia|]. exists f. split; [done|lia].
  - apply Forall_insert; [exact H3|exact Hc].
Qed.

Lemma inv_set_KillSignal em s : inv em -> inv (set_KillSignal em s).
Proof. done. Qed.

Lemma inv_set_AuditSerial em n : inv em -> inv (set_AuditSerial em n).
Proof. done. Qed.

Lemma strict_prog_ok x64 :
  prog_wf {| len := Z.of_nat (length (strict_filter x64)); filter := strict_filter x64 |}.
Proof.
  unfold prog_wf, filter_wf, is_u. cbn [len filter].
  destruct x64; (split_and!; [done..|]); repeat constructor; done.
Qed.

Lemma inv_installed_thread em em' i t ps flags p addr :
  Threads em !! i = Some t -> installed em em' i ps flags p addr ->
  exists t', Threads em' !! i = Some t' /\ T_Filters t' = ps ++ [addr] /\ cache_ok em' t'.
Proof.
  intros Ht (Hinv & _ & Hid & _ & _ & Hu & _). apply (f_equal length) in Hid.
  rewrite !length_map in Hid. pose proof (lookup_lt_Some _ _ _ Ht).
  destruct (lookup_lt_is_Some_2 (Threads em') i) as [t' Ht']; [lia|]. exists t'.
  destruct (Hu i t' Ht') as [? _]; [by left|]. destruct Hinv as (_ & _ & H3 & _).
  rewrite Forall_lookup in H3. split_and!; [done..|]. by eapply H3.
Qed.

Lemma inv_thread_cache em i t : inv em -> Threads em !! i = Some t -> cache_ok em t.
Proof. intros (_ & _ & H3 & _) Ht. rewrite Forall_lookup in H3. by eapply H3. Qed.

Lemma SetModeStrict_inv em i t flags null nnp addr :
  inv em -> in_range em -> Threads em !! i = Some t -> addr <> 0 -> Filters em !! addr = None ->
  exists em' r, SetModeStrict em i flags null nnp addr = Some (em', r) /\ inv em'.
Proof.
  intros Hinv Hrange Ht Ha Hfresh. unfold SetModeStrict. rewrite Ht. cbn [mbind option_bind].
  do 4 (case_match; [by eexists em, _|]).
  destruct (SetModeFilter_outcome (set_KillSignal em SIGKILL) i t 0
    (Some {| len := Z.of_nat (length (strict_filter (Is64BitMode (set_KillSignal em SIGKILL))));
             filter := strict_filter (Is64BitMode (set_KillSignal em SIGKILL)) |}) nnp addr)
    as (em' & r & -> & Hout); try done.
  { intros p [= <-]. apply strict_prog_ok. }
  cbn [mbind option_bind fst]. destruct Hout as [[_ ->]|(_ & p & _ & _ & _ & Hi & _)].
  - change (Threads (set_KillSignal em _)) with (Threads em). rewrite Ht. cbn [mbind option_bind].
    eexists _, _. split; [done|]. eapply inv_set_Thread; [by apply inv_set_KillSignal|exact Ht|done|].
    exact (inv_thread_cache _ _ _ Hinv Ht).
  - pose proof (inv_installed_thread (set_KillSignal em SIGKILL) _ _ _ _ _ _ _ Ht Hi) as (t' & Ht' & _ & Hc).
    rewrite Ht'. cbn [mbind option_bind]. eexists _, _. split; [done|].
    eapply inv_set_Thread; [by destruct Hi|exact Ht'|done|exact Hc].
Qed.

Lemma ExecuteFilter_inv em i t HostRIP Args :
  inv em -> Threads em !! i = Some t -> is_u 64 (nth 0 Args 0) ->
  exists em' res evs, ExecuteFilter em i HostRIP Args = Some (em', res, evs) /\ inv em'.
Proof.
  intros Hinv Ht HN. destruct (decide (T_Filters t = [])) as [E|Hne].
  { unfold ExecuteFilter. rewrite Ht. cbn [mbind option_bind]. rewrite bool_decide_true by done.
    by eexists _, _, _. }
  destruct (inv_bodies em i t Hinv Ht) as (bs & Hbs & Hok).
  assert (Hset : forall n c, cache_valid (AuditArch em) bs c -> cache_shape c -> Generation c = FilterGeneration em ->
    inv (set_Thread (set_AuditSerial em n) i (set_SeccompCache t c))).
  { intros n c Hv Hs Hg. eapply inv_set_Thread; [by apply inv_set_AuditSerial|exact Ht|done|].
    destruct Hinv as (_ & _ & _ & ?). split; [done|]. split; [cbn [SeccompCache set_SeccompCache FilterGeneration set_AuditSerial]; lia|].
    intros _ _ bs' Hbs'. cbn [T_Filters set_SeccompCache Filters set_AuditSerial] in Hbs'.
    rewrite Hbs in Hbs'. by injection Hbs' as <-. }
  pose proof (ExecuteFilter_ok em i t bs HostRIP Args Ht Hne Hbs Hok (inv_thread_cache _ _ _ Hinv Ht) HN) as Hex.
  destruct (empty_hit em t HostRIP Args).
  - destruct Hex as (c & Hv & Hs & Hg & ->). eexists _, _, _. split; [done|].
    specialize (Hset (AuditSerial em) c Hv Hs Hg). by destruct em.
  - destruct Hex as (r & log & c & _ & Hv & Hs & Hg & ->).
    destruct (TakeAction_state em HostRIP Args r log) as [n En].
    destruct (TakeAction em HostRIP Args r log) as [[em1 res] evs]. cbn [fst] in En. subst em1.
    eexists _, _, _. split; [done|]. by apply Hset.
Qed.
