(* ===== verification/SeccompProps.v ===== *)
(** * Properties of the seccomp emulator

    Reachable states, the safety of every call, the refinement of the cached execution,
    installation and thread synchronisation, and strict mode. *)

From S2P Require Import Prelude BPF Seccomp SeccompCache SeccompState.
Import BPF Seccomp.

(** ** Runs of the emulator *)

Inductive Call :=
| CallCreateThread (Parent : nat) (tid : Z)
| CallFreeThread (i : nat)
| CallSeccomp (i : nat) (Op flags : Z) (arg : GuestArg) (no_new_privs addr : Z)
| CallExecuteFilter (i : nat) (HostRIP : Z) (Args : list Z).

Definition step (em : SeccompEmulator) (c : Call) : option SeccompEmulator :=
  match c with
  | CallCreateThread Parent tid => CreateThread em Parent tid
  | CallFreeThread i => FreeSeccompFilters em i
  | CallSeccomp i Op flags arg nnp addr => fst <$> Handle em i Op flags arg nnp addr
  | CallExecuteFilter i HostRIP Args => (fun r => fst (fst r)) <$> ExecuteFilter em i HostRIP Args
  end.

(** What the rest of the program guarantees of a call: the thread exists, guest structures have
    fields of their widths, and the allocator returns an unused non-null address. *)
Definition call_ok (em : SeccompEmulator) (c : Call) : Prop :=
  match c with
  | CallCreateThread Parent _ => (Parent < length (Threads em))%nat
  | CallFreeThread i => (i < length (Threads em))%nat
  | CallSeccomp i Op flags arg nnp addr =>
      (i < length (Threads em))%nat /\ prog_wf (as_prog arg) /\ addr <> 0 /\ Filters em !! addr = None
  | CallExecuteFilter i HostRIP Args => (i < length (Threads em))%nat /\ is_u 64 (nth 0 Args 0)
  end.

(** The one call that follows a guest pointer without looking at it: SECCOMP_GET_NOTIF_SIZES with a null
    argument. *)
Definition null_sizes (em : SeccompEmulator) (c : Call) : bool :=
  match c with
  | CallSeccomp _ Op flags arg _ _ => NeedsSeccomp em && (Op =? SECCOMP_GET_NOTIF_SIZES) && (flags =? 0) && arg_null arg
  | _ => false
  end.

(** The emulator when the process starts with one thread. *)
Definition initial (needs x64 : bool) (tid : Z) : SeccompEmulator :=
  mkEmulator needs x64 SIGSYS 0 ∅ 1 0 [new_thread tid].

Inductive reachable : SeccompEmulator -> Prop :=
| reachable_initial needs x64 tid : reachable (initial needs x64 tid)
| reachable_step em c em' :
    reachable em -> in_range em -> call_ok em c -> step em c = Some em' -> reachable em'.

Lemma initial_inv needs x64 tid : inv (initial needs x64 tid).
Proof.
  unfold inv, initial; cbn [Threads Filters FilterGeneration refs new_thread T_Filters occ].
  split_and!; try done; try lia. constructor; [|done]. apply cache_ok_empty; [|done].
  apply new_thread_old. cbn. lia.
Qed.

Lemma Handle_inv em i t Op flags arg nnp addr :
  inv em -> in_range em -> Threads em !! i = Some t -> prog_wf (as_prog arg) -> addr <> 0 -> Filters em !! addr = None ->
  if null_sizes em (CallSeccomp i Op flags arg nnp addr) then Handle em i Op flags arg nnp addr = None
  else exists em' r, Handle em i Op flags arg nnp addr = Some (em', r) /\ inv em'.
Proof.
  intros Hinv Hrange Ht Hp Ha Hf. unfold Handle, null_sizes.
  destruct (NeedsSeccomp em); cbn [negb andb]; [|by eexists _, _].
  destruct (Z.eqb_spec Op SECCOMP_SET_MODE_STRICT) as [->|]; [by eapply SetModeStrict_inv|].
  destruct (Z.eqb_spec Op SECCOMP_SET_MODE_FILTER) as [->|].
  { destruct (SetModeFilter_outcome em i t flags (if arg_null arg then None else Some (as_prog arg)) nnp addr)
      as (em' & r & -> & Hout); try done.
    { intros p E. destruct (arg_null arg); by simplify_eq. }
    exists em', r. split; [done|]. by destruct Hout as [[_ ->]|(_ & p & _ & _ & _ & [Hi _] & _)]. }
  destruct (Z.eqb_spec Op SECCOMP_GET_ACTION_AVAIL) as [->|]; [by eexists _, _|].
  destruct (Z.eqb_spec Op SECCOMP_GET_NOTIF_SIZES); [|by eexists _, _].
  unfold GetNotifSizes. destruct (flags =? 0), (arg_null arg); cbn; (done || by eexists _, _).
Qed.

Lemma step_inv em c :
  inv em -> in_range em -> call_ok em c ->
  if null_sizes em c then step em c = None else exists em', step em c = Some em' /\ inv em'.
Proof.
  intros Hinv Hrange Hc. destruct c; cbn [step call_ok] in *.
  - apply lookup_lt_is_Some_2 in Hc as [t Ht]. by eapply CreateThread_inv.
  - apply lookup_lt_is_Some_2 in Hc as [t Ht]. by eapply FreeSeccompFilters_inv.
  - destruct Hc as (Hc & Hp & Ha & Hf). apply lookup_lt_is_Some_2 in Hc as [t Ht].
    pose proof (Handle_inv em i t Op flags arg no_new_privs addr Hinv Hrange Ht Hp Ha Hf) as H.
    destruct (null_sizes _ _); [by rewrite H|]. destruct H as (em' & r & -> & ?). by exists em'.
  - destruct Hc as (Hc & HN). apply lookup_lt_is_Some_2 in Hc as [t Ht].
    destruct (ExecuteFilter_inv em i t HostRIP Args) as (em' & res & evs & -> & ?); try done.
    by exists em'.
Qed.

Lemma reachable_inv em : reachable em -> inv em.
Proof.
  induction 1 as [|em c em' _ IH Hr Hc E]; [apply initial_inv|].
  pose proof (step_inv em c IH Hr Hc) as H. destruct (null_sizes em c); [congruence|].
  destruct H as (em'' & E' & Hinv). congruence.
Qed.


(** C20: In every reachable state [ExecuteFilter], whatever its verdict cache holds, returns
    the result and sends the signals and audit lines of running all of the thread's filters on
    the full data of the call (with the true instruction pointer) and taking the action of the
    newest filter with the highest precedence.  The only exception is a call whose probe hits an entry of the
    cache that was never written ([empty_hit], system call 2^64 - 1 at guest RIP 0): it is always let through,
    with no event, whatever the filters say. *)
Theorem ExecuteFilter_refines em i t HostRIP Args :
  reachable em -> Threads em !! i = Some t -> T_Filters t <> [] -> is_u 64 (nth 0 Args 0) ->
  if empty_hit em t HostRIP Args then
    exists em', ExecuteFilter em i HostRIP Args = Some (em', {| EarlyReturn := false; Result := 0 |}, [])
  else
    exists bs r log em1 em' res evs,
      bodies (Filters em) (T_Filters t) = Some bs /\
      chain_spec (reverse bs) (syscall_data (AuditArch em) HostRIP Args) r log /\
      TakeAction em HostRIP Args r log = (em1, res, evs) /\
      ExecuteFilter em i HostRIP Args = Some (em', res, evs).
Proof.
  intros Hr Ht Hne HN. pose proof (reachable_inv em Hr) as Hinv.
  destruct (inv_bodies em i t Hinv Ht) as (bs & Hbs & Hok).
  pose proof (ExecuteFilter_ok em i t bs HostRIP Args Ht Hne Hbs Hok (inv_thread_cache _ _ _ Hinv Ht) HN) as Hex.
  destruct (empty_hit em t HostRIP Args); [destruct Hex as (c & _ & _ & _ & ->); by eexists|].
  destruct Hex as (r & log & c & Hc & _ & _ & _ & E).
  destruct (TakeAction em HostRIP Args r log) as [[em1 res] evs] eqn:Et.
  by eexists bs, r, log, em1, _, res, evs.
Qed.

(** ** Synchronisation *)

(** A thread that [SECCOMP_FILTER_FLAG_TSYNC] may overwrite with the filters of [P]. *)
Definition compatible (P u : ThreadStateObject) : Prop :=
  SeccompMode u = SECCOMP_MODE_DISABLED \/
  SeccompMode u = SeccompMode P /\ T_Filters u = T_Filters P.

Lemma zip_same (l l' : list Z) :
  length l = length l' -> existsb (fun p => negb (fst p =? snd p)) (zip l l') = false -> l = l'.
Proof.
  revert l'. induction l as [|x l IH]; intros [|y l'] Hl H; simplify_eq/=; [done|].
  to_prop. subst. f_equal. by apply IH.
Qed.

Lemma CanDoTSync_loop_0 ts j self P n u :
  Forall (fun u => TID u <> 0) ts -> CanDoTSync_loop ts j self P = 0 ->
  ts !! n = Some u -> (j + n)%nat <> self -> compatible P u.
Proof.
  revert j n. induction ts as [|t ts IH]; intros j [|n] Hid H Hu Hj; simplify_eq/=;
    apply Forall_cons in Hid as [Ht Hid].
  - rewrite bool_decide_false in H by lia. unfold compatible.
    destruct (Z.eqb_spec (SeccompMode u) 0); [by left|].
    destruct (Z.eqb_spec (SeccompMode u) (SeccompMode P)); [|done]. cbn [negb] in H.
    destruct (Nat.eqb_spec (length (T_Filters u)) (length (T_Filters P))); [|done]. cbn [negb] in H.
    destruct (existsb _ _) eqn:E; [done|]. right. split; [done|]. by apply zip_same.
  - apply (IH (S j) n); try done; [|lia]. by repeat case_match.
Qed.

(** C22: A filter installation either fails with an error and changes nothing, or returns 0
    with an accepted program of at most 4096 instructions and no_new_privs set; then the new
    filter is appended to the calling thread, and with [SECCOMP_FILTER_FLAG_TSYNC] every
    thread (each of which had no filters or exactly the caller's) has the caller's filters
    and mode, while without it the other threads are untouched. *)
Theorem SetModeFilter_correct em i t flags p nnp addr :
  reachable em -> in_range em -> Threads em !! i = Some t -> prog_wf p ->
  Forall (fun u => TID u <> 0) (Threads em) -> addr <> 0 -> Filters em !! addr = None ->
  exists em' r, SetModeFilter em i flags (Some p) nnp addr = Some (em', r) /\
    (r <> 0 /\ em' = em \/
     r = 0 /\ nnp <> 0 /\ 0 < len p <= 4096 /\ accepted (filter p) (len p) /\
       body_at (Filters em') addr = Some (new_body flags p) /\
       (forall j u, Threads em' !! j = Some u -> j = i \/ Z.testbit flags 0 = true ->
          T_Filters u = T_Filters t ++ [addr] /\ SeccompMode u = SECCOMP_MODE_FILTER) /\
       (Z.testbit flags 0 = true -> forall j u, Threads em !! j = Some u -> j <> i ->
          compatible t u) /\
       (Z.testbit flags 0 = false -> forall j, j <> i -> Threads em' !! j = Threads em !! j)).
Proof.
  intros Hr Hrange Ht Hp Hid Ha Hf.
  destruct (SetModeFilter_outcome em i t flags (Some p) nnp addr (reachable_inv em Hr) Hrange Ht)
    as (em' & r & E & Hout); [by intros ? [= <-]|done..|].
  exists em', r. split; [done|].
  destruct Hout as [?|(-> & q & [= <-] & Hl & Hacc & (_ & _ & _ & Hb & _ & Hu & Ho) & Hn & Hs)]; [by left|].
  right. split_and!; try done; try lia. intros Hb0 j u Hj Hne. specialize (Hs Hb0).
  unfold CanDoTSync in Hs. rewrite Ht in Hs. injection Hs as Hs.
  by eapply CanDoTSync_loop_0.
Qed.

(** ** Strict mode *)

(** From the comparisons for the system calls [L] on, the strict filter allows [L] and kills
    for everything else. *)
Lemma strict_eval P d pre L a x m :
  P = pre ++ concat (map ALLOW_SYSCALL L) ++
      [BPF_STMT (BPF_RET + BPF_K) SECCOMP_RET_KILL_PROCESS] ->
  eval P d (Z.of_nat (length pre)) a x m
    (if bool_decide (a ∈ L) then SECCOMP_RET_ALLOW else SECCOMP_RET_KILL_PROCESS) m.
Proof.
  revert pre. induction L as [|n L IH]; intros pre EP.
  - rewrite bool_decide_false by apply not_elem_of_nil.
    apply (eval_ret P d _ (BPF_STMT 6 SECCOMP_RET_KILL_PROCESS) RetK); [|done].
    unfold filter_at. bool_lia. rewrite Nat2Z.id, EP. by rewrite lookup_app_r, Nat.sub_diag.
  - assert (forall j f, ALLOW_SYSCALL n !! j = Some f ->
      filter_at P (Z.of_nat (length pre + j)) = Some f) as Hat.
    { intros j f Hj. unfold filter_at. bool_lia. rewrite Nat2Z.id, EP.
      rewrite lookup_app_r by lia. replace (length pre + j - length pre)%nat with j by lia.
      cbn [map concat]. rewrite <- app_assoc. by apply lookup_app_l_Some. }
    eapply (eval_branch P d _ (BPF_JUMP 0x15 n 0 1) Eq OpK); [|done|].
    { rewrite <- (Hat 0%nat) by done. f_equal. lia. }
    cbn [test_sem k BPF_JUMP jt jf]. destruct (decide (a = n)) as [Ea|Ea];
      [rewrite (bool_decide_true (a = n)) by done|rewrite (bool_decide_false (a = n)) by done].
    + rewrite bool_decide_true by (subst; apply list_elem_of_here).
      apply (eval_ret P d _ (BPF_STMT 6 SECCOMP_RET_ALLOW) RetK); [|done].
      rewrite <- (Hat 1%nat) by done. f_equal. lia.
    + specialize (IH (pre ++ ALLOW_SYSCALL n)). rewrite length_app in IH. cbn [length ALLOW_SYSCALL] in IH.
      replace (Z.of_nat (length pre) + 1 + 1) with (Z.of_nat (length pre + 2)) by lia.
      assert (bool_decide (a ∈ n :: L) = bool_decide (a ∈ L)) as ->.
      { apply bool_decide_ext. rewrite elem_of_cons. tauto. }
      apply IH. rewrite EP. cbn [map concat]. by rewrite <- !app_assoc.
Qed.

Lemma strict_value b x64 Arch rip Args :
  b_prog b = strict_filter x64 ->
  value b (syscall_data Arch rip Args)
    (if bool_decide (u32 (nth 0 Args 0) ∈ strict_syscalls x64)
     then SECCOMP_RET_ALLOW else SECCOMP_RET_KILL_PROCESS).
Proof.
  intros E. exists (repeat 0 16). rewrite E.
  apply (eval_load _ _ 0 (BPF_STMT 0x20 0) RA FromData 0 0 (repeat 0 16) _ _ (u32 (nth 0 Args 0)) 0);
    [done..| |].
  - cbn [set_reg load_sem k BPF_STMT]. f_equal. change (word_at _ 0) with (le_val (le_bytes 4 (s32 (nth 0 Args 0)))).
    rewrite le_val_le_bytes. by apply u_s.
  - by apply (strict_eval _ _ [BPF_STMT 0x20 0]).
Qed.

Lemma chain_spec_singleton b d r log :
  chain_spec [b] d r log -> value b d r /\ log = b_log b.
Proof. intros ([|i] & c & Hc & Hv & -> & _); [|done]. by injection Hc as <-. Qed.

Lemma strict_accepted x64 :
  accepted (strict_filter x64) (Z.of_nat (length (strict_filter x64))).
Proof.
  apply (ValidateProgram_spec {| len := Z.of_nat (length (strict_filter x64));
                                 filter := strict_filter x64 |} (strict_prog_ok x64)).
  - by destruct x64.
  - by destruct x64.
Qed.

(** What a thread may do in strict mode: listed calls proceed silently, every other call is
    followed by an unblocked SIGKILL of the process. *)
Definition strict_events (x64 : bool) (Nr : Z) : list Event :=
  if bool_decide (u32 Nr ∈ strict_syscalls x64) then []
  else [EvUnblock 256; EvUninstallHostHandler SIGKILL; EvKill SIGKILL].

Lemma TakeAction_strict em rip Args x64 :
  CurrentKillSignal em = SIGKILL ->
  TakeAction em rip Args (if bool_decide (u32 (nth 0 Args 0) ∈ strict_syscalls x64)
     then SECCOMP_RET_ALLOW else SECCOMP_RET_KILL_PROCESS) false =
  (em, {| EarlyReturn := false; Result := 0 |}, strict_events x64 (nth 0 Args 0)).
Proof.
  intros Hk. destruct em; cbn [CurrentKillSignal] in Hk; subst.
  unfold strict_events. case_bool_decide; reflexivity.
Qed.

(** A thread whose only filter is the strict one. *)
Lemma ExecuteFilter_strict em i t addr b x64 HostRIP Args :
  inv em -> CurrentKillSignal em = SIGKILL -> Threads em !! i = Some t -> T_Filters t = [addr] ->
  body_at (Filters em) addr = Some b -> b_prog b = strict_filter x64 -> b_log b = false ->
  is_u 64 (nth 0 Args 0) -> HostRIP <> 0 \/ nth 0 Args 0 <> 2 ^ 64 - 1 ->
  exists em', ExecuteFilter em i HostRIP Args =
    Some (em', {| EarlyReturn := false; Result := 0 |}, strict_events x64 (nth 0 Args 0)).
Proof.
  intros Hinv Hk Ht Hf Hb Hp Hl HN Hedge. destruct (inv_bodies em i t Hinv Ht) as (bs & Hbs & Hok).
  pose proof (ExecuteFilter_ok em i t bs HostRIP Args Ht ltac:(by rewrite Hf) Hbs Hok (inv_thread_cache _ _ _ Hinv Ht) HN) as Hex.
  rewrite empty_hit_edge in Hex by done. destruct Hex as (r & log & c & Hc & _ & _ & _ & ->).
  rewrite Hf in Hbs. cbn [mapM] in Hbs. rewrite Hb in Hbs. injection Hbs as <-.
  apply chain_spec_singleton in Hc as [Hv ->]. rewrite Hl.
  rewrite (value_det _ _ _ _ Hv (strict_value b x64 _ _ _ Hp)), TakeAction_strict by done.
  by eexists.
Qed.

(** When the instruction budget allows its filter, strict mode confines a thread that had
    no filter: afterwards read, write, exit, exit_group and (rt_)sigreturn proceed silently and
    any other system call kills the process with SIGKILL. *)
Theorem strict_mode_confines em i t nnp addr :
  reachable em -> in_range em -> Threads em !! i = Some t -> T_Filters t = [] ->
  SeccompMode t <> SECCOMP_MODE_FILTER -> nnp <> 0 -> addr <> 0 -> Filters em !! addr = None ->
  0 <= TotalFilterInstructions em <= 32768 - 14 ->
  exists em', SetModeStrict em i 0 true nnp addr = Some (em', 0) /\
    forall HostRIP Args, is_u 64 (nth 0 Args 0) -> HostRIP <> 0 \/ nth 0 Args 0 <> 2 ^ 64 - 1 ->
      exists em'', ExecuteFilter em' i HostRIP Args =
        Some (em'', {| EarlyReturn := false; Result := 0 |},
              strict_events (Is64BitMode em) (nth 0 Args 0)).
Proof.
  intros Hr Hrange Ht Hf Hm Hn Ha Hfresh Htot. unfold SetModeStrict. rewrite Ht. cbn [mbind option_bind].
  bool_lia. change (Is64BitMode (set_KillSignal em SIGKILL)) with (Is64BitMode em).
  set (p := {| len := _; filter := _ |}).
  destruct (InstallFilter_inv (set_KillSignal em SIGKILL) i t 0 p addr)
    as (em' & E & Hi); try done.
  { apply inv_set_KillSignal, reachable_inv, Hr. }
  { apply strict_prog_ok. }
  { subst p. by destruct (Is64BitMode em). }
  { subst p. by destruct (Is64BitMode em). }
  assert (SetModeFilter (set_KillSignal em SIGKILL) i 0 (Some p) nnp addr = Some (em', 0)) as ->.
  { unfold SetModeFilter. change (Threads (set_KillSignal em SIGKILL)) with (Threads em).
    rewrite Ht. cbn [mbind option_bind]. rewrite Hf.
    change (TotalFilterInstructions (set_KillSignal em SIGKILL)) with (TotalFilterInstructions em).
    assert (0 < len p <= 14) as Hl by (subst p; by destruct (Is64BitMode em)).
    assert (ValidateProgram p = Some 0) as Hv by (subst p; by destruct (Is64BitMode em)).
    clear Hi. clearbody p. cbv beta zeta. cbn [length].
    change (0 &&& u32 (Z.lnot SUPPORTED_FLAGS)) with 0. rewrite !Z.land_0_l.
    change (negb (0 =? 0)) with false. cbn [andb].
    unfold BPF_MULTIFILTERPENALTY, BPF_MAX_INSNS_PER_PATH.
    rewrite (u_small 64 (TotalFilterInstructions em + _ + _)) by (unfold is_u; lia). bool_lia.
    rewrite Hv.
    cbn [mbind option_bind]. rewrite E. done. }
  cbn [mbind option_bind fst].
  destruct (inv_installed_thread (set_KillSignal em SIGKILL) _ _ _ _ _ _ _ Ht Hi) as (t' & Ht' & Hf' & Hc').
  rewrite Ht'. cbn [mbind option_bind]. eexists. split; [done|]. intros HostRIP Args HN Hedge.
  rewrite Hf in Hf'. destruct Hi as (Hinv & Hk & _ & Hb & _).
  eapply ExecuteFilter_strict with (x64 := Is64BitMode em); [..|exact HN|exact Hedge].
  - by eapply inv_set_Thread.
  - exact Hk.
  - by eapply set_Thread_lookup.
  - exact Hf'.
  - exact Hb.
  - cbn [b_prog new_body]. apply take_ge. subst p. cbn [len filter]. lia.
  - done.
Qed.

(** When other threads' filters have used up the process-wide instruction budget, strict
    mode reports success and sets the mode of a thread that had no filter, but the filter is
    not installed: every system call of the thread still proceeds without any event. *)
Theorem strict_mode_unconfined em i t nnp addr :
  Threads em !! i = Some t -> T_Filters t = [] -> SeccompMode t <> SECCOMP_MODE_FILTER ->
  nnp <> 0 -> 32768 - 12 < TotalFilterInstructions em < 2 ^ 32 ->
  exists em', SetModeStrict em i 0 true nnp addr = Some (em', 0) /\
    (exists t', Threads em' !! i = Some t' /\ SeccompMode t' = SECCOMP_MODE_STRICT) /\
    forall HostRIP Args, ExecuteFilter em' i HostRIP Args =
      Some (em', {| EarlyReturn := false; Result := 0 |}, []).
Proof.
  intros Ht Hf Hm Hn Htot. unfold SetModeStrict. rewrite Ht. cbn [mbind option_bind]. bool_lia.
  change (Is64BitMode (set_KillSignal em SIGKILL)) with (Is64BitMode em).
  set (p := {| len := _; filter := _ |}).
  assert (12 <= len p <= 14) as Hl by (subst p; by destruct (Is64BitMode em)). clearbody p.
  assert (SetModeFilter (set_KillSignal em SIGKILL) i 0 (Some p) nnp addr =
          Some (set_KillSignal em SIGKILL, u64 (- ENOMEM))) as ->.
  { unfold SetModeFilter. change (Threads (set_KillSignal em SIGKILL)) with (Threads em).
    rewrite Ht. cbn [mbind option_bind]. rewrite Hf.
    change (TotalFilterInstructions (set_KillSignal em SIGKILL)) with (TotalFilterInstructions em).
    cbv beta zeta. cbn [length].
    change (0 &&& u32 (Z.lnot SUPPORTED_FLAGS)) with 0. rewrite !Z.land_0_l.
    change (negb (0 =? 0)) with false. cbn [andb].
    unfold BPF_MULTIFILTERPENALTY, BPF_MAX_INSNS_PER_PATH.
    rewrite (u_small 64 (TotalFilterInstructions em + _ + _)) by (unfold is_u; lia). by bool_lia. }
  cbn [mbind option_bind fst]. change (Threads (set_KillSignal em SIGKILL)) with (Threads em).
  rewrite Ht. cbn [mbind option_bind]. eexists. split; [done|].
  assert (forall t', Threads (set_Thread (set_KillSignal em SIGKILL) i t') !! i = Some t') as E
    by (intros; by eapply set_Thread_lookup).
  split; [by eexists|]. intros HostRIP Args. unfold ExecuteFilter. rewrite E.
  cbn [mbind option_bind]. by rewrite bool_decide_true.
Qed.

(** ** Concrete runs *)

#[local] Instance in_range_dec em : Decision (in_range em).
Proof.
  unfold in_range. change (forall p f, Filters em !! p = Some f -> RefCount f < 2 ^ 31)
    with (map_Forall (fun _ f => RefCount f < 2 ^ 31) (Filters em)). apply _.
Defined.

#[local] Instance filter_wf_dec f : Decision (filter_wf f).
Proof. unfold filter_wf. apply _. Defined.

#[local] Instance prog_wf_dec p : Decision (prog_wf p).
Proof. unfold prog_wf. apply _. Defined.

#[local] Instance call_ok_dec em c : Decision (call_ok em c).
Proof. destruct c; cbn [call_ok]; apply _. Defined.

(** A run whose every step is within the guards of [reachable_step]. *)
Fixpoint run (em : SeccompEmulator) (cs : list Call) : option SeccompEmulator :=
  match cs with
  | [] => Some em
  | c :: cs =>
      if decide (in_range em /\ call_ok em c) then em' ← step em c; run em' cs else None
  end.

Lemma run_reachable em cs em' : reachable em -> run em cs = Some em' -> reachable em'.
Proof.
  revert em. induction cs as [|c cs IH]; intros em Hr E; cbn [run] in E; [by injection E as <-|].
  case_decide as Hd; [|done]. apply bind_Some in E as (em1 & Es & E).
  apply (IH em1); [|done]. destruct Hd. by eapply reachable_step.
Qed.

Definition install (i : nat) (flags : Z) (p : sock_fprog) (addr : Z) : Call :=
  CallSeccomp i SECCOMP_SET_MODE_FILTER flags
    {| arg_null := false; as_prog := p; as_action := 0 |} 1 addr.

(** A filter that allows everything. *)
Definition allow_prog : sock_fprog :=
  {| len := 1; filter := [BPF_STMT 0x06 SECCOMP_RET_ALLOW] |}.

(** C26: Filters can outlive every thread: [TSyncFilters] drops the old filter lists of the
    synchronised threads without giving their references back, so after two threads that
    shared a filter have been synchronised and torn down, the filter is still installed with
    a positive reference count and no reference to it. *)
Theorem tsync_leaks_filters :
  exists em, reachable em /\ (forall p, refs (Threads em) p = 0) /\
    exists p f, Filters em !! p = Some f /\ 0 < RefCount f.
Proof.
  destruct (run (initial true true 100)
    [install 0 0 allow_prog 16; CallCreateThread 0 101;
     install 0 SECCOMP_FILTER_FLAG_TSYNC allow_prog 32; CallFreeThread 0; CallFreeThread 1])
    as [em|] eqn:E; [|vm_compute in E; discriminate E].
  exists em. split; [by eapply run_reachable; [apply reachable_initial|exact E]|].
  vm_compute in E. injection E as <-. split; [done|]. exists 16. eexists. split; [|].
  - vm_compute. reflexivity.
  - done.
Qed.

(** Two threads share a filter that reads only the number and the architecture, and one call
    of the first thread has been answered, so that its cache holds a verdict. *)
Definition sample_run : list Call :=
  [install 0 2 {| len := 4; filter :=
     [BPF_STMT 0x20 0; BPF_JUMP 0x15 39 0 1; BPF_STMT 0x06 SECCOMP_RET_ALLOW;
      BPF_STMT 0x06 0x00050001] |} 16;
   CallCreateThread 0 101;
   CallExecuteFilter 0 0x401000 [39; 0; 0; 0; 0; 0; 0]].

Definition sample_em : SeccompEmulator :=
  default (initial true true 100) (run (initial true true 100) sample_run).

Lemma sample_reachable : reachable sample_em.
Proof.
  unfold sample_em. destruct (run (initial true true 100) sample_run) as [em|] eqn:E; cbn.
  - by eapply run_reachable; [apply reachable_initial|exact E].
  - apply reachable_initial.
Qed.

Definition sample_thread : ThreadStateObject :=
  default (new_thread 0) (Threads sample_em !! 0%nat).

(** The cached verdict of the first thread is in place. *)
Lemma sample_cached : head (AllowedNrs (SeccompCache sample_thread)) = Some (1 <<< 39).
Proof. vm_compute. reflexivity. Qed.


Lemma sample_no_empty_hit : empty_hit sample_em sample_thread 0x402000 [39; 1; 2; 3; 4; 5; 6] = false.
Proof. vm_compute. reflexivity. Qed.

(** A thread whose filter reads the instruction pointer and kills the process for every call. *)
Definition strict_rip_em : SeccompEmulator :=
  default (initial true true 100) (run (initial true true 100)
    [install 0 0 {| len := 2; filter := [BPF_STMT 0x20 8; BPF_STMT 0x06 SECCOMP_RET_KILL_PROCESS] |} 16]).

Lemma strict_rip_reachable : reachable strict_rip_em.
Proof.
  unfold strict_rip_em. destruct (run _ _) as [em|] eqn:E; cbn.
  - by eapply run_reachable; [apply reachable_initial|exact E].
  - apply reachable_initial.
Qed.

Definition strict_rip_thread : ThreadStateObject := default (new_thread 0) (Threads strict_rip_em !! 0%nat).

Definition last_call : list Z := [2 ^ 64 - 1; 0; 0; 0; 0; 0; 0].

(** A call that the filters decide, and one that hits an empty entry and escapes them. *)
Lemma ExecuteFilter_refines_witness :
  (exists bs r log em1 em' res evs,
    bodies (Filters sample_em) (T_Filters sample_thread) = Some bs /\
    chain_spec (reverse bs)
      (syscall_data (AuditArch sample_em) 0x402000 [39; 1; 2; 3; 4; 5; 6]) r log /\
    TakeAction sample_em 0x402000 [39; 1; 2; 3; 4; 5; 6] r log = (em1, res, evs) /\
    ExecuteFilter sample_em 0 0x402000 [39; 1; 2; 3; 4; 5; 6] = Some (em', res, evs)) /\
  (exists em', ExecuteFilter strict_rip_em 0 0 last_call = Some (em', {| EarlyReturn := false; Result := 0 |}, [])).
Proof.
  split.
  - pose proof (ExecuteFilter_refines sample_em 0 sample_thread 0x402000 [39; 1; 2; 3; 4; 5; 6]
      sample_reachable ltac:(vm_compute; reflexivity) ltac:(vm_compute; discriminate) ltac:(done)) as H.
    rewrite sample_no_empty_hit in H. exact H.
  - pose proof (ExecuteFilter_refines strict_rip_em 0 strict_rip_thread 0 last_call
      strict_rip_reachable ltac:(vm_compute; reflexivity) ltac:(vm_compute; discriminate) ltac:(done)) as H.
    assert (empty_hit strict_rip_em strict_rip_thread 0 last_call = true) as E by (vm_compute; reflexivity).
    rewrite E in H. exact H.
Defined.

Lemma SetModeFilter_correct_witness :
  exists em' r, SetModeFilter sample_em 0 SECCOMP_FILTER_FLAG_TSYNC (Some allow_prog) 1 32 =
    Some (em', r) /\
    (r <> 0 /\ em' = sample_em \/
     r = 0 /\ 1 <> 0 /\ 0 < len allow_prog <= 4096 /\ accepted (filter allow_prog) (len allow_prog) /\
       body_at (Filters em') 32 = Some (new_body SECCOMP_FILTER_FLAG_TSYNC allow_prog) /\
       (forall j u, Threads em' !! j = Some u -> j = 0%nat \/ Z.testbit SECCOMP_FILTER_FLAG_TSYNC 0 = true ->
          T_Filters u = T_Filters sample_thread ++ [32] /\ SeccompMode u = SECCOMP_MODE_FILTER) /\
       (Z.testbit SECCOMP_FILTER_FLAG_TSYNC 0 = true -> forall j u, Threads sample_em !! j = Some u ->
          j <> 0%nat -> compatible sample_thread u) /\
       (Z.testbit SECCOMP_FILTER_FLAG_TSYNC 0 = false -> forall j, j <> 0%nat ->
          Threads em' !! j = Threads sample_em !! j)).
Proof.
  apply (SetModeFilter_correct sample_em 0 sample_thread SECCOMP_FILTER_FLAG_TSYNC allow_prog 1 32
           sample_reachable).
  - apply (bool_decide_unpack _). vm_compute. exact I.
  - vm_compute. reflexivity.
  - apply (bool_decide_unpack _). vm_compute. exact I.
  - vm_compute. repeat constructor; discriminate.
  - done.
  - vm_compute. reflexivity.
Defined.

Lemma strict_mode_confines_witness :
  exists em', SetModeStrict (initial true true 100) 0 0 true 1 16 = Some (em', 0) /\
    exists em'', ExecuteFilter em' 0 0x401000 [2; 0; 0; 0; 0; 0; 0] =
      Some (em'', {| EarlyReturn := false; Result := 0 |},
            [EvUnblock 256; EvUninstallHostHandler SIGKILL; EvKill SIGKILL]).
Proof.
  destruct (strict_mode_confines (initial true true 100) 0 (new_thread 100) 1 16)
    as (em' & E & H).
  - apply reachable_initial.
  - apply (bool_decide_unpack _). vm_compute. exact I.
  - reflexivity.
  - reflexivity.
  - discriminate.
  - discriminate.
  - discriminate.
  - reflexivity.
  - cbn. lia.
  - exists em'. split; [exact E|].
    apply (H 0x401000 [2; 0; 0; 0; 0; 0; 0]); [unfold is_u; cbn; lia|left; discriminate].
Defined.

(** The budget used up by another thread. *)
Definition full_em : SeccompEmulator :=
  mkEmulator true true SIGSYS 32768 ∅ 9 0 [new_thread 100; new_thread 101].

Lemma strict_mode_unconfined_witness :
  exists em', SetModeStrict full_em 1 0 true 1 16 = Some (em', 0) /\
    (exists t', Threads em' !! 1%nat = Some t' /\ SeccompMode t' = SECCOMP_MODE_STRICT) /\
    forall HostRIP Args, ExecuteFilter em' 1 HostRIP Args =
      Some (em', {| EarlyReturn := false; Result := 0 |}, []).
Proof.
  apply (strict_mode_unconfined full_em 1 (new_thread 101) 1 16);
    [reflexivity|reflexivity|discriminate|discriminate|cbn; lia].
Defined.
