(* ===== verification/SeccompSerial.v ===== *)
(** * Handing filters across execve

    [SerializeFilters] and [DeserializeFilters] of SeccompEmulator.cpp.  A memfd is its list of
    bytes; the results of [memfd_create] and of each [write] are arguments, and so are the
    padding bytes of the two structures and the addresses of the new list nodes. *)

From S2P Require Import Prelude BPF Seccomp SeccompCache SeccompState SeccompProps.
Import BPF Seccomp.

(** ** Layout of the serialized structures *)

Definition sock_filter_bytes (f : sock_filter) : list Z :=
  le_bytes 2 (code f) ++ le_bytes 1 (jt f) ++ le_bytes 1 (jf f) ++ le_bytes 4 (k f).

Definition SerializationHeader_bytes (NumberOfFilters SeccompMode : Z) (pad : list Z) : list Z :=
  le_bytes 8 NumberOfFilters ++ le_bytes 4 SeccompMode ++ pad.

Definition SerializedFilter_bytes (ProgramSize FilterInstructions : Z) (ShouldLog : bool)
    (pad : list Z) : list Z :=
  le_bytes 8 ProgramSize ++ le_bytes 4 FilterInstructions ++
  le_bytes 1 (if ShouldLog then 1 else 0) ++ pad.

(** ** Serialization *)

(** [std::optional<int>]: no value, -1, or a descriptor with its contents. *)
Inductive SerializeResult := NoSeccomp | SerializeFailed | Serialized (bytes : list Z).

(** The loop over the thread's filters: [written] is what the memfd holds, [n] the number of
    writes so far, [write_ok n] whether the next one succeeds. *)
Fixpoint SerializeLoop (fs : gmap Z SeccompFilterInfo) (ps : list Z) (pad : list Z)
    (write_ok : nat -> bool) (n : nat) (written : list Z) : option SerializeResult :=
  match ps with
  | [] => Some (Serialized written)
  | p :: ps =>
      Filter ← deref fs p;
      let ProgramSize := Z.of_nat (length (Program Filter)) * 8 in
      if negb (write_ok n) then Some SerializeFailed else
      if negb (write_ok (S n)) then Some SerializeFailed else
      SerializeLoop fs ps pad write_ok (S (S n))
        (written ++
         SerializedFilter_bytes ProgramSize (FilterInstructions Filter) (ShouldLog Filter) pad ++
         concat (map sock_filter_bytes (Program Filter)))
  end.

Definition SerializeFilters (em : SeccompEmulator) (i : nat) (memfd_ok : bool)
    (write_ok : nat -> bool) (pad_header pad_filter : list Z) : option SerializeResult :=
  t ← Threads em !! i;
  if SeccompMode t =? SECCOMP_MODE_DISABLED then Some NoSeccomp else
  if negb memfd_ok then Some SerializeFailed else
  if negb (write_ok 0%nat) then Some SerializeFailed else
  SerializeLoop (Filters em) (T_Filters t) pad_filter write_ok 1
    (SerializationHeader_bytes (Z.of_nat (length (T_Filters t))) (SeccompMode t) pad_header).

(** ** Deserialization *)

(** [read(FD, buf, n)] where [FD] has the bytes [bs] left: [None] for a short read. *)
Definition read_fd (n : Z) (bs : list Z) : option (list Z * list Z) :=
  if Z.of_nat (length bs) <? n then None else Some (take (Z.to_nat n) bs, drop (Z.to_nat n) bs).

Definition parse_sock_filter (bs : list Z) : sock_filter :=
  {| code := le_val (take 2 bs); jt := le_val (take 1 (drop 2 bs));
     jf := le_val (take 1 (drop 3 bs)); k := le_val (take 4 (drop 4 bs)) |}.

Fixpoint parse_program (n : nat) (bs : list Z) : list sock_filter :=
  match n with
  | O => []
  | S n => parse_sock_filter bs :: parse_program n (drop 8 bs)
  end.

(** The loop of [DeserializeFilters]: [Some (em, true)] when all [n] filters were read,
    [Some (em, false)] when it returned early with [em] as it then is; the descriptor holds
    finitely many bytes, so [fuel] of one per byte is never used up. *)
Fixpoint DeserializeLoop (fuel : nat) (em : SeccompEmulator) (i : nat) (n : Z) (bs : list Z)
    (addrs : list Z) : option (SeccompEmulator * bool) :=
  if n <=? 0 then Some (em, true) else
  match fuel with
  | O => None
  | S fuel =>
      match read_fd 16 bs with
      | None => Some (em, false)
      | Some (h, bs) =>
          let ProgramSize := le_val (take 8 h) in
          let FilterInstructions := le_val (take 4 (drop 8 h)) in
          let ShouldLog := negb (le_val (take 1 (drop 12 h)) =? 0) in
          if (FilterInstructions =? 0) || (BPF_MAXINSNS <? FilterInstructions) ||
             negb (ProgramSize =? FilterInstructions * 8) then Some (em, false) else
          match read_fd ProgramSize bs with
          | None => Some (em, false)
          | Some (pb, bs) =>
              let Program := parse_program (Z.to_nat FilterInstructions) pb in
              r ← ValidateProgram {| len := u16 FilterInstructions; filter := Program |};
              if negb (r =? 0) then Some (em, false) else
              t ← Threads em !! i;
              addr ← head addrs;
              let it := AnalyzeFilterLoads
                (mkFilter Program 1 FilterInstructions ShouldLog false false) in
              let em := mkEmulator (NeedsSeccomp em) (Is64BitMode em) (CurrentKillSignal em)
                (u64 (TotalFilterInstructions em + FilterInstructions))
                (<[addr := it]> (Filters em)) (FilterGeneration em) (AuditSerial em)
                (<[i := set_T_Filters t (T_Filters t ++ [addr])]> (Threads em)) in
              DeserializeLoop fuel em i (n - 1) bs (tail addrs)
          end
      end
  end.

Definition DeserializeFilters (em : SeccompEmulator) (i : nat) (bs : list Z) (addrs : list Z) :
    option SeccompEmulator :=
  match read_fd 16 bs with
  | None => Some em
  | Some (h, bs') =>
      r ← DeserializeLoop (length bs) em i (le_val (take 8 h)) bs' addrs;
      let '(em, finished) := r in
      if negb finished then Some em else
      t ← Threads em !! i;
      Some (mkEmulator (NeedsSeccomp em) (Is64BitMode em) (CurrentKillSignal em)
              (TotalFilterInstructions em) (Filters em) (u64 (FilterGeneration em + 1))
              (AuditSerial em)
              (<[i := set_SeccompMode t (le_val (take 4 (drop 8 h)))]> (Threads em)))
  end.

(** ** Round trip *)

(** The bytes of a filter in the memfd. *)
Definition body_bytes (pad : list Z) (b : Body) : list Z :=
  SerializedFilter_bytes (Z.of_nat (length (b_prog b)) * 8) (b_insns b) (b_log b) pad ++
  concat (map sock_filter_bytes (b_prog b)).

Lemma SerializeLoop_bodies fs ps bs pad n written :
  bodies fs ps = Some bs ->
  SerializeLoop fs ps pad (fun _ => true) n written =
    Some (Serialized (written ++ concat (map (body_bytes pad) bs))).
Proof.
  revert bs n written. induction ps as [|p ps IH]; intros bs n written Hbs.
  { injection Hbs as <-. cbn. by rewrite app_nil_r. }
  cbn [mapM] in Hbs. apply bind_Some in Hbs as (b & Hb & Hbs).
  apply bind_Some in Hbs as (bs' & Hbs' & [= <-]).
  destruct (body_at_Some _ _ _ Hb) as (f & Hf & ->). cbn [SerializeLoop]. rewrite Hf.
  cbn [mbind option_bind negb]. rewrite (IH bs') by done. cbn [map concat].
  unfold body_bytes at 2. cbn [body b_prog b_insns b_log]. by rewrite <- !app_assoc.
Qed.

Lemma length_sock_filter_bytes f : length (sock_filter_bytes f) = 8%nat.
Proof. done. Qed.

Lemma parse_sock_filter_bytes f rest :
  filter_wf f -> parse_sock_filter (sock_filter_bytes f ++ rest) = f.
Proof.
  intros (Hc & Ht & He & Hk). destruct f as [c t e kk]. cbn [code jt jf k] in *.
  unfold parse_sock_filter. f_equal.
  - change (take 2 _) with (le_bytes 2 c). rewrite le_val_le_bytes. by apply u_small.
  - change (take 1 _) with (le_bytes 1 t). rewrite le_val_le_bytes. by apply u_small.
  - change (take 1 _) with (le_bytes 1 e). rewrite le_val_le_bytes. by apply u_small.
  - change (take 4 _) with (le_bytes 4 kk). rewrite le_val_le_bytes. by apply u_small.
Qed.

Lemma parse_program_bytes P rest :
  Forall filter_wf P -> parse_program (length P) (concat (map sock_filter_bytes P) ++ rest) = P.
Proof.
  induction 1 as [|f P Hf _ IH]; [done|]. cbn [length parse_program map concat].
  rewrite <- app_assoc, parse_sock_filter_bytes by done. f_equal. apply IH.
Qed.

Lemma length_program_bytes P :
  length (concat (map sock_filter_bytes P)) = (length P * 8)%nat.
Proof. induction P as [|f P IH]; [done|]. cbn [map concat length]. rewrite length_app, IH. cbn. lia. Qed.

Lemma read_fd_app n a bs : Z.of_nat (length a) = n -> read_fd n (a ++ bs) = Some (a, bs).
Proof.
  intros <-. unfold read_fd. rewrite length_app, Nat2Z.id. bool_lia.
  by rewrite take_app_length, drop_app_length.
Qed.

(** The fields of the header of a serialized filter. *)
Lemma SerializedFilter_fields sz n log pad :
  is_u 64 sz -> is_u 32 n -> length pad = 3%nat ->
  let h := SerializedFilter_bytes sz n log pad in
  Z.of_nat (length h) = 16 /\ le_val (take 8 h) = sz /\ le_val (take 4 (drop 8 h)) = n /\
  negb (le_val (take 1 (drop 12 h)) =? 0) = log.
Proof.
  intros Hs Hn Hp h. subst h. unfold SerializedFilter_bytes. split_and!.
  - rewrite !length_app, !length_le_bytes, Hp. done.
  - change (take 8 _) with (le_bytes 8 sz). rewrite le_val_le_bytes. by apply u_small.
  - change (take 4 _) with (le_bytes 4 n). rewrite le_val_le_bytes. by apply u_small.
  - by destruct log.
Qed.

Lemma deref_insert fs a f : a <> 0 -> deref (<[a := f]> fs) a = Some f.
Proof. intros. unfold deref. bool_lia. apply lookup_insert_eq. Qed.

Lemma DeserializeLoop_bodies fuel em i t bs rest pad addrs :
  Threads em !! i = Some t -> Forall body_ok bs -> length addrs = length bs ->
  NoDup addrs -> Forall (fun a => a <> 0) addrs -> length pad = 3%nat -> (length bs <= fuel)%nat ->
  exists em', DeserializeLoop fuel em i (Z.of_nat (length bs))
      (concat (map (body_bytes pad) bs) ++ rest) addrs = Some (em', true) /\
    Threads em' = <[i := set_T_Filters t (T_Filters t ++ addrs)]> (Threads em) /\
    bodies (Filters em') addrs = Some bs /\
    (forall p, p ∉ addrs -> body_at (Filters em') p = body_at (Filters em) p).
Proof.
  intros Ht Hok. revert fuel em t addrs Ht.
  induction Hok as [|b bs Hb _ IH]; intros fuel em t addrs Ht Hl Hnd Hnz Hpad Hfuel.
  { destruct addrs; [|done]. exists em. split_and!; try done; [by destruct fuel|].
    rewrite app_nil_r. symmetry. apply list_insert_id. rewrite Ht. by destruct t. }
  destruct addrs as [|a addrs]; [done|]. destruct fuel as [|fuel]; [cbn in Hfuel; lia|].
  apply NoDup_cons in Hnd as [Ha Hnd]. apply Forall_cons in Hnz as [Ha0 Hnz].
  destruct Hb as (Hlen & Hacc & Hwf & Han & Hins). pose proof (accepted_pos _ _ Hacc) as Hpos.
  destruct (SerializedFilter_fields (Z.of_nat (length (b_prog b)) * 8) (b_insns b) (b_log b) pad)
    as (Hh & Hsz & Hn & Hlog); [unfold is_u; lia..|done|].
  cbn [length map concat DeserializeLoop]. bool_lia. unfold body_bytes at 1.
  rewrite <- !app_assoc, read_fd_app by done. rewrite Hsz, Hn, Hlog, Hins.
  bool_lia. rewrite read_fd_app by (rewrite length_program_bytes; lia). rewrite Nat2Z.id.
  rewrite <- (app_nil_r (concat (map sock_filter_bytes _))), parse_program_bytes by done.
  rewrite (u_small 16) by (unfold is_u; lia).
  assert (ValidateProgram {| len := Z.of_nat (length (b_prog b)); filter := b_prog b |} = Some 0) as ->.
  { apply ValidateProgram_spec; [|cbn; lia|done]. split_and!; cbn [len filter]; [unfold is_u; lia|lia|done]. }
  cbn [mbind option_bind negb Z.eqb]. rewrite Ht. cbn [mbind option_bind head tail].
  set (em1 := mkEmulator _ _ _ _ _ _ _ _).
  destruct (IH fuel em1 (set_T_Filters t (T_Filters t ++ [a])) addrs) as (em' & E & Hthr & Hbs & Hother);
    [cbn [Threads em1]; apply list_lookup_insert_eq; by eapply lookup_lt_Some|
     by injection Hl|done..|cbn in Hfuel; lia|].
  exists em'. replace (Z.of_nat (S (length bs)) - 1) with (Z.of_nat (length bs)) by lia.
  rewrite E. split_and!; [done| | |].
  - rewrite Hthr. cbn [Threads em1]. rewrite list_insert_insert_eq. unfold set_T_Filters; cbn.
    by rewrite <- app_assoc.
  - cbn [mapM]. rewrite Hother, Hbs by done.
    assert (body_at (Filters em1) a = Some b) as ->; [|done].
    unfold body_at. cbn [Filters em1]. rewrite (deref_insert _ a) by done. cbn [fmap option_fmap option_map].
    unfold AnalyzeFilterLoads, body; cbn. rewrite Han. by destruct b; cbn in *; subst.
  - intros p [Hpa Hp]%not_elem_of_cons. rewrite Hother by done. unfold body_at, deref.
    cbn [Filters em1]. by rewrite lookup_insert_ne by done.
Qed.

Lemma length_bodies_bytes pad bs : (length bs <= length (concat (map (body_bytes pad) bs)))%nat.
Proof.
  induction bs as [|b bs IH]; [done|]. cbn [length map concat]. rewrite length_app.
  enough (1 <= length (body_bytes pad b))%nat by lia. unfold body_bytes, SerializedFilter_bytes.
  rewrite !length_app, length_le_bytes. lia.
Qed.

(** C25: Handing filters across execve is lossless: what [SerializeFilters] writes for a
    thread of any reachable state is accepted by [DeserializeFilters] in the new process and
    gives its thread the same mode and the same filters in the same order, with their
    programs, logging flags and load analysis. *)
Theorem serialize_roundtrip em i t pad_header pad_filter needs x64 tid addrs :
  reachable em -> Threads em !! i = Some t -> SeccompMode t <> SECCOMP_MODE_DISABLED ->
  is_u 32 (SeccompMode t) -> Z.of_nat (length (T_Filters t)) < 2 ^ 64 ->
  length pad_header = 4%nat -> length pad_filter = 3%nat ->
  length addrs = length (T_Filters t) -> NoDup addrs -> Forall (fun a => a <> 0) addrs ->
  exists bytes em' t',
    SerializeFilters em i true (fun _ => true) pad_header pad_filter = Some (Serialized bytes) /\
    DeserializeFilters (initial needs x64 tid) 0 bytes addrs = Some em' /\
    Threads em' = [t'] /\ SeccompMode t' = SeccompMode t /\ T_Filters t' = addrs /\
    bodies (Filters em') (T_Filters t') = bodies (Filters em) (T_Filters t).
Proof.
  intros Hr Ht Hm Hmu Hn Hph Hpf Hl Hnd Hnz.
  destruct (inv_bodies em i t (reachable_inv em Hr) Ht) as (bs & Hbs & Hok).
  assert (length bs = length (T_Filters t)) as Hlb by (symmetry; apply mapM_Some in Hbs; by eapply Forall2_length).
  unfold SerializeFilters. rewrite Ht. cbn [mbind option_bind negb]. bool_lia.
  rewrite (SerializeLoop_bodies _ _ bs) by done. set (h := SerializationHeader_bytes _ _ _).
  exists (h ++ concat (map (body_bytes pad_filter) bs)).
  assert (Z.of_nat (length h) = 16) as Hh
    by (unfold h, SerializationHeader_bytes; rewrite !length_app, !length_le_bytes, Hph; done).
  assert (le_val (take 8 h) = Z.of_nat (length bs) /\ le_val (take 4 (drop 8 h)) = SeccompMode t)
    as [E1 E2].
  { unfold h, SerializationHeader_bytes. split.
    - change (take 8 _) with (le_bytes 8 (Z.of_nat (length (T_Filters t)))).
      rewrite le_val_le_bytes, u_small by (unfold is_u; lia). by rewrite Hlb.
    - change (take 4 _) with (le_bytes 4 (SeccompMode t)). rewrite le_val_le_bytes. by apply u_small. }
  clearbody h. unfold DeserializeFilters. rewrite read_fd_app, E1, E2 by done.
  destruct (DeserializeLoop_bodies (length (h ++ concat (map (body_bytes pad_filter) bs)))
              (initial needs x64 tid) 0 (new_thread tid) bs [] pad_filter addrs)
    as (em' & E & Hthr & Hb & _); try done.
  { congruence. }
  { pose proof (length_bodies_bytes pad_filter bs). rewrite length_app. lia. }
  rewrite app_nil_r in E. rewrite E. cbn [mbind option_bind negb]. rewrite Hthr.
  cbn [Threads initial insert list_insert lookup list_lookup mbind option_bind].
  eexists _, _. split; [done|]. split; [done|]. split; [done|]. split_and!; [done..|].
  cbn [T_Filters set_SeccompMode set_T_Filters new_thread app Filters]. congruence.
Qed.

Lemma serialize_roundtrip_witness :
  exists bytes em' t',
    SerializeFilters sample_em 0 true (fun _ => true) [0; 0; 0; 0] [0; 0; 0] =
      Some (Serialized bytes) /\
    DeserializeFilters (initial true true 7) 0 bytes [4096] = Some em' /\
    Threads em' = [t'] /\ SeccompMode t' = SeccompMode sample_thread /\ T_Filters t' = [4096] /\
    bodies (Filters em') (T_Filters t') = bodies (Filters sample_em) (T_Filters sample_thread).
Proof.
  apply (serialize_roundtrip sample_em 0 sample_thread [0; 0; 0; 0] [0; 0; 0] true true 7 [4096]
           sample_reachable).
  - vm_compute. reflexivity.
  - vm_compute. discriminate.
  - apply (bool_decide_unpack _). vm_compute. exact I.
  - vm_compute. reflexivity.
  - reflexivity.
  - reflexivity.
  - vm_compute. reflexivity.
  - repeat constructor. intros H. inversion H.
  - repeat constructor. discriminate.
Defined.
