(* ===== verification/VMA.v ===== *)
(** * VMA tracking: the model

    Source/Tools/LinuxEmulation/LinuxSyscalls/SyscallsVMATracking.{h,cpp}.  The map from page
    addresses to [VMAEntry] nodes is a [gmap]; a [VMAEntry*] is the key of its node (nodes are
    stable and an entry never changes its base), a [MappedResource*] the identity of its node
    in the multimap, and a null pointer [None].  The intrusive lists of the entries of one
    resource are the links stored in the entries.  The outer [option] of an operation is an
    access through a dangling pointer, a fatal error or, when [asserts] is set, a failed
    assertion. *)

From S2P Require Import Prelude.

Module VMA.

(** ** Data *)

Definition SpecialDev_Anon : Z := 0x100000000.
Definition SpecialDev_SHM : Z := 0x200000000.

Record MRID := mkMRID { dev : Z; id : Z }.

(** The members of [Elf64_Phdr] that are used. *)
Record Elf64_Phdr := mkPhdr { p_type : Z; p_flags : Z; p_offset : Z; p_vaddr : Z; p_filesz : Z }.

(** The members that VMA tracking uses; the iterator is the key. *)
Record MappedResource := mkResource {
  mrid : MRID;
  FirstVMA : option Z;
  ResourceLength : Z;
  ProgramHeaders : list Elf64_Phdr;
}.

Record VMAProt := mkProt { Readable : bool; Writable : bool; Executable : bool }.

Record VMAFlags := mkFlags { Shared : bool }.

Record VMAEntry := mkVMA {
  Resource : option Z;
  ResourcePrevVMA : option Z;
  ResourceNextVMA : option Z;
  Base : Z;
  Offset : Z;
  Length : Z;
  Flags : VMAFlags;
  Prot : VMAProt;
}.

Record VMATracking := mkTracking {
  VMAs : gmap Z VMAEntry;
  MappedResources : gmap Z MappedResource;
  Generation : Z;
  MarkNoOpCache : list Z;
}.

Abbreviation PROT_READ := 1.
Abbreviation PROT_WRITE := 2.
Abbreviation PROT_EXEC := 4.
Abbreviation MAP_SHARED := 1.
Abbreviation SHM_RDONLY := 0x1000.
Abbreviation SHM_EXEC := 0x8000.

Definition fromProt (P : Z) : VMAProt :=
  mkProt (negb ((P &&& PROT_READ) =? 0)) (negb ((P &&& PROT_WRITE) =? 0))
    (negb ((P &&& PROT_EXEC) =? 0)).

Definition fromSHM (SHMFlg : Z) : VMAProt :=
  mkProt true (if negb ((SHMFlg &&& SHM_RDONLY) =? 0) then false else true)
    (if negb ((SHMFlg &&& SHM_EXEC) =? 0) then true else false).

Definition fromFlags (F : Z) : VMAFlags := mkFlags (negb ((F &&& MAP_SHARED) =? 0)).

(** Assignments to members. *)
Definition set_Prev (p : option Z) (e : VMAEntry) : VMAEntry :=
  mkVMA (Resource e) p (ResourceNextVMA e) (Base e) (Offset e) (Length e) (Flags e) (Prot e).
Definition set_Next (n : option Z) (e : VMAEntry) : VMAEntry :=
  mkVMA (Resource e) (ResourcePrevVMA e) n (Base e) (Offset e) (Length e) (Flags e) (Prot e).
Definition set_Length (l : Z) (e : VMAEntry) : VMAEntry :=
  mkVMA (Resource e) (ResourcePrevVMA e) (ResourceNextVMA e) (Base e) (Offset e) l (Flags e) (Prot e).
Definition set_Prot (p : VMAProt) (e : VMAEntry) : VMAEntry :=
  mkVMA (Resource e) (ResourcePrevVMA e) (ResourceNextVMA e) (Base e) (Offset e) (Length e) (Flags e) p.
Definition set_VMAs (m : gmap Z VMAEntry) (vt : VMATracking) : VMATracking :=
  mkTracking m (MappedResources vt) (Generation vt) (MarkNoOpCache vt).
Definition set_Resources (m : gmap Z MappedResource) (vt : VMATracking) : VMATracking :=
  mkTracking (VMAs vt) m (Generation vt) (MarkNoOpCache vt).

(** ** The "nothing to do here" memo *)

Definition FEX_GUEST_PAGE_SHIFT : Z := 12.
Definition MarkNoOpIndexBits : Z := 9.
Definition MarkNoOpEntries : Z := 512.
Definition MarkNoOpGenBits : Z := 32.
Definition MarkNoOpGenMask : Z := u64 ((1 <<< MarkNoOpGenBits) - 1).

Definition LoadGeneration (vt : VMATracking) : Z := Generation vt.

Definition BumpGeneration (vt : VMATracking) : VMATracking :=
  let New := u64 (Generation vt + 1) in
  if (New &&& MarkNoOpGenMask) =? 0 then
    mkTracking (VMAs vt) (MappedResources vt) (u64 (New + 1))
      (repeat 0 (length (MarkNoOpCache vt)))
  else mkTracking (VMAs vt) (MappedResources vt) New (MarkNoOpCache vt).

Definition MarkNoOpIndex (PageBase : Z) : Z :=
  (PageBase >>> FEX_GUEST_PAGE_SHIFT) &&& (MarkNoOpEntries - 1).

(** [None] when the function returns false. *)
Definition EncodeMarkNoOp (PageBase Gen : Z) : option Z :=
  let Tag := (PageBase >>> FEX_GUEST_PAGE_SHIFT) >>> MarkNoOpIndexBits in
  if negb (Tag >>> (64 - MarkNoOpGenBits) =? 0) then None
  else
    let Entry := u64 (Tag <<< MarkNoOpGenBits) ||| (Gen &&& MarkNoOpGenMask) in
    if negb (Entry =? 0) then Some Entry else None.

Definition IsMarkNoOp (vt : VMATracking) (PageBase Gen : Z) : option bool :=
  match EncodeMarkNoOp PageBase Gen with
  | None => Some false
  | Some Entry =>
      w ← MarkNoOpCache vt !! Z.to_nat (MarkNoOpIndex PageBase);
      Some (w =? Entry)
  end.

Definition RecordMarkNoOp (vt : VMATracking) (PageBase Gen : Z) : option VMATracking :=
  match EncodeMarkNoOp PageBase Gen with
  | None => Some vt
  | Some Entry =>
      _ ← MarkNoOpCache vt !! Z.to_nat (MarkNoOpIndex PageBase);
      Some (mkTracking (VMAs vt) (MappedResources vt) (Generation vt)
              (<[Z.to_nat (MarkNoOpIndex PageBase) := Entry]> (MarkNoOpCache vt)))
  end.

(** ** Ordered access to the map *)

(** The element before the first key not below [x], or nothing at the beginning. *)
Definition pred_key {T} (m : gmap Z T) (x : Z) : option Z :=
  foldr (fun k acc => if k <? x then Some (match acc with None => k | Some a => Z.max k a end)
                      else acc) None (map fst (map_to_list m)).

(** [lower_bound]: the first key not below [x]. *)
Definition lower_bound {T} (m : gmap Z T) (x : Z) : option Z :=
  foldr (fun k acc => if x <=? k then Some (match acc with None => k | Some a => Z.min k a end)
                      else acc) None (map fst (map_to_list m)).

(** [emplace]: the node for the key and whether it was inserted. *)
Definition emplace (m : gmap Z VMAEntry) (k : Z) (e : VMAEntry) : gmap Z VMAEntry * bool :=
  match m !! k with Some _ => (m, false) | None => (<[k := e]> m, true) end.

Section tracking.
  Context (asserts : bool).

(** [LOGMAN_THROW_A_FMT] *)
Definition LOGMAN (c : bool) : option unit := if asserts && negb c then None else Some tt.

Definition ptr_eqb (p q : option Z) : bool := bool_decide (p = q).

Definition update_entry (vt : VMATracking) (k : Z) (f : VMAEntry -> VMAEntry) : option VMATracking :=
  e ← VMAs vt !! k; Some (set_VMAs (<[k := f e]> (VMAs vt)) vt).

Definition set_FirstVMA (vt : VMATracking) (r : Z) (v : option Z) : option VMATracking :=
  res ← MappedResources vt !! r;
  Some (set_Resources (<[r := mkResource (mrid res) v (ResourceLength res) (ProgramHeaders res)]>
                         (MappedResources vt)) vt).

(** ** List operations *)

Definition ListCheckVMALinks (vt : VMATracking) (p : option Z) : option unit :=
  match p with
  | None => Some tt
  | Some k =>
      e ← VMAs vt !! k;
      _ ← LOGMAN (negb (ptr_eqb (ResourceNextVMA e) (Some k)));
      LOGMAN (negb (ptr_eqb (ResourcePrevVMA e) (Some k)))
  end.

Definition ListRemove (vt : VMATracking) (k : Z) : option (VMATracking * bool) :=
  VMA ← VMAs vt !! k;
  _ ← LOGMAN (negb (ptr_eqb (Resource VMA) None));
  r ← Resource VMA;
  vt ← match ResourcePrevVMA VMA with
       | Some p =>
           prev ← VMAs vt !! p;
           _ ← LOGMAN (ptr_eqb (ResourceNextVMA prev) (Some k));
           update_entry vt p (set_Next (ResourceNextVMA VMA))
       | None =>
           res ← MappedResources vt !! r;
           _ ← LOGMAN (ptr_eqb (FirstVMA res) (Some k));
           Some vt
       end;
  VMA ← VMAs vt !! k;
  vt ← match ResourceNextVMA VMA with
       | Some n =>
           next ← VMAs vt !! n;
           _ ← LOGMAN (ptr_eqb (ResourcePrevVMA next) (Some k));
           update_entry vt n (set_Prev (ResourcePrevVMA VMA))
       | None => Some vt
       end;
  VMA ← VMAs vt !! k;
  res ← MappedResources vt !! r;
  vt ← (if ptr_eqb (FirstVMA res) (Some k) then
          _ ← match ResourceNextVMA VMA with
              | None => Some tt
              | Some n => next ← VMAs vt !! n; LOGMAN (ptr_eqb (ResourcePrevVMA next) None)
              end;
          set_FirstVMA vt r (ResourceNextVMA VMA)
        else Some vt);
  _ ← ListCheckVMALinks vt (Some k);
  _ ← ListCheckVMALinks vt (ResourceNextVMA VMA);
  _ ← ListCheckVMALinks vt (ResourcePrevVMA VMA);
  res ← MappedResources vt !! r;
  Some (vt, ptr_eqb (FirstVMA res) None).

Definition ListReplace (vt : VMATracking) (k new : Z) : option VMATracking :=
  VMA ← VMAs vt !! k;
  NewVMA ← VMAs vt !! new;
  _ ← LOGMAN (negb (ptr_eqb (Resource VMA) None));
  _ ← LOGMAN (ptr_eqb (Resource VMA) (Resource NewVMA));
  _ ← LOGMAN (ptr_eqb (ResourcePrevVMA NewVMA) (ResourcePrevVMA VMA));
  _ ← LOGMAN (ptr_eqb (ResourceNextVMA NewVMA) (ResourceNextVMA VMA));
  r ← Resource VMA;
  res ← MappedResources vt !! r;
  vt ← match ResourcePrevVMA VMA with
       | Some p =>
           prev ← VMAs vt !! p;
           _ ← LOGMAN (negb (ptr_eqb (FirstVMA res) (Some k)));
           _ ← LOGMAN (ptr_eqb (ResourceNextVMA prev) (Some k));
           update_entry vt p (set_Next (Some new))
       | None =>
           _ ← LOGMAN (ptr_eqb (FirstVMA res) (Some k));
           set_FirstVMA vt r (Some new)
       end;
  VMA ← VMAs vt !! k;
  vt ← match ResourceNextVMA VMA with
       | Some n =>
           next ← VMAs vt !! n;
           _ ← LOGMAN (ptr_eqb (ResourcePrevVMA next) (Some k));
           update_entry vt n (set_Prev (Some new))
       | None => Some vt
       end;
  VMA ← VMAs vt !! k;
  _ ← ListCheckVMALinks vt (Some k);
  _ ← ListCheckVMALinks vt (Some new);
  _ ← ListCheckVMALinks vt (ResourceNextVMA VMA);
  _ ← ListCheckVMALinks vt (ResourcePrevVMA VMA);
  Some vt.

Definition ListInsertAfter (vt : VMATracking) (after new : Z) : option VMATracking :=
  NewVMA ← VMAs vt !! new;
  AfterVMA ← VMAs vt !! after;
  _ ← LOGMAN (negb (ptr_eqb (Resource NewVMA) None));
  _ ← LOGMAN (ptr_eqb (Resource AfterVMA) (Resource NewVMA));
  _ ← LOGMAN (ptr_eqb (ResourcePrevVMA NewVMA) (Some after));
  _ ← LOGMAN (ptr_eqb (ResourceNextVMA NewVMA) (ResourceNextVMA AfterVMA));
  vt ← match ResourceNextVMA AfterVMA with
       | Some n =>
           next ← VMAs vt !! n;
           _ ← LOGMAN (ptr_eqb (ResourcePrevVMA next) (Some after));
           update_entry vt n (set_Prev (Some new))
       | None => Some vt
       end;
  vt ← update_entry vt after (set_Next (Some new));
  AfterVMA ← VMAs vt !! after;
  _ ← ListCheckVMALinks vt (Some after);
  _ ← ListCheckVMALinks vt (Some new);
  _ ← ListCheckVMALinks vt (ResourceNextVMA AfterVMA);
  _ ← ListCheckVMALinks vt (ResourcePrevVMA AfterVMA);
  Some vt.

Definition ListPrepend (vt : VMATracking) (r new : Z) : option VMATracking :=
  NewVMA ← VMAs vt !! new;
  res ← MappedResources vt !! r;
  _ ← LOGMAN (ptr_eqb (Resource NewVMA) (Some r));
  _ ← LOGMAN (ptr_eqb (ResourcePrevVMA NewVMA) None);
  _ ← LOGMAN (ptr_eqb (ResourceNextVMA NewVMA) (FirstVMA res));
  vt ← match FirstVMA res with
       | Some f =>
           first ← VMAs vt !! f;
           _ ← LOGMAN (ptr_eqb (ResourcePrevVMA first) None);
           update_entry vt f (set_Prev (Some new))
       | None => Some vt
       end;
  vt ← set_FirstVMA vt r (Some new);
  NewVMA ← VMAs vt !! new;
  _ ← ListCheckVMALinks vt (Some new);
  _ ← ListCheckVMALinks vt (ResourceNextVMA NewVMA);
  _ ← ListCheckVMALinks vt (ResourcePrevVMA NewVMA);
  Some vt.

(** ** Lookup *)

(** [upper_bound(GuestAddr)] is the first key above the address, so the element before it has
    the largest key not above it. *)
Definition FindVMAEntry (vt : VMATracking) (GuestAddr : Z) : option Z :=
  Entry ← pred_key (VMAs vt) (GuestAddr + 1);
  e ← VMAs vt !! Entry;
  if (Entry <=? GuestAddr) && (GuestAddr <? u64 (Entry + Length e)) then Some Entry else None.

(** ** Deletion *)

Definition erase_resource (vt : VMATracking) (r : Z) : VMATracking :=
  set_Resources (delete r (MappedResources vt)) vt.

Definition erase_vma (vt : VMATracking) (k : Z) : VMATracking :=
  set_VMAs (delete k (VMAs vt)) vt.

(** One iteration of the loop of [DeleteVMARange] on the entry [k]; the flag is false for the
    [break]. *)
Definition DeleteStep (vt : VMATracking) (RBase Top : Z) (Preserved : option Z) (k : Z) :
    option (VMATracking * bool) :=
  Current ← VMAs vt !! k;
  let MapBase := Base Current in
  let MapTop := u64 (MapBase + Length Current) in
  let OffsetDiff := u64 (Offset Current - MapBase) in
  if MapTop <=? RBase then Some (vt, false) else
  let HasFirstPart := MapBase <? RBase in
  let HasTrailingPart := Top <? MapTop in
  if negb HasFirstPart && negb HasTrailingPart then
    vt ← match Resource Current with
         | None => Some vt
         | Some r =>
             rm ← ListRemove vt k;
             let '(vt, empty) := rm in
             Some (if (empty : bool) && negb (ptr_eqb (Some r) Preserved)
                   then erase_resource vt r else vt)
         end;
    Some (erase_vma vt k, true)
  else
    vt ← (if HasFirstPart then update_entry vt k (set_Length (u64 (RBase - MapBase))) else Some vt);
    let ReplaceAndErase := negb HasFirstPart in
    vt ← (if HasTrailingPart then
            Current ← VMAs vt !! k;
            let '(m, Inserted) := emplace (VMAs vt) Top
              (mkVMA (Resource Current)
                 (if ReplaceAndErase then ResourcePrevVMA Current else Some k)
                 (ResourceNextVMA Current) Top (u64 (OffsetDiff + Top)) (u64 (MapTop - Top))
                 (Flags Current) (Prot Current)) in
            _ ← LOGMAN Inserted;
            let vt := set_VMAs m vt in
            match Resource Current with
            | None => Some vt
            | Some _ => if ReplaceAndErase then ListReplace vt k Top else ListInsertAfter vt k Top
            end
          else Some vt);
    Some (if ReplaceAndErase then erase_vma vt k else vt, true).

(** The loop, walking backwards from the element before [cur]: one unit of fuel per entry. *)
Fixpoint DeleteLoop (fuel : nat) (vt : VMATracking) (RBase Top : Z) (Preserved : option Z) (cur : Z) :
    option VMATracking :=
  match pred_key (VMAs vt) cur with
  | None => Some vt
  | Some k =>
      match fuel with
      | O => None
      | S fuel =>
          r ← DeleteStep vt RBase Top Preserved k;
          let '(vt, go_on) := r in
          if (go_on : bool) then DeleteLoop fuel vt RBase Top Preserved k else Some vt
      end
  end.

Definition DeleteVMARange (vt : VMATracking) (RBase RLength : Z) (Preserved : option Z) :
    option VMATracking :=
  let vt := BumpGeneration vt in
  let Top := u64 (RBase + RLength) in
  DeleteLoop (size (VMAs vt)) vt RBase Top Preserved Top.

(** ** Insertion *)

(** The loop that finds the neighbours in the resource's list. *)
Fixpoint FindNeighbours (fuel : nat) (vt : VMATracking) (RBase : Z) (Prev Next : option Z) :
    option (option Z * option Z) :=
  match Next with
  | None => Some (Prev, None)
  | Some n =>
      e ← VMAs vt !! n;
      if Base e <? RBase then
        match fuel with
        | O => None
        | S fuel => FindNeighbours fuel vt RBase (Some n) (ResourceNextVMA e)
        end
      else Some (Prev, Some n)
  end.

(** The new entry of [TrackVMARange], inserted and linked into the list of its resource. *)
Definition LinkVMA (vt : VMATracking) (Res : option Z) (RBase ROffset RLength : Z)
    (F : VMAFlags) (P : VMAProt) : option VMATracking :=
  PrevResVMA ← match Res with
               | None => Some None
               | Some r => res ← MappedResources vt !! r; Some (FirstVMA res)
               end;
  links ← match PrevResVMA with
          | None => Some (None, None)
          | Some p =>
              e ← VMAs vt !! p;
              if RBase <? Base e then Some (None, Some p) else Some (Some p, ResourceNextVMA e)
          end;
  links ← FindNeighbours (size (VMAs vt)) vt RBase (fst links) (snd links);
  let '(PrevResVMA, NextResVMA) := links in
  let '(m, Inserted) := emplace (VMAs vt) RBase
    (mkVMA Res PrevResVMA NextResVMA RBase ROffset RLength F P) in
  _ ← LOGMAN Inserted;
  let vt := set_VMAs m vt in
  match Res, PrevResVMA with
  | Some r, None => ListPrepend vt r RBase
  | Some _, Some p => ListInsertAfter vt p RBase
  | None, _ => Some vt
  end.

Definition TrackVMARange (vt : VMATracking) (Res : option Z) (RBase ROffset RLength : Z)
    (F : VMAFlags) (P : VMAProt) : option VMATracking :=
  let vt := BumpGeneration vt in
  vt ← DeleteVMARange vt RBase RLength Res;
  LinkVMA vt Res RBase ROffset RLength F P.

(** ** Protection changes *)

(** [emplace] of a part of the entry [k] right after it, which is fatal when the key is taken. *)
Definition SplitOff (vt : VMATracking) (k NewBase NewOffset NewLength : Z) (P : VMAProt) :
    option VMATracking :=
  Current ← VMAs vt !! k;
  let '(m, Inserted) := emplace (VMAs vt) NewBase
    (mkVMA (Resource Current) (Some k) (ResourceNextVMA Current) NewBase NewOffset NewLength
       (Flags Current) P) in
  if negb Inserted then None else
  let vt := set_VMAs m vt in
  match Resource Current with None => Some vt | Some _ => ListInsertAfter vt k NewBase end.

(** Merge strategy 4: the tail of the entry beyond [Top] is split off, the entry is trimmed and
    gets the new protection. *)
Definition ProtectStep (vt : VMATracking) (k Top : Z) (NewProt : VMAProt) : option VMATracking :=
  Current ← VMAs vt !! k;
  let CurrentBase := Base Current in
  let CurrentTop := u64 (CurrentBase + Length Current) in
  let OffsetDiff := u64 (Offset Current - CurrentBase) in
  vt ← (if Top <? CurrentTop then
          SplitOff vt k Top (u64 (OffsetDiff + CurrentBase)) (u64 (CurrentTop - Top)) (Prot Current)
        else Some vt);
  update_entry vt k (fun e => set_Length (u64 (Top - CurrentBase)) (set_Prot NewProt e)).

(** The loop of [ChangeProtectionFlags]: the entry it stops at and the
    remaining top of the range. *)
Fixpoint ProtectLoop (fuel : nat) (vt : VMATracking) (RBase Top : Z) (NewProt : VMAProt)
    (iter : option Z) : option (VMATracking * Z * option Z) :=
  match pred_key (VMAs vt) (match iter with Some k => k | None => Top end) with
  | None => Some (vt, Top, iter)
  | Some k =>
      Current ← VMAs vt !! k;
      if (Base Current <=? RBase) || (u64 (Base Current + Length Current) <? Top)
      then Some (vt, Top, Some k)
      else
        match fuel with
        | O => None
        | S fuel =>
            let CurrentBase := Base Current in
            vt ← ProtectStep vt k Top NewProt;
            let RLength := u64 (CurrentBase - RBase) in
            ProtectLoop fuel vt RBase (u64 (RBase + RLength)) NewProt (Some k)
        end
  end.

(** What follows the loop, on the entry it stopped at. *)
Definition ProtectLast (vt : VMATracking) (k RBase Top : Z) (NewProt : VMAProt) : option VMATracking :=
  Current ← VMAs vt !! k;
  let CurrentBase := Base Current in
  let CurrentTop := u64 (CurrentBase + Length Current) in
  let OffsetDiff := u64 (Offset Current - CurrentBase) in
  if CurrentTop <=? RBase then Some vt
  else if (CurrentBase =? RBase) && (CurrentTop =? Top) then update_entry vt k (set_Prot NewProt)
  else if (CurrentBase =? RBase) && (Top <? CurrentTop) then
    vt ← update_entry vt k (fun e => set_Length (u64 (Top - CurrentBase)) (set_Prot NewProt e));
    SplitOff vt k Top (u64 (OffsetDiff + Top)) (u64 (CurrentTop - Top)) (Prot Current)
  else if (CurrentBase <? RBase) && (Top <=? CurrentTop) then
    vt ← update_entry vt k (set_Length (u64 (RBase - CurrentBase)));
    vt ← SplitOff vt k RBase (u64 (OffsetDiff + RBase)) (u64 (Top - RBase)) NewProt;
    if Top <? CurrentTop then
      SplitOff vt k Top (u64 (OffsetDiff + Top)) (u64 (CurrentTop - Top)) (Prot Current)
    else Some vt
  else None.

(** After the loop the iterator is dereferenced whether or not it points at an entry: with no
    entry below the range it is still [lower_bound(Top)], or the end. *)
Definition ChangeProtectionFlags (vt : VMATracking) (RBase RLength : Z) (NewProt : VMAProt) :
    option VMATracking :=
  let vt := BumpGeneration vt in
  if RLength =? 0 then Some vt else
  let Top := u64 (RBase + RLength) in
  r ← ProtectLoop (size (VMAs vt)) vt RBase Top NewProt None;
  let '(vt, Top', iter) := r in
  k ← match iter with Some k => Some k | None => lower_bound (VMAs vt) Top end;
  ProtectLast vt k RBase Top' NewProt.

(** ** Shared memory segments *)

(** The first entry from [cur] on that maps the start of an shm segment attached at [RBase]. *)
Fixpoint FindSHM (fuel : nat) (vt : VMATracking) (RBase : Z) (cur : Z) : option (option Z) :=
  match lower_bound (VMAs vt) cur with
  | None => Some None
  | Some k =>
      e ← VMAs vt !! k;
      _ ← LOGMAN (RBase <=? Base e);
      is_shm ← match Resource e with
               | None => Some false
               | Some r =>
                   if u64 (Base e - RBase) =? Offset e then
                     res ← MappedResources vt !! r; Some (dev (mrid res) =? SpecialDev_SHM)
                   else Some false
               end;
      if (is_shm : bool) then Some (Some k)
      else match fuel with O => None | S fuel => FindSHM fuel vt RBase (k + 1) end
  end.

Fixpoint DeleteSHMLoop (fuel : nat) (vt : VMATracking) (RBase ShmLength : Z) (Res : Z) (k : Z) :
    option VMATracking :=
  match fuel with
  | O => None
  | S fuel =>
      e ← VMAs vt !! k;
      vt ← (if ptr_eqb (Resource e) (Some Res) then
              rm ← ListRemove vt k;
              let '(vt, empty) := rm in
              Some (erase_vma (if (empty : bool) then erase_resource vt Res else vt) k)
            else Some vt);
      match lower_bound (VMAs vt) (k + 1) with
      | None => Some vt
      | Some k' =>
          e ← VMAs vt !! k';
          if u64 (u64 (Base e + Length e) - RBase) <=? ShmLength
          then DeleteSHMLoop fuel vt RBase ShmLength Res k' else Some vt
      end
  end.

Definition DeleteSHMRegion (vt : VMATracking) (RBase : Z) : option (VMATracking * Z) :=
  let vt := BumpGeneration vt in
  found ← FindSHM (size (VMAs vt)) vt RBase RBase;
  match found with
  | None => Some (vt, 0)
  | Some k =>
      e ← VMAs vt !! k;
      r ← Resource e;
      res ← MappedResources vt !! r;
      let ShmLength := ResourceLength res in
      vt ← DeleteSHMLoop (size (VMAs vt)) vt RBase ShmLength r k;
      Some (vt, ShmLength)
  end.

End tracking.

End VMA.
