(* ===== verification/VMALists.v ===== *)
(** * The intrusive lists of VMA tracking

    Doubly linked segments over the map of entries, the representation of every resource's
    list, and the four list operations: none of their assertions fails, and each has its
    effect on the represented lists and no effect on anything but the links. *)

From stdpp Require Import sorting.
From S2P Require Import Prelude VMA.
Import VMA.

(** ** Segments *)

(** The entries [l] of resource [r] are linked one after the other, from [p] before the first
    to [n] after the last. *)
Fixpoint dlseg (r : Z) (p : option Z) (l : list Z) (n : option Z) (m : gmap Z VMAEntry) : Prop :=
  match l with
  | [] => True
  | k :: t =>
      (exists e, m !! k = Some e /\ Resource e = Some r /\ ResourcePrevVMA e = p /\
         ResourceNextVMA e = match t with [] => n | x :: _ => Some x end) /\
      dlseg r (Some k) t n m
  end.

Definition first_or (l : list Z) (n : option Z) : option Z :=
  match l with [] => n | x :: _ => Some x end.

Definition last_or (l : list Z) (p : option Z) : option Z :=
  match last l with Some x => Some x | None => p end.

Lemma last_or_snoc l x p : last_or (l ++ [x]) p = Some x.
Proof. unfold last_or. by rewrite last_snoc. Qed.

Lemma last_or_cons x l p : last_or (x :: l) p = last_or l (Some x).
Proof. unfold last_or. rewrite last_cons. by destruct (last l). Qed.

Lemma dlseg_app r p a b n m :
  dlseg r p (a ++ b) n m <-> dlseg r p a (first_or b n) m /\ dlseg r (last_or a p) b n m.
Proof.
  revert p. induction a as [|k a IH]; intros p; cbn [dlseg app]; [tauto|].
  rewrite IH, last_or_cons. destruct a as [|x a]; cbn [app first_or]; [|tauto].
  destruct b; cbn [first_or]; tauto.
Qed.

Lemma dlseg_frame r p l n m m' :
  (forall k, k ∈ l -> m' !! k = m !! k) -> dlseg r p l n m -> dlseg r p l n m'.
Proof.
  revert p. induction l as [|k l IH]; intros p H; [done|]. cbn [dlseg]. intros [He Hl]. split.
  - by rewrite H by (by left).
  - apply IH; [|done]. intros. apply H. by right.
Qed.

Lemma dlseg_lookup r p l n m k :
  dlseg r p l n m -> k ∈ l -> exists e, m !! k = Some e /\ Resource e = Some r.
Proof.
  revert p. induction l as [|x l IH]; intros p H Hk; [by apply elem_of_nil in Hk|].
  destruct H as [(e & ? & ? & _) Hl]. apply elem_of_cons in Hk as [->|Hk]; [by exists e|by eapply IH].
Qed.

(** The entry in the middle of a segment. *)
Lemma dlseg_middle r p a k b n m :
  dlseg r p (a ++ k :: b) n m <->
  dlseg r p a (Some k) m /\
  (exists e, m !! k = Some e /\ Resource e = Some r /\ ResourcePrevVMA e = last_or a p /\
     ResourceNextVMA e = first_or b n) /\
  dlseg r (Some k) b n m.
Proof. rewrite dlseg_app. cbn [first_or dlseg]. unfold first_or. tauto. Qed.

(** ** The representation of the lists *)

Definition rep (vt : VMATracking) (ch : gmap Z (list Z)) : Prop :=
  (forall r, is_Some (ch !! r) <-> is_Some (MappedResources vt !! r)) /\
  (forall r l, ch !! r = Some l -> NoDup l /\ dlseg r None l None (VMAs vt)) /\
  (forall r l res, ch !! r = Some l -> MappedResources vt !! r = Some res -> FirstVMA res = head l) /\
  (forall k e r, VMAs vt !! k = Some e -> Resource e = Some r ->
     exists l, ch !! r = Some l /\ k ∈ l).

(** The members other than the links. *)
Record Core := mkCore {
  c_res : option Z; c_base : Z; c_offset : Z; c_length : Z; c_flags : VMAFlags; c_prot : VMAProt
}.

Definition core (e : VMAEntry) : Core :=
  mkCore (Resource e) (Base e) (Offset e) (Length e) (Flags e) (Prot e).

Definition cores (vt : VMATracking) : gmap Z Core := core <$> VMAs vt.

Lemma cores_lookup vt k : cores vt !! k = core <$> VMAs vt !! k.
Proof. apply lookup_fmap. Qed.

Lemma cores_update vt m k e e' :
  m !! k = Some e -> core e' = core e -> core <$> m = cores vt -> core <$> <[k := e']> m = cores vt.
Proof.
  intros He Hc Hm. rewrite fmap_insert, Hc, <- Hm. apply insert_id. by rewrite lookup_fmap, He.
Qed.

Lemma LOGMAN_true asserts c : c = true -> LOGMAN asserts c = Some tt.
Proof. intros ->. unfold LOGMAN. by rewrite andb_false_r. Qed.

Lemma ptr_eqb_refl p : ptr_eqb p p = true.
Proof. unfold ptr_eqb. by apply bool_decide_true. Qed.

Lemma ptr_eqb_ne p q : p <> q -> ptr_eqb p q = false.
Proof. intros. unfold ptr_eqb. by apply bool_decide_false. Qed.

Lemma check_links asserts vt p :
  (forall k, p = Some k -> exists e, VMAs vt !! k = Some e /\ ResourceNextVMA e <> Some k /\
     ResourcePrevVMA e <> Some k) ->
  ListCheckVMALinks asserts vt p = Some tt.
Proof.
  intros H. destruct p as [k|]; [|done]. destruct (H k eq_refl) as (e & He & Hn & Hp).
  cbn. rewrite He. cbn. by rewrite !LOGMAN_true by (by rewrite ptr_eqb_ne).
Qed.

(** An entry of a represented list is not its own neighbour. *)
Lemma dlseg_no_self r p l n m k e :
  dlseg r p l n m -> NoDup l -> m !! k = Some e -> k ∈ l -> p <> Some k -> n <> Some k ->
  ResourceNextVMA e <> Some k /\ ResourcePrevVMA e <> Some k.
Proof.
  intros H Hnd He Hk Hp Hn. apply list_elem_of_split in Hk as (a & b & ->).
  apply dlseg_middle in H as (_ & (e' & He' & _ & Ep & En) & _). rewrite He in He'.
  injection He' as <-. rewrite Ep, En. apply NoDup_app in Hnd as (_ & Hd & Hnd).
  apply NoDup_cons in Hnd as [Hkb _]. split.
  - destruct b as [|x b]; cbn [first_or]; [done|]. intros [= ->]. apply Hkb. by left.
  - unfold last_or. destruct (last a) as [y|] eqn:El; [|done]. intros [= ->].
    apply (Hd k); [|by left]. apply last_Some in El as [l' ->]. set_solver.
Qed.

(** A chain other than the one an operation touches keeps its entries. *)
Lemma rep_other vt ch r r' l' k e :
  rep vt ch -> ch !! r' = Some l' -> r' <> r -> VMAs vt !! k = Some e -> Resource e = Some r ->
  k ∉ l'.
Proof.
  intros (_ & H2 & _) Hl Hne He Hr Hin. destruct (H2 r' l' Hl) as [_ Hd].
  destruct (dlseg_lookup _ _ _ _ _ _ Hd Hin) as (e' & He' & Hr'). congruence.
Qed.

(** ** Updates of the links of one chain *)

Definition upd (p : option Z) (f : VMAEntry -> VMAEntry) (m : gmap Z VMAEntry) : gmap Z VMAEntry :=
  match p with Some k => alter f k m | None => m end.

Lemma upd_ne p f m k : p <> Some k -> upd p f m !! k = m !! k.
Proof. destruct p as [x|]; intros H; [|done]. apply lookup_alter_ne. congruence. Qed.

Lemma upd_core p f m : (forall e, core (f e) = core e) -> core <$> upd p f m = core <$> m.
Proof.
  intros Hf. destruct p as [x|]; [|done]. apply map_eq. intros k. rewrite !lookup_fmap. cbn.
  destruct (decide (x = k)) as [->|]; [rewrite lookup_alter_eq|by rewrite lookup_alter_ne].
  destruct (m !! k); [|done]. cbn. by rewrite Hf.
Qed.

Lemma last_or_None l : last_or l None = last l.
Proof. unfold last_or. by destruct (last l). Qed.

Lemma first_or_None l : first_or l None = head l.
Proof. by destruct l. Qed.

Lemma last_in (l : list Z) x : last l = Some x -> x ∈ l.
Proof. intros H. apply last_Some in H as [l' ->]. set_solver. Qed.

Lemma head_in (l : list Z) x : head l = Some x -> x ∈ l.
Proof. destruct l; [done|]. intros [= ->]. by left. Qed.

Lemma dlseg_set_prev r p p' l n m :
  NoDup l -> dlseg r p l n m -> dlseg r p' l n (upd (head l) (set_Prev p') m).
Proof.
  destruct l as [|k l]; [done|]. intros Hnd [(e & He & Hr & Hp & Hn) Hl]. cbn [head upd dlseg].
  apply NoDup_cons in Hnd as [Hk _]. split.
  - exists (set_Prev p' e). by rewrite lookup_alter_eq, He.
  - eapply dlseg_frame; [|exact Hl]. intros x Hx. apply lookup_alter_ne. set_solver.
Qed.

Lemma dlseg_set_next r p l n n' m :
  NoDup l -> dlseg r p l n m -> dlseg r p l n' (upd (last l) (set_Next n') m).
Proof.
  destruct l as [|k l] using rev_ind; [done|]. intros Hnd H. rewrite last_snoc. cbn [upd].
  apply NoDup_app in Hnd as (_ & Hd & _). apply dlseg_middle in H as (Hl & (e & He & Hr & Hp & Hn) & _).
  apply dlseg_middle. repeat split; [|exists (set_Next n' e); by rewrite lookup_alter_eq, He].
  eapply dlseg_frame; [|exact Hl]. intros x Hx. apply lookup_alter_ne. intros ->. by apply (Hd x); [|left].
Qed.

Lemma dlseg_last r p l n m x :
  dlseg r p l n m -> last l = Some x ->
  exists e, m !! x = Some e /\ Resource e = Some r /\ ResourceNextVMA e = n.
Proof.
  intros H Hx. apply last_Some in Hx as [l' ->]. apply dlseg_middle in H as (_ & (e & ? & ? & _ & ?) & _).
  by exists e.
Qed.

Lemma dlseg_head r p l n m x :
  dlseg r p l n m -> head l = Some x ->
  exists e, m !! x = Some e /\ Resource e = Some r /\ ResourcePrevVMA e = p.
Proof. destruct l; [done|]. intros [(e & ? & ? & ? & _) _] [= ->]. by exists e. Qed.

(** Everything the representation says of one entry. *)
Lemma rep_entry vt ch k e r :
  rep vt ch -> VMAs vt !! k = Some e -> Resource e = Some r ->
  exists l1 l2 res,
    ch !! r = Some (l1 ++ k :: l2) /\ NoDup (l1 ++ k :: l2) /\
    MappedResources vt !! r = Some res /\ FirstVMA res = head (l1 ++ k :: l2) /\
    dlseg r None l1 (Some k) (VMAs vt) /\ dlseg r (Some k) l2 None (VMAs vt) /\
    ResourcePrevVMA e = last l1 /\ ResourceNextVMA e = head l2 /\
    last l1 <> Some k /\ head l2 <> Some k /\
    (forall x y, last l1 = Some x -> head l2 = Some y -> x <> y).
Proof.
  intros (H1 & H2 & H3 & H4) He Hr. destruct (H4 k e r He Hr) as (l & Hl & Hk).
  apply list_elem_of_split in Hk as (l1 & l2 & ->). destruct (H2 r _ Hl) as [Hnd Hd].
  destruct (proj1 (H1 r) ltac:(eauto)) as [res Hres]. exists l1, l2, res.
  pose proof (H3 _ _ _ Hl Hres) as HF. apply dlseg_middle in Hd as (Hd1 & (e' & He' & _ & Hp & Hn) & Hd2).
  rewrite He in He'. injection He' as <-. rewrite last_or_None in Hp. rewrite first_or_None in Hn.
  pose proof Hnd as Hnd'. apply NoDup_app in Hnd' as (_ & Hdj & Hnd2). apply NoDup_cons in Hnd2 as [Hk2 _].
  repeat split; try done.
  - intros Hx. apply (Hdj k); [by apply last_in|by left].
  - intros Hx. by apply Hk2, head_in.
  - intros x y Hx Hy ->. apply (Hdj y); [by apply last_in|]. right. by apply head_in.
Qed.

(** The lists after an operation on the chain of [r] alone. *)
Lemma rep_update vt vt' ch r l l' res :
  rep vt ch -> ch !! r = Some l -> NoDup l' -> dlseg r None l' None (VMAs vt') ->
  MappedResources vt' = <[r := res]> (MappedResources vt) -> FirstVMA res = head l' ->
  (forall k, k ∉ l -> k ∉ l' -> VMAs vt' !! k = VMAs vt !! k) ->
  (forall k, k ∈ l -> k ∉ l' -> VMAs vt' !! k = None) ->
  (forall k, k ∉ l -> k ∈ l' -> VMAs vt !! k = None) ->
  rep vt' (<[r := l']> ch).
Proof.
  intros (H1 & H2 & H3 & H4) Hl Hnd Hd HM HF Hsame Hdel Hnew. split_and!.
  - intros r0. rewrite HM, !lookup_insert_is_Some', H1. done.
  - intros r0 l0 Hl0. destruct (decide (r = r0)) as [->|].
    { rewrite lookup_insert_eq in Hl0. by injection Hl0 as <-. }
    rewrite lookup_insert_ne in Hl0 by done. destruct (H2 _ _ Hl0) as [Hnd0 Hd0]. split; [done|].
    eapply dlseg_frame; [|exact Hd0]. intros k Hk.
    destruct (dlseg_lookup _ _ _ _ _ _ Hd0 Hk) as (e & He & Hr).
    assert (k ∉ l) as Hkl.
    { intros Hin. destruct (dlseg_lookup _ _ _ _ _ _ (proj2 (H2 _ _ Hl)) Hin) as (? & ? & ?). congruence. }
    apply Hsame; [done|]. intros Hin. rewrite (Hnew k Hkl Hin) in He. done.
  - intros r0 l0 res0 Hr0 Hres0. rewrite HM in Hres0. destruct (decide (r = r0)) as [->|].
    + rewrite lookup_insert_eq in Hr0. rewrite lookup_insert_eq in Hres0. congruence.
    + rewrite lookup_insert_ne in Hr0 by done. rewrite lookup_insert_ne in Hres0 by done. by eapply H3.
  - intros k e r0 He Hr0. destruct (decide (k ∈ l')) as [Hin|Hin].
    + destruct (dlseg_lookup _ _ _ _ _ _ Hd Hin) as (e' & He' & Hr').
      exists l'. assert (r0 = r) as -> by congruence. by rewrite lookup_insert_eq.
    + destruct (decide (k ∈ l)) as [Hkl|Hkl]; [by rewrite (Hdel k Hkl Hin) in He|].
      rewrite (Hsame k Hkl Hin) in He. destruct (H4 k e r0 He Hr0) as (l0 & Hl0 & Hk0).
      exists l0. rewrite lookup_insert_ne; [done|]. intros ->. congruence.
Qed.

(** ** The four list operations *)

Lemma update_entry_Some vt k e f :
  VMAs vt !! k = Some e -> update_entry vt k f = Some (set_VMAs (alter f k (VMAs vt)) vt).
Proof.
  intros He. unfold update_entry. rewrite He. cbn. do 2 f_equal. apply map_eq. intros x.
  destruct (decide (k = x)) as [->|]; [by rewrite lookup_insert_eq, lookup_alter_eq, He|].
  by rewrite lookup_insert_ne, lookup_alter_ne.
Qed.

Definition set_First (v : option Z) (res : MappedResource) : MappedResource :=
  mkResource (mrid res) v (ResourceLength res) (ProgramHeaders res).

Lemma set_FirstVMA_Some vt r res v :
  MappedResources vt !! r = Some res ->
  set_FirstVMA vt r v = Some (set_Resources (<[r := set_First v res]> (MappedResources vt)) vt).
Proof. intros H. unfold set_FirstVMA. by rewrite H. Qed.

(** Run an operation whose lookups, assertions and link checks are known. *)
Ltac run1 :=
  first
  [ rewrite LOGMAN_true by (first [done | by rewrite ptr_eqb_refl
      | by (rewrite ptr_eqb_ne by congruence)
      | by (apply bool_decide_eq_true_2; congruence) ])
  | match goal with
    | H : _ !! ?k = Some _ |- context[_ !! ?k] => rewrite H
    | H : Resource ?e = _ |- context[Resource ?e] => rewrite H
    | H : ResourcePrevVMA ?e = _ |- context[ResourcePrevVMA ?e] => rewrite H
    | H : ResourceNextVMA ?e = _ |- context[ResourceNextVMA ?e] => rewrite H
    | H : ptr_eqb ?a ?b = _ |- context[ptr_eqb ?a ?b] => rewrite H
    | |- context[update_entry ?vt ?k _] =>
      erewrite (update_entry_Some vt k)
        by (cbn; rewrite ?lookup_alter_ne, ?lookup_insert_ne by congruence; eassumption)
    end
  | rewrite lookup_alter_ne by congruence
  | rewrite lookup_alter_eq
  | rewrite lookup_insert_eq
  | rewrite lookup_insert_ne by congruence
  | erewrite set_FirstVMA_Some by (cbn; eassumption) ];
  cbn [mbind option_bind fmap option_fmap option_map VMAs MappedResources set_VMAs set_Resources
       ResourceNextVMA ResourcePrevVMA Resource set_Next set_Prev FirstVMA set_First
       ListCheckVMALinks ptr_eqb].
Ltac run := cbn [mbind option_bind]; repeat run1.

(** The links of the entries of one chain never point back at the entry. *)
Lemma rep_self vt ch r l x ex :
  rep vt ch -> ch !! r = Some l -> VMAs vt !! x = Some ex -> x ∈ l ->
  ResourceNextVMA ex <> Some x /\ ResourcePrevVMA ex <> Some x.
Proof.
  intros (_ & H2 & _) Hl Hx Hin. destruct (H2 _ _ Hl) as [Hnd Hd]. by eapply dlseg_no_self.
Qed.

Lemma bool_decide_head_app (l1 l2 : list Z) k :
  last l1 <> Some k -> NoDup (l1 ++ k :: l2) ->
  ptr_eqb (head (l1 ++ k :: l2)) (Some k) = bool_decide (last l1 = None).
Proof.
  intros Hk Hnd. unfold ptr_eqb. apply bool_decide_ext. destruct l1 as [|x l1]; [done|].
  cbn. split; [intros [= ->]|].
  - apply NoDup_cons in Hnd as [Hn _]. set_solver.
  - rewrite last_cons. by destruct (last l1).
Qed.

(** The neighbours in its chain of the entry at hand. *)
Ltac neighbours Hl El1 El2 :=
  match type of Hl with ?ch !! ?r = Some (?l1 ++ ?k :: ?l2) =>
  match goal with
  | Hrep : rep ?vt ch, Hd1 : dlseg _ _ l1 _ _, Hd2 : dlseg _ _ l2 _ _ |- _ =>
  let p := fresh "p" in let n := fresh "n" in
  pose proof (fun x ex => rep_self vt ch r _ x ex Hrep Hl) as Hself;
  destruct (last l1) as [p|] eqn:El1;
    [destruct (dlseg_last _ _ _ _ _ _ Hd1 El1) as (? & ? & ? & ?); assert (p <> k) by congruence;
     edestruct (Hself p) as [_ ?]; [eassumption|by apply elem_of_app; left; apply last_in|]|];
  (destruct (head l2) as [n|] eqn:El2;
    [destruct (dlseg_head _ _ _ _ _ _ Hd2 El2) as (? & ? & ? & ?); assert (n <> k) by congruence;
     edestruct (Hself n) as [? _]; [eassumption|by apply elem_of_app; right; right; apply head_in|]|]);
  try (assert (p <> n) by eauto)
  end end.

Lemma ListRemove_run asserts vt ch k e r :
  rep vt ch -> VMAs vt !! k = Some e -> Resource e = Some r ->
  exists l1 l2 res, ch !! r = Some (l1 ++ k :: l2) /\ MappedResources vt !! r = Some res /\
  ListRemove asserts vt k =
    Some (mkTracking
            (upd (head l2) (set_Prev (last l1)) (upd (last l1) (set_Next (head l2)) (VMAs vt)))
            (<[r := set_First (head (l1 ++ l2)) res]> (MappedResources vt))
            (Generation vt) (MarkNoOpCache vt),
          bool_decide (l1 ++ l2 = [])).
Proof.
  intros Hrep He Hr.
  destruct (rep_entry vt ch k e r Hrep He Hr)
    as (l1 & l2 & res & Hl & Hnd & HM & HF & Hd1 & Hd2 & Hp & Hn & Hpk & Hnk & Hpn).
  exists l1, l2, res. split_and!; [done..|].
  assert (HlF : ptr_eqb (FirstVMA res) (Some k) = bool_decide (last l1 = None)).
  { rewrite HF. by apply bool_decide_head_app. }
  unfold ListRemove. run. neighbours Hl El1 El2; cbn in HlF;
  run; destruct l1 as [|? l1]; try (by rewrite last_cons in El1; destruct (last l1)); cbn in HF |- *;
    rewrite ?insert_id by (rewrite HM; by destruct res; cbn in HF; subst);
    unfold ptr_eqb; rewrite ?HF, ?El2; (destruct l2; [|done]); done.
Qed.

Lemma set_First_id res v : FirstVMA res = v -> set_First v res = res.
Proof. destruct res. by cbn; intros ->. Qed.

Lemma ListReplace_run asserts vt ch k e r new ne :
  rep vt ch -> VMAs vt !! k = Some e -> Resource e = Some r -> VMAs vt !! new = None ->
  Resource ne = Some r -> ResourcePrevVMA ne = ResourcePrevVMA e ->
  ResourceNextVMA ne = ResourceNextVMA e ->
  exists l1 l2 res, ch !! r = Some (l1 ++ k :: l2) /\ MappedResources vt !! r = Some res /\
  ListReplace asserts (set_VMAs (<[new := ne]> (VMAs vt)) vt) k new =
    Some (mkTracking
            (upd (head l2) (set_Prev (Some new)) (upd (last l1) (set_Next (Some new)) (<[new := ne]> (VMAs vt))))
            (<[r := set_First (head (l1 ++ new :: l2)) res]> (MappedResources vt))
            (Generation vt) (MarkNoOpCache vt)).
Proof.
  intros Hrep He Hr Hnew Hnr Hnp Hnn.
  destruct (rep_entry vt ch k e r Hrep He Hr)
    as (l1 & l2 & res & Hl & Hnd & HM & HF & Hd1 & Hd2 & Hp & Hn & Hpk & Hnk & Hpn).
  exists l1, l2, res. split_and!; [done..|]. assert (k <> new) by congruence.
  assert (HlF : ptr_eqb (FirstVMA res) (Some k) = bool_decide (last l1 = None)).
  { rewrite HF. by apply bool_decide_head_app. }
  unfold ListReplace. cbn [set_VMAs VMAs MappedResources]. neighbours Hl El1 El2; cbn in HlF;
    try (assert (p <> new) by congruence); try (assert (n <> new) by congruence); run;
    destruct l1 as [|? l1]; try (by rewrite last_cons in El1; destruct (last l1)); cbn in HF |- *;
    rewrite ?set_First_id, ?(insert_id (MappedResources vt)) by done; done.
Qed.

Lemma ListInsertAfter_run asserts vt ch k e r new ne :
  rep vt ch -> VMAs vt !! k = Some e -> Resource e = Some r -> VMAs vt !! new = None ->
  Resource ne = Some r -> ResourcePrevVMA ne = Some k -> ResourceNextVMA ne = ResourceNextVMA e ->
  exists l1 l2, ch !! r = Some (l1 ++ k :: l2) /\
  ListInsertAfter asserts (set_VMAs (<[new := ne]> (VMAs vt)) vt) k new =
    Some (set_VMAs (upd (Some k) (set_Next (Some new))
                      (upd (head l2) (set_Prev (Some new)) (<[new := ne]> (VMAs vt)))) vt).
Proof.
  intros Hrep He Hr Hnew Hnr Hnp Hnn.
  destruct (rep_entry vt ch k e r Hrep He Hr)
    as (l1 & l2 & res & Hl & Hnd & HM & HF & Hd1 & Hd2 & Hp & Hn & Hpk & Hnk & Hpn).
  exists l1, l2. split_and!; [done..|]. assert (k <> new) by congruence.
  unfold ListInsertAfter. cbn [set_VMAs VMAs MappedResources]. neighbours Hl El1 El2;
    try (assert (p <> new) by congruence); try (assert (n <> new) by congruence); run; done.
Qed.

Lemma ListPrepend_run asserts vt ch r l new ne :
  rep vt ch -> ch !! r = Some l -> VMAs vt !! new = None ->
  Resource ne = Some r -> ResourcePrevVMA ne = None -> ResourceNextVMA ne = head l ->
  exists res, MappedResources vt !! r = Some res /\
  ListPrepend asserts (set_VMAs (<[new := ne]> (VMAs vt)) vt) r new =
    Some (mkTracking (upd (head l) (set_Prev (Some new)) (<[new := ne]> (VMAs vt)))
            (<[r := set_First (Some new) res]> (MappedResources vt))
            (Generation vt) (MarkNoOpCache vt)).
Proof.
  intros Hrep Hl Hnew Hnr Hnp Hnn. pose proof Hrep as (H1 & H2 & H3 & H4).
  destruct (proj1 (H1 r) ltac:(eauto)) as [res HM]. exists res. split; [done|].
  pose proof (H3 _ _ _ Hl HM) as HF. destruct (H2 _ _ Hl) as [Hnd Hd].
  unfold ListPrepend. cbn [set_VMAs VMAs MappedResources]. run. rewrite HF.
  destruct l as [|n l]; cbn [head]; [run; done|].
  destruct (dlseg_head _ _ _ _ _ n Hd eq_refl) as (en & Hen & Hrn & Hpn).
  edestruct (rep_self vt ch r _ n en Hrep Hl Hen) as [? _]; [by left|].
  assert (n <> new) by congruence. cbn [head] in *. run; done.
Qed.

(** ** Their effect on the represented lists *)

(** What identifies the resources, without the heads of their lists. *)
Definition res_id (res : MappedResource) : MRID * Z * list Elf64_Phdr :=
  (mrid res, ResourceLength res, ProgramHeaders res).

Definition resources (vt : VMATracking) : gmap Z (MRID * Z * list Elf64_Phdr) :=
  res_id <$> MappedResources vt.

Lemma resources_set_First (m : gmap Z MappedResource) r res v :
  m !! r = Some res ->
  res_id <$> <[r := set_First v res]> m = res_id <$> m.
Proof. intros H. rewrite fmap_insert. apply insert_id. by rewrite lookup_fmap, H. Qed.

(** The part of the state that the list operations leave alone. *)
Definition unlisted (vt : VMATracking) := (cores vt, resources vt, Generation vt, MarkNoOpCache vt).

Lemma rep_in vt ch r l k : rep vt ch -> ch !! r = Some l -> k ∈ l -> is_Some (VMAs vt !! k).
Proof.
  intros (_ & H2 & _) Hl Hk. destruct (dlseg_lookup _ _ _ _ _ _ (proj2 (H2 _ _ Hl)) Hk) as (e & He & _).
  eauto.
Qed.

Lemma rep_fresh vt ch r l k : rep vt ch -> ch !! r = Some l -> VMAs vt !! k = None -> k ∉ l.
Proof. intros Hrep Hl Hk Hin. destruct (rep_in _ _ _ _ _ Hrep Hl Hin). congruence. Qed.

(** The two halves of a chain around an entry. *)
Lemma rep_halves vt ch r l1 k l2 :
  rep vt ch -> ch !! r = Some (l1 ++ k :: l2) ->
  NoDup l1 /\ NoDup l2 /\ (k ∉ l1) /\ (k ∉ l2) /\ (forall x, x ∈ l1 -> x ∉ l2) /\
  dlseg r None l1 (Some k) (VMAs vt) /\ dlseg r (Some k) l2 None (VMAs vt).
Proof.
  intros (_ & H2 & _) Hl. destruct (H2 _ _ Hl) as [Hnd Hd].
  apply dlseg_middle in Hd as (Hd1 & _ & Hd2). apply NoDup_app in Hnd as (N1 & N2 & N3).
  apply NoDup_cons in N3 as [N3 N4]. split_and!; try done.
  - intros Hk. by apply (N2 k Hk); left.
  - intros x Hx Hx2. by apply (N2 x Hx); right.
Qed.

Lemma dlseg_upd r p l n m q f :
  (forall x, q = Some x -> x ∉ l) -> dlseg r p l n m -> dlseg r p l n (upd q f m).
Proof.
  intros H. apply dlseg_frame. intros k Hk. apply upd_ne. intros ->. by apply (H k).
Qed.

Lemma dlseg_insert r p l n m k e : k ∉ l -> dlseg r p l n m -> dlseg r p l n (<[k := e]> m).
Proof. intros Hk. apply dlseg_frame. intros x Hx. rewrite lookup_insert_ne; [done|]. set_solver. Qed.

Lemma dlseg_delete r p l n m k : k ∉ l -> dlseg r p l n m -> dlseg r p l n (delete k m).
Proof. intros Hk. apply dlseg_frame. intros x Hx. rewrite lookup_delete_ne; [done|]. set_solver. Qed.

Lemma NoDup_middle (l1 l2 : list Z) k :
  NoDup l1 -> NoDup l2 -> k ∉ l1 -> k ∉ l2 -> (forall x, x ∈ l1 -> x ∉ l2) -> NoDup (l1 ++ k :: l2).
Proof.
  intros. apply NoDup_app. split_and!; [done| |by apply NoDup_cons].
  intros x Hx. apply not_elem_of_cons. split; [congruence|auto].
Qed.

Lemma split_unique (a b c d : list Z) k : k ∉ a -> k ∉ b -> a ++ k :: b = c ++ k :: d -> c = a /\ d = b.
Proof.
  revert c. induction a as [|x a IH]; intros [|y c] Ha Hb [=]; subst; try done.
  - exfalso. apply Hb. set_solver.
  - set_solver.
  - destruct (IH c) as [-> ->]; set_solver.
Qed.

Lemma head_not_in (l l' : list Z) x : (forall y, y ∈ l' -> y ∉ l) -> head l = Some x -> x ∉ l'.
Proof. intros H Hx Hin. apply (H x Hin). by apply head_in. Qed.

Lemma last_not_in (l l' : list Z) x : (forall y, y ∈ l -> y ∉ l') -> last l = Some x -> x ∉ l'.
Proof. intros H Hx. apply H. by apply last_in. Qed.

Lemma upd_outside m q f (l : list Z) k :
  (forall x, q = Some x -> x ∈ l) -> k ∉ l -> upd q f m !! k = m !! k.
Proof. intros H Hk. apply upd_ne. intros ->. by apply Hk, H. Qed.

Lemma core_set_Prev p e : core (set_Prev p e) = core e. Proof. done. Qed.
Lemma core_set_Next p e : core (set_Next p e) = core e. Proof. done. Qed.

Lemma upd2_core p q a b m : core <$> upd q (set_Prev b) (upd p (set_Next a) m) = core <$> m.
Proof. by rewrite !upd_core by done. Qed.

Lemma ListRemove_spec asserts vt ch k e r :
  rep vt ch -> VMAs vt !! k = Some e -> Resource e = Some r ->
  exists l1 l2 vt', ch !! r = Some (l1 ++ k :: l2) /\
    ListRemove asserts vt k = Some (vt', bool_decide (l1 ++ l2 = [])) /\
    rep (erase_vma vt' k) (<[r := l1 ++ l2]> ch) /\
    unlisted vt' = unlisted vt.
Proof.
  intros Hrep He Hr.
  destruct (ListRemove_run asserts vt ch k e r Hrep He Hr) as (l1 & l2 & res & Hl & HM & Hrun).
  eexists l1, l2, _. split_and!; [done|exact Hrun| |].
  - destruct (rep_halves _ _ _ _ _ _ Hrep Hl) as (N1 & N2 & K1 & K2 & Hdj & D1 & D2).
    eapply rep_update; [done|done| | |done|done|..]; cbn.
    + apply NoDup_app. by split_and!.
    + apply dlseg_delete; [set_solver|]. apply dlseg_app. rewrite first_or_None, last_or_None. split.
      * apply dlseg_upd; [by intros x; apply head_not_in|]. by eapply dlseg_set_next.
      * apply dlseg_set_prev with (p := Some k); [done|].
        apply dlseg_upd; [by intros x; apply last_not_in|done].
    + intros x Hx _. rewrite lookup_delete_ne by set_solver.
      rewrite (upd_outside _ _ _ l2), (upd_outside _ _ _ l1);
        [done|set_solver by eauto using last_in, head_in..].
    + intros x Hx Hx'. assert (x = k) as -> by set_solver. apply lookup_delete_eq.
    + set_solver.
  - unfold unlisted, cores, resources. cbn. by rewrite upd2_core, resources_set_First.
Qed.

(** The new entry is in the map, with the links the operation expects, and in no list yet. *)
Lemma ListReplace_spec asserts vt ch k e r new ne :
  rep vt ch -> VMAs vt !! k = Some e -> Resource e = Some r -> VMAs vt !! new = None ->
  Resource ne = Some r -> ResourcePrevVMA ne = ResourcePrevVMA e ->
  ResourceNextVMA ne = ResourceNextVMA e ->
  exists l1 l2 vt', ch !! r = Some (l1 ++ k :: l2) /\
    ListReplace asserts (set_VMAs (<[new := ne]> (VMAs vt)) vt) k new = Some vt' /\
    rep (erase_vma vt' k) (<[r := l1 ++ new :: l2]> ch) /\
    unlisted vt' = unlisted (set_VMAs (<[new := ne]> (VMAs vt)) vt).
Proof.
  intros Hrep He Hr Hnew Hnr Hnp Hnn.
  destruct (ListReplace_run asserts vt ch k e r new ne) as (l1 & l2 & res & Hl & HM & Hrun); try done.
  destruct (rep_halves _ _ _ _ _ _ Hrep Hl) as (N1 & N2 & K1 & K2 & Hdj & D1 & D2).
  pose proof (rep_fresh _ _ _ _ _ Hrep Hl Hnew) as Hf.
  destruct (rep_entry vt ch k e r Hrep He Hr) as (l1' & l2' & res' & Hl' & _ & _ & _ & _ & _ & Hp & Hn & _).
  assert (l1' = l1 /\ l2' = l2) as [-> ->].
  { rewrite Hl in Hl'. injection Hl' as Hl'. by apply split_unique in Hl'. }
  eexists l1, l2, _. split_and!; [done|exact Hrun| |].
  - eapply rep_update; [done|done| | |done|done|..]; cbn.
    + apply NoDup_middle; set_solver.
    + apply dlseg_delete; [set_solver|]. apply dlseg_middle.
      rewrite first_or_None, last_or_None. split_and!.
      * apply dlseg_upd; [by intros x; apply head_not_in|]. eapply dlseg_set_next; [done|].
        apply dlseg_insert; [set_solver|done].
      * exists ne. rewrite (upd_outside _ _ _ l2), (upd_outside _ _ _ l1), lookup_insert_eq;
          [|set_solver by eauto using last_in, head_in..]. by rewrite Hnp, Hnn.
      * eapply dlseg_set_prev; [done|].
        apply dlseg_upd; [by intros x; apply last_not_in|]. apply dlseg_insert; [set_solver|done].
    + intros x Hx Hx'. rewrite lookup_delete_ne by set_solver.
      rewrite (upd_outside _ _ _ l2), (upd_outside _ _ _ l1), lookup_insert_ne;
        [done|set_solver by eauto using last_in, head_in..].
    + intros x Hx Hx'. assert (x = k) as -> by set_solver. apply lookup_delete_eq.
    + intros x Hx Hx'. by assert (x = new) as -> by set_solver.
  - unfold unlisted, cores, resources. cbn. by rewrite upd2_core, resources_set_First.
Qed.

Lemma ListInsertAfter_spec asserts vt ch k e r new ne :
  rep vt ch -> VMAs vt !! k = Some e -> Resource e = Some r -> VMAs vt !! new = None ->
  Resource ne = Some r -> ResourcePrevVMA ne = Some k -> ResourceNextVMA ne = ResourceNextVMA e ->
  exists l1 l2 vt', ch !! r = Some (l1 ++ k :: l2) /\
    ListInsertAfter asserts (set_VMAs (<[new := ne]> (VMAs vt)) vt) k new = Some vt' /\
    rep vt' (<[r := l1 ++ k :: new :: l2]> ch) /\
    unlisted vt' = unlisted (set_VMAs (<[new := ne]> (VMAs vt)) vt).
Proof.
  intros Hrep He Hr Hnew Hnr Hnp Hnn.
  destruct (ListInsertAfter_run asserts vt ch k e r new ne) as (l1 & l2 & Hl & Hrun); try done.
  destruct (rep_halves _ _ _ _ _ _ Hrep Hl) as (N1 & N2 & K1 & K2 & Hdj & D1 & D2).
  pose proof (rep_fresh _ _ _ _ _ Hrep Hl Hnew) as Hf.
  destruct (rep_entry vt ch k e r Hrep He Hr) as (l1' & l2' & res & Hl' & Hnd & HM & HF & _ & _ & Hp & Hn & _).
  assert (l1' = l1 /\ l2' = l2) as [-> ->].
  { rewrite Hl in Hl'. injection Hl' as Hl'. by apply split_unique in Hl'. }
  eexists l1, l2, _. split_and!; [done|exact Hrun| |].
  - eapply rep_update with (res := res); [done|done| | |cbn; by rewrite insert_id|..]; cbn.
    + apply NoDup_middle; [done|apply NoDup_cons; set_solver|set_solver..].
    + apply dlseg_middle. rewrite first_or_None, last_or_None. split_and!; [| |split].
      * apply (dlseg_upd _ _ _ _ _ (Some k)); [set_solver|]. apply dlseg_upd; [by intros x; apply head_not_in|].
        apply dlseg_insert; [set_solver|done].
      * exists (set_Next (Some new) e).
        rewrite lookup_alter_eq, (upd_outside _ _ _ l2), lookup_insert_ne, He;
          [done|set_solver by eauto using last_in, head_in..].
      * exists ne. rewrite lookup_alter_ne, (upd_outside _ _ _ l2), lookup_insert_eq;
          [|set_solver by eauto using last_in, head_in..]. rewrite Hnn, Hn. by destruct l2.
      * apply (dlseg_upd _ _ _ _ _ (Some k)); [set_solver|]. eapply dlseg_set_prev; [done|].
        apply dlseg_insert; [set_solver|done].
    + rewrite HF. by destruct l1.
    + intros x Hx Hx'. rewrite lookup_alter_ne, (upd_outside _ _ _ l2), lookup_insert_ne;
        [done|set_solver by eauto using last_in, head_in..].
    + set_solver.
    + intros x Hx Hx'. by assert (x = new) as -> by set_solver.
  - unfold unlisted, cores, resources. cbn [set_VMAs VMAs MappedResources Generation MarkNoOpCache].
    by rewrite !upd_core by done.
Qed.

Lemma ListPrepend_spec asserts vt ch r l new ne :
  rep vt ch -> ch !! r = Some l -> VMAs vt !! new = None ->
  Resource ne = Some r -> ResourcePrevVMA ne = None -> ResourceNextVMA ne = head l ->
  exists vt',
    ListPrepend asserts (set_VMAs (<[new := ne]> (VMAs vt)) vt) r new = Some vt' /\
    rep vt' (<[r := new :: l]> ch) /\
    unlisted vt' = unlisted (set_VMAs (<[new := ne]> (VMAs vt)) vt).
Proof.
  intros Hrep Hl Hnew Hnr Hnp Hnn.
  destruct (ListPrepend_run asserts vt ch r l new ne) as (res & HM & Hrun); try done.
  pose proof (rep_fresh _ _ _ _ _ Hrep Hl Hnew) as Hf. pose proof Hrep as (_ & H2 & _).
  destruct (H2 _ _ Hl) as [Hnd Hd]. eexists. split_and!; [exact Hrun| |].
  - eapply rep_update; [done|done| | |done|done|..]; cbn.
    + by apply NoDup_cons.
    + split.
      * exists ne. rewrite (upd_outside _ _ _ l), lookup_insert_eq by (done || by apply head_in).
        rewrite Hnn. by destruct l.
      * eapply dlseg_set_prev; [done|]. by apply dlseg_insert.
    + intros x Hx Hx'. rewrite (upd_outside _ _ _ l), lookup_insert_ne;
        [done|set_solver by eauto using head_in..].
    + set_solver.
    + intros x Hx Hx'. by assert (x = new) as -> by set_solver.
  - unfold unlisted, cores, resources. cbn. by rewrite upd_core, resources_set_First.
Qed.

(** Erasing a resource that no entry maps any more. *)
Lemma rep_erase_resource vt ch r : rep vt ch -> ch !! r = Some [] -> rep (erase_resource vt r) (delete r ch).
Proof.
  intros (H1 & H2 & H3 & H4) Hr. split_and!; cbn.
  - intros r0. destruct (decide (r = r0)) as [->|]; [by rewrite !lookup_delete_eq|].
    by rewrite !lookup_delete_ne.
  - intros r0 l Hl. apply lookup_delete_Some in Hl as [_ Hl]. by apply H2.
  - intros r0 l res Hl HM. apply lookup_delete_Some in Hl as [? Hl].
    apply lookup_delete_Some in HM as [_ HM]. by eapply H3.
  - intros k e r0 He Hk. destruct (H4 k e r0 He Hk) as (l & Hl & Hin). exists l.
    rewrite lookup_delete_ne; [done|]. intros ->. rewrite Hl in Hr. injection Hr as ->. set_solver.
Qed.

(** ** Changes outside the lists *)

(** An update of an entry that keeps its links. *)
Lemma rep_set_entry vt ch k e e' :
  rep vt ch -> VMAs vt !! k = Some e -> Resource e' = Resource e ->
  ResourcePrevVMA e' = ResourcePrevVMA e -> ResourceNextVMA e' = ResourceNextVMA e ->
  rep (set_VMAs (<[k := e']> (VMAs vt)) vt) ch.
Proof.
  intros (H1 & H2 & H3 & H4) He Hr Hp Hn. split_and!; [done| |done|]; cbn.
  - intros r l Hl. destruct (H2 _ _ Hl) as [Hnd Hd]. split; [done|]. clear Hl Hnd. revert Hd.
    generalize (@None Z) at 1 3 as p. induction l as [|x l IH]; intros p; [done|]. cbn [dlseg].
    intros [(ex & Hx & Hxr & Hxp & Hxn) Hl]. split; [|by apply IH].
    destruct (decide (k = x)) as [->|]; [|rewrite lookup_insert_ne by done; eauto].
    rewrite lookup_insert_eq. exists e'. simplify_eq. by rewrite Hr, Hp, Hn.
  - intros x ex r [[<- <-]|[Hne Hx]]%lookup_insert_Some Hxr; [|by eapply H4].
    eapply H4; [done|congruence].
Qed.

Lemma rep_insert_anon vt ch k e :
  rep vt ch -> VMAs vt !! k = None -> Resource e = None -> rep (set_VMAs (<[k := e]> (VMAs vt)) vt) ch.
Proof.
  intros Hrep Hk He. pose proof Hrep as (H1 & H2 & H3 & H4). split_and!; [done| |done|]; cbn.
  - intros r l Hl. destruct (H2 _ _ Hl) as [Hnd Hd]. split; [done|].
    apply dlseg_insert; [by eapply rep_fresh|done].
  - intros x ex r [[<- <-]|[Hne Hx]]%lookup_insert_Some Hxr; [congruence|by eapply H4].
Qed.

Lemma rep_erase_anon vt ch k e :
  rep vt ch -> VMAs vt !! k = Some e -> Resource e = None -> rep (erase_vma vt k) ch.
Proof.
  intros (H1 & H2 & H3 & H4) Hk He. split_and!; [done| |done|]; cbn.
  - intros r l Hl. destruct (H2 _ _ Hl) as [Hnd Hd]. split; [done|]. apply dlseg_delete; [|done].
    intros Hin. destruct (dlseg_lookup _ _ _ _ _ _ Hd Hin) as (? & ? & ?). congruence.
  - intros x ex r [Hne Hx]%lookup_delete_Some Hxr. by eapply H4.
Qed.

(** ** Lists in address order *)

Definition sorted (ch : gmap Z (list Z)) : Prop := forall r l, ch !! r = Some l -> StronglySorted Z.lt l.

Lemma sorted_middle (a b : list Z) k :
  StronglySorted Z.lt (a ++ k :: b) <->
  StronglySorted Z.lt (a ++ b) /\ (forall x, x ∈ a -> x < k) /\ (forall x, x ∈ b -> k < x).
Proof.
  induction a as [|y a IH]; cbn.
  - rewrite StronglySorted_cons, Forall_forall. set_solver.
  - rewrite !StronglySorted_cons, IH, !Forall_app, Forall_cons, !Forall_forall. set_solver by lia.
Qed.

(** No list but that of the preserved resource is empty. *)
Definition full (Pres : option Z) (ch : gmap Z (list Z)) : Prop := forall r, ch !! r = Some [] -> Pres = Some r.

Lemma full_insert Pres ch r l : full Pres ch -> l <> [] -> full Pres (<[r := l]> ch).
Proof. intros Hf Hl r' [[<- ->]|[_ H]]%lookup_insert_Some; [done|by apply Hf]. Qed.

Lemma full_insert_this Pres ch r l : full Pres ch -> Pres = Some r -> full Pres (<[r := l]> ch).
Proof. intros Hf -> r' [[<- ->]|[_ H]]%lookup_insert_Some; [done|by apply Hf]. Qed.

Lemma full_delete Pres ch r : full Pres ch -> full Pres (delete r ch).
Proof. intros Hf r' [_ H]%lookup_delete_Some. by apply Hf. Qed.

Lemma app_cons_not_nil' {T} (a b : list T) x : a ++ x :: b <> [].
Proof. by destruct a. Qed.
