(* ===== verification/VMASpec.v ===== *)
(** * VMA tracking: the address space it represents

    What an ordered map of entries says of every address, and the effect that removing,
    adding and re-protecting a range has on it. *)

From S2P Require Import Prelude VMA VMALists.
Import VMA.

(** ** Neighbouring keys *)

Section keys.
  Context {T : Type}.
  Implicit Types m : gmap Z T.

Lemma fold_pred (l : list Z) x :
  match foldr (fun k acc => if k <? x then Some (match acc with None => k | Some a => Z.max k a end)
                            else acc) None l with
  | Some k => k ∈ l /\ k < x /\ (forall k', k' ∈ l -> k' < x -> k' <= k)
  | None => forall k', k' ∈ l -> x <= k'
  end.
Proof.
  induction l as [|y l IH]; cbn; [by intros k' ?%elem_of_nil|].
  destruct (y <? x) eqn:Hy; [apply Z.ltb_lt in Hy|apply Z.ltb_ge in Hy];
    destruct (foldr _ _ l) as [a|].
  - destruct IH as (Ha & Hax & Hmax). split_and!.
    + destruct (Z.max_spec y a) as [[_ ->]|[_ ->]]; [by right|by left].
    + lia.
    + intros k' [->|Hk']%elem_of_cons Hlt; [lia|]. specialize (Hmax k' Hk' Hlt). lia.
  - split_and!; [by left|done|]. intros k' [->|Hk']%elem_of_cons Hlt; [lia|].
    specialize (IH k' Hk'). lia.
  - destruct IH as (Ha & Hax & Hmax). split_and!; [by right|done|].
    intros k' [->|Hk']%elem_of_cons Hlt; [lia|auto].
  - intros k' [->|Hk']%elem_of_cons; [lia|auto].
Qed.

Lemma fold_lower (l : list Z) x :
  match foldr (fun k acc => if x <=? k then Some (match acc with None => k | Some a => Z.min k a end)
                            else acc) None l with
  | Some k => k ∈ l /\ x <= k /\ (forall k', k' ∈ l -> x <= k' -> k <= k')
  | None => forall k', k' ∈ l -> k' < x
  end.
Proof.
  induction l as [|y l IH]; cbn; [by intros k' ?%elem_of_nil|].
  destruct (x <=? y) eqn:Hy; [apply Z.leb_le in Hy|apply Z.leb_gt in Hy];
    destruct (foldr _ _ l) as [a|].
  - destruct IH as (Ha & Hax & Hmin). split_and!.
    + destruct (Z.min_spec y a) as [[_ ->]|[_ ->]]; [by left|by right].
    + lia.
    + intros k' [->|Hk']%elem_of_cons Hlt; [lia|]. specialize (Hmin k' Hk' Hlt). lia.
  - split_and!; [by left|done|]. intros k' [->|Hk']%elem_of_cons Hlt; [lia|].
    specialize (IH k' Hk'). lia.
  - destruct IH as (Ha & Hax & Hmin). split_and!; [by right|done|].
    intros k' [->|Hk']%elem_of_cons Hlt; [lia|auto].
  - intros k' [->|Hk']%elem_of_cons; [lia|auto].
Qed.

Lemma elem_of_keys m k : k ∈ map fst (map_to_list m) <-> is_Some (m !! k).
Proof.
  rewrite list_elem_of_fmap. split.
  - intros ([k' v] & -> & H%elem_of_map_to_list). cbn. eauto.
  - intros [v H]. exists (k, v). by rewrite elem_of_map_to_list.
Qed.

Lemma pred_key_Some m x k :
  pred_key m x = Some k ->
  is_Some (m !! k) /\ k < x /\ (forall k', is_Some (m !! k') -> k' < x -> k' <= k).
Proof.
  intros H. pose proof (fold_pred (map fst (map_to_list m)) x) as Hf. fold (pred_key m x) in Hf.
  rewrite H in Hf. setoid_rewrite elem_of_keys in Hf. done.
Qed.

Lemma pred_key_None m x k : pred_key m x = None -> is_Some (m !! k) -> x <= k.
Proof.
  intros H. pose proof (fold_pred (map fst (map_to_list m)) x) as Hf. fold (pred_key m x) in Hf.
  rewrite H in Hf. setoid_rewrite elem_of_keys in Hf. auto.
Qed.

Lemma lower_bound_Some m x k :
  lower_bound m x = Some k ->
  is_Some (m !! k) /\ x <= k /\ (forall k', is_Some (m !! k') -> x <= k' -> k <= k').
Proof.
  intros H. pose proof (fold_lower (map fst (map_to_list m)) x) as Hf. fold (lower_bound m x) in Hf.
  rewrite H in Hf. setoid_rewrite elem_of_keys in Hf. done.
Qed.

Lemma lower_bound_None m x k : lower_bound m x = None -> is_Some (m !! k) -> k < x.
Proof.
  intros H. pose proof (fold_lower (map fst (map_to_list m)) x) as Hf. fold (lower_bound m x) in Hf.
  rewrite H in Hf. setoid_rewrite elem_of_keys in Hf. auto.
Qed.

(** The number of entries below [x]: the loops' measure. *)
Definition below m (x : Z) : nat := size (filter (fun k => k < x) (dom m)).

Lemma below_le m x : (below m x <= size m)%nat.
Proof. rewrite <- size_dom. apply subseteq_size. set_solver. Qed.

Lemma below_pred m m' x k :
  is_Some (m !! k) -> k < x -> (forall k', k' < k -> is_Some (m' !! k') -> is_Some (m !! k')) ->
  (below m' k < below m x)%nat.
Proof.
  intros Hk Hx Hsame. apply subset_size. split.
  - intros y [Hy Hyd]%elem_of_filter. apply elem_of_filter. rewrite !elem_of_dom in *.
    split; [lia|auto].
  - intros Hsub. assert (k ∈ filter (fun k' => k' < k) (dom m')) as [? _]%elem_of_filter; [|lia].
    apply Hsub, elem_of_filter. by rewrite elem_of_dom.
Qed.
End keys.

(** ** The address space *)

(** What is mapped at an address: the resource, the offset in it, and the attributes. *)
Record Mapping := mkMapping {
  m_res : option Z; m_offset : Z; m_flags : VMAFlags; m_prot : VMAProt
}.

Definition at_addr (c : Core) (a : Z) : Mapping :=
  mkMapping (c_res c) (u64 (c_offset c + (a - c_base c))) (c_flags c) (c_prot c).

Definition covers (k : Z) (c : Core) (a : Z) : Prop := k <= a < k + c_length c.

Definition maps (C : gmap Z Core) (a : Z) (p : Mapping) : Prop :=
  exists k c, C !! k = Some c /\ covers k c a /\ p = at_addr c a.

Definition entry_ok (k : Z) (c : Core) : Prop :=
  c_base c = k /\ 0 <= k /\ 0 < c_length c /\ k + c_length c < 2 ^ 64.

Record wf (C : gmap Z Core) : Prop := mk_wf {
  wf_entry : forall k c, C !! k = Some c -> entry_ok k c;
  wf_disjoint : forall k1 c1 k2 c2, C !! k1 = Some c1 -> C !! k2 = Some c2 -> k1 < k2 ->
    k1 + c_length c1 <= k2;
}.

(** No entry meets the range. *)
Definition free (C : gmap Z Core) (lo hi : Z) : Prop :=
  forall k c, C !! k = Some c -> k + c_length c <= lo \/ hi <= k.

Lemma free_unmapped C lo hi a p : free C lo hi -> lo <= a < hi -> ~ maps C a p.
Proof. intros Hf Ha (k & c & Hk & Hc & _). destruct (Hf _ _ Hk); unfold covers in Hc; lia. Qed.

Lemma free_mono C lo hi lo' hi' : free C lo hi -> lo <= lo' -> hi' <= hi -> free C lo' hi'.
Proof. intros Hf ? ? k c Hk. destruct (Hf _ _ Hk); lia. Qed.

Lemma wf_same C k1 c1 k2 c2 a :
  wf C -> C !! k1 = Some c1 -> C !! k2 = Some c2 -> covers k1 c1 a -> covers k2 c2 a ->
  k1 = k2 /\ c1 = c2.
Proof.
  intros Hw H1 H2 Ha Hb. destruct (Z.lt_trichotomy k1 k2) as [Hlt|[->|Hlt]].
  - pose proof (wf_disjoint _ Hw _ _ _ _ H1 H2 Hlt). unfold covers in *. lia.
  - split; congruence.
  - pose proof (wf_disjoint _ Hw _ _ _ _ H2 H1 Hlt). unfold covers in *. lia.
Qed.

Lemma maps_fun C a p q : wf C -> maps C a p -> maps C a q -> p = q.
Proof.
  intros Hw (k1 & c1 & H1 & Ha & ->) (k2 & c2 & H2 & Hb & ->).
  by destruct (wf_same C k1 c1 k2 c2 a) as [_ ->].
Qed.

Lemma free_delete C k c : wf C -> C !! k = Some c -> free (delete k C) k (k + c_length c).
Proof.
  intros Hw Hk k' c' Hk'. apply lookup_delete_Some in Hk' as [Hne Hk'].
  destruct (Z.lt_trichotomy k k') as [Hlt|[->|Hlt]]; [|done|].
  - pose proof (wf_disjoint _ Hw _ _ _ _ Hk Hk' Hlt). lia.
  - pose proof (wf_disjoint _ Hw _ _ _ _ Hk' Hk Hlt). lia.
Qed.

Lemma wf_delete C k : wf C -> wf (delete k C).
Proof.
  intros Hw. split.
  - intros k' c' [_ H]%lookup_delete_Some. by apply (wf_entry _ Hw).
  - intros k1 c1 k2 c2 [_ H1]%lookup_delete_Some [_ H2]%lookup_delete_Some. by eapply (wf_disjoint _ Hw).
Qed.

Lemma maps_delete C k c a p :
  wf C -> C !! k = Some c -> maps (delete k C) a p <-> maps C a p /\ ~ covers k c a.
Proof.
  intros Hw Hk. split.
  - intros (k' & c' & H%lookup_delete_Some & Ha & ->). destruct H as [Hne H]. split; [by exists k', c'|].
    intros Hc. by destruct (wf_same C k c k' c' a).
  - intros [(k' & c' & H & Ha & ->) Hc]. exists k', c'. rewrite lookup_delete_ne; [done|].
    intros ->. by simplify_eq.
Qed.

Lemma wf_insert C k c :
  wf C -> entry_ok k c -> free C k (k + c_length c) -> wf (<[k := c]> C).
Proof.
  intros Hw Hok Hf. split.
  - intros k' c' [[-> ->]|[_ H]]%lookup_insert_Some; [done|by apply (wf_entry _ Hw)].
  - intros k1 c1 k2 c2 [[<- <-]|[Hn1 H1]]%lookup_insert_Some [[<- <-]|[Hn2 H2]]%lookup_insert_Some Hlt.
    + lia.
    + pose proof (wf_entry _ Hw _ _ H2) as (_ & _ & ? & _). destruct (Hf _ _ H2); lia.
    + pose proof (wf_entry _ Hw _ _ H1) as (_ & _ & ? & _). destruct Hok as (_ & _ & ? & _).
      destruct (Hf _ _ H1); lia.
    + by apply (wf_disjoint _ Hw k1 c1 k2 c2).
Qed.

Lemma free_lookup C lo hi k : wf C -> free C lo hi -> lo <= k < hi -> C !! k = None.
Proof.
  intros Hw Hf Hk. destruct (C !! k) as [c|] eqn:E; [|done].
  destruct (wf_entry _ Hw _ _ E) as (_ & _ & ? & _). destruct (Hf _ _ E); lia.
Qed.

Lemma maps_insert C k c a p :
  C !! k = None -> maps (<[k := c]> C) a p <-> (covers k c a /\ p = at_addr c a) \/ maps C a p.
Proof.
  intros Hk. split.
  - intros (k' & c' & [[<- <-]|[Hn H]]%lookup_insert_Some & Ha & ->); [by left|right; by exists k', c'].
  - intros [[Ha ->]|(k' & c' & H & Ha & ->)]; [exists k, c; by rewrite lookup_insert_eq|].
    exists k', c'. rewrite lookup_insert_ne by congruence. done.
Qed.

(** ** Replacing an entry by pieces of its range *)

Definition ins (ps : list (Z * Core)) (C : gmap Z Core) : gmap Z Core :=
  foldr (fun '(k, c) C => <[k := c]> C) C ps.

Fixpoint pieces_ok (lo hi : Z) (ps : list (Z * Core)) : Prop :=
  match ps with
  | [] => True
  | (k, c) :: ps => lo <= k /\ k + c_length c <= hi /\ entry_ok k c /\ pieces_ok (k + c_length c) hi ps
  end.

Lemma ins_spec ps C lo hi :
  wf C -> free C lo hi -> pieces_ok lo hi ps ->
  wf (ins ps C) /\
  (forall l h, l <= h -> free C l h -> h <= lo -> free (ins ps C) l h) /\
  (forall a p, maps (ins ps C) a p <->
     Exists (fun '(k, c) => covers k c a /\ p = at_addr c a) ps \/ maps C a p).
Proof.
  revert lo. induction ps as [|[k c] ps IH]; intros lo Hw Hf Hp; cbn [ins foldr].
  { split_and!; [done|done|]. intros a p. rewrite Exists_nil. tauto. }
  destruct Hp as (Hlo & Hhi & Hok & Hp). pose proof Hok as (_ & _ & Hlen & _).
  destruct (IH (k + c_length c)) as (Hw' & Hfr & Hm); [done|by eapply free_mono; [done|lia|lia]|done|].
  fold (ins ps C). assert (Hfk : free (ins ps C) k (k + c_length c)).
  { apply Hfr; [lia| |lia]. eapply free_mono; [done|lia|lia]. }
  split_and!.
  - by apply wf_insert.
  - intros l h Hlh Hlf Hh k' c' [[<- <-]|[_ H]]%lookup_insert_Some; [lia|].
    by apply (Hfr l h) in H; [|done|done|lia].
  - intros a p. rewrite maps_insert by (eapply free_lookup; [done|done|lia]).
    rewrite Exists_cons, Hm. tauto.
Qed.

(** An entry replaced by pieces of its range. *)
Lemma carve_spec C k c ps :
  wf C -> C !! k = Some c -> pieces_ok k (k + c_length c) ps ->
  wf (ins ps (delete k C)) /\
  (forall a p, maps (ins ps (delete k C)) a p <->
     Exists (fun '(k', c') => covers k' c' a /\ p = at_addr c' a) ps \/ (maps C a p /\ ~ covers k c a)).
Proof.
  intros Hw Hk Hp. destruct (ins_spec ps (delete k C) k (k + c_length c)) as (H1 & _ & H3);
    [by apply wf_delete|by apply free_delete|done|]. split; [done|].
  intros a p. by rewrite H3, (maps_delete C k c).
Qed.

Lemma maps_here C k c a p : wf C -> C !! k = Some c -> covers k c a -> maps C a p <-> p = at_addr c a.
Proof.
  intros Hw Hk Hc. split.
  - intros H. eapply maps_fun; [done|done|]. by exists k, c.
  - intros ->. by exists k, c.
Qed.

(** A piece whose offset is the entry's at its base maps what the entry did. *)
Lemma at_piece c k l a :
  at_addr (mkCore (c_res c) k (u64 (u64 (c_offset c - c_base c) + k)) l (c_flags c) (c_prot c)) a = at_addr c a.
Proof.
  unfold at_addr. cbn. f_equal. unfold uwrap.
  rewrite Zplus_mod_idemp_l, <- Z.add_assoc, Zplus_mod_idemp_l. f_equal. lia.
Qed.
