(* ===== verification/VMAProps.v ===== *)
(** * VMA tracking: correctness

    Every operation runs without failing an assertion or following a dangling pointer, keeps
    the lists of the resources and the disjointness of the entries, and changes the tracked
    address space the way the system call it mirrors changes the kernel's. *)

From stdpp Require Import sorting.
From S2P Require Import Prelude VMA VMALists VMASpec.
Import VMA.

Ltac usmall :=
  repeat match goal with |- context[uwrap 64 ?x] => rewrite (u_small 64 x) by (unfold is_u; lia) end.

(** The state invariant: the lists are represented, the entries are disjoint. *)
Definition inv (vt : VMATracking) (ch : gmap Z (list Z)) : Prop := rep vt ch /\ wf (cores vt).

Lemma inv_entry vt ch k e :
  inv vt ch -> VMAs vt !! k = Some e ->
  cores vt !! k = Some (core e) /\ Base e = k /\ 0 <= k /\ 0 < Length e /\ k + Length e < 2 ^ 64.
Proof.
  intros [_ Hw] He. assert (cores vt !! k = Some (core e)) as Hc by (by rewrite cores_lookup, He).
  split; [done|]. apply (wf_entry _ Hw _ _ Hc).
Qed.

(** The parts of an entry outside [RBase, Top). *)
Definition kept (c : Core) (RBase Top : Z) : list (Z * Core) :=
  (if c_base c <? RBase then
     [(c_base c, mkCore (c_res c) (c_base c) (c_offset c) (RBase - c_base c) (c_flags c) (c_prot c))]
   else []) ++
  (if Top <? c_base c + c_length c then
     [(Top, mkCore (c_res c) Top (u64 (u64 (c_offset c - c_base c) + Top)) (c_base c + c_length c - Top)
              (c_flags c) (c_prot c))]
   else []).

Lemma kept_ok c RBase Top :
  entry_ok (c_base c) c -> RBase <= Top -> c_base c < Top -> RBase < c_base c + c_length c ->
  pieces_ok (c_base c) (c_base c + c_length c) (kept c RBase Top).
Proof.
  intros (_ & ? & ? & ?) ? ? ?. unfold kept.
  destruct (Z.ltb_spec (c_base c) RBase), (Z.ltb_spec Top (c_base c + c_length c)); cbn;
    unfold entry_ok; cbn; repeat split; lia.
Qed.

(** What is left of the entry. *)
Lemma kept_maps c RBase Top a p :
  RBase <= Top -> c_base c < Top -> RBase < c_base c + c_length c ->
  Exists (fun '(k, c') => covers k c' a /\ p = at_addr c' a) (kept c RBase Top) <->
  p = at_addr c a /\ covers (c_base c) c a /\ ~ (RBase <= a < Top).
Proof.
  intros ? ? ?. unfold kept.
  destruct (Z.ltb_spec (c_base c) RBase), (Z.ltb_spec Top (c_base c + c_length c)); cbn [app];
    rewrite ?Exists_cons, ?Exists_nil; unfold covers; cbn [c_length]; rewrite ?at_piece;
    change (at_addr (mkCore (c_res c) (c_base c) (c_offset c) (RBase - c_base c) (c_flags c) (c_prot c)) a)
      with (at_addr c a); destruct (Z.lt_ge_cases a RBase), (Z.lt_ge_cases a Top); intuition lia.
Qed.

(** The effect of removing the range from one entry. *)
Lemma delete_entry_maps C k c RBase Top a p :
  wf C -> C !! k = Some c -> RBase <= Top -> k < Top -> RBase < k + c_length c ->
  maps (ins (kept c RBase Top) (delete k C)) a p <->
  maps C a p /\ ~ (covers k c a /\ RBase <= a < Top).
Proof.
  intros Hw Hk ? ? ?. pose proof (wf_entry _ Hw _ _ Hk) as Hok. pose proof Hok as (Hb & _). subst k.
  destruct (carve_spec C (c_base c) c (kept c RBase Top)) as [_ Hm]; [done|done|by apply kept_ok|].
  rewrite Hm, kept_maps by done. split.
  - intros [(-> & Hc & Ha)|[Hp Hc]]; split; try tauto. by exists (c_base c), c.
  - intros [Hp Ha]. destruct (decide (c_base c <= a < c_base c + c_length c)) as [Hc|Hc]; [left|by right].
    split_and!; [by eapply maps_here|done|]. intros Hr. by apply Ha.
Qed.

(** ** Deletion *)

Lemma sorted_insert ch r l : sorted ch -> StronglySorted Z.lt l -> sorted (<[r := l]> ch).
Proof. intros Hs Hl r' l' [[<- <-]|[_ H]]%lookup_insert_Some; [done|by eapply Hs]. Qed.

Lemma sorted_delete ch r : sorted ch -> sorted (delete r ch).
Proof. intros Hs r' l' [_ H]%lookup_delete_Some. by eapply Hs. Qed.

(** The next entry lies beyond the end of an entry. *)
Lemma inv_next vt ch k e x :
  inv vt ch -> VMAs vt !! k = Some e -> is_Some (VMAs vt !! x) -> k < x -> k + Length e <= x.
Proof.
  intros [Hrep Hw] He [ex Hex].
  apply (wf_disjoint _ Hw k (core e) x (core ex)); by rewrite cores_lookup, ?He, ?Hex.
Qed.

Lemma DeleteStep_break asserts vt ch RBase Top Pres k e :
  inv vt ch -> VMAs vt !! k = Some e -> k + Length e <= RBase ->
  DeleteStep asserts vt RBase Top Pres k = Some (vt, false).
Proof.
  intros Hinv He Hle. destruct (inv_entry _ _ _ _ Hinv He) as (_ & Hb & ? & ? & ?).
  unfold DeleteStep. rewrite He. cbn. rewrite Hb. usmall.
  by destruct (Z.leb_spec (k + Length e) RBase); [|lia].
Qed.

(** What a step does besides the address space. *)
Record stepped (vt : VMATracking) (ch : gmap Z (list Z)) (Pres : option Z)
    (vt' : VMATracking) (ch' : gmap Z (list Z)) : Prop := mk_stepped {
  st_rep : rep vt' ch';
  st_sorted : sorted ch -> sorted ch';
  st_full : full Pres ch -> full Pres ch';
  st_pres : forall r, Pres = Some r -> is_Some (ch !! r) -> is_Some (ch' !! r);
  st_res : resources vt' ⊆ resources vt;
  st_gen : Generation vt' = Generation vt;
  st_memo : MarkNoOpCache vt' = MarkNoOpCache vt;
}.

Lemma stepped_refl vt ch Pres : rep vt ch -> stepped vt ch Pres vt ch.
Proof. by split. Qed.

Lemma stepped_trans vt ch Pres vt1 ch1 vt2 ch2 :
  stepped vt ch Pres vt1 ch1 -> stepped vt1 ch1 Pres vt2 ch2 -> stepped vt ch Pres vt2 ch2.
Proof.
  intros [A1 A2 A3 A4 A5 A6 A7] [B1 B2 B3 B4 B5 B6 B7]. split; eauto; try congruence. by etrans.
Qed.

Lemma unlisted_eq vt vt' :
  unlisted vt' = unlisted vt ->
  cores vt' = cores vt /\ resources vt' = resources vt /\
  Generation vt' = Generation vt /\ MarkNoOpCache vt' = MarkNoOpCache vt.
Proof. unfold unlisted. by intros [= -> -> -> ->]. Qed.

Lemma cores_set_VMAs m vt : cores (set_VMAs m vt) = core <$> m. Proof. done. Qed.

Lemma update_entry_run vt k e f :
  VMAs vt !! k = Some e -> update_entry vt k f = Some (set_VMAs (<[k := f e]> (VMAs vt)) vt).
Proof. intros He. unfold update_entry. by rewrite He. Qed.

Lemma resources_erase vt r : resources (erase_resource vt r) ⊆ resources vt.
Proof. unfold resources. cbn. rewrite fmap_delete. apply delete_subseteq. Qed.

(** The entry lies in the range: it is unlinked, its resource freed when it was the last entry
    and is not the preserved one, and it is erased. *)
Lemma delete_whole asserts vt ch Pres k e :
  inv vt ch -> VMAs vt !! k = Some e ->
  exists vt' ch',
    match Resource e with
    | None => Some vt
    | Some r =>
        rm ← ListRemove asserts vt k;
        let '(vt, empty) := rm in
        Some (if (empty : bool) && negb (ptr_eqb (Some r) Pres) then erase_resource vt r else vt)
    end = Some vt' /\
    stepped vt ch Pres (erase_vma vt' k) ch' /\ cores (erase_vma vt' k) = delete k (cores vt).
Proof.
  intros [Hrep Hw] He. destruct (Resource e) as [r|] eqn:Hr.
  - destruct (ListRemove_spec asserts vt ch k e r) as (l1 & l2 & vt' & Hl & -> & Hrep' & Hu); [done..|].
    apply unlisted_eq in Hu as (Hc & Hres & Hg & Hm). cbn.
    assert (Hsort : sorted ch -> sorted (<[r := l1 ++ l2]> ch)).
    { intros Hs. apply sorted_insert; [done|]. by apply Hs, sorted_middle in Hl as [? _]. }
    destruct (bool_decide (l1 ++ l2 = []) && negb (ptr_eqb (Some r) Pres)) eqn:Hb.
    + apply andb_true_iff in Hb as [Hb1 Hb2]. apply bool_decide_eq_true in Hb1.
      exists (erase_resource vt' r), (delete r (<[r := l1 ++ l2]> ch)). split_and!; [done| |].
      * split; try done.
        -- apply (rep_erase_resource (erase_vma vt' k)); [done|]. by rewrite Hb1, lookup_insert_eq.
        -- intros Hs. by apply sorted_delete, Hsort.
        -- intros Hf. rewrite delete_insert_eq. by apply full_delete.
        -- intros r' -> Hr'. assert (r <> r') by (intros ->; by rewrite ptr_eqb_refl in Hb2).
           by rewrite lookup_delete_ne, lookup_insert_ne.
        -- rewrite <- Hres. apply (resources_erase vt').
      * unfold cores in *. cbn. by rewrite fmap_delete, Hc.
    + exists vt', (<[r := l1 ++ l2]> ch). split_and!; [done| |].
      * split; try done.
        -- intros Hf. apply andb_false_iff in Hb as [Hb|Hb].
           ++ apply full_insert; [done|]. by apply bool_decide_eq_false in Hb.
           ++ apply full_insert_this; [done|]. apply negb_false_iff, bool_decide_eq_true in Hb. done.
        -- intros r' _ Hr'. rewrite lookup_insert_is_Some'. by right.
        -- change (resources vt' ⊆ resources vt). by rewrite Hres.
      * unfold cores in *. cbn. by rewrite fmap_delete, Hc.
  - exists vt, ch. split_and!; [done| |].
    + split; try done. by eapply rep_erase_anon.
    + unfold cores. cbn. by rewrite fmap_delete.
Qed.

(** An entry split off behind another one of the same list, before the next entry. *)
Lemma split_behind asserts vt ch k e new ne :
  rep vt ch -> VMAs vt !! k = Some e -> VMAs vt !! new = None ->
  Resource ne = Resource e -> ResourcePrevVMA ne = Some k -> ResourceNextVMA ne = ResourceNextVMA e ->
  exists vt' ch',
    match Resource e with
    | None => Some (set_VMAs (<[new := ne]> (VMAs vt)) vt)
    | Some _ => ListInsertAfter asserts (set_VMAs (<[new := ne]> (VMAs vt)) vt) k new
    end = Some vt' /\ rep vt' ch' /\
    unlisted vt' = unlisted (set_VMAs (<[new := ne]> (VMAs vt)) vt) /\
    (forall r, is_Some (ch !! r) -> is_Some (ch' !! r)) /\ (forall Pres, full Pres ch -> full Pres ch') /\
    (k < new -> (forall x, is_Some (VMAs vt !! x) -> k < x -> new < x) -> sorted ch -> sorted ch').
Proof.
  intros Hrep He Hnew Hr Hp Hn. destruct (Resource e) as [r|] eqn:Hre.
  - destruct (ListInsertAfter_spec asserts vt ch k e r new ne) as (l1 & l2 & vt' & Hl & -> & Hrep' & Hu);
      [done..|]. eexists vt', _. split_and!; [done|done|done| | |].
    + intros r' Hr'. rewrite lookup_insert_is_Some'. by right.
    + intros Pres Hf. apply full_insert; [done|]. apply app_cons_not_nil'.
    + intros Hlt Hnext Hs. apply sorted_insert; [done|].
      pose proof (proj1 (sorted_middle _ _ _) (Hs _ _ Hl)) as (Hs' & Hs1 & Hs2).
      change (l1 ++ k :: new :: l2) with (l1 ++ [k] ++ new :: l2).
      rewrite (app_assoc l1 [k]). apply sorted_middle. rewrite <- (app_assoc l1 [k]). split_and!.
      * by apply Hs in Hl.
      * intros x. rewrite elem_of_app, list_elem_of_singleton. intros [?%Hs1| ->]; lia.
      * intros x Hx. apply Hnext; [|by apply Hs2]. eapply rep_in; [done|done|set_solver].
  - exists (set_VMAs (<[new := ne]> (VMAs vt)) vt), ch. split_and!; try done. by apply rep_insert_anon.
Qed.

(** The first part of an entry in the range is replaced by its trailing part. *)
Lemma replace_front asserts vt ch k e new ne :
  rep vt ch -> VMAs vt !! k = Some e -> VMAs vt !! new = None ->
  Resource ne = Resource e -> ResourcePrevVMA ne = ResourcePrevVMA e ->
  ResourceNextVMA ne = ResourceNextVMA e ->
  k < new -> (forall x, is_Some (VMAs vt !! x) -> k < x -> new < x) ->
  exists vt' ch',
    match Resource e with
    | None => Some (set_VMAs (<[new := ne]> (VMAs vt)) vt)
    | Some _ => ListReplace asserts (set_VMAs (<[new := ne]> (VMAs vt)) vt) k new
    end = Some vt' /\ rep (erase_vma vt' k) ch' /\
    unlisted vt' = unlisted (set_VMAs (<[new := ne]> (VMAs vt)) vt) /\
    (forall r, is_Some (ch !! r) -> is_Some (ch' !! r)) /\ (forall Pres, full Pres ch -> full Pres ch') /\
    (sorted ch -> sorted ch').
Proof.
  intros Hrep He Hnew Hr Hp Hn Hlt Hnext. destruct (Resource e) as [r|] eqn:Hre.
  - destruct (ListReplace_spec asserts vt ch k e r new ne) as (l1 & l2 & vt' & Hl & -> & Hrep' & Hu);
      [done..|]. eexists vt', _. split_and!; [done|done|done| | |].
    + intros r' Hr'. rewrite lookup_insert_is_Some'. by right.
    + intros Pres Hf. apply full_insert; [done|]. apply app_cons_not_nil'.
    + intros Hs. apply sorted_insert; [done|].
      pose proof (proj1 (sorted_middle _ _ _) (Hs _ _ Hl)) as (Hs' & Hs1 & Hs2).
      apply sorted_middle. split_and!; [done|intros x ?%Hs1; lia|].
      intros x Hx. apply Hnext; [|by apply Hs2]. eapply rep_in; [done|done|set_solver].
  - exists (set_VMAs (<[new := ne]> (VMAs vt)) vt), ch. split_and!; try done.
    apply (rep_erase_anon _ _ _ e); [by apply rep_insert_anon| |done]. cbn. rewrite lookup_insert_ne; [done|lia].
Qed.

Lemma inv_inside vt ch k e x :
  inv vt ch -> VMAs vt !! k = Some e -> k < x < k + Length e -> VMAs vt !! x = None.
Proof.
  intros Hinv He Hx. destruct (VMAs vt !! x) as [ex|] eqn:Hex; [|done].
  pose proof (inv_next _ _ _ _ x Hinv He ltac:(eauto) ltac:(lia)). lia.
Qed.

Lemma stepped_of_unlisted vt ch Pres vt' ch' m :
  rep vt' ch' -> unlisted vt' = unlisted (set_VMAs m vt) ->
  (forall r, is_Some (ch !! r) -> is_Some (ch' !! r)) -> (full Pres ch -> full Pres ch') ->
  (sorted ch -> sorted ch') -> stepped vt ch Pres vt' ch'.
Proof.
  intros Hrep Hu Hd Hfu Hs. apply unlisted_eq in Hu as (_ & Hr & Hg & Hm). split; try done; [by auto|].
  by rewrite Hr.
Qed.

(** The two cases of a step that insert the trailing part. *)
Lemma delete_trailing asserts vt ch RBase Top Pres k e (first : bool) :
  let e1 := if first then set_Length (RBase - k) e else e in
  let ne := mkVMA (Resource e) (if first then Some k else ResourcePrevVMA e) (ResourceNextVMA e) Top
              (u64 (u64 (Offset e - k) + Top)) (k + Length e - Top) (Flags e) (Prot e) in
  inv vt ch -> VMAs vt !! k = Some e -> 0 <= RBase -> RBase <= Top -> k < Top < k + Length e ->
  exists vt' ch',
    let vt1 := set_VMAs (<[Top := ne]> (<[k := e1]> (VMAs vt))) vt in
    match Resource e with
    | None => Some vt1
    | Some _ => if first then ListInsertAfter asserts vt1 k Top else ListReplace asserts vt1 k Top
    end = Some vt' /\
    stepped vt ch Pres (if first then vt' else erase_vma vt' k) ch' /\
    cores vt' = <[Top := core ne]> (<[k := core e1]> (cores vt)).
Proof.
  intros e1 ne Hinv He H0 HR HT. pose proof Hinv as [Hrep Hw].
  pose proof (inv_inside _ _ _ _ Top Hinv He HT) as Hnew.
  set (vt0 := set_VMAs (<[k := e1]> (VMAs vt)) vt).
  assert (Hrep0 : rep vt0 ch) by (eapply rep_set_entry; [done|done|by destruct first..]).
  assert (He0 : VMAs vt0 !! k = Some e1) by (cbn; by rewrite lookup_insert_eq).
  assert (Hnew0 : VMAs vt0 !! Top = None) by (cbn; rewrite lookup_insert_ne; [done|lia]).
  assert (Hnext : forall x, is_Some (VMAs vt0 !! x) -> k < x -> Top < x).
  { intros x Hx Hkx. cbn in Hx. rewrite lookup_insert_ne in Hx by lia.
    pose proof (inv_next _ _ _ _ x Hinv He Hx Hkx). lia. }
  assert (Hcs : forall v, unlisted v = unlisted (set_VMAs (<[Top := ne]> (VMAs vt0)) vt0) ->
            cores v = <[Top := core ne]> (<[k := core e1]> (cores vt))).
  { intros v Hu. apply unlisted_eq in Hu as [-> _]. unfold cores. cbn. by rewrite !fmap_insert. }
  assert (Hre : Resource e = Resource e1) by (by destruct first). rewrite Hre.
  destruct first.
  - destruct (split_behind asserts vt0 ch k e1 Top ne) as (vt' & ch' & Hrun & Hrep' & Hu & Hd & Hfu & Hs); [done..|].
    exists vt', ch'. split_and!; [exact Hrun| |by apply Hcs].
    eapply stepped_of_unlisted; [done|exact Hu|done|by auto|]. apply Hs; [lia|done].
  - destruct (replace_front asserts vt0 ch k e1 Top ne) as (vt' & ch' & Hrun & Hrep' & Hu & Hd & Hfu & Hs);
      [done..|lia|done|].
    exists vt', ch'. split_and!; [exact Hrun| |by apply Hcs].
    apply unlisted_eq in Hu as (_ & Hr & Hg & Hm). split; try done; [by auto|by auto|].
    change (resources vt' ⊆ resources vt). by rewrite Hr.
Qed.

Lemma DeleteStep_spec asserts vt ch RBase Top Pres k e :
  inv vt ch -> VMAs vt !! k = Some e -> 0 <= RBase -> RBase <= Top < 2 ^ 64 -> k < Top ->
  RBase < k + Length e ->
  exists vt' ch', DeleteStep asserts vt RBase Top Pres k = Some (vt', true) /\
    stepped vt ch Pres vt' ch' /\
    cores vt' = ins (kept (core e) RBase Top) (delete k (cores vt)).
Proof.
  intros Hinv He H0 HT Hk Hin. destruct (inv_entry _ _ _ _ Hinv He) as (Hc & Hb & ? & ? & ?).
  pose proof Hinv as [Hrep Hw].
  pose proof (delete_trailing asserts vt ch RBase Top Pres k e) as Htr. cbn zeta in Htr.
  unfold DeleteStep, kept. rewrite He. cbn. rewrite Hb. usmall.
  destruct (Z.leb_spec (k + Length e) RBase); [lia|].
  destruct (Z.ltb_spec k RBase), (Z.ltb_spec Top (k + Length e)); cbn [negb andb app].
  - rewrite (update_entry_run _ _ _ _ He). cbn. rewrite lookup_insert_eq. cbn. usmall.
    destruct (Htr true) as (vt' & ch' & Hrun & Hst & Hcs); [done|done|lia..|].
    unfold emplace. rewrite lookup_insert_ne, (inv_inside _ _ _ _ Top Hinv He) by lia.
    rewrite LOGMAN_true by done. cbn. exists vt', ch'. unfold set_VMAs in Hrun |- *. cbn in Hrun |- *. rewrite Hrun.
    split_and!; [done|done|]. cbn [ins foldr]. rewrite Hcs.
    rewrite (insert_insert_ne _ k Top), insert_delete_eq by lia. unfold core. cbn. by rewrite Hb.
  - rewrite (update_entry_run _ _ _ _ He). cbn. usmall.
    exists (set_VMAs (<[k := set_Length (RBase - k) e]> (VMAs vt)) vt), ch. split_and!; [done| |].
    + split; try done. by eapply rep_set_entry.
    + unfold cores, core. cbn. rewrite fmap_insert, insert_delete_eq. cbn. by rewrite Hb.
  - cbn. rewrite He. cbn. usmall.
    destruct (Htr false) as (vt' & ch' & Hrun & Hst & Hcs); [done|done|lia..|].
    unfold emplace. rewrite (inv_inside _ _ _ _ Top Hinv He) by lia.
    rewrite LOGMAN_true by done. cbn. rewrite (insert_id (VMAs vt) k e) in Hrun by done.
    exists (erase_vma vt' k), ch'. rewrite Hrun. split_and!; [done|exact Hst|].
    unfold cores in *. cbn. rewrite fmap_delete, Hcs, delete_insert_ne, delete_insert_eq by lia. done.
  - destruct (delete_whole asserts vt ch Pres k e Hinv He) as (vt' & ch' & -> & Hst & Hcs).
    exists (erase_vma vt' k), ch'. done.
Qed.

Lemma cores_is_Some vt k : is_Some (cores vt !! k) <-> is_Some (VMAs vt !! k).
Proof. rewrite cores_lookup. apply fmap_is_Some. Qed.

Lemma cores_Some vt k c : cores vt !! k = Some c -> exists e, VMAs vt !! k = Some e /\ c = core e.
Proof. rewrite cores_lookup. destruct (VMAs vt !! k); [|done]. intros [= <-]. eauto. Qed.

(** What is left of the entry lies before or after the range. *)
Lemma kept_free C k c RBase Top x cx :
  wf C -> C !! k = Some c -> RBase <= Top -> k < Top -> RBase < k + c_length c ->
  ins (kept c RBase Top) (delete k C) !! x = Some cx ->
  (x = k /\ x + c_length cx <= RBase) \/ x = Top \/ (x <> k /\ C !! x = Some cx).
Proof.
  intros Hw Hk ? ? ?. destruct (wf_entry _ Hw _ _ Hk) as (Hb & _). unfold kept. rewrite Hb.
  destruct (Z.ltb_spec k RBase), (Z.ltb_spec Top (k + c_length c)); cbn [app ins foldr];
    rewrite ?lookup_insert_Some, ?lookup_delete_Some; intros Hx;
    repeat match goal with H : _ \/ _ |- _ => destruct H | H : _ /\ _ |- _ => destruct H end;
    subst; cbn; auto; left; split; lia.
Qed.

(** The range is unmapped, the rest of the address space is as it was. *)
Record unmapped (C : gmap Z Core) (RBase Top : Z) (C' : gmap Z Core) : Prop := mk_unmapped {
  un_free : free C' RBase Top;
  un_rest : forall a p, ~ (RBase <= a < Top) -> maps C' a p <-> maps C a p;
}.

Lemma DeleteLoop_spec asserts fuel : forall vt ch RBase Top Pres cur,
  inv vt ch -> 0 <= RBase -> RBase <= Top < 2 ^ 64 -> cur <= Top ->
  (below (VMAs vt) cur <= fuel)%nat ->
  (forall k c, cores vt !! k = Some c -> cur <= k -> k + c_length c <= RBase \/ Top <= k) ->
  exists vt' ch', DeleteLoop asserts fuel vt RBase Top Pres cur = Some vt' /\
    wf (cores vt') /\ stepped vt ch Pres vt' ch' /\ unmapped (cores vt) RBase Top (cores vt').
Proof.
  induction fuel as [|fuel IH]; intros vt ch RBase Top Pres cur Hinv H0 HT Hcur Hfuel Hdone;
    pose proof Hinv as [Hrep Hw]; cbn [DeleteLoop];
    (destruct (pred_key (VMAs vt) cur) as [k|] eqn:Hk;
     [apply pred_key_Some in Hk as ([e He] & Hlt & Hmax)|
      exists vt, ch; split_and!; [done|done|by apply stepped_refl|split; [|done]];
      intros x c Hx; apply Hdone; [done|]; eapply pred_key_None; [done|by eapply cores_is_Some, mk_is_Some]]).
  - pose proof (below_pred (VMAs vt) (VMAs vt) cur k ltac:(eauto) Hlt ltac:(auto)). lia.
  - destruct (inv_entry _ _ _ _ Hinv He) as (Hc & _ & ? & ? & ?).
    destruct (Z.le_gt_cases (k + Length e) RBase) as [Hle|Hgt].
    + rewrite (DeleteStep_break asserts vt ch RBase Top Pres k e) by done. cbn. exists vt, ch.
      split_and!; [done|done|by apply stepped_refl|]. split; [|done]. intros x c Hx.
      destruct (Z.le_gt_cases cur x); [by apply Hdone|]. left.
      assert (x <= k) by (apply Hmax; [by eapply cores_is_Some, mk_is_Some|lia]).
      destruct (decide (x = k)) as [->|]; [by simplify_eq|].
      pose proof (wf_disjoint _ Hw x c k (core e) Hx Hc ltac:(lia)). lia.
    + destruct (DeleteStep_spec asserts vt ch RBase Top Pres k e) as (vt1 & ch1 & -> & Hst & Hcs);
        [done|done|lia..|]. cbn.
      assert (Hw1 : wf (cores vt1)).
      { rewrite Hcs. destruct (wf_entry _ Hw _ _ Hc) as (Hb & _). rewrite <- Hb.
        apply (carve_spec _ _ (core e)); [done|by rewrite Hb|].
        apply kept_ok; [rewrite Hb; by apply (wf_entry _ Hw)|cbn in *; lia..]. }
      pose proof (fun x cx => kept_free _ k (core e) RBase Top x cx Hw Hc) as Hkf. rewrite <- Hcs in Hkf.
      destruct (IH vt1 ch1 RBase Top Pres k) as (vt' & ch' & Hrun & Hw' & Hst' & Hun);
        [by split; [apply Hst|]|done|done|lia| | |].
      * pose proof (below_pred (VMAs vt) (VMAs vt1) cur k) as Hb. specialize (Hb ltac:(eauto) Hlt).
        enough (below (VMAs vt1) k < below (VMAs vt) cur)%nat by lia. apply Hb. clear Hb.
        intros x Hx Hs%cores_is_Some. destruct Hs as [cx Hs]. apply cores_is_Some.
        apply Hkf in Hs as [[-> _]|[->|[_ Hs]]]; [lia|lia|eauto|cbn; lia..].
      * intros x cx Hx Hkx. apply Hkf in Hx as [[-> ?]|[->|[? Hx]]]; [by left|right; lia| |cbn; lia..].
        apply Hdone; [done|]. destruct (Z.le_gt_cases cur x); [done|].
        pose proof (Hmax x ltac:(by eapply cores_is_Some, mk_is_Some) ltac:(lia)). lia.
      * exists vt', ch'. split_and!; [done|done|by eapply stepped_trans|]. split; [apply Hun|].
        intros a p Ha. rewrite (un_rest _ _ _ _ Hun) by done.
        rewrite Hcs, (delete_entry_maps _ k (core e)) by (done || cbn; lia). tauto.
Qed.

(** ** The operations on ranges *)

Lemma cores_Bump vt : cores (BumpGeneration vt) = cores vt.
Proof. unfold BumpGeneration. by destruct (_ =? 0). Qed.

Lemma resources_Bump vt : resources (BumpGeneration vt) = resources vt.
Proof. unfold BumpGeneration. by destruct (_ =? 0). Qed.

Lemma rep_Bump vt ch : rep (BumpGeneration vt) ch <-> rep vt ch.
Proof. unfold BumpGeneration. by destruct (_ =? 0). Qed.

Lemma inv_Bump vt ch : inv (BumpGeneration vt) ch <-> inv vt ch.
Proof. unfold inv. by rewrite rep_Bump, cores_Bump. Qed.

(** [memo_after vt vt' n]: the generation and the memo are those after [n] bumps. *)
Definition memo_after (n : nat) (vt vt' : VMATracking) : Prop :=
  Generation vt' = Generation (Nat.iter n BumpGeneration vt) /\
  MarkNoOpCache vt' = MarkNoOpCache (Nat.iter n BumpGeneration vt).

Lemma delete_range asserts vt ch RBase RLength Pres :
  inv vt ch -> 0 <= RBase -> 0 <= RLength -> RBase + RLength < 2 ^ 64 ->
  exists vt' ch', DeleteVMARange asserts vt RBase RLength Pres = Some vt' /\
    inv vt' ch' /\ unmapped (cores vt) RBase (RBase + RLength) (cores vt') /\
    (sorted ch -> sorted ch') /\ (full Pres ch -> full Pres ch') /\
    (forall r, Pres = Some r -> is_Some (ch !! r) -> is_Some (ch' !! r)) /\
    resources vt' ⊆ resources vt /\ memo_after 1 vt vt'.
Proof.
  intros Hinv H0 H1 H2. unfold DeleteVMARange. usmall.
  destruct (DeleteLoop_spec asserts (size (VMAs (BumpGeneration vt))) (BumpGeneration vt) ch RBase
              (RBase + RLength) Pres (RBase + RLength)) as (vt' & ch' & Hrun & Hw & Hst & Hun);
    [by apply inv_Bump|lia|lia|lia|apply below_le|by right|].
  exists vt', ch'. rewrite cores_Bump in Hun. destruct Hst as [S1 S2 S3 S4 S5 S6 S7].
  rewrite resources_Bump in S5. by split_and!.
Qed.

(** The list position found for the new entry. *)
Lemma FindNeighbours_spec vt ch r RBase l1 l2 fuel :
  inv vt ch -> ch !! r = Some (l1 ++ l2) -> (length l2 <= fuel)%nat -> (forall x, x ∈ l1 -> x < RBase) ->
  exists m1 m2, FindNeighbours fuel vt RBase (last l1) (head l2) = Some (last m1, head m2) /\
    m1 ++ m2 = l1 ++ l2 /\ (forall x, x ∈ m1 -> x < RBase) /\
    (forall x, head m2 = Some x -> RBase <= x).
Proof.
  intros Hinv. revert l1 fuel. induction l2 as [|n l2 IH]; intros l1 fuel Hl Hf Hlt.
  { exists l1, []. by destruct fuel. }
  pose proof Hinv as [Hrep Hw]. destruct Hrep as (_ & H2 & _). destruct (H2 _ _ Hl) as [_ Hd].
  apply dlseg_middle in Hd as (_ & (e & He & _ & _ & Hn) & _). rewrite first_or_None in Hn.
  destruct (inv_entry _ _ _ _ Hinv He) as (_ & Hb & _).
  destruct fuel as [|fuel]; cbn in Hf; [lia|]. cbn. rewrite He. cbn. rewrite Hb, Hn.
  destruct (Z.ltb_spec n RBase) as [Hx|Hx].
  - destruct (IH (l1 ++ [n]) fuel) as (m1 & m2 & Hrun & Heq & Hm1 & Hm2).
    + by rewrite <- app_assoc.
    + lia.
    + intros x. rewrite elem_of_app, list_elem_of_singleton. intros [?| ->]; auto.
    + exists m1, m2. rewrite last_snoc in Hrun. rewrite <- app_assoc in Heq. done.
  - exists l1, (n :: l2). split_and!; try done. intros x [= ->]. done.
Qed.

(** Linking the new entry in at that position. *)
Lemma insert_between asserts vt ch r m1 m2 new ne :
  rep vt ch -> ch !! r = Some (m1 ++ m2) -> VMAs vt !! new = None ->
  Resource ne = Some r -> ResourcePrevVMA ne = last m1 -> ResourceNextVMA ne = head m2 ->
  exists vt',
    match last m1 with
    | None => ListPrepend asserts (set_VMAs (<[new := ne]> (VMAs vt)) vt) r new
    | Some p => ListInsertAfter asserts (set_VMAs (<[new := ne]> (VMAs vt)) vt) p new
    end = Some vt' /\ rep vt' (<[r := m1 ++ new :: m2]> ch) /\
    unlisted vt' = unlisted (set_VMAs (<[new := ne]> (VMAs vt)) vt).
Proof.
  intros Hrep Hl Hnew Hr Hp Hn. destruct m1 as [|p m1 _] using rev_ind.
  - by apply ListPrepend_spec.
  - rewrite last_snoc in *. rewrite <- (app_assoc m1) in Hl |- *. cbn [app] in *.
    pose proof Hrep as (_ & H2 & _). destruct (H2 _ _ Hl) as [_ Hd].
    apply dlseg_middle in Hd as (_ & (e & He & Her & _ & Hen) & _). rewrite first_or_None in Hen.
    destruct (ListInsertAfter_spec asserts vt ch p e r new ne) as (l1 & l2 & vt' & Hl' & Hrun & Hrep' & Hu);
      [done..|congruence|].
    destruct (rep_halves _ _ _ _ _ _ Hrep Hl) as (_ & _ & K1 & K2 & _).
    rewrite Hl in Hl'. injection Hl' as Hl'. apply split_unique in Hl' as [-> ->]; [|done..].
    by exists vt'.
Qed.

Lemma rep_length vt ch r l : rep vt ch -> ch !! r = Some l -> (length l <= size (VMAs vt))%nat.
Proof.
  intros Hrep Hl. pose proof Hrep as (_ & H2 & _). destruct (H2 _ _ Hl) as [Hnd _].
  rewrite <- size_dom. rewrite <- (size_list_to_set (C := gset Z) l Hnd). apply subseteq_size.
  intros x Hx%elem_of_list_to_set. apply elem_of_dom. by eapply rep_in.
Qed.

Lemma wf_add C RBase c :
  wf C -> free C RBase (RBase + c_length c) -> entry_ok RBase c ->
  wf (<[RBase := c]> C) /\
  (forall a p, maps (<[RBase := c]> C) a p <-> (covers RBase c a /\ p = at_addr c a) \/ maps C a p).
Proof.
  intros Hw Hf Hok. split; [by apply wf_insert|]. intros a p. apply maps_insert.
  destruct Hok as (_ & _ & ? & _). eapply free_lookup; [done|done|lia].
Qed.

(** The position in the list of the resource, from the head on. *)
Lemma neighbours_spec vt ch r l res RBase :
  inv vt ch -> ch !! r = Some l -> VMAs vt !! RBase = None -> MappedResources vt !! r = Some res ->
  exists links m1 m2,
    match FirstVMA res with
    | None => Some (None, None)
    | Some p =>
        e ← VMAs vt !! p;
        if RBase <? Base e then Some (None, Some p) else Some (Some p, ResourceNextVMA e)
    end = Some links /\
    FindNeighbours (size (VMAs vt)) vt RBase (fst links) (snd links) = Some (last m1, head m2) /\
    l = m1 ++ m2 /\ (forall x, x ∈ m1 -> x < RBase) /\ (forall x, head m2 = Some x -> RBase <= x).
Proof.
  intros Hinv Hl Hnew Hres. pose proof Hinv as [Hrep Hw]. pose proof Hrep as (H1 & H2 & H3 & _).
  rewrite (H3 _ _ _ Hl Hres). pose proof (rep_length _ _ _ _ Hrep Hl) as Hlen. destruct l as [|p l].
  { exists (None, None), [], []. split_and!; try done; [by destruct (size (VMAs vt))|set_solver]. }
  destruct (H2 _ _ Hl) as [_ [(e & He & _ & _ & Hn) _]]. cbn [head mbind option_bind]. rewrite He. cbn.
  destruct (inv_entry _ _ _ _ Hinv He) as (_ & Hb & _). rewrite Hb.
  destruct (Z.ltb_spec RBase p) as [Hlt|Hlt].
  - destruct (FindNeighbours_spec vt ch r RBase [] (p :: l) (size (VMAs vt))) as (m1 & m2 & ? & ? & ? & ?);
      [done|done|done|set_solver|]. by exists (None, Some p), m1, m2.
  - assert (p <> RBase) by congruence.
    destruct (FindNeighbours_spec vt ch r RBase [p] l (size (VMAs vt))) as (m1 & m2 & Hr & ? & ? & ?);
      [done|done|cbn in Hlen; lia|set_solver by lia|]. exists (Some p, ResourceNextVMA e), m1, m2.
    replace (ResourceNextVMA e) with (head l) by (by rewrite Hn; destruct l). done.
Qed.

Lemma LinkVMA_spec asserts vt ch Res RBase ROffset RLength F P :
  inv vt ch -> VMAs vt !! RBase = None -> (forall r, Res = Some r -> is_Some (ch !! r)) ->
  exists vt' ch', LinkVMA asserts vt Res RBase ROffset RLength F P = Some vt' /\ rep vt' ch' /\
    cores vt' = <[RBase := mkCore Res RBase ROffset RLength F P]> (cores vt) /\
    resources vt' = resources vt /\ memo_after 0 vt vt' /\
    (sorted ch -> sorted ch') /\ (full Res ch -> full None ch') /\
    (forall r, is_Some (ch !! r) -> is_Some (ch' !! r)).
Proof.
  intros Hinv Hnew Hres. unfold LinkVMA. pose proof Hinv as [Hrep Hw]. destruct Res as [r|].
  - destruct (Hres r eq_refl) as [l Hl]. pose proof Hrep as (H1 & _).
    destruct (proj1 (H1 r) ltac:(eauto)) as [res HM]. rewrite HM. cbn [mbind option_bind].
    destruct (neighbours_spec vt ch r l res RBase) as (links & m1 & m2 & -> & Hf & -> & Hlt & Hge); [done..|].
    cbn [mbind option_bind]. rewrite Hf. cbn [mbind option_bind]. unfold emplace. rewrite Hnew.
    rewrite LOGMAN_true by done. cbn [mbind option_bind].
    destruct (insert_between asserts vt ch r m1 m2 RBase
                (mkVMA (Some r) (last m1) (head m2) RBase ROffset RLength F P))
      as (vt' & -> & Hrep' & Hu); [done..|].
    apply unlisted_eq in Hu as (Hc & Hr & Hg & Hm).
    exists vt', (<[r := m1 ++ RBase :: m2]> ch). split_and!; [done|done| |done|done| | |].
    + rewrite Hc. unfold cores. cbn. by rewrite fmap_insert.
    + intros Hs. apply sorted_insert; [done|]. apply sorted_middle. pose proof (Hs _ _ Hl) as Hsl.
      split_and!; [done|done|]. intros x Hx. assert (x <> RBase).
      { intros ->. apply (rep_fresh _ _ _ _ _ Hrep Hl Hnew). set_solver. }
      destruct m2 as [|y m2]; [set_solver|]. specialize (Hge y eq_refl).
      apply sorted_middle in Hsl as (_ & _ & Hy). apply elem_of_cons in Hx as [->|Hx]; [lia|].
      specialize (Hy x Hx). lia.
    + intros Hfu r' [[<- ?%app_cons_not_nil']|[Hne Hr']]%lookup_insert_Some; [done|].
      apply Hfu in Hr'. congruence.
    + intros r' Hr'. rewrite lookup_insert_is_Some'. by right.
  - cbn [mbind option_bind]. exists (set_VMAs (<[RBase := mkVMA None None None RBase ROffset RLength F P]>
      (VMAs vt)) vt), ch. split_and!; try done.
    + unfold emplace. rewrite Hnew. rewrite LOGMAN_true by done. by destruct (size (VMAs vt)).
    + by apply rep_insert_anon.
    + unfold cores. cbn. by rewrite fmap_insert.
Qed.

Lemma track_range asserts vt ch Res RBase ROffset RLength F P :
  inv vt ch -> (forall r, Res = Some r -> is_Some (ch !! r)) ->
  0 <= RBase -> 0 < RLength -> RBase + RLength < 2 ^ 64 ->
  exists vt' ch', TrackVMARange asserts vt Res RBase ROffset RLength F P = Some vt' /\
    inv vt' ch' /\
    (forall a p, maps (cores vt') a p <->
       (RBase <= a < RBase + RLength /\ p = mkMapping Res (u64 (ROffset + (a - RBase))) F P) \/
       (~ (RBase <= a < RBase + RLength) /\ maps (cores vt) a p)) /\
    (sorted ch -> sorted ch') /\ (full Res ch -> full None ch') /\
    resources vt' ⊆ resources vt /\ memo_after 2 vt vt' /\
    (forall r, Res = Some r -> is_Some (ch' !! r)).
Proof.
  intros Hinv Hres H0 H1 H2. unfold TrackVMARange.
  destruct (delete_range asserts (BumpGeneration vt) ch RBase RLength Res)
    as (vt1 & ch1 & -> & Hinv1 & Hun & Hs1 & Hf1 & Hpres & Hr1 & G1 & G2); [by apply inv_Bump|lia..|].
  cbn [mbind option_bind]. rewrite cores_Bump in Hun. rewrite resources_Bump in Hr1.
  set (c := mkCore Res RBase ROffset RLength F P). pose proof Hinv1 as [Hrep1 Hw1].
  destruct (wf_add (cores vt1) RBase c) as [Hw' Hmaps];
    [done|apply Hun|by unfold entry_ok; cbn; repeat split; lia|].
  pose proof (free_lookup (cores vt1) RBase (RBase + RLength) RBase Hw1 ltac:(apply Hun) ltac:(lia)) as Hn.
  rewrite cores_lookup in Hn. apply fmap_None in Hn.
  destruct (LinkVMA_spec asserts vt1 ch1 Res RBase ROffset RLength F P)
    as (vt' & ch' & -> & Hrep' & Hc & Hr & [G3 G4] & Hs & Hf & Hd); [done|done|by intros r ->; auto|].
  exists vt', ch'. split_and!; [done|split; [done|by rewrite Hc]| |by auto|by auto|by rewrite Hr| |by intros r ->; auto].
  - intros a p. rewrite Hc. fold c. rewrite Hmaps. unfold covers. cbn [c_length c].
    destruct (decide (RBase <= a < RBase + RLength)) as [Ha|Ha].
    + pose proof (free_unmapped _ _ _ a p (un_free _ _ _ _ Hun) Ha). unfold at_addr, c. cbn. tauto.
    + rewrite (un_rest _ _ _ _ Hun) by done. tauto.
  - split; [rewrite G3; exact G1|rewrite G4; exact G2].
Qed.
