(* ===== verification/VMAProtect.v ===== *)
(** * VMA tracking: protection changes

    The split-merge strategies of [ChangeProtectionFlags] on a fully mapped range. *)

From stdpp Require Import sorting.
From S2P Require Import Prelude VMA VMALists VMASpec VMAProps.
Import VMA.

(** ** Views of the address space with and without offsets *)

Definition set_mprot (P : VMAProt) (p : Mapping) : Mapping := mkMapping (m_res p) (m_offset p) (m_flags p) P.

Definition look (off : bool) (p : Mapping) : Mapping :=
  if off then p else mkMapping (m_res p) 0 (m_flags p) (m_prot p).

Definition prot_at (lo hi : Z) (P : VMAProt) (a : Z) (p : Mapping) : Mapping :=
  if decide (lo <= a < hi) then set_mprot P p else p.

Definition sees (off : bool) (C : gmap Z Core) (a : Z) (p : Mapping) : Prop :=
  exists q, maps C a q /\ p = look off q.

(** The range has the new protection; nothing else has changed. *)
Definition protected (off : bool) (C : gmap Z Core) (lo hi : Z) (P : VMAProt) (C' : gmap Z Core) : Prop :=
  forall a p, sees off C' a p <-> exists q, sees off C a q /\ p = prot_at lo hi P a q.

Lemma protected_trans off C lo mid hi P C1 C2 :
  lo <= mid <= hi -> protected off C mid hi P C1 -> protected off C1 lo mid P C2 -> protected off C lo hi P C2.
Proof.
  intros Hm H1 H2 a p. rewrite (H2 a p). setoid_rewrite (H1 a). unfold prot_at. split.
  - intros (q & (q0 & Hq0 & ->) & ->). exists q0. split; [done|]. repeat case_decide; try lia; done.
  - intros (q & Hq & ->). eexists. split; [by eexists|]. repeat case_decide; try lia; done.
Qed.

Lemma protected_none off C lo P : protected off C lo lo P C.
Proof.
  intros a p. unfold prot_at. split.
  - intros H. exists p. split; [done|]. case_decide; [lia|done].
  - intros (q & Hq & ->). case_decide; [lia|done].
Qed.

Lemma protected_mapped off C lo hi P C' a :
  protected off C lo hi P C' -> (exists p, maps C' a p) <-> (exists p, maps C a p).
Proof.
  intros H. split.
  - intros [p Hp]. destruct (proj1 (H a (look off p))) as (q & (q0 & Hq & _) & _); [by exists p|by exists q0].
  - intros [p Hp]. destruct (proj2 (H a (prot_at lo hi P a (look off p)))) as (q & Hq & _); [|by exists q].
    exists (look off p). split; [by exists p|done].
Qed.

(** ** Re-protecting a part of an entry *)

(** The parts of the entry: before the range, the range itself and, at offset [toff], the tail. *)
Definition reprot (c : Core) (lo hi : Z) (P : VMAProt) (toff : Z) : list (Z * Core) :=
  (if c_base c <? lo then
     [(c_base c, mkCore (c_res c) (c_base c) (c_offset c) (lo - c_base c) (c_flags c) (c_prot c))]
   else []) ++
  [(lo, mkCore (c_res c) lo (if c_base c <? lo then u64 (u64 (c_offset c - c_base c) + lo) else c_offset c)
          (hi - lo) (c_flags c) P)] ++
  (if hi <? c_base c + c_length c then
     [(hi, mkCore (c_res c) hi toff (c_base c + c_length c - hi) (c_flags c) (c_prot c))]
   else []).

Lemma reprot_ok c lo hi P toff :
  entry_ok (c_base c) c -> c_base c <= lo -> lo < hi -> hi <= c_base c + c_length c ->
  pieces_ok (c_base c) (c_base c + c_length c) (reprot c lo hi P toff).
Proof.
  intros (_ & ? & ? & ?) ? ? ?. unfold reprot.
  destruct (Z.ltb_spec (c_base c) lo), (Z.ltb_spec hi (c_base c + c_length c)); cbn;
    unfold entry_ok; cbn; repeat split; lia.
Qed.

(** What the parts map. *)
Lemma reprot_maps off c lo hi P toff a :
  c_base c <= lo -> lo < hi -> hi <= c_base c + c_length c ->
  (off = true -> hi < c_base c + c_length c -> toff = u64 (u64 (c_offset c - c_base c) + hi)) ->
  covers (c_base c) c a ->
  forall p, (exists q, Exists (fun '(k, c') => covers k c' a /\ q = at_addr c' a) (reprot c lo hi P toff) /\
               p = look off q) <->
  p = prot_at lo hi P a (look off (at_addr c a)).
Proof.
  intros Hlo Hlt Hhi Htoff Ha p. unfold covers in Ha. unfold reprot.
  set (mid := mkCore (c_res c) lo (if c_base c <? lo then _ else _) _ _ _).
  assert (Hmid : at_addr mid a = set_mprot P (at_addr c a)).
  { unfold mid. destruct (Z.ltb_spec (c_base c) lo).
    - pose proof (at_piece c lo (hi - lo) a) as E. unfold at_addr, set_mprot in *. cbn in *. by injection E as ->.
    - assert (c_base c = lo) as <- by lia. done. }
  set (tail := mkCore (c_res c) hi toff _ _ _).
  assert (Htail : hi < c_base c + c_length c -> look off (at_addr tail a) = look off (at_addr c a)).
  { intros Ht. destruct off; [|done]. unfold tail. rewrite (Htoff eq_refl Ht). cbn. apply at_piece. }
  assert (Hset : look off (set_mprot P (at_addr c a)) = set_mprot P (look off (at_addr c a))) by (by destruct off).
  assert (HE : forall q, Exists (fun '(k, c') => covers k c' a /\ q = at_addr c' a)
     ((if c_base c <? lo then
         [(c_base c, mkCore (c_res c) (c_base c) (c_offset c) (lo - c_base c) (c_flags c) (c_prot c))]
       else []) ++ [(lo, mid)] ++ (if hi <? c_base c + c_length c then [(hi, tail)] else [])) <->
     (a < lo /\ q = at_addr c a) \/ (lo <= a < hi /\ q = at_addr mid a) \/ (hi <= a /\ q = at_addr tail a)).
  { intros q. destruct (Z.ltb_spec (c_base c) lo), (Z.ltb_spec hi (c_base c + c_length c)); cbn [app];
      rewrite ?Exists_cons, ?Exists_nil; unfold covers; cbn [c_length mid tail];
      change (at_addr (mkCore (c_res c) (c_base c) (c_offset c) (lo - c_base c) (c_flags c) (c_prot c)) a)
        with (at_addr c a); destruct (Z.lt_ge_cases a lo), (Z.lt_ge_cases a hi); intuition lia. }
  setoid_rewrite HE. rewrite Hmid. unfold prot_at. split.
  - intros (q & [[? ->]|[[? ->]|[? ->]]] & ->); case_decide; try lia; [done|done|]. apply Htail. lia.
  - intros ->. case_decide as Hin.
    + exists (set_mprot P (at_addr c a)). split; [tauto|done].
    + destruct (Z.lt_ge_cases a lo).
      * exists (at_addr c a). split; [tauto|done].
      * exists (at_addr tail a). split; [right; right; split; [lia|done]|]. symmetry. apply Htail. lia.
Qed.

Lemma protect_entry off C k c lo hi P toff :
  wf C -> C !! k = Some c -> k <= lo -> lo < hi -> hi <= k + c_length c ->
  (off = true -> hi < k + c_length c -> toff = u64 (u64 (c_offset c - k) + hi)) ->
  wf (ins (reprot c lo hi P toff) (delete k C)) /\
  protected off C lo hi P (ins (reprot c lo hi P toff) (delete k C)).
Proof.
  intros Hw Hk Hlo Hlt Hhi Ht. pose proof (wf_entry _ Hw _ _ Hk) as Hok. pose proof Hok as (Hb & _).
  subst k. destruct (carve_spec C (c_base c) c (reprot c lo hi P toff)) as [Hw' Hm];
    [done|done|by apply reprot_ok|]. split; [done|]. intros a p. unfold sees. setoid_rewrite Hm.
  pose proof (reprot_maps off c lo hi P toff a Hlo Hlt Hhi Ht) as Hp.
  destruct (decide (c_base c <= a < c_base c + c_length c)) as [Hc|Hc].
  - specialize (Hp Hc p). split.
    + intros (q & [Hq|[_ Hq]] & ->); [|done]. exists (look off (at_addr c a)). split.
      * exists (at_addr c a). split; [by eapply maps_here|done].
      * apply Hp. eauto.
    + intros (q & (q0 & Hq & ->) & ->). apply (maps_here C (c_base c) c a q0) in Hq as ->; [|done..].
      destruct (proj2 Hp eq_refl) as (q & Hq & ->). eauto.
  - assert (Hno : forall q, ~ Exists (fun '(k, c') => covers k c' a /\ q = at_addr c' a) (reprot c lo hi P toff)).
    { intros q. unfold reprot. destruct (Z.ltb_spec (c_base c) lo), (Z.ltb_spec hi (c_base c + c_length c));
        cbn [app]; rewrite ?Exists_cons, ?Exists_nil; unfold covers; cbn [c_length]; intuition lia. }
    unfold prot_at. split.
    + intros (q & [Hq|[Hq _]] & ->); [by apply Hno in Hq|]. exists (look off q). split; [by exists q|].
      case_decide; [lia|done].
    + intros (q & (q0 & Hq & ->) & ->). exists q0. case_decide; [lia|]. split; [by right|done].
Qed.

(** ** The steps *)

(** The bookkeeping of a step: represented lists, the same resources and memo. *)
Record relisted (vt : VMATracking) (ch : gmap Z (list Z)) (vt' : VMATracking) (ch' : gmap Z (list Z)) : Prop :=
  mk_relisted {
    rl_rep : rep vt' ch';
    rl_dom : forall r, is_Some (ch !! r) -> is_Some (ch' !! r);
    rl_full : full None ch -> full None ch';
    rl_res : resources vt' = resources vt;
    rl_memo : memo_after 0 vt vt';
  }.

Lemma relisted_refl vt ch : rep vt ch -> relisted vt ch vt ch.
Proof. by split. Qed.

Lemma relisted_trans vt ch vt1 ch1 vt2 ch2 :
  relisted vt ch vt1 ch1 -> relisted vt1 ch1 vt2 ch2 -> relisted vt ch vt2 ch2.
Proof.
  intros [A1 A2 A3 A4 [A5 A6]] [B1 B2 B3 B4 [B5 B6]]. cbn in *.
  split; [done|by auto|by auto|congruence|split; cbn; congruence].
Qed.

Lemma SplitOff_spec asserts vt ch k e NewBase NewOffset NewLength P :
  rep vt ch -> VMAs vt !! k = Some e -> VMAs vt !! NewBase = None ->
  exists vt' ch', SplitOff asserts vt k NewBase NewOffset NewLength P = Some vt' /\
    relisted vt ch vt' ch' /\
    cores vt' = <[NewBase := mkCore (Resource e) NewBase NewOffset NewLength (Flags e) P]> (cores vt) /\
    (k < NewBase -> (forall x, is_Some (VMAs vt !! x) -> k < x -> NewBase < x) -> sorted ch -> sorted ch').
Proof.
  intros Hrep He Hnew. unfold SplitOff. rewrite He. cbn. unfold emplace. rewrite Hnew. cbn.
  destruct (split_behind asserts vt ch k e NewBase
    (mkVMA (Resource e) (Some k) (ResourceNextVMA e) NewBase NewOffset NewLength (Flags e) P))
    as (vt' & ch' & -> & Hrep' & (Hc & Hr & Hg & Hm)%unlisted_eq & Hd & Hf & Hs); [done..|].
  exists vt', ch'. split_and!; [done|by split; auto|rewrite Hc; unfold cores; cbn; by rewrite fmap_insert|done].
Qed.

(** Trimming an entry or changing its protection. *)
Lemma update_spec vt ch k e f :
  rep vt ch -> VMAs vt !! k = Some e -> Resource (f e) = Resource e ->
  ResourcePrevVMA (f e) = ResourcePrevVMA e -> ResourceNextVMA (f e) = ResourceNextVMA e ->
  exists vt', update_entry vt k f = Some vt' /\ relisted vt ch vt' ch /\
    VMAs vt' = <[k := f e]> (VMAs vt) /\ cores vt' = <[k := core (f e)]> (cores vt).
Proof.
  intros Hrep He Hr Hp Hn. eexists. split_and!; [by apply update_entry_run| |done|].
  - split; [|done..]. by eapply rep_set_entry.
  - unfold cores. cbn. by rewrite fmap_insert.
Qed.

(** The entry found from the end of a fully mapped range ends no earlier than the range. *)
Lemma mapped_pred vt ch RBase Top :
  inv vt ch -> RBase < Top -> (forall a, RBase <= a < Top -> exists p, maps (cores vt) a p) ->
  exists k e, pred_key (VMAs vt) Top = Some k /\ VMAs vt !! k = Some e /\ k < Top <= k + Length e.
Proof.
  intros Hinv Hlt Hmap. pose proof Hinv as [_ Hw].
  destruct (Hmap (Top - 1) ltac:(lia)) as (p & k0 & c0 & H0 & Hc & _). unfold covers in Hc.
  apply cores_Some in H0 as (e0 & He0 & ->). cbn in Hc.
  destruct (pred_key (VMAs vt) Top) as [k|] eqn:Hk.
  - apply pred_key_Some in Hk as ([e He] & Hlt' & Hmax). exists k, e. split_and!; [done|done|done|].
    pose proof (Hmax k0 ltac:(eauto) ltac:(lia)).
    destruct (decide (k0 = k)) as [->|]; [simplify_eq; lia|].
    pose proof (inv_next _ _ _ _ k Hinv He0 ltac:(eauto) ltac:(lia)). lia.
  - pose proof (pred_key_None _ _ k0 Hk ltac:(eauto)). lia.
Qed.

(** One iteration of the loop: the entry starts inside the range. *)
Lemma ProtectStep_spec asserts off vt ch k e Top P :
  inv vt ch -> VMAs vt !! k = Some e -> k < Top <= k + Length e -> (off = true -> k + Length e <= Top) ->
  exists vt' ch', ProtectStep asserts vt k Top P = Some vt' /\ relisted vt ch vt' ch' /\
    wf (cores vt') /\ protected off (cores vt) k Top P (cores vt') /\ (sorted ch -> sorted ch') /\
    (exists e', VMAs vt' !! k = Some e') /\
    (forall x, x < k -> is_Some (VMAs vt' !! x) -> is_Some (VMAs vt !! x)).
Proof.
  intros Hinv He Hk Hoff. pose proof Hinv as [Hrep Hw].
  destruct (inv_entry _ _ _ _ Hinv He) as (Hc & Hb & ? & ? & ?).
  unfold ProtectStep. rewrite He. cbn. rewrite Hb. usmall.
  set (toff := u64 (u64 (Offset e - k) + k)).
  destruct (protect_entry off (cores vt) k (core e) k Top P toff) as [Hw' Hp];
    [done|done|lia|lia|cbn; lia|cbn; intros Hx ?; specialize (Hoff Hx); lia|].
  unfold reprot in Hw', Hp. cbn in Hw', Hp. rewrite Hb in Hw', Hp.
  destruct (Z.ltb_spec k k); [lia|]. cbn in Hw', Hp. destruct (Z.ltb_spec Top (k + Length e)) as [Ht|Ht].
  - destruct (SplitOff_spec asserts vt ch k e Top toff (k + Length e - Top) (Prot e))
      as (vt1 & ch1 & -> & Hr1 & Hc1 & Hs1); [done|done|eapply inv_inside; [done|done|lia]|]. cbn.
    assert (exists e1, VMAs vt1 !! k = Some e1 /\ core e1 = core e) as (e1 & He1 & Hce1).
    { assert (cores vt1 !! k = Some (core e)) as (e1 & ? & ?)%cores_Some; [|eauto].
      rewrite Hc1, lookup_insert_ne by lia. done. }
    destruct (update_spec vt1 ch1 k e1 (fun e' => set_Length (Top - k) (set_Prot P e')))
      as (vt2 & Hrun & Hr2 & Hv2 & Hc2); [apply Hr1|done..|].
    exists vt2, ch1. rewrite Hrun.
    assert (E : cores vt2 = <[k := mkCore (Resource e) k (Offset e) (Top - k) (Flags e) P]>
        (<[Top := mkCore (Resource e) Top toff (k + Length e - Top) (Flags e) (Prot e)]> (delete k (cores vt)))).
    { rewrite Hc2, Hc1. unfold core in *. cbn. injection Hce1 as E1 E2 E3 _ E5 _. rewrite E1, E2, E3, E5, Hb.
      by rewrite !(insert_insert_ne _ k Top), insert_delete_eq by lia. }
    rewrite E. split_and!; try done; [by eapply relisted_trans| | |].
    + intros Hs. apply Hs1; [lia| |done]. intros x Hx Hkx. pose proof (inv_next _ _ _ _ x Hinv He Hx Hkx). lia.
    + rewrite Hv2, lookup_insert_eq. eauto.
    + intros x Hx Hsx. apply cores_is_Some. rewrite <- cores_is_Some, E in Hsx.
      rewrite !lookup_insert_ne, lookup_delete_ne in Hsx by lia. done.
  - cbn. destruct (update_spec vt ch k e (fun e' => set_Length (Top - k) (set_Prot P e')))
      as (vt2 & Hrun & Hr2 & Hv2 & Hc2); [done..|].
    exists vt2, ch. rewrite Hrun.
    assert (E : cores vt2 = <[k := mkCore (Resource e) k (Offset e) (Top - k) (Flags e) P]> (delete k (cores vt))).
    { rewrite Hc2, insert_delete_eq. unfold core. cbn. by rewrite Hb. }
    rewrite E. split_and!; try done; rewrite Hv2.
    + rewrite lookup_insert_eq. eauto.
    + intros x Hx. by rewrite lookup_insert_ne by lia.
Qed.

(** The loop stops at the entry that contains the start of the range. *)
Lemma ProtectLoop_spec asserts off fuel : forall vt ch RBase Top P iter,
  inv vt ch -> 0 <= RBase < Top -> Top < 2 ^ 64 -> iter = None \/ iter = Some Top ->
  (below (VMAs vt) Top <= fuel)%nat ->
  (forall a, RBase <= a < Top -> exists p, maps (cores vt) a p) ->
  (off = true -> forall k e, VMAs vt !! k = Some e -> RBase < k < Top -> k + Length e <= Top) ->
  exists vt' ch' Top' k e, ProtectLoop asserts fuel vt RBase Top P iter = Some (vt', Top', Some k) /\
    relisted vt ch vt' ch' /\ wf (cores vt') /\ protected off (cores vt) Top' Top P (cores vt') /\
    (sorted ch -> sorted ch') /\ VMAs vt' !! k = Some e /\ k <= RBase < Top' /\ Top' <= k + Length e /\ Top' <= Top.
Proof.
  induction fuel as [|fuel IH]; intros vt ch RBase Top P iter Hinv H0 HT Hiter Hfuel Hmap Hoff;
    pose proof Hinv as [Hrep Hw];
    destruct (mapped_pred vt ch RBase Top Hinv ltac:(lia) Hmap) as (k & e & Hk & He & Hkt);
    destruct (inv_entry _ _ _ _ Hinv He) as (Hc & Hb & ? & ? & ?); cbn [ProtectLoop];
    replace (match iter with Some k => k | None => Top end) with Top by (by destruct Hiter; subst);
    rewrite Hk, He; cbn [mbind option_bind]; rewrite Hb; usmall;
    (destruct (Z.leb_spec k RBase) as [Hle|Hgt];
     [exists vt, ch, Top, k, e; split_and!; try done; [apply protected_none|lia..]|]);
    (destruct (Z.ltb_spec (k + Length e) Top); [lia|]); cbn [orb].
  - pose proof (below_pred (VMAs vt) (VMAs vt) Top k ltac:(eauto) ltac:(lia) ltac:(auto)). lia.
  - destruct (ProtectStep_spec asserts off vt ch k e Top P)
      as (vt1 & ch1 & -> & Hr1 & Hw1 & Hp1 & Hs1 & [e1 He1] & Hd1); [done|done|lia|by intros; eauto with lia|].
    cbn [mbind option_bind]. usmall. replace (RBase + (k - RBase)) with k by lia.
    assert (Hinv1 : inv vt1 ch1) by (split; [apply Hr1|done]).
    destruct (IH vt1 ch1 RBase k P (Some k)) as (vt' & ch' & Top' & k' & e' & Hrun & Hr & Hw' & Hp & Hs & He' & ? & ? & ?);
      [done|lia|lia|by right| | | |].
    + pose proof (below_pred (VMAs vt) (VMAs vt1) Top k ltac:(eauto) ltac:(lia) Hd1). lia.
    + intros a Ha. apply (protected_mapped _ _ _ _ _ _ a Hp1), Hmap. lia.
    + intros _ x ex Hx Hxk. eapply (inv_next vt1 ch1); [done|done|eauto|lia].
    + exists vt', ch', Top', k', e'. split_and!; try done; [by eapply relisted_trans| |by auto|lia..].
      apply (protected_trans _ _ Top' k Top _ (cores vt1)); [lia|done|done].
Qed.

Lemma protected_look C lo hi P C' off : protected true C lo hi P C' -> protected off C lo hi P C'.
Proof.
  destruct off; [done|]. intros H a p. split.
  - intros (q & Hq & ->). destruct (proj1 (H a q)) as (q0 & (q1 & Hq1 & ->) & ->); [by exists q|].
    exists (look false q1). split; [by exists q1|]. unfold prot_at. by case_decide.
  - intros (q & (q0 & Hq & ->) & ->).
    destruct (proj2 (H a (prot_at lo hi P a q0))) as (q1 & Hq1 & E); [exists q0; split; [by exists q0|done]|].
    exists q1. split; [done|]. cbn in E. rewrite <- E. unfold prot_at. by case_decide.
Qed.

Lemma cores_None vt k : cores vt !! k = None -> VMAs vt !! k = None.
Proof. rewrite cores_lookup. apply fmap_None. Qed.

(** Trim the entry, or trim and re-protect it, then split its tail off. *)
Lemma trim_split asserts vt ch k e f NewBase NewOffset NewLength P :
  rep vt ch -> VMAs vt !! k = Some e -> VMAs vt !! NewBase = None ->
  Resource (f e) = Resource e -> ResourcePrevVMA (f e) = ResourcePrevVMA e ->
  ResourceNextVMA (f e) = ResourceNextVMA e -> Flags (f e) = Flags e ->
  exists vt1 vt' ch', update_entry vt k f = Some vt1 /\
    SplitOff asserts vt1 k NewBase NewOffset NewLength P = Some vt' /\ relisted vt ch vt' ch' /\
    cores vt' = <[NewBase := mkCore (Resource e) NewBase NewOffset NewLength (Flags e) P]>
                  (<[k := core (f e)]> (cores vt)) /\
    (k < NewBase -> (forall x, is_Some (VMAs vt !! x) -> k < x -> NewBase < x) -> sorted ch -> sorted ch').
Proof.
  intros Hrep He Hnew Hr Hp Hn Hf. assert (k <> NewBase) by congruence.
  destruct (update_spec vt ch k e f) as (vt1 & H1 & Hr1 & Hv1 & Hc1); [done..|].
  destruct (SplitOff_spec asserts vt1 ch k (f e) NewBase NewOffset NewLength P)
    as (vt' & ch' & H2 & Hr2 & Hc2 & Hs2);
    [apply Hr1|by rewrite Hv1, lookup_insert_eq|by rewrite Hv1, lookup_insert_ne|].
  exists vt1, vt', ch'. split_and!; [done|done|by eapply relisted_trans| |].
  - by rewrite Hc2, Hc1, Hr, Hf.
  - intros Hlt Hnext. apply Hs2; [done|]. intros x Hx Hkx. apply Hnext; [|done].
    rewrite Hv1, lookup_insert_ne in Hx by lia. done.
Qed.

Lemma core_Some vt k c :
  cores vt !! k = Some c -> exists e, VMAs vt !! k = Some e /\ Resource e = c_res c /\ Flags e = c_flags c.
Proof. intros (e & He & ->)%cores_Some. by exists e. Qed.

(** What the last entry becomes. *)
Definition last_ok (vt : VMATracking) (ch : gmap Z (list Z)) (k : Z) (e : VMAEntry) (RBase Top : Z)
    (P : VMAProt) (vt' : VMATracking) (ch' : gmap Z (list Z)) : Prop :=
  relisted vt ch vt' ch' /\
  cores vt' = ins (reprot (core e) RBase Top P (u64 (u64 (Offset e - k) + Top))) (delete k (cores vt)) /\
  (k = RBase \/ k + Length e = Top -> sorted ch -> sorted ch').

(** Strategies 1 and 2: the entry starts where the range does. *)
Lemma ProtectLast_base asserts vt ch k e Top P :
  inv vt ch -> VMAs vt !! k = Some e -> k < Top <= k + Length e ->
  exists vt' ch', ProtectLast asserts vt k k Top P = Some vt' /\ last_ok vt ch k e k Top P vt' ch'.
Proof.
  intros Hinv He Hte. pose proof Hinv as [Hrep Hw].
  destruct (inv_entry _ _ _ _ Hinv He) as (Hc & Hb & ? & ? & ?).
  unfold ProtectLast, last_ok, reprot. rewrite He. cbn. rewrite Hb. usmall.
  set (toff := u64 (u64 (Offset e - k) + Top)).
  destruct (Z.leb_spec (k + Length e) k); [lia|]. destruct (Z.ltb_spec k k); [lia|].
  destruct (Z.eqb_spec k k); [|lia]. destruct (Z.eqb_spec (k + Length e) Top) as [<-|Hne]; cbn [andb app].
  - destruct (Z.ltb_spec (k + Length e) (k + Length e)); [lia|].
    destruct (update_spec vt ch k e (set_Prot P)) as (vt1 & -> & Hr1 & _ & Hc1); [done..|].
    exists vt1, ch. cbn [ins foldr]. rewrite insert_delete_eq, Hc1. unfold core. cbn. rewrite Hb.
    by replace (k + Length e - k) with (Length e) by lia.
  - destruct (Z.ltb_spec Top (k + Length e)); [|lia]. usmall.
    destruct (trim_split asserts vt ch k e (fun e => set_Length (Top - k) (set_Prot P e))
                Top toff (k + Length e - Top) (Prot e)) as (vt1 & vt2 & ch2 & -> & Hs & Hr2 & Hc2 & Hsort);
      [done|done|eapply inv_inside; [done|done|lia]|done..|]. cbn. exists vt2, ch2. rewrite Hs.
    rewrite insert_insert_ne, insert_delete_eq, Hc2 by lia. unfold core. cbn. rewrite Hb.
    split_and!; try done. intros _. apply Hsort; [lia|]. intros x Hx Hkx.
    pose proof (inv_next _ _ _ _ x Hinv He Hx Hkx). lia.
Qed.

(** Strategy 3: the entry starts before the range. *)
Lemma ProtectLast_inner asserts vt ch k e RBase Top P :
  inv vt ch -> VMAs vt !! k = Some e -> k < RBase < Top -> Top <= k + Length e ->
  exists vt' ch', ProtectLast asserts vt k RBase Top P = Some vt' /\ last_ok vt ch k e RBase Top P vt' ch'.
Proof.
  intros Hinv He Hk Hte. pose proof Hinv as [Hrep Hw].
  destruct (inv_entry _ _ _ _ Hinv He) as (Hc & Hb & ? & ? & ?).
  assert (Hno : forall x, k < x < k + Length e -> VMAs vt !! x = None) by (intros; by eapply inv_inside).
  unfold ProtectLast, last_ok, reprot. rewrite He. cbn. rewrite Hb. usmall.
  set (toff := u64 (u64 (Offset e - k) + Top)).
  destruct (Z.leb_spec (k + Length e) RBase); [lia|]. destruct (Z.eqb_spec k RBase); [lia|].
  destruct (Z.ltb_spec k RBase); [|lia]. destruct (Z.leb_spec Top (k + Length e)); [|lia]. cbn [andb]. usmall.
  destruct (trim_split asserts vt ch k e (set_Length (RBase - k)) RBase
              (u64 (u64 (Offset e - k) + RBase)) (Top - RBase) P) as (vt1 & vt2 & ch2 & -> & Hs & Hr2 & Hc2 & Hsort);
    [done|done|apply Hno; lia|done..|]. cbn. rewrite Hs. cbn [mbind option_bind].
  destruct (Z.ltb_spec Top (k + Length e)) as [Ht|Ht]; cbn [app ins foldr].
  - usmall. destruct (core_Some vt2 k (core (set_Length (RBase - k) e))) as (e2 & He2 & Hre & Hfe).
    { rewrite Hc2, lookup_insert_ne by lia. apply lookup_insert_eq. }
    destruct (SplitOff_spec asserts vt2 ch2 k e2 Top toff (k + Length e - Top) (Prot e))
      as (vt' & ch' & -> & Hr' & Hc' & _); [apply Hr2|done| |].
    { apply cores_None. rewrite Hc2, !lookup_insert_ne by lia. rewrite cores_lookup, Hno by lia. done. }
    exists vt', ch'. split_and!; [done|by eapply relisted_trans| |intros [?|?]; lia].
    rewrite Hc', Hc2, Hre, Hfe. unfold core. cbn. rewrite Hb.
    rewrite (insert_insert_ne _ k RBase), (insert_insert_ne _ k Top), insert_delete_eq by lia.
    by rewrite (insert_insert_ne _ RBase Top) by lia.
  - exists vt2, ch2. rewrite insert_insert_ne, insert_delete_eq, Hc2 by lia. unfold core. cbn. rewrite Hb.
    split_and!; try done. intros _. apply Hsort; [lia|]. intros x Hx Hkx.
    pose proof (inv_next _ _ _ _ x Hinv He Hx Hkx). lia.
Qed.

Lemma ProtectLast_spec asserts vt ch k e RBase Top P :
  inv vt ch -> VMAs vt !! k = Some e -> k <= RBase < Top -> Top <= k + Length e ->
  exists vt' ch', ProtectLast asserts vt k RBase Top P = Some vt' /\ relisted vt ch vt' ch' /\
    wf (cores vt') /\ protected true (cores vt) RBase Top P (cores vt') /\
    (k = RBase \/ k + Length e = Top -> sorted ch -> sorted ch').
Proof.
  intros Hinv He Hk Hte. pose proof Hinv as [Hrep Hw].
  destruct (inv_entry _ _ _ _ Hinv He) as (Hc & Hb & ? & ? & ?).
  assert (exists vt' ch', ProtectLast asserts vt k RBase Top P = Some vt' /\ last_ok vt ch k e RBase Top P vt' ch')
    as (vt' & ch' & Hrun & Hr & Hcs & Hs).
  { destruct (decide (k = RBase)) as [<-|]; [by apply ProtectLast_base; [| |lia]|].
    apply ProtectLast_inner; [done|done|lia|lia]. }
  destruct (protect_entry true (cores vt) k (core e) RBase Top P (u64 (u64 (Offset e - k) + Top))) as [Hw' Hp];
    [done|done|lia|lia|cbn; lia|done|]. rewrite <- Hcs in Hw', Hp. by exists vt', ch'.
Qed.

(** ** The operation *)

Lemma protect_range asserts off vt ch RBase RLength P :
  inv vt ch -> 0 <= RBase -> 0 < RLength -> RBase + RLength < 2 ^ 64 ->
  (forall a, RBase <= a < RBase + RLength -> exists p, maps (cores vt) a p) ->
  (off = true -> forall k e, VMAs vt !! k = Some e -> RBase < k < RBase + RLength ->
     k + Length e <= RBase + RLength) ->
  exists vt' ch', ChangeProtectionFlags asserts vt RBase RLength P = Some vt' /\ inv vt' ch' /\
    protected off (cores vt) RBase (RBase + RLength) P (cores vt') /\
    (forall r, is_Some (ch !! r) -> is_Some (ch' !! r)) /\ (full None ch -> full None ch') /\
    resources vt' = resources vt /\ memo_after 1 vt vt'.
Proof.
  intros Hinv H0 H1 H2 Hmap Hoff. unfold ChangeProtectionFlags.
  destruct (Z.eqb_spec RLength 0); [lia|]. usmall.
  destruct (ProtectLoop_spec asserts off (size (VMAs (BumpGeneration vt))) (BumpGeneration vt) ch RBase
              (RBase + RLength) P None)
    as (vt1 & ch1 & Top' & k & e & -> & Hr1 & Hw1 & Hp1 & Hs1 & He & Hk & ? & ?);
    [by apply inv_Bump|lia|lia|by left|apply below_le|by rewrite cores_Bump|
     unfold BumpGeneration; by destruct (_ =? 0)|].
  cbn [mbind option_bind]. assert (Hinv1 : inv vt1 ch1) by (split; [apply Hr1|done]).
  destruct (ProtectLast_spec asserts vt1 ch1 k e RBase Top' P)
    as (vt' & ch' & -> & Hr2 & Hw2 & Hp2 & Hs2); [done|done|lia|lia|].
  exists vt', ch'. destruct (relisted_trans _ _ _ _ _ _ Hr1 Hr2) as [R1 R2 R3 R4 R5].
  rewrite resources_Bump in R4. rewrite cores_Bump in Hp1. split_and!; try done.
  apply (protected_trans _ _ RBase Top' (RBase + RLength) _ (cores vt1)); [lia|done|by apply protected_look].
Qed.
