(* ===== verification/VMAShm.v ===== *)
(** * VMA tracking: detaching shared memory segments

    The search of [DeleteSHMRegion] and its removal loop. *)

From stdpp Require Import sorting.
From S2P Require Import Prelude VMA VMALists VMASpec VMAProps.
Import VMA.

(** The number of entries from [x] on. *)
Definition above {T} (m : gmap Z T) (x : Z) : nat := size (filter (fun k => x <= k) (dom m)).

Lemma above_le {T} (m : gmap Z T) x : (above m x <= size m)%nat.
Proof. rewrite <- size_dom. apply subseteq_size. set_solver. Qed.

Lemma above_next {T} (m m' : gmap Z T) x x' k :
  is_Some (m !! k) -> x <= k -> k < x' -> (forall k', k < k' -> is_Some (m' !! k') -> is_Some (m !! k')) ->
  (above m' x' < above m x)%nat.
Proof.
  intros Hk Hx Hx' Hsame. apply subset_size. split.
  - intros y [Hy Hyd]%elem_of_filter. apply elem_of_filter. rewrite !elem_of_dom in *.
    split; [lia|]. apply Hsame; [lia|done].
  - intros Hsub. assert (k ∈ filter (fun k' => x' <= k') (dom m')) as [? _]%elem_of_filter; [|lia].
    apply Hsub, elem_of_filter. by rewrite elem_of_dom.
Qed.

(** The entry maps the start of an shm segment attached at [RBase]. *)
Definition shm_at (vt : VMATracking) (RBase : Z) (k r : Z) (L : Z) : Prop :=
  exists e res, VMAs vt !! k = Some e /\ Resource e = Some r /\ MappedResources vt !! r = Some res /\
    dev (mrid res) = SpecialDev_SHM /\ ResourceLength res = L /\ k - RBase = Offset e.

Lemma rep_resource vt ch k e r :
  rep vt ch -> VMAs vt !! k = Some e -> Resource e = Some r -> exists res, MappedResources vt !! r = Some res.
Proof.
  intros (H1 & _ & _ & H4) He Hr. destruct (H4 _ _ _ He Hr) as (l & Hl & _).
  destruct (proj1 (H1 r) ltac:(eauto)) as [res ?]. eauto.
Qed.

Lemma FindSHM_spec asserts fuel : forall vt ch RBase cur,
  inv vt ch -> 0 <= RBase -> RBase <= cur -> (above (VMAs vt) cur <= fuel)%nat ->
  exists found, FindSHM asserts fuel vt RBase cur = Some found /\
    match found with
    | Some k => cur <= k /\ (exists r L, shm_at vt RBase k r L) /\
                forall k' r L, cur <= k' -> shm_at vt RBase k' r L -> k <= k'
    | None => forall k r L, cur <= k -> ~ shm_at vt RBase k r L
    end.
Proof.
  induction fuel as [|fuel IH]; intros vt ch RBase cur Hinv H0 Hcur Hf; cbn [FindSHM];
    (destruct (lower_bound (VMAs vt) cur) as [k|] eqn:Hk;
     [apply lower_bound_Some in Hk as ([e He] & Hle & Hmin)|
      exists None; split; [done|]; intros k r L Hk' (e & res & He & _);
      pose proof (lower_bound_None _ _ k Hk ltac:(eauto)); lia]).
  - pose proof (above_next (VMAs vt) (VMAs vt) cur (k + 1) k ltac:(eauto) Hle ltac:(lia) ltac:(auto)). lia.
  - destruct (inv_entry _ _ _ _ Hinv He) as (_ & Hb & ? & ? & ?). rewrite He. cbn [mbind option_bind].
    rewrite Hb. rewrite LOGMAN_true by (apply Z.leb_le; lia). cbn [mbind option_bind]. usmall.
    assert (Hskip : (forall r L, ~ shm_at vt RBase k r L) -> exists found,
      FindSHM asserts fuel vt RBase (k + 1) = Some found /\
      match found with
      | Some k => cur <= k /\ (exists r L, shm_at vt RBase k r L) /\
                  forall k' r L, cur <= k' -> shm_at vt RBase k' r L -> k <= k'
      | None => forall k r L, cur <= k -> ~ shm_at vt RBase k r L
      end).
    { intros Hno. pose proof (above_next (VMAs vt) (VMAs vt) cur (k + 1) k ltac:(eauto) Hle ltac:(lia) ltac:(auto)).
      destruct (IH vt ch RBase (k + 1)) as (found & Hrun & Hfound); [done|lia|lia|lia|].
      assert (Hjump : forall k' r L, cur <= k' -> shm_at vt RBase k' r L -> k + 1 <= k').
      { intros k' r L Hk' Hs. pose proof Hs as (e' & ? & He' & _).
        pose proof (Hmin k' ltac:(eauto) Hk'). destruct (decide (k' = k)) as [->|]; [by apply Hno in Hs|lia]. }
      exists found. split; [done|]. destruct found as [k'|].
      - destruct Hfound as (? & ? & Hm). split_and!; [lia|done|]. eauto.
      - intros k' r L Hk' Hs. by eapply Hfound, Hs; eapply Hjump. }
    destruct (Resource e) as [r|] eqn:Hr; [destruct (Z.eqb_spec (k - RBase) (Offset e)) as [Ho|Ho]|].
    + destruct (rep_resource vt ch k e r ltac:(apply Hinv) He Hr) as [res Hres]. rewrite Hres.
      cbn [mbind option_bind]. destruct (Z.eqb_spec (dev (mrid res)) SpecialDev_SHM) as [Hd|Hd].
      * exists (Some k). split; [done|]. split_and!; [done|exists r, (ResourceLength res), e, res; done|].
        intros k' r' L' Hk' (e' & ? & He' & _). apply Hmin; eauto.
      * apply Hskip. intros r' L' (e' & res' & ? & ? & ? & ? & _). simplify_eq.
    + apply Hskip. intros r' L' (e' & res' & ? & ? & ? & ? & ? & ?). simplify_eq.
    + apply Hskip. intros r' L' (e' & res' & ? & ? & _). simplify_eq.
Qed.

(** ** The removal loop *)

(** The entry of the segment's resource that the loop from [k] removes. *)
Definition detached (r RBase L k : Z) (x : Z) (c : Core) : Prop :=
  c_res c = Some r /\ k <= x /\ (x = k \/ x + c_length c - RBase <= L).

(** One iteration's removal, as in [DeleteVMARange] without a preserved resource. *)
Lemma detach_entry asserts vt ch k e r :
  inv vt ch -> VMAs vt !! k = Some e ->
  exists vt' ch',
    (if ptr_eqb (Resource e) (Some r) then
       rm ← ListRemove asserts vt k;
       let '(vt, empty) := rm in
       Some (erase_vma (if (empty : bool) then erase_resource vt r else vt) k)
     else Some vt) = Some vt' /\ stepped vt ch None vt' ch' /\
    cores vt' = if ptr_eqb (Resource e) (Some r) then delete k (cores vt) else cores vt.
Proof.
  intros Hinv He. unfold ptr_eqb. case_bool_decide as Hr.
  - destruct (delete_whole asserts vt ch None k e Hinv He) as (vt' & ch' & Hrun & Hst & Hc).
    rewrite Hr in Hrun. destruct (ListRemove asserts vt k) as [[vt1 empty]|]; [|done].
    cbn in Hrun |- *. exists (erase_vma vt' k), ch'. split_and!; [|done|done].
    injection Hrun as <-. by destruct empty.
  - exists vt, ch. split_and!; [done|apply stepped_refl, Hinv|done].
Qed.

Lemma DeleteSHMLoop_spec asserts fuel : forall vt ch RBase L r k e,
  inv vt ch -> 0 <= RBase <= k -> VMAs vt !! k = Some e -> (above (VMAs vt) k <= fuel)%nat ->
  exists vt' ch', DeleteSHMLoop asserts fuel vt RBase L r k = Some vt' /\ stepped vt ch None vt' ch' /\
    forall x c, cores vt' !! x = Some c <-> cores vt !! x = Some c /\ ~ detached r RBase L k x c.
Proof.
  induction fuel as [|fuel IH]; intros vt ch RBase L r k e Hinv H0 He Hf.
  { pose proof (above_next (VMAs vt) (VMAs vt) k (k + 1) k ltac:(eauto) ltac:(lia) ltac:(lia) ltac:(auto)). lia. }
  cbn [DeleteSHMLoop]. rewrite He. cbn [mbind option_bind].
  destruct (detach_entry asserts vt ch k e r Hinv He) as (vt1 & ch1 & Hrun & Hst & Hc).
  rewrite Hrun. clear Hrun. cbn [mbind option_bind]. pose proof Hinv as [Hrep Hw].
  destruct (inv_entry _ _ _ _ Hinv He) as (Hce & _).
  assert (Hw1 : wf (cores vt1)) by (rewrite Hc; destruct (ptr_eqb _ _); [by apply wf_delete|done]).
  assert (Hinv1 : inv vt1 ch1) by (split; [apply Hst|done]).
  assert (H1 : forall x c, cores vt1 !! x = Some c <->
            cores vt !! x = Some c /\ ~ (c_res c = Some r /\ x = k)).
  { intros x c. rewrite Hc. unfold ptr_eqb. case_bool_decide as Hr.
    - rewrite lookup_delete_Some. split; [intros [? ?]; split; [done|]; intros [_ ->]; done|].
      intros [Hx Hn]. split; [|done]. intros <-. apply Hn. rewrite Hce in Hx. injection Hx as <-. done.
    - split; [|tauto]. intros Hx. split; [done|]. intros [Hcr ->]. rewrite Hce in Hx. injection Hx as <-. done. }
  assert (Hsub : forall x, is_Some (VMAs vt1 !! x) -> is_Some (VMAs vt !! x)).
  { intros x. rewrite <- !cores_is_Some. intros [c [Hx _]%H1]. eauto. }
  assert (Hstop : (forall x c, cores vt1 !! x = Some c -> k < x -> L < x + c_length c - RBase) ->
    forall x c, cores vt1 !! x = Some c <-> cores vt !! x = Some c /\ ~ detached r RBase L k x c).
  { intros Hbig x c. rewrite H1. unfold detached. split; intros [Hx Hn]; split; try done; [|intuition lia].
    intros (Hr & Hkx & [->|Hl]); [tauto|]. destruct (decide (x = k)); [tauto|].
    enough (L < x + c_length c - RBase) by lia. apply Hbig; [|lia]. apply H1. tauto. }
  destruct (lower_bound (VMAs vt1) (k + 1)) as [k'|] eqn:Hk'.
  - apply lower_bound_Some in Hk' as ([e' He'] & Hle & Hmin). rewrite He'. cbn [mbind option_bind].
    destruct (inv_entry _ _ _ _ Hinv1 He') as (Hce' & Hb' & ? & ? & ?). rewrite Hb'. usmall.
    destruct (Z.leb_spec (k' + Length e' - RBase) L) as [Hl|Hl].
    + destruct (IH vt1 ch1 RBase L r k' e') as (vt' & ch' & -> & Hst' & Hc'); [done|lia|done| |].
      { pose proof (above_next (VMAs vt) (VMAs vt1) k k' k ltac:(eauto) ltac:(lia) ltac:(lia) ltac:(auto)). lia. }
      exists vt', ch'. split_and!; [done|by eapply stepped_trans|].
      intros x c. rewrite Hc', H1. unfold detached. split.
      * intros [[Hx Hn] Hn']. split; [done|]. intros (Hr & Hkx & Hd). destruct (decide (x = k)); [tauto|].
        apply Hn'. split_and!; [done| |lia]. apply Hmin; [|lia]. apply cores_is_Some. exists c. apply H1. tauto.
      * intros [Hx Hn]. split_and!; [done|intuition lia|]. intros (Hr & Hkx & Hd). apply Hn.
        split_and!; [done|lia|]. right. destruct Hd as [->|]; [|done].
        assert (cores vt1 !! k' = Some c) as E by (apply H1; split; [done|intuition lia]).
        rewrite Hce' in E. injection E as <-. done.
    + exists vt1, ch1. split_and!; [done|done|]. apply Hstop. intros x c Hx Hkx.
      pose proof (Hmin x ltac:(by eapply cores_is_Some, mk_is_Some) ltac:(lia)).
      destruct (decide (x = k')) as [->|]; [rewrite Hce' in Hx; injection Hx as <-; cbn; lia|].
      pose proof (wf_disjoint _ Hw1 _ _ _ _ Hce' Hx ltac:(lia)) as Hd. cbn in Hd.
      destruct (wf_entry _ Hw1 _ _ Hx) as (_ & _ & ? & _). lia.
  - exists vt1, ch1. split_and!; [done|done|]. apply Hstop. intros x c Hx Hkx.
    pose proof (lower_bound_None _ _ x Hk' ltac:(by eapply cores_is_Some, mk_is_Some)). lia.
Qed.

(** The whole operation: nothing is found, or the first segment that starts in the range goes. *)
Lemma detach_region asserts vt ch RBase :
  inv vt ch -> 0 <= RBase ->
  exists vt' ch' L, DeleteSHMRegion asserts vt RBase = Some (vt', L) /\ inv vt' ch' /\
    (sorted ch -> sorted ch') /\ (full None ch -> full None ch') /\ memo_after 1 vt vt' /\
    resources vt' ⊆ resources vt /\
    ((cores vt' = cores vt /\ L = 0 /\ forall k r L, RBase <= k -> ~ shm_at vt RBase k r L) \/
     exists k r, RBase <= k /\ shm_at vt RBase k r L /\
       (forall k' r' L', RBase <= k' -> shm_at vt RBase k' r' L' -> k <= k') /\
       forall x c, cores vt' !! x = Some c <-> cores vt !! x = Some c /\ ~ detached r RBase L k x c).
Proof.
  intros Hinv H0. unfold DeleteSHMRegion. set (vt1 := BumpGeneration vt).
  assert (Hinv1 : inv vt1 ch) by (by apply inv_Bump).
  assert (Hshm : forall k r L, shm_at vt1 RBase k r L <-> shm_at vt RBase k r L).
  { intros. unfold vt1, BumpGeneration. by destruct (_ =? 0). }
  assert (Hcb : cores vt1 = cores vt) by apply cores_Bump.
  destruct (FindSHM_spec asserts (size (VMAs vt1)) vt1 ch RBase RBase) as (found & -> & Hfound);
    [done|done|lia|apply above_le|]. cbn [mbind option_bind]. destruct found as [k|].
  - destruct Hfound as (Hk & (r & L & Hs) & Hmin). pose proof Hs as (e & res & He & Hr & Hres & _ & HL & _).
    rewrite He. cbn [mbind option_bind]. rewrite Hr. cbn [mbind option_bind]. rewrite Hres.
    cbn [mbind option_bind]. rewrite HL.
    destruct (DeleteSHMLoop_spec asserts (size (VMAs vt1)) vt1 ch RBase L r k e) as (vt' & ch' & -> & Hst & Hc);
      [done|lia|done|apply above_le|]. cbn [mbind option_bind]. exists vt', ch', L.
    destruct Hst as [S1 S2 S3 S4 S5 S6 S7]. unfold vt1 in S5. rewrite resources_Bump in S5.
    rewrite Hcb in Hc. destruct Hinv1 as [_ Hw1]. rewrite Hcb in Hw1. split_and!; try done.
    + split; [done|]. split.
      * intros x c [Hx _]%Hc. by apply (wf_entry _ Hw1).
      * intros k1 c1 k2 c2 [Hx1 _]%Hc [Hx2 _]%Hc. by eapply (wf_disjoint _ Hw1).
    + right. exists k, r. setoid_rewrite <- Hshm. split_and!; [lia|done|done|done].
  - exists vt1, ch, 0. split_and!; try done; [by unfold vt1; rewrite resources_Bump|].
    left. by setoid_rewrite <- Hshm.
Qed.
