(* ===== verification/VMATrack.v ===== *)
(** * Memory system calls: the tracking of their effect

    The [Track*] functions of Source/Tools/LinuxEmulation/LinuxSyscalls/SyscallsSMCTracking.cpp,
    which mirror a system call that succeeded into VMA tracking, and the choice of the resource
    of a file mapping with Source/Common/FileMappingBaseAddress.h.  What the kernel returns for
    a file (its identity, whether it is a regular executable file with a path, its program
    headers as the ELF reader returns them) is an argument. *)

From stdpp Require Import sorting.
From S2P Require Import Prelude VMA.
Import VMA.

Module Track.

Definition FEX_GUEST_PAGE_SIZE : Z := 4096.
Definition FEX_GUEST_PAGE_MASK : Z := u64 (Z.lnot (FEX_GUEST_PAGE_SIZE - 1)).

Definition AlignUp (value size : Z) : Z := u64 (value + u64 (size - value mod size) mod size).
Definition AlignDown (value size : Z) : Z := u64 (value - value mod size).

Abbreviation MAP_ANONYMOUS := 0x20.
Abbreviation MREMAP_DONTUNMAP := 4.
Abbreviation PT_LOAD := 1.
Abbreviation PF_X := 1.
Abbreviation PF_W := 2.
Abbreviation PF_R := 4.

(** ** The base address of a file mapping *)

Definition SegmentStartOffset (phdr : Elf64_Phdr) : Z := u64 (p_offset phdr - (p_vaddr phdr &&& 0xfff)).

(** One iteration of the loop: the base address that the header suggests. *)
Definition InferFromHeader (first : Elf64_Phdr) (Addr FileOffset AccessFlags : Z) (phdr : Elf64_Phdr) :
    option Z :=
  if negb (p_type phdr =? PT_LOAD) then None
  else if negb ((p_flags phdr &&& 7) =? (AccessFlags &&& 7)) then None
  else
    let Start := SegmentStartOffset phdr in
    if (Start <=? FileOffset) && (FileOffset <? u64 (Start + p_filesz phdr)) &&
       ((FileOffset &&& FEX_GUEST_PAGE_MASK) =? (p_offset phdr &&& FEX_GUEST_PAGE_MASK))
    then Some (u64 (Addr - (p_vaddr phdr - (p_offset phdr &&& 0xfff)) +
                    (p_vaddr first - (p_offset first &&& 0xfff)) - (FileOffset - Start)))
    else None.

Definition InferMappingBaseAddress (Headers : list Elf64_Phdr) (Addr Size FileOffset AccessFlags : Z) : list Z :=
  match Headers with
  | [] => []
  | first :: _ => omap (InferFromHeader first Addr FileOffset AccessFlags) Headers
  end.

(** ** Resources *)

#[global] Instance MRID_eq_dec : EqDecision MRID.
Proof. solve_decision. Defined.

(** [FindResources]: the nodes with the given key, in the order of their insertion. *)
Definition FindResources (vt : VMATracking) (id : MRID) : list Z :=
  filter (fun r => mrid <$> MappedResources vt !! r = Some id)
    (merge_sort Z.le (map fst (map_to_list (MappedResources vt)))).

(** [InsertMappedResource]: a node after all others. *)
Definition NewResource (vt : VMATracking) : Z :=
  1 + foldr Z.max 0 (map fst (map_to_list (MappedResources vt))).

Definition InsertMappedResource (vt : VMATracking) (id : MRID) (Len : Z) : VMATracking * Z :=
  let r := NewResource vt in
  (set_Resources (<[r := mkResource id None Len []]> (MappedResources vt)) vt, r).

(** What is known of the mapped file. *)
Record FileInfo := mkFile {
  st_dev : Z;
  st_ino : Z;
  (** It has a path, is a regular file and is executable. *)
  exec_file : bool;
  (** What the ELF reader finds in the mapping of its start. *)
  elf_headers : list Elf64_Phdr;
}.

Section track.
  Context (asserts EnableCodeCaching : bool).

Definition set_ProgramHeaders (vt : VMATracking) (r : Z) (hs : list Elf64_Phdr) : option VMATracking :=
  res ← MappedResources vt !! r;
  Some (set_Resources (<[r := mkResource (mrid res) (FirstVMA res) (ResourceLength res) hs]>
                         (MappedResources vt)) vt).

Definition AccessOf (P : VMAProt) : Z :=
  (if Executable P then PF_X else 0) ||| (if Writable P then PF_W else 0) ||| (if Readable P then PF_R else 0).

(** The [find_if] over the resources of the file: the first whose lowest mapping is at one of
    the bases that the new mapping suggests. *)
Fixpoint FindByBase (vt : VMATracking) (addr Size offset : Z) (P : VMAProt) (rs : list Z) : option (option Z) :=
  match rs with
  | [] => Some None
  | r :: rs =>
      res ← MappedResources vt !! r;
      let ExpectedBases := InferMappingBaseAddress (ProgramHeaders res) addr Size offset (AccessOf P) in
      f ← FirstVMA res;
      e ← VMAs vt !! f;
      if bool_decide (Base e ∈ ExpectedBases) then Some (Some r)
      else FindByBase vt addr Size offset P rs
  end.

(** The resource of a file mapping. *)
Definition FileResource (vt : VMATracking) (addr Size prot offset : Z) (file : FileInfo) :
    option (VMATracking * Z) :=
  let id := mkMRID (st_dev file) (st_ino file) in
  let rs := FindResources vt id in
  MappedELFHeaderAgain ←
    match rs with
    | [] => Some false
    | r :: _ =>
        if offset =? 0 then
          res ← MappedResources vt !! r; Some (negb (bool_decide (ProgramHeaders res = [])))
        else Some false
    end;
  let Inserted := bool_decide (rs = []) || MappedELFHeaderAgain in
  st ← (if (Inserted : bool) then Some (InsertMappedResource vt id 0)
        else r ← head rs; Some (vt, r));
  let '(vt, r) := st in
  if exec_file file then
    if negb ((prot &&& PROT_READ) =? 0) && Inserted then
      if ((offset =? 0) && EnableCodeCaching) || asserts then
        vt ← set_ProgramHeaders vt r (elf_headers file);
        _ ← LOGMAN asserts (bool_decide (elf_headers file = []) || (offset =? 0));
        Some (vt, r)
      else Some (vt, r)
    else
      res ← MappedResources vt !! r;
      if bool_decide (ProgramHeaders res = []) then Some (vt, r)
      else
        found ← FindByBase vt addr Size offset (fromProt prot) rs;
        Some (vt, match found with None => r | Some r' => r' end)
  else Some (vt, r).

(** The tracking part of [TrackMmap]: the next anonymous id is part of the state. *)
Definition TrackMmap (vt : VMATracking) (AnonSharedId : Z) (addr len prot flags : Z)
    (offset : Z) (file : FileInfo) : option (VMATracking * Z) :=
  let Size := AlignUp len FEX_GUEST_PAGE_SIZE in
  st ← (if (flags &&& MAP_ANONYMOUS) =? 0 then
          fr ← FileResource vt addr Size prot offset file;
          let '(vt, r) := fr in Some (vt, Some r, AnonSharedId)
        else if negb ((flags &&& MAP_SHARED) =? 0) then
          let id := mkMRID SpecialDev_Anon AnonSharedId in
          _ ← LOGMAN asserts (bool_decide (FindResources vt id = []));
          let '(vt, r) := InsertMappedResource vt id 0 in
          Some (vt, Some r, u64 (AnonSharedId + 1))
        else Some (vt, None, AnonSharedId));
  let '(vt, Resource, AnonSharedId) := st in
  vt ← TrackVMARange asserts vt Resource addr offset Size (fromFlags flags) (fromProt prot);
  Some (vt, AnonSharedId).

Definition TrackMunmap (vt : VMATracking) (addr len : Z) : option VMATracking :=
  let Size := AlignUp len FEX_GUEST_PAGE_SIZE in
  DeleteVMARange asserts vt addr Size None.

Definition TrackMprotect (vt : VMATracking) (addr len prot : Z) : option VMATracking :=
  let Size := AlignUp len FEX_GUEST_PAGE_SIZE in
  ChangeProtectionFlags asserts vt addr Size (fromProt prot).

Definition TrackMremap (vt : VMATracking) (OldAddress OldSize NewSize flags NewAddress : Z) :
    option VMATracking :=
  let OldSize := AlignUp OldSize FEX_GUEST_PAGE_SIZE in
  let NewSize := AlignUp NewSize FEX_GUEST_PAGE_SIZE in
  OldVMA ← FindVMAEntry vt OldAddress;
  e ← VMAs vt !! OldVMA;
  let OldResource := Resource e in
  let OldOffset := u64 (Offset e + OldAddress - OldVMA) in
  let OldFlags := Flags e in
  let OldProt := Prot e in
  if OldSize =? 0 then
    _ ← LOGMAN asserts (negb (ptr_eqb OldResource None));
    _ ← LOGMAN asserts (Shared OldFlags);
    TrackVMARange asserts vt OldResource NewAddress OldOffset NewSize OldFlags OldProt
  else
    vt ← (if (flags &&& MREMAP_DONTUNMAP) =? 0
          then DeleteVMARange asserts vt OldAddress OldSize OldResource else Some vt);
    TrackVMARange asserts vt OldResource NewAddress OldOffset NewSize OldFlags OldProt.

Definition TrackShmat (vt : VMATracking) (shmid shmaddr shmflg Len : Z) : option VMATracking :=
  let id := mkMRID SpecialDev_SHM (u64 shmid) in
  let '(vt, r) := match FindResources vt id with
                  | [] => InsertMappedResource vt id Len
                  | r :: _ => (vt, r)
                  end in
  TrackVMARange asserts vt (Some r) shmaddr 0 Len (fromFlags MAP_SHARED) (fromSHM shmflg).

Definition TrackShmdt (vt : VMATracking) (shmaddr : Z) : option (VMATracking * Z) :=
  DeleteSHMRegion asserts vt shmaddr.

End track.

End Track.
