(* ===== verification/VMATheorems.v ===== *)
(** * VMA tracking: theorems

    The contract of each operation of VMA tracking, with the findings of its protection
    changes. *)

From stdpp Require Import sorting.
From S2P Require Import Prelude VMA VMALists VMASpec VMAProps VMAProtect VMAShm.
Import VMA.

(** [FindVMAEntry] returns the entry that contains the address, and nothing when no entry
    does. *)
Theorem FindVMAEntry_exact vt ch a k :
  inv vt ch ->
  FindVMAEntry vt a = Some k <-> exists e, VMAs vt !! k = Some e /\ k <= a < k + Length e.
Proof.
  intros Hinv. unfold FindVMAEntry. split.
  - destruct (pred_key (VMAs vt) (a + 1)) as [k0|] eqn:Hk; [|done]. cbn.
    apply pred_key_Some in Hk as ([e He] & ? & _). rewrite He. cbn.
    destruct (inv_entry _ _ _ _ Hinv He) as (_ & _ & ? & ? & ?). usmall.
    destruct (Z.leb_spec k0 a), (Z.ltb_spec a (k0 + Length e)); [|done..].
    intros [= <-]. by exists e.
  - intros (e & He & Ha). destruct (inv_entry _ _ _ _ Hinv He) as (_ & _ & ? & ? & ?).
    destruct (pred_key (VMAs vt) (a + 1)) as [k0|] eqn:Hk; cbn.
    + apply pred_key_Some in Hk as ([e0 He0] & ? & Hmax). pose proof (Hmax k ltac:(eauto) ltac:(lia)).
      destruct (decide (k = k0)) as [->|].
      * rewrite He0. cbn. simplify_eq. usmall.
        destruct (Z.leb_spec k0 a), (Z.ltb_spec a (k0 + Length e)); [done|lia..].
      * pose proof (inv_next _ _ _ _ k0 Hinv He ltac:(eauto) ltac:(lia)). lia.
    + pose proof (pred_key_None _ _ k Hk ltac:(eauto)). lia.
Qed.

(** C30: [DeleteVMARange] fails no assertion and follows no dangling pointer; afterwards the
    range is unmapped and every other address maps what it did, the entries are disjoint and
    the lists of the resources are the entries that map them, in address order if they were. *)
Theorem DeleteVMARange_correct asserts vt ch RBase RLength Preserved :
  inv vt ch -> 0 <= RBase -> 0 <= RLength -> RBase + RLength < 2 ^ 64 ->
  exists vt' ch', DeleteVMARange asserts vt RBase RLength Preserved = Some vt' /\
    inv vt' ch' /\ (sorted ch -> sorted ch') /\
    (forall a p, maps (cores vt') a p <-> maps (cores vt) a p /\ ~ (RBase <= a < RBase + RLength)).
Proof.
  intros Hinv H0 H1 H2.
  destruct (delete_range asserts vt ch RBase RLength Preserved Hinv H0 H1 H2)
    as (vt' & ch' & Hrun & Hinv' & Hun & Hs & _). exists vt', ch'. split_and!; try done.
  intros a p. destruct (decide (RBase <= a < RBase + RLength)) as [Ha|Ha].
  - pose proof (free_unmapped _ _ _ a p (un_free _ _ _ _ Hun) Ha). tauto.
  - rewrite (un_rest _ _ _ _ Hun) by done. tauto.
Qed.

(** C31: [TrackVMARange] maps exactly the range to the given resource, offset, flags and
    protection, replacing what was there, keeps the rest of the address space, the disjointness
    and the lists, and never deletes the resource it maps. *)
Theorem TrackVMARange_correct asserts vt ch Res RBase ROffset RLength F P :
  inv vt ch -> (forall r, Res = Some r -> is_Some (MappedResources vt !! r)) ->
  0 <= RBase -> 0 < RLength -> RBase + RLength < 2 ^ 64 ->
  exists vt' ch', TrackVMARange asserts vt Res RBase ROffset RLength F P = Some vt' /\
    inv vt' ch' /\ (sorted ch -> sorted ch') /\
    (forall r, Res = Some r -> is_Some (MappedResources vt' !! r)) /\
    (forall a p, maps (cores vt') a p <->
       (RBase <= a < RBase + RLength /\ p = mkMapping Res (u64 (ROffset + (a - RBase))) F P) \/
       (~ (RBase <= a < RBase + RLength) /\ maps (cores vt) a p)).
Proof.
  intros Hinv Hres H0 H1 H2. pose proof Hinv as [(R1 & _) _].
  destruct (track_range asserts vt ch Res RBase ROffset RLength F P)
    as (vt' & ch' & Hrun & Hinv' & Hm & Hs & _ & _ & _ & Hd); [done|by intros r Hr; apply R1, Hres|done..|].
  exists vt', ch'. split_and!; try done. intros r Hr. destruct Hinv' as [(R1' & _) _]. by apply R1', Hd.
Qed.

(** C29: on a fully mapped range [ChangeProtectionFlags] reaches none of its fatal errors and
    changes exactly the protection of exactly the range; the offsets of the mappings are kept
    as well ([off = true]) when no mapping that starts inside the range goes on past its end. *)
Theorem ChangeProtectionFlags_correct asserts off vt ch RBase RLength P :
  inv vt ch -> 0 <= RBase -> 0 < RLength -> RBase + RLength < 2 ^ 64 ->
  (forall a, RBase <= a < RBase + RLength -> exists p, maps (cores vt) a p) ->
  (off = true -> forall k e, VMAs vt !! k = Some e -> RBase < k < RBase + RLength ->
     k + Length e <= RBase + RLength) ->
  exists vt' ch', ChangeProtectionFlags asserts vt RBase RLength P = Some vt' /\ inv vt' ch' /\
    protected off (cores vt) RBase (RBase + RLength) P (cores vt').
Proof.
  intros. destruct (protect_range asserts off vt ch RBase RLength P) as (vt' & ch' & ? & ? & ? & _); [done..|].
  by exists vt', ch'.
Qed.

(** [DeleteSHMRegion] finds the first entry from the address on that maps the start of a
    segment attached there, removes the entries of its segment that end within the segment's
    length and nothing else, and returns that length; without such an entry it returns 0 and
    removes nothing. *)
Theorem DeleteSHMRegion_correct asserts vt ch RBase :
  inv vt ch -> 0 <= RBase ->
  exists vt' ch' L, DeleteSHMRegion asserts vt RBase = Some (vt', L) /\ inv vt' ch' /\
    ((cores vt' = cores vt /\ L = 0 /\ forall k r L, RBase <= k -> ~ shm_at vt RBase k r L) \/
     exists k r, RBase <= k /\ shm_at vt RBase k r L /\
       (forall k' r' L', RBase <= k' -> shm_at vt RBase k' r' L' -> k <= k') /\
       forall x c, cores vt' !! x = Some c <-> cores vt !! x = Some c /\ ~ detached r RBase L k x c).
Proof.
  intros Hinv H0. destruct (detach_region asserts vt ch RBase Hinv H0)
    as (vt' & ch' & L & ? & ? & _ & _ & _ & _ & ?). by exists vt', ch', L.
Qed.

(** ** A concrete address space *)

Definition anon_rw : VMAProt := mkProt true true false.
Definition read_only : VMAProt := mkProt true false false.

Definition empty_tracking : VMATracking := mkTracking ∅ ∅ 1 (repeat 0 512).

Lemma inv_empty : inv empty_tracking ∅.
Proof. split; [split_and!|split]; try done; intros; cbn in *; by rewrite ?lookup_empty in *. Qed.

(** One shared file mapped at [0x10000, 0x14000), anonymous memory behind it. *)
Definition sample_entry : VMAEntry :=
  mkVMA (Some 1) None None 0x10000 0x3000 0x4000 (mkFlags true) anon_rw.
Definition sample_anon : VMAEntry :=
  mkVMA None None None 0x14000 0 0x4000 (mkFlags false) anon_rw.
Definition sample_tracking : VMATracking :=
  mkTracking (<[0x10000 := sample_entry]> (<[0x14000 := sample_anon]> ∅))
    {[1 := mkResource (mkMRID SpecialDev_SHM 7) (Some 0x10000) 0x4000 []]} 1 (repeat 0 512).

Lemma inv_sample : inv sample_tracking {[1 := [0x10000]]}.
Proof.
  split; [split_and!|].
  - intros r. cbn. destruct (decide (r = 1)) as [->|]; [by rewrite !lookup_singleton_eq|].
    by rewrite !lookup_singleton_ne.
  - intros r l [<- <-]%lookup_singleton_Some. split; [apply NoDup_singleton|]. cbn. split; [|done].
    exists sample_entry. done.
  - intros r l res [<- <-]%lookup_singleton_Some. cbn. by intros [_ <-]%lookup_singleton_Some.
  - intros k e r. cbn. rewrite !lookup_insert_Some, lookup_empty.
    intros [[<- <-]|[_ [[<- <-]|[_ [=]]]]]; [|done]. intros [= <-]. exists [0x10000]. split; [done|by left].
  - split.
    + intros k c. unfold cores. cbn. rewrite !fmap_insert, fmap_empty, !lookup_insert_Some, lookup_empty.
      intros [[<- <-]|[_ [[<- <-]|[_ [=]]]]]; done.
    + intros k1 c1 k2 c2. unfold cores. cbn. rewrite !fmap_insert, fmap_empty, !lookup_insert_Some, lookup_empty.
      intros [[<- <-]|[_ [[<- <-]|[_ [=]]]]] [[<- <-]|[_ [[<- <-]|[_ [=]]]]]; cbn; lia.
Qed.

Lemma FindVMAEntry_exact_witness : FindVMAEntry sample_tracking 0x15000 = Some 0x14000.
Proof.
  apply (proj2 (FindVMAEntry_exact sample_tracking _ 0x15000 0x14000 inv_sample)).
  exists sample_anon. cbn. split; [done|lia].
Defined.

Lemma DeleteVMARange_correct_witness :
  exists vt' ch', DeleteVMARange true sample_tracking 0x11000 0x4000 None = Some vt' /\ inv vt' ch' /\
    ~ maps (cores vt') 0x12000 (at_addr (core sample_entry) 0x12000).
Proof.
  destruct (DeleteVMARange_correct true sample_tracking _ 0x11000 0x4000 None inv_sample
              ltac:(lia) ltac:(lia) ltac:(lia)) as (vt' & ch' & Hrun & Hinv & _ & Hm).
  exists vt', ch'. split; [exact Hrun|split; [exact Hinv|]]. intros H. apply Hm in H as [_ H]. lia.
Defined.

Lemma sample_resource r : Some 1 = Some r -> is_Some (MappedResources sample_tracking !! r).
Proof. intros [= <-]. by eexists. Qed.

Lemma TrackVMARange_correct_witness :
  exists vt' ch', TrackVMARange true sample_tracking (Some 1) 0x13000 0x8000 0x2000 (mkFlags true) anon_rw
                    = Some vt' /\ inv vt' ch' /\
    maps (cores vt') 0x14000 (mkMapping (Some 1) 0x9000 (mkFlags true) anon_rw).
Proof.
  destruct (TrackVMARange_correct true sample_tracking _ (Some 1) 0x13000 0x8000 0x2000 (mkFlags true) anon_rw
              inv_sample sample_resource ltac:(lia) ltac:(lia) ltac:(lia)) as (vt' & ch' & Hrun & Hinv & _ & _ & Hm).
  exists vt', ch'. split; [exact Hrun|split; [exact Hinv|]]. apply Hm. left. split; [lia|reflexivity].
Defined.

Lemma sample_mapped a : 0x11000 <= a < 0x12000 -> exists p, maps (cores sample_tracking) a p.
Proof.
  intros Ha. eexists _, 0x10000, (core sample_entry). split; [done|]. split; [|done]. unfold covers. cbn. lia.
Qed.

Lemma sample_inside : true = true -> forall k e, VMAs sample_tracking !! k = Some e ->
  0x11000 < k < 0x12000 -> k + Length e <= 0x12000.
Proof.
  intros _ k e. cbn. rewrite !lookup_insert_Some, lookup_empty.
  intros [[<- <-]|[_ [[<- <-]|[_ [=]]]]]; lia.
Qed.

Lemma ChangeProtectionFlags_correct_witness :
  exists vt' ch', ChangeProtectionFlags true sample_tracking 0x11000 0x1000 read_only = Some vt' /\
    inv vt' ch' /\ protected true (cores sample_tracking) 0x11000 0x12000 read_only (cores vt').
Proof.
  exact (ChangeProtectionFlags_correct true true sample_tracking _ 0x11000 0x1000 read_only inv_sample
           ltac:(lia) ltac:(lia) ltac:(lia) sample_mapped sample_inside).
Defined.

Lemma DeleteSHMRegion_correct_witness :
  exists vt' ch' L, DeleteSHMRegion true sample_tracking 0xd000 = Some (vt', L) /\ inv vt' ch'.
Proof.
  destruct (DeleteSHMRegion_correct true sample_tracking _ 0xd000 inv_sample ltac:(lia))
    as (vt' & ch' & L & Hrun & Hinv & _). exists vt', ch', L. split; [exact Hrun|exact Hinv].
Defined.

(** ** Findings of the protection changes *)

(** A second mapping of the file, behind the first. *)
Definition two_mappings : VMATracking :=
  default sample_tracking
    (TrackVMARange true sample_tracking (Some 1) 0x14000 0x8000 0x4000 (mkFlags true) anon_rw).

Lemma inv_two_mappings : exists ch, inv two_mappings ch.
Proof.
  destruct (track_range true sample_tracking _ (Some 1) 0x14000 0x8000 0x4000 (mkFlags true) anon_rw inv_sample)
    as (vt' & ch' & Hrun & Hinv & _); [by intros r [= <-]; eexists|lia..|].
  exists ch'. unfold two_mappings. by rewrite Hrun.
Qed.

(** a protection change that ends inside a mapping that starts inside the range gives the
    tail of that mapping the offset of the mapping's start: the page at 0x16000 mapped the
    file at offset 0xa000 and is tracked at 0x8000 afterwards. *)
Theorem protect_tail_offset_wrong :
  exists ch vt' p p', inv two_mappings ch /\
    ChangeProtectionFlags true two_mappings 0x12000 0x4000 read_only = Some vt' /\
    maps (cores two_mappings) 0x16000 p /\ m_offset p = 0xa000 /\
    maps (cores vt') 0x16000 p' /\ m_offset p' = 0x8000.
Proof.
  destruct inv_two_mappings as [ch Hinv]. exists ch.
  exists (default two_mappings (ChangeProtectionFlags true two_mappings 0x12000 0x4000 read_only)).
  eexists _, _. split_and!; [done|vm_compute; reflexivity|..].
  - exists 0x14000. eexists. split_and!; [vm_compute; reflexivity|done|reflexivity].
  - vm_compute; reflexivity.
  - exists 0x16000. eexists. split_and!; [vm_compute; reflexivity|done|reflexivity].
  - vm_compute; reflexivity.
Qed.

(** A protection change inside one mapping links the tail before the changed part, so the
    list is not ordered by address; after unmapping the first part the resource's [FirstVMA]
    is not its lowest mapping. *)
Theorem protect_unorders_list :
  exists vt1 vt2, ChangeProtectionFlags true sample_tracking 0x11000 0x1000 read_only = Some vt1 /\
    (exists e, VMAs vt1 !! 0x12000 = Some e /\ ResourceNextVMA e = Some 0x11000) /\
    DeleteVMARange true vt1 0x10000 0x1000 None = Some vt2 /\
    FirstVMA <$> MappedResources vt2 !! 1 = Some (Some 0x12000) /\
    (exists e, VMAs vt2 !! 0x11000 = Some e /\ Resource e = Some 1).
Proof.
  eexists (default sample_tracking (ChangeProtectionFlags true sample_tracking 0x11000 0x1000 read_only)).
  eexists (default sample_tracking (DeleteVMARange true
    (default sample_tracking (ChangeProtectionFlags true sample_tracking 0x11000 0x1000 read_only))
    0x10000 0x1000 None)).
  split_and!; try (vm_compute; reflexivity); eexists; (split; vm_compute; reflexivity).
Qed.
