(* ===== verification/VMAMemo.v ===== *)
(** * VMA tracking: the memo of pages that need no marking

    The lock-free table that answers [MarkGuestExecutableRange] for pages known to need no
    work: a hit is always a page recorded for a sample of the live generation. *)

From S2P Require Import Prelude VMA.
Import VMA.

(** ** The encoding *)

Definition page_number (PageBase : Z) : Z := PageBase >>> FEX_GUEST_PAGE_SHIFT.

Lemma Encode_fields p g w :
  EncodeMarkNoOp p g = Some w -> uwrap 32 w = uwrap 32 g /\ w >>> 32 = page_number p >>> MarkNoOpIndexBits.
Proof.
  unfold EncodeMarkNoOp. change MarkNoOpGenMask with (Z.ones 32). change MarkNoOpGenBits with 32.
  change (64 - 32) with 32. fold (page_number p). set (Tag := page_number p >>> MarkNoOpIndexBits).
  destruct (Z.eqb_spec (Tag >>> 32) 0) as [Ht|Ht]; [|done]. cbn [negb].
  destruct (_ =? 0); [done|]. intros [= <-]. rewrite u_land_ones by lia.
  assert (is_u 32 Tag) as HT.
  { rewrite Z.shiftr_div_pow2 in Ht by lia. apply Z.div_small_iff in Ht; [|lia]. unfold is_u. lia. }
  assert (u64 (Tag <<< 32) = Tag <<< 32) as ->.
  { apply u_small. unfold is_u in *. rewrite Z.shiftl_mul_pow2 by lia. lia. }
  rewrite Z.lor_comm. split; [apply field_low|apply field_high]; try lia; apply u_range; lia.
Qed.

Lemma MarkNoOpIndex_mod p : MarkNoOpIndex p = uwrap MarkNoOpIndexBits (page_number p).
Proof.
  unfold MarkNoOpIndex. fold (page_number p). change (MarkNoOpEntries - 1) with (Z.ones MarkNoOpIndexBits).
  apply u_land_ones. unfold MarkNoOpIndexBits. lia.
Qed.

Lemma MarkNoOpIndex_bound p : (Z.to_nat (MarkNoOpIndex p) < 512)%nat.
Proof.
  rewrite MarkNoOpIndex_mod. pose proof (u_range MarkNoOpIndexBits (page_number p) ltac:(unfold MarkNoOpIndexBits; lia)) as H.
  unfold is_u, MarkNoOpIndexBits in *. lia.
Qed.

(** The word and the slot determine the page and the low half of the generation. *)
Lemma Encode_inj p g p' g' w :
  EncodeMarkNoOp p g = Some w -> EncodeMarkNoOp p' g' = Some w -> MarkNoOpIndex p = MarkNoOpIndex p' ->
  page_number p = page_number p' /\ uwrap 32 g = uwrap 32 g'.
Proof.
  intros [L1 H1]%Encode_fields [L2 H2]%Encode_fields Hi. split; [|congruence].
  rewrite !MarkNoOpIndex_mod in Hi. unfold uwrap in Hi. rewrite H2, !Z.shiftr_div_pow2 in H1 by (unfold MarkNoOpIndexBits; lia).
  rewrite (Z.div_mod (page_number p) (2 ^ MarkNoOpIndexBits)), (Z.div_mod (page_number p') (2 ^ MarkNoOpIndexBits)) by done.
  congruence.
Qed.

Lemma Encode_nonzero p g w : EncodeMarkNoOp p g = Some w -> w <> 0.
Proof.
  unfold EncodeMarkNoOp. destruct (negb _); [done|]. intros H.
  destruct (Z.eqb_spec (u64 (((p >>> FEX_GUEST_PAGE_SHIFT) >>> MarkNoOpIndexBits) <<< MarkNoOpGenBits)
    ||| (g &&& MarkNoOpGenMask)) 0); [done|]. by injection H as <-.
Qed.

(** ** Executions *)

(** The table under bumps and publications.  A publication's sample is stale when the map was
    mutated since it was taken; it is on time when the generation field has not wrapped
    meanwhile.  [log]: the pages published with a sample taken since the last mutation. *)
Inductive memo_run : VMATracking -> list Z -> Prop :=
| run_start vt : Generation vt = 1 -> MarkNoOpCache vt = repeat 0 512 -> memo_run vt []
| run_bump vt log : memo_run vt log -> memo_run (BumpGeneration vt) []
| run_record vt log page gen vt' :
    memo_run vt log -> gen <= Generation vt -> gen >>> 32 = Generation vt >>> 32 ->
    RecordMarkNoOp vt page gen = Some vt' ->
    memo_run vt' (if gen =? Generation vt then page :: log else log).

(** Every occupied slot was published on time, and for the live generation only if logged. *)
Definition memo_inv (vt : VMATracking) (log : list Z) : Prop :=
  is_u 64 (Generation vt) /\ uwrap 32 (Generation vt) <> 0 /\ length (MarkNoOpCache vt) = 512%nat /\
  forall i w, MarkNoOpCache vt !! i = Some w -> w <> 0 ->
    exists p g, EncodeMarkNoOp p g = Some w /\ Z.to_nat (MarkNoOpIndex p) = i /\
      g >>> 32 = Generation vt >>> 32 /\ g <= Generation vt /\ (g = Generation vt -> p ∈ log).

Lemma high_same x : uwrap 32 (x + 1) <> 0 -> (x + 1) >>> 32 = x >>> 32.
Proof.
  intros H. rewrite !Z.shiftr_div_pow2 by lia. unfold uwrap in H.
  pose proof (Z.div_mod (x + 1) (2 ^ 32) ltac:(lia)). pose proof (Z.mod_pos_bound (x + 1) (2 ^ 32) ltac:(lia)).
  apply (Z.div_unique x (2 ^ 32) _ ((x + 1) mod 2 ^ 32 - 1)); lia.
Qed.

Lemma memo_inv_bump vt log : memo_inv vt log -> memo_inv (BumpGeneration vt) [].
Proof.
  intros (Hg & Hlow & Hlen & Hs). unfold BumpGeneration. change MarkNoOpGenMask with (Z.ones 32).
  rewrite u_land_ones by lia. destruct (Z.eqb_spec (uwrap 32 (u64 (Generation vt + 1))) 0) as [Hw|Hw].
  - split_and!; cbn.
    + apply u_range. lia.
    + rewrite uwrap_uwrap_le, <- u_add_l by lia. rewrite Hw. done.
    + by rewrite repeat_length.
    + intros i w Hi Hne. destruct Hne. by apply list_elem_of_lookup_2, list_elem_of_In, repeat_spec in Hi.
  - split_and!; cbn; [apply u_range; lia|done|done|]. intros i w Hi Hne.
    destruct (Hs i w Hi Hne) as (p & g & He & Hidx & Hh & Hle & _). exists p, g.
    assert (Generation vt + 1 < 2 ^ 64) as Hlt.
    { unfold is_u in Hg. destruct (Z.eq_dec (Generation vt + 1) (2 ^ 64)) as [E|]; [|lia].
      rewrite E in Hw. done. }
    rewrite (u_small 64 (Generation vt + 1)) in Hw |- * by (unfold is_u in *; lia).
    split_and!; [done|done|by rewrite high_same|lia|lia].
Qed.

Lemma memo_inv_record vt log page gen vt' :
  memo_inv vt log -> gen <= Generation vt -> gen >>> 32 = Generation vt >>> 32 ->
  RecordMarkNoOp vt page gen = Some vt' ->
  memo_inv vt' (if gen =? Generation vt then page :: log else log).
Proof.
  intros (Hg & Hlow & Hlen & Hs) Hle Hh. unfold RecordMarkNoOp.
  assert (Hmono : forall p, p ∈ log -> p ∈ (if gen =? Generation vt then page :: log else log)).
  { intros p Hp. destruct (_ =? _); [by right|done]. }
  destruct (EncodeMarkNoOp page gen) as [Entry|] eqn:HE; intros Hrec.
  - pose proof (MarkNoOpIndex_bound page) as Hb. set (i0 := Z.to_nat (MarkNoOpIndex page)) in *.
    destruct (lookup_lt_is_Some_2 (MarkNoOpCache vt) i0) as [w0 Hw0]; [lia|]. rewrite Hw0 in Hrec.
    cbn in Hrec. injection Hrec as <-. split_and!; cbn; [done|done|by rewrite length_insert|].
    intros i w Hi Hne. apply list_lookup_insert_Some in Hi as [(Hi & <- & _)|[_ Hi]].
    + exists page, gen. split_and!; [done|by rewrite <- Hi|done|done|].
      intros ->. rewrite Z.eqb_refl. by left.
    + destruct (Hs i w Hi Hne) as (p & g & ? & ? & ? & ? & ?). exists p, g. split_and!; try done. auto.
  - injection Hrec as <-. split_and!; [done|done|done|]. intros i w Hi Hne.
    destruct (Hs i w Hi Hne) as (p & g & ? & ? & ? & ? & ?). exists p, g. split_and!; try done. auto.
Qed.

Lemma memo_run_inv vt log : memo_run vt log -> memo_inv vt log.
Proof.
  induction 1 as [vt Hg Hc|vt log _ IH|vt log page gen vt' _ IH Hle Hh Hrec].
  - unfold memo_inv. rewrite Hg, Hc. split_and!; [done|done|by rewrite repeat_length|].
    intros i w Hi Hne. destruct Hne. by apply list_elem_of_lookup_2, list_elem_of_In, repeat_spec in Hi.
  - by eapply memo_inv_bump.
  - by eapply memo_inv_record.
Qed.

(** however bumps and publications interleave, the table lookup is in bounds, and a hit for
    the live generation is a page that was published with a sample of that generation, that is
    after the last mutation of the map, provided no publication is delayed over a wrap of the
    32-bit generation field. *)
Theorem memo_hit_is_current vt log page :
  memo_run vt log ->
  exists hit, IsMarkNoOp vt page (LoadGeneration vt) = Some hit /\
    (hit = true -> exists p, p ∈ log /\ page_number p = page_number page).
Proof.
  intros (Hg & Hlow & Hlen & Hs)%memo_run_inv. unfold IsMarkNoOp, LoadGeneration.
  destruct (EncodeMarkNoOp page (Generation vt)) as [Entry|] eqn:HE; [|by exists false].
  pose proof (MarkNoOpIndex_bound page) as Hb.
  destruct (lookup_lt_is_Some_2 (MarkNoOpCache vt) (Z.to_nat (MarkNoOpIndex page))) as [w Hw]; [lia|].
  rewrite Hw. cbn. exists (w =? Entry). split; [done|]. intros Hit. apply Z.eqb_eq in Hit. subst w.
  destruct (Hs _ _ Hw (Encode_nonzero _ _ _ HE)) as (p & g & HE' & Hidx & Hh & Hle & Hin).
  assert (MarkNoOpIndex p = MarkNoOpIndex page) as Hi.
  { rewrite !MarkNoOpIndex_mod in *.
    pose proof (u_range MarkNoOpIndexBits (page_number p) ltac:(unfold MarkNoOpIndexBits; lia)).
    pose proof (u_range MarkNoOpIndexBits (page_number page) ltac:(unfold MarkNoOpIndexBits; lia)).
    unfold is_u in *. lia. }
  destruct (Encode_inj _ _ _ _ _ HE' HE Hi) as [Hp Hu]. exists p. split; [|done]. apply Hin.
  rewrite !Z.shiftr_div_pow2 in Hh by lia. unfold uwrap in Hu.
  rewrite (Z.div_mod g (2 ^ 32)), (Z.div_mod (Generation vt) (2 ^ 32)) by done. congruence.
Qed.

Lemma memo_hit_is_current_witness :
  exists vt log hit, memo_run vt log /\ IsMarkNoOp vt 0x7000 (LoadGeneration vt) = Some hit /\
    (hit = true -> exists p, p ∈ log /\ page_number p = page_number 0x7000).
Proof.
  pose (vt0 := BumpGeneration (mkTracking ∅ ∅ 1 (repeat 0 512))).
  pose (vt1 := default vt0 (RecordMarkNoOp vt0 0x7000 2)).
  assert (memo_run vt1 [0x7000]) as Hr.
  { apply (run_record vt0 [] 0x7000 2 vt1); [|vm_compute; congruence|reflexivity|vm_compute; reflexivity].
    apply (run_bump _ []). by apply run_start. }
  destruct (memo_hit_is_current vt1 [0x7000] 0x7000 Hr) as (hit & H1 & H2).
  exists vt1, [0x7000], hit. split; [exact Hr|split; [exact H1|exact H2]].
Defined.

(** A publication that is delayed over a wrap of the generation field is not stale: for any
    page, the word stamped with a generation is the word of every generation that agrees with
    it modulo 2^32, so the lookup at the later generation hits. *)
Theorem memo_late_publication vt page gen vt' :
  RecordMarkNoOp vt page gen = Some vt' -> uwrap 32 gen <> 0 ->
  uwrap 32 (Generation vt) = uwrap 32 gen -> page_number page < 2 ^ 41 -> 0 <= page ->
  length (MarkNoOpCache vt) = 512%nat ->
  IsMarkNoOp vt' page (LoadGeneration vt') = Some true.
Proof.
  intros Hrec Hne Heq Hp H0 Hlen.
  assert (HE : EncodeMarkNoOp page (Generation vt) = EncodeMarkNoOp page gen).
  { unfold EncodeMarkNoOp. change MarkNoOpGenMask with (Z.ones 32). rewrite !u_land_ones by lia. by rewrite Heq. }
  unfold RecordMarkNoOp in Hrec. unfold IsMarkNoOp, LoadGeneration.
  destruct (EncodeMarkNoOp page gen) as [Entry|] eqn:HEg.
  - pose proof (MarkNoOpIndex_bound page).
    destruct (lookup_lt_is_Some_2 (MarkNoOpCache vt) (Z.to_nat (MarkNoOpIndex page))) as [w Hw]; [lia|].
    rewrite Hw in Hrec. cbn in Hrec. injection Hrec as <-. cbn. rewrite HE, list_lookup_insert_eq by lia.
    cbn. by rewrite Z.eqb_refl.
  - exfalso. unfold EncodeMarkNoOp in HEg. fold (page_number page) in HEg.
    change MarkNoOpGenBits with 32 in HEg. change (64 - 32) with 32 in HEg.
    assert (0 <= page_number page) by (by apply Z.shiftr_nonneg).
    assert ((page_number page >>> MarkNoOpIndexBits) >>> 32 = 0) as E.
    { rewrite Z.shiftr_shiftr, Z.shiftr_div_pow2 by (unfold MarkNoOpIndexBits; lia). apply Z.div_small.
      unfold MarkNoOpIndexBits. cbn. lia. }
    rewrite E in HEg. cbn [negb Z.eqb] in HEg.
    destruct (Z.eqb_spec (u64 (page_number page >>> MarkNoOpIndexBits <<< 32) ||| (gen &&& MarkNoOpGenMask)) 0)
      as [Hz|]; [|done]. apply Z.lor_eq_0_iff in Hz as [_ Hz]. apply Hne.
    rewrite <- u_land_ones by lia. exact Hz.
Qed.

Lemma memo_late_publication_witness :
  exists vt vt', Generation vt = 2 ^ 32 + 5 /\ RecordMarkNoOp vt 0x7000 5 = Some vt' /\
    IsMarkNoOp vt' 0x7000 (LoadGeneration vt') = Some true.
Proof.
  pose (vt := mkTracking ∅ ∅ (2 ^ 32 + 5) (repeat 0 512)).
  exists vt, (default vt (RecordMarkNoOp vt 0x7000 5)).
  split; [reflexivity|split; [vm_compute; reflexivity|]].
  apply (memo_late_publication vt 0x7000 5); [vm_compute; reflexivity|vm_compute; congruence|reflexivity|
    vm_compute; reflexivity|lia|reflexivity].
Defined.
