(* ===== verification/VMATrackProps.v ===== *)
(** * Memory system calls: theorems

    The tracking of every memory system call keeps the invariant of VMA tracking and never
    fails; the base address of a file mapping is found from the program headers. *)

From stdpp Require Import sorting.
From S2P Require Import Prelude VMA VMALists VMASpec VMAProps VMAProtect VMAShm VMATrack VMATheorems.
Import VMA Track.

(** ** Alignment *)

Lemma AlignUp_spec v :
  0 <= v -> v + 4096 <= 2 ^ 64 ->
  v <= AlignUp v FEX_GUEST_PAGE_SIZE < v + 4096 /\ AlignUp v FEX_GUEST_PAGE_SIZE mod 4096 = 0.
Proof.
  intros H0 H1. unfold AlignUp, FEX_GUEST_PAGE_SIZE.
  pose proof (Z.mod_pos_bound v 4096 ltac:(lia)) as Hm.
  assert (u64 (4096 - v mod 4096) mod 4096 = (- v) mod 4096) as ->.
  { rewrite u_small by (unfold is_u; lia). rewrite (Z.mod_eq v 4096) by lia.
    replace (4096 - (v - 4096 * (v / 4096))) with (- v + (1 + v / 4096) * 4096) by lia.
    apply Z_mod_plus_full. }
  pose proof (Z.mod_pos_bound (- v) 4096 ltac:(lia)) as Hn.
  assert (Ha : (v + (- v) mod 4096) mod 4096 = 0).
  { rewrite Zplus_mod_idemp_r. by replace (v + - v) with 0 by lia. }
  rewrite u_small by (unfold is_u; lia). split; [lia|done].
Qed.

(** ** The base address of a file mapping *)

Lemma land_page x : 0 <= x < 2 ^ 64 -> x &&& FEX_GUEST_PAGE_MASK = x - (x &&& 0xfff).
Proof.
  intros Hx. change 0xfff with (Z.ones 12). rewrite u_land_ones by lia.
  assert (x &&& FEX_GUEST_PAGE_MASK = (x >>> 12) <<< 12) as ->.
  { apply Z.bits_inj'. intros n Hn. change FEX_GUEST_PAGE_MASK with (Z.ones 52 <<< 12).
    rewrite Z.land_spec, !Z.shiftl_spec by lia. destruct (Z.lt_ge_cases n 12).
    - rewrite !(Z.testbit_neg_r _ (n - 12)) by lia. by rewrite andb_false_r.
    - rewrite Z.shiftr_spec, ones_testbit by lia. replace (n - 12 + 12) with n by lia.
      destruct (Z.ltb_spec (n - 12) 52); [by rewrite andb_true_r|].
      rewrite (testbit_high 64 x) by (done || lia). done. }
  rewrite Z.shiftl_mul_pow2, Z.shiftr_div_pow2 by lia. unfold uwrap.
  pose proof (Z.div_mod x (2 ^ 12) ltac:(lia)). lia.
Qed.

(** A mapping that the loader makes for a loadable segment (the segment's page-aligned
    address behind the load bias, its page-aligned file offset, its access flags) has the
    address of the first header's page behind the bias among its inferred bases. *)
Theorem InferMappingBaseAddress_complete first rest phdr bias Size AccessFlags :
  let Headers := first :: rest in
  let Addr := bias + (p_vaddr phdr - (p_vaddr phdr &&& 0xfff)) in
  let FileOffset := p_offset phdr - (p_offset phdr &&& 0xfff) in
  phdr ∈ Headers -> p_type phdr = PT_LOAD -> (p_flags phdr &&& 7) = (AccessFlags &&& 7) ->
  (p_offset phdr &&& 0xfff) = (p_vaddr phdr &&& 0xfff) ->
  0 <= p_offset phdr -> 0 < p_filesz phdr -> p_offset phdr + p_filesz phdr < 2 ^ 64 ->
  u64 (bias + (p_vaddr first - (p_offset first &&& 0xfff))) ∈
    InferMappingBaseAddress Headers Addr Size FileOffset AccessFlags.
Proof.
  intros Headers Addr FileOffset Hin Hty Hfl Hcong H0 H1 H2. unfold InferMappingBaseAddress, Headers.
  apply list_elem_of_omap. exists phdr. split; [done|]. unfold InferFromHeader.
  rewrite Hty, Hfl, !Z.eqb_refl. cbn [negb].
  assert (Hlow : 0 <= (p_offset phdr &&& 0xfff) <= p_offset phdr).
  { change 0xfff with (Z.ones 12). rewrite u_land_ones by lia. unfold uwrap.
    pose proof (Z.mod_pos_bound (p_offset phdr) (2 ^ 12) ltac:(lia)).
    pose proof (Z.mod_le (p_offset phdr) (2 ^ 12) ltac:(lia) ltac:(lia)). lia. }
  assert (SegmentStartOffset phdr = FileOffset) as ->.
  { unfold SegmentStartOffset, FileOffset. rewrite <- Hcong. apply u_small. unfold is_u. lia. }
  assert (FileOffset &&& FEX_GUEST_PAGE_MASK = p_offset phdr &&& FEX_GUEST_PAGE_MASK) as ->.
  { unfold FileOffset. rewrite <- (land_page (p_offset phdr)) by lia.
    rewrite <- Z.land_assoc. f_equal. }
  rewrite Z.eqb_refl, (u_small 64 (FileOffset + p_filesz phdr)) by (unfold is_u, FileOffset; lia).
  destruct (Z.leb_spec FileOffset FileOffset); [|lia].
  destruct (Z.ltb_spec FileOffset (FileOffset + p_filesz phdr)); [|lia]. cbn [andb].
  do 2 f_equal. unfold Addr. rewrite Hcong. lia.
Qed.

(** The data segment of a library whose file offset differs from its address. *)
Definition lib_headers : list Elf64_Phdr :=
  [mkPhdr PT_LOAD 4 0 0 0x7bdd5; mkPhdr PT_LOAD 5 0x7c000 0x7c000 0x6f3a8;
   mkPhdr PT_LOAD 6 0xebbd0 0xecbd0 0x434].

Lemma InferMappingBaseAddress_complete_witness :
  0x123400000 ∈ InferMappingBaseAddress lib_headers (0x123400000 + 0xec000) 0x2000 0xeb000 6.
Proof.
  apply (InferMappingBaseAddress_complete (mkPhdr PT_LOAD 4 0 0 0x7bdd5) (tail lib_headers)
           (mkPhdr PT_LOAD 6 0xebbd0 0xecbd0 0x434) 0x123400000 0x2000 6);
    [right; right; left|reflexivity|reflexivity|reflexivity|cbn; lia|cbn; lia|cbn; lia].
Defined.

(** ** Resources *)

Lemma NewResource_fresh vt : MappedResources vt !! NewResource vt = None.
Proof.
  destruct (MappedResources vt !! NewResource vt) as [res|] eqn:E; [|done]. exfalso.
  assert (forall (l : list Z) x, x ∈ l -> x <= foldr Z.max 0 l) as Hmax.
  { induction l as [|y l IH]; intros x Hx; [by apply elem_of_nil in Hx|]. cbn.
    apply elem_of_cons in Hx as [->|Hx]; [lia|]. specialize (IH x Hx). lia. }
  pose proof (Hmax (map fst (map_to_list (MappedResources vt))) (NewResource vt)) as H.
  rewrite elem_of_keys in H. unfold NewResource in *. specialize (H ltac:(eauto)). lia.
Qed.

Lemma rep_insert_resource vt ch r id L hs :
  rep vt ch -> MappedResources vt !! r = None ->
  rep (set_Resources (<[r := mkResource id None L hs]> (MappedResources vt)) vt) (<[r := []]> ch).
Proof.
  intros (H1 & H2 & H3 & H4) Hr. split_and!; cbn.
  - intros r'. by rewrite !lookup_insert_is_Some', H1.
  - intros r' l [[<- <-]|[_ Hl]]%lookup_insert_Some; [split; [apply NoDup_nil_2|done]|by apply H2].
  - intros r' l res Hl Hres. apply lookup_insert_Some in Hl as [[<- <-]|[Hne Hl]].
    + rewrite lookup_insert_eq in Hres. by injection Hres as <-.
    + rewrite lookup_insert_ne in Hres by done. by eapply H3.
  - intros k e r' He Hk. destruct (H4 _ _ _ He Hk) as (l & Hl & Hin). exists l.
    rewrite lookup_insert_ne; [done|]. intros <-. destruct (proj1 (H1 r) ltac:(eauto)). congruence.
Qed.

Lemma rep_set_headers vt ch r res hs :
  rep vt ch -> MappedResources vt !! r = Some res ->
  rep (set_Resources (<[r := mkResource (mrid res) (FirstVMA res) (ResourceLength res) hs]>
                        (MappedResources vt)) vt) ch.
Proof.
  intros (H1 & H2 & H3 & H4) Hr. split_and!; cbn; [|done| |done].
  - intros r'. rewrite lookup_insert_is_Some', H1. split; [by right|]. intros [<-|?]; eauto.
  - intros r' l res' Hl [[<- <-]|[_ Hres']]%lookup_insert_Some; [exact (H3 _ _ _ Hl Hr)|by eapply H3].
Qed.

Lemma FindResources_in vt id r :
  r ∈ FindResources vt id <-> exists res, MappedResources vt !! r = Some res /\ mrid res = id.
Proof.
  unfold FindResources. rewrite list_elem_of_filter, merge_sort_Permutation, elem_of_keys. split.
  - intros [Hr [res Hres]]. rewrite Hres in Hr. exists res. split; [done|]. cbn in Hr. congruence.
  - intros (res & Hres & <-). rewrite Hres. eauto.
Qed.

(** Anonymous resources have ids that were handed out. *)
Definition anon_ids (N : Z) (R : gmap Z (MRID * Z * list Elf64_Phdr)) : Prop :=
  forall r i L hs, R !! r = Some (mkMRID SpecialDev_Anon i, L, hs) -> i < N.

Lemma anon_ids_sub N R R' : anon_ids N R -> R' ⊆ R -> anon_ids N R'.
Proof. intros H Hs r i L hs Hr. eapply H, lookup_weaken; done. Qed.

Lemma anon_ids_mono N N' R : anon_ids N R -> N <= N' -> anon_ids N' R.
Proof. intros H Hle r i L hs Hr. specialize (H _ _ _ _ Hr). lia. Qed.

Lemma anon_ids_insert N R r id L hs :
  anon_ids N R -> (dev id = SpecialDev_Anon -> VMA.id id < N) -> anon_ids N (<[r := (id, L, hs)]> R).
Proof. intros H Hid r' i L' hs' [[<- [= -> _ _]]|[_ Hr]]%lookup_insert_Some; [by apply Hid|by eapply H]. Qed.

(** The state between two calls. *)
Definition sys_inv (vt : VMATracking) (N : Z) : Prop :=
  exists ch, inv vt ch /\ full None ch /\ anon_ids N (resources vt).

(** The state while a call maps resource [r], whose list may still be empty. *)
Definition mid_inv (vt : VMATracking) (N : Z) (Res : option Z) : Prop :=
  exists ch, inv vt ch /\ full Res ch /\ anon_ids N (resources vt) /\
    forall r, Res = Some r -> is_Some (ch !! r).

Lemma mid_track asserts vt N Res RBase ROffset RLength F P :
  mid_inv vt N Res -> 0 <= RBase -> 0 < RLength -> RBase + RLength < 2 ^ 64 ->
  exists vt', TrackVMARange asserts vt Res RBase ROffset RLength F P = Some vt' /\ sys_inv vt' N.
Proof.
  intros (ch & Hinv & Hf & Ha & Hr) H0 H1 H2.
  destruct (track_range asserts vt ch Res RBase ROffset RLength F P)
    as (vt' & ch' & Hrun & Hinv' & _ & _ & Hf' & Hsub & _); [done..|].
  exists vt'. split; [done|]. exists ch'. split_and!; [done|by auto|by eapply anon_ids_sub].
Qed.

Lemma full_weaken Pres ch : full None ch -> full Pres ch.
Proof. intros H r Hr. by apply H in Hr. Qed.

Lemma mid_insert vt N id L :
  sys_inv vt N -> (dev id = SpecialDev_Anon -> VMA.id id < N) ->
  mid_inv (fst (InsertMappedResource vt id L)) N (Some (snd (InsertMappedResource vt id L))).
Proof.
  intros (ch & [Hrep Hw] & Hf & Ha) Hid. cbn. exists (<[NewResource vt := []]> ch). split_and!.
  - split; [apply rep_insert_resource; [done|apply NewResource_fresh]|done].
  - apply full_insert_this; [by apply full_weaken|done].
  - unfold resources. cbn. rewrite fmap_insert. by apply anon_ids_insert.
  - intros r [= <-]. by rewrite lookup_insert_eq.
Qed.

Lemma mid_existing vt N r : sys_inv vt N -> is_Some (MappedResources vt !! r) -> mid_inv vt N (Some r).
Proof.
  intros (ch & Hinv & Hf & Ha) Hr. exists ch. split_and!; [done|by apply full_weaken|done|].
  intros r' [= <-]. destruct Hinv as [(R1 & _) _]. by apply R1.
Qed.

Lemma mid_none vt N : sys_inv vt N -> mid_inv vt N None.
Proof. intros (ch & Hinv & Hf & Ha). by exists ch. Qed.

(** Between two calls every resource is mapped somewhere. *)
Lemma sys_first vt N r res :
  sys_inv vt N -> MappedResources vt !! r = Some res ->
  exists f e, FirstVMA res = Some f /\ VMAs vt !! f = Some e.
Proof.
  intros (ch & [Hrep _] & Hf & _) Hres. pose proof Hrep as (R1 & R2 & R3 & _).
  destruct (proj2 (R1 r) ltac:(eauto)) as [l Hl]. pose proof (R3 _ _ _ Hl Hres) as HF.
  destruct l as [|f l]; [by apply Hf in Hl|].
  destruct (rep_in _ _ _ _ f Hrep Hl) as [e He]; [by left|]. by exists f, e.
Qed.

Lemma FindByBase_spec vt N addr Size offset P rs :
  sys_inv vt N -> (forall r, r ∈ rs -> is_Some (MappedResources vt !! r)) ->
  exists found, FindByBase vt addr Size offset P rs = Some found /\ forall r, found = Some r -> r ∈ rs.
Proof.
  intros Hs. induction rs as [|r rs IH]; intros Hin; cbn; [by exists None|].
  destruct (Hin r) as [res Hres]; [by left|]. rewrite Hres. cbn.
  destruct (sys_first vt N r res Hs Hres) as (f & e & -> & He). cbn. rewrite He. cbn.
  case_bool_decide; [exists (Some r); split; [done|]; intros ? [= <-]; by left|].
  destruct IH as (found & -> & Hf); [intros; apply Hin; by right|]. exists found. split; [done|].
  intros r' Hr'. right. by apply Hf.
Qed.

Lemma mid_headers vt N r hs :
  mid_inv vt N (Some r) -> exists vt', set_ProgramHeaders vt r hs = Some vt' /\ mid_inv vt' N (Some r).
Proof.
  intros (ch & [Hrep Hw] & Hf & Ha & Hr). destruct (Hr r eq_refl) as [l Hl]. pose proof Hrep as (R1 & _).
  destruct (proj1 (R1 r) ltac:(eauto)) as [res Hres]. unfold set_ProgramHeaders. rewrite Hres. cbn.
  eexists. split; [done|]. exists ch. split_and!; [split; [by apply rep_set_headers|done]|done| |done].
  unfold resources. cbn. rewrite fmap_insert. apply anon_ids_insert; [done|].
  intros Hd. destruct (mrid res) as [d i] eqn:Hm. cbn in Hd |- *. subst d.
  apply (Ha r i (ResourceLength res) (ProgramHeaders res)). unfold resources. rewrite lookup_fmap, Hres. cbn.
  unfold res_id. by rewrite Hm.
Qed.

(** The resource before its headers are considered: a new one, or the first of the file. *)
Lemma pick_resource vt N fid (again : bool) :
  sys_inv vt N -> dev fid <> SpecialDev_Anon ->
  let rs := FindResources vt fid in
  let Inserted := bool_decide (rs = []) || again in
  exists vt1 r res, (if (Inserted : bool) then Some (InsertMappedResource vt fid 0)
                     else r ← head rs; Some (vt, r)) = Some (vt1, r) /\
    mid_inv vt1 N (Some r) /\ MappedResources vt1 !! r = Some res /\
    if Inserted then ProgramHeaders res = [] else vt1 = vt.
Proof.
  intros Hs Hdev rs Inserted. pose proof (FindResources_in vt fid) as Hin. fold rs in Hin.
  destruct Inserted eqn:Hb.
  - pose proof (mid_insert vt N fid 0 Hs ltac:(done)) as Hmid. eexists _, _, _. split_and!; [done|exact Hmid| |].
    + apply lookup_insert_eq.
    + done.
  - unfold Inserted in Hb. destruct rs as [|r rs']; [done|].
    destruct (proj1 (Hin r)) as (res & Hres & _); [by left|]. exists vt, r, res. cbn.
    split_and!; [done| |done|done]. apply mid_existing; eauto.
Qed.

Lemma FileResource_spec asserts caching vt N addr Size prot offset file :
  sys_inv vt N -> st_dev file <> SpecialDev_Anon -> elf_headers file = [] \/ offset = 0 ->
  exists vt' r, FileResource asserts caching vt addr Size prot offset file = Some (vt', r) /\
    mid_inv vt' N (Some r).
Proof.
  intros Hs Hdev Helf. unfold FileResource. set (fid := mkMRID (st_dev file) (st_ino file)).
  pose proof (FindResources_in vt fid) as Hin.
  pose proof (fun again => pick_resource vt N fid again Hs Hdev) as Hpick. cbn zeta in Hpick.
  set (rs := FindResources vt fid) in *.
  assert (exists again, match rs with
    | [] => Some false
    | r :: _ => if offset =? 0 then
        res ← MappedResources vt !! r; Some (negb (bool_decide (ProgramHeaders res = [])))
      else Some false end = Some again) as [again ->].
  { destruct rs as [|r rs']; [eauto|]. destruct (offset =? 0); [|eauto].
    destruct (proj1 (Hin r)) as (res & -> & _); [by left|]. cbn. eauto. }
  cbn [mbind option_bind]. destruct (Hpick again) as (vt1 & r & res & -> & Hmid & Hres & Hcase).
  cbn [mbind option_bind]. destruct (exec_file file); [|by exists vt1, r].
  destruct (negb ((prot &&& PROT_READ) =? 0) && (bool_decide (rs = []) || again)) eqn:Hins.
  - destruct (((offset =? 0) && caching) || asserts); [|by exists vt1, r].
    destruct (mid_headers vt1 N r (elf_headers file) Hmid) as (vt2 & -> & Hmid2). cbn [mbind option_bind].
    rewrite LOGMAN_true; [by exists vt2, r|]. destruct Helf as [->| ->]; [done|]. by rewrite orb_true_r.
  - rewrite Hres. cbn [mbind option_bind]. destruct (bool_decide_reflect (ProgramHeaders res = [])) as [Hph|Hph]; [by exists vt1, r|].
    destruct (bool_decide (rs = []) || again); [done|]. subst vt1.
    assert (Hall : forall r', r' ∈ rs -> is_Some (MappedResources vt !! r')).
    { intros r' Hr'. destruct (proj1 (Hin r') Hr') as (res' & ? & _). eauto. }
    destruct (FindByBase_spec vt N addr Size offset (fromProt prot) rs) as (found & -> & Hfound); [done..|].
    cbn [mbind option_bind]. exists vt. destruct found as [r'|]; [|by exists r]. exists r'.
    split; [done|]. apply mid_existing; [done|]. by apply Hall, Hfound.
Qed.

(** ** System calls *)

Inductive call :=
| Mmap (addr len prot flags offset : Z) (file : FileInfo)
| Munmap (addr len : Z)
| Mprotect (addr len prot : Z)
| Mremap (OldAddress OldSize NewSize flags NewAddress : Z)
| Shmat (shmid shmaddr shmflg len : Z)
| Shmdt (shmaddr : Z).

Definition exec (asserts caching : bool) (vt : VMATracking) (N : Z) (c : call) : option (VMATracking * Z) :=
  match c with
  | Mmap addr len prot flags offset file => TrackMmap asserts caching vt N addr len prot flags offset file
  | Munmap addr len => vt ← TrackMunmap asserts vt addr len; Some (vt, N)
  | Mprotect addr len prot => vt ← TrackMprotect asserts vt addr len prot; Some (vt, N)
  | Mremap o os ns flags n => vt ← TrackMremap asserts vt o os ns flags n; Some (vt, N)
  | Shmat shmid shmaddr shmflg len => vt ← TrackShmat asserts vt shmid shmaddr shmflg len; Some (vt, N)
  | Shmdt shmaddr => r ← TrackShmdt asserts vt shmaddr; Some (fst r, N)
  end.

(** The pages of a range, below the end of the address space. *)
Definition page_range (addr len : Z) : Prop :=
  0 <= addr /\ 0 <= len /\ len + 4096 <= 2 ^ 64 /\ addr + AlignUp len FEX_GUEST_PAGE_SIZE < 2 ^ 64.

(** What the kernel has accepted. *)
Definition call_ok (vt : VMATracking) (N : Z) (c : call) : Prop :=
  match c with
  | Mmap addr len _ _ offset file =>
      page_range addr len /\ 0 < len /\ 0 <= N < 2 ^ 64 - 1 /\ st_dev file <> SpecialDev_Anon /\
      (elf_headers file = [] \/ offset = 0)
  | Munmap addr len => page_range addr len
  | Mprotect addr len _ =>
      page_range addr len /\
      forall a, addr <= a < addr + AlignUp len FEX_GUEST_PAGE_SIZE -> exists p, maps (cores vt) a p
  | Mremap o os ns _ n =>
      page_range o os /\ page_range n ns /\ 0 < ns /\
      exists p, maps (cores vt) o p /\ (os = 0 -> m_res p <> None /\ Shared (m_flags p) = true)
  | Shmat _ shmaddr _ len => 0 <= shmaddr /\ 0 < len /\ shmaddr + len < 2 ^ 64
  | Shmdt shmaddr => 0 <= shmaddr
  end.

Lemma page_range_size addr len :
  page_range addr len -> let S := AlignUp len FEX_GUEST_PAGE_SIZE in
  0 <= addr /\ 0 <= S /\ len <= S /\ addr + S < 2 ^ 64 /\ (S = 0 <-> len = 0).
Proof.
  intros (H0 & H1 & H2 & H3). cbn zeta. destruct (AlignUp_spec len) as [H4 _]; [lia|lia|].
  split_and!; try lia. split; [lia|]. intros ->. done.
Qed.

Lemma mid_delete asserts vt N RBase RLength Res :
  sys_inv vt N -> 0 <= RBase -> 0 <= RLength -> RBase + RLength < 2 ^ 64 ->
  (forall r, Res = Some r -> is_Some (MappedResources vt !! r)) ->
  exists vt', DeleteVMARange asserts vt RBase RLength Res = Some vt' /\ mid_inv vt' N Res.
Proof.
  intros (ch & Hinv & Hf & Ha) H0 H1 H2 Hr.
  destruct (delete_range asserts vt ch RBase RLength Res)
    as (vt' & ch' & Hrun & Hinv' & _ & _ & Hf' & Hp & Hsub & _); [done..|].
  exists vt'. split; [done|]. exists ch'. split_and!; [done|by apply Hf', full_weaken|by eapply anon_ids_sub|].
  intros r Hres. apply Hp; [done|]. destruct Hinv as [(R1 & _) _]. by apply R1, Hr.
Qed.

Lemma mid_none_sys vt N : mid_inv vt N None -> sys_inv vt N.
Proof. intros (ch & ? & ? & ? & _). by exists ch. Qed.

Lemma exec_mmap asserts caching vt N addr len prot flags offset file :
  sys_inv vt N -> call_ok vt N (Mmap addr len prot flags offset file) ->
  exists vt' N', TrackMmap asserts caching vt N addr len prot flags offset file = Some (vt', N') /\ sys_inv vt' N'.
Proof.
  intros Hs (Hpr & Hlen & HN & Hdev & Helf).
  destruct (page_range_size _ _ Hpr) as (? & ? & ? & ? & ?). unfold TrackMmap.
  set (S := AlignUp len FEX_GUEST_PAGE_SIZE) in *. destruct (flags &&& MAP_ANONYMOUS =? 0).
  - destruct (FileResource_spec asserts caching vt N addr S prot offset file) as (vt1 & r & -> & Hmid); [done..|].
    cbn [mbind option_bind].
    destruct (mid_track asserts vt1 N (Some r) addr offset S (fromFlags flags) (fromProt prot))
      as (vt' & -> & Hs'); [done|lia..|]. by exists vt', N.
  - destruct (flags &&& MAP_SHARED =? 0); cbn [negb].
    + cbn [mbind option_bind].
      destruct (mid_track asserts vt N None addr offset S (fromFlags flags) (fromProt prot))
        as (vt' & -> & Hs'); [by apply mid_none|lia..|]. by exists vt', N.
    + assert (FindResources vt (mkMRID SpecialDev_Anon N) = []) as ->.
      { destruct (FindResources vt _) as [|r rs] eqn:E; [done|].
        destruct (proj1 (FindResources_in vt (mkMRID SpecialDev_Anon N) r)) as (res & Hres & Hid); [rewrite E; by left|].
        destruct Hs as (ch & _ & _ & Ha).
        specialize (Ha r N (ResourceLength res) (ProgramHeaders res)). unfold resources in Ha.
        rewrite lookup_fmap, Hres in Ha. cbn in Ha. unfold res_id in Ha. rewrite Hid in Ha.
        specialize (Ha eq_refl). lia. }
      rewrite LOGMAN_true by done. cbn [mbind option_bind].
      assert (Hs1 : sys_inv vt (N + 1)).
      { destruct Hs as (ch & ? & ? & Ha). exists ch. split_and!; [done|done|]. eapply anon_ids_mono; [done|lia]. }
      pose proof (mid_insert vt (N + 1) (mkMRID SpecialDev_Anon N) 0 Hs1 ltac:(cbn; lia)) as Hmid.
      destruct (InsertMappedResource vt (mkMRID SpecialDev_Anon N) 0) as [vt1 r]. cbn in Hmid |- *.
      destruct (mid_track asserts vt1 (N + 1) (Some r) addr offset S (fromFlags flags) (fromProt prot))
        as (vt' & -> & Hs'); [done|lia..|]. cbn. exists vt', (N + 1). split; [|done].
      by rewrite u_small by (unfold is_u; lia).
Qed.

(** The entry behind a mapped address. *)
Lemma find_mapped vt ch a p :
  inv vt ch -> maps (cores vt) a p ->
  exists k e, FindVMAEntry vt a = Some k /\ VMAs vt !! k = Some e /\ p = at_addr (core e) a /\ Base e = k.
Proof.
  intros Hinv (k & c & (e & He & ->)%cores_Some & Hc & ->). unfold covers in Hc. cbn in Hc.
  destruct (inv_entry _ _ _ _ Hinv He) as (_ & Hb & ? & ? & ?). exists k, e. split_and!; try done.
  unfold FindVMAEntry. destruct (pred_key (VMAs vt) (a + 1)) as [k0|] eqn:Hk; cbn.
  - apply pred_key_Some in Hk as ([e0 He0] & ? & Hmax). pose proof (Hmax k ltac:(eauto) ltac:(lia)).
    destruct (decide (k = k0)) as [->|].
    + rewrite He0. cbn. simplify_eq. usmall.
      destruct (Z.leb_spec (Base e) a), (Z.ltb_spec a (Base e + Length e)); [done|lia..].
    + pose proof (inv_next _ _ _ _ k0 Hinv He ltac:(eauto) ltac:(lia)). lia.
  - pose proof (pred_key_None _ _ k Hk ltac:(eauto)). lia.
Qed.

Lemma exec_mremap asserts vt N o os ns flags n :
  sys_inv vt N -> call_ok vt N (Mremap o os ns flags n) ->
  exists vt', TrackMremap asserts vt o os ns flags n = Some vt' /\ sys_inv vt' N.
Proof.
  intros Hs (Hpo & Hpn & Hns & p & Hp & Hz). pose proof Hs as (ch & Hinv & _).
  destruct (page_range_size _ _ Hpo) as (? & ? & ? & ? & ?).
  destruct (page_range_size _ _ Hpn) as (? & ? & ? & ? & ?).
  destruct (find_mapped vt ch o p Hinv Hp) as (k & e & Hf & He & -> & Hb).
  unfold TrackMremap. rewrite Hf. cbn [mbind option_bind]. rewrite He. cbn [mbind option_bind].
  assert (Hres : forall r, Resource e = Some r -> is_Some (MappedResources vt !! r)).
  { intros r Hr. destruct (rep_resource vt ch k e r ltac:(apply Hinv) He Hr). eauto. }
  assert (Hmid : mid_inv vt N (Resource e)).
  { destruct (Resource e) as [r|]; [apply mid_existing; auto|by apply mid_none]. }
  set (OS := AlignUp os FEX_GUEST_PAGE_SIZE) in *. destruct (Z.eqb_spec OS 0) as [HO|HO].
  - destruct (Hz ltac:(tauto)) as [Hz1 Hz2]. cbn in Hz1, Hz2.
    rewrite !LOGMAN_true by (done || by rewrite ptr_eqb_ne). cbn [mbind option_bind]. apply mid_track; [done|lia..].
  - destruct (flags &&& MREMAP_DONTUNMAP =? 0); cbn [mbind option_bind]; [|apply mid_track; [done|lia..]].
    destruct (mid_delete asserts vt N o OS (Resource e)) as (vt1 & -> & Hmid1); [done|lia..|done|].
    cbn [mbind option_bind]. apply mid_track; [done|lia..].
Qed.

Lemma exec_shmat asserts vt N shmid shmaddr shmflg len :
  sys_inv vt N -> call_ok vt N (Shmat shmid shmaddr shmflg len) ->
  exists vt', TrackShmat asserts vt shmid shmaddr shmflg len = Some vt' /\ sys_inv vt' N.
Proof.
  intros Hs (H0 & H1 & H2). unfold TrackShmat. set (sid := mkMRID SpecialDev_SHM (u64 shmid)).
  pose proof (FindResources_in vt sid) as Hin. destruct (FindResources vt sid) as [|r rs].
  - pose proof (mid_insert vt N sid len Hs ltac:(done)) as Hmid.
    destruct (InsertMappedResource vt sid len) as [vt1 r]. by apply mid_track.
  - apply mid_track; [|done..]. apply mid_existing; [done|].
    destruct (proj1 (Hin r)) as (res & ? & _); [by left|]. eauto.
Qed.


(** [TrackMremap] maps the new range to what was mapped at the old address, page for page
    from its offset on, and unmaps the old range unless it is mirrored or kept. *)
Theorem TrackMremap_correct asserts vt ch o os ns flags n p :
  inv vt ch -> page_range o os -> page_range n ns -> 0 < ns -> maps (cores vt) o p ->
  (os = 0 -> m_res p <> None /\ Shared (m_flags p) = true) ->
  exists vt', TrackMremap asserts vt o os ns flags n = Some vt' /\
    forall a q, maps (cores vt') a q <->
      (n <= a < n + AlignUp ns FEX_GUEST_PAGE_SIZE /\
       q = mkMapping (m_res p) (u64 (m_offset p + (a - n))) (m_flags p) (m_prot p)) \/
      (~ (n <= a < n + AlignUp ns FEX_GUEST_PAGE_SIZE) /\ maps (cores vt) a q /\
       ~ ((flags &&& MREMAP_DONTUNMAP) = 0 /\ o <= a < o + AlignUp os FEX_GUEST_PAGE_SIZE)).
Proof.
  intros Hinv Hpo Hpn Hns Hp Hz. pose proof Hinv as [Hrep _].
  destruct (page_range_size _ _ Hpo) as (? & ? & ? & ? & HO0).
  destruct (page_range_size _ _ Hpn) as (? & ? & ? & ? & ?).
  destruct (find_mapped vt ch o p Hinv Hp) as (k & e & Hf & He & -> & Hb).
  unfold TrackMremap. rewrite Hf. cbn [mbind option_bind]. rewrite He. cbn [mbind option_bind].
  set (OS := AlignUp os FEX_GUEST_PAGE_SIZE) in *. set (NS := AlignUp ns FEX_GUEST_PAGE_SIZE) in *.
  assert (Hoff : forall a, u64 (u64 (Offset e + o - k) + (a - n)) =
                     u64 (m_offset (at_addr (core e) o) + (a - n))).
  { intros a. cbn. rewrite Hb. by replace (Offset e + (o - k)) with (Offset e + o - k) by lia. }
  assert (Hrs : forall r, Resource e = Some r -> is_Some (ch !! r)).
  { intros r Hr. pose proof Hrep as (_ & _ & _ & R4). destruct (R4 _ _ _ He Hr) as (l & Hl & _). eauto. }
  pose proof (fun vt1 ch1 => track_range asserts vt1 ch1 (Resource e) n (u64 (Offset e + o - k)) NS (Flags e) (Prot e))
    as Htr.
  destruct (Z.eqb_spec OS 0) as [HO|HO].
  - destruct (Hz ltac:(tauto)) as [Hz1 Hz2]. cbn in Hz1, Hz2.
    rewrite !LOGMAN_true by (done || by rewrite ptr_eqb_ne). cbn [mbind option_bind].
    destruct (Htr vt ch) as (vt' & ch' & -> & _ & Hm & _); [done|done|lia..|]. exists vt'. split; [done|].
    intros a q. rewrite Hm, Hoff, HO. cbn. intuition lia.
  - destruct (Z.eqb_spec (flags &&& MREMAP_DONTUNMAP) 0) as [Hd|Hd]; cbn [mbind option_bind].
    + destruct (delete_range asserts vt ch o OS (Resource e)) as (vt1 & ch1 & -> & Hinv1 & Hun & _ & _ & Hpres & _);
        [done|lia..|]. cbn [mbind option_bind].
      destruct (Htr vt1 ch1) as (vt' & ch' & -> & _ & Hm & _); [done|by auto|lia..|]. exists vt'. split; [done|].
      intros a q. rewrite Hm, Hoff. cbn. destruct (decide (o <= a < o + OS)) as [Ha|Ha].
      * pose proof (free_unmapped _ _ _ a q (un_free _ _ _ _ Hun) Ha). tauto.
      * rewrite (un_rest _ _ _ _ Hun) by done. tauto.
    + destruct (Htr vt ch) as (vt' & ch' & -> & _ & Hm & _); [done|done|lia..|]. exists vt'. split; [done|].
      intros a q. rewrite Hm, Hoff. cbn. tauto.
Qed.

Lemma sys_inv_empty : sys_inv empty_tracking 1.
Proof. exists ∅. split_and!; [apply inv_empty|done|]. intros r i L hs. unfold resources. cbn. by rewrite fmap_empty. Qed.

Definition no_file : FileInfo := mkFile 0 0 false [].

Lemma sample_call_ok : call_ok empty_tracking 1 (Mmap 0x10000 0x1800 3 0x21 0 no_file).
Proof. cbn. unfold page_range. split_and!; try (by left); by vm_compute. Qed.


Lemma sample_range a : 0x10000 <= a <= 0x20000 -> page_range a 0x4000.
Proof. intros Ha. unfold page_range. change (AlignUp 0x4000 FEX_GUEST_PAGE_SIZE) with 0x4000. lia. Qed.

Lemma sample_maps : maps (cores sample_tracking) 0x10000 (at_addr (core sample_entry) 0x10000).
Proof. exists 0x10000, (core sample_entry). split; [done|]. split; [|done]. unfold covers. cbn. lia. Qed.

Lemma TrackMremap_correct_witness :
  exists vt', TrackMremap true sample_tracking 0x10000 0x4000 0x4000 1 0x20000 = Some vt' /\
    maps (cores vt') 0x21000 (mkMapping (Some 1) 0x4000 (mkFlags true) anon_rw).
Proof.
  destruct (TrackMremap_correct true sample_tracking _ 0x10000 0x4000 0x4000 1 0x20000 _ inv_sample
              (sample_range 0x10000 ltac:(lia)) (sample_range 0x20000 ltac:(lia)) ltac:(lia) sample_maps
              ltac:(lia)) as (vt' & Hrun & Hm).
  exists vt'. split; [exact Hrun|]. apply Hm. left. split; [|reflexivity].
  change (AlignUp 0x4000 FEX_GUEST_PAGE_SIZE) with 0x4000. lia.
Defined.
