(* ===== verification/Granule.v ===== *)
(** * The granule tables: the model

    A host page larger than the guest's 4096 bytes is a granule of several guest pages with
    one kernel protection.  [Module HostPage] is FEXCore::HostPage (TypeDefines.h), [Module GT]
    the table of intended and materialised protections (GranuleTable.h and .cpp), and
    [Module SMC] the table of write-protected code pages (SMCHostGranule.h) it consults.  The
    size of the host page is an argument; the clock, the configured thresholds and the
    outcome of [mprotect] are arguments of the operations that use them. *)

From S2P Require Import Prelude VMA VMATrack.
Import VMA Track.

(** ** Counted loops *)

(** [for (i = i0; i < End; i += step)] with the wrap-around of the counter. *)
Fixpoint for_loop {St} (fuel : nat) (step : Z) (body : Z -> St -> option St) (i End : Z) (s : St) : option St :=
  if i <? End then
    match fuel with
    | O => None
    | S fuel => s ← body i s; for_loop fuel step body (u64 (i + step)) End s
    end
  else Some s.

Definition iterations (i End step : Z) : nat := Z.to_nat ((End - i + step - 1) / step).

Definition for_range {St} (i End step : Z) (body : Z -> St -> option St) (s : St) : option St :=
  for_loop (iterations i End step) step body i End s.

Module HostPage.
Section host.
  Context (HostSize : Z).

Definition Size : Z := HostSize.
Definition Mask : Z := u64 (Z.lnot (HostSize - 1)).
Definition AlignUp (Value : Z) : Z := u64 (Value + HostSize - 1) &&& Mask.
Definition AlignDown (Value : Z) : Z := Value &&& Mask.
Definition IsAligned (Value : Z) : bool := (Value &&& u64 (Z.lnot Mask)) =? 0.
Definition MatchesGuest : bool := HostSize =? FEX_GUEST_PAGE_SIZE.

End host.
End HostPage.

(** ** The table of write-protected code pages *)

Module SMC.

Record Entry := mkEntry {
  TrackedMask : Z;
  Flips : Z;
  WindowStart : Z;
  ValidateOnly : bool;
}.

Definition empty_entry : Entry := mkEntry 0 0 0 false.

Record GranuleTable := mkTable {
  Granules : gmap Z Entry;
  PendingReportGranule : Z;
  PendingReportFlips : Z;
  PendingReportTracked : Z;
  PendingReportDemoted : Z;
  DemotedCount : Z;
}.

Definition set_Granules (m : gmap Z Entry) (t : GranuleTable) : GranuleTable :=
  mkTable m (PendingReportGranule t) (PendingReportFlips t) (PendingReportTracked t)
    (PendingReportDemoted t) (DemotedCount t).

(** [__builtin_popcount] *)
Definition popcount (w : Z) : Z :=
  Z.of_nat (length (filter (fun i => Z.testbit w (Z.of_nat i) = true) (seq 0 32))).

Record Range := mkRange { Start : Z; RangeLength : Z }.

Record Config := mkConfig {
  FlipLogThreshold : Z;
  MixedFlipThreshold : Z;
  MixedMaxTracked : Z;
}.

Section host.
  Context (HostSize : Z).

Definition PagesPerGranule : Z := HostPage.Size HostSize >>> FEX_GUEST_PAGE_SHIFT.
Definition Enabled : bool := negb (HostPage.MatchesGuest HostSize).
Definition Base (Addr : Z) : Z := HostPage.AlignDown HostSize Addr.
Definition PageBit (Addr : Z) : Z := u32 (u64 (Addr - Base Addr) >>> FEX_GUEST_PAGE_SHIFT).

Definition Cover (RStart RLength : Z) : Range :=
  if negb Enabled then mkRange RStart RLength
  else
    let CoverBase := HostPage.AlignDown HostSize RStart in
    mkRange CoverBase (u64 (HostPage.AlignUp HostSize (u64 (RStart + RLength)) - CoverBase)).

Definition NoteArmed (t : GranuleTable) (GranuleBase PageMask : Z) : GranuleTable :=
  if negb Enabled || (PageMask =? 0) then t
  else
    let e := default empty_entry (Granules t !! GranuleBase) in
    if ValidateOnly e then set_Granules (<[GranuleBase := e]> (Granules t)) t
    else set_Granules (<[GranuleBase := mkEntry (TrackedMask e ||| PageMask) (Flips e) (WindowStart e)
                                          (ValidateOnly e)]> (Granules t)) t.

(** The mask as it was, and whether this fault demoted the granule; [Now] is the clock. *)
Definition NoteFault (cfg : Config) (Now : Z) (t : GranuleTable) (GranuleBase : Z) :
    GranuleTable * Z * bool :=
  if negb Enabled then (t, 0, false)
  else
    match Granules t !! GranuleBase with
    | None => (t, 0, false)
    | Some e =>
        let Mask := TrackedMask e in
        let timed := negb (FlipLogThreshold cfg =? 0) || negb (MixedFlipThreshold cfg =? 0) in
        let fresh_window := 1000000000 <=? u64 (Now - WindowStart e) in
        let start := if timed && fresh_window then Now else WindowStart e in
        let flips := if timed then (if fresh_window then 1 else u32 (Flips e + 1)) else Flips e in
        let log := timed && negb (FlipLogThreshold cfg =? 0) && (flips =? FlipLogThreshold cfg) in
        let demoted := timed && negb (MixedFlipThreshold cfg =? 0) && negb (ValidateOnly e) &&
                       (MixedFlipThreshold cfg <=? flips) && negb (Mask =? 0) &&
                       (popcount Mask <=? MixedMaxTracked cfg) in
        let e' := mkEntry 0 flips start (ValidateOnly e || demoted) in
        let ReportFlips := if log || demoted then flips else 0 in
        let report := negb (ReportFlips =? 0) in
        let t' := mkTable (<[GranuleBase := e']> (Granules t))
                    (if report then GranuleBase ||| 1 else PendingReportGranule t)
                    (if report then ReportFlips else PendingReportFlips t)
                    (if report then popcount Mask else PendingReportTracked t)
                    (if report then (if demoted then 1 else 0) else PendingReportDemoted t)
                    (if demoted then u32 (DemotedCount t + 1) else DemotedCount t) in
        (t', Mask, demoted)
    end.

(** The query of the same name in the source; the entry's flag has the plain name. *)
Definition IsValidateOnly (t : GranuleTable) (GranuleBase : Z) : bool :=
  if negb Enabled || (DemotedCount t =? 0) then false
  else match Granules t !! GranuleBase with None => false | Some e => ValidateOnly e end.

Definition Demoted (t : GranuleTable) : Z := DemotedCount t.

Definition Armed (t : GranuleTable) (GranuleBase : Z) : bool :=
  if negb Enabled then false
  else match Granules t !! GranuleBase with None => false | Some e => negb (TrackedMask e =? 0) end.

Definition Known (t : GranuleTable) (GranuleBase : Z) : bool :=
  if negb Enabled then false
  else match Granules t !! GranuleBase with None => false | Some _ => true end.

Definition TrackedCount (t : GranuleTable) (GranuleBase : Z) : Z :=
  if negb Enabled then 0
  else match Granules t !! GranuleBase with None => 0 | Some e => popcount (TrackedMask e) end.

(** The pending report as (granule, flips, tracked, demoted). *)
Definition TakeFlipReport (t : GranuleTable) : GranuleTable * option (Z * Z * Z * bool) :=
  let Slot := PendingReportGranule t in
  let t' := mkTable (Granules t) 0 (PendingReportFlips t) (PendingReportTracked t)
              (PendingReportDemoted t) (DemotedCount t) in
  if Slot =? 0 then (t', None)
  else (t', Some (Slot &&& u64 (Z.lnot 1), PendingReportFlips t, PendingReportTracked t,
                  negb (PendingReportDemoted t =? 0))).

(** The pages of one entry that [Forget] drops from its mask. *)
Definition ForgetPages (First Last : Z) (e : Entry) : option Entry :=
  for_range First Last FEX_GUEST_PAGE_SIZE
    (fun Page e => Some (mkEntry (TrackedMask e &&& u32 (Z.lnot (u32 (1 <<< PageBit Page))))
                           (Flips e) (WindowStart e) (ValidateOnly e))) e.

Definition Forget (t : GranuleTable) (RStart Top : Z) : option GranuleTable :=
  if negb Enabled then Some t
  else if bool_decide (Granules t = ∅) then Some t
  else
    let GranuleSize := HostPage.Size HostSize in
    m ← for_range (Base RStart) Top GranuleSize
      (fun G m =>
         match m !! G with
         | None => Some m
         | Some e =>
             let Whole := (RStart <=? G) && (u64 (G + GranuleSize) <=? Top) in
             if Whole || negb (ValidateOnly e) then Some (delete G m)
             else
               e ← ForgetPages (Z.max RStart G) (Z.min Top (u64 (G + GranuleSize))) e;
               Some (<[G := e]> m)
         end) (Granules t);
    Some (set_Granules m t).

(** [NoteGranulesArmed] of SyscallsSMCTracking.cpp: one call per granule of the range. *)
Definition ArmedMask (First Last Granule GranuleTop : Z) : option Z :=
  for_range (Z.max First Granule) (Z.min Last GranuleTop) FEX_GUEST_PAGE_SIZE
    (fun Page Mask => Some (Mask ||| u32 (1 <<< PageBit Page))) 0.

Definition NoteGranulesArmed (t : GranuleTable) (RStart RLength : Z) : option GranuleTable :=
  if negb Enabled then Some t
  else
    let First := RStart &&& FEX_GUEST_PAGE_MASK in
    let Last := Track.AlignUp (u64 (RStart + RLength)) FEX_GUEST_PAGE_SIZE in
    for_range (Base First) Last (HostPage.Size HostSize)
      (fun Granule t =>
         Mask ← ArmedMask First Last Granule (u64 (Granule + HostPage.Size HostSize));
         Some (NoteArmed t Granule Mask)) t.

(** [GranuleRangeDemoted]: every granule of the range is demoted. *)
Definition GranuleRangeDemoted (t : GranuleTable) (RStart RLength : Z) : option bool :=
  if negb Enabled then Some false
  else
    let Region := Cover RStart RLength in
    for_range (Start Region) (u64 (Start Region + RangeLength Region)) (HostPage.Size HostSize)
      (fun G all => Some (all && IsValidateOnly t G)) true.

End host.

(** ** Granules that owe an invalidation *)

Record RearmQueue := mkQueue { Pending : gset Z; Count : Z }.

Definition Add (q : RearmQueue) (GranuleBase : Z) : RearmQueue :=
  let p := {[GranuleBase]} ∪ Pending q in mkQueue p (Z.of_nat (size p)).

Definition Empty (q : RearmQueue) : bool := Count q =? 0.

Definition Take (q : RearmQueue) : RearmQueue * gset Z := (mkQueue ∅ 0, Pending q).

Definition Drop (HostSize : Z) (q : RearmQueue) (RStart Top : Z) : RearmQueue :=
  if Empty q then q
  else
    let p := filter (fun g => ~ (Base HostSize RStart <= g /\ g < Top)) (Pending q) in
    mkQueue p (Z.of_nat (size p)).

End SMC.

(** ** The table of intended protections *)

Module GT.

Definition PageLive : Z := 1.
Definition PageRead : Z := 2.
Definition PageWrite : Z := 4.
Definition PageExec : Z := 8.
Definition PageNibbleMask : Z := 0xF.

Definition MaxPagesPerGranule : Z := 16.
Definition MaxHostPageSize : Z := MaxPagesPerGranule * FEX_GUEST_PAGE_SIZE.

(** [if (c) x |= bit] *)
Definition or_if (c : bool) (x bit : Z) : Z := if c then x ||| bit else x.

Definition NibbleFromProt (Prot : Z) : Z :=
  let Nibble := PageLive in
  let Nibble := or_if (negb ((Prot &&& PROT_READ) =? 0)) Nibble PageRead in
  let Nibble := or_if (negb ((Prot &&& PROT_WRITE) =? 0)) Nibble PageWrite in
  or_if (negb ((Prot &&& PROT_EXEC) =? 0)) Nibble PageExec.

Definition ProtFromNibble (Nibble : Z) : Z :=
  let Prot := 0 in
  let Prot := or_if (negb ((Nibble &&& PageRead) =? 0)) Prot PROT_READ in
  let Prot := or_if (negb ((Nibble &&& PageWrite) =? 0)) Prot PROT_WRITE in
  or_if (negb ((Nibble &&& PageExec) =? 0)) Prot PROT_EXEC.

Record GranuleEntry := mkGranule {
  Nibbles : Z;
  HostProt : Z;
  FEXBacked : bool;
  SharedFd : Z;
  SharedOffset : Z;
}.

Definition empty_granule : GranuleEntry := mkGranule 0 0 false (-1) 0.

Definition set_Nibbles (w : Z) (e : GranuleEntry) : GranuleEntry :=
  mkGranule w (HostProt e) (FEXBacked e) (SharedFd e) (SharedOffset e).
Definition set_HostProt (p : Z) (e : GranuleEntry) : GranuleEntry :=
  mkGranule (Nibbles e) p (FEXBacked e) (SharedFd e) (SharedOffset e).

Definition NibbleAt (e : GranuleEntry) (Index : Z) : Z := (Nibbles e >>> (Index * 4)) &&& PageNibbleMask.

Definition SetNibbleAt (e : GranuleEntry) (Index Nibble : Z) : GranuleEntry :=
  let Shift := Index * 4 in
  set_Nibbles ((Nibbles e &&& u64 (Z.lnot (u64 (PageNibbleMask <<< Shift)))) |||
               u64 ((Nibble &&& PageNibbleMask) <<< Shift)) e.

Definition Empty (e : GranuleEntry) : bool := Nibbles e =? 0.

Abbreviation Table := (gmap Z GranuleEntry).

Section host.
  Context (asserts : bool) (HostSize : Z).

Definition Active : bool := negb (HostPage.MatchesGuest HostSize).
Definition PagesPerGranule : Z := HostPage.Size HostSize >>> FEX_GUEST_PAGE_SHIFT.
Definition HostPageRepresentable : bool := HostPage.Size HostSize <=? MaxHostPageSize.
Definition GranuleOf (Addr : Z) : Z := HostPage.AlignDown HostSize Addr.
Definition IndexOf (Addr : Z) : Z := u64 (Addr - GranuleOf Addr) >>> FEX_GUEST_PAGE_SHIFT.

(** The loop of [UnionProtOf]; [n] pages are left. *)
Fixpoint UnionLoop (n : nat) (Nibbles Union : Z) : Z :=
  match n with
  | O => Union
  | S n =>
      let Nibble := Nibbles &&& PageNibbleMask in
      UnionLoop n (Nibbles >>> 4)
        (if negb ((Nibble &&& PageLive) =? 0) then Union ||| Nibble else Union)
  end.

Definition UnionProtOf (e : GranuleEntry) : Z :=
  ProtFromNibble (UnionLoop (Z.to_nat PagesPerGranule) (Nibbles e) 0).

Definition Find (t : Table) (GranuleBase : Z) : option GranuleEntry := t !! GranuleBase.

Definition FindOrCreate (t : Table) (GranuleBase : Z) : option (Table * GranuleEntry) :=
  _ ← LOGMAN asserts HostPageRepresentable;
  match t !! GranuleBase with
  | Some e => Some (t, e)
  | None => Some (<[GranuleBase := empty_granule]> t, empty_granule)
  end.

Definition SetIntended (t : Table) (TBase Len Prot : Z) : option Table :=
  if Len =? 0 then Some t else
  _ ← LOGMAN asserts Active;
  let Nibble := NibbleFromProt Prot in
  let End := u64 (TBase + Len) in
  for_range TBase End FEX_GUEST_PAGE_SIZE
    (fun Page t =>
       te ← FindOrCreate t (GranuleOf Page);
       let '(t, e) := te in
       Some (<[GranuleOf Page := SetNibbleAt e (IndexOf Page) Nibble]> t)) t.

(** [Emptied] is whether the caller asks for the granules that emptied out. *)
Definition ClearIntended (t : Table) (TBase Len : Z) (Emptied : bool) : option (Table * list Z) :=
  if Len =? 0 then Some (t, []) else
  _ ← LOGMAN asserts Active;
  let End := u64 (TBase + Len) in
  t ← for_range TBase End FEX_GUEST_PAGE_SIZE
    (fun Page t =>
       match t !! GranuleOf Page with
       | None => Some t
       | Some e => Some (<[GranuleOf Page := SetNibbleAt e (IndexOf Page) 0]> t)
       end) t;
  if negb Emptied then Some (t, []) else
  let GranuleEnd := HostPage.AlignUp HostSize End in
  l ← for_range (GranuleOf TBase) GranuleEnd (HostPage.Size HostSize)
    (fun Granule l =>
       match Find t Granule with
       | Some e => Some (if Empty e then l ++ [Granule] else l)
       | None => Some l
       end) [];
  Some (t, l).

Definition LookupPage (t : Table) (GuestPage : Z) : option Z :=
  e ← Find t (GranuleOf GuestPage);
  let Nibble := NibbleAt e (IndexOf GuestPage) in
  if (Nibble &&& PageLive) =? 0 then None else Some (ProtFromNibble Nibble).

(** The descriptor to close is returned. *)
Definition Forget (t : Table) (GranuleBase : Z) : Table * option Z :=
  match t !! GranuleBase with
  | None => (t, None)
  | Some e => (delete GranuleBase t, if 0 <=? SharedFd e then Some (SharedFd e) else None)
  end.

Definition NoteHostProt (t : Table) (GranuleBase Prot : Z) : Table :=
  match t !! GranuleBase with
  | None => t
  | Some e => <[GranuleBase := set_HostProt (Prot &&& 7) e]> t
  end.

(** ** Materialisation *)

(** What the table asks of SMC tracking: whether it holds write permission back from a granule,
    and whether it ever touched the granule. *)
Class SMCView (T : Type) := {
  smc_armed : T -> Z -> bool;
  smc_known : T -> Z -> bool;
  smc_armed_known : forall t g, smc_armed t g = true -> smc_known t g = true;
}.

Section smc.
  Context {T} `{SMCView T} (smc : T).

Definition WantedProt (GranuleBase : Z) (e : GranuleEntry) : Z :=
  let Want := UnionProtOf e in
  if smc_armed smc GranuleBase then Want &&& Z.lnot PROT_WRITE else Want.

(** [ApplyGuestProt] adds the bit for strong access ordering while hardware TSO is live. *)
Definition ApplyGuestProt (Live : bool) (prot : Z) : Z := if Live then prot ||| 0x10 else prot.

(** The table, the protection the kernel is asked for, if any, and the result.  [ok] is the
    outcome of the [mprotect]. *)
Definition RematerialiseIfNeeded (Live ok : bool) (t : Table) (GranuleBase : Z) : Table * option Z * bool :=
  match t !! GranuleBase with
  | None => (t, None, true)
  | Some e =>
      let Want := WantedProt GranuleBase e in
      if (Want =? HostProt e) && negb (smc_known smc GranuleBase) then (t, None, true)
      else if ok then
        (<[GranuleBase := set_HostProt (u8 Want) e]> t, Some (ApplyGuestProt Live Want), true)
      else (t, Some (ApplyGuestProt Live Want), false)
  end.

(** [AssertInvariant] at one granule. *)
Definition invariant_at (GranuleBase : Z) (e : GranuleEntry) : bool :=
  (WantedProt GranuleBase e =? HostProt e) || smc_known smc GranuleBase.

Definition AssertInvariant (t : Table) : bool := forallb (fun '(g, e) => invariant_at g e) (map_to_list t).

End smc.
End host.
End GT.

(** SMC tracking's table keeps the promise. *)
Lemma Armed_Known HostSize t g : SMC.Armed HostSize t g = true -> SMC.Known HostSize t g = true.
Proof. unfold SMC.Armed, SMC.Known. destruct (negb _); [done|]. by destruct (_ !! g). Qed.

#[global] Instance SMC_view HostSize : GT.SMCView SMC.GranuleTable :=
  { smc_armed := SMC.Armed HostSize; smc_known := SMC.Known HostSize; smc_armed_known := Armed_Known HostSize }.
