(* ===== verification/GranuleProps.v ===== *)
(** * The granule tables: theorems

    The table of intended protections refines a map from guest pages to protections, the
    materialised protection is the least upper bound of a granule's live pages, and arming by
    SMC tracking survives every rematerialisation. *)

From S2P Require Import Prelude VMA VMALists VMATrack Granule.
Import VMA Track.

(** ** Counted loops *)

Lemma iterations_step i End step :
  0 < step -> i < End -> iterations i End step = S (iterations (i + step) End step).
Proof.
  intros Hs Hi. unfold iterations.
  replace (End - i + step - 1) with (End - (i + step) + step - 1 + 1 * step) by lia.
  rewrite Z.div_add by lia. rewrite <- Z2Nat.inj_succ; [f_equal; lia|].
  assert (0 <= (End - (i + step) + step - 1) / step); [|lia]. apply Z.div_pos; lia.
Qed.

(** The loop runs [body] at [i], [i + step], ... below [End], and stops at the next value. *)
Lemma for_range_rule {St} (I : Z -> St -> Prop) i End step body s :
  0 <= i -> 0 < step -> End + step <= 2 ^ 64 -> I i s ->
  (forall j s, i <= j < End -> (j - i) mod step = 0 -> I j s -> exists s', body j s = Some s' /\ I (j + step) s') ->
  exists s' j, for_range i End step body s = Some s' /\ I j s' /\ (j - i) mod step = 0 /\ i <= j /\ End <= j /\
    (i < End -> j < End + step) /\ (End <= i -> j = i).
Proof.
  intros H0 Hs He HI Hb. unfold for_range. remember (iterations i End step) as n eqn:Hn.
  revert i s H0 Hn HI Hb. induction n as [|n IH]; intros i s H0 Hn HI Hb; cbn [for_loop];
    (destruct (Z.ltb_spec i End) as [Hi|Hi];
     [|exists s, i; split_and!; try done; [by rewrite Z.sub_diag|lia..]]).
  - rewrite iterations_step in Hn by done. done.
  - rewrite iterations_step in Hn by done. injection Hn as Hn.
    destruct (Hb i s) as (s1 & -> & H1); [lia|by rewrite Z.sub_diag|done|]. cbn [mbind option_bind].
    rewrite u_small by (unfold is_u; lia).
    destruct (IH (i + step) s1) as (s' & j & Hrun & HIj & Hm & Hij & Hej & Hj & Hstop); [lia|done|done| |].
    { intros j s2 Hj Hm. apply Hb; [lia|]. replace (j - i) with (j - (i + step) + 1 * step) by lia.
      by rewrite Z.mod_add by lia. }
    exists s', j. split_and!; [done|done| |lia|done| |lia].
    + replace (j - i) with (j - (i + step) + 1 * step) by lia. by rewrite Z.mod_add by lia.
    + intros _. destruct (Z.lt_ge_cases (i + step) End) as [Hlt|Hge]; [auto|]. rewrite (Hstop Hge). lia.
Qed.

(** A loop over an aligned range stops at its end. *)
Lemma for_range_aligned {St} (I : Z -> St -> Prop) i End step body s :
  0 <= i <= End -> 0 < step -> End + step <= 2 ^ 64 -> (End - i) mod step = 0 -> I i s ->
  (forall j s, i <= j < End -> (j - i) mod step = 0 -> I j s -> exists s', body j s = Some s' /\ I (j + step) s') ->
  exists s', for_range i End step body s = Some s' /\ I End s'.
Proof.
  intros H0 Hs He Ha HI Hb.
  destruct (for_range_rule I i End step body s) as (s' & j & Hrun & HIj & Hm & Hij & Hej & Hj & Hstop);
    [lia|done|done|done|done|]. exists s'. split; [done|].
  assert (j = End) as <-; [|done]. destruct (Z.lt_ge_cases i End) as [Hlt|]; [|rewrite Hstop by lia; lia].
  specialize (Hj Hlt). apply Z.mod_divide in Hm as [x Hx]; [|lia]. apply Z.mod_divide in Ha as [y Hy]; [|lia].
  assert (0 <= (x - y) * step < step) as Hxy by lia. assert (x - y = 0) by nia. lia.
Qed.

(** ** Addresses *)

Lemma land_high s x : 0 <= s <= 64 -> is_u 64 x -> x &&& u64 (Z.lnot (2 ^ s - 1)) = x - x mod 2 ^ s.
Proof.
  intros Hs Hx. replace (2 ^ s - 1) with (Z.ones s) by (rewrite Z.ones_equiv; lia).
  assert (x &&& u64 (Z.lnot (Z.ones s)) = (x >>> s) <<< s) as ->.
  { apply Z.bits_inj'. intros n Hn. rewrite Z.land_spec, u_testbit, Z.lnot_spec, ones_testbit by lia.
    rewrite Z.shiftl_spec by lia. destruct (Z.ltb_spec n s); cbn [negb].
    - rewrite (Z.testbit_neg_r _ (n - s)) by lia. by rewrite andb_false_r, andb_false_r.
    - rewrite Z.shiftr_spec by lia. replace (n - s + s) with n by lia.
      destruct (Z.ltb_spec n 64); [by rewrite !andb_true_r|]. by rewrite (testbit_high 64 x) by (done || lia). }
  rewrite Z.shiftl_mul_pow2, Z.shiftr_div_pow2 by lia. pose proof (Z.div_mod x (2 ^ s) ltac:(lia)). lia.
Qed.

Import GT.

Lemma NibbleAt_bits e i n : 0 <= i -> 0 <= n ->
  Z.testbit (NibbleAt e i) n = (n <? 4) && Z.testbit (Nibbles e) (4 * i + n).
Proof.
  intros Hi Hn. unfold NibbleAt. change PageNibbleMask with (Z.ones 4).
  rewrite Z.land_spec, Z.shiftr_spec, ones_testbit by lia. rewrite andb_comm. do 2 f_equal. lia.
Qed.

Lemma SetNibbleAt_u e i n : is_u 64 (Nibbles e) -> 0 <= i < 16 -> is_u 64 (Nibbles (SetNibbleAt e i n)).
Proof.
  intros He Hi. cbn. apply lor_u; [|apply u_range; lia|lia]. apply land_u_r; [lia|]. apply u_range; lia.
Qed.

Lemma NibbleAt_Set e i j n :
  is_u 64 (Nibbles e) -> 0 <= i < 16 -> 0 <= j < 16 ->
  NibbleAt (SetNibbleAt e i n) j = if decide (i = j) then n &&& PageNibbleMask else NibbleAt e j.
Proof.
  intros He Hi Hj. apply Z.bits_inj'. intros b Hb. rewrite NibbleAt_bits by lia. cbn.
  change PageNibbleMask with (Z.ones 4). rewrite Z.lor_spec, Z.land_spec, !u_testbit, Z.lnot_spec, !u_testbit by lia.
  rewrite !Z.shiftl_spec, Z.land_spec by lia.
  assert (H64 : (4 * j + b <? 64) = true \/ (b <? 4) = false).
  { destruct (Z.ltb_spec b 4); [left|by right]. apply Z.ltb_lt. lia. }
  case_decide as E; [subst j|].
  - replace (4 * i + b - i * 4) with b by lia. rewrite Z.land_spec, ones_testbit by lia.
    destruct H64 as [-> | ->]; [|by rewrite !andb_false_r]. cbn. destruct (b <? 4); cbn; [|by rewrite !andb_false_r].
    by rewrite andb_false_r, andb_true_r.
  - rewrite NibbleAt_bits by lia. destruct (Z.ltb_spec b 4); [|done]. cbn.
    assert (Hz : forall x, Z.testbit (Z.ones 4) (4 * j + b - i * 4) && x = false).
    { intros x. destruct (Z.lt_ge_cases (4 * j + b - i * 4) 0); [by rewrite Z.testbit_neg_r by lia|].
      rewrite ones_testbit by lia. destruct (Z.ltb_spec (4 * j + b - i * 4) 4); [lia|done]. }
    rewrite (andb_comm (Z.testbit n _)), Hz, andb_false_r, orb_false_r.
    pose proof (Hz true) as Hz'. rewrite andb_true_r in Hz'. rewrite Hz', andb_false_r. cbn.
    destruct (Z.ltb_spec (4 * j + b) 64); [|lia]. by rewrite andb_true_r.
Qed.

(** One bit of a word. *)
Lemma land_bit_cases x b v : v = 2 ^ b -> 0 <= b -> (x &&& v) = 0 \/ (x &&& v) = v.
Proof.
  intros -> Hb. destruct (Z.testbit x b) eqn:E; [right|left]; apply Z.bits_inj'; intros n Hn;
    rewrite Z.land_spec, ?Z.bits_0; destruct (decide (n = b)) as [->|];
    rewrite ?Z.pow2_bits_true, ?(Z.pow2_bits_false b n), ?E, ?andb_false_r by lia; done.
Qed.

(** A nibble encodes liveness and the three protection bits. *)
Lemma nibble_roundtrip Prot : ProtFromNibble (NibbleFromProt Prot &&& PageNibbleMask) = Prot &&& 7.
Proof.
  replace (Prot &&& 7) with ((Prot &&& 1) ||| (Prot &&& 2) ||| (Prot &&& 4)) by (by rewrite <- !Z.land_lor_distr_r).
  unfold NibbleFromProt. destruct (land_bit_cases Prot 0 1 eq_refl ltac:(lia)) as [-> | ->], (land_bit_cases Prot 1 2 eq_refl ltac:(lia)) as [-> | ->],
    (land_bit_cases Prot 2 4 eq_refl ltac:(lia)) as [-> | ->]; reflexivity.
Qed.

(** Protections are joined bit by bit. *)
Lemma ProtFromNibble_lor x y : ProtFromNibble (x ||| y) = ProtFromNibble x ||| ProtFromNibble y.
Proof.
  unfold ProtFromNibble, PageRead, PageWrite, PageExec. rewrite !Z.land_lor_distr_l.
  destruct (land_bit_cases x 1 2 eq_refl ltac:(lia)) as [-> | ->], (land_bit_cases x 2 4 eq_refl ltac:(lia)) as [-> | ->],
    (land_bit_cases x 3 8 eq_refl ltac:(lia)) as [-> | ->], (land_bit_cases y 1 2 eq_refl ltac:(lia)) as [-> | ->],
    (land_bit_cases y 2 4 eq_refl ltac:(lia)) as [-> | ->], (land_bit_cases y 3 8 eq_refl ltac:(lia)) as [-> | ->]; reflexivity.
Qed.

Lemma ProtFromNibble_bits x : 0 <= ProtFromNibble x <= 7.
Proof.
  unfold ProtFromNibble. destruct (negb (x &&& PageRead =? 0)), (negb (x &&& PageWrite =? 0)), (negb (x &&& PageExec =? 0));
    by vm_compute.
Qed.

Lemma nibble_live Prot : (NibbleFromProt Prot &&& PageNibbleMask) &&& PageLive <> 0.
Proof.
  unfold NibbleFromProt, or_if.
  destruct (negb (Prot &&& PROT_READ =? 0)), (negb (Prot &&& PROT_WRITE =? 0)), (negb (Prot &&& PROT_EXEC =? 0)); done.
Qed.

Section table.
  Context (asserts : bool) (s : Z) (Hs : 12 <= s <= 16).
  Abbreviation HS := (2 ^ s).

Lemma host_bounds : 4096 <= HS <= 65536.
Proof.
  pose proof (Z.pow_le_mono_r 2 12 s ltac:(lia) ltac:(lia)). pose proof (Z.pow_le_mono_r 2 s 16 ltac:(lia) ltac:(lia)).
  change (2 ^ 12) with 4096 in *. change (2 ^ 16) with 65536 in *. lia.
Qed.

Lemma host_pages : HS = 4096 * 2 ^ (s - 12).
Proof. change 4096 with (2 ^ 12). rewrite <- Z.pow_add_r by lia. f_equal. lia. Qed.

Lemma Representable_host : HostPageRepresentable HS = true.
Proof. pose proof host_bounds. apply Z.leb_le. unfold HostPage.Size, MaxHostPageSize, MaxPagesPerGranule, FEX_GUEST_PAGE_SIZE. lia. Qed.

Lemma GranuleOf_eq a : is_u 64 a -> GranuleOf HS a = a - a mod HS.
Proof. intros Ha. apply land_high; [lia|done]. Qed.

Lemma IndexOf_eq a : is_u 64 a -> IndexOf HS a = (a mod HS) / 4096.
Proof.
  intros Ha. unfold IndexOf. rewrite GranuleOf_eq by done. pose proof host_bounds.
  pose proof (Z.mod_pos_bound a HS ltac:(lia)). unfold is_u in Ha.
  rewrite u_small by (unfold is_u; lia). rewrite Z.shiftr_div_pow2 by (unfold FEX_GUEST_PAGE_SHIFT; lia).
  f_equal. lia.
Qed.

Lemma IndexOf_bound a : is_u 64 a -> 0 <= IndexOf HS a < 16.
Proof.
  intros Ha. rewrite IndexOf_eq by done. pose proof host_bounds. pose proof (Z.mod_pos_bound a HS ltac:(lia)).
  split; [apply Z.div_pos; lia|]. apply Z.div_lt_upper_bound; lia.
Qed.

(** Granule and index determine the page. *)
Lemma page_unique a b :
  is_u 64 a -> is_u 64 b -> a mod 4096 = 0 -> b mod 4096 = 0 ->
  GranuleOf HS a = GranuleOf HS b -> IndexOf HS a = IndexOf HS b -> a = b.
Proof.
  intros Ha Hb Pa Pb. rewrite !GranuleOf_eq, !IndexOf_eq by done. intros Hg Hi.
  assert (Hm : forall x, x mod 4096 = 0 -> (x mod HS) mod 4096 = 0).
  { intros x Hx. rewrite Z.mod_mod_divide; [done|]. exists (2 ^ (s - 12)). rewrite host_pages. lia. }
  pose proof (Hm a Pa) as Ea. pose proof (Hm b Pb) as Eb.
  pose proof (Z.div_mod (a mod HS) 4096 ltac:(lia)). pose proof (Z.div_mod (b mod HS) 4096 ltac:(lia)). lia.
Qed.

(** ** Granules *)

Lemma IndexOf_pages a : is_u 64 a -> IndexOf HS a < 2 ^ (s - 12).
Proof.
  intros Ha. rewrite IndexOf_eq by done. pose proof host_bounds. pose proof host_pages.
  pose proof (Z.mod_pos_bound a HS ltac:(lia)). apply Z.div_lt_upper_bound; lia.
Qed.

Lemma pages_max : 0 < 2 ^ (s - 12) <= 16.
Proof. pose proof (Z.pow_le_mono_r 2 (s - 12) 4 ltac:(lia) ltac:(lia)). change (2 ^ 4) with 16 in *. lia. Qed.

Lemma granule_base a : is_u 64 a -> GranuleOf HS a mod HS = 0 /\ GranuleOf HS a <= a < GranuleOf HS a + HS.
Proof.
  intros Ha. rewrite GranuleOf_eq by done. pose proof host_bounds. pose proof (Z.mod_pos_bound a HS ltac:(lia)).
  split; [|lia]. rewrite (Z.mod_eq a), Z.sub_sub_distr, Z.sub_diag, Z.add_0_l, Z.mul_comm by lia. apply Z.mod_mul. lia.
Qed.

Lemma granule_unique g a : is_u 64 a -> g mod HS = 0 -> g <= a < g + HS -> GranuleOf HS a = g.
Proof.
  intros Ha Hg Hr. rewrite GranuleOf_eq by done. pose proof host_bounds. apply Z.mod_divide in Hg as [k ->]; [|lia].
  replace a with (a - k * HS + k * HS) at 2 by lia. rewrite Z.mod_add, Z.mod_small by lia. lia.
Qed.

(** The pages of a granule. *)
Definition page (g i : Z) : Z := g + 4096 * i.

Lemma page_spec g i :
  0 <= g <= 2 ^ 63 -> g mod HS = 0 -> 0 <= i < 2 ^ (s - 12) ->
  is_u 64 (page g i) /\ page g i mod 4096 = 0 /\ GranuleOf HS (page g i) = g /\ IndexOf HS (page g i) = i.
Proof.
  intros Hg Hm Hi. pose proof host_bounds. pose proof host_pages as Hp. unfold page.
  assert (Hu : is_u 64 (g + 4096 * i)) by (unfold is_u; lia).
  assert (HG : GranuleOf HS (g + 4096 * i) = g) by (apply granule_unique; [done|done|nia]).
  split_and!; [done| |done|].
  - apply Z.mod_divide in Hm as [k ->]; [|lia]. rewrite Hp.
    replace (k * (4096 * 2 ^ (s - 12)) + 4096 * i) with ((k * 2 ^ (s - 12) + i) * 4096) by lia. apply Z.mod_mul. lia.
  - unfold IndexOf. rewrite HG. replace (g + 4096 * i - g) with (i * 2 ^ 12) by lia.
    rewrite u_small by (unfold is_u; pose proof pages_max; lia). unfold FEX_GUEST_PAGE_SHIFT.
    rewrite Z.shiftr_div_pow2 by lia. apply Z.div_mul. lia.
Qed.

Lemma page_index a : is_u 64 a -> a mod 4096 = 0 -> a <= 2 ^ 63 -> a = page (GranuleOf HS a) (IndexOf HS a).
Proof.
  intros Ha Pa Hh. destruct (granule_base a Ha) as [Hm Hb]. pose proof host_bounds.
  pose proof (IndexOf_bound a Ha). pose proof (IndexOf_pages a Ha). unfold is_u in Ha.
  destruct (page_spec (GranuleOf HS a) (IndexOf HS a)) as (P1 & P2 & P3 & P4); [|done|lia|].
  - rewrite GranuleOf_eq in * by done. pose proof (Z.mod_le a HS ltac:(lia) ltac:(lia)). lia.
  - by apply page_unique.
Qed.

Lemma AlignUp_host x : 0 <= x -> x + 65536 <= 2 ^ 64 ->
  HostPage.AlignUp HS x mod HS = 0 /\ x <= HostPage.AlignUp HS x < x + HS.
Proof.
  intros H0 H1. pose proof host_bounds. unfold HostPage.AlignUp, HostPage.Mask.
  rewrite u_small by (unfold is_u; lia). assert (Hu : is_u 64 (x + HS - 1)) by (unfold is_u; lia).
  change (GranuleOf HS (x + HS - 1) mod HS = 0 /\ x <= GranuleOf HS (x + HS - 1) < x + HS).
  pose proof (granule_base _ Hu). lia.
Qed.

Lemma mod_gap k a b : 0 < k -> a mod k = 0 -> b mod k = 0 -> a < b -> a + k <= b.
Proof.
  intros Hk Ha Hb Hlt. apply Z.mod_divide in Ha as [x ->]; [|lia]. apply Z.mod_divide in Hb as [y ->]; [|lia].
  apply (Z.mul_lt_mono_pos_r k) in Hlt; [|done]. rewrite <- (Z.mul_1_l k) at 2. rewrite <- Z.mul_add_distr_r.
  apply Z.mul_le_mono_nonneg_r; lia.
Qed.

(** The granules that a range of pages touches. *)
Lemma granule_range TBase End g :
  0 <= TBase < End -> End <= 2 ^ 63 ->
  (g mod HS = 0 /\ GranuleOf HS TBase <= g < HostPage.AlignUp HS End) <->
  (exists a, TBase <= a < End /\ GranuleOf HS a = g).
Proof.
  intros HT HE. pose proof host_bounds. destruct (AlignUp_host End) as [Hum Hu]; [lia|lia|].
  destruct (granule_base TBase) as [Hbm Hb]; [unfold is_u; lia|]. split.
  - intros [Hm Hg]. exists (Z.max TBase g). assert (Hge : g < End).
    { pose proof (mod_gap HS g _ ltac:(lia) Hm Hum ltac:(lia)). lia. }
    split; [lia|]. apply granule_unique; [unfold is_u; lia|done|]. lia.
  - intros (a & Ha & <-). destruct (granule_base a) as [Hm Hg]; [unfold is_u; lia|]. split; [done|].
    split; [|lia]. destruct (Z.lt_ge_cases (GranuleOf HS a) (GranuleOf HS TBase)) as [Hlt|]; [|done].
    pose proof (mod_gap HS _ _ ltac:(lia) Hm Hbm Hlt). lia.
Qed.

(** ** The page map *)

(** A nibble is live or zero, and only a granule's own pages have one. *)
Definition wf_nibble (i n : Z) : Prop := n = 0 \/ (i < 2 ^ (s - 12) /\ n &&& PageLive <> 0).

Definition wf_entry (e : GranuleEntry) : Prop :=
  is_u 64 (Nibbles e) /\ forall i, 0 <= i < 16 -> wf_nibble i (NibbleAt e i).

Definition wf_table (t : Table) : Prop := forall g e, t !! g = Some e -> wf_entry e.

Lemma wf_empty : wf_entry empty_granule.
Proof. split; [done|]. intros i Hi. left. unfold NibbleAt. cbn. by rewrite Z.shiftr_0_l. Qed.

Lemma wf_get t g : wf_table t -> wf_entry (default empty_granule (t !! g)).
Proof. intros Ht. destruct (t !! g) as [e|] eqn:E; [by eapply Ht|apply wf_empty]. Qed.

Lemma wf_SetNibbleAt e i n :
  wf_entry e -> 0 <= i < 2 ^ (s - 12) -> n = 0 \/ (n &&& PageNibbleMask) &&& PageLive <> 0 ->
  wf_entry (SetNibbleAt e i n).
Proof.
  intros [Hu He] Hi Hn. pose proof pages_max. split; [apply SetNibbleAt_u; [done|lia]|].
  intros j Hj. rewrite NibbleAt_Set by (done || lia). case_decide as E; [|by apply He].
  destruct Hn as [->|Hn]; [by left|right]. split; [lia|done].
Qed.

Lemma wf_put t g e : wf_table t -> wf_entry e -> wf_table (<[g := e]> t).
Proof. intros Ht He g' e' [[<- <-]|[_ Hg]]%lookup_insert_Some; [done|by eapply Ht]. Qed.

(** What a page looks like after its nibble, or another page's, is written. *)
Lemma LookupPage_put t e p a n :
  wf_table t -> default empty_granule (t !! GranuleOf HS p) = e ->
  is_u 64 p -> is_u 64 a -> p mod 4096 = 0 -> a mod 4096 = 0 ->
  LookupPage HS (<[GranuleOf HS p := SetNibbleAt e (IndexOf HS p) n]> t) a =
  if decide (a = p) then
    if (n &&& PageNibbleMask) &&& PageLive =? 0 then None else Some (ProtFromNibble (n &&& PageNibbleMask))
  else LookupPage HS t a.
Proof.
  intros Ht <- Hp Ha Pp Pa. unfold LookupPage, Find.
  destruct (wf_get t (GranuleOf HS p) Ht) as [He _].
  pose proof (IndexOf_bound p Hp) as Ip. pose proof (IndexOf_bound a Ha) as Ia.
  case_decide as E; [rewrite E, lookup_insert_eq; cbn [mbind option_bind]; by rewrite NibbleAt_Set, decide_True by done|].
  destruct (decide (GranuleOf HS p = GranuleOf HS a)) as [Eg|Eg]; [|by rewrite lookup_insert_ne].
  rewrite <- Eg, lookup_insert_eq. cbn [mbind option_bind].
  rewrite NibbleAt_Set, decide_False by (done || intros Ei; by apply E, page_unique).
  destruct (t !! GranuleOf HS p) as [e|]; [done|]. cbn [default mbind option_bind].
  unfold NibbleAt. cbn [Nibbles empty_granule]. by rewrite Z.shiftr_0_l.
Qed.

(** A range of whole guest pages in the user half of the address space. *)
Definition page_aligned (TBase Len : Z) : Prop :=
  0 <= TBase /\ 0 <= Len /\ TBase + Len <= 2 ^ 63 /\ TBase mod 4096 = 0 /\ Len mod 4096 = 0.

(** The page map with the pages of a range replaced. *)
Definition paint (TBase End : Z) (r : option Z) (t : Table) (a : Z) : option Z :=
  if decide (TBase <= a < End) then r else LookupPage HS t a.

Lemma paint_empty TBase r t a : paint TBase TBase r t a = LookupPage HS t a.
Proof. unfold paint. case_decide; [lia|done]. Qed.

Lemma paint_next TBase j r t a :
  TBase <= j -> j mod 4096 = 0 -> a mod 4096 = 0 ->
  paint TBase (j + 4096) r t a = if decide (a = j) then r else paint TBase j r t a.
Proof.
  intros Hj Pj Pa. pose proof (Z.div_mod a 4096 ltac:(lia)). pose proof (Z.div_mod j 4096 ltac:(lia)).
  unfold paint. repeat case_decide; (done || lia).
Qed.

(** The table [t'] is [t] with the page map [m]; nothing else about its granules changed. *)
Definition repainted (t t' : Table) (m : Z -> option Z) : Prop :=
  wf_table t' /\
  (forall a, is_u 64 a -> a mod 4096 = 0 -> LookupPage HS t' a = m a) /\
  (forall g e, t !! g = Some e -> exists w, t' !! g = Some (set_Nibbles w e)).

Lemma repainted_refl t : wf_table t -> repainted t t (LookupPage HS t).
Proof. intros Ht. split_and!; [done|done|]. intros g [w p b f o] He. by exists w. Qed.

Lemma repainted_ext t t' m m' :
  repainted t t' m -> (forall a, a mod 4096 = 0 -> m a = m' a) -> repainted t t' m'.
Proof. intros (H1 & H2 & H3) Hm. split_and!; [done| |done]. intros a Ha Pa. by rewrite H2, Hm. Qed.

(** One page written. *)
Lemma repainted_put t t1 TBase j r n :
  repainted t t1 (paint TBase j r t) -> is_u 64 j -> TBase <= j -> j mod 4096 = 0 ->
  n = 0 \/ (n &&& PageNibbleMask) &&& PageLive <> 0 ->
  r = (if (n &&& PageNibbleMask) &&& PageLive =? 0 then None else Some (ProtFromNibble (n &&& PageNibbleMask))) ->
  repainted t (<[GranuleOf HS j := SetNibbleAt (default empty_granule (t1 !! GranuleOf HS j)) (IndexOf HS j) n]> t1)
    (paint TBase (j + 4096) r t).
Proof.
  intros (Hw & Hl & Hk) Hju Hj Pj Hn Hr. split_and!.
  - apply wf_put, wf_SetNibbleAt; [done|by apply wf_get| |done].
    pose proof (IndexOf_bound j Hju). split; [lia|by apply IndexOf_pages].
  - intros a Ha Pa. rewrite LookupPage_put by done. rewrite <- Hr, Hl, paint_next by done. done.
  - intros g e He. destruct (Hk g e He) as [w Hw']. destruct (decide (GranuleOf HS j = g)) as [<-|Hg].
    + rewrite lookup_insert_eq, Hw'. cbn. by eexists.
    + rewrite lookup_insert_ne by done. eauto.
Qed.

Lemma mod_step i j k : 0 < k -> i mod k = 0 -> (j - i) mod k = 0 -> j mod k = 0.
Proof. intros Hk Hi Hj. replace j with (i + (j - i)) by lia. by rewrite Z.add_mod, Hi, Hj by lia. Qed.

(** The tables are used where a granule has several pages. *)
  Context (Hbig : 12 < s).

Lemma Active_host : GT.Active HS = true.
Proof.
  unfold Active, HostPage.MatchesGuest. pose proof (Z.pow_lt_mono_r 2 12 s ltac:(lia) ltac:(lia) Hbig).
  destruct (Z.eqb_spec HS FEX_GUEST_PAGE_SIZE); [unfold FEX_GUEST_PAGE_SIZE in *; lia|done].
Qed.

Lemma SetIntended_spec t TBase Len Prot :
  wf_table t -> page_aligned TBase Len ->
  exists t', SetIntended asserts HS t TBase Len Prot = Some t' /\
    repainted t t' (paint TBase (TBase + Len) (Some (Prot &&& 7)) t).
Proof.
  intros Ht (H0 & H1 & H2 & H3 & H4). unfold SetIntended, FEX_GUEST_PAGE_SIZE.
  destruct (Z.eqb_spec Len 0) as [->|Hne].
  { exists t. split; [done|]. rewrite Z.add_0_r. eapply repainted_ext; [by apply repainted_refl|].
    intros a _. by rewrite paint_empty. }
  rewrite LOGMAN_true by apply Active_host. cbn [mbind option_bind]. rewrite u_small by (unfold is_u; lia).
  apply (for_range_aligned (fun j t' => repainted t t' (paint TBase j (Some (Prot &&& 7)) t))); [lia|lia|lia| | |].
  - by replace (TBase + Len - TBase) with Len by lia.
  - eapply repainted_ext; [by apply repainted_refl|]. intros a _. by rewrite paint_empty.
  - intros j t1 Hj Hm HI. unfold FindOrCreate. rewrite LOGMAN_true by apply Representable_host.
    cbn [mbind option_bind]. eexists. split; [|eapply (repainted_put _ _ _ _ _ (NibbleFromProt Prot));
      [done|unfold is_u; lia|lia|by eapply mod_step; [| |exact Hm]|right; apply nibble_live|]].
    + destruct (t1 !! GranuleOf HS j); cbn; [done|]. by rewrite insert_insert_eq.
    + rewrite nibble_roundtrip. pose proof (nibble_live Prot).
      by destruct (Z.eqb_spec ((NibbleFromProt Prot &&& PageNibbleMask) &&& PageLive) 0).
Qed.

(** Clearing leaves a granule without an entry without one. *)
Lemma clear_loop t TBase Len :
  wf_table t -> page_aligned TBase Len ->
  exists t', for_range TBase (TBase + Len) FEX_GUEST_PAGE_SIZE
    (fun Page t =>
       match t !! GranuleOf HS Page with
       | None => Some t
       | Some e => Some (<[GranuleOf HS Page := SetNibbleAt e (IndexOf HS Page) 0]> t)
       end) t = Some t' /\
    repainted t t' (paint TBase (TBase + Len) None t) /\ dom t' = dom t.
Proof.
  intros Ht (H0 & H1 & H2 & H3 & H4). unfold FEX_GUEST_PAGE_SIZE.
  apply (for_range_aligned (fun j t' => repainted t t' (paint TBase j None t) /\ dom t' = dom t)); [lia|lia|lia| | |].
  - by replace (TBase + Len - TBase) with Len by lia.
  - split; [|done]. eapply repainted_ext; [by apply repainted_refl|]. intros a _. by rewrite paint_empty.
  - intros j t1 Hj Hm [HI Hd]. assert (Hju : is_u 64 j) by (unfold is_u; lia).
    assert (Pj : j mod 4096 = 0) by (eapply mod_step; [| |exact Hm]; [lia|done]).
    destruct (t1 !! GranuleOf HS j) as [e|] eqn:E.
    + eexists. split; [done|]. split.
      * pose proof (repainted_put t t1 TBase j None 0 HI Hju ltac:(lia) Pj ltac:(by left) eq_refl) as Hp.
        by rewrite E in Hp.
      * rewrite dom_insert_L, <- Hd. assert (GranuleOf HS j ∈ dom t1) by (by apply elem_of_dom). set_solver.
    + exists t1. split; [done|]. split; [|done]. eapply repainted_ext; [exact HI|]. intros a Pa.
      rewrite paint_next by (done || lia). case_decide as Ea; [|done]. destruct HI as (_ & Hl & _).
      rewrite <- Hl by (by subst). subst a. unfold LookupPage, Find. by rewrite E.
Qed.

(** No nibble is left exactly when no page is live. *)
Lemma Empty_iff e :
  wf_entry e -> Empty e = true <-> forall i, 0 <= i < 2 ^ (s - 12) -> NibbleAt e i &&& PageLive = 0.
Proof.
  intros [Hu He]. pose proof pages_max. unfold Empty. rewrite Z.eqb_eq. split.
  - intros E i Hi. unfold NibbleAt. by rewrite E, Z.shiftr_0_l.
  - intros Hdead. apply Z.bits_inj'. intros n Hn. rewrite Z.bits_0.
    destruct (Z.lt_ge_cases n 64); [|by apply (testbit_high 64)].
    pose proof (Z.div_mod n 4 ltac:(lia)). pose proof (Z.mod_pos_bound n 4 ltac:(lia)).
    assert (Hi : 0 <= n / 4 < 16) by lia.
    pose proof (NibbleAt_bits e (n / 4) (n mod 4) ltac:(lia) ltac:(lia)) as Hb.
    replace (4 * (n / 4) + n mod 4) with n in Hb by lia.
    destruct (Z.ltb_spec (n mod 4) 4); [|lia]. cbn in Hb. rewrite <- Hb.
    destruct (He _ Hi) as [-> | [Hlt Hl]]; [by rewrite Z.bits_0|]. destruct Hl. apply Hdead. lia.
Qed.

Definition dead (t : Table) (g : Z) : Prop :=
  forall a, 0 <= a <= 2 ^ 63 -> a mod 4096 = 0 -> GranuleOf HS a = g -> LookupPage HS t a = None.

Lemma dead_Empty t g e : wf_table t -> t !! g = Some e -> 0 <= g <= 2 ^ 62 + 65536 -> g mod HS = 0 -> Empty e = true <-> dead t g.
Proof.
  intros Ht He Hg Hm. rewrite Empty_iff by (by eapply Ht). pose proof pages_max. pose proof host_bounds. split.
  - intros Hd a Ha Pa HG. unfold LookupPage, Find. rewrite HG, He. cbn.
    assert (Hu : is_u 64 a) by (unfold is_u; lia). pose proof (IndexOf_bound a Hu). pose proof (IndexOf_pages a Hu).
    by rewrite Hd by lia.
  - intros Hd i Hi. destruct (page_spec g i) as (P1 & P2 & P3 & P4); [lia|done|done|].
    specialize (Hd (page g i)). unfold LookupPage, Find in Hd. rewrite P3, P4, He in Hd. cbn in Hd.
    destruct (Z.eqb_spec (NibbleAt e i &&& PageLive) 0); [done|]. unfold page in *. discriminate Hd; [lia|done|done].
Qed.

(** [ClearIntended] unmaps exactly the pages of the range in the page map and creates no
    granule, and the granules it reports as emptied are exactly those that the range touches,
    that have an entry, and that have no live page left. *)
Theorem ClearIntended_exact t TBase Len b :
  wf_table t -> page_aligned TBase Len -> 0 < Len -> TBase + Len <= 2 ^ 62 ->
  exists t' l, ClearIntended asserts HS t TBase Len b = Some (t', if b then l else []) /\
    repainted t t' (paint TBase (TBase + Len) None t) /\ dom t' = dom t /\
    (forall g, g ∈ l <-> (exists a, TBase <= a < TBase + Len /\ GranuleOf HS a = g) /\ g ∈ dom t /\ dead t' g).
Proof.
  intros Ht Hp Hl H62. destruct (clear_loop t TBase Len Ht Hp) as (t' & Hrun & Hrep & Hdom).
  destruct Hp as (H0 & H1 & H2 & H3 & H4). pose proof host_bounds.
  destruct (AlignUp_host (TBase + Len)) as [Hum Hu]; [lia|lia|].
  destruct (granule_base TBase) as [Hbm Hb]; [unfold is_u; lia|].
  assert (Hg0 : 0 <= GranuleOf HS TBase) by (apply Z.land_nonneg; by left).
  unfold ClearIntended. destruct (Z.eqb_spec Len 0); [lia|]. rewrite LOGMAN_true by apply Active_host.
  cbn [mbind option_bind]. rewrite u_small by (unfold is_u; lia). rewrite Hrun. cbn [mbind option_bind].
  destruct (for_range_aligned (fun j l => forall g, g ∈ l <-> (g mod HS = 0 /\ GranuleOf HS TBase <= g < j) /\
      g ∈ dom t /\ dead t' g)
    (GranuleOf HS TBase) (HostPage.AlignUp HS (TBase + Len)) (HostPage.Size HS)
    (fun Granule l => match Find t' Granule with
       | Some e => Some (if Empty e then l ++ [Granule] else l) | None => Some l end) [])
    as (l & Hrun' & Hl'); [lia|unfold HostPage.Size; lia|unfold HostPage.Size; lia| | | |].
  - unfold HostPage.Size. rewrite Zminus_mod, Hum, Hbm. done.
  - intros g. rewrite elem_of_nil. split; [done|lia].
  - intros j l Hj Hm HI. assert (Hjm : j mod HS = 0) by (eapply mod_step; [| |exact Hm]; [lia|done]).
    assert (Hnext : forall g, (g mod HS = 0 /\ GranuleOf HS TBase <= g < j + HS) <->
      (g mod HS = 0 /\ GranuleOf HS TBase <= g < j) \/ g = j).
    { intros g. split; [|intros [?| ->]; [lia|split; [done|lia]]]. intros [Hg Hr].
      destruct (Z.lt_trichotomy g j) as [|[|Hgt]]; [left; lia|by right|].
      pose proof (mod_gap HS j g ltac:(lia) Hjm Hg Hgt). lia. }
    unfold HostPage.Size in *. unfold Find. destruct (t' !! j) as [e|] eqn:E.
    + eexists. split; [done|]. intros g. rewrite Hnext.
      assert (Hd : Empty e = true <-> dead t' j) by (apply dead_Empty; [by destruct Hrep|done|lia|done]).
      assert (Hjd : j ∈ dom t) by (rewrite <- Hdom; by apply elem_of_dom).
      destruct (Empty e); [rewrite elem_of_app, list_elem_of_singleton|]; rewrite HI; split.
      * intros [(? & ? & ?)| ->]; [tauto|]. split_and!; [by right|done|by apply Hd].
      * intros ([?| ->] & ? & ?); [left; tauto|by right].
      * tauto.
      * intros ([?| ->] & ? & Hdd); [tauto|]. by apply Hd in Hdd.
    + exists l. split; [done|]. intros g. rewrite Hnext, HI. split; [intuition|]. intros ([?|Hgj] & Hin & ?); [tauto|].
      apply not_elem_of_dom in E. rewrite Hdom in E. by rewrite Hgj in Hin.
  - exists t', l. split.
    { destruct b; cbn [negb]; [|done]. by rewrite Hrun'. }
    split_and!; [done|done|]. intros g. rewrite Hl', granule_range by lia. done.
Qed.

(** ** The union of a granule's protections *)

(** What the page map says of a granule: the join of the protections of its live pages. *)
Definition joined (t : Table) (g : Z) : Z :=
  foldr (fun i acc => default 0 (LookupPage HS t (page g i)) ||| acc) 0 (seqZ 0 (2 ^ (s - 12))).

Definition nibble_prot (w i : Z) : Z :=
  let Nibble := (w >>> (i * 4)) &&& PageNibbleMask in
  if negb ((Nibble &&& PageLive) =? 0) then ProtFromNibble Nibble else 0.

Lemma UnionLoop_spec n k w U : 0 <= k ->
  ProtFromNibble (UnionLoop n (w >>> (k * 4)) U) =
  ProtFromNibble U ||| foldr (fun i acc => nibble_prot w i ||| acc) 0 (seqZ k (Z.of_nat n)).
Proof.
  revert k U. induction n as [|n IH]; intros k U Hk; [by rewrite Z.lor_0_r|].
  cbn [UnionLoop]. rewrite seqZ_cons by lia. cbn [foldr]. rewrite Z.shiftr_shiftr by lia.
  replace (k * 4 + 4) with ((k + 1) * 4) by lia. rewrite IH by lia.
  replace (Z.pred (Z.of_nat (S n))) with (Z.of_nat n) by lia. unfold Z.succ, nibble_prot at 2.
  destruct (negb _); [by rewrite ProtFromNibble_lor, Z.lor_assoc|done].
Qed.

(** The protection that the granule table materialises is the join of the intended
    protections of the granule's live guest pages, as the page map gives them. *)
Theorem UnionProtOf_joined t g e :
  wf_table t -> t !! g = Some e -> 0 <= g <= 2 ^ 62 -> g mod HS = 0 -> UnionProtOf HS e = joined t g.
Proof.
  intros Ht He Hg Hm. pose proof pages_max. unfold UnionProtOf.
  assert (PagesPerGranule HS = 2 ^ (s - 12)) as ->.
  { unfold PagesPerGranule, HostPage.Size, FEX_GUEST_PAGE_SHIFT. rewrite Z.shiftr_div_pow2 by lia.
    rewrite host_pages. change (2 ^ 12) with 4096. rewrite Z.mul_comm. apply Z.div_mul. lia. }
  pose proof (UnionLoop_spec (Z.to_nat (2 ^ (s - 12))) 0 (Nibbles e) 0 ltac:(lia)) as HU.
  rewrite Z.shiftr_0_r in HU. rewrite HU, Z2Nat.id by lia. unfold joined. rewrite Z.lor_0_l.
  assert (Hext : forall l, (forall i, i ∈ l -> 0 <= i < 2 ^ (s - 12)) ->
    foldr (fun i acc => nibble_prot (Nibbles e) i ||| acc) 0 l =
    foldr (fun i acc => default 0 (LookupPage HS t (page g i)) ||| acc) 0 l);
    [|apply Hext; intros i Hi%elem_of_seqZ; lia].
  induction l as [|i l IH]; intros Hin; [done|]. cbn [foldr]. rewrite IH by (intros j Hj; apply Hin; by right).
  f_equal. assert (Hi : 0 <= i < 2 ^ (s - 12)) by (apply Hin; by left).
  destruct (page_spec g i) as (P1 & P2 & P3 & P4); [lia|done|lia|].
  unfold LookupPage, Find. rewrite P3, P4, He. cbn. unfold nibble_prot. fold (NibbleAt e i).
  by destruct (_ =? 0).
Qed.

End table.
