(* ===== verification/HostRanges.v ===== *)
(** * Host-owned ranges

    Source/Tools/LinuxEmulation/LinuxSyscalls/HostOwnedRanges.{h,cpp}: the sorted table of the
    emulator's own mappings that a guest request must not replace.  A text is the list of its
    bytes; a C string ends at its first NUL.  [std::sort] is an argument, any function that
    permutes its input into ascending order of the bases: the order of ranges with the same
    base is unspecified. *)

From S2P Require Import Prelude VMA VMATrack Granule GranuleProps.
Import Track.

Module HostOwned.

(** ** Text *)

Definition newline : Z := 10.
Definition space : Z := 32.
Definition comma : Z := 44.
Definition dash : Z := 45.

Fixpoint take_until (stop : Z -> bool) (l : list Z) : list Z * list Z :=
  match l with
  | [] => ([], [])
  | c :: l => if stop c then ([], c :: l) else let '(a, b) := take_until stop l in (c :: a, b)
  end.

(** The C string in a buffer. *)
Definition cstr (l : list Z) : list Z := fst (take_until (Z.eqb 0) l).

Definition is_space (c : Z) : bool := (c =? 32) || ((9 <=? c) && (c <=? 13)).

Definition hex_digit (c : Z) : option Z :=
  if (48 <=? c) && (c <=? 57) then Some (c - 48)
  else if (97 <=? c) && (c <=? 102) then Some (c - 87)
  else if (65 <=? c) && (c <=? 70) then Some (c - 55)
  else None.

Definition is_hex (c : Z) : bool := match hex_digit c with Some _ => true | None => false end.

Definition hex_value (ds : list Z) : Z :=
  foldl (fun acc c => acc * 16 + default 0 (hex_digit c)) 0 ds.

(** [strtoull(l, &End, 16)]: the value and the text at [End]. *)
Definition strtoull16 (l : list Z) : Z * list Z :=
  let '(_, t) := take_until (fun c => negb (is_space c)) l in
  let '(negative, t) := match t with
                        | c :: t' => if c =? dash then (true, t') else if c =? 43 then (false, t') else (false, t)
                        | [] => (false, t)
                        end in
  let t := match t with
           | z :: x :: d :: t' => if (z =? 48) && ((x =? 120) || (x =? 88)) && is_hex d then d :: t' else t
           | _ => t
           end in
  let '(ds, rest) := take_until (fun c => negb (is_hex c)) t in
  match ds with
  | [] => (0, l)
  | _ =>
      let v := hex_value ds in
      (if 2 ^ 64 <=? v then 2 ^ 64 - 1 else if (negative : bool) then u64 (- v) else v, rest)
  end.

(** ** The table *)

Record OwnedRange := mkOwned { Base : Z; End : Z; MayWrite : bool }.

Record Owned := mkTable {
  Ranges : list OwnedRange;
  Snapshotted : bool;
  RangeCount : Z;
}.

Definition empty_table : Owned := mkTable [] false 0.

Definition AddLocked (Ranges : list OwnedRange) (Base End : Z) (MayWrite : bool) : list OwnedRange :=
  if End <=? Base then Ranges else Ranges ++ [mkOwned Base End MayWrite].

(** One step of the loop of [SortAndCoalesceLocked]: the elements written so far, the last
    one first. *)
Definition CoalesceStep (out : list OwnedRange) (r : OwnedRange) : list OwnedRange :=
  match out with
  | [] => [r]
  | p :: out' =>
      let Overlapping := Base r <? End p in
      let Adjacent := (Base r =? End p) && eqb (MayWrite r) (MayWrite p) in
      if Overlapping || Adjacent
      then mkOwned (Base p) (Z.max (End p) (End r)) (MayWrite p && MayWrite r) :: out'
      else r :: p :: out'
  end.

Definition Coalesce (l : list OwnedRange) : list OwnedRange := rev (foldl CoalesceStep [] l).

(** ** Reading /proc/self/maps *)

Record Parser := mkParser { Out : list OwnedRange; PrevIncludedEnd : Z; Any : bool }.

Definition at_space (c : Z) : bool := c =? space.
Definition at_text (c : Z) : bool := negb (c =? space).

(** Over up to [n] fields separated by spaces. *)
Fixpoint SkipFields (n : nat) (P : list Z) : list Z :=
  match n, P with
  | O, _ | _, [] => P
  | S n, _ =>
      match snd (take_until at_text P) with
      | [] => []
      | P => SkipFields n (snd (take_until at_space P))
      end
  end.

(** "[vvar" *)
Definition vvar : list Z := [91; 118; 118; 97; 114].

Definition HandleLine (L : list Z) (p : Parser) : Parser :=
  let '(Start, E) := strtoull16 L in
  match E with
  | c :: E =>
      if negb (c =? dash) then p
      else
        let '(Stop, E) := strtoull16 E in
        if Stop <=? Start then p
        else
          let P := snd (take_until at_text (SkipFields 4 E)) in
          let Named := match P with [] => false | _ => true end in
          let ChainedAnon := negb Named && (Start =? PrevIncludedEnd p) && negb (PrevIncludedEnd p =? 0) in
          if negb Named && negb ChainedAnon then p
          else
            let MayWrite := negb (bool_decide (take 5 P = vvar)) in
            mkParser (Out p ++ [mkOwned Start Stop MayWrite]) Stop true
  | [] => p
  end.

(** The line buffer holds 511 characters and its terminator. *)
Fixpoint ReadLines (Line : list Z) (Buf : list Z) (p : Parser) : Parser :=
  match Buf with
  | [] => p
  | C :: Buf =>
      if negb (C =? newline)
      then ReadLines (if (length Line <? 511)%nat then Line ++ [C] else Line) Buf p
      else ReadLines [] Buf (HandleLine (cstr Line) p)
  end.

(** [maps] is what reading the file gives, nothing when it cannot be opened. *)
Definition ParseSelfMaps (maps : option (list Z)) : option (list OwnedRange) :=
  match maps with
  | None => None
  | Some text =>
      let p := ReadLines [] text (mkParser [] 0 false) in
      if Any p then Some (Out p) else None
  end.

Definition FirstGuardedAddress : Z := 0x100000000.

(** The ranges of FEX_TEST_HOSTOWNED_ADD; every turn consumes a character. *)
Fixpoint AddSpec (fuel : nat) (P : list Z) (Ranges : list OwnedRange) : list OwnedRange :=
  match fuel, P with
  | O, _ | _, [] => Ranges
  | S fuel, _ =>
      let '(Start, E) := strtoull16 P in
      match E with
      | c :: E =>
          if negb (c =? dash) then Ranges
          else
            let '(Stop, E) := strtoull16 E in
            let Ranges := AddLocked Ranges Start Stop true in
            match E with
            | c :: E => if negb (c =? comma) then Ranges else AddSpec fuel E Ranges
            | [] => Ranges
            end
      | [] => Ranges
      end
  end.

Section table.
  Context (sort : list OwnedRange -> list OwnedRange) (HostSize : Z).

Definition SortAndCoalesceLocked (t : Owned) (Ranges : list OwnedRange) : Owned :=
  let Ranges := Coalesce (sort Ranges) in
  mkTable Ranges (Snapshotted t) (Z.of_nat (length Ranges)).

Definition SnapshotSelf (maps spec : option (list Z)) (t : Owned) : Owned :=
  if Snapshotted t then t
  else
    let t := mkTable (Ranges t) true (RangeCount t) in
    match ParseSelfMaps maps with
    | None => t
    | Some Parsed =>
        let Ranges := foldl (fun l R => if End R <=? FirstGuardedAddress then l
                                        else AddLocked l (Z.max (Base R) FirstGuardedAddress) (End R) (MayWrite R))
                        (Ranges t) Parsed in
        let Ranges := match spec with None => Ranges | Some P => AddSpec (length P) P Ranges end in
        SortAndCoalesceLocked t Ranges
    end.

Definition Add (t : Owned) (RBase Size : Z) : Owned :=
  if Size =? 0 then t
  else SortAndCoalesceLocked t
         (AddLocked (Ranges t) (HostPage.AlignDown HostSize RBase) (HostPage.AlignUp HostSize (u64 (RBase + Size))) true).

(** [upper_bound]: the elements before the first whose base is above [Value], the last one
    first, and the others. *)
Fixpoint upper_bound (before : list OwnedRange) (Value : Z) (l : list OwnedRange) :
    list OwnedRange * list OwnedRange :=
  match l with
  | [] => (before, [])
  | e :: l' => if Value <? Base e then (before, l) else upper_bound (e :: before) Value l'
  end.

Definition no_range : OwnedRange := mkOwned 0 0 true.

Definition FindOverlap (t : Owned) (RBase Size : Z) : OwnedRange :=
  if (RangeCount t =? 0) || (Size =? 0) then no_range
  else
    let Start := HostPage.AlignDown HostSize RBase in
    let Stop := HostPage.AlignUp HostSize (u64 (RBase + Size)) in
    if Stop <=? Start then mkOwned Start (2 ^ 64 - 1) true
    else
      let '(before, after) := upper_bound [] Start (Ranges t) in
      let later := match after with
                   | it :: _ => if Base it <? Stop then it else no_range
                   | [] => no_range
                   end in
      match before with
      | it :: _ => if (Start <? End it) && (Base it <? Stop) then it else later
      | [] => later
      end.

Definition Overlaps (t : Owned) (RBase Size : Z) : bool := negb (End (FindOverlap t RBase Size) =? 0).

End table.
End HostOwned.
