(* ===== verification/HostRangesProps.v ===== *)
(** * Host-owned ranges: theorems

    The sorted and coalesced table answers for exactly the ranges that were recorded, whatever
    order [std::sort] gives to ranges with the same base, and the mappings that
    /proc/self/maps names are refused after the snapshot. *)

From stdpp Require Import sorting.
From S2P Require Import Prelude VMA VMATrack Granule GranuleProps HostRanges.
Import Track HostOwned.

(** ** Coalescing *)

Definition nonempty (r : OwnedRange) : Prop := 0 <= Base r < End r.
Definition inside (a : Z) (r : OwnedRange) : Prop := Base r <= a < End r.

(** Ascending and disjoint. *)
Fixpoint separated (l : list OwnedRange) : Prop :=
  match l with
  | [] => True
  | r :: l => nonempty r /\ Forall (fun q => End r <= Base q) l /\ separated l
  end.

(** The same of a list written backwards. *)
Fixpoint rseparated (l : list OwnedRange) : Prop :=
  match l with
  | [] => True
  | r :: l => nonempty r /\ Forall (fun q => End q <= Base r) l /\ rseparated l
  end.

Lemma separated_app l1 l2 :
  separated (l1 ++ l2) <-> separated l1 /\ separated l2 /\ Forall (fun r => Forall (fun q => End r <= Base q) l2) l1.
Proof.
  induction l1 as [|r l1 IH]; cbn; [by rewrite Forall_nil; tauto|]. rewrite IH, Forall_app, Forall_cons. tauto.
Qed.

Lemma rseparated_rev l : rseparated l -> separated (rev l).
Proof.
  induction l as [|r l IH]; cbn; [done|]. intros (Hr & Hall & Hl). rewrite separated_app. cbn. split_and!; [by apply IH|done|by constructor|done|].
  apply Forall_rev in Hall. eapply Forall_impl; [exact Hall|]. intros q Hq. by rewrite Forall_singleton.
Qed.

Definition covered (l : list OwnedRange) (a : Z) : Prop := Exists (inside a) l.

(** A covered address that some range says cannot be made writable. *)
Definition locked (l : list OwnedRange) (a : Z) : Prop := Exists (fun r => inside a r /\ MayWrite r = false) l.

(** The next range does not start below the last one written. *)
Definition follows (out : list OwnedRange) (r : OwnedRange) : Prop :=
  match out with [] => True | p :: _ => Base p <= Base r end.

Lemma CoalesceStep_spec out r :
  rseparated out -> nonempty r -> follows out r ->
  rseparated (CoalesceStep out r) /\ (forall q, Base r <= Base q -> follows (CoalesceStep out r) q) /\
  (forall a, covered (CoalesceStep out r) a <-> covered out a \/ inside a r) /\
  (forall a, locked out a \/ (inside a r /\ MayWrite r = false) -> locked (CoalesceStep out r) a).
Proof.
  unfold covered, locked, nonempty. intros Ho Hr Hf. destruct out as [|p out]; cbn [CoalesceStep follows] in *.
  { split; [by repeat constructor; destruct Hr|]. split; [done|]. split; [intros a; rewrite Exists_cons, !Exists_nil; tauto|].
    intros a. rewrite Exists_cons, !Exists_nil. tauto. }
  destruct Ho as (Hp & Hall & Ho). destruct (_ || _) eqn:E.
  - assert (Hm : Base r <= End p) by lia. split; [|split; [intros q Hq; cbn; lia|split]].
    + cbn. unfold nonempty in *. cbn. split_and!; [lia|lia|done|done].
    + intros a. rewrite !Exists_cons. unfold inside, nonempty in *. cbn. split; [intros [?|?]|intros [[?|?]|?]]; tauto || lia.
    + intros a. rewrite !Exists_cons. unfold inside, nonempty in *. cbn. intros [[[? ->]|?]|[? ->]]; [left; split; [lia|done]|by right|].
      left. split; [lia|apply andb_false_r].
  - assert (Hm : End p <= Base r) by lia. split; [|split; [intros q Hq; cbn; lia|split]].
    + cbn. unfold nonempty in *. split_and!; try done; try lia. constructor; [done|].
      eapply Forall_impl; [exact Hall|]. cbn. lia.
    + intros a. rewrite !(Exists_cons _ r). tauto.
    + intros a. rewrite !(Exists_cons _ r). tauto.
Qed.

Definition ascending : list OwnedRange -> Prop := StronglySorted (fun a b => Base a <= Base b).

Lemma Coalesce_fold l : forall out,
  rseparated out -> Forall nonempty l -> ascending l -> Forall (follows out) l ->
  rseparated (foldl CoalesceStep out l) /\
  (forall a, covered (foldl CoalesceStep out l) a <-> covered out a \/ covered l a) /\
  (forall a, locked out a \/ locked l a -> locked (foldl CoalesceStep out l) a).
Proof.
  induction l as [|r l IH]; intros out Ho Hn Hs Hf; cbn [foldl].
  { split_and!; [done|intros a; unfold covered; rewrite Exists_nil; tauto|]. intros a. unfold locked. rewrite Exists_nil. tauto. }
  apply Forall_cons in Hn as [Hr Hn]. apply StronglySorted_inv in Hs as [Hs Hle]. apply Forall_cons in Hf as [Hf _].
  destruct (CoalesceStep_spec out r Ho Hr Hf) as (H1 & H2 & H3 & H4).
  destruct (IH (CoalesceStep out r)) as (I1 & I2 & I3); [done|done|done|eapply Forall_impl; [exact Hle|exact H2]|].
  unfold covered, locked in *. split_and!; [done| |].
  - intros a. rewrite I2, H3, (Exists_cons _ r). tauto.
  - intros a. rewrite (Exists_cons _ r). intros [?|[?|?]]; apply I3; auto.
Qed.

Lemma Exists_rev_iff {A} (P : A -> Prop) l : Exists P (rev l) <-> Exists P l.
Proof. split; [|apply Exists_rev]. intros H%Exists_rev. by rewrite rev_involutive in H. Qed.

Lemma Coalesce_spec l :
  Forall nonempty l -> ascending l ->
  separated (Coalesce l) /\ (forall a, covered (Coalesce l) a <-> covered l a) /\
  (forall a, locked l a -> locked (Coalesce l) a).
Proof.
  intros Hn Hs. destruct (Coalesce_fold l [] ltac:(done) Hn Hs) as (H1 & H2 & H3).
  { apply Forall_forall. done. }
  unfold Coalesce, covered, locked in *. split_and!; [by apply rseparated_rev| |].
  - intros a. rewrite Exists_rev_iff, H2, Exists_nil. tauto.
  - intros a Ha. apply Exists_rev_iff, H3. by right.
Qed.

(** ** Queries *)

Definition meets (lo hi : Z) (r : OwnedRange) : Prop := Base r < hi /\ lo < End r.

Record owned_ok (t : Owned) : Prop := mk_owned_ok {
  ok_separated : separated (Ranges t);
  ok_count : RangeCount t = Z.of_nat (length (Ranges t));
}.

Lemma separated_nonempty l : separated l -> Forall nonempty l.
Proof. induction l as [|r l IH]; cbn; [done|]. intros (? & _ & ?). constructor; auto. Qed.

Lemma separated_before l p : separated (l ++ [p]) -> Forall (fun q => End q <= Base p) l.
Proof.
  rewrite separated_app. intros (_ & _ & H). eapply Forall_impl; [exact H|]. cbn. intros q. by rewrite Forall_singleton.
Qed.

Lemma upper_bound_spec l : forall before V, exists l1 l2,
  l = l1 ++ l2 /\ upper_bound before V l = (rev l1 ++ before, l2) /\ Forall (fun r => Base r <= V) l1 /\
  match l2 with [] => True | e :: _ => V < Base e end.
Proof.
  induction l as [|e l IH]; intros before V; cbn [upper_bound]; [by exists [], []|].
  destruct (Z.ltb_spec V (Base e)); [by exists [], (e :: l)|].
  destruct (IH (e :: before) V) as (l1 & l2 & -> & -> & H1 & H2). exists (e :: l1), l2.
  split_and!; [done|cbn; by rewrite <- app_assoc|by constructor|done].
Qed.

(** What the search finds in a sorted table: an element that meets the range, if there is one. *)
Lemma search_spec l lo hi :
  separated l -> lo < hi ->
  let r := (let '(before, after) := upper_bound [] lo l in
            let later := match after with it :: _ => if Base it <? hi then it else no_range | [] => no_range end in
            match before with
            | it :: _ => if (lo <? End it) && (Base it <? hi) then it else later
            | [] => later
            end) in
  (r ∈ l /\ meets lo hi r) \/ (r = no_range /\ Forall (fun r => ~ meets lo hi r) l).
Proof.
  intros Hs Hlt. destruct (upper_bound_spec l [] lo) as (l1 & l2 & -> & -> & H1 & H2). cbn zeta.
  rewrite app_nil_r. apply separated_app in Hs as Hs'. destruct Hs' as (S1 & S2 & S12).
  pose proof (separated_nonempty _ S2) as N2. unfold meets.
  assert (Hafter : let r := match l2 with it :: _ => if Base it <? hi then it else no_range | [] => no_range end in
    (r ∈ l2 /\ meets lo hi r) \/ (r = no_range /\ Forall (fun r => ~ meets lo hi r) l2)).
  { destruct l2 as [|e l2]; [by right|]. cbn zeta. destruct S2 as (He & Hall & S2).
    destruct (Z.ltb_spec (Base e) hi); [left; split; [by left|unfold meets, nonempty in *; lia]|right].
    split; [done|]. constructor; [unfold meets; lia|]. eapply Forall_impl; [exact Hall|]. unfold meets, nonempty in *. cbn. lia. }
  assert (Hskip : Forall (fun r => ~ meets lo hi r) l1 -> let r := match l2 with it :: _ => if Base it <? hi then it else no_range | [] => no_range end in
    (r ∈ l1 ++ l2 /\ meets lo hi r) \/ (r = no_range /\ Forall (fun r => ~ meets lo hi r) (l1 ++ l2))).
  { intros Hl1. destruct Hafter as [[Hin Hm]|[Hr Hall]]; [left|right]; cbn zeta in *.
    - split; [|done]. apply elem_of_app. by right.
    - split; [done|]. by apply Forall_app. }
  destruct (rev l1) as [|p l1'] eqn:E.
  - apply (f_equal (@rev _)) in E. rewrite rev_involutive in E. subst l1. by apply Hskip.
  - apply (f_equal (@rev _)) in E. rewrite rev_involutive in E. cbn in E. subst l1.
    apply separated_before in S1. apply Forall_app in H1 as [_ Hp]. rewrite Forall_singleton in Hp.
    destruct (_ && _) eqn:E.
    + left. split; [|lia]. rewrite !elem_of_app. left. right. by left.
    + assert (End p <= lo) by lia. apply Hskip, Forall_app. split; [|constructor; [unfold meets; lia|done]].
      eapply Forall_impl; [exact S1|]. unfold meets. cbn. intros q Hq. assert (nonempty p); [|unfold nonempty in *; lia].
      apply separated_nonempty in Hs. apply Forall_app in Hs as [Hs _]. apply Forall_app in Hs as [_ Hs]. by rewrite Forall_singleton in Hs.
Qed.

(** ** The table and what was recorded *)

Section history.
  Context (sort : list OwnedRange -> list OwnedRange).
  Hypothesis sort_perm : forall l, sort l ≡ₚ l.
  Hypothesis sort_ascending : forall l, StronglySorted (fun a b => Base a <= Base b) (sort l).
  Context (s : Z) (Hs : 12 <= s <= 16).
  Abbreviation HS := (2 ^ s).

(** A request the kernel could serve. *)
Definition request (b n : Z) : Prop := 0 <= b /\ 0 < n /\ b + n + 65536 <= 2 ^ 64.

(** The ranges that an operation records. *)
Definition added (b n : Z) : list OwnedRange :=
  [mkOwned (HostPage.AlignDown HS b) (HostPage.AlignUp HS (b + n)) true].

Definition guarded (Parsed : list OwnedRange) : list OwnedRange :=
  map (fun R => mkOwned (Z.max (Base R) FirstGuardedAddress) (End R) (MayWrite R))
    (filter (fun R => FirstGuardedAddress < End R /\ Base R < End R) Parsed).

Definition snapshot (maps spec : option (list Z)) (t : Owned) : list OwnedRange :=
  if Snapshotted t then []
  else match ParseSelfMaps maps with
       | None => []
       | Some Parsed => guarded Parsed ++ match spec with None => [] | Some P => AddSpec (length P) P [] end
       end.

Inductive recorded : Owned -> list OwnedRange -> Prop :=
| recorded_empty : recorded empty_table []
| recorded_add t rs b n : recorded t rs -> request b n -> recorded (Add sort HS t b n) (rs ++ added b n)
| recorded_snapshot t rs maps spec :
    recorded t rs -> recorded (SnapshotSelf sort maps spec t) (rs ++ snapshot maps spec t).

(** The table holds the addresses of the ranges that were recorded. *)
Definition holds (t : Owned) (rs : list OwnedRange) : Prop :=
  owned_ok t /\ Forall nonempty rs /\ (forall a, covered (Ranges t) a <-> covered rs a) /\
  (forall a, locked rs a -> locked (Ranges t) a).

Lemma perm_Exists {A} (P : A -> Prop) l l' : l ≡ₚ l' -> Exists P l <-> Exists P l'.
Proof. intros H. by rewrite H. Qed.

Lemma holds_coalesce t rs l :
  holds t rs -> Forall nonempty l -> holds (SortAndCoalesceLocked sort t (Ranges t ++ l)) (rs ++ l).
Proof.
  intros (Hok & Hn & Hc & Hl) Hnl. unfold SortAndCoalesceLocked.
  assert (Hall : Forall nonempty (sort (Ranges t ++ l))).
  { rewrite sort_perm. apply Forall_app. split; [|done]. by apply separated_nonempty, Hok. }
  destruct (Coalesce_spec (sort (Ranges t ++ l)) Hall (sort_ascending _)) as (H1 & H2 & H3).
  unfold holds, covered, locked in *. cbn [Ranges].
  split_and!; [by split|by apply Forall_app| |].
  - intros a. rewrite H2, (perm_Exists _ _ _ (sort_perm _)), !Exists_app, Hc. done.
  - intros a. rewrite Exists_app. intros Ha. apply H3. rewrite (perm_Exists _ _ _ (sort_perm _)), Exists_app.
    destruct Ha; auto.
Qed.

Lemma AddLocked_app l b e m : AddLocked l b e m = l ++ AddLocked [] b e m.
Proof. unfold AddLocked. destruct (e <=? b); [by rewrite app_nil_r|done]. Qed.

Lemma AddSpec_app fuel : forall P l, AddSpec fuel P l = l ++ AddSpec fuel P [].
Proof.
  induction fuel as [|fuel IH]; intros [|c P] l; cbn [AddSpec]; try by rewrite app_nil_r.
  destruct (strtoull16 (c :: P)) as [Start [|c1 E]]; [by rewrite app_nil_r|].
  destruct (negb (c1 =? dash)); [by rewrite app_nil_r|]. destruct (strtoull16 E) as [Stop [|c2 E']].
  - apply AddLocked_app.
  - destruct (negb (c2 =? comma)); [apply AddLocked_app|].
    rewrite IH, (IH _ (AddLocked [] _ _ _)), (AddLocked_app l), app_assoc. done.
Qed.

Lemma guarded_fold Parsed : forall l,
  foldl (fun l R => if End R <=? FirstGuardedAddress then l
                    else AddLocked l (Z.max (Base R) FirstGuardedAddress) (End R) (MayWrite R)) l Parsed =
  l ++ guarded Parsed.
Proof.
  induction Parsed as [|R Ps IH]; intros l; cbn [foldl]; [by rewrite app_nil_r|]. rewrite IH. unfold guarded.
  rewrite filter_cons. destruct (Z.leb_spec (End R) FirstGuardedAddress); [rewrite decide_False by lia; done|].
  unfold AddLocked. destruct (Z.leb_spec (End R) (Z.max (Base R) FirstGuardedAddress)).
  - rewrite decide_False by lia. done.
  - rewrite decide_True by lia. cbn [map]. by rewrite <- app_assoc.
Qed.

Lemma hex_value_nonneg ds : 0 <= hex_value ds.
Proof.
  unfold hex_value. assert (H : forall acc, 0 <= acc -> 0 <= foldl (fun acc c => acc * 16 + default 0 (hex_digit c)) acc ds);
    [|by apply H]. induction ds as [|c ds IH]; intros acc Ha; cbn [foldl]; [done|]. apply IH.
  assert (0 <= default 0 (hex_digit c)); [|lia]. unfold hex_digit. repeat case_match; cbn; lia.
Qed.

Lemma strtoull16_nonneg l : 0 <= fst (strtoull16 l).
Proof.
  unfold strtoull16. destruct (take_until _ l) as [? t].
  destruct (match t with [] => (false, t) | c :: t' => _ end) as [neg t1].
  destruct (take_until _ _) as [ds rest]. pose proof (hex_value_nonneg ds). destruct ds as [|d ds]; [done|]. cbn [fst].
  destruct (2 ^ 64 <=? _); [lia|]. destruct neg; [apply u_range; lia|done].
Qed.

Lemma AddSpec_nonempty fuel : forall P, Forall nonempty (AddSpec fuel P []).
Proof.
  induction fuel as [|fuel IH]; intros [|c P]; cbn [AddSpec]; try done.
  destruct (strtoull16 (c :: P)) as [Start [|c1 E]] eqn:E1; [done|].
  pose proof (strtoull16_nonneg (c :: P)) as Hn. rewrite E1 in Hn. cbn in Hn.
  destruct (negb (c1 =? dash)); [done|]. destruct (strtoull16 E) as [Stop [|c2 E']];
    [|destruct (negb (c2 =? comma)); [|rewrite AddSpec_app; apply Forall_app; split; [|apply IH]]];
    unfold AddLocked; destruct (Z.leb_spec Stop Start); (done || by repeat constructor).
Qed.

Lemma guarded_nonempty Parsed : Forall nonempty (guarded Parsed).
Proof.
  unfold guarded. induction Parsed as [|R Ps IH]; [done|]. rewrite filter_cons. case_decide as E; [|done].
  cbn [map]. constructor; [|done]. unfold nonempty, FirstGuardedAddress in *. cbn. lia.
Qed.

Lemma recorded_holds t rs : recorded t rs -> holds t rs.
Proof.
  induction 1 as [|t rs b n _ IH (H0 & H1 & H2)|t rs maps spec _ IH].
  - unfold holds, covered, locked. split_and!; [by split|by constructor|done|done].
  - pose proof (host_bounds s Hs). destruct (AlignUp_host s Hs (b + n)) as [_ Hu]; [lia|lia|].
    destruct (granule_base s Hs b) as [_ Hb]; [unfold is_u; lia|].
    assert (0 <= HostPage.AlignDown HS b) by (apply Z.land_nonneg; by left). unfold GT.GranuleOf in Hb.
    unfold Add. destruct (Z.eqb_spec n 0); [lia|]. rewrite u_small by (unfold is_u; lia).
    rewrite AddLocked_app. unfold AddLocked at 1. destruct (Z.leb_spec (HostPage.AlignUp HS (b + n)) (HostPage.AlignDown HS b)); [lia|].
    apply holds_coalesce; [done|]. constructor; [|done]. unfold nonempty. cbn. lia.
  - unfold SnapshotSelf, snapshot. destruct (Snapshotted t); [by rewrite app_nil_r|].
    assert (Hflag : holds (mkTable (Ranges t) true (RangeCount t)) rs).
    { destruct IH as ([? ?] & ? & ? & ?). split; [by split|]. split_and!; done. }
    destruct (ParseSelfMaps maps) as [Parsed|]; [|by rewrite app_nil_r].
    rewrite guarded_fold. pose proof (guarded_nonempty Parsed). destruct spec as [P|].
    + rewrite AddSpec_app, <- app_assoc. apply holds_coalesce; [done|]. apply Forall_app. split; [done|apply AddSpec_nonempty].
    + rewrite app_nil_r. by apply holds_coalesce.
Qed.

(** A range that meets another has an address of it. *)
Lemma meets_covered l lo hi : Forall nonempty l -> lo < hi ->
  Exists (meets lo hi) l <-> exists a, lo <= a < hi /\ covered l a.
Proof.
  intros Hn Hlt. rewrite Exists_exists. unfold covered. setoid_rewrite Exists_exists. split.
  - intros (r & Hin & Hm). exists (Z.max lo (Base r)). rewrite Forall_forall in Hn. specialize (Hn r Hin).
    unfold meets, nonempty, inside in *. split; [lia|]. exists r. split; [done|lia].
  - intros (a & Ha & r & Hin & Hr). exists r. split; [done|]. unfold meets, inside in *. lia.
Qed.

Lemma Overlaps_spec t rs b n :
  recorded t rs -> request b n ->
  Overlaps HS t b n = true <->
  exists a r, HostPage.AlignDown HS b <= a < HostPage.AlignUp HS (b + n) /\ r ∈ rs /\ Base r <= a < End r.
Proof.
  intros Hrec%recorded_holds (H0 & H1 & H2). destruct Hrec as ([Hsep Hcnt] & Hn & Hc & _).
  pose proof (host_bounds s Hs). destruct (AlignUp_host s Hs (b + n)) as [_ Hu]; [lia|lia|].
  destruct (granule_base s Hs b) as [_ Hb]; [unfold is_u; lia|]. unfold GT.GranuleOf in Hb.
  set (lo := HostPage.AlignDown HS b) in *. set (hi := HostPage.AlignUp HS (b + n)) in *.
  assert (Hex : (exists a r, lo <= a < hi /\ r ∈ rs /\ Base r <= a < End r) <-> Exists (meets lo hi) (Ranges t)).
  { rewrite meets_covered by (lia || by apply separated_nonempty). setoid_rewrite Hc. unfold covered.
    setoid_rewrite Exists_exists. unfold inside. naive_solver. }
  rewrite Hex. unfold Overlaps, FindOverlap. destruct (Z.eqb_spec n 0); [lia|]. rewrite orb_false_r.
  destruct (Z.eqb_spec (RangeCount t) 0) as [E|E].
  { assert (Ranges t = []) as -> by (destruct (Ranges t); [done|cbn in *; lia]). by rewrite Exists_nil. }
  rewrite u_small by (unfold is_u; lia). fold lo hi. destruct (Z.leb_spec hi lo); [lia|].
  pose proof (search_spec (Ranges t) lo hi Hsep ltac:(lia)) as Hfind. cbn zeta in Hfind.
  set (r := let '(before, after) := upper_bound [] lo (Ranges t) in _) in *.
  destruct Hfind as [[Hin Hm]|[-> Hno]]; cbn.
  - split; [intros _; apply Exists_exists; eauto|]. intros _. assert (nonempty r) as Hr.
    { apply separated_nonempty in Hsep. rewrite Forall_forall in Hsep. auto. }
    unfold nonempty in Hr. destruct (Z.eqb_spec (End r) 0); [lia|done].
  - split; [done|]. intros Hx%Exists_exists. destruct Hx as (q & Hq & Hmq). rewrite Forall_forall in Hno.
    by destruct (Hno q Hq).
Qed.

(** whatever ranges were recorded, in any order, and however the sort orders equal bases, a
    request is reported to overlap exactly when the host pages it touches contain an address
    of a recorded range. *)
Theorem Overlaps_recorded t rs b n :
  recorded t rs -> request b n ->
  Overlaps HS t b n = true <->
  exists a r, HostPage.AlignDown HS b <= a < HostPage.AlignUp HS (b + n) /\ r ∈ rs /\ Base r <= a < End r.
Proof. apply Overlaps_spec. Qed.
End history.

(** A sort. *)
Definition base_le (a b : OwnedRange) : Prop := Base a <= Base b.
#[global] Instance base_le_dec a b : Decision (base_le a b) := Z_le_dec (Base a) (Base b).
#[global] Instance base_le_trans : Transitive base_le.
Proof. intros a b c. unfold base_le. lia. Qed.
#[global] Instance base_le_total : Total base_le.
Proof. intros a b. unfold base_le. lia. Qed.

Definition sort_ranges : list OwnedRange -> list OwnedRange := merge_sort base_le.

Lemma sort_ranges_perm l : sort_ranges l ≡ₚ l.
Proof. apply merge_sort_Permutation. Qed.
Lemma sort_ranges_ascending l : StronglySorted (fun a b => Base a <= Base b) (sort_ranges l).
Proof. apply (StronglySorted_merge_sort base_le). Qed.

Lemma Overlaps_recorded_witness :
  Overlaps (2 ^ 16) (Add sort_ranges (2 ^ 16) (Add sort_ranges (2 ^ 16) empty_table 0x150000 0x1000) 0x120000 0x20001) 0x14f000 0x2000 = true.
Proof.
  apply (Overlaps_recorded sort_ranges sort_ranges_perm sort_ranges_ascending 16 ltac:(lia) _
    (([] ++ added 16 0x150000 0x1000) ++ added 16 0x120000 0x20001)).
  - repeat constructor; lia.
  - repeat constructor; lia.
  - exists 0x150000, (mkOwned 0x150000 0x160000 true). split_and!; [done|done| |done|done].
    apply elem_of_app. left. by left.
Defined.

(** ** /proc/self/maps *)

(** A line of the file: the addresses in hexadecimal, four fields, and the name after
    padding. *)
Record MapsEntry := mkMaps {
  start_text : list Z; stop_text : list Z; fields : list (list Z); padding : nat; name : list Z;
}.

Definition digits (ds : list Z) : Prop := ds <> [] /\ Forall (fun c => is_hex c = true) ds.
Definition word (w : list Z) : Prop := w <> [] /\ Forall (fun c => c <> space /\ c <> newline /\ c <> 0) w.

Definition e_start (e : MapsEntry) : Z := hex_value (start_text e).
Definition e_stop (e : MapsEntry) : Z := hex_value (stop_text e).

Definition prefix (e : MapsEntry) : list Z :=
  start_text e ++ dash :: stop_text e ++ concat (map (cons space) (fields e)) ++ repeat space (padding e).

(** What the kernel writes: an entry with no name has no padding. *)
Record maps_ok (e : MapsEntry) : Prop := mk_maps_ok {
  ok_start : digits (start_text e);
  ok_stop : digits (stop_text e);
  ok_range : e_start e < e_stop e < 2 ^ 64;
  ok_fields : length (fields e) = 4%nat;
  ok_words : Forall word (fields e);
  ok_prefix : (length (prefix e) < 511)%nat;
  ok_name : Forall (fun c => c <> newline /\ c <> 0) (name e);
  ok_named : name e <> [] -> (1 <= padding e)%nat /\ match name e with c :: _ => c <> space | [] => True end;
}.

Definition maps_text (es : list MapsEntry) : list Z :=
  concat (map (fun e => prefix e ++ name e ++ [newline]) es).

Lemma take_until_app stop a c b :
  Forall (fun x => stop x = false) a -> stop c = true -> take_until stop (a ++ c :: b) = (a, c :: b).
Proof. intros Ha Hc. induction Ha as [|x a Hx _ IH]; cbn; [by rewrite Hc|]. by rewrite Hx, IH. Qed.

Lemma take_until_all stop a : Forall (fun x => stop x = false) a -> take_until stop a = (a, []).
Proof. intros Ha. induction Ha as [|x a Hx _ IH]; cbn; [done|]. by rewrite Hx, IH. Qed.

Lemma is_hex_range c : is_hex c = true -> 48 <= c <= 57 \/ 97 <= c <= 102 \/ 65 <= c <= 70.
Proof. unfold is_hex, hex_digit. repeat case_match; try done; lia. Qed.

(** A number is read up to the character after its digits. *)
Lemma strtoull16_digits ds c rest :
  digits ds -> is_hex c = false -> c <> 120 -> c <> 88 -> hex_value ds < 2 ^ 64 ->
  strtoull16 (ds ++ c :: rest) = (hex_value ds, c :: rest).
Proof.
  intros [Hne Hall] Hc Hx HX Hv. destruct ds as [|d ds]; [done|]. pose proof Hall as [Hd Hall']%Forall_cons.
  apply is_hex_range in Hd as Hr. unfold strtoull16.
  assert (take_until (fun c => negb (is_space c)) ((d :: ds) ++ c :: rest) = ([], (d :: ds) ++ c :: rest)) as ->.
  { cbn. unfold is_space. destruct (Z.eqb_spec d 32); [lia|].
    destruct (Z.leb_spec 9 d), (Z.leb_spec d 13); cbn; (done || lia). }
  cbn [app]. destruct (Z.eqb_spec d dash); [unfold dash in *; lia|]. destruct (Z.eqb_spec d 43); [lia|].
  assert (Hpre : match ds ++ c :: rest with
      | x :: d0 :: t' => if (d =? 48) && ((x =? 120) || (x =? 88)) && is_hex d0 then d0 :: t' else d :: ds ++ c :: rest
      | _ => d :: ds ++ c :: rest
      end = d :: ds ++ c :: rest).
  { assert (Hsnd : forall x l, ds ++ c :: rest = x :: l -> x <> 120 /\ x <> 88).
    { intros x l. destruct ds as [|y ds]; cbn; [by intros [= <- _]|]. intros [= <- _].
      apply Forall_cons in Hall' as [Hy _]. apply is_hex_range in Hy. lia. }
    destruct (ds ++ c :: rest) as [|x [|d0 t']] eqn:E; [done|done|]. destruct (Hsnd _ _ eq_refl).
    destruct (Z.eqb_spec x 120), (Z.eqb_spec x 88); try lia. by rewrite andb_false_r. }
  destruct (ds ++ c :: rest) as [|x l] eqn:E; [by destruct ds|]. destruct l as [|d0 t'];
    [|cbn zeta in Hpre; rewrite Hpre]; rewrite <- E;
    change (d :: ds ++ c :: rest) with ((d :: ds) ++ c :: rest);
    (rewrite take_until_app; [|eapply Forall_impl; [exact Hall|]; cbn; intros y ->; done|by rewrite Hc]);
    (destruct (Z.leb_spec (2 ^ 64) (hex_value (d :: ds))); [lia|done]).
Qed.

Definition at_gap (l : list Z) : Prop := match l with [] => True | c :: _ => c = space end.

Lemma SkipFields_words fs rest :
  Forall word fs -> at_gap rest -> SkipFields (length fs) (concat (map (cons space) fs) ++ rest) = rest.
Proof.
  intros Hf Hr. induction Hf as [|f fs [Hne Hw] Hfs IH]; [by destruct rest|].
  cbn [length map concat]. rewrite <- app_assoc. cbn [app SkipFields].
  set (more := concat (map (cons space) fs) ++ rest) in *.
  assert (Hm : at_gap more) by (unfold more; by destruct fs).
  destruct f as [|c f]; [done|]. apply Forall_cons in Hw as [(Hc & _ & _) Hw].
  assert (take_until at_text (space :: (c :: f) ++ more) = ([space], (c :: f) ++ more)) as ->.
  { apply (take_until_app at_text [space] c (f ++ more)); [by constructor|]. unfold at_text.
    by destruct (Z.eqb_spec c space). }
  cbn [snd app]. assert (snd (take_until at_space (c :: f ++ more)) = more) as ->; [|exact IH].
  assert (Hall : Forall (fun x => at_space x = false) (c :: f)).
  { constructor; [by apply Z.eqb_neq|]. eapply Forall_impl; [exact Hw|]. intros x (Hx & _ & _). by apply Z.eqb_neq. }
  change (c :: f ++ more) with ((c :: f) ++ more). destruct more as [|y more].
  - rewrite app_nil_r. by rewrite take_until_all.
  - cbn in Hm. subst y. by rewrite take_until_app.
Qed.

(** Skipping the padding before a name. *)
Lemma skip_padding n c l : c <> space -> snd (take_until at_text (repeat space n ++ c :: l)) = c :: l.
Proof.
  intros Hc. rewrite take_until_app; [done| |by unfold at_text; destruct (Z.eqb_spec c space)].
  apply Forall_forall. intros x Hx. apply list_elem_of_In, repeat_spec in Hx. by subst.
Qed.

Lemma fields_gap fs rest : length fs = 4%nat -> exists l, concat (map (cons space) fs) ++ rest = space :: l.
Proof. destruct fs as [|f fs]; [done|]. intros _. cbn. by eexists. Qed.

(** A line with a name adds its range. *)
Lemma HandleLine_named e nm p :
  maps_ok e -> (1 <= padding e)%nat -> match nm with c :: _ => c <> space | [] => False end ->
  HandleLine (prefix e ++ nm) p =
  mkParser (Out p ++ [mkOwned (e_start e) (e_stop e) (negb (bool_decide (take 5 nm = vvar)))]) (e_stop e) true.
Proof.
  intros He Hpad Hnm. destruct nm as [|c nm]; [done|]. pose proof (ok_range e He) as [Hlt Hmax].
  unfold HandleLine, prefix, e_start, e_stop in *. rewrite <- app_assoc. cbn [app].
  rewrite strtoull16_digits by (done || lia || apply He). cbn [negb]. rewrite Z.eqb_refl. cbn [negb].
  rewrite <- !app_assoc. destruct (fields_gap (fields e) (repeat space (padding e) ++ c :: nm) (ok_fields e He)) as [l Hl].
  rewrite Hl, strtoull16_digits by (done || apply He). rewrite <- Hl.
  destruct (Z.leb_spec (hex_value (stop_text e)) (hex_value (start_text e))); [lia|].
  rewrite <- (ok_fields e He), SkipFields_words, skip_padding; [done|done|apply He|].
  destruct (padding e); [lia|done].
Qed.

Lemma HandleLine_grows L p : exists l, Out (HandleLine L p) = Out p ++ l /\ (Any p = true -> Any (HandleLine L p) = true).
Proof.
  unfold HandleLine. destruct (strtoull16 L) as [Start [|c E]]; [exists []; by rewrite app_nil_r|].
  destruct (negb (c =? dash)); [exists []; by rewrite app_nil_r|]. destruct (strtoull16 E) as [Stop E'].
  destruct (Stop <=? Start); [exists []; by rewrite app_nil_r|].
  destruct (_ && negb _); [exists []; by rewrite app_nil_r|]. by eexists.
Qed.

Lemma ReadLines_line l : forall Line rest p,
  Forall (fun c => c <> newline) l -> (length Line <= 511)%nat ->
  ReadLines Line (l ++ newline :: rest) p = ReadLines [] rest (HandleLine (cstr (take 511 (Line ++ l))) p).
Proof.
  induction l as [|c l IH]; intros Line rest p Hl Hlen; cbn [app ReadLines].
  { rewrite Z.eqb_refl, app_nil_r, take_ge by done. done. }
  apply Forall_cons in Hl as [Hc Hl]. destruct (Z.eqb_spec c newline); [done|]. cbn [negb].
  destruct (Nat.ltb_spec (length Line) 511).
  - rewrite IH, <- app_assoc; [done|done|rewrite length_app; cbn; lia].
  - rewrite IH by done. by rewrite !take_app_le by lia.
Qed.

Lemma cstr_all l : Forall (fun c => c <> 0) l -> cstr l = l.
Proof.
  intros H. unfold cstr. rewrite take_until_all; [done|]. eapply Forall_impl; [exact H|].
  intros x Hx. apply Z.eqb_neq. done.
Qed.

Definition plain (c : Z) : Prop := c <> newline /\ c <> 0.

Lemma prefix_plain e : maps_ok e -> Forall plain (prefix e).
Proof.
  intros He. assert (Hd : forall ds, digits ds -> Forall plain ds).
  { intros ds [_ H]. eapply Forall_impl; [exact H|]. intros c ?%is_hex_range. unfold plain, newline. lia. }
  unfold prefix. apply Forall_app. split; [by apply Hd, He|]. apply Forall_cons. split; [done|].
  apply Forall_app. split; [by apply Hd, He|]. apply Forall_app. split.
  - apply Forall_concat, Forall_map. eapply Forall_impl; [apply He|]. intros w [_ Hw]. constructor; [done|].
    eapply Forall_impl; [exact Hw|]. unfold plain. cbn. tauto.
  - apply Forall_forall. intros x Hx. apply list_elem_of_In, repeat_spec in Hx. by subst.
Qed.

(** Reading a line: it is cut at 511 characters. *)
Lemma ReadLines_entry e rest p :
  maps_ok e ->
  ReadLines [] (prefix e ++ name e ++ newline :: rest) p =
  ReadLines [] rest (HandleLine (prefix e ++ take (511 - length (prefix e)) (name e)) p).
Proof.
  intros He. pose proof (prefix_plain e He) as Hp. pose proof (ok_name e He) as Hn.
  rewrite app_assoc, ReadLines_line; [|apply Forall_app; split; (eapply Forall_impl; [done|]); cbn; [by intros c [? _]..]|cbn; lia].
  cbn [app]. rewrite take_app_ge by (pose proof (ok_prefix e He); lia). rewrite cstr_all; [done|].
  apply Forall_app. split; [|apply Forall_take]; (eapply Forall_impl; [done|]); cbn; by intros c [_ ?].
Qed.

Lemma ReadLines_grows es : Forall maps_ok es -> forall p,
  exists l, Out (ReadLines [] (maps_text es) p) = Out p ++ l /\ (Any p = true -> Any (ReadLines [] (maps_text es) p) = true).
Proof.
  induction 1 as [|e es He _ IH]; intros p; unfold maps_text; cbn [map concat]; [exists []; by rewrite app_nil_r|].
  rewrite <- !app_assoc. cbn [app]. rewrite ReadLines_entry by done.
  destruct (HandleLine_grows (prefix e ++ take (511 - length (prefix e)) (name e)) p) as (l1 & H1 & A1).
  destruct (IH (HandleLine (prefix e ++ take (511 - length (prefix e)) (name e)) p)) as (l2 & H2 & A2).
  exists (l1 ++ l2). unfold maps_text in *. rewrite H2, H1, app_assoc. auto.
Qed.

(** Every named entry is recorded. *)
Lemma ParseSelfMaps_named es e :
  Forall maps_ok es -> e ∈ es -> name e <> [] ->
  exists l m, ParseSelfMaps (Some (maps_text es)) = Some l /\ mkOwned (e_start e) (e_stop e) m ∈ l.
Proof.
  intros Hes (l1 & l2 & ->)%list_elem_of_split Hne. apply Forall_app in Hes as [H1 [He H2]%Forall_cons].
  assert (Hgo : forall p, exists l m, Out (ReadLines [] (maps_text (l1 ++ e :: l2)) p) = l /\ mkOwned (e_start e) (e_stop e) m ∈ l /\ Any (ReadLines [] (maps_text (l1 ++ e :: l2)) p) = true).
  { induction H1 as [|e1 l1 He1 H1 IH]; intros p; unfold maps_text; cbn [app map concat];
      rewrite <- !app_assoc; cbn [app]; rewrite ReadLines_entry by done; [|apply IH].
    destruct (ok_named e He Hne) as [Hpad Hhd]. pose proof (ok_prefix e He).
    rewrite HandleLine_named; [|done|done|].
    - set (q := mkParser _ _ true). destruct (ReadLines_grows l2 H2 q) as (l & Ho & Ha). unfold maps_text in *.
      rewrite Ho, Ha by done. exists (Out q ++ l), (negb (bool_decide (take 5 (take (511 - length (prefix e)) (name e)) = vvar))).
      split_and!; [done| |done]. apply elem_of_app. left. apply elem_of_app. right. by left.
    - destruct (name e) as [|c nm]; [done|]. destruct (511 - length (prefix e))%nat eqn:E; [lia|done]. }
  destruct (Hgo (mkParser [] 0 false)) as (l & m & Ho & Hin & Ha). exists l, m. unfold ParseSelfMaps. by rewrite Ha, Ho.
Qed.

(** after the snapshot, every request that touches the part above 4 GiB of a mapping that
    /proc/self/maps gives a name is refused. *)
Theorem SnapshotSelf_protects sort s es e b n :
  (forall l, sort l ≡ₚ l) -> (forall l, StronglySorted (fun a b => Base a <= Base b) (sort l)) ->
  12 <= s <= 16 -> Forall maps_ok es -> e ∈ es -> name e <> [] ->
  request b n -> b < e_stop e -> e_start e < b + n -> FirstGuardedAddress < b + n -> FirstGuardedAddress < e_stop e ->
  Overlaps (2 ^ s) (SnapshotSelf sort (Some (maps_text es)) None empty_table) b n = true.
Proof.
  intros Hp Ha Hs Hes He Hne Hreq Hb1 Hb2 Hb3 Hb4. pose proof (ParseSelfMaps_named es e Hes He Hne) as (l & m & Hl & Hin).
  eapply (Overlaps_spec sort Hp Ha s Hs); [apply recorded_snapshot, recorded_empty|done|].
  destruct Hreq as (H0 & H1 & H2). pose proof (host_bounds s Hs).
  destruct (AlignUp_host s Hs (b + n)) as [_ Hu]; [lia|lia|].
  destruct (granule_base s Hs b) as [_ Hb]; [unfold is_u; lia|]. unfold GT.GranuleOf in Hb.
  exists (Z.max b (Z.max (e_start e) FirstGuardedAddress)), (mkOwned (Z.max (e_start e) FirstGuardedAddress) (e_stop e) m).
  rewrite Forall_forall in Hes. pose proof (ok_range e (Hes e He)).
  split_and!; [lia|lia| |cbn; lia|cbn; lia].
  unfold snapshot. cbn [Snapshotted empty_table app]. rewrite Hl, app_nil_r.
  apply list_elem_of_fmap. exists (mkOwned (e_start e) (e_stop e) m). split; [done|].
  apply list_elem_of_filter. cbn. split; [lia|done].
Qed.

(** "13fff0000-140010000 r-xp 00000000 08:01 42 /FEX" *)
Definition sample_maps : MapsEntry :=
  mkMaps [49; 51; 102; 102; 102; 48; 48; 48; 48] [49; 52; 48; 48; 49; 48; 48; 48; 48]
    [[114; 45; 120; 112]; [48; 48; 48; 48; 48; 48; 48; 48]; [48; 56; 58; 48; 49]; [52; 50]] 1
    [47; 70; 69; 88].

Lemma sample_maps_ok : maps_ok sample_maps.
Proof. split; cbn; try done; try lia; [..|by repeat constructor|by repeat constructor]; split; by repeat constructor. Qed.

(** Wine's reservation at the default image base is refused. *)
Lemma SnapshotSelf_protects_witness :
  Overlaps (2 ^ 16) (SnapshotSelf sort_ranges (Some (maps_text [sample_maps])) None empty_table) 0x140000000 0x1000 = true.
Proof.
  apply (SnapshotSelf_protects sort_ranges 16 [sample_maps] sample_maps);
    [exact sort_ranges_perm|exact sort_ranges_ascending|lia|apply Forall_singleton, sample_maps_ok|by left|done|
     repeat constructor; lia|done..].
Defined.
