(* ===== verification/SMCTrack.v ===== *)
(** * Self-modifying code tracking and sub-granule system calls: the model

    SyscallsSMCTracking.cpp (the paths that write-protect guest code and lift the protection)
    and GranuleMemory.cpp ([munmap] and [mprotect] of part of a host page), over the VMA map,
    the two granule tables and the table of host-owned ranges.  The protections that the
    kernel has are a map from host pages; the outcome of a system call is a function of its
    arguments.  The compiled code is a type with an interface, [CodeMap].  The counters of
    the store backpatcher, the audit log and the loading of code caches after an [mprotect]
    are not part of the state. *)

From S2P Require Import Prelude VMA VMATrack Granule HostRanges.
Import VMA Track.

(** What the tracking asks of the compiled code: whether a block compiled from a guest page can
    be reached, and that an invalidation leaves none in its range. *)
Class CodeMap (C : Type) := {
  live : C -> Z -> bool;
  InvalidateGuestCodeRange : C -> Z -> Z -> C;
  invalidate_range : forall c Start Length p, Start <= p < Start + Length ->
    live (InvalidateGuestCodeRange c Start Length) p = false;
  invalidate_keeps : forall c Start Length p,
    live (InvalidateGuestCodeRange c Start Length) p = true -> live c p = true;
}.

Module SMCTrack.

Inductive SMCChecks := CONFIG_SMC_NONE | CONFIG_SMC_MTRACK | CONFIG_SMC_FULL.

#[global] Instance SMCChecks_dec : EqDecision SMCChecks.
Proof. solve_decision. Defined.

Record Config := mkConfig {
  Checks : SMCChecks;
  SMCMarkMemo : bool;
  SMCDetectionDisabled : bool;
  SMCFileImmutable : bool;
  granule_config : SMC.Config;
}.

Section system.
  Context {C : Type} `{CodeMap C}.

Record Sys := mkSys {
  vt : VMATracking;
  gt : GT.Table;
  smc : SMC.GranuleTable;
  rearms : SMC.RearmQueue;
  kernel : gmap Z Z;
  code : C;
  (** The members of [MappedResource] and [SyscallHandler] of FEX_SMCFILEIMMUTABLE. *)
  SMCFileImmutableRevoked : gset Z;
  SMCImmutableSkippedPages : gset Z;
  SMCImmutableSkipTotal : Z;
}.

Definition set_vt v st := mkSys v (gt st) (smc st) (rearms st) (kernel st) (code st)
  (SMCFileImmutableRevoked st) (SMCImmutableSkippedPages st) (SMCImmutableSkipTotal st).
Definition set_gt g st := mkSys (vt st) g (smc st) (rearms st) (kernel st) (code st)
  (SMCFileImmutableRevoked st) (SMCImmutableSkippedPages st) (SMCImmutableSkipTotal st).
Definition set_smc s st := mkSys (vt st) (gt st) s (rearms st) (kernel st) (code st)
  (SMCFileImmutableRevoked st) (SMCImmutableSkippedPages st) (SMCImmutableSkipTotal st).
Definition set_rearms r st := mkSys (vt st) (gt st) (smc st) r (kernel st) (code st)
  (SMCFileImmutableRevoked st) (SMCImmutableSkippedPages st) (SMCImmutableSkipTotal st).
Definition set_kernel k st := mkSys (vt st) (gt st) (smc st) (rearms st) k (code st)
  (SMCFileImmutableRevoked st) (SMCImmutableSkippedPages st) (SMCImmutableSkipTotal st).
Definition set_code c st := mkSys (vt st) (gt st) (smc st) (rearms st) (kernel st) c
  (SMCFileImmutableRevoked st) (SMCImmutableSkippedPages st) (SMCImmutableSkipTotal st).
Definition set_skipped p n st := mkSys (vt st) (gt st) (smc st) (rearms st) (kernel st) (code st)
  (SMCFileImmutableRevoked st) p n.
Definition set_revoked r st := mkSys (vt st) (gt st) (smc st) (rearms st) (kernel st) (code st)
  r (SMCImmutableSkippedPages st) (SMCImmutableSkipTotal st).

  Context (asserts : bool) (HostSize : Z) (cfg : Config) (owned : HostOwned.Owned).
  (** The [errno] of a call with these arguments, 0 when it succeeds; whether PROT_SAO is added;
      the clock. *)
  Context (mprotect_errno : Z -> Z -> Z -> Z) (munmap_errno : Z -> Z -> Z) (Live : bool) (Now : Z).

(** The host pages of a range get a protection. *)
Definition kprotect (k : gmap Z Z) (Start Length Prot : Z) : option (gmap Z Z) :=
  for_range Start (u64 (Start + Length)) HostSize (fun G k => Some (<[G := Prot]> k)) k.

Definition InvalidateCodeRangeIfNecessary (st : Sys) (Base Length : Z) : Sys :=
  if decide (Checks cfg = CONFIG_SMC_NONE) then st
  else set_code (InvalidateGuestCodeRange (code st) Base Length) st.

(** ** Marking executable ranges *)

Definition SMCFileImmutableActive : bool :=
  SMCFileImmutable cfg && bool_decide (Checks cfg = CONFIG_SMC_MTRACK).

Definition MarkSMCImmutableSkippedRange (st : Sys) (Base Top : Z) : option Sys :=
  pn ← for_range Base Top FEX_GUEST_PAGE_SIZE
    (fun Page '(Pages, Added) =>
       Some ({[Page]} ∪ Pages, if bool_decide (Page ∈ Pages) then Added else Added + 1))
    (SMCImmutableSkippedPages st, 0);
  let '(Pages, Added) := pn in
  Some (set_skipped Pages (u64 (SMCImmutableSkipTotal st + Added)) st).

(** One write protection with its bookkeeping; a refusal invalidates instead. *)
Definition ProtectRange (st : Sys) (ProtectBase ProtectSize : Z) : option Sys :=
  let Region := SMC.Cover HostSize ProtectBase ProtectSize in
  if mprotect_errno (SMC.Start Region) (SMC.RangeLength Region) PROT_READ =? 0 then
    k ← kprotect (kernel st) (SMC.Start Region) (SMC.RangeLength Region) PROT_READ;
    t ← SMC.NoteGranulesArmed HostSize (smc st) ProtectBase ProtectSize;
    Some (set_smc t (set_kernel k st))
  else Some (InvalidateCodeRangeIfNecessary st ProtectBase ProtectSize).

(** The loop over the mirrors of a shared mapping. *)
Fixpoint MarkMirrors (fuel : nat) (st : Sys) (OffsetBase OffsetTop : Z) (VMA : Z) : option Sys :=
  match fuel with
  | O => None
  | S fuel =>
      e ← VMAs (vt st) !! VMA;
      let VMAOffsetTop := u64 (Offset e + Length e) in
      st ← (if Writable (Prot e) && (Offset e <? OffsetTop) && (OffsetBase <? VMAOffsetTop) then
              let MirroredBase := Z.max (Offset e) OffsetBase in
              let MirroredSize := u64 (Z.min OffsetTop VMAOffsetTop - MirroredBase) in
              ProtectRange st (u64 (u64 (MirroredBase - Offset e) + Base e)) MirroredSize
            else Some st);
      match ResourceNextVMA e with
      | None => Some st
      | Some next => MarkMirrors fuel st OffsetBase OffsetTop next
      end
  end.

(** The body of the walk at one mapping; whether the range needed an action. *)
Definition MarkMapping (st : Sys) (RBase Top : Z) (k : Z) (e : VMAEntry) : option (Sys * bool) :=
  let MapTop := u64 (k + Length e) in
  let ProtectBase := Z.max k RBase in
  let ProtectSize := u64 (Z.min MapTop Top - ProtectBase) in
  if Shared (Flags e) then
    skip ← SMC.GranuleRangeDemoted HostSize (smc st) ProtectBase ProtectSize;
    if (skip : bool) then Some (st, true)
    else
      _ ← LOGMAN asserts (negb (ptr_eqb (Resource e) None));
      let OffsetBase := u64 (u64 (ProtectBase - k) + Offset e) in
      let OffsetTop := u64 (OffsetBase + ProtectSize) in
      r ← Resource e;
      res ← MappedResources (vt st) !! r;
      _ ← LOGMAN asserts (negb (ptr_eqb (FirstVMA res) None));
      first ← FirstVMA res;
      st ← MarkMirrors (size (VMAs (vt st))) st OffsetBase OffsetTop first;
      Some (st, true)
  else if Writable (Prot e) then
    if SMCDetectionDisabled cfg && Executable (Prot e) then Some (st, true)
    else if SMCFileImmutableActive &&
            match Resource e with None => false | Some r => bool_decide (r ∉ SMCFileImmutableRevoked st) end then
      st ← MarkSMCImmutableSkippedRange st ProtectBase (u64 (ProtectBase + ProtectSize));
      Some (st, true)
    else
      skip ← SMC.GranuleRangeDemoted HostSize (smc st) ProtectBase ProtectSize;
      if (skip : bool) then Some (st, true)
      else st ← ProtectRange st ProtectBase ProtectSize; Some (st, true)
  else Some (st, false).

(** The walk over the mappings below [cur], from above. *)
Fixpoint MarkLoop (fuel : nat) (st : Sys) (RBase Top cur : Z) (NoActionNeeded : bool) : option (Sys * bool) :=
  match pred_key (VMAs (vt st)) cur with
  | None => Some (st, NoActionNeeded)
  | Some k =>
      match fuel with
      | O => None
      | S fuel =>
          e ← VMAs (vt st) !! k;
          if u64 (k + Length e) <=? RBase then Some (st, NoActionNeeded)
          else
            sa ← MarkMapping st RBase Top k e;
            let '(st, action) := sa in
            MarkLoop fuel st RBase Top k (NoActionNeeded && negb action)
      end
  end.

Definition ReportGranuleFlips (st : Sys) : Sys :=
  if negb (SMC.Enabled HostSize) then st else set_smc (fst (SMC.TakeFlipReport (smc st))) st.

Definition MarkGuestExecutableRange (st : Sys) (RStart RLength : Z) : option Sys :=
  let RBase := RStart &&& FEX_GUEST_PAGE_MASK in
  let Top := Track.AlignUp (u64 (RStart + RLength)) FEX_GUEST_PAGE_SIZE in
  if negb (bool_decide (Checks cfg = CONFIG_SMC_MTRACK)) then Some st
  else
    let st := ReportGranuleFlips st in
    let Generation := LoadGeneration (vt st) in
    let Memoisable := SMCMarkMemo cfg && (u64 (Top - RBase) =? FEX_GUEST_PAGE_SIZE) in
    hit ← (if Memoisable then IsMarkNoOp (vt st) RBase Generation else Some false);
    if (hit : bool) then Some st
    else
      sa ← MarkLoop (size (VMAs (vt st))) st RBase Top Top true;
      let '(st, NoActionNeeded) := sa in
      if Memoisable && NoActionNeeded then
        v ← RecordMarkNoOp (vt st) RBase Generation; Some (set_vt v st)
      else Some st.

(** [RevokeSMCFileImmutabilityLocked]: the resources of the mappings that meet the range. *)
Fixpoint RevokeLoop (fuel : nat) (st : Sys) (RBase cur : Z) : option Sys :=
  match pred_key (VMAs (vt st)) cur with
  | None => Some st
  | Some k =>
      match fuel with
      | O => None
      | S fuel =>
          e ← VMAs (vt st) !! k;
          if u64 (k + Length e) <=? RBase then Some st
          else
            let st := match Resource e with
                      | None => st
                      | Some r => set_revoked ({[r]} ∪ SMCFileImmutableRevoked st) st
                      end in
            RevokeLoop fuel st RBase k
      end
  end.

Definition RevokeSMCFileImmutabilityLocked (st : Sys) (RBase Top : Z) : option Sys :=
  RevokeLoop (size (VMAs (vt st))) st RBase Top.

(** ** Lifting the protection *)

(** [None] is the fatal error when the [mprotect] fails. *)
Definition UnprotectGuestRangeForHostWrite (st : Sys) (RStart RLength : Z) : option Sys :=
  let Region := SMC.Cover HostSize RStart RLength in
  let Top := u64 (SMC.Start Region + SMC.RangeLength Region) in
  st ← for_range (HostPage.AlignDown HostSize (SMC.Start Region)) Top (HostPage.Size HostSize)
    (fun Granule st => Some (set_smc (fst (fst (SMC.NoteFault HostSize (granule_config cfg) Now (smc st) Granule))) st)) st;
  let st := set_code (InvalidateGuestCodeRange (code st) (SMC.Start Region) (SMC.RangeLength Region)) st in
  if mprotect_errno (SMC.Start Region) (SMC.RangeLength Region) (PROT_READ ||| PROT_WRITE) =? 0 then
    k ← kprotect (kernel st) (SMC.Start Region) (SMC.RangeLength Region) (PROT_READ ||| PROT_WRITE);
    Some (set_kernel k st)
  else None.

Definition NoteGranuleRangeGone (st : Sys) (RBase Top : Z) : option Sys :=
  if negb (SMC.Enabled HostSize) then Some st
  else
    t ← SMC.Forget HostSize (smc st) RBase Top;
    Some (set_rearms (SMC.Drop HostSize (rearms st) RBase Top) (set_smc t st)).

End system.
End SMCTrack.
