(* ===== verification/GranuleMem.v ===== *)
(** * System calls on part of a host page: the model

    Source/Tools/LinuxEmulation/LinuxSyscalls/GranuleMemory.cpp: [munmap] and [mprotect] of
    guest pages that share a host page with others, and the queries of the table and the VMA
    map that they make.  A result is [None] where the function leaves the call to the normal
    path. *)

From S2P Require Import Prelude VMA VMATrack Granule HostRanges SMCTrack.
Import VMA Track SMCTrack.

Module GranuleMemory.

Abbreviation ENOMEM := 12.
Abbreviation EACCES := 13.
Abbreviation EINVAL := 22.

Section system.
  Context {C : Type} `{CodeMap C}.
  Abbreviation System := (@Sys C).
  Context (asserts : bool) (HostSize : Z) (cfg : Config) (owned : HostOwned.Owned).
  Context (mprotect_errno : Z -> Z -> Z -> Z) (munmap_errno : Z -> Z -> Z) (Live : bool).

Definition GuestPageSize : Z := FEX_GUEST_PAGE_SIZE.
Definition GuestPageMask : Z := FEX_GUEST_PAGE_MASK.

Definition HostAligned (Value : Z) : bool := HostPage.IsAligned HostSize Value.

(** [if (c) x |= bit], three times. *)
Definition ProtBits (P : VMAProt) : Z :=
  GT.or_if (Executable P) (GT.or_if (Writable P) (GT.or_if (Readable P) 0 PROT_READ) PROT_WRITE) PROT_EXEC.

Definition HasLiveSiblings (v : VMATracking) (t : GT.Table) (GranuleBase ExcludeBase ExcludeEnd : Z) : option bool :=
  for_range GranuleBase (u64 (GranuleBase + HostPage.Size HostSize)) GuestPageSize
    (fun Page (found : bool) =>
       if found || ((ExcludeBase <=? Page) && (Page <? ExcludeEnd)) then Some found
       else
         match GT.Find t GranuleBase with
         | Some e => Some (negb ((GT.NibbleAt e (GT.IndexOf HostSize Page) &&& GT.PageLive) =? 0))
         | None => Some (match FindVMAEntry v Page with Some _ => true | None => false end)
         end) false.

(** The entry that seeding leaves. *)
Definition SeedEntry (v : VMATracking) (GranuleBase : Z) (e : GT.GranuleEntry) : option GT.GranuleEntry :=
  for_range GranuleBase (u64 (GranuleBase + HostPage.Size HostSize)) GuestPageSize
    (fun Page e =>
       let Index := GT.IndexOf HostSize Page in
       if negb ((GT.NibbleAt e Index &&& GT.PageLive) =? 0) then Some e
       else
         match FindVMAEntry v Page with
         | None => Some e
         | Some k =>
             VMA ← VMAs v !! k;
             let P := ProtBits (Prot VMA) in
             Some (GT.set_HostProt (u8 (GT.HostProt e ||| P)) (GT.SetNibbleAt e Index (GT.NibbleFromProt P)))
         end) e.

Definition SeedGranuleFromVMAs (v : VMATracking) (t : GT.Table) (GranuleBase : Z) : option GT.Table :=
  te ← GT.FindOrCreate asserts HostSize t GranuleBase;
  let '(t, e) := te in
  e ← SeedEntry v GranuleBase e;
  Some (<[GranuleBase := e]> t).

Definition GranuleHasSharedMapping (v : VMATracking) (GranuleBase : Z) : option bool :=
  for_range GranuleBase (u64 (GranuleBase + HostPage.Size HostSize)) GuestPageSize
    (fun Page (found : bool) =>
       if found then Some true
       else
         match FindVMAEntry v Page with
         | None => Some false
         | Some k => VMA ← VMAs v !! k; Some (Shared (Flags VMA))
         end) false.

Definition GuestPageLive (v : VMATracking) (t : GT.Table) (Page : Z) : bool :=
  match GT.Find t (GT.GranuleOf HostSize Page) with
  | Some e => negb ((GT.NibbleAt e (GT.IndexOf HostSize Page) &&& GT.PageLive) =? 0)
  | None => match FindVMAEntry v Page with Some _ => true | None => false end
  end.

(** [RematerialiseIfNeeded] on the system: what the kernel has follows a successful call. *)
Definition Rematerialise (st : System) (G : Z) : System * Z :=
  let want := match gt st !! G with None => 0 | Some e => GT.WantedProt HostSize (H := SMC_view HostSize) (smc st) G e end in
  let errno := mprotect_errno G (HostPage.Size HostSize) (GT.ApplyGuestProt Live want) in
  match GT.RematerialiseIfNeeded HostSize (H := SMC_view HostSize) (smc st) Live (errno =? 0) (gt st) G with
  | (t, Some p, true) => (set_kernel (<[G := p]> (kernel st)) (set_gt t st), 0)
  | (t, Some _, false) => (set_gt t st, errno)
  | (t, None, _) => (set_gt t st, 0)
  end.

(** The granules of a whole-granule range are forgotten. *)
Definition ForgetGranules (t : GT.Table) (GuestBase GuestEnd : Z) : option GT.Table :=
  for_range GuestBase GuestEnd (HostPage.Size HostSize) (fun G t => Some (fst (GT.Forget t G))) t.

(** A turn of [Munmap]'s loop; an error ends it. *)
Definition MunmapGranule (GuestBase GuestEnd : Z) (G : Z) (se : System * option Z) : option (System * option Z) :=
  let '(st, err) := se in
  match err with
  | Some _ => Some se
  | None =>
      let SubBase := Z.max GuestBase G in
      let SubEnd := Z.min GuestEnd (u64 (G + HostPage.Size HostSize)) in
      t ← SeedGranuleFromVMAs (vt st) (gt st) G;
      tl ← GT.ClearIntended asserts HostSize t SubBase (u64 (SubEnd - SubBase)) false;
      let t := fst tl in
      if match t !! G with Some e => GT.Empty e | None => false end then
        if munmap_errno G (HostPage.Size HostSize) =? 0 then
          Some (set_kernel (delete G (kernel st)) (set_gt (fst (GT.Forget t G)) st), None)
        else Some (set_gt t st, Some (munmap_errno G (HostPage.Size HostSize)))
      else Some (fst (Rematerialise (set_gt t st) G), None)
  end.

(** The result is the value of the system call. *)
Definition Munmap (st : System) (addr length : Z) : option (System * option Z) :=
  if negb (GT.Active HostSize) || (length =? 0) then Some (st, None)
  else if negb ((addr &&& u64 (Z.lnot GuestPageMask)) =? 0) then Some (st, Some (u64 (- EINVAL)))
  else
    let GuestBase := addr in
    let Size := Track.AlignUp length GuestPageSize in
    let GuestEnd := u64 (GuestBase + Size) in
    if HostAligned GuestBase && HostAligned GuestEnd then
      t ← (if bool_decide (gt st = ∅) then Some (gt st) else ForgetGranules (gt st) GuestBase GuestEnd);
      Some (set_gt t st, None)
    else
      let GranuleStart := HostPage.AlignDown HostSize GuestBase in
      let GranuleEnd := HostPage.AlignUp HostSize GuestEnd in
      if HostOwned.Overlaps HostSize owned GranuleStart (u64 (GranuleEnd - GranuleStart))
      then Some (st, Some (u64 (- EINVAL)))
      else
        se ← for_range GranuleStart GranuleEnd (HostPage.Size HostSize) (MunmapGranule GuestBase GuestEnd) (st, None);
        match se with
        | (st, Some e) => Some (st, Some (u64 (- e)))
        | (st, None) =>
            v ← Track.TrackMunmap asserts (vt st) addr Size;
            Some (InvalidateCodeRangeIfNecessary cfg (set_vt v st) GuestBase Size, Some 0)
        end.

(** The table of a whole-granule [mprotect]. *)
Definition ProtectGranules (t : GT.Table) (GuestBase GuestEnd prot : Z) : option GT.Table :=
  for_range GuestBase GuestEnd (HostPage.Size HostSize)
    (fun G t =>
       match GT.Find t G with
       | None => Some t
       | Some _ =>
           t ← GT.SetIntended asserts HostSize t G (HostPage.Size HostSize) prot;
           Some (GT.NoteHostProt t G prot)
       end) t.

Definition MprotectGranule (GuestBase GuestEnd prot : Z) (G : Z) (se : System * option Z) : option (System * option Z) :=
  let '(st, err) := se in
  match err with
  | Some _ => Some se
  | None =>
      let SubBase := Z.max GuestBase G in
      let SubEnd := Z.min GuestEnd (u64 (G + HostPage.Size HostSize)) in
      if match FindVMAEntry (vt st) SubBase with
         | Some _ => false
         | None => match GT.LookupPage HostSize (gt st) SubBase with Some _ => false | None => true end
         end
      then Some (st, Some ENOMEM)
      else
        t ← SeedGranuleFromVMAs (vt st) (gt st) G;
        t ← GT.SetIntended asserts HostSize t SubBase (u64 (SubEnd - SubBase)) prot;
        let '(st, errno) := Rematerialise (set_gt t st) G in
        Some (st, if errno =? 0 then None else Some errno)
  end.

Definition Mprotect (st : System) (addr length prot : Z) : option (System * option Z) :=
  if negb (GT.Active HostSize) || (length =? 0) then Some (st, None)
  else if negb ((addr &&& u64 (Z.lnot GuestPageMask)) =? 0) then Some (st, Some (u64 (- EINVAL)))
  else
    let GuestBase := addr in
    let Size := Track.AlignUp length GuestPageSize in
    let GuestEnd := u64 (GuestBase + Size) in
    if HostAligned GuestBase && HostAligned GuestEnd then
      t ← (if bool_decide (gt st = ∅) then Some (gt st) else ProtectGranules (gt st) GuestBase GuestEnd prot);
      Some (set_gt t st, None)
    else
      let GranuleStart := HostPage.AlignDown HostSize GuestBase in
      let GranuleEnd := HostPage.AlignUp HostSize GuestEnd in
      let Len := u64 (GranuleEnd - GranuleStart) in
      if HostOwned.Overlaps HostSize owned GranuleStart Len then
        let Hit := HostOwned.FindOverlap HostSize owned GranuleStart Len in
        Some (st, Some (u64 (- if HostOwned.MayWrite Hit then ENOMEM else EACCES)))
      else
        se ← for_range GranuleStart GranuleEnd (HostPage.Size HostSize) (MprotectGranule GuestBase GuestEnd prot) (st, None);
        match se with
        | (st, Some e) => Some (st, Some (u64 (- e)))
        | (st, None) =>
            v ← Track.TrackMprotect asserts (vt st) addr Size prot;
            Some (InvalidateCodeRangeIfNecessary cfg (set_vt v st) GuestBase Size, Some 0)
        end.

End system.
End GranuleMemory.
