(* ===== verification/SMCTrackProps.v ===== *)
(** * Self-modifying code tracking: lemmas

    The host pages that write protection and its removal reach, and the granules that the two
    tables record for them. *)

From S2P Require Import Prelude VMA VMALists VMASpec VMAProps VMATrack VMATrackProps Granule GranuleProps HostRanges.
From S2P Require Import SMCTrack.
Import VMA Track SMCTrack.

(** A property of the state that every turn of a loop keeps. *)
Lemma for_loop_inv {St} (I : St -> Prop) fuel step body End :
  (forall j s s', I s -> body j s = Some s' -> I s') ->
  forall i s s', for_loop fuel step body i End s = Some s' -> I s -> I s'.
Proof.
  intros Hb. induction fuel as [|fuel IH]; intros i s s'; cbn [for_loop]; destruct (i <? End);
    try done; try by intros [= <-].
  destruct (body i s) as [s1|] eqn:E; [|done]. cbn. intros Hrun HI. eapply IH; [exact Hrun|]. by eapply Hb.
Qed.

Lemma for_range_inv {St} (I : St -> Prop) i End step body s s' :
  (forall j s s', I s -> body j s = Some s' -> I s') -> for_range i End step body s = Some s' -> I s -> I s'.
Proof. intros Hb. by apply for_loop_inv. Qed.

Section host.
  Context (s : Z) (Hs : 12 <= s <= 16).
  Abbreviation HS := (2 ^ s).

(** A range of whole guest pages, low enough that no computation with it wraps around. *)
Definition guest_range (P S : Z) : Prop :=
  0 <= P /\ 0 < S /\ P + S <= 2 ^ 62 /\ P mod 4096 = 0 /\ S mod 4096 = 0.

(** The host pages of a guest range. *)
Definition in_region (P S g : Z) : Prop :=
  g mod HS = 0 /\ HostPage.AlignDown HS P <= g < HostPage.AlignUp HS (P + S).

#[global] Instance in_region_dec P S g : Decision (in_region P S g).
Proof. unfold in_region. apply _. Defined.

Lemma region_bounds P S : guest_range P S ->
  HostPage.AlignDown HS P mod HS = 0 /\ HostPage.AlignUp HS (P + S) mod HS = 0 /\
  0 <= HostPage.AlignDown HS P <= P /\ P < HostPage.AlignDown HS P + HS /\
  P + S <= HostPage.AlignUp HS (P + S) < P + S + HS /\ 4096 <= HS <= 65536.
Proof.
  intros (H0 & H1 & H2 & _). pose proof (host_bounds s Hs) as Hb.
  destruct (granule_base s Hs P) as [Hm Hg]; [unfold is_u; lia|]. unfold GT.GranuleOf in *.
  destruct (AlignUp_host s Hs (P + S)) as [Hu Hr]; [lia|lia|].
  assert (0 <= HostPage.AlignDown HS P) by (apply Z.land_nonneg; by left). split_and!; (done || lia).
Qed.

(** [Cover] is the range of the host pages. *)
Lemma Cover_spec P S : guest_range P S ->
  SMC.Start (SMC.Cover HS P S) = HostPage.AlignDown HS P /\
  SMC.Start (SMC.Cover HS P S) + SMC.RangeLength (SMC.Cover HS P S) = HostPage.AlignUp HS (P + S).
Proof.
  intros Hr. destruct (region_bounds P S Hr) as (Hm1 & Hm2 & Hb1 & Hb2 & Hb3 & Hb4). destruct Hr as (H0 & H1 & H2 & H3 & H4).
  unfold SMC.Cover, SMC.Enabled, HostPage.MatchesGuest. rewrite negb_involutive.
  destruct (Z.eqb_spec HS FEX_GUEST_PAGE_SIZE) as [E|E]; cbn.
  - rewrite E in *. unfold FEX_GUEST_PAGE_SIZE in *.
    assert (HostPage.AlignDown 4096 P = P) as ->.
    { destruct (Z.lt_ge_cases (HostPage.AlignDown 4096 P) P) as [Hlt|]; [|lia].
      pose proof (mod_gap 4096 _ _ ltac:(lia) Hm1 H3 Hlt). lia. }
    split; [done|]. assert (Hps : (P + S) mod 4096 = 0) by (rewrite Z.add_mod, H3, H4 by lia; done).
    destruct (Z.lt_ge_cases (P + S) (HostPage.AlignUp 4096 (P + S))) as [Hlt|]; [|lia].
    pose proof (mod_gap 4096 _ _ ltac:(lia) Hps Hm2 Hlt). lia.
  - rewrite (u_small 64 (P + S)) by (unfold is_u; lia). split; [done|]. rewrite u_small by (unfold is_u; lia). lia.
Qed.

Lemma kprotect_spec k P S p : guest_range P S ->
  exists k', kprotect HS k (SMC.Start (SMC.Cover HS P S)) (SMC.RangeLength (SMC.Cover HS P S)) p = Some k' /\
    forall g, k' !! g = if decide (in_region P S g) then Some p else k !! g.
Proof.
  intros Hr. destruct (Cover_spec P S Hr) as [Hst Hen]. destruct (region_bounds P S Hr) as (Hm1 & Hm2 & Hb1 & Hb2 & Hb3 & Hb4).
  pose proof Hr as (H0 & H1 & H2 & _). unfold kprotect. rewrite Hen, Hst, u_small by (unfold is_u; lia). unfold in_region.
  destruct (for_range_aligned (fun j k' => forall g, k' !! g =
    if decide (g mod HS = 0 /\ HostPage.AlignDown HS P <= g < j) then Some p else k !! g)
    (HostPage.AlignDown HS P) (HostPage.AlignUp HS (P + S)) HS (fun G k => Some (<[G := p]> k)) k)
    as (k' & Hrun & Hk); [lia|lia|lia| | | |].
  - by rewrite Zminus_mod, Hm1, Hm2.
  - intros g. case_decide; [lia|done].
  - intros j k1 Hj Hm HI. eexists. split; [done|]. intros g.
    assert (Hjm : j mod HS = 0) by (eapply mod_step; [| |exact Hm]; [lia|done]).
    destruct (decide (g = j)) as [->|Hne].
    + rewrite lookup_insert_eq. case_decide; [done|]. lia.
    + rewrite lookup_insert_ne, HI by done. destruct (Z.lt_ge_cases g j) as [Hlt|Hge].
      * repeat case_decide; (done || lia).
      * repeat case_decide; try done; try lia.
        pose proof (mod_gap HS j g ltac:(lia) Hjm ltac:(tauto) ltac:(lia)). lia.
  - exists k'. split; [done|]. intros g. rewrite Hk. repeat case_decide; tauto.
Qed.

(** ** The table of write-protected pages *)

(** An address that a granule has. *)
Lemma PageBit_bound a : is_u 64 a -> 0 <= SMC.PageBit HS a < 16.
Proof.
  intros Ha. unfold SMC.PageBit, SMC.Base. change (HostPage.AlignDown HS a) with (GT.GranuleOf HS a).
  change (u64 (a - GT.GranuleOf HS a) >>> FEX_GUEST_PAGE_SHIFT) with (GT.IndexOf HS a).
  pose proof (IndexOf_bound s Hs a Ha). rewrite u_small by (unfold is_u; lia). done.
Qed.

(** What arming does to one granule. *)
Record armed_by (t t' : SMC.GranuleTable) (R : Z -> Prop) : Prop := mk_armed_by {
  by_armed : forall g, SMC.Armed HS t' g = true -> SMC.Armed HS t g = true \/ R g;
  by_old : forall g, SMC.Armed HS t g = true -> SMC.Armed HS t' g = true;
  by_new : SMC.DemotedCount t = 0 -> (forall g e, SMC.Granules t !! g = Some e -> SMC.ValidateOnly e = false) ->
    forall g, R g -> SMC.Enabled HS = true -> SMC.Armed HS t' g = true;
  by_plain : (forall g e, SMC.Granules t !! g = Some e -> SMC.ValidateOnly e = false) ->
    forall g e, SMC.Granules t' !! g = Some e -> SMC.ValidateOnly e = false;
  by_count : SMC.DemotedCount t' = SMC.DemotedCount t;
}.

Lemma armed_by_refl t (R : Z -> Prop) : (forall g, ~ R g) -> armed_by t t R.
Proof. intros HR. split; auto. intros _ _ g Hg. by destruct (HR g). Qed.

Lemma NoteArmed_spec t g m : 0 < m -> SMC.Enabled HS = true ->
  armed_by t (SMC.NoteArmed HS t g m) (eq g).
Proof.
  intros Hm Hen. unfold SMC.NoteArmed, SMC.Armed. rewrite Hen. destruct (Z.eqb_spec m 0); [lia|]. cbn.
  set (e := default SMC.empty_entry (SMC.Granules t !! g)).
  assert (He : forall e', SMC.Granules t !! g = Some e' -> e = e') by (intros e' E; unfold e; by rewrite E).
  assert (Hz : forall x, (Z.lor x m =? 0) = false).
  { intros x. apply Z.eqb_neq. rewrite Z.lor_eq_0_iff. lia. }
  assert (Hplain : (forall g e, SMC.Granules t !! g = Some e -> SMC.ValidateOnly e = false) -> SMC.ValidateOnly e = false).
  { intros Hp. unfold e. destruct (SMC.Granules t !! g) as [e'|] eqn:E; [by eapply Hp|done]. }
  destruct (SMC.ValidateOnly e) eqn:Ev; split; unfold SMC.Armed; rewrite ?Hen; cbn.
  1, 6: (intros g'; destruct (decide (g = g')) as [<-|]; [by right|]; rewrite lookup_insert_ne by done; by left).
  1, 5: (intros g'; destruct (decide (g = g')) as [<-|]; [rewrite lookup_insert_eq|by rewrite lookup_insert_ne];
         cbn; rewrite ?Hz; destruct (SMC.Granules t !! g) as [e'|] eqn:E; try done; by rewrite ?(He e')).
  1, 4: (intros _ Hp g' <- _; rewrite lookup_insert_eq; cbn; rewrite ?Hz; by pose proof (Hplain Hp)).
  1, 3: (intros Hp g' e'; rewrite lookup_insert_Some; intros [[<- <-]|[_ E]]; [by pose proof (Hplain Hp)|by eapply Hp]).
  all: done.
Qed.
Lemma armed_by_trans t t1 t2 (R1 R2 R : Z -> Prop) :
  armed_by t t1 R1 -> armed_by t1 t2 R2 -> (forall g, R g <-> R1 g \/ R2 g) -> armed_by t t2 R.
Proof.
  intros [A1 O1 N1 P1 C1] [A2 O2 N2 P2 C2] HR. split.
  - intros g Hg. rewrite HR. destruct (A2 g Hg) as [Ha|]; [destruct (A1 g Ha)|]; tauto.
  - auto.
  - intros Hc Hp g Hg Hen. apply HR in Hg as [Hg|Hg]; [by apply O2, N1|]. apply N2; [congruence|by apply P1|done..].
  - eauto.
  - congruence.
Qed.

Lemma armed_by_ext t t' (R R' : Z -> Prop) : armed_by t t' R -> (forall g, R g <-> R' g) -> armed_by t t' R'.
Proof. intros [A O N P Cn] HR. split; auto; [intros g Hg; rewrite <- HR; auto|]. intros H1 H2 g Hg%HR. auto. Qed.

Lemma ArmedMask_spec First Last G GT :
  0 <= Z.max First G < Z.min Last GT -> Last <= 2 ^ 62 -> exists m, SMC.ArmedMask HS First Last G GT = Some m /\ 0 < m.
Proof.
  intros H0 H1. unfold SMC.ArmedMask, FEX_GUEST_PAGE_SIZE.
  destruct (for_range_rule (fun j m => 0 <= m /\ (Z.max First G < j -> 0 < m)) (Z.max First G) (Z.min Last GT) 4096
    (fun Page Mask => Some (Mask ||| u32 (1 <<< SMC.PageBit HS Page))) 0)
    as (m & j & Hrun & [_ Hm] & _ & _ & Hj & _); [lia|lia|lia|lia| |exists m; split; [done|apply Hm; lia]].
  intros j m Hj _ [Hm _]. eexists. split; [done|]. pose proof (PageBit_bound j ltac:(unfold is_u; lia)) as Hb.
  assert (Hbit : 0 < u32 (1 <<< SMC.PageBit HS j)).
  { rewrite Z.shiftl_1_l, u_small; [apply Z.pow_pos_nonneg; lia|]. unfold is_u. split; [apply Z.pow_nonneg; lia|].
    apply Z.pow_lt_mono_r; lia. }
  assert (0 <= m ||| u32 (1 <<< SMC.PageBit HS j)) by (apply Z.lor_nonneg; lia).
  split; [done|]. intros _. assert (m ||| u32 (1 <<< SMC.PageBit HS j) <> 0); [|lia]. rewrite Z.lor_eq_0_iff. lia.
Qed.

Lemma page_aligned_mask P : 0 <= P < 2 ^ 64 -> P mod 4096 = 0 -> P &&& FEX_GUEST_PAGE_MASK = P.
Proof. intros HP Hm. rewrite land_page by done. change 0xfff with (Z.ones 12). rewrite u_land_ones by lia. unfold uwrap. change (2 ^ 12) with 4096. lia. Qed.

Lemma page_aligned_up x : 0 <= x -> x + 4096 <= 2 ^ 64 -> x mod 4096 = 0 -> Track.AlignUp x FEX_GUEST_PAGE_SIZE = x.
Proof.
  intros H0 H1 Hm. destruct (AlignUp_spec x H0 H1) as [Hr Hu].
  destruct (Z.lt_ge_cases x (AlignUp x FEX_GUEST_PAGE_SIZE)) as [Hlt|]; [|lia].
  pose proof (mod_gap 4096 _ _ ltac:(lia) Hm Hu Hlt). lia.
Qed.

Lemma guest_range_end P S : guest_range P S -> (P + S) mod 4096 = 0.
Proof. intros (_ & _ & _ & H3 & H4). by rewrite Z.add_mod, H3, H4 by lia. Qed.

Lemma NoteGranulesArmed_spec t P S : guest_range P S ->
  exists t', SMC.NoteGranulesArmed HS t P S = Some t' /\ armed_by t t' (in_region P S).
Proof.
  intros Hr. destruct (region_bounds P S Hr) as (Hm1 & Hm2 & Hb1 & Hb2 & Hb3 & Hb4).
  pose proof Hr as (H0 & H1 & H2 & H3 & H4). unfold SMC.NoteGranulesArmed. destruct (SMC.Enabled HS) eqn:Hen; cbn [negb].
  2: { exists t. split; [done|]. split; auto. intros _ _ g _ ?. congruence. }
  rewrite (page_aligned_mask P), u_small, page_aligned_up by (lia || unfold is_u; lia || by apply guest_range_end).
  unfold SMC.Base, HostPage.Size.
  destruct (for_range_rule (fun j t' => armed_by t t' (fun g => g mod HS = 0 /\ HostPage.AlignDown HS P <= g < j))
    (HostPage.AlignDown HS P) (P + S) HS
    (fun Granule t => Mask ← SMC.ArmedMask HS P (P + S) Granule (u64 (Granule + HS)); Some (SMC.NoteArmed HS t Granule Mask)) t)
    as (t' & j & Hrun & HI & Hjm & _ & Hj1 & Hj2 & _); [lia|lia|lia|apply armed_by_refl; lia| |].
  - intros j t1 Hj Hm HI. assert (Hjm : j mod HS = 0) by (eapply mod_step; [| |exact Hm]; [lia|done]).
    rewrite (u_small 64 (j + HS)) by (unfold is_u; lia).
    destruct (ArmedMask_spec P (P + S) j (j + HS)) as (m & Hrun & Hpos); [lia|lia|]. rewrite Hrun.
    eexists. split; [done|]. eapply armed_by_trans; [exact HI|by apply NoteArmed_spec|]. intros g. cbn. split.
    + intros [Hg Hgr]. destruct (Z.lt_trichotomy g j) as [|[|Hgt]]; [left; lia|by right|].
      pose proof (mod_gap HS j g ltac:(lia) Hjm Hg Hgt). lia.
    + intros [?| <-]; [lia|]. split; [done|lia].
  - exists t'. split; [done|]. eapply armed_by_ext; [exact HI|]. intros g. unfold in_region.
    assert (Hjm' : j mod HS = 0) by (eapply mod_step; [| |exact Hjm]; [lia|done]).
    assert (j = HostPage.AlignUp HS (P + S)) as ->; [|done]. specialize (Hj2 ltac:(lia)).
    destruct (Z.lt_trichotomy j (HostPage.AlignUp HS (P + S))) as [Hlt|[|Hlt]]; [|done|];
      [pose proof (mod_gap HS _ _ ltac:(lia) Hjm' Hm2 Hlt)|pose proof (mod_gap HS _ _ ltac:(lia) Hm2 Hjm' Hlt)]; lia.
Qed.
End host.
