(* ===== verification/SMCMark.v ===== *)
(** * Marking executable ranges: every alias is protected

    The walk of [MarkGuestExecutableRange] terminates, follows no dangling pointer, and
    write-protects the host pages of every writable address that shows a byte of the range. *)

From S2P Require Import Prelude VMA VMALists VMASpec VMAProps VMATrack VMATrackProps Granule GranuleProps HostRanges.
From S2P Require Import SMCTrack SMCTrackProps.
Import VMA Track SMCTrack.

Section mark.
  Context {C : Type} `{CodeMap C}.
  Context (asserts : bool) (s : Z) (Hs : 12 <= s <= 16) (cfg : Config).
  Context (mprotect_errno : Z -> Z -> Z -> Z).
  Abbreviation HS := (2 ^ s).
  Abbreviation System := (@Sys C).

(** No granule that SMC tracking holds is writable for the kernel. *)
Definition armed_ro (st : System) : Prop :=
  forall g p, SMC.Armed HS (smc st) g = true -> kernel st !! g = Some p -> p &&& PROT_WRITE = 0.

(** No granule is demoted. *)
Definition plain_smc (t : SMC.GranuleTable) : Prop :=
  SMC.DemotedCount t = 0 /\ forall g e, SMC.Granules t !! g = Some e -> SMC.ValidateOnly e = false.

(** The kernel accepts write protection, and nothing exempts code from it. *)
Definition ready (st : System) : Prop :=
  (forall a n, mprotect_errno a n PROT_READ = 0) /\ SMCDetectionDisabled cfg = false /\
  SMCFileImmutable cfg = false /\ plain_smc (smc st).

(** What the walk does to the system: the granules of [R] are protected. *)
Record marks (st st' : System) (R : Z -> Prop) : Prop := mk_marks {
  m_vt : vt st' = vt st;
  m_safe : armed_ro st -> armed_ro st';
  m_kept : forall g, kernel st !! g = Some PROT_READ -> kernel st' !! g = Some PROT_READ;
  m_old : forall g, SMC.Armed HS (smc st) g = true -> SMC.Armed HS (smc st') g = true;
  m_ready : ready st -> ready st';
  m_done : ready st -> forall g, R g -> kernel st' !! g = Some PROT_READ /\
    (SMC.Enabled HS = true -> SMC.Armed HS (smc st') g = true);
}.

Lemma marks_skip st st' (R : Z -> Prop) :
  vt st' = vt st -> kernel st' = kernel st -> smc st' = smc st -> (ready st -> forall g, ~ R g) -> marks st st' R.
Proof.
  intros Hv Hk Hm HR. split; unfold armed_ro, ready in *; rewrite ?Hv, ?Hk, ?Hm; auto.
  intros Hr g Hg. by destruct (HR Hr g).
Qed.

Lemma marks_trans st st1 st2 (R1 R2 R : Z -> Prop) :
  marks st st1 R1 -> marks st1 st2 R2 -> (ready st -> forall g, R g -> R1 g \/ R2 g) -> marks st st2 R.
Proof.
  intros [V1 S1 K1 O1 Y1 D1] [V2 S2 K2 O2 Y2 D2] HR. split; try auto; [congruence|].
  intros Hr g Hg. destruct (HR Hr g Hg) as [Hg1|Hg2]; [|auto].
  destruct (D1 Hr g Hg1) as [Hk Ha]. split; auto.
Qed.

Lemma marks_weaken st st' (R R' : Z -> Prop) :
  marks st st' R -> (ready st -> forall g, R' g -> R g) -> marks st st' R'.
Proof. intros [V S K O Y D] HR. split; auto. Qed.

Lemma armed_by_plain t t' R : armed_by s t t' R -> plain_smc t -> plain_smc t'.
Proof. intros [_ _ _ Hp Hc] [H0 H1]. split; [congruence|by apply Hp]. Qed.

Lemma ProtectRange_spec st P S : guest_range P S ->
  exists st', ProtectRange HS cfg mprotect_errno st P S = Some st' /\ marks st st' (in_region s P S).
Proof.
  intros Hr. unfold ProtectRange. destruct (Z.eqb_spec (mprotect_errno (SMC.Start (SMC.Cover HS P S))
    (SMC.RangeLength (SMC.Cover HS P S)) PROT_READ) 0) as [E|E].
  - destruct (kprotect_spec s Hs (kernel st) P S PROT_READ Hr) as (k & -> & Hk).
    destruct (NoteGranulesArmed_spec s Hs (smc st) P S Hr) as (t & -> & Ht). cbn [mbind option_bind].
    eexists. split; [done|]. split; cbn; [done| | | | |].
    + intros Hro g p Hg. unfold armed_ro in Hro. cbn. rewrite Hk. case_decide as Hin; [by intros [= <-]|].
      destruct (by_armed _ _ _ _ Ht g Hg); [eauto|done].
    + intros g Hg. rewrite Hk. by case_decide.
    + apply Ht.
    + intros (H1 & H2 & H3 & H4). split_and!; try done; by eapply armed_by_plain in H4 as [? ?].
    + intros (_ & _ & _ & [Hc Hp]) g Hg. rewrite Hk, decide_True by done. split; [done|].
      by apply (by_new _ _ _ _ Ht).
  - eexists. split; [done|]. apply marks_skip; try (unfold InvalidateCodeRangeIfNecessary; by case_decide).
    intros [Hok _]. by destruct E.
Qed.

(** The mappings of whole guest pages in the user half, with offsets that do not wrap. *)
Definition user_vma (k : Z) (e : VMAEntry) : Prop :=
  Base e = k /\ guest_range k (Length e) /\ 0 <= Offset e /\ Offset e mod 4096 = 0 /\ Offset e + Length e <= 2 ^ 62 /\
  (Shared (Flags e) = true -> Resource e <> None).

Definition user_vmas (v : VMATracking) : Prop := forall k e, VMAs v !! k = Some e -> user_vma k e.

(** The addresses that show the bytes of a range of a resource, where they are writable. *)
Definition mirror (v : VMATracking) (k OffsetBase OffsetTop a : Z) : Prop :=
  exists e, VMAs v !! k = Some e /\ Writable (Prot e) = true /\ k <= a < k + Length e /\
    OffsetBase <= Offset e + (a - k) < OffsetTop.

Lemma region_of P S a : guest_range P S -> P <= a < P + S -> in_region s P S (GT.GranuleOf HS a).
Proof.
  intros (H0 & H1 & H2 & _) Ha. apply (granule_range s Hs P (P + S)); [lia|lia|]. by exists a.
Qed.

Lemma mirror_range e k OB OT :
  user_vma k e -> 0 <= OB < OT -> OT <= 2 ^ 62 -> OB mod 4096 = 0 -> OT mod 4096 = 0 ->
  Offset e < OT -> OB < Offset e + Length e ->
  guest_range (k + (Z.max (Offset e) OB - Offset e)) (Z.min OT (Offset e + Length e) - Z.max (Offset e) OB).
Proof.
  intros (Hb & (R0 & R1 & R2 & R3 & R4) & O0 & O1 & O2 & _) HB HT M1 M2 C1 C2.
  assert (Hle : (Offset e + Length e) mod 4096 = 0) by (rewrite Z.add_mod, O1, R4 by lia; done).
  assert (Hmax : Z.max (Offset e) OB mod 4096 = 0) by (destruct (Z.max_spec (Offset e) OB) as [[_ ->]|[_ ->]]; done).
  assert (Hmin : Z.min OT (Offset e + Length e) mod 4096 = 0) by (destruct (Z.min_spec OT (Offset e + Length e)) as [[_ ->]|[_ ->]]; done).
  unfold guest_range. split_and!; [lia|lia|lia| |].
  - rewrite Z.add_mod, R3, Zminus_mod, Hmax, O1 by lia. done.
  - rewrite Zminus_mod, Hmax, Hmin. done.
Qed.
(** A range of offsets in whole pages. *)
Definition offsets (OB OT : Z) : Prop := 0 <= OB < OT /\ OT <= 2 ^ 62 /\ OB mod 4096 = 0 /\ OT mod 4096 = 0.

(** One mapping of the list. *)
Lemma mark_mirror st k e OB OT :
  VMAs (vt st) !! k = Some e -> user_vma k e -> offsets OB OT ->
  exists st', (if Writable (Prot e) && (Offset e <? OT) && (OB <? u64 (Offset e + Length e)) then
      let MirroredBase := Z.max (Offset e) OB in
      let MirroredSize := u64 (Z.min OT (u64 (Offset e + Length e)) - MirroredBase) in
      ProtectRange HS cfg mprotect_errno st (u64 (u64 (MirroredBase - Offset e) + Base e)) MirroredSize
    else Some st) = Some st' /\
    marks st st' (fun g => exists a, mirror (vt st) k OB OT a /\ GT.GranuleOf HS a = g).
Proof.
  intros He Hu (HB & HT & M1 & M2). pose proof Hu as (Hb & (R0 & R1 & R2 & R3 & R4) & O0 & O1 & O2 & _).
  rewrite (u_small 64 (Offset e + Length e)) by (unfold is_u; lia).
  destruct (_ && _) eqn:E; cbn zeta.
  - apply andb_prop in E as [[Hw C1%Z.ltb_lt]%andb_prop C2%Z.ltb_lt].
    pose proof (mirror_range e k OB OT Hu HB HT M1 M2 C1 C2) as Hr.
    rewrite (u_small 64 (Z.min _ _ - _)) by (destruct Hr; unfold is_u; lia).
    rewrite (u_small 64 (Z.max _ _ - _)) by (unfold is_u; lia). rewrite Hb, u_small by (unfold is_u; lia).
    rewrite (Z.add_comm _ k). destruct (ProtectRange_spec st _ _ Hr) as (st' & Hrun & Hm). exists st'. split; [done|].
    eapply marks_weaken; [exact Hm|]. intros _ g (a & (e' & He' & _ & Ha & Ho) & <-). simplify_eq.
    apply region_of; [done|lia].
  - exists st. split; [done|]. apply marks_skip; try done. intros _ g (a & (e' & He' & Hw & Ha & Ho) & <-). simplify_eq.
    rewrite Hw in E. cbn in E. lia.
Qed.

Lemma MarkMirrors_spec OB OT r l : forall fuel p st k,
  dlseg r p (k :: l) None (VMAs (vt st)) -> (length (k :: l) <= fuel)%nat -> user_vmas (vt st) -> offsets OB OT ->
  exists st', MarkMirrors HS cfg mprotect_errno fuel st OB OT k = Some st' /\
    marks st st' (fun g => exists k' a, k' ∈ k :: l /\ mirror (vt st) k' OB OT a /\ GT.GranuleOf HS a = g).
Proof.
  induction l as [|k2 l IH]; intros fuel p st k Hseg Hf Hu Ho; (destruct fuel as [|fuel]; [cbn in Hf; lia|]);
    destruct Hseg as [(e & He & Hres & _ & Hn) Hseg]; cbn [first_or] in Hn; cbn [MarkMirrors]; rewrite He; cbn [mbind option_bind];
    destruct (mark_mirror st k e OB OT He (Hu _ _ He) Ho) as (st1 & Hst1 & H1); cbn zeta in Hst1; rewrite Hst1; cbn [mbind option_bind]; rewrite Hn.
  - exists st1. split; [done|]. eapply marks_weaken; [exact H1|]. intros _ g (k' & a & Hin & Hm & Hg).
    apply list_elem_of_singleton in Hin as ->. eauto.
  - pose proof (m_vt _ _ _ H1) as Hv. destruct (IH fuel (Some k) st1 k2) as (st2 & Hrun & H2);
      [by rewrite Hv|cbn in *; lia|by rewrite Hv|done|]. exists st2. split; [done|].
    eapply marks_trans; [exact H1|exact H2|]. intros _ g (k' & a & Hin & Hm & Hg). rewrite Hv.
    apply elem_of_cons in Hin as [->|Hin]; [left|right]; eauto.
Qed.

(** ** The demotion test *)

Lemma Demoted_total t P S : guest_range P S ->
  exists b, SMC.GranuleRangeDemoted HS t P S = Some b /\ (SMC.DemotedCount t = 0 -> b = false).
Proof.
  intros Hr. destruct (Cover_spec s Hs P S Hr) as [Hst Hen]. destruct (region_bounds s Hs P S Hr) as (Hm1 & Hm2 & Hb1 & Hb2 & Hb3 & Hb4).
  pose proof Hr as (R0 & R1 & R2 & _). unfold SMC.GranuleRangeDemoted. destruct (SMC.Enabled HS); cbn [negb]; [|by exists false].
  rewrite Hen, Hst, u_small by (unfold is_u; lia). unfold HostPage.Size.
  destruct (for_range_rule (fun j b => HostPage.AlignDown HS P < j -> SMC.DemotedCount t = 0 -> b = false)
    (HostPage.AlignDown HS P) (HostPage.AlignUp HS (P + S)) HS (fun G all => Some (all && SMC.IsValidateOnly HS t G)) true)
    as (b & j & Hrun & HI & _ & _ & Hj & _); [lia|lia|lia|lia| |].
  - intros j b Hj _ _. eexists. split; [done|]. intros _ Hc. unfold SMC.IsValidateOnly. rewrite Hc, orb_true_r. apply andb_false_r.
  - exists b. split; [done|]. apply HI. lia.
Qed.

Lemma Skipped_total (st : System) Base Top : 0 <= Base -> Top <= 2 ^ 62 ->
  exists st', MarkSMCImmutableSkippedRange st Base Top = Some st' /\
    vt st' = vt st /\ kernel st' = kernel st /\ smc st' = smc st.
Proof.
  intros H0 H1. unfold MarkSMCImmutableSkippedRange, FEX_GUEST_PAGE_SIZE.
  destruct (for_range_rule (fun _ _ => True) Base Top 4096 (fun Page '(Pages, Added) =>
    Some ({[Page]} ∪ Pages, if bool_decide (Page ∈ Pages) then Added else Added + 1)) (SMCImmutableSkippedPages st, 0))
    as ([Pages Added] & j & -> & _); [lia|lia|lia|done| |by eexists].
  intros j [Pages Added] _ _ _. by eexists.
Qed.

(** ** One mapping of the walk *)

(** The granules that a mapping of the range asks for: its own where it is private, those of
    every writable mirror where it is shared. *)
Definition target (v : VMATracking) (RBase Top k : Z) (e : VMAEntry) (g : Z) : Prop :=
  exists a, Z.max k RBase <= a < Z.min (k + Length e) Top /\
    if Shared (Flags e)
    then exists r k' e', Resource e = Some r /\ VMAs v !! k' = Some e' /\ Resource e' = Some r /\
      exists b, mirror v k' (Offset e + (a - k)) (Offset e + (a - k) + 1) b /\ GT.GranuleOf HS b = g
    else Writable (Prot e) = true /\ GT.GranuleOf HS a = g.

Lemma mapping_range RBase Top k e :
  user_vma k e -> RBase mod 4096 = 0 -> Top mod 4096 = 0 -> 0 <= RBase -> Top <= 2 ^ 62 -> RBase < Top ->
  k < Top -> RBase < k + Length e -> guest_range (Z.max k RBase) (Z.min (k + Length e) Top - Z.max k RBase).
Proof.
  intros (_ & (R0 & R1 & R2 & R3 & R4) & _) M1 M2 H0 H1 Hlt C1 C2.
  assert (Hk : (k + Length e) mod 4096 = 0) by (rewrite Z.add_mod, R3, R4 by lia; done).
  assert (Hmax : Z.max k RBase mod 4096 = 0) by (destruct (Z.max_spec k RBase) as [[_ ->]|[_ ->]]; done).
  assert (Hmin : Z.min (k + Length e) Top mod 4096 = 0) by (destruct (Z.min_spec (k + Length e) Top) as [[_ ->]|[_ ->]]; done).
  unfold guest_range. split_and!; [lia|lia|lia|done|]. by rewrite Zminus_mod, Hmax, Hmin.
Qed.

Lemma MarkMapping_spec st ch RBase Top k e :
  inv (vt st) ch -> user_vmas (vt st) -> VMAs (vt st) !! k = Some e ->
  RBase mod 4096 = 0 -> Top mod 4096 = 0 -> 0 <= RBase -> Top <= 2 ^ 62 -> RBase < Top ->
  k < Top -> RBase < k + Length e ->
  exists st' b, MarkMapping asserts HS cfg mprotect_errno st RBase Top k e = Some (st', b) /\
    marks st st' (target (vt st) RBase Top k e).
Proof.
  intros [Hrep Hwf] Hu He M1 M2 H0 H1 Hlt C1 C2. pose proof (Hu k e He) as Hue.
  pose proof (mapping_range RBase Top k e Hue M1 M2 H0 H1 Hlt C1 C2) as Hr.
  pose proof Hue as (Hb & (R0 & R1 & R2 & R3 & R4) & O0 & O1 & O2 & Hsh).
  unfold MarkMapping, target. rewrite (u_small 64 (k + Length e)) by (unfold is_u; lia).
  rewrite (u_small 64 (Z.min _ _ - _)) by (destruct Hr; unfold is_u; lia).
  set (P := Z.max k RBase) in *. set (S := Z.min (k + Length e) Top - P) in *.
  destruct (Demoted_total (smc st) P S Hr) as (skip & Hskip & Hplain).
  assert (Hnoskip : skip = true -> ready st -> False).
  { intros -> (_ & _ & _ & [Hc _]). by specialize (Hplain Hc). }
  destruct (Shared (Flags e)) eqn:Esh.
  - rewrite Hskip. cbn [mbind option_bind]. destruct skip.
    { exists st, true. split; [done|]. apply marks_skip; try done. intros Hrd. by destruct (Hnoskip eq_refl Hrd). }
    destruct (Resource e) as [r|] eqn:Er; [|by destruct (Hsh eq_refl)]. rewrite LOGMAN_true by done. cbn [mbind option_bind].
    pose proof Hrep as (Hdom & Hseg & Hhead & Hin). destruct (Hin k e r He Er) as (l & Hl & Hkl).
    destruct (proj1 (Hdom r) ltac:(eauto)) as [res Hres]. rewrite Hres. cbn [mbind option_bind].
    rewrite (Hhead r l res Hl Hres). destruct l as [|first l]; [by apply elem_of_nil in Hkl|]. cbn [head].
    rewrite LOGMAN_true by done. cbn [mbind option_bind]. destruct (Hseg r _ Hl) as [_ Hsegl].
    rewrite (u_small 64 (P - k)), (u_small 64 (P - k + Offset e)), u_small by (unfold is_u, P, S in *; lia).
    destruct (MarkMirrors_spec (P - k + Offset e) (P - k + Offset e + S) r l (size (VMAs (vt st))) None st first Hsegl)
      as (st' & -> & Hm); [by eapply (rep_length (vt st) ch r)|done| |].
    { destruct Hr as (G0 & G1 & G2 & G3 & G4). unfold offsets. split_and!; [unfold P; lia|unfold S, P in *; lia|unfold P; lia| |].
      - rewrite Z.add_mod, Zminus_mod, G3, R3, O1 by lia. done.
      - rewrite Z.add_mod, (Z.add_mod (P - k)), Zminus_mod, G3, R3, O1, G4 by lia. done. }
    exists st', true. split; [done|]. eapply marks_weaken; [exact Hm|].
    intros _ g (a & Ha & r' & k' & e' & [= <-] & He' & Er' & b & (e2 & He2 & Hw & Hbr & Ho) & Hg). simplify_eq.
    exists k', b. destruct (Hin k' e' _ He' Er') as (l' & Hl' & Hkl'). simplify_eq. split_and!; [done| |done].
    exists e'. split_and!; [done|done|lia|lia|unfold S, P in *; lia|unfold S, P in *; lia].
  - destruct (Writable (Prot e)) eqn:Ew.
    2: { exists st, false. split; [done|]. apply marks_skip; try done. by intros _ g (a & _ & ? & _). }
    destruct (SMCDetectionDisabled cfg && Executable (Prot e)) eqn:Ed.
    { exists st, true. split; [done|]. apply marks_skip; try done. intros (_ & Hd & _). by rewrite Hd in Ed. }
    destruct (SMCFileImmutableActive cfg && _) eqn:Ei.
    { rewrite u_small by (destruct Hr; unfold is_u, S in *; lia).
      destruct (Skipped_total st P (P + S)) as (st' & -> & Hv & Hk & Hm); [destruct Hr; lia|destruct Hr; lia|].
      exists st', true. split; [done|]. apply marks_skip; try done. intros (_ & _ & Hi & _).
      unfold SMCFileImmutableActive in Ei. by rewrite Hi in Ei. }
    rewrite Hskip. cbn [mbind option_bind]. destruct skip.
    { exists st, true. split; [done|]. apply marks_skip; try done. intros Hrd. by destruct (Hnoskip eq_refl Hrd). }
    destruct (ProtectRange_spec st P S Hr) as (st' & -> & Hm). exists st', true. split; [done|].
    eapply marks_weaken; [exact Hm|]. intros _ g (a & Ha & _ & <-). apply region_of; [done|unfold S, P in *; lia].
Qed.

(** ** The walk *)

(** The granules that the mappings below [cur] ask for. *)
Definition wanted (v : VMATracking) (RBase Top cur g : Z) : Prop :=
  exists k e, VMAs v !! k = Some e /\ k < cur /\ RBase < k + Length e /\ target v RBase Top k e g.

Lemma MarkLoop_spec ch RBase Top : forall fuel st cur acc,
  inv (vt st) ch -> user_vmas (vt st) -> (below (VMAs (vt st)) cur <= fuel)%nat ->
  RBase mod 4096 = 0 -> Top mod 4096 = 0 -> 0 <= RBase -> Top <= 2 ^ 62 -> RBase < Top -> cur <= Top ->
  exists st' b, MarkLoop asserts HS cfg mprotect_errno fuel st RBase Top cur acc = Some (st', b) /\
    marks st st' (wanted (vt st) RBase Top cur).
Proof.
  induction fuel as [|fuel IH]; intros st cur acc Hinv Hu Hfuel M1 M2 H0 H1 Hlt Hcur; cbn [MarkLoop];
    (destruct (pred_key (VMAs (vt st)) cur) as [k|] eqn:Ek;
     [|exists st, acc; split; [done|]; apply marks_skip; try done;
       intros _ g (k & e & He & Hk & _); pose proof (pred_key_None _ _ k Ek ltac:(eauto)); lia]).
  { apply pred_key_Some in Ek as (Hk & Hlk & _).
    pose proof (below_pred (VMAs (vt st)) (VMAs (vt st)) cur k Hk Hlk ltac:(done)). lia. }
  apply pred_key_Some in Ek as ([e He] & Hlk & Hmax). rewrite He. cbn [mbind option_bind].
  destruct (inv_entry _ _ _ _ Hinv He) as (_ & Hbase & Hk0 & Hlen & Hend). rewrite u_small by (unfold is_u; lia).
  assert (Hbelow : forall k', is_Some (VMAs (vt st) !! k') -> k' < cur -> k' = k \/ k' < k).
  { intros k' Hs' Hc. specialize (Hmax k' Hs' Hc). lia. }
  destruct (Z.leb_spec (k + Length e) RBase) as [Hstop|Hgo].
  - exists st, acc. split; [done|]. apply marks_skip; try done. intros _ g (k' & e' & He' & Hc & Hm & _).
    destruct (Hbelow k' ltac:(eauto) Hc) as [->|Hk']; [simplify_eq; lia|].
    pose proof (inv_next _ _ _ _ k Hinv He' ltac:(eauto) Hk'). lia.
  - destruct (MarkMapping_spec st ch RBase Top k e) as (st1 & b1 & -> & Hm1); try done; [lia|]. cbn [mbind option_bind].
    pose proof (m_vt _ _ _ Hm1) as Hv.
    destruct (IH st1 k (acc && negb b1)) as (st2 & b2 & Hrun & Hm2); rewrite ?Hv; try done; [|lia|].
    { pose proof (below_pred (VMAs (vt st)) (VMAs (vt st)) cur k ltac:(eauto) Hlk ltac:(done)). lia. }
    exists st2, b2. split; [done|]. eapply marks_trans; [exact Hm1|exact Hm2|].
    intros _ g (k' & e' & He' & Hc & Hm & Ht). destruct (Hbelow k' ltac:(eauto) Hc) as [->|Hk'].
    + simplify_eq. by left.
    + right. rewrite Hv. by exists k', e'.
Qed.

(** A request of whole pages. *)
Lemma mark_bounds RStart RLength :
  0 <= RStart -> 0 < RLength -> RStart + RLength + 4096 <= 2 ^ 62 ->
  let RBase := RStart &&& FEX_GUEST_PAGE_MASK in
  let Top := Track.AlignUp (u64 (RStart + RLength)) FEX_GUEST_PAGE_SIZE in
  RBase mod 4096 = 0 /\ Top mod 4096 = 0 /\ 0 <= RBase <= RStart /\ RStart + RLength <= Top <= 2 ^ 62.
Proof.
  intros H0 H1 H2. cbn zeta. rewrite land_page by lia. change 0xfff with (Z.ones 12). rewrite u_land_ones by lia.
  unfold uwrap. change (2 ^ 12) with 4096. rewrite (Z.mod_small (RStart + RLength)) by lia.
  destruct (AlignUp_spec (RStart + RLength)) as [Hr Hm]; [lia|lia|]. pose proof (Z.mod_pos_bound RStart 4096 ltac:(lia)).
  pose proof (Z.mod_le RStart 4096 ltac:(lia) ltac:(lia)). split_and!; try lia.
  rewrite Zminus_mod_idemp_r, Z.sub_diag. done.
Qed.

Lemma marks_report st : marks st (ReportGranuleFlips HS st) (fun _ => False).
Proof.
  unfold ReportGranuleFlips. destruct (negb (SMC.Enabled HS)); [apply marks_skip; auto|].
  unfold SMC.TakeFlipReport. destruct (_ =? 0); by split.
Qed.

Lemma walk_spec st ch RStart RLength :
  inv (vt st) ch -> user_vmas (vt st) -> 0 <= RStart -> 0 < RLength -> RStart + RLength + 4096 <= 2 ^ 62 ->
  let RBase := RStart &&& FEX_GUEST_PAGE_MASK in
  let Top := Track.AlignUp (u64 (RStart + RLength)) FEX_GUEST_PAGE_SIZE in
  exists st' b, MarkLoop asserts HS cfg mprotect_errno (size (VMAs (vt st))) st RBase Top Top true = Some (st', b) /\
    marks st st' (wanted (vt st) RBase Top Top).
Proof.
  intros Hinv Hu H0 H1 H2. destruct (mark_bounds RStart RLength H0 H1 H2) as (M1 & M2 & B1 & B2). cbn zeta in *.
  eapply MarkLoop_spec; try done; [apply below_le|lia..].
Qed.

End mark.
