(* ===== verification/SMCTheorems.v ===== *)
(** * Self-modifying code tracking: theorems

    Marking a range protects every writable alias of it, and no sequence of marking, lifting,
    retiring and sub-granule system calls leaves a host page writable that SMC tracking counts
    on. *)

From S2P Require Import Prelude VMA VMALists VMASpec VMAProps VMATrack VMATrackProps VMATheorems VMAMemo Granule.
From S2P Require Import GranuleProps HostRanges SMCTrack GranuleMem SMCTrackProps SMCMark.
Import VMA Track SMCTrack.

(** ** Aliases *)

(** The address [b] shows the byte that [a] does: it is [a], or the mapping of [a] is shared
    and [b] maps the same offset of its resource. *)
Definition alias (a : Z) (p : Mapping) (b : Z) (q : Mapping) : Prop :=
  b = a \/ (Shared (m_flags p) = true /\ m_res q = m_res p /\ m_offset q = m_offset p).

Lemma user_offset k e a : user_vma k e -> k <= a < k + Length e ->
  m_offset (at_addr (core e) a) = Offset e + (a - k).
Proof.
  intros (Hb & (R0 & R1 & R2 & _) & O0 & _ & O2 & _) Ha. cbn. rewrite Hb. apply u_small. unfold is_u. lia.
Qed.

Section theorems.
  Context {C : Type} `{CodeMap C}.
  Context (asserts : bool) (s : Z) (Hs : 12 <= s <= 16) (cfg : Config).
  Context (mprotect_errno : Z -> Z -> Z -> Z).
  Abbreviation HS := (2 ^ s).
  Abbreviation System := (@Sys C).

Lemma alias_wanted (st : System) ch RBase Top a p b q :
  inv (vt st) ch -> user_vmas (vt st) -> RBase <= a < Top ->
  maps (cores (vt st)) a p -> maps (cores (vt st)) b q -> Writable (m_prot q) = true -> alias a p b q ->
  wanted s (vt st) RBase Top Top (GT.GranuleOf HS b).
Proof.
  intros [Hrep Hwf] Hu Ha (k & c & Hc & Hca & ->) (k' & c' & Hc' & Hcb & ->) Hw Hal.
  rewrite cores_lookup in Hc, Hc'. apply fmap_Some in Hc as (e & He & ->). apply fmap_Some in Hc' as (e' & He' & ->).
  unfold covers in *. cbn [c_length core] in Hca, Hcb. exists k, e. split_and!; [done|lia|lia|]. exists a. split; [lia|].
  destruct (Shared (Flags e)) eqn:Esh.
  - assert (Hres : exists r, Resource e = Some r).
    { destruct (Hu k e He) as (_ & _ & _ & _ & _ & Hsh). destruct (Resource e) as [r|]; [eauto|by destruct (Hsh Esh)]. }
    destruct Hres as [r Hr]. assert (Hsame : Resource e' = Some r /\ Offset e' + (b - k') = Offset e + (a - k)).
    { destruct Hal as [->|(_ & Hres & Hoff)].
      - destruct (wf_same (cores (vt st)) k (core e) k' (core e') a) as [-> Hee]; try done; try (by rewrite cores_lookup, ?He, ?He').
        unfold core in Hee. injection Hee as HR _ HO _ _ _. by rewrite HR, HO in *.
      - rewrite !(user_offset k e), (user_offset k' e') in Hoff by auto. cbn in Hres. by rewrite Hres. }
    destruct Hsame as [Hr' Ho]. exists r, k', e'. split_and!; [done|done|done|]. exists b. split; [|done].
    exists e'. split_and!; [done|done|lia|lia|lia|lia].
  - assert (b = a) as -> by (destruct Hal as [->|[Hsh _]]; [done|cbn in Hsh; congruence]). split; [|done].
    destruct (wf_same (cores (vt st)) k (core e) k' (core e') a) as [-> Hee]; try done; try (by rewrite cores_lookup, ?He, ?He').
    unfold core in Hee. injection Hee as _ _ _ _ _ HP. by rewrite HP.
Qed.

(** C32: when nothing exempts code from tracking and the kernel accepts the protection,
    [MarkGuestExecutableRange] succeeds, and afterwards the host page of every writable address
    that shows a byte of the range, through any mapping of a shared resource, is read-only and
    armed.  The links of the VMA lists decide which aliases are found. *)
Theorem Mark_protects_aliases (st : System) ch RStart RLength :
  inv (vt st) ch -> user_vmas (vt st) -> ready cfg mprotect_errno st -> Checks cfg = CONFIG_SMC_MTRACK ->
  0 <= RStart -> 0 < RLength -> RStart + RLength + 4096 <= 2 ^ 62 ->
  length (MarkNoOpCache (vt st)) = 512%nat ->
  IsMarkNoOp (vt st) (RStart &&& FEX_GUEST_PAGE_MASK) (LoadGeneration (vt st)) = Some false ->
  exists st', MarkGuestExecutableRange asserts HS cfg mprotect_errno st RStart RLength = Some st' /\
    forall a p b q, RStart <= a < RStart + RLength -> maps (cores (vt st)) a p -> maps (cores (vt st)) b q ->
      Writable (m_prot q) = true -> alias a p b q ->
      kernel st' !! GT.GranuleOf HS b = Some PROT_READ /\
      (SMC.Enabled HS = true -> SMC.Armed HS (smc st') (GT.GranuleOf HS b) = true).
Proof.
  intros Hinv Hu Hready Hmt H0 H1 H2 Hlen Hmemo. unfold MarkGuestExecutableRange. rewrite bool_decide_true by done. cbn [negb].
  pose proof (marks_report s cfg mprotect_errno st) as Hrep. set (st0 := ReportGranuleFlips HS st) in *.
  pose proof (m_vt _ _ _ _ _ _ Hrep) as Hv0. rewrite Hv0.
  destruct (walk_spec asserts s Hs cfg mprotect_errno st0 ch RStart RLength) as (st1 & b1 & Hrun & Hm); rewrite ?Hv0; try done.
  destruct (mark_bounds RStart RLength H0 H1 H2) as (M1 & M2 & B1 & B2). cbn zeta in *. rewrite Hv0 in Hrun.
  assert (Hdone : forall st' : System, kernel st' = kernel st1 -> smc st' = smc st1 ->
    forall a p b q, RStart <= a < RStart + RLength -> maps (cores (vt st)) a p -> maps (cores (vt st)) b q ->
      Writable (m_prot q) = true -> alias a p b q ->
      kernel st' !! GT.GranuleOf HS b = Some PROT_READ /\
      (SMC.Enabled HS = true -> SMC.Armed HS (smc st') (GT.GranuleOf HS b) = true)).
  { intros st' -> -> a p b q Ha Hp Hq Hw Hal. apply (m_done _ _ _ _ _ _ Hm); [by apply (m_ready _ _ _ _ _ _ Hrep)|].
    rewrite Hv0. apply (alias_wanted st ch _ _ a p b q); [done|done|lia|done..]. }
  rewrite Hmemo. destruct (SMCMarkMemo cfg && _); cbn [mbind option_bind]; rewrite Hrun; cbn [mbind option_bind andb];
    [|exists st1; split; [done|by apply Hdone]].
  destruct b1; [|exists st1; split; [done|by apply Hdone]]. unfold RecordMarkNoOp.
  pose proof (m_vt _ _ _ _ _ _ Hm) as Hv1. destruct (EncodeMarkNoOp _ _); cbn [mbind option_bind];
    [|eexists; split; [done|by apply Hdone]].
  destruct (lookup_lt_is_Some_2 (MarkNoOpCache (vt st1)) (Z.to_nat (MarkNoOpIndex (RStart &&& FEX_GUEST_PAGE_MASK)))) as [w ->].
  { rewrite Hv1, Hv0, Hlen. apply MarkNoOpIndex_bound. }
  eexists; split; [done|by apply Hdone].
Qed.

(** ** Armed granules stay read-only *)

  Context (owned : HostOwned.Owned) (munmap_errno : Z -> Z -> Z) (Live : bool).

Abbreviation ro := (armed_ro s).

Lemma ro_same (st st' : System) : smc st' = smc st -> kernel st' = kernel st -> ro st -> ro st'.
Proof. unfold armed_ro. by intros -> ->. Qed.

Lemma land_no_write x : (x &&& Z.lnot PROT_WRITE) &&& PROT_WRITE = 0.
Proof. rewrite <- Z.land_assoc. change (Z.lnot PROT_WRITE &&& PROT_WRITE) with 0. apply Z.land_0_r. Qed.

Lemma ApplyGuestProt_write p : GT.ApplyGuestProt Live p &&& PROT_WRITE = p &&& PROT_WRITE.
Proof. unfold GT.ApplyGuestProt. destruct Live; [|done]. rewrite Z.land_lor_distr_l. apply Z.lor_0_r. Qed.

(** Write permission is held back from an armed granule. *)
Lemma Rematerialise_ro (st : System) G : ro st -> ro (fst (GranuleMemory.Rematerialise HS mprotect_errno Live st G)).
Proof.
  intros Hro. unfold GranuleMemory.Rematerialise, GT.RematerialiseIfNeeded. destruct (gt st !! G) as [e|] eqn:E;
    [|by eapply ro_same; [| |exact Hro]].
  destruct (_ && _); [by eapply ro_same; [| |exact Hro]|]. destruct (_ =? 0) eqn:Eok; [|by eapply ro_same; [| |exact Hro]].
  intros g p Hg. cbn in Hg |- *. rewrite lookup_insert_Some. intros [[<- <-]|[_ Hk]]; [|by eapply Hro].
  rewrite ApplyGuestProt_write. unfold GT.WantedProt. cbn. rewrite Hg. apply land_no_write.
Qed.

Lemma Munmap_ro (st : System) a n st' r :
  GranuleMemory.Munmap asserts HS cfg owned mprotect_errno munmap_errno Live st a n = Some (st', r) -> ro st -> ro st'.
Proof.
  unfold GranuleMemory.Munmap. intros Hrun Hro. repeat (destruct (_ || _) || destruct (negb _)); try by simplify_eq.
  destruct (_ && _).
  { destruct (if bool_decide _ then _ else _); cbn in Hrun; simplify_eq. by eapply ro_same; [| |exact Hro]. }
  destruct (HostOwned.Overlaps _ _ _ _); [by simplify_eq|].
  destruct (for_range _ _ _ _ _) as [[st1 err]|] eqn:Eloop; [|done]. cbn [mbind option_bind] in Hrun.
  assert (Hro1 : ro st1).
  { apply (for_range_inv (fun se => ro (fst se)) _ _ _ _ _ _) in Eloop; [done| |done].
    intros j [st2 err2] [st3 err3] Hro2 Hbody. cbn in Hro2 |- *. unfold GranuleMemory.MunmapGranule in Hbody.
    destruct err2; [by simplify_eq|]. destruct (GranuleMemory.SeedGranuleFromVMAs _ _ _ _ _); [|done]. cbn in Hbody.
    destruct (GT.ClearIntended _ _ _ _ _ _) as [[t l]|]; [|done]. cbn in Hbody.
    destruct (match t !! j with Some e => GT.Empty e | None => false end).
    - destruct (_ =? 0); simplify_eq; [|by eapply ro_same; [| |exact Hro2]].
      intros g' p Hg. cbn in Hg |- *. rewrite lookup_delete_Some. intros [_ Hk]. by eapply Hro2.
    - simplify_eq. apply Rematerialise_ro. by eapply ro_same; [| |exact Hro2]. }
  destruct err; [by simplify_eq|]. destruct (TrackMunmap _ _ _ _); [|done]. cbn in Hrun. simplify_eq.
  eapply ro_same; [| |exact Hro1]; unfold InvalidateCodeRangeIfNecessary; by case_decide.
Qed.

Lemma Mprotect_ro (st : System) a n prot st' r :
  GranuleMemory.Mprotect asserts HS cfg owned mprotect_errno Live st a n prot = Some (st', r) -> ro st -> ro st'.
Proof.
  unfold GranuleMemory.Mprotect. intros Hrun Hro. repeat (destruct (_ || _) || destruct (negb _)); try by simplify_eq.
  destruct (_ && _).
  { destruct (if bool_decide _ then _ else _); cbn in Hrun; simplify_eq. by eapply ro_same; [| |exact Hro]. }
  destruct (HostOwned.Overlaps _ _ _ _); [by simplify_eq|].
  destruct (for_range _ _ _ _ _) as [[st1 err]|] eqn:Eloop; [|done]. cbn [mbind option_bind] in Hrun.
  assert (Hro1 : ro st1).
  { apply (for_range_inv (fun se => ro (fst se)) _ _ _ _ _ _) in Eloop; [done| |done].
    intros j [st2 err2] [st3 err3] Hro2 Hbody. cbn in Hro2 |- *. unfold GranuleMemory.MprotectGranule in Hbody.
    destruct err2; [by simplify_eq|]. destruct (match FindVMAEntry _ _ with Some _ => false | None => _ end); [by simplify_eq|].
    destruct (GranuleMemory.SeedGranuleFromVMAs _ _ _ _ _); [|done]. cbn in Hbody.
    destruct (GT.SetIntended _ _ _ _ _ _) as [t|]; [|done]. cbn in Hbody.
    destruct (GranuleMemory.Rematerialise _ _ _ _ _) as [st4 errno] eqn:E. simplify_eq.
    pose proof (Rematerialise_ro (set_gt t st2) j) as HR. rewrite E in HR. apply HR. by eapply ro_same; [| |exact Hro2]. }
  destruct err; [by simplify_eq|]. destruct (TrackMprotect _ _ _ _ _); [|done]. cbn in Hrun. simplify_eq.
  eapply ro_same; [| |exact Hro1]; unfold InvalidateCodeRangeIfNecessary; by case_decide.
Qed.

Lemma Mark_ro (st : System) ch a n st' :
  inv (vt st) ch -> user_vmas (vt st) -> 0 <= a -> 0 < n -> a + n + 4096 <= 2 ^ 62 ->
  MarkGuestExecutableRange asserts HS cfg mprotect_errno st a n = Some st' -> ro st -> ro st'.
Proof.
  intros Hinv Hu H0 H1 H2. unfold MarkGuestExecutableRange. destruct (negb _); [by intros [= <-]|].
  pose proof (marks_report s cfg mprotect_errno st) as Hrep. set (st0 := ReportGranuleFlips HS st) in *.
  pose proof (m_vt _ _ _ _ _ _ Hrep) as Hv0. intros Hrun Hro. pose proof (m_safe _ _ _ _ _ _ Hrep Hro) as Hro0.
  destruct (walk_spec asserts s Hs cfg mprotect_errno st0 ch a n) as (st1 & b1 & Hwalk & Hm); rewrite ?Hv0; try done.
  pose proof (m_safe _ _ _ _ _ _ Hm Hro0) as Hro1.
  destruct (if _ : bool then _ else _) as [[]|]; [cbn in Hrun; by simplify_eq| |done]. cbn [mbind option_bind] in Hrun. rewrite Hwalk in Hrun.
  cbn [mbind option_bind] in Hrun. destruct (_ && b1); [|by simplify_eq]. destruct (RecordMarkNoOp _ _ _); [|done].
  cbn in Hrun. simplify_eq. by eapply ro_same; [| |exact Hro1].
Qed.

(** A fault disarms its granule and no other. *)
Lemma NoteFault_armed gc now t G g :
  SMC.Armed HS (fst (fst (SMC.NoteFault HS gc now t G))) g = true -> SMC.Armed HS t g = true /\ g <> G.
Proof.
  unfold SMC.NoteFault, SMC.Armed. destruct (SMC.Enabled HS); [|done]. cbn [negb].
  destruct (SMC.Granules t !! G) as [e|] eqn:E; cbn [fst].
  - cbn [SMC.Granules]. destruct (decide (G = g)) as [<-|Hne]; [by rewrite lookup_insert_eq|].
    rewrite lookup_insert_ne by done. auto.
  - intros Hg. split; [done|]. intros ->. by rewrite E in Hg.
Qed.

Lemma Unprotect_ro (st : System) a n now st' :
  guest_range a n -> UnprotectGuestRangeForHostWrite HS cfg mprotect_errno now st a n = Some st' -> ro st -> ro st'.
Proof.
  intros Hr Hrun Hro. unfold UnprotectGuestRangeForHostWrite in Hrun.
  destruct (Cover_spec s Hs a n Hr) as [Hst Hen]. destruct (region_bounds s Hs a n Hr) as (Hm1 & Hm2 & Hb1 & Hb2 & Hb3 & Hb4).
  pose proof Hr as (R0 & R1 & R2 & _).
  assert (Had : HostPage.AlignDown HS (SMC.Start (SMC.Cover HS a n)) = HostPage.AlignDown HS a).
  { rewrite Hst. apply (granule_unique s Hs); [unfold is_u; lia|done|lia]. }
  rewrite Had, Hen, u_small in Hrun by (unfold is_u; lia). unfold HostPage.Size in Hrun.
  destruct (for_range_aligned (fun j (st1 : System) => kernel st1 = kernel st /\ forall g, SMC.Armed HS (smc st1) g = true ->
      SMC.Armed HS (smc st) g = true /\ ~ (g mod HS = 0 /\ HostPage.AlignDown HS a <= g < j))
    (HostPage.AlignDown HS a) (HostPage.AlignUp HS (a + n)) HS (fun Granule st => Some (set_smc
      (fst (fst (SMC.NoteFault HS (granule_config cfg) now (smc st) Granule))) st)) st)
    as (st1 & Hloop & Hk1 & Ha1); [lia|lia|lia|by rewrite Zminus_mod, Hm1, Hm2|split; [done|]; intros g Hg; split; [done|lia]| |].
  { intros j st1 Hj Hm [Hk HI]. eexists. split; [done|]. split; [done|]. intros g [Hg Hne]%NoteFault_armed.
    destruct (HI g Hg) as [Hold Hno]. split; [done|]. intros [Hgm Hgr]. apply Hno. split; [done|]. split; [lia|].
    assert (Hjm : j mod HS = 0) by (eapply mod_step; [| |exact Hm]; [lia|done]).
    destruct (Z.lt_ge_cases j g) as [Hlt|]; [|lia]. pose proof (mod_gap HS j g ltac:(lia) Hjm Hgm Hlt). lia. }
  rewrite Hloop in Hrun. cbn [mbind option_bind] in Hrun. destruct (_ =? 0); [|done].
  destruct (kprotect_spec s Hs (kernel st1) a n (PROT_READ ||| PROT_WRITE) Hr) as (k & Hk & Hlook).
  cbn [kernel set_code] in Hrun. rewrite Hk in Hrun. cbn in Hrun. simplify_eq.
  intros g p Hg. cbn in Hg |- *. destruct (Ha1 g Hg) as [Hold Hno]. rewrite Hlook, decide_False by done. rewrite Hk1. by apply Hro.
Qed.

(** Retiring a range arms nothing. *)
Lemma Forget_armed t lo hi t' g : SMC.Forget HS t lo hi = Some t' -> SMC.Armed HS t' g = true -> SMC.Armed HS t g = true.
Proof.
  unfold SMC.Forget, SMC.Armed. destruct (SMC.Enabled HS) eqn:Hen; cbn [negb]; [|by intros [= <-]].
  case_bool_decide; [by intros [= <-]|]. destruct (for_range _ _ _ _ _) as [m|] eqn:Eloop; [|done]. cbn. intros [= <-]. cbn.
  revert g. set (I := fun m : gmap Z SMC.Entry => forall g, match m !! g with Some e => negb (SMC.TrackedMask e =? 0) | None => false end = true ->
    match SMC.Granules t !! g with Some e => negb (SMC.TrackedMask e =? 0) | None => false end = true). change (I m).
  eapply (for_range_inv I); [|exact Eloop|by intros g]. cbv beta. intros G m1 m2 HI Hbody g.
  destruct (m1 !! G) as [e|] eqn:E; [|simplify_eq; apply HI]. destruct (_ || _).
  - simplify_eq. destruct (decide (G = g)) as [<-|Hne]; [by rewrite lookup_delete_eq|]. rewrite lookup_delete_ne by done. apply HI.
  - destruct (SMC.ForgetPages HS _ _ e) as [e'|] eqn:Ep; [|done]. cbn in Hbody. simplify_eq.
    destruct (decide (G = g)) as [<-|Hne]; [|rewrite lookup_insert_ne by done; apply HI].
    rewrite lookup_insert_eq. intros Hm'. apply HI. rewrite E. revert Hm'.
    set (J := fun e' => negb (SMC.TrackedMask e' =? 0) = true -> negb (SMC.TrackedMask e =? 0) = true). change (J e').
    eapply (for_range_inv J); [|exact Ep|by unfold J]. intros j e1 e2 HI1 [= <-] Hz. apply HI1. cbn in Hz.
    destruct (Z.eqb_spec (SMC.TrackedMask e1) 0) as [Ez|]; [|done]. by rewrite Ez, Z.land_0_l in Hz.
Qed.

Lemma Gone_ro (st : System) lo hi st' : NoteGranuleRangeGone HS st lo hi = Some st' -> ro st -> ro st'.
Proof.
  unfold NoteGranuleRangeGone. destruct (negb _); [by intros [= <-]|]. destruct (SMC.Forget _ _ _ _) as [t|] eqn:E; [|done].
  cbn. intros [= <-] Hro g p Hg. cbn in *. eapply Hro, Forget_armed; [done|done].
Qed.

(** ** The machine *)

Inductive smc_step : System -> System -> Prop :=
| step_mark st st' ch a n :
    inv (vt st) ch -> user_vmas (vt st) -> 0 <= a -> 0 < n -> a + n + 4096 <= 2 ^ 62 ->
    MarkGuestExecutableRange asserts HS cfg mprotect_errno st a n = Some st' -> smc_step st st'
| step_unprotect st st' a n now :
    guest_range a n -> UnprotectGuestRangeForHostWrite HS cfg mprotect_errno now st a n = Some st' -> smc_step st st'
| step_gone st st' lo hi : NoteGranuleRangeGone HS st lo hi = Some st' -> smc_step st st'
| step_munmap st st' a n r :
    GranuleMemory.Munmap asserts HS cfg owned mprotect_errno munmap_errno Live st a n = Some (st', r) -> smc_step st st'
| step_mprotect st st' a n prot r :
    GranuleMemory.Mprotect asserts HS cfg owned mprotect_errno Live st a n prot = Some (st', r) -> smc_step st st'
| step_revoke st st' lo hi : RevokeSMCFileImmutabilityLocked st lo hi = Some st' -> smc_step st st'
| step_compile st c : smc_step st (set_code c st).

Lemma Revoke_same fuel : forall (st : System) lo cur st',
  RevokeLoop fuel st lo cur = Some st' -> smc st' = smc st /\ kernel st' = kernel st.
Proof.
  induction fuel as [|fuel IH]; intros st lo cur st'; cbn [RevokeLoop]; (destruct (pred_key _ _) as [k|]; [|by intros [= <-]]); [done|].
  destruct (VMAs (vt st) !! k) as [e|]; [|done]. cbn. destruct (_ <=? _); [by intros [= <-]|].
  intros Hrun%IH. by destruct (Resource e).
Qed.

(** C33: no sequence of marking code, lifting the protection for a host write, retiring ranges
    and sub-granule [munmap]s and [mprotect]s gives the kernel's write permission to a granule
    that SMC tracking has armed, whatever the outcome of each system call. *)
Theorem armed_never_writable st st' g p :
  rtc smc_step st st' -> (forall g, SMC.Armed HS (smc st) g = false) ->
  SMC.Armed HS (smc st') g = true -> kernel st' !! g = Some p -> p &&& PROT_WRITE = 0.
Proof.
  intros Hsteps Hinit. assert (Hro : ro st) by (intros g' p' Hg; by rewrite Hinit in Hg). clear Hinit.
  revert g p. change (ro st'). induction Hsteps as [|st st1 st2 Hstep _ IH]; [done|]. apply IH. clear IH.
  destruct Hstep; eauto using Mark_ro, Unprotect_ro, Gone_ro, Munmap_ro, Mprotect_ro.
  match goal with Hr : RevokeSMCFileImmutabilityLocked _ _ _ = _ |- _ => apply Revoke_same in Hr as [Hm Hk] end.
  by eapply ro_same.
Qed.
End theorems.

(** ** Whole-granule protection changes *)

Lemma IsAligned_mod s x : 12 <= s <= 16 -> is_u 64 x -> HostPage.IsAligned (2 ^ s) x = (x mod 2 ^ s =? 0).
Proof.
  intros Hs Hx. unfold HostPage.IsAligned, HostPage.Mask.
  assert (u64 (Z.lnot (u64 (Z.lnot (2 ^ s - 1)))) = Z.ones s) as ->; [|by rewrite u_land_ones by lia].
  replace (2 ^ s - 1) with (Z.ones s) by (rewrite Z.ones_equiv; lia). apply Z.bits_inj'. intros n Hn.
  rewrite u_testbit, Z.lnot_spec, u_testbit, Z.lnot_spec, ones_testbit by lia.
  destruct (Z.ltb_spec n s), (Z.ltb_spec n 64); (done || lia).
Qed.

Lemma host_pages_aligned s a : 12 <= s <= 16 -> a mod 2 ^ s = 0 -> a mod 4096 = 0.
Proof.
  intros Hs Ha. apply Z.mod_divide in Ha as [k ->]; [|pose proof (host_bounds s Hs); lia]. rewrite (host_pages s Hs).
  replace (k * (4096 * 2 ^ (s - 12))) with (k * 2 ^ (s - 12) * 4096) by lia. apply Z.mod_mul. lia.
Qed.

(** An [mprotect] of a whole granule marks every guest page of it live in the table, also
    the pages that the guest never mapped or already unmapped. *)
Theorem whole_mprotect_revives {C : Type} `{CodeMap C} asserts s cfg owned errno Live (st : @Sys C) G e prot :
  12 < s <= 16 -> wf_table s (gt st) -> gt st !! G = Some e -> 0 <= G <= 2 ^ 61 -> G mod 2 ^ s = 0 ->
  exists st', GranuleMemory.Mprotect asserts (2 ^ s) cfg owned errno Live st G (2 ^ s) prot = Some (st', None) /\
    forall a, 0 <= a -> a mod 4096 = 0 -> GT.GranuleOf (2 ^ s) a = G -> a < 2 ^ 63 ->
      GT.LookupPage (2 ^ s) (gt st') a = Some (prot &&& 7).
Proof.
  intros Hs Hwf He HG Hm. assert (Hs' : 12 <= s <= 16) by lia. pose proof (host_bounds s Hs') as Hb.
  pose proof (host_pages_aligned s G Hs' Hm) as HG4. assert (HS4 : (2 ^ s) mod 4096 = 0) by (apply (host_pages_aligned s); [done|apply Z.mod_same; lia]).
  unfold GranuleMemory.Mprotect. rewrite (Active_host s) by lia. destruct (Z.eqb_spec (2 ^ s) 0); [lia|]. cbn [negb orb].
  assert (G &&& u64 (Z.lnot GranuleMemory.GuestPageMask) = 0) as ->.
  { change (u64 (Z.lnot GranuleMemory.GuestPageMask)) with (Z.ones 12). by rewrite u_land_ones by lia. }
  cbn [Z.eqb negb]. unfold GranuleMemory.GuestPageSize, GranuleMemory.HostAligned.
  rewrite page_aligned_up, u_small by (lia || unfold is_u; lia || done).
  rewrite !IsAligned_mod by (lia || unfold is_u; lia). rewrite Hm.
  assert ((G + 2 ^ s) mod 2 ^ s = 0) as -> by (rewrite Z.add_mod, Hm, Z.mod_same by lia; done). cbn [Z.eqb andb].
  rewrite bool_decide_false by (intros E; by rewrite E, lookup_empty in He). unfold GranuleMemory.ProtectGranules, HostPage.Size, for_range.
  rewrite iterations_step by lia. cbn [for_loop]. destruct (Z.ltb_spec G (G + 2 ^ s)); [|lia]. unfold GT.Find. rewrite He.
  destruct (SetIntended_spec asserts s Hs' ltac:(lia) (gt st) G (2 ^ s) prot Hwf) as (t' & -> & Hw' & Hl & Hk).
  { unfold page_aligned. split_and!; (done || lia). }
  cbn [mbind option_bind]. rewrite u_small by (unfold is_u; lia). destruct (Hk G e He) as [w Hw].
  assert (Hstop : forall fuel body (t : GT.Table), for_loop fuel (2 ^ s) body (G + 2 ^ s) (G + 2 ^ s) t = Some t).
  { intros fuel body t. destruct fuel; cbn [for_loop]; by rewrite Z.ltb_irrefl. }
  rewrite Hstop. cbn [mbind option_bind]. eexists. split; [done|]. cbn [gt set_gt]. intros a Ha Pa HaG Hlt.
  assert (Hrange : G <= a < G + 2 ^ s) by (rewrite <- HaG; apply (granule_base s Hs'); unfold is_u; lia).
  assert (GT.LookupPage (2 ^ s) (GT.NoteHostProt t' G prot) a = GT.LookupPage (2 ^ s) t' a) as ->.
  { unfold GT.NoteHostProt, GT.LookupPage, GT.Find. rewrite Hw, HaG, lookup_insert_eq, Hw. done. }
  rewrite Hl by (unfold is_u; lia || done). unfold paint. by rewrite decide_True.
Qed.

(** ** A concrete system *)

(** The pages with code, as a set. *)
Definition drop_pages (c : gset Z) (Start Length : Z) : gset Z := filter (fun p => ~ (Start <= p < Start + Length)) c.

Lemma drop_pages_range c Start Length p :
  Start <= p < Start + Length -> bool_decide (p ∈ drop_pages c Start Length) = false.
Proof. intros Hp. apply bool_decide_eq_false. unfold drop_pages. rewrite elem_of_filter. tauto. Qed.

Lemma drop_pages_keeps c Start Length p : bool_decide (p ∈ drop_pages c Start Length) = true -> bool_decide (p ∈ c) = true.
Proof. unfold drop_pages. rewrite !bool_decide_eq_true, elem_of_filter. tauto. Qed.

#[global] Instance page_set : CodeMap (gset Z) := {
  live c p := bool_decide (p ∈ c);
  InvalidateGuestCodeRange := drop_pages;
  invalidate_range := drop_pages_range;
  invalidate_keeps := drop_pages_keeps;
}.

Definition sample_table : GT.Table := {[0x10000 := GT.mkGranule 0xF0000007 7 false (-1) 0]}.

Definition sample_system : @Sys (gset Z) :=
  mkSys sample_tracking sample_table (SMC.mkTable ∅ 0 0 0 0 0) (SMC.mkQueue ∅ 0) {[0x10000 := 3]} {[0x14000]} ∅ ∅ 0.

Definition sample_config : Config := mkConfig CONFIG_SMC_MTRACK true false false (SMC.mkConfig 0 0 0).

Lemma sample_user : user_vmas sample_tracking.
Proof.
  intros k e. cbn. rewrite !lookup_insert_Some, lookup_empty. unfold user_vma, guest_range.
  intros [[<- <-]|[_ [[<- <-]|[_ [=]]]]]; cbn; split_and!; done.
Qed.

Lemma sample_ready : ready sample_config (fun _ _ _ => 0) sample_system.
Proof. split; [done|]. split; [done|]. split; [done|]. split; [done|]. intros g e. cbn. by rewrite lookup_empty. Qed.

Lemma sample_maps_anon : maps (cores sample_tracking) 0x14000 (at_addr (core sample_anon) 0x14000).
Proof. exists 0x14000, (core sample_anon). split; [done|]. split; [|done]. unfold covers. cbn. lia. Qed.

Definition marked_system : @Sys (gset Z) :=
  default sample_system (MarkGuestExecutableRange true (2 ^ 16) sample_config (fun _ _ _ => 0) sample_system 0x14000 0x1000).

Lemma sample_marked :
  MarkGuestExecutableRange true (2 ^ 16) sample_config (fun _ _ _ => 0) sample_system 0x14000 0x1000 = Some marked_system.
Proof. by vm_compute. Qed.

Lemma Mark_protects_aliases_witness : kernel marked_system !! 0x10000 = Some 1.
Proof.
  destruct (Mark_protects_aliases true 16 ltac:(lia) sample_config (fun _ _ _ => 0) sample_system _ 0x14000 0x1000
    inv_sample sample_user sample_ready eq_refl ltac:(lia) ltac:(lia) ltac:(lia) eq_refl eq_refl) as (st' & Hrun & Hall).
  pose proof (eq_trans (eq_sym sample_marked) Hrun) as E. apply (inj Some) in E. rewrite E.
  apply (Hall 0x14000 _ 0x14000 _ ltac:(lia) sample_maps_anon sample_maps_anon eq_refl). by left.
Defined.

Lemma armed_never_writable_witness : 1 &&& PROT_WRITE = 0.
Proof.
  apply (armed_never_writable true 16 ltac:(lia) sample_config (fun _ _ _ => 0) HostOwned.empty_table (fun _ _ => 0) false
    sample_system marked_system 0x10000).
  - apply rtc_once. eapply step_mark; [exact inv_sample|exact sample_user| | | |exact sample_marked]; lia.
  - intros g. unfold SMC.Armed. destruct (negb _); [done|].
    change (SMC.Granules (smc sample_system)) with (∅ : gmap Z SMC.Entry). by rewrite lookup_empty.
  - by vm_compute.
  - by vm_compute.
Defined.

(** In the sample table the first and the eighth page of the granule are live. *)
Lemma sample_table_wf : wf_table 16 sample_table.
Proof.
  intros g e. unfold sample_table. intros [<- <-]%lookup_singleton_Some. split; [done|]. intros i Hi. unfold wf_nibble.
  assert (Hc : i = 0 \/ i = 1 \/ i = 2 \/ i = 3 \/ i = 4 \/ i = 5 \/ i = 6 \/ i = 7 \/ i = 8 \/ i = 9 \/ i = 10 \/ i = 11 \/
    i = 12 \/ i = 13 \/ i = 14 \/ i = 15) by lia.
  repeat destruct Hc as [->|Hc]; try subst i; (by left) || (by right).
Qed.

Lemma whole_mprotect_revives_witness :
  GT.LookupPage (2 ^ 16) (gt sample_system) 0x12000 = None /\
  exists st', GranuleMemory.Mprotect true (2 ^ 16) sample_config HostOwned.empty_table (fun _ _ _ => 0) false
      sample_system 0x10000 (2 ^ 16) 1 = Some (st', None) /\
    GT.LookupPage (2 ^ 16) (gt st') 0x12000 = Some 1.
Proof.
  split; [done|]. destruct (whole_mprotect_revives true 16 sample_config HostOwned.empty_table (fun _ _ _ => 0) false
    sample_system 0x10000 _ 1 ltac:(lia) sample_table_wf eq_refl ltac:(lia) eq_refl) as (st' & Hrun & Hall).
  exists st'. split; [exact Hrun|]. apply (Hall 0x12000); (done || lia).
Defined.

Lemma UnionProtOf_joined_witness : joined 16 sample_table 0x10000 = 7.
Proof.
  rewrite <- (UnionProtOf_joined 16 ltac:(lia) sample_table 0x10000 _ sample_table_wf eq_refl ltac:(lia) eq_refl).
  reflexivity.
Defined.

Lemma ClearIntended_exact_witness :
  exists t' l, GT.ClearIntended true (2 ^ 16) sample_table 0x10000 0x8000 true = Some (t', l) /\ 0x10000 ∈ l.
Proof.
  destruct (ClearIntended_exact true 16 ltac:(lia) ltac:(lia) sample_table 0x10000 0x8000 true sample_table_wf)
    as (t' & l & Hrun & Hrep & _ & Hl); [unfold page_aligned; split_and!; done|lia|lia|].
  exists t', l. split; [exact Hrun|]. apply Hl. split; [exists 0x10000; split; [lia|by vm_compute]|]. split; [by apply elem_of_dom|].
  destruct Hrep as (Hw & Hlook & _). intros a Ha Pa HG. rewrite Hlook; [|unfold is_u; lia|exact Pa].
  unfold paint. case_decide as Hd; [reflexivity|].
  assert (Hr : 0x10000 <= a < 0x10000 + 2 ^ 16).
  { rewrite <- HG. apply (granule_base 16 ltac:(lia)). unfold is_u. lia. }
  assert (Hc : a = 0x18000 \/ a = 0x19000 \/ a = 0x1a000 \/ a = 0x1b000 \/ a = 0x1c000 \/ a = 0x1d000 \/ a = 0x1e000 \/ a = 0x1f000).
  { apply Z.mod_divide in Pa as [k ->]; [|done]. lia. }
  repeat destruct Hc as [->|Hc]; try subst a; reflexivity.
Defined.
