(* ===== verification/CodeGranules.v ===== *)
(** * The code-granule bitmap (FEXCore/Source/Interface/Core/SMCCodeGranules.h)

    One bit per 64-byte granule of guest memory that may hold compiled code, in a radix tree of
    three levels.  The model keeps the tree as nested maps (a node is reached from one slot
    only), the list of leaves by the slots that point to them, and the number of allocations
    made so far; whether the [n]-th allocation succeeds is a parameter.  The theorems: the tree
    stores exactly the bits of the pages it was told about, a range that [ProvablyClear] clears
    holds no registered byte as long as allocations succeed, and a failed allocation makes it
    clear a range that does. *)

From S2P Require Import Prelude.

Module CodeGranuleBitmap.

Definition kGranuleShift : Z := 6.
Definition kPageShift : Z := 12.
Definition kLeafBits : Z := 10.
Definition kL1Bits : Z := 13.
Definition kL0Bits : Z := 13.
Definition kLeafShift : Z := kPageShift.
Definition kL1Shift : Z := kLeafShift + kLeafBits.
Definition kL0Shift : Z := kL1Shift + kL1Bits.
Definition kMaxAddress : Z := 1 <<< (kL0Shift + kL0Bits).

(** The words of a leaf, zero where absent; an L1 node; the root's entries. *)
Abbreviation Leaf := (gmap Z Z).
Abbreviation L1Node := (gmap Z Leaf).

Record Bitmap := mkBitmap {
  Root : bool;
  Entries : gmap Z L1Node;
  AllLeaves : list (Z * Z);
  AllL1Nodes : list Z;
  Allocs : nat;
}.

Definition empty_bitmap : Bitmap := mkBitmap false ∅ [] [] 0.

Definition BitRangeMask (FirstBit LastBit : Z) : Z :=
  let Count := u32 (u32 (LastBit - FirstBit) + 1) in
  let Base := if 64 <=? Count then u64 (-1) else u64 ((1 <<< Count) - 1) in
  u64 (Base <<< FirstBit).

Definition L0Index (Addr : Z) : Z := u32 ((Addr >>> kL0Shift) &&& ((1 <<< kL0Bits) - 1)).
Definition L1Index (Addr : Z) : Z := u32 ((Addr >>> kL1Shift) &&& ((1 <<< kL1Bits) - 1)).
Definition WordIndex (Addr : Z) : Z := u32 ((Addr >>> kLeafShift) &&& ((1 <<< kLeafBits) - 1)).

Definition Enabled (b : Bitmap) : bool := Root b.

Section allocation.
  (** Whether the [n]-th call of [VirtualAlloc] returns memory. *)
  Context (alloc : nat -> bool).

Definition AllocZeroed (b : Bitmap) : bool * Bitmap :=
  (alloc (Allocs b), mkBitmap (Root b) (Entries b) (AllLeaves b) (AllL1Nodes b) (S (Allocs b))).

Definition Enable (b : Bitmap) : Bitmap :=
  if Root b then b
  else
    let '(R, b) := AllocZeroed b in
    if negb R then b else mkBitmap true (Entries b) (AllLeaves b) (AllL1Nodes b) (Allocs b).

(** A leaf of the tree is named by the two indices on the path to it. *)
Definition FindLeafFrom (b : Bitmap) (Addr : Z) : option Leaf :=
  N ← Entries b !! L0Index Addr; N !! L1Index Addr.

Definition FindLeaf (b : Bitmap) (Addr : Z) : option Leaf :=
  if negb (Root b) || (kMaxAddress <=? Addr) then None else FindLeafFrom b Addr.

(** The L1 node in the slot of the root, and the leaf in the slot of an L1 node, each allocated
    when the slot is empty. *)
Definition GetOrCreateNode (slot : Z) (b : Bitmap) : option L1Node * Bitmap :=
  match Entries b !! slot with
  | Some N => (Some N, b)
  | None =>
      let '(ok, b) := AllocZeroed b in
      if negb ok then (None, b)
      else (Some ∅, mkBitmap (Root b) (<[slot := ∅]> (Entries b)) (AllLeaves b) (AllL1Nodes b ++ [slot]) (Allocs b))
  end.

Definition GetOrCreateLeafIn (slot : Z) (N : L1Node) (slot1 : Z) (b : Bitmap) : option (Z * Z) * Bitmap :=
  match N !! slot1 with
  | Some _ => (Some (slot, slot1), b)
  | None =>
      let '(ok, b) := AllocZeroed b in
      if negb ok then (None, b)
      else (Some (slot, slot1),
            mkBitmap (Root b) (<[slot := <[slot1 := ∅]> N]> (Entries b)) (AllLeaves b ++ [(slot, slot1)])
              (AllL1Nodes b) (Allocs b))
  end.

Definition GetOrCreateLeaf (Addr : Z) (b : Bitmap) : option (Z * Z) * Bitmap :=
  if negb (Root b) || (kMaxAddress <=? Addr) then (None, b)
  else
    let '(N, b) := GetOrCreateNode (L0Index Addr) b in
    match N with
    | None => (None, b)
    | Some N => GetOrCreateLeafIn (L0Index Addr) N (L1Index Addr) b
    end.

(** Read and write the words of the leaf at a path. *)
Definition find_path (b : Bitmap) (L : Z * Z) : option Leaf := N ← Entries b !! L.1; N !! L.2.
Definition leaf_at (b : Bitmap) (L : Z * Z) : Leaf := default ∅ (find_path b L).
Definition store_leaf (L : Z * Z) (f : Leaf -> Leaf) (b : Bitmap) : Bitmap :=
  mkBitmap (Root b) (alter (alter f L.2) L.1 (Entries b)) (AllLeaves b) (AllL1Nodes b) (Allocs b).
Definition load (L : Leaf) (i : Z) : Z := default 0 (L !! i).

Definition SetPageRange (PageBase Start Length : Z) (b : Bitmap) : Bitmap :=
  let '(L, b) := GetOrCreateLeaf PageBase b in
  match L with
  | None => b
  | Some L =>
      let Mask :=
        if negb (Length =? 0) then
          let PageEnd := u64 (PageBase + (1 <<< kPageShift)) in
          let Lo := if PageBase <? Start then Start else PageBase in
          let HiExcl := if u64 (Start + Length) <? PageEnd then u64 (Start + Length) else PageEnd in
          if Lo <? HiExcl then
            let FirstBit := u32 (u64 (Lo - PageBase) >>> kGranuleShift) in
            let LastBit := u32 (u64 (u64 (HiExcl - 1) - PageBase) >>> kGranuleShift) in
            BitRangeMask FirstBit LastBit
          else u64 (-1)
        else u64 (-1) in
      let i := WordIndex PageBase in
      store_leaf L (fun l => <[i := load l i ||| Mask]> l) b
  end.

Definition ClearPage (PageBase : Z) (b : Bitmap) : Bitmap :=
  match FindLeaf b PageBase with
  | None => b
  | Some _ => store_leaf (L0Index PageBase, L1Index PageBase) (insert (WordIndex PageBase) 0) b
  end.

(** The 1024 words of every leaf of the list. *)
Definition ClearAll (b : Bitmap) : Bitmap :=
  foldl (fun b L => store_leaf L (fun _ => ∅) b) b (AllLeaves b).

Definition page_clear (b : Bitmap) (Start End Page : Z) : bool :=
  let PageBase := u64 (Page <<< kPageShift) in
  match FindLeafFrom b PageBase with
  | None => true
  | Some L =>
      let Word := load L (WordIndex PageBase) in
      if Word =? 0 then true
      else
        let PageEnd := u64 (PageBase + (1 <<< kPageShift)) in
        let Lo := if PageBase <? Start then Start else PageBase in
        let HiExcl := if End <? PageEnd then End else PageEnd in
        let FirstBit := u32 (u64 (Lo - PageBase) >>> kGranuleShift) in
        let LastBit := u32 (u64 (u64 (HiExcl - 1) - PageBase) >>> kGranuleShift) in
        Word &&& BitRangeMask FirstBit LastBit =? 0
  end.

Definition ProvablyClear (b : Bitmap) (Start Length : Z) : bool :=
  if negb (Root b) || (Length =? 0) then false
  else
    let End := u64 (Start + Length) in
    if (End <? Start) || (kMaxAddress <? End) then false
    else
      let FirstPage := Start >>> kPageShift in
      let LastPage := u64 (End - 1) >>> kPageShift in
      if 3 <? u64 (LastPage - FirstPage) then false
      else forallb (page_clear b Start End) (seqZ FirstPage (LastPage - FirstPage + 1)).

End allocation.

End CodeGranuleBitmap.

(** ** What the tree stores *)

Section tree.
  Import CodeGranuleBitmap.

(** The word of the page of an address. *)
Definition word (b : Bitmap) (a : Z) : Z := load (leaf_at b (L0Index a, L1Index a)) (WordIndex a).

Lemma index_eqs a : 0 <= a ->
  L0Index a = (a / 2 ^ 35) mod 2 ^ 13 /\ L1Index a = (a / 2 ^ 22) mod 2 ^ 13 /\ WordIndex a = (a / 2 ^ 12) mod 2 ^ 10.
Proof.
  intros Ha. unfold L0Index, L1Index, WordIndex.
  change (1 <<< kL0Bits) with (2 ^ 13). change (1 <<< kL1Bits) with (2 ^ 13). change (1 <<< kLeafBits) with (2 ^ 10).
  rewrite !Z.sub_1_r, <- !Z.ones_equiv, !Z.land_ones, !Z.shiftr_div_pow2 by (unfold kL0Shift, kL1Shift, kLeafShift, kPageShift, kLeafBits, kL1Bits; lia).
  split_and!; apply u_small; unfold is_u; pose proof (Z.mod_pos_bound (a / 2 ^ 35) (2 ^ 13) ltac:(lia));
    pose proof (Z.mod_pos_bound (a / 2 ^ 22) (2 ^ 13) ltac:(lia));
    pose proof (Z.mod_pos_bound (a / 2 ^ 12) (2 ^ 10) ltac:(lia)); lia.
Qed.

Lemma index_page a : 0 <= a < 2 ^ 48 -> a / 2 ^ 12 = L0Index a * 2 ^ 23 + L1Index a * 2 ^ 10 + WordIndex a.
Proof.
  intros Ha. destruct (index_eqs a) as (-> & -> & ->); [lia|].
  replace (a / 2 ^ 35) with (a / 2 ^ 12 / 2 ^ 10 / 2 ^ 13) by (rewrite !Zdiv_Zdiv by lia; done).
  replace (a / 2 ^ 22) with (a / 2 ^ 12 / 2 ^ 10) by (rewrite !Zdiv_Zdiv by lia; done).
  assert (0 <= a / 2 ^ 12 < 2 ^ 36) as Hp by (split; [apply Z.div_pos|apply Z.div_lt_upper_bound]; lia).
  generalize dependent (a / 2 ^ 12). intros p Hp.
  pose proof (Z.div_mod p (2 ^ 10) ltac:(lia)) as H1. pose proof (Z.div_mod (p / 2 ^ 10) (2 ^ 13) ltac:(lia)) as H2.
  rewrite (Z.mod_small (p / 2 ^ 10 / 2 ^ 13)); [lia|].
  split; [apply Z.div_pos; [apply Z.div_pos|]; lia|]. rewrite Zdiv_Zdiv by lia. apply Z.div_lt_upper_bound; lia.
Qed.

(** No two pages share a word: the radix aliases nothing. *)
Lemma index_inj a a' : 0 <= a < 2 ^ 48 -> 0 <= a' < 2 ^ 48 ->
  L0Index a = L0Index a' -> L1Index a = L1Index a' -> WordIndex a = WordIndex a' -> a / 2 ^ 12 = a' / 2 ^ 12.
Proof. intros Ha Ha' E0 E1 EW. rewrite (index_page a), (index_page a') by done. by rewrite E0, E1, EW. Qed.

Lemma index_same a a' : 0 <= a -> 0 <= a' -> a / 2 ^ 12 = a' / 2 ^ 12 ->
  L0Index a = L0Index a' /\ L1Index a = L1Index a' /\ WordIndex a = WordIndex a'.
Proof.
  intros Ha Ha' E. destruct (index_eqs a Ha) as (-> & -> & ->). destruct (index_eqs a' Ha') as (-> & -> & ->).
  replace (2 ^ 35) with (2 ^ 12 * 2 ^ 23) by done. replace (2 ^ 22) with (2 ^ 12 * 2 ^ 10) by done.
  rewrite <- !Zdiv_Zdiv by lia. by rewrite E.
Qed.

(** Every leaf of the tree is in the list, so that [ClearAll] reaches it. *)
Definition listed (b : Bitmap) : Prop :=
  forall i j N, Entries b !! i = Some N -> is_Some (N !! j) -> (i, j) ∈ AllLeaves b.

Lemma leaf_at_store L f b L' :
  leaf_at (store_leaf L f b) L' =
  if decide (L = L') then default ∅ (f <$> find_path b L) else leaf_at b L'.
Proof.
  destruct L as [i j], L' as [i' j']. unfold leaf_at, find_path, store_leaf; cbn [Entries fst snd].
  destruct (decide (i = i')) as [<-|Hi]; [|rewrite lookup_alter_ne, decide_False by congruence; done].
  rewrite lookup_alter_eq. destruct (Entries b !! i) as [N|] eqn:E; cbn; [|by case_decide].
  destruct (decide (j = j')) as [<-|Hj].
  - by rewrite lookup_alter_eq, decide_True by done.
  - by rewrite lookup_alter_ne, decide_False by congruence.
Qed.

Lemma listed_store L f b : listed b -> listed (store_leaf L f b).
Proof.
  intros Hl i j N. unfold store_leaf; cbn [Entries AllLeaves]. destruct (decide (L.1 = i)) as [<-|Hi].
  - rewrite lookup_alter_eq. intros (N0 & E & ->)%fmap_Some Hj. apply (Hl _ _ N0); [done|].
    destruct (decide (L.2 = j)) as [<-|]; [rewrite lookup_alter_eq in Hj|rewrite lookup_alter_ne in Hj by done; done].
    destruct Hj as [x Hx]. apply fmap_Some in Hx as (y & -> & _). done.
  - rewrite lookup_alter_ne by done. apply Hl.
Qed.

Context (alloc : nat -> bool).

(** Nothing but new, empty nodes appears, and every leaf is listed. *)
Definition grows (b b' : Bitmap) : Prop :=
  Root b' = Root b /\ (listed b -> listed b') /\ forall L, leaf_at b' L = leaf_at b L.

Lemma GetOrCreateNode_spec i b : let '(N, b') := GetOrCreateNode alloc i b in
  grows b b' /\ ((forall n, alloc n = true) -> is_Some N) /\ (forall N', N = Some N' -> Entries b' !! i = Some N').
Proof.
  unfold GetOrCreateNode. destruct (Entries b !! i) as [N|] eqn:E; [unfold grows; split_and!; eauto; congruence|].
  unfold AllocZeroed. destruct (alloc (Allocs b)) eqn:Ea; cbn [negb Root Entries AllLeaves AllL1Nodes Allocs];
    [|unfold grows; split_and!; try done; by intros Ha; rewrite Ha in Ea].
  unfold grows; split_and!; try done; [| |intros ? [= <-]; cbn; by rewrite lookup_insert_eq].
  - intros Hl i' j' N'. cbn [Entries AllLeaves]. destruct (decide (i = i')) as [<-|].
    + rewrite lookup_insert_eq. intros [= <-] [? Hx]. by rewrite lookup_empty in Hx.
    + rewrite lookup_insert_ne by done. apply Hl.
  - intros [i' j']. unfold leaf_at, find_path; cbn [Entries fst snd]. destruct (decide (i = i')) as [<-|].
    + by rewrite lookup_insert_eq, E by done.
    + by rewrite lookup_insert_ne by done.
Qed.

Lemma GetOrCreateLeafIn_spec i N j b : Entries b !! i = Some N ->
  let '(L, b') := GetOrCreateLeafIn alloc i N j b in
  grows b b' /\ ((forall n, alloc n = true) -> L = Some (i, j)) /\
  (forall P, L = Some P -> P = (i, j) /\ is_Some (find_path b' P)).
Proof.
  intros E. unfold GetOrCreateLeafIn. destruct (N !! j) as [l|] eqn:Ej.
  { unfold grows; split_and!; try done. intros P [= <-]. split; [done|]. unfold find_path; cbn. rewrite E. cbn. by rewrite Ej. }
  unfold AllocZeroed. destruct (alloc (Allocs b)) eqn:Ea; cbn [negb Root Entries AllLeaves AllL1Nodes Allocs];
    [|unfold grows; split_and!; try done; by intros Ha; rewrite Ha in Ea].
  unfold grows; split_and!; try done.
  - intros Hl i' j' N'. cbn [Entries AllLeaves]. rewrite elem_of_app. destruct (decide (i = i')) as [<-|].
    + rewrite lookup_insert_eq. intros [= <-]. destruct (decide (j = j')) as [<-|]; [set_solver|].
      rewrite lookup_insert_ne by done. left. by apply (Hl _ _ N).
    + rewrite lookup_insert_ne by done. left. by apply (Hl _ _ N').
  - intros [i' j']. unfold leaf_at, find_path; cbn [Entries fst snd]. destruct (decide (i = i')) as [<-|].
    + rewrite lookup_insert_eq, E by done. cbn. destruct (decide (j = j')) as [<-|].
      * by rewrite lookup_insert_eq, Ej by done.
      * by rewrite lookup_insert_ne by done.
    + by rewrite lookup_insert_ne by done.
  - intros P [= <-]. split; [done|]. unfold find_path; cbn. rewrite lookup_insert_eq. cbn.
    rewrite lookup_insert_eq. eauto.
Qed.

Lemma GetOrCreateLeaf_spec Addr b : Root b = true -> Addr < kMaxAddress ->
  let '(L, b') := GetOrCreateLeaf alloc Addr b in
  grows b b' /\ ((forall n, alloc n = true) -> is_Some L) /\
  (forall P, L = Some P -> P = (L0Index Addr, L1Index Addr) /\ is_Some (find_path b' P)).
Proof.
  intros HR HA. unfold GetOrCreateLeaf. rewrite HR, (proj2 (Z.leb_gt _ _)) by done. cbn [negb orb].
  pose proof (GetOrCreateNode_spec (L0Index Addr) b) as Hn.
  destruct (GetOrCreateNode alloc (L0Index Addr) b) as [[N|] b1]; [|destruct Hn as (Hg & Hok & _); split; [done|]; split; [intros Ha; by destruct (Hok Ha)|done]].
  destruct Hn as ((HR1 & Hl1 & Hw1) & _ & HE). specialize (HE N eq_refl).
  pose proof (GetOrCreateLeafIn_spec (L0Index Addr) N (L1Index Addr) b1 HE) as Hm.
  destruct (GetOrCreateLeafIn alloc (L0Index Addr) N (L1Index Addr) b1) as [L b2].
  destruct Hm as ((HR2 & Hl2 & Hw2) & Hok & HP). unfold grows; split_and!.
  - congruence.
  - auto.
  - intros L'. by rewrite Hw2.
  - intros Ha. rewrite Hok by done. eauto.
  - intros P HL. destruct (HP P HL) as [-> ?]. done.
Qed.

End tree.

(** ** The bits against the history of calls *)

Section history.
  Import CodeGranuleBitmap.

Lemma BitRangeMask_bit F L i : 0 <= F <= L -> L < 64 -> 0 <= i < 64 ->
  Z.testbit (BitRangeMask F L) i = (F <=? i) && (i <=? L).
Proof.
  intros HF HL Hi. unfold BitRangeMask. rewrite (u_small 32 (L - F)), (u_small 32 (L - F + 1)) by (unfold is_u; lia).
  rewrite u_testbit, Z.shiftl_spec by lia. bool_lia. destruct (Z.leb_spec 64 (L - F + 1)).
  - assert (F = 0 /\ L = 63) as [-> ->] by lia. rewrite u_testbit, Z.sub_0_r, Z.bits_m1 by lia. by bool_lia.
  - rewrite Z.shiftl_1_l. replace (2 ^ (L - F + 1) - 1) with (Z.ones (L - F + 1)) by (rewrite Z.ones_equiv; lia).
    destruct (Z.leb_spec F i); [|by rewrite Z.testbit_neg_r by lia].
    rewrite u_testbit, ones_testbit by lia. cbn [andb]. zbits_cases; bool_lia; cbn; lia || done.
Qed.

(** The calls that change the bits, and what they say of a byte: [SetPageRange] registers the
    bytes of its range in the page, or the whole page when it has none there. *)
Inductive Call := Set_ (PageBase Start Length : Z) | Clear_ (PageBase : Z) | ClearAll_.

Definition call (alloc : nat -> bool) (b : Bitmap) (c : Call) : Bitmap :=
  match c with
  | Set_ PageBase Start Length => SetPageRange alloc PageBase Start Length b
  | Clear_ PageBase => ClearPage PageBase b
  | ClearAll_ => ClearAll b
  end.

Definition call_ok (c : Call) : Prop :=
  match c with
  | Set_ PageBase Start Length => is_u 64 PageBase /\ PageBase mod 2 ^ 12 = 0 /\ is_u 64 Start /\ is_u 64 Length
  | Clear_ PageBase => is_u 64 PageBase /\ PageBase mod 2 ^ 12 = 0
  | ClearAll_ => True
  end.

Definition covers (PageBase Start Length a : Z) : bool :=
  let Lo := Z.max PageBase Start in
  let Hi := Z.min (u64 (Start + Length)) (PageBase + 2 ^ 12) in
  (a / 2 ^ 12 =? PageBase / 2 ^ 12) && ((Length =? 0) || (Hi <=? Lo) || (Lo <=? a) && (a <? Hi)).

Definition register (r : Z -> bool) (c : Call) (a : Z) : bool :=
  match c with
  | Set_ PageBase Start Length => r a || covers PageBase Start Length a
  | Clear_ PageBase => r a && negb (a / 2 ^ 12 =? PageBase / 2 ^ 12)
  | ClearAll_ => false
  end.

Definition registered (calls : list Call) : Z -> bool := foldl register (fun _ => false) calls.

(** Bit [g] of the tree. *)
Definition granule_bit (b : Bitmap) (g : Z) : bool := Z.testbit (word b (g * 64)) (g mod 64).

Definition bits_are (b : Bitmap) (r : Z -> bool) : Prop :=
  Root b = true /\ listed b /\
  forall g, 0 <= g < 2 ^ 42 -> granule_bit b g = true <-> exists a, a / 64 = g /\ r a = true.

Lemma kMax_eq : kMaxAddress = 2 ^ 48.
Proof. done. Qed.

Lemma word_ext b b' : (forall L, leaf_at b' L = leaf_at b L) -> forall a, word b' a = word b a.
Proof. intros H a. unfold word. by rewrite H. Qed.

Lemma word_store b PB f : 0 <= PB < 2 ^ 48 -> is_Some (find_path b (L0Index PB, L1Index PB)) -> forall a, 0 <= a < 2 ^ 48 ->
  word (store_leaf (L0Index PB, L1Index PB) (fun l => <[WordIndex PB := f (load l (WordIndex PB))]> l) b) a =
  if decide (a / 2 ^ 12 = PB / 2 ^ 12) then f (word b PB) else word b a.
Proof.
  intros HPB [l Hl] a Ha. unfold word. rewrite leaf_at_store. destruct (decide (a / 2 ^ 12 = PB / 2 ^ 12)) as [Hpg|Hpg].
  - destruct (index_same a PB) as (-> & -> & ->); [lia..|done|]. rewrite decide_True by done.
    unfold leaf_at. rewrite Hl. cbn. unfold load at 1. by rewrite lookup_insert_eq.
  - case_decide as HL; [|done]. injection HL as H0 H1. rewrite Hl. unfold leaf_at. rewrite <- H0, <- H1, Hl. cbn.
    unfold load. rewrite lookup_insert_ne; [done|]. intros HW. apply Hpg. symmetry. by apply index_inj.
Qed.

Lemma page_granule g PB : 0 <= g -> PB mod 2 ^ 12 = 0 -> g * 64 / 2 ^ 12 = PB / 2 ^ 12 <-> PB <= g * 64 < PB + 2 ^ 12.
Proof.
  intros Hg HPB. pose proof (Z.div_mod PB (2 ^ 12) ltac:(lia)). pose proof (Z.div_mod (g * 64) (2 ^ 12) ltac:(lia)).
  pose proof (Z.mod_pos_bound (g * 64) (2 ^ 12) ltac:(lia)). split; intros; nia.
Qed.

Lemma page_of_granule a g : a / 64 = g -> a / 2 ^ 12 = g * 64 / 2 ^ 12.
Proof.
  intros <-. change (2 ^ 12) with (64 * 64). rewrite <- !Zdiv_Zdiv by lia. by rewrite Z.div_mul.
Qed.

(** The mask of [SetPageRange] has the bits of exactly the granules with a covered byte. *)
Definition set_mask (PageBase Start Length : Z) : Z :=
  if negb (Length =? 0) then
    let PageEnd := u64 (PageBase + (1 <<< kPageShift)) in
    let Lo := if PageBase <? Start then Start else PageBase in
    let HiExcl := if u64 (Start + Length) <? PageEnd then u64 (Start + Length) else PageEnd in
    if Lo <? HiExcl then
      BitRangeMask (u32 (u64 (Lo - PageBase) >>> kGranuleShift)) (u32 (u64 (u64 (HiExcl - 1) - PageBase) >>> kGranuleShift))
    else u64 (-1)
  else u64 (-1).

Lemma granule_index x PB : PB <= x < PB + 2 ^ 12 -> 0 <= PB < 2 ^ 48 ->
  u32 (u64 (x - PB) >>> kGranuleShift) = (x - PB) / 64 /\ 0 <= (x - PB) / 64 < 64.
Proof.
  intros Hx HPB. assert (0 <= (x - PB) / 64 < 64).
  { split; [apply Z.div_pos|apply Z.div_lt_upper_bound]; lia. }
  rewrite (u_small 64) by (unfold is_u; lia). rewrite Z.shiftr_div_pow2 by done. change (2 ^ kGranuleShift) with 64.
  split; [|done]. apply u_small. unfold is_u; lia.
Qed.

(** The bits between the granules of [Lo] and [Hi - 1] are those of the granules that meet
    [[Lo, Hi)]. *)
Lemma granule_between g PB Lo Hi : PB mod 2 ^ 12 = 0 -> PB <= Lo < Hi -> Hi <= PB + 2 ^ 12 -> PB <= g * 64 < PB + 2 ^ 12 ->
  ((Lo - PB) / 64 <=? g mod 64) && (g mod 64 <=? (Hi - 1 - PB) / 64) = true <-> exists a, a / 64 = g /\ Lo <= a < Hi.
Proof.
  intros HPB HLo HHi Hg. apply Z.mod_divide in HPB as [q Hq]; [|lia].
  assert (g mod 64 = g - q * 64) as ->.
  { symmetry. apply (Z.mod_unique_pos _ _ q); lia. }
  rewrite andb_true_iff, !Z.leb_le. split.
  - intros [H1 H2]. exists (Z.max Lo (g * 64)).
    pose proof (Z.div_mod (Lo - PB) 64 ltac:(lia)). pose proof (Z.mod_pos_bound (Lo - PB) 64 ltac:(lia)).
    pose proof (Z.div_mod (Hi - 1 - PB) 64 ltac:(lia)). pose proof (Z.mod_pos_bound (Hi - 1 - PB) 64 ltac:(lia)).
    split; [|lia]. symmetry. apply (Z.div_unique_pos _ _ _ (Z.max Lo (g * 64) - g * 64)); lia.
  - intros (a & <- & Ha). pose proof (Z.div_mod a 64 ltac:(lia)). pose proof (Z.mod_pos_bound a 64 ltac:(lia)). split.
    + apply Z.lt_succ_r. apply Z.div_lt_upper_bound; lia.
    + apply Z.div_le_lower_bound; lia.
Qed.

Lemma set_mask_bit PB St Len g : 0 <= PB < 2 ^ 48 -> PB mod 2 ^ 12 = 0 -> is_u 64 St -> is_u 64 Len ->
  PB <= g * 64 < PB + 2 ^ 12 ->
  Z.testbit (set_mask PB St Len) (g mod 64) = true <-> exists a, a / 64 = g /\ covers PB St Len a = true.
Proof.
  intros HPB Hal HSt HLen Hg.
  assert (forall a, a / 64 = g -> a / 2 ^ 12 =? PB / 2 ^ 12 = true) as Hpg.
  { intros a Ha. apply Z.eqb_eq. rewrite (page_of_granule a g Ha). apply page_granule; lia. }
  pose proof (Z.mod_pos_bound g 64 ltac:(lia)) as Hm.
  assert (exists a, a / 64 = g) as [a0 Ha0]. { exists (g * 64). by apply Z.div_mul. }
  unfold set_mask, covers. change (1 <<< kPageShift) with (2 ^ 12).
  rewrite (u_small 64 (PB + 2 ^ 12)) by (unfold is_u; lia). destruct (Z.eqb_spec Len 0) as [->|HL0]; cbn [negb orb].
  { rewrite u_testbit, Z.bits_m1 by lia. bool_lia. split; [|done]. intros _. exists a0. split; [done|].
    by rewrite (Hpg a0 Ha0). }
  pose proof (u_range 64 (St + Len) ltac:(lia)) as Hsum. generalize dependent (u64 (St + Len)). intros E HE.
  assert ((if PB <? St then St else PB) = Z.max PB St) as -> by (destruct (Z.ltb_spec PB St); lia).
  assert ((if E <? PB + 2 ^ 12 then E else PB + 2 ^ 12) = Z.min E (PB + 2 ^ 12)) as ->
    by (destruct (Z.ltb_spec E (PB + 2 ^ 12)); lia).
  destruct (Z.ltb_spec (Z.max PB St) (Z.min E (PB + 2 ^ 12))) as [Hlt|Hge].
  - rewrite (proj2 (Z.leb_gt _ _)) by done. cbn [orb]. rewrite (u_small 64 (Z.min E (PB + 2 ^ 12) - 1)) by (unfold is_u in *; lia).
    destruct (granule_index (Z.max PB St) PB) as [-> Hf]; [lia..|].
    destruct (granule_index (Z.min E (PB + 2 ^ 12) - 1) PB) as [-> Hl]; [lia..|].
    rewrite BitRangeMask_bit; [|split; [lia|apply Z.div_le_mono; lia]|lia|lia].
    rewrite (granule_between g PB) by (done || lia).
    split; intros (a & Ha & HR); exists a; (split; [done|]); rewrite (Hpg a Ha) in *; cbn [andb] in *;
      rewrite andb_true_iff, Z.leb_le, Z.ltb_lt in *; lia.
  - rewrite (proj2 (Z.leb_le _ _)) by done. cbn [orb]. rewrite u_testbit, Z.bits_m1 by lia. bool_lia.
    split; [|done]. intros _. exists a0. split; [done|]. by rewrite (Hpg a0 Ha0).
Qed.


Lemma SetPageRange_mask alloc PB St Len b :
  SetPageRange alloc PB St Len b =
  let '(L, b') := GetOrCreateLeaf alloc PB b in
  match L with
  | None => b'
  | Some L => store_leaf L (fun l => <[WordIndex PB := load l (WordIndex PB) ||| set_mask PB St Len]> l) b'
  end.
Proof. done. Qed.

Lemma granule_page_bound g : 0 <= g < 2 ^ 42 -> 0 <= g * 64 < 2 ^ 48.
Proof. lia. Qed.

Lemma high_page PB a g : kMaxAddress <= PB -> a / 64 = g -> g < 2 ^ 42 -> a / 2 ^ 12 =? PB / 2 ^ 12 = false.
Proof.
  rewrite kMax_eq. intros HPB Ha Hg. apply Z.eqb_neq. intros E. rewrite (page_of_granule a g Ha) in E.
  assert (2 ^ 36 <= PB / 2 ^ 12) by (apply Z.div_le_lower_bound; lia).
  assert (g * 64 / 2 ^ 12 < 2 ^ 36) by (apply Z.div_lt_upper_bound; lia). lia.
Qed.

Lemma set_keeps alloc PB St Len b r : (forall n, alloc n = true) -> call_ok (Set_ PB St Len) ->
  bits_are b r -> bits_are (SetPageRange alloc PB St Len b) (register r (Set_ PB St Len)).
Proof.
  intros Hal (HPB & HPBal & HSt & HLen) (HR & Hl & Hbits). rewrite SetPageRange_mask. cbn [register].
  destruct (Z.lt_ge_cases PB kMaxAddress) as [Hmax|Hmax].
  - pose proof (GetOrCreateLeaf_spec alloc PB b HR Hmax) as Hg.
    destruct (GetOrCreateLeaf alloc PB b) as [L b1]. destruct Hg as ((HR1 & Hl1 & Hw) & Hsome & HP).
    destruct (Hsome Hal) as [P ->]. destruct (HP P eq_refl) as [-> Hpath]. rewrite kMax_eq in Hmax.
    split; [by rewrite <- HR, <- HR1|]. split; [by apply listed_store, Hl1|]. intros g Hg. unfold granule_bit.
    rewrite (word_store b1 PB (fun w => w ||| set_mask PB St Len)) by (unfold is_u in *; (lia || done)).
    rewrite !(word_ext b b1 Hw). specialize (Hbits g Hg). unfold granule_bit in Hbits. case_decide as Hpg.
    + assert (word b PB = word b (g * 64)) as ->.
      { unfold word. destruct (index_same (g * 64) PB) as (-> & -> & ->); unfold is_u in *; lia || done. }
      apply page_granule in Hpg; [|lia|done].
      rewrite Z.lor_spec, orb_true_iff, Hbits, (set_mask_bit PB St Len g) by (unfold is_u in *; lia || done).
      cbn [register]. setoid_rewrite orb_true_iff. split; [intros [(a & ? & ?)|(a & ? & ?)]; exists a; auto|].
      intros (a & ? & [?|?]); [left|right]; exists a; auto.
    + rewrite Hbits. split; intros (a & Ha & Hr); exists a; cbn [register] in *; (split; [done|]).
      * by rewrite Hr.
      * apply orb_true_iff in Hr as [Hr|Hc]; [done|]. unfold covers in Hc. to_prop.
        rewrite (page_of_granule a g Ha) in *. done.
  - unfold GetOrCreateLeaf. rewrite HR, (proj2 (Z.leb_le _ _)) by done. cbn [negb orb].
    split; [done|]. split; [done|]. intros g Hg. rewrite (Hbits g Hg).
    split; intros (a & Ha & Hr); exists a; cbn [register] in *; (split; [done|]); [by rewrite Hr|].
    unfold covers in Hr. rewrite (high_page PB a g) in Hr by (done || lia). by rewrite orb_false_r in Hr.
Qed.

Lemma clear_keeps PB b r : call_ok (Clear_ PB) -> bits_are b r -> bits_are (ClearPage PB b) (register r (Clear_ PB)).
Proof.
  intros (HPB & Hal) (HR & Hl & Hbits). cbn [register]. unfold ClearPage, FindLeaf. rewrite HR. cbn [negb orb].
  destruct (Z.leb_spec kMaxAddress PB) as [Hmax|Hmax].
  { split; [done|]. split; [done|]. intros g Hg. rewrite (Hbits g Hg).
    split; intros (a & Ha & Hr); exists a; cbn [register] in *; rewrite (high_page PB a g) in * by (done || lia);
      by rewrite andb_true_r in *. }
  rewrite kMax_eq in Hmax.
  assert (forall b', (forall a, 0 <= a < 2 ^ 48 -> word b' a = if decide (a / 2 ^ 12 = PB / 2 ^ 12) then 0 else word b a) ->
    forall g, 0 <= g < 2 ^ 42 -> granule_bit b' g = true <->
      exists a, a / 64 = g /\ r a && negb (a / 2 ^ 12 =? PB / 2 ^ 12) = true) as Hcl.
  { intros b' Hw g Hg. specialize (Hbits g Hg). unfold granule_bit in *. rewrite Hw by lia. case_decide as Hpg.
    - rewrite Z.bits_0. split; [done|]. intros (a & Ha & Hr). rewrite (page_of_granule a g Ha), Hpg, Z.eqb_refl in Hr.
      by rewrite andb_false_r in Hr.
    - rewrite Hbits. split; intros (a & Ha & Hr); exists a; cbn [register] in *; (split; [done|]);
        rewrite (page_of_granule a g Ha), (proj2 (Z.eqb_neq _ _)) in * by done; by rewrite andb_true_r in *. }
  fold (find_path b (L0Index PB, L1Index PB)). change (FindLeafFrom b PB) with (find_path b (L0Index PB, L1Index PB)).
  destruct (find_path b (L0Index PB, L1Index PB)) as [l|] eqn:Ep.
  - split; [done|]. split; [by apply listed_store|]. apply Hcl. intros a Ha.
    rewrite <- (word_store b PB (fun _ => 0)) by (eauto; unfold is_u in *; lia). done.
  - split; [done|]. split; [done|]. apply Hcl. intros a Ha. case_decide as Hpg; [|done]. unfold word.
    destruct (index_same a PB) as (-> & -> & ->); [unfold is_u in *; lia..|done|]. unfold leaf_at. by rewrite Ep.
Qed.

(** After [ClearAll] the listed leaves are zero. *)
Lemma ClearAll_leaves Ls b : let b' := foldl (fun b L => store_leaf L (fun _ => ∅) b) b Ls in
  Root b' = Root b /\ (listed b -> listed b') /\ forall L, leaf_at b' L = ∅ \/ L ∉ Ls /\ leaf_at b' L = leaf_at b L.
Proof.
  revert b. induction Ls as [|L0 Ls IH]; intros b; cbn [foldl].
  { split_and!; try done. intros L. right. split; [apply not_elem_of_nil|done]. }
  destruct (IH (store_leaf L0 (fun _ => ∅) b)) as (H1 & H2 & H3). split_and!; [done|auto using listed_store|].
  intros L. destruct (H3 L) as [|[Hn Hv]]; [by left|]. rewrite leaf_at_store in Hv. case_decide as HL.
  - left. rewrite Hv. by destruct (find_path b L0).
  - right. split; [set_solver|done].
Qed.

Lemma clearall_keeps b r : bits_are b r -> bits_are (ClearAll b) (register r ClearAll_).
Proof.
  intros (HR & Hl & Hbits). unfold ClearAll. destruct (ClearAll_leaves (AllLeaves b) b) as (H1 & H2 & H3).
  split; [by rewrite H1|]. split; [auto|]. intros g Hg. cbn [register]. split; [|naive_solver].
  unfold granule_bit, word.
  destruct (H3 (L0Index (g * 64), L1Index (g * 64))) as [->|[Hn ->]]; [by rewrite Z.bits_0|].
  unfold leaf_at. destruct (find_path b _) as [l|] eqn:Ep; [|by rewrite Z.bits_0].
  unfold find_path in Ep. cbn [fst snd] in Ep. destruct (Entries b !! _) as [N|] eqn:EN; [|done].
  destruct Hn. by apply (Hl _ _ N); eauto.
Qed.

Lemma calls_keep alloc calls b r : (forall n, alloc n = true) -> Forall call_ok calls ->
  bits_are b r -> bits_are (foldl (call alloc) b calls) (foldl register r calls).
Proof.
  intros Hal Hok. revert b r. induction Hok as [|c calls Hc Hok IH]; intros b r Hb; [done|].
  cbn [foldl]. apply IH. destruct c; cbn [call].
  - by apply set_keeps.
  - by apply clear_keeps.
  - by apply clearall_keeps.
Qed.

Lemma fresh_bits alloc : alloc 0%nat = true -> bits_are (Enable alloc empty_bitmap) (fun _ => false).
Proof.
  intros Hal. unfold Enable, AllocZeroed; cbn. rewrite Hal. cbn. split; [done|]. split.
  - intros i j N. cbn. by rewrite lookup_empty.
  - intros g Hg. split; [|naive_solver]. unfold granule_bit, word, leaf_at, find_path; cbn. by rewrite Z.bits_0.
Qed.


(** ** The query *)

Lemma land_mask_zero w F L : 0 <= F <= L -> L < 64 ->
  w &&& BitRangeMask F L = 0 <-> forall i, F <= i <= L -> Z.testbit w i = false.
Proof.
  intros HF HL. split.
  - intros H0 i Hi. pose proof (Z.land_spec w (BitRangeMask F L) i) as Hs. rewrite H0, Z.bits_0 in Hs.
    rewrite BitRangeMask_bit in Hs by lia. revert Hs. bool_lia. by rewrite andb_true_r.
  - intros Hb. apply Z.bits_inj'. intros i Hi. rewrite Z.land_spec, Z.bits_0.
    destruct (Z.lt_ge_cases i 64); [|unfold BitRangeMask; rewrite u_testbit by lia; bool_lia; by rewrite andb_false_r].
    rewrite BitRangeMask_bit by lia. destruct (Z.leb_spec F i), (Z.leb_spec i L); cbn [andb]; rewrite ?andb_false_r; try done.
    by rewrite Hb.
Qed.

Lemma page_base a p : a / 2 ^ 12 = p -> p * 2 ^ 12 <= a < p * 2 ^ 12 + 2 ^ 12.
Proof.
  intros <-. pose proof (Z.div_mod a (2 ^ 12) ltac:(lia)). pose proof (Z.mod_pos_bound a (2 ^ 12) ltac:(lia)). lia.
Qed.

(** The bit of a byte is in the word of its page. *)
Lemma granule_bit_word b a p : 0 <= p -> a / 2 ^ 12 = p -> granule_bit b (a / 64) = Z.testbit (word b (p * 2 ^ 12)) (a / 64 mod 64).
Proof.
  intros Hp Ha. unfold granule_bit. f_equal. unfold word. pose proof (page_of_granule a _ eq_refl) as Hpg. rewrite Ha in Hpg.
  pose proof (page_base a p Ha). assert (0 <= a / 64) by (apply Z.div_pos; lia).
  destruct (index_same (a / 64 * 64) (p * 2 ^ 12)) as (-> & -> & ->); try done; [lia..|].
  by rewrite <- Hpg, Z.div_mul by lia.
Qed.

Lemma page_clear_exact b S E p : 0 <= p < 2 ^ 36 -> S < E -> E <= 2 ^ 48 -> S < p * 2 ^ 12 + 2 ^ 12 -> p * 2 ^ 12 < E ->
  page_clear b S E p = true <->
  forall a, S <= a < E -> a / 2 ^ 12 = p -> granule_bit b (a / 64) = false.
Proof.
  intros Hp HSE HE HS Hpe. unfold page_clear. change (1 <<< kPageShift) with (2 ^ 12). rewrite Z.shiftl_mul_pow2 by done.
  change (2 ^ kPageShift) with (2 ^ 12). rewrite (u_small 64 (p * 2 ^ 12)) by (unfold is_u; lia).
  pose proof (granule_bit_word b) as Hword. set (PB := p * 2 ^ 12) in *. assert (PB mod 2 ^ 12 = 0) as Hal by apply Z_mod_mult.
  change (FindLeafFrom b PB) with (find_path b (L0Index PB, L1Index PB)).
  destruct (find_path b (L0Index PB, L1Index PB)) as [l|] eqn:Ep.
  2:{ split; [|done]. intros _ a Ha Hpa. rewrite (Hword a p) by (lia || done). unfold word, leaf_at. fold PB. rewrite Ep.
      apply Z.bits_0. }
  assert (load l (WordIndex PB) = word b PB) as -> by (unfold word, leaf_at; by rewrite Ep).
  destruct (Z.eqb_spec (word b PB) 0) as [H0|_].
  { split; [|done]. intros _ a Ha Hpa. rewrite (Hword a p) by (lia || done). fold PB. by rewrite H0, Z.bits_0. }
  rewrite (u_small 64 (PB + 2 ^ 12)) by (unfold is_u; lia).
  assert ((if PB <? S then S else PB) = Z.max PB S) as -> by (destruct (Z.ltb_spec PB S); lia).
  assert ((if E <? PB + 2 ^ 12 then E else PB + 2 ^ 12) = Z.min E (PB + 2 ^ 12)) as ->
    by (destruct (Z.ltb_spec E (PB + 2 ^ 12)); lia).
  rewrite (u_small 64 (Z.min E (PB + 2 ^ 12) - 1)) by (unfold is_u; lia).
  destruct (granule_index (Z.max PB S) PB) as [-> Hf]; [lia..|].
  destruct (granule_index (Z.min E (PB + 2 ^ 12) - 1) PB) as [-> Hl]; [lia..|].
  rewrite Z.eqb_eq, land_mask_zero; [|split; [lia|apply Z.div_le_mono; lia]|lia].
  assert (forall a, a / 2 ^ 12 = p -> 0 <= a / 64 /\ PB <= a / 64 * 64 < PB + 2 ^ 12) as Hgr.
  { intros a Ha. pose proof (page_base a p Ha). pose proof (Z.div_mod a 64 ltac:(lia)).
    assert (0 <= a / 64) by (apply Z.div_pos; lia). split; [done|]. apply page_granule; [done|done|].
    rewrite <- (page_of_granule a) by done. unfold PB. by rewrite Ha, Z.div_mul by lia. }
  split.
  - intros Hb a Ha Hpa. rewrite (Hword a p) by (lia || done). apply Hb. pose proof (page_base a p Hpa).
    assert (exists a', a' / 64 = a / 64 /\ Z.max PB S <= a' < Z.min E (PB + 2 ^ 12)) as Hex by (exists a; split; [done|unfold PB; lia]).
    apply (granule_between (a / 64) PB (Z.max PB S) (Z.min E (PB + 2 ^ 12)) Hal ltac:(lia) ltac:(lia)
      (proj2 (Hgr a Hpa))) in Hex. apply andb_prop in Hex as [? ?]. split; by apply Z.leb_le.
  - intros Hb i Hi. assert (PB / 64 = p * 64) as HPB64.
    { unfold PB. replace (p * 2 ^ 12) with (p * 64 * 64) by lia. by rewrite Z.div_mul by lia. }
    assert ((p * 64 + i) mod 64 = i) as Hgi by (symmetry; apply (Z.mod_unique_pos _ _ p); lia).
    destruct (proj1 (granule_between (p * 64 + i) PB (Z.max PB S) (Z.min E (PB + 2 ^ 12)) Hal ltac:(lia) ltac:(lia) ltac:(lia)))
      as (a & Ha & Hr); [rewrite Hgi; by bool_lia|].
    assert (a / 2 ^ 12 = p) as Hpa by (symmetry; apply (Z.div_unique_pos _ _ _ (a - PB)); lia).
    specialize (Hb a ltac:(lia) Hpa). rewrite (Hword a p) in Hb by (lia || done). rewrite Ha, Hgi in Hb. done.
Qed.

(** ** The theorems *)

(** What the query answers for a tree with the bits of [r]. *)
Lemma ProvablyClear_spec b r S Len : bits_are b r -> is_u 64 S -> is_u 64 Len ->
  ProvablyClear b S Len = true <->
  0 < Len /\ S + Len <= 2 ^ 48 /\ (S + Len - 1) / 2 ^ 12 - S / 2 ^ 12 <= 3 /\
  forall a a', S <= a < S + Len -> a' / 64 = a / 64 -> r a' = false.
Proof.
  intros (HR & _ & Hbits) HS HL. unfold ProvablyClear. rewrite HR. cbn [negb orb].
  destruct (Z.eqb_spec Len 0) as [->|HL0]; [split; [done|lia]|].
  destruct (Z.lt_ge_cases (S + Len) (2 ^ 64)) as [Hw|Hw].
  2:{ assert (u64 (S + Len) <? S = true) as ->.
      { apply Z.ltb_lt. unfold uwrap, is_u in *. rewrite <- (Z.mod_unique_pos (S + Len) (2 ^ 64) 1 (S + Len - 2 ^ 64)); lia. }
      split; [done|lia]. }
  rewrite (u_small 64 (S + Len)), kMax_eq by (unfold is_u in *; lia). rewrite (proj2 (Z.ltb_ge (S + Len) S)) by (unfold is_u in *; lia).
  cbn [orb]. destruct (Z.ltb_spec (2 ^ 48) (S + Len)) as [|Hmax]; [split; [done|lia]|].
  rewrite (u_small 64 (S + Len - 1)), !Z.shiftr_div_pow2 by (done || (unfold is_u in *; lia)). change (2 ^ kPageShift) with (2 ^ 12).
  assert (0 <= S / 2 ^ 12 <= (S + Len - 1) / 2 ^ 12) as Hpp.
  { unfold is_u in *. split; [apply Z.div_pos; lia|apply Z.div_le_mono; lia]. }
  assert ((S + Len - 1) / 2 ^ 12 < 2 ^ 36) by (apply Z.div_lt_upper_bound; lia).
  rewrite (u_small 64 (_ - _)) by (unfold is_u; lia).
  destruct (Z.ltb_spec 3 ((S + Len - 1) / 2 ^ 12 - S / 2 ^ 12)); [split; [done|lia]|].
  assert (forall p, p ∈ seqZ (S / 2 ^ 12) ((S + Len - 1) / 2 ^ 12 - S / 2 ^ 12 + 1) ->
    page_clear b S (S + Len) p = true <-> forall a, S <= a < S + Len -> a / 2 ^ 12 = p -> granule_bit b (a / 64) = false) as Hpc.
  { intros p Hp%elem_of_seqZ. apply page_clear_exact; [lia|unfold is_u in *; lia|done| |].
    - pose proof (page_base S _ eq_refl). nia.
    - pose proof (page_base (S + Len - 1) _ eq_refl). nia. }
  assert (forall a, S <= a < S + Len -> 0 <= a / 64 < 2 ^ 42) as Hga.
  { intros a Ha. unfold is_u in *. split; [apply Z.div_pos|apply Z.div_lt_upper_bound]; lia. }
  rewrite forallb_forall. split.
  - intros Hall. split_and!; [unfold is_u in *; lia|done|lia|]. intros a a' Ha Ha'. apply not_true_iff_false. intros Hr.
    assert (granule_bit b (a / 64) = true) as Hg by (apply Hbits; eauto).
    assert (a / 2 ^ 12 ∈ seqZ (S / 2 ^ 12) ((S + Len - 1) / 2 ^ 12 - S / 2 ^ 12 + 1)) as Hin.
    { apply elem_of_seqZ. pose proof (Z.div_le_mono S a (2 ^ 12)). pose proof (Z.div_le_mono a (S + Len - 1) (2 ^ 12)). lia. }
    rewrite (proj1 (Hpc _ Hin) (Hall _ (proj1 (list_elem_of_In _ _) Hin)) a Ha eq_refl) in Hg. done.
  - intros (_ & _ & _ & Hr) p Hp%list_elem_of_In. apply Hpc; [done|]. intros a Ha Hpa. apply not_true_iff_false.
    intros (a' & Ha' & Hra)%(Hbits _ (Hga a Ha)). by rewrite (Hr a a' Ha Ha') in Hra.
Qed.


(** C8: as long as the allocator delivers, the lock-free query clears a range exactly when the
    range is not empty, ends below 2^48, touches at most four pages, and shares no 64-byte
    granule with a byte that is registered: a byte that a [SetPageRange] covered (a whole page
    when its extent is unknown or misses the page) and that no later clearing of its page or of
    everything took back.  In particular it never clears a range that holds a registered byte. *)
Theorem ProvablyClear_exact alloc calls Start Length :
  (forall n, alloc n = true) -> Forall call_ok calls -> is_u 64 Start -> is_u 64 Length ->
  ProvablyClear (foldl (call alloc) (Enable alloc empty_bitmap) calls) Start Length = true <->
  0 < Length /\ Start + Length <= 2 ^ 48 /\ (Start + Length - 1) / 2 ^ 12 - Start / 2 ^ 12 <= 3 /\
  forall a a', Start <= a < Start + Length -> a' / 64 = a / 64 -> registered calls a' = false.
Proof.
  intros Hal Hok HS HL. apply ProvablyClear_spec; [|done|done]. unfold registered. apply calls_keep; [done|done|].
  by apply fresh_bits.
Qed.

Lemma ProvablyClear_exact_witness :
  ProvablyClear (foldl (call (fun _ => true)) (Enable (fun _ => true) empty_bitmap)
    [Set_ 0x401000 0x401010 0x20; Set_ 0x7fff00002000 0 0; Clear_ 0x7fff00002000]) 0x401040 8 = true /\
  ProvablyClear (foldl (call (fun _ => true)) (Enable (fun _ => true) empty_bitmap)
    [Set_ 0x401000 0x401010 0x20; Set_ 0x7fff00002000 0 0; Clear_ 0x7fff00002000]) 0x401038 8 = false /\
  registered [Set_ 0x401000 0x401010 0x20; Set_ 0x7fff00002000 0 0; Clear_ 0x7fff00002000] 0x401041 = false.
Proof.
  set (calls := [Set_ 0x401000 0x401010 0x20; Set_ 0x7fff00002000 0 0; Clear_ 0x7fff00002000]).
  assert (Forall call_ok calls) as Hok.
  { unfold calls. repeat constructor; vm_compute; congruence. }
  pose proof (ProvablyClear_exact (fun _ => true) calls 0x401040 8 (fun _ => eq_refl) Hok
    ltac:(vm_compute; split; congruence) ltac:(vm_compute; split; congruence)) as Ht.
  assert (ProvablyClear (foldl (call (fun _ => true)) (Enable (fun _ => true) empty_bitmap) calls) 0x401040 8 = true) as Hc
    by (vm_compute; reflexivity).
  split; [exact Hc|]. split; [vm_compute; reflexivity|].
  apply Ht in Hc as (_ & _ & _ & Hr). apply (Hr 0x401040 0x401041); [lia|vm_compute; reflexivity].
Defined.

(** when the node or the leaf of a page cannot be allocated, [SetPageRange] drops the
    registration silently, and the query then clears every byte of that page: the
    conservative answer that the comments promise for a failed allocation is not given. *)
Theorem failed_allocation_clears alloc PageBase Start Length b a :
  Root b = true -> is_u 48 PageBase -> PageBase mod 2 ^ 12 = 0 ->
  find_path b (L0Index PageBase, L1Index PageBase) = None -> alloc (Allocs b) = false ->
  PageBase <= a < PageBase + 2 ^ 12 ->
  ProvablyClear (SetPageRange alloc PageBase Start Length b) a 1 = true.
Proof.
  intros HR HPB Hal Hp Ha Hin. unfold is_u in HPB.
  assert (exists b', SetPageRange alloc PageBase Start Length b = b' /\ Root b' = true /\ Entries b' = Entries b) as (b' & -> & HR' & HE').
  { unfold SetPageRange, GetOrCreateLeaf, GetOrCreateNode. rewrite HR, kMax_eq, (proj2 (Z.leb_gt _ _)) by lia. cbn [negb orb].
    unfold find_path in Hp. cbn [fst snd] in Hp. destruct (Entries b !! L0Index PageBase) as [N|] eqn:E; cbn in Hp.
    - unfold GetOrCreateLeafIn. rewrite Hp. unfold AllocZeroed. rewrite Ha. by eexists.
    - unfold AllocZeroed. rewrite Ha. by eexists. }
  unfold ProvablyClear. rewrite HR'. cbn [negb orb Z.eqb]. rewrite (u_small 64 (a + 1)), kMax_eq by (unfold is_u; lia).
  apply Z.mod_divide in Hal as [q Hq]; [|lia]. assert (a / 2 ^ 12 = q) as Hpg by (symmetry; apply (Z.div_unique_pos _ _ _ (a - PageBase)); lia).
  rewrite (proj2 (Z.ltb_ge (a + 1) a)), (proj2 (Z.ltb_ge (2 ^ 48) (a + 1))) by lia. cbn [orb].
  rewrite (u_small 64 (a + 1 - 1)), !Z.shiftr_div_pow2 by (done || (unfold is_u; lia)). change (2 ^ kPageShift) with (2 ^ 12).
  replace (a + 1 - 1) with a by lia. rewrite Hpg, Z.sub_diag. change (3 <? u64 0) with false. cbv iota.
  assert (seqZ q (0 + 1) = [q]) as -> by (unfold seqZ; cbn; by destruct q). cbn [forallb]. rewrite andb_true_r.
  unfold page_clear. rewrite Z.shiftl_mul_pow2 by done. change (2 ^ kPageShift) with (2 ^ 12).
  rewrite <- Hq, (u_small 64) by (unfold is_u; lia). unfold FindLeafFrom. unfold find_path in Hp. cbn [fst snd] in Hp.
  by rewrite HE', Hp.
Qed.

Lemma failed_allocation_clears_witness :
  let alloc n := Nat.eqb n 0 in
  ProvablyClear (SetPageRange alloc 0x401000 0x401010 0x20 (Enable alloc empty_bitmap)) 0x401018 1 = true /\
  registered [Set_ 0x401000 0x401010 0x20] 0x401018 = true.
Proof.
  cbv zeta. split; [|vm_compute; reflexivity].
  apply (failed_allocation_clears (fun n => Nat.eqb n 0) 0x401000 0x401010 0x20 (Enable (fun n => Nat.eqb n 0) empty_bitmap) 0x401018).
  - reflexivity.
  - vm_compute; split; congruence.
  - reflexivity.
  - reflexivity.
  - reflexivity.
  - vm_compute; split; congruence.
Defined.

End history.
