(* ===== verification/SemanticPatch.v ===== *)
(** * Semantic patches (FEXCore/Source/Interface/Core/SMCSemanticPatch.h)

    A guest store that only changes the immediate of a direct branch or of a mov-immediate can be
    followed by rewriting one word of the translated code.  Here: the recognisers of the two
    guest shapes, the fixed window of host code that holds a constant, and the test whether a
    window can be moved to a new value with one store.  Guest memory is a function from
    addresses to bytes, host code a function from addresses to 32-bit words. *)

From S2P Require Import Prelude PPCEmitter PPCInsns PowerISA PPCLoadImm.

Module SMC4.

Definition kMaxSitesPerBlock : Z := 32.

Record BranchImmSite := mkBranchImmSite { BranchImmStart : Z; InstEnd : Z }.
Record ExitRIPSite := mkExitRIPSite { ExitHostAddr : Z }.
Record MovImmSite := mkMovImmSite { ImmStart : Z; ImmSize : Z }.
Record MovImmWindow := mkMovImmWindow { HostAddr : Z; SiteIndex : Z }.

#[global] Instance BranchImmSite_dec : EqDecision BranchImmSite.
Proof. solve_decision. Defined.
#[global] Instance MovImmSite_dec : EqDecision MovImmSite.
Proof. solve_decision. Defined.

Definition Rel32Target (End Rel32 : Z) : Z := u64 (End + u64 (s32 Rel32)).

(** The instruction's bytes; the decoders only read the first [InstSize] of them. *)
Definition byte_at (Bytes : list Z) (p : Z) : Z := default 0 (Bytes !! Z.to_nat p).

Definition IsLegacyPrefix (B : Z) : bool :=
  (B =? 0x26) || (B =? 0x2E) || (B =? 0x36) || (B =? 0x3E) || (B =? 0x64) || (B =? 0x65) || (B =? 0x66) || (B =? 0x67) ||
  (B =? 0xF0) || (B =? 0xF2) || (B =? 0xF3).
Definition IsREX (Is64Bit : bool) (B : Z) : bool := Is64Bit && (B &&& 0xF0 =? 0x40).

(** The walk over the prefixes from [p] on; [fuel] is the number of bytes left. *)
Fixpoint skip_prefixes (fuel : nat) (Is64Bit : bool) (Bytes : list Z) (p : Z) : Z :=
  match fuel with
  | O => p
  | S n =>
      let B := byte_at Bytes p in
      if negb (IsLegacyPrefix B) && negb (IsREX Is64Bit B) then p else skip_prefixes n Is64Bit Bytes (p + 1)
  end.

Definition DecodeRel32BranchSite (Bytes : list Z) (InstSize InstAddr : Z) (Is64Bit : bool) : option BranchImmSite :=
  if (InstSize <? 5) || (15 <? InstSize) then None
  else
    let p := skip_prefixes (Z.to_nat InstSize) Is64Bit Bytes 0 in
    ImmOffset ←
      (if (p <? InstSize) && ((byte_at Bytes p =? 0xE8) || (byte_at Bytes p =? 0xE9)) then Some (p + 1)
       else if (p + 1 <? InstSize) && (byte_at Bytes p =? 0x0F) && (byte_at Bytes (p + 1) &&& 0xF0 =? 0x80) then Some (p + 2)
       else None);
    if negb (ImmOffset + 4 =? InstSize) then None
    else Some (mkBranchImmSite (u64 (InstAddr + ImmOffset)) (u64 (InstAddr + InstSize))).

(** The walk over REX prefixes, with the W bit of the last one. *)
Fixpoint skip_rex (fuel : nat) (Is64Bit : bool) (Bytes : list Z) (p : Z) (RexW : bool) : Z * bool :=
  match fuel with
  | O => (p, RexW)
  | S n =>
      if Is64Bit && (byte_at Bytes p &&& 0xF0 =? 0x40)
      then skip_rex n Is64Bit Bytes (p + 1) (negb (byte_at Bytes p &&& 0x08 =? 0))
      else (p, RexW)
  end.

Definition DecodeMovImmSite (Bytes : list Z) (InstSize InstAddr : Z) (Is64Bit : bool) : option (MovImmSite * Z) :=
  if (InstSize <? 5) || (15 <? InstSize) then None
  else
    let '(p, RexW) := skip_rex (Z.to_nat InstSize) Is64Bit Bytes 0 false in
    '(ImmOffset, ImmSize) ←
      (if (p <? InstSize) && (byte_at Bytes p &&& 0xF8 =? 0xB8) then Some (p + 1, if RexW then 8 else 4)
       else if (p + 1 <? InstSize) && (byte_at Bytes p =? 0xC7) && negb RexW && (byte_at Bytes (p + 1) &&& 0xC0 =? 0xC0) &&
               (byte_at Bytes (p + 1) &&& 0x38 =? 0) then Some (p + 2, 4)
       else None);
    if negb (ImmOffset + ImmSize =? InstSize) then None
    else
      let V := le_val (byte_at Bytes <$> seqZ ImmOffset ImmSize) in
      Some (mkMovImmSite (u64 (InstAddr + ImmOffset)) (u32 ImmSize), V).

(** [memcpy] of [n] guest bytes from address [a]. *)
Definition guest_bytes (mem : Z -> Z) (a n : Z) : list Z := (fun i => mem (u64 (a + i))) <$> seqZ 0 n.

Definition MovImmSiteValue (mem : Z -> Z) (Site : MovImmSite) : Z := le_val (guest_bytes mem (ImmStart Site) (ImmSize Site)).

Definition kRIPWindowWords : Z := 5.
Definition kRIPWindowBytes : Z := kRIPWindowWords * 4.

Definition D_word (Op RT RA Imm : Z) : Z := u32 (Op <<< 26) ||| u32 (RT <<< 21) ||| u32 (RA <<< 16) ||| Imm.

Definition SynthesizeRIPWindow (RegIdx RIP : Z) : list Z :=
  let Hi := u32 (RIP >>> 32) in
  let Lo := u32 RIP in
  let rt := RegIdx &&& 31 in
  let sh := 32 in let me := 31 in let xo := 1 in
  [ D_word 15 rt 0 (u16 (Hi >>> 16));
    D_word 24 rt rt (u16 (Hi &&& 0xFFFF));
    u32 (30 <<< 26) ||| u32 (rt <<< 21) ||| u32 (rt <<< 16) ||| ((sh &&& 0x1F) <<< 11) ||| ((me &&& 0x1F) <<< 6) |||
      (((me >>> 5) &&& 1) <<< 5) ||| (xo <<< 2) ||| (((sh >>> 5) &&& 1) <<< 1);
    D_word 25 rt rt (u16 (Lo >>> 16));
    D_word 24 rt rt (u16 (Lo &&& 0xFFFF)) ].

Definition RIPWindowRegIdx (Word0 : Z) : Z := (Word0 >>> 21) &&& 31.

Record WordPatch := mkWordPatch { PatchAddress : Z; PatchValue : Z }.

Inductive SiteMatch :=
  | NoMatch
  | Patchable (Out : option WordPatch)  (** [None]: [NeedsWrite] is false *)
  | MultiWord.

(** The words of the window at a host address. *)
Definition window (host : Z -> Z) (a : Z) : list Z := (fun i => host (a + 4 * i)) <$> seqZ 0 kRIPWindowWords.

(** The loop over the five words: the index of the last difference and their number. *)
Definition diffs (Expected Wanted : list Z) : Z * Z :=
  foldl (fun '(DiffIndex, DiffCount) '(i, (e, w)) => if negb (e =? w) then (i, DiffCount + 1) else (DiffIndex, DiffCount))
    (kRIPWindowWords, 0) (zip (seqZ 0 kRIPWindowWords) (zip Expected Wanted)).

Definition ClassifyRIPSite (host : Z -> Z) (Addr OldRIP NewRIP : Z) : SiteMatch :=
  let Expected := SynthesizeRIPWindow (RIPWindowRegIdx (host Addr)) OldRIP in
  if negb (bool_decide (window host Addr = Expected)) then NoMatch
  else
    let Wanted := SynthesizeRIPWindow (RIPWindowRegIdx (host Addr)) NewRIP in
    let '(DiffIndex, DiffCount) := diffs Expected Wanted in
    if DiffCount =? 0 then Patchable None
    else if 1 <? DiffCount then MultiWord
    else Patchable (Some (mkWordPatch (Addr + 4 * DiffIndex) (default 0 (Wanted !! Z.to_nat DiffIndex)))).

Definition ApplyWordPatch (host : Z -> Z) (Patch : WordPatch) : Z -> Z :=
  fun a => if a =? PatchAddress Patch then PatchValue Patch else host a.

End SMC4.
