(* ===== verification/SemanticPatchProps.v ===== *)
(** * The fixed window and its one-word edits

    [SynthesizeRIPWindow] is the code [LoadImm64Fixed] emits, executing it loads the value, a
    window determines its value, and the edit that [ClassifyRIPSite] accepts turns the window
    of the old value into that of the new one. *)

From S2P Require Import Prelude PPCEmitter PPCInsns PowerISA PPCLoadImm SemanticPatch.
Import SMC4.

Lemma word_D op rt ra d : D_word op rt ra d = d_word op rt ra d.
Proof. reflexivity. Qed.

Lemma u16_s16 x : u16 (s16 x) = u16 x.
Proof. unfold uwrap, swrap. Z.to_euclidean_division_equations; lia. Qed.

(** The words of the body of [LoadImm64Fixed]. *)
Lemma window_emits c rt v : is_u 5 rt ->
  Emits c (lis (mkGPR rt) (s16 (u32 (v >>> 32) >>> 16)) ;;
     ori (mkGPR rt) (mkGPR rt) (u16 (u32 (v >>> 32) &&& 0xFFFF)) ;;
     sldi (mkGPR rt) (mkGPR rt) 32 ;;
     oris (mkGPR rt) (mkGPR rt) (u16 (u32 v >>> 16)) ;;
     ori (mkGPR rt) (mkGPR rt) (u16 (u32 v &&& 0xFFFF))) (SynthesizeRIPWindow rt v).
Proof.
  intros Hrt. unfold SynthesizeRIPWindow. cbv zeta.
  assert (rt &&& 31 = rt) as ->. { change 31 with (Z.ones 5). rewrite u_land_ones by lia. by apply u_small. }
  apply (Emits_seq _ _ _ [_] [_; _; _; _]).
  { rewrite <- (u16_s16 (u32 (v >>> 32) >>> 16)). apply Emits_Emit32. }
  apply (Emits_seq _ _ _ [_] [_; _; _]); [apply Emits_Emit32|].
  apply (Emits_seq _ _ _ [_] [_; _]).
  { unfold sldi, rldicr. do 2 (apply Emits_assert; [reflexivity|]).
    replace (30 <<u 26 ||| _ ||| _ ||| _ ||| _ ||| _ ||| _ ||| _) with (md_word rt rt 32 31 1 0); [apply Emits_Emit32|].
    unfold md_word. by rewrite Z.lor_0_r. }
  apply (Emits_seq _ _ _ [_] [_]); apply Emits_Emit32.
Qed.

Lemma window_length rt v : length (SynthesizeRIPWindow rt v) = 5%nat.
Proof. reflexivity. Qed.

(** Two lists of the same length that the same code emits are the same words. *)
Lemma Emits_same c m ws ws' : length ws = length ws' -> (length ws <= 16)%nat -> Emits c m ws -> Emits c m ws' -> uwrap 32 <$> ws = uwrap 32 <$> ws'.
Proof.
  intros Hl Hn H H'. set (s := mkEmitter (replicate 64 0) 64 0 false [] ∅).
  assert (wf s) as Hw by (by split; vm_compute). assert (Offset s = 0 /\ BufferSize s = 64) as [HO HB] by done.
  pose proof (H s Hw ltac:(lia)) as E. rewrite (H' s Hw ltac:(lia)) in E. injection E as E.
  pose proof (emit_words_read ws s Hw ltac:(lia)) as R. pose proof (emit_words_read ws' s Hw ltac:(lia)) as R'.
  rewrite E, <- Hl, R in R'. by injection R'.
Qed.

Lemma window_exec rt v g : is_u 5 rt -> is_u 64 v -> regs_ok g ->
  exists g', exec_words (SynthesizeRIPWindow rt v) g = Some g' /\ g' rt = v /\ forall r, r <> rt -> g' r = g r.
Proof.
  intros Hrt Hv Hg. set (c := mkConfig false false false).
  destruct (c_LoadImm64Fixed c (mkGPR rt) Hrt v Hv) as (ws & He & Hl & Hx).
  pose proof (Emits_same c _ ws _ ltac:(rewrite window_length; lia) ltac:(lia) He (window_emits c rt v Hrt)) as Hs.
  destruct (Hx g Hg) as (g' & Hrun & _ & Hv' & Ho). exists g'. rewrite <- exec_words_u32, <- Hs, exec_words_u32. by split_and!.
Qed.

(** A window holds one value. *)
Lemma window_inj rt v v' : is_u 5 rt -> is_u 64 v -> is_u 64 v' -> SynthesizeRIPWindow rt v = SynthesizeRIPWindow rt v' -> v = v'.
Proof.
  intros Hrt Hv Hv' E. assert (regs_ok (fun _ => 0)) as Hg by (intros r; unfold is_u; lia).
  destruct (window_exec rt v _ Hrt Hv Hg) as (g & H & <- & _). destruct (window_exec rt v' _ Hrt Hv' Hg) as (g' & H' & <- & _).
  rewrite E, H' in H. by injection H as ->.
Qed.

Lemma RegIdx_u5 w : is_u 5 (RIPWindowRegIdx w).
Proof. unfold RIPWindowRegIdx. change 31 with (Z.ones 5). rewrite u_land_ones by lia. apply u_range. lia. Qed.

(** The loop over the differences. *)
Lemma diffs_spec (Expected Wanted : list Z) i n : length Expected = 5%nat -> length Wanted = 5%nat -> diffs Expected Wanted = (i, n) ->
  (n = 0 -> Expected = Wanted) /\
  (n = 1 -> 0 <= i < 5 /\ forall j, 0 <= j < 5 -> j <> i -> Expected !! Z.to_nat j = Wanted !! Z.to_nat j) /\ 0 <= n.
Proof.
  intros He Hw. destruct Expected as [|a0 [|a1 [|a2 [|a3 [|a4 [|]]]]]]; try done. destruct Wanted as [|b0 [|b1 [|b2 [|b3 [|b4 [|]]]]]]; try done.
  assert (Hj : forall j : Z, 0 <= j < 5 -> j = 0 \/ j = 1 \/ j = 2 \/ j = 3 \/ j = 4) by lia.
  unfold diffs, kRIPWindowWords. change (seqZ 0 5) with [0; 1; 2; 3; 4]. cbn [zip zip_with foldl]. cbv beta iota.
  destruct (Z.eqb_spec a0 b0) as [-> |]; cbn [negb]; cbv beta iota; (destruct (Z.eqb_spec a1 b1) as [-> |]; cbn [negb]; cbv beta iota);
    (destruct (Z.eqb_spec a2 b2) as [-> |]; cbn [negb]; cbv beta iota); (destruct (Z.eqb_spec a3 b3) as [-> |]; cbn [negb]; cbv beta iota);
    (destruct (Z.eqb_spec a4 b4) as [-> |]; cbn [negb]; cbv beta iota); intros Hd; injection Hd as <- <-;
    (split; [intros; first [done|lia]|]);
    (split; [intros; first [lia|split; [lia|intros j Hb Hne; destruct (Hj j Hb) as [-> |[-> |[-> |[-> | -> ]]]]; first [reflexivity|lia]]]|lia]).
Qed.

(** ** One-word edits *)

Lemma Classify_spec host w Old New o : ClassifyRIPSite host w Old New = Patchable o ->
  let r := RIPWindowRegIdx (host w) in
  window host w = SynthesizeRIPWindow r Old /\
  match o with
  | None => SynthesizeRIPWindow r Old = SynthesizeRIPWindow r New
  | Some p => exists i, 0 <= i < 5 /\ PatchAddress p = w + 4 * i /\ SynthesizeRIPWindow r New !! Z.to_nat i = Some (PatchValue p) /\
      forall j, 0 <= j < 5 -> j <> i -> SynthesizeRIPWindow r Old !! Z.to_nat j = SynthesizeRIPWindow r New !! Z.to_nat j
  end.
Proof.
  unfold ClassifyRIPSite. cbv zeta. set (r := RIPWindowRegIdx (host w)). case_bool_decide as Hw; [|done]. cbn [negb].
  pose proof (diffs_spec (SynthesizeRIPWindow r Old) (SynthesizeRIPWindow r New)) as Hd.
  destruct (diffs (SynthesizeRIPWindow r Old) (SynthesizeRIPWindow r New)) as [i n]. destruct (Hd i n) as (H0 & H1 & Hn); [done..|].
  destruct (Z.eqb_spec n 0) as [->|]; [intros [= <-]; auto|]. destruct (Z.ltb_spec 1 n); [done|]. intros [= <-]. split; [done|].
  destruct (H1 ltac:(lia)) as [Hi Hj]. exists i. split_and!; [lia|lia|done| |done].
  cbn [PatchValue]. destruct (lookup_lt_is_Some_2 (SynthesizeRIPWindow r New) (Z.to_nat i)) as [v Hv]; [rewrite window_length; lia|].
  by rewrite Hv.
Qed.

Lemma apply_other Ps host a : (forall p, p ∈ Ps -> PatchAddress p <> a) -> foldl ApplyWordPatch host Ps a = host a.
Proof.
  revert host. induction Ps as [|p Ps IH]; intros host H; [done|]. cbn [foldl]. rewrite IH by (intros q Hq; apply H; by right).
  unfold ApplyWordPatch. destruct (Z.eqb_spec a (PatchAddress p)); [|done]. exfalso. apply (H p); [left|done].
Qed.

Lemma apply_at Ps host a v : (exists p, p ∈ Ps /\ PatchAddress p = a) -> (forall p, p ∈ Ps -> PatchAddress p = a -> PatchValue p = v) ->
  foldl ApplyWordPatch host Ps a = v.
Proof.
  revert host. induction Ps as [|p Ps IH]; intros host (q & Hq & Ha) H; [by apply elem_of_nil in Hq|]. cbn [foldl].
  destruct (decide (Exists (fun p => PatchAddress p = a) Ps)) as [(p' & Hp' & Ha')%Exists_exists|Hn].
  - apply IH; [eauto|]. intros p1 Hp1. apply H. by right.
  - rewrite apply_other by (intros p1 Hp1 Ha1; apply Hn, Exists_exists; eauto).
    apply elem_of_cons in Hq as [->|Hq]; [|exfalso; apply Hn, Exists_exists; eauto].
    unfold ApplyWordPatch. rewrite Ha, Z.eqb_refl. apply H; [left|done].
Qed.

Lemma window_lookup host a i : 0 <= i < 5 -> window host a !! Z.to_nat i = Some (host (a + 4 * i)).
Proof.
  intros Hi. unfold window, kRIPWindowWords. rewrite list_lookup_fmap, lookup_seqZ_lt by lia. cbn. do 3 f_equal. lia.
Qed.

Lemma window_eq host a ws : length ws = 5%nat -> (forall i, 0 <= i < 5 -> ws !! Z.to_nat i = Some (host (a + 4 * i))) -> window host a = ws.
Proof.
  intros Hl H. apply list_eq. intros i. destruct (decide (i < 5)%nat) as [Hi|Hi].
  - replace i with (Z.to_nat (Z.of_nat i)) by lia. rewrite window_lookup, H by lia. done.
  - rewrite !lookup_ge_None_2; [done|lia|]. unfold window, kRIPWindowWords. rewrite length_fmap, length_seqZ. lia.
Qed.

(** A set of claims: a window, its old and its new value. *)
Section claims.
  Context (host : Z -> Z) (C : Z -> Z -> Z -> Prop) (Ps : list WordPatch).
  Context (Hfrom : forall p, p ∈ Ps -> exists w o n, C w o n /\ ClassifyRIPSite host w o n = Patchable (Some p)).
  Context (Hto : forall w o n p, C w o n -> ClassifyRIPSite host w o n = Patchable (Some p) -> p ∈ Ps).
  Context (Hapart : forall w o n w' o' n', C w o n -> C w' o' n' -> w = w' /\ o = o' /\ n = n' \/ w + 20 <= w' \/ w' + 20 <= w).

Lemma patched_window w o n q : C w o n -> ClassifyRIPSite host w o n = Patchable q ->
  window (foldl ApplyWordPatch host Ps) w = SynthesizeRIPWindow (RIPWindowRegIdx (host w)) n.
Proof using Hfrom Hto Hapart.
  intros HC Hq. destruct (Classify_spec host w o n q Hq) as [Hw Hcase]. set (r := RIPWindowRegIdx (host w)) in *.
  assert (Hold : forall i, 0 <= i < 5 -> SynthesizeRIPWindow r o !! Z.to_nat i = Some (host (w + 4 * i))) by (intros i Hi; rewrite <- Hw; by apply window_lookup).
  apply window_eq; [apply window_length|]. intros i Hi. symmetry.
  destruct (decide (Exists (fun p => PatchAddress p = w + 4 * i) Ps)) as [(p & Hp & Ha)%Exists_exists|Hn].
  - assert (Hval : forall p, p ∈ Ps -> PatchAddress p = w + 4 * i -> SynthesizeRIPWindow r n !! Z.to_nat i = Some (PatchValue p)).
    { intros p1 Hp1 Ha1. destruct (Hfrom p1 Hp1) as (w1 & o1 & n1 & HC1 & H1). destruct (Classify_spec _ _ _ _ _ H1) as (_ & j & Hj & Haj & Hv & _).
      destruct (Hapart _ _ _ _ _ _ HC HC1) as [(<- & <- & <-)|]; [|lia]. assert (i = j) as -> by lia. done. }
    pose proof (Hval p Hp Ha) as Hv. rewrite Hv. f_equal. apply apply_at; [eauto|]. intros p1 Hp1 Ha1. pose proof (Hval p1 Hp1 Ha1). congruence.
  - rewrite apply_other by (intros p1 Hp1 Ha1; apply Hn, Exists_exists; eauto). rewrite <- Hold by done.
    destruct q as [p|]; [|by rewrite Hcase]. destruct Hcase as (k & Hk & Hak & _ & Hsame). apply Hsame; [done|]. intros ->.
    apply Hn, Exists_exists. exists p. split; [by eapply Hto|done].
Qed.

Lemma patched_outside a : (forall w o n, C w o n -> ~ (w <= a < w + 20)) -> foldl ApplyWordPatch host Ps a = host a.
Proof using Hfrom.
  intros H. apply apply_other. intros p Hp Ha. destruct (Hfrom p Hp) as (w & o & n & HC & H1). destruct (Classify_spec _ _ _ _ _ H1) as (_ & j & Hj & Haj & _).
  apply (H w o n HC). lia.
Qed.

End claims.

(** ** The theorem *)

(** C9: the five words that the fault handler synthesises for a register and a value are
    exactly what [LoadImm64Fixed] emits for them, and executing them loads the value into the
    register and changes no other. *)
Theorem window_is_LoadImm64Fixed c s rt v :
  is_u 5 rt -> is_u 64 v -> wf s -> Offset s + LoadConstantFixedBytes <= BufferSize s ->
  LoadImm64Fixed (mkGPR rt) v c s = Ok (emit_words (SynthesizeRIPWindow rt v) s) /\
  forall g, regs_ok g -> exists g', exec_words (SynthesizeRIPWindow rt v) g = Some g' /\ g' rt = v /\ forall r, r <> rt -> g' r = g r.
Proof.
  unfold LoadConstantFixedBytes. intros Hrt Hv Hw Hr. split; [|by intros g; apply window_exec].
  pose proof (window_emits c rt v Hrt s Hw ltac:(rewrite window_length; lia)) as E.
  destruct (emit_words_facts (SynthesizeRIPWindow rt v) s Hw) as (_ & _ & HO); [rewrite window_length; lia|]. rewrite window_length in HO.
  unfold LoadImm64Fixed. rewrite andthen_assoc5, (andthen_ok _ _ _ _ _ E). unfold LOGMAN_THROW_A, LoadConstantFixedBytes. rewrite HO, u_small by (unfold is_u; lia).
  replace (Offset s + 4 * Z.of_nat 5 - Offset s =? 5 * 4) with true by (symmetry; apply Z.eqb_eq; lia). by rewrite orb_true_r.
Qed.

Lemma window_is_LoadImm64Fixed_witness : let s := mkEmitter (replicate 24 0) 24 4 false [] ∅ in
  LoadImm64Fixed (mkGPR 3) 0x1122334455667788 (mkConfig false true false) s = Ok (emit_words (SynthesizeRIPWindow 3 0x1122334455667788) s).
Proof.
  intros s. assert (wf s) as Hw by (by split; vm_compute).
  apply (window_is_LoadImm64Fixed (mkConfig false true false) s 3 0x1122334455667788 ltac:(done) ltac:(done) Hw). vm_compute. discriminate.
Defined.
