(* ===== verification/LookupCache.v ===== *)
(** * The guest-to-host map (FEXCore/Source/Interface/Core/LookupCache.h, LookupCache.cpp)

    [GuestToHostMap] is the table shared by the threads of a code buffer: compiled blocks by
    guest address, the pages they came from, retained blocks after a soft invalidation, and
    the patched direct branches into each block, kept as chains in one pool of nodes with a
    free list.  Pointers to the nodes of a [std::map] are the keys of the nodes; an access
    outside the pool, through a stale pointer, or past the end of an iterator range gives
    [None].  Calls of a delinker are appended to [Delinked].  Every operation runs with the
    write lock of the map held (readers with the read lock), so an operation is one step. *)

From stdpp Require Import sorting.
From S2P Require Import Prelude CodeGranules SemanticPatch.

(** ** Walks over a [std::map]: [lower_bound(lo)] to [upper_bound(hi)]

    The keys are visited in increasing order.  If some key lies between [hi] and [lo] the first
    iterator is behind the second one and the walk runs off the end of the map. *)

Definition sorted_keys {A} (m : gmap Z A) : list Z := merge_sort Z.le (elements (dom m)).

Definition key_range {A} (m : gmap Z A) (lo hi : Z) : option (list Z) :=
  if existsb (fun k => (hi <? k) && (k <? lo)) (sorted_keys m) then None
  else Some (List.filter (fun k => (lo <=? k) && (k <=? hi)) (sorted_keys m)).

Definition erase_keys {A} (ks : list Z) (m : gmap Z A) : gmap Z A := foldl (fun m k => delete k m) m ks.

(** Run a fallible step over a list. *)
Fixpoint each {A S} (f : A -> S -> option S) (l : list A) (s : S) : option S :=
  match l with
  | [] => Some s
  | x :: l => s ← f x s; each f l s
  end.

(** The pages of [[Start, Start + Length)], as the code computes the first and the last. *)
Definition first_page (Start : Z) : Z := Start >>> 12.
Definition last_page (Start Length : Z) : Z := u64 (u64 (Start + Length) - 1) >>> 12.

Module Entry.
Record BlockEntry := mkBlockEntry {
  HostCode : Z;
  BlockBegin : Z;
  CodePages : list Z;
  GuestRangeStart : Z;
  GuestRangeLength : Z;
  GuestHash : Z;
  BranchImmSites : list SMC4.BranchImmSite;
  ExitRIPSites : list SMC4.ExitRIPSite;
  MovImmSites : list SMC4.MovImmSite;
  MovImmWindows : list SMC4.MovImmWindow;
}.
End Entry.
Abbreviation BlockEntry := Entry.BlockEntry.

Module GuestToHostMap.

Definition BlockLinkInvalid : Z := u64 (-1).

Record BlockLinkNode := mkNode { HostLink : Z; Delinker : Z; Next : Z }.

Record Map := mkMap {
  BlockLinkPool : list BlockLinkNode;
  BlockLinkFreeHead : Z;
  BlockLinks : gmap Z Z;
  BlockList : gmap Z BlockEntry;
  CodePages : gmap Z (list Z);
  CodePagesMemoIndex : Z;
  CodePagesMemoEntry : option Z;  (** the key of the node it points to *)
  RetainedBlocks : gmap Z BlockEntry;
  RetainedCodePages : gmap Z (gset Z);
  CodeGranules : CodeGranuleBitmap.Bitmap;
  Delinked : list (Z * Z);        (** calls of a delinker with its link, oldest first *)
}.

Definition set_links pool free links log m := mkMap pool free links (BlockList m) (CodePages m) (CodePagesMemoIndex m)
  (CodePagesMemoEntry m) (RetainedBlocks m) (RetainedCodePages m) (CodeGranules m) log.
Definition set_BlockList l m := mkMap (BlockLinkPool m) (BlockLinkFreeHead m) (BlockLinks m) l (CodePages m) (CodePagesMemoIndex m)
  (CodePagesMemoEntry m) (RetainedBlocks m) (RetainedCodePages m) (CodeGranules m) (Delinked m).
Definition set_CodePages p m := mkMap (BlockLinkPool m) (BlockLinkFreeHead m) (BlockLinks m) (BlockList m) p (CodePagesMemoIndex m)
  (CodePagesMemoEntry m) (RetainedBlocks m) (RetainedCodePages m) (CodeGranules m) (Delinked m).
Definition set_memo i e m := mkMap (BlockLinkPool m) (BlockLinkFreeHead m) (BlockLinks m) (BlockList m) (CodePages m) i
  e (RetainedBlocks m) (RetainedCodePages m) (CodeGranules m) (Delinked m).
Definition set_Retained b p m := mkMap (BlockLinkPool m) (BlockLinkFreeHead m) (BlockLinks m) (BlockList m) (CodePages m) (CodePagesMemoIndex m)
  (CodePagesMemoEntry m) b p (CodeGranules m) (Delinked m).
Definition set_CodeGranules g m := mkMap (BlockLinkPool m) (BlockLinkFreeHead m) (BlockLinks m) (BlockList m) (CodePages m) (CodePagesMemoIndex m)
  (CodePagesMemoEntry m) (RetainedBlocks m) (RetainedCodePages m) g (Delinked m).

Definition InvalidateCodePagesMemo (m : Map) : Map := set_memo (u64 (-1)) None m.

Section operations.
  Context (alloc : nat -> bool).

(** The constructor; [tracking] is [SMC::CodeGranuleTrackingEnabled]. *)
Definition new_map (tracking : bool) : Map :=
  mkMap [] BlockLinkInvalid ∅ ∅ ∅ (u64 (-1)) None ∅ ∅
    (if tracking then CodeGranuleBitmap.Enable alloc CodeGranuleBitmap.empty_bitmap else CodeGranuleBitmap.empty_bitmap) [].

Definition AddBlockMapping (Address : Z) (e : BlockEntry) (m : Map) : Map := set_BlockList (<[Address := e]> (BlockList m)) m.

Definition FindBlock (m : Map) (Address : Z) : option BlockEntry := BlockList m !! Address.

(** *** Block links *)

Definition pool_at (pool : list BlockLinkNode) (Index : Z) : option BlockLinkNode :=
  if (0 <=? Index) then pool !! Z.to_nat Index else None.

(** The loop of [SeverLinks]: the last node of the chain and the calls made. *)
Fixpoint sever_walk (fuel : nat) (pool : list BlockLinkNode) (Index Tail : Z) (log : list (Z * Z)) : option (Z * list (Z * Z)) :=
  if Index =? BlockLinkInvalid then Some (Tail, log)
  else match fuel with
  | O => None
  | S n =>
      Node ← pool_at pool Index;
      sever_walk n pool (Next Node) Index (log ++ [(Delinker Node, HostLink Node)])
  end.

Definition SeverLinks (Address : Z) (m : Map) : option (Z * Map) :=
  match BlockLinks m !! Address with
  | None => Some (0, m)
  | Some Head =>
      let pool := BlockLinkPool m in
      '(Tail, log) ← sever_walk (length pool) pool Head BlockLinkInvalid [];
      '(pool, free) ←
        (if negb (Tail =? BlockLinkInvalid) then
           Node ← pool_at pool Tail;
           Some (<[Z.to_nat Tail := mkNode (HostLink Node) (Delinker Node) (BlockLinkFreeHead m)]> pool, Head)
         else Some (pool, BlockLinkFreeHead m));
      Some (Z.of_nat (length log), set_links pool free (delete Address (BlockLinks m)) (Delinked m ++ log) m)
  end.

(** The scan for a registered [HostLink]: whether the chain has it. *)
Fixpoint find_link (fuel : nat) (pool : list BlockLinkNode) (Index Link : Z) : option bool :=
  if Index =? BlockLinkInvalid then Some false
  else match fuel with
  | O => None
  | S n =>
      Node ← pool_at pool Index;
      if HostLink Node =? Link then Some true else find_link n pool (Next Node) Link
  end.

(** A node for a new link: the first of the free list, or a new one at the end of the pool. *)
Definition place_node (n : BlockLinkNode) (m : Map) : option (Z * list BlockLinkNode * Z) :=
  let pool := BlockLinkPool m in
  if negb (BlockLinkFreeHead m =? BlockLinkInvalid) then
    let NewIndex := BlockLinkFreeHead m in
    Node ← pool_at pool NewIndex;
    Some (NewIndex, <[Z.to_nat NewIndex := n]> pool, Next Node)
  else Some (Z.of_nat (length pool), pool ++ [n], BlockLinkFreeHead m).

Definition AddBlockLink (GuestDestination Link delinker : Z) (m : Map) : option Map :=
  let '(head, Inserted) :=
    match BlockLinks m !! GuestDestination with
    | Some h => (h, false)
    | None => (BlockLinkInvalid, true)
    end in
  known ← (if negb Inserted then find_link (length (BlockLinkPool m)) (BlockLinkPool m) head Link else Some false);
  if (known : bool) then Some m
  else
    '(NewIndex, pool, free) ← place_node (mkNode Link delinker head) m;
    Some (set_links pool free (<[GuestDestination := NewIndex]> (BlockLinks m)) (Delinked m) m).

Definition Erase (Address : Z) (m : Map) : option (bool * Map) :=
  '(_, m) ← SeverLinks Address m;
  Some (bool_decide (is_Some (BlockList m !! Address)), set_BlockList (delete Address (BlockList m)) m).

(** *** Soft invalidation *)

(** The loops that take an address out of the index of retained blocks. *)
Definition unindex_page (Address Page : Z) (idx : gmap Z (gset Z)) : gmap Z (gset Z) :=
  match idx !! (Page >>> 12) with
  | None => idx
  | Some s =>
      let s := s ∖ {[Address]} in
      if decide (s = ∅) then delete (Page >>> 12) idx else <[Page >>> 12 := s]> idx
  end.
Definition unindex (Address : Z) (Pages : list Z) (idx : gmap Z (gset Z)) : gmap Z (gset Z) :=
  foldl (fun idx Page => unindex_page Address Page idx) idx Pages.
Definition index_page (Address Page : Z) (idx : gmap Z (gset Z)) : gmap Z (gset Z) :=
  <[Page >>> 12 := default ∅ (idx !! (Page >>> 12)) ∪ {[Address]}]> idx.

Definition DropRetainedBlockLocked (Address : Z) (m : Map) : Map :=
  match RetainedBlocks m !! Address with
  | None => m
  | Some e =>
      set_Retained (delete Address (RetainedBlocks m)) (unindex Address (Entry.CodePages e) (RetainedCodePages m)) m
  end.

Definition SoftEraseBlock (Address : Z) (m : Map) : option Map :=
  match BlockList m !! Address with
  | None => Some m
  | Some e =>
      '(_, m) ← SeverLinks Address m;
      if (Entry.GuestRangeLength e =? 0) || bool_decide (Entry.CodePages e = []) then
        Some (set_BlockList (delete Address (BlockList m)) m)
      else
        let m := DropRetainedBlockLocked Address m in
        let idx := foldl (fun idx Page => index_page Address Page idx) (RetainedCodePages m) (Entry.CodePages e) in
        let m := set_Retained (<[Address := e]> (RetainedBlocks m)) idx m in
        Some (set_BlockList (delete Address (BlockList m)) m)
  end.

(** The blocks of the pages in the range, in the order of the pages; a hash set is visited in
    the order of [elements]. *)
Definition DropRetainedRange (Start Length : Z) (m : Map) : option Map :=
  if decide (RetainedCodePages m = ∅) then Some m
  else
    ks ← key_range (RetainedCodePages m) (first_page Start) (last_page Start Length);
    let Doomed := ks ≫= fun k => elements (default ∅ (RetainedCodePages m !! k)) in
    Some (foldl (fun m Address => DropRetainedBlockLocked Address m) m Doomed).

Definition TakeRetainedBlock (Address : Z) (m : Map) : option BlockEntry * Map :=
  match RetainedBlocks m !! Address with
  | None => (None, m)
  | Some Out =>
      (Some Out, set_Retained (delete Address (RetainedBlocks m)) (unindex Address (Entry.CodePages Out) (RetainedCodePages m)) m)
  end.

Definition clear_granules (Page : Z) (m : Map) : Map :=
  if CodeGranuleBitmap.Enabled (CodeGranules m)
  then set_CodeGranules (CodeGranuleBitmap.ClearPage (u64 (Page <<< 12)) (CodeGranules m)) m else m.

Definition SoftInvalidateRange (Start Length : Z) (m : Map) : option Map :=
  ks ← key_range (CodePages m) (first_page Start) (last_page Start Length);
  m ← each (fun k m => m ← each SoftEraseBlock (default [] (CodePages m !! k)) m; Some (clear_granules k m)) ks m;
  Some (InvalidateCodePagesMemo (set_CodePages (erase_keys ks (CodePages m)) m)).

Definition InvalidateRange (Start Length : Z) (m : Map) : option Map :=
  ks ← key_range (CodePages m) (first_page Start) (last_page Start Length);
  m ← each (fun k m => m ← each (fun Entry m => snd <$> Erase Entry m) (default [] (CodePages m !! k)) m; Some (clear_granules k m)) ks m;
  DropRetainedRange Start Length (InvalidateCodePagesMemo (set_CodePages (erase_keys ks (CodePages m)) m)).

(** *** Registration of code pages *)

(** The node of a page in [CodePages], through the memo. *)
Definition page_node (CurrentPage : Z) (m : Map) : option Z * Map :=
  if CurrentPage =? CodePagesMemoIndex m then (CodePagesMemoEntry m, m)
  else
    let m := match CodePages m !! CurrentPage with
             | Some _ => m
             | None => set_CodePages (<[CurrentPage := []]> (CodePages m)) m
             end in
    (Some CurrentPage, set_memo CurrentPage (Some CurrentPage) m).

Definition set_granules (CurrentPage GuestRangeStart GuestRangeLength : Z) (m : Map) : Map :=
  if CodeGranuleBitmap.Enabled (CodeGranules m)
  then set_CodeGranules (CodeGranuleBitmap.SetPageRange alloc (u64 (CurrentPage <<< 12)) GuestRangeStart GuestRangeLength (CodeGranules m)) m
  else m.

(** One turn of the loop of [AddBlockExecutableRange]. *)
Definition add_code_page (Addresses : list Z) (GuestRangeStart GuestRangeLength CurrentPage : Z) (s : bool * Map) : option (bool * Map) :=
  let '(rv, m) := s in
  let '(CodePage, m) := page_node CurrentPage m in
  node ← CodePage;
  v ← CodePages m !! node;
  let rv := rv || bool_decide (v = []) in
  Some (rv, set_granules CurrentPage GuestRangeStart GuestRangeLength (set_CodePages (<[node := v ++ Addresses]> (CodePages m)) m)).

Definition AddBlockExecutableRange (Addresses : list Z) (Start Length GuestRangeStart GuestRangeLength : Z) (m : Map) : option (bool * Map) :=
  each (add_code_page Addresses GuestRangeStart GuestRangeLength)
    (seqZ (first_page Start) (last_page Start Length - first_page Start + 1)) (false, m).

Definition ClearCache (m : Map) : Map :=
  InvalidateCodePagesMemo
    (mkMap [] BlockLinkInvalid ∅ ∅ (CodePages m) (CodePagesMemoIndex m) (CodePagesMemoEntry m) ∅ ∅
       (CodeGranuleBitmap.ClearAll (CodeGranules m)) (Delinked m)).

End operations.

(** *** The authoritative overlap query

    The tail of a block in the code buffer: its guest RIP and the size of the guest code. *)
Section overlap.
  Context (tail : Z -> Z * Z).

Definition BlockTranslatedRange (e : BlockEntry) (Start End : Z) : bool :=
  let '(RIP, GuestSize) := tail (Entry.BlockBegin e) in
  if GuestSize =? 0 then true else (RIP <? End) && (Start <? u64 (RIP + GuestSize)).

Definition RangeOverlapsCompiledCode (m : Map) (Start Length : Z) : option bool :=
  let End := u64 (Start + Length) in
  ks ← key_range (CodePages m) (first_page Start) (u64 (End - 1) >>> 12);
  Some (existsb (fun k =>
    existsb (fun EntryAddr =>
      match BlockList m !! EntryAddr with
      | None => false
      | Some Block => BlockTranslatedRange Block Start End
      end) (default [] (CodePages m !! k))) ks).

End overlap.

End GuestToHostMap.
