(* ===== verification/ThreadCache.v ===== *)
(** * The lookup cache of a thread (FEXCore/Source/Interface/Core/LookupCache.h, LookupCache.cpp)

    In front of the shared [GuestToHostMap] each thread has two tables from guest addresses to
    host code: the direct-mapped L1, whose size may change at run time, and the L2, a table of
    page pointers into a pool of entry pages.  The three regions lie behind each other in one
    reservation; an access outside of its region gives [None].  Memory that was never written
    or that was given back with MADV_DONTNEED reads as zero.  Time, the comparison of the hit
    rate with the configured heuristics, and the base address of the reservation are
    parameters. *)

From S2P Require Import Prelude CodeGranules SemanticPatch LookupCache.

Module LookupCache.

Definition sizeof_LookupCacheEntry : Z := 16.
Definition MIN_L1_ENTRIES : Z := 8 * 1024.
Definition MAX_L1_ENTRIES : Z := 1 * 1024 * 1024.
Definition CODE_SIZE : Z := 128 * 1024 * 1024.
Definition SIZE_PER_PAGE : Z := 4096 * sizeof_LookupCacheEntry.
Definition MAX_L1_SIZE : Z := MAX_L1_ENTRIES * sizeof_LookupCacheEntry.
Definition SamplePeriod : Z := 1000000000.

(** [LookupCacheEntry]: host code and guest address. *)
Abbreviation LookupCacheEntry := (Z * Z)%type.

(** Where the average number of L2 and L3 hits per second lies. *)
Inductive Rate := Increase | Keep | Decrease.

Record Config := mkConfig {
  VirtualMemSize : Z;
  PagePointer : Z;    (** base of the reservation *)
  ThpAlign : Z;
  DynamicL1Cache : bool;
  DisableL2Cache : bool;
  average : Z -> Z -> Rate;  (** of the hits and the length of the period *)
}.

Record Cache := mkCache {
  Shared : nat;                      (** the code buffer whose map is in use *)
  Pointers : gmap Z Z;               (** the page-pointer table *)
  Pages : gmap Z LookupCacheEntry;   (** the entry pool, by address *)
  L1 : gmap Z LookupCacheEntry;
  L1PointerMask : Z;
  AllocateOffset : Z;
  CurrentL1Entries : Z;
  L2L3CacheHits : Z;
  LastPeriod : Z;
  CachedCodePages : gmap Z (gset Z);
  CachedCodePagesMemoIndex : Z;
  CachedCodePagesMemoEntry : option Z;
  LazySMCDrainPending : bool;
  State_L1Mask : Z;                  (** the mask in the thread's CPU state, used by emitted code *)
}.

Definition set_L2 ps es off c := mkCache (Shared c) ps es (L1 c) (L1PointerMask c) off (CurrentL1Entries c) (L2L3CacheHits c)
  (LastPeriod c) (CachedCodePages c) (CachedCodePagesMemoIndex c) (CachedCodePagesMemoEntry c) (LazySMCDrainPending c) (State_L1Mask c).
Definition set_L1 l c := mkCache (Shared c) (Pointers c) (Pages c) l (L1PointerMask c) (AllocateOffset c) (CurrentL1Entries c) (L2L3CacheHits c)
  (LastPeriod c) (CachedCodePages c) (CachedCodePagesMemoIndex c) (CachedCodePagesMemoEntry c) (LazySMCDrainPending c) (State_L1Mask c).
Definition set_mask n msk fm c := mkCache (Shared c) (Pointers c) (Pages c) (L1 c) msk (AllocateOffset c) n (L2L3CacheHits c)
  (LastPeriod c) (CachedCodePages c) (CachedCodePagesMemoIndex c) (CachedCodePagesMemoEntry c) (LazySMCDrainPending c) fm.
Definition set_stats h p c := mkCache (Shared c) (Pointers c) (Pages c) (L1 c) (L1PointerMask c) (AllocateOffset c) (CurrentL1Entries c) h
  p (CachedCodePages c) (CachedCodePagesMemoIndex c) (CachedCodePagesMemoEntry c) (LazySMCDrainPending c) (State_L1Mask c).
Definition set_cached cp i e c := mkCache (Shared c) (Pointers c) (Pages c) (L1 c) (L1PointerMask c) (AllocateOffset c) (CurrentL1Entries c) (L2L3CacheHits c)
  (LastPeriod c) cp i e (LazySMCDrainPending c) (State_L1Mask c).
Definition set_drain b c := mkCache (Shared c) (Pointers c) (Pages c) (L1 c) (L1PointerMask c) (AllocateOffset c) (CurrentL1Entries c) (L2L3CacheHits c)
  (LastPeriod c) (CachedCodePages c) (CachedCodePagesMemoIndex c) (CachedCodePagesMemoEntry c) b (State_L1Mask c).
Definition set_Shared n c := mkCache n (Pointers c) (Pages c) (L1 c) (L1PointerMask c) (AllocateOffset c) (CurrentL1Entries c) (L2L3CacheHits c)
  (LastPeriod c) (CachedCodePages c) (CachedCodePagesMemoIndex c) (CachedCodePagesMemoEntry c) (LazySMCDrainPending c) (State_L1Mask c).

Definition scaled_mask (mask : Z) : Z := u64 (mask <<< 4).
Definition GetScaledL1PointerMask (c : Cache) : Z := scaled_mask (L1PointerMask c).

Section cache.
  Context (cfg : Config).

(** *** The reservation *)

Definition L2TableSize : Z := VirtualMemSize cfg / 4096 * 8.
Definition L2TableSpan : Z :=
  if negb (ThpAlign cfg =? 0) then (L2TableSize + ThpAlign cfg - 1) &&& u64 (Z.lnot (ThpAlign cfg - 1)) else L2TableSize.
Definition TotalCacheSize : Z := L2TableSpan + CODE_SIZE + MAX_L1_SIZE.
Definition PageMemory : Z := PagePointer cfg + L2TableSpan.
Definition L1Pointer : Z := PageMemory + CODE_SIZE.

(** The constructor, and the mask the new thread's CPU state gets. *)
Definition new_cache (buffer : nat) : Cache :=
  let mask := if DynamicL1Cache cfg then MIN_L1_ENTRIES - 1 else MAX_L1_ENTRIES - 1 in
  mkCache buffer ∅ ∅ ∅ mask 0 MIN_L1_ENTRIES 0 0 ∅ (u64 (-1)) None false (scaled_mask mask).

(** Accesses, by index into the table of page pointers, by address into the pool, and by index
    into the L1. *)
Definition pointer_at (c : Cache) (i : Z) : option Z :=
  if (0 <=? i) && ((i + 1) * 8 <=? L2TableSpan) then Some (default 0 (Pointers c !! i)) else None.
Definition in_pool (a : Z) : bool := (PageMemory <=? a) && (a + sizeof_LookupCacheEntry <=? PageMemory + CODE_SIZE).
Definition entry_addr (LocalPagePointer PageOffset : Z) : Z := u64 (LocalPagePointer + PageOffset * sizeof_LookupCacheEntry).
Definition entry_at (c : Cache) (a : Z) : option LookupCacheEntry :=
  if in_pool a then Some (default (0, 0) (Pages c !! a)) else None.
Definition l1_at (c : Cache) (i : Z) : option LookupCacheEntry :=
  if (0 <=? i) && ((i + 1) * sizeof_LookupCacheEntry <=? MAX_L1_SIZE) then Some (default (0, 0) (L1 c !! i)) else None.

Definition put_l1 (i : Z) (e : LookupCacheEntry) (c : Cache) : Cache := set_L1 (<[i := e]> (L1 c)) c.
Definition put_entry (a : Z) (e : LookupCacheEntry) (c : Cache) : Cache := set_L2 (Pointers c) (<[a := e]> (Pages c)) (AllocateOffset c) c.

Definition l1_index (c : Cache) (Address : Z) : Z := Address &&& L1PointerMask c.

(** *** Clearing *)

Definition InvalidateCachedCodePagesMemo (c : Cache) : Cache := set_cached (CachedCodePages c) (u64 (-1)) None c.

Definition ClearL2Cache (c : Cache) : Cache := set_L2 ∅ ∅ 0 c.

(** The offset of the pool's next free page is not reset here. *)
Definition ClearThreadLocalCaches (c : Cache) : Cache :=
  InvalidateCachedCodePagesMemo (set_cached ∅ (CachedCodePagesMemoIndex c) (CachedCodePagesMemoEntry c) (set_L1 ∅ (set_L2 ∅ ∅ (AllocateOffset c) c))).

Definition ChangeGuestToHostMapping (NewMap : nat) (c : Cache) : Cache := set_Shared NewMap (ClearThreadLocalCaches c).

Definition ScrubForLazySMC (c : Cache) : Cache := set_L1 ∅ (set_drain true c).
Definition ArmLazySMCDrainPending (c : Cache) : Cache := set_drain true c.
Definition TakeLazySMCDrainPending (c : Cache) : bool * Cache :=
  if negb (LazySMCDrainPending c) then (false, c) else (true, set_drain false c).

(** *** Filling *)

Definition AllocateBackingForPage (c : Cache) : Z * Cache :=
  let NewBase := AllocateOffset c in
  let NewEnd := AllocateOffset c + SIZE_PER_PAGE in
  if CODE_SIZE <=? NewEnd then (0, c) else (PageMemory + NewBase, set_L2 (Pointers c) (Pages c) NewEnd c).

(** The loop over the code pages with its one-entry memo. *)
Definition note_code_page (Address CodePage : Z) (c : Cache) : option Cache :=
  let PageIndex := CodePage >>> 12 in
  let c :=
    if negb (PageIndex =? CachedCodePagesMemoIndex c) then
      set_cached (<[PageIndex := default ∅ (CachedCodePages c !! PageIndex)]> (CachedCodePages c)) PageIndex (Some PageIndex) c
    else c in
  node ← CachedCodePagesMemoEntry c;
  s ← CachedCodePages c !! node;
  Some (set_cached (<[node := s ∪ {[Address]}]> (CachedCodePages c)) (CachedCodePagesMemoIndex c) (CachedCodePagesMemoEntry c) c).

(** [fuel] bounds the retries after the pool ran out. *)
Fixpoint CacheBlockMapping (fuel : nat) (Address : Z) (Entry : BlockEntry) (L1Only : bool) (c : Cache) : option Cache :=
  match fuel with
  | O => None
  | S n =>
      c ← each (note_code_page Address) (Entry.CodePages Entry) c;
      _ ← l1_at c (l1_index c Address);
      let c := put_l1 (l1_index c Address) (Entry.HostCode Entry, Address) c in
      if negb (DisableL2Cache cfg) && negb L1Only then
        let FullAddress := Address in
        let Masked := Address &&& (VirtualMemSize cfg - 1) in
        let PageOffset := Masked &&& 0xFFF in
        let Index := Masked >>> 12 in
        LocalPagePointer ← pointer_at c Index;
        if LocalPagePointer =? 0 then
          let '(NewPageBacking, c) := AllocateBackingForPage c in
          if NewPageBacking =? 0 then CacheBlockMapping n FullAddress Entry false (ClearL2Cache c)
          else
            let c := set_L2 (<[Index := NewPageBacking]> (Pointers c)) (Pages c) (AllocateOffset c) c in
            _ ← entry_at c (entry_addr NewPageBacking PageOffset);
            Some (put_entry (entry_addr NewPageBacking PageOffset) (Entry.HostCode Entry, FullAddress) c)
        else
          _ ← entry_at c (entry_addr LocalPagePointer PageOffset);
          Some (put_entry (entry_addr LocalPagePointer PageOffset) (Entry.HostCode Entry, FullAddress) c)
      else Some c
  end.

(** A second try after clearing the L2 always finds a free page. *)
Definition retries : nat := 2.

(** *** The dynamic size of the L1 *)

Definition FlushWholeL1 (c : Cache) : Cache := set_L1 ∅ c.

Definition resize (n : Z) (c : Cache) : Cache := FlushWholeL1 (set_mask n (n - 1) (scaled_mask (n - 1)) c).

Definition UpdateDynamicL1Stats (now : Z) (c : Cache) : Cache :=
  let c := set_stats (u64 (L2L3CacheHits c + 1)) (LastPeriod c) c in
  let Period := now - LastPeriod c in
  if SamplePeriod <=? Period then
    let c :=
      match average cfg (L2L3CacheHits c) Period with
      | Increase => if CurrentL1Entries c <? MAX_L1_ENTRIES then resize (CurrentL1Entries c <<< 1) c else c
      | Decrease => if MIN_L1_ENTRIES <? CurrentL1Entries c then resize (CurrentL1Entries c >>> 1) c else c
      | Keep => c
      end in
    set_stats 0 now c
  else c.

(** *** Lookup *)

(** The probe of the L2: a hit is copied to the L1. *)
Definition probe_L2 (Address : Z) (c : Cache) : option (Z * Cache) :=
  if negb (DisableL2Cache cfg) then
    let PageIndex := (Address &&& (VirtualMemSize cfg - 1)) >>> 12 in
    let PageOffset := Address &&& 0x0FFF in
    LocalPagePointer ← pointer_at c PageIndex;
    if negb (LocalPagePointer =? 0) then
      Block ← entry_at c (entry_addr LocalPagePointer PageOffset);
      if Block.2 =? Address then Some (Block.1, put_l1 (l1_index c Address) (Block.1, Address) c) else Some (0, c)
    else Some (0, c)
  else Some (0, c).

Definition FindBlock (now : Z) (m : GuestToHostMap.Map) (Address : Z) (c : Cache) : option (Z * Cache) :=
  L1Entry ← l1_at c (l1_index c Address);
  if L1Entry.2 =? Address then Some (L1Entry.1, c)
  else
    '(HostPtr, c) ← probe_L2 Address c;
    '(HostPtr, c) ←
      (if HostPtr =? 0 then
         match GuestToHostMap.FindBlock m Address with
         | Some Entry => c ← CacheBlockMapping retries Address Entry false c; Some (Entry.HostCode Entry, c)
         | None => Some (0, c)
         end
       else Some (HostPtr, c));
    Some (HostPtr, if negb (HostPtr =? 0) && DynamicL1Cache cfg then UpdateDynamicL1Stats now c else c).

Definition AddBlockMapping (Address : Z) (e : BlockEntry) (m : GuestToHostMap.Map) (c : Cache) : option (GuestToHostMap.Map * Cache) :=
  let m := GuestToHostMap.AddBlockMapping Address e m in
  c ← CacheBlockMapping retries Address e true c;
  Some (m, c).

(** *** Invalidation *)

Definition InvalidateCache (Address : Z) (c : Cache) : option Cache :=
  L1Entry ← l1_at c (l1_index c Address);
  let c := if L1Entry.2 =? Address then put_l1 (l1_index c Address) (L1Entry.1, 0) c else c in
  if negb (DisableL2Cache cfg) then
    let Masked := Address &&& (VirtualMemSize cfg - 1) in
    let PageOffset := Masked &&& 0x0FFF in
    LocalPagePointer ← pointer_at c (Masked >>> 12);
    if LocalPagePointer =? 0 then Some c
    else
      _ ← entry_at c (entry_addr LocalPagePointer PageOffset);
      Some (put_entry (entry_addr LocalPagePointer PageOffset) (0, 0) c)
  else Some c.

Definition InvalidateCacheRange (Start Length : Z) (c : Cache) : option (bool * Cache) :=
  ks ← key_range (CachedCodePages c) (first_page Start) (last_page Start Length);
  c ← each (fun k c => each InvalidateCache (elements (default ∅ (CachedCodePages c !! k))) c) ks c;
  Some (negb (bool_decide (ks = [])),
        InvalidateCachedCodePagesMemo (set_cached (erase_keys ks (CachedCodePages c)) (CachedCodePagesMemoIndex c) (CachedCodePagesMemoEntry c) c)).

(** *** The query of the store fast paths *)

Definition RangeOverlapsCompiledCode (tail : Z -> Z * Z) (m : GuestToHostMap.Map) (Start Length : Z) : option bool :=
  if CodeGranuleBitmap.ProvablyClear (GuestToHostMap.CodeGranules m) Start Length then Some false
  else GuestToHostMap.RangeOverlapsCompiledCode tail m Start Length.

Definition ClearCache (m : GuestToHostMap.Map) (c : Cache) : GuestToHostMap.Map * Cache :=
  (GuestToHostMap.ClearCache m, ClearThreadLocalCaches c).

End cache.

End LookupCache.
