(* ===== verification/LookupLinks.v ===== *)
(** * Block links: the pool of nodes refines a map of lists

    Each destination has its chain of nodes, the free nodes form one more chain, and the chains
    partition the pool.  Under that invariant [AddBlockLink] and [SeverLinks] act on the map
    from destinations to lists of links, and never leave the pool. *)

From S2P Require Import Prelude CodeGranules SemanticPatch LookupCache.
Import GuestToHostMap.

(** The indices of the nodes from [h] to the end. *)
Fixpoint chain (pool : list BlockLinkNode) (h : Z) (l : list nat) : Prop :=
  match l with
  | [] => h = BlockLinkInvalid
  | i :: l => h = Z.of_nat i /\ exists n, pool !! i = Some n /\ chain pool (Next n) l
  end.

(** The links a chain of nodes holds. *)
Definition link_of (n : BlockLinkNode) : Z * Z := (Delinker n, HostLink n).
Definition links_at (pool : list BlockLinkNode) (l : list nat) : list (Z * Z) := link_of <$> omap (fun i => pool !! i) l.

Definition in_chains (cs : gmap Z (list nat)) : list nat := map_to_list cs ≫= snd.

(** The pool represents the links [L]. *)
Record links_rep (pool : list BlockLinkNode) (free : Z) (heads : gmap Z Z) (L : gmap Z (list (Z * Z))) (F : list nat)
    (cs : gmap Z (list nat)) : Prop := {
  lr_free : chain pool free F;
  lr_heads : forall d h, heads !! d = Some h -> exists l, cs !! d = Some l /\ l <> [] /\ chain pool h l;
  lr_dom : forall d, cs !! d = None <-> heads !! d = None;
  lr_links : forall d, L !! d = links_at pool <$> cs !! d;
  lr_part : F ++ in_chains cs ≡ₚ seq 0 (length pool);
}.

Definition links_ok (m : Map) (L : gmap Z (list (Z * Z))) : Prop :=
  Z.of_nat (length (BlockLinkPool m)) < BlockLinkInvalid /\
  exists F cs, links_rep (BlockLinkPool m) (BlockLinkFreeHead m) (BlockLinks m) L F cs.

(** ** Chains *)

Lemma invalid_eq : BlockLinkInvalid = 2 ^ 64 - 1.
Proof. done. Qed.

Lemma chain_in pool h l i : chain pool h l -> i ∈ l -> is_Some (pool !! i).
Proof.
  revert h. induction l as [|j l IH]; intros h; cbn; [by intros _ ?%elem_of_nil|].
  intros (_ & n & Hn & Hc) [->|Hi]%elem_of_cons; eauto.
Qed.

(** A chain only depends on the nodes it goes through. *)
Lemma chain_ext pool pool' h l : (forall i, i ∈ l -> pool' !! i = pool !! i) -> chain pool h l -> chain pool' h l.
Proof.
  revert h. induction l as [|j l IH]; intros h Hp; cbn; [done|]. intros (-> & n & Hn & Hc). split; [done|].
  exists n. split; [rewrite Hp; [done|left]|]. apply IH; [|done]. intros i Hi. apply Hp. by right.
Qed.

Lemma links_at_ext pool pool' l :
  (forall i, i ∈ l -> link_of <$> pool' !! i = link_of <$> pool !! i) -> links_at pool' l = links_at pool l.
Proof.
  unfold links_at. induction l as [|j l IH]; intros Hp; cbn; [done|].
  pose proof (Hp j ltac:(left)) as Hj.
  assert (link_of <$> omap (fun i => pool' !! i) l = link_of <$> omap (fun i => pool !! i) l) as Hl
    by (apply IH; intros; apply Hp; by right).
  destruct (pool !! j), (pool' !! j); cbn in *; try done; rewrite ?Hl; congruence.
Qed.

(** Splicing [F] behind the last node of a chain. *)
Lemma chain_splice pool h l t f F n :
  chain pool h (l ++ [t]) -> NoDup (l ++ [t]) -> pool !! t = Some n -> chain pool f F -> (forall i, i ∈ F -> i ∉ l ++ [t]) ->
  chain (<[t := mkNode (HostLink n) (Delinker n) f]> pool) h (l ++ [t] ++ F).
Proof.
  intros Hc Hnd Ht HF Hdis. assert (t < length pool)%nat as Hlt by (by apply lookup_lt_Some in Ht).
  revert h Hc Hnd Hdis. induction l as [|j l IH]; intros h Hc Hnd Hdis; cbn in *.
  - destruct Hc as (-> & _). split; [done|]. eexists. split; [by apply list_lookup_insert_eq|]. cbn.
    apply (chain_ext pool); [|done]. intros i Hi. apply list_lookup_insert_ne. intros ->. by apply (Hdis i Hi), list_elem_of_singleton.
  - destruct Hc as (-> & nj & Hj & Hc). apply NoDup_cons in Hnd as [Hjl Hnd]. split; [done|]. exists nj. split.
    + rewrite list_lookup_insert_ne; [done|]. intros ->. apply Hjl. apply elem_of_app. right. by apply list_elem_of_singleton.
    + apply IH; [done|done|]. intros i Hi Hin. by apply (Hdis i Hi), elem_of_cons; right.
Qed.

(** ** The walks *)

Lemma pool_at_nat pool i : pool_at pool (Z.of_nat i) = pool !! i.
Proof. unfold pool_at. rewrite (proj2 (Z.leb_le _ _)) by lia. by rewrite Nat2Z.id. Qed.

Lemma sever_walk_spec pool l h t0 log fuel : Z.of_nat (length pool) < BlockLinkInvalid -> chain pool h l -> (length l <= fuel)%nat ->
  sever_walk fuel pool h t0 log = Some (default t0 (Z.of_nat <$> last l), log ++ links_at pool l).
Proof.
  intros Hlen. revert h t0 log fuel. induction l as [|i l IH]; intros h t0 log fuel Hc Hf; cbn in Hc.
  - rewrite Hc. destruct fuel; cbn; by rewrite app_nil_r.
  - destruct Hc as (-> & n & Hn & Hc). destruct fuel as [|fuel]; [cbn in Hf; lia|].
    pose proof (lookup_lt_Some _ _ _ Hn). cbn [sever_walk]. rewrite (proj2 (Z.eqb_neq _ _)) by lia.
    rewrite pool_at_nat, Hn. cbn [mbind option_bind]. rewrite (IH (Next n)) by (done || cbn in Hf; lia).
    rewrite last_cons. f_equal. f_equal; [by destruct (last l)|]. unfold links_at. cbn. rewrite Hn. cbn.
    by rewrite <- app_assoc.
Qed.

Lemma find_link_spec pool l h Link fuel : Z.of_nat (length pool) < BlockLinkInvalid -> chain pool h l -> (length l <= fuel)%nat ->
  find_link fuel pool h Link = Some (bool_decide (Link ∈ (links_at pool l).*2)).
Proof.
  intros Hlen. revert h fuel. induction l as [|i l IH]; intros h fuel Hc Hf; cbn in Hc.
  - rewrite Hc. by destruct fuel.
  - destruct Hc as (-> & n & Hn & Hc). destruct fuel as [|fuel]; [cbn in Hf; lia|].
    pose proof (lookup_lt_Some _ _ _ Hn). cbn [find_link]. rewrite (proj2 (Z.eqb_neq _ _)) by lia.
    rewrite pool_at_nat, Hn. cbn [mbind option_bind]. unfold links_at at 1. cbn. rewrite Hn. cbn.
    destruct (Z.eqb_spec (HostLink n) Link) as [->|Hne].
    + by rewrite bool_decide_true by set_solver.
    + rewrite (IH (Next n)) by (done || cbn in Hf; lia). f_equal. apply bool_decide_ext. unfold links_at. set_solver.
Qed.

(** ** The partition *)

Lemma part_NoDup pool free heads L F cs : links_rep pool free heads L F cs -> NoDup (F ++ in_chains cs).
Proof. intros H. rewrite (lr_part _ _ _ _ _ _ H). apply NoDup_seq. Qed.

Lemma in_chains_delete cs d l : cs !! d = Some l -> in_chains cs ≡ₚ l ++ in_chains (delete d cs).
Proof. intros H. unfold in_chains. rewrite <- (map_to_list_delete cs d l H). by rewrite bind_cons. Qed.

Lemma in_chains_insert cs d l : cs !! d = None -> in_chains (<[d := l]> cs) ≡ₚ l ++ in_chains cs.
Proof. intros H. unfold in_chains. rewrite (map_to_list_insert cs d l H). by rewrite bind_cons. Qed.

(** The chain of [d], the free chain and another chain have no node in common. *)
Lemma part_disjoint pool free heads L F cs d l : links_rep pool free heads L F cs -> cs !! d = Some l ->
  NoDup l /\ NoDup F /\ (forall i, i ∈ F -> i ∉ l) /\ (length l + length F <= length pool)%nat /\
  forall d' l', d' <> d -> cs !! d' = Some l' -> forall i, i ∈ l' -> i ∉ l /\ i ∉ F.
Proof.
  intros H Hd. pose proof (part_NoDup _ _ _ _ _ _ H) as Hnd. pose proof (lr_part _ _ _ _ _ _ H) as Hp.
  pose proof (Permutation_length Hp) as Hlen. rewrite length_seq, length_app in Hlen.
  rewrite (in_chains_delete cs d l Hd) in Hnd, Hlen. rewrite length_app in Hlen.
  apply NoDup_app in Hnd as (HF & HFl & Hnd). apply NoDup_app in Hnd as (Hl & Hlr & _).
  split_and!; [done|done|set_solver|lia|]. intros d' l' Hne Hd' i Hi.
  assert (i ∈ in_chains (delete d cs)) as Hin.
  { unfold in_chains. apply list_elem_of_bind. exists (d', l'). split; [done|]. apply elem_of_map_to_list.
    by rewrite lookup_delete_ne by done. }
  set_solver.
Qed.

Lemma part_free_bound pool free heads L F cs : links_rep pool free heads L F cs ->
  forall d l, cs !! d = Some l -> forall i, i ∈ l -> (i < length pool)%nat.
Proof.
  intros H d l Hd i Hi. assert (i ∈ seq 0 (length pool)) as Hin; [|apply elem_of_seq in Hin; lia].
  rewrite <- (lr_part _ _ _ _ _ _ H). apply elem_of_app. right. rewrite (in_chains_delete cs d l Hd). set_solver.
Qed.

(** ** The operations *)

(** [m'] differs from [m] in the block links only. *)
Definition links_frame (m m' : Map) : Prop :=
  exists pool free heads log, m' = set_links pool free heads log m.

Lemma links_frame_refl m : links_frame m m.
Proof. exists (BlockLinkPool m), (BlockLinkFreeHead m), (BlockLinks m), (Delinked m). by destruct m. Qed.

Lemma links_at_splice pool l t n f : pool !! t = Some n ->
  links_at (<[t := mkNode (HostLink n) (Delinker n) f]> pool) l = links_at pool l.
Proof.
  intros Ht. apply links_at_ext. intros i _. destruct (decide (t = i)) as [<-|Hne].
  - rewrite list_lookup_insert_eq by (by apply lookup_lt_Some in Ht). by rewrite Ht.
  - by rewrite list_lookup_insert_ne.
Qed.

(** [SeverLinks] calls the delinker of every link of the destination, from the newest to the
    oldest, removes them all and keeps the others. *)
Lemma SeverLinks_spec m L a : links_ok m L ->
  exists m', SeverLinks a m = Some (Z.of_nat (length (default [] (L !! a))), m') /\ links_frame m m' /\
    links_ok m' (delete a L) /\ Delinked m' = Delinked m ++ default [] (L !! a) /\
    length (BlockLinkPool m') = length (BlockLinkPool m) /\ BlockLinks m' = delete a (BlockLinks m).
Proof.
  intros (Hlen & F & cs & H). unfold SeverLinks. destruct (BlockLinks m !! a) as [h|] eqn:Ha.
  2:{ assert (cs !! a = None) as Hc by (by apply (lr_dom _ _ _ _ _ _ H)).
      assert (L !! a = None) as HL by (by rewrite (lr_links _ _ _ _ _ _ H), Hc). rewrite HL. exists m.
      split_and!; [done|apply links_frame_refl| |by rewrite app_nil_r|done|by rewrite delete_id].
      rewrite delete_id by done. split; [done|]. by exists F, cs. }
  destruct (lr_heads _ _ _ _ _ _ H a h Ha) as (l & Hl & Hne & Hc). rewrite (lr_links _ _ _ _ _ _ H), Hl. cbn [fmap option_fmap option_map default].
  destruct (part_disjoint _ _ _ _ _ _ a l H Hl) as (Hnd & HndF & HFl & Hll & Hoth).
  rewrite (sever_walk_spec _ l) by (done || lia). cbn [app mbind option_bind].
  destruct (exists_last Hne) as (l0 & t & ->). rewrite last_snoc. cbn [default fmap option_fmap option_map]. unfold id.
  destruct (chain_in _ _ _ t Hc) as [n Hn]; [set_solver|]. pose proof (lookup_lt_Some _ _ _ Hn) as Hlt.
  rewrite (proj2 (Z.eqb_neq (Z.of_nat t) _)) by lia. cbn [negb]. rewrite pool_at_nat, Hn. cbn [mbind option_bind]. rewrite Nat2Z.id.
  eexists. split; [done|]. split; [by eexists _, _, _, _|]. cbn [set_links Delinked BlockLinkPool BlockLinks].
  rewrite length_insert. split_and!; [|done|done|done].
  split; cbn [set_links BlockLinkPool BlockLinkFreeHead BlockLinks]; [by rewrite length_insert|].
  exists ((l0 ++ [t]) ++ F), (delete a cs). split.
  - rewrite <- app_assoc. apply chain_splice; try done. apply (lr_free _ _ _ _ _ _ H).
  - intros d h' Hd. apply lookup_delete_Some in Hd as [Hda Hd].
    destruct (lr_heads _ _ _ _ _ _ H d h' Hd) as (l' & Hl' & Hne' & Hc'). exists l'.
    rewrite lookup_delete_ne by done. split_and!; [done|done|]. apply (chain_ext (BlockLinkPool m)); [|done].
    intros i Hi. apply list_lookup_insert_ne. intros ->. destruct (Hoth d l' (not_eq_sym Hda) Hl' i Hi) as [Hx _]. set_solver.
  - intros d. destruct (decide (a = d)) as [<-|Hda]; [by rewrite !lookup_delete_eq|].
    rewrite !lookup_delete_ne by done. apply (lr_dom _ _ _ _ _ _ H).
  - intros d. destruct (decide (a = d)) as [<-|Hda]; [by rewrite !lookup_delete_eq|].
    rewrite !lookup_delete_ne, (lr_links _ _ _ _ _ _ H) by done. destruct (cs !! d); cbn; [|done].
    by rewrite links_at_splice.
  - rewrite length_insert, <- (lr_part _ _ _ _ _ _ H), (in_chains_delete cs a _ Hl). solve_Permutation.
Qed.

Definition add_link (d Link delinker : Z) (L : gmap Z (list (Z * Z))) : gmap Z (list (Z * Z)) :=
  let ls := default [] (L !! d) in
  if decide (Link ∈ ls.*2) then L else <[d := (delinker, Link) :: ls]> L.

(** The number of live links. *)
Definition live (L : gmap Z (list (Z * Z))) : nat := length (map_to_list L ≫= snd).

Lemma length_bind_fmap {A B} (f : list A -> list B) (l : list (Z * list A)) : (forall x, x ∈ l -> length (f x.2) = length x.2) ->
  length ((prod_map id f <$> l) ≫= snd) = length (l ≫= snd).
Proof.
  induction l as [|x l IH]; intros Hf; [done|]. rewrite fmap_cons, !bind_cons, !length_app, IH; [|intros; apply Hf; by right].
  f_equal. apply (Hf x). left.
Qed.

Lemma length_links_at pool h l : chain pool h l -> length (links_at pool l) = length l.
Proof.
  unfold links_at. revert h. induction l as [|i l IH]; intros h; cbn; [done|]. intros (_ & n & Hn & Hc). rewrite Hn. cbn.
  by rewrite (IH _ Hc).
Qed.

Lemma live_chains pool free heads L F cs : links_rep pool free heads L F cs -> live L = length (in_chains cs).
Proof.
  intros H. assert (L = links_at pool <$> cs) as ->.
  { apply map_eq. intros d. rewrite lookup_fmap. apply (lr_links _ _ _ _ _ _ H). }
  unfold live, in_chains. rewrite map_to_list_fmap. apply length_bind_fmap. intros [d l] Hx%elem_of_map_to_list. cbn.
  destruct (heads !! d) as [h|] eqn:Hh.
  - destruct (lr_heads _ _ _ _ _ _ H d h Hh) as (l' & Hl' & _ & Hc). simplify_eq. by eapply length_links_at.
  - apply (lr_dom _ _ _ _ _ _ H) in Hh. congruence.
Qed.

Lemma pool_live pool free heads L F cs : links_rep pool free heads L F cs -> (length F + live L = length pool)%nat.
Proof.
  intros H. rewrite (live_chains _ _ _ _ _ _ H), <- length_app, (Permutation_length (lr_part _ _ _ _ _ _ H)). apply length_seq.
Qed.

Lemma in_chains_update cs d l : in_chains (<[d := l]> cs) ≡ₚ l ++ in_chains (delete d cs).
Proof.
  rewrite <- insert_delete_eq. apply in_chains_insert. apply lookup_delete_eq.
Qed.

Lemma in_chains_old cs d : in_chains cs ≡ₚ default [] (cs !! d) ++ in_chains (delete d cs).
Proof.
  destruct (cs !! d) eqn:E; [by apply in_chains_delete|]. by rewrite delete_id.
Qed.

Lemma in_chains_elem cs d l i : cs !! d = Some l -> i ∈ l -> i ∈ in_chains cs.
Proof. intros Hd Hi. rewrite (in_chains_delete cs d l Hd). set_solver. Qed.

(** A node [i] that is in no chain becomes the head of the chain of [d]. *)
Lemma push_node pool pool' free free' heads L F F' cs d i Link delinker :
  links_rep pool free heads L F cs ->
  pool' !! i = Some (mkNode Link delinker (default BlockLinkInvalid (heads !! d))) ->
  (forall j, j ∈ in_chains cs -> pool' !! j = pool !! j) -> i ∉ in_chains cs -> chain pool' free' F' ->
  F' ++ i :: in_chains cs ≡ₚ seq 0 (length pool') ->
  links_rep pool' free' (<[d := Z.of_nat i]> heads) (<[d := (delinker, Link) :: default [] (L !! d)]> L) F'
    (<[d := i :: default [] (cs !! d)]> cs).
Proof.
  intros H Hi Hsame Hnew HF Hp.
  assert (forall d' l', cs !! d' = Some l' -> links_at pool' l' = links_at pool l') as Hls.
  { intros d' l' Hd'. apply links_at_ext. intros j Hj. rewrite Hsame; [done|]. by eapply in_chains_elem. }
  assert (chain pool' (default BlockLinkInvalid (heads !! d)) (default [] (cs !! d))) as Hch.
  { destruct (heads !! d) as [h|] eqn:Eh; cbn.
    - destruct (lr_heads _ _ _ _ _ _ H d h Eh) as (l & Hl & _ & Hc). rewrite Hl. cbn.
      apply (chain_ext pool); [|done]. intros j Hj. apply Hsame. by eapply in_chains_elem.
    - apply (lr_dom _ _ _ _ _ _ H) in Eh. by rewrite Eh. }
  split; [done| | | |].
  - intros d' h'. destruct (decide (d = d')) as [<-|Hd].
    + rewrite !lookup_insert_eq. intros [= <-]. eexists. split_and!; [done|done|]. cbn. eauto.
    + rewrite !lookup_insert_ne by done. intros Hh. destruct (lr_heads _ _ _ _ _ _ H d' h' Hh) as (l & Hl & Hne & Hc).
      exists l. split_and!; [done|done|]. apply (chain_ext pool); [|done]. intros j Hj. apply Hsame. by eapply in_chains_elem.
  - intros d'. destruct (decide (d = d')) as [<-|Hd]; [by rewrite !lookup_insert_eq|].
    rewrite !lookup_insert_ne by done. apply (lr_dom _ _ _ _ _ _ H).
  - intros d'. destruct (decide (d = d')) as [<-|Hd].
    + rewrite !lookup_insert_eq, (lr_links _ _ _ _ _ _ H). cbn [fmap option_fmap option_map]. f_equal.
      assert (links_at pool' (i :: default [] (cs !! d)) = (delinker, Link) :: links_at pool' (default [] (cs !! d))) as ->
        by (unfold links_at; cbn; by rewrite Hi).
      f_equal. destruct (cs !! d) as [l|] eqn:El; [|done]. symmetry. exact (Hls d l El).
    + rewrite !lookup_insert_ne, (lr_links _ _ _ _ _ _ H) by done. destruct (cs !! d') as [l|] eqn:El; cbn; [|done].
      by rewrite (Hls d' l El).
  - rewrite <- Hp, in_chains_update, (in_chains_old cs d). solve_Permutation.
Qed.

(** The node comes from the free list if it is not empty; the pool never has more nodes than it
    needs. *)
Lemma place_node_spec m L F cs n : links_rep (BlockLinkPool m) (BlockLinkFreeHead m) (BlockLinks m) L F cs ->
  Z.of_nat (length (BlockLinkPool m)) < BlockLinkInvalid ->
  exists i pool' free' F', place_node n m = Some (Z.of_nat i, pool', free') /\ pool' !! i = Some n /\
    (forall j, j ∈ in_chains cs -> pool' !! j = BlockLinkPool m !! j) /\ i ∉ in_chains cs /\ chain pool' free' F' /\
    F' ++ i :: in_chains cs ≡ₚ seq 0 (length pool') /\
    length pool' = Nat.max (length (BlockLinkPool m)) (S (length (in_chains cs))).
Proof.
  intros H Hlen. pose proof (part_NoDup _ _ _ _ _ _ H) as Hnd. pose proof (lr_part _ _ _ _ _ _ H) as Hp.
  pose proof (lr_free _ _ _ _ _ _ H) as HF. pose proof (Permutation_length Hp) as Hcnt. rewrite length_app, length_seq in Hcnt.
  unfold place_node. destruct F as [|i F]; cbn in HF.
  - rewrite HF, Z.eqb_refl. cbn [negb app] in *. exists (length (BlockLinkPool m)), (BlockLinkPool m ++ [n]), BlockLinkInvalid, [].
    assert (forall j, j ∈ in_chains cs -> (j < length (BlockLinkPool m))%nat) as Hlt.
    { intros j Hj. rewrite Hp in Hj. apply elem_of_seq in Hj. lia. }
    rewrite length_app. cbn in *. split_and!; [done|by apply list_lookup_middle| | |done| |lia].
    + intros j Hj. by apply lookup_app_l, Hlt.
    + intros Hj. apply Hlt in Hj. lia.
    + rewrite Nat.add_1_r, seq_S, <- Hp. cbn. solve_Permutation.
  - destruct HF as (-> & ni & Hi & HF). pose proof (lookup_lt_Some _ _ _ Hi) as Hlt.
    rewrite (proj2 (Z.eqb_neq (Z.of_nat i) _)) by lia. cbn [negb]. rewrite pool_at_nat, Hi. cbn [mbind option_bind]. rewrite Nat2Z.id.
    eexists i, _, _, F. cbn in Hnd. apply NoDup_cons in Hnd as [Hni _]. rewrite elem_of_app in Hni. rewrite length_insert. cbn in Hcnt.
    split_and!; [done|by apply list_lookup_insert_eq| |tauto| | |lia].
    + intros j Hj. apply list_lookup_insert_ne. intros ->. tauto.
    + apply (chain_ext (BlockLinkPool m)); [|done]. intros j Hj. apply list_lookup_insert_ne. intros ->. tauto.
    + rewrite <- Hp. cbn. solve_Permutation.
Qed.

Lemma find_known m L F cs d Link : links_rep (BlockLinkPool m) (BlockLinkFreeHead m) (BlockLinks m) L F cs ->
  Z.of_nat (length (BlockLinkPool m)) < BlockLinkInvalid ->
  (if negb (match BlockLinks m !! d with Some _ => false | None => true end)
   then find_link (length (BlockLinkPool m)) (BlockLinkPool m) (default BlockLinkInvalid (BlockLinks m !! d)) Link else Some false) =
  Some (bool_decide (Link ∈ (default [] (L !! d)).*2)).
Proof.
  intros H Hlen. destruct (BlockLinks m !! d) as [h|] eqn:Eh; cbn [negb default].
  - destruct (lr_heads _ _ _ _ _ _ H d h Eh) as (l & Hl & _ & Hc).
    destruct (part_disjoint _ _ _ _ _ _ d l H Hl) as (_ & _ & _ & Hll & _).
    rewrite (lr_links _ _ _ _ _ _ H), Hl. unfold id. cbn. apply find_link_spec; [done|done|lia].
  - apply (lr_dom _ _ _ _ _ _ H) in Eh. by rewrite (lr_links _ _ _ _ _ _ H), Eh.
Qed.

(** [AddBlockLink] keeps a link that is already there, with its delinker, and otherwise puts the
    new one in front.  It uses a free node if there is one. *)
Lemma AddBlockLink_spec m L d Link delinker : links_ok m L ->
  Z.of_nat (length (BlockLinkPool m)) + 1 < BlockLinkInvalid ->
  exists m', AddBlockLink d Link delinker m = Some m' /\ links_frame m m' /\ links_ok m' (add_link d Link delinker L) /\
    Delinked m' = Delinked m /\
    length (BlockLinkPool m') = Nat.max (length (BlockLinkPool m)) (live (add_link d Link delinker L)).
Proof.
  intros (Hlen & F & cs & H) Hroom. pose proof (pool_live _ _ _ _ _ _ H) as Hlive.
  pose proof (find_known m L F cs d Link H Hlen) as Hk. unfold AddBlockLink, add_link. cbv zeta.
  assert ((match BlockLinks m !! d with Some h => (h, false) | None => (BlockLinkInvalid, true) end) =
    (default BlockLinkInvalid (BlockLinks m !! d), match BlockLinks m !! d with Some _ => false | None => true end)) as ->
    by (by destruct (BlockLinks m !! d)).
  rewrite Hk. cbn [mbind option_bind]. destruct (decide (Link ∈ (default [] (L !! d)).*2)) as [Hin|Hin].
  { rewrite bool_decide_true by done. exists m. split_and!; [done|apply links_frame_refl| |done|lia].
    split; [done|]. by exists F, cs. }
  rewrite bool_decide_false by done.
  destruct (place_node_spec m L F cs (mkNode Link delinker (default BlockLinkInvalid (BlockLinks m !! d))) H Hlen)
    as (i & pool' & free' & F' & -> & Hi & Hsame & Hnew & HF' & Hp & Hlen').
  cbn [mbind option_bind]. pose proof (push_node _ _ _ _ _ _ _ _ _ d i Link delinker H Hi Hsame Hnew HF' Hp) as H'.
  eexists. split; [done|]. split; [by eexists _, _, _, _|]. cbn [set_links Delinked BlockLinkPool].
  pose proof (pool_live _ _ _ _ _ _ H') as Hlive'. rewrite (live_chains _ _ _ _ _ _ H) in Hlive.
  pose proof (Permutation_length Hp) as Hcnt. rewrite length_app, length_seq in Hcnt. cbn in Hcnt.
  split_and!; [|done|lia]. split; cbn [set_links BlockLinkPool BlockLinkFreeHead BlockLinks]; [lia|]. by eexists _, _.
Qed.

(** ** Sequences of link operations *)

Inductive LinkOp := AddLink (d Link delinker : Z) | Sever (d : Z).

Definition link_op (o : LinkOp) (m : Map) : option Map :=
  match o with
  | AddLink d Link delinker => AddBlockLink d Link delinker m
  | Sever d => snd <$> SeverLinks d m
  end.

(** The specification: the links of each destination, newest first; the delinker calls made; the
    largest number of links there ever was. *)
Definition link_spec (s : gmap Z (list (Z * Z)) * list (Z * Z) * nat) (o : LinkOp) : gmap Z (list (Z * Z)) * list (Z * Z) * nat :=
  let '(L, log, peak) := s in
  let '(L, log) := match o with
    | AddLink d Link delinker => (add_link d Link delinker L, log)
    | Sever d => (delete d L, log ++ default [] (L !! d))
    end in
  (L, log, Nat.max peak (live L)).

Lemma new_map_links alloc tracking : links_ok (new_map alloc tracking) ∅.
Proof.
  split; [rewrite invalid_eq; cbn; lia|]. exists [], ∅. cbn. split; cbn.
  - done.
  - intros d h. by rewrite lookup_empty.
  - intros d. by rewrite !lookup_empty.
  - intros d. by rewrite !lookup_empty.
  - done.
Qed.

Lemma link_ops_spec ops m L log peak :
  links_ok m L -> Delinked m = log -> length (BlockLinkPool m) = peak ->
  Z.of_nat peak + Z.of_nat (length ops) < BlockLinkInvalid ->
  let '(L', log', peak') := foldl link_spec (L, log, peak) ops in
  exists m', each link_op ops m = Some m' /\ links_frame m m' /\ links_ok m' L' /\ Delinked m' = log' /\
    length (BlockLinkPool m') = peak'.
Proof.
  revert m L log peak. induction ops as [|o ops IH]; intros m L log peak HL Hlog Hpk Hb; cbn [foldl each].
  { exists m. by pose proof (links_frame_refl m). }
  assert (exists m1, link_op o m = Some m1 /\ links_frame m m1 /\
    (let '(L1, log1, peak1) := link_spec (L, log, peak) o in links_ok m1 L1 /\ Delinked m1 = log1 /\ length (BlockLinkPool m1) = peak1) /\
    (length (BlockLinkPool m1) <= S peak)%nat) as (m1 & Hrun & Hfr & Hs & Hle).
  { destruct o as [d Link delinker|d]; cbn [link_op link_spec].
    - destruct (AddBlockLink_spec m L d Link delinker HL) as (m1 & -> & Hf & Hok & Hd & Hlen); [cbn in Hb; lia|].
      exists m1. rewrite Hd, Hlen, Hpk. split_and!; try done. unfold add_link. case_decide as Hin.
      + destruct HL as (_ & F & cs & H). pose proof (pool_live _ _ _ _ _ _ H). lia.
      + destruct Hok as (_ & F & cs & H). pose proof (pool_live _ _ _ _ _ _ H) as Hl. unfold add_link in *.
        rewrite decide_False in * by done. destruct HL as (_ & F0 & cs0 & H0). pose proof (pool_live _ _ _ _ _ _ H0) as Hl0.
        assert (live (<[d := (delinker, Link) :: default [] (L !! d)]> L) <= S (live L))%nat; [|lia].
        unfold live. rewrite <- insert_delete_eq, map_to_list_insert by apply lookup_delete_eq. rewrite bind_cons. cbn.
        destruct (L !! d) as [x|] eqn:E; cbn.
        * rewrite <- (map_to_list_delete L d x E), bind_cons. cbn. lia.
        * by rewrite delete_id by done.
    - destruct (SeverLinks_spec m L d HL) as (m1 & -> & Hf & Hok & Hd & Hlen & _). exists m1. cbn.
      rewrite Hd, Hlen, Hlog. split_and!; try done; [|lia]. destruct Hok as (_ & F & cs & H). pose proof (pool_live _ _ _ _ _ _ H).
      rewrite Hlen in *. lia. }
  rewrite Hrun. cbn [mbind option_bind]. destruct (link_spec (L, log, peak) o) as [[L1 log1] peak1].
  destruct Hs as (Hok1 & Hlog1 & Hpk1). specialize (IH m1 L1 log1 peak1 Hok1 Hlog1 Hpk1 ltac:(cbn in Hb; lia)).
  destruct (foldl link_spec (L1, log1, peak1) ops) as [[L' log'] peak']. destruct IH as (m' & -> & Hf' & Hrest).
  exists m'. split; [done|]. split; [|done]. destruct Hfr as (? & ? & ? & ? & ->), Hf' as (? & ? & ? & ? & ->). by eexists _, _, _, _.
Qed.

(** C7: however links are registered and severed, the pool of chained nodes behaves as a map
    from destinations to lists of links: no operation leaves the pool or loops, a link that is
    registered again keeps its first delinker, severing a destination calls the delinker of
    each of its links exactly once and of no other, and the pool never holds more nodes than the
    largest number of links that were registered at one time. *)
Theorem BlockLinks_refine alloc tracking ops : Z.of_nat (length ops) < BlockLinkInvalid ->
  let '(L, log, peak) := foldl link_spec (∅, [], 0%nat) ops in
  exists m, each link_op ops (new_map alloc tracking) = Some m /\ links_ok m L /\ Delinked m = log /\
    length (BlockLinkPool m) = peak.
Proof.
  intros Hb. pose proof (link_ops_spec ops (new_map alloc tracking) ∅ [] 0 (new_map_links alloc tracking) eq_refl eq_refl ltac:(lia)) as H.
  destruct (foldl link_spec (∅, [], 0%nat) ops) as [[L log] peak]. destruct H as (m & ? & _ & ?). by exists m.
Qed.

Lemma BlockLinks_refine_witness :
  let ops := [AddLink 0x1000 7 1; AddLink 0x1000 8 2; AddLink 0x1000 7 3; AddLink 0x2000 9 1; Sever 0x1000; AddLink 0x3000 5 4] in
  exists m, each link_op ops (new_map (fun _ => true) false) = Some m /\ Delinked m = [(2, 8); (1, 7)] /\ length (BlockLinkPool m) = 3%nat.
Proof.
  cbv zeta. pose proof (BlockLinks_refine (fun _ => true) false
    [AddLink 0x1000 7 1; AddLink 0x1000 8 2; AddLink 0x1000 7 3; AddLink 0x2000 9 1; Sever 0x1000; AddLink 0x3000 5 4]
    ltac:(vm_compute; reflexivity)) as H.
  destruct (foldl link_spec _ _) as [[L log] peak] eqn:E. vm_compute in E. injection E as <- <- <-.
  destruct H as (m & Hrun & _ & Hlog & Hpk). exists m. split; [exact Hrun|]. split; [exact Hlog|exact Hpk].
Defined.
