(* ===== verification/LookupMapProps.v ===== *)
(** * The guest-to-host map: invariant and invalidation

    Every block is listed on each of its code pages, the index of retained blocks is exact, the
    memo points at the node of its page, and the block links are well formed; under this
    invariant every operation returns, and the hard and the soft invalidation of a range take
    away exactly the blocks listed on its pages. *)

From stdpp Require Import sorting.
From S2P Require Import Prelude CodeGranules SemanticPatch LookupCache LookupLinks.
Import GuestToHostMap.

(** ** Walks *)

Lemma sorted_keys_elem {A} (m : gmap Z A) k : k ∈ sorted_keys m <-> is_Some (m !! k).
Proof. unfold sorted_keys. rewrite merge_sort_Permutation, elem_of_elements. apply elem_of_dom. Qed.

Lemma key_range_spec {A} (m : gmap Z A) lo hi : lo <= hi + 1 ->
  exists ks, key_range m lo hi = Some ks /\ forall k, k ∈ ks <-> is_Some (m !! k) /\ lo <= k <= hi.
Proof.
  intros H. unfold key_range. destruct (existsb _ _) eqn:E.
  - apply existsb_exists in E as (k & _ & Hk). to_prop. lia.
  - eexists. split; [done|]. intros k. rewrite list_elem_of_In, filter_In, <- list_elem_of_In, sorted_keys_elem.
    rewrite andb_true_iff, !Z.leb_le. done.
Qed.

Lemma erase_keys_lookup {A} ks (m : gmap Z A) k : erase_keys ks m !! k = if decide (k ∈ ks) then None else m !! k.
Proof.
  unfold erase_keys. revert m. induction ks as [|k0 ks IH]; intros m; cbn [foldl].
  - rewrite decide_False; [done|apply not_elem_of_nil].
  - rewrite IH. destruct (decide (k ∈ ks)).
    + rewrite decide_True; [done|by right].
    + destruct (decide (k = k0)) as [->|]; [rewrite lookup_delete_eq, decide_True by left; done|].
      rewrite lookup_delete_ne by done. rewrite decide_False; [done|]. set_solver.
Qed.

(** A loop that keeps an invariant in each of its turns. *)
Lemma each_rule {A S} (f : A -> S -> option S) (I : list A -> S -> Prop) l s :
  I [] s -> (forall d x t s, l = d ++ x :: t -> I d s -> exists s', f x s = Some s' /\ I (d ++ [x]) s') ->
  exists s', each f l s = Some s' /\ I l s'.
Proof.
  intros H0 Hs. assert (forall t d s, l = d ++ t -> I d s -> exists s', each f t s = Some s' /\ I l s') as Hgen.
  { induction t as [|x t IH]; intros d s1 Hl HI; cbn [each].
    - rewrite app_nil_r in Hl. subst. eauto.
    - destruct (Hs d x t s1 Hl HI) as (s2 & -> & HI2). cbn [mbind option_bind]. apply (IH (d ++ [x])); [|done].
      by rewrite <- app_assoc. }
  by apply (Hgen l []).
Qed.

Lemma range_pages Start Length : 0 <= Start -> 0 < Length -> Start + Length <= 2 ^ 64 ->
  first_page Start = Start / 2 ^ 12 /\ last_page Start Length = (Start + Length - 1) / 2 ^ 12 /\
  first_page Start <= last_page Start Length.
Proof.
  intros H0 HL H. unfold first_page, last_page.
  assert (u64 (u64 (Start + Length) - 1) = Start + Length - 1) as ->.
  { unfold uwrap. rewrite Zminus_mod_idemp_l. apply Z.mod_small. lia. }
  rewrite !Z.shiftr_div_pow2 by lia. split_and!; [done|done|]. apply Z.div_le_mono; lia.
Qed.

(** ** The invariant *)

Definition on_page (e : BlockEntry) (k : Z) : Prop := exists p, p ∈ Entry.CodePages e /\ p >>> 12 = k.

#[global] Instance on_page_dec e k : Decision (on_page e k).
Proof.
  refine (cast_if (decide (k ∈ (fun p => p >>> 12) <$> Entry.CodePages e))); unfold on_page; set_solver.
Defined.

Definition in_range (Start Length k : Z) : Prop := first_page Start <= k <= last_page Start Length.
#[global] Instance in_range_dec Start Length k : Decision (in_range Start Length k).
Proof. unfold in_range. apply _. Defined.

(** A block has code in a range of pages; an address is listed on a page of the range. *)
Definition touches (e : BlockEntry) (Start Length : Z) : Prop := exists k, in_range Start Length k /\ on_page e k.
Definition listed_in (m : Map) (Start Length a : Z) : Prop :=
  exists k v, CodePages m !! k = Some v /\ in_range Start Length k /\ a ∈ v.

Definition memo_ok (m : Map) : Prop :=
  CodePagesMemoIndex m = u64 (-1) /\ CodePagesMemoEntry m = None \/
  CodePagesMemoEntry m = Some (CodePagesMemoIndex m) /\ is_Some (CodePages m !! CodePagesMemoIndex m).

(** The index of retained blocks. *)
Definition ret_ok (B : gmap Z BlockEntry) (idx : gmap Z (gset Z)) : Prop :=
  (forall k x, x ∈ default ∅ (idx !! k) <-> exists e, B !! x = Some e /\ on_page e k) /\
  forall k s, idx !! k = Some s -> s <> ∅.

Record map_wf (m : Map) : Prop := {
  wf_links : exists L, links_ok m L;
  wf_memo : memo_ok m;
  wf_listed : forall a e k, BlockList m !! a = Some e -> on_page e k -> exists v, CodePages m !! k = Some v /\ a ∈ v;
  wf_ret : ret_ok (RetainedBlocks m) (RetainedCodePages m);
}.

Lemma new_map_wf alloc tracking : map_wf (new_map alloc tracking).
Proof.
  split; cbn.
  - exists ∅. apply new_map_links.
  - by left.
  - intros a e k. by rewrite lookup_empty.
  - split; intros k; [intros x|intros s]; rewrite lookup_empty; [|done]. cbn. split; [set_solver|].
    intros (e & He & _). by rewrite lookup_empty in He.
Qed.

(** ** The index of retained blocks *)

Lemma unindex_page_spec a p idx k x : (forall k s, idx !! k = Some s -> s <> ∅) ->
  (x ∈ default ∅ (unindex_page a p idx !! k) <-> x ∈ default ∅ (idx !! k) /\ ~ (x = a /\ p >>> 12 = k)) /\
  (forall k s, unindex_page a p idx !! k = Some s -> s <> ∅).
Proof.
  intros Hne. unfold unindex_page. destruct (idx !! (p >>> 12)) as [s|] eqn:Es.
  2:{ split; [|done]. split; [|tauto]. intros Hx. split; [done|]. intros [-> <-]. rewrite Es in Hx. set_solver. }
  case_decide as Hs.
  - split.
    + destruct (decide (p >>> 12 = k)) as [<-|Hk]; [rewrite lookup_delete_eq, Es; cbn; set_solver|].
      rewrite lookup_delete_ne by done. tauto.
    + intros k0 s0 [_ Hk0]%lookup_delete_Some. by eapply Hne.
  - split.
    + destruct (decide (p >>> 12 = k)) as [<-|Hk]; [rewrite lookup_insert_eq, Es; cbn; set_solver|].
      rewrite lookup_insert_ne by done. tauto.
    + intros k0 s0. destruct (decide (p >>> 12 = k0)) as [<-|Hk].
      * rewrite lookup_insert_eq. by intros [= <-].
      * rewrite lookup_insert_ne by done. apply Hne.
Qed.

Lemma exists_page_cons p ps k : (exists q, q ∈ p :: ps /\ q >>> 12 = k) <-> p >>> 12 = k \/ exists q, q ∈ ps /\ q >>> 12 = k.
Proof. setoid_rewrite elem_of_cons. split; [intros (q & [->|?] & ?); eauto|intros [?|(q & ? & ?)]; eauto]. Qed.

Lemma unindex_spec a ps idx : (forall k s, idx !! k = Some s -> s <> ∅) ->
  (forall k x, x ∈ default ∅ (unindex a ps idx !! k) <-> x ∈ default ∅ (idx !! k) /\ ~ (x = a /\ exists p, p ∈ ps /\ p >>> 12 = k)) /\
  (forall k s, unindex a ps idx !! k = Some s -> s <> ∅).
Proof.
  unfold unindex. revert idx. induction ps as [|p ps IH]; intros idx Hne; cbn [foldl].
  - split; [|done]. intros k x. set_solver.
  - destruct (IH (unindex_page a p idx)) as [H1 H2]; [by apply (unindex_page_spec a p idx 0 0)|]. split; [|done].
    intros k x. rewrite H1. destruct (unindex_page_spec a p idx k x Hne) as [-> _].
    rewrite exists_page_cons. tauto.
Qed.

Lemma index_spec a ps idx k x :
  x ∈ default ∅ (foldl (fun idx Page => index_page a Page idx) idx ps !! k) <->
  x ∈ default ∅ (idx !! k) \/ x = a /\ exists p, p ∈ ps /\ p >>> 12 = k.
Proof.
  revert idx. induction ps as [|p ps IH]; intros idx; cbn [foldl].
  { split; [by left|]. intros [?|[_ (p & Hp%elem_of_nil & _)]]; done. }
  rewrite IH, exists_page_cons. unfold index_page. destruct (decide (p >>> 12 = k)) as [<-|Hk].
  - rewrite lookup_insert_eq. cbn. rewrite elem_of_union, elem_of_singleton. tauto.
  - rewrite lookup_insert_ne by done. tauto.
Qed.

Lemma index_nonempty a ps idx : (forall k s, idx !! k = Some s -> s <> ∅) ->
  forall k s, foldl (fun idx Page => index_page a Page idx) idx ps !! k = Some s -> s <> ∅.
Proof.
  revert idx. induction ps as [|p ps IH]; intros idx Hne; cbn [foldl]; [done|]. apply IH. intros k s. unfold index_page.
  destruct (decide (p >>> 12 = k)) as [<-|Hk].
  - rewrite lookup_insert_eq. intros [= <-]. set_solver.
  - rewrite lookup_insert_ne by done. apply Hne.
Qed.

Lemma ret_ok_drop B idx a e : ret_ok B idx -> B !! a = Some e -> ret_ok (delete a B) (unindex a (Entry.CodePages e) idx).
Proof.
  intros [H1 H2] Ha. destruct (unindex_spec a (Entry.CodePages e) idx H2) as [H3 H4]. split; [|done]. intros k x.
  rewrite H3, H1. destruct (decide (x = a)) as [->|Hx].
  - rewrite lookup_delete_eq. split; [|naive_solver]. intros [(e' & He' & Hp) Hn]. destruct Hn. simplify_eq. done.
  - rewrite lookup_delete_ne by done. naive_solver.
Qed.

Lemma ret_ok_add B idx a e : ret_ok B idx -> B !! a = None ->
  ret_ok (<[a := e]> B) (foldl (fun idx Page => index_page a Page idx) idx (Entry.CodePages e)).
Proof.
  intros [H1 H2] Ha. split; [|by apply index_nonempty]. intros k x. rewrite index_spec, H1.
  destruct (decide (x = a)) as [->|Hx].
  - rewrite lookup_insert_eq. split; [|naive_solver]. intros [(e' & He' & _)|[_ Hp]]; [congruence|]. by exists e.
  - rewrite lookup_insert_ne by done. naive_solver.
Qed.

(** ** The steps of an invalidation *)

(** What severing, erasing and the clearing of granule bits leave alone. *)
Record keeps (m m' : Map) : Prop := {
  k_pages : CodePages m' = CodePages m;
  k_index : CodePagesMemoIndex m' = CodePagesMemoIndex m;
  k_entry : CodePagesMemoEntry m' = CodePagesMemoEntry m;
}.
Record keeps_ret (m m' : Map) : Prop := {
  k_ret : RetainedBlocks m' = RetainedBlocks m;
  k_idx : RetainedCodePages m' = RetainedCodePages m;
}.

Lemma keeps_refl m : keeps m m.
Proof. done. Qed.
Lemma keeps_ret_refl m : keeps_ret m m.
Proof. done. Qed.
Lemma keeps_trans m1 m2 m3 : keeps m1 m2 -> keeps m2 m3 -> keeps m1 m3.
Proof. intros [] []. split; congruence. Qed.
Lemma keeps_ret_trans m1 m2 m3 : keeps_ret m1 m2 -> keeps_ret m2 m3 -> keeps_ret m1 m3.
Proof. intros [] []. split; congruence. Qed.
#[local] Hint Resolve keeps_refl keeps_ret_refl : core.

Lemma links_ok_ext m m' L : BlockLinkPool m' = BlockLinkPool m -> BlockLinkFreeHead m' = BlockLinkFreeHead m ->
  BlockLinks m' = BlockLinks m -> links_ok m L -> links_ok m' L.
Proof. unfold links_ok. by intros -> -> ->. Qed.

Lemma frame_fields m m' : links_frame m m' -> keeps m m' /\ keeps_ret m m' /\ BlockList m' = BlockList m /\ CodeGranules m' = CodeGranules m.
Proof. by intros (? & ? & ? & ? & ->). Qed.

Lemma Erase_spec m L a : links_ok m L -> exists m', Erase a m = Some (bool_decide (is_Some (BlockList m !! a)), m') /\
  BlockList m' = delete a (BlockList m) /\ keeps m m' /\ keeps_ret m m' /\ links_ok m' (delete a L).
Proof.
  intros HL. unfold Erase. destruct (SeverLinks_spec m L a HL) as (m1 & -> & Hf & Hok & _). cbn [mbind option_bind].
  destruct (frame_fields m m1 Hf) as ([] & [] & Hb & _). eexists. split; [by rewrite Hb|].
  split_and!; [by rewrite <- Hb| | |]; try by split. by apply (links_ok_ext m1).
Qed.

Lemma DropRetainedBlockLocked_spec m a : ret_ok (RetainedBlocks m) (RetainedCodePages m) ->
  let m' := DropRetainedBlockLocked a m in
  RetainedBlocks m' = delete a (RetainedBlocks m) /\ ret_ok (RetainedBlocks m') (RetainedCodePages m') /\
  keeps m m' /\ BlockList m' = BlockList m /\ (forall L, links_ok m L -> links_ok m' L).
Proof.
  intros Hr. unfold DropRetainedBlockLocked. destruct (RetainedBlocks m !! a) as [e|] eqn:Ea; cbn.
  - split_and!; try done. by apply ret_ok_drop.
  - split_and!; try done. by rewrite delete_id.
Qed.

(** Whether a block can be revalidated, and is retained when it is invalidated softly. *)
Definition hashable (e : BlockEntry) : bool := negb ((Entry.GuestRangeLength e =? 0) || bool_decide (Entry.CodePages e = [])).

Definition soft_retained (m : Map) (A : list Z) (a : Z) : option BlockEntry :=
  if decide (a ∈ A) then match BlockList m !! a with
    | Some e => if hashable e then Some e else RetainedBlocks m !! a
    | None => RetainedBlocks m !! a
    end
  else RetainedBlocks m !! a.

Lemma SoftEraseBlock_spec m L a : links_ok m L -> ret_ok (RetainedBlocks m) (RetainedCodePages m) ->
  exists m', SoftEraseBlock a m = Some m' /\ BlockList m' = delete a (BlockList m) /\ keeps m m' /\
    ret_ok (RetainedBlocks m') (RetainedCodePages m') /\
    (forall x, RetainedBlocks m' !! x = soft_retained m [a] x) /\
    links_ok m' (if BlockList m !! a is Some _ then delete a L else L).
Proof.
  intros HL Hr. unfold SoftEraseBlock, soft_retained. destruct (BlockList m !! a) as [e|] eqn:Ea.
  2:{ exists m. split_and!; try done; [by rewrite delete_id|]. intros x. case_decide as Hx; [|done].
      apply list_elem_of_singleton in Hx as ->. by rewrite Ea. }
  destruct (SeverLinks_spec m L a HL) as (m1 & -> & Hf & Hok & _). cbn [mbind option_bind].
  destruct (frame_fields m m1 Hf) as (Hk & [Hr1 Hr2] & Hb & _).
  destruct ((Entry.GuestRangeLength e =? 0) || bool_decide (Entry.CodePages e = [])) eqn:Eh.
  - eexists. split; [done|]. cbn. rewrite Hb, Hr1, Hr2. split; [done|]. split; [by destruct Hk|]. split; [done|]. split.
    + intros x. case_decide as Hx; [|done]. apply list_elem_of_singleton in Hx as ->. rewrite Ea. unfold hashable. by rewrite Eh.
    + by apply (links_ok_ext m1).
  - destruct (DropRetainedBlockLocked_spec m1 a) as (Hd & Hr' & Hk' & Hb' & Hl'); [by rewrite Hr1, Hr2|].
    eexists. split; [done|]. cbn. rewrite Hb', Hb. split_and!; [done| | | |].
    + destruct (keeps_trans _ _ _ Hk Hk'). by split.
    + apply ret_ok_add; [done|]. rewrite Hd. apply lookup_delete_eq.
    + intros x. case_decide as Hx.
      * apply list_elem_of_singleton in Hx as ->. rewrite Ea, lookup_insert_eq. unfold hashable. by rewrite Eh.
      * rewrite lookup_insert_ne, Hd, lookup_delete_ne, Hr1 by set_solver. done.
    + apply (links_ok_ext (DropRetainedBlockLocked a m1)); try done. by apply Hl'.
Qed.

Lemma erase_keys_app {A} ks ks' (m : gmap Z A) : erase_keys (ks ++ ks') m = erase_keys ks' (erase_keys ks m).
Proof. unfold erase_keys. apply foldl_app. Qed.

Lemma clear_granules_keeps k m : keeps m (clear_granules k m) /\ keeps_ret m (clear_granules k m) /\
  BlockList (clear_granules k m) = BlockList m /\ (forall L, links_ok m L -> links_ok (clear_granules k m) L).
Proof. unfold clear_granules. by destruct (CodeGranuleBitmap.Enabled (CodeGranules m)). Qed.

(** The addresses listed on the pages [ks], in the order of the walk. *)
Definition walk_addresses (m : Map) (ks : list Z) : list Z := ks ≫= fun k => default [] (CodePages m !! k).

Lemma Erase_list l m L : links_ok m L -> exists m', each (fun Entry m => snd <$> Erase Entry m) l m = Some m' /\
  BlockList m' = erase_keys l (BlockList m) /\ keeps m m' /\ keeps_ret m m' /\ links_ok m' (erase_keys l L).
Proof.
  intros HL. apply (each_rule _ (fun d s => BlockList s = erase_keys d (BlockList m) /\ keeps m s /\ keeps_ret m s /\ links_ok s (erase_keys d L))); [done|].
  intros d x t s _ (Hb & Hk & Hkr & Hl). destruct (Erase_spec s _ x Hl) as (s' & -> & Hb' & Hk' & Hkr' & Hl'). cbn.
  exists s'. rewrite !erase_keys_app. split_and!; [done|by rewrite Hb', Hb|by eapply keeps_trans|by eapply keeps_ret_trans|done].
Qed.

Lemma Erase_pages ks m L : links_ok m L ->
  exists m', each (fun k m => m ← each (fun Entry m => snd <$> Erase Entry m) (default [] (CodePages m !! k)) m; Some (clear_granules k m)) ks m = Some m' /\
  BlockList m' = erase_keys (walk_addresses m ks) (BlockList m) /\ keeps m m' /\ keeps_ret m m' /\ links_ok m' (erase_keys (walk_addresses m ks) L).
Proof.
  intros HL. apply (each_rule _ (fun d s => BlockList s = erase_keys (walk_addresses m d) (BlockList m) /\ keeps m s /\ keeps_ret m s /\
    links_ok s (erase_keys (walk_addresses m d) L))); [done|].
  intros d k t s _ (Hb & Hk & Hkr & Hl). rewrite (k_pages _ _ Hk).
  destruct (Erase_list (default [] (CodePages m !! k)) s _ Hl) as (s' & -> & Hb' & Hk' & Hkr' & Hl'). cbn [mbind option_bind].
  destruct (clear_granules_keeps k s') as (Hk2 & Hkr2 & Hb2 & Hl2). eexists. split; [done|].
  unfold walk_addresses in *. rewrite bind_app, bind_singleton, !erase_keys_app.
  split_and!; [by rewrite Hb2, Hb', Hb| | |by apply Hl2].
  - eapply keeps_trans; [|done]. by eapply keeps_trans.
  - eapply keeps_ret_trans; [|done]. by eapply keeps_ret_trans.
Qed.

Lemma walk_addresses_elem m ks Start Length a :
  (forall k, k ∈ ks <-> is_Some (CodePages m !! k) /\ in_range Start Length k) ->
  a ∈ walk_addresses m ks <-> listed_in m Start Length a.
Proof.
  intros Hks. unfold walk_addresses, listed_in. rewrite list_elem_of_bind. split.
  - intros (k & Ha & Hk). apply Hks in Hk as [[v Hv] Hr]. rewrite Hv in Ha. eauto 6.
  - intros (k & v & Hv & Hr & Ha). exists k. rewrite Hv. split; [done|]. apply Hks. eauto.
Qed.

Lemma Drop_list l m : ret_ok (RetainedBlocks m) (RetainedCodePages m) ->
  let m' := foldl (fun m Address => DropRetainedBlockLocked Address m) m l in
  RetainedBlocks m' = erase_keys l (RetainedBlocks m) /\ ret_ok (RetainedBlocks m') (RetainedCodePages m') /\
  keeps m m' /\ BlockList m' = BlockList m /\ (forall L, links_ok m L -> links_ok m' L).
Proof.
  revert m. induction l as [|a l IH]; intros m Hr; cbn [foldl]; [by split_and!|].
  destruct (DropRetainedBlockLocked_spec m a Hr) as (H1 & H2 & H3 & H4 & H5).
  destruct (IH _ H2) as (I1 & I2 & I3 & I4 & I5). split_and!; [|done|by eapply keeps_trans|congruence|auto].
  rewrite I1, H1. done.
Qed.

(** A hard invalidation purges the retained blocks with code in the range, and no others. *)
Lemma DropRetainedRange_spec Start Length m : ret_ok (RetainedBlocks m) (RetainedCodePages m) ->
  first_page Start <= last_page Start Length ->
  exists m', DropRetainedRange Start Length m = Some m' /\
    (forall a e, RetainedBlocks m' !! a = Some e <-> RetainedBlocks m !! a = Some e /\ ~ touches e Start Length) /\
    ret_ok (RetainedBlocks m') (RetainedCodePages m') /\ keeps m m' /\ BlockList m' = BlockList m /\
    (forall L, links_ok m L -> links_ok m' L).
Proof.
  intros Hr Hlh. unfold DropRetainedRange. case_decide as He.
  { exists m. split_and!; try done. intros a e. split; [|tauto]. intros Ha. split; [done|]. intros (k & _ & Hp).
    assert (a ∈ default ∅ (RetainedCodePages m !! k)) as Hx by (apply Hr; eauto). rewrite He, lookup_empty in Hx. set_solver. }
  destruct (key_range_spec (RetainedCodePages m) (first_page Start) (last_page Start Length)) as (ks & -> & Hks); [lia|].
  cbn [mbind option_bind]. match goal with |- context [foldl _ m ?D] => set (Doomed := D) end.
  destruct (Drop_list Doomed m Hr) as (H1 & H2 & H3 & H4 & H5). eexists. split; [done|]. split_and!; try done.
  intros a e. rewrite H1, erase_keys_lookup.
  assert (a ∈ Doomed <-> exists e, RetainedBlocks m !! a = Some e /\ touches e Start Length) as Hd.
  { unfold Doomed. rewrite list_elem_of_bind. split.
    - intros (k & Ha%elem_of_elements & Hk). apply Hr in Ha as (e' & He' & Hp). exists e'. split; [done|]. exists k.
      split; [|done]. by apply Hks.
    - intros (e' & He' & k & Hk & Hp). assert (a ∈ default ∅ (RetainedCodePages m !! k)) as Ha by (apply Hr; eauto).
      exists k. split; [by apply elem_of_elements|]. apply Hks. split; [|done].
      destruct (RetainedCodePages m !! k); [eauto|set_solver]. }
  destruct (decide (a ∈ Doomed)) as [Ha|Ha].
  - apply Hd in Ha as (e' & He' & Ht). split; [done|]. intros [He2 Hn]. by simplify_eq.
  - split; [|tauto]. intros Hae. split; [done|]. intros Ht. apply Ha, Hd. eauto.
Qed.

(** ** Hard and soft invalidation *)

(** What both leave of the blocks and of the page lists. *)
Definition pages_dropped (Start Length : Z) (m m' : Map) : Prop :=
  (forall k v, CodePages m' !! k = Some v <-> CodePages m !! k = Some v /\ ~ in_range Start Length k) /\
  (forall a e, BlockList m' !! a = Some e <-> BlockList m !! a = Some e /\ ~ listed_in m Start Length a).

Lemma pages_erased m ks Start Length :
  (forall k, k ∈ ks <-> is_Some (CodePages m !! k) /\ in_range Start Length k) ->
  forall k v, erase_keys ks (CodePages m) !! k = Some v <-> CodePages m !! k = Some v /\ ~ in_range Start Length k.
Proof.
  intros Hks k v. rewrite erase_keys_lookup. case_decide as Hk.
  - apply Hks in Hk as [_ Hr]. split; [done|tauto].
  - split; [|tauto]. intros Hv. split; [done|]. intros Hr. apply Hk, Hks. eauto.
Qed.

Lemma blocks_erased m ks Start Length :
  (forall k, k ∈ ks <-> is_Some (CodePages m !! k) /\ in_range Start Length k) ->
  forall a e, erase_keys (walk_addresses m ks) (BlockList m) !! a = Some e <->
    BlockList m !! a = Some e /\ ~ listed_in m Start Length a.
Proof.
  intros Hks a e. rewrite erase_keys_lookup. pose proof (walk_addresses_elem m ks Start Length a Hks) as Hw.
  case_decide as Hk; [apply Hw in Hk; split; [done|tauto]|]. split; [|tauto]. intros Hv. split; [done|]. by rewrite <- Hw.
Qed.

(** The invariant after an invalidation: what is still listed keeps its pages. *)
Lemma dropped_listed Start Length m m' : map_wf m -> pages_dropped Start Length m m' ->
  forall a e k, BlockList m' !! a = Some e -> on_page e k -> exists v, CodePages m' !! k = Some v /\ a ∈ v.
Proof.
  intros Hwf [Hp Hb] a e k Ha Hk. apply Hb in Ha as [Ha Hn]. destruct (wf_listed m Hwf a e k Ha Hk) as (v & Hv & Hav).
  exists v. split; [|done]. apply Hp. split; [done|]. intros Hr. apply Hn. by exists k, v.
Qed.

(** After an invalidation no block with code in the range is left. *)
Lemma dropped_untouched Start Length m m' : map_wf m -> pages_dropped Start Length m m' ->
  forall a e, BlockList m' !! a = Some e -> ~ touches e Start Length.
Proof.
  intros Hwf [Hp Hb] a e Ha (k & Hr & Hk). apply Hb in Ha as [Ha Hn]. destruct (wf_listed m Hwf a e k Ha Hk) as (v & Hv & Hav).
  apply Hn. by exists k, v.
Qed.

Lemma InvalidateRange_spec Start Length m L : map_wf m -> links_ok m L -> first_page Start <= last_page Start Length ->
  exists m', InvalidateRange Start Length m = Some m' /\ map_wf m' /\ pages_dropped Start Length m m' /\
    (forall a e, RetainedBlocks m' !! a = Some e <-> RetainedBlocks m !! a = Some e /\ ~ touches e Start Length) /\
    (exists L', links_ok m' L' /\ forall a ls, L' !! a = Some ls <-> L !! a = Some ls /\ ~ listed_in m Start Length a).
Proof.
  intros Hwf HL Hlh. unfold InvalidateRange.
  destruct (key_range_spec (CodePages m) (first_page Start) (last_page Start Length)) as (ks & -> & Hks); [lia|]. cbn [mbind option_bind].
  destruct (Erase_pages ks m L HL) as (m1 & -> & Hb & Hk & Hkr & HL1). cbn [mbind option_bind].
  set (m2 := InvalidateCodePagesMemo _). destruct (DropRetainedRange_spec Start Length m2) as (m' & -> & Hr & Hrok & Hk' & Hb' & Hl').
  { cbn. rewrite (k_ret _ _ Hkr), (k_idx _ _ Hkr). apply (wf_ret m Hwf). }
  { done. }
  exists m'. split; [done|]. cbn in Hr. rewrite (k_ret _ _ Hkr) in Hr.
  assert (pages_dropped Start Length m m') as Hd.
  { split.
    - rewrite (k_pages _ _ Hk'). cbn. rewrite (k_pages _ _ Hk). by apply pages_erased.
    - rewrite Hb'. cbn. rewrite Hb. by apply blocks_erased. }
  assert (links_ok m' (erase_keys (walk_addresses m ks) L)) as HL' by (apply Hl', (links_ok_ext m1); done).
  split_and!; [|done|done|].
  - split; [by eexists| |by eapply dropped_listed|done]. left. rewrite (k_index _ _ Hk'), (k_entry _ _ Hk'). done.
  - eexists. split; [done|]. intros a ls. rewrite erase_keys_lookup. pose proof (walk_addresses_elem m ks Start Length a Hks) as Hw.
    case_decide as Ha; [apply Hw in Ha; split; [done|tauto]|]. split; [|tauto]. intros Hv. split; [done|]. by rewrite <- Hw.
Qed.

Lemma soft_retained_app m s d l x :
  BlockList s = erase_keys d (BlockList m) -> (forall x, RetainedBlocks s !! x = soft_retained m d x) ->
  soft_retained s l x = soft_retained m (d ++ l) x.
Proof.
  intros Hb Hr. unfold soft_retained at 1. rewrite Hr, Hb, erase_keys_lookup. unfold soft_retained.
  destruct (decide (x ∈ l)) as [Hx|Hx].
  - rewrite (decide_True (P := x ∈ d ++ l)) by set_solver. by destruct (decide (x ∈ d)).
  - destruct (decide (x ∈ d)) as [Hd|Hd]; [rewrite decide_True by set_solver|rewrite decide_False by set_solver]; done.
Qed.

Lemma SoftErase_list l m L : links_ok m L -> ret_ok (RetainedBlocks m) (RetainedCodePages m) ->
  exists m', each SoftEraseBlock l m = Some m' /\ BlockList m' = erase_keys l (BlockList m) /\ keeps m m' /\
    ret_ok (RetainedBlocks m') (RetainedCodePages m') /\ (forall x, RetainedBlocks m' !! x = soft_retained m l x) /\
    exists L', links_ok m' L'.
Proof.
  intros HL Hr. apply (each_rule _ (fun d s => BlockList s = erase_keys d (BlockList m) /\ keeps m s /\
    ret_ok (RetainedBlocks s) (RetainedCodePages s) /\ (forall x, RetainedBlocks s !! x = soft_retained m d x) /\ exists L', links_ok s L')).
  { split_and!; eauto. }
  intros d a t s _ (Hb & Hk & Hro & Hre & L' & HL'). destruct (SoftEraseBlock_spec s L' a HL' Hro) as (s' & -> & Hb' & Hk' & Hro' & Hre' & Hl').
  exists s'. split_and!; [done|by rewrite erase_keys_app, Hb', Hb|by eapply keeps_trans|done| |by eexists].
  intros x. rewrite Hre'. by apply soft_retained_app.
Qed.

Lemma SoftErase_pages ks m L : links_ok m L -> ret_ok (RetainedBlocks m) (RetainedCodePages m) ->
  exists m', each (fun k m => m ← each SoftEraseBlock (default [] (CodePages m !! k)) m; Some (clear_granules k m)) ks m = Some m' /\
  BlockList m' = erase_keys (walk_addresses m ks) (BlockList m) /\ keeps m m' /\
  ret_ok (RetainedBlocks m') (RetainedCodePages m') /\ (forall x, RetainedBlocks m' !! x = soft_retained m (walk_addresses m ks) x) /\
  exists L', links_ok m' L'.
Proof.
  intros HL Hr. apply (each_rule _ (fun d s => BlockList s = erase_keys (walk_addresses m d) (BlockList m) /\ keeps m s /\
    ret_ok (RetainedBlocks s) (RetainedCodePages s) /\ (forall x, RetainedBlocks s !! x = soft_retained m (walk_addresses m d) x) /\ exists L', links_ok s L')).
  { split_and!; eauto. }
  intros d k t s _ (Hb & Hk & Hro & Hre & L' & HL'). rewrite (k_pages _ _ Hk).
  destruct (SoftErase_list (default [] (CodePages m !! k)) s L' HL' Hro) as (s' & -> & Hb' & Hk' & Hro' & Hre' & L2 & HL2). cbn [mbind option_bind].
  destruct (clear_granules_keeps k s') as (Hk3 & [Hr3 Hi3] & Hb3 & Hl3). eexists. split; [done|].
  unfold walk_addresses in *. rewrite bind_app, bind_singleton. split_and!.
  - by rewrite erase_keys_app, Hb3, Hb', Hb.
  - eapply keeps_trans; [|done]. by eapply keeps_trans.
  - by rewrite Hr3, Hi3.
  - intros x. rewrite Hr3, Hre'. by apply soft_retained_app.
  - eexists. by apply Hl3.
Qed.

Lemma SoftInvalidateRange_spec Start Length m : map_wf m -> first_page Start <= last_page Start Length ->
  exists m', SoftInvalidateRange Start Length m = Some m' /\ map_wf m' /\ pages_dropped Start Length m m' /\
    (forall a e, BlockList m !! a = Some e -> listed_in m Start Length a -> hashable e = true -> RetainedBlocks m' !! a = Some e) /\
    (forall a e, RetainedBlocks m' !! a = Some e -> RetainedBlocks m !! a = Some e \/ BlockList m !! a = Some e /\ listed_in m Start Length a) /\
    (forall a e, RetainedBlocks m !! a = Some e -> BlockList m !! a = None \/ ~ listed_in m Start Length a -> RetainedBlocks m' !! a = Some e).
Proof.
  intros Hwf Hlh. destruct (wf_links m Hwf) as [L HL]. unfold SoftInvalidateRange.
  destruct (key_range_spec (CodePages m) (first_page Start) (last_page Start Length)) as (ks & -> & Hks); [lia|]. cbn [mbind option_bind].
  destruct (SoftErase_pages ks m L HL (wf_ret m Hwf)) as (m1 & -> & Hb & Hk & Hro & Hre & L1 & HL1). cbn [mbind option_bind].
  eexists. split; [done|]. set (m' := InvalidateCodePagesMemo _).
  assert (pages_dropped Start Length m m') as Hd.
  { split; cbn.
    - rewrite (k_pages _ _ Hk). by apply pages_erased.
    - rewrite Hb. by apply blocks_erased. }
  split_and!; [|done| | |].
  - split; [by eexists| |by eapply dropped_listed|done]. by left.
  - intros a e Ha Hl Hh. cbn. rewrite Hre. unfold soft_retained. rewrite decide_True by (by apply (walk_addresses_elem m ks Start Length)).
    by rewrite Ha, Hh.
  - intros a e. cbn. rewrite Hre. unfold soft_retained. case_decide as Hw; [|by left].
    apply (walk_addresses_elem m ks Start Length) in Hw; [|done]. destruct (BlockList m !! a) as [e0|]; [|by left].
    destruct (hashable e0); [|by left]. intros [= ->]. by right.
  - intros a e Ha Hn. cbn. rewrite Hre. unfold soft_retained. case_decide as Hw; [|done].
    apply (walk_addresses_elem m ks Start Length) in Hw; [|done]. by destruct Hn as [->|Hn].
Qed.

(** ** Registration *)

(** What registration does not touch. *)
Record keeps_blocks (m m' : Map) : Prop := {
  kb_list : BlockList m' = BlockList m;
  kb_ret : keeps_ret m m';
  kb_links : forall L, links_ok m L -> links_ok m' L;
}.

Lemma keeps_blocks_trans m1 m2 m3 : keeps_blocks m1 m2 -> keeps_blocks m2 m3 -> keeps_blocks m1 m3.
Proof. intros [? [] ?] [? [] ?]. split; [congruence|split; congruence|auto]. Qed.

(** The reference, without a memo: append to the list of the page. *)
Definition list_on (Addresses : list Z) (k : Z) (s : bool * gmap Z (list Z)) : bool * gmap Z (list Z) :=
  let v := default [] (s.2 !! k) in (s.1 || bool_decide (v = []), <[k := v ++ Addresses]> s.2).

Lemma page_node_spec k m : memo_ok m -> 0 <= k < 2 ^ 52 ->
  exists m1, page_node k m = (Some k, m1) /\ CodePages m1 !! k = Some (default [] (CodePages m !! k)) /\
    CodePagesMemoIndex m1 = k /\ CodePagesMemoEntry m1 = Some k /\
    (forall v, <[k := v]> (CodePages m1) = <[k := v]> (CodePages m)) /\ keeps_blocks m m1.
Proof.
  intros Hm Hk. unfold page_node. destruct (Z.eqb_spec k (CodePagesMemoIndex m)) as [->|Hne].
  - destruct Hm as [[Hx _]|[Hx [v Hv]]]; [rewrite Hx in Hk; change (u64 (-1)) with (2 ^ 64 - 1) in Hk; lia|].
    exists m. rewrite Hx, Hv. by split_and!.
  - destruct (CodePages m !! k) as [v|] eqn:Ev; eexists; (split; [done|]); cbn.
    + rewrite Ev. by split_and!.
    + rewrite lookup_insert_eq. split_and!; try done. intros v. by rewrite insert_insert_eq.
Qed.

Lemma set_granules_keeps alloc k GS GL m : keeps m (set_granules alloc k GS GL m) /\ keeps_blocks m (set_granules alloc k GS GL m).
Proof. unfold set_granules. by destruct (CodeGranuleBitmap.Enabled (CodeGranules m)). Qed.

Lemma add_code_page_spec alloc As GS GL k rv m : memo_ok m -> 0 <= k < 2 ^ 52 ->
  exists m', add_code_page alloc As GS GL k (rv, m) = Some (((list_on As k (rv, CodePages m)).1, m')) /\
    CodePages m' = (list_on As k (rv, CodePages m)).2 /\ memo_ok m' /\ keeps_blocks m m'.
Proof.
  intros Hm Hk. unfold add_code_page. destruct (page_node_spec k m Hm Hk) as (m1 & -> & Hv & Hi & He & Hins & Hkb).
  cbn [mbind option_bind]. rewrite Hv. cbn [mbind option_bind list_on fst snd]. eexists. split; [done|].
  set (m2 := set_CodePages _ m1). destruct (set_granules_keeps alloc k GS GL m2) as [[Hp Hmi Hme] Hkb2]. split_and!.
  - rewrite Hp. apply Hins.
  - right. rewrite Hp, Hmi, Hme. cbn. rewrite Hi, He, lookup_insert_eq. eauto.
  - eapply keeps_blocks_trans; [exact Hkb|]. eapply keeps_blocks_trans; [|exact Hkb2]. by split.
Qed.

Lemma AddBlockExecutableRange_ref alloc As Start Length GS GL m : memo_ok m -> 0 <= Start -> 0 < Length -> Start + Length <= 2 ^ 64 ->
  exists m', AddBlockExecutableRange alloc As Start Length GS GL m =
      Some ((foldl (fun s k => list_on As k s) (false, CodePages m) (seqZ (first_page Start) (last_page Start Length - first_page Start + 1))).1, m') /\
    CodePages m' = (foldl (fun s k => list_on As k s) (false, CodePages m) (seqZ (first_page Start) (last_page Start Length - first_page Start + 1))).2 /\
    memo_ok m' /\ keeps_blocks m m'.
Proof.
  intros Hm H0 HL Hw. unfold AddBlockExecutableRange. set (ks := seqZ _ _).
  assert (forall k, k ∈ ks -> 0 <= k < 2 ^ 52) as Hks.
  { intros k Hk%elem_of_seqZ. destruct (range_pages Start Length) as (Hf & Hl & _); [done..|]. rewrite Hf, Hl in Hk.
    assert (0 <= Start / 2 ^ 12) by (apply Z.div_pos; lia).
    assert ((Start + Length - 1) / 2 ^ 12 < 2 ^ 52) by (apply Z.div_lt_upper_bound; lia). lia. }
  destruct (each_rule (add_code_page alloc As GS GL) (fun d s => let r := foldl (fun s k => list_on As k s) (false, CodePages m) d in
    s.1 = r.1 /\ CodePages s.2 = r.2 /\ memo_ok s.2 /\ keeps_blocks m s.2) ks (false, m)) as ([rv m'] & Hrun & H1 & H2 & H3 & H4).
  { cbn. by split_and!. }
  { intros d k t [rv s] Heq (H1 & H2 & H3 & H4). cbn [fst snd] in *. destruct (add_code_page_spec alloc As GS GL k rv s H3) as (s' & -> & Hcp & Hm' & Hkb).
    { apply Hks. rewrite Heq. set_solver. }
    eexists. split; [done|]. cbn. rewrite foldl_app. cbn. rewrite Hcp. cbn. rewrite H1, H2.
    split_and!; [done|done|done|by eapply keeps_blocks_trans]. }
  exists m'. rewrite Hrun. cbn in *. by rewrite H1.
Qed.

Lemma list_on_fold As ks rv pages : NoDup ks ->
  let r := foldl (fun s k => list_on As k s) (rv, pages) ks in
  (r.1 = true <-> rv = true \/ exists k, k ∈ ks /\ default [] (pages !! k) = []) /\
  forall k, r.2 !! k = if decide (k ∈ ks) then Some (default [] (pages !! k) ++ As) else pages !! k.
Proof.
  intros Hnd. revert rv pages. induction Hnd as [|k0 ks Hk0 Hnd IH]; intros rv pages; cbn [foldl].
  { cbn. split; [set_solver|]. intros k. rewrite decide_False; [done|apply not_elem_of_nil]. }
  unfold list_on at 2 4. cbn [fst snd]. destruct (IH (rv || bool_decide (default [] (pages !! k0) = [])) (<[k0 := default [] (pages !! k0) ++ As]> pages)) as [H1 H2].
  split.
  - rewrite H1, orb_true_iff, bool_decide_eq_true. split.
    + intros [[?|?]|(k & Hk & He)]; [by left|right; exists k0; split; [left|done]|right; exists k].
      split; [by right|]. rewrite lookup_insert_ne in He by (intros ->; done). done.
    + intros [?|(k & Hk & He)]; [by left; left|]. apply elem_of_cons in Hk as [->|Hk]; [by left; right|].
      right. exists k. split; [done|]. by rewrite lookup_insert_ne by (intros ->; done).
  - intros k. rewrite H2. destruct (decide (k = k0)) as [->|Hne].
    + rewrite decide_False, decide_True, lookup_insert_eq by (done || left). done.
    + rewrite lookup_insert_ne by done. destruct (decide (k ∈ ks)); [rewrite decide_True by (by right)|rewrite decide_False by set_solver]; done.
Qed.

Lemma AddBlockExecutableRange_spec alloc As Start Length GS GL m : map_wf m -> 0 <= Start -> 0 < Length -> Start + Length <= 2 ^ 64 ->
  exists rv m', AddBlockExecutableRange alloc As Start Length GS GL m = Some (rv, m') /\ map_wf m' /\ keeps_blocks m m' /\
    (rv = true <-> exists k, in_range Start Length k /\ default [] (CodePages m !! k) = []) /\
    forall k, CodePages m' !! k = if decide (in_range Start Length k) then Some (default [] (CodePages m !! k) ++ As) else CodePages m !! k.
Proof.
  intros Hwf H0 HL Hw. destruct (AddBlockExecutableRange_ref alloc As Start Length GS GL m (wf_memo m Hwf) H0 HL Hw) as (m' & -> & Hcp & Hm & Hkb).
  destruct (list_on_fold As (seqZ (first_page Start) (last_page Start Length - first_page Start + 1)) false (CodePages m)) as [H1 H2]; [apply NoDup_seqZ|].
  assert (forall k, k ∈ seqZ (first_page Start) (last_page Start Length - first_page Start + 1) <-> in_range Start Length k) as Hin.
  { intros k. rewrite elem_of_seqZ. unfold in_range. lia. }
  rewrite <- Hcp in H2.
  assert (forall k, CodePages m' !! k = if decide (in_range Start Length k) then Some (default [] (CodePages m !! k) ++ As) else CodePages m !! k) as H3.
  { intros k. rewrite H2. destruct (decide (in_range Start Length k)) as [Hr|Hr]; apply Hin in Hr || rewrite <- Hin in Hr;
      [by rewrite decide_True|by rewrite decide_False]. }
  eexists _, m'. split; [done|]. split_and!; [|done| |done].
  - destruct Hkb as [Hb [Hr1 Hr2] Hl]. destruct (wf_links m Hwf) as [L HLk]. split; [eauto|done| |by rewrite Hr1, Hr2; apply (wf_ret m Hwf)].
    intros a e k Ha Hk. rewrite Hb in Ha. destruct (wf_listed m Hwf a e k Ha Hk) as (v & Hv & Hav). rewrite H3.
    case_decide; [|by exists v]. rewrite Hv. eexists. split; [done|]. cbn. apply elem_of_app. by left.
  - rewrite H1. setoid_rewrite Hin. split; [by intros [?|?]|by right].
Qed.

(** ** The other operations *)

Lemma AddBlockMapping_wf a e m : map_wf m -> (forall k, on_page e k -> exists v, CodePages m !! k = Some v /\ a ∈ v) ->
  map_wf (AddBlockMapping a e m).
Proof.
  intros Hwf He. destruct (wf_links m Hwf) as [L HL]. split; [by exists L|apply (wf_memo m Hwf)| |apply (wf_ret m Hwf)].
  intros a' e' k. cbn. intros [[<- <-]|[_ Ha]]%lookup_insert_Some Hk; [by apply He|by eapply wf_listed].
Qed.

Lemma TakeRetainedBlock_spec a m : map_wf m -> let '(o, m') := TakeRetainedBlock a m in
  o = RetainedBlocks m !! a /\ map_wf m' /\ RetainedBlocks m' = delete a (RetainedBlocks m) /\
  BlockList m' = BlockList m /\ CodePages m' = CodePages m /\ BlockLinkPool m' = BlockLinkPool m.
Proof.
  intros Hwf. unfold TakeRetainedBlock. destruct (wf_links m Hwf) as [L HL]. destruct (RetainedBlocks m !! a) as [e|] eqn:Ea.
  - split_and!; try done. split; [by exists L|apply (wf_memo m Hwf)|apply (wf_listed m Hwf)|]. by apply ret_ok_drop; [apply (wf_ret m Hwf)|].
  - split_and!; try done. by rewrite delete_id.
Qed.

Lemma links_frame_wf m m' : map_wf m -> links_frame m m' -> (exists L, links_ok m' L) -> map_wf m'.
Proof.
  intros Hwf (? & ? & ? & ? & ->) HL. split; [done|apply (wf_memo m Hwf)|apply (wf_listed m Hwf)|apply (wf_ret m Hwf)].
Qed.

Lemma ClearCache_wf m : map_wf (ClearCache m).
Proof.
  split; cbn.
  - exists ∅. apply (links_ok_ext (new_map (fun _ => true) false)); [done..|]. apply new_map_links.
  - by left.
  - intros a e k. by rewrite lookup_empty.
  - apply (wf_ret _ (new_map_wf (fun _ => true) false)).
Qed.

(** ** Theorems *)

(** C6: a hard invalidation of a range returns and takes away exactly the blocks that are
    listed on a page of the range, with every block that has code there among them, the
    direct branches into those blocks, the retained blocks with code in the range and the page
    lists; the other blocks, links, retained blocks and lists stay as they are. *)
Theorem InvalidateRange_exact Start Length m L :
  map_wf m -> links_ok m L -> 0 <= Start -> 0 < Length -> Start + Length <= 2 ^ 64 ->
  exists m' L', InvalidateRange Start Length m = Some m' /\ map_wf m' /\ links_ok m' L' /\
    (forall a e, BlockList m' !! a = Some e <-> BlockList m !! a = Some e /\ ~ listed_in m Start Length a) /\
    (forall a e, BlockList m' !! a = Some e \/ RetainedBlocks m' !! a = Some e -> ~ touches e Start Length) /\
    (forall a e, RetainedBlocks m' !! a = Some e <-> RetainedBlocks m !! a = Some e /\ ~ touches e Start Length) /\
    (forall a ls, L' !! a = Some ls <-> L !! a = Some ls /\ ~ listed_in m Start Length a) /\
    (forall k v, CodePages m' !! k = Some v <-> CodePages m !! k = Some v /\ ~ in_range Start Length k).
Proof.
  intros Hwf HL H0 Hlen Hw. destruct (range_pages Start Length H0 Hlen Hw) as (_ & _ & Hlh).
  destruct (InvalidateRange_spec Start Length m L Hwf HL Hlh) as (m' & Hrun & Hwf' & Hd & Hr & L' & HL' & Hl).
  exists m', L'. split_and!; try done; [apply Hd| |apply Hd]. intros a e [Ha|Ha].
  - exact (dropped_untouched Start Length m m' Hwf Hd a e Ha).
  - by apply Hr in Ha as [_ Ha].
Qed.

(** Registering code pages returns whatever the one-entry memo holds, and does what it
    would do without the memo: each page of the range gets the addresses appended to its list,
    no other list changes, and the result says whether some page of the range had none, which
    is when its write protection has to be armed. *)
Theorem AddBlockExecutableRange_exact alloc Addresses Start Length GuestRangeStart GuestRangeLength m :
  map_wf m -> 0 <= Start -> 0 < Length -> Start + Length <= 2 ^ 64 ->
  exists rv m', AddBlockExecutableRange alloc Addresses Start Length GuestRangeStart GuestRangeLength m = Some (rv, m') /\ map_wf m' /\
    BlockList m' = BlockList m /\ RetainedBlocks m' = RetainedBlocks m /\
    (rv = true <-> exists k, in_range Start Length k /\ default [] (CodePages m !! k) = []) /\
    (forall k, CodePages m' !! k =
       if decide (in_range Start Length k) then Some (default [] (CodePages m !! k) ++ Addresses) else CodePages m !! k).
Proof.
  intros Hwf H0 HL Hw.
  destruct (AddBlockExecutableRange_spec alloc Addresses Start Length GuestRangeStart GuestRangeLength m Hwf H0 HL Hw)
    as (rv & m' & Hrun & Hwf' & [Hb [Hr1 Hr2] _] & Hrv & Hcp).
  exists rv, m'. by split_and!.
Qed.

(** ** Witnesses: one block over two pages *)

Definition sample_entry : BlockEntry := Entry.mkBlockEntry 0x7000 0x6ff0 [0x401000; 0x402000] 0x401ff0 32 0 [] [] [] [].

Lemma AddBlockExecutableRange_exact_witness : exists m', AddBlockExecutableRange (fun _ => true) [0x401ff0] 0x401000 0x2000 0x401ff0 32 (new_map (fun _ => true) false) = Some (true, m') /\
  CodePages m' !! 0x402 = Some [0x401ff0].
Proof.
  destruct (AddBlockExecutableRange_exact (fun _ => true) [0x401ff0] 0x401000 0x2000 0x401ff0 32 (new_map (fun _ => true) false))
    as (rv & m' & Hrun & _ & _ & _ & Hrv & Hcp); [apply new_map_wf|lia..|].
  exists m'. replace rv with true in Hrun; [split; [exact Hrun|]; by rewrite Hcp|].
  symmetry. apply Hrv. exists 0x402. by split; [unfold in_range; vm_compute|].
Defined.

Lemma sample_map : exists m, map_wf m /\ BlockList m !! 0x401ff0 = Some sample_entry /\ CodePages m !! 0x402 = Some [0x401ff0].
Proof.
  destruct (AddBlockExecutableRange_spec (fun _ => true) [0x401ff0] 0x401000 0x2000 0x401ff0 32 (new_map (fun _ => true) false))
    as (rv & m & _ & Hwf & _ & _ & Hcp); [apply new_map_wf|lia..|].
  exists (AddBlockMapping 0x401ff0 sample_entry m). split; [|split; [cbn; by rewrite lookup_insert_eq|cbn; by rewrite Hcp]].
  apply AddBlockMapping_wf; [done|]. intros k (p & Hp & <-). exists [0x401ff0]. rewrite Hcp. split; [|by left].
  cbn in Hp. by repeat (apply elem_of_cons in Hp as [->|Hp]); [..|by apply elem_of_nil in Hp].
Qed.

Lemma InvalidateRange_exact_witness : exists m m' L, map_wf m /\ links_ok m L /\ BlockList m !! 0x401ff0 = Some sample_entry /\
  InvalidateRange 0x402000 0x10 m = Some m' /\ BlockList m' !! 0x401ff0 = None.
Proof.
  destruct sample_map as (m & Hwf & Hb & Hp). destruct (wf_links m Hwf) as [L HL].
  destruct (InvalidateRange_exact 0x402000 0x10 m L Hwf HL) as (m' & _ & Hrun & _ & _ & Hbl & _); [lia..|]. exists m, m', L. split_and!; try done.
  destruct (BlockList m' !! 0x401ff0) as [e|] eqn:He; [|done]. apply Hbl in He as [_ []]. exists 0x402, [0x401ff0].
  split_and!; [done|by vm_compute|by left].
Defined.
