(* ===== verification/ThreadCacheProps.v ===== *)
(** * The lookup cache of a thread: bounds and currency

    [cache_geo] describes the layout: the mask of the L1, the pages of the pool, and the one place
    where an entry for a guest address can be.  It makes every access fall into its region.
    [cached_ok G] says that the entries of L1 and L2 are translations that [G] allows, and that
    the pages they were compiled from are noted in [CachedCodePages]. *)

From S2P Require Import Prelude CodeGranules SemanticPatch LookupCache LookupLinks LookupMapProps ThreadCache.
Import LookupCache.

(** ** Arithmetic of the layout *)

Record config_ok (cfg : Config) : Prop := {
  co_mem : exists v, 12 <= v <= 48 /\ VirtualMemSize cfg = 2 ^ v;
  co_align : ThpAlign cfg = 0 \/ exists t, 0 <= t <= 32 /\ ThpAlign cfg = 2 ^ t;
  co_base : 0 < PagePointer cfg;
  co_end : PagePointer cfg + TotalCacheSize cfg <= 2 ^ 64;
}.

Lemma land_mask x n : 0 <= n -> x &&& (2 ^ n - 1) = x mod 2 ^ n.
Proof. intros. rewrite Z.sub_1_r, <- Z.ones_equiv. by apply Z.land_ones. Qed.

Lemma align_up x t : 0 <= t <= 64 -> 0 <= x -> x + 2 ^ t - 1 < 2 ^ 64 ->
  x <= (x + 2 ^ t - 1) &&& u64 (Z.lnot (2 ^ t - 1)) .
Proof.
  intros Ht Hx Hb. assert ((x + 2 ^ t - 1) &&& u64 (Z.lnot (2 ^ t - 1)) = (x + 2 ^ t - 1) - (x + 2 ^ t - 1) mod 2 ^ t) as ->.
  { assert (0 < 2 ^ t) by (apply Z.pow_pos_nonneg; lia).
    replace (2 ^ t - 1) with (Z.ones t) by (rewrite Z.ones_equiv; lia). set (y := x + 2 ^ t - 1) in *.
    replace (x + Z.ones t) with y by (unfold y; rewrite Z.ones_equiv; lia).
    assert (y &&& u64 (Z.lnot (Z.ones t)) = (y >>> t) <<< t) as ->.
    { apply Z.bits_inj'. intros i Hi. rewrite Z.land_spec, u_testbit, Z.lnot_spec, ones_testbit, Z.shiftl_spec by lia.
      destruct (Z.ltb_spec i t); cbn [negb]; [rewrite (Z.testbit_neg_r _ (i - t)) by lia; by rewrite !andb_false_r|].
      rewrite Z.shiftr_spec, andb_true_r by lia. replace (i - t + t) with i by lia.
      destruct (Z.ltb_spec i 64); [by rewrite andb_true_r|]. by rewrite (testbit_high 64 y) by (unfold is_u; lia). }
    rewrite Z.shiftl_mul_pow2, Z.shiftr_div_pow2 by lia. pose proof (Z.div_mod y (2 ^ t) ltac:(lia)). lia. }
  pose proof (Z.mod_pos_bound (x + 2 ^ t - 1) (2 ^ t) ltac:(apply Z.pow_pos_nonneg; lia)). lia.
Qed.

(** The place of a guest address in the L2. *)
Definition l2_index (cfg : Config) (a : Z) : Z := (a &&& (VirtualMemSize cfg - 1)) >>> 12.
Definition l2_offset (a : Z) : Z := a &&& 0xFFF.

Section layout.
  Context (cfg : Config) (Hcfg : config_ok cfg).

Lemma table_span : 0 <= L2TableSize cfg <= L2TableSpan cfg.
Proof using Hcfg.
  destruct (co_mem cfg Hcfg) as (v & Hv & HV). unfold L2TableSpan, L2TableSize. rewrite HV.
  assert (2 ^ v <= 2 ^ 48) by (apply Z.pow_le_mono_r; lia). assert (0 <= 2 ^ v / 4096 <= 2 ^ 36).
  { split; [apply Z.div_pos; lia|]. apply Z.div_le_upper_bound; lia. }
  split; [lia|]. destruct (co_align cfg Hcfg) as [->|(t & Ht & ->)]; [done|].
  rewrite (proj2 (Z.eqb_neq (2 ^ t) 0)) by (pose proof (Z.pow_pos_nonneg 2 t); lia). cbn [negb].
  apply align_up; [lia|lia|]. assert (2 ^ t <= 2 ^ 32) by (apply Z.pow_le_mono_r; lia). lia.
Qed.

Lemma l2_index_bound a : 0 <= a -> 0 <= l2_index cfg a /\ (l2_index cfg a + 1) * 8 <= L2TableSpan cfg.
Proof using Hcfg.
  intros Ha. destruct (co_mem cfg Hcfg) as (v & Hv & HV). unfold l2_index. rewrite HV, land_mask, Z.shiftr_div_pow2 by lia.
  pose proof (Z.mod_pos_bound a (2 ^ v) ltac:(apply Z.pow_pos_nonneg; lia)) as Hm.
  assert (2 ^ v = 2 ^ (v - 12) * 2 ^ 12) as HK by (rewrite <- Z.pow_add_r by lia; f_equal; lia).
  pose proof table_span as Hs. unfold L2TableSize in Hs. rewrite HV, HK in Hs. change 4096 with (2 ^ 12) in Hs.
  rewrite Z.div_mul in Hs by lia. set (K := 2 ^ (v - 12)) in *.
  assert (0 <= a mod 2 ^ v / 2 ^ 12 < K) by (split; [apply Z.div_pos; lia|apply Z.div_lt_upper_bound; lia]). lia.
Qed.

Lemma l2_offset_bound a : 0 <= l2_offset a < 4096.
Proof. unfold l2_offset. change 0xFFF with (2 ^ 12 - 1). rewrite land_mask by lia. apply Z.mod_pos_bound. lia. Qed.

Lemma l2_offset_masked a : (a &&& (VirtualMemSize cfg - 1)) &&& 0xFFF = l2_offset a.
Proof using Hcfg.
  destruct (co_mem cfg Hcfg) as (v & Hv & ->). unfold l2_offset. rewrite <- Z.land_assoc. f_equal.
  change 0xFFF with (2 ^ 12 - 1). rewrite !Z.sub_1_r, <- !Z.ones_equiv. apply Z.bits_inj'. intros i Hi.
  rewrite Z.land_spec, !ones_testbit by lia. zbits_cases; cbn; lia || done.
Qed.

(** A page of the pool. *)
Definition pool_page (p : Z) : Prop := exists j, 0 <= j /\ p = PageMemory cfg + SIZE_PER_PAGE * j /\ SIZE_PER_PAGE * (j + 1) <= CODE_SIZE.

Lemma pool_entry p o : pool_page p -> 0 <= o < 4096 -> in_pool cfg (entry_addr p o) = true /\ p <> 0.
Proof using Hcfg.
  intros (j & Hj & -> & Hjb) Ho. pose proof table_span. pose proof (co_base cfg Hcfg). pose proof (co_end cfg Hcfg) as He.
  unfold TotalCacheSize in He. unfold entry_addr, in_pool, PageMemory in *.
  change SIZE_PER_PAGE with 65536 in *. change CODE_SIZE with 134217728 in *. change sizeof_LookupCacheEntry with 16.
  change MAX_L1_SIZE with 16777216 in *. rewrite u_small by (unfold is_u; lia). split; [|lia]. bool_lia. done.
Qed.

End layout.

(** ** The invariant *)

Definition entry_in (c : Cache) (h g : Z) : Prop := (exists i, L1 c !! i = Some (h, g)) \/ (exists x, Pages c !! x = Some (h, g)).

Record cache_geo (cfg : Config) (c : Cache) : Prop := {
  cg_mask : exists n, 13 <= n <= 20 /\ L1PointerMask c = 2 ^ n - 1 /\ (DynamicL1Cache cfg = true -> CurrentL1Entries c = 2 ^ n) /\
    State_L1Mask c = scaled_mask (L1PointerMask c);
  cg_off : exists j, 0 <= j /\ AllocateOffset c = SIZE_PER_PAGE * j /\ AllocateOffset c < CODE_SIZE;
  cg_ptr : forall i p, Pointers c !! i = Some p -> pool_page cfg p;
  cg_l1 : forall i h g, L1 c !! i = Some (h, g) -> g <> 0 -> i = l1_index c g;
  cg_l2 : forall x h g, Pages c !! x = Some (h, g) -> g <> 0 ->
    exists p, Pointers c !! l2_index cfg g = Some p /\ x = entry_addr p (l2_offset g);
  cg_nol2 : DisableL2Cache cfg = true -> Pages c = ∅;
  cg_memo : CachedCodePagesMemoIndex c = u64 (-1) /\ CachedCodePagesMemoEntry c = None \/
    CachedCodePagesMemoEntry c = Some (CachedCodePagesMemoIndex c) /\ is_Some (CachedCodePages c !! CachedCodePagesMemoIndex c);
  cg_notes : forall k s g, CachedCodePages c !! k = Some s -> g ∈ s -> is_u 64 g;
}.

Definition noted (c : Cache) (g : Z) (pages : list Z) : Prop := forall p, p ∈ pages -> g ∈ default ∅ (CachedCodePages c !! (p >>> 12)).

Definition cached_ok (G : Z -> Z -> list Z -> Prop) (c : Cache) : Prop :=
  forall h g, g <> 0 -> entry_in c h g -> exists pages, G g h pages /\ noted c g pages.

(** [l1] accesses are in bounds. *)
Lemma l1_at_ok cfg c a : cache_geo cfg c -> 0 <= a ->
  l1_at c (l1_index c a) = Some (default (0, 0) (L1 c !! l1_index c a)).
Proof.
  intros Hg Ha. destruct (cg_mask cfg c Hg) as (n & Hn & Hm & _). unfold l1_at. unfold l1_index at 1 2. rewrite Hm, land_mask by lia.
  pose proof (Z.mod_pos_bound a (2 ^ n) ltac:(apply Z.pow_pos_nonneg; lia)). assert (2 ^ n <= 2 ^ 20) by (apply Z.pow_le_mono_r; lia).
  change MAX_L1_SIZE with (2 ^ 20 * 16). change sizeof_LookupCacheEntry with 16. by bool_lia.
Qed.

Lemma pointer_at_ok cfg c a : config_ok cfg -> 0 <= a -> pointer_at cfg c (l2_index cfg a) = Some (default 0 (Pointers c !! l2_index cfg a)).
Proof.
  intros Hcfg Ha. destruct (l2_index_bound cfg Hcfg a Ha). unfold pointer_at. by bool_lia.
Qed.

(** The pointer of a page is null or leads into the pool. *)
Lemma pointer_cases cfg c i : config_ok cfg -> cache_geo cfg c -> default 0 (Pointers c !! i) = 0 /\ Pointers c !! i = None \/
  exists p, Pointers c !! i = Some p /\ default 0 (Pointers c !! i) = p /\ pool_page cfg p /\ p <> 0.
Proof.
  intros Hcfg Hg. destruct (Pointers c !! i) as [p|] eqn:E; [right|by left]. pose proof (cg_ptr cfg c Hg i p E) as Hp.
  exists p. split_and!; try done. apply (pool_entry cfg Hcfg p 0); [done|lia].
Qed.

Lemma entry_at_ok cfg c p o : config_ok cfg -> pool_page cfg p -> 0 <= o < 4096 ->
  entry_at cfg c (entry_addr p o) = Some (default (0, 0) (Pages c !! entry_addr p o)).
Proof. intros Hcfg Hp Ho. unfold entry_at. by destruct (pool_entry cfg Hcfg p o Hp Ho) as [-> _]. Qed.

(** ** Updates that keep the layout *)

Section updates.
  Context (cfg : Config) (Hcfg : config_ok cfg).

Lemma geo_L1 l c : cache_geo cfg c -> (forall i h g, l !! i = Some (h, g) -> g <> 0 -> i = l1_index c g) -> cache_geo cfg (set_L1 l c).
Proof. intros [] Hl. by split. Qed.

Lemma geo_put_l1 h g a c : cache_geo cfg c -> g = a \/ g = 0 -> cache_geo cfg (put_l1 (l1_index c a) (h, g) c).
Proof.
  intros Hg Hga. apply geo_L1; [done|]. intros i h' g' [[<- [= <- <-]]|[_ Hi]]%lookup_insert_Some Hg'.
  - by destruct Hga as [->| ->].
  - by eapply cg_l1.
Qed.

Lemma geo_put_entry p h g a c : DisableL2Cache cfg = false -> cache_geo cfg c -> Pointers c !! l2_index cfg a = Some p -> g = a \/ g = 0 ->
  cache_geo cfg (put_entry (entry_addr p (l2_offset a)) (h, g) c).
Proof.
  intros Hd Hg Hp Hga. pose proof (cg_l2 cfg c Hg) as H2. destruct Hg. split; try done; cbn.
  - intros x h' g' [[<- [= <- <-]]|[_ Hi]]%lookup_insert_Some Hg'; [|by eapply H2].
    destruct Hga as [->| ->]; [by exists p|done].
  - congruence.
Qed.

(** A page is added to the pool. *)
Lemma geo_new_page a c p off : cache_geo cfg c -> Pointers c !! l2_index cfg a = None -> pool_page cfg p ->
  (exists j, 0 <= j /\ off = SIZE_PER_PAGE * j /\ off < CODE_SIZE) ->
  cache_geo cfg (set_L2 (<[l2_index cfg a := p]> (Pointers c)) (Pages c) off c).
Proof.
  intros Hg Hn Hp Hoff. pose proof (cg_l2 cfg c Hg) as H2. pose proof (cg_ptr cfg c Hg) as Hq. destruct Hg. split; try done; cbn.
  - intros i q [[<- <-]|[_ Hi]]%lookup_insert_Some; [done|by eapply Hq].
  - intros x h g Hx Hg. destruct (H2 x h g Hx Hg) as (q & Hqg & ->). exists q. split; [|done].
    rewrite lookup_insert_ne; [done|]. intros E. by rewrite E, Hqg in Hn.
Qed.

Lemma geo_ClearL2 c : cache_geo cfg c -> cache_geo cfg (ClearL2Cache c).
Proof.
  intros []. split; try done; cbn.
  exists 0. split_and!; done.
Qed.

(** [AllocateBackingForPage] hands out the next page of the pool, or none. *)
Lemma AllocateBackingForPage_spec c : cache_geo cfg c ->
  AllocateBackingForPage cfg c = (0, c) /\ CODE_SIZE <= AllocateOffset c + SIZE_PER_PAGE \/
  exists p, AllocateBackingForPage cfg c = (p, set_L2 (Pointers c) (Pages c) (AllocateOffset c + SIZE_PER_PAGE) c) /\ pool_page cfg p /\
    exists j, 0 <= j /\ AllocateOffset c + SIZE_PER_PAGE = SIZE_PER_PAGE * j /\ AllocateOffset c + SIZE_PER_PAGE < CODE_SIZE.
Proof using Hcfg.
  intros Hg. destruct (cg_off cfg c Hg) as (j & Hj & Hoff & Hlt). unfold AllocateBackingForPage.
  destruct (Z.leb_spec CODE_SIZE (AllocateOffset c + SIZE_PER_PAGE)) as [Hf|Hf]; [by left|right].
  exists (PageMemory cfg + AllocateOffset c). split; [done|]. split.
  - exists j. rewrite Hoff in *. split_and!; [done|done|]. change SIZE_PER_PAGE with 65536 in *. lia.
  - exists (j + 1). rewrite Hoff. split_and!; [lia|lia|]. rewrite <- Hoff. done.
Qed.

(** *** Noting the code pages *)

Record same_tables (c c' : Cache) : Prop := {
  st_shared : Shared c' = Shared c;
  st_l1 : L1 c' = L1 c;
  st_pages : Pages c' = Pages c;
  st_off : AllocateOffset c' = AllocateOffset c;
}.

Lemma note_code_page_spec a p c : cache_geo cfg c -> is_u 64 a -> is_u 64 p ->
  exists c', note_code_page a p c = Some c' /\ cache_geo cfg c' /\ same_tables c c' /\
    (forall k g, g ∈ default ∅ (CachedCodePages c' !! k) <-> g ∈ default ∅ (CachedCodePages c !! k) \/ g = a /\ p >>> 12 = k).
Proof.
  intros Hg Ha Hp. unfold note_code_page. set (k0 := p >>> 12).
  assert (0 <= k0 < 2 ^ 52) as Hk0.
  { unfold k0. rewrite Z.shiftr_div_pow2 by lia. unfold is_u in Hp. split; [apply Z.div_pos|apply Z.div_lt_upper_bound]; lia. }
  set (c1 := if negb (k0 =? CachedCodePagesMemoIndex c) then _ else c).
  assert (CachedCodePagesMemoIndex c1 = k0 /\ CachedCodePagesMemoEntry c1 = Some k0 /\
    CachedCodePages c1 !! k0 = Some (default ∅ (CachedCodePages c !! k0)) /\
    (forall k, k <> k0 -> CachedCodePages c1 !! k = CachedCodePages c !! k) /\ same_tables c c1 /\ cache_geo cfg c1) as (Hi & He & Hs & Ho & Ht & Hg1).
  { unfold c1. destruct (Z.eqb_spec k0 (CachedCodePagesMemoIndex c)) as [E|E]; cbn [negb].
    - destruct (cg_memo cfg c Hg) as [[Hx _]|[Hx [s Hs]]].
      + rewrite <- E in Hx. change (u64 (-1)) with (2 ^ 64 - 1) in Hx. lia.
      + rewrite Hx, <- E in *. by rewrite Hs.
    - cbn. rewrite lookup_insert_eq. split_and!; try done; [intros k Hk; by rewrite lookup_insert_ne|].
      pose proof (cg_notes cfg c Hg) as Hu. destruct Hg. split; try done.
      + right. cbn. rewrite lookup_insert_eq. eauto.
      + intros k s g. cbn. intros [[<- <-]|[_ Hk]]%lookup_insert_Some; [|by eapply Hu].
        destruct (CachedCodePages c !! k0) eqn:E0; [by eapply Hu|]. cbn. set_solver. }
  clearbody c1. rewrite He. cbn [mbind option_bind]. rewrite Hs. cbn [mbind option_bind]. eexists. split; [done|]. split_and!.
  - pose proof (cg_notes cfg c1 Hg1) as Hu. destruct Hg1. split; try done.
    + right. cbn. rewrite Hi, lookup_insert_eq. eauto.
    + intros k s g. cbn. intros [[<- <-]|[_ Hk]]%lookup_insert_Some; [|by eapply Hu].
      intros [Hx| ->%elem_of_singleton]%elem_of_union; [by eapply Hu|done].
  - by destruct Ht.
  - intros k g. cbn. destruct (decide (k = k0)) as [->|Hk].
    + rewrite lookup_insert_eq. cbn. rewrite elem_of_union, elem_of_singleton. tauto.
    + rewrite lookup_insert_ne, Ho by done. split; [by left|]. intros [?|[_ E]]; [done|]. by destruct Hk.
Qed.

Lemma note_pages_spec a ps c : cache_geo cfg c -> is_u 64 a -> Forall (is_u 64) ps ->
  exists c', each (note_code_page a) ps c = Some c' /\ cache_geo cfg c' /\ same_tables c c' /\ noted c' a ps /\
    (forall g pages, noted c g pages -> noted c' g pages).
Proof.
  intros Hg Ha Hps. apply (each_rule _ (fun d s => cache_geo cfg s /\ same_tables c s /\ noted s a d /\ (forall g pages, noted c g pages -> noted s g pages))).
  { split_and!; try done. intros p Hp. by apply elem_of_nil in Hp. }
  intros d p t s Heq (Hgs & Ht & Hn & Hm). destruct (note_code_page_spec a p s Hgs Ha) as (s' & -> & Hgs' & Ht' & Hc).
  { rewrite Forall_forall in Hps. apply Hps. rewrite Heq. apply elem_of_app. right. left. }
  exists s'. split; [done|]. split_and!; [done|destruct Ht, Ht'; split; congruence| |].
  - intros q [Hq|[->|Hq%elem_of_nil]%elem_of_cons]%elem_of_app; [|apply Hc; by right|done]. apply Hc. left. by apply Hn.
  - intros g pages Hnp q Hq. apply Hc. left. by apply (Hm g pages).
Qed.

End updates.

(** ** Filling the caches *)

Section operations.
  Context (cfg : Config) (Hcfg : config_ok cfg).
  Context (G : Z -> Z -> list Z -> Prop).

Lemma cached_put_l1 i h g c : cached_ok G c -> (g <> 0 -> exists pages, G g h pages /\ noted c g pages) -> cached_ok G (put_l1 i (h, g) c).
Proof.
  intros Hc Hn h' g' Hg' [(j & Hj)|Hx].
  - cbn in Hj. apply lookup_insert_Some in Hj as [[_ [= <- <-]]|[_ Hj]]; [by apply Hn|]. apply (Hc h' g' Hg'). left. eauto.
  - apply (Hc h' g' Hg'). by right.
Qed.

Lemma cached_put_entry x h g c : cached_ok G c -> (g <> 0 -> exists pages, G g h pages /\ noted c g pages) -> cached_ok G (put_entry x (h, g) c).
Proof.
  intros Hc Hn h' g' Hg' [Hj|(j & Hj)].
  - apply (Hc h' g' Hg'). by left.
  - cbn in Hj. apply lookup_insert_Some in Hj as [[_ [= <- <-]]|[_ Hj]]; [by apply Hn|]. apply (Hc h' g' Hg'). right. eauto.
Qed.

Lemma cached_tables c c' : same_tables c c' -> (forall g pages, noted c g pages -> noted c' g pages) -> cached_ok G c -> cached_ok G c'.
Proof.
  intros [_ H1 H2 _] Hn Hc h g Hg Hin. destruct (Hc h g Hg) as (pages & Hp & Hnp); [|eauto]. unfold entry_in in *. by rewrite <- H1, <- H2.
Qed.

(** The first try fails only when the pool is used up; with an empty L2 it cannot. *)
Lemma CacheBlockMapping_try n a e l1only c : cache_geo cfg c -> cached_ok G c -> is_u 64 a -> Forall (is_u 64) (Entry.CodePages e) ->
  G a (Entry.HostCode e) (Entry.CodePages e) ->
  (exists c', CacheBlockMapping cfg (S n) a e l1only c = Some c' /\ cache_geo cfg c' /\ cached_ok G c' /\ Shared c' = Shared c) \/
  CODE_SIZE <= AllocateOffset c + SIZE_PER_PAGE /\
  exists c', CacheBlockMapping cfg (S n) a e l1only c = CacheBlockMapping cfg n a e false (ClearL2Cache c') /\
    cache_geo cfg c' /\ cached_ok G c' /\ Shared c' = Shared c.
Proof using Hcfg.
  intros Hg Hc Ha Hps HG. cbn [CacheBlockMapping].
  destruct (note_pages_spec cfg a (Entry.CodePages e) c Hg Ha Hps) as (c1 & -> & Hg1 & Ht & Hn & Hnm). cbn [mbind option_bind].
  assert (0 <= a) as Ha0 by (unfold is_u in Ha; lia).
  rewrite (l1_at_ok cfg c1 a) by done. cbn [mbind option_bind].
  pose proof (cached_tables c c1 Ht Hnm Hc) as Hc1.
  assert (exists pages, G a (Entry.HostCode e) pages /\ noted c1 a pages) as Hex by eauto.
  pose proof (geo_put_l1 cfg (Entry.HostCode e) a a c1 Hg1 (or_introl eq_refl)) as Hg2.
  pose proof (cached_put_l1 (l1_index c1 a) (Entry.HostCode e) a c1 Hc1 (fun _ => Hex)) as Hc2.
  set (c2 := put_l1 _ _ c1) in *.
  assert (Shared c2 = Shared c) as Hs by (cbn; apply (st_shared _ _ Ht)).
  assert (AllocateOffset c2 = AllocateOffset c1) as Hoff2 by done.
  assert (forall c', CachedCodePages c' = CachedCodePages c2 -> exists pages, G a (Entry.HostCode e) pages /\ noted c' a pages) as Hex2.
  { intros c' E. destruct Hex as (pages & ? & Hnn). exists pages. split; [done|]. unfold noted. by rewrite E. }
  destruct (DisableL2Cache cfg) eqn:Hd; cbn [negb andb]; [left; by exists c2|]. destruct l1only; cbn [negb andb]; [left; by exists c2|].
  fold (l2_index cfg a). rewrite pointer_at_ok by done. cbn [mbind option_bind]. rewrite (l2_offset_masked cfg Hcfg).
  pose proof (l2_offset_bound a) as Hob.
  destruct (pointer_cases cfg c2 (l2_index cfg a) Hcfg Hg2) as [[-> Hnone]|(p & Hp & -> & Hpp & Hp0)].
  - rewrite Z.eqb_refl. destruct (AllocateBackingForPage_spec cfg Hcfg c2 Hg2) as [[-> Hfull]|(p & -> & Hpp & Hj)].
    + right. rewrite Z.eqb_refl. split; [|by exists c2]. by rewrite Hoff2, (st_off _ _ Ht) in Hfull.
    + left. destruct (pool_entry cfg Hcfg p 0 Hpp ltac:(lia)) as [_ Hp0]. rewrite (proj2 (Z.eqb_neq p 0)) by done.
      pose proof (geo_new_page cfg a c2 p _ Hg2 Hnone Hpp Hj) as Hg3. cbn [Pointers set_L2 Pages AllocateOffset] in *.
      rewrite entry_at_ok by done. cbn [mbind option_bind]. eexists. split; [done|]. split_and!; [| |done].
      * apply geo_put_entry; [done|exact Hg3|cbn; apply lookup_insert_eq|by left].
      * apply cached_put_entry; [|intros _; by apply Hex2]. exact Hc2.
  - left. rewrite (proj2 (Z.eqb_neq p 0)) by done. rewrite entry_at_ok by done. cbn [mbind option_bind].
    eexists. split; [done|]. split_and!; [| |done].
    + apply geo_put_entry; [done|done|done|by left].
    + apply cached_put_entry; [done|intros _; by apply Hex2].
Qed.

(** Two tries always suffice. *)
Lemma CacheBlockMapping_spec a e l1only c : cache_geo cfg c -> cached_ok G c -> is_u 64 a -> Forall (is_u 64) (Entry.CodePages e) ->
  G a (Entry.HostCode e) (Entry.CodePages e) ->
  exists c', CacheBlockMapping cfg retries a e l1only c = Some c' /\ cache_geo cfg c' /\ cached_ok G c' /\ Shared c' = Shared c.
Proof using Hcfg.
  intros Hg Hc Ha Hps HG. unfold retries.
  destruct (CacheBlockMapping_try 1 a e l1only c Hg Hc Ha Hps HG) as [?|(_ & c1 & -> & Hg1 & Hc1 & Hs1)]; [done|].
  assert (cached_ok G (ClearL2Cache c1)) as Hc2.
  { intros h g Hgn [Hx|(x & Hx)]; [apply (Hc1 h g Hgn); by left|]. cbn in Hx. by rewrite lookup_empty in Hx. }
  destruct (CacheBlockMapping_try 0 a e false (ClearL2Cache c1) (geo_ClearL2 cfg c1 Hg1) Hc2 Ha Hps HG)
    as [(c' & ? & ? & ? & Hs)|(Hfull & _)]; [exists c'; split_and!; try done; by rewrite Hs|]. cbn in Hfull. exfalso.
  change SIZE_PER_PAGE with 65536 in Hfull. change CODE_SIZE with 134217728 in Hfull. lia.
Qed.

(** *** Resizing the L1 *)

Lemma resize_ok n c : DynamicL1Cache cfg = true -> 13 <= n <= 20 -> cache_geo cfg c -> cached_ok G c ->
  cache_geo cfg (resize (2 ^ n) c) /\ cached_ok G (resize (2 ^ n) c) /\ Shared (resize (2 ^ n) c) = Shared c.
Proof.
  intros Hdyn Hn Hg Hc. split_and!; [| |done].
  - destruct Hg. split; try done. exists n. by split; [|split_and!].
  - intros h g Hgn [(i & Hi)|Hx]; [cbn in Hi; by rewrite lookup_empty in Hi|]. apply (Hc h g Hgn). by right.
Qed.

Lemma set_stats_ok h p c : cache_geo cfg c -> cached_ok G c -> cache_geo cfg (set_stats h p c) /\ cached_ok G (set_stats h p c).
Proof. intros Hg Hc. split; [destruct Hg; by split|done]. Qed.

Lemma UpdateDynamicL1Stats_ok now c : DynamicL1Cache cfg = true -> cache_geo cfg c -> cached_ok G c ->
  cache_geo cfg (UpdateDynamicL1Stats cfg now c) /\ cached_ok G (UpdateDynamicL1Stats cfg now c) /\ Shared (UpdateDynamicL1Stats cfg now c) = Shared c.
Proof.
  intros Hdyn Hg Hc. unfold UpdateDynamicL1Stats. destruct (set_stats_ok (u64 (L2L3CacheHits c + 1)) (LastPeriod c) c Hg Hc) as [Hg1 Hc1].
  set (c1 := set_stats _ _ c) in *. assert (Shared c1 = Shared c) as Hs by done. clearbody c1.
  destruct (SamplePeriod <=? now - LastPeriod c1); [|done].
  destruct (cg_mask cfg c1 Hg1) as (n & Hn & _ & HC & _). specialize (HC Hdyn).
  assert (forall c2, cache_geo cfg c2 /\ cached_ok G c2 /\ Shared c2 = Shared c ->
    cache_geo cfg (set_stats 0 now c2) /\ cached_ok G (set_stats 0 now c2) /\ Shared (set_stats 0 now c2) = Shared c) as Hfin.
  { intros c2 (Hg2 & Hc2 & Hs2). destruct (set_stats_ok 0 now c2 Hg2 Hc2). done. }
  destruct (average cfg (L2L3CacheHits c1) (now - LastPeriod c1)); apply Hfin; [|done|].
  - destruct (Z.ltb_spec (CurrentL1Entries c1) MAX_L1_ENTRIES) as [Hlt|]; [|done]. rewrite HC in *. change MAX_L1_ENTRIES with (2 ^ 20) in Hlt.
    apply Z.pow_lt_mono_r_iff in Hlt; [|lia|lia]. rewrite Z.shiftl_mul_pow2, <- Z.pow_add_r by lia. rewrite <- Hs. apply resize_ok; (done || lia).
  - destruct (Z.ltb_spec MIN_L1_ENTRIES (CurrentL1Entries c1)) as [Hlt|]; [|done]. rewrite HC in *. change MIN_L1_ENTRIES with (2 ^ 13) in Hlt.
    apply Z.pow_lt_mono_r_iff in Hlt; [|lia|lia].
    replace (2 ^ n >>> 1) with (2 ^ (n - 1)); [rewrite <- Hs; apply resize_ok; (done || lia)|].
    rewrite Z.shiftr_div_pow2 by lia. replace n with (n - 1 + 1) at 2 by lia. rewrite Z.pow_add_r by lia. by rewrite Z.div_mul by lia.
Qed.


(** *** Lookup *)

Definition entry_ok (a : Z) (e : BlockEntry) : Prop :=
  is_u 64 a /\ Forall (is_u 64) (Entry.CodePages e) /\ G a (Entry.HostCode e) (Entry.CodePages e).

Lemma l1_entry_ok c i a : cached_ok G c -> a <> 0 -> (default (0, 0) (L1 c !! i)).2 = a ->
  exists pages, G a (default (0, 0) (L1 c !! i)).1 pages /\ noted c a pages.
Proof.
  intros Hc Ha E. destruct (L1 c !! i) as [[h g]|] eqn:Ei; cbn in *; [|by subst]. subst g. apply (Hc h a Ha). left. eauto.
Qed.

Lemma probe_L2_ok a c : cache_geo cfg c -> cached_ok G c -> is_u 64 a ->
  exists h c', probe_L2 cfg a c = Some (h, c') /\ cache_geo cfg c' /\ cached_ok G c' /\ Shared c' = Shared c /\
    (a <> 0 -> h <> 0 -> exists pages, G a h pages).
Proof using Hcfg.
  intros Hg Hc Ha. unfold probe_L2. destruct (DisableL2Cache cfg) eqn:Hd; cbn [negb]; [exists 0, c; by split_and!|].
  assert (0 <= a) as Ha0 by (unfold is_u in Ha; lia). fold (l2_index cfg a). fold (l2_offset a).
  rewrite pointer_at_ok by done. cbn [mbind option_bind]. pose proof (l2_offset_bound a) as Hob.
  destruct (pointer_cases cfg c (l2_index cfg a) Hcfg Hg) as [[-> Hnone]|(p & Hp & -> & Hpp & Hp0)]; [exists 0, c; by split_and!|].
  rewrite (proj2 (Z.eqb_neq p 0)) by done. cbn [negb]. rewrite entry_at_ok by done. cbn [mbind option_bind].
  destruct (Pages c !! entry_addr p (l2_offset a)) as [[h g]|] eqn:Ex; unfold default, id; cbn [from_option fst snd].
  - destruct (Z.eqb_spec g a) as [->|Hne]; [|exists 0, c; by split_and!].
    assert (a <> 0 -> exists pages, G a h pages /\ noted c a pages) as Hex.
    { intros Hn. apply (Hc h a Hn). right. eauto. }
    eexists h, _. split; [done|]. split_and!; [by apply geo_put_l1; [|left]|by apply cached_put_l1|done|].
    intros Hn _. destruct (Hex Hn) as (pages & ? & _). eauto.
  - destruct (Z.eqb_spec 0 a) as [<-|Hne]; [|exists 0, c; by split_and!].
    eexists 0, _. split; [done|]. split_and!; [by apply geo_put_l1; [|left]|by apply cached_put_l1|done|done].
Qed.

(** A lookup returns, keeps the invariant, and what it finds is allowed. *)
Lemma FindBlock_ok now m a c : cache_geo cfg c -> cached_ok G c -> is_u 64 a ->
  (forall e, GuestToHostMap.FindBlock m a = Some e -> entry_ok a e) ->
  exists h c', FindBlock cfg now m a c = Some (h, c') /\ cache_geo cfg c' /\ cached_ok G c' /\ Shared c' = Shared c /\
    (a <> 0 -> h <> 0 -> exists pages, G a h pages).
Proof using Hcfg.
  intros Hg Hc Ha Hm. assert (0 <= a) as Ha0 by (unfold is_u in Ha; lia). unfold FindBlock. rewrite (l1_at_ok cfg) by done. cbn [mbind option_bind].
  destruct (Z.eqb_spec (default (0, 0) (L1 c !! l1_index c a)).2 a) as [E|_].
  { eexists _, c. split; [done|]. split_and!; try done. intros Hn _. destruct (l1_entry_ok c (l1_index c a) a Hc Hn E) as (pages & ? & _). eauto. }
  destruct (probe_L2_ok a c Hg Hc Ha) as (h1 & c1 & -> & Hg1 & Hc1 & Hs1 & Hh1). cbn [mbind option_bind].
  assert (exists h c', (if h1 =? 0 then
      match GuestToHostMap.FindBlock m a with
      | Some Entry => c ← CacheBlockMapping cfg retries a Entry false c1; Some (Entry.HostCode Entry, c)
      | None => Some (0, c1)
      end else Some (h1, c1)) = Some (h, c') /\ cache_geo cfg c' /\ cached_ok G c' /\ Shared c' = Shared c /\
      (a <> 0 -> h <> 0 -> exists pages, G a h pages)) as (h & c2 & -> & Hg2 & Hc2 & Hs2 & Hh2).
  { destruct (Z.eqb_spec h1 0) as [->|_]; [|by exists h1, c1]. destruct (GuestToHostMap.FindBlock m a) as [e|] eqn:Em.
    - destruct (Hm e eq_refl) as (_ & Hps & HG). destruct (CacheBlockMapping_spec a e false c1 Hg1 Hc1 Ha Hps HG) as (c2 & -> & ? & ? & Hs2).
      cbn [mbind option_bind]. eexists _, c2. split; [done|]. split_and!; try done; [by rewrite Hs2|eauto].
    - exists 0, c1. by split_and!. }
  cbn [mbind option_bind]. exists h. destruct (DynamicL1Cache cfg) eqn:Hdyn; [|rewrite andb_false_r; by exists c2]. rewrite andb_true_r.
  destruct (negb (h =? 0)); [|by exists c2]. eexists. split; [done|].
  destruct (UpdateDynamicL1Stats_ok now c2 Hdyn Hg2 Hc2) as (? & ? & Hs3). split_and!; try done. by rewrite Hs3.
Qed.

End operations.

(** ** Invalidation *)

Section invalidation.
  Context (cfg : Config) (Hcfg : config_ok cfg).

(** What [InvalidateCache] leaves alone. *)
Record same_notes (c c' : Cache) : Prop := {
  sn_shared : Shared c' = Shared c;
  sn_cached : CachedCodePages c' = CachedCodePages c;
}.

(** Only entries of other addresses survive, and none appears. *)
Lemma InvalidateCache_ok a c : cache_geo cfg c -> is_u 64 a ->
  exists c', InvalidateCache cfg a c = Some c' /\ cache_geo cfg c' /\ same_notes c c' /\
    forall h g, g <> 0 -> entry_in c' h g -> entry_in c h g /\ g <> a.
Proof using Hcfg.
  intros Hg Ha. assert (0 <= a) as Ha0 by (unfold is_u in Ha; lia). unfold InvalidateCache. rewrite (l1_at_ok cfg) by done. cbn [mbind option_bind].
  set (L := default (0, 0) (L1 c !! l1_index c a)). set (c1 := if L.2 =? a then _ else c).
  assert (cache_geo cfg c1 /\ same_notes c c1 /\ Pointers c1 = Pointers c /\ Pages c1 = Pages c /\
    forall i h g, g <> 0 -> L1 c1 !! i = Some (h, g) -> L1 c !! i = Some (h, g) /\ g <> a) as (Hg1 & Hn1 & Hp1 & Hx1 & Hl1).
  { unfold c1. destruct (Z.eqb_spec L.2 a) as [E|E].
    - split_and!; try done; [by apply geo_put_l1; [|right]|]. intros i h g Hgn. cbn [put_l1 L1 set_L1].
      intros [[_ [= _ Hz]]|[Hi Hx]]%lookup_insert_Some; [by destruct Hgn|].
      split; [done|]. intros Hga. apply Hi. symmetry. rewrite <- Hga. by apply (cg_l1 cfg c Hg i h g).
    - split_and!; try done. intros i h g Hgn Hx. split; [done|]. intros Hga. apply E. unfold L. rewrite <- Hga.
      by rewrite <- (cg_l1 cfg c Hg i h g Hx Hgn), Hx. }
  clearbody c1. assert (forall x h g, g <> 0 -> Pages c1 !! x = Some (h, g) -> g = a ->
    DisableL2Cache cfg = false /\ exists p, Pointers c1 !! l2_index cfg a = Some p /\ x = entry_addr p (l2_offset a)) as Hwhere.
  { intros x h g Hgn Hx ->. split; [|by apply (cg_l2 cfg c1 Hg1 x h a)]. destruct (DisableL2Cache cfg) eqn:Hd; [|done].
    by rewrite (cg_nol2 cfg c1 Hg1 Hd), lookup_empty in Hx. }
  assert (forall c', L1 c' = L1 c1 -> (forall x h g, g <> 0 -> Pages c' !! x = Some (h, g) -> Pages c1 !! x = Some (h, g) /\ g <> a) ->
    forall h g, g <> 0 -> entry_in c' h g -> entry_in c h g /\ g <> a) as Hfin.
  { intros c' EL HP h g Hgn [(i & Hi)|(x & Hx)].
    - rewrite EL in Hi. destruct (Hl1 i h g Hgn Hi). split; [left; eauto|done].
    - destruct (HP x h g Hgn Hx) as [Hx' ?]. rewrite Hx1 in Hx'. split; [right; eauto|done]. }
  destruct (DisableL2Cache cfg) eqn:Hd; cbn [negb].
  { exists c1. split_and!; try done. apply Hfin; [done|]. intros x h g Hgn Hx. split; [done|]. intros ->.
    by destruct (Hwhere x h a Hgn Hx eq_refl). }
  fold (l2_index cfg a). rewrite pointer_at_ok, (l2_offset_masked cfg Hcfg) by done. cbn [mbind option_bind].
  pose proof (l2_offset_bound a) as Hob.
  destruct (pointer_cases cfg c1 (l2_index cfg a) Hcfg Hg1) as [[-> Hnone]|(p & Hp & -> & Hpp & Hp0)].
  - rewrite Z.eqb_refl. exists c1. split_and!; try done. apply Hfin; [done|]. intros x h g Hgn Hx. split; [done|]. intros ->.
    destruct (Hwhere x h a Hgn Hx eq_refl) as (_ & p & Hp & _). congruence.
  - rewrite (proj2 (Z.eqb_neq p 0)) by done. rewrite entry_at_ok by done. cbn [mbind option_bind]. eexists. split; [done|].
    split_and!; [by apply geo_put_entry; [..|right]|by destruct Hn1|]. apply Hfin; [done|].
    intros x h g Hgn. cbn. intros [[_ [= _ Hz]]|[Hi Hx]]%lookup_insert_Some; [by destruct Hgn|]. split; [done|]. intros ->.
    destruct (Hwhere x h a Hgn Hx eq_refl) as (_ & q & Hq & ->). apply Hi. congruence.
Qed.

Lemma InvalidateCache_list l c : cache_geo cfg c -> Forall (is_u 64) l ->
  exists c', each (InvalidateCache cfg) l c = Some c' /\ cache_geo cfg c' /\ same_notes c c' /\
    forall h g, g <> 0 -> entry_in c' h g -> entry_in c h g /\ g ∉ l.
Proof using Hcfg.
  intros Hg Hl. apply (each_rule _ (fun d s => cache_geo cfg s /\ same_notes c s /\ forall h g, g <> 0 -> entry_in s h g -> entry_in c h g /\ g ∉ d)).
  { split_and!; try done. intros h g _ Hin. split; [done|]. apply not_elem_of_nil. }
  intros d a t s Heq (Hgs & Hns & Hin). destruct (InvalidateCache_ok a s Hgs) as (s' & -> & Hgs' & Hns' & Hin').
  { rewrite Forall_forall in Hl. apply Hl. rewrite Heq. apply elem_of_app. right. left. }
  exists s'. split; [done|]. split_and!; [done|destruct Hns, Hns'; split; congruence|]. intros h g Hgn Hx.
  destruct (Hin' h g Hgn Hx) as [Hy Hna]. destruct (Hin h g Hgn Hy). split; [done|]. set_solver.
Qed.

(** After [InvalidateCacheRange] only translations without code in the range are cached. *)
Lemma InvalidateCacheRange_ok G G' Start Length c : cache_geo cfg c -> cached_ok G c ->
  first_page Start <= last_page Start Length ->
  (forall a h pages, G a h pages -> (forall p, p ∈ pages -> ~ in_range Start Length (p >>> 12)) -> G' a h pages) ->
  exists b c', InvalidateCacheRange cfg Start Length c = Some (b, c') /\ cache_geo cfg c' /\ cached_ok G' c' /\ Shared c' = Shared c.
Proof using Hcfg.
  intros Hg Hc Hlh HG. pose proof (cg_notes cfg c Hg) as Hu. unfold InvalidateCacheRange.
  destruct (key_range_spec (CachedCodePages c) (first_page Start) (last_page Start Length)) as (ks & -> & Hks); [lia|]. cbn [mbind option_bind].
  set (A := ks ≫= fun k => elements (default ∅ (CachedCodePages c !! k))).
  destruct (each_rule (fun k c => each (InvalidateCache cfg) (elements (default ∅ (CachedCodePages c !! k))) c)
    (fun d s => cache_geo cfg s /\ same_notes c s /\ forall h g, g <> 0 -> entry_in s h g -> entry_in c h g /\
       g ∉ (d ≫= fun k => elements (default ∅ (CachedCodePages c !! k)))) ks c) as (c1 & -> & Hg1 & Hn1 & Hin1).
  { split_and!; try done. intros h g _ Hin. split; [done|]. apply not_elem_of_nil. }
  { intros d k t s Heq (Hgs & Hns & Hin). rewrite (sn_cached _ _ Hns).
    destruct (InvalidateCache_list (elements (default ∅ (CachedCodePages c !! k))) s Hgs) as (s' & -> & Hgs' & Hns' & Hin').
    { rewrite Forall_forall. intros g Hgk%elem_of_elements. destruct (CachedCodePages c !! k) as [S|] eqn:E; [by eapply Hu|set_solver]. }
    exists s'. split; [done|]. split_and!; [done|destruct Hns, Hns'; split; congruence|]. intros h g Hgn Hx.
    destruct (Hin' h g Hgn Hx) as [Hy Hna]. destruct (Hin h g Hgn Hy) as [? Hnd]. split; [done|].
    rewrite bind_app, bind_singleton, elem_of_app. tauto. }
  cbn [mbind option_bind]. eexists _, _. split; [done|]. rewrite (sn_cached _ _ Hn1). split_and!; [| |by apply (sn_shared _ _ Hn1)].
  - destruct Hg1. split; try done; [by left|]. intros k s g. cbn. rewrite erase_keys_lookup. case_decide; [done|]. apply Hu.
  - intros h g Hgn Hx. change (entry_in c1 h g) in Hx. destruct (Hin1 h g Hgn Hx) as [Hy HnA]. destruct (Hc h g Hgn Hy) as (pages & HGp & Hnp).
    assert (forall p, p ∈ pages -> ~ in_range Start Length (p >>> 12)) as Hout.
    { intros p Hp Hr. apply HnA. apply list_elem_of_bind. exists (p >>> 12). pose proof (Hnp p Hp) as Hm.
      split; [by apply elem_of_elements|]. apply Hks. split; [|done]. destruct (CachedCodePages c !! (p >>> 12)); [eauto|set_solver]. }
    exists pages. split; [by apply HG|]. intros p Hp. cbn. rewrite erase_keys_lookup, decide_False; [by apply Hnp|].
    intros Hk. apply Hks in Hk as [_ Hr]. by apply (Hout p Hp).
Qed.

End invalidation.

(** ** The other operations *)

Section others.
  Context (cfg : Config) (Hcfg : config_ok cfg).
  Context (G : Z -> Z -> list Z -> Prop).

Definition cache_ok (c : Cache) : Prop := cache_geo cfg c /\ cached_ok G c.

Lemma empty_tables_ok c : L1 c = ∅ -> Pages c = ∅ -> cached_ok G c.
Proof. intros H1 H2 h g _ [(i & Hi)|(x & Hx)]; [rewrite H1, lookup_empty in Hi|rewrite H2, lookup_empty in Hx]; done. Qed.

Lemma new_cache_ok b : cache_ok (new_cache cfg b).
Proof.
  split; [|by apply empty_tables_ok]. split; cbn; try done.
  - destruct (DynamicL1Cache cfg) eqn:Hd; [exists 13|exists 20]; by split; [lia|].
  - exists 0. by split_and!.
  - by left.
Qed.

Lemma ClearThreadLocalCaches_ok c : cache_ok c -> cache_ok (ClearThreadLocalCaches c).
Proof.
  intros [Hg _]. split; [|by apply empty_tables_ok]. destruct Hg. split; cbn; try done. by left.
Qed.

Lemma ChangeGuestToHostMapping_ok b c : cache_geo cfg c -> cache_ok (ChangeGuestToHostMapping b c).
Proof. intros Hg. split; [|by apply empty_tables_ok]. destruct Hg. split; cbn; try done. by left. Qed.

Lemma set_drain_ok d c : cache_ok c -> cache_ok (set_drain d c).
Proof. intros [Hg Hc]. split; [|done]. destruct Hg. by split. Qed.

Lemma ScrubForLazySMC_ok c : cache_ok c -> cache_ok (ScrubForLazySMC c).
Proof.
  intros [Hg Hc]%(set_drain_ok true). split.
  - destruct Hg. by split.
  - intros h g Hgn [(i & Hi)|Hx]; [cbn in Hi; by rewrite lookup_empty in Hi|]. apply (Hc h g Hgn). by right.
Qed.

Lemma AddBlockMapping_ok a e m c : cache_ok c -> entry_ok G a e ->
  exists c', LookupCache.AddBlockMapping cfg a e m c = Some (GuestToHostMap.AddBlockMapping a e m, c') /\ cache_ok c' /\ Shared c' = Shared c.
Proof using Hcfg.
  intros [Hg Hc] (Ha & Hps & HG). unfold LookupCache.AddBlockMapping.
  destruct (CacheBlockMapping_spec cfg Hcfg G a e true c Hg Hc Ha Hps HG) as (c' & -> & ? & ? & ?). by exists c'.
Qed.

End others.
