(* ===== verification/CodeContext.v ===== *)
(** * Compiled code of a process (FEXCore/Source/Interface/Core/Core.cpp, Context.cpp,
    SMCSoftInvalidate.h, LinuxSyscalls/ThreadManager.h)

    The code buffers that are alive, each with its guest-to-host map, the list of weak pointers
    to them, and the lookup caches of the threads.  The operations are the parts of the context
    and of the thread manager that change them: publishing a compiled block, relinking a
    softly invalidated one, the hard and the soft invalidation of a guest range over all
    buffers and threads, and the change of a thread to another buffer.  An invalidation holds
    the code invalidation mutex exclusively and compilation holds it shared, so each of them
    is one step.  The compiler, the hash function and guest memory are parameters; the calls of
    [MarkGuestExecutableRange] are returned as the list of pages. *)

From S2P Require Import Prelude CodeGranules SemanticPatch LookupCache ThreadCache.
Import GuestToHostMap LookupCache.

(** ** Content hashes (SMCSoftInvalidate.h) *)

Module SMC3.

Definition kMaxHashableGuestSpan : Z := 64 * 1024.

Definition IsHashableBlock (GuestSpan NumCodePages : Z) : bool :=
  negb (GuestSpan =? 0) && negb (NumCodePages =? 0) && (GuestSpan <=? kMaxHashableGuestSpan).

Section hash.
  (** [XXH3_64bits_withSeed] of some bytes. *)
  Context (xxh3 : list Z -> Z -> Z).

Definition HashGuestBlock (mem : Z -> Z) (CodePages : list Z) (Start Length : Z) : Z :=
  let End := u64 (Start + Length) in
  foldl (fun Hash Page =>
    let PageEnd := u64 (Page + 4096) in
    let ChunkStart := Z.max Page Start in
    let ChunkEnd := Z.min PageEnd End in
    if ChunkEnd <=? ChunkStart then xxh3 (le_bytes 8 Page) Hash
    else xxh3 (SMC4.guest_bytes mem ChunkStart (ChunkEnd - ChunkStart)) (xxh3 (le_bytes 8 ChunkStart) Hash))
    Length CodePages.

End hash.
End SMC3.

Module CodeContext.

Record Context := mkContext {
  buffers : gmap nat Map;      (** the code buffers someone still holds *)
  CodeBufferList : list nat;   (** weak pointers *)
  Threads : list Cache;
}.

(** What the compiler returns for a block, and the decoder's account of it. *)
Record Compiled := mkCompiled {
  EntryPoints : list (Z * Z);       (** guest address and host code *)
  BlockBegin : Z;
  StartAddr : Z;
  Length : Z;
  NeedsAddGuestCodeRanges : bool;
  IsECTarget : bool;
  Info_EntryPoints : list Z;
  Info_CodePages : list Z;
  BranchImmSites : list SMC4.BranchImmSite;
  ExitRIPSites : list SMC4.ExitRIPSite;
  MovImmSites : list SMC4.MovImmSite;
  MovImmWindows : list SMC4.MovImmWindow;
}.

Section context.
  Context (cfg : Config) (alloc : nat -> bool) (SMCSoftInvalidate : bool).
  Context (xxh3 : list Z -> Z -> Z).

(** *** Invalidation *)

(** The walk over the weak pointers; the dead ones are erased. *)
Fixpoint walk_buffers (f : Map -> option Map) (l : list nat) (bs : gmap nat Map) : option (list nat * gmap nat Map) :=
  match l with
  | [] => Some ([], bs)
  | b :: l =>
      match bs !! b with
      | Some m =>
          m ← f m;
          '(l, bs) ← walk_buffers f l (<[b := m]> bs);
          Some (b :: l, bs)
      | None => walk_buffers f l bs
      end
  end.

Definition InvalidateCodeBuffersCodeRange (Start Len : Z) (x : Context) : option Context :=
  '(l, bs) ← walk_buffers (InvalidateRange Start Len) (CodeBufferList x) (buffers x);
  Some (mkContext bs l (Threads x)).

Definition SoftInvalidateCodeBuffersCodeRange (Start Len : Z) (x : Context) : option Context :=
  '(l, bs) ← walk_buffers (SoftInvalidateRange Start Len) (CodeBufferList x) (buffers x);
  Some (mkContext bs l (Threads x)).

Definition InvalidateThreadCachedCodeRange (Start Len : Z) (c : Cache) : option Cache :=
  snd <$> InvalidateCacheRange cfg Start Len c.

Fixpoint walk_threads (f : Cache -> option Cache) (l : list Cache) : option (list Cache) :=
  match l with
  | [] => Some []
  | c :: l => c ← f c; l ← walk_threads f l; Some (c :: l)
  end.

Definition InvalidateThreads (Start Len : Z) (x : Context) : option Context :=
  ts ← walk_threads (InvalidateThreadCachedCodeRange Start Len) (Threads x);
  Some (mkContext (buffers x) (CodeBufferList x) ts).

Definition InvalidateGuestCodeRange (Start Len : Z) (x : Context) : option Context :=
  x ← InvalidateCodeBuffersCodeRange Start Len x; InvalidateThreads Start Len x.

Definition SoftInvalidateGuestCodeRange (Start Len : Z) (x : Context) : option Context :=
  x ← SoftInvalidateCodeBuffersCodeRange Start Len x; InvalidateThreads Start Len x.

(** Several ranges under one acquisition: the buffers first, then the threads. *)
Definition InvalidateGuestCodeRanges (Ranges : list (Z * Z)) (x : Context) : option Context :=
  x ← each (fun r => InvalidateCodeBuffersCodeRange r.1 r.2) Ranges x;
  ts ← walk_threads (fun c => each (fun r => InvalidateThreadCachedCodeRange r.1 r.2) Ranges c) (Threads x);
  Some (mkContext (buffers x) (CodeBufferList x) ts).

(** *** Operations of a thread *)

(** Run [f] on the map and the cache of thread [t]. *)
Definition with_thread {A} (t : nat) (f : Map -> Cache -> option (A * Map * Cache)) (x : Context) : option (A * Context) :=
  c ← Threads x !! t;
  m ← buffers x !! Shared c;
  '(r, m, c') ← f m c;
  Some (r, mkContext (<[Shared c := m]> (buffers x)) (CodeBufferList x) (<[t := c']> (Threads x))).

Definition FindBlock (t : nat) (now Address : Z) (x : Context) : option (Z * Context) :=
  with_thread t (fun m c => '(h, c) ← LookupCache.FindBlock cfg now m Address c; Some (h, m, c)) x.

Definition AddBlockLink (t : nat) (GuestDestination Link delinker : Z) (x : Context) : option (Z * Context) :=
  with_thread t (fun m c => m ← GuestToHostMap.AddBlockLink GuestDestination Link delinker m; Some (0, m, c)) x.

(** Register the addresses on each page; the pages that were new are marked executable. *)
Definition register_pages (Addresses Pages : list Z) (GuestRangeStart GuestRangeLength : Z) (m : Map) : option (list Z * Map) :=
  each (fun CodePage '(Marked, m) =>
    '(NewPage, m) ← AddBlockExecutableRange alloc Addresses CodePage 4096 GuestRangeStart GuestRangeLength m;
    Some (if (NewPage : bool) then Marked ++ [CodePage] else Marked, m)) Pages ([], m).

(** The pages, the addresses and the extent that [CompileBlock] registers. *)
Definition code_pages (GuestRIP : Z) (r : Compiled) : list Z * list Z * (Z * Z) :=
  if NeedsAddGuestCodeRanges r then (Info_CodePages r, Info_EntryPoints r, (StartAddr r, Length r))
  else if IsECTarget r then ([GuestRIP &&& u64 (Z.lnot (4096 - 1))], [GuestRIP], (GuestRIP, 1))
  else ([], [], (0, 0)).

Definition compiled_entry (mem : Z -> Z) (CodePages : list Z) (HostAddr : Z) (r : Compiled) : BlockEntry :=
  let '(HashedRangeLength, GuestHash) :=
    if SMCSoftInvalidate && SMC3.IsHashableBlock (Length r) (Z.of_nat (length CodePages))
    then (Length r, SMC3.HashGuestBlock xxh3 mem CodePages (StartAddr r) (Length r)) else (0, 0) in
  let '(Branch, Exit) :=
    if bool_decide (BranchImmSites r = []) || bool_decide (ExitRIPSites r = []) then ([], []) else (BranchImmSites r, ExitRIPSites r) in
  let '(Mov, Windows) :=
    if bool_decide (MovImmSites r = []) || bool_decide (MovImmWindows r = []) then ([], []) else (MovImmSites r, MovImmWindows r) in
  Entry.mkBlockEntry HostAddr (BlockBegin r) CodePages (StartAddr r) HashedRangeLength GuestHash Branch Exit Mov Windows.

(** The end of [CompileBlock], after the code was emitted: register its pages and publish its
    entry points.  [mem] is guest memory when the block is hashed. *)
Definition PublishBlock (t : nat) (GuestRIP : Z) (r : Compiled) (mem : Z -> Z) (x : Context) : option (list Z * Context) :=
  with_thread t (fun m c =>
    let '(Pages, Addresses, (Start, Len)) := code_pages GuestRIP r in
    '(Marked, m) ← register_pages Addresses Pages Start Len m;
    '(m, c) ← each (fun '(GuestAddr, HostAddr) '(m, c) =>
       LookupCache.AddBlockMapping cfg GuestAddr (compiled_entry mem Pages HostAddr r) m c) (EntryPoints r) (m, c);
    Some (Marked, m, c)) x.

(** [TryRelinkSoftInvalidatedBlock] on the map and the cache of a thread.  [mem] is guest memory
    when the block is hashed first, [mem'] after its pages were armed; [validate_only] is
    [GuestCodePageValidateOnly].  The result is the host code and the pages it marked. *)
Definition relink (GuestRIP : Z) (mem mem' : Z -> Z) (validate_only : Z -> bool) (m : Map) (c : Cache) : option (Z * list Z * Map * Cache) :=
  let '(Retained, m) := TakeRetainedBlock GuestRIP m in
  match Retained with
  | None => Some ((0, []), m, c)
  | Some e =>
      if negb (SMC3.HashGuestBlock xxh3 mem (Entry.CodePages e) (Entry.GuestRangeStart e) (Entry.GuestRangeLength e) =? Entry.GuestHash e)
      then Some ((0, []), m, c)
      else if existsb validate_only (Entry.CodePages e) then Some ((0, []), m, c)
      else
        '(Marked, m) ← register_pages [GuestRIP] (Entry.CodePages e) (Entry.GuestRangeStart e) (Entry.GuestRangeLength e) m;
        if negb (SMC3.HashGuestBlock xxh3 mem' (Entry.CodePages e) (Entry.GuestRangeStart e) (Entry.GuestRangeLength e) =? Entry.GuestHash e)
        then Some ((0, Marked), m, c)
        else
          '(m, c) ← LookupCache.AddBlockMapping cfg GuestRIP e m c;
          Some ((Entry.HostCode e, Marked), m, c)
  end.

Definition TryRelinkSoftInvalidatedBlock (t : nat) (GuestRIP : Z) (mem mem' : Z -> Z) (validate_only : Z -> bool) (x : Context) :
    option (Z * list Z * Context) :=
  with_thread t (relink GuestRIP mem mem' validate_only) x.

(** *** Code buffers *)

(** [PPC64JITCore::ClearCache]: a fresh buffer for the thread.  [tracking] is whether granule
    tracking is on. *)
Definition NewCodeBuffer (t b : nat) (tracking : bool) (x : Context) : option Context :=
  c ← Threads x !! t;
  Some (mkContext (<[b := new_map alloc tracking]> (buffers x)) (CodeBufferList x ++ [b])
          (<[t := ChangeGuestToHostMapping b c]> (Threads x))).

(** [CheckCodeBufferUpdate] found a newer buffer. *)
Definition SwitchCodeBuffer (t b : nat) (x : Context) : option Context :=
  c ← Threads x !! t;
  _ ← buffers x !! b;
  Some (mkContext (buffers x) (CodeBufferList x) (<[t := ChangeGuestToHostMapping b c]> (Threads x))).

(** The last owner of a buffer goes away. *)
Definition ExpireCodeBuffer (b : nat) (x : Context) : Context := mkContext (delete b (buffers x)) (CodeBufferList x) (Threads x).

Definition NewThread (b : nat) (x : Context) : Context := mkContext (buffers x) (CodeBufferList x) (Threads x ++ [new_cache cfg b]).

Definition on_cache (t : nat) (f : Cache -> Cache) (x : Context) : option Context :=
  c ← Threads x !! t;
  Some (mkContext (buffers x) (CodeBufferList x) (<[t := f c]> (Threads x))).

End context.

End CodeContext.
