(* ===== verification/SemanticPlan.v ===== *)
(** * Planning a semantic patch (FEXCore/Source/Interface/Core/LookupCache.h, Context.cpp)

    A write fault on a code page: every compiled block of every code buffer that translated the
    written bytes must see the write as a change of one immediate that one store of a host word
    can follow, or nothing is done.  [GuestToHostMap::PlanSemanticPatch] plans the
    edits of one map, [ContextImpl::TrySemanticPatchCodeRange] those of all buffers and applies
    them.  Guest memory before the store, host code and the block tails are arguments. *)

From S2P Require Import Prelude SemanticPatch LookupCache ThreadCache CodeContext.
Import GuestToHostMap CodeContext.

Module SemanticPlan.

Inductive Reason :=
| no_exit_sites | multiword | no_matching_exit | ambiguous_exit | unclaimed_cover
| movimm_duplicate_site | movimm_no_window | movimm_multi_window | movimm_stale_window | movimm_multiword
| flag_off | width | page_cross | no_claiming_block.

(** [Kind]: which shape claimed the write. *)
Inductive Shape := rel32 | movimm | mixed.

Inductive SemanticPatchPlan := NoCandidate | Planned | Decline (r : Reason).

Abbreviation Patches := (list SMC4.WordPatch).

Definition NoteKind (K : Shape) (Kind : option Shape) : option Shape :=
  match Kind, K with
  | None, _ => Some K
  | Some rel32, rel32 => Some K
  | Some movimm, movimm => Some K
  | _, _ => Some mixed
  end.

Section plan.
  Context (mem host : Z -> Z) (tail : Z -> Z * Z).

(** *** The rel32 half *)

Definition claims_rel32 (Start End : Z) (Site : SMC4.BranchImmSite) : bool :=
  (SMC4.BranchImmStart Site <=? Start) && (End <=? u64 (SMC4.BranchImmStart Site + 4)).

Definition rel_at (Site : SMC4.BranchImmSite) : list Z := SMC4.guest_bytes mem (SMC4.BranchImmStart Site) 4.

Definition OldTarget (Site : SMC4.BranchImmSite) : Z := SMC4.Rel32Target (SMC4.InstEnd Site) (le_val (rel_at Site)).
Definition NewTarget (Site : SMC4.BranchImmSite) (Start : Z) (NewBytes : list Z) : Z :=
  SMC4.Rel32Target (SMC4.InstEnd Site)
    (le_val (list_inserts (Z.to_nat (Start - SMC4.BranchImmStart Site)) NewBytes (rel_at Site))).

(** The loop over the exit windows: the number of matches and the last edit; [None] when a
    matching window needs more than one word. *)
Fixpoint match_exits (Old New : Z) (Sites : list SMC4.ExitRIPSite) (Matches : Z) (Patch : option SMC4.WordPatch) :
    option (Z * option SMC4.WordPatch) :=
  match Sites with
  | [] => Some (Matches, Patch)
  | Site :: Sites =>
      match SMC4.ClassifyRIPSite host (SMC4.ExitHostAddr Site) Old New with
      | SMC4.NoMatch => match_exits Old New Sites Matches Patch
      | SMC4.MultiWord => None
      | SMC4.Patchable Candidate => match_exits Old New Sites (Matches + 1) Candidate
      end
  end.

Definition PlanRel32 (e : BlockEntry) (Claimed : SMC4.BranchImmSite) (Start : Z) (NewBytes : list Z) (Out : Patches) :
    SemanticPatchPlan * Patches :=
  if bool_decide (Entry.ExitRIPSites e = []) then (Decline no_exit_sites, Out)
  else
    match match_exits (OldTarget Claimed) (NewTarget Claimed Start NewBytes) (Entry.ExitRIPSites e) 0 None with
    | None => (Decline multiword, Out)
    | Some (Matches, Patch) =>
        if negb (Matches =? 1) then (Decline (if Matches =? 0 then no_matching_exit else ambiguous_exit), Out)
        else (Planned, Out ++ option_list Patch)
    end.

(** *** The mov-immediate half *)

(** The loop over the sites from index [i]: the claimed index and the number of claims; [None]
    when the store changes a byte outside a field it covers. *)
Fixpoint claim_movimm (Start End : Z) (NewBytes : list Z) (Sites : list SMC4.MovImmSite) (i : Z) (Claimed Claims : Z) : option (Z * Z) :=
  match Sites with
  | [] => Some (Claimed, Claims)
  | Site :: Sites =>
      let ImmEnd := u64 (SMC4.ImmStart Site + SMC4.ImmSize Site) in
      if (SMC4.ImmStart Site <=? Start) && (End <=? ImmEnd) then claim_movimm Start End NewBytes Sites (i + 1) i (Claims + 1)
      else if (Start <=? SMC4.ImmStart Site) && (ImmEnd <=? End) then
        if forallb (fun Addr => (SMC4.ImmStart Site <=? Addr) && (Addr <? ImmEnd) ||
                                (mem Addr =? default 0 (NewBytes !! Z.to_nat (Addr - Start)))) (seqZ Start (End - Start))
        then claim_movimm Start End NewBytes Sites (i + 1) i (Claims + 1)
        else None
      else claim_movimm Start End NewBytes Sites (i + 1) Claimed Claims
  end.

Definition NewValue (Site : SMC4.MovImmSite) (Start End : Z) (NewBytes : list Z) : Z :=
  let ImmEnd := u64 (SMC4.ImmStart Site + SMC4.ImmSize Site) in
  let OverlapStart := if SMC4.ImmStart Site <? Start then Start else SMC4.ImmStart Site in
  let OverlapEnd := if End <? ImmEnd then End else ImmEnd in
  le_val (list_inserts (Z.to_nat (OverlapStart - SMC4.ImmStart Site))
            (take (Z.to_nat (OverlapEnd - OverlapStart)) (drop (Z.to_nat (OverlapStart - Start)) NewBytes))
            (le_bytes 8 (SMC4.MovImmSiteValue mem Site))).

Definition site_windows (Index : Z) (Windows : list SMC4.MovImmWindow) : list SMC4.MovImmWindow :=
  filter (fun W => SMC4.SiteIndex W = Index) Windows.

Definition PlanMovImmPatch (e : BlockEntry) (Start End : Z) (NewBytes : list Z) (Out : Patches) : SemanticPatchPlan * Patches :=
  match claim_movimm Start End NewBytes (Entry.MovImmSites e) 0 (Z.of_nat (length (Entry.MovImmSites e))) 0 with
  | None => (NoCandidate, Out)
  | Some (ClaimedIndex, Claims) =>
      if Claims =? 0 then (NoCandidate, Out)
      else if 1 <? Claims then (Decline movimm_duplicate_site, Out)
      else
        match Entry.MovImmSites e !! Z.to_nat ClaimedIndex, site_windows ClaimedIndex (Entry.MovImmWindows e) with
        | Some Site, [Window] =>
            match SMC4.ClassifyRIPSite host (SMC4.HostAddr Window) (SMC4.MovImmSiteValue mem Site) (NewValue Site Start End NewBytes) with
            | SMC4.NoMatch => (Decline movimm_stale_window, Out)
            | SMC4.MultiWord => (Decline movimm_multiword, Out)
            | SMC4.Patchable Patch => (Planned, Out ++ option_list Patch)
            end
        | _, [] => (Decline movimm_no_window, Out)
        | _, _ => (Decline movimm_multi_window, Out)
        end
  end.

(** *** One block, one map *)

Definition PlanBlock (e : BlockEntry) (Start End : Z) (NewBytes : list Z) (Out : Patches) (Kind : option Shape) :
    SemanticPatchPlan * Patches * option Shape :=
  match find (claims_rel32 Start End) (Entry.BranchImmSites e) with
  | Some Claimed =>
      match PlanRel32 e Claimed Start NewBytes Out with
      | (Planned, Out) => (Planned, Out, NoteKind rel32 Kind)
      | (r, Out) => (r, Out, Kind)
      end
  | None =>
      match PlanMovImmPatch e Start End NewBytes Out with
      | (Planned, Out) => (Planned, Out, NoteKind movimm Kind)
      | (Decline r, Out) => (Decline r, Out, Kind)
      | (NoCandidate, Out) =>
          if BlockTranslatedRange tail e Start End then (Decline unclaimed_cover, Out, Kind) else (NoCandidate, Out, Kind)
      end
  end.

(** The loop over the addresses listed on the pages. *)
Fixpoint plan_entries (m : Map) (Start End : Z) (NewBytes : list Z) (Addrs : list Z) (Result : SemanticPatchPlan) (Out : Patches) (Kind : option Shape) :
    SemanticPatchPlan * Patches * option Shape :=
  match Addrs with
  | [] => (Result, Out, Kind)
  | EntryAddr :: Addrs =>
      match BlockList m !! EntryAddr with
      | None => plan_entries m Start End NewBytes Addrs Result Out Kind
      | Some e =>
          match PlanBlock e Start End NewBytes Out Kind with
          | (Decline r, Out, Kind) => (Decline r, Out, Kind)
          | (Planned, Out, Kind) => plan_entries m Start End NewBytes Addrs Planned Out Kind
          | (NoCandidate, Out, Kind) => plan_entries m Start End NewBytes Addrs Result Out Kind
          end
      end
  end.

Definition PlanSemanticPatch (m : Map) (Start Length : Z) (NewBytes : list Z) (Out : Patches) (Kind : option Shape) :
    option (SemanticPatchPlan * Patches * option Shape) :=
  let End := u64 (Start + Length) in
  ks ← key_range (CodePages m) (first_page Start) (u64 (End - 1) >>> 12);
  Some (plan_entries m Start End NewBytes (ks ≫= fun k => default [] (CodePages m !! k)) NoCandidate Out Kind).

(** *** All buffers *)

(** The walk over the weak pointers: what is left of the list, and the plan or the reason. *)
Fixpoint plan_buffers (bs : gmap nat Map) (Start Length : Z) (NewBytes : list Z) (l : list nat) (Any : bool) (Out : Patches) (Kind : option Shape) :
    option (list nat * (Reason + (bool * Patches * option Shape))) :=
  match l with
  | [] => Some ([], inr (Any, Out, Kind))
  | b :: l =>
      match bs !! b with
      | None => plan_buffers bs Start Length NewBytes l Any Out Kind
      | Some m =>
          '(p, Out, Kind) ← PlanSemanticPatch m Start Length NewBytes Out Kind;
          match p with
          | Decline r => Some (b :: l, inl r)
          | _ =>
              '(l, res) ← plan_buffers bs Start Length NewBytes l (match p with Planned => true | _ => Any end) Out Kind;
              Some (b :: l, res)
          end
      end
  end.

(** The result: [inl] the reason of a refusal, or [inr] the shape; the host code after it. *)
Definition TrySemanticPatchCodeRange (SMCSemanticPatch : bool) (Start : Z) (NewBytes : list Z) (x : Context) :
    option ((Reason + Shape) * (Z -> Z) * Context) :=
  let Length := Z.of_nat (length NewBytes) in
  let page a := a &&& u64 (Z.lnot 4095) in
  if negb SMCSemanticPatch then Some (inl flag_off, host, x)
  else if (Length =? 0) || (8 <? Length) then Some (inl width, host, x)
  else if negb (page Start =? page (u64 (Start + Length - 1))) then Some (inl page_cross, host, x)
  else
    '(l, res) ← plan_buffers (buffers x) Start Length NewBytes (CodeBufferList x) false [] None;
    let x := mkContext (buffers x) l (Threads x) in
    match res with
    | inl r => Some (inl r, host, x)
    | inr (Any, Patches, Kind) =>
        if negb Any then Some (inl no_claiming_block, host, x)
        else Some (inr (default rel32 Kind), foldl SMC4.ApplyWordPatch host Patches, x)
    end.

End plan.

End SemanticPlan.
