(* ===== verification/CodeContextProps.v ===== *)
(** * No stale translation is found

    The steps of a process that compiles, looks up, links, invalidates and relinks code, with two
    histories per code buffer: the translations that were published and not invalidated since, and
    those that a soft invalidation may have set aside.  In every reachable state each step
    returns, a lookup on any thread finds only a translation of the first kind in the thread's
    own buffer, and a relink brings back only one of the second kind whose source bytes have the
    recorded hash. *)

From S2P Require Import Prelude CodeGranules SemanticPatch LookupCache LookupLinks LookupMapProps ThreadCache ThreadCacheProps CodeContext.
Import GuestToHostMap LookupCache CodeContext.

(** A history: the entries at guest addresses of each code buffer. *)
Abbreviation history := (nat -> Z -> BlockEntry -> Prop).

Definition touched (Start Len : Z) (pages : list Z) : Prop := exists p, p ∈ pages /\ in_range Start Len (p >>> 12).

Lemma touches_touched e Start Len : touches e Start Len <-> touched Start Len (Entry.CodePages e).
Proof. unfold touches, on_page, touched. split; [intros (k & Hr & p & Hp & <-); eauto|intros (p & Hp & Hr); eauto 6]. Qed.

(** The history after the invalidation of a list of ranges. *)
Definition without (Ranges : list (Z * Z)) (E : history) : history :=
  fun b a e => E b a e /\ forall r, r ∈ Ranges -> ~ touched r.1 r.2 (Entry.CodePages e).

(** What the tables of a thread know of an entry. *)
Definition seen (E : history) (b : nat) (a h : Z) (pages : list Z) : Prop :=
  exists e, E b a e /\ Entry.HostCode e = h /\ Entry.CodePages e = pages.

Definition page_ok (p : Z) : Prop := 0 <= p /\ p + 4096 <= 2 ^ 64 /\ p mod 4096 = 0.

Definition hist_ok (E : history) : Prop := forall b a e, E b a e -> is_u 64 a /\ Forall page_ok (Entry.CodePages e).

Definition range_ok (r : Z * Z) : Prop := 0 <= r.1 /\ 0 < r.2 /\ r.1 + r.2 <= 2 ^ 64.

Lemma range_ok_pages r : range_ok r -> first_page r.1 <= last_page r.1 r.2.
Proof. intros (? & ? & ?). by apply range_pages. Qed.

Lemma page_ok_u64 pages : Forall page_ok pages -> Forall (is_u 64) pages.
Proof. intros H. eapply Forall_impl; [exact H|]. intros p (? & ? & ?). unfold is_u. lia. Qed.

Lemma seen_entry_ok E b a e : hist_ok E -> E b a e -> entry_ok (seen E b) a e.
Proof. intros HE Ha. destruct (HE b a e Ha) as [? ?%page_ok_u64]. split_and!; [done|done|]. by exists e. Qed.

Lemma hist_ok_sub E E' : (forall b a e, E' b a e -> E b a e) -> hist_ok E -> hist_ok E'.
Proof. intros Hs H b a e Ha. eauto. Qed.

(** ** The invariant of a process *)

Section invariant.
  Context (cfg : Config) (Hcfg : config_ok cfg).

(** [A]: the pages reported as executable and not invalidated since. *)
Record map_ok (E R : Z -> BlockEntry -> Prop) (A : Z -> Prop) (m : Map) : Prop := {
  mo_wf : map_wf m;
  mo_live : forall a e, BlockList m !! a = Some e -> E a e;
  mo_ret : forall a e, RetainedBlocks m !! a = Some e -> R a e;
  mo_armed : forall k v, CodePages m !! k = Some v -> v <> [] -> A k;
}.

Definition maps_ok (E R : history) (A : Z -> Prop) (x : Context) : Prop :=
  forall b m, buffers x !! b = Some m -> map_ok (E b) (R b) A m /\ b ∈ CodeBufferList x.

Definition threads_ok (E : history) (x : Context) : Prop :=
  forall t c, Threads x !! t = Some c -> cache_ok cfg (seen E (Shared c)) c /\ is_Some (buffers x !! Shared c).

Record ctx_ok (E R : history) (A : Z -> Prop) (x : Context) : Prop := {
  xo_live : hist_ok E;
  xo_ret : hist_ok R;
  xo_maps : maps_ok E R A x;
  xo_threads : threads_ok E x;
  xo_armed : forall b a e p, E b a e -> p ∈ Entry.CodePages e -> A (p >>> 12);
}.

Lemma map_ok_mono (E E' R R' : Z -> BlockEntry -> Prop) (A A' : Z -> Prop) m : (forall a e, E a e -> E' a e) -> (forall a e, R a e -> R' a e) ->
  (forall k, A k -> A' k) -> map_ok E R A m -> map_ok E' R' A' m.
Proof. intros HE HR HA [? ? ? ?]. split; eauto. Qed.

Lemma cache_ok_mono (G G' : Z -> Z -> list Z -> Prop) c : (forall a h p, G a h p -> G' a h p) -> cache_ok cfg G c -> cache_ok cfg G' c.
Proof. intros HG [Hg Hc]. split; [done|]. intros h g Hgn Hin. destruct (Hc h g Hgn Hin) as (pages & ? & ?). eauto. Qed.

Lemma seen_mono (E E' : history) b : (forall a e, E b a e -> E' b a e) -> forall a h p, seen E b a h p -> seen E' b a h p.
Proof. intros H a h p (e & He & ?). exists e. eauto. Qed.

(** *** One map *)

Definition disarm (Ranges : list (Z * Z)) (A : Z -> Prop) : Z -> Prop :=
  fun k => A k /\ forall r, r ∈ Ranges -> ~ in_range r.1 r.2 k.

Lemma dropped_armed r (A : Z -> Prop) m m' : pages_dropped r.1 r.2 m m' -> (forall k v, CodePages m !! k = Some v -> v <> [] -> A k) ->
  forall k v, CodePages m' !! k = Some v -> v <> [] -> disarm [r] A k.
Proof.
  intros [Hd _] HA k v [Hk Hn]%Hd Hv. split; [by eapply HA|]. by intros r' ->%list_elem_of_singleton.
Qed.

Lemma map_hard (E R : history) A r b m : range_ok r -> map_ok (E b) (R b) A m ->
  exists m', InvalidateRange r.1 r.2 m = Some m' /\ map_ok (without [r] E b) (without [r] R b) (disarm [r] A) m'.
Proof.
  intros Hr%range_ok_pages [Hwf Hl Hret Harm]. destruct (wf_links m Hwf) as [L HL].
  destruct (InvalidateRange_spec r.1 r.2 m L Hwf HL Hr) as (m' & Hrun & Hwf' & Hd & Hret' & _). exists m'. split; [done|]. split; [done| | |by eapply dropped_armed].
  - intros a e Ha. pose proof (dropped_untouched r.1 r.2 m m' Hwf Hd a e Ha) as Hn. apply Hd in Ha as [Ha _].
    split; [by apply Hl|]. intros r' ->%list_elem_of_singleton. by rewrite <- touches_touched.
  - intros a e Ha. apply Hret' in Ha as [Ha Hn]. split; [by apply Hret|]. intros r' ->%list_elem_of_singleton. by rewrite <- touches_touched.
Qed.

(** A soft invalidation may set aside any live entry. *)
Definition join (R E : history) : history := fun b a e => R b a e \/ E b a e.

Lemma map_soft (E R : history) A r b m : range_ok r -> map_ok (E b) (R b) A m ->
  exists m', SoftInvalidateRange r.1 r.2 m = Some m' /\ map_ok (without [r] E b) (join R E b) (disarm [r] A) m'.
Proof.
  intros Hr%range_ok_pages [Hwf Hl Hret Harm].
  destruct (SoftInvalidateRange_spec r.1 r.2 m Hwf Hr) as (m' & Hrun & Hwf' & Hd & _ & Hret' & _). exists m'. split; [done|]. split; [done| | |by eapply dropped_armed].
  - intros a e Ha. pose proof (dropped_untouched r.1 r.2 m m' Hwf Hd a e Ha) as Hn. apply Hd in Ha as [Ha _].
    split; [by apply Hl|]. intros r' ->%list_elem_of_singleton. by rewrite <- touches_touched.
  - intros a e Ha. apply Hret' in Ha as [Ha|[Ha _]]; [left; by apply Hret|right; by apply Hl].
Qed.

(** *** All buffers *)

Lemma walk_buffers_ok f (P Q : nat -> Map -> Prop) l bs : (forall b m, P b m -> exists m', f m = Some m' /\ Q b m') -> (forall b m, Q b m -> exists m', f m = Some m' /\ Q b m') ->
  (forall b m, bs !! b = Some m -> P b m \/ Q b m) ->
  exists l' bs', walk_buffers f l bs = Some (l', bs') /\ dom bs' = dom bs /\ (forall b, b ∈ l -> is_Some (bs !! b) -> b ∈ l') /\
    (forall b m, bs' !! b = Some m -> P b m \/ Q b m) /\ (forall b m, b ∈ l -> bs' !! b = Some m -> Q b m) /\
    (forall b, b ∉ l -> bs' !! b = bs !! b).
Proof.
  intros Hf Hf'. revert bs. induction l as [|b l IH]; intros bs HP; cbn [walk_buffers].
  { exists [], bs. split; [done|]. split; [done|]. split; [by intros b ?%elem_of_nil|]. split; [done|].
    split; [by intros b m ?%elem_of_nil|done]. }
  destruct (bs !! b) as [m|] eqn:Eb.
  - assert (exists m', f m = Some m' /\ Q b m') as (m' & -> & HQ) by (destruct (HP b m Eb); auto). cbn [mbind option_bind].
    destruct (IH (<[b := m']> bs)) as (l' & bs' & -> & Hdom & Hl & Hall & Hq & Ho).
    { intros b' m1 [[<- <-]|[_ Hb']]%lookup_insert_Some; [by right|by eapply HP]. }
    cbn [mbind option_bind]. exists (b :: l'), bs'. split; [done|]. split_and!.
    + rewrite Hdom, dom_insert_L. apply elem_of_dom_2 in Eb. set_solver.
    + intros b' [->|Hb']%elem_of_cons Hs; [left|]. right. apply Hl; [done|]. destruct (decide (b = b')) as [<-|]; [by rewrite lookup_insert_eq|].
      by rewrite lookup_insert_ne.
    + done.
    + intros b' m1 [->|Hb']%elem_of_cons Hb1; [|by eapply Hq]. destruct (decide (b ∈ l)); [by eapply Hq|].
      rewrite Ho, lookup_insert_eq in Hb1 by done. by simplify_eq.
    + intros b' [Hne Hnl]%not_elem_of_cons. rewrite Ho by done. by rewrite lookup_insert_ne.
  - destruct (IH bs HP) as (l' & bs' & -> & Hdom & Hl & Hall & Hq & Ho). exists l', bs'. split; [done|]. split_and!; try done.
    + intros b' [->|Hb']%elem_of_cons Hs; [by rewrite Eb in Hs; destruct Hs|by apply Hl].
    + intros b' m1 [->|Hb']%elem_of_cons Hb1; [|by eapply Hq]. apply elem_of_dom_2 in Hb1. rewrite Hdom in Hb1. apply elem_of_dom in Hb1.
      rewrite Eb in Hb1. by destruct Hb1.
    + intros b' [Hne Hnl]%not_elem_of_cons. by apply Ho.
Qed.

Lemma walk_threads_ok f l (P : Cache -> Prop) : (forall t c, l !! t = Some c -> exists c', f c = Some c' /\ P c' /\ Shared c' = Shared c) ->
  exists l', walk_threads f l = Some l' /\ length l' = length l /\ forall t c', l' !! t = Some c' -> P c' /\ exists c, l !! t = Some c /\ Shared c' = Shared c.
Proof.
  induction l as [|c l IH]; intros Hf; cbn [walk_threads]; [by exists []|].
  destruct (Hf 0%nat c eq_refl) as (c' & -> & HP & Hs). cbn [mbind option_bind].
  destruct IH as (l' & -> & Hlen & Hl'); [intros t c1 Hc1; by apply (Hf (S t))|]. cbn [mbind option_bind]. exists (c' :: l'). split; [done|].
  split; [cbn; congruence|].
  intros [|t] c1 Hc1; cbn in *; [simplify_eq; eauto|by apply Hl'].
Qed.


(** [f] takes each map from one invariant to the other, and is idempotent on the second. *)
Lemma buffers_step f (E R E' R' : history) A A' x :
  (forall b m, map_ok (E b) (R b) A m -> exists m', f m = Some m' /\ map_ok (E' b) (R' b) A' m') ->
  (forall b m, map_ok (E' b) (R' b) A' m -> exists m', f m = Some m' /\ map_ok (E' b) (R' b) A' m') ->
  maps_ok E R A x -> exists l bs, walk_buffers f (CodeBufferList x) (buffers x) = Some (l, bs) /\
    maps_ok E' R' A' (mkContext bs l (Threads x)) /\ dom bs = dom (buffers x).
Proof.
  intros Hf Hf' Hm.
  destruct (walk_buffers_ok f (fun b => map_ok (E b) (R b) A) (fun b => map_ok (E' b) (R' b) A') (CodeBufferList x) (buffers x) Hf Hf')
    as (l' & bs' & -> & Hdom & Hl & _ & Hq & Ho).
  { intros b m Hb. left. by apply (Hm b m). }
  exists l', bs'. split; [done|]. split; [|done]. intros b m Hb. cbn in *.
  assert (is_Some (buffers x !! b)) as [m0 Hm0] by (apply elem_of_dom; rewrite <- Hdom; by apply elem_of_dom_2 in Hb).
  destruct (Hm b m0 Hm0) as [_ Hbl]. split; [by apply (Hq b)|]. apply Hl; eauto.
Qed.

(** *** All threads *)

Lemma threads_dom E bs bs' l l' ts : dom bs' = dom bs -> threads_ok E (mkContext bs l ts) -> threads_ok E (mkContext bs' l' ts).
Proof.
  intros Hd Ht t c Hc. destruct (Ht t c Hc) as [? Hs]. split; [done|]. cbn in *. apply elem_of_dom. rewrite Hd. by apply elem_of_dom.
Qed.

Lemma thread_invalidate (E : history) r b c : range_ok r -> cache_ok cfg (seen E b) c ->
  exists c', InvalidateThreadCachedCodeRange cfg r.1 r.2 c = Some c' /\ cache_ok cfg (seen (without [r] E) b) c' /\ Shared c' = Shared c.
Proof using Hcfg.
  intros Hr%range_ok_pages [Hg Hcd]. unfold InvalidateThreadCachedCodeRange.
  destruct (InvalidateCacheRange_ok cfg Hcfg (seen E b) (seen (without [r] E) b) r.1 r.2 c Hg Hcd Hr) as (d & c' & -> & ? & ? & ?).
  { intros a h pages (e & He & Hh & <-) Hn. exists e. split; [|done]. split; [done|]. intros r' ->%list_elem_of_singleton (p & Hp & Hin).
    by apply (Hn p). }
  exists c'. by split_and!.
Qed.

Lemma without_cons r rs E b a e : without (r :: rs) E b a e <-> without rs (without [r] E) b a e.
Proof.
  unfold without. split.
  - intros [He Hn]. split; [split; [done|]|]; intros r' Hr'; apply Hn; [|by right]. apply list_elem_of_singleton in Hr'. subst. left.
  - intros [[He H1] H2]. split; [done|]. intros r' [->|Hr']%elem_of_cons; [|by apply H2]. apply H1. left.
Qed.

Lemma thread_invalidates Ranges (E : history) b c : Forall range_ok Ranges -> cache_ok cfg (seen E b) c ->
  exists c', each (fun r => InvalidateThreadCachedCodeRange cfg r.1 r.2) Ranges c = Some c' /\
    cache_ok cfg (seen (without Ranges E) b) c' /\ Shared c' = Shared c.
Proof using Hcfg.
  intros HR. revert E c. induction HR as [|r rs Hr HR IH]; intros E c Hc; cbn [each].
  { exists c. split; [done|]. split; [|done]. eapply cache_ok_mono; [|done]. apply seen_mono. intros a e He. split; [done|].
    by intros r ?%elem_of_nil. }
  destruct (thread_invalidate E r b c Hr Hc) as (c1 & -> & Hc1 & Hs1). cbn [mbind option_bind].
  destruct (IH (without [r] E) c1 Hc1) as (c2 & -> & Hc2 & Hs2). exists c2. split; [done|]. split; [|congruence].
  eapply cache_ok_mono; [|exact Hc2]. apply seen_mono. intros a e. by rewrite without_cons.
Qed.

Lemma threads_step f (E E' : history) x :
  (forall b c, cache_ok cfg (seen E b) c -> exists c', f c = Some c' /\ cache_ok cfg (seen E' b) c' /\ Shared c' = Shared c) ->
  threads_ok E x -> exists ts, walk_threads f (Threads x) = Some ts /\ threads_ok E' (mkContext (buffers x) (CodeBufferList x) ts).
Proof.
  intros Hf Ht.
  destruct (walk_threads_ok f (Threads x) (fun c => cache_ok cfg (seen E' (Shared c)) c)) as (ts & -> & _ & Hts).
  { intros t c Hc. destruct (Ht t c Hc) as [Hok _]. destruct (Hf _ c Hok) as (c' & -> & ? & Hs). exists c'. split; [done|].
    split; [by rewrite Hs|done]. }
  exists ts. split; [done|]. intros t c' Hc'. destruct (Hts t c' Hc') as (Hok & c & Hc & Hs). split; [done|]. cbn. rewrite Hs. by apply (Ht t c).
Qed.

(** *** The invalidations *)

Lemma without_nil E b a e : without [] E b a e <-> E b a e.
Proof. unfold without. split; [by intros [? _]|]. intros He. split; [done|]. by intros r ?%elem_of_nil. Qed.

Lemma disarm_nil A k : disarm [] A k <-> A k.
Proof. unfold disarm. split; [by intros [? _]|]. intros Hk. split; [done|]. by intros r ?%elem_of_nil. Qed.

Lemma disarm_cons r rs A k : disarm (r :: rs) A k <-> disarm rs (disarm [r] A) k.
Proof.
  unfold disarm. split.
  - intros [Hk Hn]. split; [split; [done|]|]; intros r' Hr'; apply Hn; [|by right]. apply list_elem_of_singleton in Hr'. subst. left.
  - intros [[Hk H1] H2]. split; [done|]. intros r' [->|Hr']%elem_of_cons; [|by apply H2]. apply H1. left.
Qed.

Lemma without_hist rs E : hist_ok E -> hist_ok (without rs E).
Proof. apply hist_ok_sub. by intros b a e [? _]. Qed.

Lemma without_armed rs (E : history) (A : Z -> Prop) : (forall b a e p, E b a e -> p ∈ Entry.CodePages e -> A (p >>> 12)) ->
  forall b a e p, without rs E b a e -> p ∈ Entry.CodePages e -> disarm rs A (p >>> 12).
Proof.
  intros HA b a e p [He Hn] Hp. split; [by eapply HA|]. intros r Hr Hin. apply (Hn r Hr). by exists p.
Qed.

Lemma buffers_hard E R A r x : range_ok r -> maps_ok E R A x ->
  exists x', InvalidateCodeBuffersCodeRange r.1 r.2 x = Some x' /\ maps_ok (without [r] E) (without [r] R) (disarm [r] A) x' /\
    Threads x' = Threads x /\ dom (buffers x') = dom (buffers x).
Proof.
  intros Hr Hm. unfold InvalidateCodeBuffersCodeRange.
  destruct (buffers_step (InvalidateRange r.1 r.2) E R (without [r] E) (without [r] R) A (disarm [r] A) x) as (l & bs & -> & Hm' & Hd).
  - intros b m. by apply map_hard.
  - intros b m Hok. destruct (map_hard _ _ _ r b m Hr Hok) as (m' & Hrun & Hok'). exists m'. split; [done|].
    eapply map_ok_mono; [| | |exact Hok']; [by intros a e [? _]..|by intros k [? _]].
  - done.
  - cbn [mbind option_bind]. by eexists.
Qed.

Lemma buffers_hards Ranges E R A x : Forall range_ok Ranges -> maps_ok E R A x ->
  exists x', each (fun r => InvalidateCodeBuffersCodeRange r.1 r.2) Ranges x = Some x' /\
    maps_ok (without Ranges E) (without Ranges R) (disarm Ranges A) x' /\ Threads x' = Threads x /\ dom (buffers x') = dom (buffers x).
Proof.
  intros HR. revert E R A x. induction HR as [|r rs Hr HR IH]; intros E R A x Hm; cbn [each].
  { exists x. split; [done|]. split; [|done]. intros b m Hb. destruct (Hm b m Hb) as [Hok ?]. split; [|done].
    eapply map_ok_mono; [| | |exact Hok]; intros; [by apply without_nil..|by apply disarm_nil]. }
  destruct (buffers_hard E R A r x Hr Hm) as (x1 & -> & Hm1 & Ht1 & Hd1). cbn [mbind option_bind].
  destruct (IH _ _ _ x1 Hm1) as (x2 & -> & Hm2 & Ht2 & Hd2). exists x2. split; [done|]. split; [|split; congruence].
  intros b m Hb. destruct (Hm2 b m Hb) as [Hok ?]. split; [|done].
  eapply map_ok_mono; [| | |exact Hok]; intros; [by apply without_cons..|by apply disarm_cons].
Qed.

Lemma InvalidateGuestCodeRanges_ok Ranges E R A x : Forall range_ok Ranges -> ctx_ok E R A x ->
  exists x', InvalidateGuestCodeRanges cfg Ranges x = Some x' /\ ctx_ok (without Ranges E) (without Ranges R) (disarm Ranges A) x'.
Proof using Hcfg.
  intros HR [HE HRt Hm Ht Ha]. unfold InvalidateGuestCodeRanges.
  destruct (buffers_hards Ranges E R A x HR Hm) as (x1 & -> & Hm1 & Ht1 & Hd1). cbn [mbind option_bind]. rewrite Ht1.
  destruct (threads_step (fun c => each (fun r => InvalidateThreadCachedCodeRange cfg r.1 r.2) Ranges c) E (without Ranges E) x (fun b c => thread_invalidates Ranges E b c HR) Ht) as (ts & -> & Hts).
  cbn [mbind option_bind]. eexists. split; [done|]. split; [by apply without_hist..|done|by eapply threads_dom|by eapply without_armed].
Qed.

Lemma InvalidateGuestCodeRange_ranges r x : InvalidateGuestCodeRange cfg r.1 r.2 x = InvalidateGuestCodeRanges cfg [r] x.
Proof.
  unfold InvalidateGuestCodeRange, InvalidateGuestCodeRanges, InvalidateThreads. cbn [each].
  destruct (InvalidateCodeBuffersCodeRange r.1 r.2 x) as [x1|]; [|done]. cbn [mbind option_bind].
  assert (walk_threads (InvalidateThreadCachedCodeRange cfg r.1 r.2) (Threads x1) =
          walk_threads (fun c => c1 ← InvalidateThreadCachedCodeRange cfg r.1 r.2 c; Some c1) (Threads x1)) as ->; [|done].
  induction (Threads x1) as [|c l IH]; [done|]. cbn [walk_threads]. rewrite IH.
  by destruct (InvalidateThreadCachedCodeRange cfg r.1 r.2 c).
Qed.

Lemma SoftInvalidateGuestCodeRange_ok r E R A x : range_ok r -> ctx_ok E R A x ->
  exists x', SoftInvalidateGuestCodeRange cfg r.1 r.2 x = Some x' /\ ctx_ok (without [r] E) (join R E) (disarm [r] A) x'.
Proof using Hcfg.
  intros Hr [HE HRt Hm Ht Har]. unfold SoftInvalidateGuestCodeRange, SoftInvalidateCodeBuffersCodeRange.
  destruct (buffers_step (SoftInvalidateRange r.1 r.2) E R (without [r] E) (join R E) A (disarm [r] A) x) as (l & bs & -> & Hm' & Hd).
  - intros b m. by apply map_soft.
  - intros b m Hok. destruct (map_soft _ _ _ r b m Hr Hok) as (m' & Hrun & Hok'). exists m'. split; [done|].
    eapply map_ok_mono; [| | |exact Hok']; [by intros a e [? _]| |by intros k [? _]]. intros a e [?|[? _]]; [done|by right].
  - done.
  - cbn [mbind option_bind]. unfold InvalidateThreads. cbn [Threads buffers CodeBufferList].
    destruct (threads_step _ E (without [r] E) x (fun b c => thread_invalidate E r b c Hr) Ht) as (ts & -> & Hts).
    cbn [mbind option_bind]. eexists. split; [done|]. split; [by apply without_hist| |done|by eapply threads_dom|by eapply without_armed].
    intros b a e [Ha|Ha]; [by apply (HRt b)|by apply (HE b)].
Qed.

End invariant.
