(* ===== verification/SemanticPlanProps.v ===== *)
(** * A semantic patch leaves every translation current

    When [TrySemanticPatchCodeRange] reports success, each block that is listed on the written
    page either did not translate the written bytes, or one of its recorded fields takes up every
    byte that the store changes, and exactly one window stands for that field, which held the value
    of the old guest bytes and after the edits holds that of the new ones ([follows]).  When it
    refuses, no host word changes.  A field that overlaps the claimed one can be left behind
    ([overlapping_fields_stale]). *)

From S2P Require Import Prelude PPCEmitter PPCInsns PowerISA PPCLoadImm.
From S2P Require Import SemanticPatch SemanticPatchProps LookupCache LookupLinks LookupMapProps ThreadCache CodeContext CodeContextProps SemanticPlan.
Import SMC4 GuestToHostMap CodeContext SemanticPlan.

(** Guest memory after the store. *)
Definition stored (mem : Z -> Z) (Start : Z) (NewBytes : list Z) : Z -> Z :=
  fun a => if (Start <=? a) && (a <? Start + Z.of_nat (length NewBytes)) then default 0 (NewBytes !! Z.to_nat (a - Start)) else mem a.

(** ** Bytes *)

Lemma inserts_app (X l zs : list Z) k : (k + length X <= length l)%nat -> list_inserts k X (l ++ zs) = list_inserts k X l ++ zs.
Proof.
  revert k. induction X as [|x X IH]; intros k Hk; [done|]. cbn [list_inserts length] in *. rewrite IH by lia.
  apply insert_app_l. rewrite length_inserts. lia.
Qed.

Lemma inserts_all (X l : list Z) : length X = length l -> list_inserts 0 X l = X.
Proof.
  intros Hl. apply list_eq. intros i. destruct (decide (i < length l)%nat).
  - rewrite list_lookup_inserts by lia. f_equal. lia.
  - rewrite !lookup_ge_None_2; [done|lia|rewrite length_inserts; lia].
Qed.

Lemma le_val_zeros l n : le_val (l ++ replicate n 0) = le_val l.
Proof.
  assert (le_val (replicate n 0) = 0) as Hz by (induction n as [|n IH]; [done|]; cbn [replicate le_val]; by rewrite IH).
  induction l as [|b l IH]; [done|]. cbn [app le_val]. by rewrite IH.
Qed.

Lemma le_val_bytes n bs : Forall (is_u 8) bs -> (length bs <= n)%nat -> le_bytes n (le_val bs) = bs ++ replicate (n - length bs) 0.
Proof.
  intros HF. revert n. induction HF as [|b bs Hb HF IH]; intros n Hn.
  { cbn. rewrite Nat.sub_0_r. induction n as [|n IH]; [done|]. cbn [le_bytes replicate]. f_equal. by apply IH; cbn; lia. }
  destruct n as [|n]; [cbn in Hn; lia|]. cbn [le_bytes le_val app length Nat.sub]. f_equal.
  - unfold uwrap. rewrite Z.lor_comm, lor_high_low by (lia || done). rewrite Z.mul_comm, Z.add_comm, Z.mul_comm, Z_mod_plus_full. by apply Z.mod_small.
  - rewrite Z.lor_comm, lor_high_low by (lia || done). rewrite Z.shiftr_div_pow2 by lia.
    rewrite Z.add_comm, Z.div_add by lia. rewrite (Z.div_small b) by (unfold is_u in Hb; lia). apply IH. cbn in Hn. lia.
Qed.

(** ** Fields

    The immediates a block's metadata names: the target field of a direct branch, or the [i]th
    mov immediate. *)
Inductive field := FRel32 (s : BranchImmSite) | FMovImm (i : nat) (s : MovImmSite).

Definition field_of (e : BlockEntry) (f : field) : Prop :=
  match f with FRel32 s => s ∈ Entry.BranchImmSites e | FMovImm i s => Entry.MovImmSites e !! i = Some s end.
Definition field_start (f : field) : Z := match f with FRel32 s => BranchImmStart s | FMovImm _ s => ImmStart s end.
Definition field_size (f : field) : Z := match f with FRel32 _ => 4 | FMovImm _ s => ImmSize s end.
Definition in_field (f : field) (a : Z) : Prop := field_start f <= a < field_start f + field_size f.
Definition field_value (mem : Z -> Z) (f : field) : Z :=
  match f with FRel32 s => OldTarget mem s | FMovImm _ s => MovImmSiteValue mem s end.

(** A window materialises a value, in whatever register it loads. *)
Definition holds (host : Z -> Z) (v w : Z) : Prop := window host w = SynthesizeRIPWindow (RIPWindowRegIdx (host w)) v.

#[export] Instance holds_dec host v w : Decision (holds host v w) := decide (window host w = _).

(** The windows of the block that are taken for the field's: the exits that materialise its branch target, or the
    windows with its index. *)
Definition field_windows (mem host : Z -> Z) (e : BlockEntry) (f : field) : list Z :=
  match f with
  | FRel32 s => filter (holds host (OldTarget mem s)) (ExitHostAddr <$> Entry.ExitRIPSites e)
  | FMovImm i _ => HostAddr <$> site_windows (Z.of_nat i) (Entry.MovImmWindows e)
  end.

Lemma Classify_NoMatch host w o n : ClassifyRIPSite host w o n = NoMatch <-> ~ holds host o w.
Proof.
  unfold ClassifyRIPSite, holds. cbv zeta. case_bool_decide; cbn [negb]; [|done]. split; [|done].
  destruct (diffs _ _) as [i k]. destruct (k =? 0); [done|]. by destruct (1 <? k).
Qed.

(** The index that is claimed is that of a site. *)
Lemma claim_movimm_index mem Start End NewBytes Sites j C K i k : claim_movimm mem Start End NewBytes Sites j C K = Some (i, k) ->
  i = C /\ k = K \/ exists n : nat, i = j + Z.of_nat n /\ (n < length Sites)%nat.
Proof.
  revert j C K. induction Sites as [|s Sites IH]; intros j C K; cbn [claim_movimm length]; [intros [= <- <-]; by left|].
  assert (Hhit : claim_movimm mem Start End NewBytes Sites (j + 1) j (K + 1) = Some (i, k) -> exists n : nat, i = j + Z.of_nat n /\ (n < S (length Sites))%nat).
  { intros [[-> _]|(n & -> & ?)]%IH; [exists 0%nat|exists (S n)]; lia. }
  destruct (_ && _); [intros H; right; by apply Hhit|]. destruct (_ && _); [destruct (forallb _ _); [|done]; intros H; right; by apply Hhit|].
  intros [?|(n & -> & ?)]%IH; [by left|]. right. exists (S n). lia.
Qed.

Section plan.
  Context (mem host : Z -> Z) (tail : Z -> Z * Z) (Start End : Z) (NewBytes : list Z).

(** ** Claims

    The field that the code takes the written bytes for, and its value after the store as the code computes it. *)
Definition claimed (e : BlockEntry) (f : field) : Prop :=
  match f with
  | FRel32 s => find (claims_rel32 Start End) (Entry.BranchImmSites e) = Some s
  | FMovImm i s => find (claims_rel32 Start End) (Entry.BranchImmSites e) = None /\
      claim_movimm mem Start End NewBytes (Entry.MovImmSites e) 0 (Z.of_nat (length (Entry.MovImmSites e))) 0 = Some (Z.of_nat i, 1) /\
      Entry.MovImmSites e !! i = Some s
  end.
Definition new_value (f : field) : Z :=
  match f with FRel32 s => NewTarget mem s Start NewBytes | FMovImm _ s => NewValue mem s Start End NewBytes end.

Definition claim (e : BlockEntry) (w o n : Z) : Prop :=
  exists f, claimed e f /\ w ∈ field_windows mem host e f /\ o = field_value mem f /\ n = new_value f.

Definition edit (e : BlockEntry) (p : WordPatch) : Prop := exists w o n, claim e w o n /\ ClassifyRIPSite host w o n = Patchable (Some p).

(** One field is claimed, it has one window, and that is found patchable; or none is, and the
    block did not translate the bytes. *)
Definition settled (e : BlockEntry) : Prop :=
  (exists f w q, claimed e f /\ field_windows mem host e f = [w] /\ ClassifyRIPSite host w (field_value mem f) (new_value f) = Patchable q) \/
  (forall f, ~ claimed e f) /\ BlockTranslatedRange tail e Start End = false.

Lemma claimed_unique e f f' : claimed e f -> claimed e f' -> f = f'.
Proof.
  destruct f, f'; cbn; [intros; congruence|intros ? (? & _); congruence|intros (? & _) ?; congruence|].
  intros (_ & H & Hs) (_ & H' & Hs'). rewrite H in H'. injection H' as ?%(inj Z.of_nat). subst. congruence.
Qed.

Lemma settled_claim e f w q w' o n : claimed e f -> field_windows mem host e f = [w] ->
  ClassifyRIPSite host w (field_value mem f) (new_value f) = Patchable q -> claim e w' o n -> w' = w /\ o = field_value mem f /\ n = new_value f.
Proof.
  intros Hf Hw _ (f' & Hf' & Hw' & -> & ->). rewrite <- (claimed_unique e f f' Hf Hf'), Hw in *. by apply list_elem_of_singleton in Hw'.
Qed.

(** A block with one claim, whose window is found patchable. *)
Lemma settle e f w P : claimed e f -> field_windows mem host e f = [w] -> ClassifyRIPSite host w (field_value mem f) (new_value f) = Patchable P ->
  settled e /\ forall p, p ∈ option_list P <-> edit e p.
Proof.
  intros Hf Hw Hc. split; [left; by exists f, w, P|]. intros p. split.
  - intros Hp. destruct P as [q|]; [|by apply elem_of_nil in Hp]. apply list_elem_of_singleton in Hp as ->. exists w, (field_value mem f), (new_value f).
    split; [|done]. exists f. rewrite Hw. split_and!; [done|left|done|done].
  - intros (w' & o & n & Hcl & Hc'). destruct (settled_claim e f w P w' o n Hf Hw Hc Hcl) as (-> & -> & ->). rewrite Hc in Hc'. injection Hc' as ->. by left.
Qed.

(** ** One block *)

Lemma match_exits_spec Old New Sites M P M' P' : match_exits host Old New Sites M P = Some (M', P') ->
  let ws := filter (holds host Old) (ExitHostAddr <$> Sites) in
  M' = M + Z.of_nat (length ws) /\ (ws = [] -> P' = P) /\ forall w, ws = [w] -> ClassifyRIPSite host w Old New = Patchable P'.
Proof.
  cbv zeta. revert M P. induction Sites as [|s Sites IH]; intros M P; cbn [match_exits fmap list_fmap]; [intros [= <- <-]; cbn; split_and!; [lia|done|done]|].
  rewrite filter_cons. destruct (ClassifyRIPSite host (ExitHostAddr s) Old New) as [|Q|] eqn:Es; [| |done].
  - apply Classify_NoMatch in Es. rewrite decide_False by done. apply IH.
  - rewrite decide_True by (apply dec_stable; intros Hn; by rewrite (proj2 (Classify_NoMatch _ _ _ New) Hn) in Es). intros H.
    destruct (IH (M + 1) Q H) as (-> & H0 & _). cbn [length]. split_and!; [lia|done|]. intros w [= <- Hnil]. by rewrite (H0 Hnil).
Qed.

Lemma PlanRel32_spec e s Out r Out' : find (claims_rel32 Start End) (Entry.BranchImmSites e) = Some s ->
  PlanRel32 mem host e s Start NewBytes Out = (r, Out') -> (forall d, r <> Decline d) ->
  r = Planned /\ settled e /\ exists ex, Out' = Out ++ ex /\ forall p, p ∈ ex <-> edit e p.
Proof.
  intros Hf. unfold PlanRel32. case_bool_decide; [intros [= <- _] Hd; by destruct (Hd no_exit_sites)|].
  destruct (match_exits _ _ _ _ _ _) as [[M P]|] eqn:Em; [|intros [= <- _] Hd; by destruct (Hd multiword)].
  destruct (Z.eqb_spec M 1) as [->|]; cbn [negb]; [|intros [= <- _] Hd; by edestruct Hd].
  intros [= <- <-] _. split; [done|]. apply match_exits_spec in Em as (Hlen & _ & Hc).
  destruct (filter _ _) as [|w [|]] eqn:Ew; cbn [length] in Hlen; try lia.
  destruct (settle e (FRel32 s) w P Hf Ew (Hc w eq_refl)). split; [done|]. by exists (option_list P).
Qed.

Lemma claim_movimm_mono Sites j C K v k : claim_movimm mem Start End NewBytes Sites j C K = Some (v, k) -> K <= k.
Proof.
  revert j C K. induction Sites as [|S0 Sites IH]; intros j C K; cbn [claim_movimm]; [intros [= _ <-]; lia|].
  repeat case_match; intros Hx; try done; apply IH in Hx; lia.
Qed.

Lemma PlanMovImm_spec e Out r Out' : find (claims_rel32 Start End) (Entry.BranchImmSites e) = None ->
  PlanMovImmPatch mem host e Start End NewBytes Out = (r, Out') -> (forall d, r <> Decline d) ->
  r = Planned /\ settled e /\ (exists ex, Out' = Out ++ ex /\ forall p, p ∈ ex <-> edit e p) \/
  r = NoCandidate /\ Out' = Out /\ forall f, ~ claimed e f.
Proof.
  intros Hf. unfold PlanMovImmPatch.
  assert (Hno : forall x, claim_movimm mem Start End NewBytes (Entry.MovImmSites e) 0 (Z.of_nat (length (Entry.MovImmSites e))) 0 = x ->
    (forall i, x <> Some (i, 1)) -> forall f, ~ claimed e f).
  { intros x Hx Hn [s|i s]; cbn; [congruence|]. intros (_ & H & _). rewrite Hx in H. by apply (Hn (Z.of_nat i)). }
  destruct (claim_movimm _ _ _ _ _ _ _ _) as [[i n]|] eqn:Ec; [|intros [= <- <-] _; right; split; [done|]; split; [done|]; apply (Hno _ eq_refl); congruence].
  destruct (Z.eqb_spec n 0) as [->|Hn0]; [intros [= <- <-] _; right; split; [done|]; split; [done|]; apply (Hno _ eq_refl); congruence|]. clear Hno.
  destruct (Z.ltb_spec 1 n); [intros [= <- _] Hd; by edestruct Hd|].
  destruct (Entry.MovImmSites e !! Z.to_nat i) as [s|] eqn:Es;
    [|destruct (site_windows i (Entry.MovImmWindows e)); intros [= <- _] Hd; by edestruct Hd].
  destruct (site_windows i (Entry.MovImmWindows e)) as [|W [|]] eqn:Ew; try (intros [= <- _] Hd; by edestruct Hd).
  destruct (ClassifyRIPSite _ _ _ _) as [|P|] eqn:Hc; try (intros [= <- _] Hd; by edestruct Hd). intros [= <- <-] _. left. split; [done|].
  pose proof (claim_movimm_mono _ _ _ _ _ _ Ec). assert (n = 1) as -> by lia.
  assert (Hi : Z.of_nat (Z.to_nat i) = i).
  { destruct (claim_movimm_index _ _ _ _ _ _ _ _ _ _ Ec) as [[_ ?]|(k & -> & _)]; lia. }
  destruct (settle e (FMovImm (Z.to_nat i) s) (HostAddr W) P); [cbn; by rewrite Hi|cbn; by rewrite Hi, Ew|done|]. split; [done|]. by exists (option_list P).
Qed.

(** A set of blocks and the edits planned for it. *)
Definition plan_ok (S : BlockEntry -> Prop) (ex : list WordPatch) : Prop :=
  (forall e, S e -> settled e) /\ forall p, p ∈ ex <-> exists e, S e /\ edit e p.

Lemma plan_ok_union (S S' : BlockEntry -> Prop) ex ex' : plan_ok S ex -> plan_ok S' ex' -> plan_ok (fun e => S e \/ S' e) (ex ++ ex').
Proof.
  intros [H1 H2] [H1' H2']. split; [intros e [?|?]; auto|]. intros p. rewrite elem_of_app, H2, H2'. split.
  - intros [(e & ? & ?)|(e & ? & ?)]; eauto.
  - intros (e & [?|?] & ?); eauto.
Qed.

Lemma plan_ok_ext (S S' : BlockEntry -> Prop) ex : (forall e, S e <-> S' e) -> plan_ok S ex -> plan_ok S' ex.
Proof.
  intros Hs [H1 H2]. split; [intros e He; by apply H1, Hs|]. intros p. rewrite H2. split; intros (e & ? & ?); exists e; (split; [by apply Hs|done]).
Qed.

Lemma PlanBlock_spec e Out K r Out' K' : PlanBlock mem host tail e Start End NewBytes Out K = (r, Out', K') -> (forall d, r <> Decline d) ->
  exists ex, Out' = Out ++ ex /\ plan_ok (eq e) ex.
Proof.
  unfold PlanBlock. intros Hrun Hd.
  assert (Hone : forall ex, settled e -> (forall p, p ∈ ex <-> edit e p) -> plan_ok (eq e) ex).
  { intros ex Hs He. split; [by intros e' <-|]. intros p. rewrite He. split; [eauto|by intros (e' & <- & ?)]. }
  destruct (find (claims_rel32 Start End) (Entry.BranchImmSites e)) as [s|] eqn:Hf.
  - destruct (PlanRel32 mem host e s Start NewBytes Out) as [r1 Out1] eqn:E1.
    destruct (PlanRel32_spec e s Out r1 Out1 Hf E1) as (-> & Hs & ex & -> & He).
    { intros d ->. injection Hrun as <- _ _. by apply (Hd d). }
    injection Hrun as <- <- <-. eauto.
  - destruct (PlanMovImmPatch mem host e Start End NewBytes Out) as [r1 Out1] eqn:E1.
    destruct (PlanMovImm_spec e Out r1 Out1 Hf E1) as [(-> & Hs & ex & -> & He)|(-> & -> & Hn)].
    { intros d ->. injection Hrun as <- _ _. by apply (Hd d). }
    + injection Hrun as <- <- <-. eauto.
    + destruct (BlockTranslatedRange tail e Start End) eqn:Et; injection Hrun as <- <- <-; [by destruct (Hd unclaimed_cover)|].
      exists []. split; [by rewrite app_nil_r|]. apply Hone; [by right|]. intros p. split; [by intros ?%elem_of_nil|].
      intros (w & o & n & (f & Hf' & _) & _). by destruct (Hn f).
Qed.

(** ** Maps and buffers *)

Lemma plan_entries_spec m Addrs res Out K r Out' K' :
  plan_entries mem host tail m Start End NewBytes Addrs res Out K = (r, Out', K') -> (forall d, r <> Decline d) ->
  exists ex, Out' = Out ++ ex /\ plan_ok (fun e => exists a, a ∈ Addrs /\ BlockList m !! a = Some e) ex.
Proof.
  revert res Out K. induction Addrs as [|a Addrs IH]; intros res Out K; cbn [plan_entries].
  { intros [= _ <- _] _. exists []. split; [by rewrite app_nil_r|]. split; [by intros e (a & ?%elem_of_nil & _)|].
    intros p. split; [by intros ?%elem_of_nil|]. by intros (e & (a & ?%elem_of_nil & _) & _). }
  destruct (BlockList m !! a) as [e|] eqn:Ea.
  - destruct (PlanBlock mem host tail e Start End NewBytes Out K) as [[r1 Out1] K1] eqn:E1. intros Hrun Hd.
    destruct (PlanBlock_spec e Out K r1 Out1 K1 E1) as (ex1 & -> & H1). { intros d ->. injection Hrun as <- _ _. by apply (Hd d). }
    assert (exists res', plan_entries mem host tail m Start End NewBytes Addrs res' (Out ++ ex1) K1 = (r, Out', K')) as [res' Hrun'].
    { destruct r1; [eauto|eauto|]. injection Hrun as <- _ _. by destruct (Hd r0). }
    destruct (IH _ _ _ Hrun' Hd) as (ex2 & -> & H2). exists (ex1 ++ ex2). split; [by rewrite app_assoc|].
    eapply plan_ok_ext; [|by apply plan_ok_union]. intros e'. split.
    + intros [<-|(a' & ? & ?)]; [exists a; by split; [left|]|exists a'; by split; [right|]].
    + intros (a' & [->|?]%elem_of_cons & ?); [left; congruence|right; eauto].
  - intros Hrun Hd. destruct (IH _ _ _ Hrun Hd) as (ex & -> & H). exists ex. split; [done|]. eapply plan_ok_ext; [|exact H].
    intros e'. split; [intros (a' & ? & ?); exists a'; by split; [right|]|]. intros (a' & [->|?]%elem_of_cons & ?); [congruence|eauto].
Qed.

End plan.

Section buffers.
  Context (mem host : Z -> Z) (tail : Z -> Z * Z) (Start : Z) (NewBytes : list Z).
  Local Abbreviation Length := (Z.of_nat (length NewBytes)).
  Local Abbreviation End := (Start + Length).
  Context (HS : 0 <= Start) (HL : 0 < Length) (HE : End < 2 ^ 64).

Lemma End_eq : u64 End = End.
Proof using HS HL HE. apply u_small. unfold is_u. lia. Qed.

Lemma PlanSemanticPatch_spec m Out K : exists r Out' K', PlanSemanticPatch mem host tail m Start Length NewBytes Out K = Some (r, Out', K') /\
  ((exists d, r = Decline d) \/ (forall d, r <> Decline d) /\
   exists ex, Out' = Out ++ ex /\ plan_ok mem host tail Start End NewBytes (fun e => exists a, BlockList m !! a = Some e /\ listed_in m Start Length a) ex).
Proof using HS HL HE.
  unfold PlanSemanticPatch. cbv zeta. rewrite End_eq.
  destruct (range_pages Start Length HS HL ltac:(lia)) as (_ & _ & Hlh). unfold last_page in Hlh. rewrite End_eq in Hlh.
  destruct (key_range_spec (CodePages m) (first_page Start) (u64 (End - 1) >>> 12)) as (ks & -> & Hks); [lia|]. cbn [mbind option_bind].
  destruct (plan_entries _ _ _ _ _ _ _ _ _ _ _) as [[r Out'] K'] eqn:E. exists r, Out', K'. split; [done|].
  assert ((exists d, r = Decline d) \/ forall d, r <> Decline d) as [?|Hd] by (destruct r; naive_solver); [by left|]. right. split; [done|].
  destruct (plan_entries_spec _ _ _ _ _ _ _ _ _ _ _ _ _ _ E Hd) as (ex & -> & H). exists ex. split; [done|]. eapply plan_ok_ext; [|exact H].
  assert (Hw : forall a, a ∈ (ks ≫= fun k => default [] (CodePages m !! k)) <-> listed_in m Start Length a).
  { intros a. apply (walk_addresses_elem m ks). intros k. rewrite Hks. unfold in_range, last_page. by rewrite End_eq. }
  intros e. split; intros (a & ? & ?); exists a; (split; [done|by apply Hw]) || (split; [by apply Hw|done]).
Qed.

(** The blocks the walk over the buffers looks at. *)
Definition considered (bs : gmap nat Map) (l : list nat) (e : BlockEntry) : Prop :=
  exists b m a, b ∈ l /\ bs !! b = Some m /\ BlockList m !! a = Some e /\ listed_in m Start Length a.

Lemma plan_buffers_spec bs l Any Out K :
  exists l' res, plan_buffers mem host tail bs Start Length NewBytes l Any Out K = Some (l', res) /\ (forall b, b ∈ l' -> b ∈ l) /\
    (forall b, b ∈ l -> is_Some (bs !! b) -> b ∈ l') /\
    match res with
    | inl _ => True
    | inr (_, Out', _) => exists ex, Out' = Out ++ ex /\ plan_ok mem host tail Start End NewBytes (considered bs l) ex
    end.
Proof using HS HL HE.
  revert Any Out K. induction l as [|b l IH]; intros Any Out K; cbn [plan_buffers].
  { eexists [], _. split; [done|]. split; [done|]. split; [done|]. exists []. split; [by rewrite app_nil_r|].
    split; [by intros e (b & m & a & ?%elem_of_nil & _)|]. intros p. split; [by intros ?%elem_of_nil|]. by intros (e & (b & m & a & ?%elem_of_nil & _) & _). }
  destruct (bs !! b) as [m|] eqn:Eb.
  2: { destruct (IH Any Out K) as (l' & res & -> & Hl & Hl' & H). exists l', res. split; [done|]. split; [intros b' ?; right; auto|].
       split; [intros b' [->|?]%elem_of_cons Hs; [rewrite Eb in Hs; by destruct Hs|auto]|].
       destruct res as [|[[? Out'] ?]]; [done|]. destruct H as (ex & -> & H). exists ex. split; [done|]. eapply plan_ok_ext; [|exact H].
       intros e. split; intros (b' & m & a & Hb & Hbm & ?); exists b', m, a; [split; [by right|done]|].
       apply elem_of_cons in Hb as [->|Hb]; [congruence|]. by split. }
  destruct (PlanSemanticPatch_spec m Out K) as (r & Out1 & K1 & -> & H1). cbn [mbind option_bind].
  destruct H1 as [[d ->]|[Hd (ex1 & -> & H1)]]; [by eexists _, _|].
  destruct (IH (match r with Planned => true | _ => Any end) (Out ++ ex1) K1) as (l' & res & Hrun & Hl & Hl' & H).
  exists (b :: l'), res. split; [destruct r; [by rewrite Hrun..|by destruct (Hd r)]|].
  split; [intros b' [->|?]%elem_of_cons; [left|right; auto]|]. split; [intros b' [->|?]%elem_of_cons ?; [left|right; auto]|].
  destruct res as [|[[? Out'] ?]]; [done|]. destruct H as (ex2 & -> & H). exists (ex1 ++ ex2). split; [by rewrite app_assoc|].
  eapply plan_ok_ext; [|by apply plan_ok_union]. intros e. split.
  - intros [(a & ? & ?)|(b' & m' & a & ? & ? & ?)]; [exists b, m, a; by split; [left|]|exists b', m', a; by split; [right|]].
  - intros (b' & m' & a & [->|?]%elem_of_cons & Hb & ?); [left; exists a; by simplify_eq|right; by exists b', m', a].
Qed.

(** *** The value after the store *)

Lemma claims_bounds s : 0 <= BranchImmStart s -> BranchImmStart s + 4 < 2 ^ 64 -> claims_rel32 Start End s = true ->
  BranchImmStart s <= Start /\ End <= BranchImmStart s + 4.
Proof using. intros H0 H1. unfold claims_rel32. rewrite (u_small 64 (BranchImmStart s + 4)) by (unfold is_u; lia). intros H. to_prop. lia. Qed.

Lemma stored_bytes a n : 0 <= a -> a + n < 2 ^ 64 -> a <= Start -> End <= a + n ->
  guest_bytes (stored mem Start NewBytes) a n = list_inserts (Z.to_nat (Start - a)) NewBytes (guest_bytes mem a n).
Proof using HS HL HE.
  intros Ha Hn HSa HEa. unfold guest_bytes. apply list_eq. intros i.
  assert (Hlen : forall f : Z -> Z, length (f <$> seqZ 0 n) = Z.to_nat n) by (intros f; by rewrite length_fmap, length_seqZ).
  destruct (decide (Z.of_nat i < n)) as [Hi|Hi].
  2: { rewrite !lookup_ge_None_2; [done|rewrite length_inserts, Hlen; lia|rewrite Hlen; lia]. }
  rewrite list_lookup_fmap, lookup_seqZ_lt by lia. cbn. rewrite (u_small 64) by (unfold is_u; lia).
  unfold stored. destruct (decide (Start <= a + (0 + Z.of_nat i) < End)) as [Hin|Hout].
  - replace ((Start <=? a + (0 + Z.of_nat i)) && (a + (0 + Z.of_nat i) <? End)) with true by (symmetry; apply andb_true_iff; lia).
    rewrite list_lookup_inserts by (rewrite ?Hlen; lia). replace (Z.to_nat (a + (0 + Z.of_nat i) - Start)) with (i - Z.to_nat (Start - a))%nat by lia.
    destruct (lookup_lt_is_Some_2 NewBytes (i - Z.to_nat (Start - a))) as [v ->]; [lia|done].
  - replace ((Start <=? a + (0 + Z.of_nat i)) && (a + (0 + Z.of_nat i) <? End)) with false by (symmetry; apply andb_false_iff; lia).
    destruct (decide (Z.of_nat i < Start - a)); [rewrite list_lookup_inserts_lt by lia|rewrite list_lookup_inserts_ge by lia];
      rewrite list_lookup_fmap, lookup_seqZ_lt by lia; cbn; by rewrite (u_small 64) by (unfold is_u; lia).
Qed.

Lemma NewTarget_stored s : 0 <= BranchImmStart s -> BranchImmStart s + 4 < 2 ^ 64 -> claims_rel32 Start End s = true ->
  NewTarget mem s Start NewBytes = OldTarget (stored mem Start NewBytes) s.
Proof using HS HL HE.
  intros H0 H1 Hc. destruct (claims_bounds s H0 H1 Hc). unfold NewTarget, OldTarget, rel_at. by rewrite stored_bytes by lia.
Qed.

(** The field of a site, inside which the store lies or which it covers. *)
Definition mov_overlap (s : MovImmSite) : Prop :=
  ImmStart s <= Start /\ End <= ImmStart s + ImmSize s \/ Start <= ImmStart s /\ ImmStart s + ImmSize s <= End.

Definition mov_site_ok (s : MovImmSite) : Prop := (ImmSize s = 4 \/ ImmSize s = 8) /\ 0 <= ImmStart s /\ ImmStart s + ImmSize s < 2 ^ 64.

(** The bytes that a store changes lie in an interval. *)
Definition changes_in (a n : Z) : Prop := forall b, stored mem Start NewBytes b <> mem b -> a <= b < a + n.

Lemma changes_in_store a n : a <= Start -> End <= a + n -> changes_in a n.
Proof using.
  intros H1 H2 b. unfold stored. destruct ((Start <=? b) && (b <? End)) eqn:E; [to_prop; lia|done].
Qed.

Lemma changes_in_cover a n : Start <= a -> a + n <= End ->
  forallb (fun b => (a <=? b) && (b <? a + n) || (mem b =? default 0 (NewBytes !! Z.to_nat (b - Start)))) (seqZ Start (End - Start)) = true -> changes_in a n.
Proof using.
  intros H1 H2 Hall b. unfold stored. destruct ((Start <=? b) && (b <? End)) eqn:E; [|done]. to_prop. intros Hne.
  rewrite forallb_forall in Hall. specialize (Hall b). cbv beta in Hall.
  assert (Hin : In b (seqZ Start (End - Start))) by (apply list_elem_of_In, elem_of_seqZ; lia).
  apply orb_true_iff in Hall as [Hb|Hb]; [to_prop; lia|to_prop; congruence|done].
Qed.

Lemma claim_movimm_site Sites j C K i k : Forall mov_site_ok Sites -> claim_movimm mem Start End NewBytes Sites j C K = Some (i, k) ->
  i = C /\ k = K \/ exists n s, Sites !! n = Some s /\ i = j + Z.of_nat n /\ mov_overlap s /\ changes_in (ImmStart s) (ImmSize s).
Proof using.
  intros HF. revert j C K. induction HF as [|s Sites (Hsz & H0 & H1) HF IH]; intros j C K; cbn [claim_movimm]; [intros [= <- <-]; by left|].
  rewrite (u_small 64 (ImmStart s + ImmSize s)) by (unfold is_u; lia).
  assert (Hhit : mov_overlap s -> changes_in (ImmStart s) (ImmSize s) -> claim_movimm mem Start End NewBytes Sites (j + 1) j (K + 1) = Some (i, k) ->
    exists n s0, (s :: Sites) !! n = Some s0 /\ i = j + Z.of_nat n /\ mov_overlap s0 /\ changes_in (ImmStart s0) (ImmSize s0)).
  { intros Ho Hch [[-> _]|(n & s0 & ? & -> & ?)]%IH; [exists 0%nat, s; split_and!; [done|lia|done|done]|exists (S n), s0; split; [done|]; split; [lia|done]]. }
  destruct ((ImmStart s <=? Start) && (End <=? ImmStart s + ImmSize s)) eqn:E1.
  { intros H; right. to_prop. apply Hhit; [left; lia|apply changes_in_store; lia|done]. }
  destruct ((Start <=? ImmStart s) && (ImmStart s + ImmSize s <=? End)) eqn:E2.
  - destruct (forallb _ _) eqn:Hall; [|done]. intros H. right. to_prop. apply Hhit; [right; lia|by apply changes_in_cover|done].
  - intros [?|(n & s0 & ? & -> & ?)]%IH; [by left|right]. exists (S n), s0. split; [done|]. split; [lia|done].
Qed.

Lemma NewValue_stored s : (forall a, is_u 8 (mem a)) -> mov_site_ok s -> mov_overlap s ->
  NewValue mem s Start End NewBytes = MovImmSiteValue (stored mem Start NewBytes) s.
Proof using HS HL HE.
  intros Hmem (Hsz & H0 & H1) Ho. unfold NewValue, MovImmSiteValue. cbv zeta. rewrite (u_small 64 (ImmStart s + ImmSize s)) by (unfold is_u; lia).
  set (l := guest_bytes mem (ImmStart s) (ImmSize s)).
  assert (Hlen : length l = Z.to_nat (ImmSize s)) by (unfold l, guest_bytes; by rewrite length_fmap, length_seqZ).
  rewrite le_val_bytes; [|apply Forall_forall; unfold l, guest_bytes; intros v (i & -> & _)%list_elem_of_fmap; apply Hmem|rewrite Hlen; lia].
  assert (Hgo : forall k X, (k + length X <= length l)%nat -> list_inserts k X l = guest_bytes (stored mem Start NewBytes) (ImmStart s) (ImmSize s) ->
    le_val (list_inserts k X (l ++ replicate (8 - length l) 0)) = le_val (guest_bytes (stored mem Start NewBytes) (ImmStart s) (ImmSize s))).
  { intros k X Hk HX. by rewrite inserts_app, le_val_zeros, HX by done. }
  destruct (decide (ImmStart s <= Start /\ End <= ImmStart s + ImmSize s)) as [[Ha Hb]|Hn].
  - replace (if ImmStart s <? Start then Start else ImmStart s) with Start by (destruct (Z.ltb_spec (ImmStart s) Start); lia).
    replace (if End <? ImmStart s + ImmSize s then End else ImmStart s + ImmSize s) with End by (destruct (Z.ltb_spec End (ImmStart s + ImmSize s)); lia).
    rewrite Z.sub_diag. change (drop (Z.to_nat 0) NewBytes) with NewBytes. rewrite take_ge by lia.
    apply Hgo; [rewrite Hlen; lia|]. unfold l. by rewrite stored_bytes by lia.
  - destruct Ho as [?|[Ha Hb]]; [lia|].
    replace (if ImmStart s <? Start then Start else ImmStart s) with (ImmStart s) by (destruct (Z.ltb_spec (ImmStart s) Start); lia).
    replace (if End <? ImmStart s + ImmSize s then End else ImmStart s + ImmSize s) with (ImmStart s + ImmSize s)
      by (destruct (Z.ltb_spec End (ImmStart s + ImmSize s)); lia).
    rewrite Z.sub_diag. change (Z.to_nat 0) with 0%nat. set (X := take _ _).
    assert (HX : length X = length l) by (unfold X; rewrite length_take, length_drop, Hlen; lia).
    apply Hgo; [lia|]. rewrite inserts_all by done. unfold X, guest_bytes. apply list_eq. intros i.
    destruct (decide (Z.of_nat i < ImmSize s)) as [Hi|Hi].
    + rewrite lookup_take_lt, lookup_drop by lia. rewrite list_lookup_fmap, lookup_seqZ_lt by lia. cbn. rewrite (u_small 64) by (unfold is_u; lia). unfold stored.
      replace ((Start <=? ImmStart s + (0 + Z.of_nat i)) && (ImmStart s + (0 + Z.of_nat i) <? End)) with true by (symmetry; apply andb_true_iff; lia).
      replace (Z.to_nat (ImmStart s + (0 + Z.of_nat i) - Start)) with (Z.to_nat (ImmStart s - Start) + i)%nat by lia.
      destruct (lookup_lt_is_Some_2 NewBytes (Z.to_nat (ImmStart s - Start) + i)) as [v ->]; [lia|done].
    + rewrite !lookup_ge_None_2; [done|rewrite length_fmap, length_seqZ; lia|fold X; rewrite HX, Hlen; lia].
Qed.

End buffers.

(** ** All windows *)

Definition sites_ok (e : BlockEntry) : Prop :=
  Forall (fun s => 0 <= BranchImmStart s /\ BranchImmStart s + 4 < 2 ^ 64) (Entry.BranchImmSites e) /\ Forall mov_site_ok (Entry.MovImmSites e).

Definition windows (e : BlockEntry) : list Z := (ExitHostAddr <$> Entry.ExitRIPSites e) ++ (HostAddr <$> Entry.MovImmWindows e).

Definition same_sites (e e' : BlockEntry) : Prop :=
  Entry.BranchImmSites e = Entry.BranchImmSites e' /\ Entry.ExitRIPSites e = Entry.ExitRIPSites e' /\
  Entry.MovImmSites e = Entry.MovImmSites e' /\ Entry.MovImmWindows e = Entry.MovImmWindows e'.

(** Two windows are disjoint, or they are one window of entries that share their tables, as the
    entry points of one compiled block do. *)
Definition windows_apart (S : BlockEntry -> Prop) : Prop :=
  forall e e' w w', S e -> S e' -> w ∈ windows e -> w' ∈ windows e' -> w = w' /\ same_sites e e' \/ w + 20 <= w' \/ w' + 20 <= w.

Section apply.
  Context (mem host : Z -> Z) (tail : Z -> Z * Z) (Start End : Z) (NewBytes : list Z).

Lemma claim_window e w o n : claim mem host Start End NewBytes e w o n -> w ∈ windows e.
Proof.
  unfold windows. rewrite elem_of_app. intros ([s|i s] & _ & Hw & _); cbn in Hw; [left; by apply list_elem_of_filter in Hw as [_ Hw]|right].
  apply list_elem_of_fmap in Hw as (W & -> & Hw). apply list_elem_of_fmap_2. unfold site_windows in Hw. by apply list_elem_of_filter in Hw as [_ Hw].
Qed.

Lemma claim_same e e' w o n : same_sites e e' -> claim mem host Start End NewBytes e w o n -> claim mem host Start End NewBytes e' w o n.
Proof.
  intros (H1 & H2 & H3 & H4) (f & Hf & Hw & Ho & Hn). exists f. split_and!; [|destruct f; cbn in *; by rewrite <- ?H2, <- ?H4|done|done].
  destruct f; cbn in *; rewrite <- H1, <- ?H3; done.
Qed.

(** The edits of a plan, applied: every window that is claimed holds the new value, and no other word changes. *)
Lemma plan_applied (S : BlockEntry -> Prop) ex : plan_ok mem host tail Start End NewBytes S ex -> windows_apart S ->
  let host' := foldl ApplyWordPatch host ex in
  (forall e w o n, S e -> claim mem host Start End NewBytes e w o n ->
     holds host o w /\ window host' w = SynthesizeRIPWindow (RIPWindowRegIdx (host w)) n) /\
  (forall a, (forall e w o n, S e -> claim mem host Start End NewBytes e w o n -> ~ (w <= a < w + 20)) -> host' a = host a).
Proof.
  intros [Hset Hex] Hap. cbv zeta. set (C w o n := exists e, S e /\ claim mem host Start End NewBytes e w o n).
  assert (Hq : forall e w o n, S e -> claim mem host Start End NewBytes e w o n -> exists q, ClassifyRIPSite host w o n = Patchable q).
  { intros e w o n He Hc. destruct (Hset e He) as [(f & w1 & q & Hf & Hw1 & Hq)|[Hn _]]; [|destruct Hc as (f & Hf & _); by destruct (Hn f)].
    destruct (settled_claim _ _ _ _ _ _ _ _ _ _ _ _ Hf Hw1 Hq Hc) as (-> & -> & ->). eauto. }
  assert (Hfrom : forall p, p ∈ ex -> exists w o n, C w o n /\ ClassifyRIPSite host w o n = Patchable (Some p)).
  { intros p (e & He & w & o & n & Hc & Hp)%Hex. exists w, o, n. split; [by exists e|done]. }
  assert (Hto : forall w o n p, C w o n -> ClassifyRIPSite host w o n = Patchable (Some p) -> p ∈ ex).
  { intros w o n p (e & He & Hc) Hp. apply Hex. exists e. split; [done|]. by exists w, o, n. }
  assert (Hapart : forall w o n w' o' n', C w o n -> C w' o' n' -> w = w' /\ o = o' /\ n = n' \/ w + 20 <= w' \/ w' + 20 <= w).
  { intros w o n w' o' n' (e & He & Hc) (e' & He' & Hc').
    destruct (Hap e e' w w' He He' (claim_window _ _ _ _ Hc) (claim_window _ _ _ _ Hc')) as [[<- Hs]|?]; [left|by right].
    pose proof (claim_same _ _ _ _ _ Hs Hc) as Hc2. destruct (Hset e' He') as [(f & w1 & q & Hf & Hw1 & Hq')|[Hn _]]; [|destruct Hc2 as (f & Hf & _); by destruct (Hn f)].
    destruct (settled_claim _ _ _ _ _ _ _ _ _ _ _ _ Hf Hw1 Hq' Hc2) as (? & -> & ->).
    by destruct (settled_claim _ _ _ _ _ _ _ _ _ _ _ _ Hf Hw1 Hq' Hc') as (? & -> & ->). }
  split.
  - intros e w o n He Hc. destruct (Hq e w o n He Hc) as [q Hcl]. split; [by apply (Classify_spec host w o n q)|].
    eapply (patched_window host C ex Hfrom Hto Hapart); [by exists e|exact Hcl].
  - intros a Ha. apply (patched_outside host C ex Hfrom). intros w o n (e & He & Hc). by eapply Ha.
Qed.

(** A window of a block that no claim of that block is about keeps its words. *)
Lemma window_kept (S : BlockEntry -> Prop) ex e w : plan_ok mem host tail Start End NewBytes S ex -> windows_apart S -> S e -> w ∈ windows e ->
  (forall o n, ~ claim mem host Start End NewBytes e w o n) -> window (foldl ApplyWordPatch host ex) w = window host w.
Proof.
  intros Hok Hap He Hw Hno. destruct (plan_applied _ _ Hok Hap) as [_ Hout]. unfold window. apply list_fmap_ext. intros k i Hi.
  apply list_elem_of_lookup_2, elem_of_seqZ in Hi. unfold kRIPWindowWords in Hi. apply Hout. intros e' w' o n He' Hc.
  destruct (Hap e' e w' w He' He (claim_window _ _ _ _ Hc) Hw) as [[-> Hs]|?]; [|lia]. by destruct (Hno o n (claim_same _ _ _ _ _ Hs Hc)).
Qed.

End apply.

(** ** What a patch leaves behind *)

(** The field [f] of a block has exactly one window, which held the value of the field's bytes before the store,
    and holds that of its bytes after it; the block's other windows are as before. *)
Definition followed (mem mem' host host' : Z -> Z) (e : BlockEntry) (f : field) : Prop :=
  exists w, field_windows mem host e f = [w] /\ w ∈ windows e /\ holds host (field_value mem f) w /\
    window host' w = SynthesizeRIPWindow (RIPWindowRegIdx (host w)) (field_value mem' f) /\
    forall w', w' ∈ windows e -> w' <> w -> window host' w' = window host w'.

Definition disjoint_fields (f f' : field) : Prop := forall a, in_field f a -> ~ in_field f' a.

(** What the store and the edits do to a block: it has no part in the written bytes and no window of it
    changed; or one field of it takes up all that the store changes, that field is followed, and every
    field that does not overlap it has the value it had. *)
Definition follows (mem mem' host host' : Z -> Z) (tail : Z -> Z * Z) (Start End : Z) (e : BlockEntry) : Prop :=
  BlockTranslatedRange tail e Start End = false /\ (forall w, w ∈ windows e -> window host' w = window host w) \/
  exists f, field_of e f /\ followed mem mem' host host' e f /\
    (forall a, mem' a <> mem a -> in_field f a) /\
    (forall f', field_of e f' -> disjoint_fields f f' -> field_value mem' f' = field_value mem f').

Definition field_ok (f : field) : Prop := 0 <= field_start f /\ field_start f + field_size f < 2 ^ 64.

Lemma sites_ok_field e f : sites_ok e -> field_of e f -> field_ok f.
Proof.
  intros [Hb Hm]. rewrite Forall_forall in Hb; rewrite Forall_forall in Hm. destruct f as [s|i s]; cbn; unfold field_ok; cbn; [apply Hb|].
  intros (_ & ? & ?)%list_elem_of_lookup_2%Hm. done.
Qed.

(** A field none of whose bytes change keeps its value. *)
Lemma field_value_same mem mem' f : field_ok f -> (forall a, in_field f a -> mem' a = mem a) -> field_value mem' f = field_value mem f.
Proof.
  intros [H0 H1] Hsame. assert (Hb : guest_bytes mem' (field_start f) (field_size f) = guest_bytes mem (field_start f) (field_size f)).
  { unfold guest_bytes. apply list_fmap_ext. intros k i Hi. apply list_elem_of_lookup_2, elem_of_seqZ in Hi.
    rewrite u_small by (unfold is_u; lia). apply Hsame. unfold in_field. lia. }
  destruct f; cbn in *; unfold OldTarget, rel_at, MovImmSiteValue; by rewrite Hb.
Qed.

Section follows.
  Context (mem host : Z -> Z) (tail : Z -> Z * Z) (Start : Z) (NewBytes : list Z).
  Local Abbreviation End := (Start + Z.of_nat (length NewBytes)).
  Context (HS : 0 <= Start) (HL : 0 < Z.of_nat (length NewBytes)) (HE : End < 2 ^ 64) (Hmem : forall a, is_u 8 (mem a)).

(** The field that is claimed: one of the block's, whose bytes are all that the store changes, and
    whose value after the store is the one the code computed. *)
Lemma claimed_spec e f : sites_ok e -> claimed mem Start End NewBytes e f ->
  field_of e f /\ (forall a, stored mem Start NewBytes a <> mem a -> in_field f a) /\
  new_value mem Start End NewBytes f = field_value (stored mem Start NewBytes) f.
Proof using HS HL HE Hmem.
  intros [Hb Hm]. rewrite Forall_forall in Hb. destruct f as [s|i s]; cbn.
  - intros [Hs Hcl]%find_some. apply list_elem_of_In in Hs. destruct (Hb s Hs). split; [done|]. split; [|by apply NewTarget_stored].
    destruct (claims_bounds Start NewBytes s) as [? ?]; [done..|]. by apply (changes_in_store mem Start NewBytes).
  - intros (_ & Hcm & Hs). destruct (claim_movimm_site _ _ _ _ _ _ _ _ _ Hm Hcm) as [[_ ?]|(k & s' & Hs' & Hk & Hov & Hch)]; [lia|].
    assert (k = i) as -> by lia. rewrite Hs in Hs'. injection Hs' as <-. split; [done|]. split; [exact Hch|].
    apply NewValue_stored; [done..| |done]. rewrite Forall_forall in Hm. apply Hm. by eapply list_elem_of_lookup_2.
Qed.

Lemma settled_follows (S : BlockEntry -> Prop) ex e : sites_ok e ->
  plan_ok mem host tail Start End NewBytes S ex -> windows_apart S -> S e ->
  follows mem (stored mem Start NewBytes) host (foldl ApplyWordPatch host ex) tail Start End e.
Proof using HS HL HE Hmem.
  intros Hsites Hok Hap He. pose proof (proj1 (plan_applied _ _ _ _ _ _ _ _ Hok Hap)) as Hw.
  destruct (proj1 Hok e He) as [(f & w & q & Hf & Hfw & Hq)|[Hn Ht]]; [right|left].
  - destruct (claimed_spec e f Hsites Hf) as (Hof & Hch & Hv). exists f. split; [done|]. split_and!; [|exact Hch|].
    + assert (Hcl : claim mem host Start End NewBytes e w (field_value mem f) (new_value mem Start End NewBytes f)).
      { exists f. rewrite Hfw. split_and!; [done|left|done|done]. }
      destruct (Hw _ _ _ _ He Hcl) as [Ho Hnew]. exists w. split_and!; [done|by eapply claim_window|done|by rewrite <- Hv|].
      intros w' Hw' Hne. apply (window_kept _ _ _ _ _ _ S ex e w' Hok Hap He Hw'). intros o n Hc.
      by destruct (settled_claim _ _ _ _ _ _ _ _ _ _ _ _ Hf Hfw Hq Hc).
    + intros f' Hf' Hd. apply field_value_same; [by eapply sites_ok_field|]. intros a Ha.
      destruct (decide (stored mem Start NewBytes a = mem a)); [done|]. by destruct (Hd a (Hch a ltac:(done))).
  - split; [done|]. intros w Hwin. apply (window_kept _ _ _ _ _ _ S ex e w Hok Hap He Hwin). intros o n (f & Hf & _). by destruct (Hn f).
Qed.

End follows.

(** ** The theorem *)

(** C3: whatever the state of the buffers, [TrySemanticPatchCodeRange] returns and changes
    neither maps nor threads.  When it refuses, no host word changes.  When it reports success, then for
    every block listed on the written page, in every live buffer: either the block did not translate the
    written bytes, and no window of it changed; or one recorded field of it takes up every byte that the store changes,
    exactly one window of the block stands for that field, it materialised the value of the old guest bytes and
    now materialises that of the bytes after the store, the block's other windows are as before, and the value
    of every field that does not overlap this one is as before.  No host word outside the windows of
    those blocks changed.  (A field that overlaps the claimed one can be left stale: lemma
    [overlapping_fields_stale].)  The recorded fields do not wrap around the address space, and the
    windows of different blocks are disjoint. *)
Theorem semantic_patch_sound flag mem host tail Start NewBytes x :
  (forall a, is_u 8 (mem a)) -> 0 <= Start -> Start + Z.of_nat (length NewBytes) < 2 ^ 64 ->
  (forall e, considered Start NewBytes (buffers x) (CodeBufferList x) e -> sites_ok e) ->
  windows_apart (considered Start NewBytes (buffers x) (CodeBufferList x)) ->
  exists res host' x', TrySemanticPatchCodeRange mem host tail flag Start NewBytes x = Some (res, host', x') /\
    buffers x' = buffers x /\ Threads x' = Threads x /\
    match res with
    | inl _ => host' = host
    | inr _ =>
        (forall e, considered Start NewBytes (buffers x) (CodeBufferList x) e ->
           follows mem (stored mem Start NewBytes) host host' tail Start (Start + Z.of_nat (length NewBytes)) e) /\
        (forall a, (forall e w, considered Start NewBytes (buffers x) (CodeBufferList x) e -> w ∈ windows e -> ~ (w <= a < w + 20)) -> host' a = host a)
    end.
Proof.
  intros Hmem HS HE Hsites Hap. unfold TrySemanticPatchCodeRange. cbv zeta. destruct flag; cbn [negb]; [|by eexists _, _, _].
  destruct ((Z.of_nat (length NewBytes) =? 0) || (8 <? Z.of_nat (length NewBytes))) eqn:El; [by eexists _, _, _|]. to_prop.
  destruct (negb _); [by eexists _, _, _|]. assert (HL : 0 < Z.of_nat (length NewBytes)) by lia.
  destruct (plan_buffers_spec mem host tail Start NewBytes HS HL HE (buffers x) (CodeBufferList x) false [] None) as (l & res & -> & _ & _ & Hres).
  cbn [mbind option_bind]. destruct res as [r|[[Any Out] K]]; [by eexists _, _, _|]. destruct Hres as (ex & -> & Hok).
  destruct Any; cbn [negb]; [|by eexists _, _, _]. eexists _, _, _. split; [done|]. split; [done|]. split; [done|]. split.
  - intros e He. apply (settled_follows mem host tail Start NewBytes HS HL HE Hmem _ ex e (Hsites e He) Hok Hap He).
  - intros a Ha. apply (plan_applied _ _ _ _ _ _ _ _ Hok Hap). intros e w o n He Hc. by eapply Ha, claim_window.
Qed.

(** ** A sample process

    One buffer with one block from page 1: its branch at [0x1000] has the target field
    [[0x1001, 0x1005)], and the store changes the byte at [0x1003]. *)

Definition sample_site : BranchImmSite := mkBranchImmSite 0x1001 0x1005.
Definition sample_host (a : Z) : Z :=
  if (0x8000 <=? a) && (a <? 0x8014) then default 0 (SynthesizeRIPWindow 3 0x1005 !! Z.to_nat ((a - 0x8000) / 4))
  else if (0x8020 <=? a) && (a <? 0x8034) then default 0 (SynthesizeRIPWindow 3 0x1006 !! Z.to_nat ((a - 0x8020) / 4))
  else 0.
Definition sample_map_of (e : BlockEntry) : Map :=
  mkMap [] BlockLinkInvalid ∅ {[0x1000 := e]} {[1 := [0x1000]]} (u64 (-1)) None ∅ ∅ CodeGranules.CodeGranuleBitmap.empty_bitmap [].
Definition sample_context (e : BlockEntry) : Context := mkContext {[0%nat := sample_map_of e]} [0%nat] [].
Definition sample_one : BlockEntry := Entry.mkBlockEntry 0x8000 0x7ff0 [0x1000] 0x1000 16 0 [sample_site] [mkExitRIPSite 0x8000] [] [].

Lemma sample_considered e e' : considered 0x1003 [1] (buffers (sample_context e)) (CodeBufferList (sample_context e)) e' -> e' = e.
Proof.
  intros (b & m & a & _ & Hb & He & _). cbn in Hb. apply lookup_singleton_Some in Hb as [_ <-]. cbn in He. by apply lookup_singleton_Some in He as [_ <-].
Qed.

Lemma semantic_patch_sound_witness : exists host' x', TrySemanticPatchCodeRange (fun _ => 0) sample_host (fun _ => (0x1000, 16)) true 0x1003 [1] (sample_context sample_one) =
    Some (inr rel32, host', x') /\
  follows (fun _ => 0) (stored (fun _ => 0) 0x1003 [1]) sample_host host' (fun _ => (0x1000, 16)) 0x1003 0x1004 sample_one.
Proof.
  destruct (semantic_patch_sound true (fun _ => 0) sample_host (fun _ => (0x1000, 16)) 0x1003 [1] (sample_context sample_one)) as (res & host' & x' & Hrun & _ & _ & H).
  - intros a. by split.
  - lia.
  - done.
  - intros e ->%sample_considered. split; [|done]. repeat constructor; cbn; lia.
  - intros e e' w w' ->%sample_considered ->%sample_considered Hw Hw'. apply list_elem_of_singleton in Hw as ->, Hw' as ->. by left.
  - exists host', x'. assert (fst <$> (fst <$> TrySemanticPatchCodeRange (fun _ => 0) sample_host (fun _ => (0x1000, 16)) true 0x1003 [1] (sample_context sample_one)) =
      Some (inr rel32)) as Hres by (vm_compute; reflexivity).
    rewrite Hrun in Hres. cbn in Hres. injection Hres as ->. split; [exact Hrun|]. apply H.
    exists 0%nat, (sample_map_of sample_one), 0x1000. split_and!; [by left|reflexivity|reflexivity|]. exists 1, [0x1000].
    split; [reflexivity|]. split; [split; vm_compute; discriminate|by left].
Defined.

(** ** Overlapping fields

    The block was decoded at two instruction boundaries: the fields [[0x1001, 0x1005)] and
    [[0x1002, 0x1006)] overlap, and each has its exit. *)

Definition sample_two : BlockEntry :=
  Entry.mkBlockEntry 0x8000 0x7ff0 [0x1000] 0x1000 16 0 [sample_site; mkBranchImmSite 0x1002 0x1006] [mkExitRIPSite 0x8000; mkExitRIPSite 0x8020] [] [].

(** the plan of the rel32 half stops at the first field that contains the write.  Of a
    block with two overlapping fields, a store of one byte in both of them is reported as followed
    after the first field's exit was edited; the other exit still has the target of the old bytes,
    which is not the target of the bytes after the store. *)
Theorem overlapping_fields_stale : exists host' x',
  TrySemanticPatchCodeRange (fun _ => 0) sample_host (fun _ => (0x1000, 16)) true 0x1003 [1] (sample_context sample_two) = Some (inr rel32, host', x') /\
  window host' 0x8000 = SynthesizeRIPWindow 3 (OldTarget (stored (fun _ => 0) 0x1003 [1]) sample_site) /\
  window host' 0x8020 = SynthesizeRIPWindow 3 (OldTarget (fun _ => 0) (mkBranchImmSite 0x1002 0x1006)) /\
  OldTarget (stored (fun _ => 0) 0x1003 [1]) (mkBranchImmSite 0x1002 0x1006) <> OldTarget (fun _ => 0) (mkBranchImmSite 0x1002 0x1006).
Proof.
  set (p := mkWordPatch 0x800c (default 0 (SynthesizeRIPWindow 3 0x11005 !! 3%nat))). exists (foldl ApplyWordPatch sample_host [p]), (sample_context sample_two).
  assert (plan_buffers (fun _ => 0) sample_host (fun _ => (0x1000, 16)) (buffers (sample_context sample_two)) 0x1003 1 [1] [0%nat] false [] None =
    Some ([0%nat], inr (true, [p], Some rel32))) as Hp by (vm_compute; reflexivity).
  split; [unfold TrySemanticPatchCodeRange; change (Z.of_nat (length [1])) with 1; change (CodeBufferList (sample_context sample_two)) with [0%nat]; by rewrite Hp|]. split; [vm_compute; reflexivity|]. split; [vm_compute; reflexivity|]. vm_compute. discriminate.
Qed.
