(* ===== verification/CodeContextSteps.v ===== *)
(** * The steps of a process and what they keep

    Each operation of a thread on its map and cache, the change of buffers, and the state machine
    of all of them with the invariant of [CodeContextProps]. *)

From S2P Require Import Prelude CodeGranules SemanticPatch LookupCache LookupLinks LookupMapProps ThreadCache ThreadCacheProps CodeContext CodeContextProps.
Import GuestToHostMap LookupCache CodeContext.

(** ** Operations of a thread *)

Section threads.
  Context (cfg : Config) (Hcfg : config_ok cfg) (alloc : nat -> bool).

(** [f] on the map and cache of one thread, with histories that only grow. *)
Lemma with_thread_ok {T} (f : Map -> Cache -> option (T * Map * Cache)) (Q : T -> Prop) (arm : T -> Z -> Prop) E E' R A t c x :
  ctx_ok cfg E R A x -> Threads x !! t = Some c -> hist_ok E' -> (forall b a e, E b a e -> E' b a e) -> (forall r k, A k -> arm r k) ->
  (forall m, buffers x !! Shared c = Some m -> map_ok (E (Shared c)) (R (Shared c)) A m -> cache_ok cfg (seen E (Shared c)) c ->
    exists r m' c', f m c = Some (r, m', c') /\ map_ok (E' (Shared c)) (R (Shared c)) (arm r) m' /\ cache_ok cfg (seen E' (Shared c)) c' /\
      Shared c' = Shared c /\ (forall b a e p, E' b a e -> p ∈ Entry.CodePages e -> arm r (p >>> 12)) /\ Q r) ->
  exists r x', with_thread t f x = Some (r, x') /\ ctx_ok cfg E' R (arm r) x' /\ Q r.
Proof.
  intros [HE HR Hm Ht Ha] Hc HE' Hsub HA Hf. destruct (Ht t c Hc) as [Hok [m Hb]]. destruct (Hm _ _ Hb) as [Hmok Hin].
  destruct (Hf m Hb Hmok Hok) as (r & m' & c' & Hrun & Hm' & Hc' & Hs & HA' & HQ).
  unfold with_thread. rewrite Hc. cbn [mbind option_bind]. rewrite Hb. cbn [mbind option_bind]. rewrite Hrun. cbn [mbind option_bind].
  eexists r, _. split; [done|]. split; [|done]. split; try done; cbn [buffers CodeBufferList Threads].
  - intros b m1 Hb1. cbn in *. apply lookup_insert_Some in Hb1 as [[<- <-]|[Hne Hb1]]; [by split|]. destruct (Hm b m1 Hb1) as [H1 ?]. split; [|done].
    eapply map_ok_mono; [..|exact H1]; eauto.
  - intros t1 c1 Hc1. cbn in Hc1. apply list_lookup_insert_Some in Hc1 as [(<- & <- & _)|[Hne Hc1]]; cbn.
    + rewrite Hs. split; [done|]. rewrite lookup_insert_eq. eauto.
    + destruct (Ht t1 c1 Hc1) as [H1 H2]. split; [eapply cache_ok_mono; [|exact H1]; apply seen_mono; eauto|].
      destruct (decide (Shared c = Shared c1)) as [->|]; [rewrite lookup_insert_eq; eauto|by rewrite lookup_insert_ne].
Qed.

(** *** Registration *)

Lemma page_range p k : page_ok p -> in_range p 4096 k <-> k = p >>> 12.
Proof.
  intros (H0 & H1 & Hm). destruct (range_pages p 4096 H0 ltac:(lia) H1) as (Hf & Hl & _). unfold in_range. rewrite Hf, Hl.
  rewrite Z.shiftr_div_pow2 by lia. change (2 ^ 12) with 4096.
  assert ((p + 4096 - 1) / 4096 = p / 4096) as ->; [|lia].
  pose proof (Z.div_mod p 4096 ltac:(lia)). replace (p + 4096 - 1) with (4095 + p / 4096 * 4096) by lia. rewrite Z.div_add by lia.
  by change (4095 / 4096) with 0.
Qed.

Definition more_pages (m m' : Map) : Prop :=
  forall k v, CodePages m !! k = Some v -> exists v', CodePages m' !! k = Some v' /\ forall a, a ∈ v -> a ∈ v'.

Definition marked (Marked : list Z) (A : Z -> Prop) : Z -> Prop := fun k => A k \/ exists p, p ∈ Marked /\ p >>> 12 = k.

Definition armed (m : Map) (A : Z -> Prop) : Prop := forall k v, CodePages m !! k = Some v -> v <> [] -> A k.

(** The loop over the pages from a list of marked ones. *)
Lemma register_pages_loop As Pages S L Marked m A : map_wf m -> Forall page_ok Pages -> armed m (marked Marked A) ->
  exists Marked' m', each (fun CodePage '(Marked, m) =>
      '(NewPage, m) ← AddBlockExecutableRange alloc As CodePage 4096 S L m;
      Some (if (NewPage : bool) then Marked ++ [CodePage] else Marked, m)) Pages (Marked, m) = Some (Marked', m') /\
    map_wf m' /\ keeps_blocks m m' /\ more_pages m m' /\ armed m' (marked Marked' A) /\
    (forall k, marked Marked A k -> marked Marked' A k) /\
    (forall p, p ∈ Pages -> exists v, CodePages m' !! (p >>> 12) = Some v /\ forall a, a ∈ As -> a ∈ v).
Proof.
  intros Hwf HP. revert Marked m Hwf. induction HP as [|p ps Hp HP IH]; intros Marked m Hwf HA; cbn [each].
  { exists Marked, m. do 2 (split; [done|]). split; [split; [done|apply keeps_ret_refl|done]|]. split; [by intros k v Hk; exists v|].
    do 2 (split; [done|]). by intros p Hp%elem_of_nil. }
  destruct Hp as (H0 & H1 & Hmod). pose proof (page_range p) as Hpr.
  destruct (AddBlockExecutableRange_spec alloc As p 4096 S L m Hwf H0 ltac:(lia) H1) as (rv & m1 & -> & Hwf1 & Hk1 & Hrv & Hp1).
  cbn [mbind option_bind]. specialize (fun k => Hpr k (conj H0 (conj H1 Hmod))).
  set (M1 := if rv then Marked ++ [p] else Marked).
  assert (Hsub : forall k, marked Marked A k -> marked M1 A k).
  { intros k [?|(q & ? & ?)]; [by left|right]. exists q. split; [|done]. unfold M1. destruct rv; [|done]. apply elem_of_app. by left. }
  assert (HA1 : armed m1 (marked M1 A)).
  { intros k v Hk Hv. rewrite Hp1 in Hk. case_decide as Hin; [|by eapply Hsub, HA]. pose proof (proj1 (Hpr k) Hin) as ->.
    destruct (default [] (CodePages m !! (p >>> 12))) eqn:Ed.
    - assert (rv = true) as Erv by (apply Hrv; eauto). right. exists p. split; [|done]. unfold M1. rewrite Erv. apply elem_of_app. right. by left.
    - destruct (CodePages m !! (p >>> 12)) as [w|] eqn:Ew; [|done]. cbn in Ed. subst. by apply Hsub, (HA _ _ Ew). }
  assert (Hmore : more_pages m m1).
  { intros k v Hk. rewrite Hp1. case_decide; [|by exists v]. rewrite Hk. cbn. eexists. split; [done|]. intros a Ha. apply elem_of_app. by left. }
  destruct (IH M1 m1 Hwf1 HA1) as (M2 & m2 & -> & Hwf2 & Hk2 & Hmore2 & HA2 & Hs2 & Hl2). exists M2, m2.
  split_and!; try done; [by eapply keeps_blocks_trans| | |].
  - intros k v Hk. destruct (Hmore k v Hk) as (v1 & Hv1 & ?). destruct (Hmore2 k v1 Hv1) as (v2 & ? & ?). eauto.
  - auto.
  - intros q [->|Hq]%elem_of_cons; [|by apply Hl2]. assert (CodePages m1 !! (p >>> 12) = Some (default [] (CodePages m !! (p >>> 12)) ++ As)) as Hv1.
    { rewrite Hp1, decide_True; [done|by apply Hpr]. }
    destruct (Hmore2 _ _ Hv1) as (v2 & ? & Hi). exists v2. split; [done|]. intros a Ha. apply Hi, elem_of_app. by right.
Qed.

Lemma register_pages_ok As Pages S L m A : map_wf m -> Forall page_ok Pages -> armed m A ->
  exists Marked m', register_pages alloc As Pages S L m = Some (Marked, m') /\ map_wf m' /\ keeps_blocks m m' /\ more_pages m m' /\
    armed m' (marked Marked A) /\ (forall p, p ∈ Pages -> exists v, CodePages m' !! (p >>> 12) = Some v /\ forall a, a ∈ As -> a ∈ v).
Proof.
  intros Hwf HP HA. destruct (register_pages_loop As Pages S L [] m A Hwf HP) as (Marked & m' & ? & ? & ? & ? & ? & _ & ?).
  { intros k v Hk Hv. left. by eapply HA. }
  exists Marked, m'. by split_and!.
Qed.

(** *** Publication *)

Lemma map_ok_registered (E R : Z -> BlockEntry -> Prop) A Marked m m' : map_ok E R A m -> map_wf m' -> keeps_blocks m m' -> armed m' (marked Marked A) ->
  map_ok E R (marked Marked A) m'.
Proof.
  intros [_ Hl Hr _] Hwf [Hb [Hrt _] _] HA. split; [done|rewrite Hb; auto|rewrite Hrt; auto|exact HA].
Qed.

(** An entry whose pages list its address. *)
Definition listed (m : Map) (a : Z) (e : BlockEntry) : Prop := forall p, p ∈ Entry.CodePages e -> exists v, CodePages m !! (p >>> 12) = Some v /\ a ∈ v.

Lemma publish_one (E : history) R A b a e m c : hist_ok E -> E b a e -> listed m a e -> map_ok (E b) R A m -> cache_ok cfg (seen E b) c ->
  exists m' c', LookupCache.AddBlockMapping cfg a e m c = Some (m', c') /\ map_ok (E b) R A m' /\ cache_ok cfg (seen E b) c' /\
    Shared c' = Shared c /\ CodePages m' = CodePages m.
Proof using Hcfg.
  intros HE Ha Hl [Hwf Hlive Hr HA] Hc. destruct (AddBlockMapping_ok cfg Hcfg _ a e m c Hc (seen_entry_ok E b a e HE Ha)) as (c' & -> & Hc' & Hs).
  eexists _, c'. split; [done|]. split; [|done]. split; [|cbn|done|done].
  - apply AddBlockMapping_wf; [done|]. intros k (p & Hp & <-). by apply Hl.
  - intros a1 e1 [[<- <-]|[_ H1]]%lookup_insert_Some; [done|by apply Hlive].
Qed.

Lemma publish_list (E : history) R A b (entry : Z -> BlockEntry) (eps : list (Z * Z)) m c : hist_ok E -> (forall a h, (a, h) ∈ eps -> E b a (entry h) /\ listed m a (entry h)) ->
  map_ok (E b) R A m -> cache_ok cfg (seen E b) c ->
  exists m' c', each (fun '(a, h) '(m, c) => LookupCache.AddBlockMapping cfg a (entry h) m c) eps (m, c) = Some (m', c') /\
    map_ok (E b) R A m' /\ cache_ok cfg (seen E b) c' /\ Shared c' = Shared c.
Proof using Hcfg.
  intros HE. revert m c. induction eps as [|[a h] eps IH]; intros m c Hin Hm Hc; cbn [each]; [by exists m, c|].
  destruct (Hin a h) as [Ha Hl]; [left|]. destruct (publish_one E R A b a (entry h) m c HE Ha Hl Hm Hc) as (m1 & c1 & -> & Hm1 & Hc1 & Hs1 & Hp1).
  cbn [mbind option_bind]. destruct (IH m1 c1) as (m2 & c2 & -> & Hm2 & Hc2 & Hs2); [|done..|].
  - intros a1 h1 H1. destruct (Hin a1 h1) as [? Hl1]; [by right|]. split; [done|]. intros p Hp. rewrite Hp1. by apply Hl1.
  - exists m2, c2. split; [done|]. split; [done|]. split; [done|congruence].
Qed.

End threads.

(** ** The state machine *)

Inductive Op :=
| OpFindBlock (t : nat) (now Address : Z)
| OpAddBlockLink (t : nat) (GuestDestination Link delinker : Z)
| OpPublish (t : nat) (GuestRIP : Z) (r : Compiled) (mem : Z -> Z)
| OpRelink (t : nat) (GuestRIP : Z) (mem mem' : Z -> Z) (validate_only : Z -> bool)
| OpInvalidate (Ranges : list (Z * Z))
| OpSoftInvalidate (Start Len : Z)
| OpNewCodeBuffer (t b : nat) (tracking : bool)
| OpSwitchCodeBuffer (t b : nat)
| OpExpireCodeBuffer (b : nat)
| OpNewThread (b : nat)
| OpScrub (t : nat)
| OpArmDrain (t : nat)
| OpTakeDrain (t : nat).

(** What a step returns: host code and the pages it reported as executable. *)
Abbreviation Result := (Z * list Z)%type.

Section machine.
  Context (cfg : Config) (alloc : nat -> bool) (SMCSoftInvalidate : bool) (xxh3 : list Z -> Z -> Z).

Definition apply (op : Op) (x : Context) : option (Result * Context) :=
  match op with
  | OpFindBlock t now a => '(h, x) ← FindBlock cfg t now a x; Some ((h, []), x)
  | OpAddBlockLink t d l f => '(_, x) ← AddBlockLink t d l f x; Some ((0, []), x)
  | OpPublish t rip r mem => '(M, x) ← PublishBlock cfg alloc SMCSoftInvalidate xxh3 t rip r mem x; Some ((0, M), x)
  | OpRelink t rip mem mem' vo => TryRelinkSoftInvalidatedBlock cfg alloc xxh3 t rip mem mem' vo x
  | OpInvalidate rs => x ← InvalidateGuestCodeRanges cfg rs x; Some ((0, []), x)
  | OpSoftInvalidate s l => x ← SoftInvalidateGuestCodeRange cfg s l x; Some ((0, []), x)
  | OpNewCodeBuffer t b tr => x ← NewCodeBuffer alloc t b tr x; Some ((0, []), x)
  | OpSwitchCodeBuffer t b => x ← SwitchCodeBuffer t b x; Some ((0, []), x)
  | OpExpireCodeBuffer b => Some ((0, []), ExpireCodeBuffer b x)
  | OpNewThread b => Some ((0, []), NewThread cfg b x)
  | OpScrub t => x ← on_cache t ScrubForLazySMC x; Some ((0, []), x)
  | OpArmDrain t => x ← on_cache t ArmLazySMCDrainPending x; Some ((0, []), x)
  | OpTakeDrain t => x ← on_cache t (fun c => (TakeLazySMCDrainPending c).2) x; Some ((0, []), x)
  end.

Definition buffer_of (x : Context) (t : nat) : option nat := Shared <$> Threads x !! t.

(** When an operation is allowed: what the callers guarantee. *)
Definition op_ok (x : Context) (op : Op) : Prop :=
  match op with
  | OpFindBlock t _ a => is_Some (Threads x !! t) /\ is_u 64 a
  | OpAddBlockLink t _ _ _ => exists b m, buffer_of x t = Some b /\ buffers x !! b = Some m /\
      Z.of_nat (length (BlockLinkPool m)) + 1 < BlockLinkInvalid
  | OpPublish t rip r _ => is_Some (Threads x !! t) /\
      let '(Pages, Addresses, _) := code_pages rip r in
      Forall page_ok Pages /\ forall a h, (a, h) ∈ EntryPoints r -> is_u 64 a /\ (Pages <> [] -> a ∈ Addresses)
  | OpRelink t rip _ _ _ => is_Some (Threads x !! t)
  | OpInvalidate rs => Forall range_ok rs
  | OpSoftInvalidate s l => range_ok (s, l)
  | OpNewCodeBuffer t b _ => is_Some (Threads x !! t) /\ b ∉ CodeBufferList x
  | OpSwitchCodeBuffer t b => is_Some (Threads x !! t) /\ is_Some (buffers x !! b)
  | OpExpireCodeBuffer b => forall t, buffer_of x t <> Some b
  | OpNewThread b => is_Some (buffers x !! b)
  | OpScrub t | OpArmDrain t | OpTakeDrain t => is_Some (Threads x !! t)
  end.

Definition hash_ok (mem : Z -> Z) (e : BlockEntry) : Prop :=
  SMC3.HashGuestBlock xxh3 mem (Entry.CodePages e) (Entry.GuestRangeStart e) (Entry.GuestRangeLength e) = Entry.GuestHash e.

(** The retained entry that a relink brings back. *)
Definition relinks (x : Context) (t : nat) (rip : Z) (mem mem' : Z -> Z) (vo : Z -> bool) (b : nat) (e : BlockEntry) : Prop :=
  buffer_of x t = Some b /\ (exists m, buffers x !! b = Some m /\ RetainedBlocks m !! rip = Some e) /\
  hash_ok mem e /\ hash_ok mem' e /\ existsb vo (Entry.CodePages e) = false.

(** The histories after a step. *)
Definition live_after (x : Context) (op : Op) (E : history) : history :=
  match op with
  | OpPublish t rip r mem => fun b a e => E b a e \/ buffer_of x t = Some b /\
      exists h, (a, h) ∈ EntryPoints r /\ e = compiled_entry SMCSoftInvalidate xxh3 mem (code_pages rip r).1.1 h r
  | OpRelink t rip mem mem' vo => fun b a e => E b a e \/ a = rip /\ relinks x t rip mem mem' vo b e
  | OpInvalidate rs => without rs E
  | OpSoftInvalidate s l => without [(s, l)] E
  | OpNewCodeBuffer _ b' _ | OpExpireCodeBuffer b' => fun b a e => b <> b' /\ E b a e
  | _ => E
  end.

Definition retained_after (op : Op) (E R : history) : history :=
  match op with
  | OpInvalidate rs => without rs R
  | OpSoftInvalidate s l => join R E
  | OpNewCodeBuffer _ b' _ | OpExpireCodeBuffer b' => fun b a e => b <> b' /\ R b a e
  | _ => R
  end.

Definition armed_after (op : Op) (res : Result) (A : Z -> Prop) : Z -> Prop :=
  match op with
  | OpInvalidate rs => disarm rs A
  | OpSoftInvalidate s l => disarm [(s, l)] A
  | _ => marked res.2 A
  end.

(** What a step may return. *)
Definition sound (x : Context) (op : Op) (E R : history) (res : Result) : Prop :=
  match op with
  | OpFindBlock t _ a => a <> 0 -> res.1 <> 0 -> exists b e, buffer_of x t = Some b /\ E b a e /\ Entry.HostCode e = res.1
  | OpRelink t rip mem mem' vo => res.1 <> 0 -> exists b e, relinks x t rip mem mem' vo b e /\ R b rip e /\ Entry.HostCode e = res.1
  | _ => True
  end.

(** A process starts with one buffer and no thread. *)
Definition boot (b : nat) (tracking : bool) : Context := mkContext {[b := new_map alloc tracking]} [b] [].

Inductive reach : Context -> history -> history -> (Z -> Prop) -> Prop :=
| reach_boot b tracking : reach (boot b tracking) (fun _ _ _ => False) (fun _ _ _ => False) (fun _ => False)
| reach_step x E R A op res x' : reach x E R A -> op_ok x op -> apply op x = Some (res, x') ->
    reach x' (live_after x op E) (retained_after op E R) (armed_after op res A).

End machine.
