(* ===== verification/CodeContextTheorems.v ===== *)
(** * No stale translation is found

    Every step of the state machine of [CodeContextSteps] returns and keeps the invariant; what
    that means for lookups, relinks and the pages that are watched for writes. *)

From S2P Require Import Prelude CodeGranules SemanticPatch LookupCache LookupLinks LookupMapProps ThreadCache ThreadCacheProps CodeContext CodeContextProps.
From S2P Require Import CodeContextSteps.
Import GuestToHostMap LookupCache CodeContext.

Section steps.
  Context (cfg : Config) (Hcfg : config_ok cfg) (alloc : nat -> bool) (SMCSoftInvalidate : bool) (xxh3 : list Z -> Z -> Z).

Lemma marked_sub M A k : A k -> marked M A k.
Proof. by left. Qed.

Lemma marked_armed M (E : history) (A : Z -> Prop) : (forall b a e p, E b a e -> p ∈ Entry.CodePages e -> A (p >>> 12)) ->
  forall b a e p, E b a e -> p ∈ Entry.CodePages e -> marked M A (p >>> 12).
Proof. intros H b a e p He Hp. left. by eapply H. Qed.

Lemma FindBlock_step E R A t now a c x : ctx_ok cfg E R A x -> Threads x !! t = Some c -> is_u 64 a ->
  exists h x', FindBlock cfg t now a x = Some (h, x') /\ ctx_ok cfg E R (marked [] A) x' /\
    (a <> 0 -> h <> 0 -> exists e, E (Shared c) a e /\ Entry.HostCode e = h).
Proof using Hcfg.
  intros Hx Hc Ha. pose proof Hx as [HE HR Hm Ht Har].
  apply (with_thread_ok cfg _ (fun h => a <> 0 -> h <> 0 -> exists e, E (Shared c) a e /\ Entry.HostCode e = h) (fun _ => marked [] A) E E R A t c x); try done.
  { intros _. apply marked_sub. }
  intros m Hb Hmok [Hg Hcd]. destruct (FindBlock_ok cfg Hcfg (seen E (Shared c)) now m a c Hg Hcd Ha) as (h & c' & -> & Hg' & Hc' & Hs & Hf).
  { intros e He. apply seen_entry_ok; [done|]. by apply (mo_live _ _ _ _ Hmok). }
  cbn [mbind option_bind]. exists h, m, c'. split; [done|]. split; [eapply map_ok_mono; [..|exact Hmok]; eauto using marked_sub|].
  split; [done|]. split; [done|]. split; [by apply marked_armed|]. intros Ha0 Hh. destruct (Hf Ha0 Hh) as (pages & e & ? & ? & ?). by exists e.
Qed.

Lemma AddBlockLink_step E R A t d l f b m x : ctx_ok cfg E R A x -> buffer_of x t = Some b -> buffers x !! b = Some m ->
  Z.of_nat (length (BlockLinkPool m)) + 1 < BlockLinkInvalid ->
  exists r x', AddBlockLink t d l f x = Some (r, x') /\ ctx_ok cfg E R (marked [] A) x' /\ True.
Proof.
  intros Hx (c & Hc & ->)%fmap_Some Hbm Hroom. pose proof Hx as [HE HR Hm Ht Har].
  apply (with_thread_ok cfg _ (fun _ => True) (fun _ => marked [] A) E E R A t c x); try done.
  { intros _. apply marked_sub. }
  intros m1 Hb [Hwf Hl Hr HA] Hok. simplify_eq. destruct (wf_links m Hwf) as [L HL].
  destruct (AddBlockLink_spec m L d l f HL Hroom) as (m' & -> & Hf & HL' & _). cbn [mbind option_bind]. exists 0, m', c. split; [done|].
  destruct (frame_fields m m' Hf) as ([Hp _ _] & [Hrt _] & Hbl & _).
  split; [|split_and!; [done|done|by apply marked_armed|done]]. split; [by eapply links_frame_wf; eauto|rewrite Hbl; auto|rewrite Hrt; auto|].
  rewrite Hp. intros k v Hk Hv. left. by eapply HA.
Qed.

Lemma compiled_entry_pages mem Pages h r : Entry.CodePages (compiled_entry SMCSoftInvalidate xxh3 mem Pages h r) = Pages /\
  Entry.HostCode (compiled_entry SMCSoftInvalidate xxh3 mem Pages h r) = h.
Proof. unfold compiled_entry. repeat case_match; by simplify_eq. Qed.

Lemma PublishBlock_step E R A t rip r mem x : ctx_ok cfg E R A x -> op_ok x (OpPublish t rip r mem) ->
  exists M x', PublishBlock cfg alloc SMCSoftInvalidate xxh3 t rip r mem x = Some (M, x') /\
    ctx_ok cfg (live_after SMCSoftInvalidate xxh3 x (OpPublish t rip r mem) E) R (marked M A) x' /\ True.
Proof using Hcfg.
  intros Hx Hop. unfold PublishBlock. unfold op_ok in Hop. cbn [live_after]. destruct (code_pages rip r) as [[Pages As] [Start Len]]. destruct Hop as [[c Hc] [HP Heps]].
  cbn [fst]. set (entry h := compiled_entry SMCSoftInvalidate xxh3 mem Pages h r).
  assert (Hbuf : buffer_of x t = Some (Shared c)) by (unfold buffer_of; by rewrite Hc).
  set (E' := fun b a e => E b a e \/ _). pose proof Hx as [HE HR Hm Ht Har].
  assert (Hpg : forall h, Entry.CodePages (entry h) = Pages) by (intros h; apply compiled_entry_pages).
  assert (HE' : hist_ok E').
  { intros b a e [He|(_ & h & Hin & ->)]; [by apply (HE b)|]. split; [by apply (Heps a h)|]. fold (entry h). by rewrite Hpg. }
  eapply (with_thread_ok cfg _ (fun _ => True) (fun M => marked M A) E E' R A t c x); try done; [by left|intros M; apply marked_sub|].
  intros m Hb Hmok Hok.
  destruct (register_pages_ok alloc As Pages Start Len m A (mo_wf _ _ _ _ Hmok) HP (mo_armed _ _ _ _ Hmok)) as (M & m1 & -> & Hwf1 & Hk1 & Hmore & Har1 & Hl1).
  cbn [mbind option_bind].
  assert (Hlisted : forall a h, (a, h) ∈ EntryPoints r -> E' (Shared c) a (entry h) /\ listed m1 a (entry h)).
  { intros a h Hin. split; [right; eauto|]. intros p Hp. rewrite Hpg in Hp. destruct (Hl1 p Hp) as (v & Hv & Hi). exists v. split; [done|].
    apply Hi. apply (proj2 (Heps a h Hin)). by destruct Pages; [apply elem_of_nil in Hp|]. }
  destruct (publish_list cfg Hcfg E' (R (Shared c)) (marked M A) (Shared c) entry (EntryPoints r) m1 c HE' Hlisted) as (m2 & c2 & Hrun & Hm2 & Hc2 & Hs2).
  { eapply map_ok_mono; [| | |by eapply map_ok_registered]; [by left|done|done]. }
  { eapply cache_ok_mono; [|exact Hok]. apply seen_mono. by left. }
  unfold entry in Hrun. rewrite Hrun. cbn [mbind option_bind]. exists M, m2, c2. split_and!; try done.
  intros b a e p [He|(_ & h & Hin & ->)] Hp; [left; by eapply Har|]. fold (entry h) in Hp. rewrite Hpg in Hp. destruct (Hl1 p Hp) as (v & Hv & Hi).
  apply (Har1 _ v Hv). assert (a ∈ v) by (apply Hi, (proj2 (Heps a h Hin)); by destruct Pages; [apply elem_of_nil in Hp|]).
  by destruct v; [exfalso; eapply elem_of_nil|].
Qed.

(** A relink on a map and a cache: it fails and leaves the map without the retained entry, or brings it back. *)
Lemma relink_ok (E E' R : history) A rip mem mem' vo b m c : hist_ok E' -> hist_ok R -> (forall b a e, E b a e -> E' b a e) ->
  (forall e, RetainedBlocks m !! rip = Some e -> hash_ok xxh3 mem e -> hash_ok xxh3 mem' e -> existsb vo (Entry.CodePages e) = false -> E' b rip e) ->
  map_ok (E b) (R b) A m -> cache_ok cfg (seen E b) c ->
  exists h M m' c', relink cfg alloc xxh3 rip mem mem' vo m c = Some ((h, M), m', c') /\ map_ok (E' b) (R b) (marked M A) m' /\ cache_ok cfg (seen E' b) c' /\ Shared c' = Shared c /\
    ((forall e, RetainedBlocks m !! rip = Some e -> hash_ok xxh3 mem e -> hash_ok xxh3 mem' e -> existsb vo (Entry.CodePages e) = false ->
       Entry.HostCode e = h /\ forall p, p ∈ Entry.CodePages e -> marked M A (p >>> 12))) /\
    (h <> 0 -> exists e, RetainedBlocks m !! rip = Some e /\ hash_ok xxh3 mem e /\ hash_ok xxh3 mem' e /\ existsb vo (Entry.CodePages e) = false /\
       R b rip e /\ Entry.HostCode e = h).
Proof using Hcfg.
  intros HE' HR Hsub Hnew [Hwf Hl Hr HA] Hc. unfold relink. pose proof (TakeRetainedBlock_spec rip m Hwf) as Htake.
  destruct (TakeRetainedBlock rip m) as [o m1]. destruct Htake as (-> & Hwf1 & Hr1 & Hb1 & Hp1 & _).
  assert (Hc' : cache_ok cfg (seen E' b) c) by (eapply cache_ok_mono; [|exact Hc]; apply seen_mono; eauto).
  assert (HA1 : armed m1 A) by (unfold armed; rewrite Hp1; exact HA).
  assert (Hm1 : map_ok (E' b) (R b) A m1).
  { split; [done|rewrite Hb1; eauto| |exact HA1]. rewrite Hr1. intros a e [_ Ha]%lookup_delete_Some. auto. }
  assert (Hfail : map_ok (E' b) (R b) (marked [] A) m1) by (eapply map_ok_mono; [..|exact Hm1]; eauto using marked_sub).
  destruct (RetainedBlocks m !! rip) as [e|] eqn:Ee.
  2: { exists 0, [], m1, c. by split_and!. }
  unfold hash_ok. destruct (Z.eqb_spec (SMC3.HashGuestBlock xxh3 mem (Entry.CodePages e) (Entry.GuestRangeStart e) (Entry.GuestRangeLength e)) (Entry.GuestHash e)) as [Hh|Hh]; cbn [negb].
  2: { exists 0, [], m1, c. split_and!; try done. intros e1 He1 Hh1. by simplify_eq. }
  destruct (existsb vo (Entry.CodePages e)) eqn:Evo.
  { exists 0, [], m1, c. split_and!; try done. intros e1 He1 _ _ Hv1. simplify_eq. congruence. }
  destruct (HR b rip e (Hr rip e Ee)) as [_ Hpages].
  destruct (register_pages_ok alloc [rip] (Entry.CodePages e) (Entry.GuestRangeStart e) (Entry.GuestRangeLength e) m1 A Hwf1 Hpages HA1)
    as (M & m2 & -> & Hwf2 & Hk2 & Hmore & HA2 & Hl2). cbn [mbind option_bind].
  pose proof (map_ok_registered _ _ A M m1 m2 Hm1 Hwf2 Hk2 HA2) as Hm2.
  destruct (Z.eqb_spec (SMC3.HashGuestBlock xxh3 mem' (Entry.CodePages e) (Entry.GuestRangeStart e) (Entry.GuestRangeLength e)) (Entry.GuestHash e)) as [Hh'|Hh']; cbn [negb].
  2: { exists 0, M, m2, c. split_and!; try done. intros e1 He1 _ Hh1. by simplify_eq. }
  destruct (publish_one cfg Hcfg E' (R b) (marked M A) b rip e m2 c HE') as (m3 & c3 & -> & Hm3 & Hc3 & Hs3 & Hp3); [by apply Hnew| |done..|].
  { intros p Hp. destruct (Hl2 p Hp) as (v & ? & Hi). exists v. split; [done|]. apply Hi. by left. }
  cbn [mbind option_bind]. exists (Entry.HostCode e), M, m3, c3. split_and!; try done.
  - intros e1 [= <-] _ _ _. split; [done|]. intros p Hp. destruct (Hl2 p Hp) as (v & Hv & Hi). apply (HA2 _ v Hv).
    assert (rip ∈ v) by (apply Hi; by left). by destruct v; [exfalso; eapply elem_of_nil|].
  - intros _. exists e. split_and!; auto.
Qed.

Lemma TryRelink_step E R A t rip mem mem' vo x : ctx_ok cfg E R A x -> is_Some (Threads x !! t) ->
  exists res x', TryRelinkSoftInvalidatedBlock cfg alloc xxh3 t rip mem mem' vo x = Some (res, x') /\
    ctx_ok cfg (live_after SMCSoftInvalidate xxh3 x (OpRelink t rip mem mem' vo) E) R (marked res.2 A) x' /\
    sound xxh3 x (OpRelink t rip mem mem' vo) E R res.
Proof using Hcfg.
  intros Hx [c Hc]. pose proof Hx as [HE HR Hm Ht Har]. cbn [live_after sound].
  assert (Hbuf : buffer_of x t = Some (Shared c)) by (unfold buffer_of; by rewrite Hc).
  assert (Hret : forall b e, relinks xxh3 x t rip mem mem' vo b e -> R b rip e).
  { intros b e (_ & (m & Hb & He) & _). destruct (Hm b m Hb) as [[_ _ H1 _] _]. by apply H1. }
  set (E' := fun b a e => E b a e \/ _).
  assert (HE' : hist_ok E') by (intros b a e [He|[-> He]]; [by apply (HE b)|by apply (HR b), Hret]).
  eapply (with_thread_ok cfg _ _ (fun res => marked res.2 A) E E' R A t c x); try done; [by left|intros [h M]; apply marked_sub|].
  intros m Hb Hmok Hok.
  destruct (relink_ok E E' R A rip mem mem' vo (Shared c) m c HE' HR) as (h & M & m' & c' & -> & Hm' & Hc' & Hs & Hback & Hsound); [by left| |done..|].
  { intros e He H1 H2 H3. right. split; [done|]. split_and!; eauto. }
  exists (h, M), m', c'. split_and!; try done; cbn [fst snd].
  - intros b a e p [He|(-> & Hrb & (m1 & Hb1 & He) & H1 & H2 & H3)] Hp; [left; by eapply Har|].
    simplify_eq. by apply (Hback e).
  - intros Hh. destruct (Hsound Hh) as (e & He & H1 & H2 & H3 & ? & ?). exists (Shared c), e. unfold relinks. split_and!; eauto.
Qed.

(** *** Buffers and threads *)

Lemma thread_update E R A t c' bs l ts : ctx_ok cfg E R A (mkContext bs l ts) -> cache_ok cfg (seen E (Shared c')) c' -> is_Some (bs !! Shared c') ->
  ctx_ok cfg E R (marked [] A) (mkContext bs l (<[t := c']> ts)).
Proof.
  intros [HE HR Hm Ht Har] Hok Hb. split; [done|done| | |by apply marked_armed].
  - intros b m Hbm. destruct (Hm b m Hbm) as [H1 ?]. split; [|done]. eapply map_ok_mono; [..|exact H1]; eauto using marked_sub.
  - intros t1 c1 Hc1. cbn in Hc1. apply list_lookup_insert_Some in Hc1 as [(<- & <- & _)|[_ Hc1]]; [done|by apply (Ht t1)].
Qed.

Definition drop_buffer (b' : nat) (E : history) : history := fun b a e => b <> b' /\ E b a e.

Lemma drop_buffer_ok b' E : hist_ok E -> hist_ok (drop_buffer b' E).
Proof. apply hist_ok_sub. by intros b a e [_ ?]. Qed.

Lemma change_buffers E R A b' bs l x : ctx_ok cfg E R A x -> (forall t, buffer_of x t <> Some b') ->
  (forall b, b <> b' -> bs !! b = buffers x !! b) -> (forall b, b ∈ CodeBufferList x -> b ∈ l) ->
  (forall m, bs !! b' = Some m -> map_ok (fun _ _ => False) (fun _ _ => False) (fun _ => False) m /\ b' ∈ l) ->
  ctx_ok cfg (drop_buffer b' E) (drop_buffer b' R) A (mkContext bs l (Threads x)).
Proof.
  intros [HE HR Hm Ht Har] Hun Hbs Hl Hnew. split; [by apply drop_buffer_ok..| | |by intros b a e p [_ ?]; eapply Har].
  - intros b m Hb. cbn in *. destruct (decide (b = b')) as [->|Hne].
    + destruct (Hnew m Hb) as [H1 ?]. split; [|done]. by eapply map_ok_mono; [..|exact H1].
    + rewrite Hbs in Hb by done. destruct (Hm b m Hb) as [H1 ?]. split; [|by apply Hl]. by eapply map_ok_mono; [..|exact H1].
  - intros t c Hc. destruct (Ht t c Hc) as [H1 H2]. assert (Shared c <> b').
    { intros <-. apply (Hun t). unfold buffer_of. cbn in Hc. by rewrite Hc. }
    split; [|cbn; by rewrite Hbs]. eapply cache_ok_mono; [|exact H1]. by apply seen_mono.
Qed.

Lemma new_map_ok E R A tracking : map_ok E R A (new_map alloc tracking).
Proof. split; [apply new_map_wf|..]; cbn; intros ? ?; by rewrite lookup_empty. Qed.

Lemma NewCodeBuffer_step E R A t b tracking x : ctx_ok cfg E R A x -> is_Some (Threads x !! t) -> b ∉ CodeBufferList x ->
  exists x', NewCodeBuffer alloc t b tracking x = Some x' /\ ctx_ok cfg (drop_buffer b E) (drop_buffer b R) (marked [] A) x'.
Proof.
  intros Hx [c Hc] Hb. unfold NewCodeBuffer. rewrite Hc. cbn [mbind option_bind]. eexists. split; [done|].
  pose proof Hx as [_ _ Hm Ht _].
  apply thread_update.
  - apply (change_buffers E R A b _ _ x Hx).
    + intros t1 (c1 & Hc1 & ->)%fmap_Some. destruct (Ht t1 c1 Hc1) as [_ [m1 Hb1]]. by apply Hb, (Hm _ m1).
    + intros b1 Hne. by rewrite lookup_insert_ne.
    + intros b1 Hb1. apply elem_of_app. by left.
    + intros m Hbm. rewrite lookup_insert_eq in Hbm. simplify_eq. split; [apply new_map_ok|]. apply elem_of_app. right. by left.
  - apply ChangeGuestToHostMapping_ok. by apply (Ht t c).
  - cbn. rewrite lookup_insert_eq. eauto.
Qed.

Lemma ExpireCodeBuffer_step E R A b x : ctx_ok cfg E R A x -> (forall t, buffer_of x t <> Some b) ->
  ctx_ok cfg (drop_buffer b E) (drop_buffer b R) A (ExpireCodeBuffer b x).
Proof.
  intros Hx Hun. apply (change_buffers E R A b _ _ x Hx Hun); [|done|].
  - intros b1 Hne. by rewrite lookup_delete_ne.
  - intros m. by rewrite lookup_delete_eq.
Qed.

Lemma NewThread_step E R A b x : ctx_ok cfg E R A x -> is_Some (buffers x !! b) -> ctx_ok cfg E R A (NewThread cfg b x).
Proof.
  intros [HE HR Hm Ht Har] Hb. split; try done. intros t c Hc. cbn in Hc. apply lookup_app_Some in Hc as [Hc|[_ Hc]]; [by apply (Ht t)|].
  apply list_lookup_singleton_Some in Hc as [_ <-]. split; [apply new_cache_ok|done].
Qed.

Lemma on_cache_step E R A t f x : ctx_ok cfg E R A x -> is_Some (Threads x !! t) ->
  (forall G c, cache_ok cfg G c -> cache_ok cfg G (f c) /\ Shared (f c) = Shared c) ->
  exists x', on_cache t f x = Some x' /\ ctx_ok cfg E R (marked [] A) x'.
Proof.
  intros Hx [c Hc] Hf. unfold on_cache. rewrite Hc. cbn [mbind option_bind]. eexists. split; [done|].
  destruct (xo_threads _ _ _ _ _ Hx t c Hc) as [Hok Hb]. destruct (Hf _ c Hok) as [Hok' Hs]. rewrite <- Hs in Hok', Hb. apply thread_update; [by destruct x|done|done].
Qed.

(** *** Every step *)

Lemma armed_nil_ok E R A x : ctx_ok cfg E R A x -> ctx_ok cfg E R (marked [] A) x.
Proof.
  intros [HE HR Hm Ht Har]. split; [done|done| |done|by apply marked_armed]. intros b m Hb. destruct (Hm b m Hb) as [H1 ?]. split; [|done].
  eapply map_ok_mono; [..|exact H1]; eauto using marked_sub.
Qed.

Lemma context_step_ok E R A op x : ctx_ok cfg E R A x -> op_ok x op ->
  exists res x', apply cfg alloc SMCSoftInvalidate xxh3 op x = Some (res, x') /\ sound xxh3 x op E R res /\
    ctx_ok cfg (live_after SMCSoftInvalidate xxh3 x op E) (retained_after op E R) (armed_after op res A) x'.
Proof using Hcfg.
  intros Hx. destruct op; intros Hop; cbn [apply sound armed_after].
  - destruct Hop as [[c Hc] Ha]. destruct (FindBlock_step E R A t now Address c x Hx Hc Ha) as (h & x' & -> & Hx' & Hs). eexists _, x'. split; [done|].
    split; [|done]. intros H0 Hh. destruct (Hs H0 Hh) as (e & ? & ?). exists (Shared c), e. unfold buffer_of. by rewrite Hc.
  - destruct Hop as (b & m & Hb & Hm & Hroom).
    destruct (AddBlockLink_step E R A t GuestDestination Link delinker b m x Hx Hb Hm Hroom) as (r & x' & -> & Hx' & _). by eexists _, x'.
  - destruct (PublishBlock_step E R A t GuestRIP r mem x Hx Hop) as (M & x' & -> & Hx' & _). by eexists _, x'.
  - destruct (TryRelink_step E R A t GuestRIP mem mem' validate_only x Hx Hop) as (res & x' & -> & Hx' & Hs). by exists res, x'.
  - destruct (InvalidateGuestCodeRanges_ok cfg Hcfg Ranges E R A x Hop Hx) as (x' & -> & Hx'). by eexists _, x'.
  - destruct (SoftInvalidateGuestCodeRange_ok cfg Hcfg (Start, Len) E R A x Hop Hx) as (x' & Hrun & Hx'). cbn in Hrun. rewrite Hrun. by eexists _, x'.
  - destruct Hop as [Ht Hb]. destruct (NewCodeBuffer_step E R A t b tracking x Hx Ht Hb) as (x' & -> & Hx'). by eexists _, x'.
  - destruct Hop as [[c Hc] [m Hb]]. unfold SwitchCodeBuffer. rewrite Hc. cbn [mbind option_bind]. rewrite Hb. eexists _, _. split; [done|]. split; [done|].
    apply thread_update; [by destruct x|apply ChangeGuestToHostMapping_ok; by apply (xo_threads _ _ _ _ _ Hx t c)|by exists m].
  - eexists _, _. split; [done|]. split; [done|]. apply armed_nil_ok. by apply ExpireCodeBuffer_step.
  - eexists _, _. split; [done|]. split; [done|]. apply armed_nil_ok. by apply NewThread_step.
  - destruct (on_cache_step E R A t ScrubForLazySMC x Hx Hop) as (x' & -> & Hx'); [|by eexists _, x']. intros G c Hc. split; [by apply ScrubForLazySMC_ok|done].
  - destruct (on_cache_step E R A t ArmLazySMCDrainPending x Hx Hop) as (x' & -> & Hx'); [|by eexists _, x']. intros G c Hc. split; [by apply set_drain_ok|done].
  - destruct (on_cache_step E R A t (fun c => (TakeLazySMCDrainPending c).2) x Hx Hop) as (x' & -> & Hx'); [|by eexists _, x'].
    intros G c Hc. unfold TakeLazySMCDrainPending. destruct (LazySMCDrainPending c); cbn; [|done]. split; [by apply set_drain_ok|done].
Qed.

Lemma reach_ok x E R A : reach cfg alloc SMCSoftInvalidate xxh3 x E R A -> ctx_ok cfg E R A x.
Proof using Hcfg.
  induction 1 as [b tracking|x E R A op res x' _ IH Hop Hrun].
  - split; try done. intros b1 m Hb. cbn in Hb. apply lookup_singleton_Some in Hb as [<- <-]. split; [apply new_map_ok|by left].
  - destruct (context_step_ok E R A op x IH Hop) as (res1 & x1 & Hrun1 & _ & Hx1). rewrite Hrun in Hrun1. by simplify_eq.
Qed.

End steps.

(** ** The theorems *)

(** C1: in every state a process reaches by compiling, looking up, linking, invalidating,
    relinking and changing code buffers on any threads, every allowed operation returns (no table
    access is out of its region, no retry or link walk runs out); host code that a lookup at a
    nonzero address finds is of an entry that was published for this address in the buffer the
    thread uses now and that no invalidation of one of its code pages has followed since (other
    than a soft one after which it was relinked); and host code that a relink returns is of the
    entry a soft invalidation set aside, no hard invalidation of its pages has followed, and the
    bytes of guest memory hash to the recorded hash before and after its pages were armed. *)
Theorem no_stale_translation cfg alloc soft xxh3 x E R A op :
  config_ok cfg -> reach cfg alloc soft xxh3 x E R A -> op_ok x op ->
  exists res x', apply cfg alloc soft xxh3 op x = Some (res, x') /\ sound xxh3 x op E R res.
Proof.
  intros Hcfg Hreach Hop. destruct (context_step_ok cfg Hcfg alloc soft xxh3 E R A op x) as (res & x' & ? & ? & _); [by eapply reach_ok|done|]. by exists res, x'.
Qed.


(** ** Soft invalidation and relink *)

Section roundtrip.
  Context (cfg : Config) (Hcfg : config_ok cfg) (alloc : nat -> bool) (xxh3 : list Z -> Z -> Z).

Lemma note_pages_mask a ps c c' : each (note_code_page a) ps c = Some c' -> L1PointerMask c' = L1PointerMask c.
Proof.
  revert c. induction ps as [|p ps IH]; intros c H; cbn [each] in H; [by simplify_eq|].
  destruct (note_code_page a p c) as [c1|] eqn:Hn; [|done]. rewrite (IH c1 H). unfold note_code_page in Hn.
  destruct (negb _); cbn in Hn; repeat (match type of Hn with context [?o ≫= _] => destruct o; cbn in Hn; [|done] end); by simplify_eq.
Qed.

(** A block that was just added is found in the L1. *)
Lemma AddBlockMapping_finds now a e m m1 m' c c' : cache_geo cfg c' -> is_u 64 a ->
  LookupCache.AddBlockMapping cfg a e m c = Some (m', c') -> LookupCache.FindBlock cfg now m1 a c' = Some (Entry.HostCode e, c').
Proof.
  intros Hg Ha. unfold LookupCache.AddBlockMapping, retries. cbn [CacheBlockMapping].
  destruct (each (note_code_page a) (Entry.CodePages e) c) as [c1|] eqn:Hn; [|done]. cbn [mbind option_bind].
  destruct (l1_at c1 (l1_index c1 a)); [|done]. cbn [mbind option_bind]. replace (negb (DisableL2Cache cfg) && negb true) with false by (by destruct (DisableL2Cache cfg)). intros H. cbn in H. injection H as <- <-. unfold LookupCache.FindBlock.
  rewrite (l1_at_ok cfg) by (first [exact Hg|unfold is_u in Ha; lia]). cbn [mbind option_bind].
  unfold put_l1, set_L1, l1_index. cbn [L1 L1PointerMask]. rewrite lookup_insert_eq. cbn.
  by rewrite Z.eqb_refl.
Qed.

(** The live entry of one buffer and the retained one after the walk. *)
Lemma soft_walk r b0 a e x m : range_ok r -> (forall b m, buffers x !! b = Some m -> map_wf m /\ b ∈ CodeBufferList x) ->
  buffers x !! b0 = Some m -> BlockList m !! a = Some e -> hashable e = true -> touches e r.1 r.2 ->
  exists l bs m', walk_buffers (SoftInvalidateRange r.1 r.2) (CodeBufferList x) (buffers x) = Some (l, bs) /\ bs !! b0 = Some m' /\
    BlockList m' !! a = None /\ RetainedBlocks m' !! a = Some e.
Proof.
  intros Hr Hwf Hb0 Ha Hh Ht. apply range_ok_pages in Hr.
  set (P b m := map_wf m /\ (b = b0 -> BlockList m !! a = Some e)).
  set (Q b m := map_wf m /\ (b = b0 -> BlockList m !! a = None /\ RetainedBlocks m !! a = Some e)).
  destruct (walk_buffers_ok cfg Hcfg (SoftInvalidateRange r.1 r.2) P Q (CodeBufferList x) (buffers x)) as (l & bs & Hrun & Hdom & _ & _ & Hq & _).
  - intros b m1 [Hwf1 H1]. destruct (SoftInvalidateRange_spec r.1 r.2 m1 Hwf1 Hr) as (m2 & Hrun & Hwf2 & [_ Hd] & Hret & _). exists m2. split; [done|].
    split; [done|]. intros Hb. specialize (H1 Hb).
    assert (Hl : listed_in m1 r.1 r.2 a).
    { destruct Ht as (k & Hk & Hp). destruct (wf_listed m1 Hwf1 a e k H1 Hp) as (v & ? & ?). by exists k, v. }
    split; [|by apply Hret]. destruct (BlockList m2 !! a) as [e2|] eqn:E2; [|done]. by apply Hd in E2 as [_ []].
  - intros b m1 [Hwf1 H1]. destruct (SoftInvalidateRange_spec r.1 r.2 m1 Hwf1 Hr) as (m2 & Hrun & Hwf2 & [_ Hd] & _ & _ & Hkeep). exists m2. split; [done|].
    split; [done|]. intros Hb. destruct (H1 Hb) as [Hn He]. split; [|by apply Hkeep; auto].
    destruct (BlockList m2 !! a) as [e2|] eqn:E2; [|done]. apply Hd in E2 as [E2 _]. congruence.
  - intros b m1 Hb1. left. split; [by apply (Hwf b)|]. intros ->. by simplify_eq.
  - destruct (Hwf b0 m Hb0) as [_ Hin]. assert (is_Some (bs !! b0)) as [m' Hm'] by (apply elem_of_dom; rewrite Hdom; by apply elem_of_dom_2 in Hb0).
    destruct (Hq b0 m' Hin Hm') as [_ Hx]. destruct (Hx eq_refl). by exists l, bs, m'.
Qed.

(** What ran when a relink brought its entry back. *)
Lemma relink_run rip mem mem' vo m c e res m' c' : RetainedBlocks m !! rip = Some e -> hash_ok xxh3 mem e -> hash_ok xxh3 mem' e ->
  existsb vo (Entry.CodePages e) = false -> relink cfg alloc xxh3 rip mem mem' vo m c = Some (res, m', c') ->
  exists m2, LookupCache.AddBlockMapping cfg rip e m2 c = Some (m', c').
Proof.
  intros He H1 H2 H3 Hrun. unfold relink, TakeRetainedBlock in Hrun. rewrite He in Hrun. unfold hash_ok in H1, H2.
  rewrite H1, H2, H3, !Z.eqb_refl in Hrun. cbn [negb] in Hrun.
  destruct (register_pages _ _ _ _ _ _) as [[M m2]|]; [|done]. cbn [mbind option_bind] in Hrun. exists m2.
  destruct (LookupCache.AddBlockMapping cfg rip e m2 c) as [[m3 c3]|]; [|done]. cbn in Hrun. by simplify_eq.
Qed.

Lemma soft_thread E R A r t c x x1 : range_ok r -> ctx_ok cfg E R A x -> Threads x !! t = Some c ->
  SoftInvalidateGuestCodeRange cfg r.1 r.2 x = Some x1 -> exists c1, Threads x1 !! t = Some c1 /\ Shared c1 = Shared c.
Proof using Hcfg.
  intros Hr Hx Hc Hrun. unfold SoftInvalidateGuestCodeRange, SoftInvalidateCodeBuffersCodeRange in Hrun.
  destruct (walk_buffers _ _ _) as [[l bs]|]; [|done]. cbn [mbind option_bind] in Hrun. unfold InvalidateThreads in Hrun. cbn [Threads] in Hrun.
  destruct (walk_threads_ok (InvalidateThreadCachedCodeRange cfg r.1 r.2) (Threads x) (fun _ => True)) as (ts & Hts & Hlen & Hl).
  { intros t1 c1 Hc1. destruct (thread_invalidate cfg Hcfg E r (Shared c1) c1 Hr (proj1 (xo_threads _ _ _ _ _ Hx t1 c1 Hc1))) as (c2 & ? & _ & ?). eauto. }
  rewrite Hts in Hrun. cbn in Hrun. simplify_eq. cbn. destruct (lookup_lt_is_Some_2 ts t) as [c1 Hc1]; [rewrite Hlen; by eapply lookup_lt_Some|].
  exists c1. split; [done|]. destruct (Hl t c1 Hc1) as (_ & c2 & ? & ?). congruence.
Qed.

Lemma soft_buffer E R A r b a e m x x1 : range_ok r -> ctx_ok cfg E R A x -> buffers x !! b = Some m -> BlockList m !! a = Some e ->
  hashable e = true -> touches e r.1 r.2 -> SoftInvalidateGuestCodeRange cfg r.1 r.2 x = Some x1 ->
  exists m1, buffers x1 !! b = Some m1 /\ BlockList m1 !! a = None /\ RetainedBlocks m1 !! a = Some e.
Proof using Hcfg.
  intros Hr [_ _ Hm _ _] Hb Ha Hh Ht Hrun. unfold SoftInvalidateGuestCodeRange, SoftInvalidateCodeBuffersCodeRange in Hrun.
  destruct (soft_walk r b a e x m Hr) as (l & bs & m1 & Hw & Hb1 & Hn & He); try done.
  { intros b1 m1 Hb1. destruct (Hm b1 m1 Hb1) as [[? _ _ _] ?]. done. }
  rewrite Hw in Hrun. cbn [mbind option_bind] in Hrun. unfold InvalidateThreads in Hrun. cbn [Threads] in Hrun.
  destruct (walk_threads _ _) as [ts|]; [|done]. cbn in Hrun. simplify_eq. by exists m1.
Qed.

End roundtrip.

(** C5: a block whose pages a soft invalidation touched comes back as it was: when the block
    was hashed, its bytes still hash to the recorded hash and none of its pages is in the
    validate-only state, the soft invalidation takes it out of the map of its buffer, the relink
    on a thread that uses the buffer returns its host code, and every lookup on the thread then
    finds this host code. *)
Theorem soft_relink_roundtrip cfg alloc soft xxh3 x E R A t c m rip e Start Len mem vo :
  config_ok cfg -> reach cfg alloc soft xxh3 x E R A -> Threads x !! t = Some c -> buffers x !! Shared c = Some m ->
  BlockList m !! rip = Some e -> hashable e = true -> range_ok (Start, Len) -> touches e Start Len -> hash_ok xxh3 mem e ->
  existsb vo (Entry.CodePages e) = false ->
  exists x1 m1 M x2, SoftInvalidateGuestCodeRange cfg Start Len x = Some x1 /\
    buffers x1 !! Shared c = Some m1 /\ BlockList m1 !! rip = None /\
    TryRelinkSoftInvalidatedBlock cfg alloc xxh3 t rip mem mem vo x1 = Some (Entry.HostCode e, M, x2) /\
    forall now, fst <$> FindBlock cfg t now rip x2 = Some (Entry.HostCode e).
Proof.
  intros Hcfg Hx%reach_ok Hc Hb He Hh Hr Ht Hash Hvo; [|done].
  assert (is_u 64 rip) as Hrip by (apply (xo_live _ _ _ _ _ Hx (Shared c) rip e); by apply (xo_maps _ _ _ _ _ Hx (Shared c) m)).
  destruct (SoftInvalidateGuestCodeRange_ok cfg Hcfg (Start, Len) E R A x Hr Hx) as (x1 & Hrun & Hx1).
  destruct (soft_buffer cfg Hcfg E R A (Start, Len) (Shared c) rip e m x x1 Hr Hx Hb He Hh Ht Hrun) as (m1 & Hb1 & Hn1 & He1).
  destruct (soft_thread cfg Hcfg E R A (Start, Len) t c x x1 Hr Hx Hc Hrun) as (c1 & Hc1 & Hs1).
  destruct (xo_threads _ _ _ _ _ Hx1 t c1 Hc1) as [Hok1 _]. destruct (xo_maps _ _ _ _ _ Hx1 (Shared c) m1 Hb1) as [Hm1 _]. rewrite Hs1 in Hok1.
  set (E1 := without [(Start, Len)] E) in *. set (E2 := fun b a e' => E1 b a e' \/ a = rip /\ join R E b a e').
  destruct (relink_ok cfg Hcfg alloc xxh3 E1 E2 (join R E) (disarm [(Start, Len)] A) rip mem mem vo (Shared c) m1 c1) as (h & M & m2 & c2 & Hre & _ & [Hg2 _] & Hs2 & Hback & _).
  { intros b a e' [Ha|[_ Ha]]; [by eapply (xo_live _ _ _ _ _ Hx1)|by eapply (xo_ret _ _ _ _ _ Hx1)]. }
  { apply (xo_ret _ _ _ _ _ Hx1). }
  { by left. }
  { intros e' He' _ _ _. right. split; [done|]. by apply (mo_ret _ _ _ _ Hm1). }
  { done. }
  { done. }
  destruct (Hback e He1 Hash Hash Hvo) as [Hh2 _]. destruct (relink_run cfg alloc xxh3 rip mem mem vo m1 c1 e (h, M) m2 c2 He1 Hash Hash Hvo Hre) as [m3 Hadd].
  assert (with_thread t (relink cfg alloc xxh3 rip mem mem vo) x1 =
    Some ((h, M), mkContext (<[Shared c := m2]> (buffers x1)) (CodeBufferList x1) (<[t := c2]> (Threads x1)))) as Hrl.
  { unfold with_thread. rewrite Hc1. cbn [mbind option_bind]. rewrite Hs1, Hb1. cbn [mbind option_bind]. by rewrite Hre. }
  rewrite <- Hh2 in Hrl. exists x1, m1, M. eexists. split; [exact Hrun|]. split; [done|]. split; [done|]. split; [exact Hrl|].
  intros now. unfold FindBlock, with_thread. cbn [Threads buffers]. rewrite list_lookup_insert_eq by (by eapply lookup_lt_Some). cbn [mbind option_bind].
  rewrite Hs2, Hs1, lookup_insert_eq. cbn [mbind option_bind]. by rewrite (AddBlockMapping_finds cfg now rip e m3 m2 m2 c1 c2 Hg2 Hrip Hadd).
Qed.

(** ** A sample process

    One thread publishes a block over two pages, the second page is softly invalidated, the
    block is relinked with unchanged bytes and looked up. *)

Definition sample_cfg : Config := mkConfig (2 ^ 36) 0x10000000 0 true false (fun _ _ => Keep).
Definition sample_xxh3 (l : list Z) (seed : Z) : Z := u64 (foldl (fun h v => 31 * h + v) seed l).
Definition sample_mem (a : Z) : Z := a mod 251.
Definition sample_block : Compiled :=
  mkCompiled [(0x401ff0, 0x7000)] 0x6ff0 0x401ff0 32 true false [0x401ff0] [0x401000; 0x402000] [] [] [] [].
Abbreviation sample_apply := (apply sample_cfg (fun _ => true) true sample_xxh3).
Definition sample_step (op : Op) (x : Context) : Context := default x (snd <$> sample_apply op x).
Definition sample_relink : Op := OpRelink 0 0x401ff0 sample_mem sample_mem (fun _ => false).

Definition sample_x0 : Context := boot (fun _ => true) 0 false.
Definition sample_x1 : Context := sample_step (OpNewThread 0) sample_x0.
Definition sample_x2 : Context := sample_step (OpPublish 0 0x401ff0 sample_block sample_mem) sample_x1.
Definition sample_x3 : Context := sample_step (OpSoftInvalidate 0x402000 0x1000) sample_x2.
Definition sample_x4 : Context := sample_step sample_relink sample_x3.

Lemma sample_cfg_ok : config_ok sample_cfg.
Proof. split; [exists 36; split; [lia|reflexivity]|left; reflexivity|vm_compute; reflexivity|vm_compute; discriminate]. Qed.

Lemma sample_publish_ok : op_ok sample_x1 (OpPublish 0 0x401ff0 sample_block sample_mem).
Proof.
  split; [by eexists|]. cbn. split; [repeat constructor; unfold page_ok; cbn; lia|].
  intros a h [= -> ->]%list_elem_of_singleton. unfold is_u. split; [lia|]. intros _. by left.
Qed.

Lemma sample_runs : sample_apply (OpNewThread 0) sample_x0 = Some ((0, []), sample_x1) /\
  sample_apply (OpPublish 0 0x401ff0 sample_block sample_mem) sample_x1 = Some ((0, [0x401000; 0x402000]), sample_x2) /\
  sample_apply (OpSoftInvalidate 0x402000 0x1000) sample_x2 = Some ((0, []), sample_x3) /\
  sample_apply sample_relink sample_x3 = Some ((0x7000, [0x402000]), sample_x4).
Proof. split_and!; vm_compute; reflexivity. Qed.

Lemma sample_ops_ok : op_ok sample_x0 (OpNewThread 0) /\ op_ok sample_x2 (OpSoftInvalidate 0x402000 0x1000) /\
  op_ok sample_x3 sample_relink.
Proof.
  split; [by eexists|]. split; [unfold op_ok, range_ok; cbn [fst snd]; lia|].
  cut (length (Threads sample_x3) = 1%nat); [intros Hl; apply lookup_lt_is_Some_2; lia|]. vm_compute. reflexivity.
Qed.

Lemma sample_next op res x x' : (exists E R A, reach sample_cfg (fun _ => true) true sample_xxh3 x E R A) -> op_ok x op ->
  sample_apply op x = Some (res, x') -> exists E R A, reach sample_cfg (fun _ => true) true sample_xxh3 x' E R A.
Proof. intros (E & R & A & H) Hop Hrun. do 3 eexists. by eapply reach_step. Qed.

Lemma sample_reach2 : exists E R A, reach sample_cfg (fun _ => true) true sample_xxh3 sample_x2 E R A.
Proof.
  destruct sample_runs as (H1 & H2 & _), sample_ops_ok as [Ho1 _]. eapply sample_next; [|exact sample_publish_ok|exact H2].
  eapply sample_next; [|exact Ho1|exact H1]. do 3 eexists. apply reach_boot.
Qed.

Lemma sample_reach3 : exists E R A, reach sample_cfg (fun _ => true) true sample_xxh3 sample_x3 E R A.
Proof.
  destruct sample_runs as (_ & _ & H3 & _), sample_ops_ok as (_ & Ho3 & _). eapply sample_next; [exact sample_reach2|exact Ho3|exact H3].
Qed.

Lemma sample_reach4 : exists E R A, reach sample_cfg (fun _ => true) true sample_xxh3 sample_x4 E R A.
Proof. destruct sample_runs as (_ & _ & _ & H4). eapply sample_next; [exact sample_reach3|apply sample_ops_ok|exact H4]. Qed.

Lemma no_stale_translation_witness : exists E R A res x', reach sample_cfg (fun _ => true) true sample_xxh3 sample_x3 E R A /\
  sample_apply sample_relink sample_x3 = Some (res, x') /\ res.1 = 0x7000 /\ sound sample_xxh3 sample_x3 sample_relink E R res.
Proof.
  destruct sample_reach3 as (E & R & A & H). exists E, R, A.
  destruct (no_stale_translation sample_cfg (fun _ => true) true sample_xxh3 sample_x3 E R A sample_relink sample_cfg_ok H) as (res & x' & Hrun & Hs).
  { apply sample_ops_ok. }
  exists res, x'. split; [done|]. split; [done|]. split; [|done].
  destruct sample_runs as (_ & _ & _ & Hv). pose proof (f_equal (fmap fst) (eq_trans (eq_sym Hrun) Hv)) as Hq. cbn in Hq. injection Hq as ->. reflexivity.
Defined.

Lemma sample_lookup : fst <$> FindBlock sample_cfg 0 5 0x401ff0 sample_x4 = Some 0x7000.
Proof. vm_compute. reflexivity. Qed.


Definition sample_c : Cache := default (new_cache sample_cfg 0) (Threads sample_x2 !! 0%nat).
Definition sample_m : Map := default (new_map (fun _ => true) false) (buffers sample_x2 !! 0%nat).
Definition sample_e : BlockEntry := compiled_entry true sample_xxh3 sample_mem [0x401000; 0x402000] 0x7000 sample_block.

Lemma sample_parts : Threads sample_x2 !! 0%nat = Some sample_c /\ buffers sample_x2 !! Shared sample_c = Some sample_m /\
  BlockList sample_m !! 0x401ff0 = Some sample_e /\ hashable sample_e = true /\ hash_ok sample_xxh3 sample_mem sample_e.
Proof. unfold hash_ok. split_and!; vm_compute; reflexivity. Qed.

Lemma sample_touches : range_ok (0x402000, 0x1000) /\ touches sample_e 0x402000 0x1000.
Proof.
  split; [unfold range_ok; cbn [fst snd]; lia|]. exists 0x402. split; [split; vm_compute; discriminate|]. exists 0x402000. split; [|reflexivity].
  apply list_elem_of_In. vm_compute. auto.
Qed.

Lemma soft_relink_roundtrip_witness : exists x1 M x2, SoftInvalidateGuestCodeRange sample_cfg 0x402000 0x1000 sample_x2 = Some x1 /\
  TryRelinkSoftInvalidatedBlock sample_cfg (fun _ => true) sample_xxh3 0 0x401ff0 sample_mem sample_mem (fun _ => false) x1 = Some (Entry.HostCode sample_e, M, x2).
Proof.
  destruct sample_reach2 as (E & R & A & H), sample_parts as (H1 & H2 & H3 & H4 & H5), sample_touches as [H6 H7].
  destruct (soft_relink_roundtrip sample_cfg (fun _ => true) true sample_xxh3 sample_x2 E R A 0 sample_c sample_m 0x401ff0 sample_e 0x402000 0x1000
    sample_mem (fun _ => false) sample_cfg_ok H H1 H2 H3 H4 H6 H7 H5) as (x1 & _ & M & x2 & Hs & _ & _ & Hr & _); [reflexivity|].
  exists x1, M, x2. split; [exact Hs|exact Hr].
Defined.

(** ** Lookups at address zero

    An invalidated slot of the L1 keeps its host code and gets guest address zero. *)

Definition sample_block' : Compiled :=
  mkCompiled [(0x402000, 0x7000)] 0x6ff0 0x402000 32 true false [0x402000] [0x402000] [] [] [] [].

Definition sample_y1 : Context := sample_step (OpPublish 0 0x402000 sample_block' sample_mem) sample_x1.
Definition sample_y2 : Context := sample_step (OpInvalidate [(0x402000, 0x1000)]) sample_y1.

(** after a block whose address selects the first slot of the L1 was published and
    then invalidated, no map has any block, and a lookup at address zero, where nothing was ever
    compiled, returns the host code of the invalidated block. *)
Theorem null_lookup_is_stale :
  sample_apply (OpPublish 0 0x402000 sample_block' sample_mem) sample_x1 = Some ((0, [0x402000]), sample_y1) /\
  sample_apply (OpInvalidate [(0x402000, 0x1000)]) sample_y1 = Some ((0, []), sample_y2) /\
  (forall b m, buffers sample_y2 !! b = Some m -> BlockList m = ∅) /\
  fst <$> FindBlock sample_cfg 0 5 0 sample_y2 = Some 0x7000.
Proof.
  assert (BlockList <$> buffers sample_y2 = {[0%nat := ∅]}) as Hb by (vm_compute; reflexivity).
  split; [vm_compute; reflexivity|]. split; [vm_compute; reflexivity|]. split; [|vm_compute; reflexivity].
  intros b m Hm. pose proof (f_equal (lookup b) Hb) as Hl. rewrite lookup_fmap, Hm in Hl. cbn in Hl. symmetry in Hl.
  by apply lookup_singleton_Some in Hl as [_ <-].
Qed.
