(* ===== verification/WriteMutex.v ===== *)
(** * The write-priority mutex (FEXCore/include/FEXCore/Utils/WritePriorityMutex.h)

    The lock behind [CodeInvalidationMutex].  Its whole state is one 32-bit futex word; the
    threads that use it are a list of program counters into the class's methods, one atomic
    access of the word (or one system call) per step, so that every interleaving of the methods
    is a sequence of [step]s.  A retry loop keeps the value it read last ([Expected]) in its
    program counter, as the source keeps it in a local.

    The futex calls follow the kernel: FUTEX_WAIT_BITSET returns at once when the word is not
    the expected one and otherwise sleeps until a wake with a common bit, a signal
    ([Spurious]) or, with a deadline, its expiry ([Timeout]); FUTEX_WAKE_BITSET wakes one
    sleeping writer, or all sleeping readers, whichever writer the kernel picks.

    Modelled is the Linux build without assertions on a host without WFE, where
    [Attempt_WFE_WriteLock] and [Attempt_WFE_ReadLock] return false.  The word is read as the
    atomic's current value. *)

From S2P Require Import Prelude.

Module WritePriorityMutex.

Definition WRITE_OWNED_BIT : Z := 1 <<< 31.
Definition READ_WAITER_BIT : Z := 1 <<< 30.
Definition WRITE_WAITER_OFFSET : Z := 16.
Definition WRITE_WAITER_INCREMENT : Z := 1 <<< WRITE_WAITER_OFFSET.
Definition READ_OWNER_INCREMENT : Z := 1.
Definition WRITE_WAITER_COUNT_MASK : Z := 0x3FFF <<< WRITE_WAITER_OFFSET.
Definition READ_OWNER_COUNT_MASK : Z := 0xFFFF.

(** The conditions of the methods on a value of the word. *)
Definition write_available (e : Z) : bool :=
  (e &&& WRITE_OWNED_BIT =? 0) && (e &&& READ_OWNER_COUNT_MASK =? 0).
Definition read_available (e : Z) : bool :=
  (e &&& WRITE_OWNED_BIT =? 0) && (e &&& WRITE_WAITER_COUNT_MASK =? 0).

(** The new values the methods compute from an old one. *)
Definition acquire_write (e : Z) : Z := u32 ((e ||| WRITE_OWNED_BIT) - WRITE_WAITER_INCREMENT).
Definition release_write (e : Z) : Z :=
  let d := Z.ldiff e WRITE_OWNED_BIT in
  if d &&& WRITE_WAITER_COUNT_MASK =? 0 then Z.ldiff d READ_WAITER_BIT else d.
Definition register_writer (e : Z) : Z := u32 (e + WRITE_WAITER_INCREMENT).
Definition acquire_read (e : Z) : Z := u32 (e + READ_OWNER_INCREMENT).
Definition release_read (e : Z) : Z := u32 (e - READ_OWNER_INCREMENT).

(** The withdrawal of a timed-out writer: the new value, and whether it wakes the readers. *)
Definition withdraw_writer (e : Z) : Z * bool :=
  let d := u32 (e - WRITE_WAITER_INCREMENT) in
  if (d &&& WRITE_WAITER_COUNT_MASK =? 0) && negb (d &&& READ_WAITER_BIT =? 0)
     && (d &&& WRITE_OWNED_BIT =? 0)
  then (Z.ldiff d READ_WAITER_BIT, true) else (d, false).

(** Where a thread is.  [timed] tells [try_lock_for] from [lock]. *)
Inductive wkind := KTry | KLock (timed : bool).

Inductive pc :=
  | Idle
  (** [try_lock], alone or as the first attempt of [lock] and [try_lock_for] *)
  | TryLock (k : wkind)
  (** [lock] and [try_lock_for]: registration, retry loop, futex wait, reload *)
  | WRegister (timed : bool)
  | WLoop (timed : bool) (Expected : Z)
  | WWait (timed : bool) (Desired : Z)
  | WAsleep (timed : bool)
  | WReload (timed : bool)
  | WWithdrawLoad
  | WWithdraw (Expected : Z)
  | HoldW
  (** [unlock] *)
  | Unlock (Expected : Z)
  (** the wake at the end of an unlock or a withdrawal *)
  | WakeWriter
  | WakeReaders
  (** [try_lock_shared], alone or as the first attempt of [lock_shared] *)
  | TryShared (blocking : bool)
  | TrySharedCAS (blocking : bool) (Expected : Z)
  (** [lock_shared] *)
  | RLoad
  | RLoop (Expected : Z)
  | RWait (Desired : Z)
  | RAsleep
  | HoldR.

#[global] Instance wkind_eq_dec : EqDecision wkind.
Proof. solve_decision. Defined.
#[global] Instance pc_eq_dec : EqDecision pc.
Proof. solve_decision. Defined.

Record Mutex := mkMutex { Futex : Z; Threads : list pc }.

Inductive op := OpLock | OpLockFor | OpTryLock | OpLockShared | OpTryLockShared.

Inductive event :=
  | Call (t : nat) (o : op)
  | Run (t : nat)
  | RunWake (t w : nat)
  | Timeout (t : nat)
  | Spurious (t : nat).

(** The first program counter of a method; [unlock] and [unlock_shared] are the next step of
    the holder. *)
Definition entry (o : op) : pc :=
  match o with
  | OpLock => TryLock (KLock false)
  | OpLockFor => TryLock (KLock true)
  | OpTryLock => TryLock KTry
  | OpLockShared => TryShared true
  | OpTryLockShared => TryShared false
  end.

(** The result of a compare_exchange_strong of the word [f] from [e] to [d]: on failure the
    expected value becomes the current one. *)
Definition cas {A} (f e d : Z) (succ : A) (fail : Z -> A) : Z * A :=
  if f =? e then (d, succ) else (f, fail f).

(** What follows an unlock that replaced [Expected]. *)
Definition after_unlock (Expected : Z) : pc :=
  if negb (Expected &&& WRITE_WAITER_COUNT_MASK =? 0) then WakeWriter
  else if negb (Expected &&& READ_WAITER_BIT =? 0) then WakeReaders else Idle.

Definition after_unlock_shared (Desired : Z) : pc :=
  if negb (Desired &&& WRITE_WAITER_COUNT_MASK =? 0) && (Desired &&& READ_OWNER_COUNT_MASK =? 0)
  then WakeWriter else Idle.

Definition after_withdraw (Desired : Z) (WakeR : bool) : pc :=
  if WakeR then WakeReaders
  else if negb (Desired &&& WRITE_WAITER_COUNT_MASK =? 0) && write_available Desired
  then WakeWriter else Idle.

Definition try_lock (f : Z) (k : wkind) : Z * pc :=
  if f =? 0 then (WRITE_OWNED_BIT, HoldW)
  else (f, match k with KTry => Idle | KLock timed => WRegister timed end).

Definition lock_loop (f : Z) (timed : bool) (Expected : Z) : Z * pc :=
  if write_available Expected
  then cas f Expected (acquire_write Expected) HoldW (WLoop timed)
  else (f, WWait timed Expected).

Definition try_lock_shared (f : Z) (blocking : bool) : pc :=
  if negb (f &&& WRITE_OWNED_BIT =? 0) || negb (f &&& WRITE_WAITER_COUNT_MASK =? 0)
  then (if blocking then RLoad else Idle)
  else TrySharedCAS blocking f.

Definition lock_shared_loop (f Expected : Z) : Z * pc :=
  if read_available Expected
  then cas f Expected (acquire_read Expected) HoldR RLoop
  else let Desired := Expected ||| READ_WAITER_BIT in
       cas f Expected Desired (RWait Desired) RLoop.

Definition withdraw_loop (f Expected : Z) : Z * pc :=
  let '(Desired, WakeR) := withdraw_writer Expected in
  cas f Expected Desired (after_withdraw Desired WakeR) WWithdraw.

(** One step of a thread at [p] that does not wake another: the new word and program counter.
    Idle and sleeping threads do not run. *)
Definition run1 (f : Z) (p : pc) : option (Z * pc) :=
  match p with
  | Idle | WAsleep _ | RAsleep | WakeWriter | WakeReaders => None
  | TryLock k => Some (try_lock f k)
  | WRegister timed => Some (register_writer f, WLoop timed (register_writer f))
  | WLoop timed e => Some (lock_loop f timed e)
  | WWait timed d => Some (f, if f =? d then WAsleep timed else WReload timed)
  | WReload timed => Some (f, WLoop timed f)
  | WWithdrawLoad => Some (f, WWithdraw f)
  | WWithdraw e => Some (withdraw_loop f e)
  | HoldW => Some (f, Unlock f)
  | Unlock e => Some (cas f e (release_write e) (after_unlock e) Unlock)
  | TryShared blocking => Some (f, try_lock_shared f blocking)
  | TrySharedCAS blocking e =>
      Some (cas f e (acquire_read e) HoldR (fun _ => if blocking then RLoad else Idle))
  | RLoad => Some (f, RLoop f)
  | RLoop e => Some (lock_shared_loop f e)
  | RWait d => Some (f, if f =? d then RAsleep else RLoad)
  | HoldR => Some (release_read f, after_unlock_shared (release_read f))
  end.

Definition is_wasleep (p : pc) : bool := match p with WAsleep _ => true | _ => false end.
Definition is_rasleep (p : pc) : bool := match p with RAsleep => true | _ => false end.

(** FutexWakeReaders: every sleeping reader leaves the futex wait. *)
Definition wake_reader (p : pc) : pc := match p with RAsleep => RLoad | _ => p end.

(** FutexWakeWriter: the sleeping writer [w] the kernel picked leaves the futex wait; without
    a sleeping writer nothing happens. *)
Definition wake_writer (w : nat) (ths : list pc) : option (list pc) :=
  match ths !! w with
  | Some (WAsleep timed) => Some (<[w := WReload timed]> ths)
  | _ => if existsb is_wasleep ths then None else Some ths
  end.

Definition step (s : Mutex) (ev : event) : option Mutex :=
  match ev with
  | Call t o =>
      match Threads s !! t with
      | Some Idle => Some (mkMutex (Futex s) (<[t := entry o]> (Threads s)))
      | _ => None
      end
  | Run t =>
      match Threads s !! t with
      | Some WakeReaders => Some (mkMutex (Futex s) (<[t := Idle]> (wake_reader <$> Threads s)))
      | Some p =>
          match run1 (Futex s) p with
          | Some (f, p') => Some (mkMutex f (<[t := p']> (Threads s)))
          | None => None
          end
      | None => None
      end
  | RunWake t w =>
      match Threads s !! t with
      | Some WakeWriter =>
          ths ← wake_writer w (Threads s);
          Some (mkMutex (Futex s) (<[t := Idle]> ths))
      | _ => None
      end
  | Timeout t =>
      match Threads s !! t with
      | Some (WAsleep true) => Some (mkMutex (Futex s) (<[t := WWithdrawLoad]> (Threads s)))
      | _ => None
      end
  | Spurious t =>
      match Threads s !! t with
      | Some (WAsleep timed) => Some (mkMutex (Futex s) (<[t := WReload timed]> (Threads s)))
      | Some RAsleep => Some (mkMutex (Futex s) (<[t := RLoad]> (Threads s)))
      | _ => None
      end
  end.

Fixpoint run (s : Mutex) (evs : list event) : option Mutex :=
  match evs with
  | [] => Some s
  | ev :: evs => match step s ev with Some s' => run s' evs | None => None end
  end.

(** A new mutex used by [n] threads. *)
Definition init (n : nat) : Mutex := mkMutex 0 (replicate n Idle).

Definition is_write_owned (s : Mutex) : bool := negb (Futex s &&& WRITE_OWNED_BIT =? 0).

(** In the child of a fork, where only the forking thread is left. *)
Definition StealAndDropActiveLocks (s : Mutex) : Mutex := mkMutex 0 (Threads s).

(** ** The specification: a reader-writer lock that prefers writers

    Every thread has a role.  A writer takes the lock when it has no owner at all, a reader
    only when no writer owns it or waits for it. *)
Inductive role := RNone | RWaiting | RWriting | RReading.

#[global] Instance role_eq_dec : EqDecision role.
Proof. solve_decision. Defined.

Definition nobody (r : role) (rs : list role) : Prop := r ∉ rs.

Inductive lock_step (rs : list role) : list role -> Prop :=
  | LWait t : rs !! t = Some RNone -> lock_step rs (<[t := RWaiting]> rs)
  | LGiveUp t : rs !! t = Some RWaiting -> lock_step rs (<[t := RNone]> rs)
  | LTryWrite t : rs !! t = Some RNone -> Forall (eq RNone) rs ->
      lock_step rs (<[t := RWriting]> rs)
  | LWrite t : rs !! t = Some RWaiting -> nobody RWriting rs -> nobody RReading rs ->
      lock_step rs (<[t := RWriting]> rs)
  | LRead t : rs !! t = Some RNone -> nobody RWriting rs -> nobody RWaiting rs ->
      lock_step rs (<[t := RReading]> rs)
  | LRelease t r : rs !! t = Some r -> r = RWriting \/ r = RReading ->
      lock_step rs (<[t := RNone]> rs).

Definition role_of (p : pc) : role :=
  match p with
  | WLoop _ _ | WWait _ _ | WAsleep _ | WReload _ | WWithdrawLoad | WWithdraw _ => RWaiting
  | HoldW | Unlock _ => RWriting
  | HoldR => RReading
  | _ => RNone
  end.

Definition roles (s : Mutex) : list role := role_of <$> Threads s.

End WritePriorityMutex.
