(* ===== verification/WriteMutexProps.v ===== *)
(** * The write-priority mutex: the futex word counts the threads

    The word of a mutex used by at most 16383 threads is, at every point of every
    interleaving, exactly the encoding of who owns the lock and who waits for it, and no
    sleeping thread is forgotten: the invariant [mutex_ok], kept by every step. *)

From S2P Require Import Prelude WriteMutex.

Import WritePriorityMutex.

(** ** The fields of the word *)

Definition word (W B : bool) (N R : Z) : Z :=
  Z.b2z W * 2 ^ 31 + Z.b2z B * 2 ^ 30 + N * 2 ^ 16 + R.

Definition fields_ok (N R : Z) : Prop := is_u 14 N /\ is_u 16 R.

Lemma mask_field x j k :
  0 <= j -> 0 <= k -> x &&& (Z.ones j <<< k) = (x / 2 ^ k) mod 2 ^ j * 2 ^ k.
Proof.
  intros Hj Hk. rewrite <- Z.land_ones, <- Z.shiftr_div_pow2, <- Z.shiftl_mul_pow2 by done.
  apply Z.bits_inj'; intros i Hi. rewrite Z.land_spec, !Z.shiftl_spec, Z.land_spec by done.
  destruct (Z.leb_spec k i).
  - rewrite Z.shiftr_spec by lia. do 2 f_equal. lia.
  - rewrite (Z.testbit_neg_r _ (i - k)), (Z.testbit_neg_r (_ >>> _)) by lia. btauto.
Qed.

Lemma ldiff_sub x m : Z.ldiff x m = x - (x &&& m).
Proof.
  assert (Z.ldiff x m &&& (x &&& m) = 0) as Hd.
  { apply Z.bits_inj'; intros i Hi. rewrite !Z.land_spec, Z.ldiff_spec, Z.bits_0. btauto. }
  pose proof (Z.add_lor_land (Z.ldiff x m) (x &&& m)) as H.
  rewrite Hd, Z.lor_ldiff_and in H. lia.
Qed.

Lemma lor_add x m : x ||| m = x + m - (x &&& m).
Proof. pose proof (Z.add_lor_land x m). lia. Qed.

Section fields.
Context (N R : Z) (Hok : fields_ok N R).

Ltac word_lia :=
  intros W B; destruct Hok as [HN HR]; unfold is_u in *; unfold word;
  destruct W, B; cbn [Z.b2z]; Z.to_euclidean_division_equations; lia.

Ltac word_field j k :=
  intros W B;
  match goal with |- _ &&& ?m = _ => change m with (Z.ones j <<< k) end;
  rewrite mask_field by lia; revert W B; word_lia.

Lemma word_owned : forall W B, word W B N R &&& WRITE_OWNED_BIT = Z.b2z W * 2 ^ 31.
Proof. word_field 1 31. Qed.

Lemma word_waiter : forall W B, word W B N R &&& READ_WAITER_BIT = Z.b2z B * 2 ^ 30.
Proof. word_field 1 30. Qed.

Lemma word_writers : forall W B, word W B N R &&& WRITE_WAITER_COUNT_MASK = N * 2 ^ 16.
Proof. word_field 14 16. Qed.

Lemma word_readers : forall W B, word W B N R &&& READ_OWNER_COUNT_MASK = R.
Proof. word_field 16 0. Qed.

Lemma word_is_u : forall W B, is_u 32 (word W B N R).
Proof. word_lia. Qed.

Lemma owned_zero W B : (word W B N R &&& WRITE_OWNED_BIT =? 0) = negb W.
Proof. rewrite word_owned. by destruct W. Qed.

Lemma waiter_zero W B : (word W B N R &&& READ_WAITER_BIT =? 0) = negb B.
Proof. rewrite word_waiter. by destruct B. Qed.

Lemma writers_zero W B : (word W B N R &&& WRITE_WAITER_COUNT_MASK =? 0) = (N =? 0).
Proof. rewrite word_writers. apply eq_iff_eq_true. rewrite !Z.eqb_eq. lia. Qed.

Lemma write_available_word W B : write_available (word W B N R) = negb W && (R =? 0).
Proof. unfold write_available. by rewrite owned_zero, word_readers. Qed.

Lemma read_available_word W B : read_available (word W B N R) = negb W && (N =? 0).
Proof. unfold read_available. by rewrite owned_zero, writers_zero. Qed.

Lemma word_readers_wait W B : word W B N R ||| READ_WAITER_BIT = word W true N R.
Proof.
  rewrite lor_add, word_waiter. unfold word. change READ_WAITER_BIT with (2 ^ 30).
  destruct B; cbn [Z.b2z]; lia.
Qed.

Lemma word_drop_waiter W B : Z.ldiff (word W B N R) READ_WAITER_BIT = word W false N R.
Proof. rewrite ldiff_sub, word_waiter. unfold word. cbn [Z.b2z]. lia. Qed.

Lemma release_write_word W B :
  release_write (word W B N R) = word false (if N =? 0 then false else B) N R.
Proof.
  unfold release_write. replace (Z.ldiff _ WRITE_OWNED_BIT) with (word false B N R).
  2:{ rewrite ldiff_sub, word_owned. unfold word. cbn [Z.b2z]. lia. }
  rewrite writers_zero. destruct (N =? 0); [apply word_drop_waiter|done].
Qed.

Lemma after_unlock_word W B :
  after_unlock (word W B N R) =
  if N =? 0 then if B then WakeReaders else Idle else WakeWriter.
Proof.
  unfold after_unlock. rewrite writers_zero, waiter_zero. by destruct (N =? 0), B.
Qed.

Lemma after_unlock_shared_word W B :
  after_unlock_shared (word W B N R) =
  if negb (N =? 0) && (R =? 0) then WakeWriter else Idle.
Proof. unfold after_unlock_shared. by rewrite writers_zero, word_readers. Qed.

Lemma after_withdraw_word W B :
  after_withdraw (word W B N R) false =
  if negb (N =? 0) && (negb W && (R =? 0)) then WakeWriter else Idle.
Proof. unfold after_withdraw. by rewrite writers_zero, write_available_word. Qed.

End fields.

Lemma u32_word x W B N R : fields_ok N R -> x = word W B N R -> u32 x = word W B N R.
Proof. intros Hok ->. by apply u_small, word_is_u. Qed.

Ltac word_arith :=
  intros; unfold fields_ok, is_u in *; unfold word; cbn [Z.b2z];
  change WRITE_WAITER_INCREMENT with (2 ^ 16); change READ_OWNER_INCREMENT with 1; lia.

Lemma acquire_write_word B N R :
  fields_ok N R -> 0 < N -> acquire_write (word false B N R) = word true B (N - 1) R.
Proof.
  intros Hok HN. unfold acquire_write. apply u32_word; [revert HN Hok; word_arith|].
  rewrite lor_add, word_owned by done. change WRITE_OWNED_BIT with (2 ^ 31). word_arith.
Qed.

Lemma register_writer_word W B N R :
  fields_ok (N + 1) R -> register_writer (word W B N R) = word W B (N + 1) R.
Proof. intros Hok. apply u32_word; [done|]. word_arith. Qed.

Lemma acquire_read_word W B N R :
  fields_ok N (R + 1) -> acquire_read (word W B N R) = word W B N (R + 1).
Proof. intros Hok. apply u32_word; [done|]. word_arith. Qed.

Lemma release_read_word W B N R :
  fields_ok N (R - 1) -> release_read (word W B N R) = word W B N (R - 1).
Proof. intros Hok. apply u32_word; [done|]. word_arith. Qed.

Lemma withdraw_writer_word W B N R :
  fields_ok (N - 1) R ->
  withdraw_writer (word W B N R) =
  if (N - 1 =? 0) && B && negb W then (word W false (N - 1) R, true) else (word W B (N - 1) R, false).
Proof.
  intros Hok. unfold withdraw_writer.
  replace (u32 _) with (word W B (N - 1) R) by (symmetry; apply u32_word; [done|word_arith]).
  rewrite writers_zero, waiter_zero, owned_zero, word_drop_waiter, negb_involutive by done. done.
Qed.

Lemma word_zero W B N R :
  fields_ok N R -> word W B N R = 0 -> W = false /\ B = false /\ N = 0 /\ R = 0.
Proof. unfold fields_ok, is_u, word. destruct W, B; cbn [Z.b2z]; lia. Qed.

(** ** Counting threads *)

Definition num (P : pc -> bool) (ths : list pc) : Z :=
  Z.of_nat (sum_list_with (fun p => if P p then 1%nat else 0%nat) ths).

Lemma num_cons P p ths : num P (p :: ths) = Z.b2z (P p) + num P ths.
Proof. unfold num. cbn [sum_list_with]. destruct (P p); cbn [Z.b2z]; lia. Qed.

Lemma num_insert P ths t p q :
  ths !! t = Some p -> num P (<[t := q]> ths) = num P ths - Z.b2z (P p) + Z.b2z (P q).
Proof.
  revert t. induction ths as [|a ths IH]; intros [|t] Ht; simplify_eq/=; rewrite !num_cons; [lia|].
  rewrite (IH t Ht). lia.
Qed.

Lemma num_bounds P ths : 0 <= num P ths <= Z.of_nat (length ths).
Proof.
  induction ths as [|p ths IH]; [done|]. rewrite num_cons. destruct (P p); cbn [Z.b2z length]; lia.
Qed.

Lemma num_elem P ths t p : ths !! t = Some p -> P p = true -> 1 <= num P ths.
Proof.
  revert t. induction ths as [|a ths IH]; intros [|t] Ht HP; simplify_eq/=; rewrite num_cons.
  - rewrite HP. pose proof (num_bounds P ths). cbn [Z.b2z]. lia.
  - specialize (IH t Ht HP). destruct (P a); cbn [Z.b2z]; lia.
Qed.

Lemma num_pos P ths : 0 < num P ths -> exists t p, ths !! t = Some p /\ P p = true.
Proof.
  induction ths as [|a ths IH]; [done|]. rewrite num_cons. destruct (P a) eqn:HP.
  - intros _. by exists 0%nat, a.
  - intros (t & p & ? & ?)%IH. by exists (S t), p.
Qed.

Lemma num_ext P Q (g : pc -> pc) ths :
  (forall p, P (g p) = Q p) -> num P (g <$> ths) = num Q ths.
Proof. intros H. induction ths as [|a ths IH]; [done|]. by rewrite fmap_cons, !num_cons, H, IH. Qed.

Lemma num_none P ths : (forall p, p ∈ ths -> P p = false) -> num P ths = 0.
Proof.
  intros H. destruct (num_bounds P ths). destruct (Z.eq_dec (num P ths) 0) as [|Hne]; [done|].
  destruct (num_pos P ths) as (t & p & Ht & HP); [lia|].
  apply list_elem_of_lookup_2, H in Ht. congruence.
Qed.

Definition has_role (r : role) (p : pc) : bool :=
  match r, role_of p with
  | RNone, RNone | RWaiting, RWaiting | RWriting, RWriting | RReading, RReading => true
  | _, _ => false
  end.
Definition is_wwaker (p : pc) : bool := match p with WakeWriter => true | _ => false end.
Definition is_rwaker (p : pc) : bool := match p with WakeReaders => true | _ => false end.

Abbreviation writing := (num (has_role RWriting)).
Abbreviation reading := (num (has_role RReading)).
Abbreviation waiting := (num (has_role RWaiting)).

(** ** The invariant *)

(** What the values a thread carries promise. *)
Definition pc_ok (p : pc) : Prop :=
  match p with
  | WWait _ d => write_available d = false
  | RWait d => d &&& READ_WAITER_BIT <> 0
  | TrySharedCAS _ e => read_available e = true
  | _ => True
  end.

Lemma asleep_waiting ths : num is_wasleep ths <= waiting ths.
Proof.
  induction ths as [|p ths IH]; [done|]. rewrite !num_cons. destruct p; cbn; lia.
Qed.

Definition max_threads : Z := 16383.

(** The word with its fields [W] (bit 31) and [B] (bit 30): the counts are exact; a writer
    excludes readers; readers that sleep are announced by [B] or about to be woken, and [B] is
    only set while a writer is there to clear it; when writers sleep on a free lock another
    writer is awake, or about to be woken. *)
Record word_ok (s : Mutex) (W B : bool) : Prop := {
  ok_word : Futex s = word W B (waiting (Threads s)) (reading (Threads s));
  ok_writing : writing (Threads s) = Z.b2z W;
  ok_exclusive : Z.b2z W = 1 -> reading (Threads s) = 0;
  ok_waiter_bit : Z.b2z B = 1 -> Z.b2z W = 1 \/ 0 < waiting (Threads s);
  ok_readers_announced :
    0 < num is_rasleep (Threads s) -> Z.b2z B = 1 \/ 0 < num is_rwaker (Threads s);
  ok_writers_woken :
    0 < num is_wasleep (Threads s) -> Z.b2z W = 0 -> reading (Threads s) = 0 ->
    num is_wasleep (Threads s) < waiting (Threads s) \/ 0 < num is_wwaker (Threads s);
}.

Record mutex_ok (s : Mutex) : Prop := {
  ok_threads : Z.of_nat (length (Threads s)) <= max_threads;
  ok_pcs : Forall pc_ok (Threads s);
  ok_fields : exists W B, word_ok s W B;
}.

Lemma counts_fit s : Z.of_nat (length (Threads s)) <= max_threads ->
  fields_ok (waiting (Threads s)) (reading (Threads s)).
Proof.
  intros H. unfold max_threads in H. pose proof (num_bounds (has_role RWaiting) (Threads s)).
  pose proof (num_bounds (has_role RReading) (Threads s)). unfold fields_ok, is_u. lia.
Qed.

Lemma init_ok n : Z.of_nat n <= max_threads -> mutex_ok (init n).
Proof.
  intros Hn. split; cbn.
  - by rewrite length_replicate.
  - by apply Forall_replicate.
  - assert (forall P, P Idle = false -> num P (replicate n Idle) = 0) as H.
    { intros P HP. apply num_none. intros p [-> _]%elem_of_replicate. done. }
    exists false, false. split; cbn; rewrite ?H by done; (done || lia).
Qed.

(** The counts of a list in which one thread moved. *)
Ltac num_step Ht :=
  repeat match goal with
  | |- context [num ?P (<[?t := ?q]> ?l)] => rewrite (num_insert P l t _ q Ht)
  end;
  cbn [has_role role_of is_rasleep is_wasleep is_rwaker is_wwaker Z.b2z].

(** The facts of a [word_ok] hypothesis and the bounds of the counts, for [lia]. *)
Ltac word_facts Hw :=
  let s := match type of Hw with word_ok ?s _ _ => s end in
  pose proof (ok_writing _ _ _ Hw); pose proof (ok_exclusive _ _ _ Hw);
  pose proof (ok_waiter_bit _ _ _ Hw); pose proof (ok_readers_announced _ _ _ Hw);
  pose proof (ok_writers_woken _ _ _ Hw);
  pose proof (num_bounds (has_role RWaiting) (Threads s));
  pose proof (num_bounds (has_role RReading) (Threads s));
  pose proof (num_bounds (has_role RWriting) (Threads s));
  pose proof (asleep_waiting (Threads s));
  pose proof (num_bounds is_wasleep (Threads s)); pose proof (num_bounds is_rasleep (Threads s));
  pose proof (num_bounds is_wwaker (Threads s)); pose proof (num_bounds is_rwaker (Threads s)).

Ltac word_step Ht :=
  split; cbn [Futex Threads]; num_step Ht; [|cbn [Z.b2z] in *; lia..].

Section one_thread.
Context (s : Mutex) (t : nat) (W B : bool).
Context (Hl : Z.of_nat (length (Threads s)) <= max_threads) (Hw : word_ok s W B).

Let N := waiting (Threads s).
Let R := reading (Threads s).

(** A move that no count sees. *)
Definition same_counts (p q : pc) : bool :=
  bool_decide (role_of p = role_of q) && Bool.eqb (is_wasleep p) (is_wasleep q)
  && Bool.eqb (is_rasleep p) (is_rasleep q) && Bool.eqb (is_wwaker p) (is_wwaker q)
  && Bool.eqb (is_rwaker p) (is_rwaker q).

Lemma word_same p q :
  Threads s !! t = Some p -> same_counts p q = true ->
  word_ok (mkMutex (Futex s) (<[t := q]> (Threads s))) W B.
Proof.
  intros Ht Hs. unfold same_counts in Hs.
  rewrite !andb_true_iff, bool_decide_eq_true, !eqb_true_iff in Hs. destruct Hs as ((((Hr & H1) & H2) & H3) & H4).
  assert (forall r, has_role r p = has_role r q) as Hh by (intros r; unfold has_role; by rewrite Hr).
  assert (forall P, P p = P q -> num P (<[t := q]> (Threads s)) = num P (Threads s)) as Hn.
  { intros P E. rewrite (num_insert P _ _ _ q Ht), E. lia. }
  destruct Hw. split; cbn [Futex Threads]; by rewrite ?(Hn (has_role _)), ?(Hn is_wasleep), ?(Hn is_rasleep), ?(Hn is_wwaker), ?(Hn is_rwaker) by auto.
Qed.

Lemma word_try_lock k :
  Threads s !! t = Some (TryLock k) -> Futex s = 0 ->
  word_ok (mkMutex WRITE_OWNED_BIT (<[t := HoldW]> (Threads s))) true false.
Proof.
  intros Ht Hf. rewrite (ok_word _ _ _ Hw) in Hf.
  apply word_zero in Hf as (-> & -> & HN & HR); [|by apply counts_fit].
  word_facts Hw. word_step Ht. rewrite HN, HR. reflexivity.
Qed.

Lemma word_register timed e :
  Threads s !! t = Some (WRegister timed) ->
  word_ok (mkMutex (register_writer (Futex s)) (<[t := WLoop timed e]> (Threads s))) W B.
Proof.
  intros Ht. word_facts Hw.
  assert (N + 1 <= max_threads) as HN.
  { pose proof (num_insert (has_role RWaiting) _ _ _ (WLoop timed e) Ht) as E. cbn in E.
    pose proof (num_bounds (has_role RWaiting) (<[t := WLoop timed e]> (Threads s))) as HB.
    rewrite length_insert in HB. unfold N. lia. }
  word_step Ht. rewrite (ok_word _ _ _ Hw), register_writer_word.
  - f_equal; lia.
  - unfold fields_ok, is_u, N, max_threads in *. lia.
Qed.

Lemma word_acquire_write timed e :
  Threads s !! t = Some (WLoop timed e) -> write_available (Futex s) = true ->
  word_ok (mkMutex (acquire_write (Futex s)) (<[t := HoldW]> (Threads s))) true B.
Proof.
  intros Ht Ha. pose proof (num_elem (has_role RWaiting) _ _ _ Ht eq_refl) as HN.
  pose proof (counts_fit s Hl) as Hfit. rewrite (ok_word _ _ _ Hw) in *.
  rewrite write_available_word, andb_true_iff, negb_true_iff, Z.eqb_eq in Ha by done.
  destruct Ha as [-> HR]. word_facts Hw. word_step Ht. rewrite acquire_write_word by (done || lia).
  f_equal; lia.
Qed.

Lemma word_wsleep timed :
  Threads s !! t = Some (WWait timed (Futex s)) -> write_available (Futex s) = false ->
  word_ok (mkMutex (Futex s) (<[t := WAsleep timed]> (Threads s))) W B.
Proof.
  intros Ht Ha. pose proof (counts_fit s Hl) as Hfit. word_facts Hw.
  rewrite (ok_word _ _ _ Hw), write_available_word, andb_false_iff, negb_false_iff, Z.eqb_neq in Ha by done.
  destruct W; destruct Ha as [Ha|Ha]; try done; word_step Ht; rewrite (ok_word _ _ _ Hw); f_equal; lia.
Qed.

Lemma word_unlock :
  Threads s !! t = Some (Unlock (Futex s)) ->
  exists B', word_ok (mkMutex (release_write (Futex s)) (<[t := after_unlock (Futex s)]> (Threads s))) false B'.
Proof.
  intros Ht. pose proof (counts_fit s Hl) as Hfit. word_facts Hw.
  pose proof (num_elem (has_role RWriting) _ _ _ Ht eq_refl) as HW.
  exists (if N =? 0 then false else B).
  assert (W = true) as HWt by (destruct W; [done|cbn in *; lia]). subst W.
  rewrite (ok_word _ _ _ Hw) in *. rewrite release_write_word, after_unlock_word by done. fold N R.
  destruct (Z.eqb_spec N 0), B; cbv iota; unfold N, R in *; word_step Ht; f_equal; lia.
Qed.

Lemma word_acquire_read p :
  Threads s !! t = Some p -> same_counts p Idle = true -> read_available (Futex s) = true ->
  word_ok (mkMutex (acquire_read (Futex s)) (<[t := HoldR]> (Threads s))) W B.
Proof.
  intros Ht Hs Ha. pose proof (counts_fit s Hl) as Hfit. word_facts Hw.
  rewrite (ok_word _ _ _ Hw) in *.
  rewrite read_available_word, andb_true_iff, negb_true_iff, Z.eqb_eq in Ha by done.
  destruct Ha as [HWf HN]. subst W. pose proof (num_insert (has_role RReading) _ _ _ HoldR Ht) as E.
  pose proof (num_bounds (has_role RReading) (<[t := HoldR]> (Threads s))) as HB.
  rewrite length_insert in HB.
  destruct p; try discriminate Hs; cbn in E; word_step Ht;
    (rewrite acquire_read_word; [f_equal; lia|unfold fields_ok, is_u, max_threads in *; lia]).
Qed.

Lemma word_announce e :
  Threads s !! t = Some (RLoop e) -> read_available (Futex s) = false ->
  word_ok (mkMutex (Futex s ||| READ_WAITER_BIT) (<[t := RWait (Futex s ||| READ_WAITER_BIT)]> (Threads s))) W true.
Proof.
  intros Ht Ha. pose proof (counts_fit s Hl) as Hfit. word_facts Hw.
  rewrite (ok_word _ _ _ Hw) in *. rewrite word_readers_wait by done.
  rewrite read_available_word, andb_false_iff, negb_false_iff, Z.eqb_neq in Ha by done.
  destruct W; destruct Ha as [Ha|Ha]; try done; word_step Ht; f_equal; lia.
Qed.

Lemma word_rsleep :
  Threads s !! t = Some (RWait (Futex s)) -> Futex s &&& READ_WAITER_BIT <> 0 ->
  word_ok (mkMutex (Futex s) (<[t := RAsleep]> (Threads s))) W B.
Proof.
  intros Ht Ha. pose proof (counts_fit s Hl) as Hfit. word_facts Hw.
  rewrite (ok_word _ _ _ Hw), word_waiter in Ha by done. destruct B; [|done].
  word_step Ht; rewrite (ok_word _ _ _ Hw); f_equal; lia.
Qed.

Lemma word_unlock_shared :
  Threads s !! t = Some HoldR ->
  word_ok (mkMutex (release_read (Futex s)) (<[t := after_unlock_shared (release_read (Futex s))]> (Threads s))) W B.
Proof.
  intros Ht. pose proof (counts_fit s Hl) as Hfit. word_facts Hw.
  pose proof (num_elem (has_role RReading) _ _ _ Ht eq_refl) as HR.
  assert (fields_ok N (R - 1)) as Hfit' by (unfold fields_ok, is_u, N, R in *; lia).
  rewrite (ok_word _ _ _ Hw), release_read_word, after_unlock_shared_word by done. fold N R.
  destruct (Z.eqb_spec N 0), (Z.eqb_spec (R - 1) 0); cbv [negb andb]; unfold N, R in *; word_step Ht; f_equal; lia.
Qed.

Lemma word_withdraw :
  Threads s !! t = Some (WWithdraw (Futex s)) ->
  let '(d, wake) := withdraw_writer (Futex s) in
  exists B', word_ok (mkMutex d (<[t := after_withdraw d wake]> (Threads s))) W B'.
Proof.
  intros Ht. pose proof (counts_fit s Hl) as Hfit. word_facts Hw.
  pose proof (num_elem (has_role RWaiting) _ _ _ Ht eq_refl) as HN.
  assert (fields_ok (N - 1) R) as Hfit' by (unfold fields_ok, is_u, N, R in *; lia).
  rewrite (ok_word _ _ _ Hw), withdraw_writer_word by done. fold N R.
  destruct ((N - 1 =? 0) && B && negb W) eqn:E.
  - rewrite !andb_true_iff, negb_true_iff, Z.eqb_eq in E. destruct E as [[HN1 ?] ?]. subst W B.
    exists false. unfold after_withdraw, N, R in *. word_step Ht; f_equal; lia.
  - exists B. rewrite after_withdraw_word by done.
    destruct (Z.eqb_spec (N - 1) 0), W, B, (Z.eqb_spec R 0); try discriminate E; cbv [negb andb];
      unfold N, R in *; word_step Ht; f_equal; lia.
Qed.

End one_thread.

(** ** Every step keeps the invariant *)

Lemma mutex_insert s t q f' W' B' :
  mutex_ok s -> pc_ok q -> word_ok (mkMutex f' (<[t := q]> (Threads s))) W' B' ->
  mutex_ok (mkMutex f' (<[t := q]> (Threads s))).
Proof.
  intros [Hl Hp _] Hq Hw. split; cbn.
  - by rewrite length_insert.
  - by apply Forall_insert.
  - by exists W', B'.
Qed.

Lemma mutex_same s t p q :
  mutex_ok s -> Threads s !! t = Some p -> same_counts p q = true -> pc_ok q ->
  mutex_ok (mkMutex (Futex s) (<[t := q]> (Threads s))).
Proof.
  intros Hok Ht Hs Hq. pose proof Hok as [_ _ (W & B & Hw)].
  eapply mutex_insert; [done..|]. by eapply word_same.
Qed.

Lemma try_lock_shared_ok s t blocking :
  mutex_ok s -> Threads s !! t = Some (TryShared blocking) ->
  mutex_ok (mkMutex (Futex s) (<[t := try_lock_shared (Futex s) blocking]> (Threads s))).
Proof.
  intros Hok Ht. eapply mutex_same; [done..| |]; unfold try_lock_shared.
  - by repeat case_match.
  - case_match eqn:E; [by destruct blocking|]. cbn. unfold read_available.
    by rewrite orb_false_iff, !negb_false_iff in E; destruct E as [-> ->].
Qed.

(** A thread whose word has not moved since it read [e] succeeds; the other one retries. *)
Lemma cas_ok {f e d} {succ : pc} {fail f' q} :
  cas f e d succ fail = (f', q) ->
  (f = e /\ f' = d /\ q = succ) \/ (f <> e /\ f' = f /\ q = fail f).
Proof. unfold cas. destruct (Z.eqb_spec f e); intros; simplify_eq; auto. Qed.

Lemma after_pcs_ok e d w :
  pc_ok (after_unlock e) /\ pc_ok (after_unlock_shared e) /\ pc_ok (after_withdraw d w).
Proof. unfold after_unlock, after_unlock_shared, after_withdraw. repeat case_match; done. Qed.

Lemma run1_ok s t p f' q :
  mutex_ok s -> Threads s !! t = Some p -> run1 (Futex s) p = Some (f', q) ->
  mutex_ok (mkMutex f' (<[t := q]> (Threads s))).
Proof.
  intros Hok Ht Hrun. pose proof Hok as [Hl Hp (W & B & Hw)].
  assert (pc_ok p) as Hpc by (by eapply Forall_lookup_1).
  destruct p as [ |k|tm|tm e|tm d|tm|tm| |e| |e| | |bl|bl e| |e|d| | ]; cbn [run1] in Hrun; simplify_eq.
  - unfold try_lock in Hrun. destruct (Z.eqb_spec (Futex s) 0); simplify_eq.
    + eapply mutex_insert; [done..|]. by eapply word_try_lock.
    + eapply mutex_same; [done..| |]; by destruct k.
  - eapply mutex_insert; [done..|]. by eapply word_register.
  - unfold lock_loop in Hrun. destruct (write_available e) eqn:Ha; simplify_eq.
    + apply cas_ok in Hrun as [(<- & -> & ->)|(Hne & -> & ->)].
      * eapply mutex_insert; [done..|]. by eapply word_acquire_write.
      * by eapply mutex_same.
    + by eapply mutex_same.
  - destruct (Z.eqb_spec (Futex s) d) as [<-|]; [|by eapply mutex_same].
    eapply mutex_insert; [done..|]. by eapply word_wsleep.
  - by eapply mutex_same.
  - by eapply mutex_same.
  - unfold withdraw_loop in Hrun. destruct (withdraw_writer e) as [d wk] eqn:E.
    apply cas_ok in Hrun as [(<- & -> & ->)|(Hne & -> & ->)]; [|by eapply mutex_same].
    pose proof (word_withdraw s t W B Hl Hw Ht) as H. rewrite E in H. destruct H as [B' H].
    eapply mutex_insert; [done| |done]. by apply after_pcs_ok.
  - by eapply mutex_same.
  - apply cas_ok in Hrun as [(<- & -> & ->)|(Hne & -> & ->)]; [|by eapply mutex_same].
    destruct (word_unlock s t W B Hl Hw Ht) as [B' H].
    eapply mutex_insert; [done| |done]. by apply (after_pcs_ok _ 0 false).
  - by apply try_lock_shared_ok.
  - apply cas_ok in Hrun as [(<- & -> & ->)|(Hne & -> & ->)].
    + eapply mutex_insert; [done..|]. by eapply word_acquire_read.
    + eapply mutex_same; [done..| |]; by destruct bl.
  - by eapply mutex_same.
  - unfold lock_shared_loop in Hrun. destruct (read_available e) eqn:Ha;
      apply cas_ok in Hrun as [(<- & -> & ->)|(Hne & -> & ->)]; try (by eapply mutex_same).
    + eapply mutex_insert; [done..|]. by eapply word_acquire_read.
    + eapply mutex_insert; [done| |by eapply word_announce]. cbn.
      rewrite (ok_word _ _ _ Hw), word_readers_wait, word_waiter by (by apply counts_fit). done.
  - destruct (Z.eqb_spec (Futex s) d) as [<-|]; [|by eapply mutex_same].
    eapply mutex_insert; [done..|]. by eapply word_rsleep.
  - eapply mutex_insert; [done| |by eapply word_unlock_shared]. by apply (after_pcs_ok _ 0 false).
Qed.

(** The end of the two wakes. *)
Lemma wake_writer_done s t :
  mutex_ok s -> Threads s !! t = Some WakeWriter ->
  num is_wasleep (Threads s) = 0 \/ num is_wasleep (Threads s) < waiting (Threads s) ->
  mutex_ok (mkMutex (Futex s) (<[t := Idle]> (Threads s))).
Proof.
  intros Hok Ht Hn. pose proof Hok as [Hl _ (W & B & Hw)].
  apply (mutex_insert _ _ _ _ W B); [done..|]. word_facts Hw.
  word_step Ht. rewrite (ok_word _ _ _ Hw). f_equal; lia.
Qed.

Lemma wake_readers_done s t :
  mutex_ok s -> Threads s !! t = Some WakeReaders -> num is_rasleep (Threads s) = 0 ->
  mutex_ok (mkMutex (Futex s) (<[t := Idle]> (Threads s))).
Proof.
  intros Hok Ht Hn. pose proof Hok as [Hl _ (W & B & Hw)].
  apply (mutex_insert _ _ _ _ W B); [done..|]. word_facts Hw.
  word_step Ht. rewrite (ok_word _ _ _ Hw). f_equal; lia.
Qed.

Lemma wake_all_readers s :
  mutex_ok s -> mutex_ok (mkMutex (Futex s) (wake_reader <$> Threads s)).
Proof.
  intros [Hl Hp (W & B & Hw)]. split; cbn [Threads].
  - by rewrite length_fmap.
  - apply Forall_fmap. eapply Forall_impl; [done|]. by intros [].
  - exists W, B. assert (num is_rasleep (wake_reader <$> Threads s) = 0) as H0.
    { apply num_none. intros p (q & -> & _)%list_elem_of_fmap. by destruct q. }
    destruct Hw. split; cbn [Futex Threads]; rewrite ?H0, ?(num_ext (has_role _) (has_role _)),
      ?(num_ext is_wasleep is_wasleep), ?(num_ext is_wwaker is_wwaker) by (by intros []); done || lia.
Qed.

Lemma wake_one_writer s w timed :
  mutex_ok s -> Threads s !! w = Some (WAsleep timed) ->
  mutex_ok (mkMutex (Futex s) (<[w := WReload timed]> (Threads s))).
Proof.
  intros Hok Hw'. pose proof Hok as [Hl _ (W & B & Hw)].
  apply (mutex_insert _ _ _ _ W B); [done..|]. word_facts Hw.
  word_step Hw'. rewrite (ok_word _ _ _ Hw). f_equal; lia.
Qed.

Lemma wake_one_reader s t :
  mutex_ok s -> Threads s !! t = Some RAsleep ->
  mutex_ok (mkMutex (Futex s) (<[t := RLoad]> (Threads s))).
Proof.
  intros Hok Ht. pose proof Hok as [Hl _ (W & B & Hw)].
  apply (mutex_insert _ _ _ _ W B); [done..|]. word_facts Hw.
  word_step Ht. rewrite (ok_word _ _ _ Hw). f_equal; lia.
Qed.

Lemma existsb_num P ths : existsb P ths = (0 <? num P ths).
Proof.
  induction ths as [|p ths IH]; [done|]. cbn [existsb]. rewrite num_cons, IH.
  pose proof (num_bounds P ths). destruct (P p); cbn [Z.b2z orb]; lia.
Qed.

Lemma wake_writer_step s t w ths :
  mutex_ok s -> Threads s !! t = Some WakeWriter -> wake_writer w (Threads s) = Some ths ->
  mutex_ok (mkMutex (Futex s) (<[t := Idle]> ths)).
Proof.
  intros Hok Ht Hw. unfold wake_writer in Hw.
  assert (0 < num is_wasleep (Threads s) \/ num is_wasleep (Threads s) = 0) as [Hn|Hn]
    by (pose proof (num_bounds is_wasleep (Threads s)); lia).
  - assert (exists timed, Threads s !! w = Some (WAsleep timed) /\ ths = <[w := WReload timed]> (Threads s))
      as (tm & Hlw & ->).
    { rewrite existsb_num, (proj2 (Z.ltb_lt _ _) Hn) in Hw. repeat case_match; simplify_eq; eauto. }
    assert (<[w := WReload tm]> (Threads s) !! t = Some WakeWriter) as Ht'
      by (rewrite list_lookup_insert_ne; [done|congruence]).
    refine (wake_writer_done (mkMutex (Futex s) (<[w := WReload tm]> (Threads s))) t _ Ht' _).
    + by apply wake_one_writer.
    + right. pose proof (asleep_waiting (Threads s)).
      pose proof (num_insert is_wasleep _ _ _ (WReload tm) Hlw).
      pose proof (num_insert (has_role RWaiting) _ _ _ (WReload tm) Hlw). cbn in *. lia.
  - assert (ths = Threads s) as ->; [|apply wake_writer_done; auto].
    rewrite existsb_num, Hn in Hw. repeat case_match; simplify_eq; try done.
    pose proof (num_elem is_wasleep _ _ _ H eq_refl). lia.
Qed.

Lemma timeout_step s t timed :
  mutex_ok s -> Threads s !! t = Some (WAsleep timed) ->
  mutex_ok (mkMutex (Futex s) (<[t := WWithdrawLoad]> (Threads s))).
Proof.
  intros Hok Ht. pose proof Hok as [Hl _ (W & B & Hw)].
  apply (mutex_insert _ _ _ _ W B); [done..|]. word_facts Hw.
  word_step Ht. rewrite (ok_word _ _ _ Hw). f_equal; lia.
Qed.

Lemma mutex_step_ok s ev s' : mutex_ok s -> step s ev = Some s' -> mutex_ok s'.
Proof.
  intros Hok Hs. destruct ev as [t o|t|t w|t|t]; cbn [step] in Hs;
    destruct (Threads s !! t) as [p|] eqn:Ht; try done.
  - destruct p; simplify_eq. eapply mutex_same; [done..| |]; by destruct o.
  - destruct (decide (p = WakeReaders)) as [->|Hp]; [simplify_eq|].
    + refine (wake_readers_done (mkMutex (Futex s) (wake_reader <$> Threads s)) t _ _ _).
      * by apply wake_all_readers.
      * cbn [Threads]. by rewrite list_lookup_fmap, Ht.
      * apply num_none. intros p (q & -> & _)%list_elem_of_fmap. by destruct q.
    + assert (match run1 (Futex s) p with
              | Some (f, q) => Some (mkMutex f (<[t := q]> (Threads s))) | None => None
              end = Some s') as Hr by (by destruct p).
      destruct (run1 (Futex s) p) as [[f' q]|] eqn:E; simplify_eq. by eapply run1_ok.
  - destruct p; try done. apply bind_Some in Hs as (ths & Hths & Hs). simplify_eq.
    eapply wake_writer_step; eauto.
  - destruct p as [ | | | | |[]| | | | | | | | | | | | | | ]; simplify_eq. by eapply timeout_step.
  - destruct p; simplify_eq; [by apply wake_one_writer|by apply wake_one_reader].
Qed.

Lemma mutex_run_ok evs s s' : mutex_ok s -> run s evs = Some s' -> mutex_ok s'.
Proof.
  revert s. induction evs as [|ev evs IH]; intros s Hok Hr; cbn in Hr; [by simplify_eq|].
  destruct (step s ev) eqn:E; [|done]. eauto using mutex_step_ok.
Qed.
