(* ===== verification/WriteMutexTheorems.v ===== *)
(** * The write-priority mutex: exclusion, priority and progress

    Every interleaving of the methods by at most 16383 threads implements the reader-writer
    lock of [lock_step]; the word's fields never overflow; and once callers stop calling, every
    schedule of the threads' own steps (holders release, timeouts may fire) ends, after a number
    of steps bounded in advance, with every call returned and the lock free.  With 16384
    waiting writers the count overflows and all of them sleep forever. *)

From stdpp Require Import relations.
From S2P Require Import Prelude WriteMutex WriteMutexProps.

Import WritePriorityMutex.

(** ** Refinement *)

Lemma nobody_num r ths : num (has_role r) ths = 0 -> nobody r (role_of <$> ths).
Proof.
  intros H (p & -> & Hp)%list_elem_of_fmap. apply list_elem_of_lookup_1 in Hp as [t Ht].
  assert (has_role (role_of p) p = true) as Hr by (unfold has_role; by destruct (role_of p)).
  pose proof (num_elem _ _ _ _ Ht Hr). lia.
Qed.

Lemma roles_insert (ths : list pc) (t : nat) q : role_of <$> <[t := q]> ths = <[t := role_of q]> (role_of <$> ths).
Proof. by rewrite list_fmap_insert. Qed.

Lemma roles_same (ths : list pc) (t : nat) p q :
  ths !! t = Some p -> role_of q = role_of p -> role_of <$> <[t := q]> ths = role_of <$> ths.
Proof.
  intros Ht Hr. rewrite roles_insert. apply list_insert_id. by rewrite list_lookup_fmap, Ht, Hr.
Qed.

Lemma after_roles e d w :
  role_of (after_unlock e) = RNone /\ role_of (after_unlock_shared e) = RNone /\
  role_of (after_withdraw d w) = RNone.
Proof. unfold after_unlock, after_unlock_shared, after_withdraw. repeat case_match; done. Qed.

Definition refines_step (rs rs' : list role) : Prop := rs' = rs \/ lock_step rs rs'.

Section refinement.
Context (s : Mutex) (t : nat) (p : pc) (Hok : mutex_ok s) (Ht : Threads s !! t = Some p).

Lemma roles_at : roles s !! t = Some (role_of p).
Proof. unfold roles. by rewrite list_lookup_fmap, Ht. Qed.

Lemma available_write :
  write_available (Futex s) = true -> nobody RWriting (roles s) /\ nobody RReading (roles s).
Proof.
  destruct Hok as [Hl _ (W & B & Hw)]. rewrite (ok_word _ _ _ Hw), write_available_word by (by apply counts_fit).
  rewrite andb_true_iff, negb_true_iff, Z.eqb_eq. intros [-> HR].
  split; apply nobody_num; [|done]. by rewrite (ok_writing _ _ _ Hw).
Qed.

Lemma available_read :
  read_available (Futex s) = true -> nobody RWriting (roles s) /\ nobody RWaiting (roles s).
Proof.
  destruct Hok as [Hl _ (W & B & Hw)]. rewrite (ok_word _ _ _ Hw), read_available_word by (by apply counts_fit).
  rewrite andb_true_iff, negb_true_iff, Z.eqb_eq. intros [-> HR].
  split; apply nobody_num; [|done]. by rewrite (ok_writing _ _ _ Hw).
Qed.

Lemma available_zero : Futex s = 0 -> Forall (eq RNone) (roles s).
Proof.
  intros Hf. pose proof (available_write) as Hw. pose proof available_read as Hr. rewrite Hf in Hw, Hr.
  destruct (Hw eq_refl) as [H1 H2], (Hr eq_refl) as [_ H3].
  apply Forall_forall. intros [] Hin; [done|by destruct H3|by destruct H1|by destruct H2].
Qed.

Lemma run1_refines f' q :
  run1 (Futex s) p = Some (f', q) -> refines_step (roles s) (role_of <$> <[t := q]> (Threads s)).
Proof.
  intros Hrun. pose proof roles_at as Hr. pose proof available_write as Haw.
  pose proof available_read as Har.
  assert (Forall pc_ok (Threads s)) as Hpcs by (by destruct Hok).
  pose proof (Forall_lookup_1 _ _ _ _ Hpcs Ht) as Hpc.
  destruct (decide (role_of q = role_of p)) as [Hs|Hs]; [left; by apply (roles_same _ _ p)|].
  right. rewrite roles_insert. fold (roles s).
  destruct p as [ |k|tm|tm e|tm d|tm|tm| |e| |e| | |bl|bl e| |e|d| | ]; cbn [run1] in Hrun; simplify_eq/=.
  - unfold try_lock in Hrun. destruct (Z.eqb_spec (Futex s) 0); simplify_eq.
    + apply LTryWrite; [done|by apply available_zero].
    + by destruct k.
  - by apply LWait.
  - unfold lock_loop in Hrun. destruct (write_available e) eqn:Ha; simplify_eq.
    apply cas_ok in Hrun as [(<- & -> & ->)|(Hne & -> & ->)]; [|done].
    destruct (Haw Ha). by apply LWrite.
  - by destruct (_ =? _) in Hs.
  - unfold withdraw_loop in Hrun. destruct (withdraw_writer e) as [d wk] eqn:E.
    apply cas_ok in Hrun as [(<- & -> & ->)|(Hne & -> & ->)]; [|done].
    destruct (after_roles 0 d wk) as (_ & _ & ->). by apply LGiveUp.
  - apply cas_ok in Hrun as [(<- & -> & ->)|(Hne & -> & ->)]; [|done].
    destruct (after_roles (Futex s) 0 false) as (-> & _). eapply LRelease; eauto.
  - unfold try_lock_shared in Hs. destruct Hs. repeat case_match; done.
  - apply cas_ok in Hrun as [(<- & -> & ->)|(Hne & -> & ->)]; [|by destruct bl].
    destruct (Har Hpc). by apply LRead.
  - unfold lock_shared_loop in Hrun. destruct (read_available e) eqn:Ha;
      apply cas_ok in Hrun as [(<- & -> & ->)|(Hne & -> & ->)]; try done.
    destruct (Har Ha). by apply LRead.
  - by destruct (_ =? _) in Hs.
  - destruct (after_roles (release_read (Futex s)) 0 false) as (_ & -> & _). eapply LRelease; eauto.
Qed.

End refinement.

(** The steps of [run1] and the others, as one induction principle over the enabled events. *)
Lemma step_Run s t p s' :
  Threads s !! t = Some p -> p <> WakeReaders -> step s (Run t) = Some s' ->
  exists f q, run1 (Futex s) p = Some (f, q) /\ s' = mkMutex f (<[t := q]> (Threads s)).
Proof.
  intros Ht Hp Hs. cbn [step] in Hs. rewrite Ht in Hs.
  destruct (run1 (Futex s) p) as [[f q]|] eqn:E.
  - exists f, q. split; [done|]. destruct p; simplify_eq/=; congruence.
  - destruct p; simplify_eq/=; done.
Qed.

Lemma wake_writer_roles w ths ths' :
  wake_writer w ths = Some ths' -> role_of <$> ths' = role_of <$> ths.
Proof.
  unfold wake_writer. intros H. repeat case_match; simplify_eq; try done. by eapply roles_same.
Qed.

Lemma wake_writer_other w ths ths' t p :
  wake_writer w ths = Some ths' -> ths !! t = Some p -> is_wasleep p = false -> ths' !! t = Some p.
Proof.
  unfold wake_writer. intros H Ht Hp. destruct (decide (t = w)) as [->|Hne].
  - rewrite Ht in H. destruct p; try done; case_match; by simplify_eq.
  - repeat case_match; simplify_eq; try done. by rewrite list_lookup_insert_ne.
Qed.

Lemma step_refines s ev s' :
  mutex_ok s -> step s ev = Some s' -> refines_step (roles s) (roles s').
Proof.
  intros Hok Hs. unfold roles at 2. destruct ev as [t o|t|t w|t|t].
  - cbn [step] in Hs. repeat case_match; simplify_eq. left. eapply roles_same; [done|by destruct o].
  - destruct (Threads s !! t) as [p|] eqn:Ht; [|cbn [step] in Hs; by rewrite Ht in Hs].
    destruct (decide (p = WakeReaders)) as [-> |Hp].
    + cbn [step] in Hs. rewrite Ht in Hs. simplify_eq. left. cbn [Threads]. rewrite roles_insert, <- list_fmap_compose.
      assert (role_of ∘ wake_reader <$> Threads s = role_of <$> Threads s) as ->
        by (apply list_fmap_ext; intros ? [] _; done).
      apply list_insert_id, (roles_at s t WakeReaders Ht).
    + destruct (step_Run s t p s' Ht Hp Hs) as (f & q & Hr & ->). by eapply run1_refines.
  - cbn [step] in Hs. repeat case_match; simplify_eq.
    apply bind_Some in Hs as (ths & Hw & Hs). simplify_eq. left. cbn [Threads].
    rewrite (roles_same ths t WakeWriter); [by eapply wake_writer_roles| |done].
    by eapply wake_writer_other.
  - cbn [step] in Hs. repeat case_match; simplify_eq. left. by eapply roles_same.
  - cbn [step] in Hs. repeat case_match; simplify_eq; left; by eapply roles_same.
Qed.

Lemma run_refines evs s s' :
  mutex_ok s -> run s evs = Some s' -> rtc lock_step (roles s) (roles s').
Proof.
  revert s. induction evs as [|ev evs IH]; intros s Hok Hr; cbn in Hr; [by simplify_eq|].
  destruct (step s ev) as [s1|] eqn:E; [|done].
  specialize (IH s1 (mutex_step_ok _ _ _ Hok E) Hr).
  destruct (step_refines s ev s1 Hok E) as [<-|Hs]; [done|]. by eapply rtc_l.
Qed.

Definition owner (r : role) : Prop := r = RWriting \/ r = RReading.

(** At most one owner, unless all owners are readers. *)
Definition exclusive (rs : list role) : Prop :=
  forall t u r, rs !! t = Some RWriting -> rs !! u = Some r -> owner r -> u = t.

Lemma lock_step_exclusive rs rs' : exclusive rs -> lock_step rs rs' -> exclusive rs'.
Proof.
  intros Hex Hs. assert (forall r u, nobody r rs -> rs !! u <> Some r) as Hno.
  { intros r u Hn Hu. by apply Hn, (list_elem_of_lookup_2 _ u). }
  intros t u r Ht Hu Ho.
  destruct Hs as [v Hv|v Hv|v Hv Hall|v Hv H1 H2|v Hv H1 H2|v r' Hv Hr'];
    apply list_lookup_insert_Some in Ht as [(<- & ? & Hl)|[Hvt Ht]];
    apply list_lookup_insert_Some in Hu as [(<- & ? & _)|[Hvu Hu]]; simplify_eq; try done;
    try (by destruct Ho); try (by apply (Hex _ _ _ Ht Hu));
    try (by apply (Hno _ _ H1) in Ht); try (by destruct Ho as [-> | ->]; [apply (Hno _ _ H1) in Hu|apply (Hno _ _ H2) in Hu]).
  - apply (Forall_lookup_1 _ _ _ _ Hall) in Hu. subst. by destruct Ho.
  - by apply (Forall_lookup_1 _ _ _ _ Hall) in Ht.
Qed.

Lemma lock_run_exclusive rs rs' : rtc lock_step rs rs' -> exclusive rs -> exclusive rs'.
Proof. induction 1; eauto using lock_step_exclusive. Qed.

Lemma roles_init n : roles (init n) = replicate n RNone.
Proof. unfold roles, init. cbn. by rewrite fmap_replicate. Qed.

(** C10: Every interleaving of lock, try_lock, try_lock_for, lock_shared, try_lock_shared,
    unlock and unlock_shared by at most 16383 threads implements a reader-writer lock that
    prefers writers: seen as roles, every step is a stutter or a step of the specification (a
    reader enters only when no writer owns the lock or waits for it, a writer only when the lock
    has no owner), and no other owner exists while a writer owns the lock. *)
Theorem mutex_refines_lock n evs s :
  Z.of_nat n <= max_threads -> run (init n) evs = Some s ->
  rtc lock_step (replicate n RNone) (roles s) /\ exclusive (roles s).
Proof.
  intros Hn Hr. assert (rtc lock_step (replicate n RNone) (roles s)) as Hrtc.
  { rewrite <- roles_init. eapply run_refines; [by apply init_ok|done]. }
  split; [done|]. eapply lock_run_exclusive; [done|].
  intros t u r [Hx _]%lookup_replicate. done.
Qed.

(** ** Progress *)

(** How far a thread is from returning, and how far from its next progress or sleep. *)
Definition stage (p : pc) : nat :=
  match p with
  | Idle => 0
  | WakeWriter | WakeReaders => 1
  | Unlock _ | WWithdraw _ | HoldR => 2
  | HoldW | WWithdrawLoad | RLoad | RLoop _ | RWait _ | RAsleep => 3
  | WLoop _ _ | WWait _ _ | WAsleep _ | WReload _ | TrySharedCAS _ _ => 4
  | WRegister _ | TryShared _ => 5
  | TryLock _ => 6
  end.

Definition retries (f : Z) (p : pc) : nat :=
  match p with
  | WLoop _ e | RLoop e => if f =? e then 2 else 5
  | WWait _ d | RWait d => if f =? d then 1 else 4
  | WReload _ | RLoad => 3
  | Unlock e | WWithdraw e => if f =? e then 0 else 1
  | _ => 0
  end.

Definition announced (f : Z) : nat := if f &&& READ_WAITER_BIT =? 0 then 1 else 0.

Definition work (f : Z) (ths : list pc) : nat := 2 * sum_list_with stage ths + announced f.

Definition measure (s : Mutex) : nat :=
  work (Futex s) (Threads s) * (5 * length (Threads s) + 1)
  + sum_list_with (retries (Futex s)) (Threads s).

Lemma sum_insert {A} (g : A -> nat) (l : list A) t x y :
  l !! t = Some x -> (sum_list_with g (<[t := y]> l) + g x = sum_list_with g l + g y)%nat.
Proof.
  revert t. induction l as [|a l IH]; intros [|t] Ht; simplify_eq/=; [lia|].
  specialize (IH t Ht). lia.
Qed.

Lemma retries_bound f ths : (sum_list_with (retries f) ths <= 5 * length ths)%nat.
Proof.
  induction ths as [|p ths IH]; [done|]. cbn [sum_list_with length].
  assert (retries f p <= 5)%nat by (destruct p; cbn; repeat case_match; lia). lia.
Qed.

Lemma announced_bound f : (announced f <= 1)%nat.
Proof. unfold announced. case_match; lia. Qed.

(** Progress in the stages outweighs whatever happens to the retries. *)
Lemma measure_work s s' :
  length (Threads s') = length (Threads s) ->
  (work (Futex s') (Threads s') < work (Futex s) (Threads s))%nat ->
  (measure s' < measure s)%nat.
Proof.
  intros Hl Hw. unfold measure. rewrite Hl. pose proof (retries_bound (Futex s') (Threads s')).
  rewrite Hl in *. nia.
Qed.

Lemma measure_stage s t p q f' :
  Threads s !! t = Some p -> (stage q < stage p)%nat ->
  (measure (mkMutex f' (<[t := q]> (Threads s))) < measure s)%nat.
Proof.
  intros Ht Hq. apply measure_work; cbn [Threads Futex]; [by rewrite length_insert|].
  unfold work. pose proof (sum_insert stage _ _ _ q Ht). pose proof (announced_bound f').
  lia.
Qed.

Lemma measure_retry s t p q :
  Threads s !! t = Some p -> stage q = stage p -> (retries (Futex s) q < retries (Futex s) p)%nat ->
  (measure (mkMutex (Futex s) (<[t := q]> (Threads s))) < measure s)%nat.
Proof.
  intros Ht Hq Hr. unfold measure, work; cbn [Futex Threads]. rewrite length_insert.
  pose proof (sum_insert stage _ _ _ q Ht). pose proof (sum_insert (retries (Futex s)) _ _ _ q Ht).
  replace (sum_list_with stage (<[t := q]> (Threads s))) with (sum_list_with stage (Threads s)) by lia.
  lia.
Qed.

Lemma announce_bit f :
  (f ||| READ_WAITER_BIT) &&& READ_WAITER_BIT <> 0 /\
  (f &&& READ_WAITER_BIT <> 0 -> f ||| READ_WAITER_BIT = f).
Proof.
  change READ_WAITER_BIT with (2 ^ 30). split.
  - intros H. apply (f_equal (fun x => Z.testbit x 30)) in H.
    rewrite Z.land_spec, Z.lor_spec, Z.pow2_bits_true in H by lia. by rewrite orb_true_r in H.
  - intros H. apply Z.bits_inj'. intros i Hi. rewrite Z.lor_spec, Z.pow2_bits_eqb by lia.
    destruct (Z.eqb_spec 30 i) as [<-|]; [|by rewrite orb_false_r].
    destruct (Z.testbit f 30) eqn:E; [done|]. destruct H. apply Z.bits_inj'. intros j Hj.
    rewrite Z.land_spec, Z.pow2_bits_eqb, Z.bits_0 by lia.
    destruct (Z.eqb_spec 30 j) as [<-|]; [by rewrite E|by rewrite andb_false_r].
Qed.

Lemma measure_announce s t (d := Futex s ||| READ_WAITER_BIT) :
  Threads s !! t = Some (RLoop (Futex s)) ->
  (measure (mkMutex d (<[t := RWait d]> (Threads s))) < measure s)%nat.
Proof.
  intros Ht. destruct (announce_bit (Futex s)) as [H1 H2].
  destruct (Z.eqb_spec (Futex s &&& READ_WAITER_BIT) 0) as [E|E].
  - apply measure_work; cbn [Threads Futex]; [by rewrite length_insert|].
    pose proof (sum_insert stage _ _ _ (RWait d) Ht) as Hs. cbn [stage] in Hs.
    unfold work, announced, d in *. rewrite E, (proj2 (Z.eqb_neq _ _) H1). cbn. lia.
  - unfold d. rewrite (H2 E). eapply measure_retry; [done..|].
    cbn [retries]. rewrite Z.eqb_refl. lia.
Qed.

Lemma after_stages e d w :
  (stage (after_unlock e) <= 1 /\ stage (after_unlock_shared e) <= 1 /\
   stage (after_withdraw d w) <= 1)%nat.
Proof.
  unfold after_unlock, after_unlock_shared, after_withdraw. repeat case_match; cbn; lia.
Qed.

(** A failed compare-exchange costs one retry. *)
Ltac retry :=
  eapply measure_retry;
  [done|done|cbn [retries]; rewrite ?Z.eqb_refl; repeat case_match; to_prop; try lia; congruence].

Lemma run1_measure s t p f' q :
  Threads s !! t = Some p -> run1 (Futex s) p = Some (f', q) ->
  (measure (mkMutex f' (<[t := q]> (Threads s))) < measure s)%nat.
Proof.
  intros Ht Hrun.
  destruct p as [ |k|tm|tm e|tm d|tm|tm| |e| |e| | |bl|bl e| |e|d| | ]; cbn [run1] in Hrun; simplify_eq/=.
  - eapply measure_stage; [done|]. unfold try_lock in Hrun. repeat case_match; simplify_eq; cbn; lia.
  - eapply measure_stage; [done|]. cbn; lia.
  - unfold lock_loop in Hrun. destruct (write_available e) eqn:Ha; simplify_eq; [|retry].
    apply cas_ok in Hrun as [(<- & -> & ->)|(Hne & -> & ->)]; [|retry].
    eapply measure_stage; [done|]. cbn; lia.
  - destruct (Z.eqb_spec (Futex s) d); retry.
  - retry.
  - eapply measure_stage; [done|]. cbn; lia.
  - unfold withdraw_loop in Hrun. destruct (withdraw_writer e) as [d wk] eqn:E.
    apply cas_ok in Hrun as [(<- & -> & ->)|(Hne & -> & ->)]; [|retry].
    eapply measure_stage; [done|]. pose proof (after_stages 0 d wk). cbn; lia.
  - eapply measure_stage; [done|]. cbn; lia.
  - apply cas_ok in Hrun as [(<- & -> & ->)|(Hne & -> & ->)]; [|retry].
    eapply measure_stage; [done|]. pose proof (after_stages (Futex s) 0 false). cbn; lia.
  - eapply measure_stage; [done|]. unfold try_lock_shared. repeat case_match; cbn; lia.
  - eapply measure_stage; [done|].
    apply cas_ok in Hrun as [(<- & -> & ->)|(Hne & -> & ->)]; [|destruct bl]; cbn; lia.
  - retry.
  - unfold lock_shared_loop in Hrun. destruct (read_available e) eqn:Ha;
      apply cas_ok in Hrun as [(<- & -> & ->)|(Hne & -> & ->)]; try retry.
    + eapply measure_stage; [done|]. cbn; lia.
    + by apply measure_announce.
  - destruct (Z.eqb_spec (Futex s) d); retry.
  - eapply measure_stage; [done|]. pose proof (after_stages (release_read (Futex s)) 0 false).
    cbn; lia.
Qed.

(** A wake moves other threads only from their sleep to the reload that follows it. *)
Lemma measure_wake s t p ths :
  length ths = length (Threads s) -> sum_list_with stage ths = sum_list_with stage (Threads s) ->
  ths !! t = Some p -> (0 < stage p)%nat ->
  (measure (mkMutex (Futex s) (<[t := Idle]> ths)) < measure s)%nat.
Proof.
  intros Hl Hst Ht Hp. apply measure_work; cbn [Threads Futex]; [by rewrite length_insert|].
  unfold work. pose proof (sum_insert stage _ _ _ Idle Ht) as H. cbn [stage] in H. lia.
Qed.

Lemma wake_writer_stage w ths ths' :
  wake_writer w ths = Some ths' ->
  length ths' = length ths /\ sum_list_with stage ths' = sum_list_with stage ths.
Proof.
  unfold wake_writer. intros H. destruct (ths !! w) as [p|] eqn:E; [|by case_match; simplify_eq].
  destruct p as [ | | | | |tm| | | | | | | | | | | | | | ];
    try (case_match; simplify_eq; done).
  simplify_eq. rewrite length_insert. split; [done|].
  pose proof (sum_insert stage _ _ _ (WReload tm) E) as H. cbn [stage] in H. lia.
Qed.

Lemma wake_readers_stage ths :
  sum_list_with stage (wake_reader <$> ths) = sum_list_with stage ths.
Proof.
  induction ths as [|p ths IH]; [done|]. rewrite fmap_cons. cbn [sum_list_with].
  rewrite IH. by destruct p.
Qed.

(** The events other than a new call and a signal. *)
Definition own (ev : event) : Prop :=
  match ev with Run _ | RunWake _ _ | Timeout _ => True | _ => False end.

Lemma step_measure s ev s' : own ev -> step s ev = Some s' -> (measure s' < measure s)%nat.
Proof.
  intros Hev Hs. destruct ev as [t o|t|t w|t|t]; try done.
  - destruct (Threads s !! t) as [p|] eqn:Ht; [|cbn [step] in Hs; by rewrite Ht in Hs].
    destruct (decide (p = WakeReaders)) as [-> |Hp].
    + cbn [step] in Hs. rewrite Ht in Hs. simplify_eq. apply (measure_wake s t WakeReaders).
      * apply length_fmap.
      * apply wake_readers_stage.
      * by rewrite list_lookup_fmap, Ht.
      * cbn. lia.
    + destruct (step_Run s t p s' Ht Hp Hs) as (f & q & Hr & ->). by eapply run1_measure.
  - cbn [step] in Hs. repeat case_match; simplify_eq.
    apply bind_Some in Hs as (ths & Hw & Hs). simplify_eq.
    destruct (wake_writer_stage _ _ _ Hw) as [Hl Hst].
    apply (measure_wake s t WakeWriter); [done..|by eapply wake_writer_other|cbn; lia].
  - cbn [step] in Hs. repeat case_match; simplify_eq. eapply measure_stage; [done|cbn; lia].
Qed.

Lemma run_measure evs s s' :
  Forall own evs -> run s evs = Some s' -> (length evs + measure s' <= measure s)%nat.
Proof.
  intros Hevs. revert s. induction Hevs as [|ev evs Hev _ IH]; intros s Hr; cbn in Hr; [simplify_eq/=; lia|].
  destruct (step s ev) as [s1|] eqn:E; [|done].
  pose proof (step_measure _ _ _ Hev E). specialize (IH _ Hr). cbn [length]. lia.
Qed.

Definition parked (p : pc) : bool :=
  match p with Idle | WAsleep _ | RAsleep => true | _ => false end.

(** No thread can take a step of its own. *)
Definition stuck (s : Mutex) : Prop :=
  forall t w, step s (Run t) = None /\ step s (RunWake t w) = None.

Lemma wake_writer_enabled ths : exists w ths', wake_writer w ths = Some ths'.
Proof.
  unfold wake_writer. destruct (existsb is_wasleep ths) eqn:E.
  - rewrite existsb_num, Z.ltb_lt in E. apply num_pos in E as (w & p & Hw & Hp).
    exists w. rewrite Hw. destruct p; try done. eauto.
  - exists (length ths). rewrite lookup_ge_None_2 by lia. eauto.
Qed.

Lemma stuck_parked s : stuck s -> Forall (fun p => parked p = true) (Threads s).
Proof.
  intros Hs. apply Forall_lookup. intros t p Ht. destruct (parked p) eqn:Hp; [done|].
  destruct (wake_writer_enabled (Threads s)) as (w & ths & Hw). destruct (Hs t w) as [H1 H2].
  cbn [step] in H1, H2. rewrite Ht in H1, H2.
  destruct (decide (p = WakeWriter)) as [-> |]; [by rewrite Hw in H2|].
  destruct (run1 (Futex s) p) as [[f q]|] eqn:E; [by destruct p|].
  by destruct p.
Qed.

Lemma stuck_done s : mutex_ok s -> stuck s -> s = init (length (Threads s)).
Proof.
  intros [Hl _ (W & B & Hw)] Hs%stuck_parked. rewrite Forall_forall in Hs.
  assert (forall P, (forall p, parked p = true -> P p = false) -> num P (Threads s) = 0) as H0.
  { intros P HP. apply num_none. auto. }
  pose proof (H0 (has_role RWriting) ltac:(by intros [])) as E1.
  pose proof (H0 (has_role RReading) ltac:(by intros [])) as E2.
  pose proof (H0 is_wwaker ltac:(by intros [])) as E3.
  pose proof (H0 is_rwaker ltac:(by intros [])) as E4.
  assert (waiting (Threads s) = num is_wasleep (Threads s)) as E5.
  { clear -Hs. induction (Threads s) as [|p l IH]; [done|]. rewrite !num_cons, IH by (intros; apply Hs; by right).
    specialize (Hs p ltac:(left)). by destruct p. }
  word_facts Hw. assert (W = false) as -> by (destruct W; [cbn in *; lia|done]).
  assert (B = false) as -> by (destruct B; [cbn in *; lia|done]). cbn [Z.b2z] in *.
  assert (waiting (Threads s) = 0 /\ num is_rasleep (Threads s) = 0) as [E6 E7] by lia.
  destruct s as [f ths]. unfold init. cbn [Threads] in *. f_equal.
  - pose proof (ok_word _ _ _ Hw) as Hf. cbn [Futex Threads] in Hf. by rewrite Hf, E2, E6.
  - symmetry. apply replicate_as_Forall_2; [done|]. apply Forall_lookup. intros t p Ht.
    pose proof (Hs p (list_elem_of_lookup_2 _ _ _ Ht)) as Hp.
    destruct p; try done.
    + pose proof (num_elem is_wasleep _ _ _ Ht eq_refl). lia.
    + pose proof (num_elem is_rasleep _ _ _ Ht eq_refl). lia.
Qed.

Lemma lock_run_length rs rs' : rtc lock_step rs rs' -> length rs' = length rs.
Proof. induction 1 as [|rs rs1 rs' Hs _ IH]; [done|]. rewrite IH. destruct Hs; apply length_insert. Qed.

Lemma run_length evs s s' :
  mutex_ok s -> run s evs = Some s' -> length (Threads s') = length (Threads s).
Proof.
  intros Hok Hr%run_refines%lock_run_length; [|done]. unfold roles in Hr. by rewrite !length_fmap in Hr.
Qed.

(** C12: No wake-up is ever lost.  From every reachable state of at most 16383 threads, a
    schedule of the threads' own steps (no new calls; holders go on to unlock; timeouts may
    fire) has at most [measure] steps, and when no thread can take a step every call has
    returned and the lock is free: no schedule leaves a thread asleep or retrying forever. *)
Theorem mutex_progress n evs s evs' s' :
  Z.of_nat n <= max_threads -> run (init n) evs = Some s ->
  Forall own evs' -> run s evs' = Some s' ->
  (length evs' <= measure s)%nat /\ (stuck s' -> s' = init n).
Proof.
  intros Hn Hr Hown Hr'. split; [pose proof (run_measure _ _ _ Hown Hr'); lia|]. intros Hs.
  pose proof (init_ok n Hn) as H0. pose proof (mutex_run_ok _ _ _ H0 Hr) as H1.
  rewrite (stuck_done _ (mutex_run_ok _ _ _ H1 Hr') Hs). f_equal.
  rewrite (run_length _ _ _ H1 Hr'), (run_length _ _ _ H0 Hr). cbn. apply length_replicate.
Qed.

(** C36: The fields of the word never overflow with at most 16383 threads: bit 31 is exactly
    whether a thread owns the lock for writing (so [is_write_owned] is exact), bits 29:16 the
    number of registered writers, bits 15:0 the number of read owners, and bit 30 is only set
    while a writer owns the lock or waits for it. *)
Theorem futex_counts n evs s :
  Z.of_nat n <= max_threads -> run (init n) evs = Some s ->
  is_u 32 (Futex s) /\
  Futex s &&& WRITE_WAITER_COUNT_MASK = waiting (Threads s) <<< WRITE_WAITER_OFFSET /\
  Futex s &&& READ_OWNER_COUNT_MASK = reading (Threads s) /\
  (is_write_owned s = true <-> exists t, roles s !! t = Some RWriting) /\
  (Futex s &&& READ_WAITER_BIT <> 0 ->
   exists t r, roles s !! t = Some r /\ (r = RWriting \/ r = RWaiting)).
Proof.
  intros Hn Hr. destruct (mutex_run_ok _ _ _ (init_ok n Hn) Hr) as [Hl _ (W & B & Hw)].
  pose proof (counts_fit s Hl) as Hfit. unfold is_write_owned. rewrite (ok_word _ _ _ Hw).
  rewrite word_writers, word_readers, owned_zero, word_waiter, negb_involutive by done.
  assert (forall r, 0 < num (has_role r) (Threads s) <-> exists t, roles s !! t = Some r) as Hnum.
  { intros r. split.
    - intros (t & p & Ht & Hp)%num_pos. exists t. rewrite (roles_at s t p Ht).
      unfold has_role in Hp. by destruct r, (role_of p).
    - intros (t & Ht). unfold roles in Ht. rewrite list_lookup_fmap in Ht.
      destruct (Threads s !! t) as [p|] eqn:E; simplify_eq/=.
      enough (1 <= num (has_role (role_of p)) (Threads s)) by lia.
      eapply num_elem; [done|]. unfold has_role. by destruct (role_of p). }
  word_facts Hw. split; [by apply word_is_u|]. rewrite Z.shiftl_mul_pow2 by done.
  split; [done|]. split; [done|]. split.
  - rewrite <- Hnum. destruct W; cbn [Z.b2z] in *; split; (done || lia).
  - intros HB. destruct B; [|done]. cbn [Z.b2z] in *.
    assert (0 < writing (Threads s) \/ 0 < waiting (Threads s)) as [[t Ht]%Hnum|[t Ht]%Hnum] by lia; eauto.
Qed.

(** ** One writer too many *)

Section overflow.

Lemma step_middle f l1 l2 p f' q :
  run1 f p = Some (f', q) ->
  step (mkMutex f (l1 ++ p :: l2)) (Run (length l1)) = Some (mkMutex f' (l1 ++ q :: l2)).
Proof.
  intros Hr. cbn [step Threads Futex]. rewrite list_lookup_middle by done.
  rewrite Hr, insert_app_r_alt, Nat.sub_diag by lia. by destruct p.
Qed.

Lemma step_head f l p f' q :
  run1 f p = Some (f', q) -> step (mkMutex f (p :: l)) (Run 0) = Some (mkMutex f' (q :: l)).
Proof. apply (step_middle f []). Qed.

(** A thread that calls [lock] on an owned lock while nothing else runs falls asleep. *)
Definition sleep_events (t : nat) : list event :=
  [Call t OpLock; Run t; Run t; Run t; Run t].

Lemma sleep_run f l1 l2 :
  f <> 0 -> write_available (register_writer f) = false ->
  run (mkMutex f (l1 ++ Idle :: l2)) (sleep_events (length l1)) =
  Some (mkMutex (register_writer f) (l1 ++ WAsleep false :: l2)).
Proof.
  intros Hf Ha. unfold sleep_events. cbn [run].
  replace (step _ (Call _ _)) with (Some (mkMutex f (l1 ++ TryLock (KLock false) :: l2))).
  2:{ cbn [step Threads Futex]. rewrite list_lookup_middle by done.
      by rewrite insert_app_r_alt, Nat.sub_diag by lia. }
  rewrite (step_middle _ _ _ _ f (WRegister false)).
  2:{ cbn [run1]. unfold try_lock. by rewrite (proj2 (Z.eqb_neq _ _) Hf). }
  erewrite step_middle by reflexivity.
  rewrite (step_middle _ _ _ _ (register_writer f) (WWait false (register_writer f))).
  2:{ cbn [run1]. unfold lock_loop. by rewrite Ha. }
  rewrite (step_middle _ _ _ _ (register_writer f) (WAsleep false)); [done|].
  cbn [run1]. by rewrite Z.eqb_refl.
Qed.

Fixpoint sleepers_events (k : nat) : list event :=
  match k with O => [] | S k => sleepers_events k ++ sleep_events (S k) end.

Lemma run_app evs1 evs2 s :
  run s (evs1 ++ evs2) = match run s evs1 with Some s1 => run s1 evs2 | None => None end.
Proof.
  revert s. induction evs1 as [|ev evs1 IH]; intros s; [done|]. cbn [app run].
  by destruct (step s ev).
Qed.

(** The word with an owner and [k] registered writers, for every count the field holds and the
    first one it does not. *)
Definition crowd (k : nat) : Z := u32 (2 ^ 31 + Z.of_nat k * 2 ^ 16).

Lemma crowd_owned k : Z.of_nat k <= 16384 -> crowd k <> 0 /\ write_available (crowd k) = false.
Proof.
  intros Hk. unfold crowd. destruct (Z.eq_dec (Z.of_nat k) 16384) as [-> |Hne]; [by split|].
  assert (fields_ok (Z.of_nat k) 0) as Hok by (unfold fields_ok, is_u; lia).
  replace (2 ^ 31 + Z.of_nat k * 2 ^ 16) with (word true false (Z.of_nat k) 0) by (unfold word; cbn; lia).
  rewrite (u32_word _ true false (Z.of_nat k) 0) by done. split.
  - intros (? & ?)%word_zero; done.
  - by rewrite write_available_word.
Qed.

Lemma register_crowd k : register_writer (crowd k) = crowd (S k).
Proof.
  unfold register_writer, crowd. rewrite u_add_l. f_equal.
  change WRITE_WAITER_INCREMENT with (2 ^ 16). lia.
Qed.

Lemma sleepers_run n k :
  (k <= n)%nat -> Z.of_nat k <= 16384 ->
  run (mkMutex (crowd 0) (HoldW :: replicate n Idle)) (sleepers_events k) =
  Some (mkMutex (crowd k) (HoldW :: replicate k (WAsleep false) ++ replicate (n - k) Idle)).
Proof.
  induction k as [|k IH]; intros Hn Hk; [by rewrite Nat.sub_0_r|].
  cbn [sleepers_events]. rewrite run_app, IH by lia.
  replace (n - k)%nat with (S (n - S k)) by lia. cbn [replicate].
  pose proof (sleep_run (crowd k) (HoldW :: replicate k (WAsleep false)) (replicate (n - S k) Idle)) as H.
  cbn [app length] in H. rewrite length_replicate in H. rewrite H.
  - rewrite register_crowd, cons_middle, app_assoc, <- replicate_cons_app. done.
  - apply crowd_owned. lia.
  - rewrite register_crowd. apply crowd_owned. lia.
Qed.

(** C37: The field of waiting writers holds 16383 of them, not the 32767 of the class comment:
    the 16384th carries into the bit that announces readers, the owner's unlock then finds no
    writer to wake, and all 16384 calls of lock sleep forever on a free lock. *)
Theorem writer_overflow_deadlock :
  exists evs s, run (init (S (Z.to_nat 16384))) evs = Some s /\ stuck s /\ Futex s = 0 /\
  Threads s = Idle :: replicate (Z.to_nat 16384) (WAsleep false).
Proof.
  set (n := Z.to_nat 16384). assert (Z.of_nat n = 16384) as Hn by (apply Z2Nat.id; lia). clearbody n.
  exists ([Call 0%nat OpLock; Run 0%nat] ++ sleepers_events n ++ [Run 0%nat; Run 0%nat; Run 0%nat]).
  exists (mkMutex 0 (Idle :: replicate n (WAsleep false))). repeat split; try done.
  - rewrite run_app.
    replace (run _ _) with (Some (mkMutex (crowd 0) (HoldW :: replicate n Idle))) by done.
    rewrite run_app, sleepers_run, Nat.sub_diag, app_nil_r by lia. unfold crowd. rewrite Hn.
    cbn [run]. change (u32 _) with (2 ^ 31 + 2 ^ 30).
    rewrite (step_head _ _ _ (2 ^ 31 + 2 ^ 30) (Unlock (2 ^ 31 + 2 ^ 30))) by done.
    rewrite (step_head _ _ _ 0 WakeReaders) by done. cbn [step app Threads lookup list_lookup].
    cbn. do 3 f_equal. clear. induction n; cbn; by f_equal.
  - destruct t as [|t]; [done|]. cbn. destruct (replicate n _ !! t) as [p|] eqn:E; [|done].
    apply lookup_replicate in E as [-> _]. done.
  - destruct t as [|t]; [done|]. cbn. destruct (replicate n _ !! t) as [p|] eqn:E; [|done].
    apply lookup_replicate in E as [-> _]. done.
Qed.

End overflow.

(** In the child of a fork the one thread left starts from a new mutex. *)
Lemma StealAndDropActiveLocks_init f n :
  StealAndDropActiveLocks (mkMutex f (replicate n Idle)) = init n.
Proof. done. Qed.

(** ** Witnesses: an owner, a reader asleep behind it, and a timed writer asleep *)

Definition contended : list event :=
  [Call 0 OpLock; Run 0; Call 1 OpLockShared; Run 1; Run 1; Run 1; Run 1;
   Call 2 OpLockFor; Run 2; Run 2; Run 2; Run 2]%nat.

Definition contended_state : Mutex :=
  mkMutex (2 ^ 31 + 2 ^ 30 + 2 ^ 16) [HoldW; RAsleep; WAsleep true].

(** The writer gives up, the owner unlocks and wakes the reader, which reads and unlocks. *)
Definition drain : list event :=
  [Timeout 2; Run 2; Run 2; Run 0; Run 0; Run 0; Run 1; Run 1; Run 1]%nat.

Lemma contended_run : run (init 3) contended = Some contended_state.
Proof. vm_compute. reflexivity. Qed.

Lemma drain_run : run contended_state drain = Some (init 3).
Proof. vm_compute. reflexivity. Qed.

Lemma mutex_refines_lock_witness :
  run (init 3) contended = Some contended_state /\
  rtc lock_step [RNone; RNone; RNone] [RWriting; RNone; RWaiting] /\
  exclusive [RWriting; RNone; RWaiting].
Proof.
  split; [exact contended_run|].
  exact (mutex_refines_lock 3 contended contended_state ltac:(vm_compute; discriminate) contended_run).
Defined.

Lemma mutex_progress_witness :
  Forall own drain /\ run contended_state drain = Some (init 3) /\
  (length drain <= measure contended_state)%nat.
Proof.
  assert (Forall own drain) as H by (repeat constructor).
  split; [exact H|]. split; [exact drain_run|].
  exact (proj1 (mutex_progress 3 contended contended_state drain (init 3)
    ltac:(vm_compute; discriminate) contended_run H drain_run)).
Defined.

Lemma futex_counts_witness :
  run (init 3) contended = Some contended_state /\
  Futex contended_state &&& WRITE_WAITER_COUNT_MASK = 1 <<< WRITE_WAITER_OFFSET.
Proof.
  split; [exact contended_run|].
  exact (proj1 (proj2 (futex_counts 3 contended contended_state
    ltac:(vm_compute; discriminate) contended_run))).
Defined.
