(* ===== verification/Alloc32.v ===== *)
(** * The allocator of 32-bit guests: the model
    (Source/Tools/LinuxEmulation/LinuxSyscalls/LinuxAllocator.cpp)

    [MemAllocator32Bit] places the mappings of a 32-bit guest in the low 4 GiB.  Its state is
    a bitset with one bit per guest page, a second one for the pages of host code that live
    there (thunk trampolines), the protection of each host granule, the attached shared-memory
    segments and the scan positions; it is modelled for any host page size.  The kernel is a
    parameter: the record [Kernel] of its calls over an arbitrary kernel state.

    A call may throw (a bitset index out of range), which is the outcome [Thrown]; loops over
    [goto] and [while] take fuel and give [Unfinished] when it runs out. *)

From S2P Require Import Prelude VMA VMATrack Granule.
Import VMA Track.

(** ** Outcomes and the kernel *)

Inductive outcome (A : Type) := Done (a : A) | Thrown | Unfinished.
Arguments Done {A} a.
Arguments Thrown {A}.
Arguments Unfinished {A}.

Definition obind {A B} (m : outcome A) (f : A -> outcome B) : outcome B :=
  match m with Done a => f a | Thrown => Thrown | Unfinished => Unfinished end.

Notation "'let!' x := m 'in' e" := (obind m (fun x => e))
  (at level 200, x pattern, m at level 100, e at level 200, right associativity).

(** The results of system calls: an address or count, or a positive error number. *)
Abbreviation sysret := (Z + Z)%type.

Record Kernel (K : Type) := mkKernel {
  sys_mmap : K -> Z -> Z -> Z -> Z -> Z -> Z -> K * sysret;
  sys_munmap : K -> Z -> Z -> K * option Z;
  sys_mprotect : K -> Z -> Z -> Z -> K * option Z;
  sys_mremap : K -> Z -> Z -> Z -> Z -> Z -> K * sysret;
  sys_shmat : K -> Z -> Z -> Z -> K * sysret;
  sys_shmdt : K -> Z -> K * option Z;
  sys_shm_segsz : K -> Z -> option Z;
  sys_mincore : K -> Z -> bool;
  sys_pread : K -> Z -> Z -> Z -> Z -> K * sysret;
  mem_zero : K -> Z -> Z -> K;
}.
Arguments sys_mmap {K}.
Arguments sys_munmap {K}.
Arguments sys_mprotect {K}.
Arguments sys_mremap {K}.
Arguments sys_shmat {K}.
Arguments sys_shmdt {K}.
Arguments sys_shm_segsz {K}.
Arguments sys_mincore {K}.
Arguments sys_pread {K}.
Arguments mem_zero {K}.

Module MemAllocator32Bit.

Definition EINTR : Z := 4.
Definition ENOMEM : Z := 12.
Definition EEXIST : Z := 17.
Definition EINVAL : Z := 22.
Definition EOVERFLOW : Z := 75.
Definition PROT_READ : Z := 1.
Definition PROT_WRITE : Z := 2.
Definition MAP_SHARED : Z := 0x1.
Definition MAP_PRIVATE : Z := 0x2.
Definition MAP_SHARED_VALIDATE : Z := 0x3.
Definition MAP_FIXED : Z := 0x10.
Definition MAP_ANONYMOUS : Z := 0x20.
Definition X86_64_MAP_32BIT : Z := 0x40.
Definition MAP_DENYWRITE : Z := 0x800.
Definition FEX_MAP_FIXED_NOREPLACE : Z := 0x100000.
Definition MREMAP_MAYMOVE : Z := 1.
Definition MREMAP_FIXED : Z := 2.
Definition MREMAP_DONTUNMAP : Z := 4.

Definition BITSET_SIZE : Z := 0x100000.
Definition BASE_KEY : Z := 16.
Definition TOP_KEY : Z := 0xFFFFF000 >>> FEX_GUEST_PAGE_SHIFT.
Definition TOP_KEY32BIT : Z := 0x7FFFF000 >>> FEX_GUEST_PAGE_SHIFT.

Definition has_flag (flags f : Z) : bool := negb (flags &&& f =? 0).

(** ** std::bitset *)

Definition bs_test (b : gset Z) (i : Z) : outcome bool :=
  if i <? BITSET_SIZE then Done (bool_decide (i ∈ b)) else Thrown.
Definition bs_set (b : gset Z) (i : Z) : outcome (gset Z) :=
  if i <? BITSET_SIZE then Done ({[i]} ∪ b) else Thrown.
Definition bs_reset (b : gset Z) (i : Z) : outcome (gset Z) :=
  if i <? BITSET_SIZE then Done (b ∖ {[i]}) else Thrown.

(** [for (i = 0; i < n; ++i) op(Page + i)] *)
Fixpoint for_pages (op : gset Z -> Z -> outcome (gset Z)) (b : gset Z) (Page : Z) (n : nat) :
    outcome (gset Z) :=
  match n with
  | O => Done b
  | S n => let! b := op b Page in for_pages op b (u64 (Page + 1)) n
  end.

(** ** The state *)

Record Alloc := mkAlloc {
  MappedPages : gset Z;
  HostReservedPages : gset Z;
  PageToShm : gmap Z Z;
  GranuleProt : gmap Z Z;
  LastScanLocation : Z;
  LastKeyLocation : Z;
  LastKeyLocation32Bit : Z;
}.

Definition set_Mapped (b : gset Z) (s : Alloc) : Alloc :=
  mkAlloc b (HostReservedPages s) (PageToShm s) (GranuleProt s) (LastScanLocation s)
    (LastKeyLocation s) (LastKeyLocation32Bit s).
Definition set_Reserved (b : gset Z) (s : Alloc) : Alloc :=
  mkAlloc (MappedPages s) b (PageToShm s) (GranuleProt s) (LastScanLocation s)
    (LastKeyLocation s) (LastKeyLocation32Bit s).
Definition set_Shm (m : gmap Z Z) (s : Alloc) : Alloc :=
  mkAlloc (MappedPages s) (HostReservedPages s) m (GranuleProt s) (LastScanLocation s)
    (LastKeyLocation s) (LastKeyLocation32Bit s).
Definition set_Prot (m : gmap Z Z) (s : Alloc) : Alloc :=
  mkAlloc (MappedPages s) (HostReservedPages s) (PageToShm s) m (LastScanLocation s)
    (LastKeyLocation s) (LastKeyLocation32Bit s).
Definition set_Scan (p : Z) (s : Alloc) : Alloc :=
  mkAlloc (MappedPages s) (HostReservedPages s) (PageToShm s) (GranuleProt s) p
    (LastKeyLocation s) (LastKeyLocation32Bit s).

(** The constructor, with SearchDown. *)
Definition new_allocator : Alloc :=
  mkAlloc (list_to_set (seqZ 0 16) ∪ {[TOP_KEY]}) ∅ ∅ ∅ TOP_KEY TOP_KEY TOP_KEY32BIT.

Section host.
Context (HostSize : Z).

Definition GranulePages : Z := HostPage.Size HostSize >>> FEX_GUEST_PAGE_SHIFT.

Definition AlignPagesUp (Pages : Z) : Z := Z.ldiff (u64 (Pages + GranulePages - 1)) (GranulePages - 1).
Definition GranuleFloor (Page : Z) : Z := Z.ldiff Page (GranulePages - 1).
Definition GranuleCeil (Page : Z) : Z := Z.ldiff (u64 (Page + GranulePages - 1)) (GranulePages - 1).

(** [GranuleHasOtherLivePages]: its loop over the pages of the granule. *)
Fixpoint OtherLivePages (b : gset Z) (Page SkipBegin SkipEnd : Z) (n : nat) : bool :=
  match n with
  | O => false
  | S n =>
      if (SkipBegin <=? Page) && (Page <? SkipEnd)
      then OtherLivePages b (u64 (Page + 1)) SkipBegin SkipEnd n
      else if (Page <? BITSET_SIZE) && bool_decide (Page ∈ b) then true
      else OtherLivePages b (u64 (Page + 1)) SkipBegin SkipEnd n
  end.

Definition GranuleHasOtherLivePages (s : Alloc) (GranuleBase SkipBegin SkipEnd : Z) : bool :=
  OtherLivePages (MappedPages s) GranuleBase SkipBegin SkipEnd (Z.to_nat GranulePages).

Definition prot_at (m : gmap Z Z) (G : Z) : Z := default 0 (m !! G).

Definition NoteGranuleProt (s : Alloc) (PageAddr PagesLength prot : Z) (Reset : bool) : outcome Alloc :=
  if GranulePages =? 1 then Done s
  else
    match for_range (GranuleFloor PageAddr) (GranuleCeil (u64 (PageAddr + PagesLength))) GranulePages
            (fun G m => Some (<[G := if Reset then prot else prot_at m G ||| prot]> m)) (GranuleProt s)
    with
    | Some m => Done (set_Prot m s)
    | None => Unfinished
    end.

Definition GranuleUnionProt (s : Alloc) (GranuleBase prot : Z) : Z :=
  match GranuleProt s !! GranuleBase with None => prot | Some p => p ||| prot end.

Definition SetUsedPages (s : Alloc) (PageAddr PagesLength : Z) : outcome Alloc :=
  let! b := for_pages bs_set (MappedPages s) PageAddr (Z.to_nat PagesLength) in
  Done (set_Mapped b s).

Definition SetFreePages (s : Alloc) (PageAddr PagesLength : Z) : outcome Alloc :=
  let! b := for_pages bs_reset (MappedPages s) PageAddr (Z.to_nat PagesLength) in
  Done (set_Mapped b s).

Fixpoint ReserveLoop (s : Alloc) (Page : Z) (n : nat) : Alloc :=
  match n with
  | O => s
  | S n =>
      if BITSET_SIZE <=? Page then s
      else ReserveLoop (set_Mapped ({[Page]} ∪ MappedPages s)
                         (set_Reserved ({[Page]} ∪ HostReservedPages s) s)) (u64 (Page + 1)) n
  end.

Definition page_count (Length : Z) : Z :=
  AlignUp Length FEX_GUEST_PAGE_SIZE >>> FEX_GUEST_PAGE_SHIFT.

Definition ReserveHostRange (s : Alloc) (RBase Length : Z) : Alloc :=
  ReserveLoop s (RBase >>> FEX_GUEST_PAGE_SHIFT) (Z.to_nat (page_count Length)).

Fixpoint OverlapsLoop (b : gset Z) (Page : Z) (n : nat) : bool :=
  match n with
  | O => false
  | S n =>
      if BITSET_SIZE <=? Page then false
      else if bool_decide (Page ∈ b) then true else OverlapsLoop b (u64 (Page + 1)) n
  end.

Definition OverlapsHostReservation (s : Alloc) (PageAddr PagesLength : Z) : bool :=
  OverlapsLoop (HostReservedPages s) PageAddr (Z.to_nat PagesLength).

(** ** The scans *)

(** The inner loop: the offset of the first mapped page among [n] pages upwards (downwards)
    from [Start], or None when all are free. *)
Fixpoint scan_up (b : gset Z) (Start Offset : Z) (n : nat) : outcome (option Z) :=
  match n with
  | O => Done None
  | S n =>
      let! m := bs_test b (u64 (Start + Offset)) in
      if m then Done (Some Offset) else scan_up b Start (Offset + 1) n
  end.

Fixpoint scan_down (b : gset Z) (Start Offset : Z) (n : nat) : outcome (option Z) :=
  match n with
  | O => Done None
  | S n =>
      let! m := bs_test b (u64 (Start - Offset)) in
      if m then Done (Some Offset) else scan_down b Start (Offset + 1) n
  end.

Fixpoint UpLoop (fuel : nat) (b : gset Z) (Start Pages : Z) : outcome Z :=
  if Start =? TOP_KEY then Done 0
  else if TOP_KEY <? u64 (Start + Pages) then Done 0
  else
    match fuel with
    | O => Unfinished
    | S fuel =>
        let! blocked := scan_up b Start 0 (Z.to_nat Pages) in
        match blocked with
        | None => Done Start
        | Some Offset => UpLoop fuel b (GranuleCeil (u64 (Start + Offset + 1))) Pages
        end
    end.

Fixpoint TopDownLoop (fuel : nat) (b : gset Z) (Start Pages : Z) : outcome Z :=
  if (BASE_KEY <=? Start) && (Start <=? TOP_KEY) then
    match fuel with
    | O => Unfinished
    | S fuel =>
        let! blocked := scan_down b Start 0 (Z.to_nat Pages) in
        match blocked with
        | None => Done (u64 (Start - (Pages - 1)))
        | Some Offset =>
            let Blocked := GranuleFloor (u64 (Start - Offset)) in
            if Blocked =? 0 then Done 0 else TopDownLoop fuel b (Blocked - 1) Pages
        end
    end
  else Done 0.

(** Every round passes a mapped page the next rounds do not meet again. *)
Definition scan_fuel (b : gset Z) : nat := S (size b).

Definition FindPageRange (s : Alloc) (Start Pages : Z) : outcome Z :=
  UpLoop (scan_fuel (MappedPages s)) (MappedPages s) (GranuleCeil Start) Pages.

Definition FindPageRange_TopDown (s : Alloc) (Start Pages : Z) : outcome Z :=
  TopDownLoop (scan_fuel (MappedPages s)) (MappedPages s) (u64 (GranuleCeil (u64 (Start + 1)) - 1)) Pages.

(** [FindPageRangePtr], which the constructor sets for SearchDown. *)
Definition FindPageRangePtr := FindPageRange_TopDown.

(** ** The calls *)

Section kernel.
Context {K : Type} (sys : Kernel K).

Definition to_page (Addr : Z) : Z := Addr >>> FEX_GUEST_PAGE_SHIFT.
Definition of_page (Page : Z) : Z := u64 (Page <<< FEX_GUEST_PAGE_SHIFT).

(** FEX::HostPageMapping::ReadFully: None when it read to the end of the range or the file,
    the error number otherwise. *)
Fixpoint ReadFully (fuel : nat) (k : K) (FD Out Size Offset : Z) : outcome (K * option Z) :=
  if Size =? 0 then Done (k, None)
  else
    match fuel with
    | O => Unfinished
    | S fuel =>
        match sys_pread sys k FD Out Size Offset with
        | (k, inr e) => if e =? EINTR then ReadFully fuel k FD Out Size Offset else Done (k, Some e)
        | (k, inl Read) =>
            if Read =? 0 then Done (k, None)
            else ReadFully fuel k FD (u64 (Out + Read)) (u64 (Size - Read)) (u64 (Offset + Read))
        end
    end.

(** A call returns the new states and its result, an error as its negative number. *)
Abbreviation call := (outcome (Alloc * K * Z)).

(** The fill of the covered part of one granule: zeros over old contents, or the file. *)
Definition FillGranule (fuel : nat) (k : K) (Preserve : bool) (flags fd offset Addr CoveredStart CoveredEnd : Z) :
    outcome (K * option Z) :=
  if has_flag flags MAP_ANONYMOUS
  then Done (if Preserve then mem_zero sys k CoveredStart (CoveredEnd - CoveredStart) else k, None)
  else ReadFully fuel k fd CoveredStart (CoveredEnd - CoveredStart) (u64 (offset + (CoveredStart - Addr))).

(** One granule of [MmapSubGranule]; Some error leaves the function. *)
Definition SubGranuleStep (fuel : nat) (Granule Addr End_ prot flags fd offset : Z) (s : Alloc) (k : K) :
    outcome (Alloc * K * option Z) :=
  let GranuleEnd := u64 (Granule + HostSize) in
  let CoveredStart := Z.max Granule Addr in
  let CoveredEnd := Z.min GranuleEnd End_ in
  let GranulePage := to_page Granule in
  let Preserve := GranuleHasOtherLivePages s GranulePage (to_page CoveredStart)
                    (to_page (AlignUp CoveredEnd FEX_GUEST_PAGE_SIZE)) in
  let '(s, k, err) :=
    if negb Preserve then
      match sys_mmap sys k Granule HostSize (PROT_READ ||| PROT_WRITE)
              (MAP_PRIVATE ||| MAP_ANONYMOUS ||| MAP_FIXED) (-1) 0 with
      | (k, inr e) => (s, k, Some e)
      | (k, inl _) => (set_Prot (<[GranulePage := 0]> (GranuleProt s)) s, k, None)
      end
    else if GranuleUnionProt s GranulePage 0 &&& PROT_WRITE =? 0
    then (s, fst (sys_mprotect sys k Granule HostSize (PROT_READ ||| PROT_WRITE)), None)
    else (s, k, None) in
  match err with
  | Some e => Done (s, k, Some e)
  | None =>
      let! (k, err) := FillGranule fuel k Preserve flags fd offset Addr CoveredStart CoveredEnd in
      match err with
      | Some e => Done (s, k, Some e)
      | None =>
          let Union := GranuleUnionProt s GranulePage prot in
          let s := set_Prot (<[GranulePage := Union]> (GranuleProt s)) s in
          let '(k, err) := sys_mprotect sys k Granule HostSize Union in
          Done (s, k, err)
      end
  end.

Fixpoint SubGranuleLoop (n fuel : nat) (Granule Addr End_ prot flags fd offset : Z) (s : Alloc) (k : K) :
    outcome (Alloc * K * option Z) :=
  if Granule <? End_ then
    match n with
    | O => Unfinished
    | S n =>
        let! (s, k, err) := SubGranuleStep fuel Granule Addr End_ prot flags fd offset s k in
        match err with
        | Some e => Done (s, k, Some e)
        | None => SubGranuleLoop n fuel (u64 (Granule + HostSize)) Addr End_ prot flags fd offset s k
        end
    end
  else Done (s, k, None).

Definition MmapSubGranule (fuel : nat) (s : Alloc) (k : K) (Addr Length prot flags fd offset : Z) : call :=
  let End_ := u64 (Addr + Length) in
  let First := HostPage.AlignDown HostSize Addr in
  let! (s, k, err) := SubGranuleLoop (iterations First End_ HostSize) fuel First Addr End_ prot flags fd offset s k in
  match err with
  | Some e => Done (s, k, - e)
  | None =>
      let FirstPage := GranuleFloor (to_page Addr) in
      let LastPage := GranuleCeil (to_page (AlignUp End_ FEX_GUEST_PAGE_SIZE)) in
      let! s := SetUsedPages s FirstPage (u64 (LastPage - FirstPage)) in
      Done (s, k, Addr)
  end.

(** The pages of a collision that [mincore] finds mapped; whether there were any. *)
Fixpoint MarkCollisions (k : K) (b : gset Z) (Page : Z) (n : nat) (MarkedAny : bool) :
    outcome (gset Z * bool) :=
  match n with
  | O => Done (b, MarkedAny)
  | S n =>
      if sys_mincore sys k (of_page Page)
      then let! b := bs_set b Page in MarkCollisions k b (Page + 1) n true
      else MarkCollisions k b (Page + 1) n MarkedAny
  end.

(** The system calls that try to map [Target]: the file's bytes are read into an anonymous
    mapping when its offset is not a host page's. The flag tells a failure that is returned at
    once, whatever its number. *)
Definition TryMap (fuel : nat) (k : K) (OffsetFallback : bool)
    (Target HostLength length prot flags fd offset : Z) : outcome (K * sysret * bool) :=
  if OffsetFallback then
    match sys_mmap sys k Target HostLength (PROT_READ ||| PROT_WRITE)
            (Z.ldiff flags (MAP_SHARED ||| MAP_SHARED_VALIDATE ||| MAP_DENYWRITE) ||| MAP_PRIVATE
             ||| MAP_ANONYMOUS ||| FEX_MAP_FIXED_NOREPLACE) (-1) 0 with
    | (k, inr e) => Done (k, inr e, false)
    | (k, inl p) =>
        let! (k, err) := ReadFully fuel k fd p length offset in
        match err with
        | Some e => Done (fst (sys_munmap sys k p HostLength), inr e, true)
        | None =>
            if negb (prot =? PROT_READ ||| PROT_WRITE) then
              match sys_mprotect sys k p HostLength prot with
              | (k, Some e) => Done (fst (sys_munmap sys k p HostLength), inr e, true)
              | (k, None) => Done (k, inl p, false)
              end
            else Done (k, inl p, false)
        end
    end
  else
    let '(k, r) := sys_mmap sys k Target HostLength prot (flags ||| FEX_MAP_FIXED_NOREPLACE) fd offset in
    Done (k, r, false).

Section no_hint.
Context (OffsetFallback Map32Bit : bool) (HostPagesLength length prot flags fd offset : Z).

(** The [restart] loop of [AllocateNoHint]. *)
Fixpoint NoHintLoop (fuel : nat) (s : Alloc) (k : K) (BottomPage : Z) : call :=
  match fuel with
  | O => Unfinished
  | S fuel =>
      let! Lower := FindPageRangePtr s BottomPage HostPagesLength in
      let! (BottomPage, LowerPage) :=
        if Lower =? 0 then
          let Again := if Map32Bit then LastKeyLocation32Bit s else LastKeyLocation s in
          let! Lower := FindPageRangePtr s Again HostPagesLength in Done (Again, Lower)
        else Done (BottomPage, Lower) in
      if LowerPage =? 0 then Done (s, k, - ENOMEM)
      else
        let! (k, r, at_once) := TryMap fuel k OffsetFallback (of_page LowerPage)
               (u64 (HostPagesLength <<< FEX_GUEST_PAGE_SHIFT)) length prot flags fd offset in
        match r with
        | inl MappedPtr =>
            let! s := SetUsedPages (set_Scan LowerPage s) LowerPage HostPagesLength in
            let! s := NoteGranuleProt s LowerPage HostPagesLength prot true in
            Done (s, k, MappedPtr)
        | inr e =>
            if at_once || negb (e =? EEXIST) then Done (s, k, - e)
            else
              let! (b, MarkedAny) := MarkCollisions k (MappedPages s) LowerPage (Z.to_nat HostPagesLength) false in
              let! b := if MarkedAny then Done b else bs_set b LowerPage in
              NoHintLoop fuel (set_Mapped b s) k BottomPage
        end
  end.

Definition AllocateNoHint (fuel : nat) (s : Alloc) (k : K) : call :=
  NoHintLoop fuel s k
    (if Map32Bit && (LastKeyLocation32Bit s <=? LastScanLocation s)
     then LastKeyLocation32Bit s else LastScanLocation s).

End no_hint.

(** Whether all of [n] pages are free, for MAP_FIXED_NOREPLACE. *)
Definition pages_free (s : Alloc) (Page : Z) (n : nat) : outcome bool :=
  let! r := scan_up (MappedPages s) Page 0 n in
  Done (match r with None => true | Some _ => false end).

Definition MmapFixed (fuel : nat) (s : Alloc) (k : K) (Addr length prot flags fd offset : Z)
    (OffsetFallback : bool) : call :=
  let PagesLength := page_count length in
  let PageAddr := to_page Addr in
  if OverlapsHostReservation s PageAddr PagesLength then Done (s, k, - ENOMEM)
  else if negb (GranulePages =? 1)
          && (negb (HostPage.IsAligned HostSize Addr) || negb (PagesLength =? AlignPagesUp PagesLength) || OffsetFallback)
  then
    let! free :=
      if has_flag flags FEX_MAP_FIXED_NOREPLACE && negb (has_flag flags MAP_FIXED)
      then pages_free s PageAddr (Z.to_nat PagesLength) else Done true in
    if free then MmapSubGranule fuel s k Addr length prot flags fd offset else Done (s, k, - EEXIST)
  else
    match sys_mmap sys k (of_page PageAddr) (u64 (PagesLength <<< FEX_GUEST_PAGE_SHIFT)) prot flags fd offset with
    | (k, inl MappedPtr) =>
        let! s := SetUsedPages s PageAddr PagesLength in
        let! s := NoteGranuleProt s PageAddr PagesLength prot true in
        Done (s, k, MappedPtr)
    | (k, inr e) => Done (s, k, - e)
    end.

Definition guest_unaligned (x : Z) : bool := negb (x &&& (FEX_GUEST_PAGE_SIZE - 1) =? 0).

Definition Mmap (fuel : nat) (s : Alloc) (k : K) (addr length prot flags fd offset : Z) : call :=
  let Fixed := has_flag flags MAP_FIXED || has_flag flags FEX_MAP_FIXED_NOREPLACE in
  if guest_unaligned addr then Done (s, k, - EINVAL)
  else if negb (fd =? -1) && guest_unaligned offset then Done (s, k, - EINVAL)
  else if 2 ^ 32 - 1 <? u64 (addr + length) then Done (s, k, - EOVERFLOW)
  else if Fixed && (to_page addr <? 16) then Done (s, k, - EINVAL)
  else
    let Addr := if Fixed then addr else 0 in
    if negb (fd =? -1) && negb (HostPage.IsAligned HostSize offset)
       && has_flag flags (MAP_SHARED ||| MAP_SHARED_VALIDATE)
    then Done (s, k, - EINVAL)
    else
      let OffsetFallback := negb (fd =? -1) && negb (HostPage.IsAligned HostSize offset) in
      let Map32Bit := has_flag flags X86_64_MAP_32BIT in
      let flags := Z.ldiff flags X86_64_MAP_32BIT in
      if Addr =? 0 then
        AllocateNoHint OffsetFallback Map32Bit (AlignPagesUp (page_count length)) length prot flags fd offset fuel s k
      else MmapFixed fuel s k Addr length prot flags fd offset OffsetFallback.

(** The release of the granules [Munmap] emptied. *)
Fixpoint ReleaseGranules (n : nat) (s : Alloc) (k : K) (Granule LastGranule : Z) : call :=
  if Granule <? LastGranule then
    match n with
    | O => Unfinished
    | S n =>
        if GranuleHasOtherLivePages s Granule 0 0
        then ReleaseGranules n s k (u64 (Granule + GranulePages)) LastGranule
        else
          match sys_munmap sys k (of_page Granule) HostSize with
          | (k, Some e) => Done (s, k, - e)
          | (k, None) =>
              ReleaseGranules n (set_Prot (delete Granule (GranuleProt s)) s) k (u64 (Granule + GranulePages)) LastGranule
          end
    end
  else Done (s, k, 0).

Definition Munmap (s : Alloc) (k : K) (addr length : Z) : call :=
  let PagesLength := page_count length in
  let PageAddr := to_page addr in
  let PageEnd := u64 (PageAddr + PagesLength) in
  if guest_unaligned addr then Done (s, k, - EINVAL)
  else if length =? 0 then Done (s, k, - EINVAL)
  else if 2 ^ 32 - 1 <? u64 (addr + length) then Done (s, k, - EOVERFLOW)
  else if PageAddr <? 16 then Done (s, k, 0)
  else if OverlapsHostReservation s PageAddr PagesLength then Done (s, k, 0)
  else if negb (GranulePages =? 1) then
    let! s := SetFreePages s PageAddr (PageEnd - PageAddr) in
    let LastGranule := GranuleCeil PageEnd in
    ReleaseGranules (iterations (GranuleFloor PageAddr) LastGranule GranulePages) s k (GranuleFloor PageAddr) LastGranule
  else
    match sys_munmap sys k (of_page PageAddr) (u64 (PagesLength <<< FEX_GUEST_PAGE_SHIFT)) with
    | (k, Some e) => Done (s, k, - e)
    | (k, None) => let! s := SetFreePages s PageAddr (PageEnd - PageAddr) in Done (s, k, 0)
    end.

(** FEX::HLE::HasSyscallError on a result kept as a signed number. *)
Definition HasSyscallError (Result : Z) : bool := 0xFFFFFFFFFFFF0001 <=? u64 Result.

(** The last part of [Mremap]: a new range for the whole mapping. *)
Definition MremapMove (fuel : nat) (s : Alloc) (k : K) (old_address old_size new_size flags : Z) : call :=
  let! (s, k, p) := Mmap fuel s k 0 new_size 0 (MAP_PRIVATE ||| MAP_ANONYMOUS) (-1) 0 in
  if HasSyscallError p then Done (s, k, p)
  else
    match sys_mremap sys k old_address old_size new_size (flags ||| MREMAP_FIXED ||| MREMAP_MAYMOVE) p with
    | (k, inr e) => Done (s, k, - e)
    | (k, inl MappedPtr) =>
        let! s :=
          if negb (has_flag flags MREMAP_DONTUNMAP) && negb (MappedPtr =? old_address)
          then SetFreePages s (to_page old_address) (AlignPagesUp (page_count old_size)) else Done s in
        let! s := SetUsedPages s (to_page MappedPtr) (AlignPagesUp (page_count new_size)) in
        Done (s, k, MappedPtr)
    end.

(** operator[] on the bitset is unchecked; the pages of a 32-bit guest are in range. *)
Fixpoint can_extend (b : gset Z) (Page : Z) (n : nat) : bool :=
  match n with
  | O => true
  | S n => if bool_decide (Page ∈ b) then false else can_extend b (u64 (Page + 1)) n
  end.

Definition Mremap (fuel : nat) (s : Alloc) (k : K) (old_address old_size new_size flags new_address : Z) : call :=
  let OldPagesLength := AlignPagesUp (page_count old_size) in
  let NewPagesLength := AlignPagesUp (page_count new_size) in
  let OldPageAddr := to_page old_address in
  if OverlapsHostReservation s OldPageAddr OldPagesLength
     || (has_flag flags MREMAP_FIXED && OverlapsHostReservation s (to_page new_address) NewPagesLength)
  then Done (s, k, - ENOMEM)
  else if has_flag flags MREMAP_FIXED then
    match sys_mremap sys k old_address old_size new_size flags new_address with
    | (k, inr e) => Done (s, k, - e)
    | (k, inl MappedPtr) =>
        let! s := if negb (has_flag flags MREMAP_DONTUNMAP) then SetFreePages s OldPageAddr OldPagesLength else Done s in
        let! s := SetUsedPages s (to_page MappedPtr) NewPagesLength in
        MremapMove fuel s k old_address old_size new_size flags
    end
  else if NewPagesLength <? OldPagesLength then
    match sys_mremap sys k old_address old_size new_size (Z.ldiff flags MREMAP_MAYMOVE) 0 with
    | (k, inr e) => Done (s, k, - e)
    | (k, inl MappedPtr) =>
        let! s := SetFreePages s (u64 (to_page MappedPtr + NewPagesLength)) (OldPagesLength - NewPagesLength) in
        Done (s, k, MappedPtr)
    end
  else if can_extend (MappedPages s) (u64 (OldPageAddr + OldPagesLength)) (Z.to_nat (NewPagesLength - OldPagesLength)) then
    match sys_mremap sys k old_address old_size new_size (Z.ldiff flags MREMAP_MAYMOVE) 0 with
    | (k, inl MappedPtr) =>
        let! s := SetUsedPages s (to_page MappedPtr) NewPagesLength in
        Done (s, k, MappedPtr)
    | (k, inr e) =>
        if negb (has_flag flags MREMAP_MAYMOVE) then Done (s, k, - e)
        else MremapMove fuel s k old_address old_size new_size flags
    end
  else MremapMove fuel s k old_address old_size new_size flags.

(** The result of [Shmat]: with the value written to [ResultAddress], if any. *)
Abbreviation shm_call := (outcome (Alloc * K * Z * option Z)).

Definition ShmatAt (s : Alloc) (k : K) (shmid shmaddr shmflg : Z) : shm_call :=
  match sys_shmat sys k shmid shmaddr shmflg with
  | (k, inr e) => Done (s, k, - e, None)
  | (k, inl Result) =>
      let SmallRet := u32 (Result >>> 32) in
      if negb ((SmallRet =? 0) || (SmallRet =? 0xFFFFFFFF)) then Done (s, k, - ENOMEM, None)
      else
        let NewPageAddr := to_page Result in
        let s := set_Shm (<[u32 NewPageAddr := shmid]> (PageToShm s)) s in
        match sys_shm_segsz sys k shmid with
        | Some segsz =>
            let! s := SetUsedPages s NewPageAddr (segsz >>> FEX_GUEST_PAGE_SHIFT) in
            Done (s, k, 0, Some (u32 Result))
        | None => Done (s, k, 0, Some (u32 Result))
        end
  end.

(** The [restart] loop of [Shmat] without an address. *)
Fixpoint ShmatLoop (fuel : nat) (s : Alloc) (k : K) (shmid shmflg PagesLength : Z) (Wrapped : bool)
    (BottomPage : Z) : shm_call :=
  match fuel with
  | O => Unfinished
  | S fuel =>
      let! Lower := FindPageRangePtr s BottomPage PagesLength in
      let! (BottomPage, LowerPage) :=
        if Lower =? 0 then
          let! Lower := FindPageRangePtr s (LastKeyLocation s) PagesLength in Done (LastKeyLocation s, Lower)
        else Done (BottomPage, Lower) in
      let UpperPage := u64 (LowerPage + PagesLength) in
      if LowerPage =? 0 then Done (s, k, - ENOMEM, None)
      else
        match sys_shmat sys k shmid (of_page LowerPage) shmflg with
        | (k, inr e) =>
            if UpperPage =? TOP_KEY then ShmatLoop fuel s k shmid shmflg PagesLength true (LastKeyLocation s)
            else if Wrapped && (LastScanLocation s <=? LowerPage) then Done (s, k, - e, None)
            else ShmatLoop fuel s k shmid shmflg PagesLength Wrapped (u64 (BottomPage + PagesLength))
        | (k, inl MappedPtr) =>
            let! s := SetUsedPages (set_Scan LowerPage s) LowerPage PagesLength in
            Done (set_Shm (<[u32 LowerPage := shmid]> (PageToShm s)) s, k, 0, Some (u32 MappedPtr))
        end
  end.

Definition Shmat (fuel : nat) (s : Alloc) (k : K) (shmid shmaddr shmflg : Z) : shm_call :=
  if negb (shmaddr =? 0) then ShmatAt s k shmid shmaddr shmflg
  else
    match sys_shm_segsz sys k shmid with
    | None => Done (s, k, - EINVAL, None)
    | Some segsz =>
        ShmatLoop fuel s k shmid shmflg (AlignPagesUp (page_count segsz)) false (LastScanLocation s)
    end.

Definition Shmdt (s : Alloc) (k : K) (shmaddr : Z) : call :=
  let AddrPage := u32 (to_page shmaddr) in
  match PageToShm s !! AddrPage with
  | None => Done (s, k, - EINVAL)
  | Some shmid =>
      let! s :=
        match sys_shm_segsz sys k shmid with
        | Some segsz => SetFreePages s AddrPage (page_count segsz)
        | None => Done s
        end in
      match sys_shmdt sys k shmaddr with
      | (k, None) => Done (set_Shm (delete AddrPage (PageToShm s)) s, k, 0)
      | (k, Some e) => Done (s, k, - e)
      end
  end.

End kernel.
End host.
End MemAllocator32Bit.

(** [MemAllocatorPassThrough], the allocator of 64-bit guests: the kernel's own placement. *)
Module MemAllocatorPassThrough.
Section kernel.
Context {K : Type} (sys : Kernel K).

Definition ret (r : sysret) : Z := match r with inl v => v | inr e => - e end.
Definition err (r : option Z) : Z := match r with None => 0 | Some e => - e end.

Definition Mmap (k : K) (addr length prot flags fd offset : Z) : K * Z :=
  let '(k, r) := sys_mmap sys k addr length prot flags fd offset in (k, ret r).
Definition Munmap (k : K) (addr length : Z) : K * Z :=
  let '(k, r) := sys_munmap sys k addr length in (k, err r).
Definition Mremap (k : K) (old_address old_size new_size flags new_address : Z) : K * Z :=
  let '(k, r) := sys_mremap sys k old_address old_size new_size flags new_address in (k, ret r).
Definition Shmat (k : K) (shmid shmaddr shmflg : Z) : K * Z * option Z :=
  match sys_shmat sys k shmid shmaddr shmflg with
  | (k, inl p) => (k, 0, Some (u32 p))
  | (k, inr e) => (k, - e, None)
  end.
Definition Shmdt (k : K) (shmaddr : Z) : K * Z :=
  let '(k, r) := sys_shmdt sys k shmaddr in (k, err r).

End kernel.
End MemAllocatorPassThrough.
