(* ===== verification/Alloc32Props.v ===== *)
(** * The allocator of 32-bit guests: the page scan and the bitset

    [FindPageRange_TopDown] returns the highest free block of whole host granules at or below
    its starting granule, and always returns; the page loops change exactly the pages they
    name. *)

From S2P Require Import Prelude VMA VMATrack VMATrackProps Granule GranuleProps Alloc32.
Import VMA Track MemAllocator32Bit.

(** ** Outcomes *)

Lemma obind_Done {A B} (m : outcome A) (f : A -> outcome B) b :
  obind m f = Done b -> exists a, m = Done a /\ f a = Done b.
Proof. destruct m; cbn; [eauto|done|done]. Qed.

Ltac unbind H :=
  match type of H with
  | obind _ _ = Done _ =>
      let x := fresh "a" in let E := fresh "E" in apply obind_Done in H as (x & E & H)
  end.

(** ** Page loops *)

Definition in_pages (Page n q : Z) : Prop := Page <= q < Page + n.

Lemma for_pages_set n : forall b Page b',
  0 <= Page -> for_pages bs_set b Page n = Done b' ->
  (forall q, q ∈ b' <-> q ∈ b \/ in_pages Page (Z.of_nat n) q) /\
  (n = O \/ Page + Z.of_nat n <= BITSET_SIZE).
Proof.
  unfold in_pages. induction n as [|n IH]; intros b Page b' HP H; cbn [for_pages] in H.
  - simplify_eq. split; [|by left]. intros q. intuition lia.
  - unbind H. unfold bs_set in E. destruct (Z.ltb_spec Page BITSET_SIZE); simplify_eq.
    rewrite u_small in H by (unfold is_u, BITSET_SIZE in *; lia).
    destruct (IH _ (Page + 1) _ ltac:(lia) H) as [Hq Hb]. split; [|unfold BITSET_SIZE in *; lia].
    intros q. rewrite Hq, elem_of_union, elem_of_singleton. intuition lia.
Qed.

Lemma for_pages_reset n : forall b Page b',
  0 <= Page -> for_pages bs_reset b Page n = Done b' ->
  forall q, q ∈ b' <-> q ∈ b /\ ~ in_pages Page (Z.of_nat n) q.
Proof.
  unfold in_pages. induction n as [|n IH]; intros b Page b' HP H q; cbn [for_pages] in H.
  - simplify_eq. intuition lia.
  - unbind H. unfold bs_reset in E. destruct (Z.ltb_spec Page BITSET_SIZE); simplify_eq.
    rewrite u_small in H by (unfold is_u, BITSET_SIZE in *; lia).
    rewrite (IH _ (Page + 1) _ ltac:(lia) H), elem_of_difference, elem_of_singleton. intuition lia.
Qed.

(** The loops do not throw inside the bitset. *)
Lemma for_pages_done op n : forall b Page,
  (forall b i, i < BITSET_SIZE -> exists b', op b i = Done b') ->
  0 <= Page -> Page + Z.of_nat n <= BITSET_SIZE -> exists b', for_pages op b Page n = Done b'.
Proof.
  induction n as [|n IH]; intros b Page Hop HP Hn; cbn [for_pages]; [eauto|].
  destruct (Hop b Page) as [b1 E]; [lia|]. rewrite E. cbn.
  rewrite u_small by (unfold is_u, BITSET_SIZE in *; lia). apply IH; [done|lia|lia].
Qed.

Lemma bs_set_done b i : i < BITSET_SIZE -> exists b', bs_set b i = Done b'.
Proof. intros H. unfold bs_set. apply Z.ltb_lt in H. rewrite H. eauto. Qed.

Lemma bs_reset_done b i : i < BITSET_SIZE -> exists b', bs_reset b i = Done b'.
Proof. intros H. unfold bs_reset. apply Z.ltb_lt in H. rewrite H. eauto. Qed.

Lemma OverlapsLoop_spec n : forall b Page,
  0 <= Page -> OverlapsLoop b Page n = false ->
  forall q, in_pages Page (Z.of_nat n) q -> q < BITSET_SIZE -> q ∉ b.
Proof.
  unfold in_pages. induction n as [|n IH]; intros b Page HP H q Hq Hs; cbn [OverlapsLoop] in H; [lia|].
  destruct (Z.leb_spec BITSET_SIZE Page); [lia|].
  destruct (bool_decide_reflect (Page ∈ b)) as [|Hb]; [done|].
  rewrite u_small in H by (unfold is_u, BITSET_SIZE in *; lia).
  destruct (Z.eq_dec q Page) as [-> |]; [done|]. apply (IH _ (Page + 1) ltac:(lia) H); lia.
Qed.

(** ** Granules *)

Section granules.
Context (HostSize g : Z) (Hg : 0 <= g <= 8) (HHost : HostSize = 2 ^ (12 + g)).

Abbreviation G := (GranulePages HostSize).

Lemma granule_pages : G = 2 ^ g.
Proof using Hg HHost.
  unfold GranulePages, HostPage.Size. rewrite HHost, Z.shiftr_div_pow2 by done.
  change FEX_GUEST_PAGE_SHIFT with 12. rewrite Z.pow_add_r, Z.mul_comm, Z.div_mul by lia. done.
Qed.

Lemma granule_bounds : 1 <= G <= 256.
Proof using Hg HHost.
  rewrite granule_pages. split; [pose proof (Z.pow_pos_nonneg 2 g); lia|].
  change 256 with (2 ^ 8). apply Z.pow_le_mono_r; lia.
Qed.

Lemma granule_divides n : 8 <= n -> 2 ^ n mod G = 0.
Proof using Hg HHost.
  intros Hn. rewrite granule_pages. replace n with (g + (n - g)) by lia.
  rewrite Z.pow_add_r, Z.mul_comm by lia. apply Z_mod_mult.
Qed.

Lemma ldiff_granule x : Z.ldiff x (G - 1) = x / G * G.
Proof using Hg HHost.
  rewrite granule_pages. replace (2 ^ g - 1) with (Z.ones g) by (rewrite Z.ones_equiv; lia).
  rewrite Z.ldiff_ones_r, Z.shiftl_mul_pow2, Z.shiftr_div_pow2 by lia. done.
Qed.

Lemma GranuleFloor_spec q :
  GranuleFloor HostSize q mod G = 0 /\ GranuleFloor HostSize q <= q < GranuleFloor HostSize q + G.
Proof using Hg HHost.
  unfold GranuleFloor. rewrite ldiff_granule. pose proof granule_bounds.
  split; [apply Z_mod_mult|]. Z.to_euclidean_division_equations. nia.
Qed.

Lemma GranuleCeil_spec q :
  0 <= q < 2 ^ 63 ->
  GranuleCeil HostSize q mod G = 0 /\ q <= GranuleCeil HostSize q < q + G.
Proof using Hg HHost.
  intros Hq. unfold GranuleCeil. pose proof granule_bounds.
  rewrite u_small by (unfold is_u; lia). rewrite ldiff_granule.
  split; [apply Z_mod_mult|]. Z.to_euclidean_division_equations. nia.
Qed.

Lemma AlignPagesUp_spec q :
  0 <= q < 2 ^ 63 ->
  AlignPagesUp HostSize q mod G = 0 /\ q <= AlignPagesUp HostSize q < q + G.
Proof using Hg HHost. apply GranuleCeil_spec. Qed.

(** Multiples of the granule are at least a granule apart. *)
Lemma granule_gap x y : x mod G = 0 -> y mod G = 0 -> x < y -> x + G <= y.
Proof using Hg HHost.
  intros Hx Hy Hlt. pose proof granule_bounds.
  apply Z_div_exact_full_2 in Hx; [|lia]. apply Z_div_exact_full_2 in Hy; [|lia].
  assert (x / G < y / G) by nia. nia.
Qed.

(** Rounding up stays inside the bitset, which is a whole number of granules. *)
Lemma GranuleCeil_bitset q : 0 <= q <= BITSET_SIZE -> GranuleCeil HostSize q <= BITSET_SIZE.
Proof using Hg HHost.
  intros Hq. destruct (GranuleCeil_spec q) as [Hm Hb]; [unfold BITSET_SIZE in *; lia|].
  destruct (Z.le_gt_cases (GranuleCeil HostSize q) BITSET_SIZE) as [|Hgt]; [done|].
  apply granule_gap in Hgt; [lia| |done]. by apply (granule_divides 20).
Qed.

End granules.

(** ** The scan from the top *)

(** The pages of the bitset: all in range, with the first sixteen mapped. *)
Definition pages_ok (b : gset Z) : Prop :=
  (forall q, q ∈ b -> 0 <= q < BITSET_SIZE) /\ (forall q, 0 <= q < BASE_KEY -> q ∈ b).

Definition block_free (b : gset Z) (r Pages : Z) : Prop :=
  forall q, in_pages r Pages q -> q ∉ b.

Lemma scan_down_spec b Start n : forall off,
  pages_ok b -> Start < BITSET_SIZE -> 0 <= off <= Start ->
  (exists o, scan_down b Start off n = Done (Some o) /\ off <= o < off + Z.of_nat n /\
     o <= Start /\ Start - o ∈ b) \/
  (scan_down b Start off n = Done None /\ off + Z.of_nat n <= Start + 1 /\
   forall j, off <= j < off + Z.of_nat n -> Start - j ∉ b).
Proof.
  intros off Hb HS. revert off. induction n as [|n IH]; intros off Hoff; cbn [scan_down].
  - right. split; [done|]. split; [lia|]. intros j Hj. lia.
  - rewrite u_small by (unfold is_u, BITSET_SIZE in *; lia). unfold bs_test.
    rewrite (proj2 (Z.ltb_lt _ _)) by lia. cbn [obind].
    destruct (bool_decide_reflect (Start - off ∈ b)) as [Hm|Hm].
    + left. exists off. repeat split; try done; lia.
    + assert (off < Start) as Hlt.
      { destruct (Z.eq_dec off Start) as [-> |]; [|lia]. destruct Hm. apply Hb. unfold BASE_KEY. lia. }
      destruct (IH (off + 1) ltac:(lia)) as [(o & E & Ho & Hle & Hin)|(E & Hle & Hfree)].
      * left. exists o. repeat split; try done; lia.
      * right. split; [done|]. split; [lia|]. intros j Hj.
        destruct (Z.eq_dec j off) as [-> |]; [done|]. apply Hfree. lia.
Qed.

Section top_down.
Context (HostSize g : Z) (Hg : 0 <= g <= 8) (HHost : HostSize = 2 ^ (12 + g)).
Context (b : gset Z) (Pages : Z) (Hb : pages_ok b).

Abbreviation G := (GranulePages HostSize).

Context (HPages : 0 < Pages) (HPG : Pages mod G = 0).

(** A block of whole granules that ends at or below [Start]. *)
Definition candidate (Start r : Z) : Prop :=
  0 <= r /\ r mod G = 0 /\ r + Pages <= Start + 1 /\ block_free b r Pages.

(** The highest candidate, or zero without one. *)
Definition highest (Start r : Z) : Prop :=
  (r = 0 /\ forall r', ~ candidate Start r') \/
  (BASE_KEY <= r /\ candidate Start r /\ forall r', candidate Start r' -> r' <= r).

Definition below (Start : Z) : gset Z := filter (fun q => q <= Start) b.

(** A mapped page inside the last block rules out every candidate above its granule. *)
Lemma candidate_below Start q r :
  (Start + 1) mod G = 0 -> q ∈ b -> Start - Pages < q <= Start -> candidate Start r ->
  candidate (GranuleFloor HostSize q - 1) r.
Proof using Hg HHost HPG.
  intros HS Hq Hr (H0 & Hm & Hle & Hf). repeat split; try done.
  destruct (GranuleFloor_spec HostSize g Hg HHost q) as [Hfm Hfb].
  assert (~ in_pages r Pages q) as Hn by (intros Hin; by apply (Hf q)). unfold in_pages in Hn.
  assert ((r + Pages) mod G = 0) as Hrp.
  { pose proof (granule_bounds HostSize g Hg HHost). rewrite Z.add_mod, Hm, HPG by lia. done. }
  destruct (Z.le_gt_cases (r + Pages) (GranuleFloor HostSize q)) as [|Hgt]; [lia|].
  apply (granule_gap HostSize g Hg HHost) in Hgt; [lia|done|done].
Qed.

Lemma TopDownLoop_spec fuel : forall Start,
  (Start + 1) mod G = 0 -> -1 <= Start < BITSET_SIZE -> (size (below Start) < fuel)%nat ->
  exists r, TopDownLoop HostSize fuel b Start Pages = Done r /\ highest Start r.
Proof using Hg HHost Hb HPages HPG.
  induction fuel as [|fuel IH]; intros Start HS Hr Hf; [lia|]. cbn [TopDownLoop].
  destruct ((BASE_KEY <=? Start) && (Start <=? TOP_KEY)) eqn:E.
  - destruct (scan_down_spec b Start (Z.to_nat Pages) 0 Hb ltac:(lia) ltac:(unfold BASE_KEY in *; lia))
      as [(o & Es & Ho & Hle & Hin)|(Es & Hle & Hfree)]; rewrite Es; cbn [obind].
    + rewrite Z2Nat.id in Ho by lia.
      rewrite u_small by (unfold is_u, BITSET_SIZE in *; lia).
      destruct (GranuleFloor_spec HostSize g Hg HHost (Start - o)) as [Hfm Hfb].
      set (F := GranuleFloor HostSize (Start - o)) in *.
      assert (forall r, candidate Start r -> candidate (F - 1) r) as Hcand.
      { intros r Hc. apply (candidate_below Start); try done; lia. }
      assert (0 <= F) as HF.
      { unfold F, GranuleFloor. apply Z.ldiff_nonneg. lia. }
      destruct (Z.eqb_spec F 0) as [HF0|HF0].
      * exists 0. split; [done|]. left. split; [done|]. intros r' Hc%Hcand. unfold candidate in Hc. lia.
      * destruct (IH (F - 1)) as (r & Er & Hhi).
        -- by rewrite Z.sub_add.
        -- lia.
        -- assert (below (F - 1) ⊂ below Start) as Hsub%subset_size; [|lia].
           unfold below. split; [intros q; rewrite !elem_of_filter; intros [? ?]; split; [lia|done]|].
           intros Hs. specialize (Hs (Start - o)). rewrite !elem_of_filter in Hs.
           destruct Hs as [? _]; [split; [lia|done]|lia].
        -- exists r. split; [done|]. destruct Hhi as [[-> Hno]|(Hb16 & Hc & Hmax)].
           ++ left. split; [done|]. intros r' Hc'%Hcand. by apply (Hno r').
           ++ right. split; [done|]. split; [|intros r' Hc'%Hcand; by apply Hmax].
              destruct Hc as (? & ? & ? & ?). repeat split; try done. lia.
    + rewrite Z2Nat.id in Hle, Hfree by lia.
      rewrite u_small by (unfold is_u, BITSET_SIZE in *; lia).
      exists (Start - (Pages - 1)). split; [done|]. right.
      assert (block_free b (Start - (Pages - 1)) Pages) as Hbf.
      { intros q Hq. unfold in_pages in Hq. replace q with (Start - (Start - q)) by lia. apply Hfree. lia. }
      split; [|split].
      * destruct (Z.le_gt_cases BASE_KEY (Start - (Pages - 1))) as [|Hlt]; [done|].
        destruct (Hbf (Start - (Pages - 1))); [unfold in_pages; lia|]. apply Hb. lia.
      * repeat split; [lia| |lia|done]. pose proof (granule_bounds HostSize g Hg HHost).
        replace (Start - (Pages - 1)) with (Start + 1 - Pages) by lia.
        rewrite Zminus_mod, HS, HPG. by rewrite Z.mod_0_l by lia.
      * intros r' (? & ? & ? & ?). lia.
  - exists 0. split; [done|]. left. split; [done|]. intros r' (H0 & _ & Hle & Hbf).
    assert (Start < BASE_KEY) as HSb.
    { rewrite andb_false_iff, !Z.leb_gt in E. change TOP_KEY with 0xFFFFF in E. unfold BITSET_SIZE in Hr. lia. }
    apply (Hbf r'); [unfold in_pages; lia|]. apply Hb. lia.
Qed.

End top_down.

Lemma TopDown_spec HostSize g s Start Pages :
  0 <= g <= 8 -> HostSize = 2 ^ (12 + g) -> pages_ok (MappedPages s) ->
  0 <= Start < BITSET_SIZE -> 0 < Pages -> Pages mod GranulePages HostSize = 0 ->
  exists r, FindPageRange_TopDown HostSize s Start Pages = Done r /\
    highest HostSize (MappedPages s) Pages (GranuleCeil HostSize (Start + 1) - 1) r.
Proof.
  intros Hg HHost Hb HS HP HPG. unfold FindPageRange_TopDown.
  pose proof (granule_bounds HostSize g Hg HHost) as HG.
  rewrite (u_small 64 (Start + 1)) by (unfold is_u, BITSET_SIZE in *; lia).
  destruct (GranuleCeil_spec HostSize g Hg HHost (Start + 1)) as [Hm Hc]; [unfold BITSET_SIZE in *; lia|].
  pose proof (GranuleCeil_bitset HostSize g Hg HHost (Start + 1) ltac:(lia)) as Hle.
  rewrite u_small by (unfold is_u, BITSET_SIZE in *; lia).
  apply (TopDownLoop_spec HostSize g); try done.
  - by rewrite Z.sub_add.
  - lia.
  - unfold scan_fuel, below. apply Nat.lt_succ_r, subseteq_size. intros q. rewrite elem_of_filter. by intros [_ ?].
Qed.

(** C19: On every bitset in which the first sixteen pages are mapped, the scan from the top
    returns, for a request of whole granules, the highest free block of whole granules that ends
    at or below the granule of its starting page, and zero exactly when there is none. *)
Theorem TopDown_exact HostSize g s Start Pages :
  0 <= g <= 8 -> HostSize = 2 ^ (12 + g) -> pages_ok (MappedPages s) ->
  0 <= Start < BITSET_SIZE -> 0 < Pages -> Pages mod GranulePages HostSize = 0 ->
  exists r, FindPageRange_TopDown HostSize s Start Pages = Done r /\
    highest HostSize (MappedPages s) Pages (GranuleCeil HostSize (Start + 1) - 1) r.
Proof. apply TopDown_spec. Qed.
