(* ===== verification/Alloc32Calls.v ===== *)
(** * The allocator of 32-bit guests: its calls

    The invariant of the allocator, kept by every call that is answered by the kernel the way
    Linux documents it; a placement without an address ends, within the free pages of the
    bitset, with a block that no mapping and no host code used; and no call of a guest touches a
    page the host reserved. *)

From S2P Require Import Prelude VMA VMATrack VMATrackProps Granule GranuleProps Alloc32 Alloc32Props.
Import VMA Track MemAllocator32Bit.

(** ** The invariant *)

Definition in_bitset (q : Z) : Prop := 0 <= q < BITSET_SIZE.

Record alloc_ok (s : Alloc) : Prop := {
  ok_pages : pages_ok (MappedPages s);
  ok_reserved : HostReservedPages s ⊆ MappedPages s;
  ok_scan : in_bitset (LastScanLocation s);
  ok_key : in_bitset (LastKeyLocation s);
  ok_key32 : in_bitset (LastKeyLocation32Bit s);
}.

Lemma new_allocator_ok : alloc_ok new_allocator.
Proof.
  split; cbn; [|set_solver|done..]. split.
  - intros q [Hq|Hq]%elem_of_union.
    + apply elem_of_list_to_set, elem_of_seqZ in Hq. unfold BITSET_SIZE. lia.
    + apply elem_of_singleton in Hq as ->. done.
  - intros q Hq. apply elem_of_union_l, elem_of_list_to_set, elem_of_seqZ. unfold BASE_KEY in Hq. lia.
Qed.

(** Pages may be added anywhere in the bitset, and removed where the host has none. *)
Lemma ok_add s b :
  alloc_ok s -> MappedPages s ⊆ b -> (forall q, q ∈ b -> in_bitset q) -> alloc_ok (set_Mapped b s).
Proof.
  intros [[Hr Hl] Hres Hs Hk Hk32] Hsub Hb. split; cbn; try done; [|set_solver].
  split; [done|]. intros q Hq. by apply Hsub, Hl.
Qed.

Lemma ok_remove s b P n :
  alloc_ok s -> BASE_KEY <= P ->
  (forall q, q ∈ b <-> q ∈ MappedPages s /\ ~ in_pages P n q) ->
  (forall q, in_pages P n q -> q ∉ HostReservedPages s) -> alloc_ok (set_Mapped b s).
Proof.
  intros [[Hr Hl] Hres Hs Hk Hk32] HP Hb Hno. split; cbn; try done.
  - split; [intros q [Hq _]%Hb; by apply Hr|]. intros q Hq. apply Hb. split; [by apply Hl|].
    unfold in_pages. lia.
  - intros q Hq. apply Hb. split; [by apply Hres|]. intros Hin. by apply (Hno q).
Qed.

Lemma SetUsedPages_ok s P n s' :
  alloc_ok s -> 0 <= P -> SetUsedPages s P n = Done s' ->
  exists b, s' = set_Mapped b s /\ alloc_ok s' /\
    forall q, q ∈ b <-> q ∈ MappedPages s \/ in_pages P (Z.max 0 n) q.
Proof.
  intros Hok HP H. unfold SetUsedPages in H. unbind H. simplify_eq.
  destruct (for_pages_set _ _ _ _ HP E) as [Hq Hn].
  replace (Z.of_nat (Z.to_nat n)) with (Z.max 0 n) in * by lia.
  exists a. split; [done|]. split; [|done]. apply ok_add; [done|intros q; rewrite Hq; tauto|].
  intros q [Hin|Hin]%Hq; [by apply (ok_pages _ Hok)|]. unfold in_pages, in_bitset in *. lia.
Qed.

Lemma SetFreePages_ok s P n s' :
  alloc_ok s -> BASE_KEY <= P -> SetFreePages s P n = Done s' ->
  (forall q, in_pages P (Z.max 0 n) q -> q ∉ HostReservedPages s) ->
  exists b, s' = set_Mapped b s /\ alloc_ok s' /\
    forall q, q ∈ b <-> q ∈ MappedPages s /\ ~ in_pages P (Z.max 0 n) q.
Proof.
  intros Hok HP H Hno. unfold SetFreePages in H. unbind H. simplify_eq.
  assert (0 <= P) as HP0 by (unfold BASE_KEY in HP; lia).
  pose proof (for_pages_reset _ _ _ _ HP0 E) as Hq.
  replace (Z.of_nat (Z.to_nat n)) with (Z.max 0 n) in * by lia.
  exists a. split; [done|]. split; [|done]. by apply (ok_remove s a P (Z.max 0 n)).
Qed.

Lemma set_Prot_ok s m : alloc_ok s -> alloc_ok (set_Prot m s).
Proof. by intros []. Qed.

Lemma set_Shm_ok s m : alloc_ok s -> alloc_ok (set_Shm m s).
Proof. by intros []. Qed.

Lemma set_Scan_ok s q : alloc_ok s -> in_bitset q -> alloc_ok (set_Scan q s).
Proof. by intros []. Qed.

Lemma NoteGranuleProt_ok HostSize s P n prot reset s' :
  NoteGranuleProt HostSize s P n prot reset = Done s' -> exists m, s' = set_Prot m s.
Proof.
  unfold NoteGranuleProt. intros H. case_match; [simplify_eq; exists (GranuleProt s'); by destruct s'|].
  case_match; simplify_eq; eauto.
Qed.

(** ReserveHostRange keeps the invariant and reserves the pages it is given. *)
Lemma ReserveLoop_ok n : forall s P,
  alloc_ok s -> 0 <= P ->
  alloc_ok (ReserveLoop s P n) /\ HostReservedPages s ⊆ HostReservedPages (ReserveLoop s P n) /\
  forall q, in_pages P (Z.of_nat n) q -> q < BITSET_SIZE -> q ∈ HostReservedPages (ReserveLoop s P n).
Proof.
  unfold in_pages. induction n as [|n IH]; intros s P Hok HP; cbn [ReserveLoop]; [split; [done|]; split; [done|lia]|].
  destruct (Z.leb_spec BITSET_SIZE P); [split; [done|]; split; [done|lia]|].
  rewrite u_small by (unfold is_u, BITSET_SIZE in *; lia).
  set (s1 := set_Mapped _ _).
  assert (alloc_ok s1) as Hok1.
  { destruct Hok as [[Hr Hl] Hres Hs Hk Hk32]. split; cbn; try done; [|set_solver]. split.
    - intros q [->%elem_of_singleton|Hq]%elem_of_union; [lia|by apply Hr].
    - intros q Hq. apply elem_of_union_r. by apply Hl. }
  destruct (IH s1 (P + 1) Hok1 ltac:(lia)) as (H1 & H2 & H3).
  split; [done|]. split; [set_solver|]. intros q Hq Hqb.
  destruct (Z.eq_dec q P) as [-> |]; [|apply H3; lia]. apply H2. cbn. set_solver.
Qed.

(** ** The kernel, as its documentation describes it *)

(** The bytes of a call that lie in page [p]. *)
Definition covers (p addr len : Z) : Prop := addr < (p + 1) * 4096 /\ p * 4096 < addr + len.

Section calls.
Context {K : Type} (sys : Kernel K).

(** Error numbers are small; a placement that must not replace returns the address it was
    given; mremap needs an aligned source above the first pages. *)
Record kernel_ok : Prop := {
  k_mmap_err : forall k a l pr f fd o k' e, sys_mmap sys k a l pr f fd o = (k', inr e) -> 0 < e < 4096;
  k_mmap_addr : forall k a l pr f fd o k' q, sys_mmap sys k a l pr f fd o = (k', inl q) ->
    has_flag f FEX_MAP_FIXED_NOREPLACE = true -> q = a;
  k_pread_err : forall k fd a l o k' e, sys_pread sys k fd a l o = (k', inr e) -> 0 < e < 4096;
  k_pread_len : forall k fd a l o k' n, sys_pread sys k fd a l o = (k', inl n) -> 0 <= n <= l;
  k_mprotect_err : forall k a l pr k' e, sys_mprotect sys k a l pr = (k', Some e) -> 0 < e < 4096;
  k_mremap_src : forall k a l l' f n k' q, sys_mremap sys k a l l' f n = (k', inl q) ->
    a mod 4096 = 0 /\ BASE_KEY <= to_page a;
  k_mremap_dst : forall k a l l' f n k' q, sys_mremap sys k a l l' f n = (k', inl q) ->
    0 <= q /\ (has_flag f MREMAP_FIXED || has_flag f MREMAP_MAYMOVE = false -> q = a);
}.

(** A relation of kernel states that no call outside page [p] changes, for instance that [p]
    still holds the host's code.  Calls that do not replace mappings never change it.  A change of
    protection leaves the contents of every page; a relation that looks at the protection of [p] as well
    ([protects]) is only kept by those that do not cover [p]. *)
Record page_frame (p : Z) (protects : bool) (R : K -> K -> Prop) : Prop := {
  fr_refl : forall k, R k k;
  fr_trans : forall k1 k2 k3, R k1 k2 -> R k2 k3 -> R k1 k3;
  fr_mmap : forall k a l pr f fd o,
    has_flag f FEX_MAP_FIXED_NOREPLACE = true \/ ~ covers p a l -> R k (fst (sys_mmap sys k a l pr f fd o));
  fr_munmap : forall k a l, ~ covers p a l -> R k (fst (sys_munmap sys k a l));
  fr_mprotect : forall k a l pr, protects = false \/ ~ covers p a l -> R k (fst (sys_mprotect sys k a l pr));
  fr_mremap : forall k a l l' f n,
    (a mod 4096 = 0 -> ~ covers p a l) -> (has_flag f MREMAP_FIXED = true -> n mod 4096 = 0 -> ~ covers p n l') ->
    R k (fst (sys_mremap sys k a l l' f n));
  fr_pread : forall k fd a l o, ~ covers p a l -> R k (fst (sys_pread sys k fd a l o));
  fr_zero : forall k a l, ~ covers p a l -> R k (mem_zero sys k a l);
}.

(** ** Pages and bytes *)

Lemma to_page_div a : to_page a = a / 4096.
Proof. unfold to_page. by rewrite Z.shiftr_div_pow2. Qed.

Lemma of_page_mul q : 0 <= q < 2 ^ 52 -> of_page q = q * 4096.
Proof.
  intros Hq. unfold of_page. change FEX_GUEST_PAGE_SHIFT with 12.
  rewrite Z.shiftl_mul_pow2 by done. apply u_small. unfold is_u. lia.
Qed.

Lemma page_count_spec l :
  0 <= l -> l + 4096 <= 2 ^ 64 -> l <= page_count l * 4096 < l + 4096 /\ 0 <= page_count l.
Proof.
  intros Hl Hu. unfold page_count. destruct (AlignUp_spec l Hl Hu) as [Hb Hm].
  change FEX_GUEST_PAGE_SHIFT with 12. rewrite Z.shiftr_div_pow2 by done.
  change (2 ^ 12) with 4096. apply Z_div_exact_full_2 in Hm; [|done]. lia.
Qed.

Lemma flag_or f m : m <> 0 -> has_flag (f ||| m) m = true.
Proof.
  intros Hm. unfold has_flag. apply negb_true_iff, Z.eqb_neq. intros H. apply Hm.
  apply Z.bits_inj'. intros i Hi. apply (f_equal (fun x => Z.testbit x i)) in H.
  rewrite Z.land_spec, Z.lor_spec, Z.bits_0 in H. rewrite Z.bits_0.
  destruct (Z.testbit m i); [by rewrite orb_true_r in H|done].
Qed.

(** A free block does not meet a mapped page. *)
Lemma free_not_covers b r n q l :
  q ∈ b -> block_free b r n -> l <= n * 4096 -> ~ covers q (r * 4096) l.
Proof. intros Hq Hf Hl [H1 H2]. apply (Hf q); [|done]. unfold in_pages. lia. Qed.

Lemma any_frame p pf : page_frame p pf (fun _ _ => True).
Proof. by split. Qed.

Lemma ReadFully_frame p pf R fuel : kernel_ok -> page_frame p pf R -> forall k FD Out Size Off k' e,
  0 <= Out -> 0 <= Size -> Out + Size < 2 ^ 64 -> ~ covers p Out Size ->
  ReadFully sys fuel k FD Out Size Off = Done (k', e) -> R k k'.
Proof.
  intros Hk0 HR. induction fuel as [|fuel IH]; intros k FD Out Size Off k' e HO HS Hu Hc H; cbn [ReadFully] in H;
    (destruct (Z.eqb_spec Size 0) as [HS0|HS0]; [simplify_eq; apply HR|]); [done|].
  pose proof (fr_pread _ _ _ HR k FD Out Size Off Hc) as Hk.
  destruct (sys_pread sys k FD Out Size Off) as [k1 [n|err]] eqn:E; cbn [fst snd] in *.
  - pose proof (k_pread_len Hk0 _ _ _ _ _ _ _ E) as Hn. destruct (Z.eqb_spec n 0); [by simplify_eq|].
    rewrite (u_small 64 (Out + n)), (u_small 64 (Size - n)) in H by (unfold is_u; lia).
    eapply (fr_trans _ _ _ HR); [exact Hk|]. eapply IH; [..|exact H]; try lia.
    intros [? ?]. apply Hc. split; lia.
  - case_match; [|by simplify_eq/=]. eapply (fr_trans _ _ _ HR); [exact Hk|]. eapply IH; [..|exact H]; done.
Qed.

Lemma ReadFully_err fuel : kernel_ok -> forall k FD Out Size Off k' e,
  ReadFully sys fuel k FD Out Size Off = Done (k', Some e) -> 0 < e < 4096.
Proof.
  intros Hk. induction fuel as [|fuel IH]; intros k FD Out Size Off k' e H; cbn [ReadFully] in H;
    (destruct (Size =? 0); [done|]); [done|].
  destruct (sys_pread sys k FD Out Size Off) as [k1 [n|err]] eqn:E; case_match; simplify_eq; eauto.
  by eapply k_pread_err.
Qed.

(** The attempt to map a block whose bytes are outside page [p]. *)
Lemma TryMap_frame p pf R fuel k fb T HL len prot fl fd off k' r once :
  kernel_ok -> page_frame p pf R -> 0 <= T -> 0 <= len <= HL -> T + HL < 2 ^ 64 -> ~ covers p T HL ->
  TryMap sys fuel k fb T HL len prot fl fd off = Done (k', r, once) ->
  R k k' /\ (forall q, r = inl q -> q = T) /\ (forall e, r = inr e -> 0 < e < 4096).
Proof.
  intros Hk HR HT Hlen Hu Hc H. unfold TryMap in H. destruct fb.
  - set (f2 := _ ||| FEX_MAP_FIXED_NOREPLACE) in H.
    assert (has_flag f2 FEX_MAP_FIXED_NOREPLACE = true) as Hf by (by apply flag_or).
    pose proof (fr_mmap _ _ _ HR k T HL (PROT_READ ||| PROT_WRITE) f2 (-1) 0 (or_introl Hf)) as H1.
    destruct (sys_mmap sys k T HL (PROT_READ ||| PROT_WRITE) f2 (-1) 0) as [k1 [q|e]] eqn:E; cbn [fst] in H1.
    2:{ simplify_eq. split; [done|]. split; [done|]. intros e' [= <-]. by eapply k_mmap_err. }
    pose proof (k_mmap_addr Hk _ _ _ _ _ _ _ _ _ E Hf) as ->.
    unbind H. destruct a as [k2 err].
    assert (R k k2) as H2.
    { eapply (fr_trans _ _ _ HR); [exact H1|]. eapply ReadFully_frame; [exact Hk|exact HR|..|exact E0]; try lia.
      intros [? ?]. apply Hc. split; lia. }
    assert (forall k3, R k k3 -> R k (fst (sys_munmap sys k3 T HL))) as Hun.
    { intros k3 H3. eapply (fr_trans _ _ _ HR); [exact H3|]. by apply (fr_munmap _ _ _ HR). }
    destruct err as [e|].
    + simplify_eq. split; [by apply Hun|]. split; [done|]. intros e' [= <-].
      by eapply ReadFully_err.
    + destruct (negb _); [|simplify_eq; split; [done|]; split; [congruence|done]].
      pose proof (fr_mprotect _ _ _ HR k2 T HL prot (or_intror Hc)) as H3.
      destruct (sys_mprotect sys k2 T HL prot) as [k3 [e|]] eqn:E1; cbn [fst] in H3; simplify_eq.
      * split; [apply Hun; by eapply (fr_trans _ _ _ HR)|]. split; [done|].
        intros e' [= <-]. by eapply k_mprotect_err.
      * split; [by eapply (fr_trans _ _ _ HR)|]. split; [congruence|done].
  - set (f2 := _ ||| FEX_MAP_FIXED_NOREPLACE) in H.
    assert (has_flag f2 FEX_MAP_FIXED_NOREPLACE = true) as Hf by (by apply flag_or).
    pose proof (fr_mmap _ _ _ HR k T HL prot f2 fd off (or_introl Hf)) as H1.
    destruct (sys_mmap sys k T HL prot f2 fd off) as [k1 r1] eqn:E; cbn [fst] in H1. simplify_eq.
    split; [done|]. split; [intros q ->; by eapply k_mmap_addr|intros e ->; by eapply k_mmap_err].
Qed.

(** ** Placement without an address *)

Lemma MarkCollisions_spec k n : forall b P any b' any',
  0 <= P -> MarkCollisions sys k b P n any = Done (b', any') ->
  b ⊆ b' /\ (forall q, q ∈ b' -> q ∈ b \/ in_pages P (Z.of_nat n) q /\ q < BITSET_SIZE) /\
  (any' = true -> any = true \/ exists q, in_pages P (Z.of_nat n) q /\ q ∈ b').
Proof.
  unfold in_pages. induction n as [|n IH]; intros b P any b' any' HP H; cbn [MarkCollisions] in H.
  - simplify_eq. split; [done|]. split; [by left|]. by left.
  - destruct (sys_mincore sys k (of_page P)).
    + unbind H. unfold bs_set in E. destruct (Z.ltb_spec P BITSET_SIZE); simplify_eq.
      destruct (IH _ (P + 1) _ _ _ ltac:(lia) H) as (H1 & H2 & H3). split; [set_solver|]. split.
      * intros q [[->%elem_of_singleton|Hq]%elem_of_union|Hq]%H2; [right; lia|by left|right; lia].
      * intros _. right. exists P. split; [lia|]. apply H1. set_solver.
    + destruct (IH _ (P + 1) _ _ _ ltac:(lia) H) as (H1 & H2 & H3). split; [done|]. split.
      * intros q [Hq|Hq]%H2; [by left|right; lia].
      * intros [Ha|(q & Hq & Hin)]%H3; [by left|]. right. exists q. split; [lia|done].
Qed.

(** The allocator only gained pages. *)
Record grows (s s' : Alloc) : Prop := {
  gr_ok : alloc_ok s';
  gr_mapped : MappedPages s ⊆ MappedPages s';
  gr_reserved : HostReservedPages s' = HostReservedPages s;
  gr_keys : LastKeyLocation s' = LastKeyLocation s /\ LastKeyLocation32Bit s' = LastKeyLocation32Bit s;
}.

Lemma grows_refl s : alloc_ok s -> grows s s.
Proof. by split. Qed.

Lemma grows_trans s1 s2 s3 : grows s1 s2 -> grows s2 s3 -> grows s1 s3.
Proof.
  intros [A1 B1 C1 [D1 E1]] [A2 B2 C2 [D2 E2]]. split; [done|set_solver|congruence|split; congruence].
Qed.

Lemma collision_grows s k n Lower b any b' :
  alloc_ok s -> 0 < n -> 0 <= Lower -> Lower + n <= BITSET_SIZE ->
  MarkCollisions sys k (MappedPages s) Lower (Z.to_nat n) false = Done (b, any) ->
  (if any then Done b else bs_set b Lower) = Done b' ->
  grows s (set_Mapped b' s) /\ exists q, in_pages Lower n q /\ q ∈ b'.
Proof.
  intros Hok Hn HL HLn Hm Hb. destruct (MarkCollisions_spec _ _ _ _ _ _ _ HL Hm) as (H1 & H2 & H3).
  rewrite Z2Nat.id in * by lia.
  assert (b ⊆ b' /\ (forall q, q ∈ b' -> q ∈ b \/ q = Lower) /\ exists q, in_pages Lower n q /\ q ∈ b')
    as (Hsub & Hnew & Hex).
  { destruct any.
    - simplify_eq. split; [done|]. split; [by left|]. by destruct (H3 eq_refl) as [|?].
    - unfold bs_set in Hb. case_match; simplify_eq. split; [set_solver|]. split; [set_solver|].
      exists Lower. split; [unfold in_pages; lia|set_solver]. }
  split; [|done]. split; cbn; [|set_solver|done|done]. apply ok_add; [done|set_solver|].
  unfold in_bitset, in_pages in *. intros q [[Hq|Hq]%H2| ->]%Hnew; [by apply (ok_pages _ Hok)|lia|lia].
Qed.

Lemma size_pages s : alloc_ok s -> Z.of_nat (size (MappedPages s)) <= BITSET_SIZE.
Proof.
  intros Hok. assert (MappedPages s ⊆ list_to_set (seqZ 0 BITSET_SIZE)) as Hsub%subseteq_size.
  { intros q Hq%(ok_pages _ Hok). apply elem_of_list_to_set, elem_of_seqZ. lia. }
  rewrite size_list_to_set, length_seqZ in Hsub by apply NoDup_seqZ. unfold BITSET_SIZE in *. lia.
Qed.

Definition free_pages (s : Alloc) : Z := BITSET_SIZE - Z.of_nat (size (MappedPages s)).

Lemma MarkCollisions_done k n : forall b P any,
  0 <= P -> P + Z.of_nat n <= BITSET_SIZE -> exists r, MarkCollisions sys k b P n any = Done r.
Proof.
  induction n as [|n IH]; intros b P any HP Hn; cbn [MarkCollisions]; [eauto|].
  destruct (sys_mincore sys k (of_page P)); [|apply IH; lia].
  destruct (bs_set_done b P) as [b' ->]; [lia|]. cbn. apply IH; lia.
Qed.

Lemma SetUsedPages_done s q n :
  0 <= q -> 0 <= n -> q + n <= BITSET_SIZE -> exists s', SetUsedPages s q n = Done s'.
Proof.
  intros Hq Hn Hqn. unfold SetUsedPages.
  destruct (for_pages_done bs_set (Z.to_nat n) (MappedPages s) q bs_set_done Hq) as [b ->]; [lia|]. cbn. eauto.
Qed.

Section host.
Context (HostSize g : Z) (Hg : 0 <= g <= 8) (HHost : HostSize = 2 ^ (12 + g)).

Abbreviation G := (GranulePages HostSize).

(** The block of [n] pages at address [r] was free in [s] and is used in [s']. *)
Definition placed (s s' : Alloc) (n r : Z) : Prop :=
  exists q, r = q * 4096 /\ BASE_KEY <= q /\ q mod G = 0 /\ q + n <= BITSET_SIZE /\
  block_free (MappedPages s) q n /\ forall x, in_pages q n x -> x ∈ MappedPages s'.

Lemma placed_before s s1 s' n r : grows s s1 -> placed s1 s' n r -> placed s s' n r.
Proof.
  intros Hgr (q & Hr & H1 & H2 & H3 & Hf & Hin). exists q. repeat split; try done.
  intros x Hx Hm. apply (Hf x Hx). by apply (gr_mapped _ _ Hgr).
Qed.

(** The pages found by the scan, tried twice as the source does. *)
Lemma find_twice s first second n Lower Bottom :
  alloc_ok s -> in_bitset first -> in_bitset second -> 0 < n -> n mod G = 0 ->
  (let! l := FindPageRangePtr HostSize s first n in
   if l =? 0 then let! l' := FindPageRangePtr HostSize s second n in Done (second, l') else Done (first, l))
  = Done (Bottom, Lower) ->
  in_bitset Bottom /\
  (Lower = 0 \/ BASE_KEY <= Lower /\ Lower mod G = 0 /\ Lower + n <= BITSET_SIZE /\ block_free (MappedPages s) Lower n).
Proof using Hg HHost.
  intros Hok H1 H2 Hn HnG H. unfold FindPageRangePtr in H.
  assert (forall st r, in_bitset st -> FindPageRange_TopDown HostSize s st n = Done r ->
    r = 0 \/ BASE_KEY <= r /\ r mod G = 0 /\ r + n <= BITSET_SIZE /\ block_free (MappedPages s) r n) as Hf.
  { intros st r Hst E. destruct (TopDown_spec HostSize g s st n) as (r' & E' & Hhi); try done; [apply Hok|].
    rewrite E in E'. injection E' as <-. destruct Hhi as [[-> _]|(Hb & (_ & Hm & Hle & Hfree) & _)]; [by left|].
    right. repeat split; try done.
    pose proof (GranuleCeil_bitset HostSize g Hg HHost (st + 1) ltac:(unfold in_bitset in Hst; lia)). lia. }
  unbind H. destruct (Z.eqb_spec a 0); [unbind H|]; simplify_eq; eauto.
Qed.

Section no_hint.
Context (p : Z) (pf : bool) (R : K -> K -> Prop) (Hk : kernel_ok) (HR : page_frame p pf R).
Context (fb m32 : bool) (n len prot fl fd off : Z).
Context (Hn : 0 < n <= BITSET_SIZE) (HnG : n mod G = 0) (Hlen : 0 <= len <= n * 4096).

Lemma NoHintLoop_spec fuel : forall s k Bottom s' k' r,
  alloc_ok s -> p ∈ MappedPages s -> in_bitset Bottom ->
  NoHintLoop HostSize sys fb m32 n len prot fl fd off fuel s k Bottom = Done (s', k', r) ->
  grows s s' /\ R k k' /\ (placed s s' n r \/ -4096 < r < 0).
Proof using Hg HHost Hk HR Hn HnG Hlen.
  induction fuel as [|fuel IH]; intros s k Bottom s' k' r Hok Hpm HB H; [done|].
  cbn [NoHintLoop] in H. unbind H. rename a into l, E into E1. unbind H. destruct a as [Bt Lower].
  destruct (find_twice s Bottom (if m32 then LastKeyLocation32Bit s else LastKeyLocation s) n Lower Bt)
    as [HBt HL]; try done; [destruct m32; [apply (ok_key32 _ Hok)|apply (ok_key _ Hok)]|lia|by rewrite E1|].
  destruct (Z.eqb_spec Lower 0) as [|HL0].
  { simplify_eq. split; [by apply grows_refl|]. split; [apply HR|]. right. unfold ENOMEM. lia. }
  destruct HL as [|(HL1 & HL2 & HL3 & HL4)]; [done|]. unfold BASE_KEY, BITSET_SIZE in *.
  unbind H. destruct a as [[k1 res] once]. rewrite of_page_mul in E0 by lia.
  rewrite (Z.shiftl_mul_pow2 n) in E0 by done. change (2 ^ FEX_GUEST_PAGE_SHIFT) with 4096 in E0.
  rewrite (u_small 64 (n * 4096)) in E0 by (unfold is_u; lia).
  pose proof (free_not_covers _ Lower n p (n * 4096) Hpm HL4 ltac:(lia)) as Hnc.
  apply (TryMap_frame p pf R) in E0 as (Hk1 & Hptr & Herr); [|done|done|lia|done|lia|done].
  destruct res as [q|e].
  - specialize (Hptr q eq_refl) as ->. unbind H.
    destruct (SetUsedPages_ok (set_Scan Lower s) Lower n a) as (b & -> & Hok1 & Hb); [|lia|done|].
    { apply set_Scan_ok; [done|]. unfold in_bitset, BITSET_SIZE. lia. }
    rewrite Z.max_r in Hb by lia. unbind H. destruct (NoteGranuleProt_ok _ _ _ _ _ _ _ E2) as [m ->].
    simplify_eq. split; [|split; [done|]].
    + split; cbn; [by apply set_Prot_ok| |done|done]. intros x Hx. apply Hb. by left.
    + left. exists Lower. repeat split; try (done || lia || (unfold BASE_KEY; lia)).
      intros x Hx. cbn. apply Hb. by right.
  - destruct (once || negb (e =? EEXIST)).
    { simplify_eq. specialize (Herr e eq_refl). split; [by apply grows_refl|]. split; [done|]. right. lia. }
    unbind H. destruct a as [b any]. unbind H.
    destruct (collision_grows s k1 n Lower b any a) as [Hgr _]; try done; [lia|lia|].
    destruct (IH _ _ _ _ _ _ (gr_ok _ _ Hgr) (gr_mapped _ _ Hgr _ Hpm) HBt H) as (Hgr2 & HR2 & Hres).
    split; [by eapply grows_trans|]. split; [by eapply (fr_trans _ _ _ HR)|].
    destruct Hres as [Hpl|]; [left; by eapply placed_before|by right].
Qed.

End no_hint.

(** ** The search ends *)

Lemma find_done s st n :
  alloc_ok s -> in_bitset st -> 0 < n -> n mod G = 0 -> exists r, FindPageRangePtr HostSize s st n = Done r.
Proof using Hg HHost.
  intros Hok Hst Hn HnG. destruct (TopDown_spec HostSize g s st n) as (r & E & _); try done; [apply Hok|].
  by exists r.
Qed.

Lemma NoteGranuleProt_done s q n prot reset :
  0 <= q -> 0 <= n -> q + n <= BITSET_SIZE -> exists s', NoteGranuleProt HostSize s q n prot reset = Done s'.
Proof using Hg HHost.
  intros Hq Hn Hqn. unfold NoteGranuleProt. case_match; [eauto|].
  pose proof (granule_bounds HostSize g Hg HHost).
  rewrite (u_small 64 (q + n)) by (unfold is_u, BITSET_SIZE in *; lia).
  destruct (GranuleFloor_spec HostSize g Hg HHost q) as [_ Hf].
  destruct (GranuleCeil_spec HostSize g Hg HHost (q + n)) as [_ Hc]; [unfold BITSET_SIZE in *; lia|].
  assert (0 <= GranuleFloor HostSize q) by (unfold GranuleFloor; apply Z.ldiff_nonneg; lia).
  edestruct (for_range_rule (fun _ (_ : gmap Z Z) => True)) as (m & j & E & _); [..|rewrite E; eauto];
    try (unfold BITSET_SIZE in *; lia); eauto.
Qed.


Lemma find_twice_done s first second n :
  alloc_ok s -> in_bitset first -> in_bitset second -> 0 < n -> n mod G = 0 ->
  exists l Bt Lower, FindPageRangePtr HostSize s first n = Done l /\
  (if l =? 0 then let! l' := FindPageRangePtr HostSize s second n in Done (second, l') else Done (first, l))
  = Done (Bt, Lower).
Proof using Hg HHost.
  intros Hok H1 H2 Hn HnG. destruct (find_done s first n) as [l E]; try done.
  destruct (find_done s second n) as [l' E']; try done. rewrite E'. cbn.
  exists l. destruct (l =? 0); eexists _, _; by split.
Qed.

Lemma NoHintLoop_done m32 n len prot fl fd off fuel :
  0 < n <= BITSET_SIZE -> n mod G = 0 -> forall s k Bottom,
  alloc_ok s -> in_bitset Bottom -> free_pages s < Z.of_nat fuel ->
  exists s' k' r, NoHintLoop HostSize sys false m32 n len prot fl fd off fuel s k Bottom = Done (s', k', r).
Proof using Hg HHost.
  intros Hn HnG. induction fuel as [|fuel IH]; intros s k Bottom Hok HB Hf.
  { pose proof (size_pages _ Hok). unfold free_pages in Hf. lia. }
  cbn [NoHintLoop].
  set (second := if m32 then LastKeyLocation32Bit s else LastKeyLocation s).
  assert (in_bitset second) as Hsec by (subst second; destruct m32; [apply (ok_key32 _ Hok)|apply (ok_key _ Hok)]).
  destruct (find_twice_done s Bottom second n) as (l & Bt & Lower & E & E'); try done; [lia|].
  destruct (find_twice s Bottom second n Lower Bt) as [HBt HL]; try done; [lia|by rewrite E|].
  rewrite E. cbn [obind]. cbv zeta. rewrite E'. cbn [obind].
  destruct (Z.eqb_spec Lower 0) as [|HL0]; [eauto|]. destruct HL as [|(HL1 & HL2 & HL3 & HL4)]; [done|].
  unfold TryMap. destruct (sys_mmap sys k _ _ _ _ _ _) as [k1 [q|e]]; cbn [obind].
  - destruct (SetUsedPages_done (set_Scan Lower s) Lower n) as [s1 ->]; [unfold BASE_KEY in *; lia|lia|done|].
    cbn [obind]. destruct (NoteGranuleProt_done s1 Lower n prot true) as [s2 ->]; [unfold BASE_KEY in *; lia|lia|done|].
    cbn. eauto.
  - destruct (false || negb (e =? EEXIST)); [eauto|].
    destruct (MarkCollisions_done k1 (Z.to_nat n) (MappedPages s) Lower false) as [[b any] Em];
      [unfold BASE_KEY in *; lia|lia|].
    rewrite Em. cbn [obind].
    assert (exists b', (if any then Done b else bs_set b Lower) = Done b') as [b' Eb].
    { destruct any; [eauto|]. apply bs_set_done. lia. }
    rewrite Eb. cbn [obind].
    destruct (collision_grows s k1 n Lower b any b') as [Hgr (q & Hq & Hin)]; try done; [lia|unfold BASE_KEY in *; lia|].
    apply IH; [apply Hgr|done|].
    assert (MappedPages s ⊂ b') as Hs%subset_size.
    { split; [apply (gr_mapped _ _ Hgr)|]. intros Hsub. apply (HL4 q Hq). by apply Hsub. }
    pose proof (size_pages _ (gr_ok _ _ Hgr)) as Hsz.
    unfold free_pages in *. cbn [MappedPages set_Mapped] in *. lia.
Qed.

End host.
End calls.
