(* ===== verification/Alloc32Safe.v ===== *)
(** * The allocator of 32-bit guests: the calls keep the invariant and the reserved pages

    Placement without an address ends with a free block or an error; Mmap, Munmap and Mremap
    keep the invariant and the contents of the pages the host reserved ([safe]), including the
    emulation of requests smaller than a host granule. *)

From S2P Require Import Prelude VMA VMATrack VMATrackProps Granule GranuleProps Alloc32 Alloc32Props Alloc32Calls.
Import VMA Track MemAllocator32Bit.

Section host.
Context (HostSize g : Z) (Hg : 0 <= g <= 8) (HHost : HostSize = 2 ^ (12 + g)).
Context {K : Type} (sys : Kernel K).

Abbreviation G := (GranulePages HostSize).

Lemma host_size : HostSize = G * 4096.
Proof using Hg HHost. rewrite (granule_pages HostSize g), HHost, Z.pow_add_r by lia. lia. Qed.

(** The pages a request of [length] bytes takes. *)
Definition request_pages (length : Z) : Z := AlignPagesUp HostSize (page_count length).

Lemma request_pages_spec length :
  0 < length <= 2 ^ 32 ->
  0 < request_pages length <= BITSET_SIZE /\ request_pages length mod G = 0 /\
  page_count length <= request_pages length /\ length <= page_count length * 4096.
Proof using Hg HHost.
  intros Hl. destruct (page_count_spec length) as [Hc Hc0]; [lia|lia|].
  destruct (AlignPagesUp_spec HostSize g Hg HHost (page_count length)) as [Hm Hb]; [lia|].
  pose proof (granule_bounds HostSize g Hg HHost). unfold request_pages. repeat split; try done; try lia.
  apply (GranuleCeil_bitset HostSize g Hg HHost). unfold BITSET_SIZE. lia.
Qed.

Lemma unaligned_mod x : 0 <= x -> guest_unaligned x = negb (x mod 4096 =? 0).
Proof.
  intros Hx. unfold guest_unaligned. change (FEX_GUEST_PAGE_SIZE - 1) with (Z.ones 12).
  by rewrite Z.land_ones by lia.
Qed.

Definition not_fixed (flags : Z) : Prop :=
  has_flag flags MAP_FIXED = false /\ has_flag flags FEX_MAP_FIXED_NOREPLACE = false.

Lemma start_ok s (m32 : bool) :
  alloc_ok s -> in_bitset (if m32 && (LastKeyLocation32Bit s <=? LastScanLocation s)
                           then LastKeyLocation32Bit s else LastScanLocation s).
Proof. intros []. by destruct (m32 && _). Qed.

(** A placement without an address ends, with an error or a free block. *)
Lemma Mmap_no_address fuel s k addr length prot flags fd offset :
  kernel_ok sys -> alloc_ok s -> free_pages s < Z.of_nat fuel ->
  0 <= addr -> addr mod 4096 = 0 -> 0 < length -> addr + length < 2 ^ 32 -> not_fixed flags ->
  fd = -1 \/ HostPage.IsAligned HostSize offset = true /\ guest_unaligned offset = false ->
  exists s' k' r, Mmap HostSize sys fuel s k addr length prot flags fd offset = Done (s', k', r) /\
    alloc_ok s' /\ (placed HostSize s s' (request_pages length) r \/ -4096 < r < 0).
Proof using Hg HHost.
  intros Hk Hok Hf Ha Ham Hl Hal [Hn1 Hn2] Hfd. unfold Mmap.
  rewrite (unaligned_mod addr), Ham by done. cbn [Z.eqb negb].
  replace (negb (fd =? -1) && guest_unaligned offset) with false
    by (symmetry; destruct Hfd as [-> |[_ ->]]; [done|apply andb_false_r]).
  replace (2 ^ 32 - 1 <? u64 (addr + length)) with false
    by (symmetry; apply Z.ltb_ge; rewrite u_small by (unfold is_u; lia); lia).
  rewrite Hn1, Hn2. cbn [orb andb]. cbv zeta.
  replace (negb (fd =? -1) && negb (HostPage.IsAligned HostSize offset)) with false
    by (symmetry; destruct Hfd as [-> |[-> _]]; [done|apply andb_false_r]). cbn [andb Z.eqb].
  destruct (request_pages_spec length) as (Hr1 & Hr2 & Hr3 & Hr4); [lia|].
  unfold AllocateNoHint. fold (request_pages length).
  set (st := if has_flag flags X86_64_MAP_32BIT && _ then _ else _).
  assert (in_bitset st) as Hst by (by apply start_ok).
  destruct (NoHintLoop_done sys HostSize g Hg HHost (has_flag flags X86_64_MAP_32BIT) (request_pages length)
    length prot (Z.ldiff flags X86_64_MAP_32BIT) fd offset fuel Hr1 Hr2 s k st Hok Hst Hf) as (s' & k' & r & E).
  exists s', k', r. split; [done|].
  destruct (NoHintLoop_spec sys HostSize g Hg HHost 0 true (fun _ _ => True) Hk (any_frame sys 0 true) _ _ _ length _ _ _ _
    Hr1 Hr2 ltac:(lia) _ _ _ _ _ _ _ Hok ltac:(apply (ok_pages _ Hok); unfold BASE_KEY; lia) Hst E) as (Hgr & _ & Hres).
  split; [apply Hgr|done].
Qed.

(** ** Pages the host reserved *)

Lemma OtherLivePages_spec b SB SE n : forall P,
  0 <= P -> P + Z.of_nat n <= 2 ^ 63 -> OtherLivePages b P SB SE n = false ->
  forall q, in_pages P (Z.of_nat n) q -> q < BITSET_SIZE -> ~ (SB <= q < SE) -> q ∉ b.
Proof using Type.
  clear. unfold in_pages. induction n as [|n IH]; intros P HP Hn H q Hq Hb Hs; cbn [OtherLivePages] in H; [lia|].
  rewrite u_small in H by (unfold is_u; lia).
  destruct (Z.eq_dec q P) as [-> |Hne].
  - replace ((SB <=? P) && (P <? SE)) with false in H by lia.
    replace (P <? BITSET_SIZE) with true in H by lia. cbn in H.
    by destruct (bool_decide_reflect (P ∈ b)).
  - assert (OtherLivePages b (P + 1) SB SE n = false) as H' by (repeat case_match; done).
    apply (IH (P + 1)); [lia|lia|done|lia|done|done].
Qed.

Section frame.
Context (p : Z) (pf : bool) (R : K -> K -> Prop) (Hk : kernel_ok sys) (HR : page_frame sys p pf R).

Section sub_granule.
Context (Addr Length prot flags fd offset : Z).
Context (HA : 0 <= Addr) (HAm : Addr mod 4096 = 0) (HL : 0 <= Length) (HAL : Addr + Length <= 2 ^ 32).
Context (Hc : ~ covers p Addr Length).
Context (Hwhole : pf = true -> forall Gr, Gr mod HostSize = 0 -> Addr - HostSize < Gr < Addr + Length -> ~ covers p Gr HostSize).

(** A granule of the request is protected for nothing, or without [p]. *)
Lemma granule_protect Gr : Gr mod HostSize = 0 -> Addr - HostSize < Gr < Addr + Length -> pf = false \/ ~ covers p Gr HostSize.
Proof. destruct pf; [right; by apply Hwhole|by left]. Qed.

Abbreviation End_ := (Addr + Length).

Lemma FillGranule_frame fuel k pr CS CE k' e :
  Addr <= CS <= CE -> CE <= End_ ->
  FillGranule sys fuel k pr flags fd offset Addr CS CE = Done (k', e) -> R k k'.
Proof.
  intros H1 H2 H. assert (~ covers p CS (CE - CS)) as Hn by (intros [? ?]; apply Hc; split; lia).
  unfold FillGranule in H. destruct (has_flag flags MAP_ANONYMOUS).
  - injection H as <- _. destruct pr; [by apply (fr_zero _ _ _ _ HR)|apply HR].
  - eapply ReadFully_frame; [exact Hk|exact HR|..|exact H]; try done; lia.
Qed.

(** The rest of the step, after the granule was taken or opened. *)
Lemma step_tail_frame fuel s k pr Gr CS CE GP s' k' e :
  Addr <= CS <= CE -> CE <= End_ -> pf = false \/ ~ covers p Gr HostSize ->
  (let! (k, err) := FillGranule sys fuel k pr flags fd offset Addr CS CE in
   match err with
   | Some e => Done (s, k, Some e)
   | None =>
       let Union := GranuleUnionProt s GP prot in
       let s := set_Prot (<[GP := Union]> (GranuleProt s)) s in
       let '(k, err) := sys_mprotect sys k Gr HostSize Union in Done (s, k, err)
   end) = Done (s', k', e) ->
  R k k' /\ exists m, s' = set_Prot m s.
Proof.
  intros H1 H2 Hpf H. unbind H. destruct a as [k1 err]. apply FillGranule_frame in E; [|lia|lia].
  destruct err; [simplify_eq; split; [done|]; exists (GranuleProt s'); by destruct s'|].
  cbv zeta in H. pose proof (fr_mprotect _ _ _ _ HR k1 Gr HostSize (GranuleUnionProt s GP prot) Hpf) as H3.
  destruct (sys_mprotect sys k1 Gr HostSize _) as [k2 err]. cbn [fst] in H3. simplify_eq.
  split; [by eapply (fr_trans _ _ _ _ HR)|eauto].
Qed.

(** A granule is only replaced when no other page of it is mapped. *)
Lemma fresh_granule s Gr :
  alloc_ok s -> p ∈ MappedPages s -> 0 <= Gr < End_ -> Gr mod HostSize = 0 ->
  GranuleHasOtherLivePages HostSize s (to_page Gr) (to_page (Z.max Gr Addr))
    (to_page (AlignUp (Z.min (Gr + HostSize) End_) FEX_GUEST_PAGE_SIZE)) = false ->
  ~ covers p Gr HostSize.
Proof.
  intros Hok Hp HGr HGm H [C1 C2]. pose proof (granule_bounds HostSize g Hg HHost) as HG.
  pose proof host_size as HS. destruct (ok_pages _ Hok) as [Hrange _]. specialize (Hrange p Hp).
  destruct (AlignUp_spec (Z.min (Gr + HostSize) End_)) as [HU HUm]; [lia|lia|].
  assert (Gr mod 4096 = 0) as HGm'.
  { apply Z.mod_divide in HGm as [x ->]; [|lia]. rewrite HS, Z.mul_assoc. apply Z_mod_mult. }
  apply Z.mod_divide in HGm' as [gp ->]; [|lia]. apply Z.mod_divide in HUm as [u Eu]; [|lia].
  assert (exists ap, Addr = ap * 4096) as [ap Ea] by (apply Z.mod_divide in HAm; [done|lia]).
  rewrite Eu in HU, H. replace (Z.max (gp * 4096) Addr) with (Z.max gp ap * 4096) in H by lia.
  unfold GranuleHasOtherLivePages in H. rewrite !(to_page_div (_ * 4096)), !Z.div_mul in H by lia. clear HAm HGm Eu.
  refine (OtherLivePages_spec _ _ _ _ gp _ _ H p _ _ _ Hp); [lia|lia|unfold in_pages; lia|lia|].
  intros Hin. apply Hc. split; lia.
Qed.

Lemma SubGranuleStep_frame fuel Gr s k s' k' e :
  alloc_ok s -> p ∈ MappedPages s -> 0 <= Gr < End_ -> Gr mod HostSize = 0 ->
  Addr - HostSize < Gr ->
  SubGranuleStep HostSize sys fuel Gr Addr End_ prot flags fd offset s k = Done (s', k', e) ->
  R k k' /\ exists m, s' = set_Prot m s.
Proof.
  intros Hok Hp HGr HGm HGA H. unfold SubGranuleStep in H.
  pose proof (granule_bounds HostSize g Hg HHost). pose proof host_size as HS.
  rewrite (u_small 64 (Gr + HostSize)) in H by (unfold is_u; lia). cbv zeta in H.
  pose proof (fresh_granule s Gr Hok Hp HGr HGm) as Hfresh. pose proof (granule_protect Gr HGm ltac:(lia)) as Hpf.
  destruct (GranuleHasOtherLivePages _ _ _ _ _) eqn:Epr; cbn [negb] in H.
  - set (k1 := if GranuleUnionProt s (to_page Gr) 0 &&& PROT_WRITE =? 0 then
                 fst (sys_mprotect sys k Gr HostSize (PROT_READ ||| PROT_WRITE)) else k).
    assert (R k k1) as H1 by (unfold k1; destruct (_ =? 0); [by apply (fr_mprotect _ _ _ _ HR)|apply HR]).
    replace (if GranuleUnionProt s (to_page Gr) 0 &&& PROT_WRITE =? 0 then _ else _)
      with (s, k1, @None Z) in H by (unfold k1; by destruct (_ =? 0)).
    eapply step_tail_frame in H; [|lia|lia|exact Hpf]. destruct H as [H2 Hm]. split; [by eapply (fr_trans _ _ _ _ HR)|done].
  - specialize (Hfresh eq_refl).
    pose proof (fr_mmap _ _ _ _ HR k Gr HostSize (PROT_READ ||| PROT_WRITE)
      (MAP_PRIVATE ||| MAP_ANONYMOUS ||| MAP_FIXED) (-1) 0 (or_intror Hfresh)) as H1.
    destruct (sys_mmap sys k Gr HostSize _ _ (-1) 0) as [k1 [q|err]]; cbn [fst] in H1.
    + eapply step_tail_frame in H; [|lia|lia|exact Hpf]. destruct H as [H2 [m ->]].
      split; [by eapply (fr_trans _ _ _ _ HR)|]. exists m. by destruct s.
    + simplify_eq. split; [done|]. exists (GranuleProt s'). by destruct s'.
Qed.

Lemma SubGranuleLoop_frame fuel n : forall Gr s k s' k' e,
  alloc_ok s -> p ∈ MappedPages s -> 0 <= Gr -> Gr mod HostSize = 0 -> Addr - HostSize < Gr ->
  SubGranuleLoop HostSize sys n fuel Gr Addr End_ prot flags fd offset s k = Done (s', k', e) ->
  R k k' /\ exists m, s' = set_Prot m s.
Proof.
  pose proof (granule_bounds HostSize g Hg HHost) as HG. pose proof host_size as HS.
  induction n as [|n IH]; intros Gr s k s' k' e Hok Hp HGr HGm HGA H; cbn [SubGranuleLoop] in H;
    (destruct (Z.ltb_spec Gr End_);
     [|simplify_eq; split; [apply HR|exists (GranuleProt s'); by destruct s']]); [done|].
  unbind H. destruct a as [[s1 k1] err]. apply SubGranuleStep_frame in E as [H1 [m ->]]; try done.
  destruct err; [simplify_eq; eauto|].
  rewrite u_small in H by (unfold is_u; lia).
  destruct (IH (Gr + HostSize) _ _ _ _ _ (set_Prot_ok _ m Hok) Hp ltac:(lia)
    ltac:(by rewrite Z.add_mod, HGm, Z.mod_same by lia) ltac:(lia) H) as [H2 [m' ->]].
  split; [by eapply (fr_trans _ _ _ _ HR)|]. exists m'. by destruct s.
Qed.

End sub_granule.

(** Every page of the host granule of [p] is reserved, where protections matter. *)
Definition whole_granule (s : Alloc) : Prop := pf = true -> forall q, q / G = p / G -> q ∈ HostReservedPages s.

(** The call kept the invariant, the reservations, and page [p]. *)
Definition safe (s : Alloc) (k : K) (s' : Alloc) (k' : K) : Prop :=
  alloc_ok s' /\ HostReservedPages s' = HostReservedPages s /\ R k k'.

Lemma safe_refl s k : alloc_ok s -> safe s k s k.
Proof. intros Hok. split; [done|]. split; [done|]. apply HR. Qed.

Lemma align_down a : is_u 64 a -> HostPage.AlignDown HostSize a = a - a mod HostSize.
Proof. intros Ha. unfold HostPage.AlignDown, HostPage.Mask. rewrite HHost. apply land_high; [lia|done]. Qed.

Lemma MmapSubGranule_safe fuel s k Addr Length prot flags fd offset s' k' r :
  alloc_ok s -> p ∈ MappedPages s -> 0 <= Addr -> Addr mod 4096 = 0 -> 0 <= Length ->
  Addr + Length < 2 ^ 32 -> ~ covers p Addr Length ->
  (pf = true -> forall Gr, Gr mod HostSize = 0 -> Addr - HostSize < Gr < Addr + Length -> ~ covers p Gr HostSize) ->
  MmapSubGranule HostSize sys fuel s k Addr Length prot flags fd offset = Done (s', k', r) ->
  safe s k s' k'.
Proof.
  intros Hok Hp HA HAm HL HAL Hc Hwhole H. unfold MmapSubGranule in H.
  pose proof (granule_bounds HostSize g Hg HHost) as HG. pose proof host_size as HS.
  rewrite (u_small 64 (Addr + Length)), align_down in H by (unfold is_u; lia).
  pose proof (Z.mod_pos_bound Addr HostSize ltac:(lia)) as Hmb.
  assert (0 <= Addr - Addr mod HostSize) as H0 by (pose proof (Z.mod_le Addr HostSize ltac:(lia) ltac:(lia)); lia).
  unbind H. destruct a as [[s1 k1] err].
  apply (SubGranuleLoop_frame Addr Length) in E as [H1 [m ->]]; try done; [|lia| |lia].
  2:{ rewrite Zminus_mod_idemp_r, Z.sub_diag. by apply Z.mod_0_l; lia. }
  destruct err; [simplify_eq; split; [by apply set_Prot_ok|done]|]. cbv zeta in H. unbind H.
  apply SetUsedPages_ok in E as (b & -> & Hok' & _); [|by apply set_Prot_ok|].
  - simplify_eq. done.
  - unfold GranuleFloor. apply Z.ldiff_nonneg. left. rewrite (to_page_div Addr). apply Z.div_pos; lia.
Qed.

(** A range that does not meet a reserved page. *)
Lemma reserved_outside_page s x Addr n l :
  alloc_ok s -> x ∈ HostReservedPages s -> 0 <= Addr -> Addr mod 4096 = 0 -> 0 <= n -> l <= n * 4096 ->
  OverlapsHostReservation s (to_page Addr) n = false -> ~ covers x Addr l.
Proof.
  intros Hok Hp HA HAm Hn Hl Ho [C1 C2]. pose proof (ok_pages _ Hok) as [Hr _].
  specialize (Hr x (ok_reserved _ Hok x Hp)). apply Z.mod_divide in HAm as [ap ->]; [|lia].
  rewrite to_page_div, Z.div_mul in Ho by lia. unfold OverlapsHostReservation in Ho.
  refine (OverlapsLoop_spec _ _ ap _ Ho x _ _ Hp); [lia| |lia]. unfold in_pages. lia.
Qed.

Lemma reserved_outside s Addr n l :
  alloc_ok s -> p ∈ HostReservedPages s -> 0 <= Addr -> Addr mod 4096 = 0 -> 0 <= n -> l <= n * 4096 ->
  OverlapsHostReservation s (to_page Addr) n = false -> ~ covers p Addr l.
Proof. apply reserved_outside_page. Qed.

(** No granule of a request that stays off the reserved pages is that of [p], when this is reserved whole. *)
Lemma granules_outside s Addr n l :
  alloc_ok s -> whole_granule s -> 0 <= Addr -> Addr mod 4096 = 0 -> 0 <= n -> 0 < l <= n * 4096 ->
  OverlapsHostReservation s (to_page Addr) n = false ->
  pf = true -> forall Gr, Gr mod HostSize = 0 -> Addr - HostSize < Gr < Addr + l -> ~ covers p Gr HostSize.
Proof.
  intros Hok Hw HA HAm Hn Hl Ho Hpf Gr HGm HGr [C1 C2]. pose proof (granule_bounds HostSize g Hg HHost) as HG. pose proof host_size as HS.
  set (q := Z.max Gr Addr / 4096). assert (q / G = p / G) as Hq.
  { unfold q. apply Z.mod_divide in HGm as [x ->]; [|lia]. set (GG := G) in *. rewrite HS in *. clearbody GG.
    transitivity x; [|apply (Z.div_unique _ _ x (p - GG * x)); lia].
    rewrite Z.div_div by lia. symmetry. apply (Z.div_unique _ _ x (Z.max (x * (GG * 4096)) Addr - 4096 * GG * x)); lia. }
  apply (reserved_outside_page s q Addr n l Hok (Hw Hpf q Hq) HA HAm Hn (proj2 Hl) Ho). unfold q, covers. Z.to_euclidean_division_equations. lia.
Qed.

Lemma MmapFixed_safe fuel s k Addr length prot flags fd offset fb s' k' r :
  alloc_ok s -> p ∈ HostReservedPages s -> whole_granule s -> 0 <= Addr -> Addr mod 4096 = 0 -> 0 < length ->
  Addr + length < 2 ^ 32 ->
  MmapFixed HostSize sys fuel s k Addr length prot flags fd offset fb = Done (s', k', r) ->
  safe s k s' k'.
Proof.
  intros Hok Hp Hw HA HAm HL HAL H. unfold MmapFixed in H.
  destruct (page_count_spec length) as [Hpc Hpc0]; [lia|lia|].
  destruct (OverlapsHostReservation s (to_page Addr) (page_count length)) eqn:Ho.
  { simplify_eq. by apply safe_refl. }
  assert (forall l, l <= page_count length * 4096 -> ~ covers p Addr l) as Hc.
  { intros l Hl. by apply (reserved_outside s Addr (page_count length)). }
  destruct (negb (G =? 1) && _).
  - unbind H. destruct a; [|simplify_eq; by apply safe_refl].
    eapply MmapSubGranule_safe; [done|by apply (ok_reserved _ Hok)|..|exact H]; try done; try lia.
    { apply Hc. lia. }
    apply (granules_outside s Addr (page_count length)); (done || lia).
  - apply Z.mod_divide in HAm as [ap ->]; [|lia]. rewrite to_page_div, Z.div_mul in H by lia.
    rewrite of_page_mul in H by lia. rewrite (Z.shiftl_mul_pow2 (page_count length)) in H by done.
    change (2 ^ FEX_GUEST_PAGE_SHIFT) with 4096 in H. rewrite u_small in H by (unfold is_u; lia).
    pose proof (fr_mmap _ _ _ _ HR k (ap * 4096) (page_count length * 4096) prot flags fd offset
      (or_intror (Hc _ (Z.le_refl _)))) as H1.
    destruct (sys_mmap sys k (ap * 4096) _ prot flags fd offset) as [k1 [q|e]]; cbn [fst] in H1.
    + unbind H. apply SetUsedPages_ok in E as (b & -> & Hok' & _); [|done|lia].
      unbind H. destruct (NoteGranuleProt_ok _ _ _ _ _ _ _ E) as [m ->]. simplify_eq.
      split; [by apply set_Prot_ok|done].
    + by simplify_eq.
Qed.

Lemma Mmap_safe fuel s k addr length prot flags fd offset s' k' r :
  alloc_ok s -> p ∈ HostReservedPages s -> whole_granule s -> 0 <= addr -> 0 < length -> addr + length < 2 ^ 64 ->
  Mmap HostSize sys fuel s k addr length prot flags fd offset = Done (s', k', r) ->
  safe s k s' k' /\ (not_fixed flags -> -4096 < r < 0 \/ placed HostSize s s' (request_pages length) r).
Proof.
  intros Hok Hp Hw HA HL HAL H. unfold Mmap in H. pose proof (safe_refl s k Hok) as Hs0.
  assert (forall (e : Z) (P : Prop), 0 < e < 4096 -> Done (s, k, - e) = Done (s', k', r) ->
    safe s k s' k' /\ (P -> -4096 < r < 0 \/ placed HostSize s s' (request_pages length) r)) as Herr.
  { intros e P He [= <- <- <-]. split; [done|]. left. lia. }
  rewrite unaligned_mod in H by done.
  destruct (Z.eqb_spec (addr mod 4096) 0) as [HAm|]; cbn [negb] in H; [|by eapply Herr; [|exact H]].
  destruct (_ && guest_unaligned offset); [by eapply Herr; [|exact H]|].
  rewrite u_small in H by (unfold is_u; lia).
  destruct (Z.ltb_spec (2 ^ 32 - 1) (addr + length)); [by eapply Herr; [|exact H]|].
  destruct (_ && (to_page addr <? 16)) eqn:Elow; [by eapply Herr; [|exact H]|]. cbv zeta in H.
  destruct (_ && has_flag flags (MAP_SHARED ||| MAP_SHARED_VALIDATE)); [by eapply Herr; [|exact H]|].
  destruct (request_pages_spec length) as (Hr1 & Hr2 & Hr3 & Hr4); [lia|].
  set (Fixed := has_flag flags MAP_FIXED || has_flag flags FEX_MAP_FIXED_NOREPLACE) in *.
  destruct (Z.eqb_spec (if Fixed then addr else 0) 0) as [Ha0|Ha0].
  - unfold AllocateNoHint in H. fold (request_pages length) in H.
    apply (NoHintLoop_spec sys HostSize g Hg HHost p pf R Hk HR) in H as (Hgr & HRk & Hres); try done.
    + split; [split; [apply Hgr|]; split; [apply Hgr|done]|]. intros _. destruct Hres; [by right|by left].
    + lia.
    + by apply (ok_reserved _ Hok).
    + by apply start_ok.
  - assert (Fixed = true) as HF by (by destruct Fixed). rewrite HF in H. split.
    + eapply MmapFixed_safe; [..|exact H]; try done; lia.
    + intros [N1 N2]. unfold Fixed in HF. by rewrite N1, N2 in HF.
Qed.

Lemma empty_granule_outside s Gr :
  alloc_ok s -> p ∈ MappedPages s -> 0 <= Gr < BITSET_SIZE ->
  GranuleHasOtherLivePages HostSize s Gr 0 0 = false -> ~ covers p (Gr * 4096) HostSize.
Proof.
  intros Hok Hp HGr H [C1 C2]. pose proof (granule_bounds HostSize g Hg HHost). pose proof host_size as HS.
  destruct (ok_pages _ Hok) as [Hr _]. specialize (Hr p Hp). unfold BITSET_SIZE in *.
  refine (OtherLivePages_spec _ _ _ _ Gr _ _ H p _ _ _ Hp); [lia|lia|unfold in_pages; lia|unfold BITSET_SIZE; lia|lia].
Qed.

Lemma ReleaseGranules_safe n : forall s k Gr Last s' k' r,
  alloc_ok s -> p ∈ MappedPages s -> 0 <= Gr -> Last <= BITSET_SIZE ->
  ReleaseGranules HostSize sys n s k Gr Last = Done (s', k', r) -> safe s k s' k'.
Proof.
  pose proof (granule_bounds HostSize g Hg HHost) as HG.
  induction n as [|n IH]; intros s k Gr Last s' k' r Hok Hp HGr HLast H; cbn [ReleaseGranules] in H;
    (destruct (Z.ltb_spec Gr Last); [|simplify_eq; by apply safe_refl]); [done|].
  rewrite u_small in H by (unfold is_u, BITSET_SIZE in *; lia).
  destruct (GranuleHasOtherLivePages HostSize s Gr 0 0) eqn:El; [eapply IH; [..|exact H]; (done || lia)|].
  rewrite of_page_mul in H by (unfold BITSET_SIZE in *; lia).
  pose proof (fr_munmap _ _ _ _ HR k (Gr * 4096) HostSize
    (empty_granule_outside s Gr Hok Hp ltac:(lia) El)) as H1.
  destruct (sys_munmap sys k (Gr * 4096) HostSize) as [k1 [e|]]; cbn [fst] in H1.
  - simplify_eq. done.
  - apply IH in H as (Hok' & Hres & HR'); [|by apply set_Prot_ok|done|lia|done].
    split; [done|]. split; [done|]. by eapply (fr_trans _ _ _ _ HR).
Qed.

Lemma SetFreePages_safe s k P n s' :
  alloc_ok s -> BASE_KEY <= P -> 0 <= n -> OverlapsHostReservation s P n = false ->
  SetFreePages s P n = Done s' -> safe s k s' k /\ (p ∈ HostReservedPages s -> p ∈ MappedPages s').
Proof.
  intros Hok HP Hn Ho H.
  apply SetFreePages_ok in H as (b & -> & Hok' & Hb); try done.
  - split; [split; [done|]; split; [done|apply HR]|]. intros Hp. by apply (ok_reserved _ Hok').
  - intros q Hq Hin. pose proof (ok_pages _ Hok) as [Hr _]. specialize (Hr q (ok_reserved _ Hok q Hin)).
    refine (OverlapsLoop_spec _ _ P _ Ho q _ _ Hin); [unfold BASE_KEY in *; lia| |lia].
    unfold in_pages in *. lia.
Qed.

Lemma Munmap_safe s k addr length s' k' r :
  alloc_ok s -> p ∈ HostReservedPages s -> 0 <= addr -> 0 <= length -> addr + length < 2 ^ 64 ->
  Munmap HostSize sys s k addr length = Done (s', k', r) -> safe s k s' k'.
Proof.
  intros Hok Hp HA HL HAL H. unfold Munmap in H. pose proof (safe_refl s k Hok) as Hs0.
  rewrite unaligned_mod in H by done.
  destruct (Z.eqb_spec (addr mod 4096) 0) as [HAm|]; cbn [negb] in H; [|by simplify_eq].
  destruct (length =? 0); [by simplify_eq|]. rewrite (u_small 64 (addr + length)) in H by (unfold is_u; lia).
  destruct (Z.ltb_spec (2 ^ 32 - 1) (addr + length)); [by simplify_eq|].
  destruct (page_count_spec length) as [Hpc Hpc0]; [lia|lia|].
  pose proof (reserved_outside s addr (page_count length) (page_count length * 4096) Hok Hp HA HAm Hpc0 ltac:(lia)) as Hc.
  apply Z.mod_divide in HAm as [ap ->]; [|lia].
  rewrite (to_page_div (ap * 4096)), Z.div_mul in * by lia.
  destruct (Z.ltb_spec ap 16); [by simplify_eq|].
  destruct (OverlapsHostReservation s ap (page_count length)) eqn:Ho; [by simplify_eq|]. specialize (Hc eq_refl).
  rewrite (u_small 64 (ap + page_count length)) in H by (unfold is_u; lia).
  replace (ap + page_count length - ap) with (page_count length) in H by lia.
  destruct (negb (G =? 1)).
  - unbind H. destruct (SetFreePages_safe s k ap (page_count length) a) as [(Hok1 & Hres1 & _) Hpm]; try done.
    cbv zeta in H.
    pose proof (GranuleCeil_bitset HostSize g Hg HHost (ap + page_count length)
      ltac:(unfold BITSET_SIZE; lia)) as Hceil.
    apply ReleaseGranules_safe in H as (Hok2 & Hres2 & HR2); [|done|by apply Hpm| |done].
    + split; [done|]. split; [congruence|done].
    + unfold GranuleFloor. apply Z.ldiff_nonneg. left. lia.
  - rewrite of_page_mul in H by lia. rewrite (Z.shiftl_mul_pow2 (page_count length)) in H by done.
    change (2 ^ FEX_GUEST_PAGE_SHIFT) with 4096 in H. rewrite u_small in H by (unfold is_u; lia).
    pose proof (fr_munmap _ _ _ _ HR k _ _ Hc) as Hu1.
    destruct (sys_munmap sys k _ _) as [k1 [e|]]; cbn [fst] in Hu1; [by simplify_eq|].
    unbind H. simplify_eq.
    destruct (SetFreePages_safe s k ap (page_count length) s') as [(Hok1 & Hres1 & _) _]; try done.
Qed.

Lemma safe_trans s1 k1 s2 k2 s3 k3 : safe s1 k1 s2 k2 -> safe s2 k2 s3 k3 -> safe s1 k1 s3 k3.
Proof.
  intros (A1 & B1 & C1) (A2 & B2 & C2). split; [done|]. split; [congruence|]. by eapply (fr_trans _ _ _ _ HR).
Qed.

Lemma safe_kernel s k k' : alloc_ok s -> R k k' -> safe s k s k'.
Proof. by split. Qed.

Lemma SetUsedPages_safe s k P n s' :
  alloc_ok s -> 0 <= P -> SetUsedPages s P n = Done s' -> safe s k s' k.
Proof.
  intros Hok HP H. apply SetUsedPages_ok in H as (b & -> & Hok' & _); [|done|done].
  split; [done|]. split; [done|apply HR].
Qed.

Lemma syscall_error r : -4096 < r < 0 -> HasSyscallError r = true.
Proof.
  intros Hr. unfold HasSyscallError. apply Z.leb_le.
  replace (u64 r) with (2 ^ 64 + r); [lia|].
  unfold uwrap. rewrite <- (Z_mod_plus_full r 1). symmetry. rewrite Z.mod_small; lia.
Qed.

Section mremap.
Context (old_address old_size new_size : Z).
Context (Hold : 0 <= old_address < 2 ^ 64) (Hosz : 0 <= old_size <= 2 ^ 32) (Hnsz : 0 < new_size < 2 ^ 32).

Abbreviation old_pages := (AlignPagesUp HostSize (page_count old_size)).

Lemma old_pages_spec : 0 <= old_pages /\ old_size <= old_pages * 4096.
Proof.
  destruct (page_count_spec old_size) as [H1 H2]; [lia|lia|].
  destruct (AlignPagesUp_spec HostSize g Hg HHost (page_count old_size)) as [_ H3]; [lia|]. lia.
Qed.

(** The source of an mremap that passed the reservation check. *)
Lemma source_outside s :
  alloc_ok s -> p ∈ HostReservedPages s ->
  OverlapsHostReservation s (to_page old_address) old_pages = false ->
  old_address mod 4096 = 0 -> ~ covers p old_address old_size.
Proof.
  intros Hok Hp Ho Hm. destruct old_pages_spec. apply (reserved_outside s old_address old_pages); (done || lia).
Qed.

Lemma old_freed_safe s k k1 q fl nw lsz s' :
  alloc_ok s -> OverlapsHostReservation s (to_page old_address) old_pages = false ->
  sys_mremap sys k old_address old_size lsz fl nw = (k1, inl q) ->
  SetFreePages s (to_page old_address) old_pages = Done s' -> safe s k1 s' k1.
Proof.
  intros Hok Ho E H. destruct (k_mremap_src _ Hk _ _ _ _ _ _ _ _ E) as [_ Hlow].
  destruct old_pages_spec. by apply (SetFreePages_safe s k1 (to_page old_address) old_pages).
Qed.

Lemma MremapMove_safe fuel s k flags s' k' r :
  alloc_ok s -> p ∈ HostReservedPages s -> whole_granule s ->
  OverlapsHostReservation s (to_page old_address) old_pages = false ->
  MremapMove HostSize sys fuel s k old_address old_size new_size flags = Done (s', k', r) -> safe s k s' k'.
Proof.
  intros Hok Hp Hw Ho H. unfold MremapMove in H. unbind H. destruct a as [[s1 k1] q].
  apply Mmap_safe in E as [Hs1 Hpl]; try done; [|lia..]. specialize (Hpl (conj eq_refl eq_refl)).
  destruct (HasSyscallError q) eqn:Eq; [by simplify_eq|].
  destruct Hpl as [Herr|(x & -> & Hx & _ & Hxn & Hfree & _)]; [by rewrite syscall_error in Eq|].
  destruct (request_pages_spec new_size) as (_ & _ & Hn1 & Hn2); [lia|].
  destruct Hs1 as (Hok1 & Hres1 & HR1).
  assert (p ∈ HostReservedPages s1) as Hp1 by (by rewrite Hres1).
  assert (OverlapsHostReservation s1 (to_page old_address) old_pages = false) as Ho1
    by (unfold OverlapsHostReservation; by rewrite Hres1).
  set (f2 := flags ||| MREMAP_FIXED ||| MREMAP_MAYMOVE) in H.
  assert (R k1 (fst (sys_mremap sys k1 old_address old_size new_size f2 (x * 4096)))) as HR2.
  { apply (fr_mremap _ _ _ _ HR); [by apply (source_outside s1)|]. intros _ _.
    apply (free_not_covers (MappedPages s) x (request_pages new_size)); [by apply (ok_reserved _ Hok)|done|lia]. }
  destruct (sys_mremap sys k1 old_address old_size new_size f2 (x * 4096)) as [k2 [y|e]] eqn:E2; cbn [fst] in HR2.
  - assert (safe s k s1 k2) as Hs2.
    { split; [done|]. split; [done|]. by eapply (fr_trans _ _ _ _ HR). }
    unbind H. assert (safe s1 k2 a k2) as Hs3.
    { destruct (_ && _); [by eapply (old_freed_safe s1 k1)|]. simplify_eq. by apply safe_refl. }
    unbind H. simplify_eq. eapply safe_trans; [exact Hs2|]. eapply safe_trans; [exact Hs3|].
    eapply SetUsedPages_safe; [apply Hs3| |done].
    destruct (k_mremap_dst _ Hk _ _ _ _ _ _ _ _ E2) as [Hy _]. rewrite to_page_div. apply Z.div_pos; lia.
  - simplify_eq. split; [done|]. split; [done|]. by eapply (fr_trans _ _ _ _ HR).
Qed.

Lemma flag_fixed_clear flags : has_flag flags MREMAP_FIXED = false ->
  has_flag (Z.ldiff flags MREMAP_MAYMOVE) MREMAP_FIXED || has_flag (Z.ldiff flags MREMAP_MAYMOVE) MREMAP_MAYMOVE = false.
Proof.
  unfold has_flag. rewrite !negb_false_iff, !Z.eqb_eq. intros H. apply orb_false_iff. rewrite !negb_false_iff, !Z.eqb_eq.
  split; apply Z.bits_inj'; intros i Hi; apply (f_equal (fun x => Z.testbit x i)) in H;
    rewrite Z.land_spec, Z.bits_0 in *; rewrite Z.ldiff_spec; [|destruct (Z.testbit MREMAP_MAYMOVE i); btauto].
  destruct (Z.testbit flags i), (Z.testbit MREMAP_FIXED i); try done; by rewrite andb_false_r.
Qed.

(** Freeing the tail of the old range. *)
Lemma shrink_safe s k n s' :
  alloc_ok s -> OverlapsHostReservation s (to_page old_address) old_pages = false ->
  BASE_KEY <= to_page old_address -> 0 <= n <= old_pages -> old_pages <= 2 ^ 32 ->
  SetFreePages s (u64 (to_page old_address + n)) (old_pages - n) = Done s' -> safe s k s' k.
Proof.
  intros Hok Ho Hlow Hn Hop H.
  assert (to_page old_address < 2 ^ 52) as Ht.
  { rewrite to_page_div. apply Z.div_lt_upper_bound; lia. }
  unfold BASE_KEY in Hlow. rewrite u_small in H by (unfold is_u; lia).
  apply SetFreePages_ok in H as (b & -> & Hok' & _); [|done|unfold BASE_KEY; lia|].
  - split; [done|]. split; [done|apply HR].
  - intros q Hq Hin. pose proof (ok_pages _ Hok) as [Hr _]. specialize (Hr q (ok_reserved _ Hok q Hin)).
    refine (OverlapsLoop_spec _ _ _ _ Ho q _ _ Hin); [lia| |lia]. unfold in_pages in *. lia.
Qed.

Lemma Mremap_safe fuel s k flags new_address s' k' r :
  alloc_ok s -> p ∈ HostReservedPages s -> whole_granule s -> 0 <= new_address ->
  Mremap HostSize sys fuel s k old_address old_size new_size flags new_address = Done (s', k', r) ->
  safe s k s' k'.
Proof.
  intros Hok Hp Hw Hna H. unfold Mremap in H. cbv zeta in H.
  destruct (OverlapsHostReservation s (to_page old_address) old_pages) eqn:Ho; cbn [orb] in H.
  { simplify_eq. by apply safe_refl. }
  destruct (request_pages_spec new_size) as (Hn1 & _ & Hn2 & Hn3); [lia|]. fold (request_pages new_size) in H.
  assert (forall y, 0 <= y -> 0 <= to_page y) as Htp.
  { intros y Hy. rewrite to_page_div. apply Z.div_pos; lia. }
  destruct (has_flag flags MREMAP_FIXED) eqn:Ef.
  - destruct (OverlapsHostReservation s (to_page new_address) _) eqn:Hnew; cbn [andb] in H.
    { simplify_eq. by apply safe_refl. }
    assert (R k (fst (sys_mremap sys k old_address old_size new_size flags new_address))) as HR1.
    { apply (fr_mremap _ _ _ _ HR); [by apply (source_outside s)|]. intros _ Hm.
      apply (reserved_outside s new_address (request_pages new_size)); try done; lia. }
    destruct (sys_mremap sys k old_address old_size new_size flags new_address) as [k1 [q|e]] eqn:E1;
      cbn [fst] in HR1; [|simplify_eq; by apply safe_kernel].
    destruct (k_mremap_dst _ Hk _ _ _ _ _ _ _ _ E1) as [Hq _].
    unbind H. assert (safe s k1 a k1) as Hs1.
    { destruct (negb _); [by eapply (old_freed_safe s k)|]. simplify_eq. by apply safe_refl. }
    unbind H. pose proof (SetUsedPages_safe _ k1 _ _ _ (proj1 Hs1) (Htp q Hq) E0) as Hs2.
    eapply (safe_trans _ _ s k1); [by apply safe_kernel|]. pose proof (safe_trans _ _ _ _ _ _ Hs1 Hs2) as (Hok2 & Hres2 & HR2).
    eapply safe_trans; [split; [exact Hok2|split; [exact Hres2|exact HR2]]|].
    eapply MremapMove_safe; [exact Hok2|by rewrite Hres2|unfold whole_granule; by rewrite Hres2| |exact H].
    unfold OverlapsHostReservation. by rewrite Hres2.
  - cbn [andb] in H. set (f2 := Z.ldiff flags MREMAP_MAYMOVE) in H.
    assert (R k (fst (sys_mremap sys k old_address old_size new_size f2 0))) as HR1.
    { apply (fr_mremap _ _ _ _ HR); [by apply (source_outside s)|]. intros Hf2 _.
      pose proof (flag_fixed_clear flags Ef) as Hc. fold f2 in Hc. rewrite Hf2 in Hc. done. }
    pose proof (flag_fixed_clear flags Ef) as Hff. fold f2 in Hff.
    destruct (Z.ltb_spec (request_pages new_size) old_pages) as [Hlt|Hge]; [|destruct (can_extend _ _ _)].
    + destruct (sys_mremap sys k old_address old_size new_size f2 0) as [k1 [q|e]] eqn:E1; cbn [fst] in HR1;
        [|simplify_eq; by apply safe_kernel].
      pose proof (proj2 (k_mremap_dst _ Hk _ _ _ _ _ _ _ _ E1) Hff) as ->.
      destruct (k_mremap_src _ Hk _ _ _ _ _ _ _ _ E1) as [_ Hlow].
      unbind H. injection H as <- <- <-. eapply (safe_trans _ _ s k1); [by apply safe_kernel|].
      eapply (shrink_safe s k1 (request_pages new_size)); try done; [lia|].
      pose proof (AlignPagesUp_spec HostSize g Hg HHost (page_count old_size)) as Hop.
      destruct (page_count_spec old_size) as [Hpo Hpo0]; [lia|lia|].
      pose proof (granule_bounds HostSize g Hg HHost). lia.
    + destruct (sys_mremap sys k old_address old_size new_size f2 0) as [k1 [q|e]] eqn:E1; cbn [fst] in HR1.
      * destruct (k_mremap_dst _ Hk _ _ _ _ _ _ _ _ E1) as [Hq _].
        unbind H. injection H as <- <- <-. eapply (safe_trans _ _ s k1); [by apply safe_kernel|].
        eapply SetUsedPages_safe; [done|by apply (Htp q)|done].
      * destruct (negb _); [simplify_eq; by apply safe_kernel|].
        eapply (safe_trans _ _ s k1); [by apply safe_kernel|]. by eapply MremapMove_safe.
    + by eapply MremapMove_safe.
Qed.

End mremap.

End frame.

End host.
