(* ===== verification/Alloc32Demo.v ===== *)
(** * A small kernel for the allocator's witnesses

    A kernel whose memory is a map from page numbers to tags, with Linux's documented answers:
    a placement that must not replace fails on mapped pages, a fixed one replaces them, munmap
    removes them, and mremap fails on an unmapped source (EFAULT) or an overlap (EINVAL).  A tag
    stands for the contents of the page, which mprotect keeps, or for its protection, which mprotect
    sets.  Both kernels satisfy the hypotheses of the allocator's theorems. *)

From S2P Require Import Prelude VMA Granule Alloc32 Alloc32Props Alloc32Calls.
Import VMA MemAllocator32Bit.

Definition EFAULT : Z := 14.
Definition EACCES : Z := 13.

Abbreviation Pages := (gmap Z Z).

(** The tags of guest memory and of host code. *)
Definition guest_tag : Z := 0.
Definition host_tag : Z := 1.

Definition pages_of (a l : Z) : list Z := seqZ (a / 4096) ((a + l + 4095) / 4096 - a / 4096).

Definition fill (tag : Z) (a l : Z) (k : Pages) : Pages :=
  foldr (fun q k => <[q := tag]> k) k (pages_of a l).
Definition clear (a l : Z) (k : Pages) : Pages := foldr (fun q k => delete q k) k (pages_of a l).

Definition is_mapped (k : Pages) (q : Z) : bool := bool_decide (is_Some (k !! q)).

Section demo.
Context (protects : bool).

(** The tag of a page the guest maps with a protection. *)
Definition tag_of (prot : Z) : Z := if protects then prot else guest_tag.

Definition demo_mmap (k : Pages) (a l prot flags fd off : Z) : Pages * sysret :=
  if has_flag flags FEX_MAP_FIXED_NOREPLACE then
    if existsb (is_mapped k) (pages_of a l) then (k, inr EEXIST)
    else (fill (tag_of prot) a l k, inl a)
  else (fill (tag_of prot) a l k, inl a).

Definition demo_mprotect (k : Pages) (a l prot : Z) : Pages * option Z :=
  (if protects then foldr (fun q k => if is_mapped k q then <[q := prot]> k else k) k (pages_of a l) else k, None).

(** Writing to pages changes their contents. *)
Definition demo_write (k : Pages) (a l : Z) : Pages := if protects then k else fill guest_tag a l k.

Definition demo_mremap (k : Pages) (a l l' flags n : Z) : Pages * sysret :=
  let tag := tag_of (PROT_READ ||| PROT_WRITE) in
  if negb (a mod 4096 =? 0) || (to_page a <? BASE_KEY) then (k, inr EINVAL)
  else if negb (forallb (is_mapped k) (pages_of a l)) then (k, inr EFAULT)
  else if has_flag flags MREMAP_FIXED then
    if negb (n mod 4096 =? 0) || (n <? 0) || ((n <? a + l) && (a <? n + l')) then (k, inr EINVAL)
    else (fill tag n l' (clear a l k), inl n)
  else if l' <=? 0 then (k, inr EINVAL)
  else if l' <=? l then (clear (a + l') (l - l') k, inl a)
  else if existsb (is_mapped k) (pages_of (a + l) (l' - l)) then (k, inr ENOMEM)
  else (fill tag (a + l) (l' - l) k, inl a).

Definition demo_kernel : Kernel Pages := mkKernel Pages
  demo_mmap
  (fun k a l => (clear a l k, None))
  demo_mprotect
  demo_mremap
  (fun k id a f => (k, inr EACCES))
  (fun k a => (k, None))
  (fun k id => Some 8192)
  (fun k a => is_mapped k (to_page a))
  (fun k fd a l o => if 0 <=? l then (demo_write k a l, inl l) else (k, inr EINVAL))
  demo_write.

End demo.

(** The kernel of contents. *)
Definition demo : Kernel Pages := demo_kernel false.

Lemma fill_other q tag a l k : q ∉ pages_of a l -> fill tag a l k !! q = k !! q.
Proof.
  unfold fill. induction (pages_of a l) as [|x ps IH]; intros Hq; [done|]. cbn [foldr].
  rewrite lookup_insert_ne by (intros ->; by apply Hq; left). apply IH. intros ?. apply Hq. by right.
Qed.

Lemma clear_other q a l k : q ∉ pages_of a l -> clear a l k !! q = k !! q.
Proof.
  unfold clear. induction (pages_of a l) as [|x ps IH]; intros Hq; [done|]. cbn [foldr].
  rewrite lookup_delete_ne by (intros ->; by apply Hq; left). apply IH. intros ?. apply Hq. by right.
Qed.

Lemma pages_covers q a l : ~ covers q a l -> q ∉ pages_of a l.
Proof.
  intros Hc Hq%elem_of_seqZ. apply Hc. unfold covers. Z.to_euclidean_division_equations. lia.
Qed.

Lemma protect_other q pr a l k : q ∉ pages_of a l -> (demo_mprotect true k a l pr).1 !! q = k !! q.
Proof.
  cbn. induction (pages_of a l) as [|x ps IH]; intros Hq; [done|]. cbn [foldr].
  assert (x <> q) by (intros ->; by apply Hq; left). assert (q ∉ ps) by (intros ?; apply Hq; by right).
  destruct (is_mapped _ x); [rewrite lookup_insert_ne by done|]; by apply IH.
Qed.

(** Page [p] keeps its tag. *)
Definition same_tag (p : Z) (k k' : Pages) : Prop := forall t, k !! p = Some t -> k' !! p = Some t.

Section demo_laws.
Context (protects : bool).

Lemma write_other q a l k : q ∉ pages_of a l -> demo_write protects k a l !! q = k !! q.
Proof. unfold demo_write. destruct protects; [done|]. apply fill_other. Qed.

Lemma demo_ok : kernel_ok (demo_kernel protects).
Proof.
  split; cbn.
  - unfold demo_mmap. intros. repeat case_match; simplify_eq; done.
  - unfold demo_mmap. intros. repeat case_match; simplify_eq; done.
  - intros. case_match; simplify_eq. done.
  - intros. case_match eqn:E; simplify_eq. lia.
  - done.
  - unfold demo_mremap. intros k a l l' f n k' q H.
    destruct (negb (a mod 4096 =? 0) || (to_page a <? BASE_KEY)) eqn:E; [done|].
    apply orb_false_iff in E as [E1%negb_false_iff%Z.eqb_eq E2%Z.ltb_ge]. done.
  - unfold demo_mremap. intros k a l l' f n k' q H.
    destruct (negb (a mod 4096 =? 0) || (to_page a <? BASE_KEY)) eqn:E; [done|].
    apply orb_false_iff in E as [E1%negb_false_iff%Z.eqb_eq E2%Z.ltb_ge].
    assert (0 <= a). { rewrite to_page_div in E2. unfold BASE_KEY in E2. Z.to_euclidean_division_equations. lia. }
    destruct (negb (forallb _ _)); [done|]. destruct (has_flag f MREMAP_FIXED).
    + destruct (_ || _ || _) eqn:En; [done|]. simplify_eq. cbn. split; [lia|done].
    + repeat case_match; simplify_eq; done.
Qed.

Lemma demo_frame p : page_frame (demo_kernel protects) p protects (same_tag p).
Proof.
  unfold same_tag. split; cbn -[demo_mprotect].
  - done.
  - auto.
  - unfold demo_mmap. intros k a l pr f fd o Hc t Hp. destruct (has_flag f FEX_MAP_FIXED_NOREPLACE).
    + destruct (existsb (is_mapped k) (pages_of a l)) eqn:E; [done|]. cbn. rewrite fill_other; [done|].
      intros Hin. assert (existsb (is_mapped k) (pages_of a l) = true) as E'; [|congruence].
      apply existsb_exists. exists p. split; [by apply list_elem_of_In|].
      unfold is_mapped. apply bool_decide_eq_true. eauto.
    + cbn. destruct Hc as [|Hc]; [done|]. rewrite fill_other; [done|]. by apply pages_covers.
  - intros k a l Hc t Hp. rewrite clear_other; [done|]. by apply pages_covers.
  - intros k a l pr [Hpf|Hc] t Hp; [unfold demo_mprotect; by rewrite Hpf|]. destruct protects; [|done].
    rewrite protect_other; [done|]. by apply pages_covers.
  - unfold demo_mremap. intros k a l l' f n Ha Hn t Hp.
    destruct (negb (a mod 4096 =? 0) || (to_page a <? BASE_KEY)) eqn:E; [done|].
    apply orb_false_iff in E as [E1%negb_false_iff%Z.eqb_eq E2%Z.ltb_ge]. specialize (Ha E1).
    destruct (negb (forallb _ _)); [done|]. destruct (has_flag f MREMAP_FIXED).
    + destruct (_ || _ || _) eqn:En; [done|]. cbn.
      rewrite fill_other, clear_other; [done|by apply pages_covers|]. apply pages_covers, Hn; [done|].
      rewrite !orb_false_iff, negb_false_iff, Z.eqb_eq in En. tauto.
    + destruct (Z.leb_spec l' 0); [done|]. destruct (Z.leb_spec l' l).
      { cbn. rewrite clear_other; [done|]. apply pages_covers. intros [? ?]. apply Ha. split; lia. }
      destruct (existsb (is_mapped k) (pages_of (a + l) (l' - l))) eqn:Ex; [done|]. cbn.
      rewrite fill_other; [done|]. intros Hin.
      assert (existsb (is_mapped k) (pages_of (a + l) (l' - l)) = true) as E'; [|congruence].
      apply existsb_exists. exists p. split; [by apply list_elem_of_In|].
      unfold is_mapped. apply bool_decide_eq_true. eauto.
  - intros k fd a l o Hc t Hp. destruct (0 <=? l); [|done]. cbn. rewrite write_other; [done|]. by apply pages_covers.
  - intros k a l Hc t Hp. rewrite write_other; [done|]. by apply pages_covers.
Qed.

End demo_laws.
