(* ===== verification/Alloc32Theorems.v ===== *)
(** * The allocator of 32-bit guests: what its calls guarantee, and where they fail

    Placement without an address always ends and hands out free pages; no sequence of guest
    calls reaches a page the host reserved.  Then the calls that misbehave: a successful
    MREMAP_FIXED reports a failure and leaks a reservation, a private file mapping at an offset
    between host pages is refused, and attaching a segment the kernel refuses never returns. *)

From S2P Require Import Prelude VMA VMATrack Granule Alloc32 Alloc32Props Alloc32Calls Alloc32Safe Alloc32Demo.
Import VMA Track MemAllocator32Bit.

(** C18: A placement without a fixed address, of an anonymous mapping or of a file at an offset
    of the host, always ends when the fuel exceeds the free pages (every collision with a
    mapping the bitset did not know marks a page): with an error, or with a block of whole host
    granules inside the low 4 GiB that was free in the bitset and is used in the new one. *)
Theorem Mmap_places HostSize g {K : Type} (sys : Kernel K) fuel s k addr length prot flags fd offset :
  0 <= g <= 8 -> HostSize = 2 ^ (12 + g) -> kernel_ok sys -> alloc_ok s -> free_pages s < Z.of_nat fuel ->
  0 <= addr -> addr mod 4096 = 0 -> 0 < length -> addr + length < 2 ^ 32 -> not_fixed flags ->
  fd = -1 \/ HostPage.IsAligned HostSize offset = true /\ guest_unaligned offset = false ->
  exists s' k' r, Mmap HostSize sys fuel s k addr length prot flags fd offset = Done (s', k', r) /\
    alloc_ok s' /\ (placed HostSize s s' (request_pages HostSize length) r \/ -4096 < r < 0).
Proof.
  intros Hg HHost. by apply (Mmap_no_address HostSize g Hg HHost sys).
Qed.

Lemma Mmap_places_witness :
  free_pages new_allocator < Z.of_nat (Z.to_nat BITSET_SIZE) /\
  exists s' k' r, Mmap 65536 demo (Z.to_nat BITSET_SIZE) new_allocator ∅ 0 5000 3 0x22 (-1) 0 = Done (s', k', r) /\
    alloc_ok s' /\ (placed 65536 new_allocator s' (request_pages 65536 5000) r \/ -4096 < r < 0).
Proof.
  assert (free_pages new_allocator < Z.of_nat (Z.to_nat BITSET_SIZE)) as Hf.
  { rewrite Z2Nat.id by (vm_compute; discriminate). vm_compute. reflexivity. }
  split; [exact Hf|].
  exact (Mmap_places 65536 4 demo (Z.to_nat BITSET_SIZE) new_allocator ∅ 0 5000 3 0x22 (-1) 0
    ltac:(lia) eq_refl (demo_ok false) new_allocator_ok Hf ltac:(lia) eq_refl ltac:(lia) ltac:(lia)
    (conj eq_refl eq_refl) (or_introl eq_refl)).
Defined.

Lemma TopDown_exact_witness :
  pages_ok (MappedPages new_allocator) /\
  highest 65536 (MappedPages new_allocator) 16 (GranuleCeil 65536 (TOP_KEY + 1) - 1) 0xFFFE0.
Proof.
  assert (pages_ok (MappedPages new_allocator)) as Hp by (apply new_allocator_ok). split; [exact Hp|].
  destruct (TopDown_exact 65536 4 new_allocator TOP_KEY 16 ltac:(lia) eq_refl Hp
    ltac:(vm_compute; split; [discriminate|reflexivity]) ltac:(lia) eq_refl) as (r & E & Hhi).
  assert (FindPageRange_TopDown 65536 new_allocator TOP_KEY 16 = Done 0xFFFE0) as E' by (vm_compute; reflexivity).
  rewrite E' in E. injection E as <-. exact Hhi.
Defined.

(** ** Sequences of guest calls *)

Inductive guest_call :=
  | GMmap (addr length prot flags fd offset : Z)
  | GMunmap (addr length : Z)
  | GMremap (old_address old_size new_size flags new_address : Z).

(** The values a 32-bit guest can pass, with sizes that are not zero. *)
Definition guest_args (c : guest_call) : Prop :=
  match c with
  | GMmap addr length _ _ _ _ => is_u 32 addr /\ is_u 32 length /\ 0 < length
  | GMunmap addr length => is_u 32 addr /\ is_u 32 length
  | GMremap old_address old_size new_size _ new_address =>
      is_u 32 old_address /\ is_u 32 old_size /\ is_u 32 new_size /\ 0 < new_size /\ is_u 32 new_address
  end.

Definition do_call (HostSize : Z) {K} (sys : Kernel K) (fuel : nat) (s : Alloc) (k : K) (c : guest_call) :
    outcome (Alloc * K * Z) :=
  match c with
  | GMmap addr length prot flags fd offset => Mmap HostSize sys fuel s k addr length prot flags fd offset
  | GMunmap addr length => Munmap HostSize sys s k addr length
  | GMremap old_address old_size new_size flags new_address =>
      Mremap HostSize sys fuel s k old_address old_size new_size flags new_address
  end.

Fixpoint do_calls (HostSize : Z) {K} (sys : Kernel K) (fuel : nat) (s : Alloc) (k : K) (cs : list guest_call) :
    outcome (Alloc * K) :=
  match cs with
  | [] => Done (s, k)
  | c :: cs => let! (s, k, _) := do_call HostSize sys fuel s k c in do_calls HostSize sys fuel s k cs
  end.

Lemma do_call_safe HostSize g {K} (sys : Kernel K) p protects R fuel s k c s' k' r :
  0 <= g <= 8 -> HostSize = 2 ^ (12 + g) -> kernel_ok sys -> page_frame sys p protects R ->
  alloc_ok s -> p ∈ HostReservedPages s -> whole_granule HostSize p protects s -> guest_args c ->
  do_call HostSize sys fuel s k c = Done (s', k', r) -> safe R s k s' k'.
Proof.
  intros Hg HHost Hk HR Hok Hp Hw Hc H. unfold is_u in Hc. destruct c; cbn [do_call guest_args] in *; unfold is_u in Hc.
  - apply (Mmap_safe HostSize g Hg HHost sys p protects R Hk HR) in H as [H _]; (done || lia).
  - apply (Munmap_safe HostSize g Hg HHost sys p protects R HR) in H; (done || lia).
  - apply (Mremap_safe HostSize g Hg HHost sys p protects R Hk HR) in H; (done || lia).
Qed.


(** One page of host code in the middle of a 64K granule; the guest maps a page beside it,
    tries to map over it, to unmap it, and to move a mapping onto it. *)
Definition host_page : Z := 0x80005.

Definition reserved_state : Alloc := ReserveHostRange new_allocator (host_page * 4096) 4096.
Definition reserved_memory : gmap Z Z := {[host_page := host_tag]}.

Definition hostile_calls : list guest_call :=
  [GMmap 0x80006000 4096 3 0x32 (-1) 0;
   GMmap 0x80005000 4096 3 0x32 (-1) 0;
   GMunmap 0x80000000 0x10000;
   GMmap 0 8192 3 0x22 (-1) 0;
   GMremap 0x80006000 4096 4096 3 0x80005000].

(** The states a computation that ends leaves. *)
Definition end_state {A} (d : A) (m : outcome A) : A := match m with Done a => a | _ => d end.

Definition hostile_end : Alloc * gmap Z Z :=
  end_state (reserved_state, ∅) (do_calls 65536 demo 4 reserved_state reserved_memory hostile_calls).

Lemma hostile_run :
  do_calls 65536 demo 4 reserved_state reserved_memory hostile_calls = Done (hostile_end.1, hostile_end.2).
Proof. vm_compute. reflexivity. Qed.

Lemma reserved_state_ok : alloc_ok reserved_state.
Proof. apply (ReserveLoop_ok _ new_allocator); [exact new_allocator_ok|vm_compute; discriminate]. Qed.

(** The kernel of protections, where the page of host code is readable and executable. *)
Definition protected_memory : gmap Z Z := {[host_page := 5]}.
Definition hostile_protections : gmap Z Z :=
  (end_state (reserved_state, ∅) (do_calls 4096 (demo_kernel true) 4 reserved_state protected_memory hostile_calls)).2.


(** In a granule the host shares with guest pages the protection is lost: a reservation records none, so the
    union that [MmapSubGranule] gives to the whole granule is that of the guest's pages alone.  One mapping
    of a page beside the host's makes the host's code readable and writable, and not executable. *)
Lemma shared_granule_loses_exec :
  protected_memory !! host_page = Some (PROT_READ ||| PROT_EXEC) /\
  (end_state (reserved_state, ∅) (do_calls 65536 (demo_kernel true) 4 reserved_state protected_memory
     [GMmap 0x80006000 4096 3 0x32 (-1) 0])).2 !! host_page = Some (PROT_READ ||| PROT_WRITE).
Proof. split; vm_compute; reflexivity. Qed.

(** ** Calls that fail *)

(** The guest of the example: two pages at 0x10000000, moved to 0x20000000. *)
Definition moved_calls : list guest_call := [GMmap 0x10000000 8192 3 0x32 (-1) 0].
Definition fixed_move : guest_call := GMremap 0x10000000 8192 8192 3 0x20000000.

Definition before_move : Alloc * gmap Z Z :=
  end_state (new_allocator, ∅) (do_calls 4096 demo 4 new_allocator ∅ moved_calls).
Definition after_move : Alloc * gmap Z Z * Z :=
  end_state (before_move, 0) (do_call 4096 demo 4 before_move.1 before_move.2 fixed_move).

(** A successful mremap with MREMAP_FIXED does not return.  The call falls through to the
    part that looks for a new place: on a 4K host the kernel has already moved the two pages of
    the example, then a fresh reservation is mapped, the second mremap of the old range fails
    with EFAULT, the guest is told so, and the pages of the reservation stay used. *)
Theorem mremap_fixed_fails :
  do_calls 4096 demo 4 new_allocator ∅ moved_calls = Done before_move /\
  snd (demo_mremap false before_move.2 0x10000000 8192 8192 3 0x20000000) = inl 0x20000000 /\
  do_call 4096 demo 4 before_move.1 before_move.2 fixed_move = Done after_move /\
  after_move.2 = - EFAULT /\
  after_move.1.2 !! 0x20000 = Some guest_tag /\ after_move.1.2 !! 0x10000 = None /\
  bool_decide (0xFFFFE ∈ MappedPages before_move.1) = false /\
  bool_decide (0xFFFFE ∈ MappedPages after_move.1.1) = true.
Proof. repeat split; vm_compute; reflexivity. Qed.

Lemma private_flag flags : has_flag flags MAP_PRIVATE = true -> has_flag flags (MAP_SHARED ||| MAP_SHARED_VALIDATE) = true.
Proof.
  unfold has_flag. rewrite !negb_true_iff, !Z.eqb_neq. intros H H3. apply H. apply Z.bits_inj'. intros i Hi.
  apply (f_equal (fun x => Z.testbit x i)) in H3. rewrite Z.land_spec, Z.bits_0 in *.
  change (MAP_SHARED ||| MAP_SHARED_VALIDATE) with (Z.lor MAP_PRIVATE 1) in H3. rewrite Z.lor_spec in H3.
  destruct (Z.testbit flags i), (Z.testbit MAP_PRIVATE i); done.
Qed.

(** A private file mapping at a guest-page offset between two host pages is refused: the test
    meant for shared mappings uses a mask (MAP_SHARED | MAP_SHARED_VALIDATE) that holds the
    bit of MAP_PRIVATE, so the copy into an anonymous mapping is never reached. *)
Lemma private_offset_refused HostSize {K : Type} (sys : Kernel K) fuel s k length prot flags fd offset :
  0 < length < 2 ^ 32 -> not_fixed flags -> has_flag flags MAP_PRIVATE = true -> fd <> -1 ->
  HostPage.IsAligned HostSize offset = false ->
  Mmap HostSize sys fuel s k 0 length prot flags fd offset = Done (s, k, - EINVAL).
Proof.
  intros Hl [N1 N2] Hp Hfd Ho. unfold Mmap. change (guest_unaligned 0) with false. cbv iota.
  destruct (_ && guest_unaligned offset); [done|].
  rewrite u_small by (unfold is_u; lia). rewrite (proj2 (Z.ltb_ge _ _)) by lia.
  rewrite N1, N2, Ho, (private_flag _ Hp), (proj2 (Z.eqb_neq _ _) Hfd). done.
Qed.

(** An mremap that may not move (no MREMAP_MAYMOVE) moves when the next page is used. *)
Definition two_pages : Alloc * gmap Z Z :=
  end_state (new_allocator, ∅)
    (do_calls 4096 demo 4 new_allocator ∅ [GMmap 0x10000000 4096 3 0x32 (-1) 0; GMmap 0x10001000 4096 3 0x32 (-1) 0]).

Lemma mremap_moves_anyway :
  snd (end_state (two_pages, 0) (do_call 4096 demo 4 two_pages.1 two_pages.2 (GMremap 0x10000000 4096 8192 0 0)))
  = 0xFFFFD000.
Proof. vm_compute. reflexivity. Qed.

(** ** A segment that cannot be attached *)

Section refused.
Context (HostSize g : Z) (Hg : 0 <= g <= 8) (HHost : HostSize = 2 ^ (12 + g)).
Context {K : Type} (sys : Kernel K) (shmid shmflg n : Z).
Context (Hrefuse : forall k a, exists k' e, sys_shmat sys k shmid a shmflg = (k', inr e)).
Context (s : Alloc) (Hok : alloc_ok s) (Hkey : LastKeyLocation s = TOP_KEY) (Htop : TOP_KEY ∈ MappedPages s).
Context (Hn : 0 < n <= BITSET_SIZE) (HnG : n mod GranulePages HostSize = 0).
Context (top : Z) (Hfind : FindPageRangePtr HostSize s TOP_KEY n = Done top) (Hfree : top <> 0).

Lemma top_key_index : in_bitset TOP_KEY.
Proof. done. Qed.

(** A scan that starts above the bitset finds nothing. *)
Lemma find_above st : BITSET_SIZE <= st < 2 ^ 32 -> FindPageRangePtr HostSize s st n = Done 0.
Proof.
  intros Hst. unfold FindPageRangePtr, FindPageRange_TopDown.
  pose proof (granule_bounds HostSize g Hg HHost). unfold BITSET_SIZE in *.
  rewrite (u_small 64 (st + 1)) by (unfold is_u; lia).
  destruct (GranuleCeil_spec HostSize g Hg HHost (st + 1)) as [_ Hc]; [lia|].
  rewrite u_small by (unfold is_u; lia). unfold scan_fuel. cbn [TopDownLoop].
  rewrite (proj2 (andb_false_iff _ _)); [done|]. right. apply Z.leb_gt. change TOP_KEY with 0xFFFFF. lia.
Qed.

(** Whatever the scan finds, a block that ends at the top key is the one found from the top. *)
Lemma find_top st r :
  in_bitset st -> FindPageRangePtr HostSize s st n = Done r -> r <> 0 -> r + n = TOP_KEY -> r = top.
Proof.
  intros Hst Hr Hr0 Htopr. unfold FindPageRangePtr in *.
  destruct (TopDown_spec HostSize g s st n) as (r' & E & Hhi); try done; [apply Hok|lia|].
  destruct (TopDown_spec HostSize g s TOP_KEY n) as (t' & E' & Hhi'); try done; [apply Hok|lia|].
  rewrite Hr in E. injection E as <-. rewrite Hfind in E'. injection E' as <-.
  destruct Hhi as [[? _]|(_ & (H0 & Hm & Hle & Hf) & _)]; [done|].
  destruct Hhi' as [[? _]|(_ & (H0' & Hm' & Hle' & Hf') & Hmax)]; [done|].
  destruct (GranuleCeil_spec HostSize g Hg HHost (TOP_KEY + 1)) as [_ Hc]; [done|].
  pose proof (GranuleCeil_bitset HostSize g Hg HHost (TOP_KEY + 1) ltac:(done)) as Hcb.
  change BITSET_SIZE with (TOP_KEY + 1) in Hcb.
  assert (r <= top) as Hrt by (apply Hmax; repeat split; try done; lia).
  destruct (ok_pages _ Hok) as [Hrange _].
  assert (top + n <= TOP_KEY) as Hlt; [|lia].
  destruct (Z.le_gt_cases (top + n) TOP_KEY) as [|Hgt]; [done|].
  destruct (Hf' TOP_KEY); [unfold in_pages; lia|done].
Qed.

Lemma ShmatLoop_diverges fuel : forall k (Wrapped : bool) Bottom,
  0 <= Bottom < 2 * BITSET_SIZE -> (Wrapped = true -> Bottom = TOP_KEY /\ top + n = TOP_KEY) ->
  ShmatLoop HostSize sys fuel s k shmid shmflg n Wrapped Bottom = Unfinished.
Proof.
  induction fuel as [|fuel IH]; intros k Wrapped Bottom HB HW; [done|]. cbn [ShmatLoop]. unfold BITSET_SIZE in *.
  assert (exists l Bt Lower, FindPageRangePtr HostSize s Bottom n = Done l /\
    (if l =? 0 then let! l' := FindPageRangePtr HostSize s (LastKeyLocation s) n in Done (LastKeyLocation s, l')
     else Done (Bottom, l)) = Done (Bt, Lower) /\ Lower <> 0 /\ 0 <= Bt < 2 ^ 20 /\
    FindPageRangePtr HostSize s Bt n = Done Lower /\ (Bottom = TOP_KEY -> Lower = top))
    as (l & Bt & Lower & E & E2 & HL0 & HBt & HL & HBtop).
  { rewrite Hkey. destruct (Z.lt_ge_cases Bottom BITSET_SIZE) as [Hlt|Hge]; unfold BITSET_SIZE in *.
    - destruct (find_done HostSize g Hg HHost s Bottom n) as [l El]; try done; [unfold in_bitset, BITSET_SIZE; lia|lia|].
      exists l. destruct (Z.eqb_spec l 0) as [-> |Hl0].
      + exists TOP_KEY, top. rewrite Hfind. repeat split; done.
      + exists Bottom, l. repeat split; try done; try lia. intros ->. rewrite Hfind in El. by injection El.
    - exists 0, TOP_KEY, top. rewrite find_above, Hfind by (unfold BITSET_SIZE; lia). repeat split; done. }
  rewrite E. cbn [obind]. rewrite E2. cbn [obind]. rewrite (proj2 (Z.eqb_neq _ _) HL0).
  destruct (Hrefuse k (of_page Lower)) as (k1 & e & ->).
  assert (in_bitset Bt) as HBti by (unfold in_bitset, BITSET_SIZE; lia).
  destruct (find_twice HostSize g Hg HHost s Bt Bt n Lower Bt Hok HBti HBti (proj1 Hn) HnG) as [_ HLr].
  { rewrite HL. cbn [obind]. by rewrite (proj2 (Z.eqb_neq _ _) HL0). }
  destruct HLr as [|(HL1 & _ & HL2 & _)]; [done|]. unfold BASE_KEY, BITSET_SIZE in *.
  rewrite u_small by (unfold is_u; lia).
  destruct (Z.eqb_spec (Lower + n) TOP_KEY) as [Htk|Htk].
  - rewrite Hkey. apply IH; [done|]. intros _. split; [done|].
    by rewrite <- (find_top Bt Lower) by (done || unfold in_bitset, BITSET_SIZE; lia).
  - assert (Wrapped = false) as ->.
    { destruct Wrapped; [|done]. destruct (HW eq_refl) as [HBk Htt]. rewrite (HBtop HBk) in Htk. done. }
    cbn [andb]. rewrite u_small by (unfold is_u; lia). apply IH; [lia|done].
Qed.

End refused.


