(* ===== verification/Alloc64.v ===== *)
(** * The host's 64-bit allocator: the model
    (FEXCore/Source/Utils/Allocator/64BitAllocator.cpp and FlexBitSet.h)

    [FlexBitSet] is the bitset over 64-bit words with its two range scans.  [OSAllocator_64Bit]
    hands out address space from regions taken at start-up: reserved regions become live when
    they are first used, and a live region tracks its pages in a bitset.  The header of a live
    region is stored at its own start; the model keeps it beside the region.  The kernel is the
    record of system calls of the 32-bit allocator, with [madvise] as a function of its own.
    [None] stands for the process dying in MakeRegionActive or for fuel that ran out. *)

From S2P Require Import Prelude VMA VMATrack Granule Alloc32.
Import VMA Track.

(** The results of a scan ([BitsetScanResults]). *)
Definition NotFound : Z := 2 ^ 64 - 1.

Module FlexBitSet.

Definition MinimumSizeBits : Z := 64.

Abbreviation Memory := (gmap Z Z).

Definition word (m : Memory) (i : Z) : Z := default 0 (m !! i).

Definition Get (m : Memory) (Element : Z) : bool :=
  negb (word m (Element / MinimumSizeBits) &&& (1 <<< (Element mod MinimumSizeBits)) =? 0).
Definition Set_ (m : Memory) (Element : Z) : Memory :=
  <[Element / MinimumSizeBits :=
      word m (Element / MinimumSizeBits) ||| (1 <<< (Element mod MinimumSizeBits))]> m.
Definition Clear (m : Memory) (Element : Z) : Memory :=
  <[Element / MinimumSizeBits :=
      Z.ldiff (word m (Element / MinimumSizeBits)) (1 <<< (Element mod MinimumSizeBits))]> m.
Definition TestAndSet (m : Memory) (Element : Z) : Memory * bool := (Set_ m Element, Get m Element).
Definition TestAndClear (m : Memory) (Element : Z) : Memory * bool := (Clear m Element, Get m Element).

(** memset of a number of bytes that is a multiple of 64, a word at a time. *)
Definition memset_words (m : Memory) (v Bytes : Z) : Memory :=
  foldr (fun i m => <[i := v]> m) m (seqZ 0 (Bytes / 8)).

Definition MemClear (m : Memory) (Elements : Z) : Memory :=
  memset_words m 0 (AlignUp (Elements / MinimumSizeBits) MinimumSizeBits).
Definition MemSet (m : Memory) (Elements : Z) : Memory :=
  memset_words m (2 ^ 64 - 1) (AlignUp (Elements / MinimumSizeBits) MinimumSizeBits).

Definition SizeInBits (Elements : Z) : Z := AlignUp Elements MinimumSizeBits.
Definition SizeInBytes (Elements : Z) : Z := SizeInBits Elements / 8.

Section scan.
Context (WantUnset : bool) (m : Memory).

(** The inner loops: how much of the window remains when a blocking element is met. *)
Fixpoint back_inner (Current : Z) (Remaining : nat) : nat :=
  match Remaining with
  | O => O
  | S r => if Bool.eqb (Get m (u64 (Current - Z.of_nat Remaining + 1))) WantUnset
           then Remaining else back_inner Current r
  end.

Fixpoint fwd_inner (Current : Z) (Remaining : nat) : nat :=
  match Remaining with
  | O => O
  | S r => if Bool.eqb (Get m (u64 (Current + Z.of_nat Remaining - 1))) WantUnset
           then Remaining else fwd_inner Current r
  end.

Fixpoint BackLoop (fuel : nat) (Current Count Final : Z) (FoundHole : bool) : option (Z * bool) :=
  if Final <=? Current then
    match fuel with
    | O => None
    | S fuel =>
        match back_inner Current (Z.to_nat Count) with
        | O => Some (u64 (Current - Count + 1), FoundHole)
        | S _ as r =>
            BackLoop fuel (u64 (Current - Z.of_nat r)) Count Final (FoundHole || negb (Z.of_nat r =? Count))
        end
    end
  else Some (NotFound, FoundHole).

Fixpoint FwdLoop (fuel : nat) (Current Count Final : Z) (FoundHole : bool) : option (Z * bool) :=
  if Current <=? Final then
    match fuel with
    | O => None
    | S fuel =>
        match fwd_inner Current (Z.to_nat Count) with
        | O => Some (Current, FoundHole)
        | S _ as r =>
            FwdLoop fuel (u64 (Current + Z.of_nat r)) Count Final (FoundHole || negb (Z.of_nat r =? Count))
        end
    end
  else Some (NotFound, FoundHole).

(** Every round moves by at least one element. *)
Definition BackwardScanForRange (BeginningElement ElementCount MinimumElement : Z) : option (Z * bool) :=
  let FinalElement := u64 (MinimumElement + ElementCount - 1) in
  BackLoop (Z.to_nat (BeginningElement - FinalElement + 2)) BeginningElement ElementCount FinalElement false.

Definition ForwardScanForRange (BeginningElement ElementCount ElementsInSet : Z) : option (Z * bool) :=
  let FinalElement := u64 (ElementsInSet - ElementCount + 1) in
  FwdLoop (Z.to_nat (FinalElement - BeginningElement + 2)) BeginningElement ElementCount FinalElement false.

End scan.
End FlexBitSet.

Module OSAllocator_64Bit.
Import FlexBitSet MemAllocator32Bit.

Definition LOWER_BOUND : Z := 0x100000000.
Definition MaxReservedRegionSize : Z := 64 * 1024 * 1024 * 1024.
Definition sizeof_LiveVMARegion : Z := FEX_GUEST_PAGE_SIZE.

Record ReservedVMARegion := mkReserved { Base : Z; RegionSize : Z }.

Record LiveVMARegion := mkLive {
  SlabInfo : ReservedVMARegion;
  FreeSpace : Z;
  NumManagedPages : Z;
  LastPageAllocation : Z;
  HadMunmap : bool;
  UsedPages : gmap Z Z;
}.

Record OSAllocator := mkOS {
  ReservedRegions : list ReservedVMARegion;
  LiveRegions : list LiveVMARegion;
}.

Definition MergeReservedRegionIfPossible (r : ReservedVMARegion) (NextPtr NextSize : Z) : option ReservedVMARegion :=
  let RegionEnd := u64 (Base r + RegionSize r) in
  let NewRegionSize := u64 (RegionSize r + NextSize) in
  if (RegionEnd =? NextPtr) && (NewRegionSize <=? MaxReservedRegionSize)
  then Some (mkReserved (Base r) NewRegionSize) else None.

Section host.
Context (HostSize : Z).

Definition HostShift : Z := Z.log2 HostSize.

Definition GetFEXManagedVMARegionSize (Size : Z) : Z :=
  sizeof_LiveVMARegion + SizeInBytes (Size >>> HostShift).

(** The pages the header of a region of [Size] bytes takes at its start, in bytes. *)
Definition HeaderSize (Size : Z) : Z := HostPage.AlignUp HostSize (GetFEXManagedVMARegionSize Size).

Section kernel.
Context {K : Type} (sys : Kernel K) (sys_madvise : K -> Z -> Z -> K).

Definition InitializeVMARegionUsed (k : K) (r : ReservedVMARegion) (AdditionalSize : Z) : K * LiveVMARegion :=
  let SizePlusManagedData := u64 (HeaderSize (RegionSize r) + AdditionalSize) in
  let Managed := SizePlusManagedData >>> HostShift in
  let ManagedSize := u64 (Managed <<< HostShift) in
  let Bits := u64 (Base r + sizeof_LiveVMARegion) in
  let TrackingBytes := RegionSize r >>> HostShift in
  let k := if ManagedSize <? TrackingBytes
           then sys_madvise k (HostPage.AlignUp HostSize (u64 (Bits + ManagedSize))) (TrackingBytes - ManagedSize)
           else k in
  let k := sys_madvise k (HostPage.AlignDown HostSize Bits) ManagedSize in
  (k, mkLive r (u64 (RegionSize r - SizePlusManagedData)) Managed (u32 Managed) false (MemSet ∅ Managed)).

(** The region at [i] of the reserved list becomes the last live one. *)
Definition MakeRegionActive (k : K) (s : OSAllocator) (i : nat) (UsedSize : Z) : option (K * OSAllocator) :=
  r ← ReservedRegions s !! i;
  match sys_mprotect sys k (Base r) (u64 (UsedSize + HeaderSize (RegionSize r))) (PROT_READ ||| PROT_WRITE) with
  | (_, Some _) => None
  | (k, None) =>
      let '(k, live) := InitializeVMARegionUsed k r UsedSize in
      Some (k, mkOS (delete i (ReservedRegions s)) (LiveRegions s ++ [live]))
  end.

Definition region_holds (r : ReservedVMARegion) (Addr AddrEnd : Z) : bool :=
  (Base r <=? Addr) && (AddrEnd <? u64 (Base r + RegionSize r)).

(** The index of the first element that satisfies a test. *)
Fixpoint find_index {A} (P : A -> bool) (l : list A) : option nat :=
  match l with
  | [] => None
  | x :: l => if P x then Some O else S <$> find_index P l
  end.

(** The live region that holds the range, which may be one made active for it; its index. *)
Definition FindLiveRegionForAddress (k : K) (s : OSAllocator) (Addr AddrEnd : Z) :
    option (K * OSAllocator * option nat) :=
  match find_index (fun l => region_holds (SlabInfo l) Addr AddrEnd) (LiveRegions s) with
  | Some i => Some (k, s, Some i)
  | None =>
      match find_index (fun r => region_holds r Addr AddrEnd) (ReservedRegions s) with
      | None => Some (k, s, None)
      | Some j =>
          '(k, s) ← MakeRegionActive k s j 0;
          Some (k, s, Some (length (LiveRegions s) - 1)%nat)
      end
  end.

(** The page [CheckIfRangeFits] chooses, with the region's new HadMunmap. *)
Definition ChoosePage (r : LiveVMARegion) (length StartingPosition : Z) : option (Z * LiveVMARegion) :=
  let NumberOfPages := length >>> HostShift in
  let LastAllocation :=
    if negb (StartingPosition =? 0) then u64 (StartingPosition - Base (SlabInfo r)) >>> HostShift
    else LastPageAllocation r in
  let RegionNumberOfPages := RegionSize (SlabInfo r) >>> HostShift in
  '(page, r) ←
    (if HadMunmap r then
       '(e, hole) ← BackwardScanForRange true (UsedPages r) LastAllocation NumberOfPages (NumManagedPages r);
       Some (e, mkLive (SlabInfo r) (FreeSpace r) (NumManagedPages r) (LastPageAllocation r)
                  (negb ((e =? NotFound) && negb hole)) (UsedPages r))
     else Some (NotFound, r));
  (if page =? NotFound then
     '(e, _) ← ForwardScanForRange true (UsedPages r) LastAllocation NumberOfPages RegionNumberOfPages;
     Some (e, r)
   else Some (page, r)).

(** [CheckIfRangeFits]: Some of the mmap result when a page was found. *)
Definition CheckIfRangeFits (k : K) (r : LiveVMARegion) (AllocatedOffset length prot flags fd offset StartingPosition : Z) :
    option (K * LiveVMARegion * Z * option sysret) :=
  if length <=? FreeSpace r then
    '(page, r) ← ChoosePage r length StartingPosition;
    if page =? NotFound then Some (k, r, AllocatedOffset, None)
    else
      let AllocatedOffset := u64 (Base (SlabInfo r) + page * HostSize) in
      let '(k, res) := sys_mmap sys k AllocatedOffset length prot
                         (Z.ldiff flags FEX_MAP_FIXED_NOREPLACE ||| MAP_FIXED) fd offset in
      Some (k, r, AllocatedOffset, Some res)
  else Some (k, r, AllocatedOffset, None).

Definition fits_at (res : option sysret) (p : Z) : bool :=
  match res with Some (inl q) => q =? p | _ => false end.

(** The loop over the live regions; the index of the one that fits. *)
Fixpoint TryRegions (k : K) (done rest : list LiveVMARegion) (AllocatedOffset length prot flags fd offset : Z) :
    option (K * list LiveVMARegion * Z * option nat) :=
  match rest with
  | [] => Some (k, done, AllocatedOffset, None)
  | r :: rest =>
      '(k, r, AllocatedOffset, res) ← CheckIfRangeFits k r AllocatedOffset length prot flags fd offset 0;
      if fits_at res AllocatedOffset then Some (k, done ++ r :: rest, AllocatedOffset, Some (List.length done))
      else TryRegions k (done ++ [r]) rest AllocatedOffset length prot flags fd offset
  end.

(** The non-fixed placement, from the label [again]; [Target] is the region of the hint. *)
Fixpoint PlaceLoop (fuel : nat) (k : K) (s : OSAllocator) (Target : option nat)
    (AllocatedOffset Addr length prot flags fd offset : Z) : option (K * OSAllocator * Z * option nat) :=
  match fuel with
  | O => None
  | S fuel =>
      '(k, s, AllocatedOffset, Target) ←
        (match Target with
         | Some i =>
             if negb (Addr =? 0) then
               r ← LiveRegions s !! i;
               '(k, r, AllocatedOffset, res) ← CheckIfRangeFits k r AllocatedOffset length prot flags fd offset Addr;
               let s := mkOS (ReservedRegions s) (<[i := r]> (LiveRegions s)) in
               Some (if fits_at res Addr then (k, s, Addr, Some i) else (k, s, AllocatedOffset, None))
             else Some (k, s, AllocatedOffset, Some i)
         | None => Some (k, s, AllocatedOffset, None)
         end);
      '(k, s, AllocatedOffset, Target) ←
        (match Target with
         | Some i => Some (k, s, AllocatedOffset, Some i)
         | None =>
             '(k, ls, AllocatedOffset, t) ← TryRegions k [] (LiveRegions s) AllocatedOffset length prot flags fd offset;
             Some (k, mkOS (ReservedRegions s) ls, AllocatedOffset, t)
         end);
      match Target with
      | Some i => Some (k, s, AllocatedOffset, Some i)
      | None =>
          let Needed := u64 (length + HeaderSize length) in
          match find_index (fun r => Needed <=? RegionSize r) (ReservedRegions s) with
          | Some j =>
              '(k, s) ← MakeRegionActive k s j 0;
              PlaceLoop fuel k s None AllocatedOffset Addr length prot flags fd offset
          | None => Some (k, s, AllocatedOffset, None)
          end
      end
  end.

(** Marking [n] pages used (or free): the new bits and how many changed. *)
Fixpoint MarkPages (m : gmap Z Z) (Page : Z) (n : nat) : gmap Z Z * Z :=
  match n with
  | O => (m, 0)
  | S n =>
      let '(m, was) := TestAndSet m Page in
      let '(m, c) := MarkPages m (u64 (Page + 1)) n in (m, if was then c else c + 1)
  end.

Fixpoint FreePages (m : gmap Z Z) (Page : Z) (n : nat) : gmap Z Z * Z :=
  match n with
  | O => (m, 0)
  | S n =>
      let '(m, was) := TestAndClear m Page in
      let '(m, c) := FreePages m (u64 (Page + 1)) n in (m, if was then c + 1 else c)
  end.

(** The bookkeeping at the end of Mmap for the region at [i]. *)
Definition TrackAllocation (s : OSAllocator) (i : nat) (AllocatedOffset NumberOfPages : Z) : option OSAllocator :=
  r ← LiveRegions s !! i;
  let MappedBegin := u64 (AllocatedOffset - Base (SlabInfo r)) >>> HostShift in
  let '(m, PagesSet) := MarkPages (UsedPages r) MappedBegin (Z.to_nat NumberOfPages) in
  let r := mkLive (SlabInfo r) (u64 (FreeSpace r - PagesSet * HostSize)) (NumManagedPages r)
             (u32 (MappedBegin + NumberOfPages)) (HadMunmap r) m in
  Some (mkOS (ReservedRegions s) (<[i := r]> (LiveRegions s))).

Definition host_unaligned (x : Z) : bool := negb (x &&& u64 (Z.lnot (HostPage.Mask HostSize)) =? 0).

(** The fixed placement into a live region: the allocated address, or an error to return. *)
Definition PlaceFixed (k : K) (s : OSAllocator) (i : nat) (Addr length prot flags fd offset : Z) :
    option (K * OSAllocator * sysret) :=
  if has_flag flags FEX_MAP_FIXED_NOREPLACE then
    r ← LiveRegions s !! i;
    '(k, r, _, res) ← CheckIfRangeFits k r 0 length prot flags fd offset Addr;
    let s := mkOS (ReservedRegions s) (<[i := r]> (LiveRegions s)) in
    Some (k, s, if fits_at res Addr then inl Addr else inr EEXIST)
  else
    let '(k, res) := sys_mmap sys k Addr length prot (Z.ldiff flags FEX_MAP_FIXED_NOREPLACE ||| MAP_FIXED) fd offset in
    Some (k, s, match res with inl _ => inl Addr | inr e => inr e end).

Definition Mmap (fuel : nat) (k : K) (s : OSAllocator) (addr length prot flags fd offset : Z) :
    option (K * OSAllocator * Z) :=
  if negb (addr =? 0) && (addr <? LOWER_BOUND) then
    let '(k, r) := sys_mmap sys k addr length prot flags fd offset in
    Some (k, s, match r with inl p => p | inr e => -1 end)
  else
    let Fixed := has_flag flags MAP_FIXED || has_flag flags FEX_MAP_FIXED_NOREPLACE in
    let Addr := if Fixed then addr else HostPage.AlignDown HostSize addr in
    if host_unaligned Addr then Some (k, s, - EINVAL)
    else if negb (fd =? -1) && host_unaligned offset then Some (k, s, - EINVAL)
    else if u64 (Addr + length) <? Addr then Some (k, s, - EOVERFLOW)
    else
      let length := HostPage.AlignUp HostSize length in
      let AddrEnd := u64 (Addr + length) in
      let NumberOfPages := length / HostSize in
      '(k, s, Target) ← (if Fixed || negb (Addr =? 0) then FindLiveRegionForAddress k s Addr AddrEnd
                         else Some (k, s, None));
      if Fixed then
        match Target with
        | None => Some (k, s, - ENOMEM)
        | Some i =>
            '(k, s, res) ← PlaceFixed k s i Addr length prot flags fd offset;
            match res with
            | inr e => Some (k, s, - e)
            | inl p => s ← TrackAllocation s i p NumberOfPages; Some (k, s, if p =? 0 then - ENOMEM else p)
            end
        end
      else
        '(k, s, AllocatedOffset, Target) ← PlaceLoop fuel k s Target 0 Addr length prot flags fd offset;
        s ← (match Target with
             | Some i => TrackAllocation s i AllocatedOffset NumberOfPages
             | None => Some s
             end);
        Some (k, s, if AllocatedOffset =? 0 then - ENOMEM else AllocatedOffset).

Definition Munmap (k : K) (s : OSAllocator) (addr length : Z) : option (K * OSAllocator * Z) :=
  if addr <? LOWER_BOUND then
    let '(k, r) := sys_munmap sys k addr length in Some (k, s, match r with None => 0 | Some e => -1 end)
  else if host_unaligned addr then Some (k, s, - EINVAL)
  else if host_unaligned length then Some (k, s, - EINVAL)
  else if u64 (addr + length) <? addr then Some (k, s, - EOVERFLOW)
  else
    let length := HostPage.AlignUp HostSize length in
    let PtrEnd := u64 (addr + length) in
    match find_index (fun l => region_holds (SlabInfo l) addr PtrEnd) (LiveRegions s) with
    | None => Some (k, s, 0)
    | Some i =>
        r ← LiveRegions s !! i;
        let SlabPageBegin := u32 (u64 (addr - Base (SlabInfo r)) >>> HostShift) in
        let '(m, FreedPages) := FreePages (UsedPages r) SlabPageBegin (Z.to_nat (length >>> HostShift)) in
        let k := if negb (FreedPages =? 0) then
                   fst (sys_mmap sys (sys_madvise k addr length) addr length 0
                          (MAP_PRIVATE ||| MAP_ANONYMOUS ||| MAP_FIXED) (-1) 0)
                 else k in
        let r := mkLive (SlabInfo r) (u64 (FreeSpace r + FreedPages * HostSize)) (NumManagedPages r)
                   (Z.min (LastPageAllocation r) SlabPageBegin) true m in
        Some (k, mkOS (ReservedRegions s) (<[i := r]> (LiveRegions s)), 0)
    end.

(** The destructor. *)
Definition Destroy (k : K) (s : OSAllocator) : K :=
  let k := foldl (fun k l => fst (sys_munmap sys k (Base (SlabInfo l)) (RegionSize (SlabInfo l)))) k (LiveRegions s) in
  foldl (fun k r => fst (sys_munmap sys k (Base r) (RegionSize r))) k (ReservedRegions s).

(** ** Start-up: ranges of free address space, as pairs of an address and a size *)

Definition ObjectAllocSize : Z := 64 * 1024 * 1024.

(** The arena is taken from the first range that holds it after the alignment skip. *)
Fixpoint CarveArena (ThpAlign : Z) (Ranges : list (Z * Z)) : option (Z * list (Z * Z)) :=
  match Ranges with
  | [] => None
  | (Ptr, Size) :: rest =>
      let ABase := if negb (ThpAlign =? 0) then Z.ldiff (u64 (Ptr + ThpAlign - 1)) (ThpAlign - 1) else Ptr in
      let Skip := u64 (ABase - Ptr) in
      if Size <? u64 (ObjectAllocSize + Skip) then
        '(a, rest) ← CarveArena ThpAlign rest; Some (a, (Ptr, Size) :: rest)
      else Some (ABase, (u64 (Ptr + (ObjectAllocSize + Skip)), u64 (Size - (ObjectAllocSize + Skip))) :: rest)
  end.

Fixpoint AddRegions (Ranges : list (Z * Z)) : list ReservedVMARegion :=
  match Ranges with
  | [] => []
  | (Ptr, Size) :: rest => if Size <=? HostSize * 2 then AddRegions rest else mkReserved Ptr Size :: AddRegions rest
  end.

(** None when no range holds the arena.  The result of mprotect is not looked at. *)
Definition AllocateMemoryRegions (ThpAlign : Z) (k : K) (Ranges : list (Z * Z)) : option (K * OSAllocator) :=
  '(Arena, Ranges) ← CarveArena ThpAlign Ranges;
  let k := fst (sys_mprotect sys k Arena ObjectAllocSize (PROT_READ ||| PROT_WRITE)) in
  Some (k, mkOS (AddRegions Ranges) []).

(** The loop that looks for the smallest range: [Smallest] is a reference to the first range,
    so the assignment in the loop overwrites that range. *)
Definition PickSmallest (Regions : list (Z * Z)) : list (Z * Z) :=
  match Regions with
  | [] => []
  | first :: rest => foldl (fun cur it => if it.2 <=? cur.2 then it else cur) first rest :: rest
  end.

(** [make_alloc_unique]: a page at the start of the first range holds the allocator. *)
Definition CarveAllocator (alloc_size : Z) (k : K) (Regions : list (Z * Z)) : option (K * list (Z * Z)) :=
  match Regions with
  | [] => None
  | (Ptr, Size) :: rest =>
      let MinPage := HostPage.AlignUp HostSize alloc_size in
      if (Size <? alloc_size) || negb (MinPage =? HostSize) then None
      else
        match sys_mmap sys k Ptr MinPage (PROT_READ ||| PROT_WRITE) (MAP_PRIVATE ||| MAP_ANONYMOUS ||| MAP_FIXED) (-1) 0 with
        | (_, inr _) => None
        | (k, inl _) => Some (k, (u64 (Ptr + MinPage), u64 (Size - MinPage)) :: rest)
        end
  end.

Definition Create64BitAllocatorWithRegions (alloc_size ThpAlign : Z) (k : K) (Regions : list (Z * Z)) : option (K * OSAllocator) :=
  '(k, Regions) ← CarveAllocator alloc_size k (PickSmallest Regions);
  AllocateMemoryRegions ThpAlign k Regions.

End kernel.
End host.
End OSAllocator_64Bit.
