(* ===== verification/Alloc64Props.v ===== *)
(** * The host's 64-bit allocator: bits and scans

    The bitset operations change exactly their element; the forward scan is first fit and the
    backward scan last fit over the windows its bounds allow; marking and freeing pages change
    exactly a range and count the bits they changed. *)

From S2P Require Import Prelude VMA VMATrack Granule Alloc32 Alloc64.
Import VMA Track FlexBitSet.

(** ** Single elements *)

Lemma Get_testbit m e : 0 <= e -> Get m e = Z.testbit (word m (e / 64)) (e mod 64).
Proof.
  intros He. unfold Get, MinimumSizeBits. rewrite Z.shiftl_1_l.
  pose proof (Z.mod_pos_bound e 64 ltac:(lia)) as Hm.
  destruct (Z.testbit (word m (e / 64)) (e mod 64)) eqn:E.
  - apply negb_true_iff, Z.eqb_neq. intros H. apply (f_equal (fun x => Z.testbit x (e mod 64))) in H.
    rewrite Z.land_spec, Z.pow2_bits_true, E, Z.bits_0 in H by lia. done.
  - apply negb_false_iff, Z.eqb_eq. apply Z.bits_inj'. intros i Hi.
    rewrite Z.land_spec, Z.pow2_bits_eqb, Z.bits_0 by lia.
    destruct (Z.eqb_spec (e mod 64) i) as [<-|]; [by rewrite E|apply andb_false_r].
Qed.

Lemma word_insert m i j v : word (<[i := v]> m) j = if decide (i = j) then v else word m j.
Proof. unfold word. case_decide as E; [subst; by rewrite lookup_insert_eq|by rewrite lookup_insert_ne]. Qed.

Lemma split_element e f : 0 <= e -> 0 <= f -> e / 64 = f / 64 -> e mod 64 = f mod 64 -> e = f.
Proof. intros. rewrite (Z.div_mod e 64), (Z.div_mod f 64) by lia. congruence. Qed.

Lemma Get_Set m e f : 0 <= e -> 0 <= f -> Get (Set_ m e) f = bool_decide (e = f) || Get m f.
Proof.
  intros He Hf. rewrite !Get_testbit by done. unfold Set_, MinimumSizeBits. rewrite word_insert.
  pose proof (Z.mod_pos_bound e 64 ltac:(lia)). pose proof (Z.mod_pos_bound f 64 ltac:(lia)).
  case_decide as E.
  - rewrite Z.shiftl_1_l, Z.lor_spec, Z.pow2_bits_eqb by lia. rewrite E, orb_comm. f_equal.
    apply eq_iff_eq_true. rewrite Z.eqb_eq, bool_decide_eq_true. split; [by apply split_element|by intros ->].
  - rewrite bool_decide_eq_false_2 by congruence. done.
Qed.

Lemma Get_Clear m e f : 0 <= e -> 0 <= f -> Get (Clear m e) f = negb (bool_decide (e = f)) && Get m f.
Proof.
  intros He Hf. rewrite !Get_testbit by done. unfold Clear, MinimumSizeBits. rewrite word_insert.
  pose proof (Z.mod_pos_bound e 64 ltac:(lia)). pose proof (Z.mod_pos_bound f 64 ltac:(lia)).
  case_decide as E.
  - rewrite Z.shiftl_1_l, Z.ldiff_spec, Z.pow2_bits_eqb by lia. rewrite E, andb_comm. f_equal. f_equal.
    apply eq_iff_eq_true. rewrite Z.eqb_eq, bool_decide_eq_true. split; [by apply split_element|by intros ->].
  - rewrite bool_decide_eq_false_2 by congruence. done.
Qed.

(** ** The scans *)

Definition window_free (m : gmap Z Z) (x n : Z) : Prop := forall e, x <= e < x + n -> Get m e = false.

(** A window that contains a set element is not free. *)
Lemma not_free m x n e : x <= e < x + n -> Get m e = true -> ~ window_free m x n.
Proof. intros He Hg Hf. specialize (Hf e He). congruence. Qed.

Section scan.
Context (m : gmap Z Z).

Lemma fwd_inner_spec c n : 0 <= c -> c + Z.of_nat n < 2 ^ 64 ->
  let r := fwd_inner true m c n in
  (r <= n)%nat /\ (r <> O -> Get m (c + Z.of_nat r - 1) = true) /\ (r = O -> window_free m c (Z.of_nat n)).
Proof.
  intros Hc Hn. unfold window_free. induction n as [|n IH]; cbn [fwd_inner]; [split; [done|]; split; [done|lia]|].
  rewrite u_small by (unfold is_u; lia). destruct (Get m (c + Z.of_nat (S n) - 1)) eqn:E; cbn [Bool.eqb].
  - split; [lia|]. split; [done|lia].
  - destruct IH as (H1 & H2 & H3); [lia|]. split; [lia|]. split; [done|]. intros Hr e He.
    destruct (Z.eq_dec e (c + Z.of_nat (S n) - 1)) as [-> |]; [done|]. apply H3; [done|lia].
Qed.

Lemma back_inner_spec c n : -1 <= c - Z.of_nat n -> c < 2 ^ 63 ->
  let r := back_inner true m c n in
  (r <= n)%nat /\ (r <> O -> Get m (c - Z.of_nat r + 1) = true) /\
  (r = O -> window_free m (c - Z.of_nat n + 1) (Z.of_nat n)).
Proof.
  intros Hc Hn. unfold window_free. induction n as [|n IH]; cbn [back_inner]; [split; [done|]; split; [done|lia]|].
  rewrite u_small by (unfold is_u; lia). destruct (Get m (c - Z.of_nat (S n) + 1)) eqn:E; cbn [Bool.eqb].
  - split; [lia|]. split; [done|lia].
  - destruct IH as (H1 & H2 & H3); [lia|]. split; [lia|]. split; [done|]. intros Hr e He.
    destruct (Z.eq_dec e (c - Z.of_nat (S n) + 1)) as [-> |]; [done|]. apply H3; [done|lia].
Qed.

(** The least free window that starts in a range, and the greatest one that ends in it. *)
Definition first_fit (First Last n x : Z) : Prop :=
  (x = NotFound /\ forall y, First <= y <= Last -> ~ window_free m y n) \/
  (First <= x <= Last /\ window_free m x n /\ forall y, First <= y < x -> ~ window_free m y n).

Definition last_fit (First Last n x : Z) : Prop :=
  (x = NotFound /\ forall y, First <= y <= Last -> ~ window_free m y n) \/
  (First <= x <= Last /\ window_free m x n /\ forall y, x < y <= Last -> ~ window_free m y n).

Lemma FwdLoop_spec n Final fuel : 0 < n -> Final + n < 2 ^ 63 -> forall c hole,
  0 <= c < 2 ^ 63 -> Final - c + 1 < Z.of_nat fuel ->
  exists x h, FwdLoop true m fuel c n Final hole = Some (x, h) /\ first_fit c Final n x.
Proof.
  intros Hn HF. induction fuel as [|fuel IH]; intros c hole Hc Hfuel; cbn [FwdLoop].
  - replace (c <=? Final) with false by lia. exists NotFound, hole. split; [done|]. left. split; [done|lia].
  - destruct (Z.leb_spec c Final); [|exists NotFound, hole; split; [done|]; left; split; [done|lia]].
    destruct (fwd_inner_spec c (Z.to_nat n)) as (H1 & H2 & H3); [lia|lia|]. rewrite Z2Nat.id in H3 by lia.
    destruct (fwd_inner true m c (Z.to_nat n)) as [|r].
    + exists c, hole. split; [done|]. right. split; [lia|]. split; [by apply H3|lia].
    + specialize (H2 ltac:(lia)). rewrite u_small by (unfold is_u; lia).
      assert (forall y, c <= y < c + Z.of_nat (S r) -> ~ window_free m y n) as Hskip.
      { intros y Hy. apply (not_free m y n (c + Z.of_nat (S r) - 1)); [lia|done]. }
      destruct (IH (c + Z.of_nat (S r)) (hole || negb (Z.of_nat (S r) =? n))) as (x & h & E & Hx); [lia|lia|].
      exists x, h. split; [done|]. destruct Hx as [[-> Hno]|(Hb & Hfree & Hleast)].
      * left. split; [done|]. intros y Hy. destruct (Z.lt_ge_cases y (c + Z.of_nat (S r))); [apply Hskip; lia|apply Hno; lia].
      * right. split; [lia|]. split; [done|]. intros y Hy.
        destruct (Z.lt_ge_cases y (c + Z.of_nat (S r))); [apply Hskip; lia|apply Hleast; lia].
Qed.

Lemma BackLoop_spec n Min fuel : 0 < n -> 1 <= Min -> forall c hole,
  c < 2 ^ 63 -> c - (Min + n - 1) + 1 < Z.of_nat fuel ->
  exists x h, BackLoop true m fuel c n (Min + n - 1) hole = Some (x, h) /\ last_fit Min (c - n + 1) n x.
Proof.
  intros Hn HM. induction fuel as [|fuel IH]; intros c hole Hc Hfuel; cbn [BackLoop].
  - replace (Min + n - 1 <=? c) with false by lia. exists NotFound, hole. split; [done|]. left. split; [done|lia].
  - destruct (Z.leb_spec (Min + n - 1) c); [|exists NotFound, hole; split; [done|]; left; split; [done|lia]].
    destruct (back_inner_spec c (Z.to_nat n)) as (H1 & H2 & H3); [lia|lia|]. rewrite Z2Nat.id in H3 by lia.
    destruct (back_inner true m c (Z.to_nat n)) as [|r].
    + exists (c - n + 1), hole. rewrite u_small by (unfold is_u; lia). split; [done|]. right.
      split; [lia|]. split; [by apply H3|lia].
    + specialize (H2 ltac:(lia)). rewrite u_small by (unfold is_u; lia).
      assert (forall y, c - Z.of_nat (S r) - n + 1 < y <= c - n + 1 -> ~ window_free m y n) as Hskip.
      { intros y Hy. apply (not_free m y n (c - Z.of_nat (S r) + 1)); [lia|done]. }
      destruct (IH (c - Z.of_nat (S r)) (hole || negb (Z.of_nat (S r) =? n))) as (x & h & E & Hx); [lia|lia|].
      exists x, h. split; [done|]. destruct Hx as [[-> Hno]|(Hb & Hfree & Hmost)].
      * left. split; [done|]. intros y Hy.
        destruct (Z.lt_ge_cases (c - Z.of_nat (S r) - n + 1) y); [apply Hskip; lia|apply Hno; lia].
      * right. split; [lia|]. split; [done|]. intros y Hy.
        destruct (Z.lt_ge_cases (c - Z.of_nat (S r) - n + 1) y); [apply Hskip; lia|apply Hmost; lia].
Qed.

Lemma forward_fit Begin n InSet :
  0 <= Begin < 2 ^ 32 -> 0 < n <= InSet -> InSet < 2 ^ 62 ->
  exists x h, ForwardScanForRange true m Begin n InSet = Some (x, h) /\ first_fit Begin (InSet - n + 1) n x.
Proof.
  intros HB Hn HI. unfold ForwardScanForRange. rewrite u_small by (unfold is_u; lia). apply FwdLoop_spec; lia.
Qed.

Lemma backward_fit Begin n Min :
  0 <= Begin < 2 ^ 62 -> 0 < n < 2 ^ 62 -> 1 <= Min < 2 ^ 62 ->
  exists x h, BackwardScanForRange true m Begin n Min = Some (x, h) /\ last_fit Min (Begin - n + 1) n x.
Proof.
  intros HB Hn HM. unfold BackwardScanForRange. rewrite u_small by (unfold is_u; lia). apply BackLoop_spec; lia.
Qed.

End scan.

(** C35: With a count of 1 to ElementsInSet, a minimum of at least 1 and a beginning below 2^32, the two
    scans of the bitset return exactly what a search of every window returns: the forward scan the
    first free window that starts between the beginning and one past the last position
    (ElementsInSet - ElementCount + 1), the backward scan the last free window that ends at or
    before the beginning and starts at or after the minimum; and they always end. *)
Theorem scans_exact m Begin n InSet Min :
  0 <= Begin < 2 ^ 32 -> 0 < n <= InSet -> InSet < 2 ^ 62 -> 1 <= Min < 2 ^ 62 ->
  (exists x h, ForwardScanForRange true m Begin n InSet = Some (x, h) /\ first_fit m Begin (InSet - n + 1) n x) /\
  (exists x h, BackwardScanForRange true m Begin n Min = Some (x, h) /\ last_fit m Min (Begin - n + 1) n x).
Proof. intros. split; [apply forward_fit|apply backward_fit]; lia. Qed.

Lemma scans_exact_witness :
  let m := Set_ (Set_ ∅ 3) 6 in
  first_fit m 2 (8 - 2 + 1) 2 4 /\ last_fit m 1 (7 - 2 + 1) 2 4.
Proof.
  intros m. destruct (scans_exact m 2 2 8 1 ltac:(lia) ltac:(lia) ltac:(lia) ltac:(lia)) as [(x & h & E & Hx) _].
  destruct (scans_exact m 7 2 8 1 ltac:(lia) ltac:(lia) ltac:(lia) ltac:(lia)) as [_ (y & h' & E' & Hy)].
  vm_compute in E, E'. injection E as <- _. injection E' as <- _. split; [exact Hx|exact Hy].
Defined.

(** With a minimum of 0 the scan can wrap: started at element [n - 1] with element 0 used, it goes on
    from the top of the 64-bit numbers and, where the elements read there (far outside of the bitset's memory)
    are clear, reports a window at [2^64 - n]. *)
Lemma backward_scan_wraps n m : 0 < n < 2 ^ 31 -> Get m 0 = true -> window_free m (2 ^ 64 - n) n ->
  BackwardScanForRange true m (n - 1) n 0 = Some (2 ^ 64 - n, false).
Proof.
  intros Hn H0 Hf. unfold BackwardScanForRange. rewrite Z.add_0_l, u_small by (unfold is_u; lia).
  replace (n - 1 - (n - 1) + 2) with 2 by lia. change (Z.to_nat 2) with 2%nat. cbn [BackLoop]. rewrite Z.leb_refl.
  destruct (Z.to_nat n) as [|r] eqn:En; [lia|]. cbn [back_inner]. replace (n - 1 - Z.of_nat (S r) + 1) with 0 by lia.
  change (u64 0) with 0. rewrite H0. cbn [Bool.eqb]. rewrite <- En, Z2Nat.id, Z.eqb_refl by lia. cbn [negb orb].
  replace (n - 1 - n) with (-1) by lia. change (u64 (-1)) with (2 ^ 64 - 1). rewrite (proj2 (Z.leb_le _ _)) by lia.
  assert (Hin : forall k, (k <= Z.to_nat n)%nat -> back_inner true m (2 ^ 64 - 1) k = O).
  { induction k as [|k IH]; intros Hk; [done|]. cbn [back_inner]. rewrite u_small by (unfold is_u; lia).
    rewrite Hf by lia. apply IH. lia. }
  rewrite Hin by lia. replace (2 ^ 64 - 1 - n + 1) with (2 ^ 64 - n) by lia. rewrite u_small by (unfold is_u; lia). by rewrite Hf by lia.
Qed.

Lemma backward_scan_wraps_pair : BackwardScanForRange true (Set_ ∅ 0) 1 2 0 = Some (2 ^ 64 - 2, false).
Proof. vm_compute. reflexivity. Qed.
