(* ===== verification/Alloc64Theorems.v ===== *)
(** * The host's 64-bit allocator: what Mmap guarantees, and where it fails

    A block handed out by a placement without an address was free in the bits of its region and
    is marked afterwards, with the free space reduced by its size.  Then the failures: a block
    can reach past the end of its region, a mapping the kernel refused is returned as if it were
    made, a hint at the start of a region replaces the allocator's own header, and start-up with
    given regions loses the first one and keeps the smallest twice. *)

From S2P Require Import Prelude VMA VMATrack Granule GranuleProps Alloc32 Alloc64 Alloc64Props.
Import VMA Track FlexBitSet OSAllocator_64Bit.

(** ** Marking pages *)

Lemma MarkPages_spec n : forall m p m' c,
  0 <= p -> p + Z.of_nat n < 2 ^ 64 -> MarkPages m p n = (m', c) ->
  (forall e, 0 <= e -> Get m' e = bool_decide (p <= e < p + Z.of_nat n) || Get m e) /\
  (window_free m p (Z.of_nat n) -> c = Z.of_nat n).
Proof.
  induction n as [|n IH]; intros m p m' c Hp Hn H; cbn [MarkPages] in H.
  - simplify_eq. split; [|done]. intros e He. by rewrite bool_decide_eq_false_2 by lia.
  - cbn [TestAndSet] in H. rewrite u_small in H by (unfold is_u; lia).
    destruct (MarkPages (Set_ m p) (p + 1) n) as [m1 c1] eqn:E. simplify_eq.
    destruct (IH _ (p + 1) _ _ ltac:(lia) ltac:(lia) E) as [H1 H2]. split.
    + intros e He. rewrite H1, Get_Set, orb_assoc by lia. f_equal.
      apply eq_iff_eq_true. rewrite orb_true_iff, !bool_decide_eq_true. lia.
    + intros Hf. rewrite (Hf p) by lia. rewrite H2; [lia|]. intros e He.
      rewrite Get_Set, bool_decide_eq_false_2 by lia. apply Hf. lia.
Qed.

Section host.
Context (HostSize g : Z) (Hg : 0 <= g <= 8) (HHost : HostSize = 2 ^ (12 + g)).

Lemma host_shift : HostShift HostSize = 12 + g.
Proof using Hg HHost. unfold HostShift. rewrite HHost. apply Z.log2_pow2. lia. Qed.

Lemma host_pos : 4096 <= HostSize <= 2 ^ 20.
Proof using Hg HHost.
  rewrite HHost. change 4096 with (2 ^ 12). split; apply Z.pow_le_mono_r; lia.
Qed.

Lemma shift_pages x : (x * HostSize) >>> HostShift HostSize = x.
Proof using Hg HHost.
  rewrite host_shift, Z.shiftr_div_pow2, HHost by lia. apply Z.div_mul. pose proof host_pos. lia.
Qed.

(** A region between the first 4 GiB and the end of the address space, in whole host pages. *)
Definition region_ok (r : ReservedVMARegion) : Prop :=
  0 < Base r /\ Base r + RegionSize r < 2 ^ 60 /\ exists n, RegionSize r = n * HostSize /\ 0 < n < 2 ^ 31.

Definition live_ok (l : LiveVMARegion) : Prop :=
  region_ok (SlabInfo l) /\ FreeSpace l <= RegionSize (SlabInfo l) /\
  1 <= NumManagedPages l < 2 ^ 32 /\ 0 <= LastPageAllocation l < 2 ^ 32.

Definition reserved_ok (r : ReservedVMARegion) : Prop :=
  region_ok r /\ HeaderSize HostSize (RegionSize r) <= RegionSize r.

(** Two states of a region that differ in HadMunmap only. *)
Definition same_region (l l' : LiveVMARegion) : Prop :=
  SlabInfo l' = SlabInfo l /\ FreeSpace l' = FreeSpace l /\ NumManagedPages l' = NumManagedPages l /\
  LastPageAllocation l' = LastPageAllocation l /\ UsedPages l' = UsedPages l.

Lemma same_refl l : same_region l l.
Proof. done. Qed.

Lemma same_trans l1 l2 l3 : same_region l1 l2 -> same_region l2 l3 -> same_region l1 l3.
Proof. unfold same_region. intuition congruence. Qed.

Lemma live_ok_same l l' : live_ok l -> same_region l l' -> live_ok l'.
Proof. unfold live_ok. intros H (E1 & E2 & E3 & E4 & _). by rewrite E1, E2, E3, E4. Qed.

(** The page chosen for [cnt] pages without a hint. *)
Lemma ChoosePage_spec l cnt page l' :
  live_ok l -> 0 < cnt -> cnt * HostSize <= FreeSpace l ->
  ChoosePage HostSize l (cnt * HostSize) 0 = Some (page, l') ->
  same_region l l' /\ (page = NotFound \/
    0 <= page /\ window_free (UsedPages l) page cnt /\
    page + cnt <= Z.max (RegionSize (SlabInfo l) / HostSize) (LastPageAllocation l) + 1).
Proof using Hg HHost.
  intros ((_ & _ & n & Hn & Hnb) & HF & HM & HL) Hc Hfs H. pose proof host_pos as HH.
  unfold ChoosePage in H. rewrite shift_pages in H. cbn [Z.eqb negb] in H. rewrite Hn in *.
  rewrite shift_pages in H. rewrite Z.div_mul by lia.
  assert (cnt <= n) as Hcn by nia.
  set (b1 := if HadMunmap l then _ else _) in H.
  assert (b1 = Some (NotFound, l) \/ exists e fl, b1 = Some (e, mkLive (SlabInfo l) (FreeSpace l) (NumManagedPages l) (LastPageAllocation l) fl (UsedPages l)) /\
    last_fit (UsedPages l) (NumManagedPages l) (LastPageAllocation l - cnt + 1) cnt e) as Hb1.
  { unfold b1. destruct (HadMunmap l); [right|by left].
    destruct (backward_fit (UsedPages l) (LastPageAllocation l) cnt (NumManagedPages l)) as (x & h & E & Hx); [lia..|].
    rewrite E. cbn. eauto. }
  destruct (forward_fit (UsedPages l) (LastPageAllocation l) cnt n) as (y & hy & Ey & Hy); [lia..|].
  assert (forall x, first_fit (UsedPages l) (LastPageAllocation l) (n - cnt + 1) cnt x ->
    x = NotFound \/ 0 <= x /\ window_free (UsedPages l) x cnt /\ x + cnt <= Z.max n (LastPageAllocation l) + 1) as Hfwd.
  { intros x [[-> _]|(? & ? & _)]; [by left|right]. split; [lia|]. split; [done|lia]. }
  destruct Hb1 as [-> |(e & fl & -> & He)]; cbn [mbind option_bind] in H.
  - cbn [Z.eqb] in H. rewrite Z.eqb_refl, Ey in H. cbn in H. simplify_eq. split; [done|]. by apply Hfwd.
  - destruct (Z.eqb_spec e NotFound) as [-> |Hne].
    + cbn [UsedPages LastPageAllocation] in H. rewrite Ey in H. cbn in H. simplify_eq. split; [done|]. by apply Hfwd.
    + simplify_eq. split; [done|]. destruct He as [[-> _]|(? & ? & _)]; [by left|right].
      split; [lia|]. split; [done|lia].
Qed.

Lemma header_bounds r : reserved_ok r ->
  HostSize <= HeaderSize HostSize (RegionSize r) < 2 ^ 60 /\
  exists h, HeaderSize HostSize (RegionSize r) = h * HostSize /\ 1 <= h < 2 ^ 31.
Proof using Hg HHost.
  intros [(Hb0 & Hb1 & n & Hn & Hnb) Hle]. pose proof host_pos as HH.
  set (v := GetFEXManagedVMARegionSize HostSize (RegionSize r)) in *.
  assert (4096 <= v < 4096 + 2 ^ 61) as Hv.
  { unfold v, GetFEXManagedVMARegionSize, SizeInBytes, SizeInBits, AlignUp.
    set (x := RegionSize r >>> HostShift HostSize).
    pose proof (u_range 64 (x + u64 (MinimumSizeBits - x mod MinimumSizeBits) mod MinimumSizeBits) ltac:(lia)) as Hu.
    unfold is_u in Hu. change sizeof_LiveVMARegion with 4096. Z.to_euclidean_division_equations. lia. }
  assert (HeaderSize HostSize (RegionSize r) = (v + HostSize - 1) - (v + HostSize - 1) mod HostSize) as E.
  { unfold HeaderSize, HostPage.AlignUp, HostPage.Mask. fold v. rewrite u_small by (unfold is_u; lia).
    rewrite HHost. apply land_high; [lia|]. rewrite <- HHost. unfold is_u. lia. }
  pose proof (Z.div_mod (v + HostSize - 1) HostSize ltac:(lia)) as Hd.
  assert (1 <= (v + HostSize - 1) / HostSize) as Hge by (apply Z.div_le_lower_bound; lia).
  rewrite E in *. split; [nia|]. exists ((v + HostSize - 1) / HostSize). split; [lia|]. nia.
Qed.

Section kernel.
Context {K : Type} (sys : Kernel K) (madvise : K -> Z -> Z -> K).

(** A fixed mapping is made where it was asked for. *)
Definition maps_fixed : Prop :=
  forall k a l pr f fd o, MemAllocator32Bit.has_flag f MemAllocator32Bit.MAP_FIXED = true ->
  exists k', sys_mmap sys k a l pr f fd o = (k', inl a).

Lemma fixed_flag f :
  MemAllocator32Bit.has_flag (f ||| MemAllocator32Bit.MAP_FIXED) MemAllocator32Bit.MAP_FIXED = true.
Proof.
  unfold MemAllocator32Bit.has_flag. apply negb_true_iff, Z.eqb_neq. intros H.
  apply (f_equal (fun x => Z.testbit x 4)) in H. rewrite Z.land_spec, Z.lor_spec, Z.bits_0 in H.
  change (Z.testbit MemAllocator32Bit.MAP_FIXED 4) with true in H. by rewrite orb_true_r in H.
Qed.

(** The block of [cnt] pages at page [q] of the region, free in its bits, at address [AO]. *)
Definition chosen (l : LiveVMARegion) (AO cnt q : Z) : Prop :=
  0 <= q /\ AO = Base (SlabInfo l) + q * HostSize /\ window_free (UsedPages l) q cnt /\
  q + cnt <= Z.max (RegionSize (SlabInfo l) / HostSize) (LastPageAllocation l) + 1.

Lemma chosen_same l l' AO cnt q : same_region l l' -> chosen l AO cnt q -> chosen l' AO cnt q.
Proof. unfold chosen. by intros (-> & _ & _ & -> & ->). Qed.

Context (Hmap : maps_fixed) (cnt prot flags fd offset : Z) (Hcnt : 0 < cnt).

Lemma CheckIfRangeFits_spec k l AO k' l' AO' res :
  live_ok l ->
  CheckIfRangeFits HostSize sys k l AO (cnt * HostSize) prot flags fd offset 0 = Some (k', l', AO', res) ->
  same_region l l' /\ ((res = None /\ AO' = AO) \/ (res = Some (inl AO') /\ exists q, chosen l AO' cnt q)).
Proof using Hg HHost Hmap Hcnt.
  intros Hl H. unfold CheckIfRangeFits in H.
  destruct (Z.leb_spec (cnt * HostSize) (FreeSpace l)) as [Hfs|]; [|simplify_eq; split; [done|by left]].
  apply bind_Some in H as ([page l1] & E & H).
  destruct (ChoosePage_spec l cnt page l1 Hl Hcnt Hfs E) as [Hs Hp].
  destruct (Z.eqb_spec page NotFound) as [|Hne]; [simplify_eq; split; [done|by left]|].
  destruct Hp as [|(Hp0 & Hpf & Hpb)]; [done|].
  destruct (Hmap k (u64 (Base (SlabInfo l1) + page * HostSize)) (cnt * HostSize) prot _ fd offset
    (fixed_flag (Z.ldiff flags MemAllocator32Bit.FEX_MAP_FIXED_NOREPLACE))) as [k1 Em].
  rewrite Em in H. simplify_eq. split; [done|]. right. split; [done|]. exists page.
  split; [done|]. split; [|done]. destruct Hs as (-> & _). pose proof host_pos.
  destruct Hl as ((Hb0 & Hb1 & n & Hn & Hnb) & _ & _ & HL). rewrite Hn, Z.div_mul in Hpb by lia.
  apply u_small. unfold is_u. nia.
Qed.

Lemma TryRegions_spec rest : forall k dn AO k' ls AO' t,
  Forall live_ok rest ->
  TryRegions HostSize sys k dn rest AO (cnt * HostSize) prot flags fd offset = Some (k', ls, AO', t) ->
  exists ls2, ls = dn ++ ls2 /\ Forall2 same_region rest ls2 /\
  match t with
  | None => AO' = AO
  | Some i => exists l q, ls !! i = Some l /\ chosen l AO' cnt q
  end.
Proof using Hg HHost Hmap Hcnt.
  induction rest as [|l rest IH]; intros k dn AO k' ls AO' t Hl H; cbn [TryRegions] in H.
  - simplify_eq. exists []. by rewrite app_nil_r.
  - apply Forall_cons in Hl as [Hl1 Hl]. apply bind_Some in H as ([[[k1 l1] AO1] res] & E & H).
    destruct (CheckIfRangeFits_spec _ _ _ _ _ _ _ Hl1 E) as [Hs Hres].
    destruct Hres as [[-> ->]|[-> [q Hq]]]; cbn [fits_at] in H.
    + destruct (IH _ _ _ _ _ _ _ Hl H) as (ls2 & -> & Hf & Ht).
      exists (l1 :: ls2). rewrite <- app_assoc. split; [done|]. split; [by constructor|]. by rewrite <- app_assoc in Ht.
    + rewrite Z.eqb_refl in H. simplify_eq. exists (l1 :: rest). split; [done|].
      split; [constructor; [done|]; clear; induction rest; by constructor|].
      exists l1, q. split; [by apply list_lookup_middle|by eapply chosen_same].
Qed.

(** Regions after start-up calls come from those before, or were made active on the way. *)
Definition known (s : OSAllocator) (l : LiveVMARegion) : Prop :=
  (exists l0, l0 ∈ LiveRegions s /\ same_region l0 l) \/
  (exists r k, r ∈ ReservedRegions s /\ same_region (snd (InitializeVMARegionUsed HostSize madvise k r 0)) l).

Lemma known_step s s1 l :
  (forall l0, l0 ∈ LiveRegions s1 -> known s l0) -> (forall r, r ∈ ReservedRegions s1 -> r ∈ ReservedRegions s) ->
  known s1 l -> known s l.
Proof.
  intros H1 H2 [(l0 & Hin & Hs)|(r & k & Hin & Hs)].
  - destruct (H1 l0 Hin) as [(l00 & ? & ?)|(r & k & ? & ?)]; [left|right]; eauto 6 using same_trans.
  - right. eauto.
Qed.

Lemma Forall2_known s ls : Forall2 same_region (LiveRegions s) ls -> forall l, l ∈ ls -> known s l.
Proof.
  intros H l Hl. apply list_elem_of_lookup_1 in Hl as [i Hi].
  destruct (Forall2_lookup_r _ _ _ _ _ H Hi) as (l0 & H0 & Hs). left. exists l0. split; [|done].
  by eapply list_elem_of_lookup_2.
Qed.

Lemma fresh_live_ok k r : reserved_ok r -> live_ok (snd (InitializeVMARegionUsed HostSize madvise k r 0)).
Proof using Hg HHost.
  intros Hr. pose proof Hr as [Hreg Hle]. destruct (header_bounds r Hr) as [Hb (h & Eh & Hh)].
  unfold InitializeVMARegionUsed. rewrite Z.add_0_r, (u_small 64 (HeaderSize _ _)) by (unfold is_u; lia).
  cbn. rewrite Eh in *. rewrite shift_pages. split; [done|]. cbn. pose proof host_pos.
  rewrite (u_small 64 (RegionSize r - _)) by (unfold is_u; destruct Hreg; lia).
  rewrite u_small by (unfold is_u; lia). lia.
Qed.

Lemma MakeRegionActive_spec k s j k' s' :
  Forall reserved_ok (ReservedRegions s) -> Forall live_ok (LiveRegions s) ->
  MakeRegionActive HostSize sys madvise k s j 0 = Some (k', s') ->
  Forall reserved_ok (ReservedRegions s') /\ Forall live_ok (LiveRegions s') /\
  (forall l, l ∈ LiveRegions s' -> known s l) /\ (forall r, r ∈ ReservedRegions s' -> r ∈ ReservedRegions s).
Proof using Hg HHost.
  intros Hr Hl H. unfold MakeRegionActive in H. apply bind_Some in H as (r & Er & H).
  assert (reserved_ok r) as Hrok by (by eapply Forall_lookup_1).
  destruct (sys_mprotect sys k _ _ _) as [k1 [e|]]; [done|].
  destruct (InitializeVMARegionUsed HostSize madvise k1 r 0) as [k2 live] eqn:E. injection H as <- <-. cbn.
  assert (live = snd (InitializeVMARegionUsed HostSize madvise k1 r 0)) as -> by (by rewrite E).
  split; [by apply Forall_delete|]. split; [apply Forall_app; split; [done|]; constructor; [by apply fresh_live_ok|done]|].
  split.
  - intros l [Hl'|Hl']%elem_of_app; [left; by exists l|].
    apply list_elem_of_singleton in Hl' as ->. right. exists r, k1. split; [by eapply list_elem_of_lookup_2|done].
  - intros r' Hr'. apply list_elem_of_lookup_1 in Hr' as [i Hi]. apply list_elem_of_lookup.
    destruct (decide (i < j)%nat); [rewrite list_lookup_delete_lt in Hi by done|rewrite list_lookup_delete_ge in Hi by lia]; eauto.
Qed.

Lemma Forall_live_same ls ls2 : Forall live_ok ls -> Forall2 same_region ls ls2 -> Forall live_ok ls2.
Proof.
  intros Hl Hf. apply Forall_lookup. intros i l Hi. destruct (Forall2_lookup_r _ _ _ _ _ Hf Hi) as (l0 & H0 & Hs).
  eapply live_ok_same; [by eapply (Forall_lookup_1 _ _ _ _ Hl)|done].
Qed.

Lemma PlaceLoop_spec fuel : forall k s AO Addr k' s' AO' t,
  Forall reserved_ok (ReservedRegions s) -> Forall live_ok (LiveRegions s) ->
  PlaceLoop HostSize sys madvise fuel k s None AO Addr (cnt * HostSize) prot flags fd offset = Some (k', s', AO', t) ->
  match t with
  | None => AO' = AO
  | Some i => exists l q, LiveRegions s' !! i = Some l /\ chosen l AO' cnt q /\ known s l /\ live_ok l
  end.
Proof using Hg HHost Hmap Hcnt.
  induction fuel as [|fuel IH]; intros k s AO Addr k' s' AO' t Hr Hl H; [done|]. cbn [PlaceLoop] in H.
  cbn [mbind option_bind] in H. apply bind_Some in H as ([[[k1 s1] AO1] t1] & E & H).
  apply bind_Some in E as ([[[k2 ls] AO2] t2] & E & E1). injection E1 as <- <- <- <-.
  destruct (TryRegions_spec _ _ _ _ _ _ _ _ Hl E) as (ls2 & -> & Hf & Ht). cbn [app] in *.
  pose proof (Forall2_known s ls2 Hf) as Hknown.
  pose proof (Forall_live_same _ _ Hl Hf) as Hl2.
  destruct t2 as [i|].
  - injection H as <- <- <- <-. destruct Ht as (l & q & Hi & Hc). exists l, q. split; [done|]. split; [done|].
    split; [by eapply Hknown, list_elem_of_lookup_2|by eapply (Forall_lookup_1 _ _ _ _ Hl2)].
  - subst AO2. cbv zeta in H. destruct (find_index _ _) as [j|]; [|by injection H as <- <- <- <-].
    apply bind_Some in H as ([k3 s3] & Em & H).
    destruct (MakeRegionActive_spec _ (mkOS (ReservedRegions s) ls2) _ _ _ Hr Hl2 Em) as (Hr3 & Hl3 & Hk3 & Hres3).
    specialize (IH _ _ _ _ _ _ _ _ Hr3 Hl3 H). destruct t as [i|]; [|done].
    destruct IH as (l & q & Hi & Hc & Hkn & Hlo). exists l, q. split; [done|]. split; [done|]. split; [|done].
    eapply (known_step s (mkOS (ReservedRegions s) ls2)); [done|done|].
    eapply known_step; [exact Hk3|exact Hres3|done].
Qed.

(** The bookkeeping for a chosen block. *)
Lemma TrackAllocation_spec s i l AO q :
  LiveRegions s !! i = Some l -> live_ok l -> chosen l AO cnt q -> cnt < 2 ^ 31 ->
  exists s', TrackAllocation HostSize s i AO cnt = Some s' /\
  exists l', LiveRegions s' !! i = Some l' /\ SlabInfo l' = SlabInfo l /\
    (forall e, 0 <= e -> Get (UsedPages l') e = bool_decide (q <= e < q + cnt) || Get (UsedPages l) e) /\
    FreeSpace l' = u64 (FreeSpace l - cnt * HostSize).
Proof.
  intros Hi ((Hb0 & Hb1 & n & Hn & Hnb) & _ & _ & HL) (Hq & -> & Hf & Hqb) Hc.
  pose proof host_pos as HH. unfold TrackAllocation. rewrite Hi. cbn [mbind option_bind].
  rewrite Hn, Z.div_mul in Hqb by lia.
  replace (Base (SlabInfo l) + q * HostSize - Base (SlabInfo l)) with (q * HostSize) by lia.
  rewrite u_small, shift_pages by (unfold is_u; nia).
  destruct (MarkPages (UsedPages l) q (Z.to_nat cnt)) as [m c] eqn:E.
  apply MarkPages_spec in E as [H1 H2]; [|done|lia]. rewrite Z2Nat.id in * by lia. specialize (H2 Hf) as ->.
  eexists. split; [reflexivity|]. cbn [LiveRegions].
  eexists. split; [apply list_lookup_insert_eq; by eapply lookup_lt_Some|]. cbn. split; [done|]. split; [done|done].
Qed.

(** ** The placement always returns: a region is made active at most once per round *)

Definition grants_mprotect : Prop := forall k a l pr, exists k', sys_mprotect sys k a l pr = (k', None).

Lemma ChoosePage_total l :
  live_ok l -> cnt * HostSize <= FreeSpace l -> is_Some (ChoosePage HostSize l (cnt * HostSize) 0).
Proof using Hg HHost Hcnt.
  intros ((_ & _ & n & Hn & Hnb) & HF & HM & HL) Hfs. pose proof host_pos as HH.
  unfold ChoosePage. rewrite Hn, !shift_pages in *. cbn [Z.eqb negb].
  assert (cnt <= n) as Hcn by nia.
  destruct (backward_fit (UsedPages l) (LastPageAllocation l) cnt (NumManagedPages l)) as (x & h & E & _); [lia..|].
  destruct (forward_fit (UsedPages l) (LastPageAllocation l) cnt n) as (y & hy & Ey & _); [lia..|].
  destruct (HadMunmap l); [rewrite E|]; cbn; [destruct (x =? NotFound); cbn|]; rewrite ?Ey; cbn; eauto.
Qed.

Lemma CheckIfRangeFits_total k l AO :
  live_ok l -> is_Some (CheckIfRangeFits HostSize sys k l AO (cnt * HostSize) prot flags fd offset 0).
Proof using Hg HHost Hcnt.
  intros Hl. unfold CheckIfRangeFits. destruct (Z.leb_spec (cnt * HostSize) (FreeSpace l)) as [Hfs|]; [|eauto].
  destruct (ChoosePage_total l Hl Hfs) as [[page l1] ->]. cbn. destruct (page =? NotFound); [eauto|].
  destruct (sys_mmap sys k _ _ _ _ _ _). eauto.
Qed.

Lemma TryRegions_total rest : forall k dn AO,
  Forall live_ok rest -> is_Some (TryRegions HostSize sys k dn rest AO (cnt * HostSize) prot flags fd offset).
Proof using Hg HHost Hcnt.
  induction rest as [|l rest IH]; intros k dn AO Hl; cbn [TryRegions]; [eauto|].
  apply Forall_cons in Hl as [Hl1 Hl].
  destruct (CheckIfRangeFits_total k l AO Hl1) as [[[[k1 l1] AO1] res] ->]. cbn.
  destruct (fits_at res AO1); [eauto|]. by apply IH.
Qed.

Lemma find_index_Some {A} (P : A -> bool) l i : find_index P l = Some i -> exists x, l !! i = Some x /\ P x = true.
Proof.
  revert i. induction l as [|x l IH]; intros i H; cbn in H; [done|].
  destruct (P x) eqn:E; [simplify_eq; by exists x|].
  apply fmap_Some in H as (j & Hj & ->). cbn. by apply IH.
Qed.

Lemma find_index_None {A} (P : A -> bool) l : find_index P l = None -> Forall (fun x => P x = false) l.
Proof.
  induction l as [|x l IH]; intros H; cbn in H; [done|]. destruct (P x) eqn:E; [done|].
  apply fmap_None in H. constructor; auto.
Qed.

Lemma MakeRegionActive_total k s j r :
  grants_mprotect -> ReservedRegions s !! j = Some r ->
  exists k' s', MakeRegionActive HostSize sys madvise k s j 0 = Some (k', s') /\
    (length (ReservedRegions s') < length (ReservedRegions s))%nat.
Proof.
  intros Hp Hj. unfold MakeRegionActive. rewrite Hj. cbn [mbind option_bind].
  destruct (Hp k (Base r) (u64 (0 + HeaderSize HostSize (RegionSize r))) (MemAllocator32Bit.PROT_READ ||| MemAllocator32Bit.PROT_WRITE)) as [k1 ->].
  destruct (InitializeVMARegionUsed HostSize madvise k1 r 0) as [k2 live].
  exists k2. eexists. split; [done|]. cbn. apply lookup_lt_Some in Hj. rewrite length_delete by (by apply lookup_lt_is_Some).
  lia.
Qed.

(** When nothing is placed, no region of the reserved list is left that could hold the block. *)
Lemma PlaceLoop_total fuel : forall k s AO Addr,
  grants_mprotect -> (length (ReservedRegions s) < fuel)%nat ->
  Forall reserved_ok (ReservedRegions s) -> Forall live_ok (LiveRegions s) ->
  exists k' s' AO' t,
    PlaceLoop HostSize sys madvise fuel k s None AO Addr (cnt * HostSize) prot flags fd offset = Some (k', s', AO', t) /\
    (t = None -> Forall (fun r => RegionSize r < u64 (cnt * HostSize + HeaderSize HostSize (cnt * HostSize))) (ReservedRegions s')).
Proof using Hg HHost Hmap Hcnt.
  induction fuel as [|fuel IH]; intros k s AO Addr Hp Hfl Hr Hl; [lia|]. cbn [PlaceLoop mbind option_bind].
  destruct (TryRegions_total (LiveRegions s) k [] AO Hl) as [[[[k2 ls] AO2] t2] E]. rewrite E. cbn [mbind option_bind].
  destruct t2 as [i|]; [do 4 eexists; split; [reflexivity|done]|]. cbv zeta. cbn [ReservedRegions].
  destruct (TryRegions_spec _ _ _ _ _ _ _ _ Hl E) as (ls2 & -> & Hf & ->). cbn [app].
  destruct (find_index _ _) as [j|] eqn:Ej.
  - apply find_index_Some in Ej as (r & Hj & _).
    destruct (MakeRegionActive_total k2 (mkOS (ReservedRegions s) ls2) j r Hp Hj) as (k3 & s3 & Em & Hlen).
    cbn [ReservedRegions] in Hlen.
    destruct (MakeRegionActive_spec k2 (mkOS (ReservedRegions s) ls2) j k3 s3 Hr (Forall_live_same _ _ Hl Hf) Em) as (Hr3 & Hl3 & _).
    rewrite Em. cbn [mbind option_bind]. apply IH; [done|lia|done|done].
  - do 4 eexists. split; [reflexivity|]. intros _. cbn. apply find_index_None in Ej.
    eapply Forall_impl; [exact Ej|]. intros r HN. by apply Z.leb_gt.
Qed.

End kernel.

(** The number of host pages of a request. *)
Definition pages64 (length : Z) : Z := (length + HostSize - 1) / HostSize.

Lemma align_up_pages length :
  0 < length < 2 ^ 47 ->
  HostPage.AlignUp HostSize length = pages64 length * HostSize /\ 0 < pages64 length /\ length <= pages64 length * HostSize.
Proof using Hg HHost.
  intros Hl. pose proof host_pos as HH. unfold HostPage.AlignUp, HostPage.Mask, pages64.
  rewrite u_small by (unfold is_u; lia).
  assert ((length + HostSize - 1) &&& u64 (Z.lnot (HostSize - 1)) = length + HostSize - 1 - (length + HostSize - 1) mod HostSize) as ->.
  { rewrite HHost. apply land_high; [lia|]. rewrite <- HHost. unfold is_u. lia. }
  pose proof (Z.div_mod (length + HostSize - 1) HostSize ltac:(lia)).
  pose proof (Z.mod_pos_bound (length + HostSize - 1) HostSize ltac:(lia)).
  assert (1 <= (length + HostSize - 1) / HostSize) by (apply Z.div_le_lower_bound; lia). lia.
Qed.

(** A placement without an address, past the guards of Mmap. *)
Lemma Mmap_anywhere {K : Type} (sys : Kernel K) madvise fuel k s length prot flags fd offset :
  0 < length < 2 ^ 42 ->
  MemAllocator32Bit.has_flag flags MemAllocator32Bit.MAP_FIXED = false ->
  MemAllocator32Bit.has_flag flags MemAllocator32Bit.FEX_MAP_FIXED_NOREPLACE = false ->
  fd = -1 \/ host_unaligned HostSize offset = false ->
  OSAllocator_64Bit.Mmap HostSize sys madvise fuel k s 0 length prot flags fd offset =
    ('(k, s, AO, t) ← PlaceLoop HostSize sys madvise fuel k s None 0 0 (HostPage.AlignUp HostSize length) prot flags fd offset;
     s ← (match t with
          | Some i => TrackAllocation HostSize s i AO (HostPage.AlignUp HostSize length / HostSize)
          | None => Some s
          end);
     Some (k, s, if AO =? 0 then - MemAllocator32Bit.ENOMEM else AO)).
Proof.
  intros Hlen F1 F2 Hfd. unfold OSAllocator_64Bit.Mmap.
  cbn [Z.eqb negb andb]. rewrite F1, F2. cbn [orb]. cbv zeta.
  replace (HostPage.AlignDown HostSize 0) with 0 by done.
  change (host_unaligned HostSize 0) with false. cbv iota.
  replace (negb (fd =? -1) && host_unaligned HostSize offset) with false
    by (symmetry; destruct Hfd as [-> | ->]; [done|apply andb_false_r]).
  rewrite Z.add_0_l, (u_small 64 length) by (unfold is_u; lia).
  rewrite (proj2 (Z.ltb_ge _ _)) by lia. reflexivity.
Qed.

End host.

(** C14: When fixed mappings and changes of protection succeed, a placement without an address
    returns once there is a round for every reserved region.  Its result is ENOMEM, and then no
    reserved region is left that could hold the block, or the address of a block
    whose pages were all free in the bits of its region (one that was live, or was made live by
    the call), are all marked afterwards with every other page as it was, and whose size left the
    region's free space; the block starts inside the region's pages and ends at most one page past
    the larger of its end and its last allocation. *)
Theorem Mmap64_fresh HostSize g {K : Type} (sys : Kernel K) madvise fuel k s length prot flags fd offset :
  0 <= g <= 8 -> HostSize = 2 ^ (12 + g) -> maps_fixed sys -> grants_mprotect sys ->
  Forall (reserved_ok HostSize) (ReservedRegions s) -> Forall (live_ok HostSize) (LiveRegions s) ->
  (List.length (ReservedRegions s) < fuel)%nat -> 0 < length < 2 ^ 42 ->
  MemAllocator32Bit.has_flag flags MemAllocator32Bit.MAP_FIXED = false ->
  MemAllocator32Bit.has_flag flags MemAllocator32Bit.FEX_MAP_FIXED_NOREPLACE = false ->
  fd = -1 \/ host_unaligned HostSize offset = false ->
  exists k' s' r, OSAllocator_64Bit.Mmap HostSize sys madvise fuel k s 0 length prot flags fd offset = Some (k', s', r) /\
  (r = - MemAllocator32Bit.ENOMEM /\
     Forall (fun x => RegionSize x < u64 (pages64 HostSize length * HostSize + HeaderSize HostSize (pages64 HostSize length * HostSize)))
       (ReservedRegions s') \/
   exists i l l' q, known HostSize madvise s l /\ LiveRegions s' !! i = Some l' /\ SlabInfo l' = SlabInfo l /\
     chosen HostSize l r (pages64 HostSize length) q /\
     (forall e, 0 <= e -> Get (UsedPages l') e = bool_decide (q <= e < q + pages64 HostSize length) || Get (UsedPages l) e) /\
     FreeSpace l' = u64 (FreeSpace l - pages64 HostSize length * HostSize)).
Proof.
  intros Hg HHost Hmap Hprot Hr Hl Hfuel Hlen F1 F2 Hfd.
  destruct (align_up_pages HostSize g Hg HHost length) as (Ea & Hc & Hcl); [lia|].
  rewrite (Mmap_anywhere HostSize) by done.
  destruct (PlaceLoop_total HostSize g Hg HHost sys madvise Hmap _ prot flags fd offset Hc fuel k s 0 0 Hprot Hfuel Hr Hl)
    as (k1 & s1 & AO & t & E & Hnone).
  rewrite Ea, E. cbn [mbind option_bind].
  pose proof (PlaceLoop_spec HostSize g Hg HHost sys madvise Hmap _ _ _ _ _ Hc _ _ _ _ _ _ _ _ _ Hr Hl E) as Hp.
  destruct t as [i|]; [|subst AO; do 3 eexists; split; [reflexivity|left; auto]].
  destruct Hp as (l & q & Hi & Hch & Hkn & Hlo).
  assert (pages64 HostSize length < 2 ^ 31) as Hc31.
  { pose proof (host_pos HostSize g Hg HHost). unfold pages64. apply Z.div_lt_upper_bound; lia. }
  destruct (TrackAllocation_spec HostSize g Hg HHost _ Hc s1 i l AO q Hi Hlo Hch Hc31) as (s2 & E2 & l' & Hi' & Hs' & Hb' & Hf').
  rewrite Z.div_mul, E2 by (pose proof (host_pos HostSize g Hg HHost); lia). cbn [mbind option_bind].
  do 3 eexists. split; [reflexivity|]. right.
  exists i, l, l', q. split; [done|]. split; [done|]. split; [done|]. split; [|by split].
  destruct (Z.eqb_spec AO 0) as [-> |]; [|done]. exfalso. pose proof (host_pos HostSize g Hg HHost).
  destruct Hch as (Hq & E0 & _). destruct Hlo as ((Hb & _) & _). nia.
Qed.

(** The page chosen when no window that fits is free, but the one that starts a page later is. *)
Lemma ChoosePage_past HostSize g l cnt n : 0 <= g <= 8 -> HostSize = 2 ^ (12 + g) -> live_ok HostSize l -> 0 < cnt -> cnt * HostSize <= FreeSpace l ->
  RegionSize (SlabInfo l) = n * HostSize -> LastPageAllocation l <= n - cnt + 1 ->
  (forall y, Z.min (NumManagedPages l) (LastPageAllocation l) <= y <= n - cnt -> ~ window_free (UsedPages l) y cnt) ->
  window_free (UsedPages l) (n - cnt + 1) cnt ->
  exists l', ChoosePage HostSize l (cnt * HostSize) 0 = Some (n - cnt + 1, l') /\ same_region l l'.
Proof.
  intros Hg HHost Hl Hc Hfs En HL Hno Hq. pose proof (host_pos HostSize g Hg HHost) as HH.
  pose proof Hl as ((_ & _ & n' & Hn & Hnb) & HF & HM & HLb). assert (n' = n) as -> by nia. assert (cnt <= n) as Hcn by nia.
  assert (Hfwd : forall y, first_fit (UsedPages l) (LastPageAllocation l) (n - cnt + 1) cnt y -> y = n - cnt + 1).
  { intros y [[_ Hy]|(Hy & Hf & _)]; [by destruct (Hy (n - cnt + 1)); [lia|]|].
    destruct (Z.eq_dec y (n - cnt + 1)); [done|]. by destruct (Hno y); [lia|]. }
  assert (Hback : forall x, last_fit (UsedPages l) (NumManagedPages l) (LastPageAllocation l - cnt + 1) cnt x -> x = NotFound \/ x = n - cnt + 1).
  { intros x [[-> _]|(Hx & Hf & _)]; [by left|]. right. destruct (Z.eq_dec x (n - cnt + 1)); [done|]. by destruct (Hno x); [lia|]. }
  destruct (ChoosePage_total HostSize g Hg HHost cnt Hc l Hl Hfs) as [[page l'] E]. exists l'.
  destruct (ChoosePage_spec HostSize g Hg HHost l cnt page l' Hl Hc Hfs E) as [Hs _]. split; [|done]. rewrite E. do 2 f_equal.
  unfold ChoosePage in E. rewrite (shift_pages HostSize g Hg HHost), En, (shift_pages HostSize g Hg HHost) in E. cbn [Z.eqb negb] in E.
  destruct (backward_fit (UsedPages l) (LastPageAllocation l) cnt (NumManagedPages l)) as (x & h & Ex & Hx); [lia..|].
  destruct (forward_fit (UsedPages l) (LastPageAllocation l) cnt n) as (y & hy & Ey & Hy); [lia..|]. apply Hfwd in Hy as ->.
  destruct (HadMunmap l); [rewrite Ex in E|]; cbn [mbind option_bind UsedPages LastPageAllocation] in E.
  - apply Hback in Hx as [-> | ->]; [rewrite Z.eqb_refl, Ey in E; cbn in E; by simplify_eq|].
    destruct (Z.eqb_spec (n - cnt + 1) NotFound) as [Heq|]; [unfold NotFound in Heq; lia|by simplify_eq].
  - rewrite Z.eqb_refl, Ey in E. cbn in E. by simplify_eq.
Qed.


(** ** Examples: one region of sixteen 64K pages, the first of which holds its header *)

(** A kernel that makes every mapping and logs it, and one that refuses them. *)
Definition log_kernel (grant : bool) : Kernel (list (Z * Z)) := mkKernel _
  (fun k a l _ _ _ _ => if grant then ((a, l) :: k, inl a) else (k, inr MemAllocator32Bit.ENOMEM))
  (fun k _ _ => (k, None)) (fun k _ _ _ => (k, None)) (fun k a _ _ _ _ => (k, inl a))
  (fun k _ a _ => (k, inl a)) (fun k _ => (k, None)) (fun _ _ => None) (fun _ _ => false)
  (fun k _ _ _ _ => (k, inl 0)) (fun k _ _ => k).

Definition no_advice {K : Type} (k : K) (_ _ : Z) : K := k.

Definition H64 : Z := 65536.
Definition slab : ReservedVMARegion := mkReserved 0x100000000 (16 * H64).
Definition start : OSAllocator := mkOS [slab] [].

Definition mmap64 grant k s addr length := OSAllocator_64Bit.Mmap H64 (log_kernel grant) no_advice 3 k s addr length 3 0x22 (-1) 0.
Definition munmap64 k s addr length := OSAllocator_64Bit.Munmap H64 (log_kernel true) no_advice k s addr length.

Definition run64 (d : list (Z * Z) * OSAllocator * Z) (m : option (list (Z * Z) * OSAllocator * Z)) := default d m.

(** Fourteen pages allocated, page 5 freed, then two pages requested. *)
Definition filled := run64 ([], start, 0) (mmap64 true [] start 0 (14 * H64)).
Definition holed := run64 filled (munmap64 filled.1.1 filled.1.2 (Base slab + 5 * H64) H64).
Definition past := run64 holed (mmap64 true holed.1.1 holed.1.2 0 (2 * H64)).

Lemma start_ok64 : Forall (reserved_ok H64) (ReservedRegions start) /\ Forall (live_ok H64) (LiveRegions start).
Proof.
  split; [|constructor]. constructor; [|constructor]. split; [|vm_compute; discriminate].
  split; [reflexivity|]. split; [reflexivity|]. exists 16. split; [reflexivity|]. lia.
Qed.

Lemma some_triple {A B C} (a a' : A) (b b' : B) (c c' : C) :
  Some (a, b, c) = Some (a', b', c') -> a' = a /\ b' = b /\ c' = c.
Proof. by intros [= -> -> ->]. Qed.

Lemma Mmap64_fresh_witness :
  mmap64 true [] start 0 (14 * H64) = Some filled /\ filled.2 = Base slab + H64 /\
  exists i l l' q, known H64 (no_advice (K := list (Z * Z))) start l /\ LiveRegions filled.1.2 !! i = Some l' /\ SlabInfo l' = SlabInfo l /\
    chosen H64 l filled.2 (pages64 H64 (14 * H64)) q /\
    (forall e, 0 <= e -> Get (UsedPages l') e = bool_decide (q <= e < q + pages64 H64 (14 * H64)) || Get (UsedPages l) e) /\
    FreeSpace l' = u64 (FreeSpace l - pages64 H64 (14 * H64) * H64).
Proof.
  assert (mmap64 true [] start 0 (14 * H64) = Some (filled.1.1, filled.1.2, filled.2)) as E by (vm_compute; reflexivity).
  assert (filled.2 = Base slab + H64) as Er by (vm_compute; reflexivity).
  split; [vm_compute; reflexivity|]. split; [exact Er|].
  destruct (Mmap64_fresh H64 4 (log_kernel true) no_advice 3 [] start (14 * H64) 3 0x22 (-1) 0
    ltac:(lia) eq_refl (fun k a l _ _ _ _ _ => ex_intro _ ((a, l) :: k) eq_refl) (fun k _ _ _ => ex_intro _ k eq_refl)
    (proj1 start_ok64) (proj2 start_ok64) ltac:(cbn; lia)
    ltac:(vm_compute; split; reflexivity) eq_refl eq_refl (or_introl eq_refl)) as (k' & s' & r & E' & H).
  unfold mmap64 in E. rewrite E in E'. apply some_triple in E' as (-> & -> & ->). destruct H as [[Hn _]|H]; [|exact H].
  rewrite Er in Hn. vm_compute in Hn. discriminate Hn.
Defined.

(** A request of 2 pages on the example: pages 5 and 15 are free, so the block is page 15 of the
    region and the page after the region. *)
Lemma block_past_slab :
  mmap64 true [] start 0 (14 * H64) = Some filled /\
  munmap64 filled.1.1 filled.1.2 (Base slab + 5 * H64) H64 = Some holed /\
  mmap64 true holed.1.1 holed.1.2 0 (2 * H64) = Some past /\
  past.2 = Base slab + 15 * H64 /\ past.2 + 2 * H64 = Base slab + RegionSize slab + H64 /\
  head past.1.1 = Some (past.2, 2 * H64).
Proof. do 5 (split; [vm_compute; reflexivity|]). vm_compute; reflexivity. Qed.

Definition holed_region : LiveVMARegion := default (mkLive slab 0 0 0 false ∅) (head (LiveRegions holed.1.2)).

Lemma holed_used e : 0 <= e -> Get (UsedPages holed_region) e = bool_decide (1 <= e < 15) && negb (e =? 5).
Proof.
  intros He. destruct (Z.lt_ge_cases e 64) as [Hlt|Hge].
  - assert (forallb (fun i => Bool.eqb (Get (UsedPages holed_region) i) (bool_decide (1 <= i < 15) && negb (i =? 5))) (seqZ 0 64) = true) as H
      by (vm_compute; reflexivity).
    rewrite forallb_forall in H. apply Bool.eqb_prop, H, list_elem_of_In, elem_of_seqZ. lia.
  - rewrite bool_decide_eq_false_2 by lia. rewrite Get_testbit by lia. unfold word.
    assert (UsedPages holed_region = {[0 := 32734]}) as -> by (vm_compute; reflexivity).
    rewrite lookup_singleton_ne; [by rewrite Z.bits_0|]. Z.to_euclidean_division_equations. lia.
Qed.


(** A mapping the kernel refused is returned as an address: the error of CheckIfRangeFits is
    only looked at when no region was chosen. *)
Lemma refused_mapping_returned :
  option_map snd (mmap64 false filled.1.1 filled.1.2 0 H64) = Some (Base slab + 15 * H64).
Proof. vm_compute. reflexivity. Qed.

(** The pages of the header are not marked ([MemSet] of fewer than 64 elements writes nothing),
    so a hint at the start of a region maps over the allocator's own header. *)
Lemma hint_replaces_header :
  MemSet ∅ 1 = ∅ /\
  option_map (fun r => (head r.1.1, r.2)) (mmap64 true filled.1.1 filled.1.2 (Base slab) H64) =
  Some (Some (Base slab, H64), Base slab).
Proof. split; [vm_compute; reflexivity|]. vm_compute; reflexivity. Qed.

(** Start-up with given regions: the first region is lost and the smallest is there twice, once
    without the page that now holds the allocator and once with it. *)
Lemma create_overlapping_regions :
  option_map (fun r => ReservedRegions r.2)
    (Create64BitAllocatorWithRegions H64 (log_kernel true) 200 0 []
       [(0x200000000, 0x40000000); (0x300000000, 0x20000000)]) =
  Some [mkReserved (0x300000000 + H64 + ObjectAllocSize) (0x20000000 - H64 - ObjectAllocSize);
        mkReserved 0x300000000 0x20000000].
Proof. vm_compute. reflexivity. Qed.
