(* ===== verification/RegAlloc.v ===== *)
(** * Register allocation: the model
    (FEXCore/Source/Interface/IR/Passes/RegisterAllocationPass.cpp and RegisterAllocationData.h)

    The allocator works on one block at a time.  A backward pass marks the last use of every
    value and notes which values should live in the static registers of the guest; a forward pass
    assigns registers, spilling and filling as it goes, and rewrites the arguments of each
    instruction to registers.  [Code] is the code of a block: the number of each node with its
    allocated arguments (the first GetRAArgs of them).  The fields of a node that the pass does
    not change are in the function [IR] from numbers to headers; the tables generated from
    IR.json are the record [Tables].  A failed assertion is [None].

    The result is the list of [PostOp]: what stays of the original nodes, and the copies, spills
    and fills the pass puts between them.  TryPostRAMerge, which joins adjacent instructions of
    that list afterwards and does not look at the allocator's state, is not modelled. *)

From S2P Require Import Prelude.

Module RegAlloc.

Inductive RegClass := RC_Invalid | RC_GPR | RC_GPRFixed | RC_FPR | RC_FPRFixed | RC_Complex.
#[global] Instance RegClass_eq_dec : EqDecision RegClass.
Proof. solve_decision. Defined.

Record PhysicalRegister := mkReg { Class : RegClass; Reg : Z }.
#[global] Instance PhysicalRegister_eq_dec : EqDecision PhysicalRegister.
Proof. solve_decision. Defined.

Definition Invalid : PhysicalRegister := mkReg RC_Invalid 0.
Definition IsInvalid (r : PhysicalRegister) : bool := bool_decide (r = Invalid).

(** The operations the allocator knows by name, and all others. *)
Inductive IROps :=
  | OP_CONSTANT | OP_INLINECONSTANT | OP_INLINEENTRYPOINTOFFSET | OP_GUESTOPCODE
  | OP_LOADREGISTER | OP_LOADPF | OP_LOADAF | OP_STOREREGISTER | OP_STOREPF | OP_STOREAF
  | OP_ALLOCATEGPR | OP_ALLOCATEGPRAFTER | OP_ALLOCATEFPR | OP_RMWHANDLE
  | OP_COPY | OP_VMOV | OP_SPILLREGISTER | OP_FILLREGISTER
  | OP_LOADCONTEXT | OP_LOADCONTEXTINDEXED | OP_LOADMEM | OP_LOADMEMTSO
  | OP_OTHER (n : Z).
#[global] Instance IROps_eq_dec : EqDecision IROps.
Proof. solve_decision. Defined.

(** The fields of an operation that the allocator reads; [Node_Reg] is the register a store to
    a static register already has. *)
Record IROp_Header := mkHeader {
  Op : IROps;
  Size : Z;
  ElementSize : Z;
  op_Class : RegClass;
  op_Reg : Z;
  Constant : Z;
  Pad : Z;
  MaxBytes : Z;
  PatchSite : Z;
  ForPair : bool;
  Node_Reg : PhysicalRegister;
}.

(** An argument: none, a node with its kill bit, or (after allocation) a register. *)
Inductive Arg := A_Invalid | A_Node (ID : Z) (Kill : bool) | A_Immediate (r : PhysicalRegister).

Abbreviation Code := (list (Z * list Arg)).

Record Tables := mkTables {
  GetRegClass : IROps -> RegClass;
  GetHasDest : IROps -> bool;
  TiedSource : IROps -> Z;
}.

Record Registers := mkRegisters { Count : RegClass -> Z; PairRegs : Z }.

Definition AddRegisters (R : Registers) (c : RegClass) (RegisterCount : Z) : option Registers :=
  if RegisterCount <=? 31
  then Some (mkRegisters (fun c' => if bool_decide (c' = c) then RegisterCount else Count R c') (PairRegs R))
  else None.

(** What the pass leaves of a block. *)
Inductive PostOp :=
  | P_Node (ID : Z) (dst : PhysicalRegister) (args : list Arg)
  | P_Copy (dst src : PhysicalRegister)
  | P_Spill (src : PhysicalRegister) (Slot : Z)
  | P_Fill (dst : PhysicalRegister) (Slot : Z)
  | P_Constant (dst : PhysicalRegister) (Const Pad MaxBytes : Z).

(** The register file: free registers as bits, the node in each other register, and the last
    register of each node. *)
Record RegFile := mkFile {
  Available : RegClass -> Z;
  RegToSSA : RegClass -> Z -> Z;
  SSAToReg : gmap Z PhysicalRegister;
}.

Record SpillRange := mkRange { SSAID : Z; DefIP : Z; LastUseIP : Z; Slot : Z }.

Record Spills := mkSpills {
  SpillSlots : gmap Z Z;
  BlockSpills : list SpillRange;
  FreeSlots : list Z;
  BlockSlotHighWater : Z;
}.

Record NextUseInfo := mkUses {
  SourcesNextUses : list Z;
  SourceIndex : Z;
  NextUses : gmap Z Z;
  AnySpilled : bool;
}.

Record State := mkState {
  rf : RegFile;
  sp : Spills;
  nu : NextUseInfo;
  ForwardIP : Z;
  NewNodes : Z;
}.

Definition set_rf f s := mkState f (sp s) (nu s) (ForwardIP s) (NewNodes s).
Definition set_sp x s := mkState (rf s) x (nu s) (ForwardIP s) (NewNodes s).
Definition set_nu u s := mkState (rf s) (sp s) u (ForwardIP s) (NewNodes s).

Definition assert_ (c : bool) : option unit := if c then Some tt else None.

(** std::countr_zero of a 32-bit value. *)
Definition set_bits (x : Z) : list Z := filter (fun i => Z.testbit x i = true) (seqZ 0 32).
Definition countr_zero32 (x : Z) : Z := default 32 (head (set_bits x)).

Section pass.
Context (T : Tables) (R : Registers) (IR : Z -> IROp_Header) (SSACount : Z).

Definition GetRegClassFromNode (IROp : IROp_Header) : RegClass :=
  let c := GetRegClass T (Op IROp) in
  if negb (bool_decide (c = RC_Complex)) then c
  else
    match Op IROp with
    | OP_LOADCONTEXT | OP_LOADREGISTER | OP_LOADCONTEXTINDEXED | OP_LOADMEM | OP_LOADMEMTSO | OP_FILLREGISTER => op_Class IROp
    | _ => RC_Invalid
    end.

(** ** Slots on the stack *)

Definition AcquireSlot (s : Spills) : Z * Spills :=
  match last (FreeSlots s) with
  | Some x => (x, mkSpills (SpillSlots s) (BlockSpills s) (removelast (FreeSlots s)) (BlockSlotHighWater s))
  | None => (BlockSlotHighWater s, mkSpills (SpillSlots s) (BlockSpills s) (FreeSlots s) (u32 (BlockSlotHighWater s + 1)))
  end.

Definition ReleaseSlot (slot : Z) (s : Spills) : Spills :=
  mkSpills (SpillSlots s) (BlockSpills s) (FreeSlots s ++ [slot]) (BlockSlotHighWater s).

Definition SpillSlot (s : Spills) (ID : Z) : Z := default 0 (SpillSlots s !! ID).
Definition set_SpillSlot (ID slot : Z) (s : Spills) : Spills :=
  mkSpills (<[ID := slot]> (SpillSlots s)) (BlockSpills s) (FreeSlots s) (BlockSlotHighWater s).

Definition Rematerializable (IROp : IROp_Header) : bool :=
  bool_decide (Op IROp = OP_CONSTANT) && (PatchSite IROp =? 0).

(** ** Arguments and registers *)

Definition IsValidID (ID : Z) : bool :=
  negb (bool_decide (Op (IR ID) = OP_INLINECONSTANT)) && negb (bool_decide (Op (IR ID) = OP_INLINEENTRYPOINTOFFSET)).

(** The node of an argument that is allocated (after ClearKill). *)
Definition IsValidArg (a : Arg) : option Z :=
  match a with
  | A_Node ID _ => if IsValidID ID then Some ID else None
  | _ => None
  end.

Definition GetRegBits (r : PhysicalRegister) : Z := u32 (1 <<< Reg r).
Definition IsFree (f : RegFile) (r : PhysicalRegister) : bool :=
  Available f (Class r) &&& GetRegBits r =? GetRegBits r.
Definition reg_of (f : RegFile) (ID : Z) : PhysicalRegister := default Invalid (SSAToReg f !! ID).

Definition IsInRegisterFile (f : RegFile) (Node : Z) : option bool :=
  _ ← assert_ (Node <? SSACount);
  let r := reg_of f Node in
  Some ((Available f (Class r) &&& GetRegBits r =? 0) && (RegToSSA f (Class r) (Reg r) =? Node)).

Definition set_Available (c : RegClass) (x : Z) (f : RegFile) : RegFile :=
  mkFile (fun c' => if bool_decide (c' = c) then x else Available f c') (RegToSSA f) (SSAToReg f).

Definition FreeReg (r : PhysicalRegister) (f : RegFile) : option RegFile :=
  _ ← assert_ (Available f (Class r) &&& GetRegBits r =? 0);
  Some (set_Available (Class r) (Available f (Class r) ||| GetRegBits r) f).

Definition HasSource (f : RegFile) (Args : list Arg) (r : PhysicalRegister) : bool :=
  existsb (fun a =>
    match a with
    | A_Immediate r' => bool_decide (r' = r)
    | _ => match IsValidArg a with Some ID => bool_decide (reg_of f ID = r) | None => false end
    end) Args.

Definition DecodeSRANode (Node : Z) (Args : list Arg) : option Z :=
  match Op (IR Node) with
  | OP_LOADREGISTER | OP_LOADPF | OP_LOADAF => Some Node
  | OP_STOREREGISTER | OP_STOREPF | OP_STOREAF =>
      match Args with A_Node ID _ :: _ => Some ID | _ => None end
  | _ => None
  end.

(** A load is of class GPR or FPR (asserted in the code); a register number has five bits. *)
Definition DecodeSRAReg (Node : Z) : PhysicalRegister :=
  let FlagOffset := u8 (Count R RC_GPRFixed - 2) in
  match Op (IR Node) with
  | OP_STOREREGISTER => Node_Reg (IR Node)
  | OP_LOADPF | OP_STOREPF => mkReg RC_GPRFixed (uwrap 5 FlagOffset)
  | OP_LOADAF | OP_STOREAF => mkReg RC_GPRFixed (uwrap 5 (FlagOffset + 1))
  | _ => if bool_decide (op_Class (IR Node) = RC_FPR) then mkReg RC_FPRFixed (uwrap 5 (op_Reg (IR Node)))
         else mkReg RC_GPRFixed (uwrap 5 (op_Reg (IR Node)))
  end.

(** An immediate argument as a register (GetImmediate asserts that it is one). *)
Definition arg_reg (a : option Arg) : option PhysicalRegister :=
  match a with Some (A_Immediate r) => Some r | _ => None end.

Definition IsTrivial (Node : Z) (dst : PhysicalRegister) (Args : list Arg) : option bool :=
  match Op (IR Node) with
  | OP_ALLOCATEGPR | OP_ALLOCATEGPRAFTER | OP_ALLOCATEFPR => Some true
  | OP_RMWHANDLE => r ← arg_reg (Args !! 0%nat); Some (bool_decide (dst = r))
  | OP_LOADREGISTER => Some (bool_decide (dst = DecodeSRAReg Node))
  | OP_STOREREGISTER => r ← arg_reg (Args !! 0%nat); Some (bool_decide (r = DecodeSRAReg Node))
  | _ => Some false
  end.

(** ** Spilling *)

(** One source of the backward walk: its next use is pushed, and this use is now the next one. *)
Definition NoteUse (IP : Z) (a : Arg) (st : list Z * gmap Z Z) : list Z * gmap Z Z :=
  match IsValidArg a with
  | Some ID => (st.1 ++ [default 0 (st.2 !! ID)], <[ID := IP]> st.2)
  | None => st
  end.

Definition NoteUses (IP : Z) (Args : list Arg) (st : list Z * gmap Z Z) : list Z * gmap Z Z :=
  foldr (NoteUse IP) st Args.

(** [CalculateNextUses] over the code behind the current instruction; IPs count from the end. *)
Fixpoint WalkUses (rest : Code) : Z * (list Z * gmap Z Z) :=
  match rest with
  | [] => (1, ([], ∅))
  | (_, Args) :: rest => let '(IP, st) := WalkUses rest in (u32 (IP + 1), NoteUses IP Args st)
  end.

Definition CalculateNextUses (rest : Code) : NextUseInfo :=
  let '(_, (srcs, uses)) := WalkUses rest in mkUses srcs (Z.of_nat (length srcs)) uses false.

Definition UINT32_MAX : Z := 2 ^ 32 - 1.

(** One candidate of the furthest-first search; the best node so far with its register. *)
Definition ConsiderSpill (f : RegFile) (u : NextUseInfo) (c : RegClass) (Exclude : list Arg)
    (best : option (option (Z * Z) * Z)) (i : Z) : option (option (Z * Z) * Z) :=
  '(Candidate, BestDistance) ← best;
  let Node := RegToSSA f c i in
  let r := reg_of f Node in
  _ ← assert_ (negb (Node =? 0));
  _ ← assert_ (Reg r =? i);
  if HasSource f Exclude r then Some (Candidate, BestDistance)
  else
    let NextUse := default 0 (NextUses u !! Node) in
    let NextUse := if Rematerializable (IR Node) then NextUse else u32 (NextUse + 100000) in
    Some (if NextUse <? BestDistance then (Some (Node, i), NextUse) else (Candidate, BestDistance)).

Definition FindSpill (f : RegFile) (u : NextUseInfo) (c : RegClass) (Exclude : list Arg) : option (Z * Z) :=
  let Allocated := u32 (2 ^ Count R c - 1) &&& u32 (Z.lnot (Available f c)) in
  '(Candidate, _) ← foldl (ConsiderSpill f u c Exclude) (Some (None, UINT32_MAX)) (set_bits Allocated);
  Candidate.

Definition SpillReg (c : RegClass) (rest : Code) (Exclude : list Arg) (s : State) : option (State * list PostOp) :=
  let u := if AnySpilled (nu s) then nu s else CalculateNextUses rest in
  '(Node, BestReg) ← FindSpill (rf s) u c Exclude;
  let r := reg_of (rf s) Node in
  _ ← assert_ (Reg r =? BestReg);
  let Spilled := negb (SpillSlot (sp s) Node =? 0) in
  '(x, code) ←
    (if negb Spilled && negb (Rematerializable (IR Node)) then
       _ ← assert_ (bool_decide (Class r = GetRegClassFromNode (IR Node)));
       let '(slot, x) := AcquireSlot (sp s) in
       let range := mkRange Node (ForwardIP s) (u32 (ForwardIP s + default 0 (NextUses u !! Node))) slot in
       let x := mkSpills (SpillSlots x) (BlockSpills x ++ [range]) (FreeSlots x) (BlockSlotHighWater x) in
       Some (set_SpillSlot Node (u32 (slot + 1)) x, [P_Spill r slot])
     else Some (sp s, []));
  f ← FreeReg r (rf s);
  Some (mkState f x (mkUses (SourcesNextUses u) (SourceIndex u) (NextUses u) true) (ForwardIP s) (NewNodes s), code).

(** ** Assignment *)

Definition RemapReg (Node : Z) (r : PhysicalRegister) (f : RegFile) : RegFile :=
  mkFile (Available f)
    (fun c i => if bool_decide (c = Class r) && (i =? Reg r) then Node else RegToSSA f c i)
    (if Node <? SSACount then <[Node := r]> (SSAToReg f) else SSAToReg f).

Definition SetReg (Node : Z) (r : PhysicalRegister) (f : RegFile) : option RegFile :=
  _ ← assert_ (IsFree f r);
  Some (RemapReg Node r (set_Available (Class r) (Available f (Class r) &&& u32 (Z.lnot (GetRegBits r))) f)).

(** The preferred register, when it is free. *)
Definition PreferredFree (Pref : gmap Z PhysicalRegister) (f : RegFile) (Node : Z) : option PhysicalRegister :=
  if Node <? SSACount then
    let r := default Invalid (Pref !! Node) in
    if negb (IsInvalid r) && IsFree f r then Some r else None
  else None.

(** The register of the tied source, when it was freed and is not a static one. *)
Definition TiedFree (IROp : IROp_Header) (Args : list Arg) (f : RegFile) : option (option PhysicalRegister) :=
  let TiedIdx := TiedSource T (Op IROp) in
  if 0 <=? TiedIdx then
    r ← arg_reg (Args !! Z.to_nat TiedIdx);
    Some (if negb (bool_decide (Class r = RC_GPRFixed)) && negb (bool_decide (Class r = RC_FPRFixed)) && IsFree f r
          then Some r else None)
  else Some None.

(** The heuristics for register pairs. *)
Definition PairFree (IROp : IROp_Header) (Args : list Arg) (f : RegFile) : option (option PhysicalRegister) :=
  match Op IROp with
  | OP_ALLOCATEGPR =>
      if ForPair IROp then
        let Avail := Available f RC_GPR in
        let Avail := Avail &&& (Avail >>> 1) in
        let Avail := Avail &&& (0x55555555 &&& u32 (2 ^ PairRegs R - 1)) in
        Some (if negb (Avail =? 0) then Some (mkReg RC_GPR (countr_zero32 Avail)) else None)
      else Some None
  | OP_ALLOCATEGPRAFTER =>
      After ← arg_reg (Args !! 0%nat);
      Some (if (Reg After &&& 1 =? 0) && negb (Available f RC_GPR &&& (1 <<< (Reg After + 1)) =? 0)
            then Some (mkReg RC_GPR (Reg After + 1)) else None)
  | _ => Some None
  end.

Definition AssignReg (Pref : gmap Z PhysicalRegister) (IROp : IROp_Header) (Node : Z) (Args : list Arg)
    (rest : Code) (Pivot : list Arg) (s : State) : option (State * list PostOp * PhysicalRegister) :=
  let set r s code := f ← SetReg Node r (rf s); Some (set_rf f s, code, r) in
  match PreferredFree Pref (rf s) Node with
  | Some r => set r s []
  | None =>
      tied ← TiedFree IROp Args (rf s);
      match tied with
      | Some r => set r s []
      | None =>
          pair ← PairFree IROp Args (rf s);
          match pair with
          | Some r => set r s []
          | None =>
              let c := GetRegClassFromNode IROp in
              '(s, code) ← (if Available (rf s) c =? 0 then SpillReg c rest Pivot s else Some (s, []));
              _ ← assert_ (negb (Available (rf s) c =? 0));
              set (mkReg c (countr_zero32 (Available (rf s) c))) s code
          end
      end
  end.

(** The number of a node the emitter creates. *)
Definition NewNode (s : State) : Z * State :=
  (SSACount + NewNodes s, mkState (rf s) (sp s) (nu s) (ForwardIP s) (NewNodes s + 1)).

Definition new_header (o : IROps) (c : RegClass) : IROp_Header := mkHeader o 0 0 c 0 0 0 0 0 false Invalid.

(** A node created before the current instruction takes the place of [Old]. *)
Definition InsertFor (Pref : gmap Z PhysicalRegister) (Old : Z) (IROp : IROp_Header) (Args : list Arg)
    (emit : PhysicalRegister -> PostOp) (rest : Code) (Pivot : list Arg) (s : State) : option (State * list PostOp) :=
  let '(New, s) := NewNode s in
  '(s, code, r) ← AssignReg Pref IROp New Args rest Pivot s;
  Some (set_rf (RemapReg Old r (rf s)) s, code ++ [emit r]).

Definition InsertFill (Pref : gmap Z PhysicalRegister) (Node : Z) (rest : Code) (Pivot : list Arg) (s : State) :
    option (State * list PostOp) :=
  let h := IR Node in
  if Rematerializable h then
    InsertFor Pref Node (new_header OP_CONSTANT RC_Invalid) []
      (fun r => P_Constant r (Constant h) (Pad h) (MaxBytes h)) rest Pivot s
  else
    let SlotPlusOne := SpillSlot (sp s) Node in
    _ ← assert_ (1 <=? SlotPlusOne);
    InsertFor Pref Node (new_header OP_FILLREGISTER (GetRegClassFromNode h)) []
      (fun r => P_Fill r (SlotPlusOne - 1)) rest Pivot s.

(** ** The backward pass *)

Record Back := mkBack {
  b_Pref : gmap Z PhysicalRegister;
  b_RegToSSA : RegClass -> Z -> option (Z * list Arg);
  b_Seen : gset Z;
}.

(** Kill bits of the arguments, from the last to the first. *)
Fixpoint MarkKills (Args : list Arg) (Seen : gset Z) : list Arg * gset Z :=
  match Args with
  | [] => ([], Seen)
  | a :: Args =>
      let '(Args, Seen) := MarkKills Args Seen in
      match a with
      | A_Node ID k => if bool_decide (ID ∈ Seen) then (a :: Args, Seen) else (A_Node ID true :: Args, {[ID]} ∪ Seen)
      | _ => (a :: Args, Seen)
      end
  end.

Definition pref_of (b : Back) (ID : Z) : PhysicalRegister := default Invalid (b_Pref b !! ID).

(** [b_RegToSSA] is the use of RegToSSA as scratch space: the next access to each register. *)
Definition NoteAccess (Node : Z) (Args : list Arg) (b : Back) : Back :=
  match DecodeSRANode Node Args with
  | Some N =>
      let r := DecodeSRAReg Node in
      mkBack (<[N := r]> (b_Pref b))
        (fun c i => if bool_decide (c = Class r) && (i =? Reg r) then Some (Node, Args) else b_RegToSSA b c i) (b_Seen b)
  | None => b
  end.

Definition CheckPreferred (Node : Z) (b : Back) : Back :=
  let r := pref_of b Node in
  if IsInvalid r then b
  else
    let ok := match b_RegToSSA b (Class r) (Reg r) with
              | Some (N, Args) => bool_decide (DecodeSRANode N Args = Some Node)
              | None => false
              end in
    if ok then b else mkBack (<[Node := Invalid]> (b_Pref b)) (b_RegToSSA b) (b_Seen b).

Fixpoint BackwardPass (code : Code) (b : Back) : Code * Back :=
  match code with
  | [] => ([], b)
  | (Node, Args) :: code =>
      let '(code, b) := BackwardPass code b in
      let b := CheckPreferred Node (NoteAccess Node Args b) in
      let '(Args, Seen) := MarkKills Args (b_Seen b) in
      ((Node, Args) :: code, mkBack (b_Pref b) (b_RegToSSA b) Seen)
  end.

(** ** The forward pass *)

(** Static registers must be consistent at their loads and stores: another node moves out. *)
Definition Evict (Pref : gmap Z PhysicalRegister) (CodeNode : Z) (Args : list Arg) (rest : Code) (s : State) :
    option (State * list PostOp) :=
  match DecodeSRANode CodeNode Args with
  | None => Some (s, [])
  | Some Node =>
      let r := DecodeSRAReg CodeNode in
      if Available (rf s) (Class r) &&& GetRegBits r =? 0 then
        let Old := RegToSSA (rf s) (Class r) (Reg r) in
        if Old =? Node then Some (s, [])
        else
          f ← FreeReg r (rf s);
          let h := new_header (if bool_decide (Class r = RC_FPRFixed) then OP_VMOV else OP_COPY) RC_Invalid in
          InsertFor Pref Old h [A_Immediate r] (fun d => P_Copy d r) rest Args (set_rf f s)
      else Some (s, [])
  end.

Fixpoint FillSources (Pref : gmap Z PhysicalRegister) (todo : list Arg) (rest : Code) (Pivot : list Arg) (s : State) :
    option (State * list PostOp) :=
  match todo with
  | [] => Some (s, [])
  | a :: todo =>
      match IsValidArg a with
      | None => FillSources Pref todo rest Pivot s
      | Some Old =>
          let u := nu s in
          let SourceIndex := SourceIndex u - 1 in
          _ ← assert_ (0 <=? SourceIndex);
          next ← SourcesNextUses u !! Z.to_nat SourceIndex;
          let s := set_nu (mkUses (SourcesNextUses u) SourceIndex (<[Old := next]> (NextUses u)) (AnySpilled u)) s in
          b ← IsInRegisterFile (rf s) Old;
          '(s, code) ← (if (b : bool) then Some (s, []) else InsertFill Pref Old rest Pivot s);
          '(s, code') ← FillSources Pref todo rest Pivot s;
          Some (s, code ++ code')
      end
  end.

(** Rewriting the arguments to registers; a killed source frees its register and its slot. *)
Fixpoint UseSources (Args : list Arg) (s : State) : option (State * list Arg) :=
  match Args with
  | [] => Some (s, [])
  | A_Node ID Kill :: Args =>
      let r := reg_of (rf s) ID in
      '(s, a) ←
        (if IsInvalid r then Some (s, A_Node ID false)
         else
           s ← (if (Kill : bool) then
                  b ← IsInRegisterFile (rf s) ID;
                  _ ← assert_ b;
                  f ← FreeReg r (rf s);
                  let slot := SpillSlot (sp s) ID in
                  Some (mkState f (if slot =? 0 then sp s else set_SpillSlot ID 0 (ReleaseSlot (slot - 1) (sp s)))
                          (nu s) (ForwardIP s) (NewNodes s))
                else Some s);
           Some (s, A_Immediate r));
      '(s, Args) ← UseSources Args s;
      Some (s, a :: Args)
  | a :: Args => '(s, Args) ← UseSources Args s; Some (s, a :: Args)
  end.

Definition skipped (Node : Z) : bool :=
  bool_decide (Op (IR Node) = OP_GUESTOPCODE) || bool_decide (Op (IR Node) = OP_INLINECONSTANT).

(** One instruction of the forward pass, up to its deletion when it is trivial, and the count of instructions at the
    end of the loop body.  The other branch of that test merges adjacent instructions (TryPostRAMerge); it and [LastNode],
    which only it reads, are not modelled. *)
Definition Allocate (Pref : gmap Z PhysicalRegister) (Node : Z) (Args : list Arg) (rest : Code) (s : State) :
    option (State * list PostOp) :=
  if skipped Node then Some (s, [P_Node Node Invalid Args])
  else
    let AnySpilledBefore := AnySpilled (nu s) in
    '(s, c1) ← Evict Pref Node Args rest s;
    '(s, c2) ← (if AnySpilledBefore then FillSources Pref Args rest Args s else Some (s, []));
    '(s, Args) ← UseSources Args s;
    '(s, c3, dst) ←
      (if GetHasDest T (Op (IR Node)) && IsInvalid (Node_Reg (IR Node))
       then AssignReg Pref (IR Node) Node Args rest Args s
       else Some (s, [], Node_Reg (IR Node)));
    t ← IsTrivial Node dst Args;
    let s := mkState (rf s) (sp s) (nu s) (u32 (ForwardIP s + 1)) (NewNodes s) in
    Some (s, c1 ++ c2 ++ c3 ++ (if (t : bool) then [] else [P_Node Node dst Args])).

Fixpoint ForwardPass (Pref : gmap Z PhysicalRegister) (code : Code) (s : State) : option (State * list PostOp) :=
  match code with
  | [] => Some (s, [])
  | (Node, Args) :: rest =>
      '(s, c) ← Allocate Pref Node Args rest s;
      '(s, c') ← ForwardPass Pref rest s;
      Some (s, c ++ c')
  end.

(** ** A block, and all blocks *)

Record Global := mkGlobal {
  g_back : Back;
  g_SSAToReg : gmap Z PhysicalRegister;
  g_RegToSSA : RegClass -> Z -> Z;
  g_SpillSlots : gmap Z Z;
  g_HighWater : Z;
  g_NewNodes : Z;
}.

Definition NewBlock (g : Global) : State :=
  mkState (mkFile (fun c => u32 (2 ^ Count R c - 1)) (g_RegToSSA g) (g_SSAToReg g))
    (mkSpills (g_SpillSlots g) [] [] 0) (mkUses [] 0 ∅ false) 0 (g_NewNodes g).

(** The scratch entries of RegToSSA start empty: the code leaves those of earlier blocks, and reads
    one only for a register that a later instruction of this block accesses, which has set it.
    The forward pass reads an entry only while its register is taken. *)
Definition RunBlock (code : Code) (g : Global) : option (Global * list PostOp * list SpillRange) :=
  let '(code, b) := BackwardPass code (mkBack (b_Pref (g_back g)) (fun _ _ => None) (b_Seen (g_back g))) in
  '(s, out) ← ForwardPass (b_Pref b) code (NewBlock g);
  _ ← (if AnySpilled (nu s) then assert_ (SourceIndex (nu s) =? 0) else Some tt);
  Some (mkGlobal b (SSAToReg (rf s)) (RegToSSA (rf s)) (SpillSlots (sp s))
          (Z.max (g_HighWater g) (BlockSlotHighWater (sp s))) (NewNodes s),
        out, BlockSpills (sp s)).

Fixpoint RunBlocks (blocks : list Code) (g : Global) : option (Global * list (list PostOp * list SpillRange)) :=
  match blocks with
  | [] => Some (g, [])
  | code :: blocks =>
      '(g, out, ranges) ← RunBlock code g;
      '(g, outs) ← RunBlocks blocks g;
      Some (g, (out, ranges) :: outs)
  end.

(** [Run]: the code of the blocks, and the number of spill slots published in the header. *)
Definition Run (blocks : list Code) : option (list (list PostOp * list SpillRange) * Z) :=
  '(g, outs) ← RunBlocks blocks (mkGlobal (mkBack ∅ (fun _ _ => None) ∅) ∅ (fun _ _ => 0) ∅ 0 0);
  Some (outs, g_HighWater g).

End pass.
End RegAlloc.
