(* ===== verification/RegAllocSem.v ===== *)
(** * Register allocation: what the code means before and after, and which code is well formed

    A reference semantics of a block over abstract values: before allocation an instruction reads
    and defines nodes, afterwards registers and spill slots.  What an operation computes is the
    function [sem] of its node, the values of the arguments it reads and the state of the world;
    [reads] and [writes] tell which arguments an operation reads and which it overwrites (the
    named destinations of IR.json).  The value of a node made by an Allocate operation is not
    defined until an instruction writes it, and code that reads it has no meaning. *)

From S2P Require Import Prelude RegAlloc.
Import RegAlloc.

Definition upd {A B} `{EqDecision A} (a : A) (b : B) (f : A -> B) : A -> B := fun x => if decide (x = a) then b else f x.

Lemma upd_same {A B} `{EqDecision A} (a : A) (b : B) f : upd a b f a = b.
Proof. unfold upd. by rewrite decide_True. Qed.

Lemma upd_other {A B} `{EqDecision A} (a x : A) (b : B) f : x <> a -> upd a b f x = f x.
Proof. unfold upd. intros. by rewrite decide_False. Qed.

Section sem.
Context (T : Tables) (R : Registers) (IR : Z -> IROp_Header).
Context {V W : Type} (reads writes : IROps -> nat -> bool).
Context (constv : Z -> V) (sem : Z -> list (option V) -> W -> W * V * (nat -> V)).

Abbreviation OpOf n := (Op (IR n)).

(** The kinds of instructions whose meaning the allocator relies on. *)
Inductive kind := K_Skip | K_Constant | K_Load | K_Store | K_Allocate | K_Move | K_Op.

Definition kind_of (Node : Z) : kind :=
  match OpOf Node with
  | OP_GUESTOPCODE | OP_INLINECONSTANT => K_Skip
  | OP_CONSTANT => if PatchSite (IR Node) =? 0 then K_Constant else K_Op
  | OP_LOADREGISTER | OP_LOADPF | OP_LOADAF => K_Load
  | OP_STOREREGISTER | OP_STOREPF | OP_STOREAF => K_Store
  | OP_ALLOCATEGPR | OP_ALLOCATEGPRAFTER | OP_ALLOCATEFPR => K_Allocate
  | OP_RMWHANDLE => K_Move
  | _ => K_Op
  end.

(** ** Before allocation *)

Record SSAState := mkSSA { env : Z -> option V; guest : PhysicalRegister -> V; world : W }.

Definition node_val (e : Z -> option V) (a : option Arg) : option V :=
  match a with Some a => n ← IsValidArg IR a; e n | None => None end.

(** The values an operation reads; None when one of them is not defined. *)
Fixpoint read_nodes (o : IROps) (i : nat) (e : Z -> option V) (Args : list Arg) : option (list (option V)) :=
  match Args with
  | [] => Some []
  | a :: Args =>
      v ← (match IsValidArg IR a with
           | Some n => if reads o i then v ← e n; Some (Some v) else Some None
           | None => Some None
           end);
      vs ← read_nodes o (S i) e Args;
      Some (v :: vs)
  end.

Fixpoint write_nodes (o : IROps) (i : nat) (out : nat -> V) (Args : list Arg) (e : Z -> option V) : Z -> option V :=
  match Args with
  | [] => e
  | a :: Args =>
      write_nodes o (S i) out Args
        (match IsValidArg IR a with
         | Some n => if writes o i then upd n (Some (out i)) e else e
         | None => e
         end)
  end.

Definition ssa_step (Node : Z) (Args : list Arg) (s : SSAState) : option SSAState :=
  let '(mkSSA e gu w) := s in
  match kind_of Node with
  | K_Skip => Some s
  | K_Constant => Some (mkSSA (upd Node (Some (constv (Constant (IR Node)))) e) gu w)
  | K_Load => Some (mkSSA (upd Node (Some (gu (DecodeSRAReg R IR Node))) e) gu w)
  | K_Store => v ← node_val e (head Args); Some (mkSSA e (upd (DecodeSRAReg R IR Node) v gu) w)
  | K_Allocate => Some (mkSSA (upd Node None e) gu w)
  | K_Move => v ← node_val e (head Args); Some (mkSSA (upd Node (Some v) e) gu w)
  | K_Op =>
      vs ← read_nodes (OpOf Node) 0 e Args;
      let '(w, d, out) := sem Node vs w in
      let e := write_nodes (OpOf Node) 0 out Args e in
      Some (mkSSA (if GetHasDest T (OpOf Node) then upd Node (Some d) e else e) gu w)
  end.

Fixpoint ssa_run (code : Code) (s : SSAState) : option SSAState :=
  match code with
  | [] => Some s
  | (Node, Args) :: code => s ← ssa_step Node Args s; ssa_run code s
  end.

(** ** After allocation *)

Record PostState := mkPost { regs : PhysicalRegister -> V; slots : Z -> V; p_world : W }.

Fixpoint read_regs (o : IROps) (i : nat) (g : PhysicalRegister -> V) (Args : list Arg) : list (option V) :=
  match Args with
  | [] => []
  | A_Immediate r :: Args => (if reads o i then Some (g r) else None) :: read_regs o (S i) g Args
  | _ :: Args => None :: read_regs o (S i) g Args
  end.

Fixpoint write_regs (o : IROps) (i : nat) (out : nat -> V) (Args : list Arg) (g : PhysicalRegister -> V) : PhysicalRegister -> V :=
  match Args with
  | [] => g
  | A_Immediate r :: Args => write_regs o (S i) out Args (if writes o i then upd r (out i) g else g)
  | _ :: Args => write_regs o (S i) out Args g
  end.

Definition node_step (Node : Z) (dst : PhysicalRegister) (Args : list Arg) (p : PostState) : option PostState :=
  let '(mkPost g sl w) := p in
  match kind_of Node with
  | K_Skip => Some p
  | K_Constant => Some (mkPost (upd dst (constv (Constant (IR Node))) g) sl w)
  | K_Load => Some (mkPost (upd dst (g (DecodeSRAReg R IR Node)) g) sl w)
  | K_Store => r ← arg_reg (head Args); Some (mkPost (upd (DecodeSRAReg R IR Node) (g r) g) sl w)
  | K_Allocate => Some p
  | K_Move => r ← arg_reg (head Args); Some (mkPost (upd dst (g r) g) sl w)
  | K_Op =>
      let '(w, d, out) := sem Node (read_regs (OpOf Node) 0 g Args) w in
      let g := write_regs (OpOf Node) 0 out Args g in
      Some (mkPost (if GetHasDest T (OpOf Node) then upd dst d g else g) sl w)
  end.

Definition post_step (i : PostOp) (p : PostState) : option PostState :=
  match i with
  | P_Node Node dst Args => node_step Node dst Args p
  | P_Copy dst src => Some (mkPost (upd dst (regs p src) (regs p)) (slots p) (p_world p))
  | P_Spill src k => Some (mkPost (regs p) (upd k (regs p src) (slots p)) (p_world p))
  | P_Fill dst k => Some (mkPost (upd dst (slots p k) (regs p)) (slots p) (p_world p))
  | P_Constant dst c _ _ => Some (mkPost (upd dst (constv c) (regs p)) (slots p) (p_world p))
  end.

Fixpoint post_run (code : list PostOp) (p : PostState) : option PostState :=
  match code with
  | [] => Some p
  | i :: code => p ← post_step i p; post_run code p
  end.

Lemma post_run_app c1 c2 p : post_run (c1 ++ c2) p = p ← post_run c1 p; post_run c2 p.
Proof.
  revert p. induction c1 as [|i c1 IH]; intros p; cbn; [done|]. destruct (post_step i p); cbn; [apply IH|done].
Qed.

(** ** Well-formed code *)

Definition fixed (c : RegClass) : RegClass :=
  match c with RC_GPR => RC_GPRFixed | RC_FPR => RC_FPRFixed | c => c end.

Definition is_general (c : RegClass) : Prop := c = RC_GPR \/ c = RC_FPR.
Definition is_static (c : RegClass) : Prop := c = RC_GPRFixed \/ c = RC_FPRFixed.

Abbreviation class_of n := (GetRegClassFromNode T (IR n)).

Definition in_range (r : PhysicalRegister) : Prop := 0 <= Reg r < Count R (Class r).

(** What IR.json says of the operations the allocator emits or singles out. *)
Record tables_ok : Prop := {
  copy_class : GetRegClass T OP_COPY = RC_GPR;
  vmov_class : GetRegClass T OP_VMOV = RC_FPR;
  constant_class : GetRegClass T OP_CONSTANT = RC_GPR;
  fill_class : GetRegClass T OP_FILLREGISTER = RC_Complex;
  pair_class : GetRegClass T OP_ALLOCATEGPR = RC_GPR /\ GetRegClass T OP_ALLOCATEGPRAFTER = RC_GPR;
  untied : Forall (fun o => TiedSource T o < 0) [OP_COPY; OP_VMOV; OP_CONSTANT; OP_FILLREGISTER];
  no_dest : Forall (fun o => GetHasDest T o = false) [OP_GUESTOPCODE; OP_INLINECONSTANT; OP_INLINEENTRYPOINTOFFSET; OP_STOREPF; OP_STOREAF];
  has_dest : Forall (fun o => GetHasDest T o = true)
    [OP_CONSTANT; OP_LOADREGISTER; OP_LOADPF; OP_LOADAF; OP_ALLOCATEGPR; OP_ALLOCATEGPRAFTER; OP_ALLOCATEFPR; OP_RMWHANDLE];
}.

(** At most 31 registers per class, and none that belong to no class. *)
Record registers_ok : Prop := {
  counts : forall c, 0 <= Count R c <= 31;
  no_registers : Count R RC_Invalid = 0 /\ Count R RC_Complex = 0;
  pairs : 0 <= PairRegs R <= Count R RC_GPR;
}.

(** A node that is given a register. *)
Definition defines (n : Z) : bool := GetHasDest T (OpOf n) && IsInvalid (Node_Reg (IR n)).

Definition written (Node : Z) (Args : list Arg) (n : Z) : Prop :=
  exists i a, Args !! i = Some a /\ IsValidArg IR a = Some n /\ writes (OpOf Node) i = true /\ kind_of Node = K_Op.

(** An argument before allocation. *)
Definition arg_ok (D : gset Z) (a : Arg) : Prop :=
  match a with A_Node n _ => IsValidID IR n = true -> n ∈ D | A_Invalid => True | A_Immediate _ => False end.

Definition valid_arg (a : option Arg) : option Z := a ≫= IsValidArg IR.

(** One instruction, when [D] are the nodes with a value and [F] those that were loaded from or
    stored to a static register. *)
Record inst_ok (SSACount : Z) (D F : gset Z) (Node : Z) (Args : list Arg) : Prop := {
  i_number : 0 < Node < SSACount;
  i_args : Forall (arg_ok D) Args;
  i_skip : skipped IR Node = true -> Args = [];
  i_inline : IsValidID IR Node = false -> defines Node = false;
  i_class : defines Node = true -> is_general (class_of Node);
  i_reg : OpOf Node <> OP_STOREREGISTER -> IsInvalid (Node_Reg (IR Node)) = true;
  i_tied : defines Node = true -> 0 <= TiedSource T (OpOf Node) ->
    exists n, valid_arg (Args !! Z.to_nat (TiedSource T (OpOf Node))) = Some n /\ class_of n = class_of Node;
  i_after : OpOf Node = OP_ALLOCATEGPRAFTER -> exists n, valid_arg (Args !! 0%nat) = Some n;
  i_move : kind_of Node = K_Move -> exists n, valid_arg (Args !! 0%nat) = Some n;
  i_sra : kind_of Node = K_Load \/ kind_of Node = K_Store ->
    in_range (DecodeSRAReg R IR Node) /\
    exists n, DecodeSRANode IR Node Args = Some n /\ (kind_of Node = K_Store -> valid_arg (Args !! 0%nat) = Some n) /\
      is_general (class_of n) /\ Class (DecodeSRAReg R IR Node) = fixed (class_of n);
  i_store : kind_of Node = K_Store -> defines Node = false;
  i_written : forall n, written Node Args n ->
    defines Node = false /\ n ∉ F /\ kind_of n <> K_Constant;
}.

Fixpoint code_ok (SSACount : Z) (D F : gset Z) (code : Code) : Prop :=
  match code with
  | [] => True
  | (Node, Args) :: code =>
      inst_ok SSACount D F Node Args /\
      code_ok SSACount (if defines Node then {[Node]} ∪ D else D)
        (match DecodeSRANode IR Node Args with Some n => {[n]} ∪ F | None => F end) code
  end.

(** A block: its nodes are new and different, and its arguments carry no kill bits. *)
Record block_ok (SSACount : Z) (code : Code) : Prop := {
  b_code : code_ok SSACount ∅ ∅ code;
  b_nodup : NoDup (code.*1);
  b_unkilled : Forall (fun i => Forall (fun a => match a with A_Node _ k => k = false | _ => True end) i.2) code;
  b_length : Z.of_nat (length code) < 2 ^ 31;
}.

(** Fewer arguments than general registers of either class, at every instruction. *)
Definition few_args (code : Code) : Prop :=
  Forall (fun i => Z.of_nat (length i.2) < Count R RC_GPR /\ Z.of_nat (length i.2) < Count R RC_FPR) code.

(** No node that an instruction overwrites was put on the stack. *)
Definition overwritten_stay (code : Code) (ranges : list SpillRange) : Prop :=
  forall Node Args n, (Node, Args) ∈ code -> written Node Args n -> n ∉ SSAID <$> ranges.

End sem.
