(* ===== verification/RegAllocProps.v ===== *)
(** * Register allocation: the register file and the search for a register to spill

    [file_ok] is the invariant of the register file, [holds f n r] says that register [r] holds
    node [n], and [assigned] and [freed] are the two changes of the file.  The operations of the
    pass are specified with [wp E]: the operation returns a state with the given property, or
    does not return and [E] holds, where [E] is the negation of having enough registers. *)

From S2P Require Import Prelude RegAlloc RegAllocSem.
Import RegAlloc.

Definition wp {A} (E : Prop) (m : option A) (Q : A -> Prop) : Prop :=
  match m with Some x => Q x | None => E end.

Lemma wp_bind {A B} E (m : option A) (f : A -> option B) Q : wp E m (fun x => wp E (f x) Q) -> wp E (m ≫= f) Q.
Proof. by destruct m. Qed.

Lemma wp_mono {A} E (m : option A) (P Q : A -> Prop) : (forall x, P x -> Q x) -> wp E m P -> wp E m Q.
Proof. destruct m; cbn; auto. Qed.

(** ** Bits *)

Lemma land_pow_zero a i : 0 <= i -> (a &&& 2 ^ i =? 0) = negb (Z.testbit a i).
Proof.
  intros Hi. apply eq_iff_eq_true. rewrite Z.eqb_eq, negb_true_iff. split.
  - intros H. apply (f_equal (fun x => Z.testbit x i)) in H.
    by rewrite Z.land_spec, Z.pow2_bits_true, andb_true_r, Z.bits_0 in H.
  - intros H. apply Z.bits_inj'. intros j Hj. rewrite Z.land_spec, Z.bits_0.
    destruct (decide (j = i)) as [-> |]; [by rewrite H|]. rewrite Z.pow2_bits_false by done. apply andb_false_r.
Qed.

Lemma land_pow_self a i : 0 <= i -> (a &&& 2 ^ i =? 2 ^ i) = Z.testbit a i.
Proof.
  intros Hi. apply eq_iff_eq_true. rewrite Z.eqb_eq. split.
  - intros H. apply (f_equal (fun x => Z.testbit x i)) in H.
    by rewrite Z.land_spec, Z.pow2_bits_true, andb_true_r in H.
  - intros H. apply Z.bits_inj'. intros j Hj. rewrite Z.land_spec.
    destruct (decide (j = i)) as [-> |]; [by rewrite H|]. rewrite Z.pow2_bits_false by done. apply andb_false_r.
Qed.

Lemma elem_of_set_bits x i : i ∈ set_bits x <-> 0 <= i < 32 /\ Z.testbit x i = true.
Proof. unfold set_bits. rewrite list_elem_of_filter, elem_of_seqZ. intuition lia. Qed.

Lemma NoDup_set_bits x : NoDup (set_bits x).
Proof. apply NoDup_filter, NoDup_seqZ. Qed.

Lemma countr_zero32_spec x : is_u 32 x -> x <> 0 -> Z.testbit x (countr_zero32 x) = true.
Proof.
  intros Hx Hne. unfold countr_zero32. destruct (set_bits x) as [|i l] eqn:E; cbn.
  - destruct Hne. apply Z.bits_inj'. intros j Hj. rewrite Z.bits_0.
    destruct (Z.testbit x j) eqn:Ej; [|done]. destruct (decide (j < 32)).
    + assert (j ∈ set_bits x) as H by (by apply elem_of_set_bits). rewrite E in H. by apply not_elem_of_nil in H.
    + rewrite (testbit_high 32) in Ej; [done|done|lia].
  - apply (elem_of_set_bits x i). rewrite E. by constructor.
Qed.

Section pass.
Context (T : Tables) (R : Registers) (IR : Z -> IROp_Header) (SSACount : Z).
Context (HT : tables_ok T) (HR : registers_ok R) (E : Prop).

Abbreviation class_of n := (GetRegClassFromNode T (IR n)).
Abbreviation in_range := (in_range R).

Lemma in_range_32 r : in_range r -> 0 <= Reg r < 32.
Proof using HR. intros H. unfold RegAllocSem.in_range in H. pose proof (counts _ HR (Class r)). lia. Qed.

Lemma GetRegBits_pow r : 0 <= Reg r < 32 -> GetRegBits r = 2 ^ Reg r.
Proof.
  intros H. unfold GetRegBits. rewrite Z.shiftl_mul_pow2, Z.mul_1_l by lia. apply u_small. split; [lia|].
  apply Z.pow_lt_mono_r; lia.
Qed.

(** ** The register file *)

Definition freeb (f : RegFile) (r : PhysicalRegister) : bool := Z.testbit (Available f (Class r)) (Reg r).

Definition holds (f : RegFile) (n : Z) (r : PhysicalRegister) : Prop :=
  in_range r /\ freeb f r = false /\ RegToSSA f (Class r) (Reg r) = n.

Definition typed (n : Z) (r : PhysicalRegister) : Prop :=
  is_general (class_of n) /\ (Class r = class_of n \/ Class r = fixed (class_of n)).

(** [D] are the nodes defined so far. *)
Record file_ok (D : gset Z) (f : RegFile) : Prop := {
  fo_avail c : 0 <= Available f c /\ forall i, Z.testbit (Available f c) i = true -> 0 <= i < Count R c;
  fo_holds n r : holds f n r -> n ∈ D /\ reg_of f n = r;
  fo_def n : n ∈ D -> 0 < n < SSACount /\ in_range (reg_of f n) /\ typed n (reg_of f n);
  fo_inline n : IsValidID IR n = false -> reg_of f n = Invalid;
}.

Lemma holds_inj f n m r : holds f n r -> holds f m r -> n = m.
Proof. intros (_ & _ & <-) (_ & _ & <-). done. Qed.

Lemma holds_fun D f n r r' : file_ok D f -> holds f n r -> holds f n r' -> r = r'.
Proof. intros Hf H H'. apply (fo_holds _ _ Hf) in H as [_ <-], H' as [_ <-]. done. Qed.

Lemma occupied f r : in_range r -> freeb f r = false -> exists n, holds f n r.
Proof. intros. by exists (RegToSSA f (Class r) (Reg r)). Qed.

Lemma free_in_range D f r : file_ok D f -> freeb f r = true -> in_range r.
Proof. intros Hf H. by apply (fo_avail _ _ Hf). Qed.

Lemma avail_u32 D f c : file_ok D f -> is_u 32 (Available f c).
Proof using HR.
  intros Hf. destruct (fo_avail _ _ Hf c) as [H0 H]. split; [done|]. pose proof (counts _ HR c) as Hc.
  assert (Available f c = uwrap 32 (Available f c)) as ->; [|apply Z.mod_pos_bound; lia].
  apply Z.bits_inj'. intros i Hi. rewrite u_testbit by lia.
  destruct (Z.testbit (Available f c) i) eqn:Et; [|by rewrite andb_false_r].
  apply H in Et. by rewrite (proj2 (Z.ltb_lt _ _)) by lia.
Qed.

Lemma IsFree_spec f r : 0 <= Reg r < 32 -> IsFree f r = freeb f r.
Proof. intros H. unfold IsFree, freeb. rewrite GetRegBits_pow by done. apply land_pow_self. lia. Qed.

Lemma busy_spec f r : 0 <= Reg r < 32 -> (Available f (Class r) &&& GetRegBits r =? 0) = negb (freeb f r).
Proof. intros H. unfold freeb. rewrite GetRegBits_pow by done. apply land_pow_zero. lia. Qed.

Lemma IsInRegisterFile_spec D f n :
  file_ok D f -> n ∈ D -> exists b, IsInRegisterFile SSACount f n = Some b /\ (b = true <-> holds f n (reg_of f n)).
Proof using HR.
  intros Hf Hn. destruct (fo_def _ _ Hf n Hn) as (Hb & Hr & _). unfold IsInRegisterFile.
  rewrite (proj2 (Z.ltb_lt _ _)) by lia. cbn. eexists. split; [done|].
  rewrite busy_spec by (by apply in_range_32). rewrite andb_true_iff, negb_true_iff, Z.eqb_eq.
  unfold holds. intuition.
Qed.

Definition same_reg (r : PhysicalRegister) (c : RegClass) (i : Z) : bool := bool_decide (c = Class r) && (i =? Reg r).

Lemma same_reg_true r c i : same_reg r c i = true <-> mkReg c i = r.
Proof.
  unfold same_reg. rewrite andb_true_iff, bool_decide_eq_true, Z.eqb_eq. destruct r as [c' i']; cbn.
  split; [by intros [-> ->]|by intros [= -> ->]].
Qed.

Lemma same_reg_refl r : same_reg r (Class r) (Reg r) = true.
Proof. apply same_reg_true. by destruct r. Qed.

Lemma same_reg_ne r r' : r' <> r -> same_reg r (Class r') (Reg r') = false.
Proof. intros H. apply not_true_iff_false. rewrite same_reg_true. by destruct r'. Qed.

Record assigned (f f' : RegFile) (n : Z) (r : PhysicalRegister) : Prop := {
  as_avail c : 0 <= Available f' c /\
    forall i, Z.testbit (Available f' c) i = Z.testbit (Available f c) i && negb (same_reg r c i);
  as_node c i : RegToSSA f' c i = if same_reg r c i then n else RegToSSA f c i;
  as_reg : SSAToReg f' = <[n := r]> (SSAToReg f);
}.

Record freed (f f' : RegFile) (r : PhysicalRegister) : Prop := {
  fr_avail c : 0 <= Available f' c /\
    forall i, Z.testbit (Available f' c) i = Z.testbit (Available f c) i || same_reg r c i;
  fr_node : RegToSSA f' = RegToSSA f;
  fr_reg : SSAToReg f' = SSAToReg f;
}.

Lemma assigned_holds f f' n r m r' :
  assigned f f' n r -> in_range r -> holds f' m r' <-> (r' = r /\ m = n) \/ (r' <> r /\ holds f m r').
Proof.
  intros Ha Hr. unfold holds, freeb. destruct (as_avail _ _ _ _ Ha (Class r')) as [_ ->]. rewrite (as_node _ _ _ _ Ha).
  destruct (decide (r' = r)) as [-> |Hne].
  - rewrite same_reg_refl, andb_false_r. split; [intros (_ & _ & ->); by left|intros [[_ ->]|[? _]]; done].
  - rewrite same_reg_ne, andb_true_r by done. split; [intros H; by right|intros [[? _]|[_ H]]; done].
Qed.

Lemma freed_holds f f' r m r' : freed f f' r -> holds f' m r' <-> r' <> r /\ holds f m r'.
Proof.
  intros Ha. unfold holds, freeb. destruct (fr_avail _ _ _ Ha (Class r')) as [_ ->]. rewrite (fr_node _ _ _ Ha).
  destruct (decide (r' = r)) as [-> |Hne].
  - rewrite same_reg_refl, orb_true_r. split; [by intros (_ & ? & _)|by intros [? _]].
  - rewrite same_reg_ne, orb_false_r by done. split; [intros H; by split|by intros [_ H]].
Qed.

Lemma assigned_reg f f' n r m : assigned f f' n r -> reg_of f' m = if decide (m = n) then r else reg_of f m.
Proof.
  intros Ha. unfold reg_of. rewrite (as_reg _ _ _ _ Ha). destruct (decide (m = n)) as [-> |].
  - by rewrite lookup_insert_eq.
  - by rewrite lookup_insert_ne.
Qed.

Lemma freed_reg f f' r m : freed f f' r -> reg_of f' m = reg_of f m.
Proof. intros Ha. unfold reg_of. by rewrite (fr_reg _ _ _ Ha). Qed.

Lemma assigned_free f f' n r r' : assigned f f' n r -> freeb f' r' = freeb f r' && negb (bool_decide (r' = r)).
Proof.
  intros Ha. unfold freeb. destruct (as_avail _ _ _ _ Ha (Class r')) as [_ ->]. f_equal. f_equal.
  apply eq_iff_eq_true. rewrite same_reg_true, bool_decide_eq_true. by destruct r'.
Qed.

Lemma freed_free f f' r r' : freed f f' r -> freeb f' r' = freeb f r' || bool_decide (r' = r).
Proof.
  intros Ha. unfold freeb. destruct (fr_avail _ _ _ Ha (Class r')) as [_ ->]. f_equal.
  apply eq_iff_eq_true. rewrite same_reg_true, bool_decide_eq_true. by destruct r'.
Qed.

Lemma freed_ok D f f' r : freed f f' r -> in_range r -> file_ok D f -> file_ok D f'.
Proof.
  intros Ha Hr Hf. split.
  - intros c. destruct (fr_avail _ _ _ Ha c) as [H0 H]. split; [done|]. intros i. rewrite H, orb_true_iff.
    intros [Hi|Hi]; [by apply (fo_avail _ _ Hf)|]. apply same_reg_true in Hi as <-. done.
  - intros n r' Hh. apply (freed_holds _ _ _ _ _ Ha) in Hh as [_ Hh]. rewrite (freed_reg _ _ _ _ Ha).
    by apply (fo_holds _ _ Hf).
  - intros n Hn. rewrite (freed_reg _ _ _ _ Ha). by apply (fo_def _ _ Hf).
  - intros n Hn. rewrite (freed_reg _ _ _ _ Ha). by apply (fo_inline _ _ Hf).
Qed.

Lemma assigned_ok D D' f f' n r :
  assigned f f' n r -> in_range r -> file_ok D f -> (forall r', ~ holds f n r') ->
  D' = {[n]} ∪ D -> 0 < n < SSACount -> typed n r -> IsValidID IR n = true -> file_ok D' f'.
Proof.
  intros Ha Hr Hf Hno -> Hn Ht Hv. split.
  - intros c. destruct (as_avail _ _ _ _ Ha c) as [H0 H]. split; [done|]. intros i. rewrite H, andb_true_iff.
    intros [Hi _]. by apply (fo_avail _ _ Hf).
  - intros m r' Hh. apply (assigned_holds _ _ _ _ _ _ Ha Hr) in Hh as [[-> ->]|[Hne Hh]]; rewrite (assigned_reg _ _ _ _ _ Ha).
    + rewrite decide_True by done. set_solver.
    + rewrite decide_False by (intros ->; by apply (Hno r')). apply (fo_holds _ _ Hf) in Hh. set_solver.
  - intros m Hm. rewrite (assigned_reg _ _ _ _ _ Ha). destruct (decide (m = n)) as [-> |]; [done|].
    apply (fo_def _ _ Hf). set_solver.
  - intros m Hm. rewrite (assigned_reg _ _ _ _ _ Ha). rewrite decide_False by congruence. by apply (fo_inline _ _ Hf).
Qed.

Lemma FreeReg_spec D f r : file_ok D f -> in_range r -> freeb f r = false -> exists f', FreeReg r f = Some f' /\ freed f f' r.
Proof using HR.
  intros Hf Hr Hb. pose proof (in_range_32 r Hr) as H32. unfold FreeReg. rewrite busy_spec, Hb by done. cbn.
  eexists. split; [done|]. split; [|done|done]. intros c. cbn. rewrite GetRegBits_pow by done.
  destruct (fo_avail _ _ Hf c) as [H0 _]. destruct (fo_avail _ _ Hf (Class r)) as [H1 _].
  unfold same_reg. case_bool_decide as Hc.
  - subst c. split; [apply Z.lor_nonneg; split; [done|lia]|]. intros i. rewrite Z.lor_spec. f_equal. cbn.
    destruct (decide (i < 0)) as [Hi|]; [rewrite Z.testbit_neg_r by done; symmetry; apply Z.eqb_neq; lia|].
    rewrite Z.pow2_bits_eqb, Z.eqb_sym by lia. done.
  - split; [done|]. intros i. by rewrite orb_false_r.
Qed.

(** [SetReg] of an old node, and of a new node that takes the place of an old one. *)
Lemma SetReg_spec D f n r :
  file_ok D f -> freeb f r = true ->
  exists f', SetReg SSACount n r f = Some f' /\ (n < SSACount -> assigned f f' n r) /\
    (SSACount <= n -> forall m, m < SSACount -> assigned f (RemapReg SSACount m r f') m r).
Proof using HR.
  intros Hf Hb. pose proof (free_in_range D f r Hf Hb) as Hr. pose proof (in_range_32 r Hr) as H32.
  unfold SetReg. rewrite IsFree_spec, Hb by done. cbn. eexists. split; [done|].
  set (f1 := set_Available _ _ f).
  assert (forall c, 0 <= Available f1 c /\
    forall i, Z.testbit (Available f1 c) i = Z.testbit (Available f c) i && negb (same_reg r c i)) as Hav.
  { intros c. cbn. rewrite GetRegBits_pow by done. pose proof (avail_u32 _ _ (Class r) Hf) as Hu.
    unfold same_reg. case_bool_decide as Hc; [subst c|].
    - split; [apply Z.land_nonneg; left; apply Hu|]. intros i. rewrite Z.land_spec. cbn.
      destruct (decide (i < 0)) as [Hi|Hi]; [by rewrite !(Z.testbit_neg_r _ i) by lia|].
      destruct (decide (i < 32)); [|by rewrite !(testbit_high 32) by (done || lia)].
      rewrite u_testbit, (proj2 (Z.ltb_lt _ _)), Z.lnot_spec, Z.pow2_bits_eqb, Z.eqb_sym by lia. done.
    - split; [apply (fo_avail _ _ Hf)|]. intros i. by rewrite andb_true_r. }
  split.
  - intros Hn. split; [exact Hav|done|]. cbn. by rewrite (proj2 (Z.ltb_lt _ _)) by lia.
  - intros Hn m Hm. split; [exact Hav| |].
    + intros c i. cbn. unfold same_reg. by destruct (bool_decide (c = Class r) && (i =? Reg r)).
    + cbn. rewrite (proj2 (Z.ltb_lt m _)), (proj2 (Z.ltb_ge n _)) by lia. done.
Qed.

End pass.
