(* ===== verification/RegAllocSpill.v ===== *)
(** * Register allocation: next uses, spill slots and spilling

    The furthest-first search finds a register that no source of the instruction needs whenever
    the instruction has fewer arguments than the class has registers; the slots of live nodes
    are different and never on the free list; spilling frees one register and leaves the value
    of its node in a slot, or nothing when a slot or the node's constant has it already. *)

From S2P Require Import Prelude RegAlloc RegAllocSem RegAllocProps.
Import RegAlloc.

Section pass.
Context (T : Tables) (R : Registers) (IR : Z -> IROp_Header) (SSACount : Z).
Context (HT : tables_ok T) (HR : registers_ok R) (E : Prop) (B : gset Z) (X0 : Z -> Z) (HS : SSACount < 2 ^ 32 - 1).

Abbreviation class_of n := (GetRegClassFromNode T (IR n)).
Abbreviation in_range := (in_range R).
Abbreviation holds := (holds R).
Abbreviation file_ok := (file_ok T R IR SSACount).

(** ** Next uses *)

Definition valid_count (Args : list Arg) : nat := length (omap (IsValidArg IR) Args).
Definition code_count (code : Code) : nat := sum_list_with (fun i => valid_count i.2) code.

Definition use_bound (x : Z) : Prop := 0 <= x < 2 ^ 31.

Record uses_ok (p : nat) (u : NextUseInfo) : Prop := {
  uo_index : AnySpilled u = true -> SourceIndex u = Z.of_nat p;
  uo_length : (p <= length (SourcesNextUses u))%nat;
  uo_sources : Forall use_bound (SourcesNextUses u);
  uo_uses : map_Forall (fun _ x => use_bound x) (NextUses u);
}.

Definition uses_wf (p : nat) (u : NextUseInfo) : Prop := AnySpilled u = true -> uses_ok p u.

Lemma NoteUses_spec IP Args st :
  use_bound IP -> Forall use_bound st.1 -> map_Forall (fun _ x => use_bound x) st.2 ->
  let st' := NoteUses IR IP Args st in
  Forall use_bound st'.1 /\ map_Forall (fun _ x => use_bound x) st'.2 /\ length st'.1 = (length st.1 + valid_count Args)%nat.
Proof.
  intros HI H1 H2. induction Args as [|a Args IH]; cbn; [by rewrite Nat.add_0_r|].
  destruct IH as (IH1 & IH2 & IH3). fold (NoteUses IR IP Args st).
  set (q := NoteUses IR IP Args st) in *. clearbody q. unfold NoteUse, valid_count in *. cbn.
  destruct (IsValidArg IR a) as [n|]; [|done]. cbn. split; [|split].
  - apply Forall_app. split; [done|]. constructor; [|done].
    destruct (q.2 !! n) as [x|] eqn:Ex; cbn; [by apply (IH2 _ _ Ex)|done].
  - by apply map_Forall_insert_2.
  - rewrite length_app, IH3. cbn. lia.
Qed.

Lemma WalkUses_spec rest : Z.of_nat (length rest) < 2 ^ 31 ->
  let '(IP, (srcs, uses)) := WalkUses IR rest in
  IP = 1 + Z.of_nat (length rest) /\ Forall use_bound srcs /\ map_Forall (fun _ x => use_bound x) uses /\
  length srcs = code_count rest.
Proof.
  induction rest as [|[n Args] rest IH]; intros Hl; cbn [WalkUses].
  - split; [done|]. split; [constructor|]. split; [apply map_Forall_empty|done].
  - cbn [length] in Hl. specialize (IH ltac:(lia)). destruct (WalkUses IR rest) as [IP st].
    destruct st as [srcs uses]. destruct IH as (-> & H1 & H2 & H3).
    pose proof (NoteUses_spec (1 + Z.of_nat (length rest)) Args (srcs, uses) ltac:(unfold use_bound; lia) H1 H2) as (H4 & H5 & H6).
    destruct (NoteUses IR _ Args _) as [srcs' uses']. split; [|split; [done|split; [done|]]].
    + rewrite u_small by (unfold is_u; lia). cbn [length]. lia.
    + cbn [fst] in H6. rewrite H6, H3. apply Nat.add_comm.
Qed.

Definition mark_spilled (u : NextUseInfo) : NextUseInfo := mkUses (SourcesNextUses u) (SourceIndex u) (NextUses u) true.

Lemma CalculateNextUses_ok rest : Z.of_nat (length rest) < 2 ^ 31 ->
  uses_ok (code_count rest) (mark_spilled (CalculateNextUses IR rest)).
Proof.
  intros Hl. pose proof (WalkUses_spec rest Hl) as H. unfold CalculateNextUses, mark_spilled.
  destruct (WalkUses IR rest) as [IP [srcs uses]]. destruct H as (_ & H1 & H2 & H3). split; cbn; [|lia|done|done].
  intros _. lia.
Qed.

(** ** The search *)

Definition source_reg (f : RegFile) (a : Arg) : PhysicalRegister :=
  match a with
  | A_Immediate r => r
  | _ => match IsValidArg IR a with Some n => reg_of f n | None => Invalid end
  end.

Lemma HasSource_elem f Ex r : HasSource IR f Ex r = true -> r ∈ source_reg f <$> Ex.
Proof.
  unfold HasSource. rewrite existsb_exists. intros (a & Ha & H). apply list_elem_of_fmap. exists a.
  split; [|by apply list_elem_of_In]. unfold source_reg. destruct a as [|n k|r']; cbn in *; [done| |].
  - destruct (IsValidID IR n); [by apply bool_decide_eq_true in H|done].
  - by apply bool_decide_eq_true in H.
Qed.

Lemma sources_few f Ex c :
  (forall i, 0 <= i < Count R c -> HasSource IR f Ex (mkReg c i) = true) -> Count R c <= Z.of_nat (length Ex).
Proof.
  intros H. assert ((mkReg c) <$> seqZ 0 (Count R c) ⊆+ (source_reg f <$> Ex)) as Hs.
  { apply NoDup_submseteq.
    - apply (NoDup_fmap_2_strong (mkReg c)); [|apply NoDup_seqZ]. by intros x y _ _ [= ->].
    - intros r Hr. apply list_elem_of_fmap in Hr as (i & -> & Hi). apply elem_of_seqZ in Hi. apply HasSource_elem, H. lia. }
  apply submseteq_length in Hs. rewrite !length_fmap, length_seqZ in Hs. lia.
Qed.

Definition search_ok (f : RegFile) (Ex : list Arg) (c : RegClass) (done : list Z) (best : option (option (Z * Z) * Z)) : Prop :=
  match best with
  | Some (Some (n, i), _) => holds f n (mkReg c i) /\ HasSource IR f Ex (mkReg c i) = false
  | Some (None, d) => d = UINT32_MAX /\ forall i, i ∈ done -> HasSource IR f Ex (mkReg c i) = true
  | None => False
  end.

Lemma search_fold D f u c Ex l : file_ok D f -> map_Forall (fun _ x => use_bound x) (NextUses u) ->
  (forall i, i ∈ l -> 0 <= i < Count R c /\ freeb f (mkReg c i) = false) ->
  forall done best, search_ok f Ex c done best ->
  search_ok f Ex c (done ++ l) (foldl (ConsiderSpill IR f u c Ex) best l).
Proof.
  intros Hf Hu. induction l as [|i l IH]; intros Hl done best Hb; cbn [foldl]; [by rewrite app_nil_r|].
  replace (done ++ i :: l) with ((done ++ [i]) ++ l) by (by rewrite <- app_assoc). apply IH; [intros j Hj; apply Hl; by constructor|].
  destruct (Hl i ltac:(by constructor)) as [Hi Hfree].
  assert (holds f (RegToSSA f c i) (mkReg c i)) as Hh by done.
  destruct (fo_holds _ _ _ _ _ _ Hf _ _ Hh) as [Hd Hreg]. destruct (fo_def _ _ _ _ _ _ Hf _ Hd) as [Hpos _].
  destruct best as [[cand d]|]; [|done]. unfold ConsiderSpill. cbn [mbind option_bind].
  rewrite (proj2 (Z.eqb_neq (RegToSSA f c i) 0)) by lia. cbn [negb assert_ mbind option_bind]. rewrite Hreg. cbn [Reg]. rewrite Z.eqb_refl.
  cbn [assert_ mbind option_bind]. destruct (HasSource IR f Ex (mkReg c i)) eqn:Es.
  - destruct cand as [[m j]|]; [done|]. destruct Hb as [-> Hb]. split; [done|]. intros j [Hj|Hj]%elem_of_app; [by apply Hb|].
    by apply list_elem_of_singleton in Hj as ->.
  - cbn zeta. set (x := if Rematerializable _ then _ else _). destruct (Z.ltb_spec x d) as [|Hge]; [done|].
    destruct cand as [[m j]|]; [done|]. destruct Hb as [-> Hb]. exfalso.
    assert (use_bound (default 0 (NextUses u !! RegToSSA f c i))) as Hx.
    { destruct (NextUses u !! _) as [y|] eqn:Ey; cbn; [by apply (Hu _ _ Ey)|done]. }
    unfold use_bound, UINT32_MAX in *. unfold x in Hge. destruct (Rematerializable _); [lia|].
    rewrite u_small in Hge by (unfold is_u; lia). lia.
Qed.

Lemma FindSpill_spec D f u c Ex : file_ok D f -> map_Forall (fun _ x => use_bound x) (NextUses u) ->
  Available f c = 0 -> E \/ Z.of_nat (length Ex) < Count R c ->
  wp E (FindSpill R IR f u c Ex) (fun x => holds f x.1 (mkReg c x.2) /\ HasSource IR f Ex (mkReg c x.2) = false).
Proof using HR.
  intros Hf Hu Ha He. unfold FindSpill. rewrite Ha. pose proof (counts _ HR c) as Hc.
  set (l := set_bits _).
  assert (forall i, i ∈ l <-> 0 <= i < Count R c) as Hl.
  { intros i. unfold l. rewrite elem_of_set_bits. split.
    - intros [Hi Ht]. rewrite Z.land_spec, u_testbit, andb_true_iff, andb_true_iff in Ht by lia.
      destruct Ht as [[_ Ht] _]. rewrite Z.sub_1_r, <- Z.ones_equiv, ones_testbit in Ht by lia. lia.
    - intros Hi. split; [lia|]. rewrite Z.land_spec, !u_testbit, Z.sub_1_r, <- Z.ones_equiv, ones_testbit by lia.
      rewrite Z.lnot_spec, Z.bits_0 by lia. rewrite !(proj2 (Z.ltb_lt _ _)) by lia. done. }
  pose proof (search_fold D f u c Ex l Hf Hu) as Hfold.
  specialize (Hfold ltac:(intros i Hi; split; [by apply Hl|unfold freeb; cbn; by rewrite Ha, Z.bits_0])).
  specialize (Hfold [] (Some (None, UINT32_MAX)) ltac:(split; [done|]; intros i Hi; by apply not_elem_of_nil in Hi)).
  destruct (foldl _ _ l) as [[[[n i]|] d]|]; [exact Hfold| |done].
  cbn. destruct Hfold as [_ Hall]. destruct He as [|He]; [done|]. exfalso.
  pose proof (sources_few f Ex c) as Hs. enough (Count R c <= Z.of_nat (length Ex)) by lia. apply Hs.
  intros i Hi. apply Hall. cbn. by apply Hl.
Qed.

(** ** Slots *)

Definition owners (x : Spills) : gmap Z Z := filter (fun kv => kv.2 <> 0) (SpillSlots x).

Record slots_ok (D : gset Z) (x : Spills) : Prop := {
  so_slot n : n ∈ B -> SpillSlot x n <> 0 ->
    n ∈ D /\ 1 <= SpillSlot x n <= BlockSlotHighWater x /\ SpillSlot x n - 1 ∉ FreeSlots x /\ n ∈ (SSAID <$> BlockSpills x);
  so_inj n m : n ∈ B -> m ∈ B -> SpillSlot x n <> 0 -> SpillSlot x n = SpillSlot x m -> n = m;
  so_free : NoDup (FreeSlots x) /\ Forall (fun k => 0 <= k < BlockSlotHighWater x) (FreeSlots x);
  so_high : 0 <= BlockSlotHighWater x <= Z.of_nat (length (FreeSlots x)) + Z.of_nat (size (owners x));
  so_bound : BlockSlotHighWater x <= SSACount;
  so_keys : map_Forall (fun n _ => 0 <= n < SSACount) (SpillSlots x);
  so_old n : n ∉ B -> SpillSlot x n = X0 n;
}.

Lemma owners_few x : 0 <= SSACount -> map_Forall (fun n _ => 0 <= n < SSACount) (SpillSlots x) -> Z.of_nat (size (owners x)) <= SSACount.
Proof.
  intros Hn Hk. assert (dom (owners x) ⊆ list_to_set (seqZ 0 SSACount)) as Hs.
  { intros n Hin. apply elem_of_dom in Hin as [k Hin]. unfold owners in Hin. apply map_lookup_filter_Some in Hin as [Hin _].
    apply elem_of_list_to_set, elem_of_seqZ. apply Hk in Hin. lia. }
  apply subseteq_size in Hs. rewrite size_dom in Hs. rewrite size_list_to_set, length_seqZ in Hs by apply NoDup_seqZ. lia.
Qed.

Lemma SpillSlot_set x n k m : SpillSlot (set_SpillSlot n k x) m = if decide (m = n) then k else SpillSlot x m.
Proof.
  unfold SpillSlot, set_SpillSlot. cbn. destruct (decide (m = n)) as [-> |]; [by rewrite lookup_insert_eq|by rewrite lookup_insert_ne].
Qed.

Lemma owners_take x n k : SpillSlot x n = 0 -> k <> 0 -> size (owners (set_SpillSlot n k x)) = S (size (owners x)).
Proof.
  intros H Hk. unfold owners. cbn. rewrite map_filter_insert_True by done. apply map_size_insert_None.
  apply map_lookup_filter_None. right. intros y Hy. unfold SpillSlot in H. rewrite Hy in H. cbn in *. lia.
Qed.

Lemma owners_drop x n : SpillSlot x n <> 0 -> size (owners x) = S (size (owners (set_SpillSlot n 0 x))).
Proof.
  intros H. unfold owners. cbn. rewrite map_filter_insert_False by (cbn; lia). rewrite map_filter_delete.
  unfold SpillSlot in H. destruct (SpillSlots x !! n) as [y|] eqn:Ey; [cbn in H|done].
  assert (filter (fun kv : Z * Z => kv.2 <> 0) (SpillSlots x) !! n = Some y) as Hl by (by apply map_lookup_filter_Some).
  rewrite map_size_delete, Hl. assert (size (filter (fun kv : Z * Z => kv.2 <> 0) (SpillSlots x)) <> 0%nat); [|cbn; lia].
  intros H0. apply map_size_empty_inv in H0. by rewrite H0 in Hl.
Qed.

(** Node [n] now has slot [k], which no other node of the block has. *)
Record taken (x x' : Spills) (n k : Z) : Prop := {
  tk_slot m : SpillSlot x' m = if decide (m = n) then k + 1 else SpillSlot x m;
  tk_new m : m ∈ B -> SpillSlot x m <> 0 -> SpillSlot x m <> k + 1;
  tk_pos : 0 <= k;
  tk_ranges : SSAID <$> BlockSpills x' = (SSAID <$> BlockSpills x) ++ [n];
  tk_high : BlockSlotHighWater x <= BlockSlotHighWater x';
}.

Definition with_range (r : SpillRange) (x : Spills) : Spills :=
  mkSpills (SpillSlots x) (BlockSpills x ++ [r]) (FreeSlots x) (BlockSlotHighWater x).

Lemma take_ok D x n k fl hw a b :
  slots_ok D x -> n ∈ B -> n ∈ D -> 0 < n < SSACount -> SpillSlot x n = 0 ->
  0 <= k < hw -> hw <= SSACount -> k ∉ fl -> (forall m, m ∈ B -> SpillSlot x m <> 0 -> SpillSlot x m <> k + 1) ->
  BlockSlotHighWater x <= hw -> NoDup fl -> Forall (fun k => 0 <= k < hw) fl -> fl ⊆ FreeSlots x ->
  hw <= Z.of_nat (length fl) + Z.of_nat (size (owners x)) + 1 ->
  let x' := set_SpillSlot n (u32 (k + 1)) (with_range (mkRange n a b k) (mkSpills (SpillSlots x) (BlockSpills x) fl hw)) in
  slots_ok D x' /\ taken x x' n k.
Proof using HS.
  intros Hx HB HD Hn H0 Hk Hhw Hkl Hnew Hle Hnd Hall Hsub Hh x'. unfold x'. clear x'.
  rewrite u_small by (unfold is_u; lia).
  split; [|split; [intros m; exact (SpillSlot_set (with_range _ _) n (k + 1) m)|exact Hnew|lia|cbn; by rewrite fmap_app|done]].
  split; cbn [FreeSlots BlockSlotHighWater SpillSlots BlockSpills set_SpillSlot with_range].
  - intros m Hm. rewrite SpillSlot_set, fmap_app, elem_of_app. destruct (decide (m = n)) as [-> |Hne].
    + intros _. replace (k + 1 - 1) with k by lia. repeat split; [done|lia|lia|done|]. right. by constructor.
    + intros H1. destruct (so_slot _ _ Hx m Hm H1) as (? & Hr & Hfr & ?).
      change (SpillSlot _ m) with (SpillSlot x m). repeat split; [done|lia|lia| |by left]. intros Hin. by apply Hfr, Hsub.
  - intros m m' Hm Hm'. rewrite !SpillSlot_set.
    change (SpillSlot (with_range _ _) m) with (SpillSlot x m). change (SpillSlot (with_range _ _) m') with (SpillSlot x m').
    destruct (decide (m = n)) as [-> |], (decide (m' = n)) as [-> |]; [done| | |by apply (so_inj _ _ Hx)].
    + intros _ H1. exfalso. apply (Hnew m' Hm'); lia.
    + intros H1 H2. exfalso. by apply (Hnew m Hm).
  - done.
  - pose proof (owners_take x n (k + 1) H0 ltac:(lia)) as Hs. pose proof (so_high _ _ Hx).
    unfold owners, set_SpillSlot in *. cbn [SpillSlots with_range] in *. lia.
  - done.
  - apply map_Forall_insert_2; [lia|apply (so_keys _ _ Hx)].
  - intros m Hm. rewrite SpillSlot_set, decide_False by (intros ->; done). by apply (so_old _ _ Hx).
Qed.

Lemma acquire_spec D x n a b :
  slots_ok D x -> n ∈ B -> n ∈ D -> 0 < n < SSACount -> SpillSlot x n = 0 ->
  exists k x1, AcquireSlot x = (k, x1) /\
    let x' := set_SpillSlot n (u32 (k + 1)) (with_range (mkRange n a b k) x1) in
    slots_ok D x' /\ taken x x' n k.
Proof using All.
  intros Hx HB HD Hn H0. destruct (so_free _ _ Hx) as [Hnd Hall]. pose proof (so_high _ _ Hx) as Hh.
  pose proof (owners_few (set_SpillSlot n 1 x) ltac:(lia)) as Ho.
  specialize (Ho ltac:(apply map_Forall_insert_2; [lia|apply (so_keys _ _ Hx)])).
  rewrite owners_take in Ho by (done || lia). unfold AcquireSlot.
  destruct (last (FreeSlots x)) as [k|] eqn:El; do 2 eexists; (split; [done|]).
  - apply last_Some in El as [l El].
    assert (removelast (FreeSlots x) = l) as -> by (rewrite El; apply removelast_last).
    rewrite El in Hnd, Hall. apply Forall_app in Hall as [Hall Hk]. rewrite Forall_singleton in Hk.
    apply NoDup_app in Hnd as (Hnd & Hdis & _). rewrite El, length_app in Hh. cbn [length] in Hh.
    pose proof (so_bound _ _ Hx) as Hb.
    apply take_ok; try done; try lia.
    + intros Hk'. apply (Hdis k Hk'). by constructor.
    + intros m Hm H1 H2. destruct (so_slot _ _ Hx m Hm H1) as (_ & _ & Hfr & _). apply Hfr. rewrite El, H2.
      replace (k + 1 - 1) with k by lia. apply elem_of_app. right. by constructor.
    + rewrite El. set_solver.
  - apply last_None in El. rewrite El in *. cbn [length] in Hh.
    assert (u32 (BlockSlotHighWater x + 1) = BlockSlotHighWater x + 1) as Eu by (apply u_small; unfold is_u; lia).
    apply take_ok; try done; rewrite ?Eu; cbn [length]; try lia; [apply not_elem_of_nil| |set_solver].
    intros m Hm H1. destruct (so_slot _ _ Hx m Hm H1) as (_ & ? & _). lia.
Qed.

(** ** Spilling one register *)

Definition uses_step (rest : Code) (u u' : NextUseInfo) : Prop :=
  u' = u \/ (AnySpilled u = false /\ u' = mark_spilled (CalculateNextUses IR rest)).

Record spilled (rest : Code) (Ex : list Arg) (c : RegClass) (s s' : State) (code : list PostOp) (m : Z) (r : PhysicalRegister) : Prop := {
  sd_holds : holds (rf s) m r;
  sd_class : Class r = c;
  sd_source : HasSource IR (rf s) Ex r = false;
  sd_freed : freed (rf s) (rf s') r;
  sd_slots : (code = [] /\ sp s' = sp s /\ (SpillSlot (sp s) m <> 0 \/ Rematerializable (IR m) = true)) \/
    (exists k, code = [P_Spill r k] /\ taken (sp s) (sp s') m k);
  sd_any : AnySpilled (nu s') = true;
  sd_uses : uses_step rest (nu s) (nu s');
}.

Lemma SpillReg_spec D p rest Ex c s :
  file_ok D (rf s) -> slots_ok D (sp s) -> D ⊆ B -> uses_wf p (nu s) -> Z.of_nat (length rest) < 2 ^ 31 ->
  is_general c -> Available (rf s) c = 0 -> E \/ Z.of_nat (length Ex) < Count R c ->
  wp E (SpillReg T R IR c rest Ex s) (fun x => exists m r,
    spilled rest Ex c s x.1 x.2 m r /\ file_ok D (rf x.1) /\ slots_ok D (sp x.1) /\
    Available (rf x.1) c <> 0 /\ NewNodes x.1 = NewNodes s).
Proof using All.
  intros Hf Hx HDB Hu Hlen Hc Ha He. unfold SpillReg. cbv zeta.
  set (u := if AnySpilled (nu s) then nu s else CalculateNextUses IR rest).
  assert (map_Forall (fun _ x => use_bound x) (NextUses u) /\ uses_step rest (nu s) (mark_spilled u)) as [Hub Hus].
  { unfold u. destruct (AnySpilled (nu s)) eqn:Ea.
    - split; [apply (uo_uses _ _ (Hu Ea))|]. left. unfold mark_spilled. rewrite <- Ea. by destruct (nu s).
    - split; [apply (uo_uses _ _ (CalculateNextUses_ok rest Hlen))|]. by right. }
  apply wp_bind. eapply wp_mono; [|by apply (FindSpill_spec D)]. intros [m i] [Hh Hsrc]. cbn [fst snd] in *.
  destruct (fo_holds _ _ _ _ _ _ Hf _ _ Hh) as [HmD Hreg]. rewrite Hreg. cbn [Reg].
  rewrite Z.eqb_refl. cbn [assert_ mbind option_bind].
  destruct (fo_def _ _ _ _ _ _ Hf m HmD) as (Hm & _ & [Hgen Hty]). rewrite Hreg in Hty. cbn [Class] in Hty.
  assert (c = class_of m) as Hcm.
  { destruct Hty as [|Hty]; [done|]. destruct Hc as [-> | ->], Hgen as [Hg|Hg]; rewrite Hg in Hty; done. }
  destruct (FreeReg_spec T R IR SSACount HR D (rf s) (mkReg c i) Hf (proj1 Hh) (proj1 (proj2 Hh))) as (f' & Ef & Hfr).
  assert (Available f' c <> 0) as Hav.
  { intros H0. destruct (fr_avail _ _ _ Hfr c) as [_ Hb]. specialize (Hb i). rewrite H0, Z.bits_0 in Hb.
    symmetry in Hb. apply orb_false_iff in Hb as [_ Hb]. by rewrite (proj2 (same_reg_true (mkReg c i) c i) eq_refl) in Hb. }
  assert (forall x' code, (code = [] /\ x' = sp s /\ (SpillSlot (sp s) m <> 0 \/ Rematerializable (IR m) = true)) \/
    (exists k, code = [P_Spill (mkReg c i) k] /\ taken (sp s) x' m k) -> slots_ok D x' ->
    exists m r, spilled rest Ex c s (mkState f' x' (mark_spilled u) (ForwardIP s) (NewNodes s)) code m r /\
      file_ok D f' /\ slots_ok D x' /\ Available f' c <> 0 /\ NewNodes s = NewNodes s) as Hgoal.
  { intros x' code Hcode Hx'. exists m, (mkReg c i). split; [by split|]. split; [|done].
    by eapply (freed_ok _ _ _ _ _ _ _ (mkReg c i)); [|apply Hh|]. }
  destruct (Z.eqb_spec (SpillSlot (sp s) m) 0) as [H0|H0]; cbn [negb andb].
  - destruct (Rematerializable (IR m)) eqn:Er; cbn [negb andb mbind option_bind].
    + rewrite Ef. cbn. apply Hgoal; [left; auto|done].
    + cbn [Class]. rewrite bool_decide_eq_true_2 by done. cbn [assert_ mbind option_bind].
      destruct (acquire_spec D (sp s) m (ForwardIP s) (u32 (ForwardIP s + default 0 (NextUses u !! m))) Hx
        (HDB _ HmD) HmD Hm H0) as (k & x1 & Eq & Hx1 & Htk).
      rewrite Eq. cbn [mbind option_bind]. rewrite Ef. cbn. apply Hgoal; [right; by exists k|done].
  - cbn [mbind option_bind]. rewrite Ef. cbn. apply Hgoal; [left; auto|done].
Qed.

End pass.
