(* ===== verification/RegAllocAssign.v ===== *)
(** * Register allocation: assigning registers, and the simulation relation

    [sim] relates the state of a block before allocation to the registers and slots after it: a
    register has the value of the node it holds, a slot that of the node it belongs to, and a
    static register has the guest's value, unless a node lives there whose store to that register
    is the next access to it.  Spilling, filling and moving a node keep the relation. *)

From S2P Require Import Prelude RegAlloc RegAllocSem RegAllocProps RegAllocSpill.
Import RegAlloc.

Section pass.
Context (T : Tables) (R : Registers) (IR : Z -> IROp_Header) (SSACount : Z).
Context (HT : tables_ok T) (HR : registers_ok R) (E : Prop) (B : gset Z) (X0 : Z -> Z) (HS : SSACount < 2 ^ 32 - 1).
Context {V W : Type} (reads writes : IROps -> nat -> bool).
Context (constv : Z -> V) (sem : Z -> list (option V) -> W -> W * V * (nat -> V)).

Abbreviation class_of n := (GetRegClassFromNode T (IR n)).
Abbreviation in_range := (in_range R).
Abbreviation holds := (holds R).
Abbreviation file_ok := (file_ok T R IR SSACount).
Abbreviation slots_ok := (slots_ok SSACount B X0).
Abbreviation spilled := (spilled R IR B).
Abbreviation post_run := (post_run T R IR reads writes constv sem).
Abbreviation post_step := (post_step T R IR reads writes constv sem).
Abbreviation SSAState := (@SSAState V W).
Abbreviation PostState := (@PostState V W).

Lemma general_not_static c : is_general c -> ~ is_static c.
Proof. by intros [-> | ->] [?|?]. Qed.

(** ** Choosing a register *)

Definition maybe_spill (rest : Code) (Ex : list Arg) (c : RegClass) (s s' : State) (code : list PostOp) : Prop :=
  (rf s' = rf s /\ sp s' = sp s /\ nu s' = nu s /\ code = []) \/ exists m r, spilled rest Ex c s s' code m r.

Lemma maybe_spill_same rest Ex c s0 s s' code :
  rf s0 = rf s -> sp s0 = sp s -> nu s0 = nu s -> maybe_spill rest Ex c s0 s' code -> maybe_spill rest Ex c s s' code.
Proof.
  intros E1 E2 E3 [(H1 & H2 & H3 & ->)|(m & r & [H1 H2 H3 H4 H5 H6 H7])]; [left|right; exists m, r; split];
    rewrite <- ?E1, <- ?E2, <- ?E3; done.
Qed.

Definition few (Ex : list Arg) (c : RegClass) : Prop := E \/ Z.of_nat (length Ex) < Count R c.

Definition state_ok (D : gset Z) (s : State) : Prop := file_ok D (rf s) /\ slots_ok D (sp s).

(** A register for a node of class [c]: free, and of that class or the preferred one. *)
Definition good_reg (Pref : gmap Z PhysicalRegister) (c : RegClass) (Node : Z) (f : RegFile) (r : PhysicalRegister) : Prop :=
  freeb f r = true /\ (Class r = c \/ (Node < SSACount /\ Pref !! Node = Some r /\ is_static (Class r))).

Definition pref_wf (Pref : gmap Z PhysicalRegister) (Node : Z) : Prop :=
  Node < SSACount -> forall r, Pref !! Node = Some r -> r = Invalid \/ (is_static (Class r) /\ in_range r).

(** The arguments of a tied or paired operation, as far as the choice looks at them. *)
Record choice_ok (h : IROp_Header) (Args : list Arg) (c : RegClass) : Prop := {
  ch_class : GetRegClassFromNode T h = c;
  ch_general : is_general c;
  ch_tied : 0 <= TiedSource T (Op h) -> exists r, Args !! Z.to_nat (TiedSource T (Op h)) = Some (A_Immediate r) /\
    in_range r /\ (Class r = c \/ Class r = fixed c);
  ch_pair : Op h = OP_ALLOCATEGPR \/ Op h = OP_ALLOCATEGPRAFTER -> c = RC_GPR;
  ch_after : Op h = OP_ALLOCATEGPRAFTER -> exists r, Args !! 0%nat = Some (A_Immediate r) /\ in_range r;
}.

Lemma PreferredFree_spec D Pref f Node r :
  file_ok D f -> pref_wf Pref Node -> PreferredFree SSACount Pref f Node = Some r ->
  freeb f r = true /\ Node < SSACount /\ Pref !! Node = Some r /\ is_static (Class r).
Proof using HR.
  intros Hf Hp H. unfold PreferredFree in H. destruct (Z.ltb_spec Node SSACount); [|done].
  destruct (Pref !! Node) as [r'|] eqn:Ep; cbn in H.
  - destruct (negb (IsInvalid r') && IsFree f r') eqn:Ei; [|done]. injection H as ->.
    apply andb_true_iff in Ei as [Ei Ef]. destruct (Hp ltac:(done) r Ep) as [-> |[Hs Hr]]; [done|].
    rewrite IsFree_spec in Ef by (by eapply in_range_32). done.
  - done.
Qed.

Lemma TiedFree_spec D h Args f c :
  file_ok D f -> choice_ok h Args c ->
  exists o, TiedFree T h Args f = Some o /\ forall r, o = Some r -> freeb f r = true /\ Class r = c.
Proof using HR.
  intros Hf Hc. unfold TiedFree. cbv zeta. destruct (Z.leb_spec 0 (TiedSource T (Op h))) as [Ht|]; [|eexists; by split].
  destruct (ch_tied _ _ _ Hc Ht) as (r & -> & Hr & Hcl). cbn [arg_reg mbind option_bind]. eexists. split; [done|].
  intros r'. destruct (_ && _) eqn:Eb; [|done]. intros [= <-].
  apply andb_true_iff in Eb as [Eb Ef]. rewrite IsFree_spec in Ef by (by eapply in_range_32). split; [done|].
  destruct Hcl as [|Hcl]; [done|]. apply andb_true_iff in Eb as [E1 E2]. rewrite negb_true_iff, bool_decide_eq_false in E1, E2.
  destruct (ch_general _ _ _ Hc) as [-> | ->]; done.
Qed.

Lemma PairFree_spec D h Args f c :
  file_ok D f -> choice_ok h Args c ->
  exists o, PairFree R h Args f = Some o /\ forall r, o = Some r -> freeb f r = true /\ Class r = c.
Proof using HR.
  intros Hf Hc. unfold PairFree. pose proof (avail_u32 _ _ _ _ HR _ _ RC_GPR Hf) as Hu.
  destruct (Op h) eqn:Eo; try (eexists; by split).
  - destruct (ForPair h); [|eexists; by split]. cbv zeta. set (A := Available f RC_GPR) in *.
    set (X := A &&& (A >>> 1) &&& _). eexists. split; [done|]. intros r. destruct (Z.eqb_spec X 0) as [|HX]; [done|].
    intros [= <-]. rewrite (ch_pair _ _ _ Hc) by auto. split; [|done]. unfold freeb. cbn [Class Reg].
    assert (is_u 32 X) as HXu.
    { unfold X. rewrite <- (u_small 32 A) by done. rewrite <- Z.land_assoc. unfold is_u. split; [apply Z.land_nonneg; left; apply u_range; lia|].
      rewrite <- u_land_ones, (Z.land_comm A), <- Z.land_assoc, Z.land_comm, u_land_ones by lia. apply u_range. lia. }
    pose proof (countr_zero32_spec X HXu HX) as Hb. unfold X in Hb at 1. rewrite !Z.land_spec in Hb.
    apply andb_true_iff in Hb as [Hb _]. apply andb_true_iff in Hb as [Hb _]. exact Hb.
  - destruct (ch_after _ _ _ Hc Eo) as (r & -> & Hr). cbn [arg_reg mbind option_bind]. eexists. split; [done|].
    intros r'. destruct (_ && _) eqn:Eb; [|done]. intros [= <-]. rewrite (ch_pair _ _ _ Hc) by auto. split; [|done].
    apply andb_true_iff in Eb as [_ Eb]. unfold freeb. cbn [Class Reg].
    assert (0 <= Reg r + 1) by (pose proof (in_range_32 _ HR r Hr); lia).
    rewrite Z.shiftl_mul_pow2, Z.mul_1_l, land_pow_zero, negb_involutive in Eb by lia. done.
Qed.

Lemma AssignReg_spec D p Pref h Node Args rest Ex c s :
  state_ok D s -> D ⊆ B -> uses_wf p (nu s) -> Z.of_nat (length rest) < 2 ^ 31 ->
  pref_wf Pref Node -> choice_ok h Args c -> few Ex c ->
  wp E (AssignReg T R IR SSACount Pref h Node Args rest Ex s) (fun x =>
    let '(s', code, r) := x in exists s1 f', maybe_spill rest Ex c s s1 code /\ state_ok D s1 /\
      good_reg Pref c Node (rf s1) r /\ SetReg SSACount Node r (rf s1) = Some f' /\ s' = set_rf f' s1 /\ NewNodes s1 = NewNodes s).
Proof using All.
  intros [Hf Hx] HDB Hu Hlen Hp Hc He. unfold AssignReg. cbv zeta.
  assert (forall s1 code r, maybe_spill rest Ex c s s1 code -> state_ok D s1 -> good_reg Pref c Node (rf s1) r -> NewNodes s1 = NewNodes s ->
    wp E (SetReg SSACount Node r (rf s1) ≫= fun f => Some (set_rf f s1, code, r)) (fun x =>
      let '(s', code, r) := x in exists s1 f', maybe_spill rest Ex c s s1 code /\ state_ok D s1 /\
      good_reg Pref c Node (rf s1) r /\ SetReg SSACount Node r (rf s1) = Some f' /\ s' = set_rf f' s1 /\ NewNodes s1 = NewNodes s)) as Hset.
  { intros s1 code r H1 H2 H3 H4. destruct (SetReg_spec _ _ _ _ HR D (rf s1) Node r (proj1 H2) (proj1 H3)) as (f' & Ef & _).
    rewrite Ef. cbn. eauto 10. }
  destruct (PreferredFree SSACount Pref (rf s) Node) as [r|] eqn:Epref.
  { destruct (PreferredFree_spec D _ _ _ _ Hf Hp Epref) as (? & ? & ? & ?). apply Hset; [by left|done| |done]. split; [done|by right]. }
  destruct (TiedFree_spec D _ _ _ _ Hf Hc) as (o & -> & Ho). cbn [mbind option_bind]. destruct o as [r|].
  { destruct (Ho r eq_refl) as [? ?]. apply Hset; [by left|done| |done]. split; [done|by left]. }
  destruct (PairFree_spec D _ _ _ _ Hf Hc) as (o & -> & Ho'). cbn [mbind option_bind]. destruct o as [r|].
  { destruct (Ho' r eq_refl) as [? ?]. apply Hset; [by left|done| |done]. split; [done|by left]. }
  rewrite (ch_class _ _ _ Hc). apply wp_bind.
  apply (wp_mono E _ (fun x => maybe_spill rest Ex c s x.1 x.2 /\ state_ok D x.1 /\ Available (rf x.1) c <> 0 /\ NewNodes x.1 = NewNodes s)).
  - intros [s1 code] (H1 & H2 & H3 & H4). cbn [fst snd] in *. rewrite (proj2 (Z.eqb_neq _ _) H3). cbn [negb assert_ mbind option_bind].
    apply Hset; [done|done| |done]. split; [|by left]. unfold freeb. cbn [Class Reg].
    apply countr_zero32_spec; [by apply (avail_u32 T R IR SSACount HR D), H2|done].
  - destruct (Z.eqb_spec (Available (rf s) c) 0) as [H0|H0]; [|cbn; split; [by left|by split]].
    eapply wp_mono; [|by apply (SpillReg_spec T R IR SSACount HT HR E B X0 HS D p); [..|apply (ch_general _ _ _ Hc)| |]].
    intros x (m & r & H1 & H2 & H3 & H4 & H5). split; [right; eauto|by split].
Qed.

(** ** The simulation relation *)

Fixpoint next_access (r : PhysicalRegister) (code : Code) : option Z :=
  match code with
  | [] => None
  | (n, Args) :: code =>
      match DecodeSRANode IR n Args with
      | Some N => if decide (DecodeSRAReg R IR n = r) then Some N else next_access r code
      | None => next_access r code
      end
  end.

Record sim (D : gset Z) (code : Code) (s : State) (q : SSAState) (p : PostState) : Prop := {
  sm_reg n r v : holds (rf s) n r -> env q n = Some v -> regs p r = v;
  sm_slot n v : n ∈ B -> SpillSlot (sp s) n <> 0 -> env q n = Some v -> slots p (SpillSlot (sp s) n - 1) = v;
  sm_const n v : n ∈ D -> Rematerializable (IR n) = true -> env q n = Some v -> v = constv (Constant (IR n));
  sm_static r : is_static (Class r) -> in_range r ->
    regs p r = guest q r \/ exists N, holds (rf s) N r /\ next_access r code = Some N;
  sm_world : world q = p_world p;
}.

Lemma spilled_sim D code rest Ex c s s' out m r q p :
  spilled rest Ex c s s' out m r -> is_general c -> sim D code s q p ->
  exists p', post_run out p = Some p' /\ regs p' = regs p /\ sim D code s' q p'.
Proof.
  intros Hs Hc Hsim. destruct Hs as [Hh Hcl _ Hfr Hslots _ _].
  assert (forall n r', holds (rf s') n r' -> holds (rf s) n r') as Hsub.
  { intros n r' Hn. by apply (freed_holds _ _ _ _ _ _ Hfr) in Hn as [_ Hn]. }
  assert (forall r' N, is_static (Class r') -> holds (rf s) N r' -> holds (rf s') N r') as Hstat.
  { intros r' N Hst HN. apply (freed_holds _ _ _ _ _ _ Hfr). split; [|done]. intros ->. rewrite Hcl in Hst.
    by apply (general_not_static c). }
  destruct Hslots as [(-> & Hsp & _)|(k & -> & Htk)].
  - exists p. split; [done|]. split; [done|]. split.
    + intros n r' v Hn. by eapply (sm_reg _ _ _ _ _ Hsim), Hsub.
    + rewrite Hsp. apply (sm_slot _ _ _ _ _ Hsim).
    + apply (sm_const _ _ _ _ _ Hsim).
    + intros r' Hst Hr'. destruct (sm_static _ _ _ _ _ Hsim r' Hst Hr') as [|(N & HN & Hna)]; [by left|right; eauto].
    + apply (sm_world _ _ _ _ _ Hsim).
  - eexists. split; [reflexivity|]. split; [done|]. split; cbn.
    + intros n r' v Hn. by eapply (sm_reg _ _ _ _ _ Hsim), Hsub.
    + intros n v HB. rewrite (tk_slot _ _ _ _ _ Htk). destruct (decide (n = m)) as [-> |Hne].
      * intros _ Hv. replace (k + 1 - 1) with k by lia. rewrite upd_same. by apply (sm_reg _ _ _ _ _ Hsim m).
      * intros H0 Hv. rewrite upd_other; [by apply (sm_slot _ _ _ _ _ Hsim)|]. pose proof (tk_new _ _ _ _ _ Htk n HB H0). lia.
    + apply (sm_const _ _ _ _ _ Hsim).
    + intros r' Hst Hr'. destruct (sm_static _ _ _ _ _ Hsim r' Hst Hr') as [|(N & HN & Hna)]; [by left|right; eauto].
    + apply (sm_world _ _ _ _ _ Hsim).
Qed.

Lemma maybe_spill_sim D code rest Ex c s s' out q p :
  maybe_spill rest Ex c s s' out -> is_general c -> sim D code s q p ->
  exists p', post_run out p = Some p' /\ regs p' = regs p /\ sim D code s' q p'.
Proof.
  intros [(Hf & Hsp & _ & ->)|(m & r & H)] Hc Hsim; [|by eapply spilled_sim]. exists p. split; [done|]. split; [done|].
  destruct Hsim as [H1 H2 H3 H4 H5]. split; rewrite ?Hf, ?Hsp; done.
Qed.

(** ** Nodes that can still be read *)

Definition present (s : State) (n : Z) : Prop := exists r, holds (rf s) n r.
Definition recoverable (s : State) (n : Z) : Prop := SpillSlot (sp s) n <> 0 \/ Rematerializable (IR n) = true.
Definition readable (s : State) (n : Z) : Prop := present s n \/ (AnySpilled (nu s) = true /\ recoverable s n).

Lemma maybe_spill_readable D rest Ex c s s' out n :
  file_ok D (rf s) -> maybe_spill rest Ex c s s' out -> readable s n -> readable s' n.
Proof.
  intros Hf [(Hrf & Hsp & Hnu & ->)|(m & r & H)] Hn.
  { unfold readable, present, recoverable in *. by rewrite Hrf, Hsp, Hnu. }
  destruct H as [Hh Hcl _ Hfr Hslots Hany _].
  assert (recoverable s n -> recoverable s' n) as Hrec.
  { intros [H|H]; [left|by right]. destruct Hslots as [(_ & -> & _)|(k & _ & Htk)]; [done|].
    rewrite (tk_slot _ _ _ _ _ Htk). pose proof (tk_pos _ _ _ _ _ Htk). destruct (decide (n = m)); [lia|done]. }
  destruct Hn as [[r' Hn]|[_ Hn]]; [|right; auto].
  destruct (decide (r' = r)) as [-> |Hne].
  - right. split; [done|]. rewrite (holds_inj _ _ _ _ _ Hn Hh) in *.
    destruct Hslots as [(_ & Hsp & H)|(k & _ & Htk)]; [unfold recoverable; by rewrite Hsp|].
    left. rewrite (tk_slot _ _ _ _ _ Htk), decide_True by done. pose proof (tk_pos _ _ _ _ _ Htk). lia.
  - left. exists r'. by apply (freed_holds _ _ _ _ _ _ Hfr).
Qed.

(** A source of the instruction keeps its register. *)
Lemma maybe_spill_present D rest Ex c s s' out n k :
  file_ok D (rf s) -> maybe_spill rest Ex c s s' out -> A_Node n k ∈ Ex -> IsValidID IR n = true ->
  present s n -> present s' n.
Proof.
  intros Hf [(Hrf & _)|(m & r & H)] Hin Hv [r' Hn]; [exists r'; by rewrite Hrf|]. exists r'.
  apply (freed_holds _ _ _ _ _ _ (sd_freed _ _ _ _ _ _ _ _ _ _ _ H)). split; [|done]. intros ->.
  pose proof (sd_source _ _ _ _ _ _ _ _ _ _ _ H) as Hs. apply not_true_iff_false in Hs. apply Hs.
  unfold HasSource. apply existsb_exists. exists (A_Node n k). split; [by apply list_elem_of_In|].
  cbn. rewrite Hv. apply bool_decide_eq_true. by apply (fo_holds _ _ _ _ _ _ Hf).
Qed.

(** ** A new node in the place of an old one *)

Record inserted (D : gset Z) (rest : Code) (Ex : list Arg) (c : RegClass) (emit : PhysicalRegister -> PostOp) (Old : Z)
    (s s' : State) (out : list PostOp) (s1 : State) (out1 : list PostOp) (r : PhysicalRegister) : Prop := {
  in_spill : maybe_spill rest Ex c s s1 out1;
  in_out : out = out1 ++ [emit r];
  in_class : Class r = c;
  in_free : freeb (rf s1) r = true;
  in_assigned : assigned (rf s1) (rf s') Old r;
  in_sp : sp s' = sp s1;
  in_nu : nu s' = nu s1;
  in_ok1 : state_ok D s1;
  in_ok : state_ok D s';
}.

Lemma maybe_spill_absent rest Ex c s s1 out n :
  maybe_spill rest Ex c s s1 out -> ~ present s n -> ~ present s1 n.
Proof.
  intros [(Hrf & _)|(m & r & H)] Hn [r' Hh]; apply Hn; exists r'; [by rewrite <- Hrf|].
  by apply (freed_holds _ _ _ _ _ _ (sd_freed _ _ _ _ _ _ _ _ _ _ _ H)) in Hh as [_ Hh].
Qed.

Lemma InsertFor_spec D p Pref Old h Args emit rest Ex c s :
  state_ok D s -> D ⊆ B -> uses_wf p (nu s) -> Z.of_nat (length rest) < 2 ^ 31 -> 0 <= NewNodes s ->
  choice_ok h Args c -> few Ex c -> Old ∈ D -> ~ present s Old -> class_of Old = c -> IsValidID IR Old = true ->
  wp E (InsertFor T R IR SSACount Pref Old h Args emit rest Ex s) (fun x => exists s1 out1 r,
    inserted D rest Ex c emit Old s x.1 x.2 s1 out1 r /\ NewNodes x.1 = NewNodes s + 1).
Proof using All.
  intros Hok HDB Hu Hlen Hnew Hc He HD Hno Hcl Hv. unfold InsertFor, NewNode. apply wp_bind.
  set (s0 := mkState (rf s) (sp s) (nu s) (ForwardIP s) (NewNodes s + 1)).
  eapply wp_mono; [|apply (AssignReg_spec D p Pref h (SSACount + NewNodes s) Args rest Ex c s0); try done; intros ?; lia].
  intros [[s' out] r] (s1 & f' & Hsp & Hok1 & [Hfree Hgood] & Eset & -> & Hnn). cbn.
  assert (Class r = c) as Hcr by (destruct Hgood as [|(? & _)]; [done|lia]).
  destruct (SetReg_spec _ _ _ _ HR D (rf s1) (SSACount + NewNodes s) r (proj1 Hok1) Hfree) as (f1 & Ef1 & _ & Has).
  rewrite Eset in Ef1. injection Ef1 as <-.
  destruct (fo_def _ _ _ _ _ _ (proj1 Hok1) Old HD) as (Hold & _ & _).
  specialize (Has ltac:(lia) Old ltac:(lia)).
  exists s1, out, r. split; [|done]. split; [by eapply maybe_spill_same, Hsp|done..|]. split; [|apply Hok1].
  eapply (assigned_ok T R IR SSACount HT HR _ _ _ _ Old r Has); [|apply Hok1| | |done| |done].
  - by eapply (free_in_range T R IR SSACount D), Hfree; apply Hok1.
  - intros r' Hr'. apply (maybe_spill_absent rest Ex c s0 s1 out Old Hsp); [done|]. by exists r'.
  - set_solver.
  - split; [rewrite Hcl; apply (ch_general _ _ _ Hc)|]. left. by rewrite Hcr.
Qed.

Lemma inserted_present D rest Ex c emit Old s s' out s1 out1 r n :
  inserted D rest Ex c emit Old s s' out s1 out1 r -> n = Old \/ present s1 n -> present s' n.
Proof.
  intros Hi Hn. pose proof (in_assigned _ _ _ _ _ _ _ _ _ _ _ _ Hi) as Ha. pose proof (in_free _ _ _ _ _ _ _ _ _ _ _ _ Hi) as Hfr.
  pose proof (free_in_range T R IR SSACount D (rf s1) r (proj1 (in_ok1 _ _ _ _ _ _ _ _ _ _ _ _ Hi)) Hfr) as Hr.
  destruct Hn as [-> |[r' Hn]]; [exists r|exists r']; apply (assigned_holds _ _ _ _ _ _ _ Ha Hr); [by left|right].
  split; [|done]. intros ->. destruct Hn as (_ & Hb & _). congruence.
Qed.

(** The new node gets the value the instruction [emit] computes, which must be that of [Old]. *)
Lemma inserted_sim D rest Ex c emit Old s s' out s1 out1 r code q p :
  inserted D rest Ex c emit Old s s' out s1 out1 r -> is_general c -> sim D code s q p ->
  (forall p1, regs p1 = regs p -> sim D code s1 q p1 -> exists v,
    post_step (emit r) p1 = Some (mkPost (upd r v (regs p1)) (slots p1) (p_world p1)) /\
    forall w, env q Old = Some w -> v = w) ->
  exists p', post_run out p = Some p' /\ sim D code s' q p'.
Proof.
  intros Hi Hc Hsim Hemit. destruct (maybe_spill_sim D code _ _ _ _ _ _ q p (in_spill _ _ _ _ _ _ _ _ _ _ _ _ Hi) Hc Hsim) as (p1 & Hr1 & Hg1 & Hs1).
  destruct (Hemit p1 Hg1 Hs1) as (v & Hstep & Hv). rewrite (in_out _ _ _ _ _ _ _ _ _ _ _ _ Hi).
  exists (mkPost (upd r v (regs p1)) (slots p1) (p_world p1)). split.
  { rewrite post_run_app, Hr1. cbn [RegAllocSem.post_run mbind option_bind]. by rewrite Hstep. }
  pose proof (in_assigned _ _ _ _ _ _ _ _ _ _ _ _ Hi) as Ha. pose proof (in_free _ _ _ _ _ _ _ _ _ _ _ _ Hi) as Hfr.
  pose proof (free_in_range T R IR SSACount D (rf s1) r (proj1 (in_ok1 _ _ _ _ _ _ _ _ _ _ _ _ Hi)) Hfr) as Hr.
  assert (forall n r', holds (rf s') n r' <-> (r' = r /\ n = Old) \/ (r' <> r /\ holds (rf s1) n r')) as Hh.
  { intros n r'. by apply assigned_holds. }
  split; rewrite ?(in_sp _ _ _ _ _ _ _ _ _ _ _ _ Hi); cbn.
  - intros n r' w Hn Hw. apply Hh in Hn as [[-> ->]|[Hne Hn]]; [rewrite upd_same; auto|].
    rewrite upd_other by done. by eapply (sm_reg _ _ _ _ _ Hs1).
  - apply (sm_slot _ _ _ _ _ Hs1).
  - apply (sm_const _ _ _ _ _ Hs1).
  - intros r' Hst Hr'. assert (r' <> r) as Hne.
    { intros ->. rewrite (in_class _ _ _ _ _ _ _ _ _ _ _ _ Hi) in Hst. by apply (general_not_static c). }
    rewrite upd_other by done. destruct (sm_static _ _ _ _ _ Hs1 r' Hst Hr') as [|(N & HN & Hna)]; [by left|right].
    exists N. split; [apply Hh; by right|done].
  - apply (sm_world _ _ _ _ _ Hs1).
Qed.

Lemma inserted_readable D rest Ex c emit Old s s' out s1 out1 r n :
  inserted D rest Ex c emit Old s s' out s1 out1 r -> file_ok D (rf s) -> readable s n -> readable s' n.
Proof.
  intros Hi Hf Hn. eapply maybe_spill_readable in Hn; [|done|apply (in_spill _ _ _ _ _ _ _ _ _ _ _ _ Hi)].
  unfold readable, recoverable in *. rewrite (in_sp _ _ _ _ _ _ _ _ _ _ _ _ Hi), (in_nu _ _ _ _ _ _ _ _ _ _ _ _ Hi).
  destruct Hn as [Hn|Hn]; [left|by right]. eapply inserted_present; [done|by right].
Qed.

End pass.
