(* ===== verification/RegAllocBack.v ===== *)
(** * Register allocation: the backward pass

    A kill bit is set only on the last mention of a node in its block, and a node prefers a
    static register only when the next access to that register from its definition on is the
    node's own load or store.  Kill bits do not change what the code means. *)

From S2P Require Import Prelude RegAlloc RegAllocSem RegAllocProps RegAllocSpill RegAllocAssign.
Import RegAlloc.

(** ** Kill bits *)

Definition mentions (Args : list Arg) (n : Z) : Prop := exists k, A_Node n k ∈ Args.
Definition mentioned (code : Code) (n : Z) : Prop := exists i, i ∈ code /\ mentions i.2 n.

Lemma mentions_cons a Args n : mentions (a :: Args) n <-> (exists k, a = A_Node n k) \/ mentions Args n.
Proof. unfold mentions. setoid_rewrite elem_of_cons. naive_solver. Qed.

Lemma mentioned_cons i code n : mentioned (i :: code) n <-> mentions i.2 n \/ mentioned code n.
Proof. unfold mentioned. setoid_rewrite elem_of_cons. naive_solver. Qed.

Fixpoint kills_ok_args (Args : list Arg) (later : Z -> Prop) : Prop :=
  match Args with
  | [] => True
  | a :: Args => match a with A_Node n true => ~ mentions Args n /\ ~ later n | _ => True end /\ kills_ok_args Args later
  end.

Fixpoint kills_ok (code : Code) : Prop :=
  match code with
  | [] => True
  | (_, Args) :: code => kills_ok_args Args (mentioned code) /\ kills_ok code
  end.

Definition unkill (a : Arg) : Arg := match a with A_Node n _ => A_Node n false | a => a end.
Definition unkilled (code : Code) : Code := (fun i : Z * list Arg => (i.1, unkill <$> i.2)) <$> code.

Lemma unkill_id (Args : list Arg) : Forall (fun a => unkill a = a) Args -> unkill <$> Args = Args.
Proof. induction 1 as [|x l Hx _ IHl]; [done|]. cbn. by rewrite Hx, IHl. Qed.

Lemma unkilled_id code : Forall (fun i : Z * list Arg => Forall (fun a => unkill a = a) i.2) code -> unkilled code = code.
Proof.
  induction 1 as [|[n Args] l Hx _ IHl]; [done|]. cbn in *. unfold unkilled in IHl. by rewrite unkill_id, IHl.
Qed.

Lemma mentions_unkill (Args Args' : list Arg) n : unkill <$> Args = unkill <$> Args' -> mentions Args n -> mentions Args' n.
Proof.
  intros H [k Hk]. apply list_elem_of_lookup_1 in Hk as [i Hi].
  assert ((unkill <$> Args') !! i = Some (A_Node n false)) as Hi' by (rewrite <- H, list_lookup_fmap, Hi; done).
  rewrite list_lookup_fmap in Hi'. apply fmap_Some in Hi' as (a & Ha & Hu). destruct a as [|m k'|]; try done.
  injection Hu as ->. exists k'. by eapply list_elem_of_lookup_2.
Qed.

Lemma mentioned_unkilled code code' n : unkilled code = unkilled code' -> mentioned code n -> mentioned code' n.
Proof.
  revert code'. induction code as [|[m Args] code IH]; intros [|[m' Args'] code'] H; try done.
  injection H as -> Ha Hc. rewrite !mentioned_cons. cbn [snd]. intros [Hm|Hm]; [left|right; by apply IH].
  by eapply mentions_unkill.
Qed.

Lemma MarkKills_spec Args : forall Seen Args' Seen' later,
  MarkKills Args Seen = (Args', Seen') -> (forall n, later n -> n ∈ Seen) -> Forall (fun a => unkill a = a) Args ->
  unkill <$> Args' = Args /\ kills_ok_args Args' later /\ (forall n, n ∈ Seen \/ mentions Args n -> n ∈ Seen').
Proof.
  induction Args as [|a Args IH]; intros Seen Args' Seen' later H Hl Hu; cbn in H.
  - simplify_eq. split; [done|]. split; [done|]. intros n [|[k Hk]]; [done|]. by apply not_elem_of_nil in Hk.
  - apply Forall_cons in Hu as [Ha Hu]. destruct (MarkKills Args Seen) as [A1 S1] eqn:E1.
    destruct (IH _ _ _ later E1 Hl Hu) as (H1 & H2 & H3).
    destruct a as [|n k|r].
    + injection H as <- <-. split; [cbn; by rewrite H1|]. split; [done|]. intros m Hm. apply H3. rewrite mentions_cons in Hm. naive_solver.
    + injection Ha as <-. case_bool_decide as Hin; injection H as <- <-.
      * split; [cbn; by rewrite H1|]. split; [done|]. intros m. rewrite mentions_cons. intros [|[[k Hk]|]]; [auto| |auto].
        by injection Hk as -> _.
      * split; [cbn; by rewrite H1|]. split.
        -- split; [|done]. split; intros Hn; apply Hin, H3; [right|left; auto].
           eapply mentions_unkill; [|exact Hn]. by rewrite H1, unkill_id.
        -- intros m. rewrite mentions_cons. intros [|[[k Hk]|]]; [set_solver| |set_solver]. injection Hk as -> _. set_solver.
    + injection H as <- <-. split; [cbn; by rewrite H1|]. split; [done|]. intros m Hm. apply H3. rewrite mentions_cons in Hm. naive_solver.
Qed.

Section pass.
Context (T : Tables) (R : Registers) (IR : Z -> IROp_Header) (SSACount : Z).
Context {V W : Type} (reads writes : IROps -> nat -> bool).
Context (constv : Z -> V) (sem : Z -> list (option V) -> W -> W * V * (nat -> V)).

Abbreviation code_ok := (code_ok T R IR writes SSACount).
Abbreviation inst_ok := (inst_ok T R IR writes SSACount).
Abbreviation next_access := (next_access R IR).
Abbreviation ssa_step := (ssa_step T R IR reads writes constv sem).
Abbreviation ssa_run := (ssa_run T R IR reads writes constv sem).

Lemma valid_unkill a : IsValidArg IR (unkill a) = IsValidArg IR a.
Proof. by destruct a. Qed.

Lemma valid_lookup (Args : list Arg) (i : nat) : valid_arg IR ((unkill <$> Args) !! i) = valid_arg IR (Args !! i).
Proof. rewrite list_lookup_fmap. unfold valid_arg. destruct (Args !! i) as [a|]; [apply valid_unkill|done]. Qed.

Lemma DecodeSRANode_unkill n (Args : list Arg) : DecodeSRANode IR n (unkill <$> Args) = DecodeSRANode IR n Args.
Proof. unfold DecodeSRANode. destruct (Op (IR n)); try done; destruct Args as [|[] ?]; done. Qed.

Lemma next_access_unkilled r code : next_access r (unkilled code) = next_access r code.
Proof.
  induction code as [|[n Args] code IH]; [done|]. cbn. by rewrite DecodeSRANode_unkill, <- IH.
Qed.

Lemma read_nodes_unkill o i e (Args : list Arg) : read_nodes IR reads (V := V) o i e (unkill <$> Args) = read_nodes IR reads o i e Args.
Proof. revert i. induction Args as [|a Args IH]; intros i; [done|]. cbn. by rewrite valid_unkill, <- IH. Qed.

Lemma write_nodes_unkill o i out (Args : list Arg) e : write_nodes IR writes (V := V) o i out (unkill <$> Args) e = write_nodes IR writes o i out Args e.
Proof. revert i e. induction Args as [|a Args IH]; intros i e; [done|]. cbn. by rewrite valid_unkill, <- IH. Qed.

Lemma ssa_step_unkill n (Args : list Arg) q : ssa_step n (unkill <$> Args) q = ssa_step n Args q.
Proof.
  destruct q as [e g w]. cbn. rewrite read_nodes_unkill.
  assert (node_val IR e (head (unkill <$> Args)) = node_val IR e (head Args)) as ->.
  { destruct Args as [|a Args]; [done|]. cbn. by rewrite valid_unkill. }
  destruct (kind_of IR n); try done. destruct (read_nodes IR reads _ _ _ _) as [vs|]; cbn; [|done].
  destruct (sem n vs w) as [[w' d] out]. by rewrite write_nodes_unkill.
Qed.

Lemma ssa_run_unkilled code q : ssa_run (unkilled code) q = ssa_run code q.
Proof.
  revert q. induction code as [|[n Args] code IH]; intros q; [done|]. cbn [RegAllocSem.ssa_run unkilled fmap list_fmap fst snd].
  rewrite ssa_step_unkill. destruct (ssa_step n Args q); cbn; [apply IH|done].
Qed.

Lemma written_unkill n (Args : list Arg) m : written IR writes n (unkill <$> Args) m <-> written IR writes n Args m.
Proof.
  unfold written. setoid_rewrite list_lookup_fmap. split.
  - intros (i & a & Ha & Hv & Hw). apply fmap_Some in Ha as (b & Hb & ->). rewrite valid_unkill in Hv. eauto 8.
  - intros (i & a & Ha & Hv & Hw). exists i, (unkill a). rewrite Ha, valid_unkill. done.
Qed.

Lemma inst_ok_unkill D F n (Args Args' : list Arg) : unkill <$> Args' = unkill <$> Args -> inst_ok D F n Args -> inst_ok D F n Args'.
Proof.
  intros He [H1 H2 H3 H4 H5 H6 H7 H8 H9 H10 H11 H12].
  assert (forall i : nat, valid_arg IR (Args' !! i) = valid_arg IR (Args !! i)) as Hv.
  { intros i. by rewrite <- (valid_lookup Args'), He, valid_lookup. }
  assert (DecodeSRANode IR n Args' = DecodeSRANode IR n Args) as Hd by (by rewrite <- DecodeSRANode_unkill, He, DecodeSRANode_unkill).
  split; try done.
  - apply Forall_lookup. intros i a Ha. assert ((unkill <$> Args) !! i = Some (unkill a)) as Hb by (by rewrite <- He, list_lookup_fmap, Ha).
    rewrite list_lookup_fmap in Hb. apply fmap_Some in Hb as (b & Hb & Hu). apply (Forall_lookup_1 _ _ _ _ H2) in Hb.
    destruct a, b; simplify_eq; done.
  - intros Hs. specialize (H3 Hs) as ->. by destruct Args'.
  - intros Hdef Ht. setoid_rewrite Hv. auto.
  - setoid_rewrite Hv. auto.
  - setoid_rewrite Hv. auto.
  - rewrite Hd, Hv. done.
  - intros m Hm. apply H12. by rewrite <- written_unkill, <- He, written_unkill.
Qed.

Lemma code_ok_unkilled code : forall D F code', unkilled code' = unkilled code -> code_ok D F code -> code_ok D F code'.
Proof.
  induction code as [|[n Args] code IH]; intros D F [|[n' Args'] code'] He H; try done.
  injection He as -> Ha Hc. destruct H as [H1 H2]. split; [by eapply inst_ok_unkill|].
  replace (DecodeSRANode IR n Args') with (DecodeSRANode IR n Args) by (by rewrite <- DecodeSRANode_unkill, <- Ha, DecodeSRANode_unkill).
  by apply IH.
Qed.

(** ** Preferred registers *)

Fixpoint prefs_ok (Pref : gmap Z PhysicalRegister) (code : Code) : Prop :=
  match code with
  | [] => True
  | (n, Args) :: rest =>
      (forall r, Pref !! n = Some r -> r = Invalid \/
         (next_access r ((n, Args) :: rest) = Some n /\ is_static (Class r) /\ in_range R r)) /\ prefs_ok Pref rest
  end.

Lemma prefs_ok_ext Pref Pref' code :
  (forall n, n ∈ code.*1 -> Pref' !! n = Pref !! n) -> prefs_ok Pref code -> prefs_ok Pref' code.
Proof.
  induction code as [|[n Args] code IH]; intros He H; [done|]. destruct H as [H1 H2]. split.
  - rewrite He by (by constructor). exact H1.
  - apply IH; [|done]. intros m Hm. apply He. by constructor.
Qed.

(** An access to a static register is in range. *)
Lemma access_static D F n Args N :
  inst_ok D F n Args -> DecodeSRANode IR n Args = Some N ->
  in_range R (DecodeSRAReg R IR n) /\ is_static (Class (DecodeSRAReg R IR n)) /\
  (kind_of IR n = K_Load /\ N = n \/ kind_of IR n = K_Store /\ valid_arg IR (Args !! 0%nat) = Some N).
Proof.
  intros Hi Hd. assert (kind_of IR n = K_Load /\ N = n \/ kind_of IR n = K_Store) as Hk.
  { unfold DecodeSRANode, kind_of in *. destruct (Op (IR n)); simplify_eq; auto. }
  destruct (i_sra _ _ _ _ _ _ _ _ _ Hi ltac:(destruct Hk as [[? _]|?]; [by left|by right])) as (Hr & m & Hm & Hv & Hg & Hc).
  rewrite Hd in Hm. injection Hm as <-. split; [done|]. split.
  - rewrite Hc. destruct Hg as [-> | ->]; [by left|by right].
  - destruct Hk as [?|Hk]; [by left|right; auto].
Qed.

Lemma next_access_static D F r code : forall N,
  code_ok D F code -> next_access r code = Some N -> is_static (Class r) /\ in_range R r.
Proof.
  revert D F. induction code as [|[n Args] code IH]; intros D F N Hc H; [done|]. destruct Hc as [Hi Hc]. cbn in H.
  destruct (DecodeSRANode IR n Args) as [M|] eqn:Ed; [|by eapply IH].
  destruct (decide _) as [<- |]; [|by eapply IH]. by destruct (access_static _ _ _ _ _ Hi Ed) as (? & ? & _).
Qed.

(** Who accesses a register next, when that node is already defined, is an argument to come. *)
Lemma next_access_mentioned D F r code : forall N,
  code_ok D F code -> next_access r code = Some N -> N ∉ code.*1 -> mentioned code N.
Proof.
  revert D F. induction code as [|[n Args] code IH]; intros D F N Hc H Hn; [done|]. destruct Hc as [Hi Hc]. cbn in H, Hn.
  rewrite mentioned_cons. cbn [snd].
  assert (next_access r code = Some N -> mentions Args N \/ mentioned code N) as Hrest.
  { intros H'. right. eapply IH; [done|done|]. intros Hin. apply Hn. by constructor. }
  destruct (DecodeSRANode IR n Args) as [M|] eqn:Ed; [|auto]. destruct (decide _); [|auto]. simplify_eq. left.
  destruct (access_static _ _ _ _ _ Hi Ed) as (_ & _ & [[_ ->]|[_ Hv]]); [destruct Hn; by constructor|].
  destruct Args as [|a Args]; [done|]. cbn in Hv. destruct a as [|m k|]; try done. cbn in Hv.
  destruct (IsValidID IR m); [|done]. injection Hv as ->. exists k. by constructor.
Qed.

Definition scratch_ok (b : Back) (code : Code) : Prop :=
  forall r, match b_RegToSSA b (Class r) (Reg r) with Some (m, A) => DecodeSRANode IR m A | None => None end = next_access r code.

Lemma defined_args D F n Args N : inst_ok D F n Args -> DecodeSRANode IR n Args = Some N -> N = n \/ N ∈ D.
Proof.
  intros Hi Hd. destruct (access_static _ _ _ _ _ Hi Hd) as (_ & _ & [[_ ->]|[_ Hv]]); [by left|right].
  destruct Args as [|a Args]; [done|]. pose proof (i_args _ _ _ _ _ _ _ _ _ Hi) as Ha. apply Forall_cons in Ha as [Ha _].
  cbn in Hv. destruct a as [|m k|]; try done. cbn in *. destruct (IsValidID IR m); [|done]. injection Hv as ->. auto.
Qed.

Lemma CheckPreferred_pref n b r :
  b_Pref (CheckPreferred IR n b) !! n = Some r ->
  r = Invalid \/ match b_RegToSSA b (Class r) (Reg r) with Some (m, A) => DecodeSRANode IR m A | None => None end = Some n.
Proof.
  unfold CheckPreferred. cbv zeta. destruct (IsInvalid (pref_of b n)) eqn:Ei.
  - intros H. unfold pref_of in Ei. rewrite H in Ei. cbn in Ei. left. by apply bool_decide_eq_true in Ei.
  - assert (forall b', b_Pref b' = <[n := Invalid]> (b_Pref b) -> b_Pref b' !! n = Some r -> r = Invalid) as Hreset.
    { intros b' -> Hr. rewrite lookup_insert_eq in Hr. congruence. }
    destruct (b_RegToSSA b (Class (pref_of b n)) (Reg (pref_of b n))) as [[m A]|] eqn:Er; [case_bool_decide as Hd|];
      intros H; [right|left; by eapply Hreset, H..].
    unfold pref_of in Er. rewrite H in Er. cbn in Er. by rewrite Er.
Qed.

Lemma BackwardPass_spec code : forall b code' b' D F,
  BackwardPass R IR code b = (code', b') -> code_ok D F code -> NoDup (code.*1) -> (forall n, n ∈ D -> n ∉ code.*1) ->
  (forall n, n ∈ code.*1 -> b_Pref b !! n = None) -> (forall c i, b_RegToSSA b c i = None) ->
  Forall (fun i : Z * list Arg => Forall (fun a => unkill a = a) i.2) code ->
  unkilled code' = code /\ kills_ok code' /\ prefs_ok (b_Pref b') code /\ scratch_ok b' code /\
  (forall n, mentioned code n -> n ∈ b_Seen b') /\
  (forall n, n ∉ code.*1 -> n ∉ D -> b_Pref b' !! n = b_Pref b !! n).
Proof.
  induction code as [|[n Args] code IH]; intros b code' b' D F H Hc Hnd HD Hp Hs Hu; cbn in H.
  - simplify_eq. split; [done|]. split; [done|]. split; [done|]. split; [intros r; by rewrite Hs|]. split; [|done].
    intros n (i & Hi & _). by apply not_elem_of_nil in Hi.
  - destruct (BackwardPass R IR code b) as [c1 b1] eqn:E1. destruct Hc as [Hi Hc]. cbn in Hnd. apply NoDup_cons in Hnd as [Hnn Hnd].
    apply Forall_cons in Hu as [Hua Hu].
    assert (forall m, m ∈ (if defines T IR n then {[n]} ∪ D else D) -> m ∉ code.*1) as HD'.
    { intros m Hm Hin. assert (m = n \/ m ∈ D) as [-> |HmD]; [|done|by apply (HD m HmD); constructor].
      destruct (defines T IR n); [|by right]. by apply elem_of_union in Hm as [->%elem_of_singleton|]; [left|right]. }
    destruct (IH _ _ _ _ _ E1 Hc Hnd HD' ltac:(intros m Hm; apply Hp; by constructor) Hs Hu) as (U1 & K1 & P1 & S1 & M1 & O1).
    destruct (MarkKills Args (b_Seen (CheckPreferred IR n (NoteAccess R IR n Args b1)))) as [A2 S2] eqn:E2.
    injection H as <- <-. set (b2 := NoteAccess R IR n Args b1) in *. set (b3 := CheckPreferred IR n b2) in *.
    assert (b_Seen b3 = b_Seen b1) as HS3.
    { unfold b3, CheckPreferred, b2, NoteAccess. destruct (DecodeSRANode IR n Args); repeat case_match; done. }
    assert (scratch_ok b3 ((n, Args) :: code)) as S3.
    { intros r. assert (b_RegToSSA b3 = b_RegToSSA b2) as -> by (unfold b3, CheckPreferred; repeat case_match; done).
      unfold b2, NoteAccess. cbn. destruct (DecodeSRANode IR n Args) as [N|] eqn:Ed; [|apply S1]. cbn.
      destruct (bool_decide _ && _) eqn:Eb.
      - apply andb_true_iff in Eb as [E3 E4]. apply bool_decide_eq_true in E3. apply Z.eqb_eq in E4.
        rewrite decide_True by (destruct r, (DecodeSRAReg R IR n); cbn in *; congruence). done.
      - rewrite decide_False; [apply S1|]. intros <-. by rewrite bool_decide_true, Z.eqb_refl in Eb. }
    assert (forall m, m <> n -> m ∉ D -> b_Pref b3 !! m = b_Pref b1 !! m) as O3.
    { intros m Hm HmD. assert (b_Pref b3 !! m = b_Pref b2 !! m) as ->.
      { unfold b3, CheckPreferred. repeat case_match; cbn; first [done|by rewrite lookup_insert_ne]. }
      unfold b2, NoteAccess. destruct (DecodeSRANode IR n Args) as [N|] eqn:Ed; [|done]. cbn.
      destruct (defined_args _ _ _ _ _ Hi Ed) as [-> |HN]; (rewrite lookup_insert_ne; [done|]); [congruence|by intros ->]. }
    rewrite HS3 in E2. destruct (MarkKills_spec Args _ _ _ (mentioned c1) E2) as (U2 & K2 & M2); [|done|].
    { intros m Hm. apply M1. apply (mentioned_unkilled c1); [|done]. rewrite U1. symmetry. apply unkilled_id. done. }
    split; [cbn; by rewrite U2, <- U1 at 1|]. split; [by split|]. split; [split|split; [done|split]].
    + intros r Hr. cbn in Hr. destruct (decide (r = Invalid)) as [|Hne]; [by left|right].
      assert (next_access r ((n, Args) :: code) = Some n) as Hna.
      { destruct (CheckPreferred_pref n b2 r Hr) as [|Hx]; [done|]. rewrite <- S3.
        assert (b_RegToSSA b3 = b_RegToSSA b2) as -> by (unfold b3, CheckPreferred; repeat case_match; done). exact Hx. }
      split; [done|]. by apply (next_access_static D F r ((n, Args) :: code) n); [exact (conj Hi Hc)|].
    + eapply prefs_ok_ext; [|exact P1]. intros m Hm. apply O3; [congruence|]. intros HmD. apply (HD m HmD). by constructor.
    + intros m. rewrite mentioned_cons. cbn. intros [Hm|Hm]; apply M2; [by right|left; auto].
    + intros m Hm HmD. cbn in Hm. apply not_elem_of_cons in Hm as [Hmn Hm]. cbn. rewrite O3 by done. apply O1; [done|].
      destruct (defines T IR n); [|done]. by intros [->%elem_of_singleton|]%elem_of_union.
Qed.

End pass.
