(* ===== verification/RegAllocSources.v ===== *)
(** * Register allocation: the sources of an instruction

    Moving a node out of a static register and filling the sources put code before the
    instruction that changes no value ([quiet]); rewriting the arguments to registers frees
    exactly the killed sources. *)

From S2P Require Import Prelude RegAlloc RegAllocSem RegAllocProps RegAllocSpill RegAllocAssign RegAllocBack.
Import RegAlloc.

Section pass.
Context (T : Tables) (R : Registers) (IR : Z -> IROp_Header) (SSACount : Z).
Context (HT : tables_ok T) (HR : registers_ok R) (E : Prop) (B : gset Z) (X0 : Z -> Z) (HS : SSACount < 2 ^ 32 - 1).
Context {V W : Type} (reads writes : IROps -> nat -> bool).
Context (constv : Z -> V) (sem : Z -> list (option V) -> W -> W * V * (nat -> V)).

Abbreviation class_of n := (GetRegClassFromNode T (IR n)).
Abbreviation in_range := (in_range R).
Abbreviation holds := (holds R).
Abbreviation file_ok := (file_ok T R IR SSACount).
Abbreviation slots_ok := (slots_ok SSACount B X0).
Abbreviation state_ok := (state_ok T R IR SSACount B X0).
Abbreviation post_run := (post_run T R IR reads writes constv sem).
Abbreviation post_step := (post_step T R IR reads writes constv sem).
Abbreviation sim := (sim R IR B (V := V) (W := W) constv).
Abbreviation present := (present R).
Abbreviation readable := (readable R IR).
Abbreviation next_access := (next_access R IR).
Abbreviation inst_ok := (inst_ok T R IR writes SSACount).
Abbreviation few := (few R E).

(** The nodes an instruction is given as arguments. *)
Definition source (Args : list Arg) (n : Z) : Prop := mentions Args n /\ IsValidID IR n = true.

Definition ranges (s : State) : list Z := SSAID <$> BlockSpills (sp s).

(** The slot of a spill or fill is one of the first [h]. *)
Definition slot_below (h : Z) (i : PostOp) : Prop :=
  match i with P_Spill _ k | P_Fill _ k => 0 <= k < h | _ => True end.

Abbreviation high s := (BlockSlotHighWater (sp s)).

Lemma slot_below_mono h h' out : h <= h' -> Forall (slot_below h) out -> Forall (slot_below h') out.
Proof. intros Hh H. eapply Forall_impl; [exact H|]. intros []; cbn; lia. Qed.

Record quiet (D : gset Z) (code : Code) (Args : list Arg) (s s' : State) (out : list PostOp) : Prop := {
  qu_ok : state_ok D s';
  qu_new : NewNodes s <= NewNodes s';
  qu_read n : readable s n -> readable s' n;
  qu_present n : source Args n -> present s n -> present s' n;
  qu_static N r : is_static (Class r) -> holds (rf s') N r -> holds (rf s) N r;
  qu_ranges : ranges s ⊆ ranges s';
  qu_high : high s <= high s';
  qu_out : Forall (slot_below (high s')) out;
  qu_sim (q : SSAState) p : sim D code s q p -> exists p', post_run out p = Some p' /\ sim D code s' q p';
}.

Lemma quiet_refl D code Args s : state_ok D s -> quiet D code Args s s [].
Proof. intros H. split; try done. intros q p Hs. by exists p. Qed.

Lemma quiet_trans D code Args s1 s2 s3 o1 o2 :
  quiet D code Args s1 s2 o1 -> quiet D code Args s2 s3 o2 -> quiet D code Args s1 s3 (o1 ++ o2).
Proof.
  intros [A1 A2 A3 A4 A5 A6 A7 A8 A9] [B1 B2 B3 B4 B5 B6 B7 B8 B9]. split; [done|lia|auto|auto|auto|by etrans|lia| |].
  { apply Forall_app. split; [by eapply slot_below_mono|done]. }
  intros q p Hs. destruct (A9 q p Hs) as (p1 & H1 & Hs1). destruct (B9 q p1 Hs1) as (p2 & H2 & Hs2).
  exists p2. split; [|done]. rewrite post_run_app, H1. done.
Qed.

Lemma quiet_uses D code Args s u : state_ok D s -> AnySpilled u = AnySpilled (nu s) -> quiet D code Args s (set_nu u s) [].
Proof.
  intros H Hu. split; try done.
  - intros n Hn. unfold RegAllocAssign.readable, recoverable in *. cbn. by rewrite Hu.
  - intros q p [H1 H2 H3 H4 H5]. exists p. split; [done|]. by split.
Qed.

Lemma maybe_spill_ranges rest Ex c s s' out : maybe_spill R IR B rest Ex c s s' out -> ranges s ⊆ ranges s'.
Proof.
  unfold ranges. intros [(_ & -> & _)|(m & r & H)]; [done|].
  destruct (sd_slots _ _ _ _ _ _ _ _ _ _ _ H) as [(_ & -> & _)|(k & _ & Htk)]; [done|].
  rewrite (tk_ranges _ _ _ _ _ Htk). intros n Hn. apply elem_of_app. by left.
Qed.

Lemma maybe_spill_static rest Ex c s s' out N r :
  maybe_spill R IR B rest Ex c s s' out -> holds (rf s') N r -> holds (rf s) N r.
Proof.
  intros [(-> & _)|(m & r' & H)]; [done|]. intros Hh.
  by apply (freed_holds _ _ _ _ _ _ (sd_freed _ _ _ _ _ _ _ _ _ _ _ H)) in Hh as [_ Hh].
Qed.

Lemma maybe_spill_high rest Ex c s s' out : maybe_spill R IR B rest Ex c s s' out -> high s <= high s'.
Proof.
  intros [(_ & -> & _)|(m & r & H)]; [lia|].
  destruct (sd_slots _ _ _ _ _ _ _ _ _ _ _ H) as [(_ & -> & _)|(k & _ & Htk)]; [lia|]. apply (tk_high _ _ _ _ _ Htk).
Qed.

Lemma maybe_spill_out D rest Ex c s s' out :
  maybe_spill R IR B rest Ex c s s' out -> state_ok D s -> state_ok D s' -> D ⊆ B -> Forall (slot_below (high s')) out.
Proof.
  intros [(_ & _ & _ & ->)|(m & r & H)] [Hf _] [_ Hx] HDB; [done|].
  destruct (sd_slots _ _ _ _ _ _ _ _ _ _ _ H) as [(-> & _)|(k & -> & Htk)]; [done|]. constructor; [|done]. cbn.
  destruct (fo_holds _ _ _ _ _ _ Hf _ _ (sd_holds _ _ _ _ _ _ _ _ _ _ _ H)) as [Hm _].
  pose proof (tk_slot _ _ _ _ _ Htk m) as Hk. rewrite decide_True in Hk by done. pose proof (tk_pos _ _ _ _ _ Htk).
  destruct (so_slot _ _ _ _ _ Hx m (HDB _ Hm) ltac:(lia)) as (_ & Hb & _). lia.
Qed.

Section inserted.
Context (D : gset Z) (rest : Code) (Args : list Arg) (c : RegClass) (emit : PhysicalRegister -> PostOp) (Old : Z).
Context (s s' : State) (out : list PostOp) (s1 : State) (out1 : list PostOp) (r : PhysicalRegister).
Context (Hi : inserted T R IR SSACount B X0 D rest Args c emit Old s s' out s1 out1 r) (Hok : state_ok D s) (Hc : is_general c).

Lemma inserted_spill : maybe_spill R IR B rest Args c s s1 out1.
Proof using Hi. apply (in_spill _ _ _ _ _ _ _ _ _ _ _ _ _ _ _ _ _ _ Hi). Qed.

Lemma inserted_keeps n : source Args n -> present s n -> present s' n.
Proof using Hi Hok.
  intros [[k Hk] Hv] Hp. eapply (inserted_present T R IR SSACount B X0); [done|right].
  eapply (maybe_spill_present T R IR SSACount B D); [apply Hok|apply inserted_spill|done..].
Qed.

Lemma inserted_static N r' : is_static (Class r') -> holds (rf s') N r' -> holds (rf s) N r'.
Proof using Hi Hc.
  intros Hst Hh. eapply maybe_spill_static; [apply inserted_spill|].
  pose proof (free_in_range T R IR SSACount D (rf s1) r (proj1 (in_ok1 _ _ _ _ _ _ _ _ _ _ _ _ _ _ _ _ _ _ Hi)) (in_free _ _ _ _ _ _ _ _ _ _ _ _ _ _ _ _ _ _ Hi)) as Hr.
  apply (assigned_holds _ _ _ _ _ _ _ (in_assigned _ _ _ _ _ _ _ _ _ _ _ _ _ _ _ _ _ _ Hi) Hr) in Hh as [[-> _]|[_ Hh]]; [|done].
  rewrite (in_class _ _ _ _ _ _ _ _ _ _ _ _ _ _ _ _ _ _ Hi) in Hst. by apply (general_not_static c) in Hc.
Qed.

Lemma inserted_ranges : ranges s ⊆ ranges s' /\ high s <= high s'.
Proof using Hi.
  unfold ranges. rewrite (in_sp _ _ _ _ _ _ _ _ _ _ _ _ _ _ _ _ _ _ Hi). split.
  - eapply maybe_spill_ranges, inserted_spill.
  - eapply maybe_spill_high, inserted_spill.
Qed.

Lemma inserted_out : D ⊆ B -> slot_below (high s1) (emit r) -> Forall (slot_below (high s')) out.
Proof using Hi Hok.
  intros HDB He. rewrite (in_sp _ _ _ _ _ _ _ _ _ _ _ _ _ _ _ _ _ _ Hi), (in_out _ _ _ _ _ _ _ _ _ _ _ _ _ _ _ _ _ _ Hi).
  apply Forall_app. split; [|by constructor].
  eapply maybe_spill_out; [apply inserted_spill|done|apply (in_ok1 _ _ _ _ _ _ _ _ _ _ _ _ _ _ _ _ _ _ Hi)|done].
Qed.

(** A node filled in the place of [Old], which is in no register. *)
Lemma inserted_quiet code :
  D ⊆ B -> NewNodes s <= NewNodes s' -> slot_below (high s1) (emit r) ->
  (forall q p1, sim D code s1 q p1 -> exists v,
    post_step (emit r) p1 = Some (mkPost (upd r v (regs p1)) (slots p1) (p_world p1)) /\
    forall w, env q Old = Some w -> v = w) ->
  quiet D code Args s s' out.
Proof using Hi Hok Hc.
  intros HDB Hn Hb Hemit. split.
  - apply (in_ok _ _ _ _ _ _ _ _ _ _ _ _ _ _ _ _ _ _ Hi).
  - done.
  - intros n Hrd. eapply (inserted_readable T R IR SSACount B X0); [done|apply Hok|done].
  - apply inserted_keeps.
  - apply inserted_static.
  - apply inserted_ranges.
  - apply inserted_ranges.
  - by apply inserted_out.
  - intros q p Hs. eapply (inserted_sim T R IR SSACount B X0 reads writes constv sem); [done..|]. intros p1 _. apply Hemit.
Qed.

End inserted.

(** ** Next uses *)

Lemma uses_step_spilled rest u u' : uses_step IR rest u u' -> AnySpilled u = true -> u' = u.
Proof. intros [|[H _]] Hu; congruence. Qed.

Lemma uses_step_wf rest u u' :
  uses_step IR rest u u' -> AnySpilled u = false -> Z.of_nat (length rest) < 2 ^ 31 -> uses_wf (code_count IR rest) u'.
Proof. intros [-> |[_ ->]] Hu Hl; [intros H; congruence|intros _; by apply CalculateNextUses_ok]. Qed.

Lemma maybe_spill_step rest Ex c s s' out : maybe_spill R IR B rest Ex c s s' out -> uses_step IR rest (nu s) (nu s').
Proof. intros [(_ & _ & -> & _)|(m & r & H)]; [by left|apply (sd_uses _ _ _ _ _ _ _ _ _ _ _ H)]. Qed.

Lemma inserted_step D rest Ex c emit Old s s' out s1 out1 r :
  inserted T R IR SSACount B X0 D rest Ex c emit Old s s' out s1 out1 r -> uses_step IR rest (nu s) (nu s').
Proof.
  intros Hi. rewrite (in_nu _ _ _ _ _ _ _ _ _ _ _ _ _ _ _ _ _ _ Hi). eapply maybe_spill_step, inserted_spill, Hi.
Qed.

Definition few_both (Args : list Arg) : Prop := few Args RC_GPR /\ few Args RC_FPR.

Lemma few_general Args c : few_both Args -> is_general c -> few Args c.
Proof. intros [? ?] [-> | ->]; done. Qed.

Lemma held_valid D f n r : file_ok D f -> holds f n r -> IsValidID IR n = true.
Proof using HR.
  intros Hf Hh. destruct (IsValidID IR n) eqn:Hv; [done|]. apply (fo_inline _ _ _ _ _ _ Hf) in Hv.
  destruct (fo_holds _ _ _ _ _ _ Hf _ _ Hh) as [_ Hr]. rewrite Hv in Hr. subst r. destruct Hh as [Hh _].
  unfold RegAllocSem.in_range in Hh. cbn in Hh. pose proof (proj1 (no_registers _ HR)). lia.
Qed.

Lemma emitted_choice h Args c : Op h ∈ [OP_COPY; OP_VMOV; OP_CONSTANT; OP_FILLREGISTER] -> is_general c ->
  GetRegClassFromNode T h = c -> choice_ok T R h Args c.
Proof using All.
  intros Ho Hc Hcl. pose proof (proj1 (Forall_forall _ _) (untied _ HT) _ Ho) as Ht. cbn beta in Ht.
  split; [done|done|lia| |].
  - intros [H|H]; rewrite H in Ho; by repeat (apply elem_of_cons in Ho as [?|Ho]; [done|]); apply not_elem_of_nil in Ho.
  - intros H; rewrite H in Ho; by repeat (apply elem_of_cons in Ho as [?|Ho]; [done|]); apply not_elem_of_nil in Ho.
Qed.

(** ** Static registers at a load or store *)

(** A static register the instruction accesses holds no other node. *)
Definition settled (Node : Z) (Args : list Arg) (s : State) : Prop :=
  forall N M, DecodeSRANode IR Node Args = Some N -> holds (rf s) M (DecodeSRAReg R IR Node) -> M = N.

Definition move_header (r : PhysicalRegister) : IROp_Header :=
  new_header (if bool_decide (Class r = RC_FPRFixed) then OP_VMOV else OP_COPY) RC_Invalid.

Lemma move_choice r c : is_general c -> Class r = fixed c -> choice_ok T R (move_header r) [A_Immediate r] c.
Proof using All.
  intros Hc Hr. unfold move_header. rewrite Hr. destruct Hc as [-> | ->]; cbn [fixed].
  - rewrite bool_decide_eq_false_2 by done. apply emitted_choice; [set_solver|by left|].
    unfold GetRegClassFromNode. cbn. by rewrite (copy_class _ HT).
  - rewrite bool_decide_eq_true_2 by done. apply emitted_choice; [set_solver|by right|].
    unfold GetRegClassFromNode. cbn. by rewrite (vmov_class _ HT).
Qed.

Lemma freed_sim D code s f r Old q p :
  freed (rf s) f r -> holds (rf s) Old r -> next_access r code <> Some Old ->
  sim D code s q p -> sim D code (set_rf f s) q p.
Proof.
  intros Hfr Hh Hna [H1 H2 H3 H4 H5]. split; cbn; try done.
  - intros n r' v Hn. apply (freed_holds _ _ _ _ _ _ Hfr) in Hn as [_ Hn]. eauto.
  - intros r' Hst Hr'. destruct (H4 r' Hst Hr') as [|(N & HN & Hx)]; [by left|]. right. exists N. split; [|done].
    apply (freed_holds _ _ _ _ _ _ Hfr). split; [|done]. intros ->. rewrite (holds_inj _ _ _ _ _ HN Hh) in Hx. done.
Qed.

Lemma Evict_spec D F p Pref Node Args rest s :
  state_ok D s -> D ⊆ B -> uses_wf p (nu s) -> Z.of_nat (length rest) < 2 ^ 31 -> 0 <= NewNodes s ->
  inst_ok D F Node Args -> few_both Args ->
  wp E (Evict T R IR SSACount Pref Node Args rest s) (fun x =>
    quiet D ((Node, Args) :: rest) Args s x.1 x.2 /\ uses_step IR rest (nu s) (nu x.1) /\ settled Node Args x.1).
Proof using All.
  intros Hok HDB Hu Hlen Hnew Hi He. unfold Evict. set (r0 := DecodeSRAReg R IR Node).
  destruct (DecodeSRANode IR Node Args) as [N|] eqn:Ed; [|split; [by apply quiet_refl|split; [by left|intros N M; congruence]]].
  destruct (access_static T R IR SSACount writes _ _ _ _ _ Hi Ed) as (Hr & Hst & _). fold r0 in Hr, Hst.
  rewrite busy_spec by (by eapply in_range_32). destruct (freeb (rf s) r0) eqn:Efr; cbn [negb].
  { split; [by apply quiet_refl|split; [by left|]]. intros N' M _ (_ & Hb & _). cbn in Hb. fold r0 in Hb. congruence. }
  set (Old := RegToSSA (rf s) (Class r0) (Reg r0)). assert (holds (rf s) Old r0) as Hh by done.
  destruct (Z.eqb_spec Old N) as [HON|HON].
  { split; [by apply quiet_refl|split; [by left|]]. intros N' M HN' HM. simplify_eq. by apply (holds_inj _ _ _ _ _ HM Hh). }
  destruct (FreeReg_spec T R IR SSACount HR D (rf s) r0 (proj1 Hok) Hr Efr) as (f & Ef & Hfr). rewrite Ef. cbn [mbind option_bind].
  destruct (fo_holds _ _ _ _ _ _ (proj1 Hok) _ _ Hh) as [HD Hreg].
  destruct (fo_def _ _ _ _ _ _ (proj1 Hok) _ HD) as (_ & _ & Hgen & Hcl). rewrite Hreg in Hcl.
  assert (Class r0 = fixed (class_of Old)) as Hcl'.
  { destruct Hcl as [Hcl|]; [|done]. rewrite Hcl in Hst. by apply general_not_static in Hgen. }
  assert (state_ok D (set_rf f s)) as Hok0 by (split; [by eapply freed_ok, Hok|apply Hok]).
  eapply wp_mono; [|apply (InsertFor_spec T R IR SSACount HT HR E B X0 HS reads writes constv sem D p Pref Old (move_header r0) [A_Immediate r0] _ rest Args (class_of Old) (set_rf f s));
    try done; [by apply move_choice|by apply few_general| |by eapply held_valid; [apply Hok|]]].
  - intros [s' out] (s1 & out1 & r & Hin & HN). cbn [fst snd] in *.
    assert (forall n r', holds (rf s) n r' -> n = Old \/ holds f n r') as Hcase.
    { intros n r' Hn. destruct (decide (r' = r0)) as [-> |]; [left; by apply (holds_inj _ _ _ _ _ Hn Hh)|right].
      by apply (freed_holds _ _ _ _ _ _ Hfr). }
    split; [split|split].
    + apply (in_ok _ _ _ _ _ _ _ _ _ _ _ _ _ _ _ _ _ _ Hin).
    + cbn in HN. lia.
    + intros n [[r' Hn]|Hn].
      * destruct (Hcase n r' Hn) as [-> |Hn']; [left; eapply (inserted_present T R IR SSACount B X0); [done|by left]|].
        eapply (inserted_readable T R IR SSACount B X0); [done|apply Hok0|]. left. by exists r'.
      * eapply (inserted_readable T R IR SSACount B X0); [done|apply Hok0|]. by right.
    + intros n Hs [r' Hn]. destruct (Hcase n r' Hn) as [-> |Hn'].
      * eapply (inserted_present T R IR SSACount B X0); [done|by left].
      * eapply inserted_keeps; [done..|]. by exists r'.
    + intros M r' Hs Hn. eapply inserted_static in Hn; [|done..]. by apply (freed_holds _ _ _ _ _ _ Hfr) in Hn as [_ Hn].
    + apply (inserted_ranges _ _ _ _ _ _ _ _ _ _ _ _ Hin).
    + apply (inserted_ranges _ _ _ _ _ _ _ _ _ _ _ _ Hin).
    + eapply inserted_out; [done|done|done|by cbn].
    + intros q p0 Hs. eapply (inserted_sim T R IR SSACount B X0 reads writes constv sem); [done|done| |].
      * eapply freed_sim; [done..| |done]. cbn. rewrite Ed, decide_True by done. congruence.
      * intros p1 Hp1 _. exists (regs p1 r0). split; [done|]. intros w Hw. rewrite Hp1. by eapply (sm_reg _ _ _ _ _ _ _ _ _ Hs).
    + exact (inserted_step _ _ _ _ _ _ _ _ _ _ _ _ Hin).
    + intros N' M HN' HM. eapply inserted_static in HM; [|done..]. by apply (freed_holds _ _ _ _ _ _ Hfr) in HM as [HM _].
  - intros [r' Hn]. apply (freed_holds _ _ _ _ _ _ Hfr) in Hn as [Hne Hn]. apply Hne. by eapply holds_fun; [apply Hok|..].
Qed.

(** ** Filling the sources *)

Lemma InsertFill_spec D p Pref Old code rest Args s :
  state_ok D s -> D ⊆ B -> uses_wf p (nu s) -> Z.of_nat (length rest) < 2 ^ 31 -> 0 <= NewNodes s ->
  few_both Args -> Old ∈ D -> ~ present s Old -> recoverable IR s Old -> IsValidID IR Old = true ->
  wp E (InsertFill T R IR SSACount Pref Old rest Args s) (fun x =>
    quiet D code Args s x.1 x.2 /\ uses_step IR rest (nu s) (nu x.1) /\ present x.1 Old).
Proof using All.
  intros Hok HDB Hu Hlen Hnew He HD Hno Hrec Hv. unfold InsertFill. cbv zeta.
  destruct (fo_def _ _ _ _ _ _ (proj1 Hok) _ HD) as (_ & _ & Hgen & _).
  assert (forall h emit, choice_ok T R h [] (class_of Old) ->
    (forall s1 out1 r, maybe_spill R IR B rest Args (class_of Old) s s1 out1 -> slots_ok D (sp s1) ->
      slot_below (high s1) (emit r) /\
      forall q p1, sim D code s1 q p1 -> exists v,
        post_step (emit r) p1 = Some (mkPost (upd r v (regs p1)) (slots p1) (p_world p1)) /\
        forall w, env q Old = Some w -> v = w) ->
    wp E (InsertFor T R IR SSACount Pref Old h [] emit rest Args s) (fun x =>
      quiet D code Args s x.1 x.2 /\ uses_step IR rest (nu s) (nu x.1) /\ present x.1 Old)) as Hins.
  { intros h emit Hch Hemit.
    eapply wp_mono; [|apply (InsertFor_spec T R IR SSACount HT HR E B X0 HS reads writes constv sem D p Pref Old h [] emit rest Args (class_of Old) s);
      try done; by apply few_general].
    intros [s' out] (s1 & out1 & r & Hin & HN). cbn [fst snd] in *.
    destruct (Hemit s1 out1 r) as [Hb Hs]; [by eapply inserted_spill|apply (in_ok1 _ _ _ _ _ _ _ _ _ _ _ _ _ _ _ _ _ _ Hin)|].
    split; [|split; [by eapply inserted_step|eapply (inserted_present T R IR SSACount B X0); [done|by left]]].
    eapply inserted_quiet; [done..|lia|done|]. intros q p1 Hq. by apply Hs. }
  destruct (Rematerializable (IR Old)) eqn:Er.
  - apply andb_true_iff in Er as Er'. destruct Er' as [Eo _]. apply bool_decide_eq_true in Eo.
    apply Hins; [apply emitted_choice; [set_solver|done|]|].
    + unfold GetRegClassFromNode. cbn. by rewrite Eo, (constant_class _ HT).
    + intros s1 out1 r Hsp _. split; [done|]. intros q p1 Hq. eexists. split; [done|]. intros w Hw.
      symmetry. by apply (sm_const _ _ _ _ _ _ _ _ _ Hq Old).
  - destruct Hrec as [Hrec|]; [|congruence]. destruct (so_slot _ _ _ _ _ (proj2 Hok) Old (HDB _ HD) Hrec) as (_ & Hsl & _).
    rewrite (proj2 (Z.leb_le _ _)) by lia. cbn [assert_ mbind option_bind].
    apply Hins; [apply emitted_choice; [set_solver|done|]|].
    + unfold GetRegClassFromNode at 1. cbn. by rewrite (fill_class _ HT).
    + intros s1 out1 r Hsp Hx1.
      assert (SpillSlot (sp s1) Old = SpillSlot (sp s) Old) as Hsame.
      { destruct Hsp as [(_ & -> & _)|(m & r' & H)]; [done|].
        destruct (sd_slots _ _ _ _ _ _ _ _ _ _ _ H) as [(_ & -> & _)|(k & _ & Htk)]; [done|].
        rewrite (tk_slot _ _ _ _ _ Htk), decide_False; [done|]. intros ->. apply Hno. eexists. apply (sd_holds _ _ _ _ _ _ _ _ _ _ _ H). }
      rewrite <- Hsame in *. split.
      * cbn. destruct (so_slot _ _ _ _ _ Hx1 Old (HDB _ HD) Hrec) as (_ & ? & _). lia.
      * intros q p1 Hq. eexists. split; [done|]. intros w Hw. by apply (sm_slot _ _ _ _ _ _ _ _ _ Hq Old w (HDB _ HD)).
Qed.

Lemma FillSources_spec D Pref code rest Args todo s :
  state_ok D s -> D ⊆ B -> uses_ok (valid_count IR todo + code_count IR rest) (nu s) -> AnySpilled (nu s) = true ->
  Z.of_nat (length rest) < 2 ^ 31 -> 0 <= NewNodes s -> few_both Args ->
  Forall (arg_ok IR D) Args -> (forall a, a ∈ todo -> a ∈ Args) -> (forall n, source Args n -> readable s n) ->
  wp E (FillSources T R IR SSACount Pref todo rest Args s) (fun x =>
    quiet D code Args s x.1 x.2 /\ uses_ok (code_count IR rest) (nu x.1) /\ AnySpilled (nu x.1) = true /\
    forall n, source todo n -> present x.1 n).
Proof using All.
  revert s. induction todo as [|a todo IH]; intros s Hok HDB Hu Hany Hlen Hnew He HA Hsub Hrd; cbn [FillSources].
  { split; [by apply quiet_refl|]. split; [done|]. split; [done|]. intros n [[k Hk] _]. by apply not_elem_of_nil in Hk. }
  assert (forall b, b ∈ todo -> b ∈ Args) as Hsub' by (intros b Hb; apply Hsub; by constructor).
  destruct (IsValidArg IR a) as [n|] eqn:Ev.
  2:{ eapply wp_mono; [|apply IH; try done].
      - intros x (H1 & H2 & H3 & H4). split; [done|]. split; [done|]. split; [done|]. intros m [[k Hk] Hm].
        apply elem_of_cons in Hk as [<- |Hk]; [cbn in Ev; by rewrite Hm in Ev|]. apply H4. split; [by exists k|done].
      - unfold valid_count in *. cbn in Hu. by rewrite Ev in Hu. }
  destruct a as [|n' k|]; try done. cbn in Ev. destruct (IsValidID IR n') eqn:Hv; [|done]. injection Ev as ->.
  assert (source Args n) as Hsrc by (split; [exists k; apply Hsub; by constructor|done]).
  assert (n ∈ D) as HD.
  { destruct Hsrc as [[k' Hk] _]. by apply (proj1 (Forall_forall _ _) HA _ Hk). }
  assert (valid_count IR (A_Node n k :: todo) = S (valid_count IR todo)) as Hvc by (unfold valid_count; cbn; by rewrite Hv).
  rewrite Hvc in Hu. pose proof (uo_index _ _ Hu Hany) as Hidx. pose proof (uo_length _ _ Hu) as Hul.
  cbv zeta. rewrite (proj2 (Z.leb_le _ _)) by lia. cbn [assert_ mbind option_bind].
  replace (Z.to_nat (SourceIndex (nu s) - 1)) with (valid_count IR todo + code_count IR rest)%nat by lia.
  destruct (lookup_lt_is_Some_2 (SourcesNextUses (nu s)) (valid_count IR todo + code_count IR rest)%nat ltac:(lia)) as [next Hnext].
  rewrite Hnext. cbn [mbind option_bind]. set (u1 := mkUses _ _ _ _). set (s0 := set_nu u1 s).
  assert (uses_ok (valid_count IR todo + code_count IR rest) u1) as Hu1.
  { split; cbn; [intros _; lia|lia|apply (uo_sources _ _ Hu)|]. apply map_Forall_insert_2; [|apply (uo_uses _ _ Hu)].
    by apply (Forall_lookup_1 _ _ _ _ (uo_sources _ _ Hu) Hnext). }
  pose proof (quiet_uses D code Args s u1 Hok eq_refl) as Hq0. fold s0 in Hq0.
  destruct (IsInRegisterFile_spec T R IR SSACount HR D (rf s) n (proj1 Hok) HD) as (b & Eb & Hb).
  change (rf s0) with (rf s). rewrite Eb. cbn [mbind option_bind].
  apply wp_bind.
  apply (wp_mono E _ (fun x => quiet D code Args s0 x.1 x.2 /\ nu x.1 = u1 /\ present x.1 n)).
  - intros [s1 out1] (Hq1 & Hn1 & Hp1). cbn [fst snd] in *. apply wp_bind. eapply wp_mono; [|apply IH; try done].
    + intros [s2 out2] (Hq2 & H2 & H3 & H4). cbn [fst snd] in *. cbn [wp].
      split; [|split; [done|split; [done|]]].
      * apply (quiet_trans D code Args s s0 s2 [] _ Hq0). by eapply quiet_trans.
      * intros m [[k' Hk] Hm]. apply elem_of_cons in Hk as [[= -> ->]|Hk]; [by apply (qu_present _ _ _ _ _ _ Hq2)|].
        apply H4. split; [by exists k'|done].
    + apply (qu_ok _ _ _ _ _ _ Hq1).
    + by rewrite Hn1.
    + by rewrite Hn1.
    + pose proof (qu_new _ _ _ _ _ _ Hq1). cbn in *. lia.
    + intros m Hm. by apply (qu_read _ _ _ _ _ _ Hq1), (qu_read _ _ _ _ _ _ Hq0), Hrd.
  - destruct b.
    + cbn. split; [by apply quiet_refl|]. split; [done|]. exists (reg_of (rf s) n). by apply Hb.
    + assert (~ present s0 n) as Hno.
      { intros [r Hr]. destruct (fo_holds _ _ _ _ _ _ (proj1 Hok) _ _ Hr) as [_ <-]. apply Hb in Hr. done. }
      eapply wp_mono; [|apply (InsertFill_spec D (valid_count IR todo + code_count IR rest)%nat Pref n code rest Args s0); try done].
      * intros [s1 out1] (H1 & H2 & H3). split; [done|]. split; [|done]. by apply (uses_step_spilled rest u1 _ H2).
      * by intros _.
      * destruct (Hrd n Hsrc) as [Hp|[_ Hr]]; [by destruct Hno|done].
Qed.

(** ** Rewriting the arguments *)

Definition killed (Args : list Arg) (n : Z) : Prop := A_Node n true ∈ Args /\ IsValidID IR n = true.

Definition rewritten (f : RegFile) (a a' : Arg) : Prop :=
  match IsValidArg IR a with
  | Some n => a' = A_Immediate (reg_of f n)
  | None => forall r, a' <> A_Immediate r
  end.

Record used (D : gset Z) (Args : list Arg) (s s' : State) (Args' : list Arg) : Prop := {
  us_args : Forall2 (rewritten (rf s)) Args Args';
  us_ok : state_ok D s';
  us_reg : SSAToReg (rf s') = SSAToReg (rf s);
  us_holds n r : holds (rf s') n r <-> holds (rf s) n r /\ ~ killed Args n;
  us_slot n : SpillSlot (sp s') n <> 0 -> SpillSlot (sp s') n = SpillSlot (sp s) n;
  us_keep n : ~ killed Args n -> SpillSlot (sp s') n = SpillSlot (sp s) n;
  us_nu : nu s' = nu s;
  us_new : NewNodes s' = NewNodes s;
  us_ranges : ranges s' = ranges s;
  us_high : high s' = high s;
}.

Lemma release_ok D x n :
  slots_ok D x -> n ∈ B -> SpillSlot x n <> 0 -> slots_ok D (set_SpillSlot n 0 (ReleaseSlot (SpillSlot x n - 1) x)).
Proof using All.
  intros Hx HB H0. destruct (so_slot _ _ _ _ _ Hx n HB H0) as (HD & Hb & Hnf & _).
  split; cbn [FreeSlots BlockSlotHighWater SpillSlots BlockSpills set_SpillSlot ReleaseSlot].
  - intros m Hm. rewrite SpillSlot_set. destruct (decide (m = n)) as [-> |Hne]; [done|].
    change (SpillSlot (ReleaseSlot _ x) m) with (SpillSlot x m). intros H1.
    destruct (so_slot _ _ _ _ _ Hx m Hm H1) as (? & ? & Hfr & ?). split; [done|]. split; [lia|]. split; [|done].
    rewrite elem_of_app, list_elem_of_singleton. intros [|Heq]; [done|]. apply Hne.
    apply (so_inj _ _ _ _ _ Hx m n Hm HB H1). lia.
  - intros m m' Hm Hm'. rewrite !SpillSlot_set. destruct (decide (m = n)) as [-> |], (decide (m' = n)) as [-> |]; [done|done| |].
    + intros H1 H2. done.
    + by apply (so_inj _ _ _ _ _ Hx).
  - destruct (so_free _ _ _ _ _ Hx) as [Hnd Hall]. split.
    + apply NoDup_app. split; [done|]. split; [|apply NoDup_singleton]. intros k Hk ->%list_elem_of_singleton. done.
    + apply Forall_app. split; [done|]. constructor; [lia|done].
  - rewrite length_app. cbn [length]. pose proof (owners_drop x n H0) as Ho. pose proof (so_high _ _ _ _ _ Hx).
    unfold owners, set_SpillSlot, ReleaseSlot in *. cbn [SpillSlots] in *. lia.
  - apply (so_bound _ _ _ _ _ Hx).
  - apply map_Forall_insert_2; [|apply (so_keys _ _ _ _ _ Hx)].
    unfold SpillSlot in H0. destruct (SpillSlots x !! n) as [y|] eqn:Ey; [|done]. by apply (so_keys _ _ _ _ _ Hx) in Ey.
  - intros m Hm. rewrite SpillSlot_set, decide_False by (intros ->; done). by apply (so_old _ _ _ _ _ Hx).
Qed.

Lemma killed_cons a Args n : killed (a :: Args) n <-> (a = A_Node n true /\ IsValidID IR n = true) \/ killed Args n.
Proof. unfold killed. rewrite elem_of_cons. split; [intros [[<- |?] ?]; auto|intros [[-> ?]|[? ?]]; auto]. Qed.

Lemma used_keep D Args s s' Args' a a' :
  (forall n, ~ killed [a] n) -> rewritten (rf s) a a' -> used D Args s s' Args' -> used D (a :: Args) s s' (a' :: Args').
Proof.
  intros Ha Hr [H1 H2 H3 H4 H5 H6 H7 H8 H9 H10].
  assert (forall n, killed (a :: Args) n <-> killed Args n) as Hk.
  { intros n. rewrite killed_cons. split; [|auto]. intros [Hn|]; [|done]. destruct (Ha n). apply killed_cons. auto. }
  split; try done; [by constructor| |].
  - intros n r. by rewrite Hk.
  - intros n. rewrite Hk. apply H6.
Qed.

(** The state after one killed source. *)
Definition killed_state (f : RegFile) (n : Z) (s : State) : State :=
  let slot := SpillSlot (sp s) n in
  mkState f (if slot =? 0 then sp s else set_SpillSlot n 0 (ReleaseSlot (slot - 1) (sp s))) (nu s) (ForwardIP s) (NewNodes s).

Lemma killed_slot f n s m : SpillSlot (sp (killed_state f n s)) m = if decide (m = n) then 0 else SpillSlot (sp s) m.
Proof.
  unfold killed_state. cbn. destruct (Z.eqb_spec (SpillSlot (sp s) n) 0) as [H|H].
  - destruct (decide (m = n)) as [-> |]; done.
  - by rewrite SpillSlot_set.
Qed.

Lemma used_kill D Args s s' Args' f n :
  state_ok D s -> IsValidID IR n = true -> holds (rf s) n (reg_of (rf s) n) -> freed (rf s) f (reg_of (rf s) n) ->
  used D Args (killed_state f n s) s' Args' ->
  used D (A_Node n true :: Args) s s' (A_Immediate (reg_of (rf s) n) :: Args').
Proof.
  intros Hok Hv Hh Hfr [H1 H2 H3 H4 H5 H6 H7 H8 H9 H10].
  assert (forall m, killed (A_Node n true :: Args) m <-> m = n \/ killed Args m) as Hk.
  { intros m. rewrite killed_cons. split; intros [H|H]; auto; [destruct H as [[= ->] _]; auto|subst m; auto]. }
  assert (forall m, reg_of f m = reg_of (rf s) m) as Hreg by (intros m; by eapply freed_reg).
  split.
  - constructor; [by unfold rewritten; cbn; rewrite Hv|]. eapply Forall2_impl; [exact H1|].
    intros a a'. unfold rewritten. cbn [rf killed_state]. destruct (IsValidArg IR a); [|done]. by rewrite Hreg.
  - done.
  - rewrite H3. cbn. by apply (fr_reg _ _ _ Hfr).
  - intros m r. rewrite H4, Hk. cbn [rf killed_state]. rewrite (freed_holds _ _ _ _ _ _ Hfr). split.
    + intros [[Hne Hm] Hnk]. split; [done|]. intros [-> |]; [|done]. by destruct (fo_holds _ _ _ _ _ _ (proj1 Hok) _ _ Hm) as [_ ?].
    + intros [Hm Hnk]. split; [|tauto]. split; [|done]. intros ->. apply Hnk. left. by eapply holds_inj.
  - intros m Hm. specialize (H5 m Hm). rewrite H5, killed_slot in *. by destruct (decide (m = n)).
  - intros m Hm. rewrite Hk in Hm. rewrite H6, killed_slot, decide_False by tauto. done.
  - done.
  - done.
  - rewrite H9. unfold ranges, killed_state. cbn. by destruct (_ =? 0).
  - rewrite H10. unfold killed_state. cbn. by destruct (_ =? 0).
Qed.

Lemma UseSources_spec D Args later : forall s,
  state_ok D s -> D ⊆ B -> Forall (arg_ok IR D) Args -> kills_ok_args Args later -> (forall n, source Args n -> present s n) ->
  exists s' Args', UseSources SSACount Args s = Some (s', Args') /\ used D Args s s' Args'.
Proof using All.
  induction Args as [|a Args IH]; intros s Hok HDB HA Hk Hp.
  { exists s, []. split; [done|]. split; try done.
    intros n r. split; [intros H; split; [done|]; intros [Hn _]; by apply not_elem_of_nil in Hn|by intros [? _]]. }
  apply Forall_cons in HA as [Ha HA]. destruct Hk as [Hka Hk].
  assert (forall n, source Args n -> source (a :: Args) n) as Hcons.
  { intros n [[k Hn] Hv]. split; [|done]. exists k. by constructor. }
  assert (forall a', UseSources SSACount (a :: Args) s =
      ('(s, Args) ← UseSources SSACount Args s; Some (s, a' :: Args)) -> (forall n, ~ killed [a] n) -> rewritten (rf s) a a' ->
    exists s' Args', UseSources SSACount (a :: Args) s = Some (s', Args') /\ used D (a :: Args) s s' Args') as Hkeep.
  { intros a' -> Hnk Hrw. destruct (IH s Hok HDB HA Hk) as (s' & Args' & -> & Hu); [intros n Hn; by apply Hp, Hcons|].
    exists s', (a' :: Args'). split; [done|]. by apply used_keep. }
  assert (forall n, killed [a] n -> a = A_Node n true /\ IsValidID IR n = true) as Hone.
  { intros n Hn. apply killed_cons in Hn as [Hn|[Hn _]]; [done|]. by apply not_elem_of_nil in Hn. }
  destruct a as [|n k|r]; [apply (Hkeep A_Invalid); [done| |done]; intros n Hn; by destruct (Hone n Hn)| |done].
  cbn in Ha. destruct (IsValidID IR n) eqn:Hv.
  2:{ apply (Hkeep (A_Node n false)); [|intros m Hm; destruct (Hone m Hm); congruence|by unfold rewritten; cbn; rewrite Hv].
      cbn. rewrite (fo_inline _ _ _ _ _ _ (proj1 Hok) n Hv). done. }
  destruct (Hp n) as [r Hh]; [split; [exists k; by constructor|done]|].
  destruct (fo_holds _ _ _ _ _ _ (proj1 Hok) _ _ Hh) as [HD <-].
  assert (IsInvalid (reg_of (rf s) n) = false) as Hinv.
  { apply bool_decide_eq_false. intros Hr. rewrite Hr in Hh. destruct Hh as [Hh _]. unfold RegAllocSem.in_range in Hh. cbn in Hh.
    pose proof (proj1 (no_registers _ HR)). lia. }
  destruct k.
  2:{ apply (Hkeep (A_Immediate (reg_of (rf s) n))); [cbn; by rewrite Hinv|intros m Hm; by destruct (Hone m Hm)|].
      unfold rewritten. cbn. by rewrite Hv. }
  cbn [UseSources]. rewrite Hinv. destruct (IsInRegisterFile_spec T R IR SSACount HR D (rf s) n (proj1 Hok) HD) as (b & -> & Hb).
  rewrite (proj2 Hb Hh). cbn [mbind option_bind assert_].
  destruct (FreeReg_spec T R IR SSACount HR D (rf s) (reg_of (rf s) n) (proj1 Hok) (proj1 Hh) (proj1 (proj2 Hh))) as (f & -> & Hfr).
  cbn [mbind option_bind]. cbv zeta. fold (killed_state f n s).
  destruct (IH (killed_state f n s)) as (s' & Args' & -> & Hu); try done.
  - split; [by eapply freed_ok; [|apply Hh|apply Hok]|]. unfold killed_state. cbn.
    destruct (Z.eqb_spec (SpillSlot (sp s) n) 0); [apply Hok|]. apply release_ok; [apply Hok|by apply HDB|done].
  - intros m Hm. destruct (Hp m (Hcons m Hm)) as [r Hr]. exists r. apply (freed_holds _ _ _ _ _ _ Hfr). split; [|done].
    intros ->. rewrite (holds_inj _ _ _ _ _ Hr Hh) in Hm. destruct Hka as [Hka _]. by apply Hka, Hm.
  - exists s', (A_Immediate (reg_of (rf s) n) :: Args'). split; [done|]. by eapply used_kill.
Qed.

End pass.
