(* ===== verification/RegAllocStep.v ===== *)
(** * Register allocation: one instruction

    What an instruction does to the values before allocation, and to the registers afterwards,
    is related by [sim]: one lemma for an instruction that defines a node, one for a store to a
    static register and one for an operation that overwrites some of its arguments. *)

From S2P Require Import Prelude RegAlloc RegAllocSem RegAllocProps RegAllocSpill RegAllocAssign RegAllocBack RegAllocSources.
Import RegAlloc.

Section pass.
Context (T : Tables) (R : Registers) (IR : Z -> IROp_Header) (SSACount : Z).
Context (HT : tables_ok T) (HR : registers_ok R) (E : Prop) (B : gset Z) (X0 : Z -> Z) (HS : SSACount < 2 ^ 32 - 1).
Context {V W : Type} (reads writes : IROps -> nat -> bool).
Context (constv : Z -> V) (sem : Z -> list (option V) -> W -> W * V * (nat -> V)).

Abbreviation class_of n := (GetRegClassFromNode T (IR n)).
Abbreviation in_range := (in_range R).
Abbreviation holds := (holds R).
Abbreviation file_ok := (file_ok T R IR SSACount).
Abbreviation slots_ok := (slots_ok SSACount B X0).
Abbreviation state_ok := (state_ok T R IR SSACount B X0).
Abbreviation post_run := (post_run T R IR reads writes constv sem).
Abbreviation post_step := (post_step T R IR reads writes constv sem).
Abbreviation sim := (sim R IR B (V := V) (W := W) constv).
Abbreviation present := (present R).
Abbreviation readable := (readable R IR).
Abbreviation next_access := (next_access R IR).
Abbreviation inst_ok := (inst_ok T R IR writes SSACount).
Abbreviation few := (few R E).

Abbreviation source := (source IR).
Abbreviation killed := (killed IR).
Abbreviation rewritten := (rewritten IR).
Abbreviation used := (used T R IR SSACount B X0).
Abbreviation settled := (settled R IR).
Abbreviation node_step := (node_step T R IR reads writes constv sem).
Abbreviation ssa_step := (ssa_step T R IR reads writes constv sem).
Abbreviation code_ok := (code_ok T R IR writes SSACount).

(** ** Reading and writing the arguments *)

Lemma read_regs_ok f o i e g Args Args' vs :
  Forall2 (rewritten f) Args Args' -> (forall n v, source Args n -> e n = Some v -> g (reg_of f n) = v) ->
  read_nodes IR reads (V := V) o i e Args = Some vs -> read_regs reads o i g Args' = vs.
Proof.
  intros H. revert i vs. induction H as [|a a' Args Args' Ha _ IH]; intros i vs He Hr; cbn in Hr; [by simplify_eq|].
  assert (forall n v, source Args n -> e n = Some v -> g (reg_of f n) = v) as He'.
  { intros n v [[k Hk] Hv]. apply He. split; [exists k; by constructor|done]. }
  unfold rewritten in Ha. destruct (IsValidArg IR a) as [n|] eqn:Ev.
  - subst a'. cbn. destruct (reads o i).
    + destruct (e n) as [v|] eqn:En; [|done]. cbn in Hr. destruct (read_nodes IR reads o (S i) e Args) as [vs'|] eqn:Er; [|done].
      cbn in Hr. simplify_eq. rewrite (IH _ _ He' Er). f_equal. f_equal. apply He; [|done].
      destruct a as [|m k|]; try done. cbn in Ev. destruct (IsValidID IR m) eqn:Hv; [|done]. injection Ev as ->.
      split; [exists k; by constructor|done].
    + cbn in Hr. destruct (read_nodes IR reads o (S i) e Args) as [vs'|] eqn:Er; [|done]. cbn in Hr. simplify_eq.
      by rewrite (IH _ _ He' Er).
  - cbn in Hr. destruct (read_nodes IR reads o (S i) e Args) as [vs'|] eqn:Er; [|done]. cbn in Hr. simplify_eq.
    destruct a'; cbn; [by rewrite (IH _ _ He' Er)..|]. by destruct (Ha r).
Qed.

(** The nodes the arguments from [i] on write. *)
Definition writes_at (o : IROps) (i : nat) (Args : list Arg) (n : Z) : Prop :=
  exists j a, Args !! j = Some a /\ IsValidArg IR a = Some n /\ writes o (i + j)%nat = true.

Lemma writes_at_here o i a Args n : IsValidArg IR a = Some n -> writes o i = true -> writes_at o i (a :: Args) n.
Proof. intros. exists 0%nat, a. by rewrite Nat.add_0_r. Qed.

Lemma writes_at_next o i a Args n : writes_at o (S i) Args n -> writes_at o i (a :: Args) n.
Proof. intros (j & b & ? & ? & ?). exists (S j), b. by rewrite Nat.add_succ_r. Qed.

Lemma writes_at_dec f o Args r : forall i,
  (exists n, writes_at o i Args n /\ r = reg_of f n) \/ (forall n, writes_at o i Args n -> r <> reg_of f n).
Proof.
  induction Args as [|a Args IH]; intros i; [right; by intros n (j & b & Hj & _)|].
  destruct (IH (S i)) as [(n & Hn & Hr)|Hno]; [left; exists n; split; [by apply writes_at_next|done]|].
  assert (forall n, writes_at o i (a :: Args) n -> (IsValidArg IR a = Some n /\ writes o i = true) \/ r <> reg_of f n) as Hcase.
  { intros n ([|j] & b & Hj & Hv & Hw).
    - injection Hj as ->. rewrite Nat.add_0_r in Hw. auto.
    - right. apply Hno. exists j, b. by rewrite Nat.add_succ_r in Hw. }
  destruct (IsValidArg IR a) as [m|] eqn:Ev, (writes o i) eqn:Ew;
    try (right; intros n Hn; by destruct (Hcase n Hn) as [[??]|]).
  destruct (decide (r = reg_of f m)) as [Hr|Hr]; [left; exists m; split; [by apply writes_at_here|done]|right].
  intros n Hn. destruct (Hcase n Hn) as [[[= ->] _]|]; done.
Qed.

Lemma write_nodes_other o out Args n : forall i e,
  ~ writes_at o i Args n -> write_nodes IR writes (V := V) o i out Args e n = e n.
Proof.
  induction Args as [|a Args IH]; intros i e Hn; cbn; [done|].
  rewrite IH by (intros H; by apply Hn, writes_at_next). destruct (IsValidArg IR a) as [m|] eqn:Ev; [|done].
  destruct (writes o i) eqn:Ew; [|done]. apply upd_other. intros ->. by apply Hn, writes_at_here.
Qed.

Lemma write_regs_other f o out Args Args' r :
  Forall2 (rewritten f) Args Args' -> forall i (g : PhysicalRegister -> V),
  (forall n, writes_at o i Args n -> r <> reg_of f n) -> write_regs writes o i out Args' g r = g r.
Proof.
  induction 1 as [|a a' Args Args' Ha _ IH]; intros i g Hn; [done|].
  assert (forall n, writes_at o (S i) Args n -> r <> reg_of f n) as Hn' by (intros n H; by apply Hn, writes_at_next).
  unfold rewritten in Ha. destruct (IsValidArg IR a) as [n|] eqn:Ev.
  - subst a'. cbn. rewrite IH by done. destruct (writes o i) eqn:Ew; [|done]. by apply upd_other, Hn, writes_at_here.
  - destruct a' as [| |r']; cbn; [by apply IH..|]. by destruct (Ha r').
Qed.

Lemma write_agree D f o out Args Args' :
  file_ok D f -> Forall2 (rewritten f) Args Args' -> forall i e g,
  (forall n, source Args n -> holds f n (reg_of f n)) -> (forall n r v, holds f n r -> e n = Some v -> g r = v) ->
  forall n r v, holds f n r -> write_nodes IR writes (V := V) o i out Args e n = Some v -> write_regs writes o i out Args' g r = v.
Proof.
  intros Hf. induction 1 as [|a a' Args Args' Ha _ IH]; intros i e g Hs He; [done|].
  assert (forall n, source Args n -> holds f n (reg_of f n)) as Hs'.
  { intros n [[k Hk] Hv]. apply Hs. split; [exists k; by constructor|done]. }
  unfold rewritten in Ha. destruct (IsValidArg IR a) as [n|] eqn:Ev.
  - subst a'. cbn. rewrite Ev. apply IH; [done|]. destruct (writes o i); [|done]. intros m r v Hm. unfold upd at 1.
    assert (holds f n (reg_of f n)) as Hn.
    { apply Hs. destruct a as [|m' k|]; try done. cbn in Ev. destruct (IsValidID IR m') eqn:Hv; [|done]. injection Ev as ->.
      split; [exists k; by constructor|done]. }
    destruct (decide (m = n)) as [-> |Hne].
    + intros [= ->]. destruct (fo_holds _ _ _ _ _ _ Hf _ _ Hm) as [_ <-]. by rewrite upd_same.
    + intros Hv. rewrite upd_other; [by eapply He|]. intros ->. apply Hne. by eapply holds_inj.
  - cbn. rewrite Ev. destruct a' as [| |r']; cbn; [by apply IH..|]. by destruct (Ha r').
Qed.

(** ** The arguments are rewritten *)

Lemma kills_not_later Args later n : kills_ok_args Args later -> A_Node n true ∈ Args -> ~ later n.
Proof.
  induction Args as [|a Args IH]; intros Hk Hn; [by apply not_elem_of_nil in Hn|]. destruct Hk as [Ha Hk].
  apply elem_of_cons in Hn as [<- |Hn]; [apply Ha|by apply IH].
Qed.

(** The guest's registers, with the one the instruction accesses as it is after allocation. *)
Definition opened (Node : Z) (Args : list Arg) (g : PhysicalRegister -> V) (gu : PhysicalRegister -> V) : PhysicalRegister -> V :=
  match DecodeSRANode IR Node Args with
  | Some _ => upd (DecodeSRAReg R IR Node) (g (DecodeSRAReg R IR Node)) gu
  | None => gu
  end.

Lemma used_sim D D' F' Node Args rest s s' Args' q p :
  used D Args s s' Args' -> kills_ok_args Args (mentioned rest) -> state_ok D s -> code_ok D' F' rest -> (forall n, n ∈ D -> n ∉ rest.*1) ->
  sim D ((Node, Args) :: rest) s q p -> sim D rest s' (mkSSA (env q) (opened Node Args (regs p) (guest q)) (world q)) p.
Proof.
  intros Hu Hk [Hf _] Hc HD [H1 H2 H3 H4 H5]. split; cbn.
  - intros n r v Hn. apply (us_holds _ _ _ _ _ _ _ _ _ _ _ Hu) in Hn as [Hn _]. eauto.
  - intros n v HB H0. rewrite (us_slot _ _ _ _ _ _ _ _ _ _ _ Hu n H0). apply H2; [done|].
    by rewrite <- (us_slot _ _ _ _ _ _ _ _ _ _ _ Hu n H0).
  - done.
  - intros r Hst Hr. specialize (H4 r Hst Hr). cbn in H4. unfold opened.
    assert (next_access r rest = Some (RegToSSA (rf s) (Class r) (Reg r)) -> holds (rf s) (RegToSSA (rf s) (Class r) (Reg r)) r ->
      holds (rf s') (RegToSSA (rf s) (Class r) (Reg r)) r) as Hkeep.
    { intros Hna Hh. apply (us_holds _ _ _ _ _ _ _ _ _ _ _ Hu). split; [done|]. intros [Hin _].
      apply (kills_not_later _ _ _ Hk Hin). eapply next_access_mentioned; [done..|]. apply HD. by eapply fo_holds. }
    destruct (DecodeSRANode IR Node Args) as [M|]; [destruct (decide (DecodeSRAReg R IR Node = r)) as [-> |Hne]|].
    + left. by rewrite upd_same.
    + rewrite upd_other by done. destruct H4 as [|(N & HN & Hna)]; [by left|right]. exists N. split; [|done].
      assert (N = RegToSSA (rf s) (Class r) (Reg r)) as -> by (symmetry; apply HN). by apply Hkeep.
    + destruct H4 as [|(N & HN & Hna)]; [by left|right]. exists N. split; [|done].
      assert (N = RegToSSA (rf s) (Class r) (Reg r)) as -> by (symmetry; apply HN). by apply Hkeep.
  - done.
Qed.

(** ** Three ways to finish an instruction *)

Lemma finish_def D rest s s' f Node r (v : option V) q q' p p' :
  sim D rest s q p -> state_ok D s -> Node ∉ D -> Node ∈ B ->
  rf s' = f -> sp s' = sp s -> assigned (rf s) f Node r -> freeb (rf s) r = true ->
  (forall n, env q' n = if decide (n = Node) then v else env q n) -> (forall r, guest q' r = guest q r) -> world q' = p_world p' ->
  (forall r', r' <> r -> regs p' r' = regs p r') -> (forall x, v = Some x -> regs p' r = x) -> slots p' = slots p ->
  (Rematerializable (IR Node) = true -> forall x, v = Some x -> x = constv (Constant (IR Node))) ->
  (is_static (Class r) -> regs p' r = guest q r \/ next_access r rest = Some Node) ->
  sim ({[Node]} ∪ D) rest s' q' p'.
Proof.
  intros Hs [Hf Hx] HND HNB Hrf Hsp Ha Hfr He Hg Hw Hr1 Hr2 Hsl Hrem Hst.
  pose proof (free_in_range T R IR SSACount D (rf s) r Hf Hfr) as Hr. split; rewrite ?Hrf, ?Hsp.
  - intros n r' x Hn. rewrite He. apply (assigned_holds _ _ _ _ _ _ _ Ha Hr) in Hn as [[-> ->]|[Hne Hn]].
    + rewrite decide_True by done. apply Hr2.
    + rewrite decide_False, Hr1 by (done || intros ->; apply HND; by eapply fo_holds). by apply (sm_reg _ _ _ _ _ _ _ _ _ Hs).
  - intros n x HB H0. rewrite He, Hsl. rewrite decide_False; [by apply (sm_slot _ _ _ _ _ _ _ _ _ Hs)|].
    intros ->. apply HND. by apply (so_slot _ _ _ _ _ Hx).
  - intros n x Hn Hre. rewrite He. destruct (decide (n = Node)) as [-> |Hne]; [by apply Hrem|].
    apply (sm_const _ _ _ _ _ _ _ _ _ Hs); [|done]. apply elem_of_union in Hn as [->%elem_of_singleton|]; done.
  - intros r' Hst' Hr'. rewrite Hg. destruct (decide (r' = r)) as [-> |Hne].
    + destruct (Hst Hst') as [|Hna]; [by left|right]. exists Node. split; [|done]. apply (assigned_holds _ _ _ _ _ _ _ Ha Hr). by left.
    + rewrite Hr1 by done. destruct (sm_static _ _ _ _ _ _ _ _ _ Hs r' Hst' Hr') as [|(N & HN & Hna)]; [by left|right].
      exists N. split; [|done]. apply (assigned_holds _ _ _ _ _ _ _ Ha Hr). by right.
  - done.
Qed.

(** The store of node [N] to the static register [r0], which holds no other node. *)
Lemma finish_store D rest s s' q q' p p' r0 N v gu :
  sim D rest s (mkSSA (env q) gu (world q)) p -> rf s' = rf s -> sp s' = sp s ->
  (forall M, holds (rf s) M r0 -> M = N) -> env q N = Some v -> (forall r, r <> r0 -> gu r = guest q r) ->
  env q' = env q -> guest q' = upd r0 v (guest q) -> world q' = world q ->
  (forall r, regs p' r = upd r0 v (regs p) r) -> slots p' = slots p -> p_world p' = p_world p ->
  sim D rest s' q' p'.
Proof.
  intros Hs Hrf Hsp Hset Hv Hgu He Hg Hw Hr Hsl Hpw. split; rewrite ?Hrf, ?Hsp, ?He, ?Hg, ?Hw, ?Hsl, ?Hpw.
  - intros n r x Hn Hx. rewrite Hr. destruct (decide (r = r0)) as [-> |Hne].
    + rewrite upd_same. rewrite (Hset n Hn) in Hx. congruence.
    + rewrite upd_other by done. by apply (sm_reg _ _ _ _ _ _ _ _ _ Hs n).
  - apply (sm_slot _ _ _ _ _ _ _ _ _ Hs).
  - apply (sm_const _ _ _ _ _ _ _ _ _ Hs).
  - intros r Hst Hin. rewrite Hr. destruct (decide (r = r0)) as [-> |Hne]; [left; by rewrite !upd_same|].
    rewrite !upd_other by done. destruct (sm_static _ _ _ _ _ _ _ _ _ Hs r Hst Hin) as [Hx|]; [left|by right].
    cbn in Hx. by rewrite Hx, Hgu.
  - apply (sm_world _ _ _ _ _ _ _ _ _ Hs).
Qed.

(** An operation without a destination; the nodes it overwrites have no slot, and one in a static
    register stays there because its store comes next. *)
Lemma finish_op D F Node Args Args' rest s s3 s' q p w out :
  used D Args s s3 Args' -> kills_ok_args Args (mentioned rest) -> state_ok D s -> (forall n, n ∈ D -> n ∉ rest.*1) ->
  inst_ok D F Node Args -> kind_of IR Node = K_Op -> (forall n, source Args n -> present s n) ->
  (forall N r, is_static (Class r) -> holds (rf s) N r -> N ∈ F \/ next_access r ((Node, Args) :: rest) = Some N) ->
  (exists D' F', code_ok D' F' rest) -> D ⊆ B ->
  (forall n, written IR writes Node Args n -> n ∉ ranges s) -> rf s' = rf s3 -> sp s' = sp s3 ->
  sim D ((Node, Args) :: rest) s q p ->
  sim D rest s' (mkSSA (write_nodes IR writes (Op (IR Node)) 0 out Args (env q)) (guest q) w)
    (mkPost (write_regs writes (Op (IR Node)) 0 out Args' (regs p)) (slots p) w).
Proof.
  intros Hu Hk Hok HD Hi Hkind Hp Hst (D' & F' & Hc) HDB Hov Hrf Hsp Hs. pose proof Hok as [Hf Hx].
  assert (DecodeSRANode IR Node Args = None) as Hdec by (unfold DecodeSRANode, kind_of in *; by destruct (Op (IR Node))).
  assert (forall n, writes_at (Op (IR Node)) 0 Args n -> written IR writes Node Args n) as Hwr.
  { intros n (j & a & H1 & H2 & H3). exists j, a. done. }
  assert (forall n, source Args n -> holds (rf s) n (reg_of (rf s) n)) as Hsrc.
  { intros n Hn. destruct (Hp n Hn) as [r Hr]. by destruct (fo_holds _ _ _ _ _ _ Hf _ _ Hr) as [_ <-]. }
  assert (forall n, writes_at (Op (IR Node)) 0 Args n -> source Args n) as Hws.
  { intros n (j & a & H1 & H2 & _). destruct a as [|m k|]; try done. cbn in H2. destruct (IsValidID IR m) eqn:Hv; [|done].
    injection H2 as ->. split; [|done]. exists k. by eapply list_elem_of_lookup_2. }
  pose proof (used_sim D D' F' Node Args rest s s3 Args' q p Hu Hk Hok Hc HD Hs) as Hs3. unfold opened in Hs3. rewrite Hdec in Hs3.
  split; rewrite ?Hrf, ?Hsp; cbn.
  - intros n r v Hn. apply (us_holds _ _ _ _ _ _ _ _ _ _ _ Hu) in Hn as [Hn _].
    apply (write_agree D (rf s)); [done|apply (us_args _ _ _ _ _ _ _ _ _ _ _ Hu)|done| |done]. apply (sm_reg _ _ _ _ _ _ _ _ _ Hs).
  - intros n v HB H0. rewrite write_nodes_other; [by apply (sm_slot _ _ _ _ _ _ _ _ _ Hs3)|].
    intros Hn. apply (Hov n (Hwr n Hn)). apply (so_slot _ _ _ _ _ Hx n HB). by rewrite <- (us_slot _ _ _ _ _ _ _ _ _ _ _ Hu n H0).
  - intros n v Hn Hre. rewrite write_nodes_other; [by apply (sm_const _ _ _ _ _ _ _ _ _ Hs3)|]. intros Hw.
    apply (i_written _ _ _ _ _ _ _ _ _ Hi n (Hwr n Hw)). unfold Rematerializable in Hre. apply andb_true_iff in Hre as [Ho Hps].
    apply bool_decide_eq_true in Ho. unfold kind_of. by rewrite Ho, Hps.
  - intros r Hst' Hr.
    destruct (writes_at_dec (rf s) (Op (IR Node)) Args r 0) as [(n & Hn & ->)|Hno].
    + right. exists n. destruct (i_written _ _ _ _ _ _ _ _ _ Hi n (Hwr n Hn)) as (_ & HnF & _).
      destruct (Hst n _ Hst' (Hsrc n (Hws n Hn))) as [|Hna]; [done|]. cbn in Hna. rewrite Hdec in Hna. split; [|done].
      apply (us_holds _ _ _ _ _ _ _ _ _ _ _ Hu). split; [by apply Hsrc, Hws|]. intros [Hin _].
      apply (kills_not_later _ _ _ Hk Hin). eapply next_access_mentioned; [done..|]. apply HD. eapply fo_holds; [done|]. by apply Hsrc, Hws.
    + rewrite (write_regs_other (rf s) _ out Args Args' r (us_args _ _ _ _ _ _ _ _ _ _ _ Hu)) by done.
      apply (sm_static _ _ _ _ _ _ _ _ _ Hs3 r Hst' Hr).
  - done.
Qed.

(** ** An instruction with a destination *)

Lemma rewritten_lookup f Args Args' (i : nat) n :
  Forall2 (rewritten f) Args Args' -> valid_arg IR (Args !! i) = Some n -> Args' !! i = Some (A_Immediate (reg_of f n)).
Proof.
  intros H Hv. unfold valid_arg in Hv. destruct (Args !! i) as [a|] eqn:Ea; [|done]. cbn in Hv.
  destruct (Forall2_lookup_l _ _ _ _ _ H Ea) as (a' & Ha' & Hr). unfold rewritten in Hr. rewrite Hv in Hr. by subst a'.
Qed.

Lemma valid_source (Args : list Arg) (i : nat) n : valid_arg IR (Args !! i) = Some n -> source Args n.
Proof.
  unfold valid_arg. destruct (Args !! i) as [[|m k|]|] eqn:Ea; try done. cbn. destruct (IsValidID IR m) eqn:Hv; [|done].
  intros [= ->]. split; [|done]. exists k. by eapply list_elem_of_lookup_2.
Qed.

Lemma node_val_source (e : Z -> option V) (Args : list Arg) n v :
  valid_arg IR (Args !! 0%nat) = Some n -> node_val IR e (head Args) = Some v -> e n = Some v.
Proof. destruct Args as [|a Args]; [done|]. cbn. intros ->. done. Qed.

Lemma arg_reg_head f (Args Args' : list Arg) n :
  Forall2 (rewritten f) Args Args' -> valid_arg IR (Args !! 0%nat) = Some n -> arg_reg (head Args') = Some (reg_of f n).
Proof. intros H Hv. pose proof (rewritten_lookup _ _ _ _ _ H Hv) as Hl. destruct Args'; [done|]. cbn in *. by injection Hl as ->. Qed.

Lemma unwritten_op D F Node Args f Args' out e (g : PhysicalRegister -> V) :
  inst_ok D F Node Args -> defines T IR Node = true -> kind_of IR Node = K_Op -> Forall2 (rewritten f) Args Args' ->
  (forall n, write_nodes IR writes (Op (IR Node)) 0 out Args e n = e n) /\ forall r, write_regs writes (Op (IR Node)) 0 out Args' g r = g r.
Proof.
  intros Hi Hd Hk Hr. assert (forall n, ~ writes_at (Op (IR Node)) 0 Args n) as Hno.
  { intros n (j & a & H1 & H2 & H3). destruct (i_written _ _ _ _ _ _ _ _ _ Hi n) as [? _]; [|congruence]. exists j, a. done. }
  split; intros x; [by apply write_nodes_other|]. eapply write_regs_other; [done|]. intros n Hn. by destruct (Hno n).
Qed.

(** [p'] is [p] with the value [v] of the node in register [dst]. *)
Record effect (Node : Z) (dst : PhysicalRegister) (v : option V) (q q' : @SSAState V W) (p p' : @PostState V W) : Prop := {
  ef_env n : env q' n = if decide (n = Node) then v else env q n;
  ef_guest : guest q' = guest q;
  ef_world : world q' = p_world p';
  ef_slots : slots p' = slots p;
  ef_other r : r <> dst -> regs p' r = regs p r;
  ef_dst x : v = Some x -> regs p' dst = x;
  ef_const : Rematerializable (IR Node) = true -> forall x, v = Some x -> x = constv (Constant (IR Node));
  ef_load : kind_of IR Node = K_Load -> regs p' dst = guest q (DecodeSRAReg R IR Node);
}.

Lemma remat_kind Node : Rematerializable (IR Node) = true -> kind_of IR Node = K_Constant.
Proof.
  unfold Rematerializable, kind_of. rewrite andb_true_iff, bool_decide_eq_true. by intros [-> ->].
Qed.

Lemma effect_write Node dst x (q : @SSAState V W) (p : @PostState V W) w e g :
  (forall n, e n = env q n) -> (forall r, g r = regs p r) ->
  (Rematerializable (IR Node) = true -> x = constv (Constant (IR Node))) ->
  (kind_of IR Node = K_Load -> x = guest q (DecodeSRAReg R IR Node)) ->
  effect Node dst (Some x) q (mkSSA (upd Node (Some x) e) (guest q) w) p (mkPost (upd dst x g) (slots p) w).
Proof.
  intros He Hg H1 H2. split; cbn; try done.
  - intros n. unfold upd. by destruct (decide (n = Node)).
  - intros r Hr. by rewrite upd_other.
  - intros y [= <-]. apply upd_same.
  - intros Hr y [= <-]. auto.
  - intros Hk. rewrite upd_same. auto.
Qed.

Lemma effect_none Node dst x (q : @SSAState V W) (p : @PostState V W) :
  regs p dst = x -> world q = p_world p -> Rematerializable (IR Node) = false ->
  (kind_of IR Node = K_Load -> x = guest q (DecodeSRAReg R IR Node)) ->
  effect Node dst (Some x) q (mkSSA (upd Node (Some x) (env q)) (guest q) (world q)) p p.
Proof.
  intros Hd Hw Hr Hk. split; cbn; try done.
  - intros y [= <-]. done.
  - congruence.
  - intros H. rewrite Hd. auto.
Qed.

Lemma def_effect D F Node Args Args' dst t q q' p f :
  inst_ok D F Node Args -> defines T IR Node = true -> skipped IR Node = false -> Forall2 (rewritten f) Args Args' ->
  (forall n v, source Args n -> env q n = Some v -> regs p (reg_of f n) = v) -> world q = p_world p ->
  (kind_of IR Node = K_Load -> regs p (DecodeSRAReg R IR Node) = guest q (DecodeSRAReg R IR Node)) ->
  ssa_step Node Args q = Some q' -> IsTrivial R IR Node dst Args' = Some t ->
  exists v p', effect Node dst v q q' p p' /\ post_run (if t then [] else [P_Node Node dst Args']) p = Some p'.
Proof.
  intros Hi Hd Hsk Hrw Hv Hw Hl Hstep Ht. destruct q as [e gu w]. destruct p as [g sl pw]. cbn in Hv, Hw, Hl. subst pw. unfold RegAllocSem.ssa_step in Hstep.
  assert (Rematerializable (IR Node) = true -> kind_of IR Node = K_Constant) as Hrk by apply remat_kind.
  destruct (kind_of IR Node) eqn:Ek.
  - exfalso. unfold kind_of, skipped in *. destruct (Op (IR Node)); try done. by destruct (_ =? 0).
  - injection Hstep as <-. assert (t = false) as ->.
    { unfold kind_of, IsTrivial in *. destruct (Op (IR Node)); try done. by injection Ht as <-. }
    eexists _, _. split; [apply (effect_write Node dst _ (mkSSA e gu w) (mkPost g sl w) w e g); cbn; done || congruence|].
    cbn [RegAllocSem.post_run RegAllocSem.post_step RegAllocSem.node_step]. by rewrite Ek.
  - injection Hstep as <-. specialize (Hl eq_refl). destruct t.
    + eexists _, _. split; [|reflexivity]. apply (effect_none Node dst _ (mkSSA e gu w) (mkPost g sl w)); cbn; [|done| |done].
      * unfold kind_of, IsTrivial in *. destruct (Op (IR Node)); try done. injection Ht as Ht. by apply bool_decide_eq_true in Ht as ->.
      * apply not_true_iff_false. intros H. by apply Hrk in H.
    + eexists _, _. split; [by apply (effect_write Node dst _ (mkSSA e gu w) (mkPost g sl w) w e g); cbn; try done; intros H; apply Hrk in H|].
      cbn [RegAllocSem.post_run RegAllocSem.post_step RegAllocSem.node_step]. rewrite Ek. cbn. by rewrite Hl.
  - exfalso. pose proof (i_store _ _ _ _ _ _ _ _ _ Hi Ek). congruence.
  - injection Hstep as <-. assert (t = true) as ->.
    { unfold kind_of, IsTrivial in *. destruct (Op (IR Node)); try done; [by destruct (_ =? 0)|..]; by injection Ht as <-. }
    exists None, (mkPost g sl w). split; [|done]. split; cbn; try done; intros Hx; congruence.
  - destruct (i_move _ _ _ _ _ _ _ _ _ Hi Ek) as [n Hn]. destruct (node_val IR e (head Args)) as [v|] eqn:Ev; [|done]. cbn in Hstep.
    injection Hstep as <-. pose proof (node_val_source _ _ _ _ Hn Ev) as Hen.
    pose proof (Hv n v (valid_source _ _ _ Hn) Hen) as Hg. destruct t.
    + eexists _, _. split; [|reflexivity]. apply (effect_none Node dst _ (mkSSA e gu w) (mkPost g sl w)); cbn; [|done| |congruence].
      * unfold kind_of, IsTrivial in *. destruct (Op (IR Node)); try done.
        rewrite (rewritten_lookup _ _ _ _ _ Hrw Hn) in Ht. cbn in Ht. injection Ht as Ht. by apply bool_decide_eq_true in Ht as ->.
      * apply not_true_iff_false. intros H. by apply Hrk in H.
    + eexists _, _. split; [by apply (effect_write Node dst v (mkSSA e gu w) (mkPost g sl w) w e g); cbn; try done; intros H; [apply Hrk in H|congruence]|].
      cbn [RegAllocSem.post_run RegAllocSem.post_step RegAllocSem.node_step]. rewrite Ek, (arg_reg_head _ _ _ _ Hrw Hn). cbn. by rewrite Hg.
  - destruct (read_nodes IR reads (Op (IR Node)) 0 e Args) as [vs|] eqn:Er; [|done]. cbn in Hstep.
    pose proof (read_regs_ok f _ _ e g _ _ _ Hrw Hv Er) as Hrd.
    destruct (sem Node vs w) as [[w' d] out] eqn:Es.
    assert (GetHasDest T (Op (IR Node)) = true) as Hdest by (by apply andb_true_iff in Hd as [? _]).
    rewrite Hdest in Hstep. injection Hstep as <-.
    assert (t = false) as ->.
    { unfold kind_of, IsTrivial in *. by destruct (Op (IR Node)); try done; injection Ht as <-. }
    destruct (unwritten_op D F Node Args f Args' out e g Hi Hd Ek Hrw) as [Hwn Hwr].
    eexists _, _. split; [apply (effect_write Node dst d (mkSSA e gu w) (mkPost g sl w) w' _ _ Hwn Hwr); [intros H; by apply Hrk in H|congruence]|].
    cbn [RegAllocSem.post_run RegAllocSem.post_step RegAllocSem.node_step]. rewrite Ek, Hrd, Es, Hdest. done.
Qed.

End pass.
