(* ===== verification/RegAllocForward.v ===== *)
(** * Register allocation: the forward pass

    [inv] is the invariant of the forward pass: the register file and the slots are well formed,
    every node still to be read can be, and a node in a static register was loaded from or stored
    to it or will be.  [Allocate] keeps it and keeps the values related. *)

From S2P Require Import Prelude RegAlloc RegAllocSem RegAllocProps RegAllocSpill RegAllocAssign RegAllocBack RegAllocSources RegAllocStep.
Import RegAlloc.

Section pass.
Context (T : Tables) (R : Registers) (IR : Z -> IROp_Header) (SSACount : Z).
Context (HT : tables_ok T) (HR : registers_ok R) (E : Prop) (B : gset Z) (X0 : Z -> Z) (HS : SSACount < 2 ^ 32 - 1).
Context {V W : Type} (reads writes : IROps -> nat -> bool).
Context (constv : Z -> V) (sem : Z -> list (option V) -> W -> W * V * (nat -> V)).

Abbreviation class_of n := (GetRegClassFromNode T (IR n)).
Abbreviation in_range := (in_range R).
Abbreviation holds := (holds R).
Abbreviation file_ok := (file_ok T R IR SSACount).
Abbreviation slots_ok := (slots_ok SSACount B X0).
Abbreviation state_ok := (state_ok T R IR SSACount B X0).
Abbreviation post_run := (post_run T R IR reads writes constv sem).
Abbreviation post_step := (post_step T R IR reads writes constv sem).
Abbreviation sim := (sim R IR B (V := V) (W := W) constv).
Abbreviation present := (present R).
Abbreviation readable := (readable R IR).
Abbreviation next_access := (next_access R IR).
Abbreviation inst_ok := (inst_ok T R IR writes SSACount).
Abbreviation few := (few R E).

Abbreviation source := (source IR).
Abbreviation killed := (killed IR).
Abbreviation rewritten := (rewritten IR).
Abbreviation used := (used T R IR SSACount B X0).
Abbreviation settled := (settled R IR).
Abbreviation ssa_step := (ssa_step T R IR reads writes constv sem).
Abbreviation ssa_run := (ssa_run T R IR reads writes constv sem).
Abbreviation code_ok := (code_ok T R IR writes SSACount).
Abbreviation quiet := (quiet T R IR SSACount B X0 (V := V) (W := W) reads writes constv sem).
Abbreviation few_both := (few_both R E).
Abbreviation high s := (BlockSlotHighWater (sp s)).
Abbreviation prefs_ok := (prefs_ok R IR).

Definition after_D (D : gset Z) (Node : Z) : gset Z := if defines T IR Node then {[Node]} ∪ D else D.
Definition after_F (F : gset Z) (Node : Z) (Args : list Arg) : gset Z :=
  match DecodeSRANode IR Node Args with Some n => {[n]} ∪ F | None => F end.

(** What is known of the code to come. *)
Record facts (D F : gset Z) (Pref : gmap Z PhysicalRegister) (code : Code) : Prop := {
  fc_code : code_ok D F code;
  fc_kills : kills_ok code;
  fc_prefs : prefs_ok Pref code;
  fc_nodup : NoDup (code.*1);
  fc_fresh n : n ∈ D -> n ∉ code.*1;
  fc_block n : n ∈ code.*1 -> n ∈ B;
  fc_length : Z.of_nat (length code) < 2 ^ 31;
  fc_few : Forall (fun i : Z * list Arg => few_both i.2) code;
}.

Record inv (D F : gset Z) (code : Code) (s : State) : Prop := {
  iv_ok : state_ok D s;
  iv_sub : D ⊆ B;
  iv_uses : uses_wf (code_count IR code) (nu s);
  iv_new : 0 <= NewNodes s;
  iv_read n : n ∈ D -> mentioned code n -> readable s n;
  iv_static N r : is_static (Class r) -> holds (rf s) N r -> N ∈ F \/ next_access r code = Some N;
}.

Lemma facts_tail D F Pref Node Args rest :
  facts D F Pref ((Node, Args) :: rest) -> facts (after_D D Node) (after_F F Node Args) Pref rest.
Proof.
  intros [[H1 H1'] [H2 H2'] [H3 H3'] H4 H5 H6 H7 H8]. cbn in H4. apply NoDup_cons in H4 as [H4 H4'].
  apply Forall_cons in H8 as [_ H8]. split; try done.
  - intros n Hn Hin. assert (n = Node \/ n ∈ D) as [-> |HD]; [|done|by apply (H5 n HD); constructor].
    unfold after_D in Hn. destruct (defines T IR Node); [|by right]. by apply elem_of_union in Hn as [->%elem_of_singleton|]; [left|right].
  - intros n Hn. apply H6. by constructor.
  - cbn [length] in H7. lia.
Qed.

Lemma next_access_class D F r code : forall N,
  code_ok D F code -> next_access r code = Some N -> Class r = fixed (class_of N).
Proof.
  revert D F. induction code as [|[n Args] code IH]; intros D F N Hc H; [done|]. destruct Hc as [Hi Hc]. cbn in H.
  destruct (DecodeSRANode IR n Args) as [M|] eqn:Ed; [|by eapply IH].
  destruct (decide _) as [<- |]; [|by eapply IH]. injection H as ->.
  destruct (access_static _ _ _ _ _ _ _ _ _ _ Hi Ed) as (_ & _ & Hk).
  destruct (i_sra _ _ _ _ _ _ _ _ _ Hi) as (_ & m & Hm & _ & _ & Hcl); [destruct Hk as [[? _]|[? _]]; auto|]. congruence.
Qed.

(** ** Before the instruction *)

Record prepared (D : gset Z) (Node : Z) (Args : list Arg) (rest : Code) (s s2 : State) (out : list PostOp) : Prop := {
  pr_quiet : quiet D ((Node, Args) :: rest) Args s s2 out;
  pr_settled : settled Node Args s2;
  pr_uses : uses_wf (code_count IR rest) (nu s2);
  pr_sources n : source Args n -> present s2 n;
}.

Lemma source_defined D Args n : Forall (arg_ok IR D) Args -> source Args n -> n ∈ D.
Proof. intros HA [[k Hk] Hv]. by apply (proj1 (Forall_forall _ _) HA _ Hk). Qed.

Lemma prepare_spec {A} D F Pref Node Args rest s (k : State -> list PostOp -> list PostOp -> option A) Q :
  facts D F Pref ((Node, Args) :: rest) -> inv D F ((Node, Args) :: rest) s ->
  (forall s2 c1 c2, prepared D Node Args rest s s2 (c1 ++ c2) -> wp E (k s2 c1 c2) Q) ->
  wp E ('(s1, c1) ← Evict T R IR SSACount Pref Node Args rest s;
        '(s2, c2) ← (if AnySpilled (nu s) then FillSources T R IR SSACount Pref Args rest Args s1 else Some (s1, []));
        k s2 c1 c2) Q.
Proof using All.
  intros Hfc Hv Hk. pose proof (fc_code _ _ _ _ Hfc) as [Hi _]. pose proof (fc_few _ _ _ _ Hfc) as He. apply Forall_cons in He as [He _]. cbn in He.
  assert (Z.of_nat (length rest) < 2 ^ 31) as Hlen by (pose proof (fc_length _ _ _ _ Hfc) as Hl; cbn [length] in Hl; lia).
  assert (forall n, source Args n -> readable s n) as Hrd.
  { intros n Hn. apply (iv_read _ _ _ _ Hv); [by eapply source_defined; [apply (i_args _ _ _ _ _ _ _ _ _ Hi)|]|].
    apply mentioned_cons. left. apply Hn. }
  apply wp_bind. eapply wp_mono; [|apply (Evict_spec T R IR SSACount HT HR E B X0 HS reads writes constv sem D F (code_count IR ((Node, Args) :: rest)));
    [apply Hv|apply Hv|apply Hv|done|apply Hv|done|done]].
  intros [s1 c1] (Hq1 & Hu1 & Hs1). cbn [fst snd] in *. apply wp_bind. destruct (AnySpilled (nu s)) eqn:Ea.
  - pose proof (uses_step_spilled IR rest _ _ Hu1 Ea) as Hnu.
    eapply wp_mono; [|apply (FillSources_spec T R IR SSACount HT HR E B X0 HS reads writes constv sem D Pref ((Node, Args) :: rest) rest Args Args s1);
      [apply (qu_ok _ _ _ _ _ _ _ _ _ _ _ _ _ _ _ _ Hq1)|apply Hv| | |done| |done|apply (i_args _ _ _ _ _ _ _ _ _ Hi)|done|]].
    + intros [s2 c2] (Hq2 & Hu2 & _ & Hp2). cbn [fst snd] in *. apply Hk. split; [by eapply quiet_trans| |by intros _|done].
      intros N M HN HM. apply (Hs1 N M HN).
      destruct (access_static _ _ _ _ _ _ _ _ _ _ Hi HN) as (_ & Hst & _). by apply (qu_static _ _ _ _ _ _ _ _ _ _ _ _ _ _ _ _ Hq2).
    + rewrite Hnu. apply (iv_uses _ _ _ _ Hv Ea).
    + by rewrite Hnu.
    + pose proof (qu_new _ _ _ _ _ _ _ _ _ _ _ _ _ _ _ _ Hq1). pose proof (iv_new _ _ _ _ Hv). lia.
    + intros n Hn. apply (qu_read _ _ _ _ _ _ _ _ _ _ _ _ _ _ _ _ Hq1). auto.
  - cbn. apply Hk. rewrite app_nil_r. split; [done|done|by eapply uses_step_wf|]. intros n Hn.
    apply (qu_present _ _ _ _ _ _ _ _ _ _ _ _ _ _ _ _ Hq1); [done|]. destruct (Hrd n Hn) as [|[? _]]; [done|congruence].
Qed.

(** ** The invariant after the sources are used, and after the destination is assigned *)

Lemma next_access_cons r Node Args rest N F :
  N ∈ F \/ next_access r ((Node, Args) :: rest) = Some N -> N ∈ after_F F Node Args \/ next_access r rest = Some N.
Proof.
  unfold after_F. cbn. destruct (DecodeSRANode IR Node Args) as [M|]; [|done].
  intros [HN|HN]; [left; apply elem_of_union; by right|].
  destruct (decide _); [left|by right]. injection HN as ->. apply elem_of_union. left. by apply elem_of_singleton.
Qed.

Lemma inv_used D F Pref Node Args rest s s2 out s3 Args' :
  facts D F Pref ((Node, Args) :: rest) -> inv D F ((Node, Args) :: rest) s -> prepared D Node Args rest s s2 out ->
  used D Args s2 s3 Args' -> inv D (after_F F Node Args) rest s3.
Proof.
  intros Hfc [H1 H2 H3 H4 H5 H6] [Hq Hset Hu Hsrc] Hus. pose proof (fc_kills _ _ _ _ Hfc) as [Hk _].
  split.
  - apply (us_ok _ _ _ _ _ _ _ _ _ _ _ Hus).
  - done.
  - by rewrite (us_nu _ _ _ _ _ _ _ _ _ _ _ Hus).
  - rewrite (us_new _ _ _ _ _ _ _ _ _ _ _ Hus). pose proof (qu_new _ _ _ _ _ _ _ _ _ _ _ _ _ _ _ _ Hq). lia.
  - intros n HD Hm. assert (~ killed Args n) as Hnk by (intros [Hn _]; by apply (kills_not_later _ _ _ Hk Hn)).
    assert (readable s2 n) as Hr.
    { apply (qu_read _ _ _ _ _ _ _ _ _ _ _ _ _ _ _ _ Hq), H5; [done|]. apply mentioned_cons. by right. }
    unfold RegAllocAssign.readable, recoverable in *. rewrite (us_nu _ _ _ _ _ _ _ _ _ _ _ Hus), (us_keep _ _ _ _ _ _ _ _ _ _ _ Hus n Hnk).
    destruct Hr as [[r Hr]|]; [left; exists r; by apply (us_holds _ _ _ _ _ _ _ _ _ _ _ Hus)|by right].
  - intros N r Hst Hh. apply next_access_cons, (H6 N r Hst), (qu_static _ _ _ _ _ _ _ _ _ _ _ _ _ _ _ _ Hq); [done|].
    by apply (us_holds _ _ _ _ _ _ _ _ _ _ _ Hus) in Hh as [Hh _].
Qed.

Lemma slots_ok_mono D D' x : D ⊆ D' -> slots_ok D x -> slots_ok D' x.
Proof.
  intros Hsub [H1 H2 H3 H4 H5 H6 H7]. split; try done. intros n HB H0. destruct (H1 n HB H0) as (HD & H). split; [by apply Hsub|done].
Qed.

Lemma inv_assigned D F rest Ex c s3 s4 out f Node r s5 :
  inv D F rest s3 -> maybe_spill R IR B rest Ex c s3 s4 out -> Z.of_nat (length rest) < 2 ^ 31 -> state_ok D s4 -> Node ∈ B -> Node ∉ D ->
  0 < Node < SSACount -> IsValidID IR Node = true -> typed T IR Node r ->
  assigned (rf s4) f Node r -> freeb (rf s4) r = true -> NewNodes s4 = NewNodes s3 ->
  (is_static (Class r) -> Node ∈ F \/ next_access r rest = Some Node) ->
  rf s5 = f -> sp s5 = sp s4 -> nu s5 = nu s4 -> NewNodes s5 = NewNodes s4 -> inv ({[Node]} ∪ D) F rest s5.
Proof.
  intros [H1 H2 H3 H4 H5 H6] Hms Hlen [Hf4 Hx4] HNB HND Hn Hv Hty Ha Hfr Hnew Hst Erf Esp Enu Enew.
  pose proof (free_in_range T R IR SSACount D (rf s4) r Hf4 Hfr) as Hr.
  assert (forall m r', holds (rf s4) m r' -> holds f m r') as Hkeep.
  { intros m r' Hm. apply (assigned_holds _ _ _ _ _ _ _ Ha Hr). right. split; [|done]. intros ->. destruct Hm as (_ & Hm & _). congruence. }
  split; rewrite ?Erf, ?Esp, ?Enu, ?Enew.
  - split; rewrite ?Erf, ?Esp; [|eapply slots_ok_mono, Hx4; intros x Hx; apply elem_of_union; by right].
    eapply (assigned_ok T R IR SSACount HT HR D); try done. intros r' Hh. apply HND. by eapply fo_holds.
  - intros n [->%elem_of_singleton|Hin]%elem_of_union; [done|by apply H2].
  - destruct (maybe_spill_step R IR B rest Ex c s3 s4 out Hms) as [-> |[_ ->]]; [done|].
    intros _. by apply CalculateNextUses_ok.
  - lia.
  - intros n [->%elem_of_singleton|Hin]%elem_of_union Hm.
    + left. exists r. rewrite Erf. apply (assigned_holds _ _ _ _ _ _ _ Ha Hr). by left.
    + assert (readable s4 n) as Hrd by (eapply maybe_spill_readable; [apply H1|done|by apply H5]).
      unfold RegAllocAssign.readable, RegAllocAssign.present, recoverable in *. rewrite Erf, Esp, Enu.
      destruct Hrd as [[r' Hr']|]; [left; eauto|by right].
  - intros N r' Hst' Hh. apply (assigned_holds _ _ _ _ _ _ _ Ha Hr) in Hh as [[-> ->]|[_ Hh]]; [by apply Hst|].
    apply H6; [done|]. by eapply maybe_spill_static.
Qed.

(** The destination's choice of a register. *)
Lemma used_choice D F Node Args rest Args' f :
  inst_ok D F Node Args -> code_ok (after_D D Node) (after_F F Node Args) rest -> defines T IR Node = true -> file_ok D f ->
  Forall2 (rewritten f) Args Args' -> choice_ok T R (IR Node) Args' (class_of Node).
Proof.
  intros Hi Hc Hd Hf Hrw. split.
  - done.
  - by apply (i_class _ _ _ _ _ _ _ _ _ Hi).
  - intros Ht. destruct (i_tied _ _ _ _ _ _ _ _ _ Hi Hd Ht) as (n & Hn & Hcl).
    exists (reg_of f n). split; [by eapply rewritten_lookup|].
    destruct (fo_def _ _ _ _ _ _ Hf n) as (_ & Hr & _ & Hty); [eapply source_defined; [apply (i_args _ _ _ _ _ _ _ _ _ Hi)|by eapply valid_source]|].
    split; [done|]. by rewrite <- Hcl.
  - destruct (pair_class _ HT) as [H1 H2]. intros [Ho|Ho]; unfold GetRegClassFromNode; rewrite Ho, ?H1, ?H2; done.
  - intros Ho. destruct (i_after _ _ _ _ _ _ _ _ _ Hi Ho) as (n & Hn). exists (reg_of f n). split; [by eapply rewritten_lookup|].
    apply (fo_def _ _ _ _ _ _ Hf n). eapply source_defined; [apply (i_args _ _ _ _ _ _ _ _ _ Hi)|by eapply valid_source].
Qed.

Lemma rewritten_trivial D F Node Args Args' f dst :
  inst_ok D F Node Args -> Forall2 (rewritten f) Args Args' -> exists t, IsTrivial R IR Node dst Args' = Some t.
Proof.
  intros Hi Hrw. unfold IsTrivial. destruct (Op (IR Node)) eqn:Eo; eauto.
  - destruct (i_sra _ _ _ _ _ _ _ _ _ Hi) as (_ & n & _ & Hn & _); [right; unfold kind_of; by rewrite Eo|].
    rewrite (rewritten_lookup _ _ _ _ _ _ Hrw (Hn ltac:(unfold kind_of; by rewrite Eo))). cbn. eauto.
  - destruct (i_move _ _ _ _ _ _ _ _ _ Hi) as (n & Hn); [unfold kind_of; by rewrite Eo|].
    rewrite (rewritten_lookup _ _ _ _ _ _ Hrw Hn). cbn. eauto.
Qed.

(** ** One instruction *)

Record stepped (D F : gset Z) (Node : Z) (Args : list Arg) (rest : Code) (s s' : State) (out : list PostOp) : Prop := {
  st_inv : inv (after_D D Node) (after_F F Node Args) rest s';
  st_ranges : ranges s ⊆ ranges s';
  st_high : high s <= high s';
  st_out : Forall (slot_below (high s')) out;
  st_sim : (forall n, written IR writes Node Args n -> n ∉ ranges s') -> forall q q' p,
    sim D ((Node, Args) :: rest) s q p -> ssa_step Node Args q = Some q' ->
    exists p', post_run out p = Some p' /\ sim (after_D D Node) rest s' q' p';
}.

Lemma skip_spec D F Pref Node Args rest s :
  facts D F Pref ((Node, Args) :: rest) -> inv D F ((Node, Args) :: rest) s -> skipped IR Node = true ->
  stepped D F Node Args rest s s [P_Node Node Invalid Args].
Proof.
  intros Hfc [H1 H2 H3 H4 H5 H6] Hsk. pose proof (fc_code _ _ _ _ Hfc) as [Hi _].
  pose proof (i_skip _ _ _ _ _ _ _ _ _ Hi Hsk) as ->.
  assert (kind_of IR Node = K_Skip /\ DecodeSRANode IR Node [] = None /\ defines T IR Node = false) as (Hk & Hdec & Hdef).
  { pose proof (no_dest _ HT) as Hno. rewrite !Forall_cons in Hno. destruct Hno as (Hn1 & Hn2 & _).
    unfold skipped, kind_of, DecodeSRANode, defines in *. apply orb_true_iff in Hsk as [Hsk|Hsk];
      apply bool_decide_eq_true in Hsk; rewrite Hsk, ?Hn1, ?Hn2; done. }
  assert (forall r, next_access r ((Node, []) :: rest) = next_access r rest) as Hna by (intros r; cbn; by rewrite Hdec).
  assert (after_D D Node = D /\ after_F F Node [] = F) as [HaD HaF] by (unfold after_D, after_F; by rewrite Hdef, Hdec).
  split; rewrite ?HaD, ?HaF; [|done|done|by constructor|].
  - split; try done.
    + intros n HD Hm. apply H5; [done|]. apply mentioned_cons. by right.
    + intros N r Hst Hh. rewrite <- Hna. by apply H6.
  - intros _ q q' p Hs Hstep. exists p. destruct q as [e gu w]. unfold RegAllocSem.ssa_step in Hstep. rewrite Hk in Hstep.
    injection Hstep as <-. split; [destruct p; cbn; by rewrite Hk|].
    destruct Hs as [S1 S2 S3 S4 S5]. split; try done. intros r Hst Hr. rewrite <- Hna. by apply S4.
Qed.

Lemma quiet_out_app D code Args s s2 s' o1 o2 :
  quiet D code Args s s2 o1 -> high s2 <= high s' -> Forall (slot_below (high s')) o2 -> Forall (slot_below (high s')) (o1 ++ o2).
Proof.
  intros Hq Hh H2. apply Forall_app. split; [|done]. eapply slot_below_mono; [exact Hh|apply (qu_out _ _ _ _ _ _ _ _ _ _ _ _ _ _ _ _ Hq)].
Qed.

(** The sources have their values in registers before the instruction. *)
Lemma source_values D code s q p n v :
  state_ok D s -> sim D code s q p -> present s n -> env q n = Some v -> regs p (reg_of (rf s) n) = v.
Proof.
  intros [Hf _] Hs [r Hr] Hv. destruct (fo_holds _ _ _ _ _ _ Hf _ _ Hr) as [_ ->]. by eapply (sm_reg _ _ _ _ _ _ _ _ _ Hs).
Qed.

(** A load reads the guest's register. *)
Lemma load_value D F Pref Node Args rest s q p :
  facts D F Pref ((Node, Args) :: rest) -> state_ok D s -> settled Node Args s -> sim D ((Node, Args) :: rest) s q p ->
  kind_of IR Node = K_Load -> regs p (DecodeSRAReg R IR Node) = guest q (DecodeSRAReg R IR Node).
Proof.
  intros Hfc [Hf _] Hset Hs Hk. pose proof (fc_code _ _ _ _ Hfc) as [Hi _].
  assert (DecodeSRANode IR Node Args = Some Node) as Hd.
  { unfold DecodeSRANode, kind_of in *. destruct (Op (IR Node)); try done. by destruct (_ =? 0). }
  destruct (access_static _ _ _ _ _ _ _ _ _ _ Hi Hd) as (Hr & Hst & _).
  destruct (sm_static _ _ _ _ _ _ _ _ _ Hs _ Hst Hr) as [|(N & HN & _)]; [done|].
  rewrite (Hset Node N Hd HN) in HN. exfalso. apply (fc_fresh _ _ _ _ Hfc Node); [by eapply fo_holds|by constructor].
Qed.

Lemma sim_guest D code s q p gu :
  sim D code s (mkSSA (env q) gu (world q)) p -> (forall r, gu r = guest q r) -> sim D code s q p.
Proof. intros [H1 H2 H3 H4 H5] Hg. split; try done. intros r Hst Hr. rewrite <- Hg. by apply H4. Qed.

Lemma opened_same Node Args (g gu : PhysicalRegister -> V) r :
  (forall N, DecodeSRANode IR Node Args = Some N -> g (DecodeSRAReg R IR Node) = gu (DecodeSRAReg R IR Node)) ->
  opened R IR Node Args g gu r = gu r.
Proof.
  intros H. unfold opened. destruct (DecodeSRANode IR Node Args) as [N|]; [|done]. unfold upd.
  destruct (decide _) as [-> |]; [by eapply H|done].
Qed.

Lemma defined_decode Node Args D F :
  inst_ok D F Node Args -> defines T IR Node = true -> forall N, DecodeSRANode IR Node Args = Some N -> kind_of IR Node = K_Load /\ N = Node.
Proof.
  intros Hi Hd N HN. destruct (access_static _ _ _ _ _ _ _ _ _ _ Hi HN) as (_ & _ & [[? ?]|[Hk _]]); [done|].
  pose proof (i_store _ _ _ _ _ _ _ _ _ Hi Hk). congruence.
Qed.

(** The register chosen for the destination suits the node, and a static one will be accessed
    for this node next. *)
Lemma destination D F Pref Node Args rest f r :
  facts D F Pref ((Node, Args) :: rest) -> defines T IR Node = true -> good_reg SSACount Pref (class_of Node) Node f r ->
  typed T IR Node r /\ (is_static (Class r) -> next_access r ((Node, Args) :: rest) = Some Node).
Proof.
  intros Hfc Hd [_ Hg]. pose proof (fc_code _ _ _ _ Hfc) as Hc. pose proof (i_class _ _ _ _ _ _ _ _ _ (proj1 Hc) Hd) as Hgen.
  destruct Hg as [Hg|(_ & Hp & Hst)].
  - split; [split; [done|by left]|]. rewrite Hg. intros Hst. by apply general_not_static in Hgen.
  - pose proof (fc_prefs _ _ _ _ Hfc) as [Hpr _]. destruct (Hpr r Hp) as [-> |(Hna & _)]; [by destruct Hst|].
    split; [|done]. split; [done|right]. by eapply next_access_class.
Qed.

Lemma pref_wf_head D F Pref Node Args rest : facts D F Pref ((Node, Args) :: rest) -> pref_wf R SSACount Pref Node.
Proof.
  intros Hfc _ r Hr. pose proof (fc_prefs _ _ _ _ Hfc) as [Hpr _]. destruct (Hpr r Hr) as [|(_ & H)]; auto.
Qed.

Lemma few_rewritten f Args Args' c : Forall2 (rewritten f) Args Args' -> few Args c -> few Args' c.
Proof. intros H [|Hf]; [by left|right]. by rewrite <- (Forall2_length _ _ _ H). Qed.

(** The values after an instruction with a destination; [p] is the state before the spill that
    makes room for it. *)
Lemma define_sim D F Pref Node Args Args' rest s2 s3 s4 s5 c3 f dst t q q' p :
  facts D F Pref ((Node, Args) :: rest) -> state_ok D s2 -> settled Node Args s2 -> (forall n, source Args n -> present s2 n) ->
  used D Args s2 s3 Args' -> maybe_spill R IR B rest Args' (class_of Node) s3 s4 c3 -> state_ok D s4 ->
  defines T IR Node = true -> skipped IR Node = false -> good_reg SSACount Pref (class_of Node) Node (rf s4) dst ->
  assigned (rf s4) f Node dst -> rf s5 = f -> sp s5 = sp s4 -> IsTrivial R IR Node dst Args' = Some t ->
  sim D ((Node, Args) :: rest) s2 q p -> ssa_step Node Args q = Some q' ->
  exists p', post_run (c3 ++ if t then [] else [P_Node Node dst Args']) p = Some p' /\ sim ({[Node]} ∪ D) rest s5 q' p'.
Proof.
  intros Hfc Hok2 Hset Hsrc Hus Hms Hok4 Hd Hsk Hg Ha Erf Esp Ht Hs Hstep.
  pose proof (fc_code _ _ _ _ Hfc) as [Hi Hc]. pose proof (fc_kills _ _ _ _ Hfc) as [Hk _].
  pose proof (i_class _ _ _ _ _ _ _ _ _ Hi Hd) as Hgen. destruct (destination _ _ _ _ _ _ _ _ Hfc Hd Hg) as [_ Hst].
  assert (forall n, n ∈ D -> n ∉ rest.*1) as Hfresh.
  { intros n HD Hn. apply (fc_fresh _ _ _ _ Hfc n HD). by constructor. }
  pose proof (load_value _ _ _ _ _ _ _ _ _ Hfc Hok2 Hset Hs) as Hload.
  pose proof (used_sim _ _ _ _ _ _ _ _ _ _ _ _ _ _ _ _ _ _ _ Hus Hk Hok2 Hc Hfresh Hs) as Hs3.
  apply sim_guest in Hs3.
  2:{ intros r. apply opened_same. intros N HN. destruct (defined_decode _ _ _ _ Hi Hd N HN) as [Hkl _]. auto. }
  destruct (maybe_spill_sim T R IR B reads writes constv sem D rest _ _ _ _ _ _ q p Hms Hgen Hs3) as (p4 & Hrun & Hregs & Hs4).
  destruct (def_effect T R IR SSACount reads writes constv sem D F Node Args Args' dst t q q' p4 (rf s2)) as (v & p5 & Hef & Hrun5); try done.
  - apply (us_args _ _ _ _ _ _ _ _ _ _ _ Hus).
  - intros n x Hn Hx. rewrite Hregs. by eapply source_values; [..|apply Hsrc|].
  - apply (sm_world _ _ _ _ _ _ _ _ _ Hs4).
  - intros Hkl. rewrite Hregs. auto.
  - exists p5. split; [by rewrite post_run_app, Hrun|]. destruct Hef as [F1 F2 F3 F4 F5 F6 F7 F8].
    eapply finish_def; [exact Hs4|exact Hok4| | |exact Erf|exact Esp|exact Ha|apply Hg|exact F1|by rewrite F2|exact F3|exact F5|exact F6|exact F4|exact F7|].
    + intros HD. apply (fc_fresh _ _ _ _ Hfc Node HD). by constructor.
    + apply (fc_block _ _ _ _ Hfc). by constructor.
    + intros Hst'. specialize (Hst Hst'). cbn in Hst. destruct (DecodeSRANode IR Node Args) as [N|] eqn:Ed; [|by right].
      destruct (defined_decode _ _ _ _ Hi Hd N Ed) as [Hkl ->]. destruct (decide _) as [<- |]; [|by right]. left. by apply F8.
Qed.

Lemma define_spec D F Pref Node Args Args' rest s s2 out s3 :
  facts D F Pref ((Node, Args) :: rest) -> inv D F ((Node, Args) :: rest) s -> prepared D Node Args rest s s2 out ->
  used D Args s2 s3 Args' -> defines T IR Node = true -> skipped IR Node = false ->
  wp E (AssignReg T R IR SSACount Pref (IR Node) Node Args' rest Args' s3) (fun x =>
    let '(s5, c3, dst) := x in forall t ip, IsTrivial R IR Node dst Args' = Some t ->
    stepped D F Node Args rest s (mkState (rf s5) (sp s5) (nu s5) ip (NewNodes s5)) (out ++ c3 ++ if t then [] else [P_Node Node dst Args'])).
Proof using All.
  intros Hfc Hv Hpr Hus Hd Hsk. pose proof (fc_code _ _ _ _ Hfc) as [Hi Hc].
  pose proof (inv_used _ _ _ _ _ _ _ _ _ _ _ Hfc Hv Hpr Hus) as Hv3. pose proof Hpr as [Hq Hset Hu Hsrc].
  pose proof (qu_ok _ _ _ _ _ _ _ _ _ _ _ _ _ _ _ _ Hq) as Hok2. pose proof (us_args _ _ _ _ _ _ _ _ _ _ _ Hus) as Hrw.
  pose proof (fc_few _ _ _ _ Hfc) as He. apply Forall_cons in He as [He _]. cbn in He.
  pose proof (i_class _ _ _ _ _ _ _ _ _ Hi Hd) as Hgen. pose proof (i_number _ _ _ _ _ _ _ _ _ Hi) as Hnum.
  assert (Z.of_nat (length rest) < 2 ^ 31) as Hlen by (pose proof (fc_length _ _ _ _ Hfc) as Hl; cbn [length] in Hl; lia).
  assert (IsValidID IR Node = true) as Hval.
  { destruct (IsValidID IR Node) eqn:Hx; [done|]. pose proof (i_inline _ _ _ _ _ _ _ _ _ Hi Hx). congruence. }
  eapply wp_mono; [|apply (AssignReg_spec T R IR SSACount HT HR E B X0 HS reads writes constv sem D (code_count IR rest) Pref (IR Node) Node Args' rest Args' (class_of Node) s3);
    [apply Hv3|apply Hv|apply Hv3|done|by eapply pref_wf_head|by eapply used_choice; [..|apply Hok2|]|eapply few_rewritten, few_general; done]].
  intros [[s5 c3] dst] (s4 & f & Hms & Hok4 & Hg & Eset & -> & Hnew) t ip Ht.
  destruct (SetReg_spec _ _ _ _ HR D (rf s4) Node dst (proj1 Hok4) (proj1 Hg)) as (f1 & Ef1 & Has & _).
  rewrite Eset in Ef1. injection Ef1 as <-. specialize (Has ltac:(lia)).
  destruct (destination _ _ _ _ _ _ _ _ Hfc Hd Hg) as [Hty Hst].
  assert (Node ∉ D) as HND by (intros HD; apply (fc_fresh _ _ _ _ Hfc Node HD); by constructor).
  assert (Node ∈ B) as HNB by (apply (fc_block _ _ _ _ Hfc); by constructor).
  assert (after_D D Node = {[Node]} ∪ D) as HaD by (unfold after_D; by rewrite Hd).
  pose proof (us_high _ _ _ _ _ _ _ _ _ _ _ Hus) as Hh. pose proof (us_ranges _ _ _ _ _ _ _ _ _ _ _ Hus) as Hrg.
  pose proof (maybe_spill_high _ _ _ _ _ _ _ _ _ Hms) as Hh4. split.
  - rewrite HaD. eapply inv_assigned; [exact Hv3|exact Hms|exact Hlen|exact Hok4|done|done|done|done|done|exact Has|apply Hg|done| |done..].
    intros Hs. apply next_access_cons. right. by apply Hst.
  - etrans; [apply (qu_ranges _ _ _ _ _ _ _ _ _ _ _ _ _ _ _ _ Hq)|]. rewrite <- Hrg. exact (maybe_spill_ranges _ _ _ _ _ _ _ _ _ Hms).
  - pose proof (qu_high _ _ _ _ _ _ _ _ _ _ _ _ _ _ _ _ Hq). cbn. lia.
  - eapply quiet_out_app; [exact Hq|cbn; lia|]. apply Forall_app. split; [|by destruct t; constructor].
    change (Forall (slot_below (high s4)) c3). eapply (maybe_spill_out T R IR SSACount B X0 D); [exact Hms|apply Hv3|done|apply Hv].
  - intros _ q q' p Hs Hstep. destruct (qu_sim _ _ _ _ _ _ _ _ _ _ _ _ _ _ _ _ Hq q p Hs) as (p2 & Hr2 & Hs2).
    destruct (define_sim D F Pref Node Args Args' rest s2 s3 s4 (mkState f (sp s4) (nu s4) ip (NewNodes s4)) c3 f dst t q q' p2) as (p5 & Hr5 & Hs5); try done.
    exists p5. split; [by rewrite post_run_app, Hr2|]. by rewrite HaD.
Qed.

(** ** An instruction without a destination *)

Lemma undefined_kind D F Node Args : inst_ok D F Node Args -> defines T IR Node = false -> skipped IR Node = false ->
  kind_of IR Node = K_Store \/ (kind_of IR Node = K_Op /\ GetHasDest T (Op (IR Node)) = false).
Proof.
  intros Hi Hd Hsk. pose proof (has_dest _ HT) as Hh. rewrite !Forall_cons in Hh. destruct Hh as (H1 & H2 & H3 & H4 & H5 & H6 & H7 & H8 & _).
  pose proof (i_reg _ _ _ _ _ _ _ _ _ Hi) as Hr. unfold defines, kind_of, skipped in *.
  destruct (Op (IR Node)) eqn:Eo; try (rewrite Hr, ?H1, ?H2, ?H3, ?H4, ?H5, ?H6, ?H7, ?H8 in Hd by done); try done; auto;
    rewrite andb_true_r in Hd; right; done.
Qed.

Lemma store_decode D F Node Args : inst_ok D F Node Args -> kind_of IR Node = K_Store ->
  exists N, DecodeSRANode IR Node Args = Some N /\ valid_arg IR (Args !! 0%nat) = Some N.
Proof. intros Hi Hk. destruct (i_sra _ _ _ _ _ _ _ _ _ Hi (or_intror Hk)) as (_ & n & Hn & Hv & _). eauto. Qed.

Lemma store_sim D F Pref Node Args Args' rest s2 s3 s5 t q q' p :
  facts D F Pref ((Node, Args) :: rest) -> state_ok D s2 -> settled Node Args s2 -> (forall n, source Args n -> present s2 n) ->
  used D Args s2 s3 Args' -> kind_of IR Node = K_Store -> rf s5 = rf s3 -> sp s5 = sp s3 ->
  IsTrivial R IR Node (Node_Reg (IR Node)) Args' = Some t ->
  sim D ((Node, Args) :: rest) s2 q p -> ssa_step Node Args q = Some q' ->
  exists p', post_run (if t then [] else [P_Node Node (Node_Reg (IR Node)) Args']) p = Some p' /\ sim D rest s5 q' p'.
Proof.
  intros Hfc Hok2 Hset Hsrc Hus Hkd Erf Esp Ht Hs Hstep.
  pose proof (fc_code _ _ _ _ Hfc) as [Hi Hc]. pose proof (fc_kills _ _ _ _ Hfc) as [Hk _].
  assert (forall n, n ∈ D -> n ∉ rest.*1) as Hfresh.
  { intros n HD Hn. apply (fc_fresh _ _ _ _ Hfc n HD). by constructor. }
  pose proof (used_sim _ _ _ _ _ _ _ _ _ _ _ _ _ _ _ _ _ _ _ Hus Hk Hok2 Hc Hfresh Hs) as Hs3.
  destruct (store_decode _ _ _ _ Hi Hkd) as (N & HN & Hn). pose proof (us_args _ _ _ _ _ _ _ _ _ _ _ Hus) as Hrw.
  set (r0 := DecodeSRAReg R IR Node) in *. destruct q as [e gu w]. unfold RegAllocSem.ssa_step in Hstep. rewrite Hkd in Hstep.
  destruct (node_val IR e (head Args)) as [v|] eqn:Ev; [|done]. cbn in Hstep. injection Hstep as <-.
  pose proof (node_val_source _ _ _ _ _ Hn Ev) as Hen.
  assert (regs p (reg_of (rf s2) N) = v) as Hval by (eapply source_values; [done|done|apply Hsrc; by eapply valid_source|done]).
  assert (exists p', post_run (if t then [] else [P_Node Node (Node_Reg (IR Node)) Args']) p = Some p' /\
    (forall r, regs p' r = upd r0 v (regs p) r) /\ slots p' = slots p /\ p_world p' = p_world p) as (p' & Hrun & Hr & Hsl & Hw).
  { destruct p as [g sl pw]. destruct t.
    - eexists. split; [reflexivity|]. split; [|done]. intros r. cbn in *. unfold upd. destruct (decide (r = r0)) as [-> |]; [|done].
      rewrite <- Hval. f_equal. unfold IsTrivial, kind_of in *. destruct (Op (IR Node)); try done.
      rewrite (rewritten_lookup _ _ _ _ _ _ Hrw Hn) in Ht. cbn in Ht. injection Ht as Ht. by apply bool_decide_eq_true in Ht.
    - cbn [RegAllocSem.post_run RegAllocSem.post_step RegAllocSem.node_step]. rewrite Hkd, (arg_reg_head _ _ _ _ _ Hrw Hn). cbn in *.
      eexists. split; [reflexivity|]. cbn. by rewrite Hval. }
  exists p'. split; [done|].
  eapply (finish_store R IR B constv D rest s3 s5 (mkSSA e gu w) _ p p' r0 N v _ Hs3 Erf Esp); try done.
  - intros M HM. apply (Hset N M HN). by apply (us_holds _ _ _ _ _ _ _ _ _ _ _ Hus) in HM as [HM _].
  - intros r Hne. unfold opened. rewrite HN. cbn. by rewrite upd_other.
Qed.

Lemma op_sim D F Pref Node Args Args' rest s s2 out s3 s5 q q' p :
  facts D F Pref ((Node, Args) :: rest) -> inv D F ((Node, Args) :: rest) s -> prepared D Node Args rest s s2 out ->
  used D Args s2 s3 Args' -> kind_of IR Node = K_Op -> GetHasDest T (Op (IR Node)) = false -> rf s5 = rf s3 -> sp s5 = sp s3 ->
  (forall n, written IR writes Node Args n -> n ∉ ranges s2) ->
  sim D ((Node, Args) :: rest) s2 q p -> ssa_step Node Args q = Some q' ->
  exists p', post_run [P_Node Node (Node_Reg (IR Node)) Args'] p = Some p' /\ sim D rest s5 q' p'.
Proof.
  intros Hfc Hv [Hq Hset Hu Hsrc] Hus Hkd Hnd Erf Esp Hov Hs Hstep. pose proof (fc_code _ _ _ _ Hfc) as [Hi Hc].
  pose proof (fc_kills _ _ _ _ Hfc) as [Hk _]. pose proof (qu_ok _ _ _ _ _ _ _ _ _ _ _ _ _ _ _ _ Hq) as Hok2.
  pose proof (us_args _ _ _ _ _ _ _ _ _ _ _ Hus) as Hrw. pose proof Hs as Hs'. pose proof (sm_world _ _ _ _ _ _ _ _ _ Hs) as Hw.
  destruct q as [e gu w]. destruct p as [g sl pw]. cbn in Hw. subst pw. unfold RegAllocSem.ssa_step in Hstep. rewrite Hkd in Hstep.
  destruct (read_nodes IR reads (Op (IR Node)) 0 e Args) as [vs|] eqn:Er; [|done]. cbn in Hstep.
  assert (read_regs reads (Op (IR Node)) 0 g Args' = vs) as Hrd.
  { eapply (read_regs_ok IR reads (rf s2)); [exact Hrw| |exact Er]. intros n v Hn Hx.
    exact (source_values _ _ _ _ _ _ _ Hok2 Hs (Hsrc n Hn) Hx). }
  destruct (sem Node vs w) as [[w' d] o] eqn:Es. rewrite Hnd in Hstep. injection Hstep as <-.
  eexists. split.
  { cbn [RegAllocSem.post_run RegAllocSem.post_step RegAllocSem.node_step]. by rewrite Hkd, Hrd, Es, Hnd. }
  eapply (finish_op T R IR SSACount B X0 writes constv D F Node Args Args' rest s2 s3 s5 (mkSSA e gu w) (mkPost g sl w)); try done.
  - intros n HD Hn. apply (fc_fresh _ _ _ _ Hfc n HD). by constructor.
  - intros N r Hst Hh. apply (iv_static _ _ _ _ Hv); [done|]. by apply (qu_static _ _ _ _ _ _ _ _ _ _ _ _ _ _ _ _ Hq).
  - eauto.
  - apply Hv.
Qed.

Lemma keep_spec D F Pref Node Args Args' rest s s2 out s3 ip t :
  facts D F Pref ((Node, Args) :: rest) -> inv D F ((Node, Args) :: rest) s -> prepared D Node Args rest s s2 out ->
  used D Args s2 s3 Args' -> defines T IR Node = false -> skipped IR Node = false ->
  IsTrivial R IR Node (Node_Reg (IR Node)) Args' = Some t ->
  stepped D F Node Args rest s (mkState (rf s3) (sp s3) (nu s3) ip (NewNodes s3)) (out ++ if t then [] else [P_Node Node (Node_Reg (IR Node)) Args']).
Proof.
  intros Hfc Hv Hpr Hus Hd Hsk Ht. pose proof (fc_code _ _ _ _ Hfc) as [Hi _].
  pose proof (inv_used _ _ _ _ _ _ _ _ _ _ _ Hfc Hv Hpr Hus) as Hv3. pose proof Hpr as [Hq Hset Hu Hsrc].
  pose proof (qu_ok _ _ _ _ _ _ _ _ _ _ _ _ _ _ _ _ Hq) as Hok2.
  pose proof (us_high _ _ _ _ _ _ _ _ _ _ _ Hus) as Hh. pose proof (us_ranges _ _ _ _ _ _ _ _ _ _ _ Hus) as Hrg.
  assert (after_D D Node = D) as HaD by (unfold after_D; by rewrite Hd). split.
  - rewrite HaD. destruct Hv3 as [V1 V2 V3 V4 V5 V6]. by split.
  - etrans; [apply (qu_ranges _ _ _ _ _ _ _ _ _ _ _ _ _ _ _ _ Hq)|]. by rewrite <- Hrg.
  - pose proof (qu_high _ _ _ _ _ _ _ _ _ _ _ _ _ _ _ _ Hq). cbn. lia.
  - eapply quiet_out_app; [exact Hq|cbn; lia|]. by destruct t; constructor.
  - intros Hov q q' p Hs Hstep. destruct (qu_sim _ _ _ _ _ _ _ _ _ _ _ _ _ _ _ _ Hq q p Hs) as (p2 & Hr2 & Hs2).
    rewrite HaD. setoid_rewrite post_run_app. rewrite Hr2. cbn [mbind option_bind].
    destruct (undefined_kind _ _ _ _ Hi Hd Hsk) as [Hkd|[Hkd Hnd]].
    + by eapply store_sim.
    + assert (t = false) as ->.
      { unfold kind_of, IsTrivial in *. by destruct (Op (IR Node)); try done; injection Ht as <-. }
      eapply op_sim; try done. intros n Hn. rewrite <- Hrg. by apply Hov.
Qed.

Lemma Allocate_spec D F Pref Node Args rest s :
  facts D F Pref ((Node, Args) :: rest) -> inv D F ((Node, Args) :: rest) s ->
  wp E (Allocate T R IR SSACount Pref Node Args rest s) (fun x => stepped D F Node Args rest s x.1 x.2).
Proof using All.
  intros Hfc Hv. unfold Allocate. destruct (skipped IR Node) eqn:Hsk; [by eapply skip_spec|].
  pose proof (fc_code _ _ _ _ Hfc) as [Hi _]. pose proof (fc_kills _ _ _ _ Hfc) as [Hk _].
  eapply prepare_spec; [done..|]. intros s2 c1 c2 Hpr. pose proof Hpr as [Hq _ _ Hsrc].
  pose proof (qu_ok _ _ _ _ _ _ _ _ _ _ _ _ _ _ _ _ Hq) as Hok2.
  destruct (UseSources_spec T R IR SSACount HT HR E B X0 HS reads writes constv sem D Args (mentioned rest) s2) as (s3 & Args' & -> & Hus); try done;
    [apply Hv|apply (i_args _ _ _ _ _ _ _ _ _ Hi)|].
  pose proof (us_args _ _ _ _ _ _ _ _ _ _ _ Hus) as Hrw. cbn [mbind option_bind].
  fold (defines T IR Node). destruct (defines T IR Node) eqn:Hd.
  - apply wp_bind. eapply wp_mono; [|by eapply (define_spec D F Pref Node Args Args' rest s s2 (c1 ++ c2) s3)].
    intros [[s5 c3] dst] Hst. destruct (rewritten_trivial _ _ _ _ _ _ dst Hi Hrw) as [t Ht]. rewrite Ht. cbn.
    rewrite (app_assoc c1). by apply Hst.
  - cbn [mbind option_bind]. destruct (rewritten_trivial _ _ _ _ _ _ (Node_Reg (IR Node)) Hi Hrw) as [t Ht]. rewrite Ht. cbn.
    rewrite (app_assoc c1). by eapply keep_spec.
Qed.

(** ** The whole block *)

Fixpoint final_D (D : gset Z) (code : Code) : gset Z :=
  match code with [] => D | (Node, _) :: code => final_D (after_D D Node) code end.

Fixpoint final_F (F : gset Z) (code : Code) : gset Z :=
  match code with [] => F | (Node, Args) :: code => final_F (after_F F Node Args) code end.

Lemma ForwardPass_spec Pref code : forall D F s,
  facts D F Pref code -> inv D F code s ->
  wp E (ForwardPass T R IR SSACount Pref code s) (fun x =>
    inv (final_D D code) (final_F F code) [] x.1 /\ ranges s ⊆ ranges x.1 /\ high s <= high x.1 /\ Forall (slot_below (high x.1)) x.2 /\
    ((forall Node Args n, (Node, Args) ∈ code -> written IR writes Node Args n -> n ∉ ranges x.1) -> forall q q' p,
      sim D code s q p -> ssa_run code q = Some q' ->
      exists p', post_run x.2 p = Some p' /\ sim (final_D D code) [] x.1 q' p')).
Proof using All.
  induction code as [|[Node Args] rest IH]; intros D F s Hfc Hv; cbn [ForwardPass].
  { split; [done|]. split; [done|]. split; [cbn; lia|]. split; [constructor|]. intros _ q q' p Hs [= <-]. by exists p. }
  apply wp_bind. eapply wp_mono; [|by apply (Allocate_spec D F)]. intros [s1 c1] [H1 H2 H3 H4 H5]. cbn [fst snd] in *.
  apply wp_bind. eapply wp_mono; [|by apply (IH (after_D D Node) (after_F F Node Args)); [eapply facts_tail|]].
  intros [s2 c2] (I1 & I2 & I3 & I4 & I5). cbn [fst snd wp] in *. split; [done|]. split; [by etrans|]. split; [lia|].
  split; [apply Forall_app; split; [by eapply slot_below_mono|done]|].
  intros Hov q q' p Hs Hrun. cbn [RegAllocSem.ssa_run] in Hrun. destruct (ssa_step Node Args q) as [q1|] eqn:Eq1; [|done]. cbn in Hrun.
  destruct (H5 ltac:(intros n Hn Hin; apply (Hov Node Args n); [by constructor|done|by apply I2]) q q1 p Hs Eq1) as (p1 & Hr1 & Hs1).
  destruct (I5 ltac:(intros N A n Hin; apply Hov; by constructor) q1 q' p1 Hs1 Hrun) as (p2 & Hr2 & Hs2).
  exists p2. split; [by rewrite post_run_app, Hr1|done].
Qed.

End pass.
