(* ===== verification/RegAllocTheorems.v ===== *)
(** * Register allocation: blocks, and the whole pass

    A block starts with all registers free.  When [Run] returns, every block means afterwards what
    it meant before, as far as no node that an instruction overwrites was spilled; its spills and
    fills use slots below the number that [Run] publishes; and [Run] returns when every
    instruction has fewer arguments than there are registers of either class. *)

From S2P Require Import Prelude RegAlloc RegAllocSem RegAllocProps RegAllocSpill RegAllocAssign RegAllocBack RegAllocSources RegAllocStep RegAllocForward.
Import RegAlloc.

Section pass.
Context (T : Tables) (R : Registers) (IR : Z -> IROp_Header) (SSACount : Z).
Context (HT : tables_ok T) (HR : registers_ok R) (E : Prop) (HS : 0 <= SSACount < 2 ^ 32 - 1).
Context {V W : Type} (reads writes : IROps -> nat -> bool).
Context (constv : Z -> V) (sem : Z -> list (option V) -> W -> W * V * (nat -> V)).

Abbreviation ssa_run := (ssa_run T R IR reads writes constv sem).
Abbreviation post_run := (post_run T R IR reads writes constv sem).
Abbreviation block_ok := (block_ok T R IR writes SSACount).

(** The guest's state outside a block: the static registers and the world. *)
Definition agree (q : @SSAState V W) (p : @PostState V W) : Prop :=
  world q = p_world p /\ forall r, is_static (Class r) -> in_range R r -> regs p r = guest q r.

(** Running the block before and after allocation from related states gives related states. *)
Definition preserves (code : Code) (out : list PostOp) : Prop :=
  forall q q' p, agree q p -> ssa_run code q = Some q' -> exists p', post_run out p = Some p' /\ agree q' p'.

(** The state between blocks, when [P] are the nodes of the blocks before. *)
Record global_ok (P : gset Z) (g : Global) : Prop := {
  gl_inline n : IsValidID IR n = false -> default Invalid (g_SSAToReg g !! n) = Invalid;
  gl_slot n : n ∉ P -> default 0 (g_SpillSlots g !! n) = 0;
  gl_keys : map_Forall (fun n _ => 0 <= n < SSACount) (g_SpillSlots g);
  gl_pref n : n ∉ P -> b_Pref (g_back g) !! n = None;
  gl_new : 0 <= g_NewNodes g;
}.

Definition nodes (code : Code) : gset Z := list_to_set (code.*1).

Lemma elem_of_nodes code n : n ∈ nodes code <-> n ∈ code.*1.
Proof. apply elem_of_list_to_set. Qed.

Lemma new_avail c i : 0 <= i -> Z.testbit (u32 (2 ^ Count R c - 1)) i = (i <? Count R c).
Proof using HR.
  intros Hi. pose proof (counts _ HR c). rewrite u_testbit, Z.sub_1_r, <- Z.ones_equiv by lia.
  rewrite ones_testbit by lia. destruct (Z.ltb_spec i (Count R c)), (Z.ltb_spec i 32); try done; lia.
Qed.

Lemma new_free g r : in_range R r -> freeb (rf (NewBlock R g)) r = true.
Proof using HR. intros Hr. unfold freeb. cbn. rewrite new_avail by apply Hr. apply Z.ltb_lt, Hr. Qed.

Lemma new_ok P code g :
  global_ok P g -> (forall n, n ∈ code.*1 -> n ∉ P) ->
  state_ok T R IR SSACount (nodes code) (fun n => default 0 (g_SpillSlots g !! n)) ∅ (NewBlock R g).
Proof using HT HR HS.
  intros Hg Hd. split; split.
  - intros c. cbn. split; [apply u_range; lia|]. intros i Hi.
    destruct (decide (i < 0)); [by rewrite Z.testbit_neg_r in Hi by lia|]. rewrite new_avail in Hi by lia. lia.
  - intros n r (Hr & Hb & _). rewrite new_free in Hb by done. done.
  - intros n Hn. by apply not_elem_of_empty in Hn.
  - intros n Hn. by apply (gl_inline _ _ Hg).
  - intros n Hn H0. destruct H0. apply (gl_slot _ _ Hg), Hd. by apply elem_of_nodes.
  - intros n m Hn _ H0. destruct H0. apply (gl_slot _ _ Hg), Hd. by apply elem_of_nodes.
  - cbn. split; constructor.
  - cbn. lia.
  - cbn. lia.
  - apply (gl_keys _ _ Hg).
  - done.
Qed.

Lemma prefs_ok_unkilled Pref code : forall code', unkilled code' = code -> prefs_ok R IR Pref code -> prefs_ok R IR Pref code'.
Proof.
  induction code as [|[n Args] code IH]; intros [|[n' Args'] code'] He H; try done.
  pose proof He as He'. injection He as -> Ha Hc. destruct H as [H1 H2]. split; [|by apply IH]. intros r Hr.
  destruct (H1 r Hr) as [|(Hna & H)]; [by left|right]. split; [|done].
  by rewrite <- next_access_unkilled, He'.
Qed.

Lemma unkilled_fst code : (unkilled code).*1 = code.*1.
Proof. unfold unkilled. rewrite <- list_fmap_compose. done. Qed.

Lemma unkilled_args code Node Args : (Node, Args) ∈ code -> (Node, unkill <$> Args) ∈ unkilled code.
Proof. intros H. unfold unkilled. apply list_elem_of_fmap. by exists (Node, Args). Qed.

Lemma unkilled_idemp code : unkilled (unkilled code) = unkilled code.
Proof. apply unkilled_id. apply Forall_forall. intros i Hi. apply list_elem_of_fmap in Hi as (j & -> & _). cbn.
  apply Forall_forall. intros a Ha. apply list_elem_of_fmap in Ha as (b & -> & _). by destruct b. Qed.

Definition enough (code : Code) : Prop := E \/ few_args R code.

Lemma enough_few code : enough code -> Forall (fun i : Z * list Arg => few_both R E i.2) code.
Proof.
  intros [He|Hf]; [apply Forall_forall; intros i _; by split; left|]. eapply Forall_impl; [exact Hf|]. intros i [? ?]. by split; right.
Qed.

Lemma few_unkilled code : Forall (fun i : Z * list Arg => few_both R E i.2) (unkilled code) -> Forall (fun i : Z * list Arg => few_both R E i.2) code.
Proof.
  unfold unkilled. intros H. rewrite Forall_fmap in H. eapply Forall_impl; [exact H|]. intros [n Args]. cbn.
  unfold few_both, few. by rewrite !length_fmap.
Qed.

(** ** One block *)

Lemma RunBlock_facts P code code' b g :
  global_ok P g -> block_ok code -> (forall n, n ∈ code.*1 -> n ∉ P) -> enough code ->
  BackwardPass R IR code (mkBack (b_Pref (g_back g)) (fun _ _ => None) (b_Seen (g_back g))) = (code', b) ->
  unkilled code' = code /\ facts T R IR SSACount E (nodes code) writes ∅ ∅ (b_Pref b) code' /\
  forall n, n ∉ code.*1 -> b_Pref b !! n = b_Pref (g_back g) !! n.
Proof.
  intros Hg Hb Hd He Eb.
  assert (Forall (fun i : Z * list Arg => Forall (fun a => unkill a = a) i.2) code) as Huk.
  { eapply Forall_impl; [apply (b_unkilled _ _ _ _ _ _ Hb)|]. intros i Hi. eapply Forall_impl; [exact Hi|]. intros [] Ha; cbn; congruence. }
  destruct (BackwardPass_spec T R IR SSACount writes code _ code' b ∅ ∅ Eb (b_code _ _ _ _ _ _ Hb) (b_nodup _ _ _ _ _ _ Hb)) as (U & K & Pr & _ & _ & O); try done.
  { intros n Hn. cbn. by apply (gl_pref _ _ Hg), Hd. }
  assert (code'.*1 = code.*1) as Hfst by (by rewrite <- unkilled_fst, U).
  split; [done|]. split; [|intros n Hn; apply O; [done|apply not_elem_of_empty]]. split.
  - eapply code_ok_unkilled, (b_code _ _ _ _ _ _ Hb). by rewrite U, unkilled_id.
  - done.
  - by eapply prefs_ok_unkilled.
  - rewrite Hfst. apply (b_nodup _ _ _ _ _ _ Hb).
  - intros n Hn. by apply not_elem_of_empty in Hn.
  - intros n Hn. apply elem_of_nodes. by rewrite <- Hfst.
  - pose proof (b_length _ _ _ _ _ _ Hb). rewrite <- U in H. unfold unkilled in H. by rewrite length_fmap in H.
  - apply few_unkilled. rewrite U. by apply enough_few.
Qed.

Lemma new_inv P code code' g :
  global_ok P g -> (forall n, n ∈ code.*1 -> n ∉ P) ->
  inv T R IR SSACount (nodes code) (fun n => default 0 (g_SpillSlots g !! n)) ∅ ∅ code' (NewBlock R g).
Proof using HT HR HS.
  intros Hg Hd. split.
  - by eapply new_ok.
  - apply empty_subseteq.
  - done.
  - apply (gl_new _ _ Hg).
  - intros n Hn. by apply not_elem_of_empty in Hn.
  - intros N r _ (Hr & Hb & _). rewrite new_free in Hb by done. done.
Qed.

Lemma RunBlock_spec P code g :
  global_ok P g -> block_ok code -> (forall n, n ∈ code.*1 -> n ∉ P) -> enough code ->
  wp E (RunBlock T R IR SSACount code g) (fun x => let '(g', out, ranges) := x in
    global_ok (P ∪ nodes code) g' /\ g_HighWater g <= g_HighWater g' /\ Forall (slot_below (g_HighWater g')) out /\
    (overwritten_stay IR writes code ranges -> preserves code out)).
Proof using All.
  intros Hg Hb Hd He. unfold RunBlock. destruct (BackwardPass R IR code _) as [code' b] eqn:Eb.
  destruct (RunBlock_facts P code code' b g Hg Hb Hd He Eb) as (U & Hfc & Hpref).
  pose proof (new_inv P code code' g Hg Hd) as Hv.
  apply wp_bind. eapply wp_mono; [|apply (ForwardPass_spec T R IR SSACount HT HR E (nodes code) (fun n => default 0 (g_SpillSlots g !! n)) (proj2 HS) reads writes constv sem (b_Pref b) code' ∅ ∅ _ Hfc Hv)].
  intros [s out] (Hv' & _ & Hh & Hout & Hsim). cbn [fst snd] in *.
  assert ((if AnySpilled (nu s) then assert_ (SourceIndex (nu s) =? 0) else Some tt) = Some tt) as ->.
  { destruct (AnySpilled (nu s)) eqn:Ea; [|done]. by rewrite (uo_index _ _ (iv_uses _ _ _ _ _ _ _ _ _ _ Hv' Ea) Ea). }
  cbn [mbind option_bind wp]. pose proof (iv_ok _ _ _ _ _ _ _ _ _ _ Hv') as [Hf Hx]. split; [|split; [cbn; lia|split]].
  - split; cbn.
    + intros n Hn. by apply (fo_inline _ _ _ _ _ _ Hf).
    + intros n [Hn1 Hn2]%not_elem_of_union. pose proof (so_old _ _ _ _ _ Hx n Hn2) as Ho. unfold SpillSlot in Ho. rewrite Ho.
      by apply (gl_slot _ _ Hg).
    + apply (so_keys _ _ _ _ _ Hx).
    + intros n [Hn1 Hn2]%not_elem_of_union. rewrite Hpref by (by rewrite <- elem_of_nodes). by apply (gl_pref _ _ Hg).
    + apply (iv_new _ _ _ _ _ _ _ _ _ _ Hv').
  - eapply slot_below_mono; [|exact Hout]. cbn. lia.
  - intros Hov q q' p [Hw Hag] Hrun. destruct (Hsim) with (q := q) (q' := q') (p := p) as (p' & Hr' & Hs').
    + intros Node Args n Hin Hwr. apply (Hov Node (unkill <$> Args)); [rewrite <- U; by apply unkilled_args|by apply written_unkill].
    + split; [| | |cbn; auto|done].
      * intros n r v (Hr & Hb' & _). rewrite new_free in Hb' by done. done.
      * intros n v Hn H0. destruct H0. apply (gl_slot _ _ Hg), Hd. by apply elem_of_nodes.
      * intros n v Hn. by apply not_elem_of_empty in Hn.
    + by rewrite <- U, ssa_run_unkilled in Hrun.
    + exists p'. split; [done|]. split; [apply (sm_world _ _ _ _ _ _ _ _ _ Hs')|]. intros r Hst Hr.
      by destruct (sm_static _ _ _ _ _ _ _ _ _ Hs' r Hst Hr) as [|(N & _ & ?)].
Qed.

(** ** All blocks *)

Definition all_nodes (blocks : list Code) : list Z := mjoin ((fun code : Code => code.*1) <$> blocks).

Lemma RunBlocks_spec blocks : forall P g,
  global_ok P g -> Forall block_ok blocks -> NoDup (all_nodes blocks) -> (forall n, n ∈ all_nodes blocks -> n ∉ P) ->
  Forall enough blocks ->
  wp E (RunBlocks T R IR SSACount blocks g) (fun x => g_HighWater g <= g_HighWater x.1 /\
    Forall2 (fun code o => Forall (slot_below (g_HighWater x.1)) o.1 /\ (overwritten_stay IR writes code o.2 -> preserves code o.1)) blocks x.2).
Proof using All.
  induction blocks as [|code blocks IH]; intros P g Hg Hb Hnd Hd He; cbn [RunBlocks]; [split; [cbn; lia|constructor]|].
  apply Forall_cons in Hb as [Hb0 Hb]. apply Forall_cons in He as [He0 He]. unfold all_nodes in Hnd, Hd. cbn in Hnd, Hd.
  apply NoDup_app in Hnd as (_ & Hdis & Hnd).
  apply wp_bind. eapply wp_mono; [|apply (RunBlock_spec P); try done; intros n Hn; apply Hd, elem_of_app; by left].
  intros [[g1 out] rg] (Hg1 & Hh1 & Ho1 & Hp1). apply wp_bind.
  eapply wp_mono; [|apply (IH (P ∪ nodes code)); try done].
  - intros [g2 outs] [Hh2 Hf]. cbn [fst snd wp] in *. split; [lia|]. constructor; [|done]. cbn. split; [|done].
    by eapply slot_below_mono.
  - intros n Hn. apply not_elem_of_union. split; [apply Hd, elem_of_app; by right|]. rewrite elem_of_nodes. intros Hin. by apply (Hdis n).
Qed.

Lemma first_ok : global_ok ∅ (mkGlobal (mkBack ∅ (fun _ _ => None) ∅) ∅ (fun _ _ => 0) ∅ 0 0).
Proof. split; cbn; try done. Qed.

Lemma Run_spec blocks :
  Forall block_ok blocks -> NoDup (all_nodes blocks) -> Forall enough blocks ->
  wp E (Run T R IR SSACount blocks) (fun x =>
    Forall2 (fun code o => Forall (slot_below x.2) o.1 /\ (overwritten_stay IR writes code o.2 -> preserves code o.1)) blocks x.1).
Proof using All.
  intros Hb Hnd He. unfold Run. apply wp_bind.
  eapply wp_mono; [|apply (RunBlocks_spec blocks ∅); [apply first_ok|done|done|intros n _; apply not_elem_of_empty|done]].
  intros [g outs] [_ H]. exact H.
Qed.

End pass.

(** ** The pass is correct, stays within its slots, and returns *)

(** C4: Register allocation preserves the meaning of every block: when [Run] returns, each block
    run on registers and spill slots ends, whenever the block has a meaning before allocation,
    with the same static guest registers and the same state of the world, for any meaning of the
    operations; if no node that an instruction of the block overwrites was put on the stack. *)
Theorem Run_preserves_meaning (T : Tables) (R : Registers) (IR : Z -> IROp_Header) (SSACount : Z) {V W : Type}
    (reads writes : IROps -> nat -> bool) (constv : Z -> V) (sem : Z -> list (option V) -> W -> W * V * (nat -> V))
    (blocks : list Code) outs hw :
  tables_ok T -> registers_ok R -> 0 <= SSACount < 2 ^ 32 - 1 ->
  Forall (block_ok T R IR writes SSACount) blocks -> NoDup (all_nodes blocks) ->
  Run T R IR SSACount blocks = Some (outs, hw) ->
  Forall2 (fun code o => overwritten_stay IR writes code o.2 -> preserves T R IR reads writes constv sem code o.1) blocks outs.
Proof.
  intros HT HR HS Hb Hnd Hrun.
  pose proof (Run_spec T R IR SSACount HT HR True HS reads writes constv sem blocks Hb Hnd) as H.
  rewrite Hrun in H. eapply Forall2_impl; [apply H; apply Forall_forall; intros ? _; by left|]. by intros code o [_ ?].
Qed.

(** C16: [Run] returns a result (no assertion of the allocator fails, in particular a register to
    spill is always found) for well-formed blocks whose instructions have fewer arguments than
    there are general registers of either class. *)
Theorem Run_returns (T : Tables) (R : Registers) (IR : Z -> IROp_Header) (SSACount : Z) (writes : IROps -> nat -> bool) (blocks : list Code) :
  tables_ok T -> registers_ok R -> 0 <= SSACount < 2 ^ 32 - 1 ->
  Forall (block_ok T R IR writes SSACount) blocks -> NoDup (all_nodes blocks) -> Forall (few_args R) blocks ->
  exists outs hw, Run T R IR SSACount blocks = Some (outs, hw) /\ length outs = length blocks.
Proof.
  intros HT HR HS Hb Hnd Hf.
  pose proof (Run_spec T R IR SSACount HT HR False HS writes writes (fun _ => tt) (fun _ _ _ => (tt, tt, fun _ => tt)) blocks Hb Hnd) as H.
  destruct (Run T R IR SSACount blocks) as [[outs hw]|].
  - exists outs, hw. split; [done|]. symmetry. eapply Forall2_length, H. eapply Forall_impl; [exact Hf|]. intros x Hx. by right.
  - destruct H. eapply Forall_impl; [exact Hf|]. intros x Hx. by right.
Qed.

(** C28: Every spill and fill uses a slot below the number of slots [Run] publishes, which is the
    size of the stack area the code of all blocks needs. *)
Theorem Run_slots_in_bounds (T : Tables) (R : Registers) (IR : Z -> IROp_Header) (SSACount : Z) (writes : IROps -> nat -> bool)
    (blocks : list Code) outs hw :
  tables_ok T -> registers_ok R -> 0 <= SSACount < 2 ^ 32 - 1 ->
  Forall (block_ok T R IR writes SSACount) blocks -> NoDup (all_nodes blocks) ->
  Run T R IR SSACount blocks = Some (outs, hw) -> Forall (fun o => Forall (slot_below hw) o.1) outs.
Proof.
  intros HT HR HS Hb Hnd Hrun.
  pose proof (Run_spec T R IR SSACount HT HR True HS writes writes (fun _ => tt) (fun _ _ _ => (tt, tt, fun _ => tt)) blocks Hb Hnd) as H.
  rewrite Hrun in H. specialize (H ltac:(apply Forall_forall; intros ? _; by left)). cbn in H.
  clear -H. induction H as [|code o blocks outs [Ho _] _ IH]; constructor; done.
Qed.
