(* ===== verification/RegAllocExamples.v ===== *)
(** * Register allocation: examples

    A block with spills, fills, a constant built again and a store made early; the block the
    theorems are applied to.  Two more blocks show what the conditions of the theorems are for:
    an instruction with as many arguments as there are registers, and a node that is spilled
    before an instruction overwrites it. *)

From S2P Require Import Prelude RegAlloc RegAllocSem RegAllocProps RegAllocSpill RegAllocAssign RegAllocBack RegAllocSources RegAllocStep RegAllocForward RegAllocTheorems.
Import RegAlloc.

(** Operations below 10 have a destination, the first is tied to its first argument, and 10
    overwrites its first two arguments. *)
Definition ex_tables : Tables :=
  mkTables (fun o => match o with OP_VMOV | OP_ALLOCATEFPR => RC_FPR | OP_LOADREGISTER | OP_FILLREGISTER => RC_Complex | _ => RC_GPR end)
    (fun o => match o with
       | OP_GUESTOPCODE | OP_INLINECONSTANT | OP_INLINEENTRYPOINTOFFSET | OP_STOREPF | OP_STOREAF | OP_SPILLREGISTER => false
       | OP_OTHER n => n <? 10
       | _ => true
       end)
    (fun o => match o with OP_OTHER 1 => 0 | _ => -1 end).

Definition ex_writes (o : IROps) (i : nat) : bool := match o with OP_OTHER 10 => Nat.ltb i 2 | _ => false end.
Definition ex_reads (o : IROps) (i : nat) : bool := negb (ex_writes o i).

Definition ex_registers : Registers :=
  mkRegisters (fun c => match c with RC_GPR => 3 | RC_FPR => 3 | RC_GPRFixed => 4 | RC_FPRFixed => 2 | _ => 0 end) 2.

Lemma ex_tables_ok : tables_ok ex_tables.
Proof. split; try done; repeat constructor. Qed.

Lemma ex_registers_ok : registers_ok ex_registers.
Proof. split; [intros []; cbn; lia|done|cbn; lia]. Qed.

Definition ex_header (o : IROps) : IROp_Header := mkHeader o 8 8 RC_GPR 0 5 0 0 0 false Invalid.
Definition ex_store : IROp_Header := mkHeader OP_STOREREGISTER 8 8 RC_GPR 0 0 0 0 0 false (mkReg RC_GPRFixed 0).
Definition arg (n : Z) : Arg := A_Node n false.

(** ** A block under register pressure *)

Definition ex_ir (n : Z) : IROp_Header :=
  match n with
  | 1 => ex_header OP_LOADREGISTER
  | 2 => ex_header OP_CONSTANT
  | 4 | 5 => ex_header (OP_OTHER 2)
  | 10 | 16 => ex_header OP_ALLOCATEGPR
  | 11 => ex_header (OP_OTHER 10)
  | 12 => ex_store
  | _ => ex_header (OP_OTHER 1)
  end.

Definition ex_block : Code :=
  [(1, []); (2, []); (3, [arg 1; arg 2]); (4, [arg 3]); (5, [arg 4]); (6, [arg 4; arg 5]); (13, [arg 3; arg 6]); (7, [arg 3; arg 6]);
   (8, [arg 7; arg 5]); (14, [arg 4; arg 13]); (15, [arg 8; arg 14]); (9, [arg 15; arg 2]); (10, []); (16, []);
   (11, [arg 10; arg 16]); (17, [arg 9; arg 10]); (12, [arg 17])].

(** ** Well-formedness is decidable *)

#[global] Instance kind_eq_dec : EqDecision kind.
Proof. solve_decision. Defined.

Section check.
Context (T : Tables) (R : Registers) (IR : Z -> IROp_Header) (writes : IROps -> nat -> bool) (SSACount : Z).

Abbreviation class_of n := (GetRegClassFromNode T (IR n)).

Definition is_generalb (c : RegClass) : bool := bool_decide (c = RC_GPR) || bool_decide (c = RC_FPR).

Definition arg_okb (D : gset Z) (a : Arg) : bool :=
  match a with A_Node n _ => negb (IsValidID IR n) || bool_decide (n ∈ D) | A_Invalid => true | A_Immediate _ => false end.

Definition tied_okb (Node : Z) (Args : list Arg) : bool :=
  match valid_arg IR (Args !! Z.to_nat (TiedSource T (Op (IR Node)))) with
  | Some n => bool_decide (class_of n = class_of Node)
  | None => false
  end.

Definition sra_okb (Node : Z) (Args : list Arg) : bool :=
  let r := DecodeSRAReg R IR Node in
  (0 <=? Reg r) && (Reg r <? Count R (Class r)) &&
  match DecodeSRANode IR Node Args with
  | Some n => (negb (bool_decide (kind_of IR Node = K_Store)) || bool_decide (valid_arg IR (Args !! 0%nat) = Some n)) &&
              is_generalb (class_of n) && bool_decide (Class r = fixed (class_of n))
  | None => false
  end.

Definition written_okb (F : gset Z) (Node : Z) (i : nat) (a : Arg) : bool :=
  match IsValidArg IR a with
  | Some n => negb (writes (Op (IR Node)) i) || negb (bool_decide (kind_of IR Node = K_Op)) ||
              (negb (defines T IR Node) && bool_decide (n ∉ F) && negb (bool_decide (kind_of IR n = K_Constant)))
  | None => true
  end.

Definition inst_okb (D F : gset Z) (Node : Z) (Args : list Arg) : bool :=
  let d := defines T IR Node in
  let k := kind_of IR Node in
  (0 <? Node) && (Node <? SSACount) && forallb (arg_okb D) Args &&
  (match Args with [] => true | _ => negb (skipped IR Node) end) &&
  (IsValidID IR Node || negb d) && (negb d || is_generalb (class_of Node)) &&
  (bool_decide (Op (IR Node) = OP_STOREREGISTER) || IsInvalid (Node_Reg (IR Node))) &&
  (negb d || (TiedSource T (Op (IR Node)) <? 0) || tied_okb Node Args) &&
  (negb (bool_decide (Op (IR Node) = OP_ALLOCATEGPRAFTER)) || bool_decide (is_Some (valid_arg IR (Args !! 0%nat)))) &&
  (negb (bool_decide (k = K_Move)) || bool_decide (is_Some (valid_arg IR (Args !! 0%nat)))) &&
  (negb (bool_decide (k = K_Load) || bool_decide (k = K_Store)) || sra_okb Node Args) &&
  (negb (bool_decide (k = K_Store)) || negb d) &&
  forallb (fun b => b) (imap (written_okb F Node) Args).

Fixpoint code_okb (D F : gset Z) (code : Code) : bool :=
  match code with
  | [] => true
  | (Node, Args) :: code =>
      inst_okb D F Node Args &&
      code_okb (if defines T IR Node then {[Node]} ∪ D else D)
        (match DecodeSRANode IR Node Args with Some n => {[n]} ∪ F | None => F end) code
  end.

Lemma is_generalb_ok c : is_generalb c = true -> is_general c.
Proof. unfold is_generalb, is_general. by rewrite orb_true_iff, !bool_decide_eq_true. Qed.

Lemma inst_okb_ok D F Node Args : inst_okb D F Node Args = true -> inst_ok T R IR writes SSACount D F Node Args.
Proof.
  unfold inst_okb. cbv zeta. rewrite !andb_true_iff, !orb_true_iff, !negb_true_iff, !bool_decide_eq_false, !bool_decide_eq_true, !orb_false_iff, !bool_decide_eq_false.
  intros ((((((((((((H1 & H2) & H3) & H4) & H5) & H6) & H7) & H8) & H9) & H10) & H11) & H12) & H13).
  split.
  - lia.
  - apply Forall_forall. intros a Ha. rewrite forallb_forall in H3. apply list_elem_of_In, H3 in Ha. destruct a; try done. cbn in *.
    rewrite orb_true_iff, negb_true_iff, bool_decide_eq_true in Ha. intros Hv. destruct Ha; [congruence|done].
  - intros Hs. destruct Args; [done|]. rewrite Hs in H4. done.
  - intros Hv. destruct H5; [congruence|done].
  - intros Hd. apply is_generalb_ok. destruct H6; [congruence|done].
  - intros Ho. by destruct H7.
  - intros Hd Ht. destruct H8 as [[|]|H8]; [congruence|lia|]. unfold tied_okb in H8.
    destruct (valid_arg IR _) as [n|]; [|done]. exists n. split; [done|]. by apply bool_decide_eq_true in H8.
  - intros Ho. destruct H9 as [|[n Hn]]; [done|eauto].
  - intros Ho. destruct H10 as [|[n Hn]]; [done|eauto].
  - intros Hk. destruct H11 as [[]|H11]; [by destruct Hk|]. unfold sra_okb in H11. cbv zeta in H11.
    apply andb_true_iff in H11 as [Hr H11]. unfold RegAllocSem.in_range. split; [lia|].
    destruct (DecodeSRANode IR Node Args) as [n|]; [|done]. exists n. split; [done|].
    rewrite !andb_true_iff, orb_true_iff, negb_true_iff, bool_decide_eq_false, !bool_decide_eq_true in H11.
    destruct H11 as [[Hv Hg] Hc]. split; [|split; [by apply is_generalb_ok|done]]. intros Hs. by destruct Hv.
  - intros Hk. destruct H12; [done|]. done.
  - intros n (i & a & Ha & Hv & Hw & Hk). rewrite forallb_forall in H13.
    assert (written_okb F Node i a = true) as Hb.
    { apply H13, list_elem_of_In, list_elem_of_lookup. exists i. by rewrite list_lookup_imap, Ha. }
    unfold written_okb in Hb. rewrite Hv, Hw, Hk, bool_decide_eq_true_2 in Hb by done. cbn in Hb.
    rewrite !andb_true_iff, !negb_true_iff, bool_decide_eq_true, bool_decide_eq_false in Hb. by destruct Hb as [[? ?] ?].
Qed.

Lemma code_okb_ok code : forall D F, code_okb D F code = true -> code_ok T R IR writes SSACount D F code.
Proof.
  induction code as [|[Node Args] code IH]; intros D F H; [done|]. cbn in H. apply andb_true_iff in H as [H1 H2].
  split; [by apply inst_okb_ok|by apply IH].
Qed.

(** [overwritten_stay], decided. *)
Definition stayb (ranges : list SpillRange) (Node : Z) (i : nat) (a : Arg) : bool :=
  match IsValidArg IR a with
  | Some n => negb (writes (Op (IR Node)) i) || bool_decide (n ∉ SSAID <$> ranges)
  | None => true
  end.

Definition overwritten_stayb (code : Code) (ranges : list SpillRange) : bool :=
  forallb (fun x => forallb (fun b => b) (imap (stayb ranges x.1) x.2)) code.

Lemma overwritten_stayb_ok code ranges : overwritten_stayb code ranges = true -> overwritten_stay IR writes code ranges.
Proof.
  unfold overwritten_stayb. rewrite forallb_forall. intros H Node Args n Hin (i & a & Ha & Hv & Hw & _).
  apply list_elem_of_In, H in Hin. rewrite forallb_forall in Hin. cbn in Hin.
  assert (stayb ranges Node i a = true) as Hb.
  { apply Hin, list_elem_of_In, list_elem_of_lookup. exists i. by rewrite list_lookup_imap, Ha. }
  unfold stayb in Hb. rewrite Hv, Hw in Hb. cbn in Hb. by apply bool_decide_eq_true in Hb.
Qed.

End check.

(** Every part of [block_ok] of a concrete block is computed. *)
Ltac block_ok_tac :=
  split; [apply code_okb_ok; vm_compute; reflexivity|apply (bool_decide_unpack _); vm_compute; exact I|repeat constructor|vm_compute; reflexivity].

Lemma ex_block_ok : block_ok ex_tables ex_registers ex_ir ex_writes 20 ex_block.
Proof. block_ok_tac. Qed.

(** An operation adds what it reads to its number; operation 11 also writes it to the world. *)
Definition ex_sem (n : Z) (vs : list (option Z)) (w : list Z) : list Z * Z * (nat -> Z) :=
  let x := foldr (fun v x => default 0 v + x) n vs in (w ++ [x], x, fun i => 100 * x + Z.of_nat i).

Definition ex_ssa : @SSAState Z (list Z) := mkSSA (fun _ => None) (fun r => 7 + Reg r) [].
Definition ex_post : @PostState Z (list Z) := mkPost (fun r => match Class r with RC_GPRFixed | RC_FPRFixed => 7 + Reg r | _ => -1 end) (fun _ => -2) [].

Lemma ex_agree : agree ex_registers ex_ssa ex_post.
Proof. split; [done|]. intros [[] i] Hst _; cbn in *; try done; by destruct Hst. Qed.

Definition ex_result : option (list (list PostOp * list SpillRange) * Z) := Eval vm_compute in Run ex_tables ex_registers ex_ir 20 [ex_block].

Lemma ex_run : Run ex_tables ex_registers ex_ir 20 [ex_block] = ex_result.
Proof. vm_compute. reflexivity. Qed.

Lemma ex_nodes : NoDup (all_nodes [ex_block]).
Proof. apply (bool_decide_unpack _). vm_compute. exact I. Qed.

(** Three values go to the stack and come back, and the stored value is that before allocation. *)
Lemma Run_preserves_meaning_witness : exists out ranges p',
  Run ex_tables ex_registers ex_ir 20 [ex_block] = Some ([(out, ranges)], 3) /\
  length ranges = 3%nat /\
  post_run ex_tables ex_registers ex_ir ex_reads ex_writes (fun c => c) ex_sem out ex_post = Some p' /\
  option_map (fun q => guest q (mkReg RC_GPRFixed 0)) (ssa_run ex_tables ex_registers ex_ir ex_reads ex_writes (fun c => c) ex_sem ex_block ex_ssa) =
    Some (regs p' (mkReg RC_GPRFixed 0)).
Proof.
  destruct (ssa_run ex_tables ex_registers ex_ir ex_reads ex_writes (fun c => c) ex_sem ex_block ex_ssa) as [q'|] eqn:Eq; [|by vm_compute in Eq].
  destruct ex_result as [[[|[out ranges] [|]] hw]|] eqn:Er; try by vm_compute in Er.
  pose proof (Run_preserves_meaning ex_tables ex_registers ex_ir 20 ex_reads ex_writes (fun c => c) ex_sem [ex_block] [(out, ranges)] hw
    ex_tables_ok ex_registers_ok ltac:(lia) (proj2 (Forall_singleton _ _) ex_block_ok) ex_nodes ltac:(by rewrite ex_run)) as H.
  apply Forall2_cons in H as [H _]. injection Er as <- <- <-.
  destruct (H ltac:(apply overwritten_stayb_ok; vm_compute; reflexivity) ex_ssa q' ex_post ex_agree Eq) as (p' & Hp & Hag).
  eexists _, _, p'. split; [rewrite ex_run; reflexivity|]. split; [reflexivity|]. split; [exact Hp|].
  cbn. f_equal. symmetry. apply Hag; [by left|split; cbn; lia].
Defined.

Lemma Run_returns_witness : exists outs hw, Run ex_tables ex_registers ex_ir 20 [ex_block] = Some (outs, hw) /\ length outs = 1%nat.
Proof.
  apply (Run_returns ex_tables ex_registers ex_ir 20 ex_writes [ex_block] ex_tables_ok ex_registers_ok ltac:(lia)
    (proj2 (Forall_singleton _ _) ex_block_ok) ex_nodes).
  constructor; [|constructor]. apply (bool_decide_unpack _). vm_compute. exact I.
Defined.

Lemma Run_slots_in_bounds_witness : exists out ranges,
  Run ex_tables ex_registers ex_ir 20 [ex_block] = Some ([(out, ranges)], 3) /\ Forall (slot_below 3) out.
Proof.
  destruct ex_result as [[[|[out ranges] [|]] hw]|] eqn:Er; try by vm_compute in Er.
  pose proof (Run_slots_in_bounds ex_tables ex_registers ex_ir 20 ex_writes [ex_block] [(out, ranges)] hw
    ex_tables_ok ex_registers_ok ltac:(lia) (proj2 (Forall_singleton _ _) ex_block_ok) ex_nodes ltac:(by rewrite ex_run)) as H.
  injection Er as <- <- <-. eexists _, _. split; [rewrite ex_run; reflexivity|]. by apply Forall_cons in H as [H _].
Defined.

(** ** What the conditions are for *)

Definition full_ir (n : Z) : IROp_Header :=
  match n with 5 => ex_header (OP_OTHER 12) | 6 => ex_header (OP_OTHER 11) | _ => ex_header (OP_OTHER 2) end.

Definition full_block : Code := [(1, []); (2, []); (3, []); (4, []); (5, [arg 1; arg 2; arg 3]); (6, [arg 4])].

(** With three registers and an instruction of three arguments no register is found: node 1 is
    spilled for node 4, and when it is filled again its old register, which now holds node 4,
    still counts as a register of a source. *)
Lemma stale_register_stuck :
  block_ok ex_tables ex_registers full_ir ex_writes 20 full_block /\ Run ex_tables ex_registers full_ir 20 [full_block] = None.
Proof. split; [block_ok_tac|]. vm_compute. reflexivity. Qed.

Definition lost_ir (n : Z) : IROp_Header :=
  match n with
  | 1 | 4 => ex_header OP_ALLOCATEGPR
  | 7 => ex_header (OP_OTHER 10)
  | 2 | 3 | 8 | 9 => ex_header (OP_OTHER 2)
  | _ => ex_header (OP_OTHER 11)
  end.

Definition lost_block : Code :=
  [(1, []); (2, []); (3, []); (4, []); (5, [arg 2]); (6, [arg 3]); (7, [arg 1; arg 4]); (8, []); (9, []);
   (10, [arg 4]); (11, [arg 8]); (12, [arg 9]); (13, [arg 1])].

Definition lost_result : option (list (list PostOp * list SpillRange) * Z) := Eval vm_compute in Run ex_tables ex_registers lost_ir 20 [lost_block].

Lemma lost_run : Run ex_tables ex_registers lost_ir 20 [lost_block] = lost_result.
Proof. vm_compute. reflexivity. Qed.

(** The allocator loses a value: two result registers are allocated for an operation as the
    opcode dispatcher does for a division, the first is spilled for the second before the
    operation writes it, and the value written is not spilled again because the node already has
    a slot; the block is well formed and has a meaning that allocation does not preserve. *)
Lemma overwritten_value_lost : exists out ranges,
  block_ok ex_tables ex_registers lost_ir ex_writes 20 lost_block /\ few_args ex_registers lost_block /\
  Run ex_tables ex_registers lost_ir 20 [lost_block] = Some ([(out, ranges)], 1) /\
  ~ preserves ex_tables ex_registers lost_ir ex_reads ex_writes (fun c => c) ex_sem lost_block out.
Proof.
  destruct (ssa_run ex_tables ex_registers lost_ir ex_reads ex_writes (fun c => c) ex_sem lost_block ex_ssa) as [q'|] eqn:Eq; [|by vm_compute in Eq].
  eexists _, _. split; [block_ok_tac|]. split; [apply (bool_decide_unpack _); vm_compute; exact I|]. split; [rewrite lost_run; reflexivity|].
  intros Hp. destruct (Hp ex_ssa q' ex_post ex_agree Eq) as (p' & Hrun & [Hw _]).
  assert (world q' = [2; 3; 7; 9; 7; 8; 9; 711; 19; 21; 713]) as Hq by (vm_compute in Eq; by injection Eq as <-).
  vm_compute in Hrun. injection Hrun as <-. by rewrite Hq in Hw.
Qed.

(** The range recorded for a spill adds a distance from the end of the block to a number counted
    from its start: node 3 is used last by the instruction numbered 7. *)
Lemma range_not_last_use : exists out ranges, Run ex_tables ex_registers ex_ir 20 [ex_block] = Some ([(out, ranges)], 3) /\
  mkRange 3 5 16 0 ∈ ranges /\ ex_block !! 7%nat = Some (7, [arg 3; arg 6]) /\
  Forall (fun i : Z * list Arg => Forall (fun a => a <> arg 3) i.2) (drop 8 ex_block).
Proof. eexists _, _. split; [rewrite ex_run; reflexivity|]. split; [by constructor|]. split; [reflexivity|]. repeat constructor; discriminate. Qed.
